(* ===== verification/_CoqProject ===== *)
-Q . S2P
Prelude.v
JsString.v
JsRegex.v
JsUri.v
UrlPath.v
JsArray.v
JsNumber.v
Json.v
AdminTypes.v
LoadPolicy.v
AppRoutes.v
Errors.v
BuildGroups.v
JobLogs.v
LogPanel.v
Readiness.v
UserLoad.v
Terminal.v
Resources.v
LocaleEn.v
LocaleZh.v
I18n.v
Labels.v
RunnerCatalog.v
AdminFormat.v
AdminConsole.v
Accounts.v
Fetcher.v
Regions.v
SandboxCatalog.v
SettingsCards.v
ShellWords.v
ImageManifest.v
ImageCheck.v
JsonParse.v
Requests.v
Onboarding.v
DefaultSettings.v
Navigation.v
Selection.v
JobDetail.v
JobsPage.v
Repositories.v
SourceCheck.v
AdminTools.v
TerminalScreen.v
Docs.v
JobView.v
Frame.v
Board.v
Questions.v
FetchPages.v
Controls.v
AccountsView.v
SpecsView.v
AdminView.v
DefaultView.v
SandboxView.v
SettingsView.v
AccountSettings.v
RepositoryView.v
PanelView.v
DashboardView.v
DetailView.v
Landing.v
Session.v
JobsScreen.v
JobsScreenView.v
Guides.v
AccountMenu.v
AdminOrder.v
