(* ===== verification/Prelude.v ===== *)
(** Verification of the runnerd web console.

    * The program

    runnerd hands GitHub Actions jobs to sandboxes.  Its console, a React
    application under src/ui/src, has three faces: the pages of a signed-in user
    (jobs, repositories, settings), the administration, and the public pages.
    Two scripts go with it: src/ui/scripts/check-i18n.ts, which checks the texts
    of the console, and src/scripts/generate-runner-image-compatibility.mjs,
    which writes the manifest of the runner images that
    src/scripts/check-runner-image-compatibility.sh reads.  The Go service is on
    the other side of the requests and is not modelled.

    The console is event driven.  A handler or an effect starts requests, other
    events run before they are answered, and answers come in any order; a
    handler keeps the values of the render that made it.  The development
    therefore models each component as a record of its state with the requests
    in flight, one function per handler, effect and answer, and a step relation
    whose rules are the events the page offers, with the conditions of its
    controls.  Properties are proved of every reachable state by rule induction.
    The answers of the service are a relation between requests and answers, or a
    server with a state of its own where a property is about that state.

    * The files

    This file has what all share: tactics, the hint database [runnerd], and
    lemmas on lists and permutations.

    The language.  JsString, JsRegex, JsUri, UrlPath, JsArray, JsNumber, Json,
    JsonParse and ShellWords give the JavaScript and shell the sources use:
    strings by their UTF-8 encoding (with the case of ASCII letters only), the
    backtracking matcher, percent encoding and query strings, the path that the
    URL parser makes of an address, its dot segments taken out, the stable sort,
    [Number] with rounding to binary64, [JSON], the words of a shell command.  Each has a theory of its own (soundness and
    completeness of the matcher, the round trips), on which the components rest.

    The data and the routes.
    - AdminTypes: the types of admin-types.ts.
    - LoadPolicy: app-load-policy.ts and site-doc-routes.ts; which routes exist,
      what they load and poll, the load gate.
    - AppRoutes: the route functions at the end of App.tsx.
    - Navigation: the location state of App, every handler that writes the
      history, the redirect effects, the load that empties the selection, the
      page that is shown.
    - Selection: the build context selected, compared with the address on every
      page of jobs, those included whose query names the context.
    - Errors, Requests: user-auth-errors.ts, app-log-state.ts, the request
      client of App.tsx and the redirect of a job page.

    The pages of a user.
    - UserLoad: [loadUserAll], the history request and the synchronisations,
      overlapping, with the other writers of the spinner (App.tsx); it is the
      flag that AdminConsole has with the loads of the administration alone.
    - BuildGroups: the grouping of runner requests into build contexts, their
      order and status (user-dashboard.tsx).
    - JobsPage: the selected context and job, and the group loaded for it.
    - JobLogs, LogPanel: the log viewer and the requests of the log panel.
    - JobDetail: runner-job-detail.tsx.
    - JobView: the values that the pages and the table of the administration show
      of a job, and the explorer of a context.
    - Terminal, TerminalScreen: use-sandbox-terminal.ts, its sessions and input,
      and on top of them the widget's text and size.
    - Readiness, Repositories: repository-readiness.ts, the repository page, the
      synchronisation of installations and the setup link.
    - SettingsCards, Onboarding: the cards of the settings page, the saves of
      preferences, and the product tour (user-onboarding.ts).
    - Regions, Fetcher, SandboxCatalog: the region catalog, the loads guarded by
      a generation counter, and the two sandbox sections that use them.

    The administration.
    - AdminConsole, AdminFormat, Labels, AdminTools: lists, filters, logs, the
      forms of App.tsx, the matching test, the diagnostics, admin-format.ts.
    - Accounts: accounts-section.tsx.
    - RunnerCatalog: use-runner-catalog.ts and its dialog.
    - DefaultSettings: sandbox-service-default-section.tsx.

    Around them.
    - Frame: the sign-in page, the side bar and its cookie, the menu of the
      administration, the rules of the bundler.
    - Docs: the catalog of the guides (site-docs.ts), what docs-page.tsx derives
      from a Markdown file, which is a parameter, the head of the page.
    - Landing: landing-page.tsx and the switches of language and theme.
    - Guides: the page of a guide as it is shown, over what the renderer of
      Markdown reads.
    - AccountMenu: account-menu.tsx and the menu of languages.

    The whole.  Session has the running application: the check of the session,
    sign-out and the effects that load and poll the page on screen, over the
    machines of Navigation, UserLoad and AdminConsole.  JobsScreen has the page of
    jobs as one machine: Navigation, JobsPage and LogPanel, rendered together;
    JobsScreenView has what it shows and what is pressed on it.

    The rendering.  Controls has the abstract page: a state, the values an
    element shows and the controls it offers, each disabled or a handler; its
    interface ([Page]) gives the states that a user reaches by the controls that
    are enabled.  Each view instantiates it for the machine of its component, and
    says element by element which text, note, row or badge the state gives.
    - AccountsView, SpecsView, AdminView, DefaultView, SandboxView: the sections
      of the administration.
    - AdminOrder: the summaries of the administration respect the permutations of
      the lists (instances of [Proper]).
    - DashboardView, PanelView, RepositoryView, DetailView: the frame of the
      dashboard with the tour, the panels of a job, the repository page, the page
      of a job and the pages that stand for another.
    - SettingsView, AccountSettings: the cards of the settings page, and the
      page that mounts them.

    Pages that ask.  Board is the abstract page that asks questions and shows
    the first reply to the last one, with an interface ([Asker]) whose laws give
    the refinement of that page; Questions discharges it for the accounts page,
    FetchPages for every page built on Fetcher, the sandbox lists among them.

    The texts.  Resources, LocaleEn, LocaleZh and I18n have the translations,
    key by key, the comparison of check-i18n.ts and the choice of a language;
    SourceCheck has the scan of the sources and the command line, and the
    evaluation of expressions that the scan is compared with.

    The manifest.  ImageManifest has the generator, ImageCheck the whole of the
    checker.

    Components meet where the code makes them meet: Onboarding steps over the
    state of UserLoad, because saves, loads and the tour share the preferences;
    Navigation calls AppRoutes and Readiness; JobsPage is stated over the
    addresses that Navigation writes; SandboxCatalog instantiates Fetcher.

    * What is proved

    - Addresses: the URL of a build context, of a job in it and of a settings
      tab is read back; the page shown is the one of the address bar and the
      administration is shown to administrators only; the redirects end; on every
      page of jobs the context selected is the one of the address, or none after a
      load that found no requests.  The parts of an address are no dot segments.
    - The page of jobs from end to end: what the address names is what is shown,
      context, group, job and the logs of that job, in every order of navigation,
      clicks and answers; a press on a context or a job shows it.
    - Session and polling: the page that is polled is the page on screen, for who
      is signed in; the session is checked by one request at a time; whatever
      happens, the parts of the application stay in states their own theorems
      speak of.
    - Answers out of order: the loads of the user pages, the log panel, the jobs
      page, the job page, the accounts, the sandboxes and the repository page
      show answers for what is selected, and a spinner belongs to a request.
      Where the code has no guard of its own, the statement has the condition on
      the order: answers in the order of the requests for the logs of the
      administration and the settings of the default, no tab chosen during a
      refresh on the page of a job, no page moved by a refresh during a change of
      role.
    - Refinement: the accounts and the sandbox lists behave, in every run, as the
      abstract page of Board.
    - Controls: what a page offers, disabled as it is rendered, reaches exactly
      states of its machine, so the invariants of the machine hold of what a user
      can do; the controls of the settings cards reach all of them.
    - Tables and notes: a table shows the reply to the question on screen, a note
      says what is missing, the cards of the settings page show and change the
      settings of the account on screen, from the answer of the service to the
      fields of the card; a spec that is opened and saved is sent back as it was; the
      tour points at elements of the page it is on; a fold button stays where it
      is; the links of the landing page lead to pages.
    - Preferences: in every interleaving a settings page shows the preferences
      of the installation its saves name; saves and removals name the account on
      screen when they are sent, which is one the reader manages.
    - Build contexts: grouping is a partition by context and sums its jobs up.
    - Requests: a failure is explained by the answer; what the forms of the
      credentials, the cache and the default send is valid,
      and at most one change is in flight where the controls promise it.
    - Consoles: every session is deleted once, key strokes stay in order, and the
      screen shows the messages of the open session.
    - What is shown: the explorer lists every job of a context once, no detail is
      blank, a request offers a retry or a stop but never both, a guide shows the
      document of its address, leads on to pages that exist and gives the head of
      the page back, every item of the account menu does what it says, the sign-in
      link leads back to the address asked for.
    - Texts: the shipped languages correspond; the check passes exactly on
      sources whose literals, where it looks, need no translation, and these are
      all that an expression can show but for two places that it overlooks.
    - Manifest: what the generator writes the checker accepts exactly when the
      lock pins a full commit and the reports can be described; the generator
      stops exactly on what it cannot read, verify or command; the commands test
      what the reports say.

    Most statements hold in every order of events.  Some do not, and an example
    shows each such behaviour of the code; the manifest lists them as findings.
    [orderly] marks the two relations (Navigation, JobDetail) where a property
    needs the events to come in the order the browser gives them in practice.
    Selection and JobsScreen start from an address that names a context, if any,
    as GitHub and the service name theirs ([good_address]).

    * Bounds and fuel

    Recursion that is not structural takes the length of its text as fuel
    ([decode_fuel], [strip], [all_variables], [collapse_space], the parser of
    JSON): every call consumes a character, and the round trips and the
    exactness lemmas are proved with that fuel.  Identifiers and counts are
    integers; where the code reads them from text, [Number] rounds to binary64
    and [safe_integer] is the test the code makes.

    * What stands for other code

    Parameters, with the hypotheses their documentation states: the comparison
    of the reader's locale ([Locale]: a total preorder), the URL parser of the
    browser ([hostname]), [Date.parse] and [toLocaleString], the translation
    function of i18next ([translate]), [fetch] and what the service answers, the
    digests and the awk program of the manifest script, the parser of
    TypeScript, the module loader and the directories of the translation check.
    Witnesses instantiate them by concrete functions.

    * What is not modelled

    The service itself; the layout and the style of the pages; the rendering of
    Markdown; the tour library and the theme library, of which the model has what
    the console gives them; the primitives under src/ui/src/components/ui, copied
    from a component library, save the state of the side bar; the terminal widget
    itself; notices that only repeat a message, where no property needs them; the
    scripts that drive a browser, and the images of the runners. *)
From stdpp Require Export base strings list gmap sorting pretty.
From Stdlib Require Export Ascii String ZArith Lia.
From Stdlib Require Import Permutation.

#[global] Open Scope stdpp_scope.
#[global] Arguments String.append !_ _ / : simpl nomatch.
#[global] Set Default Goal Selector "!".

(** ** Tactics *)

(** Split every boolean conjunction of the context and turn boolean tests into
    propositions. *)
Ltac split_bools :=
  repeat match goal with
  | H : (_ && _)%bool = true |- _ => apply andb_prop in H; destruct H
  | H : negb _ = true |- _ => apply negb_true_iff in H
  | H : negb _ = false |- _ => apply negb_false_iff in H
  | H : bool_decide _ = true |- _ => apply bool_decide_eq_true_1 in H
  | H : bool_decide _ = false |- _ => apply bool_decide_eq_false_1 in H
  | H : Is_true _ |- _ => apply Is_true_true_1 in H
  end.

(** Destruct a scrutinee and keep its equation. *)
Ltac by_cases scrutinee := let E := fresh "E" in destruct scrutinee eqn:E.

(** Case analysis on the first [match] or [if] of the goal. *)
Ltac case_goal :=
  lazymatch goal with
  | |- context [match ?scrutinee with _ => _ end] => by_cases scrutinee
  end.

(** The same in a hypothesis. *)
Ltac case_hyp H :=
  lazymatch type of H with
  | context [match ?scrutinee with _ => _ end] => by_cases scrutinee
  end.

(** Close a fact about one byte by trying the 256 of them. *)
Ltac all_bytes b := destruct b as [[] [] [] [] [] [] [] []]; vm_compute; try done.

(** Side conditions that have one proof: clean texts, well-formed UTF-8, the
    prefixes of the addresses written. *)
Create HintDb runnerd.

(** ** Options as JavaScript's [undefined] *)

(** [x || y] on an optional string: [undefined] and [""] are both falsy. *)
Definition str_truthy (s : string) : bool := negb (bool_decide (s = "")).

Definition opt_truthy (o : option string) : bool :=
  match o with Some s => str_truthy s | None => false end.

Definition or_str (o : option string) (d : string) : string :=
  match o with Some s => if str_truthy s then s else d | None => d end.

Definition or_opt (o d : option string) : option string :=
  if opt_truthy o then o else d.

(** Numbers: [undefined] and [0] are falsy. *)
Definition num_truthy (o : option Z) : bool :=
  match o with Some n => negb (n =? 0)%Z | None => false end.

Definition or_num (o : option Z) (d : Z) : Z :=
  match o with Some n => if (n =? 0)%Z then d else n | None => d end.

Lemma str_truthy_true s : str_truthy s = true <-> s <> "".
Proof. unfold str_truthy. case_bool_decide; naive_solver. Qed.

Lemma str_truthy_false s : str_truthy s = false <-> s = "".
Proof. unfold str_truthy. case_bool_decide; naive_solver. Qed.

Lemma opt_truthy_true o : opt_truthy o = true <-> exists s, o = Some s /\ s <> "".
Proof.
  destruct o as [s|]; simpl; [rewrite str_truthy_true|]; naive_solver.
Qed.

(** ** Lists *)

(** [Array.prototype.find] is stdpp's [list_find] without the index. *)
Fixpoint find_first {A} (p : A -> bool) (l : list A) : option A :=
  match l with
  | [] => None
  | x :: l => if p x then Some x else find_first p l
  end.

Lemma find_first_Some {A} (p : A -> bool) l x :
  find_first p l = Some x -> x ∈ l /\ p x = true.
Proof.
  induction l as [|y l IH]; simpl; [done|]. destruct (p y) eqn:E.
  - intros [= ->]. split; [left|done].
  - intros H. destruct (IH H). split; [by right|done].
Qed.

Lemma find_first_None {A} (p : A -> bool) l :
  find_first p l = None <-> forall x, x ∈ l -> p x = false.
Proof.
  induction l as [|y l IH]; simpl.
  - split; [|done]. intros _ x Hx. by apply not_elem_of_nil in Hx.
  - destruct (p y) eqn:E.
    + split; [done|]. intros H. rewrite H in E; [done|left].
    + rewrite IH. split.
      * intros H x [->|Hx]%elem_of_cons; [done|by apply H].
      * intros H x Hx. apply H. by right.
Qed.

Lemma find_first_ext {A} (p q : A -> bool) l :
  (forall x, p x = q x) -> find_first p l = find_first q l.
Proof. intros H. induction l as [|x l IH]; simpl; [done|]. by rewrite H, IH. Qed.

Lemma filter_nil_iff_all {A} (P : A -> Prop) `{!forall x, Decision (P x)} (l : list A) :
  (forall x, x ∈ l -> ~ P x) -> filter P l = [].
Proof.
  intros Hl. induction l as [|x l IH]; [done|]. rewrite filter_cons.
  rewrite decide_False by (apply Hl; left). apply IH. intros y Hy. apply Hl. by right.
Qed.

Lemma filter_all {A} (P : A -> Prop) `{!forall x, Decision (P x)} (l : list A) :
  (forall x, x ∈ l -> P x) -> filter P l = l.
Proof.
  intros Hl. induction l as [|x l IH]; [done|]. rewrite filter_cons.
  rewrite decide_True by (apply Hl; left). f_equal. apply IH. intros y Hy. apply Hl. by right.
Qed.

(** The elements of a list, gathered by key: every element once. *)
Lemma gather_by_key {A K} `{EqDecision K} (key : A -> K) (ks : list K) (l : list A) :
  NoDup ks -> (forall x, x ∈ l -> key x ∈ ks) ->
  mjoin ((fun k => filter (fun x => key x = k) l) <$> ks) ≡ₚ l.
Proof.
  intros Hnd Hks.
  assert (mjoin ((fun k => filter (fun x => key x = k) l) <$> ks) ≡ₚ
          filter (fun x => key x ∈ ks) l) as ->.
  { clear Hks. induction Hnd as [|k ks Hk _ IH]; simpl.
    - rewrite filter_nil_iff_all; [done|]. intros x _ H. by apply not_elem_of_nil in H.
    - rewrite IH. clear IH. induction l as [|x l IH]; [done|]. rewrite !filter_cons.
      destruct (decide (key x = k)) as [<-|Hx].
      + rewrite decide_False by done. rewrite decide_True by left. simpl. by rewrite IH.
      + destruct (decide (key x ∈ ks)).
        * rewrite decide_True by by right. by rewrite <- Permutation_middle, IH.
        * rewrite decide_False by (intros [?|?]%elem_of_cons; done). done. }
  by rewrite filter_all.
Qed.

Lemma StronglySorted_impl {A} (R S : A -> A -> Prop) (l : list A) :
  (forall x y, R x y -> S x y) -> StronglySorted R l -> StronglySorted S l.
Proof.
  intros HRS. induction 1 as [|x l _ IH Hx]; constructor; [done|].
  eapply Forall_impl; [exact Hx|]. auto.
Qed.

Lemma NoDup_fmap_filter {A B} (f : A -> B) (P : A -> Prop) `{!forall x, Decision (P x)} l :
  NoDup (f <$> l) -> NoDup (f <$> filter P l).
Proof.
  induction l as [|x l IH]; [done|]. simpl. intros [Hx Hl]%NoDup_cons.
  rewrite filter_cons. destruct (decide (P x)); [|by apply IH].
  simpl. constructor; [|by apply IH]. intros (y & Ey & Hy)%list_elem_of_fmap. apply Hx.
  rewrite Ey. apply list_elem_of_fmap_2. by apply list_elem_of_filter in Hy as [_ Hy].
Qed.

Lemma NoDup_fmap_inj {A B} (f : A -> B) l x y :
  NoDup (f <$> l) -> x ∈ l -> y ∈ l -> f x = f y -> x = y.
Proof.
  induction l as [|z l IH]; simpl; [intros _ H; by apply not_elem_of_nil in H|].
  intros [Hz Hl]%NoDup_cons Hx Hy E.
  assert (forall w, w ∈ l -> f w = f z -> False) as Hno.
  { intros w Hw Ew. apply Hz. rewrite <- Ew. by apply list_elem_of_fmap_2. }
  apply elem_of_cons in Hx as [->|Hx]; apply elem_of_cons in Hy as [->|Hy]; try done.
  - by destruct (Hno y Hy).
  - by destruct (Hno x Hx).
  - by apply IH.
Qed.

Lemma existsb_ext {A} (l : list A) (p q : A -> bool) :
  (forall x, p x = q x) -> existsb p l = existsb q l.
Proof. intros H. induction l as [|x l IH]; simpl; [done|]. by rewrite H, IH. Qed.

(** The first element with a property, when only one has it, does not depend on
    the order. *)
Lemma find_first_perm {A} (p : A -> bool) l l' :
  l ≡ₚ l' -> (forall x y, x ∈ l -> y ∈ l -> p x = true -> p y = true -> x = y) ->
  find_first p l = find_first p l'.
Proof.
  intros Hp Hu. destruct (find_first p l) as [x|] eqn:E.
  - apply find_first_Some in E as [Hx Px]. destruct (find_first p l') as [y|] eqn:E'.
    + apply find_first_Some in E' as [Hy Py]. rewrite <- Hp in Hy. f_equal. by apply Hu.
    + rewrite find_first_None in E'. rewrite E' in Px; [done|]. by rewrite <- Hp.
  - symmetry. apply find_first_None. rewrite find_first_None in E.
    intros x Hx. apply E. by rewrite Hp.
Qed.
