(* ===== verification/JsString.v ===== *)
(** JavaScript strings and the [String.prototype] methods the console calls.

    A JavaScript string is represented by the UTF-8 encoding of its text.  The
    methods below work on that encoding; they agree with JavaScript on every
    well-formed string, with two provisos: [toLowerCase] and [toUpperCase] are
    the ASCII case maps (the console folds GitHub logins, URLs and protocol
    words, which are ASCII), and a slice is only taken at positions that do
    not cut a surrogate pair. *)
From S2P Require Import Prelude.

(** ** Characters *)

Definition code (a : ascii) : N := N_of_ascii a.

Definition in_range (lo hi : N) (a : ascii) : bool :=
  ((lo <=? code a) && (code a <=? hi))%N.

Definition is_digit : ascii -> bool := in_range 48 57.
Definition is_upper : ascii -> bool := in_range 65 90.
Definition is_lower : ascii -> bool := in_range 97 122.
Definition is_alnum (a : ascii) : bool := is_digit a || is_upper a || is_lower a.

Definition not_char (x a : ascii) : bool := negb (Ascii.eqb x a).

Definition chr (n : N) : string := String (ascii_of_N n) "".

(** The double quote, the carriage return and the line feed. *)
Definition dquote : string := chr 34.
Definition newline : string := chr 10.

(** Every character of the string satisfies [p]. *)
Fixpoint sforall (p : ascii -> bool) (s : string) : bool :=
  match s with
  | EmptyString => true
  | String a s => p a && sforall p s
  end.

(** The string has no occurrence of the character [x]. *)
Definition free (x : ascii) (s : string) : bool := sforall (not_char x) s.

(** ** Concatenation *)

Lemma sapp_nil_r s : s +:+ "" = s.
Proof. induction s as [|a s IH]; simpl; by f_equal. Qed.

Lemma sapp_assoc s t u : (s +:+ t) +:+ u = s +:+ (t +:+ u).
Proof. induction s as [|a s IH]; simpl; by f_equal. Qed.

Lemma slength_app s t : String.length (s +:+ t) = String.length s + String.length t.
Proof. induction s as [|a s IH]; simpl; by f_equal. Qed.

Lemma sapp_inj_l s t u : s +:+ t = s +:+ u -> t = u.
Proof. induction s as [|a s IH]; simpl; [done|]. intros [=]. by apply IH. Qed.

Lemma sapp_inj_r s t u : t +:+ s = u +:+ s -> t = u.
Proof.
  revert u. induction t as [|a t IH]; intros [|b u]; simpl; try done.
  - intros H. apply (f_equal String.length) in H. simpl in H.
    rewrite slength_app in H. lia.
  - intros H. apply (f_equal String.length) in H. simpl in H.
    rewrite slength_app in H. lia.
  - intros [= -> H]. f_equal. by apply IH.
Qed.

Lemma sapp_eq_nil s t : s +:+ t = "" <-> s = "" /\ t = "".
Proof. destruct s; simpl; naive_solver. Qed.

Create Rewrite HintDb str.
#[export] Hint Rewrite sapp_nil_r sapp_assoc : str.

(** ** Character predicates over strings *)

Lemma sforall_app p s t : sforall p (s +:+ t) = sforall p s && sforall p t.
Proof. induction s as [|a s IH]; simpl; [done|]. by rewrite IH, andb_assoc. Qed.

Lemma sforall_impl (p q : ascii -> bool) s :
  (forall a, p a = true -> q a = true) -> sforall p s = true -> sforall q s = true.
Proof.
  intros H. induction s as [|a s IH]; simpl; [done|].
  intros [Ha Hs]%andb_prop. by rewrite (H a Ha), IH.
Qed.

Lemma not_char_refl x : not_char x x = false.
Proof. unfold not_char. by rewrite Ascii.eqb_refl. Qed.

Lemma not_char_neq x a : not_char x a = true <-> x <> a.
Proof.
  unfold not_char. destruct (Ascii.eqb_spec x a); simpl; naive_solver.
Qed.

Lemma free_app x s t : free x (s +:+ t) = free x s && free x t.
Proof. apply sforall_app. Qed.

(** A separator that does not occur before it is found in one way only. *)
Lemma first_sep_unique x w w' r r' :
  free x w = true -> free x w' = true ->
  w +:+ String x r = w' +:+ String x r' -> w = w' /\ r = r'.
Proof.
  revert w'. induction w as [|a w IH]; intros [|b w']; simpl.
  - by intros _ _ [= ->].
  - intros _ Hw [= <- _]. unfold free in Hw. simpl in Hw. by rewrite not_char_refl in Hw.
  - intros Hw _ [= -> _]. unfold free in Hw. simpl in Hw. by rewrite not_char_refl in Hw.
  - unfold free; simpl. intros [_ Hw]%andb_prop [_ Hw']%andb_prop [= -> H].
    destruct (IH w' Hw Hw' H) as [-> ->]. done.
Qed.

(** The same from the right: the last separator. *)
Lemma last_sep_unique x w w' r r' :
  free x r = true -> free x r' = true ->
  w +:+ String x r = w' +:+ String x r' -> w = w' /\ r = r'.
Proof.
  intros Hr Hr'. revert w'. induction w as [|a w IH]; intros [|b w']; simpl.
  - by intros [= ->].
  - intros [= _ ->]. rewrite free_app in Hr. unfold free in Hr at 2. simpl in Hr.
    rewrite not_char_refl in Hr. by rewrite andb_false_r in Hr.
  - intros [= _ <-]. rewrite free_app in Hr'. unfold free in Hr' at 2. simpl in Hr'.
    rewrite not_char_refl in Hr'. by rewrite andb_false_r in Hr'.
  - intros [= -> H]. destruct (IH w' H) as [-> ->]. done.
Qed.

(** ** Prefixes: [startsWith], [slice] after a prefix *)

Fixpoint drop_prefix (p s : string) : option string :=
  match p, s with
  | EmptyString, _ => Some s
  | String a p, String b s => if Ascii.eqb a b then drop_prefix p s else None
  | String _ _, EmptyString => None
  end.

Definition startsWith (p s : string) : bool :=
  match drop_prefix p s with Some _ => true | None => false end.

Lemma drop_prefix_app p s : drop_prefix p (p +:+ s) = Some s.
Proof. induction p as [|a p IH]; simpl; [done|]. by rewrite Ascii.eqb_refl. Qed.

Lemma drop_prefix_Some p s r : drop_prefix p s = Some r <-> s = p +:+ r.
Proof.
  split; [|intros ->; apply drop_prefix_app].
  revert s. induction p as [|a p IH]; simpl; [by intros s [= ->]|].
  intros [|b s]; [done|]. destruct (Ascii.eqb_spec a b) as [->|]; [|done].
  intros H%IH. by rewrite H.
Qed.

Lemma startsWith_spec p s : startsWith p s = true <-> exists r, s = p +:+ r.
Proof.
  unfold startsWith. destruct (drop_prefix p s) eqn:E.
  - apply drop_prefix_Some in E. split; [|done]. intros _. by eexists.
  - split; [done|]. intros [r Hr%drop_prefix_Some]. congruence.
Qed.

Lemma startsWith_cons a p b s :
  startsWith (String a p) (String b s) = Ascii.eqb a b && startsWith p s.
Proof. unfold startsWith. simpl. by destruct (Ascii.eqb a b). Qed.

Lemma startsWith_app p s : startsWith p (p +:+ s) = true.
Proof. unfold startsWith. by rewrite drop_prefix_app. Qed.

(** ** [includes], [indexOf] followed by [slice], [replace] of the first match *)

Fixpoint includes (needle s : string) : bool :=
  startsWith needle s ||
  match s with EmptyString => false | String _ s => includes needle s end.

(** The text before the first occurrence of the needle and the text after it. *)
Fixpoint cut (needle s : string) : option (string * string) :=
  match drop_prefix needle s with
  | Some r => Some ("", r)
  | None =>
      match s with
      | EmptyString => None
      | String a s =>
          match cut needle s with
          | Some (l, r) => Some (String a l, r)
          | None => None
          end
      end
  end.

Definition replace_first (needle by_ s : string) : string :=
  match cut needle s with Some (l, r) => l +:+ by_ +:+ r | None => s end.

Lemma cut_Some needle s l r : cut needle s = Some (l, r) -> s = l +:+ needle +:+ r.
Proof.
  revert l. induction s as [|a s IH]; intros l; simpl; destruct (drop_prefix needle _) eqn:E.
  - apply drop_prefix_Some in E. intros [= <- <-]. done.
  - done.
  - apply drop_prefix_Some in E. intros [= <- <-]. done.
  - destruct (cut needle s) as [[l' r']|] eqn:C; [|done].
    intros [= <- <-]. simpl. by rewrite (IH l').
Qed.

Lemma cut_includes needle s :
  includes needle s = match cut needle s with Some _ => true | None => false end.
Proof.
  induction s as [|a s IH]; simpl; unfold startsWith at 1;
    destruct (drop_prefix needle _) eqn:E; simpl; [done..|].
  rewrite IH. by destruct (cut needle s) as [[]|].
Qed.

Lemma includes_spec needle s :
  includes needle s = true <-> exists l r, s = l +:+ needle +:+ r.
Proof.
  split.
  - rewrite cut_includes. destruct (cut needle s) as [[l r]|] eqn:E; [|done].
    intros _. exists l, r. by apply cut_Some.
  - intros (l & r & ->). induction l as [|a l IH]; simpl.
    + destruct (needle +:+ r) eqn:E; simpl; rewrite <- E; unfold startsWith;
        by rewrite drop_prefix_app.
    + by rewrite IH, orb_true_r.
Qed.

(** ** Splitting at a one-character separator, and joining *)

Fixpoint split_on (x : ascii) (s : string) : list string :=
  match s with
  | EmptyString => [""]
  | String a s =>
      if Ascii.eqb x a then "" :: split_on x s
      else match split_on x s with
           | [] => [String a ""]
           | w :: ws => String a w :: ws
           end
  end.

Fixpoint join (sep : string) (l : list string) : string :=
  match l with
  | [] => ""
  | [w] => w
  | w :: ws => w +:+ sep +:+ join sep ws
  end.

Lemma split_on_nonempty x s : split_on x s <> [].
Proof.
  destruct s as [|a s]; simpl; [done|]. destruct (Ascii.eqb x a); [done|].
  by destruct (split_on x s).
Qed.

Lemma split_on_free x s : free x s = true -> split_on x s = [s].
Proof.
  induction s as [|a s IH]; simpl; [done|]. unfold free; simpl.
  intros [Ha Hs]%andb_prop. apply not_char_neq in Ha.
  destruct (Ascii.eqb_spec x a); [done|]. by rewrite IH.
Qed.

Lemma split_on_app x w s :
  free x w = true -> split_on x (w +:+ String x s) = w :: split_on x s.
Proof.
  induction w as [|a w IH]; simpl; [by rewrite Ascii.eqb_refl|].
  unfold free; simpl. intros [Ha Hw]%andb_prop. apply not_char_neq in Ha.
  destruct (Ascii.eqb_spec x a); [done|]. by rewrite IH.
Qed.

(** Joining and splitting again gives the pieces back. *)
Lemma split_join x l :
  l <> [] -> Forall (fun w => free x w = true) l ->
  split_on x (join (String x "") l) = l.
Proof.
  intros Hne Hl. induction Hl as [|w l Hw Hl IH]; [done|].
  destruct l as [|w' l]; simpl; [by apply split_on_free|].
  rewrite split_on_app by done. f_equal. by apply IH.
Qed.

Lemma join_split x s : join (String x "") (split_on x s) = s.
Proof.
  induction s as [|a s IH]; simpl; [done|]. pose proof (split_on_nonempty x s).
  destruct (Ascii.eqb_spec x a) as [->|].
  - destruct (split_on a s); [done|]. simpl in *. by rewrite IH.
  - destruct (split_on x s) as [|w [|w' ws]]; simpl in *; [done| |]; by rewrite IH.
Qed.

Lemma split_on_pieces_free x s : Forall (fun w => free x w = true) (split_on x s).
Proof.
  induction s as [|a s IH]; simpl; [by repeat constructor|].
  destruct (Ascii.eqb_spec x a) as [<-|Hne]; [by constructor|].
  pose proof (split_on_nonempty x s). destruct IH as [|w ws Hw Hws]; [done|].
  constructor; [|done]. unfold free in *. simpl. rewrite Hw, andb_true_r. by apply not_char_neq.
Qed.

(** ** Case folding (ASCII) *)

Definition lower_char (a : ascii) : ascii :=
  if is_upper a then ascii_of_N (code a + 32) else a.

Definition upper_char (a : ascii) : ascii :=
  if is_lower a then ascii_of_N (code a - 32) else a.

Fixpoint smap (f : ascii -> ascii) (s : string) : string :=
  match s with
  | EmptyString => ""
  | String a s => String (f a) (smap f s)
  end.

Definition toLowerCase : string -> string := smap lower_char.
Definition toUpperCase : string -> string := smap upper_char.

Lemma smap_app f s t : smap f (s +:+ t) = smap f s +:+ smap f t.
Proof. induction s as [|a s IH]; simpl; [done|]. by rewrite IH. Qed.

Lemma toLowerCase_idem s : toLowerCase (toLowerCase s) = toLowerCase s.
Proof.
  unfold toLowerCase. induction s as [|a s IH]; simpl; [done|].
  rewrite IH. f_equal. all_bytes a.
Qed.

(** ** [trim]

    The white space and line terminators of ECMAScript, by their UTF-8
    encodings. *)
Definition utf8_3 (a b c : N) : string := chr a +:+ chr b +:+ chr c.

Definition white_space : list string :=
  [chr 9; chr 10; chr 11; chr 12; chr 13; chr 32; chr 194 +:+ chr 160;
   utf8_3 225 154 128;
   utf8_3 226 128 128; utf8_3 226 128 129; utf8_3 226 128 130; utf8_3 226 128 131;
   utf8_3 226 128 132; utf8_3 226 128 133; utf8_3 226 128 134; utf8_3 226 128 135;
   utf8_3 226 128 136; utf8_3 226 128 137; utf8_3 226 128 138;
   utf8_3 226 128 168; utf8_3 226 128 169; utf8_3 226 128 175;
   utf8_3 226 129 159; utf8_3 227 128 128; utf8_3 239 187 191].

(** The string after its first white-space character, if it starts with one. *)
Fixpoint drop_ws (ws : list string) (s : string) : option string :=
  match ws with
  | [] => None
  | w :: ws =>
      match drop_prefix w s with Some r => Some r | None => drop_ws ws s end
  end.

Fixpoint strip (fuel : nat) (ws : list string) (s : string) : string :=
  match fuel with
  | O => s
  | S fuel => match drop_ws ws s with Some r => strip fuel ws r | None => s end
  end.

Fixpoint srev_onto (s acc : string) : string :=
  match s with
  | EmptyString => acc
  | String a s => srev_onto s (String a acc)
  end.

Definition srev (s : string) : string := srev_onto s "".

Definition trimStart (s : string) : string := strip (String.length s) white_space s.

Definition trimEnd (s : string) : string :=
  srev (strip (String.length s) (map srev white_space) (srev s)).

Definition trim (s : string) : string := trimEnd (trimStart s).

Lemma srev_onto_app s acc : srev_onto s acc = srev s +:+ acc.
Proof.
  unfold srev. revert acc. induction s as [|a s IH]; intros acc; simpl; [done|].
  rewrite IH, (IH (String a "")), sapp_assoc. done.
Qed.

Lemma srev_app s t : srev (s +:+ t) = srev t +:+ srev s.
Proof.
  induction s as [|a s IH]; simpl; [by rewrite sapp_nil_r|].
  unfold srev at 1 3. simpl. rewrite !srev_onto_app, IH. by rewrite sapp_assoc.
Qed.

Lemma srev_involutive s : srev (srev s) = s.
Proof.
  induction s as [|a s IH]; [done|]. unfold srev at 2. simpl.
  rewrite srev_onto_app, srev_app, IH. done.
Qed.

Lemma slength_srev s : String.length (srev s) = String.length s.
Proof.
  induction s as [|a s IH]; [done|]. unfold srev. simpl.
  rewrite srev_onto_app, slength_app, IH. simpl. lia.
Qed.

Lemma drop_ws_shorter ws s r :
  Forall (fun w => w <> "") ws -> drop_ws ws s = Some r ->
  String.length r < String.length s.
Proof.
  induction 1 as [|w ws Hw _ IH]; simpl; [done|].
  destruct (drop_prefix w s) eqn:E; [|done].
  apply drop_prefix_Some in E as ->. intros [= ->].
  rewrite slength_app. destruct w; simpl; [done|lia].
Qed.

(** The fuel of [strip] is enough: nothing is left to remove. *)
Lemma strip_done ws fuel s :
  Forall (fun w => w <> "") ws -> String.length s <= fuel ->
  drop_ws ws (strip fuel ws s) = None.
Proof.
  intros Hws. revert s. induction fuel as [|fuel IH]; intros s Hs; simpl.
  - destruct (drop_ws ws s) eqn:E; [|done].
    apply drop_ws_shorter in E; [lia|done].
  - destruct (drop_ws ws s) eqn:E; [|done].
    pose proof (drop_ws_shorter _ _ _ Hws E). apply IH. lia.
Qed.

Lemma strip_id ws fuel s : drop_ws ws s = None -> strip fuel ws s = s.
Proof. destruct fuel; simpl; [done|]. by intros ->. Qed.

Lemma trimStart_trimmed s : drop_ws white_space (trimStart s) = None.
Proof.
  apply strip_done; [|done]. apply (bool_decide_unpack _). by vm_compute.
Qed.

(** A string that neither starts nor ends with white space is left alone. *)
Lemma trim_id s :
  drop_ws white_space s = None -> drop_ws (map srev white_space) (srev s) = None ->
  trim s = s.
Proof.
  intros Hs Hr. unfold trim, trimEnd, trimStart. rewrite (strip_id _ _ _ Hs).
  rewrite strip_id by done. apply srev_involutive.
Qed.

(** Printable ASCII without the space is never trimmed. *)
Definition is_graph : ascii -> bool := in_range 33 126.

Definition starts_unlike (p : ascii -> bool) (w : string) : bool :=
  match w with String b _ => negb (p b) | EmptyString => false end.

Lemma drop_ws_head p ws a s :
  forallb (starts_unlike p) ws = true -> p a = true -> drop_ws ws (String a s) = None.
Proof.
  induction ws as [|[|b w] ws IH]; simpl; [done..|].
  intros [Hb Hws]%andb_prop Ha. destruct (Ascii.eqb_spec b a) as [->|]; [by rewrite Ha in Hb|].
  by apply IH.
Qed.

Lemma drop_ws_graph s :
  sforall is_graph s = true -> drop_ws white_space s = None.
Proof.
  destruct s as [|a s]; [done|]. intros [Ha _]%andb_prop.
  by apply (drop_ws_head is_graph).
Qed.

Lemma drop_ws_rev_graph s :
  sforall is_graph s = true -> drop_ws (map srev white_space) s = None.
Proof.
  destruct s as [|a s]; [done|]. intros [Ha _]%andb_prop.
  by apply (drop_ws_head is_graph).
Qed.

Lemma sforall_srev p s : sforall p (srev s) = sforall p s.
Proof.
  induction s as [|a s IH]; [done|]. unfold srev. simpl.
  rewrite srev_onto_app, sforall_app, IH. simpl. by rewrite andb_true_r, andb_comm.
Qed.

Lemma trim_graph s : sforall is_graph s = true -> trim s = s.
Proof.
  intros H. apply trim_id; [by apply drop_ws_graph|].
  apply drop_ws_rev_graph. by rewrite sforall_srev.
Qed.

(** ** [trim] is idempotent *)

Lemma drop_ws_prefix ws s t : drop_ws ws (s +:+ t) = None -> drop_ws ws s = None.
Proof.
  induction ws as [|w ws IH]; simpl; [done|].
  destruct (drop_prefix w s) as [r|] eqn:E.
  - apply drop_prefix_Some in E as ->. by rewrite sapp_assoc, drop_prefix_app.
  - destruct (drop_prefix w (s +:+ t)); [done|]. apply IH.
Qed.

Lemma strip_suffix n ws s : exists l, s = l +:+ strip n ws s.
Proof.
  revert s. induction n as [|n IH]; intros s; simpl; [by exists ""|].
  destruct (drop_ws ws s) as [r|] eqn:E; [|by exists ""]. destruct (IH r) as [l Hl].
  assert (exists w, s = w +:+ r) as [w Hw].
  { clear IH Hl. induction ws as [|v ws IH]; simpl in E; [done|].
    destruct (drop_prefix v s) eqn:Ev; [|by apply IH].
    apply drop_prefix_Some in Ev. injection E as <-. by exists v. }
  exists (w +:+ l). by rewrite sapp_assoc, <- Hl.
Qed.

Lemma trimEnd_prefix s : exists r, s = trimEnd s +:+ r.
Proof.
  destruct (strip_suffix (String.length s) (map srev white_space) (srev s)) as [l Hl].
  exists (srev l). unfold trimEnd. rewrite <- srev_app, <- Hl. by rewrite srev_involutive.
Qed.

Lemma trimEnd_trimmed s : drop_ws (map srev white_space) (srev (trimEnd s)) = None.
Proof.
  unfold trimEnd. rewrite srev_involutive. apply strip_done; [|by rewrite slength_srev].
  apply (bool_decide_unpack _). by vm_compute.
Qed.

Lemma trim_inside s : exists l r, s = l +:+ trim s +:+ r.
Proof.
  destruct (strip_suffix (String.length s) white_space s) as [l Hl].
  destruct (trimEnd_prefix (trimStart s)) as [r Hr]. exists l, r. unfold trim.
  rewrite <- Hr. exact Hl.
Qed.

Lemma trim_trim s : trim (trim s) = trim s.
Proof.
  apply trim_id; [|apply trimEnd_trimmed].
  destruct (trimEnd_prefix (trimStart s)) as [r Hr]. unfold trim.
  apply (drop_ws_prefix _ _ r). rewrite <- Hr. apply trimStart_trimmed.
Qed.
#[export] Hint Resolve trim_trim : runnerd.

Lemma trim_free x s : free x s = true -> free x (trim s) = true.
Proof.
  destruct (trim_inside s) as (l & r & E). rewrite E at 1. rewrite !free_app.
  intros H. by split_bools.
Qed.

(** ** Suffixes: [endsWith], [replace(/suffix$/, by)] *)

Definition drop_suffix (suffix s : string) : option string :=
  match drop_prefix (srev suffix) (srev s) with Some r => Some (srev r) | None => None end.

Definition replace_suffix (suffix by_ s : string) : string :=
  match drop_suffix suffix s with Some r => r +:+ by_ | None => s end.

Definition endsWith (suffix s : string) : bool :=
  match drop_suffix suffix s with Some _ => true | None => false end.

#[global] Arguments drop_suffix : simpl never.
#[global] Arguments replace_suffix : simpl never.

Lemma drop_suffix_app s suffix : drop_suffix suffix (s +:+ suffix) = Some s.
Proof. unfold drop_suffix. by rewrite srev_app, drop_prefix_app, srev_involutive. Qed.

Lemma drop_suffix_Some suffix s r : drop_suffix suffix s = Some r <-> s = r +:+ suffix.
Proof.
  split; [|intros ->; apply drop_suffix_app]. unfold drop_suffix.
  destruct (drop_prefix _ _) as [t|] eqn:E; [|done]. intros [= <-].
  apply drop_prefix_Some in E. rewrite <- (srev_involutive s), E, srev_app.
  by rewrite srev_involutive.
Qed.

Lemma replace_suffix_app s suffix by_ : replace_suffix suffix by_ (s +:+ suffix) = s +:+ by_.
Proof. unfold replace_suffix. by rewrite drop_suffix_app. Qed.

(** ** [length] and [slice(0, n)], counted in UTF-16 code units

    A byte that starts a character counts for the code units of the character
    (two from four-byte characters), a continuation byte for none.  A slice
    that would cut a surrogate pair stops before it. *)
Definition units (a : ascii) : nat :=
  let c := code a in
  if (c <? 128)%N then 1 else if (c <? 192)%N then 0 else if (c <? 240)%N then 1 else 2.

Fixpoint js_length (s : string) : nat :=
  match s with EmptyString => 0 | String a s => units a + js_length s end.

Fixpoint js_take (n : nat) (s : string) : string :=
  match s with
  | EmptyString => ""
  | String a s => if units a <=? n then String a (js_take (n - units a) s) else ""
  end.

Lemma js_length_take n s : js_length (js_take n s) <= n.
Proof.
  revert n. induction s as [|a s IH]; intros n; simpl; [lia|].
  destruct (Nat.leb_spec (units a) n); simpl; [|lia]. specialize (IH (n - units a)). lia.
Qed.

Lemma js_take_prefix n s : exists r, s = js_take n s +:+ r.
Proof.
  revert n. induction s as [|a s IH]; intros n; simpl; [by exists ""|].
  destruct (_ <=? _); [|by exists (String a s)].
  destruct (IH (n - units a)) as [r Hr]. exists r. by rewrite Hr at 1.
Qed.

Lemma js_take_all n s : js_length s <= n -> js_take n s = s.
Proof.
  revert n. induction s as [|a s IH]; intros n; simpl; [done|]. intros Hn.
  destruct (Nat.leb_spec (units a) n); [|lia]. f_equal. apply IH. lia.
Qed.

(** ** Numbers in template literals

    An integer is written in decimal digits, with a minus sign when it is
    negative; stdpp's [pretty] is that notation. *)
Lemma digit_elim (P : N -> Prop) n :
  (n < 10)%N -> Forall P (map N.of_nat (seq 0 10)) -> P n.
Proof.
  intros Hn HP. rewrite Forall_forall in HP. apply HP. apply list_elem_of_fmap.
  exists (N.to_nat n). rewrite elem_of_seq. lia.
Qed.

Lemma pretty_N_char_digit n : (n < 10)%N -> is_digit (pretty_N_char n) = true.
Proof. intros H. apply (digit_elim (fun n => is_digit (pretty_N_char n) = true) n H). by repeat constructor. Qed.

Lemma pretty_N_go_digits x s :
  sforall is_digit s = true -> sforall is_digit (pretty_N_go x s) = true.
Proof.
  revert s. induction (N.lt_wf_0 x) as [x _ IH]; intros s Hs.
  destruct (decide (0 < x)%N) as [Hx|Hx].
  - rewrite pretty_N_go_step by done. apply IH; [by apply N.div_lt|].
    cbn [sforall]. rewrite Hs, pretty_N_char_digit; [done|]. by apply N.mod_lt.
  - assert (x = 0%N) as -> by lia. done.
Qed.

Lemma pretty_N_digits (n : N) : sforall is_digit (pretty n) = true.
Proof. unfold pretty, pretty_N. case_decide; [done|]. by apply pretty_N_go_digits. Qed.

Lemma pretty_N_nonempty (n : N) : pretty n <> "".
Proof.
  unfold pretty, pretty_N. case_decide; [done|]. rewrite pretty_N_go_step by lia.
  assert (forall x s, s <> "" -> pretty_N_go x s <> "") as Hgo; [|by apply Hgo].
  clear. intros x. induction (N.lt_wf_0 x) as [x _ IH]; intros s Hs.
  destruct (decide (0 < x)%N) as [Hx|Hx].
  - rewrite pretty_N_go_step by done. apply IH; [by apply N.div_lt|done].
  - assert (x = 0%N) as -> by lia. done.
Qed.

Lemma pretty_Z_digits (n : Z) : (0 <= n)%Z -> sforall is_digit (pretty n) = true.
Proof.
  intros H. destruct n as [|n|n]; [done| |lia]. apply (pretty_N_digits (Npos n)).
Qed.

Lemma pretty_Z_nonempty (n : Z) : pretty n <> "".
Proof. destruct n as [|n|n]; [done|apply (pretty_N_nonempty (Npos n))|done]. Qed.

(** ** Texts of the interface

    [t(key, values)] is i18next's translation function; the components take it
    as a parameter. *)
Definition translate := string -> list (string * string) -> string.
