(* ===== verification/JsRegex.v ===== *)
(** The regular expressions the console matches routes with.

    Every route pattern of the console is anchored ([^...$]) and is a sequence
    of literal text, greedy repetitions of a character class ([[^/]+], [.+],
    [\d+], [[^:]+]) and alternatives of literal words, some of them captured.
    [exec] is the backtracking matcher of ECMAScript on such patterns (the
    longest repetition and the first alternative are tried first) and returns
    the captured groups; [matches] is the language a pattern denotes, with the
    captures a derivation gives.  [exec] is sound and complete for [matches],
    so a pattern with one derivation has its captures determined. *)
From S2P Require Import Prelude.
From S2P Require Import JsString.

Inductive cclass := NotSlash | NotColon | Digit | Dot.

(** Whether the class admits the first character of the string.  [.] excludes
    the line terminators LF, CR, U+2028 and U+2029. *)
Definition in_class (c : cclass) (s : string) : bool :=
  match s with
  | EmptyString => false
  | String a _ =>
      match c with
      | NotSlash => not_char "/" a
      | NotColon => not_char ":" a
      | Digit => is_digit a
      | Dot =>
          in_range 0 9 a || in_range 11 12 a ||
          (in_range 14 255 a &&
           negb (startsWith (utf8_3 226 128 168) s || startsWith (utf8_3 226 128 169) s))
      end
  end.

Inductive piece :=
  | Lit (l : string)
  | Many (captured : bool) (c : cclass)
  | OneOf (captured : bool) (alts : list string).

Definition capture (captured : bool) (w : string) (caps : list string) : list string :=
  if captured then w :: caps else caps.

(** A greedy repetition: the longest run after which the continuation [k]
    succeeds, with the continuation's captures. *)
Fixpoint run_many (c : cclass) (k : string -> option (list string)) (s : string) :
    option (string * list string) :=
  match s with
  | EmptyString => None
  | String a r =>
      if in_class c s then
        match run_many c k r with
        | Some (w, caps) => Some (String a w, caps)
        | None => match k r with Some caps => Some (String a "", caps) | None => None end
        end
      else None
  end.

Fixpoint run_alts (captured : bool) (k : string -> option (list string))
    (alts : list string) (s : string) : option (list string) :=
  match alts with
  | [] => None
  | l :: alts =>
      match drop_prefix l s ≫= k with
      | Some caps => Some (capture captured l caps)
      | None => run_alts captured k alts s
      end
  end.

(** [RegExp.prototype.exec] on an anchored pattern: the captures, or nothing. *)
Fixpoint exec (ps : list piece) (s : string) : option (list string) :=
  match ps with
  | [] => match s with EmptyString => Some [] | _ => None end
  | Lit l :: ps => drop_prefix l s ≫= exec ps
  | Many captured c :: ps =>
      match run_many c (exec ps) s with
      | Some (w, caps) => Some (capture captured w caps)
      | None => None
      end
  | OneOf captured alts :: ps => run_alts captured (exec ps) alts s
  end.

(** [RegExp.prototype.test]. *)
Definition test (ps : list piece) (s : string) : bool :=
  match exec ps s with Some _ => true | None => false end.

(** The captures of a pattern with one, two, three or four groups. *)
Definition groups1 (o : option (list string)) : option string :=
  match o with Some [a] => Some a | _ => None end.
Definition groups2 (o : option (list string)) : option (string * string) :=
  match o with Some [a; b] => Some (a, b) | _ => None end.
Definition groups3 (o : option (list string)) : option (string * string * string) :=
  match o with Some [a; b; c] => Some (a, b, c) | _ => None end.
Definition groups4 (o : option (list string)) :
    option (string * string * string * string) :=
  match o with Some [a; b; c; d] => Some (a, b, c, d) | _ => None end.

(** ** The language of a pattern *)

(** Every character of [w], followed by [r], is admitted by the class. *)
Fixpoint class_run (c : cclass) (w r : string) : bool :=
  match w with
  | EmptyString => true
  | String _ w' => in_class c (w +:+ r) && class_run c w' r
  end.

Inductive matches : list piece -> string -> list string -> Prop :=
  | matches_nil : matches [] "" []
  | matches_lit l ps s caps :
      matches ps s caps -> matches (Lit l :: ps) (l +:+ s) caps
  | matches_many captured c ps w s caps :
      w <> "" -> class_run c w s = true -> matches ps s caps ->
      matches (Many captured c :: ps) (w +:+ s) (capture captured w caps)
  | matches_alt captured alts l ps s caps :
      l ∈ alts -> matches ps s caps ->
      matches (OneOf captured alts :: ps) (l +:+ s) (capture captured l caps).

Lemma run_many_sound c k s w caps :
  run_many c k s = Some (w, caps) ->
  exists r, s = w +:+ r /\ w <> "" /\ class_run c w r = true /\ k r = Some caps.
Proof.
  revert w. induction s as [|a s IH]; intros w; cbn [run_many]; [done|].
  destruct (in_class c (String a s)) eqn:Hc; [|done].
  destruct (run_many c k s) as [[w' caps']|] eqn:E.
  - intros [= <- <-]. destruct (IH w' eq_refl) as (r & -> & _ & Hr & Hk).
    exists r. split_and!; try done. cbn [class_run String.append]. by rewrite Hc, Hr.
  - destruct (k s) eqn:Hk; [|done]. intros [= <- <-].
    exists s. split_and!; try done. cbn [class_run String.append]. by rewrite Hc.
Qed.

Lemma run_many_complete c k w r :
  w <> "" -> class_run c w r = true -> is_Some (k r) ->
  is_Some (run_many c k (w +:+ r)).
Proof.
  induction w as [|a w IH]; [done|]. intros _ Hrun Hk.
  cbn [class_run String.append] in *. apply andb_prop in Hrun as [Ha Hrun].
  cbn [run_many]. rewrite Ha. destruct (run_many c k (w +:+ r)) as [[]|] eqn:E; [done|].
  destruct w as [|b w].
  - cbn [String.append]. destruct Hk as [? ->]. done.
  - destruct IH as [? Hd]; done.
Qed.

Lemma run_alts_sound captured k alts s caps :
  run_alts captured k alts s = Some caps ->
  exists l r caps', l ∈ alts /\ s = l +:+ r /\ k r = Some caps' /\
    caps = capture captured l caps'.
Proof.
  induction alts as [|l alts IH]; simpl; [done|].
  destruct (drop_prefix l s ≫= k) as [caps'|] eqn:E.
  - intros [= <-]. apply bind_Some in E as (r & ->%drop_prefix_Some & Hk).
    exists l, r, caps'. split_and!; try done. left.
  - intros (l' & r & caps' & ? & ? & ? & ?)%IH. exists l', r, caps'.
    split_and!; try done. by right.
Qed.

Lemma run_alts_complete captured k alts l r :
  l ∈ alts -> is_Some (k r) -> is_Some (run_alts captured k alts (l +:+ r)).
Proof.
  induction alts as [|l' alts IH]; [by intros ?%not_elem_of_nil|].
  intros Hl [caps Hk]. simpl.
  destruct (drop_prefix l' (l +:+ r) ≫= k) eqn:E; [done|].
  apply elem_of_cons in Hl as [->|Hl]; [|by apply IH; eauto].
  rewrite drop_prefix_app in E. simpl in E. congruence.
Qed.

Lemma exec_sound ps s caps : exec ps s = Some caps -> matches ps s caps.
Proof.
  revert s caps. induction ps as [|[l|captured c|captured alts] ps IH]; intros s caps; simpl.
  - destruct s; [|done]. intros [= <-]. constructor.
  - intros (r & ->%drop_prefix_Some & H)%bind_Some. constructor. by apply IH.
  - destruct (run_many c (exec ps) s) as [[w caps']|] eqn:E; [|done].
    intros [= <-]. apply run_many_sound in E as (r & -> & ? & ? & ?).
    constructor; auto.
  - intros (l & r & caps' & ? & -> & ? & ->)%run_alts_sound. constructor; auto.
Qed.

Lemma exec_complete ps s caps : matches ps s caps -> is_Some (exec ps s).
Proof.
  induction 1; simpl.
  - done.
  - by rewrite drop_prefix_app.
  - destruct (run_many_complete c (exec ps) w s) as [[] ->]; done.
  - by apply run_alts_complete.
Qed.

(** A string with a single derivation is matched with that derivation's
    captures. *)
Lemma exec_unique ps s caps :
  matches ps s caps -> (forall caps', matches ps s caps' -> caps' = caps) ->
  exec ps s = Some caps.
Proof.
  intros H Hu. destruct (exec_complete _ _ _ H) as [caps' E].
  rewrite E. f_equal. apply Hu. by apply exec_sound.
Qed.

Lemma exec_None ps s : (forall caps, ~ matches ps s caps) -> exec ps s = None.
Proof.
  intros H. destruct (exec ps s) eqn:E; [|done].
  apply exec_sound in E. by destruct (H _ E).
Qed.

Lemma exec_lit_app l ps s : exec (Lit l :: ps) (l +:+ s) = exec ps s.
Proof. simpl. by rewrite drop_prefix_app. Qed.

Lemma exec_lit_fail l ps s : drop_prefix l s = None -> exec (Lit l :: ps) s = None.
Proof. simpl. by intros ->. Qed.

Lemma test_spec ps s : test ps s = true <-> exists caps, matches ps s caps.
Proof.
  unfold test. split.
  - destruct (exec ps s) eqn:E; [|done]. intros _. eexists. by apply exec_sound.
  - intros [caps H]. by destruct (exec_complete _ _ _ H) as [? ->].
Qed.

(** ** Runs of a one-byte class *)

Definition class_char (c : cclass) (a : ascii) : bool :=
  match c with
  | NotSlash => not_char "/" a
  | NotColon => not_char ":" a
  | Digit => is_digit a
  | Dot => false
  end.

Lemma class_run_char c w r :
  c <> Dot -> class_run c w r = sforall (class_char c) w.
Proof.
  intros Hc. induction w as [|a w IH]; [done|].
  cbn [class_run sforall String.append]. rewrite IH. by destruct c.
Qed.

Lemma class_run_NotSlash w r : class_run NotSlash w r = free "/" w.
Proof. by apply class_run_char. Qed.

Lemma class_run_NotColon w r : class_run NotColon w r = free ":" w.
Proof. by apply class_run_char. Qed.

Lemma class_run_Digit w r : class_run Digit w r = sforall is_digit w.
Proof. by apply class_run_char. Qed.

(** [.] on a text without line terminators: no LF, no CR, and no U+2028 or
    U+2029, whatever follows. *)
Definition no_newline (w : string) : bool :=
  free "010" w && free "013" w &&
  negb (includes (utf8_3 226 128 168) w || includes (utf8_3 226 128 169) w).

Lemma digits_free x w : is_digit x = false -> sforall is_digit w = true -> free x w = true.
Proof.
  intros Hx. apply sforall_impl. intros a Ha. apply not_char_neq. by intros ->; rewrite Ha in Hx.
Qed.

Definition ascii_head (r : string) : bool :=
  match r with EmptyString => true | String a _ => in_range 0 127 a end.

Lemma includes_cons needle a s :
  includes needle s = true -> includes needle (String a s) = true.
Proof. intros H. simpl. rewrite H. apply orb_true_r. Qed.

Lemma separator_not_across a b c w r :
  in_range 0 127 b = false -> in_range 0 127 c = false -> ascii_head r = true -> w <> "" ->
  startsWith (String a (String b (String c ""))) (w +:+ r) = true ->
  includes (String a (String b (String c ""))) w = true.
Proof.
  intros Hb Hc Hr Hw [t Ht]%startsWith_spec. apply includes_spec.
  destruct w as [|x [|y [|z w]]]; simpl in Ht; [done| | |].
  - destruct r; [done|]. simplify_eq. simpl in Hr. congruence.
  - destruct r; [done|]. simplify_eq. simpl in Hr. congruence.
  - simplify_eq. exists "", w. done.
Qed.

(** [.+] accepts every non-empty text without line terminators that an ASCII
    character or the end of the string follows. *)
Lemma class_run_Dot w r :
  no_newline w = true -> ascii_head r = true -> class_run Dot w r = true.
Proof.
  intros Hw Hr. induction w as [|a w IH]; [done|].
  unfold no_newline, free in Hw. cbn [sforall] in Hw.
  apply andb_prop in Hw as [[[Ha10 Hw10]%andb_prop [Ha13 Hw13]%andb_prop]%andb_prop Hsep].
  apply negb_true_iff, orb_false_iff in Hsep as [H8 H9].
  cbn [class_run]. rewrite IH.
  - rewrite andb_true_r. cbn [in_class String.append].
    destruct (startsWith (utf8_3 226 128 168) (String a (w +:+ r))) eqn:E8.
    { apply (separator_not_across _ _ _ (String a w)) in E8; try done.
      by destruct (eq_true_false_abs _ E8 H8). }
    destruct (startsWith (utf8_3 226 128 169) (String a (w +:+ r))) eqn:E9.
    { apply (separator_not_across _ _ _ (String a w)) in E9; try done.
      by destruct (eq_true_false_abs _ E9 H9). }
    clear -Ha10 Ha13. revert Ha10 Ha13. all_bytes a.
  - unfold no_newline, free. rewrite Hw10, Hw13. simpl.
    apply negb_true_iff, orb_false_iff. split.
    + destruct (includes _ w) eqn:E; [|done]. by rewrite includes_cons in H8.
    + destruct (includes _ w) eqn:E; [|done]. by rewrite includes_cons in H9.
Qed.

(** ** Deterministic steps

    When the text after a repetition starts with a character outside its
    class, the repetition takes everything up to that character. *)
Lemma run_many_stop c k w x r :
  c <> Dot -> class_char c x = false -> w <> "" -> sforall (class_char c) w = true ->
  (forall a s, class_char c a = true -> k (String a s) = None) ->
  run_many c k (w +:+ String x r) =
  match k (String x r) with Some caps => Some (w, caps) | None => None end.
Proof.
  intros Hc Hx Hw Hrun Hk.
  assert (forall a s, in_class c (String a s) = class_char c a) as Hin by by destruct c.
  assert (run_many c k (String x r) = None) as Hstop.
  { cbn [run_many]. by rewrite Hin, Hx. }
  induction w as [|a w IH]; [done|]. cbn [sforall] in Hrun.
  apply andb_prop in Hrun as [Ha Hrun]. cbn [String.append run_many]. rewrite Hin, Ha.
  destruct w as [|b w].
  - cbn [String.append]. rewrite Hstop. by destruct (k (String x r)).
  - rewrite IH by done. destruct (k (String x r)); [done|].
    cbn [String.append]. rewrite Hk; [done|].
    cbn [sforall] in Hrun. by apply andb_prop in Hrun as [? _].
Qed.

Lemma exec_many_lit captured c w x l ps r :
  c <> Dot -> class_char c x = false -> w <> "" -> sforall (class_char c) w = true ->
  exec (Many captured c :: Lit (String x l) :: ps) (w +:+ String x l +:+ r) =
  capture captured w <$> exec ps r.
Proof.
  intros Hc Hx Hw Hrun. cbn [exec String.append].
  rewrite run_many_stop; [|done..|].
  - change (String x (l +:+ r)) with (String x l +:+ r). rewrite drop_prefix_app.
    simpl. by destruct (exec ps r).
  - intros a s Ha. simpl. destruct (Ascii.eqb_spec x a) as [->|]; [congruence|done].
Qed.

Lemma exec_many_end captured c w :
  c <> Dot -> w <> "" -> sforall (class_char c) w = true ->
  exec [Many captured c] w = Some (capture captured w []).
Proof.
  intros Hc Hw Hrun. apply exec_unique.
  - rewrite <- (sapp_nil_r w) at 1. constructor; [done| |constructor].
    by rewrite class_run_char.
  - intros caps H. inversion H as [| |captured' c' ps' w' s' caps' _ _ Hnil Heq|]; subst.
    inversion Hnil; subst. by rewrite sapp_nil_r.
Qed.

Lemma matches_lit_inv l ps s caps :
  matches (Lit l :: ps) s caps -> exists r, s = l +:+ r /\ matches ps r caps.
Proof. inversion 1; subst. eauto. Qed.

Lemma matches_many_inv captured c ps s caps :
  matches (Many captured c :: ps) s caps ->
  exists w r caps', s = w +:+ r /\ w <> "" /\ class_run c w r = true /\
    matches ps r caps' /\ caps = capture captured w caps'.
Proof. inversion 1; subst. naive_solver. Qed.

Lemma matches_nil_inv s caps : matches [] s caps -> s = "" /\ caps = [].
Proof. by inversion 1. Qed.

(** [(.+)x(c+)$]: the last [x] separates the two groups. *)
Lemma exec_dot_tail x c w t :
  c <> Dot -> class_char c x = false ->
  w <> "" -> no_newline w = true -> in_range 0 127 x = true ->
  t <> "" -> sforall (class_char c) t = true ->
  exec [Many true Dot; Lit (String x ""); Many true c] (w +:+ String x "" +:+ t) = Some [w; t].
Proof.
  cbn [String.append]. intros Hc Hx Hw Hdot Hasc Ht Hrun.
  assert (forall u, sforall (class_char c) u = true -> free x u = true) as Hfree.
  { intros u. apply sforall_impl. intros a Ha. apply not_char_neq. intros ->. congruence. }
  apply exec_unique.
  - apply (matches_many true Dot _ w (String x t) [t]); [done| |].
    + apply class_run_Dot; done.
    + apply (matches_lit (String x "") _ t). rewrite <- (sapp_nil_r t) at 1.
      apply (matches_many true c _ t "" []); [done| |constructor].
      by rewrite class_run_char.
  - intros caps (w' & r & caps1 & Hs & _ & _ & H & ->)%matches_many_inv.
    apply matches_lit_inv in H as (r' & -> & H).
    apply matches_many_inv in H as (t' & r2 & caps2 & -> & _ & Hrun' & H & ->).
    apply matches_nil_inv in H as [-> ->]. rewrite sapp_nil_r in Hs.
    rewrite class_run_char in Hrun' by done. cbn [String.append] in Hs.
    apply last_sep_unique in Hs as [-> ->]; auto.
Qed.

(** ** Counting the separators a pattern needs *)

Fixpoint occurs (x : ascii) (s : string) : nat :=
  match s with
  | EmptyString => 0
  | String a s => (if Ascii.eqb x a then 1 else 0) + occurs x s
  end.

Fixpoint lit_occurs (x : ascii) (ps : list piece) : nat :=
  match ps with
  | [] => 0
  | Lit l :: ps => occurs x l + lit_occurs x ps
  | _ :: ps => lit_occurs x ps
  end.

Lemma occurs_app x s t : occurs x (s +:+ t) = occurs x s + occurs x t.
Proof. induction s as [|a s IH]; simpl; [done|]. by rewrite IH, Nat.add_assoc. Qed.

Lemma occurs_free x s : free x s = true -> occurs x s = 0.
Proof.
  induction s as [|a s IH]; [done|]. unfold free. cbn [sforall].
  intros [Ha Hs]%andb_prop. apply not_char_neq in Ha. simpl.
  destruct (Ascii.eqb_spec x a); [done|]. by apply IH.
Qed.

Lemma matches_occurs x ps s caps : matches ps s caps -> lit_occurs x ps <= occurs x s.
Proof. induction 1; simpl; rewrite ?occurs_app; lia. Qed.

Lemma exec_too_few x ps s : occurs x s < lit_occurs x ps -> exec ps s = None.
Proof. intros H. apply exec_None. intros caps Hm%(matches_occurs x). lia. Qed.

(** ** Patterns without captures

    Forgetting the captures does not change the language; a repetition of a
    class can be read as one of a larger class. *)
Definition no_capture (p : piece) : piece :=
  match p with
  | Lit l => Lit l
  | Many _ c => Many false c
  | OneOf _ alts => OneOf false alts
  end.

Lemma matches_no_capture ps s caps :
  matches ps s caps -> matches (map no_capture ps) s [].
Proof.
  induction 1 as [|l ps s caps _ IH|captured c ps w s caps Hw Hr _ IH
                 |captured alts l ps s caps Hl _ IH]; cbn [map no_capture].
  - constructor.
  - by constructor.
  - by apply (matches_many false).
  - by apply (matches_alt false).
Qed.

Lemma test_no_capture ps s : test (map no_capture ps) s = test ps s.
Proof.
  apply eq_bool_prop_intro. rewrite !Is_true_true, !test_spec.
  split; intros [caps H].
  - exists (default [] (exec ps s)).
    assert (is_Some (exec ps s)) as [caps' E].
    { clear -H. revert s caps H. induction ps as [|p ps IH]; intros s caps H.
      - apply matches_nil_inv in H as [-> _]. done.
      - assert (forall r caps, matches (map no_capture ps) r caps -> is_Some (exec ps r)) as IH'
          by (intros; eapply IH; eauto).
        assert (exists caps'', matches (p :: ps) s caps'') as [caps'' Hp].
        { inversion H as [|l ps' r c' Hm|cap c ps' w r c' Hw Hr Hm|cap alts l ps' r c' Hl Hm];
            subst; destruct p; simplify_eq/=;
            destruct (IH' _ _ Hm) as [c'' Hm'%exec_sound]; eexists; by constructor. }
        by eapply exec_complete. }
    rewrite E. by apply exec_sound.
  - exists []. by eapply matches_no_capture.
Qed.

Definition class_le (c d : cclass) : bool :=
  match c, d with
  | NotSlash, NotSlash | NotColon, NotColon | Digit, Digit | Dot, Dot
  | Digit, NotSlash | Digit, NotColon => true
  | _, _ => false
  end.

Lemma class_run_le c d w r :
  class_le c d = true -> class_run c w r = true -> class_run d w r = true.
Proof.
  intros Hle. induction w as [|a w IH]; [done|]. cbn [class_run].
  intros [Ha Hw]%andb_prop. rewrite IH by done. rewrite andb_true_r.
  destruct c, d; try done; cbn [in_class String.append] in *; revert Ha; all_bytes a.
Qed.

(** [includes] and [no_newline] on parts of a text. *)
Lemma includes_app_l needle s t : includes needle s = true -> includes needle (s +:+ t) = true.
Proof.
  intros (l & r & ->)%includes_spec. apply includes_spec. exists l, (r +:+ t).
  by rewrite !sapp_assoc.
Qed.

Lemma includes_app_r needle s t : includes needle t = true -> includes needle (s +:+ t) = true.
Proof.
  intros (l & r & ->)%includes_spec. apply includes_spec. exists (s +:+ l), r.
  by rewrite !sapp_assoc.
Qed.

Lemma no_newline_app s t :
  no_newline (s +:+ t) = true -> no_newline s = true /\ no_newline t = true.
Proof.
  unfold no_newline. rewrite !free_app. intros [H Hs]%andb_prop.
  apply andb_prop in H as [[H10 H10']%andb_prop [H13 H13']%andb_prop].
  rewrite H10, H10', H13, H13'. simpl.
  apply negb_true_iff, orb_false_iff in Hs as [H8 H9].
  rewrite !negb_true_iff, !orb_false_iff. split; split.
  - destruct (includes _ s) eqn:E; [|done]. by rewrite includes_app_l in H8.
  - destruct (includes _ s) eqn:E; [|done]. by rewrite includes_app_l in H9.
  - destruct (includes _ t) eqn:E; [|done]. by rewrite includes_app_r in H8.
  - destruct (includes _ t) eqn:E; [|done]. by rewrite includes_app_r in H9.
Qed.
