(* ===== verification/JsUri.v ===== *)
(** [encodeURIComponent], [decodeURIComponent] and [URLSearchParams].

    Strings are UTF-8 (JsString), so percent encoding works byte by byte.
    [decodeURIComponent] raises [URIError] (here [None]) on a malformed escape
    or on escapes that are not well-formed UTF-8; [URLSearchParams] never
    raises: it keeps malformed escapes and replaces ill-formed UTF-8 by
    U+FFFD. *)
From S2P Require Import Prelude.
From S2P Require Import JsString.

(** ** Percent encoding *)

Definition hex_digit (n : N) : ascii :=
  ascii_of_N (if (n <? 10)%N then 48 + n else 55 + n).

Definition hex_value (a : ascii) : option N :=
  if is_digit a then Some (code a - 48)%N
  else if in_range 65 70 a then Some (code a - 55)%N
  else if in_range 97 102 a then Some (code a - 87)%N
  else None.

Definition percent (a : ascii) : string :=
  String "%" (String (hex_digit (code a / 16)) (String (hex_digit (code a mod 16)) "")).

(** The characters [encodeURIComponent] leaves alone: letters, digits and
    [- _ . ! ~ * ' ( )]. *)
Definition uri_unreserved (a : ascii) : bool :=
  is_alnum a ||
  existsb (Ascii.eqb a) ["-"; "_"; "."; "!"; "~"; "*"; "'"; "("; ")"]%char.

Definition encode_byte (a : ascii) : string :=
  if uri_unreserved a then String a "" else percent a.

Fixpoint encodeURIComponent (s : string) : string :=
  match s with
  | EmptyString => ""
  | String a s => encode_byte a +:+ encodeURIComponent s
  end.

(** ** UTF-8 *)

Definition cont (a : ascii) : bool := in_range 128 191 a.

Definition lead2 (a : ascii) : bool := in_range 194 223 a.
Definition lead3 (a : ascii) : bool := in_range 224 239 a.
Definition lead4 (a : ascii) : bool := in_range 240 244 a.

(** The second byte of a three-byte and of a four-byte sequence: no overlong
    form, no surrogate, nothing above U+10FFFF. *)
Definition second3 (a b : ascii) : bool :=
  cont b &&
  (if (code a =? 224)%N then in_range 160 191 b
   else if (code a =? 237)%N then in_range 128 159 b else true).

Definition second4 (a b : ascii) : bool :=
  cont b &&
  (if (code a =? 240)%N then in_range 144 191 b
   else if (code a =? 244)%N then in_range 128 143 b else true).

Definition is_ascii (a : ascii) : bool := in_range 0 127 a.

(** Well-formed UTF-8. *)
Inductive utf8 : string -> Prop :=
  | utf8_nil : utf8 ""
  | utf8_one a s : is_ascii a = true -> utf8 s -> utf8 (String a s)
  | utf8_two a b s :
      lead2 a = true -> cont b = true -> utf8 s -> utf8 (String a (String b s))
  | utf8_three a b c s :
      lead3 a = true -> second3 a b = true -> cont c = true -> utf8 s ->
      utf8 (String a (String b (String c s)))
  | utf8_four a b c d s :
      lead4 a = true -> second4 a b = true -> cont c = true -> cont d = true -> utf8 s ->
      utf8 (String a (String b (String c (String d s)))).

(** A decidable form of the same, for concrete strings. *)
Fixpoint utf8b (s : string) : bool :=
  match s with
  | EmptyString => true
  | String a s =>
      if is_ascii a then utf8b s
      else if lead2 a then match s with String b s => cont b && utf8b s | _ => false end
      else if lead3 a then
        match s with
        | String b (String c s) => second3 a b && cont c && utf8b s
        | _ => false
        end
      else if lead4 a then
        match s with
        | String b (String c (String d s)) => second4 a b && cont c && cont d && utf8b s
        | _ => false
        end
      else false
  end.

Lemma utf8b_sound s : utf8b s = true -> utf8 s.
Proof.
  remember (String.length s) as n eqn:Hn. assert (String.length s <= n) by lia. clear Hn.
  revert s H. induction n as [|n IH]; intros [|a s]; simpl; try done; try lia.
  - constructor.
  - constructor.
  - intros Hl. destruct (is_ascii a) eqn:Ea.
    { intros. apply utf8_one; [done|]. apply IH; [lia|done]. }
    destruct (lead2 a) eqn:E2.
    { destruct s as [|b s]; [done|]. simpl in *. intros [? ?]%andb_prop.
      apply utf8_two; [done..|]. apply IH; [lia|done]. }
    destruct (lead3 a) eqn:E3.
    { destruct s as [|b [|c s]]; [done..|]. simpl in *. intros ?; split_bools.
      apply utf8_three; [done..|]. apply IH; [lia|done]. }
    destruct (lead4 a) eqn:E4; [|done].
    destruct s as [|b [|c [|d s]]]; [done..|]. simpl in *. intros ?; split_bools.
    apply utf8_four; [done..|]. apply IH; [lia|done].
Qed.
#[export] Hint Extern 1 (utf8 _) => (apply utf8b_sound; vm_compute; reflexivity) : runnerd.

Lemma utf8_app s t : utf8 s -> utf8 t -> utf8 (s +:+ t).
Proof. induction 1; intros Ht; simpl; eauto using utf8. Qed.

Lemma utf8_ascii s : sforall is_ascii s = true -> utf8 s.
Proof.
  induction s as [|a s IH]; simpl; [constructor|].
  intros [? ?]%andb_prop. apply utf8_one; auto.
Qed.

(** ** [decodeURIComponent] *)

(** A well-formed escape at the head of the string: its byte, and the rest. *)
Definition escape (s : string) : option (ascii * string) :=
  match s with
  | String "%" (String h (String l r)) =>
      match hex_value h, hex_value l with
      | Some h, Some l => Some (ascii_of_N (16 * h + l), r)
      | _, _ => None
      end
  | _ => None
  end.

Definition scons (a : ascii) (o : option string) : option string :=
  match o with Some s => Some (String a s) | None => None end.

(** [fuel] bounds the number of characters and escapes consumed; the length of
    the string is enough. *)
Fixpoint decode_fuel (fuel : nat) (s : string) : option string :=
  match fuel with
  | O => match s with EmptyString => Some "" | _ => None end
  | S fuel =>
      match s with
      | EmptyString => Some ""
      | String x s' =>
          if negb (Ascii.eqb x "%") then scons x (decode_fuel fuel s')
          else
            match escape s with
            | None => None
            | Some (a, r) =>
                if is_ascii a then scons a (decode_fuel fuel r)
                else match escape r with
                | None => None
                | Some (b, r) =>
                    if lead2 a then
                      if cont b then scons a (scons b (decode_fuel fuel r)) else None
                    else match escape r with
                    | None => None
                    | Some (c, r) =>
                        if lead3 a then
                          if second3 a b && cont c
                          then scons a (scons b (scons c (decode_fuel fuel r))) else None
                        else match escape r with
                        | None => None
                        | Some (d, r) =>
                            if lead4 a && second4 a b && cont c && cont d
                            then scons a (scons b (scons c (scons d (decode_fuel fuel r))))
                            else None
                        end
                    end
                end
            end
      end
  end.

Definition decodeURIComponent (s : string) : option string :=
  decode_fuel (String.length s) s.

(** *** The round trip *)

Lemma escape_percent a r : escape (percent a +:+ r) = Some (a, r).
Proof. all_bytes a. Qed.

Lemma unreserved_ascii a : uri_unreserved a = true -> is_ascii a = true.
Proof. all_bytes a. Qed.

Lemma unreserved_not_percent a : uri_unreserved a = true -> Ascii.eqb a "%" = false.
Proof. all_bytes a. Qed.

Lemma not_ascii_reserved a : is_ascii a = false -> encode_byte a = percent a.
Proof. all_bytes a. Qed.

Lemma lead2_not_ascii a : lead2 a = true -> is_ascii a = false.
Proof. all_bytes a. Qed.

Lemma lead3_facts a :
  lead3 a = true -> is_ascii a = false /\ lead2 a = false.
Proof. all_bytes a. Qed.

Lemma lead4_facts a :
  lead4 a = true -> is_ascii a = false /\ lead2 a = false /\ lead3 a = false.
Proof. all_bytes a. Qed.

Lemma cont_not_ascii a : cont a = true -> is_ascii a = false.
Proof. all_bytes a. Qed.

Lemma second3_cont a b : second3 a b = true -> cont b = true.
Proof. unfold second3. by intros [? _]%andb_prop. Qed.

Lemma second4_cont a b : second4 a b = true -> cont b = true.
Proof. unfold second4. by intros [? _]%andb_prop. Qed.

Lemma encode_length s : String.length s <= String.length (encodeURIComponent s).
Proof.
  induction s as [|a s IH]; simpl; [lia|]. rewrite slength_app.
  unfold encode_byte. destruct (uri_unreserved a); simpl; lia.
Qed.

Lemma decode_percent_step fuel a r :
  decode_fuel (S fuel) (percent a +:+ r) =
  if is_ascii a then scons a (decode_fuel fuel r)
  else match escape r with
  | None => None
  | Some (b, r) =>
      if lead2 a then if cont b then scons a (scons b (decode_fuel fuel r)) else None
      else match escape r with
      | None => None
      | Some (c, r) =>
          if lead3 a then
            if second3 a b && cont c
            then scons a (scons b (scons c (decode_fuel fuel r))) else None
          else match escape r with
          | None => None
          | Some (d, r) =>
              if lead4 a && second4 a b && cont c && cont d
              then scons a (scons b (scons c (scons d (decode_fuel fuel r)))) else None
          end
      end
  end.
Proof.
  pose proof (escape_percent a r) as He. unfold percent in *.
  cbn [String.append] in *. cbn [decode_fuel]. rewrite He. done.
Qed.

Lemma decode_encode_fuel s fuel :
  utf8 s -> String.length s <= fuel -> decode_fuel fuel (encodeURIComponent s) = Some s.
Proof.
  intros H. revert fuel.
  induction H as [|a s Ha Hs IH|a b s Ha Hb Hs IH|a b c s Ha Hb Hc Hs IH
                 |a b c d s Ha Hb Hc Hd Hs IH]; intros [|fuel] Hl; simpl in Hl; try lia; try done.
  - cbn [encodeURIComponent]. unfold encode_byte. destruct (uri_unreserved a) eqn:E.
    + cbn [String.append decode_fuel]. rewrite unreserved_not_percent by done. simpl negb.
      cbv iota. rewrite IH by lia. done.
    + rewrite decode_percent_step, Ha, IH by lia. done.
  - pose proof (lead2_not_ascii _ Ha) as Na. pose proof (cont_not_ascii _ Hb).
    cbn [encodeURIComponent]. rewrite !not_ascii_reserved by done.
    rewrite decode_percent_step, Na, escape_percent, Ha, Hb, IH by lia. done.
  - pose proof (lead3_facts _ Ha) as [Na N2]. pose proof (second3_cont _ _ Hb) as Cb.
    pose proof (cont_not_ascii _ Cb). pose proof (cont_not_ascii _ Hc).
    cbn [encodeURIComponent]. rewrite !not_ascii_reserved by done.
    rewrite decode_percent_step, Na, !escape_percent, N2, Ha, Hb, Hc, IH by lia. done.
  - pose proof (lead4_facts _ Ha) as (Na & N2 & N3). pose proof (second4_cont _ _ Hb) as Cb.
    pose proof (cont_not_ascii _ Cb). pose proof (cont_not_ascii _ Hc).
    pose proof (cont_not_ascii _ Hd).
    cbn [encodeURIComponent]. rewrite !not_ascii_reserved by done.
    rewrite decode_percent_step, Na, !escape_percent, N2, N3, Ha, Hb, Hc, Hd, IH by lia. done.
Qed.

(** Decoding an encoded component gives the component back, for every
    well-formed text. *)
Lemma decode_encode s : utf8 s -> decodeURIComponent (encodeURIComponent s) = Some s.
Proof. intros H. apply decode_encode_fuel; [done|apply encode_length]. Qed.

(** An encoded component only has unreserved characters and [%]. *)
Definition uri_char (a : ascii) : bool := uri_unreserved a || Ascii.eqb a "%".

Lemma encode_byte_chars a : sforall uri_char (encode_byte a) = true.
Proof. all_bytes a. Qed.

Lemma encode_chars s : sforall uri_char (encodeURIComponent s) = true.
Proof.
  induction s as [|a s IH]; [done|]. cbn [encodeURIComponent].
  by rewrite sforall_app, encode_byte_chars, IH.
Qed.

Lemma encode_free x s : uri_char x = false -> free x (encodeURIComponent s) = true.
Proof.
  intros Hx. eapply sforall_impl; [|apply encode_chars].
  intros a Ha. apply not_char_neq. intros ->. congruence.
Qed.

Lemma encode_nonempty s : s <> "" -> encodeURIComponent s <> "".
Proof.
  destruct s as [|a s]; [done|]. intros _. simpl.
  unfold encode_byte. by destruct (uri_unreserved a).
Qed.

(** ** [URLSearchParams] *)

Definition form_unreserved (a : ascii) : bool :=
  is_alnum a || existsb (Ascii.eqb a) ["*"; "-"; "."; "_"]%char.

Definition form_encode_byte (a : ascii) : string :=
  if form_unreserved a then String a ""
  else if Ascii.eqb a " " then "+" else percent a.

Fixpoint form_encode (s : string) : string :=
  match s with
  | EmptyString => ""
  | String a s => form_encode_byte a +:+ form_encode s
  end.

(** [+] is a space, a well-formed escape is its byte, and a malformed escape
    stays as it is. *)
Fixpoint form_unescape (s : string) : string :=
  match s with
  | EmptyString => ""
  | String x s' =>
      if Ascii.eqb x "+" then String " " (form_unescape s')
      else if Ascii.eqb x "%" then
        match s' with
        | String h (String l r) =>
            match hex_value h, hex_value l with
            | Some h, Some l => String (ascii_of_N (16 * h + l)) (form_unescape r)
            | _, _ => String x (form_unescape s')
            end
        | _ => String x (form_unescape s')
        end
      else String x (form_unescape s')
  end.

Definition replacement : string := utf8_3 239 191 189.

(** UTF-8 decoding with replacement of every maximal ill-formed prefix. *)
Fixpoint utf8_lossy (s : string) : string :=
  match s with
  | EmptyString => ""
  | String a r =>
      if is_ascii a then String a (utf8_lossy r)
      else if lead2 a then
        match r with
        | String b r2 =>
            if cont b then String a (String b (utf8_lossy r2))
            else replacement +:+ utf8_lossy r
        | _ => replacement
        end
      else if lead3 a then
        match r with
        | String b r2 =>
            if second3 a b then
              match r2 with
              | String c r3 =>
                  if cont c then String a (String b (String c (utf8_lossy r3)))
                  else replacement +:+ utf8_lossy r2
              | _ => replacement
              end
            else replacement +:+ utf8_lossy r
        | _ => replacement
        end
      else if lead4 a then
        match r with
        | String b r2 =>
            if second4 a b then
              match r2 with
              | String c r3 =>
                  if cont c then
                    match r3 with
                    | String d r4 =>
                        if cont d
                        then String a (String b (String c (String d (utf8_lossy r4))))
                        else replacement +:+ utf8_lossy r3
                    | _ => replacement
                    end
                  else replacement +:+ utf8_lossy r2
              | _ => replacement
              end
            else replacement +:+ utf8_lossy r
        | _ => replacement
        end
      else replacement +:+ utf8_lossy r
  end.

Definition form_decode (s : string) : string := utf8_lossy (form_unescape s).

Definition params : Type := list (string * string).

Definition parse_pair (s : string) : string * string :=
  match cut "=" s with
  | Some (k, v) => (form_decode k, form_decode v)
  | None => (form_decode s, "")
  end.

Definition parse_query (query : string) : params :=
  map parse_pair (filter (fun w => w <> "") (split_on "&" query)).

(** [new URLSearchParams(search)]: one leading [?] is dropped. *)
Definition parse_params (search : string) : params :=
  parse_query match drop_prefix "?" search with Some q => q | None => search end.

Definition show_pair (kv : string * string) : string :=
  form_encode kv.1 +:+ "=" +:+ form_encode kv.2.

(** [params.toString()]. *)
Definition show_params (ps : params) : string := join "&" (map show_pair ps).

(** [params.get(name)]. *)
Definition params_get (k : string) (ps : params) : option string :=
  match find_first (fun kv => bool_decide (kv.1 = k)) ps with
  | Some kv => Some kv.2
  | None => None
  end.

(** [params.set(name, value)]: the first pair of that name takes the value and
    the others are removed; without one the pair is appended. *)
Fixpoint params_set (k v : string) (ps : params) : params :=
  match ps with
  | [] => [(k, v)]
  | kv :: ps =>
      if bool_decide (kv.1 = k)
      then (k, v) :: filter (fun kv' => kv'.1 <> k) ps
      else kv :: params_set k v ps
  end.

Lemma hex_pair a :
  hex_value (hex_digit (code a / 16)) = Some (code a / 16)%N /\
  hex_value (hex_digit (code a mod 16)) = Some (code a mod 16)%N /\
  ascii_of_N (16 * (code a / 16) + code a mod 16) = a.
Proof. all_bytes a. Qed.

Lemma form_unreserved_plain a :
  form_unreserved a = true -> Ascii.eqb a "+" = false /\ Ascii.eqb a "%" = false.
Proof. all_bytes a. Qed.

Lemma form_unescape_encode_byte a r :
  form_unescape (form_encode_byte a +:+ r) = String a (form_unescape r).
Proof.
  unfold form_encode_byte. destruct (form_unreserved a) eqn:E.
  - destruct (form_unreserved_plain a E) as [E1 E2].
    cbn [String.append form_unescape]. by rewrite E1, E2.
  - destruct (Ascii.eqb_spec a " ") as [->|_]; [done|].
    destruct (hex_pair a) as (H1 & H2 & H3).
    unfold percent. cbn [String.append form_unescape].
    change (Ascii.eqb "%" "+") with false. change (Ascii.eqb "%" "%") with true.
    cbv iota. by rewrite H1, H2, H3.
Qed.

Lemma form_unescape_encode s : form_unescape (form_encode s) = s.
Proof.
  induction s as [|a s IH]; [done|]. cbn [form_encode].
  by rewrite form_unescape_encode_byte, IH.
Qed.

Lemma utf8_lossy_id s : utf8 s -> utf8_lossy s = s.
Proof.
  induction 1 as [|a s Ha Hs IH|a b s Ha Hb Hs IH|a b c s Ha Hb Hc Hs IH
                 |a b c d s Ha Hb Hc Hd Hs IH]; cbn [utf8_lossy]; [done|..].
  - by rewrite Ha, IH.
  - by rewrite (lead2_not_ascii _ Ha), Ha, Hb, IH.
  - pose proof (lead3_facts _ Ha) as [-> ->]. by rewrite Ha, Hb, Hc, IH.
  - pose proof (lead4_facts _ Ha) as (-> & -> & ->). by rewrite Ha, Hb, Hc, Hd, IH.
Qed.

Lemma form_decode_encode s : utf8 s -> form_decode (form_encode s) = s.
Proof. intros H. unfold form_decode. by rewrite form_unescape_encode, utf8_lossy_id. Qed.

Definition form_char (a : ascii) : bool :=
  form_unreserved a || Ascii.eqb a "+" || Ascii.eqb a "%".

Lemma form_encode_chars s : sforall form_char (form_encode s) = true.
Proof.
  induction s as [|a s IH]; [done|]. cbn [form_encode].
  rewrite sforall_app, IH, andb_true_r. all_bytes a.
Qed.

Lemma form_encode_free x s : form_char x = false -> free x (form_encode s) = true.
Proof.
  intros Hx. eapply sforall_impl; [|apply form_encode_chars].
  intros a Ha. apply not_char_neq. intros ->. congruence.
Qed.

Lemma cut_first x w r : free x w = true -> cut (String x "") (w +:+ String x r) = Some (w, r).
Proof.
  induction w as [|a w IH]; [intros _; simpl; by rewrite Ascii.eqb_refl|].
  unfold free. cbn [sforall]. intros [Ha Hw]%andb_prop. apply not_char_neq in Ha.
  cbn [String.append cut drop_prefix].
  destruct (Ascii.eqb_spec x a); [done|]. by rewrite IH.
Qed.

Definition utf8_pair (kv : string * string) : Prop := utf8 kv.1 /\ utf8 kv.2.

Lemma parse_show_pair kv : utf8_pair kv -> parse_pair (show_pair kv) = kv.
Proof.
  intros [Hk Hv]. destruct kv as [k v]. unfold parse_pair, show_pair. simpl.
  rewrite cut_first by by apply form_encode_free.
  by rewrite !form_decode_encode.
Qed.

Lemma show_pair_ok kv : show_pair kv <> "" /\ free "&" (show_pair kv) = true.
Proof.
  unfold show_pair. split.
  - intros [_ H]%sapp_eq_nil. done.
  - rewrite free_app. simpl String.append. unfold free at 2. simpl sforall.
    fold (free "&" (form_encode kv.2)). by rewrite !form_encode_free.
Qed.

Lemma show_pair_not_question kv r : show_pair kv <> String "?" r.
Proof.
  unfold show_pair. intros H.
  assert (free "?" (form_encode kv.1 +:+ "=" +:+ form_encode kv.2) = true) as Hf.
  { rewrite free_app. simpl String.append. unfold free at 2. simpl sforall.
    fold (free "?" (form_encode kv.2)). by rewrite !form_encode_free. }
  rewrite H in Hf. unfold free in Hf. simpl in Hf. done.
Qed.

Lemma join_cons_head sep w ws : exists r, join sep (w :: ws) = w +:+ r.
Proof.
  destruct ws as [|w' ws]; simpl.
  - exists "". by rewrite sapp_nil_r.
  - eexists. done.
Qed.

Lemma show_params_not_question ps r : show_params ps <> String "?" r.
Proof.
  unfold show_params. destruct ps as [|kv ps]; [done|].
  change (map show_pair (kv :: ps)) with (show_pair kv :: map show_pair ps).
  destruct (join_cons_head "&" (show_pair kv) (map show_pair ps)) as [t ->].
  destruct (show_pair kv) as [|a s] eqn:E.
  - by destruct (show_pair_ok kv).
  - intros [= -> _]. by apply (show_pair_not_question kv s).
Qed.

(** Parsing a serialised query gives its pairs back. *)
Lemma parse_query_show ps : Forall utf8_pair ps -> parse_query (show_params ps) = ps.
Proof.
  intros Hps. destruct ps as [|kv ps]; [done|]. unfold parse_query, show_params.
  rewrite (split_join "&").
  - induction Hps as [|kv' ps' Hkv Hps IH]; [done|]. cbn [map].
    rewrite filter_cons_True by apply show_pair_ok. cbn [map].
    by rewrite parse_show_pair, IH.
  - done.
  - clear Hps. induction (kv :: ps); constructor; [apply show_pair_ok|done].
Qed.

Lemma parse_show_params ps : Forall utf8_pair ps -> parse_params (show_params ps) = ps.
Proof.
  intros Hps. unfold parse_params.
  destruct (drop_prefix "?" (show_params ps)) eqn:E; [|by apply parse_query_show].
  apply drop_prefix_Some in E. by apply show_params_not_question in E.
Qed.

Lemma parse_search_params ps :
  Forall utf8_pair ps -> parse_params ("?" +:+ show_params ps) = ps.
Proof.
  intros Hps. unfold parse_params. rewrite drop_prefix_app. by apply parse_query_show.
Qed.

Lemma show_params_free ps : free "?" (show_params ps) = true.
Proof.
  unfold show_params. induction ps as [|kv ps IH]; [done|].
  assert (free "?" (show_pair kv) = true) as Hkv.
  { unfold show_pair. rewrite free_app. simpl String.append. unfold free at 2. simpl sforall.
    fold (free "?" (form_encode kv.2)). by rewrite !form_encode_free. }
  destruct ps as [|kv' ps]; cbn [map join] in *; [done|].
  rewrite !free_app, Hkv. cbn [map join] in IH. by rewrite IH.
Qed.

(** A query parameter that was set is read back. *)
Lemma params_get_set k v ps : params_get k (params_set k v ps) = Some v.
Proof.
  unfold params_get. induction ps as [|[k' v'] ps IH]; simpl.
  - by rewrite bool_decide_eq_true_2.
  - case_bool_decide; simpl; [by rewrite bool_decide_eq_true_2|].
    by rewrite bool_decide_eq_false_2.
Qed.
