(* ===== verification/UrlPath.v ===== *)
(** Addresses as the browser's [location] holds them: what a URL that the console
    pushes becomes.

    The console writes URLs that start with a slash, in the characters that the URL
    parser keeps; the parser cuts them at the question mark and resolves the dot
    segments of the path, in each of their spellings. *)
From S2P Require Import Prelude.
From S2P Require Import JsString.
From S2P Require Import JsUri.

(** ** Dot segments *)

Definition single_dot (w : string) : bool := bool_decide (toLowerCase w ∈ ["."; "%2e"]).
Definition double_dot (w : string) : bool :=
  bool_decide (toLowerCase w ∈ [".."; ".%2e"; "%2e."; "%2e%2e"]).

(** The segments so far are [above], the last one first; a dot segment at the end
    leaves an empty one. *)
Fixpoint resolve_segments (above segments : list string) : list string :=
  match segments with
  | [] => reverse above
  | w :: rest =>
      let ending := match rest with [] => [""] | _ => [] end in
      resolve_segments
        (if double_dot w then ending ++ tail above
         else if single_dot w then ending ++ above
         else w :: above) rest
  end.

(** ** The location *)

Definition raw_path (url : string) : string :=
  match cut "?" url with Some (p, _) => p | None => url end.

(** What the browser's [location] holds after the URL [url] is pushed. *)
Definition location_pathname (url : string) : string :=
  match drop_prefix "/" (raw_path url) with
  | Some r => "/" +:+ join "/" (resolve_segments [] (split_on "/" r))
  | None => raw_path url
  end.

Definition location_search (url : string) : string :=
  match cut "?" url with
  | Some (_, q) => if str_truthy q then "?" +:+ q else ""
  | None => ""
  end.

(** A path the parser leaves as it is. *)
Definition plain_path (path : string) : Prop := location_pathname path = path.

(** * Properties *)

Definition no_dot (w : string) : bool := negb (single_dot w) && negb (double_dot w).

Lemma resolve_plain (above segments : list string) :
  Forall (fun w => no_dot w = true) segments ->
  resolve_segments above segments = reverse above ++ segments.
Proof.
  intros H. revert above. induction H as [|w ws Hw _ IH]; intros above; cbn [resolve_segments].
  - by rewrite app_nil_r.
  - apply andb_prop in Hw as [H1%negb_true_iff H2%negb_true_iff].
    rewrite H1, H2, IH, reverse_cons. by rewrite <- app_assoc.
Qed.

(** What is left has no dot segment, and is made of the segments there were. *)
Lemma resolve_Forall (P : string -> Prop) (above segments : list string) :
  P "" -> Forall P above -> Forall (fun w => no_dot w = true -> P w) segments ->
  Forall P (resolve_segments above segments).
Proof.
  intros He Ha Hs. revert above Ha. induction Hs as [|w ws Hw _ IH]; intros above Ha; cbn [resolve_segments].
  - by apply Forall_reverse.
  - apply IH. assert (Forall P (match ws with [] => [""] | _ => [] end)) as Hend
      by (destruct ws; by repeat constructor).
    unfold no_dot in Hw. destruct (double_dot w).
    + apply Forall_app. split; [exact Hend|]. by destruct above; [|apply Forall_cons in Ha as [_ Ha]].
    + destruct (single_dot w); [by apply Forall_app|]. constructor; [by apply Hw|exact Ha].
Qed.

Lemma resolve_nonempty (above segments : list string) :
  segments <> [] -> resolve_segments above segments <> [].
Proof.
  revert above. induction segments as [|w [|w' ws] IH]; intros above H; [done| |].
  - assert (forall l (x : string), reverse (x :: l) <> []) as Hr.
    { intros l x E. apply (f_equal List.length) in E. by rewrite length_reverse in E. }
    cbn [resolve_segments]. by destruct (double_dot w), (single_dot w); apply Hr.
  - change (resolve_segments above (w :: w' :: ws)) with
      (resolve_segments (if double_dot w then [] ++ tail above
         else if single_dot w then [] ++ above else w :: above) (w' :: ws)). by apply IH.
Qed.

(** ** Plain paths *)

(** A text whose segments are no dot segments. *)
Definition dotless (s : string) : bool := forallb no_dot (split_on "/" s).

Lemma dotless_app (w s : string) :
  free "/" w = true -> dotless (w +:+ String "/" s) = no_dot w && dotless s.
Proof. intros Hw. unfold dotless. by rewrite split_on_app. Qed.

Lemma dotless_one (w : string) : free "/" w = true -> dotless w = no_dot w.
Proof. intros Hw. unfold dotless. rewrite split_on_free by done. cbn. apply andb_true_r. Qed.

Lemma dotless_Forall (s : string) :
  dotless s = true <-> Forall (fun w => no_dot w = true) (split_on "/" s).
Proof. unfold dotless. rewrite forallb_forall, Forall_forall. by setoid_rewrite list_elem_of_In. Qed.

Lemma drop_slash (p : string) :
  drop_prefix "/" p = match p with String "/" r => Some r | _ => None end.
Proof. destruct p as [|a p]; [done|]. cbn. by destruct a as [[] [] [] [] [] [] [] []]. Qed.

(** Without dot segments the path stays as it was written. *)
Lemma dotless_raw (url : string) :
  dotless (raw_path url) = true -> location_pathname url = raw_path url.
Proof.
  unfold location_pathname. destruct (drop_prefix "/" (raw_path url)) as [r|] eqn:E; [|done].
  apply drop_prefix_Some in E. rewrite E. cbn [String.append]. intros H.
  pose proof (dotless_app "" r eq_refl) as Ed. cbn [String.append] in Ed. rewrite Ed in H. apply andb_prop in H as [_ H].
  rewrite resolve_plain by by apply dotless_Forall. cbn [reverse rev_append app].
  by pose proof (join_split "/" r) as ->.
Qed.

Lemma raw_path_free (url : string) : free "?" (raw_path url) = true.
Proof.
  unfold raw_path. induction url as [|a url IH]; [done|]. cbn [cut drop_prefix].
  destruct (Ascii.eqb_spec "?" a) as [|Hn]; [done|].
  destruct (cut "?" url) as [[l q]|]; unfold free in *; cbn [sforall] in *; rewrite IH, andb_true_r;
    by apply not_char_neq.
Qed.

Lemma raw_path_plain (p : string) : free "?" p = true -> raw_path p = p.
Proof.
  intros Hp. unfold raw_path. destruct (cut "?" p) as [[l r]|] eqn:E; [|done].
  apply cut_Some in E as ->. by rewrite !free_app, andb_comm in Hp.
Qed.

Lemma raw_path_query (p q : string) : free "?" p = true -> raw_path (p +:+ String "?" q) = p.
Proof. intros Hp. unfold raw_path. by rewrite cut_first. Qed.

Lemma dotless_plain (p : string) : free "?" p = true -> dotless p = true -> plain_path p.
Proof. intros Hp Hd. unfold plain_path. rewrite dotless_raw; by rewrite raw_path_plain. Qed.

(** The pieces of a text without a character are without it. *)
Lemma split_on_free_pieces (x y : ascii) (s : string) :
  free x s = true -> Forall (fun w => free x w = true) (split_on y s).
Proof.
  induction s as [|a s IH]; intros H; [by repeat constructor|]. unfold free in *. cbn [sforall] in H.
  apply andb_prop in H as [Ha Hs]. specialize (IH Hs). cbn [split_on].
  destruct (Ascii.eqb y a); [by constructor|].
  destruct (split_on y s) as [|w ws]; [by repeat constructor; cbn; rewrite Ha|].
  apply Forall_cons in IH as [Hw Hws]. constructor; [|exact Hws]. cbn. by rewrite Ha.
Qed.

Lemma free_join (x : ascii) (l : list string) :
  free x "/" = true -> Forall (fun w => free x w = true) l -> free x (join "/" l) = true.
Proof.
  intros Hx H. induction H as [|w l Hw _ IH]; [done|]. destruct l as [|w' l]; [exact Hw|].
  change (join "/" (w :: w' :: l)) with (w +:+ "/" +:+ join "/" (w' :: l)).
  by rewrite !free_app, Hw, Hx, IH.
Qed.

(** The path before the question mark is the first piece. *)
Lemma raw_path_split (url : string) : default "" (split_on "?" url !! 0) = raw_path url.
Proof.
  unfold raw_path. induction url as [|a url IH]; [done|]. cbn [split_on cut drop_prefix].
  destruct (Ascii.eqb_spec "?" a) as [|_]; [done|]. pose proof (split_on_nonempty "?" url).
  destruct (split_on "?" url) as [|w ws]; [done|]. cbn in *. subst w.
  by destruct (cut "?" url) as [[l q]|].
Qed.

(** What the parser gives. *)
Record parsed_path (p : string) : Prop := {
  pp_free : free "?" p = true;
  pp_dotless : drop_prefix "/" p = None \/ dotless p = true;
}.

Lemma location_parsed (url : string) : parsed_path (location_pathname url).
Proof.
  pose proof (raw_path_free url) as Hf. unfold location_pathname.
  destruct (drop_prefix "/" (raw_path url)) as [r|] eqn:E; [|by constructor; [|left]].
  apply drop_prefix_Some in E. rewrite E, free_app in Hf. apply andb_prop in Hf as [_ Hf].
  assert (Forall (fun w => free "?" w = true /\ free "/" w = true /\ no_dot w = true)
    (resolve_segments [] (split_on "/" r))) as H.
  { apply resolve_Forall; [done|constructor|].
    pose proof (split_on_free_pieces "?" "/" r Hf) as H1. pose proof (split_on_pieces_free "/" r) as H2.
    rewrite Forall_forall in H1, H2 |- *. intros w Hw Hn. split_and!; [by apply H1|by apply H2|done]. }
  rewrite !Forall_and in H. destruct H as (H1 & H2 & H3). constructor.
  - rewrite free_app. by rewrite free_join.
  - right. apply dotless_Forall. cbn [String.append].
    assert (forall s, split_on "/" (String "/" s) = "" :: split_on "/" s) as Es by done.
    rewrite Es, (split_join "/"); [by constructor| |done]. apply resolve_nonempty, split_on_nonempty.
Qed.

Lemma parsed_plain (p : string) : parsed_path p -> plain_path p.
Proof.
  intros [Hf [E|Hd]]; [|by apply dotless_plain]. unfold plain_path, location_pathname.
  rewrite raw_path_plain by done. by rewrite E.
Qed.

Lemma location_pathname_plain (url : string) : plain_path (location_pathname url).
Proof. apply parsed_plain, location_parsed. Qed.

Lemma plain_parsed (p : string) : plain_path p -> parsed_path p.
Proof. intros H. rewrite <- H. apply location_parsed. Qed.

Lemma location_search_cases (url : string) :
  location_search url = "" \/ exists q, str_truthy q = true /\ location_search url = String "?" q.
Proof.
  unfold location_search. destruct (cut "?" url) as [[l q]|]; [|by left].
  destruct (str_truthy q) eqn:E; [right|by left]. by exists q.
Qed.

(** A path the parser keeps, followed by the search of an address. *)
Lemma location_app (p search : string) :
  plain_path p -> (search = "" \/ exists q, str_truthy q = true /\ search = String "?" q) ->
  location_pathname (p +:+ search) = p /\ location_search (p +:+ search) = search.
Proof.
  intros Hp Hs. pose proof (pp_free _ (plain_parsed p Hp)) as Hf.
  assert (location_pathname (p +:+ search) = location_pathname p) as ->.
  { unfold location_pathname. rewrite (raw_path_plain p) by done.
    destruct Hs as [->|(q & _ & ->)]; [by rewrite sapp_nil_r, raw_path_plain|by rewrite raw_path_query]. }
  split; [exact Hp|]. unfold location_search. destruct Hs as [->|(q & Hq & ->)].
  - rewrite sapp_nil_r. destruct (cut "?" p) as [[l r]|] eqn:E; [|done].
    apply cut_Some in E as ->. by rewrite !free_app, andb_comm in Hf.
  - rewrite cut_first by done. by rewrite Hq.
Qed.

Lemma location_join (ws : list string) :
  ws <> [] -> Forall (fun w => free "/" w = true /\ free "?" w = true) ws ->
  location_pathname ("/" +:+ join "/" ws) = "/" +:+ join "/" (resolve_segments [] ws).
Proof.
  intros Hne [H1 H2]%Forall_and. unfold location_pathname. rewrite raw_path_plain.
  - rewrite drop_prefix_app. by rewrite (split_join "/").
  - rewrite free_app. by rewrite free_join.
Qed.

(** A segment in the middle of a path, whatever it is. *)
Lemma location_two (a w : string) :
  no_dot a = true -> free "/" a = true -> free "?" a = true -> free "/" w = true -> free "?" w = true ->
  location_pathname ("/" +:+ a +:+ "/" +:+ w) ∈ ["/" +:+ a +:+ "/" +:+ w; "/" +:+ a +:+ "/"; "/"].
Proof.
  intros [A1%negb_true_iff A2%negb_true_iff]%andb_prop ? ? ? ?.
  change (a +:+ "/" +:+ w) with (join "/" [a; w]). rewrite location_join; [|done|by repeat constructor].
  cbn [resolve_segments]. rewrite A1, A2. cbn. rewrite !elem_of_cons.
  destruct (double_dot w); [by right; right; left|].
  destruct (single_dot w); [by right; left; cbn; rewrite ?sapp_nil_r|by left].
Qed.

Lemma location_three (a w b : string) :
  no_dot a = true -> free "/" a = true -> free "?" a = true -> free "/" w = true -> free "?" w = true ->
  no_dot b = true -> free "/" b = true -> free "?" b = true ->
  location_pathname ("/" +:+ a +:+ "/" +:+ w +:+ "/" +:+ b) ∈
    ["/" +:+ a +:+ "/" +:+ w +:+ "/" +:+ b; "/" +:+ a +:+ "/" +:+ b; "/" +:+ b].
Proof.
  intros [A1%negb_true_iff A2%negb_true_iff]%andb_prop ? ? ? ? [B1%negb_true_iff B2%negb_true_iff]%andb_prop ? ?.
  change (a +:+ "/" +:+ w +:+ "/" +:+ b) with (join "/" [a; w; b]).
  rewrite location_join; [|done|by repeat constructor].
  cbn [resolve_segments]. rewrite A1, A2. cbn. rewrite !elem_of_cons.
  destruct (double_dot w); [|destruct (single_dot w)]; rewrite B1, B2; cbn; auto.
Qed.

(** ** Encoded segments *)

(** A name that the browser does not read as a dot segment. *)
Definition plain_name (s : string) : Prop := s <> "." /\ s <> "..".

#[export] Instance plain_name_dec (s : string) : Decision (plain_name s).
Proof. unfold plain_name. apply _. Defined.

Lemma lower_inv (c : ascii) (w r : string) :
  toLowerCase w = String c r -> exists a w', w = String a w' /\ lower_char a = c /\ toLowerCase w' = r.
Proof. destruct w as [|a w]; [done|]. cbn. intros [= <- <-]. by exists a, w. Qed.

Lemma lower_dot (a : ascii) : lower_char a = "."%char -> a = "."%char.
Proof. destruct a as [[] [] [] [] [] [] [] []]; vm_compute; congruence. Qed.
Lemma lower_percent (a : ascii) : lower_char a = "%"%char -> a = "%"%char.
Proof. destruct a as [[] [] [] [] [] [] [] []]; vm_compute; congruence. Qed.
Lemma lower_two (a : ascii) : lower_char a = "2"%char -> a = "2"%char.
Proof. destruct a as [[] [] [] [] [] [] [] []]; vm_compute; congruence. Qed.
Lemma lower_e (a : ascii) : lower_char a = "e"%char -> a = "e"%char \/ a = "E"%char.
Proof. destruct a as [[] [] [] [] [] [] [] []]; vm_compute; auto; congruence. Qed.

(** The spellings of a text of dots are those that decode to it. *)
Ltac spelled :=
  repeat match goal with
  | H : toLowerCase _ = String _ _ |- _ => apply lower_inv in H as (? & ? & -> & ? & H)
  | H : toLowerCase ?w = "" |- _ => destruct w; [clear H|discriminate H]
  | H : lower_char _ = "."%char |- _ => apply lower_dot in H as ->
  | H : lower_char _ = "%"%char |- _ => apply lower_percent in H as ->
  | H : lower_char _ = "2"%char |- _ => apply lower_two in H as ->
  | H : lower_char _ = "e"%char |- _ => apply lower_e in H as [->| ->]
  end.

Lemma single_dot_decodes (w : string) : single_dot w = true -> decodeURIComponent w = Some ".".
Proof.
  intros H%bool_decide_eq_true_1. rewrite !elem_of_cons, elem_of_nil in H.
  destruct_or?; spelled; done.
Qed.

Lemma double_dot_decodes (w : string) : double_dot w = true -> decodeURIComponent w = Some "..".
Proof.
  intros H%bool_decide_eq_true_1. rewrite !elem_of_cons, elem_of_nil in H.
  destruct_or?; spelled; done.
Qed.

Lemma encode_no_dot (s : string) : utf8 s -> plain_name s -> no_dot (encodeURIComponent s) = true.
Proof.
  intros Hs [H1 H2]. pose proof (decode_encode s Hs) as E.
  apply andb_true_intro; split; apply negb_true_iff, not_true_is_false; intros H.
  - apply single_dot_decodes in H. congruence.
  - apply double_dot_decodes in H. congruence.
Qed.

#[export] Hint Extern 0 (plain_name _) => split; discriminate : runnerd.

(** ** Examples *)

Example dots_resolved :
  location_pathname "/jobs/manual/./ci-runner/x?job=1" = "/jobs/manual/ci-runner/x" /\
  location_pathname "/github/runs/qiniu/%2E./42/jobs" = "/github/runs/42/jobs" /\
  location_pathname "/jobs/.." = "/".
Proof. by vm_compute. Qed.
