(* ===== verification/JsArray.v ===== *)
(** JavaScript arrays, sets and maps as the console uses them: the stable
    [Array.prototype.sort], [new Set(...)] in insertion order, and a [Map] that
    iterates over its keys in the order they were first set. *)
From S2P Require Import Prelude.
From S2P Require Import JsString.

(** ** [sort]

    ECMAScript asks of [sort] that it be stable and leave the array ordered by
    the comparison, when the comparison is consistent.  [cmp x y] is the number
    the comparison function returns. *)

Class Comparison {A} (cmp : A -> A -> Z) : Prop := {
  cmp_sym x y : (cmp x y < 0)%Z <-> (0 < cmp y x)%Z;
  cmp_trans x y z : (cmp x y <= 0)%Z -> (cmp y z <= 0)%Z -> (cmp x z <= 0)%Z;
}.

Section sorting.
Context {A : Type} (cmp : A -> A -> Z).

Fixpoint sort_insert (x : A) (l : list A) : list A :=
  match l with
  | [] => [x]
  | y :: l => if (cmp x y <=? 0)%Z then x :: y :: l else y :: sort_insert x l
  end.

Definition sort_by (l : list A) : list A := foldr sort_insert [] l.

Definition cmp_le (x y : A) : Prop := (cmp x y <= 0)%Z.

Lemma sort_insert_perm x l : sort_insert x l ≡ₚ x :: l.
Proof.
  induction l as [|y l IH]; simpl; [done|]. destruct (_ <=? 0)%Z; [done|].
  rewrite IH. apply Permutation_swap.
Qed.

Lemma sort_by_perm l : sort_by l ≡ₚ l.
Proof. induction l as [|x l IH]; simpl; [done|]. by rewrite sort_insert_perm, IH. Qed.

Lemma elem_of_sort_by x l : x ∈ sort_by l <-> x ∈ l.
Proof. by rewrite sort_by_perm. Qed.

Context `{!Comparison cmp}.

Lemma cmp_refl x : cmp x x = 0%Z.
Proof. pose proof (cmp_sym x x). lia. Qed.

Lemma cmp_total x y : cmp_le x y \/ cmp_le y x.
Proof. unfold cmp_le. pose proof (cmp_sym y x). lia. Qed.

#[global] Instance cmp_le_trans : Transitive cmp_le.
Proof. intros x y z. apply cmp_trans. Qed.

Lemma sort_insert_sorted x l :
  StronglySorted cmp_le l -> StronglySorted cmp_le (sort_insert x l).
Proof.
  induction 1 as [|y l Hl IH Hy]; simpl; [repeat constructor|].
  destruct (Z.leb_spec (cmp x y) 0) as [Hle|Hgt].
  - constructor; [by constructor|]. constructor; [done|].
    eapply Forall_impl; [done|]. intros z Hz. by transitivity y.
  - constructor; [done|]. rewrite sort_insert_perm. constructor; [|done].
    unfold cmp_le. pose proof (cmp_sym y x). lia.
Qed.

Lemma sort_by_sorted l : StronglySorted cmp_le (sort_by l).
Proof. induction l as [|x l IH]; simpl; [constructor|by apply sort_insert_sorted]. Qed.

(** Stability: elements that compare equal keep their order. *)
Lemma sort_insert_filter (P : A -> Prop) `{!forall x, Decision (P x)} x l :
  (forall y z, P y -> P z -> cmp y z = 0%Z) ->
  filter P (sort_insert x l) = filter P (x :: l).
Proof.
  intros HP. induction l as [|y l IH]; [done|]. simpl sort_insert.
  destruct (Z.leb_spec (cmp x y) 0) as [Hle|Hgt]; [done|].
  rewrite !filter_cons. rewrite IH, !filter_cons.
  destruct (decide (P y)) as [Py|]; destruct (decide (P x)) as [Px|]; try done.
  specialize (HP x y Px Py). lia.
Qed.

Lemma sort_by_stable (P : A -> Prop) `{!forall x, Decision (P x)} l :
  (forall y z, P y -> P z -> cmp y z = 0%Z) -> filter P (sort_by l) = filter P l.
Proof.
  intros HP. induction l as [|x l IH]; [done|]. simpl sort_by.
  rewrite sort_insert_filter by done. by rewrite !filter_cons, IH.
Qed.
End sorting.

(** Comparisons of the code: numbers, and the lexicographic product. *)
#[export] Instance Zsub_comparison : Comparison (fun a b : Z => b - a)%Z.
Proof. split; lia. Qed.

#[export] Instance Zsub_on_comparison {A} (f : A -> Z) : Comparison (fun a b => f b - f a)%Z.
Proof. split; lia. Qed.

#[export] Instance comparison_on {A B} (f : A -> B) (cmp : B -> B -> Z) `{!Comparison cmp} :
  Comparison (fun a b => cmp (f a) (f b)).
Proof. split; intros; [apply cmp_sym|by eapply cmp_trans]. Qed.

Lemma flip_comparison {A} (cmp : A -> A -> Z) `{!Comparison cmp} :
  Comparison (fun a b => cmp b a).
Proof. split; intros; [apply cmp_sym|by eapply cmp_trans]. Qed.

Lemma then_comparison {A} (c d : A -> A -> Z) :
  Comparison c -> Comparison d ->
  Comparison (fun a b => let r := c a b in if negb (r =? 0)%Z then r else d a b).
Proof.
  intros Hc Hd. split; cbv zeta.
  - intros x y. pose proof (@cmp_sym _ c Hc x y). pose proof (@cmp_sym _ c Hc y x).
    pose proof (@cmp_sym _ d Hd x y).
    destruct (Z.eqb_spec (c x y) 0), (Z.eqb_spec (c y x) 0); simpl; lia.
  - intros x y z. pose proof (@cmp_trans _ c Hc x y z). pose proof (@cmp_trans _ c Hc z x y).
    pose proof (@cmp_trans _ c Hc y z x). pose proof (@cmp_trans _ d Hd x y z).
    pose proof (@cmp_sym _ c Hc x y). pose proof (@cmp_sym _ c Hc y z).
    pose proof (@cmp_sym _ c Hc x z). pose proof (@cmp_sym _ c Hc z x).
    pose proof (@cmp_sym _ c Hc y x). pose proof (@cmp_sym _ c Hc z y).
    destruct (Z.eqb_spec (c x y) 0), (Z.eqb_spec (c y z) 0), (Z.eqb_spec (c x z) 0);
      simpl; lia.
Qed.

(** ** Code-unit order of strings ([<] and [>] on strings)

    The bytes of UTF-8 order texts as their code points do; JavaScript compares
    UTF-16 code units, which is the same order on texts of the Basic
    Multilingual Plane (the console compares timestamps). *)
Fixpoint str_cmp (s t : string) : Z :=
  match s, t with
  | EmptyString, EmptyString => 0
  | EmptyString, String _ _ => -1
  | String _ _, EmptyString => 1
  | String a s, String b t =>
      if (code a <? code b)%N then -1 else if (code b <? code a)%N then 1 else str_cmp s t
  end.

Definition str_gt (s t : string) : bool := (0 <? str_cmp s t)%Z.

#[export] Instance str_cmp_comparison : Comparison str_cmp.
Proof.
  split.
  - induction x as [|a x IH]; intros [|b y]; simpl; try lia.
    specialize (IH y). destruct (N.ltb_spec (code a) (code b)), (N.ltb_spec (code b) (code a));
      lia.
  - induction x as [|a x IH]; intros [|b y] [|c z]; simpl; try lia.
    specialize (IH y z).
    destruct (N.ltb_spec (code a) (code b)), (N.ltb_spec (code b) (code a)),
      (N.ltb_spec (code b) (code c)), (N.ltb_spec (code c) (code b)),
      (N.ltb_spec (code a) (code c)), (N.ltb_spec (code c) (code a)); lia.
Qed.

Lemma str_cmp_eq s t : str_cmp s t = 0%Z -> s = t.
Proof.
  revert t. induction s as [|a s IH]; intros [|b t]; simpl; try done.
  destruct (N.ltb_spec (code a) (code b)); [done|].
  destruct (N.ltb_spec (code b) (code a)); [done|]. intros E%IH. subst. f_equal.
  assert (code a = code b) as E by lia. unfold code in E.
  rewrite <- (ascii_N_embedding a), <- (ascii_N_embedding b). by rewrite E.
Qed.

#[export] Instance str_cmp_le_antisymm : AntiSymm eq (cmp_le str_cmp).
Proof.
  intros s t Hs Ht. apply str_cmp_eq. unfold cmp_le in *.
  pose proof (cmp_sym s t). pose proof (cmp_sym t s). lia.
Qed.

(** ** [Array.from(new Set(l))] *)

Fixpoint uniq_onto {A} `{EqDecision A} (seen : list A) (l : list A) : list A :=
  match l with
  | [] => []
  | x :: l => if bool_decide (x ∈ seen) then uniq_onto seen l
              else x :: uniq_onto (x :: seen) l
  end.

Definition uniq {A} `{EqDecision A} (l : list A) : list A := uniq_onto [] l.

Lemma elem_of_uniq_onto {A} `{EqDecision A} seen (l : list A) x :
  x ∈ uniq_onto seen l <-> x ∈ l /\ x ∉ seen.
Proof.
  revert seen. induction l as [|y l IH]; intros seen; simpl; [set_solver|].
  case_bool_decide as Hy; [rewrite IH; set_solver|].
  rewrite elem_of_cons, IH. destruct (decide (x = y)); set_solver.
Qed.

Lemma elem_of_uniq {A} `{EqDecision A} (l : list A) x : x ∈ uniq l <-> x ∈ l.
Proof. unfold uniq. rewrite elem_of_uniq_onto. set_solver. Qed.

Lemma NoDup_uniq_onto {A} `{EqDecision A} seen (l : list A) : NoDup (uniq_onto seen l).
Proof.
  revert seen. induction l as [|y l IH]; intros seen; simpl; [constructor|].
  case_bool_decide; [done|]. constructor; [|done]. rewrite elem_of_uniq_onto. set_solver.
Qed.

Lemma NoDup_uniq {A} `{EqDecision A} (l : list A) : NoDup (uniq l).
Proof. apply NoDup_uniq_onto. Qed.

(** ** A [Map] in insertion order *)

Section ordered_map.
Context {K V : Type} `{EqDecision K}.

Fixpoint omap_get (k : K) (m : list (K * V)) : option V :=
  match m with
  | [] => None
  | (k', v) :: m => if bool_decide (k = k') then Some v else omap_get k m
  end.

(** The value under an existing key is replaced in place (or mutated). *)
Fixpoint omap_update (f : V -> V) (k : K) (m : list (K * V)) : list (K * V) :=
  match m with
  | [] => []
  | (k', v) :: m =>
      if bool_decide (k = k') then (k', f v) :: m else (k', v) :: omap_update f k m
  end.

Definition omap_set (k : K) (v : V) (m : list (K * V)) : list (K * V) :=
  match omap_get k m with
  | Some _ => omap_update (fun _ => v) k m
  | None => m ++ [(k, v)]
  end.

Lemma omap_get_None k m : omap_get k m = None <-> k ∉ m.*1.
Proof.
  induction m as [|[k' v] m IH]; simpl; [set_solver|].
  case_bool_decide; [set_solver|]. rewrite IH. set_solver.
Qed.

Lemma omap_get_Some k v m :
  omap_get k m = Some v ->
  exists l r, m = l ++ (k, v) :: r /\ k ∉ l.*1.
Proof.
  induction m as [|[k' v'] m IH]; simpl; [done|]. case_bool_decide.
  - intros [= ->]. subst. exists [], m. set_solver.
  - intros (l & r & -> & Hl)%IH. exists ((k', v') :: l), r. set_solver.
Qed.

Lemma omap_update_mid f k v l r :
  k ∉ l.*1 -> omap_update f k (l ++ (k, v) :: r) = l ++ (k, f v) :: r.
Proof.
  induction l as [|[k' v'] l IH]; simpl; intros Hl.
  - by rewrite bool_decide_eq_true_2.
  - rewrite bool_decide_eq_false_2 by set_solver. rewrite IH by set_solver. done.
Qed.

Lemma omap_update_keys f k m : (omap_update f k m).*1 = m.*1.
Proof.
  induction m as [|[k' v] m IH]; simpl; [done|]. case_bool_decide; simpl; [done|].
  f_equal. apply IH.
Qed.
End ordered_map.

Lemma uniq_onto_snoc {A} `{EqDecision A} seen (l : list A) x :
  uniq_onto seen (l ++ [x]) =
  uniq_onto seen l ++ (if bool_decide (x ∈ seen ++ l) then [] else [x]).
Proof.
  revert seen. induction l as [|y l IH]; intros seen; simpl.
  - by rewrite app_nil_r; case_bool_decide.
  - case_bool_decide as Hy; rewrite IH; simpl.
    + f_equal. rewrite (bool_decide_ext (x ∈ seen ++ l) (x ∈ seen ++ y :: l)); [done|set_solver].
    + rewrite (bool_decide_ext (x ∈ y :: seen ++ l) (x ∈ seen ++ y :: l)); [done|set_solver].
Qed.

Lemma uniq_snoc {A} `{EqDecision A} (l : list A) x :
  uniq (l ++ [x]) = uniq l ++ (if bool_decide (x ∈ l) then [] else [x]).
Proof. unfold uniq. by rewrite uniq_onto_snoc. Qed.

(** ** Grouping in a [Map]

    The loops that build groups have one shape: the first element of a key
    seeds the group, the later ones are added to it. *)
Section group_fold.
Context {K V A : Type} `{EqDecision K}.
Context (key : A -> K) (seed : A -> V) (add : A -> V -> V).

Definition group_fold_step (m : list (K * V)) (x : A) : list (K * V) :=
  match omap_get (key x) m with
  | Some _ => omap_update (add x) (key x) m
  | None => omap_set (key x) (seed x) m
  end.

Definition group_fold (l : list A) : list (K * V) := fold_left group_fold_step l [].

(** The value a group ends with, from its elements in order. *)
Definition group_value (l : list A) : option V :=
  match l with
  | [] => None
  | x :: l => Some (fold_left (fun g y => add y g) l (seed x))
  end.

Lemma group_value_snoc l x :
  group_value (l ++ [x]) =
  Some (match group_value l with Some g => add x g | None => seed x end).
Proof. destruct l as [|y l]; simpl; [done|]. by rewrite fold_left_app. Qed.

Lemma group_fold_keys l : (group_fold l).*1 = uniq (map key l).
Proof.
  induction l as [|x l IH] using rev_ind; [done|].
  unfold group_fold. rewrite fold_left_app, map_app. simpl map. rewrite uniq_snoc.
  fold (group_fold l). simpl. unfold group_fold_step, omap_set.
  destruct (omap_get (key x) (group_fold l)) as [v|] eqn:E.
  - rewrite omap_update_keys, IH, bool_decide_eq_true_2; [by rewrite app_nil_r|].
    apply elem_of_uniq. rewrite <- IH. apply omap_get_Some in E as (a & b & -> & _).
    rewrite fmap_app. apply elem_of_app. right. left.
  - rewrite fmap_app, IH. rewrite bool_decide_eq_false_2; [done|].
    apply omap_get_None in E. rewrite IH in E. by rewrite elem_of_uniq in E.
Qed.

Lemma group_fold_values l k v :
  (k, v) ∈ group_fold l -> group_value (filter (fun x => key x = k) l) = Some v.
Proof.
  revert k v. induction l as [|x l IH] using rev_ind; intros k v.
  - intros H. by apply not_elem_of_nil in H.
  - pose proof (group_fold_keys l) as Hkeys.
    unfold group_fold. rewrite fold_left_app. fold (group_fold l). simpl.
    rewrite filter_app, filter_cons, filter_nil. unfold group_fold_step, omap_set.
    destruct (omap_get (key x) (group_fold l)) as [g|] eqn:E.
    + apply omap_get_Some in E as (a & b & E & Ha). rewrite E in *.
      rewrite omap_update_mid by done. intros H.
      assert (NoDup ((a ++ (key x, g) :: b).*1)) as Hnd by (rewrite Hkeys; apply NoDup_uniq).
      apply elem_of_app in H as [H|[H|H]%elem_of_cons].
      * destruct (decide (key x = k)) as [<-|].
        -- exfalso. apply Ha. apply list_elem_of_fmap. by exists (key x, v).
        -- rewrite app_nil_r. apply IH. set_solver.
      * injection H as -> ->. rewrite decide_True by done. rewrite group_value_snoc.
        rewrite (IH (key x) g) by set_solver. done.
      * destruct (decide (key x = k)) as [<-|].
        -- exfalso. rewrite fmap_app in Hnd. simpl in Hnd. apply NoDup_app in Hnd as (_ & _ & Hnd).
           apply NoDup_cons in Hnd as [Hnd _]. apply Hnd. apply list_elem_of_fmap. by exists (key x, v).
        -- rewrite app_nil_r. apply IH. set_solver.
    + intros [H|H]%elem_of_app.
      * destruct (decide (key x = k)) as [<-|]; [|rewrite app_nil_r; by apply IH].
        exfalso. apply omap_get_None in E. apply E. apply list_elem_of_fmap. by exists (key x, v).
      * apply list_elem_of_singleton in H as [= -> ->]. rewrite decide_True by done.
        rewrite group_value_snoc. apply omap_get_None in E. rewrite Hkeys, elem_of_uniq in E.
        rewrite filter_nil_iff_all; [done|].
        intros y Hy Ey. apply E. rewrite <- Ey. by apply list_elem_of_fmap_2.
Qed.
End group_fold.
