(* ===== verification/JsNumber.v ===== *)
(** Numbers of JavaScript: [Number(text)] with the rounding to binary64,
    [Number.isSafeInteger] and [String(integer)].

    A finite number is [m * 2^e]; a zero has no sign here (the console tests
    numbers with [||], [>=] and [isSafeInteger], which do not tell the two
    zeros apart). *)
From S2P Require Import Prelude.
From S2P Require Import JsString.

Local Open Scope Z_scope.

Inductive number := NaN | Infinite (negative : bool) | Finite (m e : Z).

(** ** Rounding a non-negative rational [p/q] to the nearest double, ties to
    even *)

Definition round_half_even (n d : Z) : Z :=
  let q := n / d in
  let r := n mod d in
  if 2 * r <? d then q
  else if d <? 2 * r then q + 1
  else if Z.even q then q else q + 1.

(** [p / q * 2^k] as a quotient of integers. *)
Definition scaled (p q k : Z) : Z * Z :=
  if 0 <=? k then (p * 2 ^ k, q) else (p, q * 2 ^ (- k)).

Definition floor_log2 (p q : Z) : Z :=
  let k := Z.log2 p - Z.log2 q in
  let '(n, d) := scaled p q (- k) in
  if d <=? n then k else k - 1.

Definition round_nonneg (p q : Z) : number :=
  if p =? 0 then Finite 0 0 else
  let e := Z.max (-1074) (floor_log2 p q - 52) in
  let '(n, d) := scaled p q (- e) in
  let m := round_half_even n d in
  if 2 ^ 53 * 2 ^ (971 + 1074) <=? m * 2 ^ (e + 1074) then Infinite false else Finite m e.

Definition negate (x : number) : number :=
  match x with
  | NaN => NaN
  | Infinite b => Infinite (negb b)
  | Finite m e => Finite (- m) e
  end.

(** ** The grammar of numeric strings *)

Definition digit_value (a : ascii) : Z := Z.of_N (code a) - 48.

(** The longest run of decimal digits: its value after [acc], how many digits,
    and the rest. *)
Fixpoint read_digits (acc : Z) (n : Z) (s : string) : Z * Z * string :=
  match s with
  | String a r =>
      if is_digit a then read_digits (10 * acc + digit_value a) (n + 1) r else (acc, n, s)
  | EmptyString => (acc, n, s)
  end.

Definition radix_digit (a : ascii) : option Z :=
  let c := Z.of_N (code a) in
  if is_digit a then Some (c - 48)
  else if (97 <=? c) && (c <=? 102) then Some (c - 87)
  else if (65 <=? c) && (c <=? 70) then Some (c - 55)
  else None.

Fixpoint read_radix (radix acc : Z) (s : string) : option Z :=
  match s with
  | EmptyString => Some acc
  | String a s =>
      match radix_digit a with
      | Some d => if d <? radix then read_radix radix (radix * acc + d) s else None
      | None => None
      end
  end.

Definition read_exponent (s : string) : option Z :=
  match s with
  | EmptyString => Some 0
  | String a r =>
      if Ascii.eqb a "e" || Ascii.eqb a "E" then
        let '(sign, r) :=
          match r with
          | String "-" r' => (-1, r')
          | String "+" r' => (1, r')
          | _ => (1, r)
          end in
        let '(v, n, rest) := read_digits 0 0 r in
        if (0 <? n) && bool_decide (rest = "") then Some (sign * v) else None
      else None
  end.

(** [m * 10^e], rounded. *)
Definition round_decimal (m e : Z) : number :=
  if 0 <=? e then round_nonneg (m * 10 ^ e) 1 else round_nonneg m (10 ^ (- e)).

Definition read_unsigned (s : string) : number :=
  if bool_decide (s = "Infinity") then Infinite false else
  let '(whole, n1, r) := read_digits 0 0 s in
  let '(m, n2, r) :=
    match r with
    | String "." r' => let '(m, n2, r'') := read_digits whole 0 r' in (m, n2, r'')
    | _ => (whole, 0, r)
    end in
  if n1 + n2 =? 0 then NaN
  else match read_exponent r with
       | Some e => round_decimal m (e - n2)
       | None => NaN
       end.

Definition nonempty_radix (radix : Z) (s : string) : number :=
  match s with
  | EmptyString => NaN
  | _ => match read_radix radix 0 s with Some v => round_nonneg v 1 | None => NaN end
  end.

(** [Number(text)] *)
Definition Number (text : string) : number :=
  let s := trim text in
  match s with
  | EmptyString => Finite 0 0
  | String "0" (String "x" r) | String "0" (String "X" r) => nonempty_radix 16 r
  | String "0" (String "o" r) | String "0" (String "O" r) => nonempty_radix 8 r
  | String "0" (String "b" r) | String "0" (String "B" r) => nonempty_radix 2 r
  | String "+" r => read_unsigned r
  | String "-" r => negate (read_unsigned r)
  | _ => read_unsigned s
  end.

(** The integer a number is, if it is one. *)
Definition integer_of (x : number) : option Z :=
  match x with
  | Finite m e =>
      if 0 <=? e then Some (m * 2 ^ e)
      else if m mod 2 ^ (- e) =? 0 then Some (m / 2 ^ (- e)) else None
  | _ => None
  end.

Definition max_safe : Z := 2 ^ 53 - 1.

(** [Number.isSafeInteger(x)], with the integer. *)
Definition safe_integer (x : number) : option Z :=
  match integer_of x with
  | Some n => if Z.abs n <=? max_safe then Some n else None
  | None => None
  end.

(** [x || 0] *)
Definition or_zero (x : number) : number :=
  match x with
  | NaN => Finite 0 0
  | Finite 0 _ => Finite 0 0
  | _ => x
  end.

Example Number_examples :
  integer_of (Number " 42 ") = Some 42 /\ integer_of (Number "0x1F") = Some 31 /\
  integer_of (Number "-1.5e1") = Some (-15) /\ Number "12px" = NaN /\
  integer_of (Number "") = Some 0 /\ integer_of (Number "1.5") = None /\
  integer_of (Number "9007199254740993") = Some 9007199254740992 /\
  Number "1e400" = Infinite false /\ Number "." = NaN /\ Number "1e" = NaN.
Proof. vm_compute. by split_and!. Qed.

(** * Properties *)

(** ** Decimal digits *)

Fixpoint digits_value (acc : Z) (s : string) : Z :=
  match s with
  | EmptyString => acc
  | String a s => digits_value (10 * acc + digit_value a) s
  end.

Lemma read_digits_all acc n s :
  sforall is_digit s = true ->
  read_digits acc n s = (digits_value acc s, n + Z.of_nat (String.length s), "").
Proof.
  revert acc n. induction s as [|a s IH]; intros acc n; simpl.
  - by rewrite Z.add_0_r.
  - intros [-> Hs]%andb_prop. rewrite IH by done. do 2 f_equal. lia.
Qed.

Lemma pretty_N_char_value n : (n < 10)%N -> digit_value (pretty_N_char n) = Z.of_N n.
Proof.
  intros H. apply (digit_elim (fun n => digit_value (pretty_N_char n) = Z.of_N n) n H).
  by repeat constructor.
Qed.

Lemma digits_value_go x s : digits_value 0 (pretty_N_go x s) = digits_value (Z.of_N x) s.
Proof.
  revert s. induction (N.lt_wf_0 x) as [x _ IH]; intros s.
  destruct (decide (0 < x)%N) as [Hx|Hx].
  - rewrite pretty_N_go_step, IH by (done || by apply N.div_lt). cbn [digits_value].
    rewrite pretty_N_char_value by by apply N.mod_lt.
    f_equal. rewrite N2Z.inj_div, N2Z.inj_mod. pose proof (Z.div_mod (Z.of_N x) 10). lia.
  - assert (x = 0%N) as -> by lia. done.
Qed.

Lemma digits_value_pretty n : 0 <= n -> digits_value 0 (pretty n) = n.
Proof.
  intros H. destruct n as [|p|p]; [done| |lia]. unfold pretty, pretty_Z, pretty_positive.
  unfold pretty, pretty_N. case_decide; [done|]. apply digits_value_go.
Qed.

Lemma digits_not_infinity s : sforall is_digit s = true -> s <> "Infinity".
Proof. by intros H ->. Qed.

Lemma digits_graph s : sforall is_digit s = true -> sforall is_graph s = true.
Proof. apply sforall_impl. intros a. all_bytes a. Qed.

Lemma read_unsigned_digits s :
  sforall is_digit s = true -> s <> "" -> read_unsigned s = round_decimal (digits_value 0 s) 0.
Proof.
  intros Hs Hne. unfold read_unsigned.
  rewrite bool_decide_eq_false_2 by by apply digits_not_infinity.
  rewrite read_digits_all by done.
  destruct (Z.eqb_spec (0 + Z.of_nat (String.length s) + 0) 0) as [E|_]; [|done].
  destruct s; [done|]. simpl in E. lia.
Qed.

Lemma digit_cases (a : ascii) (P : ascii -> Prop) :
  is_digit a = true ->
  P "0"%char -> P "1"%char -> P "2"%char -> P "3"%char -> P "4"%char -> P "5"%char ->
  P "6"%char -> P "7"%char -> P "8"%char -> P "9"%char -> P a.
Proof. intros H. destruct a as [[] [] [] [] [] [] [] []]; done. Qed.

Lemma Number_digits s :
  sforall is_digit s = true -> s <> "" -> Number s = round_decimal (digits_value 0 s) 0.
Proof.
  intros Hs Hne. unfold Number. rewrite trim_graph by by apply digits_graph.
  rewrite <- read_unsigned_digits by done. destruct s as [|a s]; [done|].
  simpl in Hs. apply andb_prop in Hs as [Ha Hs]. revert a Ha Hne.
  intros a Ha _. apply (digit_cases a); try done. destruct s as [|b s]; [done|].
  simpl in Hs. apply andb_prop in Hs as [Hb _]. by apply (digit_cases b).
Qed.

(** ** Integers that a double holds exactly *)

Lemma round_half_even_exact n d : 0 < d -> round_half_even (n * d) d = n.
Proof.
  intros Hd. unfold round_half_even. rewrite Z.div_mul, Z.mod_mul by lia.
  rewrite (proj2 (Z.ltb_lt _ _)) by lia. done.
Qed.

Lemma floor_log2_int n : 0 < n -> floor_log2 n 1 = Z.log2 n.
Proof.
  intros Hn. unfold floor_log2. change (Z.log2 1) with 0. rewrite Z.sub_0_r.
  pose proof (Z.log2_nonneg n). pose proof (Z.log2_spec n Hn) as [Hlo _].
  unfold scaled. destruct (Z.leb_spec 0 (- Z.log2 n)) as [H0|H0].
  - assert (Z.log2 n = 0) as E by lia. rewrite E in *. simpl in *.
    rewrite (proj2 (Z.leb_le _ _)) by lia. done.
  - rewrite Z.opp_involutive, Z.mul_1_l, (proj2 (Z.leb_le _ _)) by lia. done.
Qed.

Lemma round_nonneg_integer n : 0 <= n < 2 ^ 53 -> integer_of (round_nonneg n 1) = Some n.
Proof.
  intros [Hn Hmax]. unfold round_nonneg. destruct (Z.eqb_spec n 0) as [->|Hn0]; [done|].
  rewrite floor_log2_int by lia.
  assert (0 <= Z.log2 n <= 52) as Hlog.
  { split; [apply Z.log2_nonneg|]. enough (Z.log2 n < 53) by lia. apply Z.log2_lt_pow2; lia. }
  set (e := Z.max (-1074) (Z.log2 n - 52)).
  assert (-1074 <= e <= 0) as He by lia.
  assert (scaled n 1 (- e) = (n * 2 ^ (- e), 1)) as ->.
  { unfold scaled. by rewrite (proj2 (Z.leb_le 0 (- e))) by lia. }
  rewrite <- (Z.mul_1_r (n * 2 ^ (- e))), round_half_even_exact by lia.
  assert (n * 2 ^ (- e) * 2 ^ (e + 1074) = n * 2 ^ 1074) as ->.
  { rewrite <- Z.mul_assoc, <- Z.pow_add_r by lia. do 2 f_equal. lia. }
  rewrite (proj2 (Z.leb_gt _ _)).
  2:{ rewrite Z.pow_add_r by lia. rewrite Z.mul_assoc.
      apply Z.mul_lt_mono_pos_r; [by apply Z.pow_pos_nonneg|].
      apply (Z.lt_le_trans _ (2 ^ 53)); [done|]. vm_compute. discriminate. }
  unfold integer_of. destruct (Z.leb_spec 0 e).
  - assert (e = 0) as -> by lia. by rewrite Z.mul_1_r, Z.mul_1_r.
  - rewrite Z.mod_mul, Z.div_mul by (apply Z.pow_nonzero; lia). done.
Qed.

Lemma safe_integer_round n : 0 <= n <= max_safe -> safe_integer (round_nonneg n 1) = Some n.
Proof.
  intros H. unfold safe_integer. rewrite round_nonneg_integer by (unfold max_safe in *; lia).
  rewrite (proj2 (Z.leb_le _ _)) by lia. done.
Qed.

(** [Number(String(n))] is [n] for every safe natural number. *)
Lemma Number_pretty n : 0 <= n <= max_safe -> safe_integer (Number (pretty n)) = Some n.
Proof.
  intros H. rewrite Number_digits by (apply pretty_Z_digits || apply pretty_Z_nonempty; lia).
  rewrite digits_value_pretty by lia. unfold round_decimal. simpl Z.leb. cbv iota.
  rewrite Z.pow_0_r, Z.mul_1_r. by apply safe_integer_round.
Qed.

Lemma integer_of_negate x n : integer_of x = Some n -> integer_of (negate x) = Some (- n).
Proof.
  destruct x as [|b|m e]; simpl; [done..|]. destruct (Z.leb_spec 0 e).
  - intros [= <-]. f_equal. lia.
  - assert (2 ^ (- e) <> 0) by (apply Z.pow_nonzero; lia).
    destruct (Z.eqb_spec (m mod 2 ^ (- e)) 0) as [E|]; [|done]. intros [= <-].
    rewrite Z.mod_opp_l_z, Z.div_opp_l_z by done. done.
Qed.

(** Writing a safe integer as text and reading it back gives the integer. *)
Lemma Number_String_roundtrip (n : Z) (H : Z.abs n <= max_safe) :
  safe_integer (Number (pretty n)) = Some n.
Proof.
  destruct (Z.leb_spec 0 n); [apply Number_pretty; lia|].
  destruct n as [|p|p]; [lia..|].
  assert (pretty (Zneg p) = "-" +:+ pretty (Zpos p)) as -> by done.
  assert (Number ("-" +:+ pretty (Zpos p)) = negate (read_unsigned (pretty (Zpos p)))) as ->.
  { unfold Number. rewrite trim_graph; [done|]. simpl.
    apply digits_graph. by apply pretty_Z_digits. }
  rewrite read_unsigned_digits by (apply pretty_Z_digits || apply pretty_Z_nonempty; lia).
  rewrite digits_value_pretty by lia. unfold round_decimal. simpl Z.leb. cbv iota.
  rewrite Z.pow_0_r, Z.mul_1_r. unfold safe_integer.
  rewrite (integer_of_negate _ (Zpos p)).
  - rewrite (proj2 (Z.leb_le _ _)) by lia. done.
  - apply round_nonneg_integer. unfold max_safe in H. lia.
Qed.
