(* ===== verification/Json.v ===== *)
(** JSON values, as [JSON.parse] gives them and [JSON.stringify] writes them.

    Responses of runnerd are [unknown] to the console until they are inspected;
    numbers are integers (identifiers, counts and sizes), any other number
    literal being kept as its text. *)
From S2P Require Import Prelude.
From S2P Require Import JsString.

Inductive json :=
  | JNull
  | JBool (b : bool)
  | JNum (n : Z)
  | JStr (s : string)
  | JArr (l : list json)
  | JObj (fields : list (string * json))
  | JDec (literal : string).

(** ** [JSON.stringify(value)] and [JSON.stringify(value, null, 2)] *)

Definition hex_digit (n : N) : string :=
  chr (if (n <? 10)%N then 48 + n else 87 + n).

Definition escape_char (a : ascii) : string :=
  let c := code a in
  if (c =? 34)%N then chr 92 +:+ chr 34
  else if (c =? 92)%N then chr 92 +:+ chr 92
  else if (c =? 8)%N then chr 92 +:+ "b"
  else if (c =? 12)%N then chr 92 +:+ "f"
  else if (c =? 10)%N then chr 92 +:+ "n"
  else if (c =? 13)%N then chr 92 +:+ "r"
  else if (c =? 9)%N then chr 92 +:+ "t"
  else if (c <? 32)%N then chr 92 +:+ "u00" +:+ hex_digit (c / 16) +:+ hex_digit (c mod 16)
  else String a "".

Fixpoint escape_string (s : string) : string :=
  match s with
  | EmptyString => ""
  | String a s => escape_char a +:+ escape_string s
  end.

Definition quote (s : string) : string := dquote +:+ escape_string s +:+ dquote.

Definition block (open close indent : string) (items : list string) : string :=
  match items with
  | [] => open +:+ close
  | _ =>
      open +:+ newline +:+ indent +:+ "  " +:+
      join ("," +:+ newline +:+ indent +:+ "  ") items +:+ newline +:+ indent +:+ close
  end.

(** The text of a value whose enclosing line is indented by [indent]. *)
Fixpoint stringify_indented (indent : string) (v : json) : string :=
  match v with
  | JNull => "null"
  | JBool b => if b then "true" else "false"
  | JNum n => pretty n
  | JDec literal => literal
  | JStr s => quote s
  | JArr l => block "[" "]" indent (map (stringify_indented (indent +:+ "  ")) l)
  | JObj fields =>
      block "{" "}" indent
        (map (fun '(k, w) => quote k +:+ ": " +:+ stringify_indented (indent +:+ "  ") w) fields)
  end.

Fixpoint stringify (v : json) : string :=
  match v with
  | JNull => "null"
  | JBool b => if b then "true" else "false"
  | JNum n => pretty n
  | JDec literal => literal
  | JStr s => quote s
  | JArr l => "[" +:+ join "," (map stringify l) +:+ "]"
  | JObj fields =>
      "{" +:+ join "," (map (fun '(k, w) => quote k +:+ ":" +:+ stringify w) fields) +:+ "}"
  end.

(** ** Reading a value *)

Fixpoint assoc (k : string) (fields : list (string * json)) : option json :=
  match fields with
  | [] => None
  | (k', v) :: fields => if bool_decide (k = k') then Some v else assoc k fields
  end.

(** [value.k] of an object; [None] is [undefined]. *)
Definition field (k : string) (v : json) : option json :=
  match v with JObj fields => assoc k fields | _ => None end.

Definition is_array (v : option json) : bool :=
  match v with Some (JArr _) => true | _ => false end.

Definition is_object (v : json) : bool :=
  match v with JObj _ | JArr _ => true | _ => false end.

Definition as_string (v : option json) : option string :=
  match v with Some (JStr s) => Some s | _ => None end.

Example stringify_example :
  stringify (JObj [("mode", JStr "inherit"); ("n", JNum (-3)); ("l", JArr [JBool true; JNull])]) =
  "{" +:+ dquote +:+ "mode" +:+ dquote +:+ ":" +:+ dquote +:+ "inherit" +:+ dquote +:+ "," +:+
  dquote +:+ "n" +:+ dquote +:+ ":-3," +:+ dquote +:+ "l" +:+ dquote +:+ ":[true,null]}".
Proof. vm_compute. reflexivity. Qed.
