(* ===== verification/AdminTypes.v ===== *)
(** The data the console exchanges with runnerd: src/ui/src/admin-types.ts.

    An optional field ([field?: T]) is an [option]; a number is an integer [Z]
    (every number of these types is an identifier, a count or a size written
    by the Go server from an integer); a timestamp is the string the server
    sent. *)
From S2P Require Import Prelude.
From S2P Require Import JsString.

Inductive RunnerStatus := queued | creating | running | stopping | completed | failed.

#[export] Instance RunnerStatus_eq_dec : EqDecision RunnerStatus.
Proof. solve_decision. Defined.

(** [RunnerStatus | "unmatched"]. *)
Inductive RunnerDisplayStatus := Status (s : RunnerStatus) | unmatched.

#[export] Instance RunnerDisplayStatus_eq_dec : EqDecision RunnerDisplayStatus.
Proof. solve_decision. Defined.

Record RunnerState := {
  id : string;
  status : RunnerStatus;
  repository_full_name : option string;
  requested_labels : option (list string);
  runner_spec_name : option string;
  runner_group : option string;
  runner_name : string;
  sandbox_id : option string;
  sandbox_config_source : option string;
  process_pid : option Z;
  workflow_job_id : option Z;
  workflow_run_id : option Z;
  workflow_name : option string;
  workflow_run_attempt : option Z;
  head_branch : option string;
  head_sha : option string;
  github_job_url : option string;
  pull_request_number : option Z;
  assigned_job_id : option Z;
  assigned_job_name : option string;
  error : option string;
  failure_stage : option string;
  failure_reason : option string;
  last_error_code : option string;
  last_error_message : option string;
  last_error_retryable : option bool;
  retry_count : option Z;
  updated_at : string;
  created_at : string;
  running_at : option string;
  next_retry_at : option string;
  completed_at : option string;
  failed_at : option string;
}.

(** A request with nothing but its identity, status and timestamps set; the
    witnesses start from it. *)
Definition blank_runner (i : string) (s : RunnerStatus) (name created updated : string) :
    RunnerState := {|
  id := i; status := s; repository_full_name := None; requested_labels := None;
  runner_spec_name := None; runner_group := None; runner_name := name;
  sandbox_id := None; sandbox_config_source := None; process_pid := None;
  workflow_job_id := None; workflow_run_id := None; workflow_name := None;
  workflow_run_attempt := None; head_branch := None; head_sha := None;
  github_job_url := None; pull_request_number := None; assigned_job_id := None;
  assigned_job_name := None; error := None; failure_stage := None;
  failure_reason := None; last_error_code := None; last_error_message := None;
  last_error_retryable := None; retry_count := None; updated_at := updated;
  created_at := created; running_at := None; next_retry_at := None;
  completed_at := None; failed_at := None |}.

Inductive JobGroupKind := GroupPullRequest | GroupBranch | GroupWorkflowRun | GroupManual
  | GroupRepository.

Record RunnerJobGroup := {
  jg_key : string;
  jg_group : JobGroupKind;
  jg_repository : string;
  jg_title : string;
  jg_subtitle : string;
  jg_updated_at : string;
  jg_jobs : list RunnerState;
  jg_current_jobs : list RunnerState;
  jg_previous_jobs : list RunnerState;
  jg_workflow_run_ids : list Z;
  jg_head_sha : option string;
  jg_head_branch : option string;
  jg_pull_request_number : option Z;
  jg_pull_request_title : option string;
  jg_pull_request_title_error : option string;
}.

Record RunnerSpec := {
  spec_name : string;
  spec_labels : list string;
  spec_required_labels : list string;
  spec_template_id : string;
  spec_default_template_name : option string;
  spec_managed_by : option string;
  spec_catalog_revision : option Z;
  spec_runner_group : option string;
  spec_max_concurrency : Z;
  spec_min_idle : Z;
  spec_priority : Z;
  spec_enabled : bool;
  spec_created_at : string;
  spec_updated_at : string;
}.

Record RunnerSpecMatch := {
  match_repository_full_name : string;
  match_labels : list string;
  match_runner_spec : option RunnerSpec;
  match_reason : option string;
}.

Record PprofTarget := { address : string; address_file : string; dump_script : string }.

Record DiagnosticsSummary := {
  diag_pprof : list PprofTarget;
  diag_backend : string;
  diag_database : string;
  diag_auth_mode : string;
  diag_installation_id : option Z;
  diag_api_base_url : string;
  diag_recent_failures : list RunnerState;
}.

Record AuditEvent := {
  audit_id : Z;
  audit_actor : string;
  audit_action : string;
  audit_resource_type : string;
  audit_resource_id : string;
  audit_payload_json : option string;
  audit_created_at : string;
}.

Record AuthSession := {
  authenticated : bool;
  oauth_enabled : bool;
  login : option string;
  role : option string;
  avatar_url : option string;
  expires_at : option string;
}.

Inductive AccountRole := AdminRole | UserRole.

Record AdminOAuthIdentity := {
  identity_id : Z;
  identity_account_id : Z;
  oauth_provider : string;
  oauth_subject : string;
  oauth_login : string;
  identity_created_at : string;
  identity_updated_at : string;
}.

Record AdminAccount := {
  account_id : Z;
  account_role : AccountRole;
  account_created_at : string;
  account_updated_at : string;
  oauth_identities : list AdminOAuthIdentity;
}.

Record AdminAccountStats := {
  total_accounts : Z;
  admin_accounts : Z;
  user_accounts : Z;
  stats_oauth_identities : Z;
}.

Record AdminAccountsResponse := {
  resp_accounts : list AdminAccount;
  resp_current_account_id : Z;
  resp_stats : AdminAccountStats;
  resp_total : Z;
  resp_limit : Z;
  resp_offset : Z;
}.

Record GitHubInstallation := {
  inst_id : Z;
  inst_account_id : Z;
  inst_installation_id : Z;
  account_login : option string;
  account_name : option string;
  account_avatar : option string;
  manageable : option bool;
  inst_repositories : list string;
  inst_created_at : string;
  inst_updated_at : string;
}.

Record GitHubAppConfig := {
  app_slug : option string;
  install_url : option string;
  setup_url : string;
  settings_manageability : option bool;
  installations : list GitHubInstallation;
}.

Record CachePreferences := {
  cache_configured : bool;
  cache_region : option string;
  cache_bucket : option string;
  cache_prefix : option string;
  cache_endpoint : option string;
  cache_updated_at : option string;
}.

Inductive CredentialMode := Custom | Inherit.

#[export] Instance CredentialMode_eq_dec : EqDecision CredentialMode.
Proof. solve_decision. Defined.

Inductive ResolvedSource := SrcCustom | SrcInherited | SrcAdminDefault | SrcNone.

#[export] Instance ResolvedSource_eq_dec : EqDecision ResolvedSource.
Proof. solve_decision. Defined.

Record SandboxPreferences := {
  mode : CredentialMode;
  resolved_source : ResolvedSource;
  sandbox_api_url : string;
  sandbox_manageable : option bool;
  inherited : option bool;
  source_account_id : option Z;
  source_account_login : option string;
  source_is_current_account : option bool;
  source_available : option bool;
  key_configured : bool;
  key_updated_at : option string;
}.

Record UserPreferences := {
  cache : CachePreferences;
  sandbox : SandboxPreferences;
}.

Inductive TourStatus := TourPending | TourCompleted | TourSkipped.

#[export] Instance TourStatus_eq_dec : EqDecision TourStatus.
Proof. solve_decision. Defined.

Record ProductTourOnboarding := {
  tour_version : Z;
  tour_status : TourStatus;
  tour_seen : bool;
}.

Inductive AudienceMode := AudienceAll | AudienceSelected.

Record SandboxAudienceAccount := {
  github_account_id : Z;
  account_type : string;
  aud_account_login : string;
  aud_account_name : option string;
  aud_account_avatar : option string;
}.

Record SandboxServiceDefault := {
  default_enabled : bool;
  default_configured : bool;
  default_audience_mode : AudienceMode;
  default_audiences : list (Z * SandboxAudienceAccount);
  default_available_accounts : list SandboxAudienceAccount;
  default_api_url : string;
  default_key_configured : bool;
  default_key_updated_at : option string;
}.

(** A metric card: its label and description are texts of the interface. *)
Record Metric := {
  metric_id : string;
  metric_label : string;
  metric_value : Z;
  metric_description : string;
}.

Record SandboxTemplate := {
  template_id : string;
  aliases : list string;
  build_status : string;
  tpl_cpu_count : Z;
  tpl_memory_mb : Z;
  tpl_disk_size_mb : Z;
  public : bool;
  spawn_count : Z;
  tpl_updated_at : string;
}.

Record SandboxInstance := {
  instance_sandbox_id : string;
  instance_template_id : string;
  instance_alias : option string;
  instance_state : string;
  instance_cpu_count : Z;
  instance_memory_mb : Z;
  instance_disk_size_mb : Z;
  started_at : string;
  instance_expires_at : string;
}.

Definition activeStatuses : list RunnerStatus := [queued; creating; running; stopping].

Inductive LogName := ControlLog | StdoutLog | StderrLog.

Definition logNames : list LogName := [ControlLog; StdoutLog; StderrLog].

Definition logName_string (n : LogName) : string :=
  match n with
  | ControlLog => "control.log" | StdoutLog => "stdout.log" | StderrLog => "stderr.log"
  end.

Inductive AdminSection :=
  | overview | accounts | runner_requests | runner_specs | sandbox_service
  | matching | audit | diagnostics.

#[export] Instance AdminSection_eq_dec : EqDecision AdminSection.
Proof. solve_decision. Defined.

Definition adminSections : list AdminSection :=
  [overview; accounts; runner_requests; runner_specs; sandbox_service; matching; audit;
   diagnostics].

Definition section_slug (s : AdminSection) : string :=
  match s with
  | overview => "overview"
  | accounts => "accounts"
  | runner_requests => "runner_requests"
  | runner_specs => "runner_specs"
  | sandbox_service => "sandbox_service"
  | matching => "match"
  | audit => "audit"
  | diagnostics => "diagnostics"
  end.

(** [adminSections.includes(slug)], with the section found. *)
Definition section_of_slug (slug : string) : option AdminSection :=
  find_first (fun s => bool_decide (section_slug s = slug)) adminSections.

(** [sectionFromPath]: [pathname.replace(/^\/admin\/?/, "") || "overview"]. *)
Definition sectionFromPath (pathname : string) : AdminSection :=
  let rest := match drop_prefix "/admin" pathname with
              | Some r => match drop_prefix "/" r with Some r' => r' | None => r end
              | None => pathname
              end in
  let slug := if str_truthy rest then rest else "overview" in
  default overview (section_of_slug slug).

Lemma section_of_slug_slug s : section_of_slug (section_slug s) = Some s.
Proof. by destruct s. Qed.

Lemma section_of_slug_Some slug s : section_of_slug slug = Some s -> section_slug s = slug.
Proof. intros [_ H]%find_first_Some. by apply bool_decide_eq_true_1 in H. Qed.

Lemma logName_string_inj n m : logName_string n = logName_string m -> n = m.
Proof. by destruct n, m. Qed.
