(* ===== verification/LoadPolicy.v ===== *)
(** Route access and loading policy: src/ui/src/app-load-policy.ts and
    src/ui/src/site-doc-routes.ts.

    Which routes exist and who may see them, which data a route loads and
    polls, and the gate that drops the responses of a load the user has
    navigated away from. *)
From S2P Require Import Prelude.
From S2P Require Import JsString.
From S2P Require Import JsRegex.
From S2P Require Import JsUri.
From S2P Require Import AdminTypes.

(** ** Public documents (site-doc-routes.ts) *)

Definition siteDocumentRoutes : list string :=
  ["/docs"; "/docs/getting-started/hosted"; "/docs/getting-started/deploy";
   "/docs/guides/workflow"; "/docs/guides/cache"; "/docs/guides/custom-templates";
   "/docs/troubleshooting"; "/docs/reference/runner-labels"].

Definition isSiteDocumentPath (path : string) : bool :=
  bool_decide (path ∈ siteDocumentRoutes).

(** ** Constants and kinds *)

Definition userRunnerInitialPageSize : Z := 100.
Definition userRunnerHistoryWindow : Z := 500.

Inductive AdminDataResource := res_runner_requests | res_runner_specs | res_audit_events.
Inductive UserDataResource := res_github_app | res_user_runner_requests | res_preferences
  | res_onboarding.

#[export] Instance AdminDataResource_eq_dec : EqDecision AdminDataResource.
Proof. solve_decision. Defined.
#[export] Instance UserDataResource_eq_dec : EqDecision UserDataResource.
Proof. solve_decision. Defined.

Inductive AppRouteAccess := access_public | access_user | access_admin | access_not_found.
Inductive AuthSessionCheckStatus := checking | ready | session_error.
Inductive AuthRouteViewState := view_loading | view_authenticated | view_sign_in | view_error.

#[export] Instance AppRouteAccess_eq_dec : EqDecision AppRouteAccess.
Proof. solve_decision. Defined.

(** ** The load gate

    [createLatestUserLoadGate] closes over two variables. *)
Record LoadGate := { generation : Z; scope : string }.

Definition createLatestUserLoadGate : LoadGate := {| generation := 0; scope := "" |}.

(** [begin(nextScope)]: the gate afterwards and the generation returned. *)
Definition gate_begin (nextScope : string) (g : LoadGate) : LoadGate * Z :=
  let g' := if bool_decide (nextScope = scope g) then g
            else {| generation := generation g + 1; scope := nextScope |} in
  (g', generation g').

Definition gate_isCurrent (candidate : option Z) (g : LoadGate) : bool :=
  bool_decide (candidate = Some (generation g)).

(** ** Data of a section or a route *)

Definition adminResourcesBySection (s : AdminSection) : list AdminDataResource :=
  match s with
  | overview => [res_runner_requests; res_runner_specs]
  | accounts => []
  | runner_requests => [res_runner_requests; res_runner_specs]
  | runner_specs => [res_runner_specs]
  | sandbox_service => []
  | matching => []
  | audit => [res_audit_events]
  | diagnostics => []
  end.

Definition adminDataResources (s : AdminSection) : list AdminDataResource :=
  adminResourcesBySection s.

Definition shouldPollAdminSection (s : AdminSection) : bool :=
  bool_decide (s = overview) || bool_decide (s = runner_requests).

Definition adminPollingResources (s : AdminSection) : list AdminDataResource :=
  if shouldPollAdminSection s then [res_runner_requests] else [].

Definition userJobsRes : list (list piece) :=
  [ [Lit "/github/"; OneOf true ["pulls"; "runs"]; Lit "/"; Many false NotSlash; Lit "/";
     Many false NotSlash; Lit "/"; Many false NotSlash; Lit "/jobs"];
    [Lit "/github/branches/"; Many false NotSlash; Lit "/"; Many false NotSlash; Lit "/";
     Many false Dot; Lit "/jobs"];
    [Lit "/jobs/"; OneOf true ["pulls"; "runs"]; Lit "/"; Many false NotSlash; Lit "/";
     Many false NotSlash; Lit "/"; Many false Digit];
    [Lit "/jobs/branches/"; Many false NotSlash; Lit "/"; Many false NotSlash; Lit "/";
     Many false Dot; Lit "/"; Many false NotSlash];
    [Lit "/jobs/manual/"; Many false NotSlash; Lit "/"; Many false NotSlash; Lit "/";
     Many false NotSlash] ].

Definition isUserJobsRoute (path : string) : bool :=
  bool_decide (path = "/jobs") || existsb (fun re => test re path) userJobsRes.

Definition isAccountSettingsRoute (path : string) : bool :=
  bool_decide (path = "/settings") ||
  bool_decide (path = "/accounts") ||
  test [Lit "/account/";
        OneOf true ["repositories"; "preferences"; "sandbox"; "sandbox-templates";
                    "sandbox-instances"]] path ||
  test [Lit "/organizations/"; Many false NotSlash; Lit "/";
        OneOf true ["repositories"; "preferences"; "sandbox"; "sandbox-templates";
                    "sandbox-instances"]] path.

Definition isSandboxSettingsRoute (path : string) : bool :=
  bool_decide (path = "/settings") ||
  bool_decide (path = "/accounts") ||
  test [Lit "/account/";
        OneOf true ["preferences"; "sandbox"; "sandbox-templates"; "sandbox-instances"]] path ||
  test [Lit "/organizations/"; Many false NotSlash; Lit "/";
        OneOf true ["preferences"; "sandbox"; "sandbox-templates"; "sandbox-instances"]] path.

Definition userDataResources (path : string) : list UserDataResource :=
  if isUserJobsRoute path then [res_github_app; res_user_runner_requests; res_onboarding]
  else if bool_decide (path = "/repositories")
  then [res_github_app; res_preferences; res_onboarding]
  else if isAccountSettingsRoute path
  then [res_github_app; res_preferences; res_onboarding]
  else [].

Definition userGitHubAppPath (path : string) : string :=
  if isSandboxSettingsRoute path then "/user/github-app?include=settings"
  else "/user/github-app".

Definition shouldPollUserRoute (path : string) : bool := isUserJobsRoute path.

Definition userPollingResources (path : string) : list UserDataResource :=
  if shouldPollUserRoute path then [res_user_runner_requests] else [].

(** [loadOptionalUserResource]: a rejected promise ([inl]) becomes [null]. *)
Definition loadOptionalUserResource {E A} (resource : E + A) : option A :=
  match resource with inl _ => None | inr a => Some a end.

Definition userRunnerRequestLimit (path : string) (polling : bool) : Z :=
  if polling || bool_decide (path = "/jobs") then userRunnerInitialPageSize
  else if isUserJobsRoute path then userRunnerHistoryWindow else userRunnerInitialPageSize.

Definition userRunnerRequestsPath (limit offset : Z) : string :=
  "/user/runner_requests?limit=" +:+ pretty limit +:+ "&offset=" +:+ pretty offset.

(** ** Who may see a route *)

Definition isAdminRoute (path : string) : bool :=
  if bool_decide (path = "/admin") || bool_decide (path = "/admin/") then true
  else match groups1 (exec [Lit "/admin/"; Many true NotSlash] path) with
       | Some slug => match section_of_slug slug with Some _ => true | None => false end
       | None => false
       end.

Definition isUserRoute (path : string) : bool :=
  isUserJobsRoute path ||
  test [Lit "/jobs/"; Many false NotSlash] path ||
  bool_decide (path = "/repositories") ||
  isAccountSettingsRoute path.

Definition appRouteAccess (path : string) : AppRouteAccess :=
  if bool_decide (path = "/") || isSiteDocumentPath path then access_public
  else if isAdminRoute path then access_admin
  else if isUserRoute path then access_user
  else access_not_found.

Definition authRouteViewState (status : AuthSessionCheckStatus) (authenticated : bool) :
    AuthRouteViewState :=
  match status with
  | checking => view_loading
  | session_error => view_error
  | ready => if authenticated then view_authenticated else view_sign_in
  end.

Definition signInURL (path search : string) : string :=
  let safePath := if startsWith "/" path && negb (startsWith "//" path) then path else "/jobs" in
  let safeSearch := if startsWith "?" search then search else "" in
  "/auth/github/login?return_to=" +:+ encodeURIComponent (safePath +:+ safeSearch).

(** * Properties *)

Lemma section_slug_segment s : section_slug s <> "" /\ free "/" (section_slug s) = true.
Proof. by destruct s. Qed.

Lemma isAdminRoute_section s : isAdminRoute ("/admin/" +:+ section_slug s) = true.
Proof. by destruct s. Qed.

(** The admin pages are the two spellings of the overview and one page per
    section: an unknown section is not an admin route. *)
Lemma isAdminRoute_spec p :
  isAdminRoute p = true <->
  p = "/admin" \/ p = "/admin/" \/ exists s, p = "/admin/" +:+ section_slug s.
Proof.
  split.
  - unfold isAdminRoute. destruct (bool_decide (p = "/admin") || _) eqn:E.
    { apply orb_prop in E as [E|E]; apply bool_decide_eq_true_1 in E; auto. }
    destruct (exec _ p) as [caps|] eqn:Em; [|done]. apply exec_sound in Em.
    apply matches_lit_inv in Em as (r & -> & Em).
    apply matches_many_inv in Em as (w & r' & c & -> & _ & _ & Em & ->).
    apply matches_nil_inv in Em as [-> ->]. simpl.
    destruct (section_of_slug w) as [s|] eqn:Es; [|done]. intros _.
    apply section_of_slug_Some in Es. right; right. exists s. by rewrite Es, sapp_nil_r.
  - intros [-> | [-> | [s ->]]]; [done..|apply isAdminRoute_section].
Qed.

(** A page is an admin page exactly when it is [/admin], [/admin/] or
    [/admin/] followed by the slug of a section; no public page is one. *)
Theorem appRouteAccess_admin (p : string) :
  appRouteAccess p = access_admin <->
  p = "/admin" \/ p = "/admin/" \/ exists s, p = "/admin/" +:+ section_slug s.
Proof.
  rewrite <- isAdminRoute_spec. unfold appRouteAccess, isSiteDocumentPath.
  destruct (bool_decide (p = "/") || bool_decide (p ∈ siteDocumentRoutes)) eqn:E.
  - split; [done|]. intros [-> | [-> | [[] ->]]]%isAdminRoute_spec; vm_compute in E; done.
  - destruct (isAdminRoute p); [done|]. by destruct (isUserRoute p).
Qed.

(** [setSection] of App.tsx: the section shown and its URL. *)
Definition setSectionTarget (next : string) : AdminSection :=
  default overview (section_of_slug next).

Definition setSectionPath (next : string) : string :=
  let section := setSectionTarget next in
  if bool_decide (section = overview) then "/admin/" else "/admin/" +:+ section_slug section.

(** Choosing a section pushes an admin URL from which the same section is
    read back, for any text passed as the section. *)
Theorem setSection_roundtrip (next : string) :
  sectionFromPath (setSectionPath next) = setSectionTarget next /\
  appRouteAccess (setSectionPath next) = access_admin.
Proof.
  split.
  - unfold setSectionPath. by destruct (setSectionTarget next).
  - apply appRouteAccess_admin. unfold setSectionPath.
    case_bool_decide; [auto|]. right; right. by eexists.
Qed.

(** The text the sign-in link asks to return to. *)
Definition signInTarget (path search : string) : string :=
  (if startsWith "/" path && negb (startsWith "//" path) then path else "/jobs") +:+
  (if startsWith "?" search then search else "").

Definition local_target (t : string) : Prop :=
  exists r, t = "/" +:+ r /\ startsWith "/" r = false.

Lemma signInTarget_local path search : local_target (signInTarget path search).
Proof.
  unfold signInTarget. set (tail := if startsWith "?" search then search else "").
  assert (tail = "" \/ exists u, tail = "?" +:+ u) as Htail.
  { unfold tail. destruct (startsWith "?" search) eqn:E; [|by left].
    right. by apply startsWith_spec. }
  clearbody tail.
  destruct (startsWith "/" path) eqn:E1; cbn [andb].
  - apply startsWith_spec in E1 as [r ->]. destruct (startsWith "//" _) eqn:E2; cbn [negb].
    + exists ("jobs" +:+ tail). split; [done|]. done.
    + exists (r +:+ tail). rewrite sapp_assoc. split; [done|].
      destruct r as [|a r]; [by destruct Htail as [->|[u ->]]|].
      simpl String.append in *. rewrite !startsWith_cons in E2. rewrite startsWith_cons.
      by destruct (Ascii.eqb "/" a).
  - exists ("jobs" +:+ tail). done.
Qed.

(** The sign-in link never sends the user to another site: its
    [return_to] parameter decodes to a path that starts with one slash and not
    two, whatever the location was; and to the location itself when that is a
    path of this site. *)
Theorem signInURL_local (path search : string) (Hp : utf8 path) (Hs : utf8 search) :
  exists target,
    signInURL path search = "/auth/github/login?return_to=" +:+ target /\
    (exists t, decodeURIComponent target = Some t /\ local_target t /\
       (local_target path -> startsWith "?" search = true -> t = path +:+ search)).
Proof.
  exists (encodeURIComponent (signInTarget path search)). split; [done|].
  exists (signInTarget path search). split_and!.
  - apply decode_encode. unfold signInTarget. apply utf8_app.
    + case_goal; [done|by apply utf8_ascii].
    + case_goal; [done|by apply utf8_ascii].
  - apply signInTarget_local.
  - intros (r & -> & Hr) Hq. unfold signInTarget. rewrite Hq.
    destruct r as [|a r]; [done|].
    simpl String.append. rewrite !startsWith_cons. rewrite startsWith_cons in Hr.
    by destruct (Ascii.eqb "/" a).
Qed.

Lemma signInURL_local_witness :
  exists target,
    signInURL "//evil.example" "?job=1" = "/auth/github/login?return_to=" +:+ target /\
    (exists t, decodeURIComponent target = Some t /\ local_target t /\
       (local_target "//evil.example" -> startsWith "?" "?job=1" = true ->
        t = "//evil.example" +:+ "?job=1")).
Proof. apply signInURL_local; by apply utf8b_sound. Defined.

(** What a route polls is part of what it loads, for the admin sections and
    for the user routes: a poll never introduces data the page did not ask
    for. *)
Theorem polling_within_loading (s : AdminSection) (path : string) :
  adminPollingResources s ⊆ adminDataResources s /\
  userPollingResources path ⊆ userDataResources path.
Proof.
  split.
  - destruct s; unfold adminPollingResources, adminDataResources; simpl; set_solver.
  - unfold userPollingResources, shouldPollUserRoute, userDataResources.
    destruct (isUserJobsRoute path); set_solver.
Qed.
