(* ===== verification/AppRoutes.v ===== *)
(** The URL grammar of the signed-in console: the route functions at the end of
    src/ui/src/App.tsx.

    A build context ("job group") is named by a key such as
    [pr:owner/repo:12] or [branch:owner/repo:main:sha]; [userJobsPath] writes
    the key as a URL and [userJobsGroupKeyFromLocation] reads it back.  Account
    settings tabs and the job inside a group have URLs of their own. *)
From S2P Require Import Prelude.
From S2P Require Import JsString.
From S2P Require Import JsRegex.
From S2P Require Import JsUri.
From S2P Require Import UrlPath.
From S2P Require Import AdminTypes.
From S2P Require Import LoadPolicy.

(** ** Building blocks *)

(** [safeDecodePathSegment]: a malformed escape gives [null]. *)
Definition safeDecodePathSegment (value : string) : option string :=
  decodeURIComponent value.

Definition decodeRepositoryPath (ownerSegment repoSegment : string) : string :=
  match safeDecodePathSegment ownerSegment, safeDecodePathSegment repoSegment with
  | Some owner, Some repo =>
      if str_truthy owner && str_truthy repo
      then owner +:+ "/" +:+ repo else "unknown/repository"
  | _, _ => "unknown/repository"
  end.

Definition encodeRepositoryPath (repository : string) : string :=
  join "/" (map encodeURIComponent (split_on "/" repository)).

Definition withSearchParam (path key value : string) : string :=
  let parts := split_on "?" path in
  let pathname := default "" (parts !! 0) in
  let search := default "" (parts !! 1) in
  let query := show_params (params_set key value (parse_params search)) in
  if str_truthy query then pathname +:+ "?" +:+ query else pathname.

Definition search_get (name search : string) : option string :=
  params_get name (parse_params search).

Definition withPreservedJobSearch (path search : string) : string :=
  match search_get "job" search with
  | Some job => if str_truthy job then withSearchParam path "job" job else path
  | None => path
  end.

Definition userPreferencesPath (installationID : option Z) (base : string) : string :=
  match installationID with
  | Some n =>
      if (n =? 0)%Z then base
      else base +:+ "?installation_id=" +:+ encodeURIComponent (pretty n)
  | None => base
  end.

(** ** Account settings *)

Inductive AccountSettingsTab :=
  | TabRepositories | TabPreferences | TabSandboxTemplates | TabSandboxInstances.

Record AccountSettingsRoute := {
  route_accountLogin : option string;
  route_tab : AccountSettingsTab;
}.

Definition settingsTabs : list string :=
  ["repositories"; "preferences"; "sandbox"; "sandbox-templates"; "sandbox-instances"].

(** [/^\/organizations\/([^/]+)\/(repositories|...|sandbox-instances)$/] *)
Definition organizationSettingsRe : list piece :=
  [Lit "/organizations/"; Many true NotSlash; Lit "/"; OneOf true settingsTabs].

Definition isAccountSettingsPath (path : string) : bool :=
  bool_decide (path = "/settings") ||
  bool_decide (path = "/accounts") ||
  bool_decide (path = "/account/repositories") ||
  bool_decide (path = "/account/preferences") ||
  bool_decide (path = "/account/sandbox") ||
  bool_decide (path = "/account/sandbox-templates") ||
  bool_decide (path = "/account/sandbox-instances") ||
  test organizationSettingsRe path.

Definition defaultAccountSettingsRoute (currentLogin : option string) : AccountSettingsRoute :=
  {| route_accountLogin := currentLogin; route_tab := TabPreferences |}.

(** The tab of a URL segment; the old [sandbox] segment is the templates tab. *)
Definition tabOfSegment (segment : string) : option AccountSettingsTab :=
  if bool_decide (segment = "sandbox") then Some TabSandboxTemplates
  else if bool_decide (segment = "repositories") then Some TabRepositories
  else if bool_decide (segment = "preferences") then Some TabPreferences
  else if bool_decide (segment = "sandbox-templates") then Some TabSandboxTemplates
  else if bool_decide (segment = "sandbox-instances") then Some TabSandboxInstances
  else None.

Definition parseAccountSettingsRoute (path : string) (currentLogin : option string) :
    option AccountSettingsRoute :=
  let own tab := Some {| route_accountLogin := currentLogin; route_tab := tab |} in
  if bool_decide (path = "/settings") || bool_decide (path = "/accounts")
  then Some (defaultAccountSettingsRoute currentLogin)
  else if bool_decide (path = "/account/repositories") then own TabRepositories
  else if bool_decide (path = "/account/preferences") then own TabPreferences
  else if bool_decide (path = "/account/sandbox") ||
          bool_decide (path = "/account/sandbox-templates") then own TabSandboxTemplates
  else if bool_decide (path = "/account/sandbox-instances") then own TabSandboxInstances
  else match groups2 (exec organizationSettingsRe path) with
  | Some (login, segment) =>
      match safeDecodePathSegment login, tabOfSegment segment with
      | Some accountLogin, Some tab =>
          if str_truthy accountLogin
          then Some {| route_accountLogin := Some accountLogin; route_tab := tab |} else None
      | _, _ => None
      end
  | _ => None
  end.

Definition tabSegment (tab : AccountSettingsTab) : string :=
  match tab with
  | TabPreferences => "preferences"
  | TabSandboxTemplates => "sandbox-templates"
  | TabSandboxInstances => "sandbox-instances"
  | TabRepositories => "repositories"
  end.

Definition accountSettingsPath (accountLogin currentLogin : option string)
    (tab : AccountSettingsTab) : string :=
  let segment := tabSegment tab in
  let login := trim <$> accountLogin in
  if negb (opt_truthy login) || bool_decide (login = currentLogin)
  then "/account/" +:+ segment
  else "/organizations/" +:+ encodeURIComponent (default "" login) +:+ "/" +:+ segment.

(** ** Jobs *)

Definition userJobIDFromPath (path : string) : string :=
  match groups1 (exec [Lit "/jobs/"; Many true NotSlash] path) with
  | Some id => default "" (safeDecodePathSegment id)
  | None => ""
  end.

Definition userJobIDFromSearch (search : string) : string :=
  default "" (search_get "job" search).

Definition pullsRe : list piece :=
  [Lit "/github/pulls/"; Many true NotSlash; Lit "/"; Many true NotSlash; Lit "/";
   Many true Digit; Lit "/jobs"].
Definition legacyPullsRe : list piece :=
  [Lit "/jobs/pulls/"; Many true NotSlash; Lit "/"; Many true NotSlash; Lit "/";
   Many true Digit].
Definition runsRe : list piece :=
  [Lit "/github/runs/"; Many true NotSlash; Lit "/"; Many true NotSlash; Lit "/";
   Many true Digit; Lit "/jobs"].
Definition legacyRunsRe : list piece :=
  [Lit "/jobs/runs/"; Many true NotSlash; Lit "/"; Many true NotSlash; Lit "/";
   Many true Digit].
Definition branchRe : list piece :=
  [Lit "/github/branches/"; Many true NotSlash; Lit "/"; Many true NotSlash; Lit "/";
   Many true Dot; Lit "/"; Many true NotSlash; Lit "/jobs"].
Definition branchQueryRe : list piece :=
  [Lit "/github/branches/"; Many true NotSlash; Lit "/"; Many true NotSlash; Lit "/";
   Many true NotSlash; Lit "/jobs"].
Definition legacyBranchRe : list piece :=
  [Lit "/jobs/branches/"; Many true NotSlash; Lit "/"; Many true NotSlash; Lit "/";
   Many true Dot; Lit "/"; Many true NotSlash].
Definition manualRe : list piece :=
  [Lit "/jobs/manual/"; Many true NotSlash; Lit "/"; Many true NotSlash; Lit "/";
   Many true NotSlash].

Definition branchKey (repository : string) (branch sha : option string) : string :=
  match branch, sha with
  | Some branch, Some sha =>
      if str_truthy branch && str_truthy sha
      then "branch:" +:+ repository +:+ ":" +:+ branch +:+ ":" +:+ sha else ""
  | _, _ => ""
  end.

Definition userJobsGroupKeyFromPath (path search : string) : string :=
  match groups3 (exec pullsRe path) with
  | Some (o, r, n) => "pr:" +:+ decodeRepositoryPath o r +:+ ":" +:+ n
  | None =>
  match groups3 (exec legacyPullsRe path) with
  | Some (o, r, n) => "pr:" +:+ decodeRepositoryPath o r +:+ ":" +:+ n
  | None =>
  match groups3 (exec runsRe path) with
  | Some (o, r, n) => "run:" +:+ decodeRepositoryPath o r +:+ ":" +:+ n
  | None =>
  match groups3 (exec legacyRunsRe path) with
  | Some (o, r, n) => "run:" +:+ decodeRepositoryPath o r +:+ ":" +:+ n
  | None =>
  match groups4 (exec branchRe path) with
  | Some (o, r, b, sha) =>
      branchKey (decodeRepositoryPath o r) (safeDecodePathSegment b) (safeDecodePathSegment sha)
  | None =>
  match groups3 (exec branchQueryRe path) with
  | Some (o, r, sha) =>
      branchKey (decodeRepositoryPath o r)
        (Some (default "" (search_get "branch" search))) (safeDecodePathSegment sha)
  | None =>
  match groups4 (exec legacyBranchRe path) with
  | Some (o, r, b, sha) =>
      branchKey (decodeRepositoryPath o r) (safeDecodePathSegment b) (safeDecodePathSegment sha)
  | None =>
  match groups3 (exec manualRe path) with
  | Some (o, r, id) =>
      match safeDecodePathSegment id with
      | Some id =>
          if str_truthy id
          then "manual:" +:+ decodeRepositoryPath o r +:+ ":" +:+ id else ""
      | None => ""
      end
  | None => ""
  end end end end end end end end.

(** The default value of the parameter [search] is the empty string. *)
Definition isUserJobsRoute (path : string) : bool :=
  bool_decide (path = "/jobs") || str_truthy (userJobsGroupKeyFromPath path "").

Definition userJobsGroupKeyFromLocation (path search : string) : string :=
  let pathKey := userJobsGroupKeyFromPath path search in
  if str_truthy pathKey then pathKey
  else if negb (bool_decide (path = "/jobs")) then ""
  else default "" (search_get "group" search).

Definition prKeyRe : list piece :=
  [Lit "pr:"; Many true Dot; Lit ":"; Many true Digit].
Definition runKeyRe : list piece :=
  [Lit "run:"; Many true Dot; Lit ":"; Many true Digit].
Definition branchKeyRe : list piece :=
  [Lit "branch:"; Many true NotColon; Lit ":"; Many true Dot; Lit ":"; Many true NotColon].
Definition manualKeyRe : list piece :=
  [Lit "manual:"; Many true Dot; Lit ":"; Many true NotColon].

Definition branchPath (base repository branch sha : string) : string :=
  withSearchParam
    (base +:+ encodeRepositoryPath repository +:+ "/" +:+ encodeURIComponent sha +:+ "/jobs")
    "branch" branch.

Definition userJobsPath (groupKey : string) : string :=
  if negb (str_truthy groupKey) then "/jobs" else
  match groups2 (exec prKeyRe groupKey) with
  | Some (repo, n) => "/github/pulls/" +:+ encodeRepositoryPath repo +:+ "/" +:+ n +:+ "/jobs"
  | None =>
  match groups2 (exec runKeyRe groupKey) with
  | Some (repo, n) => "/github/runs/" +:+ encodeRepositoryPath repo +:+ "/" +:+ n +:+ "/jobs"
  | None =>
  match groups3 (exec branchKeyRe groupKey) with
  | Some (repo, branch, sha) => branchPath "/github/branches/" repo branch sha
  | None =>
  match groups2 (exec manualKeyRe groupKey) with
  | Some (repo, id) =>
      "/jobs/manual/" +:+ encodeRepositoryPath repo +:+ "/" +:+ encodeURIComponent id
  | None => "/jobs?group=" +:+ encodeURIComponent groupKey
  end end end end.

Definition userJobGroupAPIPath (groupKey : string) : string :=
  if negb (str_truthy groupKey) then "" else
  match groups2 (exec prKeyRe groupKey) with
  | Some (repo, n) =>
      "/user/github/pulls/" +:+ encodeRepositoryPath repo +:+ "/" +:+ n +:+ "/jobs"
  | None =>
  match groups2 (exec runKeyRe groupKey) with
  | Some (repo, n) =>
      "/user/github/runs/" +:+ encodeRepositoryPath repo +:+ "/" +:+ n +:+ "/jobs"
  | None =>
  match groups3 (exec branchKeyRe groupKey) with
  | Some (repo, branch, sha) => branchPath "/user/github/branches/" repo branch sha
  | None => ""
  end end end.

(** The URL [openUserJob] pushes for the job [id] when the group [selected] is
    shown. *)
Definition openUserJobPath (selected id : string) : string :=
  let groupPath := if str_truthy selected then userJobsPath selected else "" in
  if str_truthy groupPath && negb (bool_decide (groupPath = "/jobs"))
  then withSearchParam groupPath "job" id
  else "/jobs/" +:+ encodeURIComponent id.

(** * Properties *)

(** ** Helpers *)

(** A path segment of the console: non-empty text without a slash. *)
Definition segment_ok (w : string) : Prop := w <> "" /\ free "/" w = true.

Lemma encode_segment s : s <> "" -> segment_ok (encodeURIComponent s).
Proof. intros. split; [by apply encode_nonempty|by apply encode_free]. Qed.

Lemma encodeRepositoryPath_two o r :
  free "/" o = true -> free "/" r = true ->
  encodeRepositoryPath (o +:+ "/" +:+ r) = encodeURIComponent o +:+ "/" +:+ encodeURIComponent r.
Proof.
  intros Ho Hr. unfold encodeRepositoryPath. simpl String.append at 2.
  rewrite split_on_app, split_on_free by done. done.
Qed.

Lemma decodeRepositoryPath_encode o r :
  utf8 o -> utf8 r -> o <> "" -> r <> "" ->
  decodeRepositoryPath (encodeURIComponent o) (encodeURIComponent r) = o +:+ "/" +:+ r.
Proof.
  intros Ho Hr No Nr. unfold decodeRepositoryPath, safeDecodePathSegment.
  rewrite !decode_encode by done. unfold str_truthy.
  by rewrite !bool_decide_eq_false_2 by done.
Qed.

(** Three captured segments after a literal prefix, with and without the
    trailing [/jobs]. *)
Lemma exec_three_jobs p c a b w :
  segment_ok a -> segment_ok b -> c <> Dot -> class_char c "/" = false ->
  w <> "" -> sforall (class_char c) w = true ->
  exec [Lit p; Many true NotSlash; Lit "/"; Many true NotSlash; Lit "/"; Many true c; Lit "/jobs"]
    (p +:+ a +:+ "/" +:+ b +:+ "/" +:+ w +:+ "/jobs") = Some [a; b; w].
Proof.
  intros [Na Fa] [Nb Fb] Hc Hx Nw Hw. rewrite exec_lit_app.
  change ("/jobs") with (String "/" "jobs" +:+ "") at 2.
  by rewrite !exec_many_lit.
Qed.

Lemma exec_three p c a b w :
  segment_ok a -> segment_ok b -> c <> Dot -> class_char c "/" = false ->
  w <> "" -> sforall (class_char c) w = true ->
  exec [Lit p; Many true NotSlash; Lit "/"; Many true NotSlash; Lit "/"; Many true c]
    (p +:+ a +:+ "/" +:+ b +:+ "/" +:+ w) = Some [a; b; w].
Proof.
  intros [Na Fa] [Nb Fb] Hc Hx Nw Hw. rewrite exec_lit_app.
  rewrite !exec_many_lit by done. by rewrite exec_many_end.
Qed.

(** ** Group keys *)

Inductive group_key :=
  | PRKey (owner repo number : string)
  | RunKey (owner repo id : string)
  | BranchKey (owner repo branch sha : string)
  | ManualKey (owner repo id : string).

Definition group_key_string (k : group_key) : string :=
  match k with
  | PRKey o r n => "pr:" +:+ (o +:+ "/" +:+ r) +:+ ":" +:+ n
  | RunKey o r n => "run:" +:+ (o +:+ "/" +:+ r) +:+ ":" +:+ n
  | BranchKey o r b sha => "branch:" +:+ (o +:+ "/" +:+ r) +:+ ":" +:+ b +:+ ":" +:+ sha
  | ManualKey o r id => "manual:" +:+ (o +:+ "/" +:+ r) +:+ ":" +:+ id
  end.

(** A repository [owner/repo]: two non-empty well-formed names without slash,
    colon or line terminator, which are no dot segments. *)
Record repository_ok (o r : string) : Prop := {
  repo_utf8_o : utf8 o; repo_utf8_r : utf8 r;
  repo_ne_o : o <> ""; repo_ne_r : r <> "";
  repo_slash_o : free "/" o = true; repo_slash_r : free "/" r = true;
  repo_colon_o : free ":" o = true; repo_colon_r : free ":" r = true;
  repo_line : no_newline (o +:+ "/" +:+ r) = true;
  repo_plain_o : plain_name o; repo_plain_r : plain_name r;
}.

Definition number_ok (n : string) : Prop := n <> "" /\ sforall is_digit n = true.

Definition group_key_ok (k : group_key) : Prop :=
  match k with
  | PRKey o r n | RunKey o r n => repository_ok o r /\ number_ok n
  | BranchKey o r b sha =>
      repository_ok o r /\ utf8 b /\ b <> "" /\ no_newline b = true /\
      utf8 sha /\ sha <> "" /\ free ":" sha = true /\ plain_name sha
  | ManualKey o r id =>
      repository_ok o r /\ utf8 id /\ id <> "" /\ free ":" id = true /\ plain_name id
  end.

(** The URL of each kind of key. *)
Definition group_key_url (k : group_key) : string :=
  match k with
  | PRKey o r n =>
      "/github/pulls/" +:+ encodeURIComponent o +:+ "/" +:+ encodeURIComponent r
      +:+ "/" +:+ n +:+ "/jobs"
  | RunKey o r n =>
      "/github/runs/" +:+ encodeURIComponent o +:+ "/" +:+ encodeURIComponent r
      +:+ "/" +:+ n +:+ "/jobs"
  | BranchKey o r b sha =>
      "/github/branches/" +:+ encodeURIComponent o +:+ "/" +:+ encodeURIComponent r
      +:+ "/" +:+ encodeURIComponent sha +:+ "/jobs"
  | ManualKey o r id =>
      "/jobs/manual/" +:+ encodeURIComponent o +:+ "/" +:+ encodeURIComponent r
      +:+ "/" +:+ encodeURIComponent id
  end.

Definition group_key_params (k : group_key) : params :=
  match k with BranchKey _ _ b _ => [("branch", b)] | _ => [] end.

Definition url_of (path : string) (ps : params) : string :=
  if str_truthy (show_params ps) then path +:+ "?" +:+ show_params ps else path.

Lemma withSearchParam_url path ps k v :
  free "?" path = true -> Forall utf8_pair ps ->
  withSearchParam (url_of path ps) k v = url_of path (params_set k v ps).
Proof.
  intros Hp Hps. unfold withSearchParam, url_of.
  assert (forall l, split_on "?" path = l -> l = [path]) as Hsplit
    by (intros l <-; by apply split_on_free).
  destruct (str_truthy (show_params ps)) eqn:E.
  - simpl String.append. rewrite split_on_app, (split_on_free _ (show_params ps)) by
      (done || apply show_params_free). simpl.
    by rewrite parse_show_params.
  - rewrite (Hsplit _ eq_refl). simpl. apply str_truthy_false in E.
    destruct ps as [|kv ps]; [done|]. exfalso. unfold show_params in E. cbn [map] in E.
    destruct (join_cons_head "&" (show_pair kv) (map show_pair ps)) as [t Ht].
    rewrite Ht in E. apply sapp_eq_nil in E as [E _]. by destruct (show_pair_ok kv).
Qed.

Lemma url_of_nil path : url_of path [] = path.
Proof. done. Qed.

Lemma url_of_raw path ps : free "?" path = true -> raw_path (url_of path ps) = path.
Proof.
  intros Hp. unfold url_of. destruct (str_truthy _); [by apply raw_path_query|by apply raw_path_plain].
Qed.

Lemma location_pathname_url path ps :
  plain_path path -> location_pathname (url_of path ps) = path.
Proof.
  intros Hp. pose proof (pp_free _ (plain_parsed _ Hp)) as Hf.
  transitivity (location_pathname path); [|exact Hp].
  unfold location_pathname. by rewrite url_of_raw, (raw_path_plain path).
Qed.

Lemma location_search_url path ps :
  free "?" path = true -> Forall utf8_pair ps ->
  parse_params (location_search (url_of path ps)) = ps.
Proof.
  intros Hp Hps. unfold location_search, url_of. destruct (str_truthy (show_params ps)) eqn:E.
  - simpl String.append. rewrite cut_first by done. rewrite E. by apply parse_search_params.
  - destruct (cut "?" path) as [[l r]|] eqn:Ec.
    + apply cut_Some in Ec as ->. rewrite !free_app in Hp. by rewrite andb_comm in Hp.
    + rewrite <- (parse_show_params ps Hps). apply str_truthy_false in E. by rewrite E.
Qed.

Ltac repo_facts H := destruct H as [? ? ? ? ? ? ? ? ? ? ?].

Lemma digits_plain x n : is_digit x = false -> number_ok n -> free x n = true.
Proof. intros ? [_ Hn]. by apply digits_free. Qed.

Lemma group_key_url_free k : group_key_ok k -> free "?" (group_key_url k) = true.
Proof.
  destruct k as [o r n|o r n|o r b sha|o r id]; intros Hk; unfold group_key_url;
    rewrite !free_app, !encode_free by done; try done.
  - destruct Hk as [_ Hn]. by rewrite (digits_plain "?" n) by done.
  - destruct Hk as [_ Hn]. by rewrite (digits_plain "?" n) by done.
Qed.

(** No segment of the URL of a key is a dot segment. *)
Lemma digits_no_dot n : number_ok n -> no_dot n = true.
Proof.
  intros [Hn Hd]. destruct n as [|a n]; [done|]. cbn [sforall] in Hd. apply andb_prop in Hd as [Hd _].
  apply andb_true_intro; split; apply negb_true_iff, bool_decide_eq_false_2; cbn [toLowerCase smap];
    rewrite !elem_of_cons, elem_of_nil; intros H; destruct_or?; try done; injection H as H _; revert H Hd;
    destruct a as [[] [] [] [] [] [] [] []]; vm_compute; congruence.
Qed.

Lemma group_key_url_dotless k : group_key_ok k -> dotless (group_key_url k) = true.
Proof.
  intros Hk.
  assert (forall w s, free "/" w = true -> no_dot w = true -> dotless (w +:+ "/" +:+ s) = dotless s) as Hw
    by (intros w s Hf Hn; cbn [String.append]; by rewrite dotless_app, Hn).
  assert (forall s, free "/" (encodeURIComponent s) = true) as He by (intros; by apply encode_free).
  destruct k as [o r n|o r n|o r b sha|o r id]; cbn [group_key_url].
  - destruct Hk as [Hr Hn]. repo_facts Hr. change (dotless ("" +:+ "/" +:+ ("github" +:+ "/" +:+ ("pulls" +:+ "/" +:+
      (encodeURIComponent o +:+ "/" +:+ encodeURIComponent r +:+ "/" +:+ n +:+ "/" +:+ "jobs")))) = true).
    rewrite !Hw; try done; try (by apply encode_no_dot); [by apply digits_plain|by apply digits_no_dot].
  - destruct Hk as [Hr Hn]. repo_facts Hr. change (dotless ("" +:+ "/" +:+ ("github" +:+ "/" +:+ ("runs" +:+ "/" +:+
      (encodeURIComponent o +:+ "/" +:+ encodeURIComponent r +:+ "/" +:+ n +:+ "/" +:+ "jobs")))) = true).
    rewrite !Hw; try done; try (by apply encode_no_dot); [by apply digits_plain|by apply digits_no_dot].
  - destruct Hk as (Hr & _ & _ & _ & Us & _ & _ & Ps). repo_facts Hr.
    change (dotless ("" +:+ "/" +:+ ("github" +:+ "/" +:+ ("branches" +:+ "/" +:+
      (encodeURIComponent o +:+ "/" +:+ encodeURIComponent r +:+ "/" +:+ encodeURIComponent sha +:+
       "/" +:+ "jobs")))) = true).
    rewrite !Hw; try done; by apply encode_no_dot.
  - destruct Hk as (Hr & Ui & _ & _ & Pi). repo_facts Hr.
    change (dotless ("" +:+ "/" +:+ ("jobs" +:+ "/" +:+ ("manual" +:+ "/" +:+
      (encodeURIComponent o +:+ "/" +:+ encodeURIComponent r +:+ "/" +:+ encodeURIComponent id)))) = true).
    rewrite !Hw, dotless_one; try done; by apply encode_no_dot.
Qed.

Lemma group_key_url_plain k : group_key_ok k -> plain_path (group_key_url k).
Proof. intros Hk. apply dotless_plain; [by apply group_key_url_free|by apply group_key_url_dotless]. Qed.

Lemma group_key_params_utf8 k : group_key_ok k -> Forall utf8_pair (group_key_params k).
Proof.
  destruct k; intros Hk; try constructor; [|constructor].
  destruct Hk as (_ & Hb & _). split; [by apply utf8_ascii|done].
Qed.

Lemma repo_nonempty o r : o +:+ "/" +:+ r <> "".
Proof. by destruct o. Qed.

(** The key is recognised as what it is, and written as its URL. *)
Lemma userJobsPath_url k :
  group_key_ok k -> userJobsPath (group_key_string k) = url_of (group_key_url k) (group_key_params k).
Proof.
  intros Hk. unfold userJobsPath, prKeyRe, runKeyRe, branchKeyRe, manualKeyRe.
  assert (str_truthy (group_key_string k) = true) as ->
    by (apply str_truthy_true; by destruct k).
  simpl negb. cbv iota.
  destruct k as [o r n|o r n|o r b sha|o r id]; cbn [group_key_ok group_key_string] in *.
  - destruct Hk as [Hr [Nn Hn]]. repo_facts Hr.
    rewrite exec_lit_app, (exec_dot_tail ":" Digit) by (done || apply repo_nonempty).
    cbn [groups2]. by rewrite encodeRepositoryPath_two, !sapp_assoc.
  - destruct Hk as [Hr [Nn Hn]]. repo_facts Hr. rewrite (exec_lit_fail "pr:") by done.
    rewrite exec_lit_app, (exec_dot_tail ":" Digit) by (done || apply repo_nonempty).
    cbn [groups2]. by rewrite encodeRepositoryPath_two, !sapp_assoc.
  - destruct Hk as (Hr & Ub & Nb & Lb & Us & Ns & Cs & Ps). repo_facts Hr.
    rewrite (exec_lit_fail "pr:"), (exec_lit_fail "run:") by done.
    assert (sforall (class_char NotColon) (o +:+ "/" +:+ r) = true) as Hcol.
    { change (free ":" (o +:+ "/" +:+ r) = true). by rewrite !free_app, repo_colon_o0, repo_colon_r0. }
    rewrite exec_lit_app, exec_many_lit, (exec_dot_tail ":" NotColon)
      by (done || apply repo_nonempty).
    cbn [fmap option_fmap option_map capture groups2 groups3]. unfold branchPath.
    rewrite encodeRepositoryPath_two by done.
    match goal with |- withSearchParam ?p _ _ = _ => rewrite <- (url_of_nil p) end.
    rewrite withSearchParam_url; [|by rewrite !free_app, !encode_free|done].
    unfold group_key_url. by rewrite !sapp_assoc.
  - destruct Hk as (Hr & Ui & Ni & Ci & Pi). repo_facts Hr.
    rewrite (exec_lit_fail "pr:"), (exec_lit_fail "run:"), (exec_lit_fail "branch:") by done.
    rewrite exec_lit_app, (exec_dot_tail ":" NotColon) by (done || apply repo_nonempty).
    cbn [groups2]. by rewrite encodeRepositoryPath_two, !sapp_assoc.
Qed.

(** Reading the URL of a key: the path, with the branch in the query. *)
Lemma userJobsGroupKeyFromPath_url k search :
  group_key_ok k ->
  (forall o r b sha, k = BranchKey o r b sha -> search_get "branch" search = Some b) ->
  userJobsGroupKeyFromPath (group_key_url k) search = group_key_string k.
Proof.
  intros Hk Hsearch. unfold userJobsGroupKeyFromPath, pullsRe, legacyPullsRe, runsRe,
    legacyRunsRe, branchRe, branchQueryRe, legacyBranchRe, manualRe.
  destruct k as [o r n|o r n|o r b sha|o r id]; unfold group_key_url, group_key_string.
  - destruct Hk as [Hr [Nn Hn]]. repo_facts Hr.
    rewrite (exec_three_jobs _ Digit) by (done || by apply encode_segment).
    cbn [groups3]. by rewrite decodeRepositoryPath_encode.
  - destruct Hk as [Hr [Nn Hn]]. repo_facts Hr.
    rewrite (exec_lit_fail "/github/pulls/"), (exec_lit_fail "/jobs/pulls/") by done.
    rewrite (exec_three_jobs _ Digit) by (done || by apply encode_segment).
    cbn [groups3]. by rewrite decodeRepositoryPath_encode.
  - destruct Hk as (Hr & Ub & Nb & Lb & Us & Ns & Cs & Ps). repo_facts Hr.
    rewrite (exec_lit_fail "/github/pulls/"), (exec_lit_fail "/jobs/pulls/"),
      (exec_lit_fail "/github/runs/"), (exec_lit_fail "/jobs/runs/") by done.
    rewrite (exec_too_few "/").
    2:{ rewrite !occurs_app, !(occurs_free "/" (encodeURIComponent _)) by by apply encode_free.
        simpl. lia. }
    rewrite (exec_three_jobs _ NotSlash) by (done || by apply encode_segment).
    cbn [groups3 groups4]. rewrite (Hsearch _ _ _ _ eq_refl), decodeRepositoryPath_encode by done.
    unfold safeDecodePathSegment. rewrite decode_encode by done. simpl default.
    unfold branchKey, str_truthy. by rewrite !bool_decide_eq_false_2 by done.
  - destruct Hk as (Hr & Ui & Ni & Ci & Pi). repo_facts Hr.
    rewrite (exec_lit_fail "/github/pulls/"), (exec_lit_fail "/jobs/pulls/"),
      (exec_lit_fail "/github/runs/"), (exec_lit_fail "/jobs/runs/"),
      (exec_lit_fail "/github/branches/" [_; _; _; _; _; _; _; _]),
      (exec_lit_fail "/github/branches/"), (exec_lit_fail "/jobs/branches/") by done.
    rewrite (exec_three _ NotSlash) by (done || by apply encode_segment).
    cbn [groups3 groups4]. unfold safeDecodePathSegment.
    rewrite decode_encode, decodeRepositoryPath_encode by done.
    unfold str_truthy. by rewrite bool_decide_eq_false_2.
Qed.

(** The effect that keeps the address bar canonical: on a jobs route, the group
    key of the location, and the URL to replace it with when it differs. *)
Record JobsRouteEffect := { effect_key : string; effect_replace : option string }.

Definition jobsRouteEffect (path search : string) : option JobsRouteEffect :=
  if negb (isUserJobsRoute path) then None
  else
    let key := userJobsGroupKeyFromLocation path search in
    let canonicalPath := userJobsPath key in
    let currentLocation := path +:+ search in
    let nextPath := withPreservedJobSearch canonicalPath search in
    Some {| effect_key := key;
            effect_replace :=
              if str_truthy key && negb (bool_decide (currentLocation = nextPath))
              then Some nextPath else None |}.

(** The URL of a group with a job of the group selected. *)
Definition group_job_url (k : group_key) (job : string) : string :=
  url_of (group_key_url k) (params_set "job" job (group_key_params k)).

Lemma group_job_params_utf8 k job :
  group_key_ok k -> utf8 job -> Forall utf8_pair (params_set "job" job (group_key_params k)).
Proof.
  intros Hk Hj. assert (utf8_pair ("job", job)) by (split; [by apply utf8_ascii|done]).
  destruct k as [| |o r b sha|]; simpl; [by constructor..| |by constructor].
  destruct Hk as (_ & Hb & _). constructor; [|by constructor].
  split; [by apply utf8_ascii|done].
Qed.

Lemma search_branch_url k o r b sha ps :
  group_key_ok k -> k = BranchKey o r b sha -> Forall utf8_pair ps ->
  params_get "branch" ps = Some b ->
  search_get "branch" (location_search (url_of (group_key_url k) ps)) = Some b.
Proof.
  intros Hk -> Hps Hb. unfold search_get. rewrite location_search_url; [done| |done].
  by apply group_key_url_free.
Qed.

Lemma key_from_url k ps :
  group_key_ok k -> Forall utf8_pair ps ->
  (forall o r b sha, k = BranchKey o r b sha -> params_get "branch" ps = Some b) ->
  let url := url_of (group_key_url k) ps in
  userJobsGroupKeyFromLocation (location_pathname url) (location_search url) =
  group_key_string k.
Proof.
  intros Hk Hps Hb url. unfold url, userJobsGroupKeyFromLocation.
  rewrite location_pathname_url by by apply group_key_url_plain.
  rewrite userJobsGroupKeyFromPath_url; [|done|].
  - by destruct k.
  - intros o r b sha ->. eapply search_branch_url; eauto.
Qed.

Lemma group_job_branch k job o r b sha :
  k = BranchKey o r b sha ->
  params_get "branch" (params_set "job" job (group_key_params k)) = Some b.
Proof. by intros ->. Qed.

Lemma group_key_url_not_jobs k ps : group_key_ok k -> url_of (group_key_url k) ps <> "/jobs".
Proof.
  intros Hk H. apply (f_equal location_pathname) in H.
  rewrite location_pathname_url in H by by apply group_key_url_plain.
  by destruct k.
Qed.

Lemma withSearchParam_job k job :
  group_key_ok k ->
  withSearchParam (userJobsPath (group_key_string k)) "job" job = group_job_url k job.
Proof.
  intros Hk. rewrite userJobsPath_url by done.
  apply withSearchParam_url; [by apply group_key_url_free|by apply group_key_params_utf8].
Qed.

(** C1.  The URL the console pushes for a job group names that group: reading
    the key back from the location after the push gives the key, for pull
    requests, workflow runs, branches (whatever characters the branch name
    has, slashes and colons included) and manual runners, as the URL parser of the
    browser leaves the address.  The parts of the key are there, are separated as
    the key says, and are no dot segments, which the parser takes out of the path
    however they are encoded. *)
Theorem userJobs_url_roundtrip (k : group_key) (H : group_key_ok k) :
  let url := userJobsPath (group_key_string k) in
  userJobsGroupKeyFromLocation (location_pathname url) (location_search url) =
  group_key_string k.
Proof.
  intros url. unfold url. rewrite userJobsPath_url by done. apply key_from_url; [done| |].
  - by apply group_key_params_utf8.
  - by intros o r b sha ->.
Qed.

Lemma openUserJobPath_url (k : group_key) (job : string) :
  group_key_ok k -> openUserJobPath (group_key_string k) job = group_job_url k job.
Proof.
  intros H. unfold openUserJobPath.
  assert (str_truthy (group_key_string k) = true) as -> by (apply str_truthy_true; by destruct k).
  rewrite <- withSearchParam_job by done. rewrite userJobsPath_url by done.
  rewrite bool_decide_eq_false_2 by by apply group_key_url_not_jobs.
  assert (str_truthy (url_of (group_key_url k) (group_key_params k)) = true) as ->; [|done].
  apply str_truthy_true. intros E. apply (f_equal location_pathname) in E.
  rewrite location_pathname_url in E by by apply group_key_url_plain. by destruct k.
Qed.

(** Opening a job inside a group pushes a URL from which both the group
    and the job are read back. *)
Theorem openUserJob_url_roundtrip (k : group_key) (job : string)
    (H : group_key_ok k) (Hjob : utf8 job) :
  let url := openUserJobPath (group_key_string k) job in
  userJobsGroupKeyFromLocation (location_pathname url) (location_search url) =
    group_key_string k /\
  userJobIDFromSearch (location_search url) = job.
Proof.
  intros url. unfold url. rewrite openUserJobPath_url by done.
  split.
  - apply key_from_url; [done|by apply group_job_params_utf8|].
    intros. by eapply group_job_branch.
  - unfold userJobIDFromSearch, search_get, group_job_url.
    rewrite location_search_url; [|by apply group_key_url_free|by apply group_job_params_utf8].
    by rewrite params_get_set.
Qed.

Definition example_branch : group_key :=
  BranchKey "qiniu" "ci-runner" "feat/a b:c" "0123abcd".

Lemma example_branch_ok : group_key_ok example_branch.
Proof. split_and!; [split|..]; auto with runnerd. Qed.

Lemma userJobs_url_roundtrip_witness :
  userJobsGroupKeyFromLocation
    (location_pathname (userJobsPath (group_key_string example_branch)))
    (location_search (userJobsPath (group_key_string example_branch))) =
  "branch:qiniu/ci-runner:feat/a b:c:0123abcd".
Proof. apply (userJobs_url_roundtrip example_branch). apply example_branch_ok. Defined.

Lemma openUserJob_url_roundtrip_witness :
  let url := openUserJobPath (group_key_string example_branch) "job 1" in
  userJobsGroupKeyFromLocation (location_pathname url) (location_search url) =
    group_key_string example_branch /\
  userJobIDFromSearch (location_search url) = "job 1".
Proof.
  apply (openUserJob_url_roundtrip example_branch "job 1").
  - apply example_branch_ok.
  - by apply utf8b_sound.
Defined.

(** ** Agreement with the loading policy *)

Lemma test_lit_oneof l captured alts p :
  test [Lit l; OneOf captured alts] p = existsb (fun a => bool_decide (p = l +:+ a)) alts.
Proof.
  apply eq_bool_prop_intro. rewrite !Is_true_true, test_spec, existsb_exists. split.
  - intros [caps H]. apply matches_lit_inv in H as (r & -> & H).
    inversion H as [| | |cap alts' a ps s caps' Ha Hn]; subst.
    apply matches_nil_inv in Hn as [-> _]. exists a. split; [by apply list_elem_of_In|].
    by rewrite bool_decide_eq_true_2 by by rewrite sapp_nil_r.
  - intros (a & Ha & ->%bool_decide_eq_true_1). exists (capture captured a []). constructor.
    rewrite <- (sapp_nil_r a) at 1. apply matches_alt; [by apply list_elem_of_In|constructor].
Qed.

(** The two copies of the settings-route test agree: the page code
    ([isAccountSettingsPath]) and the loading policy ([isAccountSettingsRoute])
    accept the same paths. *)
Theorem isAccountSettingsPath_agree (p : string) :
  isAccountSettingsPath p = LoadPolicy.isAccountSettingsRoute p.
Proof.
  unfold isAccountSettingsPath, LoadPolicy.isAccountSettingsRoute.
  rewrite test_lit_oneof. simpl existsb. rewrite orb_false_r.
  rewrite <- (test_no_capture organizationSettingsRe).
  rewrite <- (test_no_capture [Lit "/organizations/"; Many false NotSlash; Lit "/"; OneOf _ _]).
  simpl map. unfold settingsTabs. rewrite <- !orb_assoc. done.
Qed.

Ltac match_parts :=
  repeat match goal with
  | H : matches (Lit _ :: _) _ _ |- _ =>
      let r := fresh "r" in apply matches_lit_inv in H as (r & -> & H)
  | H : matches (Many _ _ :: _) _ _ |- _ =>
      let w := fresh "w" in let r := fresh "r" in let c := fresh "c" in
      let Hw := fresh "Hw" in let Hr := fresh "Hr" in
      apply matches_many_inv in H as (w & r & c & -> & Hw & Hr & H & _)
  | H : matches [] _ _ |- _ => apply matches_nil_inv in H as [-> _]
  end.

(** Rebuild a derivation from the parts of the string. *)
Ltac build_match :=
  repeat first
    [ apply matches_nil
    | apply matches_lit
    | apply (matches_many false); [assumption|eassumption|] ].

Lemma groups_test3 ps s x : groups3 (exec ps s) = Some x -> exists caps, matches ps s caps.
Proof. destruct (exec ps s) eqn:E; [|done]. intros _. eexists. by apply exec_sound. Qed.

Lemma groups_test4 ps s x : groups4 (exec ps s) = Some x -> exists caps, matches ps s caps.
Proof. destruct (exec ps s) eqn:E; [|done]. intros _. eexists. by apply exec_sound. Qed.

(** The path patterns of the page, each one accepted by a pattern of the
    policy. *)
Lemma policy_accepts i p ps :
  LoadPolicy.userJobsRes !! i = Some ps -> (exists caps, matches ps p caps) ->
  LoadPolicy.isUserJobsRoute p = true.
Proof.
  intros Hps%list_elem_of_lookup_2 H%test_spec. unfold LoadPolicy.isUserJobsRoute.
  rewrite orb_true_iff. right. apply existsb_exists. exists ps.
  split; [by apply list_elem_of_In|done].
Qed.

Definition kinds : list string := ["pulls"; "runs"].

Lemma policy_pulls_or_runs k p caps c :
  k ∈ kinds -> class_le c NotSlash = true ->
  matches [Lit ("/github/" +:+ k +:+ "/"); Many true NotSlash; Lit "/"; Many true NotSlash;
           Lit "/"; Many true c; Lit "/jobs"] p caps ->
  LoadPolicy.isUserJobsRoute p = true.
Proof.
  intros Hk Hc H.
  apply (policy_accepts 0 _ _ eq_refl). match_parts.
  exists [k]. rewrite !sapp_assoc.
  apply (matches_lit "/github/"). apply (matches_alt true _ k _ _ []); [done|].
  apply (matches_lit "/"). pose proof (class_run_le _ _ _ _ Hc Hr1). build_match.
Qed.

Lemma policy_legacy_pulls_or_runs k p caps :
  k ∈ kinds ->
  matches [Lit ("/jobs/" +:+ k +:+ "/"); Many true NotSlash; Lit "/"; Many true NotSlash;
           Lit "/"; Many true Digit] p caps ->
  LoadPolicy.isUserJobsRoute p = true.
Proof.
  intros Hk H.
  apply (policy_accepts 2 _ _ eq_refl). match_parts.
  exists [k]. rewrite !sapp_assoc.
  apply (matches_lit "/jobs/"). apply (matches_alt true _ k _ _ []); [done|].
  apply (matches_lit "/"). build_match.
Qed.

Lemma policy_branches p caps :
  no_newline p = true -> matches branchRe p caps -> LoadPolicy.isUserJobsRoute p = true.
Proof.
  intros Hp H. apply (policy_accepts 1 _ _ eq_refl).
  unfold branchRe in H. match_parts. exists [].
  do 5 apply no_newline_app in Hp as [_ Hp].
  apply (matches_lit "/github/branches/"). apply (matches_many false); [done..|].
  apply (matches_lit "/"). apply (matches_many false); [done..|]. apply (matches_lit "/").
  rewrite <- (sapp_nil_r "/jobs") at 1. rewrite <- !sapp_assoc, (sapp_assoc _ "/jobs").
  apply (matches_many false); [by destruct w1| |apply matches_lit; constructor].
  apply class_run_Dot; [|done].
  rewrite <- !sapp_assoc in Hp. apply no_newline_app in Hp as [Hp _].
  by apply no_newline_app in Hp as [Hp _].
Qed.

Lemma policy_branch_query p caps :
  no_newline p = true -> matches branchQueryRe p caps -> LoadPolicy.isUserJobsRoute p = true.
Proof.
  intros Hp H. apply (policy_accepts 1 _ _ eq_refl).
  unfold branchQueryRe in H. match_parts. exists [].
  do 5 apply no_newline_app in Hp as [_ Hp].
  apply (matches_lit "/github/branches/"). apply (matches_many false); [done..|].
  apply (matches_lit "/"). apply (matches_many false); [done..|]. apply (matches_lit "/").
  apply (matches_many false); [done| |apply matches_lit; constructor].
  apply class_run_Dot; [|done]. by apply no_newline_app in Hp as [Hp _].
Qed.


Lemma policy_same_shape i p ps qs caps :
  LoadPolicy.userJobsRes !! i = Some qs -> map no_capture ps = map no_capture qs ->
  matches ps p caps -> LoadPolicy.isUserJobsRoute p = true.
Proof.
  intros Hi E H. apply (policy_accepts i _ _ Hi). apply test_spec.
  rewrite <- (test_no_capture qs), <- E, test_no_capture. apply test_spec. by exists caps.
Qed.

(** A group key found in the path comes from one of the eight patterns. *)
Lemma group_key_pattern p search :
  userJobsGroupKeyFromPath p search <> "" ->
  exists ps caps,
    ps ∈ [pullsRe; legacyPullsRe; runsRe; legacyRunsRe; branchRe; branchQueryRe;
          legacyBranchRe; manualRe] /\ matches ps p caps.
Proof.
  unfold userJobsGroupKeyFromPath. intros H.
  repeat match type of H with
  | context [groups3 (exec ?ps p)] =>
      let E := fresh "E" in destruct (groups3 (exec ps p)) eqn:E;
      [apply groups_test3 in E as [caps E]; exists ps, caps; split; [set_solver|done]|]
  | context [groups4 (exec ?ps p)] =>
      let E := fresh "E" in destruct (groups4 (exec ps p)) eqn:E;
      [apply groups_test4 in E as [caps E]; exists ps, caps; split; [set_solver|done]|]
  end.
  done.
Qed.

(** A path that names a build context, with some query, is one of the policy. *)
Lemma key_policy (p search : string) :
  no_newline p = true -> userJobsGroupKeyFromPath p search <> "" ->
  LoadPolicy.isUserJobsRoute p = true.
Proof.
  intros Hline (ps & caps & Hps & Hm)%group_key_pattern.
  repeat (apply elem_of_cons in Hps as [->|Hps]); [..|by apply not_elem_of_nil in Hps].
  - by apply (policy_pulls_or_runs "pulls" _ caps Digit); [set_solver| |].
  - by apply (policy_legacy_pulls_or_runs "pulls" _ caps); [set_solver|].
  - by apply (policy_pulls_or_runs "runs" _ caps Digit); [set_solver| |].
  - by apply (policy_legacy_pulls_or_runs "runs" _ caps); [set_solver|].
  - by apply (policy_branches _ caps).
  - by apply (policy_branch_query _ caps).
  - by apply (policy_same_shape 3 p legacyBranchRe _ caps eq_refl).
  - by apply (policy_same_shape 4 p manualRe _ caps eq_refl).
Qed.

(** Every path the page code treats as a jobs page is one for which the
    loading policy loads and polls the runner requests (for paths without line
    terminators, which no browser location has). *)
Theorem jobs_page_has_jobs_policy (p : string) (Hline : no_newline p = true)
    (H : isUserJobsRoute p = true) :
  LoadPolicy.isUserJobsRoute p = true /\ shouldPollUserRoute p = true /\
  res_user_runner_requests ∈ userDataResources p.
Proof.
  assert (LoadPolicy.isUserJobsRoute p = true) as E.
  { unfold isUserJobsRoute in H. apply orb_prop in H as [H|H].
    - apply bool_decide_eq_true_1 in H as ->. done.
    - apply str_truthy_true in H. by apply (key_policy p ""). }
  unfold shouldPollUserRoute, userDataResources. rewrite E. split_and!; [done..|set_solver].
Qed.

(** The address of a single job has two slashes, the ones that are polled more. *)
Lemma job_page_not_polled (path : string) :
  str_truthy (userJobIDFromPath path) = true -> shouldPollUserRoute path = false.
Proof.
  intros Hj. unfold userJobIDFromPath in Hj.
  destruct (exec [Lit "/jobs/"; Many true NotSlash] path) as [caps|] eqn:Em; [|done].
  apply exec_sound in Em. apply matches_lit_inv in Em as (r & -> & Em).
  apply matches_many_inv in Em as (w & r' & c & -> & _ & Hw & Em & _).
  apply matches_nil_inv in Em as [-> _]. rewrite sapp_nil_r.
  rewrite class_run_char in Hw by done.
  assert (occurs "/" ("/jobs/" +:+ w) = 2) as Ho.
  { rewrite occurs_app, (occurs_free "/" w) by exact Hw. done. }
  unfold shouldPollUserRoute, LoadPolicy.isUserJobsRoute, userJobsRes.
  rewrite bool_decide_eq_false_2 by (by intros E; rewrite E in Ho).
  cbn [existsb]. unfold test.
  by rewrite !(exec_too_few "/") by (rewrite Ho; cbn; lia).
Qed.

Lemma jobs_page_has_jobs_policy_witness :
  let p := "/jobs/branches/qiniu/ci-runner/feat%2Fx/0123abcd" in
  LoadPolicy.isUserJobsRoute p = true /\ shouldPollUserRoute p = true /\
  res_user_runner_requests ∈ userDataResources p.
Proof.
  apply (jobs_page_has_jobs_policy "/jobs/branches/qiniu/ci-runner/feat%2Fx/0123abcd");
    vm_compute; reflexivity.
Defined.

(** The converse fails: the canonical URL of a branch group carries the branch
    in the query, which the path-only test of the page does not see. *)
Example branch_page_not_recognised :
  let path := location_pathname (userJobsPath (group_key_string example_branch)) in
  isUserJobsRoute path = false /\ LoadPolicy.isUserJobsRoute path = true.
Proof. split; vm_compute; reflexivity. Qed.

(** ** The canonicalising effect settles *)

Lemma location_concat path ps :
  plain_path path ->
  location_pathname (url_of path ps) +:+ location_search (url_of path ps) = url_of path ps.
Proof.
  intros Hp. rewrite location_pathname_url by done. apply plain_parsed, pp_free in Hp. unfold location_search, url_of.
  destruct (str_truthy (show_params ps)) eqn:E.
  - simpl String.append at 2. rewrite cut_first by done. by rewrite E.
  - destruct (cut "?" path) as [[l r]|] eqn:Ec; [|apply sapp_nil_r].
    apply cut_Some in Ec as ->. rewrite !free_app in Hp. by rewrite andb_comm in Hp.
Qed.

(** The parameters of the canonical URL: those of the group, and the job of the
    old location when it names one. *)
Definition canonical_params (k : group_key) (job : option string) : params :=
  if opt_truthy job then params_set "job" (default "" job) (group_key_params k)
  else group_key_params k.

Definition utf8_opt (o : option string) : Prop := forall s, o = Some s -> utf8 s.

Lemma canonical_params_utf8 k job :
  group_key_ok k -> utf8_opt job -> Forall utf8_pair (canonical_params k job).
Proof.
  intros Hk Hj. unfold canonical_params. destruct job as [j|]; simpl.
  - destruct (str_truthy j); [|by apply group_key_params_utf8].
    apply group_job_params_utf8; [done|]. by apply Hj.
  - by apply group_key_params_utf8.
Qed.

Lemma withPreservedJobSearch_url k search :
  group_key_ok k ->
  withPreservedJobSearch (userJobsPath (group_key_string k)) search =
  url_of (group_key_url k) (canonical_params k (search_get "job" search)).
Proof.
  intros Hk. unfold withPreservedJobSearch, canonical_params.
  destruct (search_get "job" search) as [j|]; simpl; [|by apply userJobsPath_url].
  destruct (str_truthy j); [|by apply userJobsPath_url]. by apply withSearchParam_job.
Qed.

Lemma canonical_params_job k job :
  canonical_params k (params_get "job" (canonical_params k job)) = canonical_params k job.
Proof.
  unfold canonical_params. destruct job as [j|]; simpl.
  - destruct (str_truthy j) eqn:E; [|by destruct k].
    rewrite params_get_set. simpl. by rewrite E.
  - by destruct k.
Qed.

Lemma canonical_params_branch k job o r b sha :
  k = BranchKey o r b sha -> params_get "branch" (canonical_params k job) = Some b.
Proof. intros ->. unfold canonical_params. by destruct (opt_truthy job). Qed.

(** Canonicalising the address terminates: the URL the effect writes is
    one it leaves alone, whatever the location it started from (an old URL
    scheme, [/jobs?group=...] or a canonical one) and whatever job it names. *)
Theorem jobsRouteEffect_settles (path search : string) (k : group_key) (next : string)
    (Hk : group_key_ok k) (Hjob : utf8_opt (search_get "job" search))
    (H : jobsRouteEffect path search =
         Some {| effect_key := group_key_string k; effect_replace := Some next |}) :
  match jobsRouteEffect (location_pathname next) (location_search next) with
  | None => True
  | Some e => e = {| effect_key := group_key_string k; effect_replace := None |}
  end.
Proof.
  unfold jobsRouteEffect in H. destruct (negb (isUserJobsRoute path)); [done|].
  injection H as Hkey Hnext. rewrite Hkey, withPreservedJobSearch_url in Hnext by done.
  case_hyp Hnext; [|done]. injection Hnext as Hnext. subst next.
  set (ps := canonical_params k (search_get "job" search)).
  assert (Forall utf8_pair ps) as Hps by by apply canonical_params_utf8.
  assert (free "?" (group_key_url k) = true) as Hfree by by apply group_key_url_free.
  pose proof (group_key_url_plain k Hk) as Hplain. unfold jobsRouteEffect. destruct (negb (isUserJobsRoute _)); [exact I|].
  rewrite key_from_url, withPreservedJobSearch_url, location_concat; try done.
  - assert (search_get "job" (location_search (url_of (group_key_url k) ps)) =
            params_get "job" ps) as -> by (unfold search_get; by rewrite location_search_url).
    unfold ps. rewrite canonical_params_job.
    rewrite bool_decide_eq_true_2 by done. simpl. by rewrite andb_false_r.
  - intros. by eapply canonical_params_branch.
Qed.

Lemma jobsRouteEffect_settles_witness :
  let next := "/github/runs/qiniu/ci-runner/42/jobs?job=j+1" in
  match jobsRouteEffect (location_pathname next) (location_search next) with
  | None => True
  | Some e => e = {| effect_key := "run:qiniu/ci-runner:42"; effect_replace := None |}
  end.
Proof.
  apply (jobsRouteEffect_settles "/jobs/runs/qiniu/ci-runner/42" "?job=j+1"
    (RunKey "qiniu" "ci-runner" "42") "/github/runs/qiniu/ci-runner/42/jobs?job=j+1").
  - split; [|done]. split; auto with runnerd.
  - intros s [= <-]. auto with runnerd.
  - vm_compute. reflexivity.
Defined.

(** ** Account settings URLs *)

(** The route a settings URL is written for: the account named, or the current
    one when the name is blank. *)
Definition settings_target (accountLogin currentLogin : option string)
    (tab : AccountSettingsTab) : AccountSettingsRoute :=
  {| route_accountLogin :=
       if opt_truthy (trim <$> accountLogin) then trim <$> accountLogin else currentLogin;
     route_tab := tab |}.

Lemma tabSegment_free tab : tabSegment tab <> "" /\ free "/" (tabSegment tab) = true.
Proof. by destruct tab. Qed.

Lemma tabOfSegment_tabSegment tab : tabOfSegment (tabSegment tab) = Some tab.
Proof. by destruct tab. Qed.

Lemma tabSegment_in tab : tabSegment tab ∈ settingsTabs.
Proof. destruct tab; unfold settingsTabs; set_solver. Qed.

Lemma exec_organization l seg :
  segment_ok l -> seg ∈ settingsTabs ->
  exec organizationSettingsRe ("/organizations/" +:+ l +:+ "/" +:+ seg) = Some [l; seg].
Proof.
  intros [Nl Fl] Hseg. unfold organizationSettingsRe.
  assert (matches [Lit "/organizations/"; Many true NotSlash; Lit "/"; OneOf true settingsTabs]
    ("/organizations/" +:+ l +:+ "/" +:+ seg) (capture true l (capture true seg []))) as H.
  { apply matches_lit. apply matches_many; [done|by rewrite class_run_NotSlash|].
    apply matches_lit. rewrite <- (sapp_nil_r seg) at 1. apply matches_alt; [done|constructor]. }
  rewrite exec_lit_app, exec_many_lit; [|done..].
  apply exec_complete in H as [caps H]. rewrite exec_lit_app, exec_many_lit in H by done.
  destruct (exec [OneOf true settingsTabs] seg) as [c|] eqn:E; [|done].
  apply exec_sound in E. inversion E as [| | |? ? a ? s ? Ha Hn]; subst.
  apply matches_nil_inv in Hn as [-> ->]. by rewrite sapp_nil_r.
Qed.

Lemma organization_not_own l seg :
  forall p, p = "/organizations/" +:+ l +:+ "/" +:+ seg ->
  p <> "/settings" /\ p <> "/accounts" /\ p <> "/account/repositories" /\
  p <> "/account/preferences" /\ p <> "/account/sandbox" /\
  p <> "/account/sandbox-templates" /\ p <> "/account/sandbox-instances".
Proof. intros p ->. by split_and!. Qed.

Lemma parse_organization l seg tab currentLogin :
  utf8 l -> l <> "" -> seg ∈ settingsTabs -> tabOfSegment seg = Some tab ->
  parseAccountSettingsRoute
    ("/organizations/" +:+ encodeURIComponent l +:+ "/" +:+ seg) currentLogin =
  Some {| route_accountLogin := Some l; route_tab := tab |}.
Proof.
  intros Hu Hn Hseg Htab. unfold parseAccountSettingsRoute.
  destruct (organization_not_own (encodeURIComponent l) seg _ eq_refl)
    as (H1 & H2 & H3 & H4 & H5 & H6 & H7).
  rewrite !bool_decide_eq_false_2 by assumption. cbn [orb].
  rewrite exec_organization; [|by apply encode_segment|done]. cbn [groups2].
  unfold safeDecodePathSegment. rewrite decode_encode by done. rewrite Htab.
  unfold str_truthy. by rewrite bool_decide_eq_false_2.
Qed.

Lemma parse_settings_target (accountLogin currentLogin : option string) (tab : AccountSettingsTab) :
  utf8_opt (trim <$> accountLogin) ->
  parseAccountSettingsRoute (accountSettingsPath accountLogin currentLogin tab) currentLogin =
    Some (settings_target accountLogin currentLogin tab).
Proof.
  intros H. unfold accountSettingsPath, settings_target.
  destruct (negb (opt_truthy (trim <$> accountLogin)) ||
            bool_decide (trim <$> accountLogin = currentLogin)) eqn:E.
  - assert ((if opt_truthy (trim <$> accountLogin) then trim <$> accountLogin else currentLogin) =
            currentLogin) as ->.
    { destruct (opt_truthy _); [|done]. by apply bool_decide_eq_true_1 in E. }
    by destruct tab.
  - apply orb_false_iff in E as [E _]. apply negb_false_iff in E. rewrite E.
    apply opt_truthy_true in E as (l & El & Nl). rewrite El. cbn [default].
    apply parse_organization; [by apply H|done|apply tabSegment_in|apply tabOfSegment_tabSegment].
Qed.

(** The URL of an account's settings tab is parsed back as that account and
    tab: the account named when it is not blank, else the current account. *)
Theorem accountSettings_roundtrip (accountLogin currentLogin : option string)
    (tab : AccountSettingsTab) (H : utf8_opt (trim <$> accountLogin)) :
  let path := accountSettingsPath accountLogin currentLogin tab in
  parseAccountSettingsRoute path currentLogin =
    Some (settings_target accountLogin currentLogin tab) /\
  isAccountSettingsPath path = true.
Proof.
  intros path. split; [by apply parse_settings_target|]. unfold path, accountSettingsPath.
  destruct (_ || _) eqn:E; [by destruct tab|]. apply orb_false_iff in E as [E _].
  apply negb_false_iff, opt_truthy_true in E as (l & El & Nl). rewrite El. cbn [default].
  unfold isAccountSettingsPath. rewrite orb_true_iff. right. unfold test.
  rewrite exec_organization; [done|by apply encode_segment|apply tabSegment_in].
Qed.

Lemma accountSettings_roundtrip_witness :
  let path := accountSettingsPath (Some " acme ") (Some "octocat") TabSandboxInstances in
  parseAccountSettingsRoute path (Some "octocat") =
    Some {| route_accountLogin := Some "acme"; route_tab := TabSandboxInstances |} /\
  isAccountSettingsPath path = true.
Proof.
  apply (accountSettings_roundtrip (Some " acme ") (Some "octocat") TabSandboxInstances).
  intros s [= <-]. by apply utf8b_sound.
Defined.

(** The redirects of the old settings URLs: the path written, if any. *)
Definition settingsRedirect (path : string) : option string :=
  if negb (bool_decide (path = "/accounts")) && negb (bool_decide (path = "/settings"))
  then None else Some "/account/preferences".

(** [/^\/organizations\/[^/]+\/sandbox$/], then [replace(/\/sandbox$/, ...)]. *)
Definition sandboxRedirect (path : string) : option string :=
  if negb (bool_decide (path = "/account/sandbox")) &&
     negb (test [Lit "/organizations/"; Many false NotSlash; Lit "/sandbox"] path)
  then None
  else Some (replace_suffix "/sandbox" "/sandbox-templates" path).

Lemma parse_organization_raw l seg currentLogin :
  segment_ok l -> seg ∈ settingsTabs ->
  parseAccountSettingsRoute ("/organizations/" +:+ l +:+ "/" +:+ seg) currentLogin =
  match decodeURIComponent l, tabOfSegment seg with
  | Some accountLogin, Some tab =>
      if str_truthy accountLogin
      then Some {| route_accountLogin := Some accountLogin; route_tab := tab |} else None
  | _, _ => None
  end.
Proof.
  intros Hl Hseg. unfold parseAccountSettingsRoute.
  destruct (organization_not_own l seg _ eq_refl) as (H1 & H2 & H3 & H4 & H5 & H6 & H7).
  rewrite !bool_decide_eq_false_2 by assumption. cbn [orb].
  by rewrite exec_organization.
Qed.

(** Redirecting an old settings URL keeps the account and the tab it names,
    and the URL written is not redirected again. *)
Theorem settings_redirects_preserve (path next : string) (currentLogin : option string)
    (H : settingsRedirect path = Some next \/ sandboxRedirect path = Some next) :
  parseAccountSettingsRoute next currentLogin = parseAccountSettingsRoute path currentLogin /\
  settingsRedirect next = None /\ sandboxRedirect next = None.
Proof.
  destruct H as [H|H].
  - unfold settingsRedirect in H. case_hyp H; [done|]. injection H as <-.
    apply andb_false_iff in E as [E|E]; apply negb_false_iff, bool_decide_eq_true_1 in E as ->;
      by vm_compute.
  - unfold sandboxRedirect in H. case_hyp H; [done|]. injection H as <-.
    apply andb_false_iff in E as [E|E]; apply negb_false_iff in E.
    { apply bool_decide_eq_true_1 in E as ->. by vm_compute. }
    apply test_spec in E as [caps E]. apply matches_lit_inv in E as (r & -> & E).
    apply matches_many_inv in E as (w & r' & c & -> & Nw & Hw & E & _).
    apply matches_lit_inv in E as (r & -> & E). apply matches_nil_inv in E as [-> _].
    rewrite class_run_NotSlash in Hw. rewrite sapp_nil_r, <- sapp_assoc, replace_suffix_app.
    rewrite !sapp_assoc.
    rewrite (parse_organization_raw w "sandbox-templates"),
      (parse_organization_raw w "sandbox"); [|done || (unfold settingsTabs; set_solver)..].
    split_and!; [done| |].
    + unfold settingsRedirect. by rewrite !bool_decide_eq_false_2.
    + unfold sandboxRedirect. rewrite bool_decide_eq_false_2 by done.
      cbn [negb andb]. destruct (test _ _) eqn:E; [exfalso|done].
      apply test_spec in E as [caps' E]. apply matches_lit_inv in E as (r & Er & E).
      apply sapp_inj_l in Er. subst r.
      apply matches_many_inv in E as (w' & r & c' & Ew & _ & Hw' & E & _).
      apply matches_lit_inv in E as (r' & -> & E). apply matches_nil_inv in E as [-> _].
      rewrite class_run_NotSlash in Hw'. simpl String.append in Ew.
      by apply first_sep_unique in Ew as [_ [=]].
Qed.

Lemma settings_redirects_preserve_witness :
  parseAccountSettingsRoute "/organizations/acme/sandbox-templates" (Some "octocat") =
    parseAccountSettingsRoute "/organizations/acme/sandbox" (Some "octocat") /\
  settingsRedirect "/organizations/acme/sandbox-templates" = None /\
  sandboxRedirect "/organizations/acme/sandbox-templates" = None.
Proof. apply settings_redirects_preserve. right. vm_compute. reflexivity. Defined.
