(* ===== verification/Errors.v ===== *)
(** Rejected requests and the texts that stand for logs:
    src/ui/src/user-auth-errors.ts, src/ui/src/app-log-state.ts and
    src/ui/src/components/github-log-utils.ts. *)
From S2P Require Import Prelude.
From S2P Require Import JsString.
From S2P Require Import Json.

(** ** What a promise rejects with *)

(** [RequestError]: an [Error] with an optional [code]; or any other value. *)
Inductive thrown := ThrownError (message : string) (errcode : option string) | ThrownOther.

(** [error instanceof Error ? error.message : fallback]. *)
Definition error_message (e : thrown) (fallback : string) : string :=
  match e with ThrownError m _ => m | ThrownOther => fallback end.

Definition requiresGitHubReauthentication (e : thrown) : bool :=
  match e with
  | ThrownError _ c => bool_decide (c = Some "REAUTH_REQUIRED")
  | ThrownOther => false
  end.

(** The gate of [createGitHubReauthenticationGate] closes over [started]; a call
    returns the new state and whether the caller may go on. *)
Definition ReauthGate := bool.
Definition createGitHubReauthenticationGate : ReauthGate := false.
Definition reauth_begin (started : ReauthGate) : ReauthGate * bool :=
  if started then (started, false) else (true, true).

(** ** Texts of logs *)

Inductive LocalizedLogMessageKey :=
  | key_app_loadFailed | key_common_loading | key_user_githubLogEmpty
  | key_user_githubLogFailed | key_user_loadingGitHubLog | key_user_loadingRunnerLog
  | key_user_runnerLogEmpty | key_user_runnerLogFailed.

Definition message_key (k : LocalizedLogMessageKey) : string :=
  match k with
  | key_app_loadFailed => "app.loadFailed"
  | key_common_loading => "common.loading"
  | key_user_githubLogEmpty => "user.githubLogEmpty"
  | key_user_githubLogFailed => "user.githubLogFailed"
  | key_user_loadingGitHubLog => "user.loadingGitHubLog"
  | key_user_loadingRunnerLog => "user.loadingRunnerLog"
  | key_user_runnerLogEmpty => "user.runnerLogEmpty"
  | key_user_runnerLogFailed => "user.runnerLogFailed"
  end.

Inductive LocalizedLogText := LogText (text : string) | LogMessage (key : LocalizedLogMessageKey).

#[export] Instance LocalizedLogMessageKey_eq_dec : EqDecision LocalizedLogMessageKey.
Proof. solve_decision. Defined.
#[export] Instance LocalizedLogText_eq_dec : EqDecision LocalizedLogText.
Proof. solve_decision. Defined.

Section texts.
Context (t : translate).

Definition localizedLogTextForView (logText : LocalizedLogText) : string :=
  match logText with LogMessage k => t (message_key k) [] | LogText text => text end.

Definition runnerLogTextForView (selectedID : string) (logText : LocalizedLogText) : string :=
  if negb (str_truthy selectedID) then t "app.noRunnerSelected" []
  else localizedLogTextForView logText.
End texts.

Definition githubLogFailureState (e : thrown) : LocalizedLogText :=
  match e with ThrownError m _ => LogText m | ThrownOther => LogMessage key_user_githubLogFailed end.

(** * Properties *)

Fixpoint reauth_calls (started : ReauthGate) (n : nat) : ReauthGate * list bool :=
  match n with
  | O => (started, [])
  | S n =>
      let '(s, b) := reauth_begin started in
      let '(s', bs) := reauth_calls s n in (s', b :: bs)
  end.

(** However many requests fail with a demand to sign in again, the sign-in
    is started once: of any number of calls of the gate only the first one is
    let through. *)
Theorem reauth_starts_once (n : nat) :
  (reauth_calls createGitHubReauthenticationGate (S n)).2 = true :: replicate n false.
Proof.
  assert (forall m, reauth_calls true m = (true, replicate m false)) as H.
  { induction m as [|m IH]; [done|]. simpl. by rewrite IH. }
  simpl. by rewrite H.
Qed.
