(* ===== verification/BuildGroups.v ===== *)
(** Build contexts of the jobs page: how src/ui/src/components/user-dashboard.tsx
    groups runner requests, orders them and sums up their status, and how
    App.tsx merges pages of requests.

    The loop of [groupRunnersByBuildContext] fills a [Map] of mutable group
    objects.  No object is reachable from two keys, so a mutation of the group
    under a key is an update of the map. *)
From S2P Require Import Prelude.
From S2P Require Import JsString.
From S2P Require Import JsArray.
From S2P Require Import JsRegex.
From S2P Require Import JsUri.
From S2P Require Import UrlPath.
From S2P Require Import AdminTypes.
From S2P Require Import AppRoutes.

(** [String.prototype.localeCompare] of the browser: a consistent comparison
    chosen by the reader's locale. *)
Class Locale (localeCompare : string -> string -> Z) : Prop :=
  locale_comparison :: Comparison localeCompare.

Inductive BuildGroupKind := KindPullRequest | KindBranch | KindWorkflowRun | KindManual.

Inductive RunnerStatusSummary := SumCompleted | SumActive | SumFailed.

#[export] Instance RunnerStatusSummary_eq_dec : EqDecision RunnerStatusSummary.
Proof. solve_decision. Defined.

Record BuildGroup := {
  bg_key : string;
  bg_kind : BuildGroupKind;
  bg_repository : string;
  bg_title : string;
  bg_subtitle : string;
  bg_updatedAt : string;
  bg_jobs : list RunnerState;
  bg_workflowRunIDs : list Z;
  bg_headSHA : option string;
  bg_headBranch : option string;
  bg_pullRequestNumber : option Z;
}.

Definition shortSHA (value : option string) : string :=
  match value with
  | Some v => if str_truthy v then if 7 <? js_length v then js_take 7 v else v else ""
  | None => ""
  end.

Definition isUserVisibleRunnerJob (job : RunnerState) : bool :=
  negb (bool_decide (failure_stage job = Some "admission") &&
        bool_decide (failure_reason job = Some "profile_labels_not_matched")).

Definition active_job (s : RunnerStatus) : bool := bool_decide (s ∈ [queued; creating; running; stopping]).

(** ** Pages of runner requests (App.tsx) *)

Definition mergeUserRunnerPages (primary existing : list RunnerState) : list RunnerState :=
  (fold_left (fun '(merged, seen) runner =>
     if bool_decide (id runner ∈ (seen : list string)) then (merged, seen)
     else (merged ++ [runner], seen ++ [id runner]))
   (primary ++ existing) ([], [])).1.

(** ** Statuses *)

Definition workflowStatus (jobs : list RunnerState) : RunnerStatusSummary :=
  if existsb (fun job => bool_decide (status job = failed)) jobs then SumFailed
  else if existsb (fun job => active_job (status job)) jobs then SumActive
  else SumCompleted.

Definition jobStatusSummary (s : RunnerStatus) : RunnerStatusSummary :=
  if bool_decide (s = failed) then SumFailed
  else if bool_decide (s = queued) || bool_decide (s = creating) ||
          bool_decide (s = running) || bool_decide (s = stopping) then SumActive
  else SumCompleted.

Definition isTerminalAvailable (job : RunnerState) : bool :=
  opt_truthy (sandbox_id job) && bool_decide (status job ∈ [creating; running; stopping]).

Definition runnerJobTitle (job : RunnerState) : string :=
  match assigned_job_name job with
  | Some name =>
      if str_truthy name && negb (bool_decide (name = "__runner_job_started__")) then name
      else or_str (workflow_name job) (runner_name job)
  | None => or_str (workflow_name job) (runner_name job)
  end.

(** The jobs of the first (latest) workflow run, or all. *)
Definition latestRunJobs (group : BuildGroup) : list RunnerState :=
  match bg_workflowRunIDs group with
  | latestRunID :: _ =>
      if (latestRunID =? 0)%Z then bg_jobs group else
      let current := filter (fun job => workflow_run_id job = Some latestRunID) (bg_jobs group) in
      match current with [] => bg_jobs group | _ => current end
  | [] => bg_jobs group
  end.

Definition currentBuildJobs (group : BuildGroup) : list RunnerState :=
  if opt_truthy (bg_headSHA group) then
    let current := filter (fun job => head_sha job = bg_headSHA group) (bg_jobs group) in
    match current with [] => latestRunJobs group | _ => current end
  else latestRunJobs group.

Definition previousBuildJobs (group : BuildGroup) (currentJobs : list RunnerState) :
    list RunnerState :=
  filter (fun job => id job ∉ map id currentJobs) (bg_jobs group).

Definition buildGroupStatus (group : BuildGroup) : RunnerStatusSummary :=
  let jobs := currentBuildJobs group in
  if existsb (fun job => bool_decide (status job = failed)) jobs then SumFailed
  else if existsb (fun job =>
            bool_decide (status job = queued) || bool_decide (status job = creating) ||
            bool_decide (status job = running) || bool_decide (status job = stopping)) jobs
  then SumActive
  else SumCompleted.

Definition buildGroupReference (group : BuildGroup) : string :=
  match bg_pullRequestNumber group with
  | Some n =>
      if (n =? 0)%Z then
        if opt_truthy (bg_headSHA group) then shortSHA (bg_headSHA group)
        else match bg_workflowRunIDs group with
             | run :: _ => if (run =? 0)%Z then pretty (List.length (bg_jobs group)) else pretty run
             | [] => pretty (List.length (bg_jobs group))
             end
      else pretty n
  | None =>
      if opt_truthy (bg_headSHA group) then shortSHA (bg_headSHA group)
      else match bg_workflowRunIDs group with
           | run :: _ => if (run =? 0)%Z then pretty (List.length (bg_jobs group)) else pretty run
           | [] => pretty (List.length (bg_jobs group))
           end
  end.

Section build_groups.
Context (t : translate) (localeCompare : string -> string -> Z).

Definition buildGroupStatusLabel (group : BuildGroup) (statusText : string) : string :=
  let statusKey :=
    if bool_decide (statusText = "failed") then "user.statusFailed"
    else if bool_decide (statusText = "running") then "user.statusRunning"
    else "user.statusPassed" in
  let status := t statusKey [] in
  match bg_kind group with
  | KindPullRequest => t "user.pullRequestStatus" [("status", status)]
  | KindWorkflowRun => t "user.workflowRunStatus" [("status", status)]
  | KindBranch => t "user.branchStatus" [("status", status)]
  | KindManual => t "user.jobStatus" [("status", status)]
  end.

Definition pullRequestHeading (group : BuildGroup) (jobGroup : option RunnerJobGroup) : string :=
  let title := trim <$> (jobGroup ≫= jg_pull_request_title) in
  let label := or_str (jg_title <$> jobGroup) (bg_title group) in
  if opt_truthy title then label +:+ ": " +:+ default "" title else label.

(** ** One group *)

Definition buildGroupSeed (runner : RunnerState) (repository : string)
    (pullRequestNumber : option Z) : BuildGroup :=
  let workflowRunIDs :=
    match workflow_run_id runner with
    | Some n => if (n =? 0)%Z then [] else [n]
    | None => []
    end in
  if num_truthy pullRequestNumber then
    let n := pretty (default 0%Z pullRequestNumber) in
    {| bg_key := "pr:" +:+ repository +:+ ":" +:+ n;
       bg_kind := KindPullRequest;
       bg_repository := repository;
       bg_title := "PR #" +:+ n;
       bg_subtitle :=
         or_str (head_branch runner)
           (or_str (Some (shortSHA (head_sha runner)))
             (or_str (workflow_name runner) (t "user.pullRequestChecks" [])));
       bg_updatedAt := updated_at runner;
       bg_jobs := [runner];
       bg_workflowRunIDs := workflowRunIDs;
       bg_headSHA := head_sha runner;
       bg_headBranch := head_branch runner;
       bg_pullRequestNumber := pullRequestNumber |}
  else if opt_truthy (head_sha runner) then
    let branch := or_str (head_branch runner) "detached" in
    {| bg_key := "branch:" +:+ repository +:+ ":" +:+ branch +:+ ":" +:+
                 default "" (head_sha runner);
       bg_kind := KindBranch;
       bg_repository := repository;
       bg_title := or_str (head_branch runner)
                     (t "user.commitTitle" [("sha", shortSHA (head_sha runner))]);
       bg_subtitle := or_str (Some (shortSHA (head_sha runner)))
                        (or_str (workflow_name runner) (t "user.branchChecks" []));
       bg_updatedAt := updated_at runner;
       bg_jobs := [runner];
       bg_workflowRunIDs := workflowRunIDs;
       bg_headSHA := head_sha runner;
       bg_headBranch := head_branch runner;
       bg_pullRequestNumber := None |}
  else if num_truthy (workflow_run_id runner) then
    let n := pretty (default 0%Z (workflow_run_id runner)) in
    {| bg_key := "run:" +:+ repository +:+ ":" +:+ n;
       bg_kind := KindWorkflowRun;
       bg_repository := repository;
       bg_title := or_str (workflow_name runner) (t "user.workflowRun" []);
       bg_subtitle := t "user.runTitle" [("id", n)];
       bg_updatedAt := updated_at runner;
       bg_jobs := [runner];
       bg_workflowRunIDs := workflowRunIDs;
       bg_headSHA := None;
       bg_headBranch := None;
       bg_pullRequestNumber := None |}
  else
    {| bg_key := "manual:" +:+ repository +:+ ":" +:+ id runner;
       bg_kind := KindManual;
       bg_repository := repository;
       bg_title := t "user.manualRunner" [];
       bg_subtitle := or_str (runner_spec_name runner) (or_str (Some (runner_name runner)) (id runner));
       bg_updatedAt := updated_at runner;
       bg_jobs := [runner];
       bg_workflowRunIDs := workflowRunIDs;
       bg_headSHA := None;
       bg_headBranch := None;
       bg_pullRequestNumber := None |}.

(** Mutations of an existing group. *)
Definition touch_group (runner : RunnerState) (seed g : BuildGroup) : BuildGroup := {|
  bg_key := bg_key g; bg_kind := bg_kind g; bg_repository := bg_repository g;
  bg_title := bg_title g; bg_subtitle := bg_subtitle seed;
  bg_updatedAt := updated_at runner; bg_jobs := bg_jobs g;
  bg_workflowRunIDs := bg_workflowRunIDs g;
  bg_headSHA := or_opt (head_sha runner) (bg_headSHA g);
  bg_headBranch := or_opt (head_branch runner) (bg_headBranch g);
  bg_pullRequestNumber := bg_pullRequestNumber g |}.

Definition set_jobs (jobs : list RunnerState) (g : BuildGroup) : BuildGroup := {|
  bg_key := bg_key g; bg_kind := bg_kind g; bg_repository := bg_repository g;
  bg_title := bg_title g; bg_subtitle := bg_subtitle g; bg_updatedAt := bg_updatedAt g;
  bg_jobs := jobs; bg_workflowRunIDs := bg_workflowRunIDs g; bg_headSHA := bg_headSHA g;
  bg_headBranch := bg_headBranch g; bg_pullRequestNumber := bg_pullRequestNumber g |}.

Definition set_head (sha branch : option string) (runs : list Z) (g : BuildGroup) :
    BuildGroup := {|
  bg_key := bg_key g; bg_kind := bg_kind g; bg_repository := bg_repository g;
  bg_title := bg_title g; bg_subtitle := bg_subtitle g; bg_updatedAt := bg_updatedAt g;
  bg_jobs := bg_jobs g; bg_workflowRunIDs := runs; bg_headSHA := sha;
  bg_headBranch := branch; bg_pullRequestNumber := bg_pullRequestNumber g |}.

(** The body of the loop for a runner whose group exists. *)
Definition add_job (runner : RunnerState) (seed current : BuildGroup) : BuildGroup :=
  let g := set_jobs (bg_jobs current ++ [runner]) current in
  let g := if str_gt (updated_at runner) (bg_updatedAt g) then touch_group runner seed g else g in
  let sha := if opt_truthy (head_sha runner) && negb (opt_truthy (bg_headSHA g))
             then head_sha runner else bg_headSHA g in
  let branch := if opt_truthy (head_branch runner) && negb (opt_truthy (bg_headBranch g))
                then head_branch runner else bg_headBranch g in
  let runs :=
    match workflow_run_id runner with
    | Some n =>
        if negb (n =? 0)%Z && negb (bool_decide (n ∈ bg_workflowRunIDs g))
        then sort_by (fun a b => b - a)%Z (bg_workflowRunIDs g ++ [n])
        else bg_workflowRunIDs g
    | None => bg_workflowRunIDs g
    end in
  set_head sha branch runs g.

(** ** The map of groups *)

(** Pull requests by [repository:sha], from the runners that name one. *)
Definition pr_by_sha (runners : list RunnerState) : gmap string Z :=
  fold_left (fun m runner =>
    match repository_full_name runner, head_sha runner, pull_request_number runner with
    | Some repo, Some sha, Some n =>
        if str_truthy repo && str_truthy sha && negb (n =? 0)%Z
        then <[repo +:+ ":" +:+ sha := n]> m else m
    | _, _, _ => m
    end) runners ∅.

Definition runner_repository (runner : RunnerState) : string :=
  or_str (repository_full_name runner) "unknown/repository".

Definition inferredPR (prs : gmap string Z) (runner : RunnerState) : option Z :=
  if num_truthy (pull_request_number runner) then pull_request_number runner
  else match head_sha runner with
       | Some sha =>
           if str_truthy sha then prs !! (runner_repository runner +:+ ":" +:+ sha) else None
       | None => None
       end.

Definition seed_of (prs : gmap string Z) (runner : RunnerState) : BuildGroup :=
  buildGroupSeed runner (runner_repository runner) (inferredPR prs runner).

Definition group_step (prs : gmap string Z) (groups : list (string * BuildGroup))
    (runner : RunnerState) : list (string * BuildGroup) :=
  let group := seed_of prs runner in
  match omap_get (bg_key group) groups with
  | Some _ => omap_update (add_job runner group) (bg_key group) groups
  | None => omap_set (bg_key group) group groups
  end.

Definition orderJobs : list RunnerState -> list RunnerState :=
  sort_by (fun a b =>
    let runOrder := (or_num (workflow_run_id b) 0 - or_num (workflow_run_id a) 0)%Z in
    if negb (runOrder =? 0)%Z then runOrder
    else localeCompare (updated_at b) (updated_at a)).

Definition build_groups (prs : gmap string Z) (visibleRunners : list RunnerState) :
    list (string * BuildGroup) :=
  fold_left (group_step prs) visibleRunners [].

Definition groupRunnersByBuildContext (runners : list RunnerState) : list BuildGroup :=
  let visibleRunners := filter isUserVisibleRunnerJob runners in
  let groups := build_groups (pr_by_sha runners) visibleRunners in
  sort_by (fun a b => localeCompare (bg_updatedAt b) (bg_updatedAt a))
    (map (fun group => set_jobs (orderJobs (bg_jobs group)) group) (groups.*2)).

(** ** Workflows inside a group *)

(** [job.workflow_run_id || job.id]: a number or a string. *)
Inductive WorkflowID := RunID (n : Z) | JobID (i : string).

#[global] Instance WorkflowID_eq_dec : EqDecision WorkflowID.
Proof. solve_decision. Defined.

Definition workflow_id (job : RunnerState) : WorkflowID :=
  match workflow_run_id job with
  | Some n => if (n =? 0)%Z then JobID (id job) else RunID n
  | None => JobID (id job)
  end.

Record WorkflowGroup := { wg_id : WorkflowID; wg_name : string; wg_jobs : list RunnerState }.

Definition push_job (job : RunnerState) (g : WorkflowGroup) : WorkflowGroup :=
  {| wg_id := wg_id g; wg_name := wg_name g; wg_jobs := wg_jobs g ++ [job] |}.

Definition workflow_step (groups : list (WorkflowID * WorkflowGroup)) (job : RunnerState) :
    list (WorkflowID * WorkflowGroup) :=
  let i := workflow_id job in
  match omap_get i groups with
  | Some _ => omap_update (push_job job) i groups
  | None =>
      omap_set i {| wg_id := i; wg_name := or_str (workflow_name job) (t "user.workflowRun" []);
                    wg_jobs := [job] |} groups
  end.

Definition workflowGroups (jobs : list RunnerState) : list WorkflowGroup :=
  (fold_left workflow_step jobs []).*2.
End build_groups.

(** * Properties *)

(** ** One group *)

Lemma or_opt_truthy o d : opt_truthy (or_opt o d) = opt_truthy o || opt_truthy d.
Proof. unfold or_opt. destruct (opt_truthy o) eqn:E; by rewrite ?E. Qed.

(** What a group says of its jobs, in the order they were added. *)
Record group_facts (jobs : list RunnerState) (g : BuildGroup) : Prop := {
  facts_jobs : bg_jobs g = jobs;
  facts_updated_in : exists j, j ∈ jobs /\ updated_at j = bg_updatedAt g;
  facts_updated_max : forall j, j ∈ jobs -> str_gt (updated_at j) (bg_updatedAt g) = false;
  facts_runs_sorted : StronglySorted Z.gt (bg_workflowRunIDs g);
  facts_runs : forall n, n ∈ bg_workflowRunIDs g <->
    n <> 0%Z /\ exists j, j ∈ jobs /\ workflow_run_id j = Some n;
  facts_sha_in : opt_truthy (bg_headSHA g) = true ->
    exists j, j ∈ jobs /\ head_sha j = bg_headSHA g;
  facts_sha_some : forall j, j ∈ jobs -> opt_truthy (head_sha j) = true ->
    opt_truthy (bg_headSHA g) = true;
}.

Lemma str_gt_false s u : str_gt s u = false <-> (str_cmp s u <= 0)%Z.
Proof. unfold str_gt. rewrite Z.ltb_ge. done. Qed.

Lemma str_gt_true s u : str_gt s u = true <-> (str_cmp u s < 0)%Z.
Proof. unfold str_gt. rewrite Z.ltb_lt. pose proof (cmp_sym u s). lia. Qed.

Lemma sort_desc_strict (l : list Z) :
  NoDup l -> StronglySorted Z.gt (sort_by (fun a b => b - a)%Z l).
Proof.
  intros Hnd. rewrite <- (sort_by_perm (fun a b => b - a)%Z l) in Hnd.
  pose proof (sort_by_sorted (fun a b => b - a)%Z l) as Hs. revert Hnd Hs.
  induction (sort_by (fun a b => b - a)%Z l) as [|x s IH]; [constructor|].
  intros [Hx Hnd]%NoDup_cons [Hs Hall]%StronglySorted_inv. constructor; [by apply IH|].
  rewrite Forall_forall in Hall |- *. intros y Hy. specialize (Hall y Hy). unfold cmp_le in Hall.
  destruct (decide (x = y)); [congruence|lia].
Qed.

Lemma StronglySorted_gt_NoDup (l : list Z) : StronglySorted Z.gt l -> NoDup l.
Proof.
  induction 1 as [|x l Hl IH Hx]; constructor; [|done].
  rewrite Forall_forall in Hx. intros Hin. specialize (Hx x Hin). lia.
Qed.

Section group_properties.
Context (t : translate) (localeCompare : string -> string -> Z).

Lemma seed_facts runner repository pr :
  group_facts [runner] (buildGroupSeed t runner repository pr).
Proof.
  assert (forall g, bg_jobs g = [runner] -> bg_updatedAt g = updated_at runner ->
    bg_workflowRunIDs g = match workflow_run_id runner with
                          | Some n => if (n =? 0)%Z then [] else [n] | None => [] end ->
    bg_headSHA g = head_sha runner \/
      (bg_headSHA g = None /\ opt_truthy (head_sha runner) = false) ->
    group_facts [runner] g) as Hgen.
  { intros g Ej Eu Er Es. split; [done|exists runner; by split; [left|]| | | | |].
    - intros j ->%list_elem_of_singleton. rewrite Eu. apply str_gt_false.
      rewrite cmp_refl; [done|apply _].
    - rewrite Er. destruct (workflow_run_id runner) as [n|]; [|constructor].
      destruct (n =? 0)%Z; repeat constructor.
    - intros n. rewrite Er. split.
      + destruct (workflow_run_id runner) as [m|] eqn:Em; [|set_solver].
        destruct (Z.eqb_spec m 0); [set_solver|]. intros ->%list_elem_of_singleton.
        split; [done|]. exists runner. by split; [left|].
      + intros (Hn & j & ->%list_elem_of_singleton & ->).
        destruct (Z.eqb_spec n 0); [done|left].
    - intros H. exists runner. split; [left|]. destruct Es as [->|[E _]]; [done|].
      by rewrite E in H.
    - intros j ->%list_elem_of_singleton H. destruct Es as [->|[_ E]]; [done|congruence]. }
  unfold buildGroupSeed. destruct (num_truthy pr); [apply Hgen; auto|].
  destruct (opt_truthy (head_sha runner)) eqn:Es; [apply Hgen; auto|].
  destruct (num_truthy (workflow_run_id runner)); apply Hgen; auto.
Qed.

(** The mutations of the loop, field by field. *)
Lemma add_job_jobs r seed g : bg_jobs (add_job r seed g) = bg_jobs g ++ [r].
Proof. unfold add_job. simpl. by destruct (str_gt _ _). Qed.

Lemma add_job_key r seed g : bg_key (add_job r seed g) = bg_key g.
Proof. unfold add_job. simpl. by destruct (str_gt _ _). Qed.

Lemma add_job_updated r seed g :
  bg_updatedAt (add_job r seed g) =
  if str_gt (updated_at r) (bg_updatedAt g) then updated_at r else bg_updatedAt g.
Proof. unfold add_job. simpl. by destruct (str_gt _ _). Qed.

Lemma add_job_runs r seed g :
  bg_workflowRunIDs (add_job r seed g) =
  match workflow_run_id r with
  | Some n => if negb (n =? 0)%Z && negb (bool_decide (n ∈ bg_workflowRunIDs g))
              then sort_by (fun a b => b - a)%Z (bg_workflowRunIDs g ++ [n])
              else bg_workflowRunIDs g
  | None => bg_workflowRunIDs g
  end.
Proof. unfold add_job. simpl. by destruct (str_gt _ _). Qed.

Lemma add_job_sha r seed g :
  bg_headSHA (add_job r seed g) = bg_headSHA g \/
  (opt_truthy (head_sha r) = true /\ bg_headSHA (add_job r seed g) = head_sha r).
Proof.
  unfold add_job. simpl. destruct (str_gt _ _); simpl.
  - unfold or_opt. destruct (opt_truthy (head_sha r)) eqn:E; simpl; [|by left].
    right. by rewrite E.
  - destruct (opt_truthy (head_sha r)) eqn:E; simpl; [|by left].
    destruct (opt_truthy (bg_headSHA g)); simpl; auto.
Qed.

Lemma add_job_sha_some r seed g :
  opt_truthy (head_sha r) = true \/ opt_truthy (bg_headSHA g) = true ->
  opt_truthy (bg_headSHA (add_job r seed g)) = true.
Proof.
  unfold add_job. simpl. destruct (str_gt _ _); simpl; rewrite ?or_opt_truthy.
  - destruct (opt_truthy (head_sha r)) eqn:E1, (opt_truthy (bg_headSHA g)) eqn:E2; simpl;
      rewrite ?or_opt_truthy, ?E1, ?E2; naive_solver.
  - destruct (opt_truthy (head_sha r)) eqn:E1, (opt_truthy (bg_headSHA g)) eqn:E2; simpl;
      rewrite ?E1, ?E2; naive_solver.
Qed.

Lemma add_job_runs_sorted r seed g :
  StronglySorted Z.gt (bg_workflowRunIDs g) ->
  StronglySorted Z.gt (bg_workflowRunIDs (add_job r seed g)).
Proof.
  intros Hsort. rewrite add_job_runs. destruct (workflow_run_id r) as [n|]; [|done].
  destruct (Z.eqb_spec n 0), (decide (n ∈ bg_workflowRunIDs g)) as [Hin|Hin]; simpl;
    rewrite ?bool_decide_eq_true_2, ?bool_decide_eq_false_2 by done; try done. simpl.
  apply sort_desc_strict. apply NoDup_app. split_and!.
  - by apply StronglySorted_gt_NoDup.
  - set_solver.
  - apply NoDup_singleton.
Qed.

Lemma add_job_runs_in r seed g n :
  n ∈ bg_workflowRunIDs (add_job r seed g) <->
  n ∈ bg_workflowRunIDs g \/ n <> 0%Z /\ workflow_run_id r = Some n.
Proof.
  rewrite add_job_runs. destruct (workflow_run_id r) as [m|].
  2:{ split; [by left|]. by intros [?|[_ ?]]. }
  destruct (Z.eqb_spec m 0) as [->|Hm]; simpl.
  { split; [by left|]. by intros [?|[? [= <-]]]. }
  case_bool_decide; simpl.
  { split; [by left|]. by intros [?|[? [= <-]]]. }
  rewrite elem_of_sort_by, elem_of_app, list_elem_of_singleton.
  split; [intros [?| ->]; auto|]. intros [?|[? [= <-]]]; auto.
Qed.

Lemma add_job_facts r seed jobs g :
  group_facts jobs g -> group_facts (jobs ++ [r]) (add_job r seed g).
Proof.
  intros [Ej [j0 [Hj0 Eu]] Hmax Hsort Hruns Hsha Hsome]. split.
  - by rewrite add_job_jobs, Ej.
  - rewrite add_job_updated. destruct (str_gt (updated_at r) (bg_updatedAt g)).
    + exists r. set_solver.
    + exists j0. set_solver.
  - intros j Hj. rewrite add_job_updated.
    destruct (str_gt (updated_at r) (bg_updatedAt g)) eqn:E; apply str_gt_false.
    + apply elem_of_app in Hj as [Hj|Hj%list_elem_of_singleton]; subst.
      * apply str_gt_true in E. specialize (Hmax j Hj). apply str_gt_false in Hmax.
        eapply cmp_trans; [done|lia].
      * rewrite cmp_refl; [done|apply _].
    + apply elem_of_app in Hj as [Hj|Hj%list_elem_of_singleton]; subst.
      * by apply str_gt_false, Hmax.
      * by apply str_gt_false.
  - by apply add_job_runs_sorted.
  - intros n. rewrite add_job_runs_in, Hruns. split.
    + intros [[Hn (j & Hj & E)]|[Hn E]]; (split; [done|]);
        [exists j|exists r]; rewrite elem_of_app; split; auto. right. left.
    + intros [Hn (j & [Hj| ->%list_elem_of_singleton]%elem_of_app & E)]; [left|right]; eauto.
  - intros H. destruct (add_job_sha r seed g) as [E|[Hr E]]; rewrite E in *.
    + destruct (Hsha H) as (j & Hj & Ej'). exists j. set_solver.
    + exists r. set_solver.
  - intros j Hj Hj'. apply add_job_sha_some.
    apply elem_of_app in Hj as [Hj|Hj%list_elem_of_singleton]; subst; [|by left].
    right. by eapply Hsome.
Qed.

(** ** The map of groups *)

Definition context_key (prs : gmap string Z) (runner : RunnerState) : string :=
  bg_key (seed_of t prs runner).

Definition add_runner (prs : gmap string Z) (runner : RunnerState) (g : BuildGroup) :
    BuildGroup := add_job runner (seed_of t prs runner) g.

Lemma build_groups_fold prs l :
  build_groups t prs l = group_fold (context_key prs) (seed_of t prs) (add_runner prs) l.
Proof. done. Qed.

(** Every group of the map: its key, and the facts about its jobs, which are
    the requests of that key in the order they came. *)
Lemma build_groups_group prs l k g :
  (k, g) ∈ build_groups t prs l ->
  bg_key g = k /\ group_facts (filter (fun r => context_key prs r = k) l) g /\
  filter (fun r => context_key prs r = k) l <> [].
Proof.
  rewrite build_groups_fold. intros H%group_fold_values.
  assert (forall x, x ∈ filter (fun r => context_key prs r = k) l -> context_key prs x = k)
    as Hall by (intros x [Hx _]%list_elem_of_filter; done).
  revert g H. induction (filter _ l) as [|r rs IH] using rev_ind; [done|].
  intros g. rewrite group_value_snoc. intros [= <-].
  destruct (group_value _ _ rs) as [g0|] eqn:E.
  - destruct (IH ltac:(intros x Hx; apply Hall; set_solver) _ eq_refl) as (Hk & Hf & _).
    split_and!; [|by apply add_job_facts|by destruct rs].
    unfold add_runner. by rewrite add_job_key.
  - destruct rs as [|r0 rs]; [|done]. split_and!; [|apply seed_facts|done].
    apply Hall. simpl. left.
Qed.

Lemma build_groups_keys prs l :
  (build_groups t prs l).*1 = uniq (map (context_key prs) l).
Proof. by rewrite build_groups_fold, group_fold_keys. Qed.

Lemma orderJobs_perm l : orderJobs localeCompare l ≡ₚ l.
Proof. apply sort_by_perm. Qed.

Lemma elem_of_groups runners g :
  g ∈ groupRunnersByBuildContext t localeCompare runners <->
  exists k g0, (k, g0) ∈ build_groups t (pr_by_sha runners)
                           (filter isUserVisibleRunnerJob runners) /\
    g = set_jobs (orderJobs localeCompare (bg_jobs g0)) g0.
Proof.
  unfold groupRunnersByBuildContext. rewrite elem_of_sort_by.
  rewrite list_elem_of_fmap. split.
  - intros (g0 & -> & Hg). apply list_elem_of_fmap in Hg as ([k g1] & -> & Hg). eauto.
  - intros (k & g0 & Hg & ->). exists g0. split; [done|].
    apply list_elem_of_fmap. by exists (k, g0).
Qed.

Lemma group_of_runners runners g :
  g ∈ groupRunnersByBuildContext t localeCompare runners ->
  exists g0,
    let jobs := filter (fun r => context_key (pr_by_sha runners) r = bg_key g)
                  (filter isUserVisibleRunnerJob runners) in
    group_facts jobs g0 /\ jobs <> [] /\
    g = set_jobs (orderJobs localeCompare jobs) g0.
Proof.
  intros (k & g0 & Hg & ->)%elem_of_groups. exists g0. simpl.
  apply build_groups_group in Hg as (<- & Hf & Hne). split_and!; [done..|].
  by rewrite (facts_jobs _ _ Hf).
Qed.

Lemma groups_keys runners :
  bg_key <$> groupRunnersByBuildContext t localeCompare runners ≡ₚ
  uniq (map (context_key (pr_by_sha runners)) (filter isUserVisibleRunnerJob runners)).
Proof.
  unfold groupRunnersByBuildContext. rewrite sort_by_perm.
  rewrite <- build_groups_keys, <- !list_fmap_compose.
  erewrite list_fmap_ext; [reflexivity|]. intros i [k g] Hg. simpl.
  by apply list_elem_of_lookup_2, build_groups_group in Hg as (-> & _).
Qed.
End group_properties.

Definition visible_jobs (runners : list RunnerState) : list RunnerState :=
  filter isUserVisibleRunnerJob runners.

(** C2.  Grouping loses and duplicates nothing: the groups have distinct keys,
    the jobs of all groups together are the visible requests, and a group holds
    exactly the visible requests of its key. *)
Theorem groups_partition (t : translate) (localeCompare : string -> string -> Z)
    (runners : list RunnerState) :
  let groups := groupRunnersByBuildContext t localeCompare runners in
  let key := context_key t (pr_by_sha runners) in
  NoDup (bg_key <$> groups) /\
  mjoin (bg_jobs <$> groups) ≡ₚ visible_jobs runners /\
  Forall (fun g => bg_jobs g <> [] /\
    bg_jobs g ≡ₚ filter (fun r => key r = bg_key g) (visible_jobs runners)) groups.
Proof.
  intros groups key.
  assert (forall g, g ∈ groups ->
    bg_jobs g ≡ₚ filter (fun r => key r = bg_key g) (visible_jobs runners)) as Hjobs.
  { intros g (g0 & _ & _ & E)%group_of_runners. rewrite E at 1. apply orderJobs_perm. }
  split_and!.
  - unfold groups. rewrite groups_keys. apply NoDup_uniq.
  - rewrite <- (gather_by_key key (bg_key <$> groups) (visible_jobs runners)).
    + rewrite <- list_fmap_compose. clear -Hjobs. induction groups as [|g groups IH]; [done|].
      simpl. rewrite (Hjobs g) at 1 by left. f_equiv. apply IH. intros g' Hg'.
      apply Hjobs. by right.
    + unfold groups. rewrite groups_keys. apply NoDup_uniq.
    + intros r Hr. unfold groups. rewrite groups_keys. apply elem_of_uniq.
      apply list_elem_of_fmap_2. exact Hr.
  - apply Forall_forall. intros g Hg. split; [|by apply Hjobs].
    intros E. specialize (Hjobs g Hg). rewrite E in Hjobs.
    apply group_of_runners in Hg as (g0 & _ & Hne & _).
    apply Permutation_nil_l in Hjobs. unfold visible_jobs in Hjobs. by rewrite Hjobs in Hne.
Qed.

(** C25.  A group sums up its jobs: its time is the latest update among them, its
    workflow runs are those of its jobs without repetition, newest first, and
    it has a head commit exactly when one of its jobs has, taken from such a
    job. *)
Theorem groups_summarise (t : translate) (localeCompare : string -> string -> Z)
    (runners : list RunnerState) :
  Forall (fun g =>
    (exists j, j ∈ bg_jobs g /\ updated_at j = bg_updatedAt g) /\
    Forall (fun j => str_gt (updated_at j) (bg_updatedAt g) = false) (bg_jobs g) /\
    StronglySorted Z.gt (bg_workflowRunIDs g) /\
    (forall n, n ∈ bg_workflowRunIDs g <->
       n <> 0%Z /\ exists j, j ∈ bg_jobs g /\ workflow_run_id j = Some n) /\
    (opt_truthy (bg_headSHA g) = true <->
       exists j, j ∈ bg_jobs g /\ opt_truthy (head_sha j) = true) /\
    (opt_truthy (bg_headSHA g) = true ->
       exists j, j ∈ bg_jobs g /\ head_sha j = bg_headSHA g))
    (groupRunnersByBuildContext t localeCompare runners).
Proof.
  apply Forall_forall. intros g (g0 & Hf & _ & E)%group_of_runners.
  assert (forall j, j ∈ bg_jobs g <->
    j ∈ filter (fun r => context_key t (pr_by_sha runners) r = bg_key g)
          (filter isUserVisibleRunnerJob runners)) as Hin.
  { intros j. rewrite E at 1. simpl. by rewrite orderJobs_perm. }
  assert (bg_updatedAt g = bg_updatedAt g0 /\ bg_workflowRunIDs g = bg_workflowRunIDs g0 /\
          bg_headSHA g = bg_headSHA g0) as (Eu & Er & Es) by by rewrite E.
  clear E. destruct Hf as [_ Hu Hmax Hsort Hruns Hsha Hsome].
  setoid_rewrite Hin. rewrite Eu, Er, Es. split_and!; try done.
  - apply Forall_forall. intros j Hj. apply Hmax. by apply Hin.
  - split; [|intros (j & Hj & Hs); by eapply Hsome].
    intros H. destruct (Hsha H) as (j & Hj & Ej). exists j. by rewrite Ej.
Qed.

(** The page lists the groups by last update and the jobs of a group by
    workflow run, then by last update, latest first. *)
Theorem groups_ordered (t : translate) (localeCompare : string -> string -> Z)
    (runners : list RunnerState) (H : Locale localeCompare) :
  let groups := groupRunnersByBuildContext t localeCompare runners in
  StronglySorted (fun a b => localeCompare (bg_updatedAt b) (bg_updatedAt a) <= 0)%Z groups /\
  Forall (fun g => StronglySorted (fun a b =>
    let run j := or_num (workflow_run_id j) 0 in
    run b < run a \/ run a = run b /\ localeCompare (updated_at b) (updated_at a) <= 0)%Z
    (bg_jobs g)) groups.
Proof.
  pose proof (flip_comparison localeCompare) as Hflip. split.
  - apply sort_by_sorted. exact (comparison_on bg_updatedAt (fun a b => localeCompare b a)).
  - apply Forall_forall. intros g (k & g0 & _ & ->)%elem_of_groups. simpl.
    unfold orderJobs. eapply StronglySorted_impl; [|apply sort_by_sorted, then_comparison].
    + intros a b. unfold cmp_le. simpl.
      destruct (Z.eqb_spec (or_num (workflow_run_id b) 0 - or_num (workflow_run_id a) 0) 0);
        simpl; lia.
    + exact (Zsub_on_comparison (fun j => or_num (workflow_run_id j) 0)).
    + exact (comparison_on updated_at (fun a b => localeCompare b a)).
Qed.

(** Requests used by the examples. *)
Definition with_context (repo sha branch : option string) (run pr : option Z) (r : RunnerState) :
    RunnerState := {|
  id := id r; status := status r; repository_full_name := repo;
  requested_labels := requested_labels r; runner_spec_name := runner_spec_name r;
  runner_group := runner_group r; runner_name := runner_name r; sandbox_id := sandbox_id r;
  sandbox_config_source := sandbox_config_source r; process_pid := process_pid r;
  workflow_job_id := workflow_job_id r; workflow_run_id := run;
  workflow_name := workflow_name r; workflow_run_attempt := workflow_run_attempt r;
  head_branch := branch; head_sha := sha; github_job_url := github_job_url r;
  pull_request_number := pr; assigned_job_id := assigned_job_id r;
  assigned_job_name := assigned_job_name r; error := error r;
  failure_stage := failure_stage r; failure_reason := failure_reason r;
  last_error_code := last_error_code r; last_error_message := last_error_message r;
  last_error_retryable := last_error_retryable r; retry_count := retry_count r;
  updated_at := updated_at r; created_at := created_at r; running_at := running_at r;
  next_retry_at := next_retry_at r; completed_at := completed_at r; failed_at := failed_at r |}.

Definition example_runners : list RunnerState :=
  let repo := Some "qiniu/ci-runner" in
  [ with_context repo (Some "aaaaaaaa1") (Some "main") (Some 10%Z) None
      (blank_runner "r1" completed "n1" "2026-01-01T00:00:00Z" "2026-01-01T00:01:00Z");
    with_context repo (Some "bbbbbbbb2") (Some "feat") (Some 12%Z) (Some 7%Z)
      (blank_runner "r2" failed "n2" "2026-01-02T00:00:00Z" "2026-01-02T00:01:00Z");
    with_context repo (Some "bbbbbbbb2") (Some "feat") (Some 13%Z) None
      (blank_runner "r3" running "n3" "2026-01-03T00:00:00Z" "2026-01-03T00:01:00Z") ].

Example groups_infer_pull_request :
  bg_key <$> groupRunnersByBuildContext (fun k _ => k) str_cmp example_runners =
  ["pr:qiniu/ci-runner:7"; "branch:qiniu/ci-runner:main:aaaaaaaa1"].
Proof. vm_compute. reflexivity. Qed.

Lemma groups_ordered_witness :
  let groups := groupRunnersByBuildContext (fun k _ => k) str_cmp example_runners in
  StronglySorted (fun a b => str_cmp (bg_updatedAt b) (bg_updatedAt a) <= 0)%Z groups /\
  Forall (fun g => StronglySorted (fun a b =>
    let run j := or_num (workflow_run_id j) 0 in
    run b < run a \/ run a = run b /\ str_cmp (updated_at b) (updated_at a) <= 0)%Z
    (bg_jobs g)) groups.
Proof.
  apply (groups_ordered (fun k _ => k) str_cmp example_runners). apply str_cmp_comparison.
Defined.

(** ** Current and previous jobs, and the status of a group *)

Lemma nonempty_or {A} (l d : list A) : l <> [] -> match l with [] => d | _ => l end = l.
Proof. by destruct l. Qed.

(** The current jobs are some of the jobs of the group. *)
Lemma currentBuildJobs_filter g :
  exists p : RunnerState -> bool, currentBuildJobs g = filter p (bg_jobs g).
Proof.
  assert (exists p : RunnerState -> bool, bg_jobs g = filter p (bg_jobs g)) as Hall.
  { exists (fun _ => true). by rewrite filter_all. }
  assert (forall (P : RunnerState -> Prop) `{!forall j, Decision (P j)},
    exists p : RunnerState -> bool, filter P (bg_jobs g) = filter p (bg_jobs g)) as Hfilter.
  { intros P HP. exists (fun j => bool_decide (P j)). apply list_filter_iff.
    intros j. by rewrite bool_decide_spec. }
  assert (exists p : RunnerState -> bool, latestRunJobs g = filter p (bg_jobs g)) as Hrun.
  { unfold latestRunJobs. destruct (bg_workflowRunIDs g) as [|n ns]; [done|].
    destruct (n =? 0)%Z; [done|].
    pose proof (Hfilter (fun job => workflow_run_id job = Some n) _) as Hf.
    cbv zeta. destruct (filter _ (bg_jobs g)); [exact Hall|exact Hf]. }
  unfold currentBuildJobs. destruct (opt_truthy _); [|done].
  pose proof (Hfilter (fun job => head_sha job = bg_headSHA g) _) as Hf.
  cbv zeta. destruct (filter _ (bg_jobs g)); [exact Hrun|exact Hf].
Qed.

Lemma latestRunJobs_nonempty g : bg_jobs g <> [] -> latestRunJobs g <> [].
Proof.
  intros H. unfold latestRunJobs. destruct (bg_workflowRunIDs g) as [|n ns]; [done|].
  destruct (n =? 0)%Z; [done|]. by destruct (filter _ (bg_jobs g)) eqn:E.
Qed.

Lemma currentBuildJobs_nonempty g : bg_jobs g <> [] -> currentBuildJobs g <> [].
Proof.
  intros H%latestRunJobs_nonempty. unfold currentBuildJobs. destruct (opt_truthy _); [|done].
  by destruct (filter _ (bg_jobs g)) eqn:E.
Qed.

Lemma currentBuildJobs_sha g :
  opt_truthy (bg_headSHA g) = true ->
  (exists j, j ∈ bg_jobs g /\ head_sha j = bg_headSHA g) ->
  currentBuildJobs g = filter (fun j => head_sha j = bg_headSHA g) (bg_jobs g).
Proof.
  intros Hs (j & Hj & Ej). unfold currentBuildJobs. rewrite Hs. apply nonempty_or. intros E.
  assert (j ∈ filter (fun j => head_sha j = bg_headSHA g) (bg_jobs g)) as Hf
    by by apply list_elem_of_filter.
  rewrite E in Hf. by apply not_elem_of_nil in Hf.
Qed.

(** The previous jobs complete the current ones when job ids are distinct. *)
Lemma current_previous g :
  NoDup (id <$> bg_jobs g) ->
  let current := currentBuildJobs g in
  (forall j, j ∈ bg_jobs g <-> j ∈ current \/ j ∈ previousBuildJobs g current) /\
  NoDup (id <$> (current ++ previousBuildJobs g current)).
Proof.
  intros Hnd current. destruct (currentBuildJobs_filter g) as [p Hp].
  unfold current, previousBuildJobs. rewrite Hp. clear current Hp.
  set (current := filter p (bg_jobs g)).
  assert (forall j, j ∈ current -> j ∈ bg_jobs g) as Hin
    by (intros j [_ Hj]%list_elem_of_filter; done).
  split.
  - intros j. rewrite list_elem_of_filter. split.
    + intros Hj. destruct (decide (id j ∈ map id current)) as [H|H]; [left|by right].
      apply list_elem_of_fmap in H as (j' & E & Hj').
      by rewrite (NoDup_fmap_inj id (bg_jobs g) j j' Hnd Hj (Hin j' Hj') E).
    + intros [Hj|[_ Hj]]; [by apply Hin|done].
  - rewrite fmap_app. apply NoDup_app. split_and!; [by apply NoDup_fmap_filter| |
      by apply NoDup_fmap_filter].
    intros i Hi (j & -> & [Hj _]%list_elem_of_filter)%list_elem_of_fmap. by apply Hj.
Qed.

(** What the page shows of a group covers its jobs: the current jobs are
    never empty and are those of the group's head commit when it has one; with
    distinct job ids the current and the previous jobs together are the jobs
    of the group, each once. *)
Theorem current_previous_partition (t : translate) (localeCompare : string -> string -> Z)
    (runners : list RunnerState) (Hids : NoDup (id <$> runners)) :
  Forall (fun g =>
    let current := currentBuildJobs g in
    current <> [] /\
    (opt_truthy (bg_headSHA g) = true ->
       current = filter (fun j => head_sha j = bg_headSHA g) (bg_jobs g)) /\
    (forall j, j ∈ bg_jobs g <-> j ∈ current \/ j ∈ previousBuildJobs g current) /\
    NoDup (id <$> (current ++ previousBuildJobs g current)))
    (groupRunnersByBuildContext t localeCompare runners).
Proof.
  apply Forall_forall. intros g Hg current.
  pose proof (group_of_runners _ _ _ _ Hg) as (g0 & Hf & Hne & E).
  assert (bg_jobs g ≡ₚ filter (fun r => context_key t (pr_by_sha runners) r = bg_key g)
            (filter isUserVisibleRunnerJob runners)) as Hjobs
    by (rewrite E at 1; apply orderJobs_perm).
  assert (bg_headSHA g = bg_headSHA g0) as Es by by rewrite E.
  split_and!.
  - apply currentBuildJobs_nonempty. intros E0. rewrite E0 in Hjobs.
    apply Hne. by apply Permutation_nil_l in Hjobs.
  - intros Hs. apply currentBuildJobs_sha; [done|]. rewrite Es in Hs |- *.
    destruct (facts_sha_in _ _ Hf Hs) as (j & Hj & Ej). exists j. by rewrite Hjobs.
  - apply current_previous. rewrite Hjobs. by do 2 apply NoDup_fmap_filter.
  - apply current_previous. rewrite Hjobs. by do 2 apply NoDup_fmap_filter.
Qed.

Lemma current_previous_partition_witness :
  Forall (fun g =>
    let current := currentBuildJobs g in
    current <> [] /\
    (opt_truthy (bg_headSHA g) = true ->
       current = filter (fun j => head_sha j = bg_headSHA g) (bg_jobs g)) /\
    (forall j, j ∈ bg_jobs g <-> j ∈ current \/ j ∈ previousBuildJobs g current) /\
    NoDup (id <$> (current ++ previousBuildJobs g current)))
    (groupRunnersByBuildContext (fun k _ => k) str_cmp example_runners).
Proof.
  apply current_previous_partition. apply (bool_decide_unpack _). vm_compute. exact I.
Defined.

(** The order of severity of a status. *)
Definition worst (a b : RunnerStatusSummary) : RunnerStatusSummary :=
  match a, b with
  | SumFailed, _ | _, SumFailed => SumFailed
  | SumActive, _ | _, SumActive => SumActive
  | SumCompleted, SumCompleted => SumCompleted
  end.

Definition worst_status (jobs : list RunnerState) : RunnerStatusSummary :=
  foldr worst SumCompleted (map (fun job => jobStatusSummary (status job)) jobs).

Lemma worst_status_spec jobs :
  worst_status jobs =
  if existsb (fun job => bool_decide (status job = failed)) jobs then SumFailed
  else if existsb (fun job => active_job (status job)) jobs then SumActive
  else SumCompleted.
Proof.
  induction jobs as [|j jobs IH]; [done|].
  change (worst_status (j :: jobs)) with (worst (jobStatusSummary (status j)) (worst_status jobs)).
  rewrite IH. simpl.
  destruct (status j), (existsb (fun job => bool_decide (status job = failed)) jobs),
    (existsb (fun job => active_job (status job)) jobs); done.
Qed.

(** The badges agree: the status of a workflow and of a build context is the
    worst status among its (current) jobs: failed before active before
    completed. *)
Theorem statuses_worst (jobs : list RunnerState) (group : BuildGroup) :
  workflowStatus jobs = worst_status jobs /\
  buildGroupStatus group = worst_status (currentBuildJobs group).
Proof.
  rewrite !worst_status_spec. split; [done|]. unfold buildGroupStatus.
  generalize (currentBuildJobs group) as l. intros l.
  destruct (existsb (fun job => bool_decide (status job = failed)) l); [done|].
  rewrite (existsb_ext l (fun job => active_job (status job)) (fun job =>
    bool_decide (status job = queued) || bool_decide (status job = creating) ||
    bool_decide (status job = running) || bool_decide (status job = stopping))); [done|].
  intros j. by destruct (status j).
Qed.

(** ** Workflows and pages *)

Lemma workflowGroups_fold t jobs :
  workflowGroups t jobs =
  (group_fold workflow_id
     (fun job => {| wg_id := workflow_id job;
                    wg_name := or_str (workflow_name job) (t "user.workflowRun" []);
                    wg_jobs := [job] |})
     push_job jobs).*2.
Proof. done. Qed.

Lemma workflow_value jobs seed g :
  (forall job, wg_jobs (seed job) = [job] /\ wg_id (seed job) = workflow_id job) ->
  group_value seed push_job jobs = Some g ->
  wg_jobs g = jobs /\ exists job, job ∈ jobs /\ wg_id g = workflow_id job.
Proof.
  intros Hseed. revert g. induction jobs as [|j jobs IH] using rev_ind; [done|].
  intros g. rewrite group_value_snoc. intros [= <-].
  destruct (group_value seed push_job jobs) as [g0|] eqn:E.
  - destruct (IH _ eq_refl) as (Ej & job & Hjob & Ei). simpl. rewrite Ej.
    split; [done|]. exists job. rewrite elem_of_app. auto.
  - destruct jobs; [|done]. destruct (Hseed j) as [-> ->].
    split; [done|]. exists j. split; [left|done].
Qed.

(** The explorer shows every job of the context once, under its workflow
    run: distinct runs, each with exactly its jobs in order. *)
Theorem workflowGroups_partition (t : translate) (jobs : list RunnerState) :
  let groups := workflowGroups t jobs in
  wg_id <$> groups = uniq (map workflow_id jobs) /\
  NoDup (wg_id <$> groups) /\
  mjoin (wg_jobs <$> groups) ≡ₚ jobs /\
  Forall (fun g => wg_jobs g = filter (fun job => workflow_id job = wg_id g) jobs) groups.
Proof.
  intros groups. unfold groups. rewrite workflowGroups_fold.
  set (seed := fun job => {| wg_id := workflow_id job; wg_name := _; wg_jobs := [job] |}).
  set (m := group_fold workflow_id seed push_job jobs).
  assert (forall k g, (k, g) ∈ m ->
    wg_id g = k /\ wg_jobs g = filter (fun job => workflow_id job = k) jobs) as Hm.
  { intros k g H%group_fold_values. apply workflow_value in H as (Ej & job & Hjob & Ei); [|done].
    split; [|done]. rewrite Ei. by apply list_elem_of_filter in Hjob as [? _]. }
  assert (wg_id <$> m.*2 = uniq (map workflow_id jobs)) as Hids.
  { rewrite <- (group_fold_keys workflow_id seed push_job), <- list_fmap_compose.
    apply list_fmap_ext. intros i [k g] H%list_elem_of_lookup_2. simpl. by apply Hm in H as [-> _]. }
  assert (wg_jobs <$> m.*2 = (fun k => filter (fun job => workflow_id job = k) jobs) <$> (wg_id <$> m.*2))
    as Hjobs.
  { rewrite <- !list_fmap_compose. apply list_fmap_ext.
    intros i [k g] H%list_elem_of_lookup_2. simpl. by apply Hm in H as [-> ->]. }
  split_and!.
  - done.
  - rewrite Hids. apply NoDup_uniq.
  - rewrite Hjobs, Hids. apply gather_by_key; [apply NoDup_uniq|].
    intros job Hj. apply elem_of_uniq. by apply list_elem_of_fmap_2.
  - apply Forall_forall. intros g ([k g'] & -> & H)%list_elem_of_fmap. simpl.
    by apply Hm in H as [-> ->].
Qed.

Lemma mergeUserRunnerPages_onto l merged :
  (fold_left (fun '(merged, seen) runner =>
     if bool_decide (id runner ∈ (seen : list string)) then (merged, seen)
     else (merged ++ [runner], seen ++ [id runner])) l (merged, id <$> merged)) =
  let out := (fold_left (fun out runner =>
     if bool_decide (id runner ∈ id <$> out) then out else out ++ [runner]) l merged) in
  (out, id <$> out).
Proof.
  revert merged. induction l as [|r l IH]; intros merged; [done|]. simpl.
  case_bool_decide; [apply IH|]. rewrite <- IH. by rewrite fmap_app.
Qed.

Lemma find_first_app {A} (p : A -> bool) l m :
  find_first p (l ++ m) = match find_first p l with Some x => Some x | None => find_first p m end.
Proof. induction l as [|x l IH]; simpl; [done|]. by destruct (p x). Qed.

(** Merging a poll into the list keeps one entry per request, the freshest:
    the entry of an id is the one of the polled page, or the old one when the
    page does not have it; and no request is lost. *)
Theorem mergeUserRunnerPages_spec (primary existing : list RunnerState) :
  let merged := mergeUserRunnerPages primary existing in
  NoDup (id <$> merged) /\
  (forall i, let named := fun r => bool_decide (id r = i) in
     find_first named merged =
     match find_first named primary with
     | Some r => Some r
     | None => find_first named existing
     end).
Proof.
  intros merged. unfold merged, mergeUserRunnerPages.
  pose proof (mergeUserRunnerPages_onto (primary ++ existing) []) as E.
  simpl in E. rewrite E. clear E merged. simpl fst.
  assert (forall l out, NoDup (id <$> out) ->
    let res := fold_left (fun out runner =>
      if bool_decide (id runner ∈ id <$> out) then out else out ++ [runner]) l out in
    NoDup (id <$> res) /\
    forall i, find_first (fun r => bool_decide (id r = i)) res =
              find_first (fun r => bool_decide (id r = i)) (out ++ l)) as H.
  { induction l as [|r l IH]; intros out Hout; simpl; [by rewrite app_nil_r|].
    case_bool_decide as Hr.
    - destruct (IH out Hout) as [H1 H2]. split; [done|]. intros i. rewrite H2.
      rewrite !find_first_app. destruct (find_first _ out) eqn:E; [done|]. simpl.
      rewrite bool_decide_eq_false_2; [done|]. intros <-.
      apply list_elem_of_fmap in Hr as (r' & Er & Hr').
      rewrite find_first_None in E. specialize (E r' Hr'). simpl in E.
      by rewrite Er, bool_decide_eq_true_2 in E.
    - destruct (IH (out ++ [r])) as [H1 H2].
      { rewrite fmap_app. apply NoDup_app. split_and!; [done| |apply NoDup_singleton].
        intros i Hi ->%list_elem_of_singleton. done. }
      split; [done|]. intros i. rewrite H2. by rewrite <- app_assoc. }
  destruct (H (primary ++ existing) [] (NoDup_nil_2)) as [H1 H2]. split; [done|].
  intros i. simpl. rewrite H2. simpl. by rewrite find_first_app.
Qed.

(** ** Build contexts and their keys *)

(** The build context of a request: what the key of its group encodes. *)
Inductive build_context :=
  | CtxPullRequest (repository : string) (number : Z)
  | CtxBranch (repository branch sha : string)
  | CtxRun (repository : string) (run : Z)
  | CtxManual (repository i : string).

Definition context_of (prs : gmap string Z) (r : RunnerState) : build_context :=
  let repository := runner_repository r in
  let pr := inferredPR prs r in
  if num_truthy pr then CtxPullRequest repository (default 0%Z pr)
  else if opt_truthy (head_sha r)
  then CtxBranch repository (or_str (head_branch r) "detached") (default "" (head_sha r))
  else if num_truthy (workflow_run_id r)
  then CtxRun repository (default 0%Z (workflow_run_id r))
  else CtxManual repository (id r).

Definition context_string (c : build_context) : string :=
  match c with
  | CtxPullRequest repo n => "pr:" +:+ repo +:+ ":" +:+ pretty n
  | CtxBranch repo branch sha => "branch:" +:+ repo +:+ ":" +:+ branch +:+ ":" +:+ sha
  | CtxRun repo n => "run:" +:+ repo +:+ ":" +:+ pretty n
  | CtxManual repo i => "manual:" +:+ repo +:+ ":" +:+ i
  end.

Lemma context_key_string t prs r : context_key t prs r = context_string (context_of prs r).
Proof.
  unfold context_key, seed_of, buildGroupSeed, context_of.
  destruct (num_truthy _); [done|]. destruct (opt_truthy _); [done|].
  by destruct (num_truthy _).
Qed.

Definition context_plain (c : build_context) : Prop :=
  match c with
  | CtxPullRequest repo _ | CtxRun repo _ | CtxManual repo _ => free ":" repo = true
  | CtxBranch repo _ sha => free ":" repo = true /\ free ":" sha = true
  end.

Lemma context_string_inj c d :
  context_plain c -> context_plain d -> context_string c = context_string d -> c = d.
Proof.
  destruct c as [p n|p b s|p n|p i], d as [q m|q b' s'|q m|q i'];
    cbn [context_plain context_string]; intros Hc Hd E; try discriminate E.
  - apply sapp_inj_l in E. simpl String.append in E.
    apply first_sep_unique in E as [-> E]; [|done..]. apply (inj pretty) in E. by subst.
  - destruct Hc as [Hp Hs], Hd as [Hq Hs']. apply sapp_inj_l in E. simpl String.append in E.
    apply first_sep_unique in E as [-> E]; [|done..].
    apply last_sep_unique in E as [-> ->]; done.
  - apply sapp_inj_l in E. simpl String.append in E.
    apply first_sep_unique in E as [-> E]; [|done..]. apply (inj pretty) in E. by subst.
  - apply sapp_inj_l in E. simpl String.append in E.
    apply first_sep_unique in E as [-> ->]; done.
Qed.

(** Two requests share a group exactly when they belong to the same build
    context: the pull request of their repository (named by the request or
    inferred from its commit), else the branch and commit, else the workflow
    run, else the request itself. *)
Theorem same_group_iff_same_context (t : translate) (prs : gmap string Z) (r1 r2 : RunnerState)
    (H1 : context_plain (context_of prs r1)) (H2 : context_plain (context_of prs r2)) :
  context_key t prs r1 = context_key t prs r2 <-> context_of prs r1 = context_of prs r2.
Proof.
  rewrite !context_key_string. split; [by apply context_string_inj|]. by intros ->.
Qed.

Lemma same_group_iff_same_context_witness :
  let r1 := default (blank_runner "" queued "" "" "") (example_runners !! 1) in
  let r2 := default (blank_runner "" queued "" "" "") (example_runners !! 2) in
  let prs := pr_by_sha example_runners in
  context_key (fun k _ => k) prs r1 = context_key (fun k _ => k) prs r2 <->
  context_of prs r1 = context_of prs r2.
Proof. apply same_group_iff_same_context; vm_compute; reflexivity. Defined.

(** ** Links to groups *)

(** The requests of an installed GitHub repository; no commit and no identifier is a
    dot segment, which the browser would take out of a path. *)
Record runner_ok (r : RunnerState) : Prop := {
  ok_repository : exists o n, runner_repository r = o +:+ "/" +:+ n /\ repository_ok o n;
  ok_pull_request : forall n, pull_request_number r = Some n -> (0 <= n)%Z;
  ok_run : forall n, workflow_run_id r = Some n -> (0 <= n)%Z;
  ok_sha : forall s, head_sha r = Some s -> utf8 s /\ free ":" s = true /\ plain_name s;
  ok_branch : forall b, head_branch r = Some b -> utf8 b /\ no_newline b = true;
  ok_id : utf8 (id r) /\ id r <> "" /\ free ":" (id r) = true /\ plain_name (id r);
}.

Lemma pr_by_sha_in runners k n :
  pr_by_sha runners !! k = Some n ->
  n <> 0%Z /\ exists r, r ∈ runners /\ pull_request_number r = Some n.
Proof.
  unfold pr_by_sha. induction runners as [|r rs IH] using rev_ind.
  - simpl. rewrite lookup_empty. done.
  - rewrite fold_left_app. simpl.
    assert (forall m : gmap string Z,
      (m !! k = Some n -> n <> 0%Z /\ exists r, r ∈ rs /\ pull_request_number r = Some n) ->
      m !! k = Some n ->
      n <> 0%Z /\ exists r0, r0 ∈ rs ++ [r] /\ pull_request_number r0 = Some n) as Hold.
    { intros m Hm H. destruct (Hm H) as [Hn (r0 & Hr0 & E)]. split; [done|].
      exists r0. rewrite elem_of_app. auto. }
    specialize (Hold _ IH).
    destruct (repository_full_name r) as [repo|], (head_sha r) as [sha|],
      (pull_request_number r) as [m|] eqn:Ep; try exact Hold.
    destruct (str_truthy repo && str_truthy sha && negb (m =? 0)%Z) eqn:E; [|exact Hold].
    destruct (decide (repo +:+ ":" +:+ sha = k)) as [<-|Hk].
    + rewrite lookup_insert_eq. intros [= ->]. split_bools. split; [lia|].
      exists r. rewrite elem_of_app. split; [right; left|done].
    + rewrite lookup_insert_ne by done. exact Hold.
Qed.

Lemma number_ok_pretty n : (0 <= n)%Z -> number_ok (pretty n).
Proof. intros H. split; [apply pretty_Z_nonempty|by apply pretty_Z_digits]. Qed.

Lemma inferredPR_nonneg runners r n :
  Forall runner_ok runners -> r ∈ runners -> inferredPR (pr_by_sha runners) r = Some n ->
  (0 <= n)%Z.
Proof.
  intros Hall Hr. rewrite Forall_forall in Hall. unfold inferredPR.
  destruct (num_truthy _); [apply (ok_pull_request r), Hall; done|].
  destruct (head_sha r) as [s|]; [|done]. destruct (str_truthy s); [|done].
  intros (_ & r' & Hr' & E)%pr_by_sha_in. by eapply (ok_pull_request r'), E; apply Hall.
Qed.

(** The contexts whose keys the URL grammar round-trips. *)
Definition context_ok (c : build_context) : Prop :=
  match c with
  | CtxPullRequest repo n | CtxRun repo n =>
      (exists o r, repo = o +:+ "/" +:+ r /\ repository_ok o r) /\ (0 <= n)%Z
  | CtxBranch repo b sha =>
      (exists o r, repo = o +:+ "/" +:+ r /\ repository_ok o r) /\
      (utf8 b /\ b <> "" /\ no_newline b = true) /\ utf8 sha /\ sha <> "" /\ free ":" sha = true /\ plain_name sha
  | CtxManual repo i =>
      (exists o r, repo = o +:+ "/" +:+ r /\ repository_ok o r) /\
      utf8 i /\ i <> "" /\ free ":" i = true /\ plain_name i
  end.

Lemma context_ok_key c :
  context_ok c -> exists k, group_key_ok k /\ context_string c = group_key_string k.
Proof.
  destruct c as [repo n|repo b sha|repo n|repo i]; intros [(o & r & -> & Hr) H].
  - exists (PRKey o r (pretty n)). split; [|done]. split; [done|by apply number_ok_pretty].
  - exists (BranchKey o r b sha). split; [|done]. destruct H as [(? & ? & ?) (? & ? & ? & ?)].
    by split_and!.
  - exists (RunKey o r (pretty n)). split; [|done]. split; [done|by apply number_ok_pretty].
  - exists (ManualKey o r i). split; [|done]. destruct H as (? & ? & ? & ?). by split_and!.
Qed.

Lemma branch_name_ok r :
  runner_ok r ->
  let b := or_str (head_branch r) "detached" in utf8 b /\ b <> "" /\ no_newline b = true.
Proof.
  intros Hr b. unfold b, or_str. destruct (head_branch r) as [h|] eqn:E.
  - destruct (str_truthy h) eqn:T; [|split_and!; [by apply utf8_ascii|done..]].
    destruct (ok_branch r Hr h E). split_and!; [done| |done]. by apply str_truthy_true.
  - split_and!; [by apply utf8_ascii|done..].
Qed.

Lemma context_of_ok runners r :
  Forall runner_ok runners -> r ∈ runners -> context_ok (context_of (pr_by_sha runners) r).
Proof.
  intros Hall Hr. pose proof (fun n => inferredPR_nonneg runners r n Hall Hr) as Hpr.
  rewrite Forall_forall in Hall. specialize (Hall r Hr).
  pose proof (ok_repository r Hall) as Hrepo. unfold context_of.
  destruct (num_truthy (inferredPR _ r)) eqn:E1.
  { split; [done|]. destruct (inferredPR _ r); [by apply Hpr|done]. }
  destruct (opt_truthy (head_sha r)) eqn:E2.
  { apply opt_truthy_true in E2 as (s & Es & Ns). rewrite Es. simpl default.
    destruct (ok_sha r Hall s Es) as (? & ? & ?). split; [done|]. split; [by apply branch_name_ok|done]. }
  destruct (num_truthy (workflow_run_id r)) eqn:E3.
  - split; [done|]. destruct (workflow_run_id r) eqn:E; [|done]. by apply (ok_run r Hall).
  - split; [done|apply (ok_id r Hall)].
Qed.

Lemma group_key_of_group t localeCompare runners g :
  Forall runner_ok runners -> g ∈ groupRunnersByBuildContext t localeCompare runners ->
  exists k, group_key_ok k /\ bg_key g = group_key_string k.
Proof.
  intros Hall Hg. pose proof (list_elem_of_fmap_2 bg_key _ _ Hg) as Hk.
  rewrite groups_keys, elem_of_uniq in Hk. apply list_elem_of_fmap in Hk as (r & Ek & Hr).
  apply list_elem_of_filter in Hr as [_ Hr]. rewrite Ek, context_key_string.
  apply context_ok_key. by apply context_of_ok.
Qed.

(** The group the page shows for a selected key. *)
Definition selected_group (groups : list BuildGroup) (key : string) : option BuildGroup :=
  find_first (fun g => bool_decide (bg_key g = key)) groups.

Lemma selected_group_key groups g :
  NoDup (bg_key <$> groups) -> g ∈ groups -> selected_group groups (bg_key g) = Some g.
Proof.
  intros Hnd Hg. unfold selected_group. destruct (find_first _ groups) as [g'|] eqn:E.
  - apply find_first_Some in E as [Hg' E]. apply bool_decide_eq_true_1 in E.
    f_equal. by eapply NoDup_fmap_inj.
  - rewrite find_first_None in E. specialize (E g Hg). simpl in E.
    by rewrite bool_decide_eq_true_2 in E.
Qed.

(** C11.  A link to a group opens that group: for requests of GitHub repositories,
    the URL pushed when a group is selected is one from whose location the page
    finds the same group again.  No repository, commit or id is a dot segment. *)
Theorem group_links_open (t : translate) (localeCompare : string -> string -> Z)
    (runners : list RunnerState) (H : Forall runner_ok runners) :
  let groups := groupRunnersByBuildContext t localeCompare runners in
  Forall (fun g =>
    let url := userJobsPath (bg_key g) in
    selected_group groups
      (userJobsGroupKeyFromLocation (location_pathname url) (location_search url)) = Some g)
    groups.
Proof.
  intros groups. apply Forall_forall. intros g Hg url.
  destruct (group_key_of_group t localeCompare runners g H Hg) as (k & Hk & Ek).
  assert (userJobsGroupKeyFromLocation (location_pathname url) (location_search url) = bg_key g)
    as ->.
  { unfold url. rewrite Ek, userJobsPath_url by done.
    apply key_from_url; [done|by apply group_key_params_utf8|]. by intros o r b sha ->. }
  apply selected_group_key; [|done]. unfold groups. rewrite groups_keys. apply NoDup_uniq.
Qed.

Lemma example_runner_ok r :
  runner_repository r = "qiniu/ci-runner" ->
  (forall n, pull_request_number r = Some n -> (0 <= n)%Z) ->
  (forall n, workflow_run_id r = Some n -> (0 <= n)%Z) ->
  (forall s, head_sha r = Some s -> utf8b s = true /\ free ":" s = true /\ plain_name s) ->
  (forall b, head_branch r = Some b -> utf8b b = true /\ no_newline b = true) ->
  utf8b (id r) = true /\ id r <> "" /\ free ":" (id r) = true /\ plain_name (id r) ->
  runner_ok r.
Proof.
  intros Er Hp Hn Hs Hb (Hi & Ni & Fi & Pi). split; try done.
  - exists "qiniu", "ci-runner". split; [done|]. split; try done; auto with runnerd; by apply utf8b_sound.
  - intros s E. destruct (Hs s E) as (? & ? & ?). split_and!; [by apply utf8b_sound|done..].
  - intros b E. destruct (Hb b E). split; [by apply utf8b_sound|done].
  - split_and!; [by apply utf8b_sound|done..].
Qed.

Lemma group_links_open_witness :
  let groups := groupRunnersByBuildContext (fun k _ => k) str_cmp example_runners in
  Forall (fun g =>
    let url := userJobsPath (bg_key g) in
    selected_group groups
      (userJobsGroupKeyFromLocation (location_pathname url) (location_search url)) = Some g)
    groups.
Proof.
  apply (group_links_open (fun k _ => k) str_cmp example_runners).
  repeat first [apply Forall_nil_2 | apply Forall_cons_2];
    (apply example_runner_ok; try done; intros ? [= <-]; by repeat split).
Defined.
