(* ===== verification/JobLogs.v ===== *)
(** The log viewer of a job: [LogOutput], [parseLogLines] and the responses of
    the log requests in src/ui/src/components/user-dashboard.tsx.

    A GitHub Actions log marks foldable groups with [##[group]] and
    [##[endgroup]] lines.  The viewer numbers the lines, hides the end markers
    and the content of collapsed groups. *)
From S2P Require Import Prelude.
From S2P Require Import JsString.
From S2P Require Import JsArray.
From S2P Require Import Json.
From S2P Require Import AdminTypes.
From S2P Require Import Errors.

(** ** Lines *)

Definition cr : string := chr 13.

(** [text.split(/\r?\n/)]: a carriage return before a line feed belongs to the
    separator. *)
Definition drop_cr (line : string) : string := replace_suffix cr "" line.

Fixpoint drop_crs (lines : list string) : list string :=
  match lines with
  | [] => []
  | [last] => [last]
  | line :: lines => drop_cr line :: drop_crs lines
  end.

Definition split_lines (text : string) : list string :=
  drop_crs (split_on (ascii_of_N 10) text).

(** ** [parseLogLines] *)

Inductive LineKind := KindLine | KindGroupStart.

Record ParsedLogLine := {
  line_index : nat;
  line_text : string;
  line_displayText : string;
  line_kind : LineKind;
  line_groupID : option nat;
}.

Definition group_mark : string := "##[group]".
Definition endgroup_mark : string := "##[endgroup]".

(** The state of the loop: the visible lines so far and the stack of the groups
    that are open, innermost first. *)
Definition parse_step (collapsedGroups : gset nat)
    (st : list ParsedLogLine * list nat) (index : nat) (text : string) :
    list ParsedLogLine * list nat :=
  let '(visible, stack) := st in
  let hiddenByParent := existsb (fun groupID => bool_decide (groupID ∈ collapsedGroups)) stack in
  if includes group_mark text then
    let visible :=
      if negb hiddenByParent
      then visible ++ [{| line_index := index; line_text := text;
                          line_displayText := replace_first group_mark "" text;
                          line_kind := KindGroupStart; line_groupID := Some index |}]
      else visible in
    (visible, index :: stack)
  else if includes endgroup_mark text then (visible, tail stack)
  else if negb hiddenByParent
  then (visible ++ [{| line_index := index; line_text := text; line_displayText := text;
                       line_kind := KindLine; line_groupID := None |}], stack)
  else (visible, stack).

Fixpoint parse_from (collapsedGroups : gset nat) (st : list ParsedLogLine * list nat)
    (index : nat) (lines : list string) : list ParsedLogLine * list nat :=
  match lines with
  | [] => st
  | text :: lines =>
      parse_from collapsedGroups (parse_step collapsedGroups st index text) (S index) lines
  end.

Definition parseLogLines (lines : list string) (collapsedGroups : gset nat) :
    list ParsedLogLine :=
  (parse_from collapsedGroups ([], []) 0 lines).1.

(** ** The viewer *)

Record CollapseState := { collapse_text : string; collapse_groups : gset nat }.

Definition collapsedGroupsOf (text : string) (st : CollapseState) : gset nat :=
  if bool_decide (collapse_text st = text) then collapse_groups st else ∅.

Definition toggleGroup (text : string) (groupID : nat) (current : CollapseState) : CollapseState :=
  let next := if bool_decide (collapse_text current = text) then collapse_groups current else ∅ in
  {| collapse_text := text;
     collapse_groups := if bool_decide (groupID ∈ next) then next ∖ {[groupID]}
                        else {[groupID]} ∪ next |}.

Definition largeLog (lines : list string) : bool := (20000 <? Z.of_nat (List.length lines))%Z.

(** The rows the viewer shows for [text]; a very long log is shown as one
    preformatted text instead. *)
Definition logRows (text : string) (st : CollapseState) : option (list ParsedLogLine) :=
  let lines := split_lines text in
  if largeLog lines then None else Some (parseLogLines lines (collapsedGroupsOf text st)).

Inductive LineClass := GroupClass | CommandClass | PlainClass.

Definition logLineClass (line : string) : LineClass :=
  if includes group_mark line || includes endgroup_mark line then GroupClass
  else if startsWith "$ " (trimStart line) then CommandClass
  else PlainClass.

(** ** Responses *)

Definition logResponseText (text : json) (emptyMessageKey : LocalizedLogMessageKey) :
    LocalizedLogText :=
  match text with
  | JStr s => if str_truthy s then LogText s else LogMessage emptyMessageKey
  | v => LogText (stringify_indented "" v)
  end.

Inductive GitHubLogState := GitHubLog (text : LocalizedLogText) | GitHubUnavailable (detail : string).

Definition githubLogResponseState (text : json) (k : LocalizedLogMessageKey) : GitHubLogState :=
  GitHubLog (logResponseText text k).

Definition isGitHubLogUnavailable (text : string) : bool :=
  let value := toLowerCase text in
  includes "status 404" value || includes "blobnotfound" value ||
  includes "the specified blob does not exist" value.

Definition githubLogErrorState (e : thrown) : GitHubLogState :=
  let failure := githubLogFailureState e in
  match failure with
  | LogText text => if isGitHubLogUnavailable text then GitHubUnavailable text else GitHubLog failure
  | LogMessage _ => GitHubLog failure
  end.

(** The part of the job's URL that names its workflow run. *)
Definition workflowRunURL (job : RunnerState) : string :=
  match github_job_url job, workflow_run_id job with
  | Some url, Some run =>
      if str_truthy url && negb (run =? 0)%Z then
        let marker := "/actions/runs/" +:+ pretty run in
        match cut marker url with Some (before, _) => before +:+ marker | None => "" end
      else ""
  | _, _ => ""
  end.

(** * Properties *)

(** ** Which lines are inside which group

    A specification that does not mention the stack: a line opens (+1) or
    closes (-1) a group, and the group opened at [i] is still open before line
    [j] when no prefix of the lines between closes more groups than it
    opens. *)
Definition delta (text : string) : Z :=
  if includes group_mark text then 1 else if includes endgroup_mark text then -1 else 0.

Definition sumZ (l : list Z) : Z := foldr Z.add 0%Z l.

Definition balance (lines : list string) (i j : nat) : Z :=
  sumZ (map delta (take (j - S i) (drop (S i) lines))).

Definition group_start (lines : list string) (i : nat) : Prop :=
  exists text, lines !! i = Some text /\ includes group_mark text = true.

Definition open_at (lines : list string) (i j : nat) : Prop :=
  group_start lines i /\ i < j /\ forall m, i < m <= j -> (0 <= balance lines i m)%Z.

(** The row of a line, and the lines that have one. *)
Definition row (index : nat) (text : string) : ParsedLogLine :=
  if includes group_mark text
  then {| line_index := index; line_text := text;
          line_displayText := replace_first group_mark "" text;
          line_kind := KindGroupStart; line_groupID := Some index |}
  else {| line_index := index; line_text := text; line_displayText := text;
          line_kind := KindLine; line_groupID := None |}.

Definition shown (lines : list string) (collapsed : gset nat) (j : nat) (text : string) : Prop :=
  lines !! j = Some text /\ delta text <> (-1)%Z /\
  forall i, i ∈ collapsed -> ~ open_at lines i j.

Lemma sumZ_app l m : sumZ (l ++ m) = (sumZ l + sumZ m)%Z.
Proof. unfold sumZ. induction l as [|x l IH]; simpl; [done|]. rewrite IH. lia. Qed.

Lemma balance_snoc_old lines x i m :
  m <= List.length lines -> balance (lines ++ [x]) i m = balance lines i m.
Proof.
  intros Hm. unfold balance. destruct (decide (S i <= List.length lines)) as [Hi|Hi].
  - rewrite drop_app_le by done. rewrite take_app_le; [done|]. rewrite length_drop. lia.
  - replace (m - S i) with 0 by lia. done.
Qed.

Lemma balance_snoc_new lines x i :
  i < List.length lines ->
  balance (lines ++ [x]) i (S (List.length lines)) =
  (balance lines i (List.length lines) + delta x)%Z.
Proof.
  intros Hi. unfold balance. rewrite drop_app_le by lia.
  rewrite take_ge by (rewrite length_app, length_drop; simpl; lia).
  rewrite (take_ge (drop _ _)) by (rewrite length_drop; lia).
  rewrite map_app, sumZ_app. simpl. lia.
Qed.

Lemma balance_self lines i : balance lines i (S i) = 0%Z.
Proof. unfold balance. by rewrite Nat.sub_diag. Qed.

Lemma group_start_snoc lines x i :
  group_start (lines ++ [x]) i <->
  group_start lines i \/ i = List.length lines /\ includes group_mark x = true.
Proof.
  unfold group_start. split.
  - intros (text & Ht & Hg). destruct (decide (i < List.length lines)) as [Hi|Hi].
    + left. exists text. by rewrite lookup_app_l in Ht.
    + right. apply lookup_snoc_Some in Ht as [[? _]|[-> <-]]; [lia|done].
  - intros [(text & Ht & Hg)|[-> Hg]].
    + exists text. by erewrite lookup_app_l_Some.
    + exists x. by rewrite list_lookup_middle.
Qed.

Lemma group_start_lt lines i : group_start lines i -> i < List.length lines.
Proof. intros (text & Ht & _). by eapply lookup_lt_Some. Qed.

Lemma open_at_old lines x i j :
  j <= List.length lines -> open_at (lines ++ [x]) i j <-> open_at lines i j.
Proof.
  intros Hj. unfold open_at. rewrite group_start_snoc. split.
  - intros ([Hs|[-> _]] & Hi & Hm); [|lia]. split_and!; [done..|].
    intros m Hm'. rewrite <- (balance_snoc_old lines x i m) by lia. by apply Hm.
  - intros (Hs & Hi & Hm). split_and!; [by left|done|].
    intros m Hm'. rewrite balance_snoc_old by lia. by apply Hm.
Qed.

Lemma open_at_new lines x i :
  let n := List.length lines in
  open_at (lines ++ [x]) i (S n) <->
  open_at lines i n /\ (0 <= balance lines i n + delta x)%Z \/
  i = n /\ includes group_mark x = true.
Proof.
  intros n. unfold open_at. rewrite group_start_snoc. split.
  - intros ([Hs|[-> Hg]] & Hi & Hm); [|by right]. left.
    pose proof (group_start_lt _ _ Hs) as Hl. split_and!; [done..| |].
    + intros m Hm'. rewrite <- (balance_snoc_old lines x i m) by lia. apply Hm. lia.
    + rewrite <- balance_snoc_new by done. apply Hm. lia.
  - intros [[(Hs & Hi & Hm) Hb]|[-> Hg]].
    + split_and!; [by left|lia|]. intros m Hm'. destruct (decide (m = S n)) as [->|Hne].
      * by rewrite balance_snoc_new.
      * rewrite balance_snoc_old by lia. apply Hm. lia.
    + split_and!; [by right|lia|]. intros m Hm'. assert (m = S n) as -> by lia.
      unfold n. by rewrite balance_self.
Qed.

(** The stack of the loop holds the open groups, each below as many groups as
    were opened and not closed since. *)
Definition stack_inv (lines : list string) (stack : list nat) : Prop :=
  (forall i, i ∈ stack <-> open_at lines i (List.length lines)) /\
  (forall p i, stack !! p = Some i -> balance lines i (List.length lines) = Z.of_nat p).

Definition push_pop (stack : list nat) (index : nat) (text : string) : list nat :=
  if includes group_mark text then index :: stack
  else if includes endgroup_mark text then tail stack else stack.

Lemma delta_cases text :
  delta text = 1%Z /\ includes group_mark text = true \/
  delta text = (-1)%Z /\ includes group_mark text = false /\ includes endgroup_mark text = true \/
  delta text = 0%Z /\ includes group_mark text = false /\ includes endgroup_mark text = false.
Proof. unfold delta. destruct (includes group_mark text), (includes endgroup_mark text); auto. Qed.

Lemma stack_inv_step lines stack x :
  stack_inv lines stack ->
  stack_inv (lines ++ [x]) (push_pop stack (List.length lines) x).
Proof.
  intros [Hin Hpos]. unfold stack_inv. rewrite length_app, Nat.add_1_r.
  assert (forall p i, stack !! p = Some i ->
    balance (lines ++ [x]) i (S (List.length lines)) = (Z.of_nat p + delta x)%Z) as Hbal.
  { intros p i Hp. rewrite balance_snoc_new; [by rewrite (Hpos p)|].
    apply list_elem_of_lookup_2, Hin in Hp as (Hs & _). by eapply group_start_lt. }
  unfold push_pop. destruct (delta_cases x) as [[Ed E1]|[(Ed & E1 & E2)|(Ed & E1 & E2)]];
    rewrite Ed in Hbal; rewrite E1, ?E2; split.
  - intros i. rewrite open_at_new, elem_of_cons, Hin, Ed, E1. split.
    + intros [->|Ho]; [by right|left]. split; [done|].
      destruct Ho as (Hs & Hi & Hm). specialize (Hm (List.length lines)). lia.
    + intros [[Ho _]|[-> _]]; auto.
  - intros [|p] i; simpl.
    + intros [= <-]. by rewrite balance_self.
    + intros Hp. rewrite (Hbal p i Hp). lia.
  - intros i. rewrite open_at_new, Ed, E1. destruct stack as [|top stack]; simpl.
    + split; [by intros ?%not_elem_of_nil|]. intros [[Ho%Hin _]|[_ ?]]; [|done].
      by apply not_elem_of_nil in Ho.
    + split.
      * intros [p Hp]%list_elem_of_lookup. left. split; [apply Hin; right; by eapply list_elem_of_lookup_2|].
        rewrite (Hpos (S p) i Hp). lia.
      * intros [[Ho%Hin Hb]|[_ ?]]; [|done]. apply list_elem_of_lookup in Ho as [[|p] Hp].
        -- rewrite (Hpos 0 i Hp) in Hb. lia.
        -- simpl in Hp. by eapply list_elem_of_lookup_2.
  - intros p i. destruct stack as [|top stack]; simpl; [done|].
    intros Hp. rewrite (Hbal (S p) i Hp). lia.
  - intros i. rewrite open_at_new, Hin, Ed, E1. split.
    + intros Ho. left. split; [done|]. destruct Ho as (Hs & Hi & Hm).
      specialize (Hm (List.length lines)). lia.
    + by intros [[Ho _]|[_ ?]].
  - intros p i Hp. rewrite (Hbal p i Hp). lia.
Qed.

Definition hidden_by (collapsed : gset nat) (stack : list nat) : bool :=
  existsb (fun groupID => bool_decide (groupID ∈ collapsed)) stack.

Lemma parse_step_eq collapsed visible stack index text :
  parse_step collapsed (visible, stack) index text =
  (if negb (delta text =? -1)%Z && negb (hidden_by collapsed stack)
   then visible ++ [row index text] else visible,
   push_pop stack index text).
Proof.
  unfold parse_step, push_pop, row, hidden_by.
  destruct (delta_cases text) as [[-> ->]|[(-> & -> & ->)|(-> & -> & ->)]]; simpl; [|done|];
    by destruct (existsb _ stack).
Qed.

Lemma parse_from_snoc collapsed st index lines x :
  parse_from collapsed st index (lines ++ [x]) =
  parse_step collapsed (parse_from collapsed st index lines) (index + List.length lines) x.
Proof.
  revert st index. induction lines as [|y lines IH]; intros st index; simpl.
  - by rewrite Nat.add_0_r.
  - rewrite IH. by rewrite Nat.add_succ_r.
Qed.

Lemma hidden_by_spec lines stack collapsed :
  stack_inv lines stack ->
  hidden_by collapsed stack = true <->
  exists i, i ∈ collapsed /\ open_at lines i (List.length lines).
Proof.
  intros [Hin _]. unfold hidden_by. rewrite existsb_exists. split.
  - intros (i & Hi%list_elem_of_In & Hc%bool_decide_eq_true_1). exists i. by rewrite <- Hin.
  - intros (i & Hc & Hi%Hin). exists i. rewrite bool_decide_eq_true.
    split; [by apply list_elem_of_In|done].
Qed.

Lemma shown_snoc lines x collapsed j text :
  shown (lines ++ [x]) collapsed j text <->
  shown lines collapsed j text \/
  j = List.length lines /\ text = x /\ delta x <> (-1)%Z /\
  forall i, i ∈ collapsed -> ~ open_at lines i (List.length lines).
Proof.
  unfold shown. split.
  - intros (Ht & Hd & Hc). apply lookup_snoc_Some in Ht as [[Hj Ht]|[-> <-]].
    + left. split_and!; [done..|]. intros i Hi. rewrite <- (open_at_old _ x) by lia. by apply Hc.
    + right. split_and!; [done..|]. intros i Hi. rewrite <- (open_at_old _ x) by lia. by apply Hc.
  - intros [(Ht & Hd & Hc)|(-> & -> & Hd & Hc)].
    + pose proof (lookup_lt_Some _ _ _ Ht). split_and!; [by erewrite lookup_app_l_Some|done|].
      intros i Hi. rewrite open_at_old by lia. by apply Hc.
    + split_and!; [by rewrite list_lookup_middle|done|].
      intros i Hi. rewrite open_at_old by lia. by apply Hc.
Qed.

(** What the loop has after [lines]. *)
Definition parse_inv (collapsed : gset nat) (lines : list string)
    (st : list ParsedLogLine * list nat) : Prop :=
  stack_inv lines st.2 /\
  (forall r, r ∈ st.1 <-> exists j text, shown lines collapsed j text /\ r = row j text) /\
  StronglySorted lt (line_index <$> st.1).

Lemma row_index j text : line_index (row j text) = j.
Proof. unfold row. by destruct (includes _ _). Qed.

Lemma StronglySorted_snoc {A} (R : A -> A -> Prop) l x :
  StronglySorted R l -> Forall (fun y => R y x) l -> StronglySorted R (l ++ [x]).
Proof.
  induction 1 as [|y l _ IH Hy]; simpl; [repeat constructor|].
  intros [Hyx Hl]%Forall_cons. constructor; [by apply IH|].
  apply Forall_app. split; [done|]. by repeat constructor.
Qed.

Lemma parse_invariant collapsed lines :
  parse_inv collapsed lines (parse_from collapsed ([], []) 0 lines).
Proof.
  induction lines as [|x lines IH] using rev_ind.
  - split_and!; simpl; [|intros r; split|constructor].
    + split; [|done]. intros i. split; [by intros ?%not_elem_of_nil|]. intros ((t & ? & _) & _). done.
    + by intros ?%not_elem_of_nil.
    + intros (j & text & (? & _) & _). done.
  - rewrite parse_from_snoc. destruct (parse_from _ _ _ lines) as [visible stack].
    destruct IH as (Hst & Hvis & Hsort). rewrite parse_step_eq. simpl in Hst, Hvis, Hsort.
    rewrite Nat.add_0_l.
    pose proof (hidden_by_spec _ _ collapsed Hst) as Hhid.
    assert (forall b : bool, b = negb (delta x =? -1)%Z && negb (hidden_by collapsed stack) ->
      b = true <-> delta x <> (-1)%Z /\
        forall i, i ∈ collapsed -> ~ open_at lines i (List.length lines)) as Hb.
    { intros b ->. rewrite andb_true_iff, !negb_true_iff, Z.eqb_neq.
      rewrite <- not_true_iff_false, Hhid. naive_solver. }
    specialize (Hb _ eq_refl). destruct (negb _ && negb _).
    + destruct (proj1 Hb eq_refl) as [Hd Hc]. split_and!; [by apply stack_inv_step| |]; simpl.
      * intros r. rewrite elem_of_app, list_elem_of_singleton, Hvis. setoid_rewrite shown_snoc.
        split.
        -- intros [(j & text & Hs & ->)| ->]; [exists j, text; auto|].
           exists (List.length lines), x. split; [by right|done].
        -- intros (j & text & [Hs|(-> & -> & _)] & ->); [left; eauto|by right].
      * rewrite fmap_app. apply StronglySorted_snoc; [done|]. apply Forall_forall.
        intros i (r & -> & (j & text & (Ht & _) & ->)%Hvis)%list_elem_of_fmap.
        rewrite !row_index. by eapply lookup_lt_Some.
    + split_and!; [by apply stack_inv_step| |done]; simpl.
      intros r. rewrite Hvis. setoid_rewrite shown_snoc. split; [naive_solver|].
      intros (j & text & [Hs|(-> & -> & Hd & Hc)] & ->); [eauto|].
      exfalso. by assert (false = true) by (apply Hb; auto).
Qed.

(** C8.  The log viewer shows exactly the lines that are not inside a collapsed
    group and do not close one, in order and numbered as in the log; being
    inside a group is the bracket structure of the markers, stray end markers
    and unclosed groups included. *)
Theorem parseLogLines_spec (lines : list string) (collapsed : gset nat) :
  let rows := parseLogLines lines collapsed in
  (forall r, r ∈ rows <-> exists j text, shown lines collapsed j text /\ r = row j text) /\
  StronglySorted lt (line_index <$> rows).
Proof. destruct (parse_invariant collapsed lines) as (_ & Hvis & Hsort). by split. Qed.

Example parse_nested :
  line_index <$> parseLogLines
    ["a"; "##[group]g"; "b"; "##[group]h"; "c"; "##[endgroup]"; "d"; "##[endgroup]"; "##[endgroup]"; "e"]
    {[3]} = [0; 1; 2; 3; 6; 9].
Proof. vm_compute. reflexivity. Qed.

(** Folding is per log and undoes itself: toggling a group flips that group
    only, twice gives the collapsed groups back, and a log with another text
    starts with everything unfolded. *)
Theorem toggleGroup_spec (text : string) (g : nat) (st : CollapseState) :
  let st' := toggleGroup text g st in
  (forall i, i ∈ collapsedGroupsOf text st' <->
     if decide (i = g) then i ∉ collapsedGroupsOf text st else i ∈ collapsedGroupsOf text st) /\
  collapsedGroupsOf text (toggleGroup text g st') = collapsedGroupsOf text st /\
  (forall other, other <> text -> collapsedGroupsOf other st' = ∅).
Proof.
  unfold collapsedGroupsOf, toggleGroup. simpl. rewrite !bool_decide_eq_true_2 by done.
  set (next := if bool_decide (collapse_text st = text) then collapse_groups st else ∅).
  split_and!.
  - intros i. case_bool_decide; case_decide; set_solver.
  - destruct (decide (g ∈ next)).
    + rewrite (bool_decide_eq_true_2 (g ∈ next)) by done. rewrite bool_decide_eq_false_2 by set_solver.
      apply set_eq. intros i. destruct (decide (i = g)); set_solver.
    + rewrite (bool_decide_eq_false_2 (g ∈ next)) by done. rewrite bool_decide_eq_true_2 by set_solver.
      set_solver.
  - intros other Hne. by rewrite bool_decide_eq_false_2 by done.
Qed.

(** ** Lines of a text *)

Definition line_ok (line : string) : Prop :=
  free (ascii_of_N 10) line = true /\ endsWith cr line = false.

Lemma drop_cr_id line : endsWith cr line = false -> drop_cr line = line.
Proof.
  unfold drop_cr, replace_suffix, endsWith. by destruct (drop_suffix cr line).
Qed.

Lemma drop_cr_app line : drop_cr (line +:+ cr) = line.
Proof. unfold drop_cr. rewrite replace_suffix_app. apply sapp_nil_r. Qed.

Lemma join_snoc_nonempty sep w ws : ws <> [] -> join sep (w :: ws) = w +:+ sep +:+ join sep ws.
Proof. by destruct ws. Qed.

(** Splitting a log gives its lines back, whether they are separated by
    line feeds or by carriage return and line feed. *)
Theorem split_lines_roundtrip (lines : list string) (Hne : lines <> [])
    (H : Forall line_ok lines) :
  split_lines (join newline lines) = lines /\
  split_lines (join (cr +:+ newline) lines) = lines.
Proof.
  assert (forall l, Forall line_ok l -> drop_crs l = l) as Hdrop.
  { induction 1 as [|x l [_ Hx] Hl IH]; [done|]. destruct l as [|y l]; [done|].
    cbn [drop_crs] in *. by rewrite drop_cr_id, IH. }
  split.
  - unfold split_lines, newline, chr. rewrite split_join; [by apply Hdrop|done|].
    eapply Forall_impl; [done|]. by intros x [].
  - unfold split_lines. induction H as [|x l [Fx Ex] Hl IH]; [done|].
    destruct l as [|y l].
    { simpl join. by rewrite split_on_free. }
    rewrite join_snoc_nonempty by done. specialize (IH ltac:(done)).
    replace (x +:+ (cr +:+ newline) +:+ join (cr +:+ newline) (y :: l))
      with ((x +:+ cr) +:+ String (ascii_of_N 10) (join (cr +:+ newline) (y :: l)))
      by (unfold newline, chr; rewrite !sapp_assoc; done).
    rewrite split_on_app by (rewrite free_app, Fx; done).
    destruct (split_on _ (join _ (y :: l))) as [|w ws] eqn:E.
    { by apply split_on_nonempty in E. }
    cbn [drop_crs]. rewrite drop_cr_app. f_equal. by rewrite <- IH.
Qed.

Lemma split_lines_roundtrip_witness :
  split_lines (join newline ["a"; "##[group]b"; ""]) = ["a"; "##[group]b"; ""] /\
  split_lines (join (cr +:+ newline) ["a"; "##[group]b"; ""]) = ["a"; "##[group]b"; ""].
Proof.
  apply split_lines_roundtrip; [done|].
  repeat first [apply Forall_nil_2 | apply Forall_cons_2]; split; vm_compute; reflexivity.
Defined.

(** The link to a workflow run is the job's own URL cut after the run: it is
    a prefix of [github_job_url] that ends with the run, and there is none
    exactly when the URL does not name the run. *)
Theorem workflowRunURL_spec (job : RunnerState) :
  match github_job_url job, workflow_run_id job with
  | Some url, Some run =>
      let marker := "/actions/runs/" +:+ pretty run in
      (workflowRunURL job = "" /\
         (url = "" \/ run = 0%Z \/ includes marker url = false)) \/
      (exists before after, url = workflowRunURL job +:+ after /\
         workflowRunURL job = before +:+ marker)
  | _, _ => workflowRunURL job = ""
  end.
Proof.
  unfold workflowRunURL. destruct (github_job_url job) as [url|]; [|done].
  destruct (workflow_run_id job) as [run|]; [|done]. cbv zeta. set (marker := "/actions/runs/" +:+ pretty run).
  destruct (str_truthy url) eqn:Eu; simpl; [|left; split; [done|left; by apply str_truthy_false]].
  destruct (Z.eqb_spec run 0); simpl; [left; auto|].
  rewrite cut_includes. destruct (cut marker url) as [[before after]|] eqn:E; [|left; auto].
  right. exists before, after. apply cut_Some in E. by rewrite E, sapp_assoc.
Qed.
