(* ===== verification/LogPanel.v ===== *)
(** The log panel of the selected job: the requests of [RunnerJobLogPanel] in
    src/ui/src/components/user-dashboard.tsx.

    The panel starts a request when the job or the selected runner log changes
    and when the user refreshes the GitHub log.  Requests settle in any order.
    An effect closes over a variable [active] that its cleanup clears; a
    refresh compares [endpointRef.current] with the endpoint it was started
    for.  Each run of an effect is numbered here, and [p_active] holds the runs
    whose [active] is still true. *)
From S2P Require Import Prelude.
From S2P Require Import JsString.
From S2P Require Import JsUri.
From S2P Require Import Json.
From S2P Require Import AdminTypes.
From S2P Require Import Errors.
From S2P Require Import JobLogs.

Inductive fetch :=
  | RunnerLogFetch (run : nat) (endpoint : string) (name : LogName)
  | GitHubLogFetch (run : nat) (endpoint : string)
  | GitHubRefresh (endpoint : string).

#[export] Instance LogName_eq_dec : EqDecision LogName.
Proof. solve_decision. Defined.

(** The microtask an effect queues before its request settles. *)
Inductive microtask := RunnerLoading (run : nat) | GitHubLoading (run : nat).

Record LogPanel := {
  p_endpoint : string;
  p_selectedLog : LogName;
  p_runnerLogText : LocalizedLogText;
  p_githubLog : GitHubLogState;
  p_githubLogLoading : bool;
  p_next : nat;
  p_runnerRun : nat;
  p_githubRun : nat;
  p_active : gset nat;
  p_fetches : list fetch;
  p_microtasks : list microtask;
}.

Definition jobEndpoint (jobID : string) : string :=
  "/user/runner_requests/" +:+ encodeURIComponent jobID.

(** ** State updates *)

Definition set_runnerLogText (x : LocalizedLogText) (p : LogPanel) : LogPanel := {|
  p_endpoint := p_endpoint p; p_selectedLog := p_selectedLog p; p_runnerLogText := x;
  p_githubLog := p_githubLog p; p_githubLogLoading := p_githubLogLoading p;
  p_next := p_next p; p_runnerRun := p_runnerRun p; p_githubRun := p_githubRun p;
  p_active := p_active p; p_fetches := p_fetches p; p_microtasks := p_microtasks p |}.

Definition set_githubLog (x : GitHubLogState) (loading : bool) (p : LogPanel) : LogPanel := {|
  p_endpoint := p_endpoint p; p_selectedLog := p_selectedLog p;
  p_runnerLogText := p_runnerLogText p; p_githubLog := x; p_githubLogLoading := loading;
  p_next := p_next p; p_runnerRun := p_runnerRun p; p_githubRun := p_githubRun p;
  p_active := p_active p; p_fetches := p_fetches p; p_microtasks := p_microtasks p |}.

Definition set_queues (fetches : list fetch) (microtasks : list microtask) (p : LogPanel) :
    LogPanel := {|
  p_endpoint := p_endpoint p; p_selectedLog := p_selectedLog p;
  p_runnerLogText := p_runnerLogText p; p_githubLog := p_githubLog p;
  p_githubLogLoading := p_githubLogLoading p; p_next := p_next p;
  p_runnerRun := p_runnerRun p; p_githubRun := p_githubRun p; p_active := p_active p;
  p_fetches := fetches; p_microtasks := microtasks |}.

Definition set_shown (endpoint : string) (name : LogName) (p : LogPanel) : LogPanel := {|
  p_endpoint := endpoint; p_selectedLog := name;
  p_runnerLogText := p_runnerLogText p; p_githubLog := p_githubLog p;
  p_githubLogLoading := p_githubLogLoading p; p_next := p_next p;
  p_runnerRun := p_runnerRun p; p_githubRun := p_githubRun p; p_active := p_active p;
  p_fetches := p_fetches p; p_microtasks := p_microtasks p |}.

(** The cleanup of a run of an effect. *)
Definition cleanup (run : nat) (p : LogPanel) : LogPanel := {|
  p_endpoint := p_endpoint p; p_selectedLog := p_selectedLog p;
  p_runnerLogText := p_runnerLogText p; p_githubLog := p_githubLog p;
  p_githubLogLoading := p_githubLogLoading p; p_next := p_next p;
  p_runnerRun := p_runnerRun p; p_githubRun := p_githubRun p;
  p_active := p_active p ∖ {[run]};
  p_fetches := p_fetches p; p_microtasks := p_microtasks p |}.

(** The effect on [endpoint] and [selectedLog]. *)
Definition runnerLogEffect (p : LogPanel) : LogPanel := {|
  p_endpoint := p_endpoint p; p_selectedLog := p_selectedLog p;
  p_runnerLogText := p_runnerLogText p; p_githubLog := p_githubLog p;
  p_githubLogLoading := p_githubLogLoading p; p_next := S (p_next p);
  p_runnerRun := p_next p; p_githubRun := p_githubRun p;
  p_active := {[p_next p]} ∪ p_active p;
  p_fetches := p_fetches p ++ [RunnerLogFetch (p_next p) (p_endpoint p) (p_selectedLog p)];
  p_microtasks := p_microtasks p ++ [RunnerLoading (p_next p)] |}.

(** The effect on [endpoint]. *)
Definition githubLogEffect (p : LogPanel) : LogPanel := {|
  p_endpoint := p_endpoint p; p_selectedLog := p_selectedLog p;
  p_runnerLogText := p_runnerLogText p; p_githubLog := p_githubLog p;
  p_githubLogLoading := p_githubLogLoading p; p_next := S (p_next p);
  p_runnerRun := p_runnerRun p; p_githubRun := p_next p;
  p_active := {[p_next p]} ∪ p_active p;
  p_fetches := p_fetches p ++ [GitHubLogFetch (p_next p) (p_endpoint p)];
  p_microtasks := p_microtasks p ++ [GitHubLoading (p_next p)] |}.

Definition emptyPanel : LogPanel := {|
  p_endpoint := ""; p_selectedLog := ControlLog;
  p_runnerLogText := LogMessage key_user_loadingRunnerLog;
  p_githubLog := GitHubLog (LogMessage key_user_loadingGitHubLog);
  p_githubLogLoading := false; p_next := 2; p_runnerRun := 0; p_githubRun := 1;
  p_active := ∅; p_fetches := []; p_microtasks := [] |}.

(** The panel mounted for a job: both effects run. *)
Definition mount (jobID : string) : LogPanel :=
  githubLogEffect (runnerLogEffect (set_shown (jobEndpoint jobID) ControlLog emptyPanel)).

(** Another job is shown: [endpointRef] and both effects follow, after the
    cleanups of their last runs. *)
Definition selectJob (jobID : string) (p : LogPanel) : LogPanel :=
  if bool_decide (jobEndpoint jobID = p_endpoint p) then p
  else
    let p := cleanup (p_githubRun p) (cleanup (p_runnerRun p) p) in
    githubLogEffect (runnerLogEffect (set_shown (jobEndpoint jobID) (p_selectedLog p) p)).

Definition selectLog (name : LogName) (p : LogPanel) : LogPanel :=
  if bool_decide (name = p_selectedLog p) then p
  else runnerLogEffect (set_shown (p_endpoint p) name (cleanup (p_runnerRun p) p)).

Definition refreshGithubLog (p : LogPanel) : LogPanel :=
  set_queues (p_fetches p ++ [GitHubRefresh (p_endpoint p)]) (p_microtasks p)
    (set_githubLog (GitHubLog (LogMessage key_user_loadingGitHubLog)) true p).

Definition runMicrotask (m : microtask) (p : LogPanel) : LogPanel :=
  match m with
  | RunnerLoading run =>
      if bool_decide (run ∈ p_active p)
      then set_runnerLogText (LogMessage key_user_loadingRunnerLog) p else p
  | GitHubLoading run =>
      if bool_decide (run ∈ p_active p)
      then set_githubLog (GitHubLog (LogMessage key_user_loadingGitHubLog)) true p else p
  end.

(** What a settled request shows. *)
Definition runnerLogOf (result : thrown + json) : LocalizedLogText :=
  match result with
  | inr text => logResponseText text key_user_runnerLogEmpty
  | inl (ThrownError m _) => LogText m
  | inl ThrownOther => LogMessage key_user_runnerLogFailed
  end.

Definition githubLogOf (result : thrown + json) : GitHubLogState :=
  match result with
  | inr text => githubLogResponseState text key_user_githubLogEmpty
  | inl e => githubLogErrorState e
  end.

(** A request settles: its [then] or [catch], then its [finally]. *)
Definition settle (f : fetch) (result : thrown + json) (p : LogPanel) : LogPanel :=
  match f with
  | RunnerLogFetch run _ _ =>
      if bool_decide (run ∈ p_active p) then set_runnerLogText (runnerLogOf result) p else p
  | GitHubLogFetch run _ =>
      if bool_decide (run ∈ p_active p) then set_githubLog (githubLogOf result) false p else p
  | GitHubRefresh endpoint =>
      if bool_decide (p_endpoint p = endpoint) then set_githubLog (githubLogOf result) false p else p
  end.

(** ** Steps *)

Inductive panel_step : LogPanel -> LogPanel -> Prop :=
  | step_job p jobID : panel_step p (selectJob jobID p)
  | step_log p name : panel_step p (selectLog name p)
  | step_refresh p : panel_step p (refreshGithubLog p)
  | step_microtask p m ms :
      p_microtasks p = m :: ms ->
      panel_step p (runMicrotask m (set_queues (p_fetches p) ms p))
  | step_settle p l f r result :
      p_fetches p = l ++ f :: r ->
      panel_step p (settle f result (set_queues (l ++ r) (p_microtasks p) p)).

Inductive panel_reachable (jobID : string) : LogPanel -> Prop :=
  | reach_mount : panel_reachable jobID (mount jobID)
  | reach_step p q : panel_reachable jobID p -> panel_step p q -> panel_reachable jobID q.

(** * Properties *)

(** An active run is the latest one of its effect, and its request is for what
    the panel shows. *)
Definition fetch_inv (p : LogPanel) (f : fetch) : Prop :=
  match f with
  | RunnerLogFetch run endpoint name =>
      run < p_next p /\ run <> p_githubRun p /\
      (run ∈ p_active p -> endpoint = p_endpoint p /\ name = p_selectedLog p)
  | GitHubLogFetch run endpoint =>
      run < p_next p /\ run <> p_runnerRun p /\
      (run ∈ p_active p -> endpoint = p_endpoint p)
  | GitHubRefresh _ => True
  end.

Record panel_inv (p : LogPanel) : Prop := {
  inv_runner : p_runnerRun p < p_next p;
  inv_github : p_githubRun p < p_next p;
  inv_active : p_active p ⊆ {[p_runnerRun p; p_githubRun p]};
  inv_fetches : Forall (fetch_inv p) (p_fetches p);
}.

Lemma cleanup_inv run p : panel_inv p -> panel_inv (cleanup run p).
Proof.
  intros [Hr Hg Ha Hf]. split; simpl; [done..|set_solver|].
  eapply Forall_impl; [exact Hf|]. intros [r e n|r e|e]; simpl; [| |done].
  - intros (? & ? & H). split_and!; [done..|]. intros Hr'. apply H. set_solver.
  - intros (? & ? & H). split_and!; [done..|]. intros Hr'. apply H. set_solver.
Qed.

(** What is shown may change when the requests concerned are inactive. *)
Lemma set_shown_inv endpoint name p :
  panel_inv p -> p_runnerRun p ∉ p_active p ->
  endpoint = p_endpoint p \/ p_githubRun p ∉ p_active p ->
  panel_inv (set_shown endpoint name p).
Proof.
  intros [Hr Hg Ha Hf] Hnr Hng. split; simpl; [done..|].
  eapply Forall_impl; [exact Hf|]. intros [r e n|r e|e]; simpl; [| |done].
  - intros (? & Hne & H). split_and!; [done..|]. intros Hr'. exfalso.
    apply Ha in Hr' as Hr''. set_solver.
  - intros (? & Hne & H). split_and!; [done..|]. intros Hr'.
    destruct Hng as [->|Hng]; [by apply H|]. exfalso. apply Ha in Hr' as Hr''. set_solver.
Qed.

Lemma runnerLogEffect_inv p :
  panel_inv p -> p_runnerRun p ∉ p_active p -> panel_inv (runnerLogEffect p).
Proof.
  intros [Hr Hg Ha Hf] Hn. split; simpl; [lia..|set_solver|].
  apply Forall_app. split.
  - eapply Forall_impl; [exact Hf|]. intros [r e n|r e|e]; simpl; [| |done].
    + intros (? & ? & H). split_and!; [lia|done|].
      intros [->%elem_of_singleton|Hin]%elem_of_union; [lia|by apply H].
    + intros (? & ? & H). split_and!; [lia..|].
      intros [->%elem_of_singleton|Hin]%elem_of_union; [lia|by apply H].
  - apply Forall_singleton. simpl. split_and!; [lia..|done].
Qed.

Lemma githubLogEffect_inv p :
  panel_inv p -> p_githubRun p ∉ p_active p -> panel_inv (githubLogEffect p).
Proof.
  intros [Hr Hg Ha Hf] Hn. split; simpl; [lia..|set_solver|].
  apply Forall_app. split.
  - eapply Forall_impl; [exact Hf|]. intros [r e n|r e|e]; simpl; [| |done].
    + intros (? & ? & H). split_and!; [lia..|].
      intros [->%elem_of_singleton|Hin]%elem_of_union; [lia|by apply H].
    + intros (? & ? & H). split_and!; [lia|done|].
      intros [->%elem_of_singleton|Hin]%elem_of_union; [lia|by apply H].
  - apply Forall_singleton. simpl. split_and!; [lia..|done].
Qed.

Lemma set_queues_inv fetches ms p :
  panel_inv p -> (forall f, f ∈ fetches -> f ∈ p_fetches p \/ exists e, f = GitHubRefresh e) ->
  panel_inv (set_queues fetches ms p).
Proof.
  intros [Hr Hg Ha Hf] Hsub. split; simpl; [done..|].
  rewrite Forall_forall in Hf |- *. intros f Hin.
  destruct (Hsub f Hin) as [H|[e ->]]; [|done]. exact (Hf f H).
Qed.

Lemma set_texts_inv p :
  panel_inv p ->
  (forall x, panel_inv (set_runnerLogText x p)) /\ (forall x b, panel_inv (set_githubLog x b p)).
Proof. intros [Hr Hg Ha Hf]. split; by split. Qed.

Lemma settle_inv f result p : panel_inv p -> panel_inv (settle f result p).
Proof.
  intros H. destruct (set_texts_inv p H) as [H1 H2]. destruct f; simpl; by case_bool_decide.
Qed.

Lemma runMicrotask_inv m p : panel_inv p -> panel_inv (runMicrotask m p).
Proof.
  intros H. destruct (set_texts_inv p H) as [H1 H2]. destruct m; simpl; by case_bool_decide.
Qed.

Lemma panel_step_inv p q : panel_step p q -> panel_inv p -> panel_inv q.
Proof.
  intros Hstep Hp. destruct Hstep as [p jobID|p name|p|p m ms Hm|p l f r result Hf].
  - unfold selectJob. case_bool_decide; [done|].
    apply githubLogEffect_inv; [|simpl; pose proof (inv_github _ Hp); set_solver by lia].
    apply runnerLogEffect_inv; [|simpl; set_solver].
    apply set_shown_inv; [by do 2 apply cleanup_inv|simpl; set_solver..].
  - unfold selectLog. case_bool_decide; [done|].
    apply runnerLogEffect_inv; [|simpl; set_solver].
    apply set_shown_inv; [by apply cleanup_inv|simpl; set_solver|by left].
  - unfold refreshGithubLog. apply set_queues_inv; [by apply set_texts_inv|].
    intros f. simpl. rewrite elem_of_app, list_elem_of_singleton. intros [?| ->]; eauto.
  - apply runMicrotask_inv, set_queues_inv; [done|auto].
  - apply settle_inv, set_queues_inv; [done|]. intros g Hg. left. rewrite Hf. set_solver.
Qed.

Lemma mount_inv jobID : panel_inv (mount jobID).
Proof.
  unfold mount. apply githubLogEffect_inv; [|simpl; set_solver by lia].
  apply runnerLogEffect_inv; [|simpl; set_solver]. split; simpl; [lia..|set_solver|constructor].
Qed.

Lemma panel_reachable_inv jobID p : panel_reachable jobID p -> panel_inv p.
Proof.
  induction 1 as [|p q _ IH Hstep]; [apply mount_inv|by eapply panel_step_inv].
Qed.

(** The panel never shows another job's log: whenever a request that settles
    changes what the panel shows, it was a request for the endpoint shown, and
    for the selected stream when it changes the runner log; whatever the order
    in which requests settle and the user clicks. *)
Theorem log_panel_shows_selected_job (jobID : string) (p : LogPanel) (f : fetch)
    (result : thrown + json) (H : panel_reachable jobID p) (Hf : f ∈ p_fetches p) :
  let q := settle f result p in
  (p_runnerLogText q <> p_runnerLogText p ->
     exists run, f = RunnerLogFetch run (p_endpoint p) (p_selectedLog p)) /\
  (p_githubLog q <> p_githubLog p \/ p_githubLogLoading q <> p_githubLogLoading p ->
     f = GitHubRefresh (p_endpoint p) \/ exists run, f = GitHubLogFetch run (p_endpoint p)).
Proof.
  pose proof (inv_fetches _ (panel_reachable_inv _ _ H)) as Hinv.
  rewrite Forall_forall in Hinv. specialize (Hinv f Hf).
  destruct f as [run e n|run e|e]; simpl in *; case_bool_decide as Hc; simpl;
    try (by split; [done|intros [?|?]]).
  - destruct Hinv as (_ & _ & Hm). destruct (Hm Hc) as [-> ->]. split; [eauto|by intros [?|?]].
  - destruct Hinv as (_ & _ & Hm). rewrite (Hm Hc). split; [done|eauto].
  - subst. split; [done|auto].
Qed.

Lemma log_panel_shows_selected_job_witness :
  let p := selectLog StdoutLog (mount "job-1") in
  let f := RunnerLogFetch 4 (jobEndpoint "job-1") StdoutLog in
  let result := inr (JStr "building") in
  let q := settle f result p in
  (p_runnerLogText q <> p_runnerLogText p ->
     exists run, f = RunnerLogFetch run (p_endpoint p) (p_selectedLog p)) /\
  (p_githubLog q <> p_githubLog p \/ p_githubLogLoading q <> p_githubLogLoading p ->
     f = GitHubRefresh (p_endpoint p) \/ exists run, f = GitHubLogFetch run (p_endpoint p)).
Proof.
  apply (log_panel_shows_selected_job "job-1").
  - eapply reach_step; [apply reach_mount|apply step_log].
  - right. right. left.
Defined.

(** The late answer of the first stream is dropped, the one of the selected
    stream is shown. *)
Example late_log_is_dropped :
  let p := selectLog StdoutLog (mount "job-1") in
  let p1 := settle (RunnerLogFetch 4 (jobEndpoint "job-1") StdoutLog) (inr (JStr "stdout")) p in
  let p2 := settle (RunnerLogFetch 2 (jobEndpoint "job-1") ControlLog) (inr (JStr "control")) p1 in
  p_runnerLogText p2 = LogText "stdout".
Proof. vm_compute. reflexivity. Qed.
