(* ===== verification/Readiness.v ===== *)
(** Accounts, repositories and settings scopes: src/ui/src/repository-readiness.ts,
    the choice of a preference scope in [loadUserAll] (src/ui/src/App.tsx) and the
    derived values of [UserDashboard] and [AccountsPage]
    (src/ui/src/components/user-dashboard.tsx) and of [RepositoryReadinessPage]
    (src/ui/src/components/repository-readiness-page.tsx). *)
From S2P Require Import Prelude.
From S2P Require Import JsString.
From S2P Require Import JsArray.
From S2P Require Import JsRegex.
From S2P Require Import JsUri.
From S2P Require Import AdminTypes.
From S2P Require Import LoadPolicy.
From S2P Require Import AppRoutes.
From S2P Require Import BuildGroups.

(** ** Whether jobs can start *)

Record SandboxServiceReadiness := {
  readiness_ready : bool;
  readiness_loading : bool;
  readiness_source : ResolvedSource;
  readiness_label : string;
  readiness_description : string;
}.

Definition sandboxServiceReadiness (preferences : option UserPreferences) :
    SandboxServiceReadiness :=
  match preferences with
  | None => {|
      readiness_ready := false; readiness_loading := true; readiness_source := SrcNone;
      readiness_label := "Checking configuration";
      readiness_description := "Resolving the effective Sandbox service for this account." |}
  | Some p =>
      match resolved_source (sandbox p) with
      | SrcCustom => {|
          readiness_ready := true; readiness_loading := false; readiness_source := SrcCustom;
          readiness_label := "Own credentials";
          readiness_description :=
            "Using Sandbox service credentials configured for this account." |}
      | SrcInherited => {|
          readiness_ready := true; readiness_loading := false; readiness_source := SrcInherited;
          readiness_label := "Inherited credentials";
          readiness_description :=
            "Using Sandbox service credentials inherited from a connected account." |}
      | SrcAdminDefault => {|
          readiness_ready := true; readiness_loading := false;
          readiness_source := SrcAdminDefault;
          readiness_label := "Platform provided";
          readiness_description :=
            "This account is eligible for the platform Sandbox service." |}
      | SrcNone => {|
          readiness_ready := false; readiness_loading := false; readiness_source := SrcNone;
          readiness_label := "Configuration required";
          readiness_description :=
            "Add a Sandbox service region and API Key before runner jobs can start." |}
      end
  end.

(** ** Repository pages *)

(** [login?.trim().toLowerCase()] *)
Definition normalized (login : option string) : option string :=
  (fun s => toLowerCase (trim s)) <$> login.

Definition repositoryPath (accountLogin currentLogin : option string) : string :=
  let normalizedAccount := trim <$> accountLogin in
  let normalizedCurrent := trim <$> currentLogin in
  if negb (opt_truthy normalizedAccount) ||
     bool_decide (toLowerCase <$> normalizedAccount = toLowerCase <$> normalizedCurrent)
  then "/repositories"
  else "/organizations/" +:+ encodeURIComponent (default "" normalizedAccount) +:+ "/repositories".

(** [value || null] of a string. *)
Definition or_null (o : option string) : option string := if opt_truthy o then o else None.

Definition repositoriesRe : list piece :=
  [Lit "/organizations/"; Many true NotSlash; Lit "/repositories"].

Definition repositoryAccountLogin (path : string) (currentLogin : option string) :
    option string :=
  if bool_decide (path = "/repositories") || bool_decide (path = "/account/repositories")
  then or_null (trim <$> currentLogin)
  else match groups1 (exec repositoriesRe path) with
       | Some login => or_null (decodeURIComponent login)
       | None => None
       end.

Definition has_login (login : option string) (installation : GitHubInstallation) : bool :=
  bool_decide (normalized (account_login installation) = login).

Definition selectRepositoryInstallation (installations : list GitHubInstallation)
    (selectedAccountLogin currentLogin : option string) : option GitHubInstallation :=
  let selectedLogin := normalized selectedAccountLogin in
  let current := normalized currentLogin in
  let selected := if opt_truthy selectedLogin
                  then find_first (has_login selectedLogin) installations else None in
  match selected with
  | Some installation => Some installation
  | None =>
      if negb (opt_truthy selectedLogin) || bool_decide (selectedLogin = current)
      then installations !! 0 else None
  end.

Definition scope_of_id (n : Z) : string := "github_installation:" +:+ pretty n.

Definition repositoryPreferenceScope (installation : option GitHubInstallation)
    (currentLogin : option string) : string :=
  let installationLogin := installation ≫= fun i => normalized (account_login i) in
  let current := normalized currentLogin in
  match installation with
  | Some i =>
      if opt_truthy installationLogin && negb (bool_decide (installationLogin = current))
      then scope_of_id (inst_id i) else "account"
  | None => "account"
  end.

(** ** Settings pages *)

Definition manageableSettingsInstallations (installations : list GitHubInstallation)
    (currentLogin : option string) : list GitHubInstallation :=
  let current := normalized currentLogin in
  filter (fun installation =>
    let login := normalized (account_login installation) in
    (opt_truthy login && bool_decide (login = current)) ||
    bool_decide (manageable installation = Some true)) installations.

Definition canManageSettingsScope (installations : list GitHubInstallation)
    (accountLogin currentLogin : option string) : bool :=
  let requested := normalized accountLogin in
  let current := normalized currentLogin in
  if negb (opt_truthy requested) || bool_decide (requested = current) then true
  else existsb (fun installation =>
         bool_decide (manageable installation = Some true) && has_login requested installation)
         installations.

Inductive SettingsScopeAccessState := ScopeLoading | ScopeManageable | ScopeForbidden.

Definition settingsScopeAccessState (installations : list GitHubInstallation)
    (accountLogin currentLogin : option string) (settingsManageabilityLoaded : bool) :
    SettingsScopeAccessState :=
  let requested := normalized accountLogin in
  let current := normalized currentLogin in
  if negb (opt_truthy requested) || bool_decide (requested = current) then ScopeManageable
  else if negb settingsManageabilityLoaded then ScopeLoading
  else if canManageSettingsScope installations accountLogin currentLogin
  then ScopeManageable else ScopeForbidden.

Definition settingsPreferenceInstallationID (installations : list GitHubInstallation)
    (accountLogin currentLogin : option string) : option Z :=
  let requested := normalized accountLogin in
  let current := normalized currentLogin in
  if negb (opt_truthy requested) || bool_decide (requested = current) then None
  else inst_id <$> find_first (has_login requested) installations.

(** [localeCompare(right, undefined, { sensitivity: "base" })] is a comparison
    of its own. *)
Definition repositoryRows (baseCompare : string -> string -> Z)
    (authorizedRepositories repositoriesWithJobs : list string) : list (string * bool) :=
  let active := map (fun repository => toLowerCase (trim repository)) repositoriesWithJobs in
  map (fun name => (name, bool_decide (toLowerCase (trim name) ∈ active)))
    (sort_by baseCompare authorizedRepositories).

(** ** The dashboard *)

Definition orderInstallationsByCurrentAccount (localeCompare : string -> string -> Z)
    (installations : list GitHubInstallation) (currentLogin : option string) :
    list GitHubInstallation :=
  let login := toLowerCase (or_str currentLogin "") in
  sort_by (fun a b =>
    let aLogin := or_str (account_login a) "" in
    let bLogin := or_str (account_login b) "" in
    let aIsCurrent := bool_decide (toLowerCase aLogin = login) in
    let bIsCurrent := bool_decide (toLowerCase bLogin = login) in
    if negb (Bool.eqb aIsCurrent bIsCurrent) then (if aIsCurrent then -1 else 1)%Z
    else localeCompare aLogin bLogin) installations.

Definition accountDisplayName (i : GitHubInstallation) : string :=
  or_str (account_name i) (or_str (account_login i) "GitHub App").

Definition accountInitials (i : GitHubInstallation) : string :=
  toUpperCase (js_take 2 (accountDisplayName i)).

Definition accountAvatarURL (i : GitHubInstallation) : string :=
  match or_opt (account_avatar i) None with
  | Some avatar => avatar
  | None =>
      match account_login i with
      | Some login =>
          if str_truthy login
          then "https://github.com/" +:+ encodeURIComponent login +:+ ".png?size=96" else ""
      | None => ""
      end
  end.

(** The rows of the repository page that match the search field. *)
Definition filteredRows (query : string) (rows : list (string * bool)) : list (string * bool) :=
  let query := toLowerCase (trim query) in
  if str_truthy query then filter (fun r => includes query (toLowerCase r.1)) rows else rows.

(** The entry of the current account in the settings sidebar when it has no
    installation. *)
Definition placeholderInstallation (currentLogin : string) : GitHubInstallation := {|
  inst_id := 0; inst_account_id := 0; inst_installation_id := 0;
  account_login := Some currentLogin; account_name := None; account_avatar := None;
  manageable := Some true; inst_repositories := []; inst_created_at := "";
  inst_updated_at := "" |}.

Definition settingsInstallations (installations : list GitHubInstallation)
    (currentLogin : option string) : list GitHubInstallation :=
  let manageableInstallations := manageableSettingsInstallations installations currentLogin in
  let currentAccountInstallation :=
    find_first (has_login (normalized currentLogin)) manageableInstallations in
  match currentLogin with
  | None => manageableInstallations
  | Some login =>
      match currentAccountInstallation with
      | Some _ => manageableInstallations
      | None => if str_truthy login then placeholderInstallation login :: manageableInstallations
                else manageableInstallations
      end
  end.

(** ** The preference scope a load asks for ([loadUserAll]) *)

Definition loadInstallationID (installations : list GitHubInstallation) (locationPath : string)
    (login : option string) : option Z :=
  let repositoryLogin := repositoryAccountLogin locationPath login in
  if opt_truthy repositoryLogin then
    let repositoryInstallation := selectRepositoryInstallation installations repositoryLogin login in
    if bool_decide ((toLowerCase <$> (repositoryInstallation ≫= account_login)) =
                    (toLowerCase <$> login))
    then None else inst_id <$> repositoryInstallation
  else settingsPreferenceInstallationID installations
         (parseAccountSettingsRoute locationPath login ≫= route_accountLogin) login.

Definition scopeOf (installationID : option Z) : string :=
  if num_truthy installationID then scope_of_id (default 0%Z installationID) else "account".

Definition nextPreferencesScope (installations : list GitHubInstallation) (locationPath : string)
    (login : option string) : string :=
  scopeOf (loadInstallationID installations locationPath login).

(** ** The scope the pages expect *)

Definition dashboardRepositoryScope (localeCompare : string -> string -> Z)
    (installations : list GitHubInstallation) (locationPath : string) (login : option string) :
    string :=
  repositoryPreferenceScope
    (selectRepositoryInstallation
       (orderInstallationsByCurrentAccount localeCompare installations login)
       (repositoryAccountLogin locationPath login) login) login.

Definition dashboardSettingsScope (localeCompare : string -> string -> Z)
    (installations : list GitHubInstallation) (route : AccountSettingsRoute)
    (login : option string) : string :=
  scopeOf (settingsPreferenceInstallationID
    (orderInstallationsByCurrentAccount localeCompare installations login)
    (route_accountLogin route) login).

(** * Properties *)

Lemma normalized_Some s : normalized (Some s) = Some (toLowerCase (trim s)).
Proof. done. Qed.

Lemma toLowerCase_truthy s : str_truthy (toLowerCase s) = str_truthy s.
Proof. by destruct s. Qed.

Lemma opt_truthy_normalized o : opt_truthy (normalized o) = opt_truthy (trim <$> o).
Proof. destruct o; [|done]. apply toLowerCase_truthy. Qed.

Lemma normalized_trim o : toLowerCase <$> (trim <$> o) = normalized o.
Proof. by destruct o. Qed.

Lemma exec_repositories l :
  segment_ok l ->
  exec repositoriesRe ("/organizations/" +:+ l +:+ "/repositories") = Some [l].
Proof.
  intros [Nl Fl]. unfold repositoriesRe. rewrite exec_lit_app.
  change "/repositories" with (String "/" "repositories" +:+ "") at 2.
  by rewrite exec_many_lit.
Qed.

(** The repository page of an account has a URL that names the account: it
    reads back as the (trimmed) login it was written for, or as the current
    login when the account is the current one in any letter case, or blank. *)
Theorem repositoryPath_roundtrip (accountLogin currentLogin : option string)
    (H : utf8_opt (trim <$> accountLogin)) :
  repositoryAccountLogin (repositoryPath accountLogin currentLogin) currentLogin =
  if negb (opt_truthy (trim <$> accountLogin)) ||
     bool_decide (normalized accountLogin = normalized currentLogin)
  then or_null (trim <$> currentLogin)
  else trim <$> accountLogin.
Proof.
  unfold repositoryPath. rewrite !normalized_trim.
  destruct (opt_truthy (trim <$> accountLogin)) eqn:E; [|done]. cbn [negb orb].
  case_bool_decide; [done|]. apply opt_truthy_true in E as (l & El & Nl). rewrite El. cbn [default].
  unfold repositoryAccountLogin. rewrite !bool_decide_eq_false_2 by done. cbn [orb].
  rewrite exec_repositories by by apply encode_segment. cbn [groups1].
  rewrite decode_encode by by apply H. unfold or_null. simpl.
  by rewrite (proj2 (str_truthy_true l) Nl).
Qed.

Lemma repositoryPath_roundtrip_witness :
  repositoryAccountLogin (repositoryPath (Some " Acme ") (Some "octocat")) (Some "octocat") =
  if negb (opt_truthy (trim <$> Some " Acme ")) ||
     bool_decide (normalized (Some " Acme ") = normalized (Some "octocat"))
  then or_null (trim <$> Some "octocat") else trim <$> Some " Acme ".
Proof. apply repositoryPath_roundtrip. intros s [= <-]. by apply utf8b_sound. Defined.

(** ** Settings are only written for scopes the user manages *)

Lemma has_login_true login i :
  has_login login i = true <-> normalized (account_login i) = login.
Proof. unfold has_login. apply bool_decide_eq_true. Qed.

Lemma elem_of_manageable insts cur i :
  i ∈ manageableSettingsInstallations insts cur <->
  i ∈ insts /\
  ((opt_truthy (normalized (account_login i)) = true /\
    normalized (account_login i) = normalized cur) \/ manageable i = Some true).
Proof.
  unfold manageableSettingsInstallations. rewrite list_elem_of_filter, Is_true_true.
  rewrite orb_true_iff, andb_true_iff, !bool_decide_eq_true. tauto.
Qed.

Lemma elem_of_settingsInstallations insts cur i :
  i ∈ settingsInstallations insts cur ->
  normalized (account_login i) = normalized cur \/ (i ∈ insts /\ manageable i = Some true).
Proof.
  assert (i ∈ manageableSettingsInstallations insts cur ->
    normalized (account_login i) = normalized cur \/ (i ∈ insts /\ manageable i = Some true)) as Hm
    by (rewrite elem_of_manageable; naive_solver).
  unfold settingsInstallations. destruct cur as [login|]; [|done].
  destruct (find_first _ _); [done|]. destruct (str_truthy login); [|done].
  intros [->|H]%elem_of_cons; [by left|by apply Hm].
Qed.

(** The settings page never addresses the preferences of an installation the
    user may not manage: an installation id sent with a preference request is
    the id of an installation marked manageable whose account is the one of
    the page; and the page is open exactly for the user's own account or for
    an account with a manageable installation. *)
Theorem settings_scope_managed (installations : list GitHubInstallation)
    (accountLogin currentLogin : option string) :
  (forall n,
     settingsPreferenceInstallationID (settingsInstallations installations currentLogin)
       accountLogin currentLogin = Some n ->
     exists i, i ∈ installations /\ inst_id i = n /\ manageable i = Some true /\
       normalized (account_login i) = normalized accountLogin) /\
  (forall loaded,
     settingsScopeAccessState installations accountLogin currentLogin loaded = ScopeManageable <->
     opt_truthy (normalized accountLogin) = false \/
     normalized accountLogin = normalized currentLogin \/
     loaded = true /\ exists i, i ∈ installations /\ manageable i = Some true /\
       normalized (account_login i) = normalized accountLogin).
Proof.
  split.
  - intros n. unfold settingsPreferenceInstallationID.
    destruct (opt_truthy _) eqn:Et; [|done]. cbn [negb orb]. case_bool_decide as Hne; [done|].
    destruct (find_first _ _) as [i|] eqn:E; [|done]. intros [= <-].
    apply find_first_Some in E as [Hi Hl%has_login_true].
    apply elem_of_settingsInstallations in Hi as [Hi|[Hi Hm]]; [congruence|]. by exists i.
  - intros loaded. unfold settingsScopeAccessState, canManageSettingsScope.
    destruct (opt_truthy (normalized accountLogin)) eqn:Et; cbn [negb orb]; [|naive_solver].
    case_bool_decide as Hne; [naive_solver|].
    destruct loaded; cbn [negb]; [|naive_solver].
    destruct (existsb _ installations) eqn:E.
    + split; [|done]. intros _. right; right. split; [done|].
      apply existsb_exists in E as (i & Hi%list_elem_of_In & Hm). split_bools.
      exists i. split_and!; [done..|]. by apply has_login_true.
    + split; [done|]. intros [?|[?|(_ & i & Hi & Hm & Hl)]]; [done..|].
      exfalso. apply not_true_iff_false in E. apply E. apply existsb_exists. exists i.
      rewrite list_elem_of_In, andb_true_iff, bool_decide_eq_true, has_login_true in *.
      done.
Qed.

(** ** The scope loaded is the scope shown *)

(** One installation per account, as GitHub has it. *)
Definition distinct_logins (installations : list GitHubInstallation) : Prop :=
  forall i j, i ∈ installations -> j ∈ installations ->
    opt_truthy (normalized (account_login i)) = true ->
    normalized (account_login i) = normalized (account_login j) -> i = j.

Lemma order_perm localeCompare installations login :
  orderInstallationsByCurrentAccount localeCompare installations login ≡ₚ installations.
Proof. apply sort_by_perm. Qed.

Lemma find_login_order localeCompare installations login requested :
  distinct_logins installations -> opt_truthy requested = true ->
  find_first (has_login requested)
    (orderInstallationsByCurrentAccount localeCompare installations login) =
  find_first (has_login requested) installations.
Proof.
  intros Hd Ht. symmetry. apply find_first_perm; [by rewrite order_perm|].
  intros x y Hx Hy Px%has_login_true Py%has_login_true. apply Hd; [done..| |congruence].
  by rewrite Px.
Qed.

(** On the settings pages the preferences that are loaded are those that are
    shown: the scope a load stores is the scope the page compares with,
    whatever the order of the installations. *)
Theorem settings_scope_agrees (localeCompare : string -> string -> Z)
    (installations : list GitHubInstallation) (path : string) (login : option string)
    (route : AccountSettingsRoute)
    (Hroute : parseAccountSettingsRoute path login = Some route)
    (Hrepo : repositoryAccountLogin path login = None)
    (Hd : distinct_logins installations) :
  nextPreferencesScope installations path login =
  dashboardSettingsScope localeCompare installations route login.
Proof.
  unfold nextPreferencesScope, loadInstallationID, dashboardSettingsScope.
  rewrite Hrepo, Hroute. cbn. f_equal. unfold settingsPreferenceInstallationID.
  destruct (opt_truthy _) eqn:Et; [|done]. cbn [negb orb]. case_bool_decide; [done|].
  by rewrite find_login_order.
Qed.

Definition example_installation (n : Z) (login : string) : GitHubInstallation := {|
  inst_id := n; inst_account_id := n; inst_installation_id := n;
  account_login := Some login; account_name := None; account_avatar := None;
  manageable := Some true; inst_repositories := []; inst_created_at := "";
  inst_updated_at := "" |}.

Lemma settings_scope_agrees_witness :
  let insts := [example_installation 1 "Zeta"; example_installation 2 "acme"] in
  nextPreferencesScope insts "/organizations/Acme/preferences" (Some "octocat") =
  dashboardSettingsScope str_cmp insts
    {| route_accountLogin := Some "Acme"; route_tab := TabPreferences |} (Some "octocat").
Proof.
  apply settings_scope_agrees; [vm_compute; reflexivity|vm_compute; reflexivity|].
  intros i j Hi Hj _. rewrite !elem_of_cons in Hi, Hj.
  destruct Hi as [->|[->|Hi]]; [..|by apply not_elem_of_nil in Hi];
    (destruct Hj as [->|[->|Hj]]; [..|by apply not_elem_of_nil in Hj]);
    intros E; vm_compute in E; congruence.
Defined.

(** A login as GitHub gives it: no surrounding white space, not blank. *)
Definition login_ok (login : option string) : Prop :=
  exists s, login = Some s /\ trim s = s /\ s <> "".

Lemma login_ok_normalized login : login_ok login -> normalized login = toLowerCase <$> login.
Proof. intros (s & -> & Hs & _). simpl. by rewrite Hs. Qed.

Lemma login_ok_truthy login : login_ok login -> opt_truthy (normalized login) = true.
Proof.
  intros (s & -> & Hs & Ns). simpl. rewrite Hs, toLowerCase_truthy. by apply str_truthy_true.
Qed.

(** C29.  On the repository page of an account that has an installation, the
    preferences that are loaded are those that are shown. *)
Theorem repository_scope_agrees (localeCompare : string -> string -> Z)
    (installations : list GitHubInstallation) (path : string) (login : option string)
    (i : GitHubInstallation)
    (Hi : i ∈ installations) (Hid : inst_id i <> 0%Z)
    (Hlogin : login_ok login) (Haccount : login_ok (account_login i))
    (Hpath : normalized (repositoryAccountLogin path login) = normalized (account_login i))
    (Hd : distinct_logins installations) :
  nextPreferencesScope installations path login =
  dashboardRepositoryScope localeCompare installations path login.
Proof.
  pose proof (login_ok_truthy _ Haccount) as Ht.
  assert (forall l, l ≡ₚ installations ->
    selectRepositoryInstallation l (repositoryAccountLogin path login) login = Some i) as Hsel.
  { intros l Hl. unfold selectRepositoryInstallation. rewrite Hpath, Ht.
    destruct (find_first _ l) as [j|] eqn:E.
    - apply find_first_Some in E as [Hj E%has_login_true]. rewrite Hl in Hj.
      f_equal. symmetry. by apply Hd.
    - rewrite find_first_None in E. specialize (E i). rewrite Hl in E. specialize (E Hi).
      apply not_true_iff_false in E. exfalso. apply E. by apply has_login_true. }
  unfold nextPreferencesScope, loadInstallationID, dashboardRepositoryScope.
  rewrite (Hsel _ (order_perm _ _ _)), (Hsel installations) by done. simpl.
  assert (opt_truthy (repositoryAccountLogin path login) = true) as ->.
  { rewrite <- Hpath in Ht. unfold normalized in Ht.
    destruct (repositoryAccountLogin path login) as [s|]; [|done]. simpl in *.
    destruct s; done. }
  rewrite Ht, <- (login_ok_normalized _ Haccount), <- (login_ok_normalized _ Hlogin). simpl.
  case_bool_decide; simpl; [done|]. unfold scopeOf. simpl.
  by destruct (Z.eqb_spec (inst_id i) 0).
Qed.

Lemma repository_scope_agrees_witness :
  let insts := [example_installation 1 "Zeta"; example_installation 2 "acme"] in
  nextPreferencesScope insts "/organizations/Acme/repositories" (Some "octocat") =
  dashboardRepositoryScope str_cmp insts "/organizations/Acme/repositories" (Some "octocat").
Proof.
  apply (repository_scope_agrees str_cmp
    [example_installation 1 "Zeta"; example_installation 2 "acme"]
    "/organizations/Acme/repositories" (Some "octocat") (example_installation 2 "acme")).
  - right. left.
  - done.
  - exists "octocat". split_and!; [done|by vm_compute|done].
  - exists "acme". split_and!; [done|by vm_compute|done].
  - by vm_compute.
  - intros i j Hi Hj _. rewrite !elem_of_cons in Hi, Hj.
    destruct Hi as [->|[->|Hi]]; [..|by apply not_elem_of_nil in Hi];
      (destruct Hj as [->|[->|Hj]]; [..|by apply not_elem_of_nil in Hj]);
      intros E; vm_compute in E; congruence.
Defined.

(** Without an installation of the current account the two differ: the load
    falls back on the first installation of the server's order, the page on
    the first one of its own order, so the page waits for preferences that are
    never loaded.  A comparison that ignores case (the browser's) stands for
    [localeCompare]. *)
Definition ignore_case (s t : string) : Z := str_cmp (toLowerCase s) (toLowerCase t).

Example repository_scope_fallback_differs :
  let insts := [example_installation 1 "Zeta"; example_installation 2 "acme"] in
  nextPreferencesScope insts "/repositories" (Some "octocat") = "github_installation:1" /\
  dashboardRepositoryScope ignore_case insts "/repositories" (Some "octocat") =
    "github_installation:2".
Proof. split; vm_compute; reflexivity. Qed.

(** The repository table is the list of authorized repositories in order,
    each marked when one of the repositories with jobs has its name in any
    letter case; the search keeps the rows whose name contains the query. *)
Theorem repositoryRows_spec (baseCompare : string -> string -> Z)
    (authorized withJobs : list string) (query : string) (H : Comparison baseCompare) :
  let rows := repositoryRows baseCompare authorized withJobs in
  rows.*1 ≡ₚ authorized /\
  StronglySorted (fun a b => baseCompare a b <= 0)%Z rows.*1 /\
  Forall (fun r => r.2 = true <->
    exists w, w ∈ withJobs /\ toLowerCase (trim w) = toLowerCase (trim r.1)) rows /\
  (forall r, r ∈ filteredRows query rows <->
    r ∈ rows /\ includes (toLowerCase (trim query)) (toLowerCase r.1) = true).
Proof.
  assert ((repositoryRows baseCompare authorized withJobs).*1 = sort_by baseCompare authorized) as E.
  { unfold repositoryRows. change (map ?f ?l) with (f <$> l).
    rewrite <- list_fmap_compose. simpl. apply list_fmap_id. }
  cbv zeta. rewrite E. split_and!.
  - apply sort_by_perm.
  - by apply sort_by_sorted.
  - apply Forall_forall. intros r (name & -> & _)%list_elem_of_fmap. simpl.
    rewrite bool_decide_eq_true, list_elem_of_fmap. split.
    + intros (w & Ew & Hw). exists w. done.
    + intros (w & Hw & Ew). exists w. done.
  - intros r. unfold filteredRows. destruct (str_truthy _) eqn:Eq.
    + rewrite list_elem_of_filter, Is_true_true. tauto.
    + apply str_truthy_false in Eq. rewrite Eq. split; [|tauto]. intros Hr. split; [done|].
      apply includes_spec. by exists "", (toLowerCase r.1).
Qed.

Lemma repositoryRows_spec_witness :
  let rows := repositoryRows str_cmp ["b/Two"; "a/one"] ["B/two "] in
  rows.*1 ≡ₚ ["b/Two"; "a/one"] /\
  StronglySorted (fun a b => str_cmp a b <= 0)%Z rows.*1 /\
  Forall (fun r => r.2 = true <->
    exists w, w ∈ ["B/two "] /\ toLowerCase (trim w) = toLowerCase (trim r.1)) rows /\
  (forall r, r ∈ filteredRows " ONE" rows <->
    r ∈ rows /\ includes (toLowerCase (trim " ONE")) (toLowerCase r.1) = true).
Proof. apply (repositoryRows_spec str_cmp). apply str_cmp_comparison. Defined.
