(* ===== verification/UserLoad.v ===== *)
(** Loading the user pages: [requestUserRunnerPage], [loadUserAll],
    [loadUserRunnerHistory] and [signOut] of src/ui/src/App.tsx as a transition
    system.

    A call of [loadUserAll] is a closure over the session and the location of
    the render that made it; the requests of several calls are in flight
    together and settle in any order.  [createLatestUserLoadGate] decides which
    of them may still write. *)
From S2P Require Import Prelude.
From S2P Require Import JsString.
From S2P Require Import JsArray.
From S2P Require Import JsNumber.
From S2P Require Import AdminTypes.
From S2P Require Import LoadPolicy.
From S2P Require Import AppRoutes.
From S2P Require Import Errors.
From S2P Require Import BuildGroups.
From S2P Require Import Readiness.

(** ** Pages of runner requests *)

(** The response: its body, when it is an array, and [X-Total-Count]. *)
Record RunnerPageResponse := {
  resp_items : option (list RunnerState);
  resp_totalHeader : option string;
}.

Record UserRunnerPage := { page_items : list RunnerState; page_total : Z }.

Definition requestUserRunnerPage (response : RunnerPageResponse) : UserRunnerPage :=
  let items := default [] (resp_items response) in
  let parsedTotal := match resp_totalHeader response with None => NaN | Some h => Number h end in
  {| page_items := items;
     page_total := match safe_integer parsedTotal with
                   | Some n => if (0 <=? n)%Z then n else Z.of_nat (List.length items)
                   | None => Z.of_nat (List.length items)
                   end |}.

(** ** State *)

(** What a call of [loadUserAll] captures. *)
Record LoadClosure := {
  lc_authenticated : bool;
  lc_login : option string;
  lc_hasAccess : bool;
  lc_isAdminRoute : bool;
  lc_path : string;
}.

Record UserData := {
  ud_githubApp : option GitHubAppConfig;
  ud_runners : list RunnerState;
  ud_runnerTotal : Z;
  ud_selectedKey : string;
  ud_onboarding : option ProductTourOnboarding;
  ud_preferences : option UserPreferences;
  ud_preferencesScope : string;
}.

(** Where a call stands: its first requests, or the preferences request that
    follows with what the first ones returned. *)
Inductive LoadPhase :=
  | FirstRequests
  | PreferencesRequest (app : GitHubAppConfig) (page : option UserRunnerPage)
      (onboarding : option ProductTourOnboarding) (installationID : option Z).

Record Load := {
  ld_id : Z;
  ld_closure : LoadClosure;
  ld_polling : bool;
  ld_phase : LoadPhase;
}.

Record UserState := {
  us_gate : LoadGate;
  us_loading : bool;
  us_data : UserData;
  us_reauth : ReauthGate;
  us_redirects : nat;
  us_toasts : list string;
  us_loads : list Load;
  us_historyLoading : bool;
  (** The synchronisations of installations and the setup links in flight, each
      with the render that started it, and whether its load has begun; and the loads
      of the administration in flight.  They write [us_loading] too. *)
  us_syncs : list (LoadClosure * bool);
  us_adminLoads : nat;
}.

Definition emptyData : UserData := {|
  ud_githubApp := None; ud_runners := []; ud_runnerTotal := 0; ud_selectedKey := "";
  ud_onboarding := None; ud_preferences := None; ud_preferencesScope := "" |}.

Definition initial_user (selectedKey : string) : UserState := {|
  us_gate := createLatestUserLoadGate; us_loading := false;
  us_data := {| ud_githubApp := None; ud_runners := []; ud_runnerTotal := 0;
                ud_selectedKey := selectedKey; ud_onboarding := None; ud_preferences := None;
                ud_preferencesScope := "" |};
  us_reauth := createGitHubReauthenticationGate; us_redirects := 0; us_toasts := [];
  us_loads := []; us_historyLoading := false; us_syncs := []; us_adminLoads := 0 |}.

Definition set_data (d : UserData) (st : UserState) : UserState := {|
  us_gate := us_gate st; us_loading := us_loading st; us_data := d; us_reauth := us_reauth st;
  us_redirects := us_redirects st; us_toasts := us_toasts st; us_loads := us_loads st;
  us_historyLoading := us_historyLoading st; us_syncs := us_syncs st;
  us_adminLoads := us_adminLoads st |}.

Definition set_loading (b : bool) (st : UserState) : UserState := {|
  us_gate := us_gate st; us_loading := b; us_data := us_data st; us_reauth := us_reauth st;
  us_redirects := us_redirects st; us_toasts := us_toasts st; us_loads := us_loads st;
  us_historyLoading := us_historyLoading st; us_syncs := us_syncs st;
  us_adminLoads := us_adminLoads st |}.

Definition set_loads (ls : list Load) (st : UserState) : UserState := {|
  us_gate := us_gate st; us_loading := us_loading st; us_data := us_data st;
  us_reauth := us_reauth st; us_redirects := us_redirects st; us_toasts := us_toasts st;
  us_loads := ls; us_historyLoading := us_historyLoading st; us_syncs := us_syncs st;
  us_adminLoads := us_adminLoads st |}.

Definition set_historyLoading (b : bool) (st : UserState) : UserState := {|
  us_gate := us_gate st; us_loading := us_loading st; us_data := us_data st;
  us_reauth := us_reauth st; us_redirects := us_redirects st; us_toasts := us_toasts st;
  us_loads := us_loads st; us_historyLoading := b; us_syncs := us_syncs st;
  us_adminLoads := us_adminLoads st |}.

Definition set_writers (syncs : list (LoadClosure * bool)) (adminLoads : nat) (st : UserState) :
    UserState := {|
  us_gate := us_gate st; us_loading := us_loading st; us_data := us_data st;
  us_reauth := us_reauth st; us_redirects := us_redirects st; us_toasts := us_toasts st;
  us_loads := us_loads st; us_historyLoading := us_historyLoading st; us_syncs := syncs;
  us_adminLoads := adminLoads |}.

Definition set_syncs (syncs : list (LoadClosure * bool)) (st : UserState) : UserState :=
  set_writers syncs (us_adminLoads st) st.

(** ** [loadUserAll] *)

(** The scope of a call: [`${login ?? ""}:${locationPath}`]. *)
Definition load_scope (c : LoadClosure) : string :=
  default "" (lc_login c) +:+ ":" +:+ lc_path c.

Definition load_resources (c : LoadClosure) (polling : bool) : list UserDataResource :=
  if polling then userPollingResources (lc_path c) else userDataResources (lc_path c).

(** The guard after [begin]. *)
Definition load_allowed (c : LoadClosure) : bool :=
  lc_authenticated c && negb (lc_hasAccess c && lc_isAdminRoute c).

Definition with_gate (g : LoadGate) (st : UserState) : UserState := {|
  us_gate := g; us_loading := us_loading st; us_data := us_data st; us_reauth := us_reauth st;
  us_redirects := us_redirects st; us_toasts := us_toasts st; us_loads := us_loads st;
  us_historyLoading := us_historyLoading st; us_syncs := us_syncs st;
  us_adminLoads := us_adminLoads st |}.

(** The synchronous part of a call. *)
Definition loadUserAll (c : LoadClosure) (polling : bool) (st : UserState) : UserState :=
  let '(g, loadID) := gate_begin (load_scope c) (us_gate st) in
  let st := with_gate g st in
  if negb (load_allowed c) then st
  else match load_resources c polling with
       | [] => set_loading false st
       | _ =>
           set_loading true (set_loads (us_loads st ++
             [{| ld_id := loadID; ld_closure := c; ld_polling := polling;
                 ld_phase := FirstRequests |}]) st)
       end.

Definition is_current (l : Load) (st : UserState) : bool :=
  gate_isCurrent (Some (ld_id l)) (us_gate st).

(** The writes of a successful load. *)
Definition commit_data (polling : bool) (app : option GitHubAppConfig)
    (page : option UserRunnerPage) (onboarding : option ProductTourOnboarding)
    (preferences : option (UserPreferences * string)) (d : UserData) : UserData := {|
  ud_githubApp := match app with Some a => Some a | None => ud_githubApp d end;
  ud_runners :=
    match page with
    | Some p => if polling then mergeUserRunnerPages (page_items p) (ud_runners d)
                else page_items p
    | None => ud_runners d
    end;
  ud_runnerTotal := match page with Some p => page_total p | None => ud_runnerTotal d end;
  ud_selectedKey :=
    match page with
    | Some p => if (page_total p =? 0)%Z then "" else ud_selectedKey d
    | None => ud_selectedKey d
    end;
  ud_onboarding := match onboarding with Some o => Some o | None => ud_onboarding d end;
  ud_preferences := match preferences with Some (p, _) => Some p | None => ud_preferences d end;
  ud_preferencesScope :=
    match preferences with
    | Some (_, s) => if str_truthy s then s else ud_preferencesScope d
    | None => ud_preferencesScope d
    end |}.

Definition finish_load (l : Load) (d : UserData -> UserData) (st : UserState) : UserState :=
  if is_current l st then set_loading false (set_data (d (us_data st)) st) else st.

(** [catch] and [finally]: a stale load is silent; a demand to sign in again
    redirects once; any other error is shown. *)
Definition reauthenticate (st : UserState) : UserState :=
  let '(g, go) := reauth_begin (us_reauth st) in
  {| us_gate := us_gate st; us_loading := us_loading st; us_data := us_data st; us_reauth := g;
     us_redirects := if go then S (us_redirects st) else us_redirects st;
     us_toasts := if go then us_toasts st ++ ["app.refreshingGitHubSignIn"] else us_toasts st;
     us_loads := us_loads st; us_historyLoading := us_historyLoading st; us_syncs := us_syncs st;
  us_adminLoads := us_adminLoads st |}.

Definition toast (message : string) (st : UserState) : UserState := {|
  us_gate := us_gate st; us_loading := us_loading st; us_data := us_data st;
  us_reauth := us_reauth st; us_redirects := us_redirects st;
  us_toasts := us_toasts st ++ [message]; us_loads := us_loads st;
  us_historyLoading := us_historyLoading st; us_syncs := us_syncs st;
  us_adminLoads := us_adminLoads st |}.

Definition fail_load (l : Load) (e : thrown) (st : UserState) : UserState :=
  if negb (is_current l st) then st
  else set_loading false
         (if requiresGitHubReauthentication e then reauthenticate st
          else toast (error_message e "app.workspaceLoadFailed") st).

Record FirstResponses := {
  fr_app : GitHubAppConfig;
  fr_page : RunnerPageResponse;
  fr_onboarding : thrown + ProductTourOnboarding;
}.

Definition includes_resource (r : UserDataResource) (c : LoadClosure) (polling : bool) : bool :=
  bool_decide (r ∈ load_resources c polling).

(** The first requests of the load at the front of [rest] settle. *)
Definition settle_first (l : Load) (rest : list Load) (result : thrown + FirstResponses)
    (st : UserState) : UserState :=
  let c := ld_closure l in
  let polling := ld_polling l in
  match result with
  | inl e => fail_load l e (set_loads rest st)
  | inr r =>
      let nextApp :=
        if includes_resource res_github_app c polling then Some (fr_app r) else None in
      let runnerPage :=
        if includes_resource res_user_runner_requests c polling
        then Some (requestUserRunnerPage (fr_page r)) else None in
      let onboardingData :=
        if includes_resource res_onboarding c polling
        then loadOptionalUserResource (fr_onboarding r) else None in
      match nextApp with
      | Some app =>
          if includes_resource res_preferences c polling then
            set_loads (rest ++
              [{| ld_id := ld_id l; ld_closure := c; ld_polling := polling;
                  ld_phase := PreferencesRequest app runnerPage onboardingData
                    (loadInstallationID (installations app) (lc_path c) (lc_login c)) |}]) st
          else finish_load l (commit_data polling (Some app) runnerPage onboardingData None)
                 (set_loads rest st)
      | None => finish_load l (commit_data polling None runnerPage onboardingData None)
                  (set_loads rest st)
      end
  end.

(** The preferences request settles. *)
Definition settle_preferences (l : Load) (app : GitHubAppConfig) (page : option UserRunnerPage)
    (onboarding : option ProductTourOnboarding) (installationID : option Z) (rest : list Load)
    (result : thrown + UserPreferences) (st : UserState) : UserState :=
  match result with
  | inl e => fail_load l e (set_loads rest st)
  | inr preferences =>
      finish_load l
        (commit_data (ld_polling l) (Some app) page onboarding
           (Some (preferences, scopeOf installationID)))
        (set_loads rest st)
  end.

(** ** History and sign-out *)

Definition beginHistory (authenticated : bool) (st : UserState) : UserState :=
  if negb authenticated || us_historyLoading st then st else set_historyLoading true st.

Definition settleHistory (result : thrown + RunnerPageResponse) (st : UserState) : UserState :=
  set_historyLoading false
    (match result with
     | inr r =>
         let page := requestUserRunnerPage r in
         let d := us_data st in
         set_data {| ud_githubApp := ud_githubApp d; ud_runners := page_items page;
                     ud_runnerTotal := page_total page; ud_selectedKey := ud_selectedKey d;
                     ud_onboarding := ud_onboarding d; ud_preferences := ud_preferences d;
                     ud_preferencesScope := ud_preferencesScope d |} st
     | inl e =>
         if requiresGitHubReauthentication e then reauthenticate st
         else toast (error_message e "app.olderJobsLoadFailed") st
     end).

(** The part of [signOut] that concerns this state: preferences, their scope and
    the onboarding state are kept. *)
Definition signOutData (d : UserData) : UserData := {|
  ud_githubApp := None; ud_runners := []; ud_runnerTotal := 0; ud_selectedKey := "";
  ud_onboarding := ud_onboarding d; ud_preferences := ud_preferences d;
  ud_preferencesScope := ud_preferencesScope d |}.

(** ** The other writers of [loading]

    [syncGitHubInstallations] and [syncGitHubAppSetupFromURL]: the request, the load
    of the render that made it, and the end, in [finally]; what they tell the user is
    in Repositories. *)
Definition beginSync (c : LoadClosure) (st : UserState) : UserState :=
  set_loading true (set_syncs (us_syncs st ++ [(c, false)]) st).

Definition syncAnswered (c : LoadClosure) (others : list (LoadClosure * bool)) (st : UserState) :
    UserState := loadUserAll c false (set_syncs (others ++ [(c, true)]) st).

Definition syncEnded (others : list (LoadClosure * bool)) (st : UserState) : UserState :=
  set_loading false (set_syncs others st).

(** A failure is told, or asks the user to sign in again. *)
Definition syncFailed (signInAgain : bool) (message : string) (others : list (LoadClosure * bool))
    (st : UserState) : UserState :=
  syncEnded others (if signInAgain then reauthenticate st else toast message st).

(** [loadAll] of the administration, whose data are in AdminConsole. *)
Definition beginAdminLoad (st : UserState) : UserState :=
  set_loading true (set_writers (us_syncs st) (S (us_adminLoads st)) st).
Definition endAdminLoad (others : nat) (st : UserState) : UserState :=
  set_loading false (set_writers (us_syncs st) others st).

(** ** Steps *)

(** A step; the label of a call of [loadUserAll], and of a synchronisation that will
    make one, is its closure.  A synchronisation
    ends some time after its load began. *)
Inductive user_step : option LoadClosure -> UserState -> UserState -> Prop :=
  | us_load st c polling : user_step (Some c) st (loadUserAll c polling st)
  | us_settle_first st ls l rs result :
      us_loads st = ls ++ l :: rs -> ld_phase l = FirstRequests ->
      user_step None st (settle_first l (ls ++ rs) result st)
  | us_settle_preferences st ls l rs app page onboarding i result :
      us_loads st = ls ++ l :: rs -> ld_phase l = PreferencesRequest app page onboarding i ->
      user_step None st (settle_preferences l app page onboarding i (ls ++ rs) result st)
  | us_history st authenticated : user_step None st (beginHistory authenticated st)
  | us_settle_history st result :
      us_historyLoading st = true -> user_step None st (settleHistory result st)
  | us_signOut st : user_step None st (set_data (signOutData (us_data st)) st)
  | us_sync st c : user_step (Some c) st (beginSync c st)
  | us_synced st ls c rs :
      us_syncs st = ls ++ (c, false) :: rs -> user_step (Some c) st (syncAnswered c (ls ++ rs) st)
  | us_sync_failed st ls c rs signInAgain message :
      us_syncs st = ls ++ (c, false) :: rs ->
      user_step None st (syncFailed signInAgain message (ls ++ rs) st)
  | us_sync_ended st ls c rs :
      us_syncs st = ls ++ (c, true) :: rs -> user_step None st (syncEnded (ls ++ rs) st)
  | us_admin st : user_step None st (beginAdminLoad st)
  | us_admin_settled st n : us_adminLoads st = S n -> user_step None st (endAdminLoad n st)
  | us_select st key : user_step None st (set_data
      {| ud_githubApp := ud_githubApp (us_data st); ud_runners := ud_runners (us_data st);
         ud_runnerTotal := ud_runnerTotal (us_data st); ud_selectedKey := key;
         ud_onboarding := ud_onboarding (us_data st);
         ud_preferences := ud_preferences (us_data st);
         ud_preferencesScope := ud_preferencesScope (us_data st) |} st).

Inductive user_reachable : UserState -> Prop :=
  | user_start key : user_reachable (initial_user key)
  | user_next label st st' :
      user_reachable st -> user_step label st st' -> user_reachable st'.

(** * Properties *)

(** ** Pages *)

(** The total of a page is the count the server sends, for every count that
    fits a safe integer, and the number of items when the header is missing or
    is not such a count; it is never negative. *)
Theorem page_total_spec (r : RunnerPageResponse) :
  (0 <= page_total (requestUserRunnerPage r))%Z /\
  (forall n, (0 <= n <= max_safe)%Z -> resp_totalHeader r = Some (pretty n) ->
     page_total (requestUserRunnerPage r) = n) /\
  (resp_totalHeader r = None ->
     page_total (requestUserRunnerPage r) = Z.of_nat (List.length (default [] (resp_items r)))).
Proof.
  unfold requestUserRunnerPage; simpl. split_and!.
  - destruct (safe_integer _) as [n|]; [destruct (Z.leb_spec 0 n)|]; lia.
  - intros n Hn ->. rewrite Number_pretty by done.
    by rewrite (proj2 (Z.leb_le 0 n)) by lia.
  - by intros ->.
Qed.

(** ** The gate *)

(** The generation of the gate belongs to its scope. *)
Definition gate_inv (st : UserState) : Prop :=
  Forall (fun l => (ld_id l <= generation (us_gate st))%Z /\
    (ld_id l = generation (us_gate st) -> load_scope (ld_closure l) = scope (us_gate st)))
    (us_loads st).

Lemma gate_begin_scope s g : scope (gate_begin s g).1 = s.
Proof. unfold gate_begin. simpl. by case_bool_decide. Qed.

Lemma gate_begin_id s g : (gate_begin s g).2 = generation (gate_begin s g).1.
Proof. done. Qed.

Lemma gate_begin_generation s g :
  (gate_begin s g).1 = g /\ scope g = s \/
  generation (gate_begin s g).1 = (generation g + 1)%Z.
Proof. unfold gate_begin. simpl. case_bool_decide; auto. Qed.

Lemma gate_inv_subset st ls st' :
  gate_inv st -> us_gate st' = us_gate st -> us_loads st' = ls ->
  (forall l, l ∈ ls -> exists l', l' ∈ us_loads st /\ ld_id l' = ld_id l /\
     ld_closure l' = ld_closure l) ->
  gate_inv st'.
Proof.
  unfold gate_inv. rewrite !Forall_forall. intros H Hg <- Hl l Hin. rewrite Hg.
  destruct (Hl l Hin) as (l' & Hin' & <- & <-). by apply H.
Qed.

Lemma loadUserAll_gate c polling st :
  us_gate (loadUserAll c polling st) = (gate_begin (load_scope c) (us_gate st)).1.
Proof.
  unfold loadUserAll. destruct (gate_begin _ _) as [g i]. simpl.
  destruct (negb _); [done|]. by destruct (load_resources c polling).
Qed.

Lemma loadUserAll_loads c polling st l :
  l ∈ us_loads (loadUserAll c polling st) ->
  l ∈ us_loads st \/
  ld_closure l = c /\ ld_id l = generation (us_gate (loadUserAll c polling st)).
Proof.
  rewrite loadUserAll_gate. unfold loadUserAll. destruct (gate_begin _ _) as [g i] eqn:E.
  pose proof (gate_begin_id (load_scope c) (us_gate st)) as Hi. rewrite E in Hi.
  simpl in Hi. subst i.
  simpl. destruct (negb _); [by left|]. destruct (load_resources c polling); [by left|].
  simpl. rewrite elem_of_app, list_elem_of_singleton. intros [H| ->]; [by left|by right].
Qed.

Lemma loadUserAll_inv c polling st : gate_inv st -> gate_inv (loadUserAll c polling st).
Proof.
  unfold gate_inv. rewrite !Forall_forall. intros H l Hl.
  apply loadUserAll_loads in Hl as [Hl|[Hc Hi]].
  - specialize (H l Hl) as [Hle Heq]. rewrite loadUserAll_gate.
    destruct (gate_begin_generation (load_scope c) (us_gate st)) as [[-> _]|Hg]; [done|].
    rewrite Hg. split; [lia|]. lia.
  - rewrite Hi. split; [lia|]. intros _. rewrite loadUserAll_gate, gate_begin_scope, Hc. done.
Qed.

Lemma fail_load_frame l e st :
  us_gate (fail_load l e st) = us_gate st /\ us_loads (fail_load l e st) = us_loads st.
Proof.
  unfold fail_load, reauthenticate. destruct (negb _); [done|].
  destruct (requiresGitHubReauthentication e); [|done]. by destruct (us_reauth st).
Qed.

Lemma finish_load_frame l d st :
  us_gate (finish_load l d st) = us_gate st /\ us_loads (finish_load l d st) = us_loads st.
Proof. unfold finish_load. by destruct (is_current l st). Qed.

(** What settling does to the gate and to the loads in flight: the load leaves,
    or goes on to its preferences request. *)
Lemma settle_first_frame l rest result st :
  us_gate (settle_first l rest result st) = us_gate st /\
  (us_loads (settle_first l rest result st) = rest \/
   exists l', us_loads (settle_first l rest result st) = rest ++ [l'] /\
     ld_id l' = ld_id l /\ ld_closure l' = ld_closure l).
Proof.
  unfold settle_first. destruct result as [e|r].
  - destruct (fail_load_frame l e (set_loads rest st)) as [-> ->]. auto.
  - destruct (includes_resource res_github_app _ _).
    + destruct (includes_resource res_preferences _ _).
      * split; [done|]. right. eexists. split; [reflexivity|done].
      * match goal with |- context [finish_load l ?d ?s] =>
          destruct (finish_load_frame l d s) as [-> ->] end. auto.
    + match goal with |- context [finish_load l ?d ?s] =>
        destruct (finish_load_frame l d s) as [-> ->] end. auto.
Qed.

Lemma settle_preferences_frame l app page ob i rest result st :
  us_gate (settle_preferences l app page ob i rest result st) = us_gate st /\
  us_loads (settle_preferences l app page ob i rest result st) = rest.
Proof.
  unfold settle_preferences. destruct result as [e|p].
  - apply (fail_load_frame l e (set_loads rest st)).
  - match goal with |- context [finish_load l ?d ?s] => apply (finish_load_frame l d s) end.
Qed.

Lemma settleHistory_frame result st :
  us_gate (settleHistory result st) = us_gate st /\ us_loads (settleHistory result st) = us_loads st.
Proof.
  unfold settleHistory, reauthenticate. destruct result as [e|r]; [|done].
  destruct (requiresGitHubReauthentication e); [|done]. by destruct (us_reauth st).
Qed.

Lemma user_step_gate_inv label st st' : user_step label st st' -> gate_inv st -> gate_inv st'.
Proof.
  intros Hstep H.
  destruct Hstep as [st c polling|st ls l rs result E _|st ls l rs app page ob i result E _
                    |st authenticated|st result _|st|st c|st ls c rs E|st ls c rs again m E
                    |st ls c rs E|st|st n E|st key]; try exact H.
  - by apply loadUserAll_inv.
  - destruct (settle_first_frame l (ls ++ rs) result st) as [Hg [Hl|(l' & Hl & Hi & Hc)]];
      eapply gate_inv_subset; [exact H|exact Hg|exact Hl| |exact H|exact Hg|exact Hl|].
    + intros x Hx. exists x. rewrite E. set_solver.
    + intros x [Hx|Hx%list_elem_of_singleton]%elem_of_app.
      * exists x. rewrite E. set_solver.
      * subst x. exists l. rewrite E. set_solver.
  - destruct (settle_preferences_frame l app page ob i (ls ++ rs) result st) as [Hg Hl].
    eapply gate_inv_subset; [exact H|exact Hg|exact Hl|].
    intros x Hx. exists x. rewrite E. set_solver.
  - unfold beginHistory. by destruct (negb authenticated || us_historyLoading st).
  - destruct (settleHistory_frame result st) as [Hg Hl].
    eapply gate_inv_subset; [exact H|exact Hg|exact Hl|]. intros x Hx. by exists x.
  - by apply loadUserAll_inv.
  - unfold syncFailed, reauthenticate. destruct again; [by destruct (us_reauth st)|exact H].
Qed.

Lemma user_reachable_gate_inv st : user_reachable st -> gate_inv st.
Proof.
  induction 1 as [key|label st st' _ IH Hstep]; [constructor|by eapply user_step_gate_inv].
Qed.

(** What the user sees of a state. *)
Definition visible (st : UserState) : UserData * bool * nat * list string :=
  (us_data st, us_loading st, us_redirects st, us_toasts st).

Lemma stale_is_silent l rest st :
  is_current l st = false ->
  (forall result, visible (settle_first l rest result st) = visible st) /\
  (forall app page ob i result,
     visible (settle_preferences l app page ob i rest result st) = visible st).
Proof.
  intros Hc.
  assert (forall d, visible (finish_load l d (set_loads rest st)) = visible st) as Hfin
    by (intros d; unfold finish_load, is_current in *; simpl; by rewrite Hc).
  assert (forall e, visible (fail_load l e (set_loads rest st)) = visible st) as Hfail
    by (intros e; unfold fail_load, is_current in *; simpl; by rewrite Hc).
  split.
  - intros [e|r]; simpl; [apply Hfail|].
    destruct (includes_resource res_github_app _ _); [|apply Hfin].
    destruct (includes_resource res_preferences _ _); [done|apply Hfin].
  - intros app page ob i [e|p]; simpl; [apply Hfail|apply Hfin].
Qed.

Lemma load_scope_inj c d :
  free ":" (default "" (lc_login c)) = true -> free ":" (default "" (lc_login d)) = true ->
  load_scope c = load_scope d ->
  default "" (lc_login c) = default "" (lc_login d) /\ lc_path c = lc_path d.
Proof. intros Hc Hd E. unfold load_scope in E. simpl String.append in E. by eapply first_sep_unique. Qed.

(** C6.  A load the user has moved away from is silent: once [loadUserAll] has
    been called for a session and a path, the answers and the errors of loads
    for another login or another path change nothing the user sees, in
    whatever order the requests settle. *)
Theorem latest_load_wins (st : UserState) (c : LoadClosure) (polling : bool)
    (ls rs : list Load) (l : Load)
    (H : user_reachable st)
    (Hl : us_loads (loadUserAll c polling st) = ls ++ l :: rs)
    (Hlogin : free ":" (default "" (lc_login c)) = true)
    (Hlogin' : free ":" (default "" (lc_login (ld_closure l))) = true)
    (Hother : default "" (lc_login (ld_closure l)) <> default "" (lc_login c) \/
              lc_path (ld_closure l) <> lc_path c) :
  let st' := loadUserAll c polling st in
  (forall result, visible (settle_first l (ls ++ rs) result st') = visible st') /\
  (forall app page ob i result,
     visible (settle_preferences l app page ob i (ls ++ rs) result st') = visible st').
Proof.
  intros st'. apply stale_is_silent. unfold is_current, gate_isCurrent.
  apply bool_decide_eq_false_2. intros [= E].
  pose proof (user_reachable_gate_inv _ (user_next _ _ _ H (us_load st c polling))) as Hinv.
  unfold gate_inv in Hinv. rewrite Forall_forall in Hinv.
  destruct (Hinv l) as [_ Hs]; [rewrite Hl; set_solver|]. specialize (Hs E).
  rewrite loadUserAll_gate, gate_begin_scope in Hs.
  apply load_scope_inj in Hs as [Hs1 Hs2]; [|done..]. destruct Hother; congruence.
Qed.

Definition example_closure (path : string) : LoadClosure := {|
  lc_authenticated := true; lc_login := Some "octocat"; lc_hasAccess := false;
  lc_isAdminRoute := false; lc_path := path |}.

Definition example_load (i : Z) (path : string) : Load := {|
  ld_id := i; ld_closure := example_closure path; ld_polling := false;
  ld_phase := FirstRequests |}.

Lemma latest_load_wins_witness :
  let st := loadUserAll (example_closure "/jobs") false (initial_user "") in
  let st' := loadUserAll (example_closure "/repositories") false st in
  (forall result, visible (settle_first (example_load 1 "/jobs")
      ([] ++ [example_load 2 "/repositories"]) result st') = visible st') /\
  (forall app page ob i result, visible (settle_preferences (example_load 1 "/jobs") app page ob i
      ([] ++ [example_load 2 "/repositories"]) result st') = visible st').
Proof.
  apply (latest_load_wins _ (example_closure "/repositories") false []
    [example_load 2 "/repositories"] (example_load 1 "/jobs")).
  - eapply user_next; [apply (user_start "")|apply us_load].
  - vm_compute. reflexivity.
  - reflexivity.
  - reflexivity.
  - right. discriminate.
Defined.

(** ** The spinner *)

(** The pages call [loadUserAll] only when its guard holds. *)
Inductive guarded_reachable : UserState -> Prop :=
  | guarded_start key : guarded_reachable (initial_user key)
  | guarded_next label st st' :
      guarded_reachable st -> user_step label st st' ->
      (forall c, label = Some c -> load_allowed c = true) -> guarded_reachable st'.

Definition spinner_inv (st : UserState) : Prop :=
  us_loading st = true ->
  (exists l, l ∈ us_loads st /\ is_current l st = true) \/ us_syncs st <> [] \/ us_adminLoads st <> 0.

Lemma loadUserAll_spinner c polling st :
  load_allowed c = true -> spinner_inv (loadUserAll c polling st).
Proof.
  intros Hc. unfold spinner_inv, is_current, gate_isCurrent. rewrite loadUserAll_gate.
  unfold loadUserAll. destruct (gate_begin _ _) as [g i] eqn:E.
  pose proof (gate_begin_id (load_scope c) (us_gate st)) as Hi. rewrite E in Hi.
  simpl in Hi. subst i. rewrite Hc. simpl. destruct (load_resources c polling); [done|].
  simpl. intros _. left. eexists. split; [apply elem_of_app; right; left|].
  by apply bool_decide_eq_true_2.
Qed.

(** Settling a load keeps the other loads in flight, and only a current load
    that ends stops the spinner. *)
Lemma settle_spinner l ls rs st st' :
  us_loads st = ls ++ l :: rs -> us_gate st' = us_gate st ->
  us_syncs st' = us_syncs st -> us_adminLoads st' = us_adminLoads st ->
  (us_loads st' = ls ++ rs /\
     (us_loading st' = false \/ us_loading st' = us_loading st /\ is_current l st = false) \/
   exists l', us_loads st' = (ls ++ rs) ++ [l'] /\ ld_id l' = ld_id l /\
     us_loading st' = us_loading st) ->
  spinner_inv st -> spinner_inv st'.
Proof.
  intros E Hg Hy Ha H Hinv Hload. unfold spinner_inv in Hinv. rewrite Hy, Ha.
  assert (forall x, is_current x st' = is_current x st) as Hcur
    by (intros x; unfold is_current; by rewrite Hg).
  destruct H as [[Hl [Hf|[Hf Hc]]]|(l' & Hl & Hi & Hf)]; [congruence| |];
    rewrite Hf in Hload; (destruct (Hinv Hload) as [(x & Hx & Hxc)|Hw]; [left|by right]);
    rewrite E, elem_of_app, elem_of_cons in Hx; setoid_rewrite Hcur; rewrite Hl.
  - destruct Hx as [Hx|[->|Hx]]; [..|exists x; set_solver]; [exists x; set_solver|congruence].
  - destruct Hx as [Hx|[->|Hx]]; [exists x; set_solver| |exists x; set_solver].
    exists l'. split; [set_solver|]. unfold is_current in *. by rewrite Hi.
Qed.

Lemma finish_load_loading l d rest st :
  us_loading (finish_load l d (set_loads rest st)) = false \/
  us_loading (finish_load l d (set_loads rest st)) = us_loading st /\ is_current l st = false.
Proof.
  unfold finish_load, is_current. simpl.
  destruct (gate_isCurrent (Some (ld_id l)) (us_gate st)); auto.
Qed.

Lemma fail_load_loading l e rest st :
  us_loading (fail_load l e (set_loads rest st)) = false \/
  us_loading (fail_load l e (set_loads rest st)) = us_loading st /\ is_current l st = false.
Proof.
  unfold fail_load, is_current. simpl.
  destruct (gate_isCurrent (Some (ld_id l)) (us_gate st)); auto.
Qed.

(** Settling a load leaves the other writers alone. *)
Definition writers (st : UserState) : list (LoadClosure * bool) * nat := (us_syncs st, us_adminLoads st).

Lemma settled_writers :
  (forall l e st, writers (fail_load l e st) = writers st) /\
  (forall l d st, writers (finish_load l d st) = writers st).
Proof.
  split; intros; unfold fail_load, finish_load, reauthenticate; repeat case_match; done.
Qed.

Lemma settle_first_writers l rest result st :
  writers (settle_first l rest result st) = writers st.
Proof.
  destruct settled_writers as [H1 H2]. unfold settle_first.
  repeat case_match; by rewrite ?H1, ?H2.
Qed.

Lemma settle_preferences_writers l app page ob i rest result st :
  writers (settle_preferences l app page ob i rest result st) = writers st.
Proof.
  destruct settled_writers as [H1 H2]. unfold settle_preferences. case_match; by rewrite ?H1, ?H2.
Qed.

Lemma settle_first_spinner l ls rs result st :
  us_loads st = ls ++ l :: rs -> spinner_inv st ->
  spinner_inv (settle_first l (ls ++ rs) result st).
Proof.
  intros E Hinv. pose proof (settle_first_writers l (ls ++ rs) result st) as [= Hy Ha].
  eapply settle_spinner; [exact E| |exact Hy|exact Ha| |exact Hinv].
  - apply settle_first_frame.
  - unfold settle_first. destruct result as [e|r].
    { left. split; [by apply fail_load_frame|apply fail_load_loading]. }
    destruct (includes_resource res_github_app _ _);
      [destruct (includes_resource res_preferences _ _)|].
    + right. eexists. split; [reflexivity|done].
    + left. split; [by apply finish_load_frame|apply finish_load_loading].
    + left. split; [by apply finish_load_frame|apply finish_load_loading].
Qed.

Lemma settle_preferences_spinner l app page ob i ls rs result st :
  us_loads st = ls ++ l :: rs -> spinner_inv st ->
  spinner_inv (settle_preferences l app page ob i (ls ++ rs) result st).
Proof.
  intros E Hinv. pose proof (settle_preferences_writers l app page ob i (ls ++ rs) result st) as [= Hy Ha].
  eapply settle_spinner; [exact E| |exact Hy|exact Ha| |exact Hinv].
  - apply settle_preferences_frame.
  - unfold settle_preferences. left. destruct result as [e|p].
    + split; [by apply fail_load_frame|apply fail_load_loading].
    + split; [by apply finish_load_frame|apply finish_load_loading].
Qed.

Lemma settleHistory_loading result st : us_loading (settleHistory result st) = us_loading st.
Proof.
  unfold settleHistory, reauthenticate. destruct result as [e|r]; [|done].
  destruct (requiresGitHubReauthentication e); [|done]. by destruct (us_reauth st).
Qed.

Lemma settleHistory_writers result st : writers (settleHistory result st) = writers st.
Proof. unfold settleHistory, reauthenticate. by repeat case_match. Qed.

Lemma guarded_spinner (st : UserState) : guarded_reachable st -> spinner_inv st.
Proof.
  induction 1 as [key|label st st' _ IH Hstep Hguard]; [done|].
  destruct Hstep as [st c polling|st ls l rs result E _|st ls l rs app page ob i result E _
                    |st authenticated|st result _|st|st c|st ls c rs E|st ls c rs again m E
                    |st ls c rs E|st|st n E|st key]; try exact IH.
  - apply loadUserAll_spinner. by apply Hguard.
  - by apply settle_first_spinner.
  - by apply settle_preferences_spinner.
  - unfold beginHistory. by destruct (negb authenticated || us_historyLoading st).
  - destruct (settleHistory_frame result st) as [Hg Hl].
    pose proof (f_equal fst (settleHistory_writers result st)) as Hy.
    pose proof (f_equal snd (settleHistory_writers result st)) as Ha. cbn [fst snd writers] in Hy, Ha.
    unfold spinner_inv, is_current.
    rewrite settleHistory_loading, Hg, Hl, Hy, Ha. exact IH.
  - intros _. right. left. cbn. by destruct (us_syncs st).
  - apply loadUserAll_spinner. by apply Hguard.
  - intros H. discriminate H.
  - intros H. discriminate H.
  - intros _. right. right. discriminate.
  - intros H. discriminate H.
Qed.

(** The renders that synchronise are allowed to load. *)
Lemma guarded_syncs (st : UserState) :
  guarded_reachable st -> Forall (fun y => load_allowed y.1 = true) (us_syncs st).
Proof.
  induction 1 as [key|label st st' _ IH Hstep Hguard]; [constructor|].
  destruct Hstep as [st c polling|st ls l rs result E _|st ls l rs app page ob i result E _
                    |st authenticated|st result _|st|st c|st ls c rs E|st ls c rs again m E
                    |st ls c rs E|st|st n E|st key]; try exact IH.
  - assert (us_syncs (loadUserAll c polling st) = us_syncs st) as ->; [|exact IH].
    unfold loadUserAll. destruct (gate_begin _ _). destruct (negb _); [done|].
    by destruct (load_resources c polling).
  - pose proof (f_equal fst (settle_first_writers l (ls ++ rs) result st)) as Hy. cbn [fst writers] in Hy. by rewrite Hy.
  - pose proof (f_equal fst (settle_preferences_writers l app page ob i (ls ++ rs) result st)) as Hy.
    cbn [fst writers] in Hy. by rewrite Hy.
  - unfold beginHistory. by destruct (negb authenticated || us_historyLoading st).
  - pose proof (f_equal fst (settleHistory_writers result st)) as Hy. cbn [fst writers] in Hy. by rewrite Hy.
  - apply Forall_app. split; [exact IH|]. constructor; [by apply Hguard|constructor].
  - assert (us_syncs (syncAnswered c (ls ++ rs) st) = (ls ++ rs) ++ [(c, true)]) as ->.
    { unfold syncAnswered, loadUserAll. destruct (gate_begin _ _). destruct (negb _); [done|].
      by destruct (load_resources c false). }
    rewrite E in IH. apply Forall_app in IH as [? [? ?]%Forall_cons]. rewrite !Forall_app. by repeat constructor.
  - assert (us_syncs (syncFailed again m (ls ++ rs) st) = ls ++ rs) as -> by done.
    rewrite E in IH. apply Forall_app in IH as [? [? ?]%Forall_cons]. by rewrite Forall_app.
  - rewrite E in IH. apply Forall_app in IH as [? [? ?]%Forall_cons].
    change (us_syncs (syncEnded (ls ++ rs) st)) with (ls ++ rs). by rewrite Forall_app.
Qed.

(** C23.  Where the loads are those of renders that may load (somebody is signed in,
    not as an administrator on a page of the administration), as the application's
    effects see to, the spinner always ends: while it is
    shown, a load of a user's page that is still current, a synchronisation or a load
    of the administration is in flight, so when none of these is left the spinner is
    gone, however they overlapped. *)
Theorem spinner_ends (st : UserState) (H : guarded_reachable st) :
  (us_loading st = true ->
   (exists l, l ∈ us_loads st /\ is_current l st = true) \/ us_syncs st <> [] \/
   us_adminLoads st <> 0) /\
  (us_loads st = [] -> us_syncs st = [] -> us_adminLoads st = 0 -> us_loading st = false).
Proof.
  pose proof (guarded_spinner st H) as Hinv. split; [exact Hinv|]. intros E Ey Ea.
  destruct (us_loading st) eqn:El; [|done]. destruct (Hinv El) as [(l & Hl & _)|[Hw|Hw]]; [|done..].
  rewrite E in Hl. by apply not_elem_of_nil in Hl.
Qed.

Lemma spinner_ends_witness :
  let st := loadUserAll (example_closure "/repositories") false
              (beginSync (example_closure "/jobs") (initial_user "")) in
  let st := syncFailed false "app.accountsSyncFailed" [] st in
  let st := settle_first (example_load 1 "/repositories") [] (inl ThrownOther) st in
  us_loading st = false.
Proof.
  intros st0 st1 st2. apply (spinner_ends st2); [|by vm_compute..].
  apply (guarded_next None st1); [|apply (us_settle_first st1 [] (example_load 1 "/repositories") []);
    by vm_compute|done].
  apply (guarded_next None st0); [|apply (us_sync_failed st0 [] (example_closure "/jobs") []);
    by vm_compute|done].
  eapply guarded_next; [eapply guarded_next; [apply (guarded_start "")|apply us_sync|]|apply us_load|];
    by intros ? [= <-].
Defined.

(** A synchronisation that ends hides the spinner of the page the user went to, whose
    load is in flight. *)
Example sync_end_hides_load :
  let st := beginSync (example_closure "/repositories") (initial_user "") in
  let st := syncAnswered (example_closure "/repositories") [] st in
  let st := loadUserAll (example_closure "/jobs") false st in
  let st := settle_first (example_load 1 "/repositories") [example_load 2 "/jobs"] (inl ThrownOther) st in
  let st := syncEnded [] st in
  us_loads st = [example_load 2 "/jobs"] /\ is_current (example_load 2 "/jobs") st = true /\
  us_loading st = false.
Proof. vm_compute. by split_and!. Qed.

(** ** Signing in again *)

(** However many loads and history requests fail with a demand to sign in
    again, the browser is sent to the sign-in page at most once. *)
Theorem at_most_one_redirect (st : UserState) (H : user_reachable st) :
  us_redirects st <= 1.
Proof.
  assert (us_redirects st = if us_reauth st then 1 else 0) as ->;
    [|by destruct (us_reauth st); lia].
  assert (forall s, us_redirects s = (if us_reauth s then 1 else 0) ->
    us_redirects (reauthenticate s) = if us_reauth (reauthenticate s) then 1 else 0) as Hre.
  { intros s Hs. unfold reauthenticate. destruct (us_reauth s); simpl; rewrite Hs; done. }
  assert (forall l e rest s, us_redirects s = (if us_reauth s then 1 else 0) ->
    us_redirects (fail_load l e (set_loads rest s)) =
    if us_reauth (fail_load l e (set_loads rest s)) then 1 else 0) as Hfail.
  { intros l e rest s Hs. unfold fail_load. destruct (negb _); [done|].
    destruct (requiresGitHubReauthentication e); [by apply Hre|done]. }
  assert (forall l d rest s, us_redirects s = (if us_reauth s then 1 else 0) ->
    us_redirects (finish_load l d (set_loads rest s)) =
    if us_reauth (finish_load l d (set_loads rest s)) then 1 else 0) as Hfin.
  { intros l d rest s Hs. unfold finish_load. by destruct (is_current l _). }
  induction H as [key|label st st' _ IH Hstep]; [done|].
  destruct Hstep as [st c polling|st ls l rs result E _|st ls l rs app page ob i result E _
                    |st authenticated|st result _|st|st c|st ls c rs E|st ls c rs again m E
                    |st ls c rs E|st|st n E|st key]; try exact IH.
  - unfold loadUserAll. destruct (gate_begin _ _). destruct (negb _); [done|].
    by destruct (load_resources c polling).
  - unfold settle_first. destruct result as [e|r]; [by apply Hfail|].
    destruct (includes_resource res_github_app _ _); [|by apply Hfin].
    destruct (includes_resource res_preferences _ _); [done|by apply Hfin].
  - unfold settle_preferences. destruct result; [by apply Hfail|by apply Hfin].
  - unfold beginHistory. by destruct (negb authenticated || us_historyLoading st).
  - unfold settleHistory. destruct result as [e|r]; [|done].
    destruct (requiresGitHubReauthentication e); [by apply Hre|done].
  - unfold syncAnswered, loadUserAll. destruct (gate_begin _ _). destruct (negb _); [done|].
    by destruct (load_resources c false).
  - unfold syncFailed. destruct again; [by apply (Hre st)|done].
Qed.

Lemma at_most_one_redirect_witness :
  us_redirects (settleHistory (inl (ThrownError "expired" (Some "REAUTH_REQUIRED")))
    (beginHistory true (initial_user ""))) <= 1.
Proof.
  apply at_most_one_redirect.
  eapply user_next; [eapply user_next; [apply (user_start "")|apply (us_history _ true)]|].
  by apply us_settle_history.
Defined.

(** ** Two ways past the gate

    [syncGitHubInstallations] ends with a call of the [loadUserAll] of the
    render that started it.  Started on the jobs page and finished on the
    repositories page, that call makes the load of the repositories page
    stale: its preferences are dropped and the spinner stops. *)
Definition example_app : GitHubAppConfig := {|
  app_slug := None; install_url := None; setup_url := "/github-app/setup";
  settings_manageability := None; installations := [] |}.

Definition example_preferences : UserPreferences := {|
  cache := {| cache_configured := false; cache_region := None; cache_bucket := None;
              cache_prefix := None; cache_endpoint := None; cache_updated_at := None |};
  sandbox := {| mode := Inherit; resolved_source := SrcAdminDefault; sandbox_api_url := "";
                sandbox_manageable := None; inherited := None; source_account_id := None;
                source_account_login := None; source_is_current_account := None;
                source_available := None; key_configured := false; key_updated_at := None |} |}.

Definition example_responses : FirstResponses := {|
  fr_app := example_app; fr_page := {| resp_items := Some []; resp_totalHeader := None |};
  fr_onboarding := inl ThrownOther |}.

Example stale_closure_starves_the_page :
  let repositories := example_load 1 "/repositories" in
  let waiting := {| ld_id := 1; ld_closure := example_closure "/repositories";
                    ld_polling := false;
                    ld_phase := PreferencesRequest example_app None None None |} in
  let jobs := example_load 2 "/jobs" in
  let st := loadUserAll (example_closure "/repositories") false (initial_user "") in
  let st := settle_first repositories [] (inr example_responses) st in
  let st := loadUserAll (example_closure "/jobs") false st in
  let st := settle_preferences waiting example_app None None None [jobs]
              (inr example_preferences) st in
  let st := settle_first jobs [] (inr example_responses) st in
  us_loads st = [] /\ us_loading st = false /\ ud_preferences (us_data st) = None.
Proof. vm_compute. by split_and!. Qed.

(** Signing out does not touch the gate: a load in flight still writes the data
    of the account that signed out. *)
Example load_survives_sign_out :
  let jobs := example_load 1 "/jobs" in
  let st := loadUserAll (example_closure "/jobs") false (initial_user "") in
  let st := set_data (signOutData (us_data st)) st in
  let st := settle_first jobs [] (inr example_responses) st in
  ud_githubApp (us_data st) = Some example_app.
Proof. vm_compute. reflexivity. Qed.
