(* ===== verification/Terminal.v ===== *)
(** The web console of a sandbox: [useSandboxTerminal] in
    src/ui/src/hooks/use-sandbox-terminal.ts as a transition system.

    [connectTerminal] asks the server for a session and opens an event stream
    and an input channel; the answer may come after the job has changed or the
    console was closed.  Key strokes are queued and sent by one request at a
    time.  A widget is a number; TerminalScreen.v has what is written to it and
    its size. *)
From S2P Require Import Prelude.
From S2P Require Import JsString.
From S2P Require Import Errors.

(** ** State *)

(** The closure of a successful connection: [inputClosed], [inputSending] and
    [inputQueue], with the bodies posted so far and what was typed. *)
Record Channel := {
  ch_endpoint : string;
  ch_session : string;
  ch_closed : bool;
  ch_sending : bool;
  ch_queue : list string;
  ch_sent : list string;
  ch_typed : list string;
}.

(** A session request in flight, for a widget. *)
Record Connect := { cn_term : nat; cn_endpoint : string }.

Record Terminal := {
  tm_endpoint : string;
  tm_terminalSession : option string;
  tm_terminalError : string;
  tm_terminalConnecting : bool;
  tm_terminalRef : option nat;
  tm_terminalSessionRef : option string;
  tm_eventSource : option (string * string);
  tm_channel : option nat;
  tm_nextTerm : nat;
  tm_pending : list Connect;
  tm_channels : list Channel;
  tm_inputRequests : list nat;
  tm_created : list (string * string);
  tm_deleted : list (string * string);
}.

(** ** Input *)

(** [sendNextInput]: the channel afterwards and whether a request was sent. *)
Definition sendNextInput (c : Channel) : Channel * bool :=
  if ch_closed c || ch_sending c || bool_decide (ch_queue c = []) then (c, false)
  else ({| ch_endpoint := ch_endpoint c; ch_session := ch_session c; ch_closed := ch_closed c;
           ch_sending := true; ch_queue := [];
           ch_sent := ch_sent c ++ [join "" (ch_queue c)]; ch_typed := ch_typed c |}, true).

(** [term.onData] *)
Definition pushInput (data : string) (c : Channel) : Channel := {|
  ch_endpoint := ch_endpoint c; ch_session := ch_session c; ch_closed := ch_closed c;
  ch_sending := ch_sending c; ch_queue := ch_queue c ++ [data]; ch_sent := ch_sent c;
  ch_typed := ch_typed c ++ [data] |}.

(** [dispose] of the input channel. *)
Definition closeChannel (c : Channel) : Channel := {|
  ch_endpoint := ch_endpoint c; ch_session := ch_session c; ch_closed := true;
  ch_sending := ch_sending c; ch_queue := []; ch_sent := ch_sent c; ch_typed := ch_typed c |}.

(** The [finally] of an input request. *)
Definition endInput (c : Channel) : Channel := {|
  ch_endpoint := ch_endpoint c; ch_session := ch_session c; ch_closed := ch_closed c;
  ch_sending := false; ch_queue := ch_queue c; ch_sent := ch_sent c; ch_typed := ch_typed c |}.

Definition newChannel (endpoint session : string) : Channel := {|
  ch_endpoint := endpoint; ch_session := session; ch_closed := false; ch_sending := false;
  ch_queue := []; ch_sent := []; ch_typed := [] |}.

(** ** Closing *)

Definition dispose (channel : option nat) (channels : list Channel) : list Channel :=
  match channel with Some k => alter closeChannel k channels | None => channels end.

(** [closeTerminalSession(session)] called with the closure's [endpoint]. *)
Definition closeTerminalSession (endpoint : string) (session : option string) (s : Terminal) :
    Terminal := {|
  tm_endpoint := tm_endpoint s; tm_terminalSession := None;
  tm_terminalError := tm_terminalError s; tm_terminalConnecting := tm_terminalConnecting s;
  tm_terminalRef := None; tm_terminalSessionRef := None; tm_eventSource := None;
  tm_channel := None; tm_nextTerm := tm_nextTerm s; tm_pending := tm_pending s;
  tm_channels := dispose (tm_channel s) (tm_channels s);
  tm_inputRequests := tm_inputRequests s; tm_created := tm_created s;
  tm_deleted := match session with
                | Some i => tm_deleted s ++ [(endpoint, i)]
                | None => tm_deleted s
                end |}.

Definition with_error (endpoint message : string) (connecting : bool) (pending : list Connect)
    (s : Terminal) : Terminal := {|
  tm_endpoint := endpoint; tm_terminalSession := tm_terminalSession s;
  tm_terminalError := message; tm_terminalConnecting := connecting;
  tm_terminalRef := tm_terminalRef s; tm_terminalSessionRef := tm_terminalSessionRef s;
  tm_eventSource := tm_eventSource s; tm_channel := tm_channel s;
  tm_nextTerm := tm_nextTerm s; tm_pending := pending; tm_channels := tm_channels s;
  tm_inputRequests := tm_inputRequests s; tm_created := tm_created s;
  tm_deleted := tm_deleted s |}.

(** The cleanup of the effect, with the endpoint it was run for. *)
Definition cleanupTerminal (s : Terminal) : Terminal :=
  closeTerminalSession (tm_endpoint s) (tm_terminalSessionRef s) s.

(** The effect for a new endpoint: the cleanup of the last run, then the body. *)
Definition changeEndpoint (endpoint : string) (s : Terminal) : Terminal :=
  if bool_decide (endpoint = tm_endpoint s) then s
  else
    let s := cleanupTerminal s in
    let s := with_error endpoint "" (tm_terminalConnecting s) (tm_pending s) s in
    closeTerminalSession endpoint (tm_terminalSessionRef s) s.

(** ** Connecting *)

Definition connectTerminal (available : bool) (s : Terminal) : Terminal :=
  if negb available || tm_terminalConnecting s ||
     match tm_terminalSession s with Some _ => true | None => false end
  then s
  else {|
    tm_endpoint := tm_endpoint s; tm_terminalSession := tm_terminalSession s;
    tm_terminalError := ""; tm_terminalConnecting := true;
    tm_terminalRef := Some (tm_nextTerm s);
    tm_terminalSessionRef := tm_terminalSessionRef s; tm_eventSource := tm_eventSource s;
    tm_channel := tm_channel s; tm_nextTerm := S (tm_nextTerm s);
    tm_pending := tm_pending s ++
      [{| cn_term := tm_nextTerm s; cn_endpoint := tm_endpoint s |}];
    tm_channels := tm_channels s; tm_inputRequests := tm_inputRequests s;
    tm_created := tm_created s; tm_deleted := tm_deleted s |}.

(** The session request [c] settles; [pending] are the others. *)
Definition settleConnect (c : Connect) (pending : list Connect) (result : thrown + string)
    (connectErrorMessage : string) (s : Terminal) : Terminal :=
  match result with
  | inl e =>
      let s := with_error (tm_endpoint s) (error_message e connectErrorMessage)
                 (tm_terminalConnecting s) pending s in
      let s := closeTerminalSession (cn_endpoint c) (tm_terminalSessionRef s) s in
      with_error (tm_endpoint s) (tm_terminalError s) false pending s
  | inr session =>
      if bool_decide (tm_terminalRef s = Some (cn_term c)) then {|
        tm_endpoint := tm_endpoint s; tm_terminalSession := Some session;
        tm_terminalError := tm_terminalError s; tm_terminalConnecting := false;
        tm_terminalRef := tm_terminalRef s; tm_terminalSessionRef := Some session;
        tm_eventSource := Some (cn_endpoint c, session); tm_channel := Some (List.length (tm_channels s));
        tm_nextTerm := tm_nextTerm s; tm_pending := pending;
        tm_channels := tm_channels s ++ [newChannel (cn_endpoint c) session];
        tm_inputRequests := tm_inputRequests s;
        tm_created := tm_created s ++ [(cn_endpoint c, session)];
        tm_deleted := tm_deleted s |}
      else {|
        tm_endpoint := tm_endpoint s; tm_terminalSession := tm_terminalSession s;
        tm_terminalError := tm_terminalError s; tm_terminalConnecting := false;
        tm_terminalRef := tm_terminalRef s; tm_terminalSessionRef := tm_terminalSessionRef s;
        tm_eventSource := tm_eventSource s; tm_channel := tm_channel s;
        tm_nextTerm := tm_nextTerm s; tm_pending := pending; tm_channels := tm_channels s;
        tm_inputRequests := tm_inputRequests s;
        tm_created := tm_created s ++ [(cn_endpoint c, session)];
        tm_deleted := tm_deleted s ++ [(cn_endpoint c, session)] |}
  end.

(** [events.onerror] of the open stream, in the closure of its connection. *)
Definition streamError (message : string) (s : Terminal) : Terminal :=
  match tm_eventSource s with
  | Some (endpoint, session) =>
      closeTerminalSession endpoint (Some session)
        (with_error (tm_endpoint s) message (tm_terminalConnecting s) (tm_pending s) s)
  | None => s
  end.

(** ** Channels of the state *)

(** [sendNextInput] of channel [k]. *)
Definition pump (k : nat) (s : Terminal) : Terminal :=
  match tm_channels s !! k with
  | Some c =>
      let '(c', sent) := sendNextInput c in
      {| tm_endpoint := tm_endpoint s; tm_terminalSession := tm_terminalSession s;
         tm_terminalError := tm_terminalError s;
         tm_terminalConnecting := tm_terminalConnecting s;
         tm_terminalRef := tm_terminalRef s; tm_terminalSessionRef := tm_terminalSessionRef s;
         tm_eventSource := tm_eventSource s; tm_channel := tm_channel s;
         tm_nextTerm := tm_nextTerm s; tm_pending := tm_pending s;
         tm_channels := <[k := c']> (tm_channels s);
         tm_inputRequests := if sent then tm_inputRequests s ++ [k] else tm_inputRequests s;
         tm_created := tm_created s; tm_deleted := tm_deleted s |}
  | None => s
  end.

Definition with_channels (channels : list Channel) (requests : list nat) (s : Terminal) :
    Terminal := {|
  tm_endpoint := tm_endpoint s; tm_terminalSession := tm_terminalSession s;
  tm_terminalError := tm_terminalError s; tm_terminalConnecting := tm_terminalConnecting s;
  tm_terminalRef := tm_terminalRef s; tm_terminalSessionRef := tm_terminalSessionRef s;
  tm_eventSource := tm_eventSource s; tm_channel := tm_channel s;
  tm_nextTerm := tm_nextTerm s; tm_pending := tm_pending s; tm_channels := channels;
  tm_inputRequests := requests; tm_created := tm_created s; tm_deleted := tm_deleted s |}.

(** A key stroke reaches the open channel. *)
Definition typeInput (data : string) (s : Terminal) : Terminal :=
  match tm_channel s with
  | Some k => pump k (with_channels (alter (pushInput data) k (tm_channels s))
                        (tm_inputRequests s) s)
  | None => s
  end.

(** An input request of channel [k] settles; [requests] are the others. *)
Definition settleInput (k : nat) (requests : list nat) (failure : option thrown) (s : Terminal) :
    Terminal :=
  let closed := match tm_channels s !! k with Some c => ch_closed c | None => true end in
  let s :=
    match failure with
    | Some e =>
        if closed then s
        else with_error (tm_endpoint s) (error_message e "Failed to send input")
               (tm_terminalConnecting s) (tm_pending s) s
    | None => s
    end in
  pump k (with_channels (alter endInput k (tm_channels s)) requests s).

(** ** Steps *)

Definition initialTerminal (endpoint : string) : Terminal := {|
  tm_endpoint := endpoint; tm_terminalSession := None; tm_terminalError := "";
  tm_terminalConnecting := false; tm_terminalRef := None; tm_terminalSessionRef := None;
  tm_eventSource := None; tm_channel := None; tm_nextTerm := 0; tm_pending := [];
  tm_channels := []; tm_inputRequests := []; tm_created := []; tm_deleted := [] |}.

Inductive terminal_step : Terminal -> Terminal -> Prop :=
  | tm_change s endpoint : terminal_step s (changeEndpoint endpoint s)
  | tm_unmount s : terminal_step s (cleanupTerminal s)
  | tm_connect s available : terminal_step s (connectTerminal available s)
  | tm_settle s l c r result message :
      tm_pending s = l ++ c :: r -> terminal_step s (settleConnect c (l ++ r) result message s)
  | tm_stream s message : terminal_step s (streamError message s)
  | tm_type s data : terminal_step s (typeInput data s)
  | tm_input s l k r failure :
      tm_inputRequests s = l ++ k :: r -> terminal_step s (settleInput k (l ++ r) failure s).

Inductive terminal_reachable : Terminal -> Prop :=
  | tm_start endpoint : terminal_reachable (initialTerminal endpoint)
  | tm_next s s' : terminal_reachable s -> terminal_step s s' -> terminal_reachable s'.

(** ** Every session is closed once *)

Definition openSession (s : Terminal) : list (string * string) :=
  match tm_terminalSessionRef s with Some i => [(tm_endpoint s, i)] | None => [] end.

Record wf_terminal (s : Terminal) : Prop := {
  wf_ref : tm_terminalSession s = tm_terminalSessionRef s;
  wf_stream : tm_eventSource s = pair (tm_endpoint s) <$> tm_terminalSessionRef s;
  wf_pending : match tm_pending s with
               | [] => True
               | [c] => tm_terminalConnecting s = true /\ tm_terminalSessionRef s = None /\
                   (tm_terminalRef s = Some (cn_term c) -> cn_endpoint c = tm_endpoint s)
               | _ => False
               end;
  wf_sessions : tm_created s ≡ₚ tm_deleted s ++ openSession s;
}.

Lemma wf_close (e : string) (s : Terminal) :
  wf_terminal s -> e = tm_endpoint s ->
  wf_terminal (closeTerminalSession e (tm_terminalSessionRef s) s).
Proof.
  intros [Hr Hs Hp Hc] ->. split; simpl; try reflexivity.
  - destruct (tm_pending s) as [|c [|]]; [done| |done]. destruct Hp as (? & _ & _). done.
  - rewrite Hc. unfold openSession. simpl. destruct (tm_terminalSessionRef s); simpl;
      by rewrite ?app_nil_r.
Qed.

Lemma wf_with_error (m : string) (s : Terminal) :
  wf_terminal s ->
  wf_terminal (with_error (tm_endpoint s) m (tm_terminalConnecting s) (tm_pending s) s).
Proof. intros [Hr Hs Hp Hc]. split; assumption. Qed.

Lemma wf_with_channels (channels : list Channel) (requests : list nat) (s : Terminal) :
  wf_terminal s -> wf_terminal (with_channels channels requests s).
Proof. intros [Hr Hs Hp Hc]. split; assumption. Qed.

Lemma wf_pump (k : nat) (s : Terminal) : wf_terminal s -> wf_terminal (pump k s).
Proof.
  intros [Hr Hs Hp Hc]. unfold pump. destruct (tm_channels s !! k) as [c|]; [|split; assumption].
  destruct (sendNextInput c). split; assumption.
Qed.

Lemma wf_change (e : string) (s : Terminal) : wf_terminal s -> wf_terminal (changeEndpoint e s).
Proof.
  intros Hwf. unfold changeEndpoint. case_bool_decide; [done|].
  destruct (wf_close _ s Hwf eq_refl) as [Hr Hs Hp Hc]. split; simpl; try reflexivity.
  - simpl in Hp. destruct (tm_pending s) as [|c [|]]; [done| |done].
    destruct Hp as (? & _ & _). done.
  - exact Hc.
Qed.

Lemma wf_connect (available : bool) (s : Terminal) :
  wf_terminal s -> wf_terminal (connectTerminal available s).
Proof.
  intros Hwf. pose proof Hwf as [Hr Hs Hp Hc]. unfold connectTerminal.
  destruct (negb available); [exact Hwf|]. simpl.
  destruct (tm_terminalConnecting s) eqn:Ec; [exact Hwf|].
  destruct (tm_terminalSession s) eqn:Et; [exact Hwf|]. simpl.
  assert (tm_pending s = []) as E.
  { destruct (tm_pending s) as [|c [|]]; [done| |done]. destruct Hp; congruence. }
  split; simpl; rewrite ?E; simpl; auto.
Qed.

Lemma wf_settle (l r : list Connect) (c : Connect) (result : thrown + string) (m : string)
    (s : Terminal) :
  tm_pending s = l ++ c :: r -> wf_terminal s -> wf_terminal (settleConnect c (l ++ r) result m s).
Proof.
  intros E [Hr Hs Hp Hc]. rewrite E in Hp.
  assert (l = [] /\ r = []) as [-> ->].
  { destruct l as [|? [|]]; simpl in Hp; [by destruct r| by destruct r | done]. }
  destruct Hp as (Hcon & Hnone & Hend). unfold openSession in Hc. rewrite Hnone in Hc, Hs, Hr.
  rewrite app_nil_r in Hc.
  destruct result as [e|session]; simpl.
  - split; simpl; auto. rewrite Hnone. unfold openSession. simpl. by rewrite app_nil_r.
  - case_bool_decide as Ht; split; simpl; auto.
    + by rewrite (Hend Ht).
    + unfold openSession. simpl. by rewrite Hc, (Hend Ht).
    + by rewrite Hr, Hnone.
    + by rewrite Hs, Hnone.
    + unfold openSession. simpl. by rewrite Hnone, Hc, app_nil_r.
Qed.

Lemma wf_streamError (m : string) (s : Terminal) : wf_terminal s -> wf_terminal (streamError m s).
Proof.
  intros Hwf. unfold streamError. pose proof (wf_stream s Hwf) as Hs. rewrite Hs.
  destruct (tm_terminalSessionRef s) as [i|] eqn:E; [|done]. simpl.
  pose proof (wf_close (tm_endpoint s) _ (wf_with_error m s Hwf) eq_refl) as H.
  simpl in H. by rewrite E in H.
Qed.

Lemma wf_reachable (s : Terminal) : terminal_reachable s -> wf_terminal s.
Proof.
  induction 1 as [e|s s' _ IH Hstep]; [by split|].
  destruct Hstep as [s e|s|s a|s l c r res m E|s m|s d|s l k r f E].
  - by apply wf_change.
  - by apply wf_close.
  - by apply wf_connect.
  - by apply wf_settle.
  - by apply wf_streamError.
  - unfold typeInput. destruct (tm_channel s); [|done]. apply wf_pump, wf_with_channels, IH.
  - unfold settleInput. apply wf_pump, wf_with_channels.
    destruct f; [|exact IH]. destruct (tm_channels s !! k) as [c|]; [|exact IH].
    destruct (ch_closed c); [exact IH|]. by apply wf_with_error.
Qed.

(** C30.  Whatever the order of connecting, answers, endpoint changes, stream
    errors and closing, every session the server created has been deleted
    exactly once, save the one that is open, and nothing else was deleted. At
    most one session request is in flight, and none while a session is open. *)
Theorem sessions_deleted_once (s : Terminal) :
  terminal_reachable s ->
  tm_created s ≡ₚ tm_deleted s ++ openSession s /\
  (List.length (tm_pending s) <= 1)%nat /\
  (tm_pending s <> [] -> openSession s = []) /\
  tm_created (cleanupTerminal s) ≡ₚ tm_deleted (cleanupTerminal s).
Proof.
  intros Hs%wf_reachable. split_and!.
  - apply wf_sessions, Hs.
  - pose proof (wf_pending s Hs). destruct (tm_pending s) as [|? [|]]; simpl; [lia..|done].
  - intros Hp. pose proof (wf_pending s Hs) as H. unfold openSession.
    destruct (tm_pending s) as [|? [|]]; [done| |done]. destruct H as (_ & -> & _). done.
  - pose proof (wf_sessions _ (wf_close _ s Hs eq_refl)) as H.
    unfold openSession in H. simpl in H. by rewrite app_nil_r in H.
Qed.

(** ** Key strokes *)

Lemma join_snoc (l : list string) (x : string) : join "" (l ++ [x]) = join "" l +:+ x.
Proof.
  induction l as [|w [|v l] IH]; simpl in *; [done..|]. by rewrite IH, sapp_assoc.
Qed.

(** What holds of a channel with [n] requests in flight. *)
Record wf_channel (n : nat) (c : Channel) : Prop := {
  wc_text : ch_closed c = false ->
    join "" (ch_sent c) +:+ join "" (ch_queue c) = join "" (ch_typed c);
  wc_prefix : exists rest, join "" (ch_typed c) = join "" (ch_sent c) +:+ rest;
  wc_request : n = if ch_sending c then 1%nat else 0%nat;
  wc_closed : ch_closed c = true -> ch_queue c = [];
}.

Definition idle (c : Channel) : Prop := ch_sending c = false -> ch_queue c = [].

Lemma send_wf (n : nat) (c : Channel) :
  wf_channel n c ->
  wf_channel (n + if snd (sendNextInput c) then 1 else 0) (fst (sendNextInput c)) /\
  idle (fst (sendNextInput c)).
Proof.
  intros [Ht Hp Hr Hc]. unfold sendNextInput.
  destruct (ch_closed c) eqn:E1; simpl.
  { rewrite Nat.add_0_r. split; [by split; rewrite ?E1|]. intros _. auto. }
  destruct (ch_sending c) eqn:E2; simpl.
  { rewrite Nat.add_0_r. split; [split; rewrite ?E1, ?E2; done|]. unfold idle. by rewrite E2. }
  case_bool_decide as E3; simpl.
  { rewrite Nat.add_0_r. split; [split; rewrite ?E1, ?E2; done|]. by intros _. }
  split; [|by intros _]. split; simpl.
  - intros _. rewrite join_snoc, sapp_nil_r. auto.
  - exists "". rewrite join_snoc, sapp_nil_r. symmetry. auto.
  - by rewrite Hr.
  - done.
Qed.

Lemma push_wf (data : string) (n : nat) (c : Channel) :
  ch_closed c = false -> wf_channel n c -> wf_channel n (pushInput data c).
Proof.
  intros E [Ht Hp Hr Hc]. split; simpl; rewrite ?E; try done.
  - intros _. rewrite !join_snoc, <- sapp_assoc. by rewrite Ht.
  - destruct Hp as [rest Hp]. exists (rest +:+ data). by rewrite join_snoc, Hp, sapp_assoc.
Qed.

Lemma close_wf (n : nat) (c : Channel) : wf_channel n c -> wf_channel n (closeChannel c).
Proof. intros [Ht Hp Hr Hc]. by split. Qed.

Definition requests_of (s : Terminal) (k : nat) : nat :=
  count_occ Nat.eq_dec (tm_inputRequests s) k.

(** The channel [busy] may have text to send that no request carries. *)
Record wf_input_but (busy : nat -> Prop) (s : Terminal) : Prop := {
  wi_channel k c : tm_channels s !! k = Some c ->
    wf_channel (requests_of s k) c /\ (~ busy k -> idle c);
  wi_requests k : k ∈ tm_inputRequests s -> (k < List.length (tm_channels s))%nat;
  wi_open k : tm_channel s = Some k ->
    exists c, tm_channels s !! k = Some c /\ ch_closed c = false;
}.

Definition wf_input (s : Terminal) : Prop := wf_input_but (fun _ => False) s.

Lemma sendNextInput_closed (c : Channel) : ch_closed (fst (sendNextInput c)) = ch_closed c.
Proof. unfold sendNextInput. case_match; reflexivity. Qed.

Lemma count_snoc (l : list nat) (k j : nat) :
  count_occ Nat.eq_dec (l ++ [k]) j =
  (count_occ Nat.eq_dec l j + if decide (k = j) then 1 else 0)%nat.
Proof. rewrite count_occ_app. simpl. destruct (Nat.eq_dec k j), (decide (k = j)); done. Qed.

Lemma pump_input (k : nat) (s : Terminal) :
  wf_input_but (fun j => j = k) s -> wf_input (pump k s).
Proof.
  intros [Hc Hr Ho]. unfold pump. destruct (tm_channels s !! k) as [c|] eqn:E.
  2: { split; auto. intros j d Hj. destruct (Hc j d Hj) as [? Hi]. split; [done|].
       intros _. apply Hi. congruence. }
  destruct (sendNextInput c) as [c' sent] eqn:Es.
  assert (k < List.length (tm_channels s))%nat as Hk by (by apply lookup_lt_Some in E).
  pose proof (send_wf _ c (proj1 (Hc k c E))) as [Hw Hi]. rewrite Es in Hw, Hi. simpl in Hw, Hi.
  split; simpl.
  - intros j d Hj. unfold requests_of. simpl.
    destruct (decide (j = k)) as [->|Hne].
    + rewrite list_lookup_insert_eq in Hj by done. injection Hj as <-. split; [|by intros _].
      destruct sent; [rewrite count_snoc, decide_True by done|]; [exact Hw|].
      by rewrite Nat.add_0_r in Hw.
    + rewrite list_lookup_insert_ne in Hj by done. destruct (Hc j d Hj) as [Hd Hid].
      split; [|intros _; apply Hid; auto].
      destruct sent; [rewrite count_snoc, decide_False by done; rewrite Nat.add_0_r|]; exact Hd.
  - intros j Hj. rewrite length_insert. destruct sent; [|auto].
    apply elem_of_app in Hj as [Hj|Hj%list_elem_of_singleton]; [auto|by subst].
  - intros j Hj. destruct (Ho j Hj) as (d & Hd & Hcl). destruct (decide (j = k)) as [->|Hne].
    + exists c'. rewrite list_lookup_insert_eq by done. split; [done|].
      pose proof (sendNextInput_closed c) as H. rewrite Es in H. simpl in H. congruence.
    + exists d. by rewrite list_lookup_insert_ne.
Qed.

Lemma wf_input_idle (s : Terminal) (k : nat) : wf_input s -> wf_input_but (fun j => j = k) s.
Proof.
  intros [Hc Hr Ho]. split; auto. intros j c Hj. destruct (Hc j c Hj) as [? Hi].
  split; [done|]. intros _. apply Hi. auto.
Qed.

Lemma dispose_input (s s' : Terminal) :
  wf_input s -> tm_channels s' = dispose (tm_channel s) (tm_channels s) ->
  tm_inputRequests s' = tm_inputRequests s -> tm_channel s' = None -> wf_input s'.
Proof.
  intros [Hc Hr Ho] E1 E2 E3. split; [|intros k|by rewrite E3].
  - intros k c. unfold requests_of. rewrite E1, E2. unfold dispose.
    destruct (tm_channel s) as [j|]; [|apply Hc].
    destruct (decide (j = k)) as [->|Hne].
    + rewrite list_lookup_alter_eq. intros H.
      destruct (tm_channels s !! k) as [d|] eqn:Hd; simpl in H; [|done].
      injection H as <-. destruct (Hc k d Hd). split; [by apply close_wf|]. by intros _ _.
    + rewrite list_lookup_alter_ne by done. apply Hc.
  - rewrite E1, E2. intros Hk%Hr. unfold dispose. destruct (tm_channel s); [|done].
    by rewrite length_alter.
Qed.

Lemma same_input (s s' : Terminal) :
  wf_input s -> tm_channels s' = tm_channels s -> tm_inputRequests s' = tm_inputRequests s ->
  tm_channel s' = tm_channel s -> wf_input s'.
Proof.
  intros [Hc Hr Ho] E1 E2 E3. split; unfold requests_of; rewrite ?E1, ?E2, ?E3; auto.
Qed.

Lemma close_input (e : string) (i : option string) (s : Terminal) :
  wf_input s -> wf_input (closeTerminalSession e i s).
Proof. intros H. by apply (dispose_input s). Qed.

Lemma error_input (e m : string) (b : bool) (p : list Connect) (s : Terminal) :
  wf_input s -> wf_input (with_error e m b p s).
Proof. intros H. by apply (same_input s). Qed.

Lemma open_input (c : Channel) (s s' : Terminal) :
  wf_input s -> wf_channel 0 c -> idle c -> ch_closed c = false ->
  tm_channels s' = tm_channels s ++ [c] -> tm_inputRequests s' = tm_inputRequests s ->
  tm_channel s' = Some (List.length (tm_channels s)) -> wf_input s'.
Proof.
  intros [Hc Hr Ho] Hw Hi Hcl E1 E2 E3. split.
  - intros k d. unfold requests_of. rewrite E1, E2. intros [Hk|[Hk Hd]]%lookup_app_Some; [exact (Hc k d Hk)|].
    apply list_lookup_singleton_Some in Hd as [Hk' <-]. split; [|by intros _].
    replace (count_occ _ _ k) with 0%nat; [exact Hw|]. symmetry.
    apply count_occ_not_In. intros H%list_elem_of_In%Hr. lia.
  - intros k. rewrite E1, E2, length_app. intros Hk%Hr. lia.
  - intros k. rewrite E3, E1. intros [= <-]. exists c. split; [|done].
    by rewrite lookup_app_r, Nat.sub_diag.
Qed.

Lemma type_input (data : string) (s : Terminal) : wf_input s -> wf_input (typeInput data s).
Proof.
  intros Hwf. pose proof Hwf as [Hc Hr Ho]. unfold typeInput.
  destruct (tm_channel s) as [k|] eqn:Ek; [|exact Hwf]. destruct (Ho k eq_refl) as (c & Hk & Hcl). apply pump_input. split; simpl.
  - intros j d Hj. unfold requests_of. simpl. destruct (decide (k = j)) as [<-|Hne].
    + rewrite list_lookup_alter_eq, Hk in Hj. injection Hj as <-. split; [|done].
      apply push_wf; [done|]. by apply Hc.
    + rewrite list_lookup_alter_ne in Hj by done. destruct (Hc j d Hj) as [? Hi].
      split; [done|]. intros _. apply Hi. auto.
  - intros j Hj. rewrite length_alter. auto.
  - rewrite Ek. intros j [= <-]. rewrite list_lookup_alter_eq, Hk. eexists. split; [done|].
    exact Hcl.
Qed.

Lemma settle_input (l r : list nat) (k : nat) (failure : option thrown) (s : Terminal) :
  tm_inputRequests s = l ++ k :: r -> wf_input s -> wf_input (settleInput k (l ++ r) failure s).
Proof.
  intros E Hwf. unfold settleInput. apply pump_input.
  set (s0 := match failure with Some _ => _ | None => _ end).
  assert (wf_input s0 /\ tm_inputRequests s0 = tm_inputRequests s /\
    tm_channels s0 = tm_channels s) as ([Hc Hr Ho] & E2 & E3).
  { unfold s0. destruct failure; [|done].
    destruct (match tm_channels s !! k with Some c => ch_closed c | None => true end); [done|].
    split; [by apply error_input|done]. }
  rewrite E in E2. clearbody s0.
  assert (forall j, requests_of s0 j =
    (count_occ Nat.eq_dec (l ++ r) j + if decide (k = j) then 1 else 0)%nat) as Ec.
  { intros j. unfold requests_of. rewrite E2, !count_occ_app. simpl.
    destruct (Nat.eq_dec k j), (decide (k = j)); try done; lia. }
  split; simpl.
  - intros j c Hj. unfold requests_of. simpl. destruct (decide (k = j)) as [<-|Hne].
    + rewrite list_lookup_alter_eq in Hj. split; [|done].
      destruct (tm_channels s0 !! k) as [d|] eqn:Hd; [|done]. injection Hj as <-.
      destruct (Hc k d Hd) as [[Ht Hp Hn Hcl] _]. rewrite Ec, decide_True in Hn by done.
      split; simpl; auto. destruct (ch_sending d); lia.
    + rewrite list_lookup_alter_ne in Hj by done. destruct (Hc j c Hj) as [Hw Hi].
      rewrite Ec, decide_False, Nat.add_0_r in Hw by done.
      split; [exact Hw|]. intros _. apply Hi. auto.
  - intros j Hj. rewrite length_alter. apply Hr. rewrite E2. set_solver.
  - intros j Hj. destruct (Ho j Hj) as (d & Hd & Hcl). destruct (decide (k = j)) as [<-|Hne].
    + rewrite list_lookup_alter_eq, Hd. eexists. split; [done|]. exact Hcl.
    + rewrite list_lookup_alter_ne by done. eauto.
Qed.

Lemma input_reachable (s : Terminal) : terminal_reachable s -> wf_input s.
Proof.
  induction 1 as [e|s s' Hs IH Hstep].
  { split; simpl; [intros ? ? H; by rewrite lookup_nil in H|intros ? H; by apply elem_of_nil in H|done]. }
  destruct Hstep as [s e|s|s a|s l c r res m E|s m|s d|s l k r f E].
  - unfold changeEndpoint. case_bool_decide; [done|]. by apply close_input, error_input, close_input.
  - by apply close_input.
  - unfold connectTerminal. case_match; [done|]. by apply (same_input s).
  - destruct res as [e|session]; simpl; [by apply error_input, close_input, error_input|].
    case_bool_decide; [|by apply (same_input s)].
    eapply (open_input (newChannel (cn_endpoint c) session) s); [done| |done..].
    split; simpl; [done|by exists ""|done..].
  - unfold streamError. case_match; [|done]. case_match. by apply close_input, error_input.
  - by apply type_input.
  - by apply settle_input.
Qed.

(** C31.  Of every channel at most one input request is in flight; what was sent
    is, in order, a prefix of what was typed, and while the console is open
    the rest waits in the queue, which is empty unless a request is in
    flight.  So once the requests have settled everything typed was sent. *)
Theorem input_in_order (s : Terminal) (k : nat) (c : Channel) :
  terminal_reachable s -> tm_channels s !! k = Some c ->
  count_occ Nat.eq_dec (tm_inputRequests s) k = (if ch_sending c then 1 else 0)%nat /\
  (exists rest, join "" (ch_typed c) = join "" (ch_sent c) +:+ rest) /\
  (ch_closed c = false ->
   join "" (ch_sent c) +:+ join "" (ch_queue c) = join "" (ch_typed c)) /\
  (ch_closed c = true \/ ch_sending c = false -> ch_queue c = []) /\
  (k ∉ tm_inputRequests s -> ch_closed c = false ->
   join "" (ch_sent c) = join "" (ch_typed c)).
Proof.
  intros Hs%input_reachable Hk. destruct (wi_channel _ s Hs k c Hk) as [[Ht Hp Hr Hc] Hi].
  unfold requests_of in Hr. specialize (Hi (fun F => F)).
  split_and!; [done..|intros [|]; auto|]. intros Hn Hcl.
  rewrite <- (Ht Hcl), Hi; [by rewrite sapp_nil_r|].
  destruct (ch_sending c); [|done]. exfalso. apply Hn.
  apply list_elem_of_In, (count_occ_In Nat.eq_dec). lia.
Qed.

(** ** A run *)

Definition example_terminal : Terminal :=
  let s := connectTerminal true (initialTerminal "/api/user/runners/7") in
  let s := settleConnect {| cn_term := 0; cn_endpoint := "/api/user/runners/7" |} []
             (inr "s1") "failed" s in
  let s := typeInput "l" s in
  let s := typeInput "s" s in
  settleInput 0 [] None s.

Lemma example_terminal_reachable : terminal_reachable example_terminal.
Proof.
  unfold example_terminal.
  eapply tm_next; [|apply (tm_input _ [] 0 [] None); reflexivity].
  do 2 (eapply tm_next; [|apply tm_type]).
  eapply tm_next; [|apply (tm_settle _ [] _ []); reflexivity].
  eapply tm_next; [|apply tm_connect]. apply tm_start.
Qed.

Lemma sessions_deleted_once_witness :
  tm_created example_terminal = [("/api/user/runners/7", "s1")] /\
  tm_created (cleanupTerminal example_terminal) ≡ₚ tm_deleted (cleanupTerminal example_terminal).
Proof.
  split; [reflexivity|]. apply (sessions_deleted_once example_terminal).
  exact example_terminal_reachable.
Defined.

Lemma input_in_order_witness :
  exists c, tm_channels example_terminal !! 0%nat = Some c /\ ch_sent c = ["l"; "s"] /\
    count_occ Nat.eq_dec (tm_inputRequests example_terminal) 0%nat = 1%nat.
Proof.
  eexists. split; [reflexivity|]. split; [reflexivity|].
  apply (input_in_order example_terminal 0 _ example_terminal_reachable eq_refl).
Defined.
