(* ===== verification/Resources.v ===== *)
(** Translation resources and the check that compares them: [compareResources]
    and [interpolationVariables] of src/ui/scripts/check-i18n.ts.

    A resource is a JavaScript value: texts, arrays and objects of resources,
    or a value of another type, of which only [typeof] matters. *)
From S2P Require Import Prelude.
From S2P Require Import JsString.
From S2P Require Import JsArray.

Inductive resource :=
  | RText (s : string)
  | RArray (l : list resource)
  | RObject (l : list (string * resource))
  | RValue (typeof : string).

(** Entries of a resource object. *)
Definition text (key value : string) : string * resource := (key, RText value).
Definition texts (key : string) (values : list string) : string * resource :=
  (key, RArray (map RText values)).
Definition group (key : string) (entries : list (string * resource)) : string * resource :=
  (key, RObject entries).

(** ** Interpolation variables

    [/{{\s*([^},\s]+)[^}]*}}/]: after the braces white space, then the
    variable, then anything up to the closing braces. *)

Definition variable_stops (s : string) : bool :=
  startsWith "}" s || startsWith "," s ||
  match drop_ws white_space s with Some _ => true | None => false end.

(** The longest run of [[^},\s]] and the rest. *)
Fixpoint variable_name (s : string) : string * string :=
  match s with
  | EmptyString => ("", "")
  | String a r =>
      if variable_stops s then ("", s)
      else let '(w, rest) := variable_name r in (String a w, rest)
  end.

(** The longest run of [[^}]] removed. *)
Fixpoint to_brace (s : string) : string :=
  match s with
  | String a r => if Ascii.eqb a "}" then s else to_brace r
  | EmptyString => ""
  end.

(** A match of the expression at the start: the variable and what follows. *)
Definition variable_at (s : string) : option (string * string) :=
  match drop_prefix "{{" s with
  | Some r =>
      let '(w, r) := variable_name (trimStart r) in
      if str_truthy w then
        match drop_prefix "}}" (to_brace r) with Some r => Some (w, r) | None => None end
      else None
  | None => None
  end.

(** [matchAll], first groups; [fuel] bounds the length of the text. *)
Fixpoint all_variables (fuel : nat) (s : string) : list string :=
  match fuel with
  | 0%nat => []
  | S fuel =>
      match variable_at s with
      | Some (w, r) => w :: all_variables fuel r
      | None => match s with String _ r => all_variables fuel r | EmptyString => [] end
      end
  end.

Definition variables (s : string) : list string := all_variables (String.length s) s.

Definition interpolationVariables (s : string) : list string :=
  sort_by str_cmp (uniq (variables s)).

(** ** The comparison *)

(** The names every object inherits, for which [in] holds. *)
Definition inherited_methods : list string :=
  ["constructor"; "hasOwnProperty"; "isPrototypeOf"; "propertyIsEnumerable"; "toLocaleString";
   "toString"; "valueOf"; "__defineGetter__"; "__defineSetter__"; "__lookupGetter__";
   "__lookupSetter__"].

(** [o[key]] when [key in o]. *)
Definition property_of (o : list (string * resource)) (key : string) : option resource :=
  match omap_get key o with
  | Some v => Some v
  | None =>
      if bool_decide (key = "__proto__") then Some (RObject [])
      else if bool_decide (key ∈ inherited_methods) then Some (RValue "function")
      else None
  end.

Definition resourceValueType (v : resource) : string :=
  match v with
  | RText _ => "string"
  | RArray _ => "array"
  | RObject _ => "object"
  | RValue t => t
  end.

Definition sub_path (path key : string) : string :=
  if str_truthy path then path +:+ "." +:+ key else key.

Definition compare_texts (en zh path : string) : list string :=
  let enVariables := interpolationVariables en in
  let zhVariables := interpolationVariables zh in
  (if str_truthy (trim en) then [] else ["empty value in en: " +:+ path]) ++
  (if str_truthy (trim zh) then [] else ["empty value in zh: " +:+ path]) ++
  (if bool_decide (join newline enVariables = join newline zhVariables) then []
   else ["interpolation mismatch at " +:+ path +:+ ": en=[" +:+ join ", " enVariables +:+
         "], zh=[" +:+ join ", " zhVariables +:+ "]"]).

Definition missing_from_en (en zh : list (string * resource)) (path : string) : list string :=
  flat_map (fun '(key, _) =>
    match property_of en key with
    | Some _ => []
    | None => ["missing from en: " +:+ sub_path path key]
    end) zh.

Fixpoint compareResources (en zh : resource) (path : string) {struct en} : list string :=
  let enType := resourceValueType en in
  let zhType := resourceValueType zh in
  if negb (bool_decide (enType = zhType)) then
    ["type mismatch at " +:+ path +:+ ": en=" +:+ enType +:+ ", zh=" +:+ zhType]
  else
    match en, zh with
    | RObject en, RObject zh =>
        (fix entries (l : list (string * resource)) : list string :=
           match l with
           | [] => []
           | (key, v) :: l =>
               match property_of zh key with
               | None => ["missing from zh: " +:+ sub_path path key]
               | Some w => compareResources v w (sub_path path key)
               end ++ entries l
           end) en ++ missing_from_en en zh path
    | RArray en, RArray zh =>
        (if bool_decide (List.length en = List.length zh) then []
         else ["array length mismatch at " +:+ path +:+ ": en=" +:+ pretty (List.length en) +:+
               ", zh=" +:+ pretty (List.length zh)]) ++
        (fix items (index : nat) (l m : list resource) : list string :=
           match l, m with
           | v :: l, w :: m =>
               compareResources v w (path +:+ "[" +:+ pretty index +:+ "]") ++
               items (S index) l m
           | _, _ => []
           end) 0%nat en zh
    | RText en, RText zh => compare_texts en zh path
    | _, _ => ["unsupported resource value at " +:+ path +:+ ": " +:+ enType]
    end.

(** The two loops, as functions of their own. *)
Definition compare_entries (zh : list (string * resource)) (path : string)
    (l : list (string * resource)) : list string :=
  flat_map (fun '(key, v) =>
    match property_of zh key with
    | None => ["missing from zh: " +:+ sub_path path key]
    | Some w => compareResources v w (sub_path path key)
    end) l.

Fixpoint compare_items (path : string) (index : nat) (l m : list resource) : list string :=
  match l, m with
  | v :: l, w :: m =>
      compareResources v w (path +:+ "[" +:+ pretty index +:+ "]") ++
      compare_items path (S index) l m
  | _, _ => []
  end.

Lemma compare_objects_eq en zh path :
  compareResources (RObject en) (RObject zh) path =
  compare_entries zh path en ++ missing_from_en en zh path.
Proof.
  simpl. f_equal. induction en as [|[k v] en IH]; [done|]. simpl. by rewrite IH.
Qed.

Lemma compare_arrays_eq en zh path :
  compareResources (RArray en) (RArray zh) path =
  (if bool_decide (List.length en = List.length zh) then []
   else ["array length mismatch at " +:+ path +:+ ": en=" +:+ pretty (List.length en) +:+
         ", zh=" +:+ pretty (List.length zh)]) ++ compare_items path 0 en zh.
Proof.
  simpl. f_equal. generalize 0%nat. revert zh.
  induction en as [|v en IH]; intros [|w zh] n; try done. simpl. f_equal. apply IH.
Qed.

Section resource_induction.
Context (P : resource -> Prop).
Hypothesis text : forall s, P (RText s).
Hypothesis value : forall t, P (RValue t).
Hypothesis array : forall l, Forall P l -> P (RArray l).
Hypothesis object : forall l, Forall (fun e => P e.2) l -> P (RObject l).

Fixpoint resource_rect' (r : resource) : P r :=
  match r with
  | RText s => text s
  | RValue t => value t
  | RArray l =>
      array l ((fix go l : Forall P l :=
        match l with [] => Forall_nil_2 _ | x :: l => Forall_cons_2 _ _ _ (resource_rect' x) (go l) end) l)
  | RObject l =>
      object l ((fix go l : Forall (fun e => P e.2) l :=
        match l with
        | [] => Forall_nil_2 _
        | x :: l => Forall_cons_2 _ _ _ (resource_rect' x.2) (go l)
        end) l)
  end.
End resource_induction.

(** ** What the check establishes *)

(** No key is inherited by every object, and no key occurs twice (object
    literals of the resource files). *)
Fixpoint ordinary (r : resource) : bool :=
  match r with
  | RObject l =>
      bool_decide (NoDup l.*1) &&
      forallb (fun '(k, v) =>
        negb (bool_decide (k = "__proto__")) && negb (bool_decide (k ∈ inherited_methods)) &&
        ordinary v) l
  | RArray l => forallb ordinary l
  | _ => true
  end.

(** The same keys, the same array lengths, and texts that are not blank and
    interpolate the same variables. *)
Inductive parallel : resource -> resource -> Prop :=
  | parallel_text s t :
      trim s <> "" -> trim t <> "" -> (forall v, v ∈ variables s <-> v ∈ variables t) ->
      parallel (RText s) (RText t)
  | parallel_array l m : Forall2 parallel l m -> parallel (RArray l) (RArray m)
  | parallel_object l m :
      (forall k, k ∈ l.*1 <-> k ∈ m.*1) ->
      (forall k v w, omap_get k l = Some v -> omap_get k m = Some w -> parallel v w) ->
      parallel (RObject l) (RObject m).

Lemma interpolationVariables_same s t :
  interpolationVariables s = interpolationVariables t <->
  forall v, v ∈ variables s <-> v ∈ variables t.
Proof.
  unfold interpolationVariables. split.
  - intros E v. rewrite <- (elem_of_uniq (variables s)), <- (elem_of_uniq (variables t)).
    by rewrite <- (elem_of_sort_by str_cmp), E, elem_of_sort_by.
  - intros H. apply (StronglySorted_unique (cmp_le str_cmp)); [apply (sort_by_sorted str_cmp); exact _..|].
    rewrite !sort_by_perm. apply NoDup_Permutation; [apply NoDup_uniq..|].
    intros v. by rewrite !elem_of_uniq.
Qed.

Lemma variable_name_free s :
  free (ascii_of_N 10) (fst (variable_name s)) = true.
Proof.
  induction s as [|a s IH]; [done|]. simpl. destruct (variable_stops (String a s)) eqn:E; [done|].
  destruct (variable_name s) as [w r]. unfold free in *. simpl in *. rewrite IH, andb_true_r.
  apply not_char_neq. intros <-. by vm_compute in E.
Qed.

Lemma variables_wf s : Forall (fun w => w <> "" /\ free (ascii_of_N 10) w = true) (variables s).
Proof.
  unfold variables. generalize (String.length s). intros n. revert s.
  induction n as [|n IH]; intros s; simpl; [constructor|].
  destruct (variable_at s) as [[w r]|] eqn:E; [|by destruct s].
  constructor; [|apply IH]. unfold variable_at in E.
  destruct (drop_prefix "{{" s) as [u|]; [|done].
  pose proof (variable_name_free (trimStart u)) as Hf.
  destruct (variable_name (trimStart u)) as [w' r']. simpl in Hf.
  destruct (str_truthy w') eqn:Ew; [|done]. destruct (drop_prefix "}}" _); [|done].
  injection E as <- <-. split; [by apply str_truthy_true|done].
Qed.

Lemma interpolationVariables_wf s :
  Forall (fun w => w <> "" /\ free (ascii_of_N 10) w = true) (interpolationVariables s).
Proof.
  apply Forall_forall. intros w Hw. unfold interpolationVariables in Hw.
  rewrite elem_of_sort_by, elem_of_uniq in Hw.
  exact (proj1 (Forall_forall _ _) (variables_wf s) w Hw).
Qed.

Lemma join_lines_inj l m :
  Forall (fun w => w <> "" /\ free (ascii_of_N 10) w = true) l ->
  Forall (fun w => w <> "" /\ free (ascii_of_N 10) w = true) m ->
  join newline l = join newline m <-> l = m.
Proof.
  intros Hl Hm. split; [|by intros ->]. intros E.
  assert (forall k, Forall (fun w => w <> "" /\ free (ascii_of_N 10) w = true) k ->
    join newline k = "" -> k = []) as Hnil.
  { intros k Hk Ek. destruct Hk as [|w k [Hw _] _]; [done|].
    destruct k; simpl in Ek; [done|]. by apply sapp_eq_nil in Ek as [? _]. }
  assert (forall k, k <> [] -> Forall (fun w => w <> "" /\ free (ascii_of_N 10) w = true) k ->
    split_on (ascii_of_N 10) (join newline k) = k) as Hs.
  { intros k Hne Hk. apply split_join; [done|]. eapply Forall_impl; [exact Hk|]. by intros w []. }
  destruct l as [|x l]; [symmetry; by apply Hnil|]. destruct m as [|y m]; [by apply Hnil|].
  rewrite <- (Hs (x :: l)), <- (Hs (y :: m)) by done. by rewrite E.
Qed.

Lemma compare_texts_ok s t path :
  compare_texts s t path = [] <-> parallel (RText s) (RText t).
Proof.
  unfold compare_texts.
  pose proof (join_lines_inj _ _ (interpolationVariables_wf s) (interpolationVariables_wf t)) as Hj.
  rewrite interpolationVariables_same in Hj. split.
  - intros [H1 [H2 H3]%app_nil]%app_nil. case_bool_decide as E; [|done].
    apply parallel_text; [| |by apply Hj].
    + apply str_truthy_true. by destruct (str_truthy (trim s)).
    + apply str_truthy_true. by destruct (str_truthy (trim t)).
  - inversion 1 as [? ? H1%str_truthy_true H2%str_truthy_true H3 | |]; subst.
    rewrite H1, H2, bool_decide_eq_true_2 by (by apply Hj). done.
Qed.

(** ** The fuel of [variables] is enough *)

Lemma strip_length n ws s : (String.length (strip n ws s) <= String.length s)%nat.
Proof.
  revert s. induction n as [|n IH]; intros s; simpl; [done|].
  destruct (drop_ws ws s) as [r|] eqn:E; [|done].
  assert (String.length r <= String.length s)%nat as Hr; [|specialize (IH r); lia].
  clear IH. induction ws as [|w ws IH]; simpl in E; [done|].
  destruct (drop_prefix w s) eqn:Ew; [|by apply IH].
  apply drop_prefix_Some in Ew. injection E as <-. subst. rewrite slength_app. lia.
Qed.

Lemma variable_name_length s : (String.length (snd (variable_name s)) <= String.length s)%nat.
Proof.
  induction s as [|a s IH]; [done|]. cbn [variable_name].
  destruct (variable_stops (String a s)); [done|].
  destruct (variable_name s) as [w r]. simpl in *. lia.
Qed.

Lemma to_brace_length s : (String.length (to_brace s) <= String.length s)%nat.
Proof. induction s as [|a s IH]; simpl; [done|]. destruct (Ascii.eqb a "}"); simpl; lia. Qed.

Lemma variable_at_length s w r :
  variable_at s = Some (w, r) -> (String.length r < String.length s)%nat.
Proof.
  unfold variable_at. destruct (drop_prefix "{{" s) as [u|] eqn:E; [|done].
  pose proof (variable_name_length (trimStart u)) as H1.
  destruct (variable_name (trimStart u)) as [w' r']. destruct (str_truthy w'); [|done].
  destruct (drop_prefix "}}" (to_brace r')) as [v|] eqn:E'; [|done]. intros [= <- <-].
  apply drop_prefix_Some in E as ->. apply drop_prefix_Some in E'.
  pose proof (to_brace_length r') as H2. rewrite E' in H2.
  pose proof (strip_length (String.length u) white_space u) as H3.
  unfold trimStart in H1. simpl in *. lia.
Qed.

Lemma all_variables_fuel n s :
  (String.length s <= n)%nat -> all_variables n s = variables s.
Proof.
  unfold variables. generalize (le_n (String.length s)). generalize (String.length s) at 2 4 as m.
  revert s. induction n as [|n IH]; intros s m Hm Hn.
  { destruct s; [|simpl in Hn; lia]. by destruct m. }
  destruct m as [|m]. { destruct s; [|simpl in Hm; lia]. done. }
  simpl. destruct (variable_at s) as [[w r]|] eqn:E.
  - apply variable_at_length in E. f_equal. apply IH; lia.
  - destruct s; [done|]. simpl in *. apply IH; lia.
Qed.

(** ** The check is right *)

Lemma property_of_ordinary l k :
  ordinary (RObject l) = true -> forall v, omap_get k l = Some v -> ordinary v = true.
Proof.
  simpl. intros [_ H]%andb_prop v (a & b & -> & _)%omap_get_Some.
  rewrite forallb_app in H. simpl in H. by split_bools.
Qed.

Lemma ordinary_not_inherited l k :
  ordinary (RObject l) = true -> k ∈ l.*1 -> k <> "__proto__" /\ k ∉ inherited_methods.
Proof.
  cbn [ordinary]. intros [_ H]%andb_prop ([k' v] & -> & Hk)%list_elem_of_fmap.
  rewrite forallb_forall in H. specialize (H _ (proj1 (list_elem_of_In _ _) Hk)).
  cbn -[inherited_methods] in H. split_bools. done.
Qed.

Lemma property_of_own l k :
  k <> "__proto__" -> k ∉ inherited_methods -> property_of l k = omap_get k l.
Proof.
  intros H1 H2. unfold property_of. rewrite !bool_decide_eq_false_2 by done.
  by destruct (omap_get k l).
Qed.

Lemma flat_map_nil {A B} (f : A -> list B) (l : list A) :
  flat_map f l = [] <-> forall x, x ∈ l -> f x = [].
Proof.
  induction l as [|x l IH]; simpl.
  - split; [|done]. intros _ x Hx. by apply elem_of_nil in Hx.
  - split.
    + intros [Hx Hl]%app_nil y [->|Hy]%elem_of_cons; [done|]. by apply IH.
    + intros H. rewrite (H x) by left. apply IH. intros y Hy. apply H. by right.
Qed.

Lemma omap_get_elem {V} (l : list (string * V)) k v :
  NoDup l.*1 -> (k, v) ∈ l <-> omap_get k l = Some v.
Proof.
  induction l as [|[k' v'] l IH]; simpl.
  - intros _. split; [intros H; by apply elem_of_nil in H|done].
  - intros [Hk Hl]%NoDup_cons. rewrite elem_of_cons. case_bool_decide as E.
    + subst k'. split; [|intros [= ->]; by left]. intros [[= ->]|H]; [done|].
      exfalso. apply Hk. by apply (list_elem_of_fmap_2 fst) in H.
    + rewrite <- (IH Hl). split; [by intros [[= -> ->]|]|by right].
Qed.

Lemma omap_get_key {V} (l : list (string * V)) k : k ∈ l.*1 <-> is_Some (omap_get k l).
Proof.
  destruct (omap_get k l) eqn:E.
  - split; [done|]. intros _. apply omap_get_Some in E as (a & b & -> & _).
    rewrite fmap_app. set_solver.
  - apply omap_get_None in E. split; [done|]. by intros [].
Qed.

Lemma compare_items_ok l :
  Forall (fun v => ordinary v = true -> forall w path, ordinary w = true ->
    compareResources v w path = [] <-> parallel v w) l ->
  forall m path n, forallb ordinary l = true -> forallb ordinary m = true ->
  List.length l = List.length m -> compare_items path n l m = [] <-> Forall2 parallel l m.
Proof.
  induction 1 as [|v l Hv Hl IH]; intros [|w m] path n H1 H2 Hlen; try done.
  simpl in *. split_bools. assert (List.length l = List.length m) as Elen by lia. split.
  - intros [Ea Eb]%app_nil. constructor; [by eapply Hv|]. by eapply IH.
  - inversion 1; subst. apply app_nil. split; [by apply Hv|by apply IH].
Qed.

Lemma compare_objects_ok l :
  Forall (fun e => ordinary e.2 = true -> forall w path, ordinary w = true ->
    compareResources e.2 w path = [] <-> parallel e.2 w) l ->
  ordinary (RObject l) = true -> forall m path, ordinary (RObject m) = true ->
  compare_entries m path l ++ missing_from_en l m path = [] <->
  parallel (RObject l) (RObject m).
Proof.
  intros Hl Ol m path Om.
  assert (NoDup l.*1 /\ NoDup m.*1) as [Nl Nm].
  { pose proof Ol as [?%bool_decide_eq_true_1 _]%andb_prop.
    pose proof Om as [?%bool_decide_eq_true_1 _]%andb_prop. done. }
  assert (forall k, k ∈ l.*1 -> property_of m k = omap_get k m) as Pm.
  { intros k Hk. destruct (ordinary_not_inherited l k Ol Hk). by apply property_of_own. }
  assert (forall k, k ∈ m.*1 -> property_of l k = omap_get k l) as Pl.
  { intros k Hk. destruct (ordinary_not_inherited m k Om Hk). by apply property_of_own. }
  assert (forall k v w p, omap_get k l = Some v -> omap_get k m = Some w ->
    compareResources v w p = [] <-> parallel v w) as Hv.
  { intros k v w p Ev Ew.
    apply (proj1 (Forall_forall _ _) Hl (k, v)); simpl.
    - by apply omap_get_elem.
    - by eapply (property_of_ordinary l k Ol).
    - by eapply (property_of_ordinary m k Om). }
  rewrite app_nil. unfold compare_entries, missing_from_en. rewrite !flat_map_nil. split.
  - intros [H1 H2]. apply parallel_object.
    + intros k. split; intros Hk.
      * apply omap_get_key. pose proof (proj1 (omap_get_key l k) Hk) as [v Ev].
        specialize (H1 (k, v) (proj2 (omap_get_elem l k v Nl) Ev)). simpl in H1.
        rewrite Pm in H1 by done. by destruct (omap_get k m).
      * apply omap_get_key. pose proof (proj1 (omap_get_key m k) Hk) as [v Ev].
        specialize (H2 (k, v) (proj2 (omap_get_elem m k v Nm) Ev)). simpl in H2.
        rewrite Pl in H2 by done. by destruct (omap_get k l).
    + intros k v w Ev Ew. apply (Hv k v w (sub_path path k) Ev Ew).
      specialize (H1 (k, v) (proj2 (omap_get_elem l k v Nl) Ev)). simpl in H1.
      rewrite Pm, Ew in H1; [done|]. apply omap_get_key. by eexists.
  - inversion 1 as [| |? ? Hk Hp]; subst. split; intros [k v] He.
    + apply omap_get_elem in He; [|done].
      assert (k ∈ l.*1) as Kl by (apply omap_get_key; by eexists). rewrite Pm by done.
      pose proof (proj1 (omap_get_key m k) (proj1 (Hk k) Kl)) as [w Ew]. rewrite Ew.
      apply (Hv k v w _ He Ew). by apply (Hp k).
    + apply omap_get_elem in He; [|done].
      assert (k ∈ m.*1) as Km by (apply omap_get_key; by eexists). rewrite Pl by done.
      pose proof (proj1 (omap_get_key l k) (proj2 (Hk k) Km)) as [w Ew]. by rewrite Ew.
Qed.

Lemma compareResources_ok en zh path :
  ordinary en = true -> ordinary zh = true ->
  compareResources en zh path = [] <-> parallel en zh.
Proof.
  intros He. revert zh path. induction en as [s|t|l IH|l IH] using resource_rect';
    intros zh path Hz.
  - destruct zh as [t|m|m|t]; try (split; [done|by inversion 1]).
    + exact (compare_texts_ok s t path).
    + simpl. split; [by case_bool_decide|by inversion 1].
  - split; [|by inversion 1]. simpl. case_bool_decide; simpl; by destruct zh.
  - destruct zh as [t|m|m|t]; try (split; [done|by inversion 1]).
    2: { simpl. split; [by case_bool_decide|by inversion 1]. }
    rewrite compare_arrays_eq. simpl in He, Hz. case_bool_decide as E; simpl.
    + rewrite compare_items_ok; [|by eapply Forall_impl; [exact IH|]; auto|done..].
      split; [apply parallel_array|by inversion 1].
    + split; [done|]. inversion 1 as [|? ? HF|]; subst. by apply Forall2_length in HF.
  - destruct zh as [t|m|m|t]; try (split; [done|by inversion 1]).
    2: { simpl. split; [by case_bool_decide|by inversion 1]. }
    rewrite compare_objects_eq. apply compare_objects_ok; done.
Qed.

(** ** Looking a text up *)

Inductive selector := Key (k : string) | Index (n : nat).

(** The value at a path of keys and indices. *)
Fixpoint resource_at (path : list selector) (r : resource) : option resource :=
  match path, r with
  | [], _ => Some r
  | Key k :: path, RObject l => omap_get k l ≫= resource_at path
  | Index n :: path, RArray l => l !! n ≫= resource_at path
  | _ :: _, _ => None
  end.

Lemma parallel_at path en zh a :
  parallel en zh -> resource_at path en = Some a ->
  exists b, resource_at path zh = Some b /\ parallel a b.
Proof.
  revert en zh. induction path as [|[k|n] path IH]; intros en zh Hp; simpl.
  - intros [= <-]. by exists zh.
  - destruct Hp as [| |l m Hk Hv]; [done..|]. intros (v & Ev & Ha)%bind_Some.
    pose proof (proj1 (omap_get_key m k) (proj1 (Hk k) (proj2 (omap_get_key l k) (mk_is_Some _ _ Ev))))
      as [w Ew].
    rewrite Ew. simpl. exact (IH v w (Hv k v w Ev Ew) Ha).
  - destruct Hp as [|l m Hf|]; [done| |done]. intros (v & Ev & Ha)%bind_Some.
    destruct (Forall2_lookup_l _ _ _ _ _ Hf Ev) as (w & Ew & Hvw). rewrite Ew. simpl.
    exact (IH v w Hvw Ha).
Qed.

Lemma parallel_sym en zh : parallel en zh -> parallel zh en.
Proof.
  revert zh. induction en as [s|t|l IH|l IH] using resource_rect'; intros zh; inversion 1 as
    [? t' H1 H2 H3|? m Hf|? m Hk Hv]; subst.
  - constructor; [done..|]. intros v. by rewrite H3.
  - constructor. revert m Hf H. induction IH as [|v l Hv _ IHl]; intros m Hf _;
      inversion Hf; subst; constructor; [by apply Hv|]. apply IHl; [done|]. by constructor.
  - constructor; [intros k; by rewrite Hk|]. intros k w v Ew Ev.
    pose proof Ev as (a & b & -> & _)%omap_get_Some.
    apply Forall_app in IH as [_ [IH _]%Forall_cons]. by apply IH, (Hv k).
Qed.
