(* ===== verification/LocaleEn.v ===== *)
(** The English texts of the console, src/ui/src/locales/en.ts, section by section. *)
From S2P Require Import Prelude.
From S2P Require Import Resources.

Definition en_common : list (string * resource) := [
  text "language" "Language";
  text "english" "English";
  text "chinese" "中文";
  text "light" "Light";
  text "dark" "Dark";
  text "system" "System";
  text "settings" "Settings";
  text "admin" "Admin";
  text "signOut" "Sign out";
  text "replayProductTour" "Replay product tour";
  text "accountMenu" "Account menu";
  text "documentation" "Documentation";
  text "theme" "Theme";
  text "refresh" "Refresh";
  text "name" "Name";
  text "description" "Description";
  text "enabled" "Enabled";
  text "updated" "Updated";
  text "created" "Created";
  text "save" "Save";
  text "cancel" "Cancel";
  text "delete" "Delete";
  text "edit" "Edit";
  text "actions" "Actions";
  text "status" "Status";
  text "repository" "Repository";
  text "runnerSpec" "Runner spec";
  text "runner" "Runner";
  text "job" "Job";
  text "sandbox" "Sandbox";
  text "github" "GitHub";
  text "labels" "Labels";
  text "template" "Template";
  text "details" "Details";
  text "logs" "Logs";
  text "terminal" "Terminal";
  text "loading" "Loading...";
  text "visibility" "Visibility";
  text "resources" "Resources";
  text "started" "Started";
  text "expires" "Expires";
  text "region" "Region";
  text "apiKey" "API Key";
  text "yes" "Yes";
  text "no" "No";
  text "user" "User";
  text "close" "Close";
  text "sidebar" "Sidebar";
  text "mobileSidebarDescription" "Displays the mobile sidebar.";
  text "toggleSidebar" "Toggle sidebar";
  text "connected" "Connected";
  text "connecting" "Connecting";
  text "connect" "Connect";
  text "public" "Public";
  text "private" "Private";
  text "unknown" "Unknown";
  text "statusQueued" "Queued";
  text "statusCreating" "Creating";
  text "statusRunning" "Running";
  text "statusStopping" "Stopping";
  text "statusCompleted" "Completed";
  text "statusFailed" "Failed";
  text "statusUnmatched" "Not matched";
  text "productHome" "Qiniu CI Runner home";
  text "namedAvatar" "{{name}} avatar"].

Definition en_landing : list (string * resource) := [
  text "skipToContent" "Skip to content";
  text "primaryNavigation" "Primary navigation";
  text "product" "Product";
  text "openSource" "Open source";
  text "howItWorks" "How it works";
  text "documentation" "Documentation";
  text "ephemeralInfrastructure" "Ephemeral Actions infrastructure";
  text "heroLabel" "GitHub Actions, powered by Qiniu Sandbox";
  text "heroPrefix" "GitHub Actions,";
  text "heroPoweredBy" "powered by";
  text "heroSandbox" "Qiniu Sandbox.";
  text "heroDescription"
    "Launch a clean, isolated runner for every job. Keep the GitHub workflow your team already knows—move the execution into disposable cloud capacity.";
  text "seeHowItWorks" "See how it works";
  group "checklist" [
    text "orchestration" "Open-source orchestration";
    text "policy" "Policy-scoped access";
    text "cleanup" "Automatic cleanup"];
  group "lifecycle" [
    text "githubSends" "GitHub sends the job";
    text "createsCapacity" "runnerd creates capacity";
    text "executes" "Qiniu Sandbox executes"];
  text "capabilitiesIntro" "Built for clean execution";
  text "capabilitiesTitle" "Capacity appears for the job. Then disappears.";
  text "capabilitiesDescription"
    "Qiniu CI Runner turns GitHub workflow demand into short-lived, isolated compute—with the controls teams need around it.";
  group "capabilities" [
    group "isolated" [
      text "eyebrow" "ISOLATED BY DEFAULT";
      text "title" "One sandbox per job";
      text "description"
        "Every workflow job starts in a clean Qiniu Sandbox, keeping builds independent and repeatable.";
      text "detail" "Disposable compute"];
    group "justInTime" [
      text "eyebrow" "JUST IN TIME";
      text "title" "Capacity when Actions calls";
      text "description"
        "runnerd matches labels and policies, creates the runner, and connects it to GitHub only when needed.";
      text "detail" "Queue-aware provisioning"];
    group "lifecycle" [
      text "eyebrow" "CLEAN LIFECYCLE";
      text "title" "Finished means removed";
      text "description"
        "Runner registration and sandbox capacity are cleaned up after completion, timeout, or failure.";
      text "detail" "Automatic cleanup"]];
  text "openSourceEyebrow" "Open source, cloud powered";
  text "openSourceTitle" "Open where you orchestrate. Managed where jobs run.";
  text "openSourceDescription"
    "The control plane is open for teams to inspect and extend. The execution plane runs on Qiniu's managed Sandbox cloud service.";
  text "openSourceCardEyebrow" "Open source";
  text "openSourceCardTitle" "Qiniu CI Runner is open source.";
  text "openSourceCardDescription"
    "The runner orchestration, policies, and GitHub integration live in a public repository—ready to inspect, deploy, and contribute to.";
  text "viewSource" "View the source";
  text "licensed" "Apache-2.0 licensed";
  text "cloudServiceEyebrow" "Qiniu cloud service";
  text "cloudServiceTitle" "Qiniu Sandbox is a Qiniu-provided cloud service.";
  text "cloudServiceDescription"
    "It provides the managed, isolated cloud compute where workflow jobs execute. The Sandbox service and its underlying capacity are operated by Qiniu.";
  text "howItWorksTitle" "From webhook to clean slate.";
  text "howItWorksDescription"
    "runnerd connects the GitHub Actions lifecycle to Qiniu Sandbox without changing the workflow developers use every day.";
  text "readDocumentation" "Read the documentation";
  group "workflow" [
    group "queued" [
      text "title" "Workflow queued";
      text "description"
        "GitHub sends a workflow_job webhook with the repository and requested labels."];
    group "matched" [
      text "title" "Policy matched";
      text "description"
        "runnerd selects an allowed runner spec and queues the request until worker capacity is available."];
    group "running" [
      text "title" "Sandbox running";
      text "description"
        "A clean Qiniu Sandbox starts an ephemeral self-hosted GitHub Actions runner."];
    group "cleared" [
      text "title" "Resources cleared";
      text "description"
        "After the job exits, the registration and sandbox are removed automatically."]];
  text "choosePath" "Choose your path";
  text "choosePathTitle" "Start hosted. Or deploy runnerd.";
  text "choosePathDescription"
    "Use the hosted Qiniu CI Runner or deploy the open-source runnerd control plane. Both run workflow jobs on Qiniu Sandbox, a cloud service operated by Qiniu.";
  text "hosted" "Use hosted service";
  text "deploy" "Deploy runnerd";
  text "deploymentLabel" "For a runnerd deployment";
  texts "deploymentRequirements" ["GitHub.com"; "Qiniu Sandbox credentials"; "Self-hosted runner label"];
  text "poweredBy" "Powered by Qiniu Sandbox";
  text "getStarted" "Get started";
  text "switchThemeDark" "Switch to dark mode";
  text "switchThemeLight" "Switch to light mode";
  group "preview" [
    text "workflow" "workflow / pull request #184";
    text "requestedLabels" "Requested labels";
    text "runnerPolicy" "Runner selection";
    text "repository" "Repository";
    text "runnerSpec" "Runner spec";
    text "isolation" "Isolation";
    text "isolationValue" "one job / sandbox";
    text "policyMatched" "Spec matched";
    text "capacityReady" "Capacity can be provisioned.";
    text "runnerLifecycle" "Runner lifecycle";
    text "running" "RUNNING";
    text "githubAccepted" "GitHub job accepted";
    text "sandboxCreated" "Sandbox created";
    text "runnerRegistered" "Runner registered";
    text "jobExecuting" "Job executing";
    text "inProgress" "in progress";
    text "uiTestsPassed" "UI tests passed";
    text "goTestsRunning" "Go tests running with race detection";
    text "cleanExecution" "Clean execution";
    text "noSharedWorkspace" "no shared workspace"]].

Definition en_docs : list (string * resource) := [
  text "skipToContent" "Skip to documentation";
  text "documentation" "Guides";
  text "navigation" "Documentation navigation";
  text "onThisPage" "On this page";
  text "openJobs" "Open Jobs";
  text "browseGuides" "Browse guides";
  text "previous" "Previous";
  text "next" "Next";
  group "groups" [
    text "overview" "Overview";
    text "gettingStarted" "Getting started";
    text "guides" "Guides";
    text "reference" "Reference"];
  text "switchThemeDark" "Switch guides to dark mode";
  text "switchThemeLight" "Switch guides to light mode"].

Definition en_auth : list (string * resource) := [
  text "signIn" "Sign in to continue";
  text "signInDescription"
    "Use your GitHub account to open {{destination}}. You will return here after sign-in.";
  text "continueGitHub" "Continue with GitHub";
  text "readHostedGuide" "Read the hosted quick start first";
  text "signInUnavailable" "Sign-in unavailable";
  text "oauthNotConfigured" "GitHub OAuth is not configured on this runnerd instance.";
  text "adminConsole" "Admin console";
  text "accessDenied" "Access denied";
  text "thisGitHubAccount" "This GitHub account";
  text "accessDeniedDescription" "{{account}} is signed in but does not have administrator access.";
  text "openJobs" "Open Jobs";
  text "pageNotFound" "Page not found";
  text "pageNotFoundDescription" "The address does not match a Qiniu CI Runner page.";
  text "secureRoute" "Secure route";
  text "checkingSession" "Checking your session";
  text "checkingSessionDescription" "Confirming your GitHub access before loading this page.";
  text "sessionError" "Unable to check your session";
  text "sessionErrorDescription"
    "Runnerd could not confirm your GitHub access. Try again before signing in.";
  text "tryAgain" "Try again";
  text "backHome" "Back to homepage";
  text "homeAria" "Qiniu CI Runner home";
  text "pullRequestJobs" "Pull request jobs";
  text "workflowRunJobs" "Workflow run jobs";
  text "branchJobs" "Branch jobs";
  text "repositories" "Repositories";
  text "accountSettings" "Account settings";
  text "jobDetails" "Job details";
  text "jobs" "Jobs"].

Definition en_sidebar : list (string * resource) := [
  text "overview" "Overview";
  text "accounts" "Accounts";
  text "runnerRequests" "Runner Requests";
  text "runnerSpecs" "Runner Specs";
  text "sandboxService" "Sandbox Service";
  text "matchTest" "Match Test";
  text "audit" "Audit";
  text "diagnostics" "Diagnostics"].

Definition en_admin_1 : list (string * resource) := [
  text "recentRunnerRequests" "Recent runner requests";
  text "recentRunnerRequestsDescription" "Newest requests and their matched runner specs.";
  text "noRunnerRequests" "No runner requests yet.";
  text "runnerSpecs" "Runner specs";
  text "labelMatchingTest" "Label matching test";
  text "labelMatchingDescription" "Preview which runner spec a repository and label set would use.";
  text "runMatch" "Run match";
  text "matchResult" "Match result";
  text "matchResultDescription" "Enabled Runner Spec label resolution.";
  text "noMatchRun" "No match run yet.";
  text "repository" "Repository";
  text "labels" "Labels";
  text "runnerSpec" "Runner spec";
  text "reason" "Reason";
  text "matched" "matched";
  text "auditEvents" "Audit events";
  text "auditDescription" "Recent admin and recovery control-plane actions.";
  text "time" "Time";
  text "actor" "Actor";
  text "action" "Action";
  text "resource" "Resource";
  text "payload" "Payload";
  text "noAuditEvents" "No audit events yet";
  text "diagnosticsSummary" "Diagnostics summary";
  text "diagnosticsDescription" "DB, GitHub auth, recent failures, and pprof discovery.";
  text "stateBackend" "State backend";
  text "database" "Database";
  text "githubAuth" "GitHub auth";
  text "installation" "Installation";
  text "githubAPI" "GitHub API";
  text "pprofEndpoints" "pprof endpoints";
  text "noPprof" "No pprof artifact discovered yet.";
  text "recentFailures" "Recent failures";
  text "failuresDescription" "Latest failed requests plus the current /debug/vars snapshot.";
  text "noRecentFailures" "No recent failures.";
  text "noDebugVars" "No /debug/vars data available";
  text "managed" "Managed";
  text "managedSpecDescription"
    "Catalog identity and routing fields are read-only. Capacity and availability remain operator controlled.";
  text "requiredLabels" "Required labels";
  text "requiredLabelsDescription" "Every matching job must request these labels.";
  text "defaultTemplate" "Default template";
  text "templateID" "Template ID";
  text "githubRunnerGroup" "GitHub runner group";
  text "maxConcurrency" "Max concurrency";
  text "minIdle" "Min idle";
  text "priority" "Priority";
  text "saveRunnerSpec" "Save runner spec";
  text "specsDescription" "Click a runner spec row to edit it.";
  text "githubGroup" "GitHub group";
  text "limit" "Limit";
  text "createRunnerSpec" "Create runner spec";
  text "editRunnerSpec" "Edit runner spec";
  text "specDialogDescription" "Define labels, template, optional GitHub group, and capacity.";
  text "requestsDescription" "Webhook and manual requests with matched Runner Spec context.";
  text "createRunnerRequest" "Create runner request";
  text "createRunnerRequestDescription" "Manually enqueue a one-off runner request.";
  text "allStatuses" "All statuses";
  text "allRepositories" "All repositories";
  text "allRunnerSpecs" "All runner specs";
  text "requestsShown" "Showing {{filtered}} of {{total}} runner requests.";
  text "noRequestsFound" "No runner requests found";
  text "retry" "Retry";
  text "stop" "Stop";
  text "requestDetails" "Request details";
  text "selectRequest" "Select a request";
  text "copyRunnerID" "Copy runner ID";
  text "noRequestSelected" "No runner request selected";
  text "logsDescription" "control, stdout, and stderr captured by runnerd.";
  text "accountsDescription"
    "Search linked identities and control access to the runner management plane.";
  text "accountCount" "{{count}} account";
  text "accountCount_other" "{{count}} accounts";
  text "refreshAccounts" "Refresh accounts";
  text "searchAccounts" "Search accounts";
  text "searchAccountsPlaceholder" "Login, provider, or stable subject";
  text "search" "Search";
  text "allRoles" "All roles";
  text "admins" "Admins";
  text "users" "Users";
  text "clear" "Clear";
  text "account" "Account";
  text "linkedIdentities" "Linked identities";
  text "role" "Role";
  text "noAccountsFound" "No accounts found";
  text "noAccountsDescription" "Try another identity search or remove the role filter.";
  text "you" "You";
  text "changeRole" "Change account role?";
  text "roleChange" "Role change";
  text "confirmRoleChange" "Confirm role change";
  text "sandboxDefault" "Sandbox service default";
  text "sandboxDefaultDescription"
    "Platform credentials for accounts and organizations without a complete scoped configuration.";
  text "enableFallback" "Enable fallback for unconfigured accounts";
  text "fallbackPrecedence"
    "Scoped account and organization credentials continue to take precedence.";
  text "availability" "Availability";
  text "availabilityDescription" "Match the GitHub owner of each repository.";
  text "allAccounts" "All accounts";
  text "selectedAccounts" "Selected accounts";
  text "matchesNobody" "Matches nobody";
  text "savedEndpoint" "Saved endpoint";
  text "selectRegion" "Select Sandbox region";
  text "noEndpoint" "No endpoint configured";
  text "removeAPIKey" "Remove API key";
  text "saving" "Saving";
  text "saveSettings" "Save settings";
  text "loadAccountsFailed" "Failed to load accounts";
  text "updateAccountRoleFailed" "Failed to update account role";
  text "roleUpdated" "@{{login}} is now {{role}}";
  text "roleChangeGrantDescription"
    "@{{login}} will gain access to all runner management APIs. This change takes effect immediately and is recorded in the audit log.";
  text "roleChangeRevokeDescription"
    "@{{login}} will lose access to the admin console. This change takes effect immediately and is recorded in the audit log.";
  text "accountsMetric" "Accounts";
  text "accountsMetricDescription" "local access principals";
  text "administratorsMetric" "Administrators";
  text "administratorsMetricDescription" "full management access";
  text "usersMetricDescription" "standard account access";
  text "identitiesMetricDescription" "OAuth provider bindings";
  text "loadingAccounts" "Loading accounts...";
  text "filterByRole" "Filter by role";
  text "roleFor" "Role for {{login}}";
  text "cannotChangeOwnRole" "You cannot change your own role";
  text "changeAccountRole" "Change account role";
  text "noMatchingAccounts" "No matching accounts";
  text "resultRange" "{{start}}-{{end}} of {{total}}";
  text "accountsPerPage" "Accounts per page";
  text "perPage" "{{count}} / page";
  text "pageOf" "Page {{page}} of {{pages}}";
  text "previousAccountPage" "Previous account page";
  text "nextAccountPage" "Next account page";
  text "accountNumber" "account #{{id}}";
  text "identitySubject" "{{provider}} subject {{subject}}";
  text "namedTemplate" "template {{id}}";
  text "runnerSpecPlaceholder" "Runner spec";
  text "runnerSpecSaved" "Runner spec {{name}} saved";
  text "saveRunnerSpecFailed" "Failed to save runner spec";
  text "runnerSpecDeleted" "Runner spec {{name}} deleted";
  text "deleteRunnerSpecFailed" "Failed to delete runner spec";
  text "runnerSpecNamePlaceholder" "Runner spec name";
  text "templateIDPlaceholder" "Template ID";
  text "templateValidationDescription"
    "New or changed templates are checked for access and a usable default build using the admin Sandbox service. Unchanged templates are not rechecked.";
  text "configureTemplateValidation" "Configure Sandbox service";
  text "optionalGitHubRunnerGroup" "Optional GitHub runner group";
  text "editNamedRunnerSpec" "Edit {{name}}"].

Definition en_admin_2 : list (string * resource) := [
  text "optionalID" "Optional ID";
  text "optionalRunnerSpec" "Optional runner spec";
  text "loadSandboxDefaultFailed" "Failed to load Sandbox service default.";
  text "sandboxDefaultRegionRequired"
    "Sandbox service region is required before enabling the default.";
  text "sandboxDefaultAPIKeyRequired" "Sandbox API Key is required before enabling the default.";
  text "sandboxDefaultSaved" "Sandbox service default saved";
  text "saveSandboxDefaultFailed" "Failed to save Sandbox service default.";
  text "githubAccountAdded" "GitHub account added";
  text "addGitHubAccountFailed" "Failed to add GitHub account.";
  text "githubAccountRemoved" "GitHub account removed";
  text "removeGitHubAccountFailed" "Failed to remove GitHub account.";
  text "sandboxAPIKeyRemoved" "Sandbox API Key removed";
  text "removeSandboxAPIKeyFailed" "Failed to remove Sandbox API Key.";
  text "sandboxDefaultAvailability" "Sandbox default availability";
  text "githubAccount" "GitHub account";
  text "githubAccountPlaceholder" "GitHub user or organization";
  text "organization" "Organization";
  text "addGitHubAccount" "Add GitHub account";
  text "removeAccount" "Remove account";
  text "removeNamedAccount" "Remove {{login}}";
  text "githubAccountID" "{{type}} · GitHub ID {{id}}";
  text "noSelectedGitHubAccounts" "No GitHub users or organizations are selected.";
  text "apiKeyReplacementPlaceholder" "Enter a new API Key to replace the saved one";
  text "apiKeyPlaceholder" "Enter Sandbox API Key";
  text "encryptedKeySaved" "Encrypted key saved";
  text "encryptedKeySavedAt" "Encrypted key saved - {{time}}";
  text "noGlobalAPIKey" "No global Sandbox API Key is saved.";
  text "removeGlobalAPIKeyTitle" "Remove global Sandbox API Key?";
  text "removeGlobalAPIKeyDescription"
    "The global default becomes incomplete immediately. Scoped account and organization credentials are not changed.";
  text "removing" "Removing";
  text "sandboxDefaultEnabled" "Enabled";
  text "sandboxDefaultIncomplete" "Incomplete";
  text "sandboxDefaultDisabled" "Disabled";
  text "availableAllGitHubAccounts" "Available to all GitHub accounts";
  text "noGitHubAccountsSelected" "No GitHub accounts selected";
  text "availableSelectedAccounts" "Available to {{count}} selected account";
  text "availableSelectedAccounts_other" "Available to {{count}} selected accounts";
  text "activeMetric" "Active";
  text "activeMetricDescription" "Queued / creating / running / stopping";
  text "completedMetric" "Completed";
  text "completedMetricDescription" "Cleaned after exit";
  text "failedMetric" "Failed";
  text "failedMetricDescription" "Needs inspection";
  text "runnerSpecsMetricDescription" "Active control-plane runner specs";
  text "sandboxConfig" "Sandbox config";
  text "githubJob" "GitHub job";
  text "openJob" "Open job";
  text "retryRequest" "Retry request";
  text "lastErrorCode" "Last error code";
  text "error" "Error";
  text "configInstallation" "GitHub installation";
  text "configAccount" "Account";
  text "configInheritedAccount" "Inherited account";
  text "configAdminDefault" "Admin default";
  text "configRequestSnapshot" "Saved request snapshot"].

Definition en_repositories : list (string * resource) := [
  text "title" "Repositories";
  text "description" "Connect GitHub repositories and confirm the Sandbox service they need to run.";
  text "syncing" "Syncing...";
  text "syncInstallations" "Sync installations";
  text "installApp" "Install GitHub App";
  text "installationUnavailable" "GitHub App installation is unavailable";
  text "installOrSync" "Install the GitHub App or sync an existing installation to get started.";
  text "runnerReadiness" "Runner readiness";
  text "repositoryAccess" "Repository access";
  text "repositoryAccessDescription"
    "Repositories available to both you and this GitHub App installation.";
  text "accessUnavailable" "Access unavailable";
  text "checkingAccess" "Checking access";
  text "connected" "Connected";
  text "chooseRepositories" "Choose repositories";
  text "authorizationUnavailable" "Unable to load repository authorization from GitHub.";
  text "loadingAuthorization" "Loading authorization from GitHub.";
  text "authorizationSummary" "{{authorized}} authorized · {{withJobs}} with jobs";
  text "viewGitHub" "View on GitHub";
  text "manageGitHub" "Manage on GitHub";
  text "sandboxService" "Sandbox service";
  text "checkingService" "Checking the effective Sandbox service for this account.";
  text "platformProvider" "Provided by the platform.";
  text "inheritedProvider" "Inherited from a connected account.";
  text "accountProvider" "Provided by your account.";
  text "organizationProvider" "Provided by the {{login}} organization.";
  text "missingAccountService" "Your account has not configured a Sandbox service.";
  text "missingOrganizationService"
    "The {{login}} organization has not configured a Sandbox service.";
  text "checking" "Checking";
  text "ready" "Ready";
  text "setupRequired" "Setup required";
  text "unavailable" "Unavailable";
  text "readyDescription" "Runner jobs can use this Sandbox service.";
  text "checkingDescription" "Checking account and platform configuration.";
  text "setupDescription" "Runner jobs cannot start until Sandbox is configured.";
  text "askMember" "Ask an organization member to configure Sandbox.";
  text "sandboxSettings" "Sandbox settings";
  text "configureSandbox" "Configure Sandbox";
  text "authorizedRepositories" "Authorized repositories";
  text "authorizedRepositoriesDescription"
    "Job activity is shown without hiding repositories that have not run yet.";
  text "loading" "Loading";
  text "repositoriesCount" "{{count}} repositories";
  text "filter" "Filter repositories";
  text "loadFailed" "Unable to load repositories";
  text "retry" "Retry";
  text "loadingRepositories" "Loading repositories from GitHub...";
  text "hasJobs" "Has jobs";
  text "noJobs" "No jobs yet";
  text "noFilterMatches" "No repositories match this filter.";
  text "noneAuthorized" "No repositories are authorized. Choose repositories on GitHub to continue.";
  text "connectAccount" "Connect a GitHub account or organization";
  text "connectAccountDescription"
    "Install the GitHub App, then return here to finish repository and Sandbox setup."].

Definition en_user_1 : list (string * resource) := [
  text "workspace" "Workspace";
  text "jobs" "Jobs";
  text "repositories" "Repositories";
  text "settings" "Settings";
  text "settingsDescription"
    "Manage Sandbox service credentials, templates, and instances for your account and organizations you manage.";
  text "installOrSync"
    "Install the GitHub App or sync existing installations to link a user or organization.";
  text "checkingPermissions" "Checking organization permissions...";
  text "openingSettings" "Opening your account Settings...";
  text "openingBuildContext" "Opening job in its build context...";
  text "sandboxService" "Sandbox Service";
  text "sandboxTemplates" "Sandbox Templates";
  text "sandboxInstances" "Sandbox Instances";
  text "accountPreferences" "Account preferences";
  text "accountPreferencesDescription" "Settings for the signed-in account.";
  text "templatesDescription" "Templates available to the signed-in account.";
  text "instancesDescription" "Runner-created instances for the signed-in account.";
  text "repositorySetupMoved" "Repository setup moved";
  text "repositorySetupMovedDescription"
    "Manage GitHub App access and Runner readiness from Repositories.";
  text "openRepositories" "Open Repositories";
  text "selectJob" "Select a job to inspect its logs.";
  text "syncExistingAccounts" "Sync existing GitHub App accounts";
  text "githubLogs" "GitHub logs";
  text "runnerLogs" "Runner logs";
  text "webConsole" "Web Console";
  text "details" "Details";
  text "runnerLogStream" "Runner log stream";
  text "githubLogSource" "Workflow job output downloaded from GitHub Actions.";
  text "githubLogsUnavailable" "GitHub logs are not available yet";
  text "webConsoleFailed" "Web Console connection failed";
  text "webConsoleUnavailable" "Web Console unavailable";
  text "status" "Status";
  text "jobsDescription" "Review runner jobs grouped by repository, pull request, or workflow run.";
  text "loadingOlderJobs" "Loading older jobs...";
  text "loadOlderJobs" "Load {{count}} older jobs";
  text "noJobsYet" "No jobs yet. Trigger a workflow in an installed repository, then refresh.";
  text "syncToTrackJobs" "Sync existing GitHub App accounts to start tracking jobs.";
  text "branch" "Branch";
  text "commit" "Commit";
  text "lastUpdated" "Last updated";
  text "jobName" "Job Name";
  text "workflow" "Workflow";
  text "duration" "Duration";
  text "groupNotFound"
    "This job group was not found. It may have aged out of the local runner history or belongs to an account that is not connected.";
  text "noRunnerJobs"
    "No runner jobs are available yet. Trigger a workflow in an installed repository to see jobs here.";
  text "syncHelp"
    "Use this if the GitHub App is already installed but this runnerd instance has no local account record yet.";
  text "setupAuth" "Set up GitHub App auth before syncing local account records.";
  text "syncAccounts" "Sync accounts";
  text "syncing" "Syncing...";
  text "refresh" "Refresh";
  text "runnerLogDescription" "Runner {{log}} output captured by runnerd.";
  text "loadingRunnerLog" "Loading runner log...";
  text "runnerLogEmpty" "Log is empty";
  text "runnerLogFailed" "Failed to load runner log";
  text "loadingGitHubLog" "Loading GitHub log...";
  text "githubLogEmpty" "GitHub log is empty";
  text "githubLogFailed" "Failed to load GitHub log";
  text "connectingConsole" "Connecting to sandbox web console...";
  text "consoleDisconnected" "Web console stream disconnected";
  text "consoleConnectFailed" "Failed to connect web console";
  text "catalogTemplatesDescription"
    "Runnable images available to runner specs in the selected region.";
  text "publicRunnerTemplates" "Managed runner templates";
  text "publicRunnerTemplatesDescription"
    "Stable public templates and workflow labels managed by runnerd.";
  text "providerTemplates" "Provider templates";
  text "providerTemplatesDescription"
    "Additional templates available through Sandbox credentials in the selected region.";
  text "runnerSpecs" "Runner specs";
  text "workflowLabels" "Workflow labels";
  text "noPublicRunnerTemplates" "No managed runner templates are available.";
  text "catalogInstancesDescription" "Live and recent sandbox capacity in the selected region.";
  text "catalogTemplateResources" "{{cpu}} CPU · {{memory}} MB · {{disk}} MB disk";
  text "catalogInstanceResources" "{{cpu}} CPU · {{memory}} MB";
  text "filterTemplate" "Filter by template";
  text "allTemplates" "All templates";
  text "state" "State";
  text "spawns" "Spawns";
  text "organizationManaged" "Organization managed";
  text "organizationManagedDescription"
    "Sandbox service is managed by this organization. Repository access does not grant configuration permission.";
  text "organizationReady"
    "The organization has an effective Sandbox service. No action is required from you.";
  text "organizationMissing"
    "No Sandbox service is available yet. An organization member must configure it.";
  text "sandboxConfigDescription"
    "Choose the account Sandbox service region and configure its encrypted API Key.";
  text "actionRequired" "Action required";
  text "setupStep" "Setup step";
  text "connectSandbox" "Connect your Sandbox service";
  text "connectSandboxDescription"
    "Choose the nearest region, paste your Sandbox API Key, and save it. The key is encrypted before it is stored.";
  text "quickstart" "Quickstart";
  text "getAPIKey" "Get API Key";
  text "useAccountDefault" "Use account default credentials";
  text "organizationOwnSettings" "This organization uses its own Sandbox service settings.";
  text "accountDefaultAfterSave" "Your account default credentials will be used after saving.";
  text "inheritedCredentialsUnavailableBy"
    "Credentials provided by @{{login}} are unavailable because that account is no longer connected to this organization.";
  text "inheritedCredentialsUnavailable"
    "The inherited credentials are unavailable because the source account is no longer connected to this organization.";
  text "usingAccountCredentials" "Using Sandbox credentials provided by your account.";
  text "usingCredentialsBy" "Using Sandbox credentials provided by @{{login}}.";
  text "usingOtherOwnerCredentials" "Using Sandbox credentials provided by another connected owner.";
  text "selectRegion" "Select Sandbox region";
  text "apiKeyReplacementPlaceholder" "Enter a new API Key to replace the saved one";
  text "apiKeyPlaceholder" "Enter Sandbox API Key";
  text "saving" "Saving";
  text "saveSettings" "Save settings";
  text "useMyAccountCredentials" "Use my account credentials";
  text "saveChanges" "Save changes";
  text "removing" "Removing";
  text "remove" "Remove";
  text "updatedAt" "Last updated {{time}}";
  text "noAPIKeySaved" "No Sandbox API Key is saved.";
  text "platformDefault" "Using the platform Sandbox service default.";
  text "removeAPIKeyTitle" "Remove Sandbox API Key?";
  text "removeAPIKeyDescription"
    "This removes the saved Sandbox API Key for this account. Runner jobs may use an eligible, complete platform default; otherwise they cannot start new Sandbox instances until a key is saved again.";
  text "removeAPIKey" "Remove API Key";
  text "useAccountCredentialsTitle" "Use your account credentials?";
  text "replaceCredentialsDescription"
    "This replaces the current Sandbox credentials. The change applies to all Runner jobs in this organization, and your account must have a complete Sandbox service configuration.";
  text "replaceCredentialsDescriptionBy"
    "This replaces the Sandbox credentials provided by @{{login}}. The change applies to all Runner jobs in this organization, and your account must have a complete Sandbox service configuration.";
  text "switching" "Switching";
  text "useMyCredentials" "Use my credentials";
  text "sandboxSaveFailed" "Failed to save Sandbox service settings.";
  text "sandboxRegionRequired" "Sandbox service region is required.";
  text "sandboxAPIKeyRequired" "Sandbox API Key is required.";
  text "sandboxRemoveFailed" "Failed to remove Sandbox API Key.";
  text "sandboxUseAccountFailed" "Failed to use your account credentials.";
  text "noActiveSandbox" "No active sandbox";
  text "connectInteractiveShell" "Connect when you need an interactive shell.";
  text "terminalActiveOnly" "Terminal is available only while the sandbox job is active.";
  text "connectingTerminal" "Connecting to sandbox terminal...";
  text "terminalDisconnected" "Terminal stream disconnected";
  text "terminalConnectFailed" "Failed to connect terminal";
  text "runnerLifecycleLogs" "Runner lifecycle, sandbox stdout, and stderr captured by runnerd.";
  text "workflowJobs" "Workflow jobs";
  text "namedJobs" "{{name}} jobs";
  text "jobCount" "{{count}} job";
  text "jobCount_other" "{{count}} jobs";
  text "runnerRequest" "Runner request";
  text "matchedByLabels" "Matched by labels";
  text "workflowRun" "Workflow run";
  text "queued" "Queued";
  text "finished" "Finished";
  text "failedAt" "Failed at";
  text "runnerGroup" "GitHub Runner group";
  text "workflowAttempt" "Workflow attempt";
  text "pullRequest" "Pull request";
  text "retryCount" "Retry count";
  text "nextRetry" "Next retry"].

Definition en_user_2 : list (string * resource) := [
  text "requestedLabels" "Requested labels";
  text "failure" "Failure";
  text "lastError" "Last error";
  text "loadSandboxTemplatesFailed" "Failed to load Sandbox templates";
  text "loadSandboxesFailed" "Failed to load Sandboxes";
  text "noTemplatesInRegion" "No templates in this region.";
  text "noSandboxesForFilters" "No Sandboxes match these filters.";
  text "sandboxPermissionDenied" "You do not have permission to manage these Sandbox settings.";
  text "sandboxPermissionDeniedFor"
    "You do not have permission to manage {{login}} Sandbox settings.";
  text "runCount" "{{count}} run";
  text "runCount_other" "{{count}} runs";
  text "githubLogsUnavailableDescription"
    "GitHub may not have generated downloadable logs for this job. This can happen when a job never reached a runner, was cancelled before producing logs, or GitHub has not published the log archive yet.";
  text "showTechnicalDetails" "Show technical details";
  text "consoleStateUnavailable"
    "The Sandbox is no longer accepting Web Console sessions for this job state.";
  text "consoleCleanedUp"
    "The Sandbox has already been cleaned up, so a Web Console session cannot be opened.";
  text "consoleAvailabilityDescription"
    "Web Console is available while a Sandbox job is creating, running, or stopping. {{reason}}";
  text "statusFailed" "Failed";
  text "statusRunning" "Running";
  text "statusPassed" "Passed";
  text "pullRequestStatus" "PR {{status}}";
  text "workflowRunStatus" "Run {{status}}";
  text "branchStatus" "Branch {{status}}";
  text "jobStatus" "Job {{status}}";
  text "pullRequestChecks" "Pull request checks";
  text "detached" "Detached";
  text "commitTitle" "Commit {{sha}}";
  text "branchChecks" "Branch checks";
  text "runTitle" "Run {{id}}";
  text "manualRunner" "Manual runner";
  text "scrollToBottom" "Scroll to bottom";
  text "cacheS3" "Cache S3";
  text "cacheS3Description"
    "Configure the S3-compatible bucket for GitHub Actions cache storage. The region and endpoint are determined by the Sandbox service region selection above.";
  text "cacheS3Region" "Region:";
  text "cacheS3Endpoint" "Endpoint:";
  text "cacheS3NoEndpoint"
    "No S3 endpoint configured for the selected Sandbox service region. Please select a region or contact the administrator.";
  text "cacheS3Bucket" "Bucket";
  text "cacheS3BucketHint"
    "The bucket must be located in the S3 Region associated with the selected Sandbox Region.";
  text "cacheS3BucketPlaceholder" "github-actions-cache";
  text "cacheS3Prefix" "Prefix";
  text "cacheS3PrefixPlaceholder" "gh-actions-cache";
  text "cacheS3AccessKeyID" "Access Key ID";
  text "cacheS3AccessKeyIDPlaceholderNew" "Enter a new AK to replace the saved one";
  text "cacheS3AccessKeyIDPlaceholder" "Access Key ID";
  text "cacheS3SecretAccessKey" "Secret Access Key";
  text "cacheS3SecretAccessKeyPlaceholderNew" "Enter a new SK to replace the saved one";
  text "cacheS3SecretAccessKeyPlaceholder" "Secret Access Key";
  text "cacheS3Validating" "Saving";
  text "cacheS3SaveChanges" "Save changes";
  text "cacheS3Save" "Save Cache S3";
  text "cacheS3Remove" "Remove";
  text "cacheS3Configured" "Configured";
  text "cacheS3NotConfigured" "No Cache S3 configuration is saved.";
  text "cacheS3SettingsSaved" "Cache S3 settings saved";
  text "cacheS3SettingsRemoved" "Cache S3 settings removed";
  text "cacheS3BucketRequired" "Bucket, AK, and SK are required for a new configuration.";
  text "cacheS3RegionRequired" "Please select a Sandbox service region first.";
  text "cacheS3SaveFailed" "Failed to save Cache S3 settings.";
  text "cacheS3RemoveFailed" "Failed to remove Cache S3 settings."].

Definition en_app : list (string * resource) := [
  text "noRunnerSelected" "No runner selected";
  text "loadFailed" "Failed to load log";
  text "controlPlaneLoadFailed" "Failed to load control plane data";
  text "workspaceLoadFailed" "Failed to load workspace data";
  text "olderJobsLoadFailed" "Failed to load older jobs";
  text "accountSynced" "GitHub App account synced";
  text "accountSyncFailed" "Failed to sync GitHub App account";
  text "repositoriesLoadFailed" "Failed to load GitHub repositories";
  text "accountsSyncFailed" "Failed to sync GitHub App accounts";
  text "sandboxSaved" "Sandbox service settings saved";
  text "apiKeyRemoved" "Sandbox API Key removed";
  text "adminRequired" "Admin access required";
  text "createRunnerFailed" "Failed to create runner";
  text "stopRunnerFailed" "Failed to stop runner";
  text "retryRunnerFailed" "Failed to retry runner";
  text "matchFailed" "Failed to run match test";
  text "runnerIDCopied" "Runner ID copied";
  text "syncedGitHubAccounts" "Synced {{count}} GitHub App account";
  text "syncedGitHubAccounts_other" "Synced {{count}} GitHub App accounts";
  text "refreshingGitHubSignIn" "Refreshing GitHub sign-in...";
  text "tourProgressUpdateFailed"
    "Sandbox settings are saved, but product tour progress was not updated";
  text "tourProgressUpdateFailedWithReason"
    "Sandbox settings are saved, but product tour progress was not updated: {{reason}}";
  text "diagnosticsLoadFailed" "Failed to load diagnostics";
  text "repositoryFormatRequired" "repository_full_name must be owner/repo";
  text "runnerQueued" "Runner {{id}} queued";
  text "runnerCompleted" "Runner {{id}} completed";
  text "runnerRequeued" "Runner {{id}} requeued"].

Definition en_tour : list (string * resource) := [
  text "welcomeTitle" "Welcome to Qiniu Runner";
  text "welcomeContent"
    "Here is a quick map of the workspace, followed by the one setup step that unlocks your own Sandbox service.";
  text "jobsContent"
    "Track workflow jobs by pull request, branch, workflow run, or manual request, then open logs and terminals from one place.";
  text "repositoriesContent"
    "Connect GitHub repositories and see whether each account or organization has the Sandbox service needed to run.";
  text "accountMenuContent"
    "Open Settings, switch the theme, replay this tour, or sign out from here.";
  text "readinessTitle" "Runner readiness";
  text "readinessContent"
    "Repository access and Sandbox service status are checked together for the selected account or organization.";
  text "sandboxReadiness" "Sandbox readiness";
  text "sandboxContentBefore"
    "Ready accounts need no action. If setup is required, use Configure Sandbox to open Settings, then choose a region and get an API Key from the";
  text "qiniuPortal" "Qiniu portal";
  text "quickTour" "Quick tour";
  text "skip" "Skip tour";
  text "back" "Back";
  text "next" "Next";
  text "configureAPIKey" "Configure API Key";
  text "saveFailed" "Failed to save product tour progress"].

Definition en : resource := RObject [
  group "common" en_common;
  group "landing" en_landing;
  group "docs" en_docs;
  group "auth" en_auth;
  group "sidebar" en_sidebar;
  group "admin" (en_admin_1 ++ en_admin_2);
  group "repositories" en_repositories;
  group "user" (en_user_1 ++ en_user_2);
  group "app" en_app;
  group "tour" en_tour].
