(* ===== verification/LocaleZh.v ===== *)
(** The Chinese texts of the console, src/ui/src/locales/zh.ts, section by section. *)
From S2P Require Import Prelude.
From S2P Require Import Resources.

Definition zh_common : list (string * resource) := [
  text "language" "语言";
  text "english" "English";
  text "chinese" "中文";
  text "light" "浅色";
  text "dark" "深色";
  text "system" "跟随系统";
  text "settings" "设置";
  text "admin" "管理后台";
  text "signOut" "退出登录";
  text "replayProductTour" "重新查看产品导览";
  text "accountMenu" "账号菜单";
  text "documentation" "文档";
  text "theme" "主题";
  text "refresh" "刷新";
  text "name" "名称";
  text "description" "描述";
  text "enabled" "已启用";
  text "updated" "更新时间";
  text "created" "创建时间";
  text "save" "保存";
  text "cancel" "取消";
  text "delete" "删除";
  text "edit" "编辑";
  text "actions" "操作";
  text "status" "状态";
  text "repository" "仓库";
  text "runnerSpec" "Runner 规格";
  text "runner" "Runner";
  text "job" "任务";
  text "sandbox" "Sandbox";
  text "github" "GitHub";
  text "labels" "标签";
  text "template" "模板";
  text "details" "详情";
  text "logs" "日志";
  text "terminal" "终端";
  text "loading" "正在加载...";
  text "visibility" "可见性";
  text "resources" "资源";
  text "started" "开始时间";
  text "expires" "过期时间";
  text "region" "区域";
  text "apiKey" "API Key";
  text "yes" "是";
  text "no" "否";
  text "user" "用户";
  text "close" "关闭";
  text "sidebar" "侧栏";
  text "mobileSidebarDescription" "显示移动端侧栏。";
  text "toggleSidebar" "切换侧栏";
  text "connected" "已连接";
  text "connecting" "正在连接";
  text "connect" "连接";
  text "public" "公开";
  text "private" "私有";
  text "unknown" "未知";
  text "statusQueued" "排队中";
  text "statusCreating" "创建中";
  text "statusRunning" "运行中";
  text "statusStopping" "停止中";
  text "statusCompleted" "已完成";
  text "statusFailed" "失败";
  text "statusUnmatched" "未匹配";
  text "productHome" "Qiniu CI Runner 主页";
  text "namedAvatar" "{{name}} 的头像"].

Definition zh_landing : list (string * resource) := [
  text "skipToContent" "跳转到正文";
  text "primaryNavigation" "主导航";
  text "product" "产品";
  text "openSource" "开源项目";
  text "howItWorks" "工作方式";
  text "documentation" "文档";
  text "ephemeralInfrastructure" "短生命周期 Actions 基础设施";
  text "heroLabel" "由七牛 Sandbox 驱动的 GitHub Actions";
  text "heroPrefix" "GitHub Actions，";
  text "heroPoweredBy" "由";
  text "heroSandbox" "Qiniu Sandbox 驱动。";
  text "heroDescription"
    "为每个任务启动干净、隔离的 Runner。保留团队熟悉的 GitHub 工作流，把执行交给一次性的云端算力。";
  text "seeHowItWorks" "了解工作方式";
  group "checklist" [
    text "orchestration" "开源编排";
    text "policy" "策略范围访问";
    text "cleanup" "自动清理"];
  group "lifecycle" [
    text "githubSends" "GitHub 发送任务";
    text "createsCapacity" "runnerd 创建算力";
    text "executes" "Qiniu Sandbox 执行"];
  text "capabilitiesIntro" "为干净执行而生";
  text "capabilitiesTitle" "任务来时算力出现，任务结束随即消失。";
  text "capabilitiesDescription"
    "Qiniu CI Runner 将 GitHub 工作流需求转换为短生命周期、隔离的计算资源，并提供团队需要的控制能力。";
  group "capabilities" [
    group "isolated" [
      text "eyebrow" "默认隔离";
      text "title" "每个任务一个 Sandbox";
      text "description"
        "每个工作流任务都从干净的 Qiniu Sandbox 开始，让构建彼此独立且可重复。";
      text "detail" "一次性算力"];
    group "justInTime" [
      text "eyebrow" "按需启动";
      text "title" "Actions 调用时才提供算力";
      text "description"
        "runnerd 仅在需要时匹配标签和策略、创建 Runner，并将其连接到 GitHub。";
      text "detail" "感知队列的资源编排"];
    group "lifecycle" [
      text "eyebrow" "完整生命周期";
      text "title" "完成即移除";
      text "description"
        "任务完成、超时或失败后，Runner 注册和 Sandbox 算力都会被清理。";
      text "detail" "自动清理"]];
  text "openSourceEyebrow" "开源控制，云端执行";
  text "openSourceTitle" "编排保持开放，任务运行交给托管服务。";
  text "openSourceDescription"
    "控制面向团队开放，便于检查和扩展；执行面运行在 Qiniu 托管的 Sandbox 云服务上。";
  text "openSourceCardEyebrow" "开源项目";
  text "openSourceCardTitle" "Qiniu CI Runner 完全开源。";
  text "openSourceCardDescription"
    "Runner 编排、策略和 GitHub 集成都位于公开仓库，可供检查、部署和贡献。";
  text "viewSource" "查看源码";
  text "licensed" "Apache-2.0 许可";
  text "cloudServiceEyebrow" "Qiniu 云服务";
  text "cloudServiceTitle" "Qiniu Sandbox 是七牛提供的云服务。";
  text "cloudServiceDescription"
    "它提供工作流任务运行所需的托管、隔离云端算力。Sandbox 服务及其底层资源由七牛运营。";
  text "howItWorksTitle" "从 webhook 到清理完成。";
  text "howItWorksDescription"
    "runnerd 将 GitHub Actions 生命周期连接到 Qiniu Sandbox，不改变开发者每天使用的工作流。";
  text "readDocumentation" "阅读文档";
  group "workflow" [
    group "queued" [
      text "title" "工作流排队";
      text "description" "GitHub 发送包含仓库和请求标签的 workflow_job webhook。"];
    group "matched" [
      text "title" "策略匹配";
      text "description"
        "runnerd 选择允许的 Runner Spec，并在有工作节点容量前排队等待。"];
    group "running" [
      text "title" "Sandbox 运行";
      text "description"
        "干净的 Qiniu Sandbox 启动一次性的 GitHub Actions 自托管 Runner。"];
    group "cleared" [
      text "title" "资源清理";
      text "description" "任务结束后，Runner 注册和 Sandbox 会自动移除。"]];
  text "choosePath" "选择使用方式";
  text "choosePathTitle" "先使用托管服务，或部署 runnerd。";
  text "choosePathDescription"
    "使用托管版 Qiniu CI Runner，或部署开源的 runnerd 控制面。两者都在七牛运营的 Qiniu Sandbox 云服务上运行工作流任务。";
  text "hosted" "使用托管服务";
  text "deploy" "部署 runnerd";
  text "deploymentLabel" "部署 runnerd 需要";
  texts "deploymentRequirements" ["GitHub.com"; "Qiniu Sandbox 凭据"; "自托管 Runner 标签"];
  text "poweredBy" "由 Qiniu Sandbox 驱动";
  text "getStarted" "开始使用";
  text "switchThemeDark" "切换到深色模式";
  text "switchThemeLight" "切换到浅色模式";
  group "preview" [
    text "workflow" "工作流 / Pull Request #184";
    text "requestedLabels" "请求标签";
    text "runnerPolicy" "Runner 选择";
    text "repository" "仓库";
    text "runnerSpec" "Runner 规格";
    text "isolation" "隔离方式";
    text "isolationValue" "每个任务一个 Sandbox";
    text "policyMatched" "规格已匹配";
    text "capacityReady" "可以开始分配算力。";
    text "runnerLifecycle" "Runner 生命周期";
    text "running" "运行中";
    text "githubAccepted" "GitHub 任务已接收";
    text "sandboxCreated" "Sandbox 已创建";
    text "runnerRegistered" "Runner 已注册";
    text "jobExecuting" "任务执行中";
    text "inProgress" "进行中";
    text "uiTestsPassed" "UI 测试已通过";
    text "goTestsRunning" "Go 测试正在执行竞态检测";
    text "cleanExecution" "干净执行";
    text "noSharedWorkspace" "无共享工作区"]].

Definition zh_docs : list (string * resource) := [
  text "skipToContent" "跳转到文档正文";
  text "documentation" "指南";
  text "navigation" "文档导航";
  text "onThisPage" "本页内容";
  text "openJobs" "打开 Jobs";
  text "browseGuides" "浏览指南";
  text "previous" "上一篇";
  text "next" "下一篇";
  group "groups" [
    text "overview" "概览";
    text "gettingStarted" "快速开始";
    text "guides" "使用指南";
    text "reference" "参考"];
  text "switchThemeDark" "将指南切换为深色模式";
  text "switchThemeLight" "将指南切换为浅色模式"].

Definition zh_auth : list (string * resource) := [
  text "signIn" "登录后继续";
  text "signInDescription" "使用 GitHub 账号打开{{destination}}。登录后会返回这里。";
  text "continueGitHub" "使用 GitHub 继续";
  text "readHostedGuide" "先阅读托管版快速开始";
  text "signInUnavailable" "暂时无法登录";
  text "oauthNotConfigured" "此 runnerd 实例尚未配置 GitHub OAuth。";
  text "adminConsole" "管理后台";
  text "accessDenied" "无权访问";
  text "thisGitHubAccount" "此 GitHub 账号";
  text "accessDeniedDescription" "{{account}} 已登录，但没有管理员权限。";
  text "openJobs" "打开 Jobs";
  text "pageNotFound" "页面不存在";
  text "pageNotFoundDescription" "该地址不是 Qiniu CI Runner 的有效页面。";
  text "secureRoute" "受保护页面";
  text "checkingSession" "正在检查登录状态";
  text "checkingSessionDescription" "加载页面前正在确认你的 GitHub 访问权限。";
  text "sessionError" "无法检查登录状态";
  text "sessionErrorDescription"
    "runnerd 无法确认你的 GitHub 访问权限，请重试后再登录。";
  text "tryAgain" "重试";
  text "backHome" "返回首页";
  text "homeAria" "Qiniu CI Runner 首页";
  text "pullRequestJobs" "Pull Request Jobs";
  text "workflowRunJobs" "工作流运行 Jobs";
  text "branchJobs" "分支 Jobs";
  text "repositories" "仓库";
  text "accountSettings" "账号设置";
  text "jobDetails" "任务详情";
  text "jobs" "Jobs"].

Definition zh_sidebar : list (string * resource) := [
  text "overview" "概览";
  text "accounts" "账号";
  text "runnerRequests" "Runner 请求";
  text "runnerSpecs" "Runner 规格";
  text "sandboxService" "Sandbox 服务";
  text "matchTest" "匹配测试";
  text "audit" "审计";
  text "diagnostics" "诊断"].

Definition zh_admin_1 : list (string * resource) := [
  text "recentRunnerRequests" "最近的 Runner 请求";
  text "recentRunnerRequestsDescription" "最新请求及其匹配的 Runner 规格。";
  text "noRunnerRequests" "暂时没有 Runner 请求。";
  text "runnerSpecs" "Runner 规格";
  text "labelMatchingTest" "标签匹配测试";
  text "labelMatchingDescription" "预览仓库和标签集合将使用哪个 Runner 规格。";
  text "runMatch" "执行匹配";
  text "matchResult" "匹配结果";
  text "matchResultDescription" "已启用 Runner Spec 的标签解析结果。";
  text "noMatchRun" "尚未执行匹配。";
  text "repository" "仓库";
  text "labels" "标签";
  text "runnerSpec" "Runner 规格";
  text "reason" "原因";
  text "matched" "已匹配";
  text "auditEvents" "审计事件";
  text "auditDescription" "最近的管理和恢复控制面操作。";
  text "time" "时间";
  text "actor" "操作者";
  text "action" "操作";
  text "resource" "资源";
  text "payload" "载荷";
  text "noAuditEvents" "暂时没有审计事件";
  text "diagnosticsSummary" "诊断摘要";
  text "diagnosticsDescription" "数据库、GitHub 鉴权、近期失败和 pprof 发现结果。";
  text "stateBackend" "状态后端";
  text "database" "数据库";
  text "githubAuth" "GitHub 鉴权";
  text "installation" "安装";
  text "githubAPI" "GitHub API";
  text "pprofEndpoints" "pprof 端点";
  text "noPprof" "暂时没有发现 pprof 产物。";
  text "recentFailures" "近期失败";
  text "failuresDescription" "最新失败请求及当前 /debug/vars 快照。";
  text "noRecentFailures" "暂时没有近期失败。";
  text "noDebugVars" "没有可用的 /debug/vars 数据";
  text "managed" "托管";
  text "managedSpecDescription"
    "目录标识和路由字段为只读，容量和可用性仍由运维人员控制。";
  text "requiredLabels" "必需标签";
  text "requiredLabelsDescription" "每个匹配任务都必须请求这些标签。";
  text "defaultTemplate" "默认模板";
  text "templateID" "模板 ID";
  text "githubRunnerGroup" "GitHub Runner 组";
  text "maxConcurrency" "最大并发数";
  text "minIdle" "最小空闲数";
  text "priority" "优先级";
  text "saveRunnerSpec" "保存 Runner 规格";
  text "specsDescription" "点击 Runner 规格所在行可编辑。";
  text "githubGroup" "GitHub 组";
  text "limit" "限制";
  text "createRunnerSpec" "创建 Runner 规格";
  text "editRunnerSpec" "编辑 Runner 规格";
  text "specDialogDescription" "定义标签、模板、可选 GitHub Group 和容量。";
  text "requestsDescription" "包含匹配 Runner Spec 上下文的 webhook 和手动请求。";
  text "createRunnerRequest" "创建 Runner 请求";
  text "createRunnerRequestDescription" "手动加入一次性 Runner 请求。";
  text "allStatuses" "全部状态";
  text "allRepositories" "全部仓库";
  text "allRunnerSpecs" "全部 Runner 规格";
  text "requestsShown" "显示 {{total}} 个 Runner 请求中的 {{filtered}} 个。";
  text "noRequestsFound" "未找到 Runner 请求";
  text "retry" "重试";
  text "stop" "停止";
  text "requestDetails" "请求详情";
  text "selectRequest" "选择请求";
  text "copyRunnerID" "复制 Runner ID";
  text "noRequestSelected" "尚未选择 Runner 请求";
  text "logsDescription" "runnerd 捕获的 control、stdout 和 stderr。";
  text "accountsDescription" "搜索已关联身份，并控制 Runner 管理面的访问权限。";
  text "accountCount" "{{count}} 个账号";
  text "accountCount_other" "{{count}} 个账号";
  text "refreshAccounts" "刷新账号";
  text "searchAccounts" "搜索账号";
  text "searchAccountsPlaceholder" "登录名、提供方或稳定 subject";
  text "search" "搜索";
  text "allRoles" "全部角色";
  text "admins" "管理员";
  text "users" "用户";
  text "clear" "清除";
  text "account" "账号";
  text "linkedIdentities" "已关联身份";
  text "role" "角色";
  text "noAccountsFound" "未找到账号";
  text "noAccountsDescription" "请尝试其他身份搜索条件，或移除角色筛选。";
  text "you" "你";
  text "changeRole" "更改账号角色？";
  text "roleChange" "角色变更";
  text "confirmRoleChange" "确认角色变更";
  text "sandboxDefault" "Sandbox 服务默认配置";
  text "sandboxDefaultDescription" "为未完成范围配置的账号和组织提供平台凭据。";
  text "enableFallback" "为未配置账号启用后备服务";
  text "fallbackPrecedence" "账号和组织范围凭据仍然具有更高优先级。";
  text "availability" "可用范围";
  text "availabilityDescription" "按每个仓库的 GitHub 所有者匹配。";
  text "allAccounts" "全部账号";
  text "selectedAccounts" "选定账号";
  text "matchesNobody" "未匹配任何账号";
  text "savedEndpoint" "已保存端点";
  text "selectRegion" "选择 Sandbox 区域";
  text "noEndpoint" "尚未配置端点";
  text "removeAPIKey" "移除 API Key";
  text "saving" "正在保存";
  text "saveSettings" "保存设置";
  text "loadAccountsFailed" "无法加载账号";
  text "updateAccountRoleFailed" "无法更新账号角色";
  text "roleUpdated" "@{{login}} 的角色已变更为{{role}}";
  text "roleChangeGrantDescription"
    "@{{login}} 将获得所有 Runner 管理 API 的访问权限。此更改立即生效，并会记录在审计日志中。";
  text "roleChangeRevokeDescription"
    "@{{login}} 将失去管理后台访问权限。此更改立即生效，并会记录在审计日志中。";
  text "accountsMetric" "账号";
  text "accountsMetricDescription" "本地访问主体";
  text "administratorsMetric" "管理员";
  text "administratorsMetricDescription" "完整管理权限";
  text "usersMetricDescription" "标准账号权限";
  text "identitiesMetricDescription" "OAuth 提供方绑定";
  text "loadingAccounts" "正在加载账号...";
  text "filterByRole" "按角色筛选";
  text "roleFor" "{{login}} 的角色";
  text "cannotChangeOwnRole" "不能更改自己的角色";
  text "changeAccountRole" "更改账号角色";
  text "noMatchingAccounts" "没有匹配的账号";
  text "resultRange" "第 {{start}}-{{end}} 个，共 {{total}} 个";
  text "accountsPerPage" "每页账号数";
  text "perPage" "每页 {{count}} 个";
  text "pageOf" "第 {{page}} 页，共 {{pages}} 页";
  text "previousAccountPage" "上一页账号";
  text "nextAccountPage" "下一页账号";
  text "accountNumber" "账号 #{{id}}";
  text "identitySubject" "{{provider}} 身份标识 {{subject}}";
  text "namedTemplate" "模板 {{id}}";
  text "runnerSpecPlaceholder" "Runner 规格";
  text "runnerSpecSaved" "Runner 规格 {{name}} 已保存";
  text "saveRunnerSpecFailed" "无法保存 Runner 规格";
  text "runnerSpecDeleted" "Runner 规格 {{name}} 已删除";
  text "deleteRunnerSpecFailed" "无法删除 Runner 规格";
  text "runnerSpecNamePlaceholder" "Runner 规格名称";
  text "templateIDPlaceholder" "模板 ID";
  text "templateValidationDescription"
    "新建或更换模板时，使用后台配置的沙箱服务检查访问权限和可用默认构建；模板未变更时不重复检查。";
  text "configureTemplateValidation" "配置沙箱服务";
  text "optionalGitHubRunnerGroup" "可选的 GitHub Runner 组";
  text "editNamedRunnerSpec" "编辑 {{name}}"].

Definition zh_admin_2 : list (string * resource) := [
  text "optionalID" "可选 ID";
  text "optionalRunnerSpec" "可选 Runner 规格";
  text "loadSandboxDefaultFailed" "无法加载 Sandbox 服务默认配置。";
  text "sandboxDefaultRegionRequired" "启用默认配置前必须选择 Sandbox 服务区域。";
  text "sandboxDefaultAPIKeyRequired" "启用默认配置前必须填写 Sandbox API Key。";
  text "sandboxDefaultSaved" "Sandbox 服务默认配置已保存";
  text "saveSandboxDefaultFailed" "无法保存 Sandbox 服务默认配置。";
  text "githubAccountAdded" "已添加 GitHub 账号";
  text "addGitHubAccountFailed" "无法添加 GitHub 账号。";
  text "githubAccountRemoved" "已移除 GitHub 账号";
  text "removeGitHubAccountFailed" "无法移除 GitHub 账号。";
  text "sandboxAPIKeyRemoved" "Sandbox API Key 已移除";
  text "removeSandboxAPIKeyFailed" "无法移除 Sandbox API Key。";
  text "sandboxDefaultAvailability" "Sandbox 默认配置可用范围";
  text "githubAccount" "GitHub 账号";
  text "githubAccountPlaceholder" "GitHub 用户或组织";
  text "organization" "组织";
  text "addGitHubAccount" "添加 GitHub 账号";
  text "removeAccount" "移除账号";
  text "removeNamedAccount" "移除 {{login}}";
  text "githubAccountID" "{{type}} · GitHub ID {{id}}";
  text "noSelectedGitHubAccounts" "尚未选择 GitHub 用户或组织。";
  text "apiKeyReplacementPlaceholder" "输入新的 API Key 以替换已保存的密钥";
  text "apiKeyPlaceholder" "输入 Sandbox API Key";
  text "encryptedKeySaved" "已保存加密密钥";
  text "encryptedKeySavedAt" "已保存加密密钥 - {{time}}";
  text "noGlobalAPIKey" "尚未保存全局 Sandbox API Key。";
  text "removeGlobalAPIKeyTitle" "移除全局 Sandbox API Key？";
  text "removeGlobalAPIKeyDescription"
    "全局默认配置将立即变为不完整。账号和组织范围的凭据不会改变。";
  text "removing" "正在移除";
  text "sandboxDefaultEnabled" "已启用";
  text "sandboxDefaultIncomplete" "配置不完整";
  text "sandboxDefaultDisabled" "已停用";
  text "availableAllGitHubAccounts" "对所有 GitHub 账号可用";
  text "noGitHubAccountsSelected" "尚未选择 GitHub 账号";
  text "availableSelectedAccounts" "对选定的 {{count}} 个账号可用";
  text "availableSelectedAccounts_other" "对选定的 {{count}} 个账号可用";
  text "activeMetric" "活动中";
  text "activeMetricDescription" "排队 / 创建 / 运行 / 停止中";
  text "completedMetric" "已完成";
  text "completedMetricDescription" "退出后已清理";
  text "failedMetric" "失败";
  text "failedMetricDescription" "需要检查";
  text "runnerSpecsMetricDescription" "活动的控制面 Runner 规格";
  text "sandboxConfig" "Sandbox 配置";
  text "githubJob" "GitHub 任务";
  text "openJob" "打开任务";
  text "retryRequest" "重试请求";
  text "lastErrorCode" "最后错误代码";
  text "error" "错误";
  text "configInstallation" "GitHub 安装";
  text "configAccount" "账号";
  text "configInheritedAccount" "继承的账号";
  text "configAdminDefault" "管理后台默认配置";
  text "configRequestSnapshot" "已保存的请求快照"].

Definition zh_repositories : list (string * resource) := [
  text "title" "仓库";
  text "description" "连接 GitHub 仓库，并确认它们运行任务所需的 Sandbox 服务。";
  text "syncing" "正在同步...";
  text "syncInstallations" "同步安装";
  text "installApp" "安装 GitHub App";
  text "installationUnavailable" "无法安装 GitHub App";
  text "installOrSync" "安装 GitHub App 或同步现有安装即可开始。";
  text "runnerReadiness" "Runner 就绪状态";
  text "repositoryAccess" "仓库访问权限";
  text "repositoryAccessDescription" "你和此 GitHub App 安装都可访问的仓库。";
  text "accessUnavailable" "无法访问";
  text "checkingAccess" "正在检查访问权限";
  text "connected" "已连接";
  text "chooseRepositories" "选择仓库";
  text "authorizationUnavailable" "无法从 GitHub 加载仓库授权。";
  text "loadingAuthorization" "正在从 GitHub 加载授权。";
  text "authorizationSummary" "已授权 {{authorized}} 个，其中 {{withJobs}} 个有任务";
  text "viewGitHub" "在 GitHub 查看";
  text "manageGitHub" "在 GitHub 管理";
  text "sandboxService" "Sandbox 服务";
  text "checkingService" "正在检查此账号生效的 Sandbox 服务。";
  text "platformProvider" "由平台提供。";
  text "inheritedProvider" "继承自已连接账号。";
  text "accountProvider" "由你的账号提供。";
  text "organizationProvider" "由 {{login}} 组织提供。";
  text "missingAccountService" "你的账号尚未配置 Sandbox 服务。";
  text "missingOrganizationService" "{{login}} 组织尚未配置 Sandbox 服务。";
  text "checking" "正在检查";
  text "ready" "已就绪";
  text "setupRequired" "需要设置";
  text "unavailable" "不可用";
  text "readyDescription" "Runner 任务可以使用此 Sandbox 服务。";
  text "checkingDescription" "正在检查账号和平台配置。";
  text "setupDescription" "配置 Sandbox 后 Runner 任务才能启动。";
  text "askMember" "请联系组织成员配置 Sandbox。";
  text "sandboxSettings" "Sandbox 设置";
  text "configureSandbox" "配置 Sandbox";
  text "authorizedRepositories" "已授权仓库";
  text "authorizedRepositoriesDescription"
    "显示任务活动，同时保留尚未运行任务的仓库。";
  text "loading" "正在加载";
  text "repositoriesCount" "{{count}} 个仓库";
  text "filter" "筛选仓库";
  text "loadFailed" "无法加载仓库";
  text "retry" "重试";
  text "loadingRepositories" "正在从 GitHub 加载仓库...";
  text "hasJobs" "有任务";
  text "noJobs" "尚无任务";
  text "noFilterMatches" "没有仓库符合当前筛选条件。";
  text "noneAuthorized" "尚未授权仓库，请在 GitHub 选择仓库后继续。";
  text "connectAccount" "连接 GitHub 账号或组织";
  text "connectAccountDescription"
    "安装 GitHub App，然后返回此处完成仓库和 Sandbox 设置。"].

Definition zh_user_1 : list (string * resource) := [
  text "workspace" "工作区";
  text "jobs" "Jobs";
  text "repositories" "仓库";
  text "settings" "设置";
  text "settingsDescription"
    "管理你的账号及所管理组织的 Sandbox 服务凭据、模板和实例。";
  text "installOrSync" "安装 GitHub App 或同步现有安装，以关联用户或组织。";
  text "checkingPermissions" "正在检查组织权限...";
  text "openingSettings" "正在打开你的账号设置...";
  text "openingBuildContext" "正在打开任务所属的构建上下文...";
  text "sandboxService" "Sandbox 服务";
  text "sandboxTemplates" "Sandbox 模板";
  text "sandboxInstances" "Sandbox 实例";
  text "accountPreferences" "账号偏好";
  text "accountPreferencesDescription" "当前登录账号的设置。";
  text "templatesDescription" "当前登录账号可用的模板。";
  text "instancesDescription" "当前登录账号下由 Runner 创建的实例。";
  text "repositorySetupMoved" "仓库设置已迁移";
  text "repositorySetupMovedDescription"
    "请在“仓库”中管理 GitHub App 访问权限和 Runner 就绪状态。";
  text "openRepositories" "打开仓库";
  text "selectJob" "选择任务以查看日志。";
  text "syncExistingAccounts" "同步现有 GitHub App 账号";
  text "githubLogs" "GitHub 日志";
  text "runnerLogs" "Runner 日志";
  text "webConsole" "Web 控制台";
  text "details" "详情";
  text "runnerLogStream" "Runner 日志流";
  text "githubLogSource" "从 GitHub Actions 下载的工作流任务输出。";
  text "githubLogsUnavailable" "GitHub 日志暂不可用";
  text "webConsoleFailed" "Web 控制台连接失败";
  text "webConsoleUnavailable" "Web 控制台不可用";
  text "status" "状态";
  text "jobsDescription" "按仓库、Pull Request 或工作流运行查看 Runner 任务。";
  text "loadingOlderJobs" "正在加载更早的任务...";
  text "loadOlderJobs" "加载更早的 {{count}} 个任务";
  text "noJobsYet" "尚无任务。请在已安装的仓库中触发工作流，然后刷新。";
  text "syncToTrackJobs" "同步现有 GitHub App 账号以开始跟踪任务。";
  text "branch" "分支";
  text "commit" "提交";
  text "lastUpdated" "最后更新";
  text "jobName" "任务名称";
  text "workflow" "工作流";
  text "duration" "耗时";
  text "groupNotFound"
    "未找到此任务组。它可能已超出本地 Runner 历史窗口，或属于尚未连接的账号。";
  text "noRunnerJobs"
    "暂时没有可用的 Runner 任务。请在已安装的仓库中触发工作流。";
  text "syncHelp"
    "如果 GitHub App 已安装，但此 runnerd 实例还没有本地账号记录，请使用此功能。";
  text "setupAuth" "同步本地账号记录前，请先设置 GitHub App 鉴权。";
  text "syncAccounts" "同步账号";
  text "syncing" "正在同步...";
  text "refresh" "刷新";
  text "runnerLogDescription" "runnerd 捕获的 Runner {{log}} 输出。";
  text "loadingRunnerLog" "正在加载 Runner 日志...";
  text "runnerLogEmpty" "日志为空";
  text "runnerLogFailed" "无法加载 Runner 日志";
  text "loadingGitHubLog" "正在加载 GitHub 日志...";
  text "githubLogEmpty" "GitHub 日志为空";
  text "githubLogFailed" "无法加载 GitHub 日志";
  text "connectingConsole" "正在连接 Sandbox Web 控制台...";
  text "consoleDisconnected" "Web 控制台流已断开";
  text "consoleConnectFailed" "无法连接 Web 控制台";
  text "catalogTemplatesDescription"
    "所选区域中可供 Runner 规格使用的可运行镜像。";
  text "publicRunnerTemplates" "托管 Runner 模板";
  text "publicRunnerTemplatesDescription"
    "由 runnerd 管理的稳定公共模板及工作流标签。";
  text "providerTemplates" "服务商模板";
  text "providerTemplatesDescription" "通过所选区域的 Sandbox 凭据可用的其他模板。";
  text "runnerSpecs" "Runner 规格";
  text "workflowLabels" "工作流标签";
  text "noPublicRunnerTemplates" "暂无可用的托管 Runner 模板。";
  text "catalogInstancesDescription" "所选区域中当前和近期的 Sandbox 容量。";
  text "catalogTemplateResources" "{{cpu}} CPU · {{memory}} MB · {{disk}} MB 磁盘";
  text "catalogInstanceResources" "{{cpu}} CPU · {{memory}} MB";
  text "filterTemplate" "按模板筛选";
  text "allTemplates" "全部模板";
  text "state" "状态";
  text "spawns" "启动次数";
  text "organizationManaged" "由组织管理";
  text "organizationManagedDescription"
    "Sandbox 服务由此组织管理。仓库访问权限不包含配置权限。";
  text "organizationReady" "该组织已有生效的 Sandbox 服务，你无需操作。";
  text "organizationMissing"
    "目前没有可用的 Sandbox 服务，需要由组织成员进行配置。";
  text "sandboxConfigDescription"
    "选择账号的 Sandbox 服务区域，并配置加密存储的 API Key。";
  text "actionRequired" "需要操作";
  text "setupStep" "设置步骤";
  text "connectSandbox" "连接 Sandbox 服务";
  text "connectSandboxDescription"
    "选择最近区域，粘贴 Sandbox API Key 并保存。密钥会加密后存储。";
  text "quickstart" "快速开始";
  text "getAPIKey" "获取 API Key";
  text "useAccountDefault" "使用账号默认凭据";
  text "organizationOwnSettings" "此组织使用自己的 Sandbox 服务设置。";
  text "accountDefaultAfterSave" "保存后将使用你的账号默认凭据。";
  text "inheritedCredentialsUnavailableBy"
    "@{{login}} 提供的凭据不可用，因为该账号已不再与此组织关联。";
  text "inheritedCredentialsUnavailable"
    "继承的凭据不可用，因为来源账号已不再与此组织关联。";
  text "usingAccountCredentials" "正在使用你的账号提供的 Sandbox 凭据。";
  text "usingCredentialsBy" "正在使用 @{{login}} 提供的 Sandbox 凭据。";
  text "usingOtherOwnerCredentials"
    "正在使用另一位已关联所有者提供的 Sandbox 凭据。";
  text "selectRegion" "选择 Sandbox 区域";
  text "apiKeyReplacementPlaceholder" "输入新的 API Key 以替换已保存的密钥";
  text "apiKeyPlaceholder" "输入 Sandbox API Key";
  text "saving" "正在保存";
  text "saveSettings" "保存设置";
  text "useMyAccountCredentials" "使用我的账号凭据";
  text "saveChanges" "保存更改";
  text "removing" "正在移除";
  text "remove" "移除";
  text "updatedAt" "最后更新于 {{time}}";
  text "noAPIKeySaved" "尚未保存 Sandbox API Key。";
  text "platformDefault" "正在使用平台 Sandbox 服务默认配置。";
  text "removeAPIKeyTitle" "移除 Sandbox API Key？";
  text "removeAPIKeyDescription"
    "这会移除此账号已保存的 Sandbox API Key。Runner 任务可能继续使用符合条件且配置完整的平台默认服务；否则，在重新保存密钥前将无法启动新的 Sandbox 实例。";
  text "removeAPIKey" "移除 API Key";
  text "useAccountCredentialsTitle" "使用你的账号凭据？";
  text "replaceCredentialsDescription"
    "这会替换当前 Sandbox 凭据。更改将应用于此组织的所有 Runner 任务，并且你的账号必须已完整配置 Sandbox 服务。";
  text "replaceCredentialsDescriptionBy"
    "这会替换 @{{login}} 提供的 Sandbox 凭据。更改将应用于此组织的所有 Runner 任务，并且你的账号必须已完整配置 Sandbox 服务。";
  text "switching" "正在切换";
  text "useMyCredentials" "使用我的凭据";
  text "sandboxSaveFailed" "无法保存 Sandbox 服务设置。";
  text "sandboxRegionRequired" "必须选择 Sandbox 服务区域。";
  text "sandboxAPIKeyRequired" "必须填写 Sandbox API Key。";
  text "sandboxRemoveFailed" "无法移除 Sandbox API Key。";
  text "sandboxUseAccountFailed" "无法使用你的账号凭据。";
  text "noActiveSandbox" "没有活动的 Sandbox";
  text "connectInteractiveShell" "需要交互式 Shell 时再连接。";
  text "terminalActiveOnly" "仅当 Sandbox 任务处于活动状态时才能使用终端。";
  text "connectingTerminal" "正在连接 Sandbox 终端...";
  text "terminalDisconnected" "终端数据流已断开";
  text "terminalConnectFailed" "无法连接终端";
  text "runnerLifecycleLogs" "runnerd 捕获的 Runner 生命周期、Sandbox stdout 和 stderr。";
  text "workflowJobs" "工作流任务";
  text "namedJobs" "{{name}} 任务";
  text "jobCount" "{{count}} 个任务";
  text "jobCount_other" "{{count}} 个任务";
  text "runnerRequest" "Runner 请求";
  text "matchedByLabels" "按标签匹配";
  text "workflowRun" "工作流运行";
  text "queued" "排队时间";
  text "finished" "完成时间";
  text "failedAt" "失败时间";
  text "runnerGroup" "GitHub Runner 组";
  text "workflowAttempt" "工作流尝试次数";
  text "pullRequest" "Pull Request";
  text "retryCount" "重试次数";
  text "nextRetry" "下次重试"].

Definition zh_user_2 : list (string * resource) := [
  text "requestedLabels" "请求标签";
  text "failure" "失败信息";
  text "lastError" "最后错误";
  text "loadSandboxTemplatesFailed" "无法加载 Sandbox 模板";
  text "loadSandboxesFailed" "无法加载 Sandbox 实例";
  text "noTemplatesInRegion" "此区域没有模板。";
  text "noSandboxesForFilters" "没有 Sandbox 实例符合当前筛选条件。";
  text "sandboxPermissionDenied" "你没有权限管理这些 Sandbox 设置。";
  text "sandboxPermissionDeniedFor" "你没有权限管理 {{login}} 的 Sandbox 设置。";
  text "runCount" "{{count}} 次运行";
  text "runCount_other" "{{count}} 次运行";
  text "githubLogsUnavailableDescription"
    "GitHub 可能尚未为此任务生成可下载日志。任务从未到达 Runner、生成日志前被取消，或 GitHub 尚未发布日志归档时，都可能出现这种情况。";
  text "showTechnicalDetails" "显示技术详情";
  text "consoleStateUnavailable"
    "当前任务状态下，Sandbox 已不再接受 Web 控制台会话。";
  text "consoleCleanedUp" "Sandbox 已清理，无法再打开 Web 控制台会话。";
  text "consoleAvailabilityDescription"
    "Sandbox 任务处于创建、运行或停止中时可以使用 Web 控制台。{{reason}}";
  text "statusFailed" "失败";
  text "statusRunning" "运行中";
  text "statusPassed" "通过";
  text "pullRequestStatus" "PR {{status}}";
  text "workflowRunStatus" "运行{{status}}";
  text "branchStatus" "分支{{status}}";
  text "jobStatus" "任务{{status}}";
  text "pullRequestChecks" "Pull Request 检查";
  text "detached" "游离状态";
  text "commitTitle" "提交 {{sha}}";
  text "branchChecks" "分支检查";
  text "runTitle" "运行 {{id}}";
  text "manualRunner" "手动 Runner";
  text "scrollToBottom" "滚动到底部";
  text "cacheS3" "Cache S3";
  text "cacheS3Description"
    "配置用于 GitHub Actions 缓存存储的 S3 兼容 Bucket。Region 和 Endpoint 由上方的 Sandbox 服务区域选择决定。";
  text "cacheS3Region" "Region：";
  text "cacheS3Endpoint" "Endpoint：";
  text "cacheS3NoEndpoint"
    "所选 Sandbox 服务区域未配置 S3 Endpoint。请选择一个区域或联系管理员。";
  text "cacheS3Bucket" "Bucket";
  text "cacheS3BucketHint" "Bucket 必须位于所选 Sandbox Region 对应的 S3 Region。";
  text "cacheS3BucketPlaceholder" "github-actions-cache";
  text "cacheS3Prefix" "Prefix";
  text "cacheS3PrefixPlaceholder" "gh-actions-cache";
  text "cacheS3AccessKeyID" "Access Key ID";
  text "cacheS3AccessKeyIDPlaceholderNew" "输入新的 AK 以替换已保存的";
  text "cacheS3AccessKeyIDPlaceholder" "Access Key ID";
  text "cacheS3SecretAccessKey" "Secret Access Key";
  text "cacheS3SecretAccessKeyPlaceholderNew" "输入新的 SK 以替换已保存的";
  text "cacheS3SecretAccessKeyPlaceholder" "Secret Access Key";
  text "cacheS3Validating" "保存中";
  text "cacheS3SaveChanges" "保存更改";
  text "cacheS3Save" "保存 Cache S3";
  text "cacheS3Remove" "移除";
  text "cacheS3Configured" "已配置";
  text "cacheS3NotConfigured" "未保存 Cache S3 配置。";
  text "cacheS3SettingsSaved" "Cache S3 设置已保存";
  text "cacheS3SettingsRemoved" "Cache S3 设置已移除";
  text "cacheS3BucketRequired" "新配置需要填写 Bucket、AK 和 SK。";
  text "cacheS3RegionRequired" "请先选择 Sandbox 服务区域。";
  text "cacheS3SaveFailed" "保存 Cache S3 设置失败。";
  text "cacheS3RemoveFailed" "移除 Cache S3 设置失败。"].

Definition zh_app : list (string * resource) := [
  text "noRunnerSelected" "尚未选择 Runner";
  text "loadFailed" "无法加载日志";
  text "controlPlaneLoadFailed" "无法加载控制面数据";
  text "workspaceLoadFailed" "无法加载工作区数据";
  text "olderJobsLoadFailed" "无法加载更早的任务";
  text "accountSynced" "GitHub App 账号已同步";
  text "accountSyncFailed" "无法同步 GitHub App 账号";
  text "repositoriesLoadFailed" "无法加载 GitHub 仓库";
  text "accountsSyncFailed" "无法同步 GitHub App 账号";
  text "sandboxSaved" "Sandbox 服务设置已保存";
  text "apiKeyRemoved" "Sandbox API Key 已移除";
  text "adminRequired" "需要管理员权限";
  text "createRunnerFailed" "无法创建 Runner";
  text "stopRunnerFailed" "无法停止 Runner";
  text "retryRunnerFailed" "无法重试 Runner";
  text "matchFailed" "无法执行匹配测试";
  text "runnerIDCopied" "Runner ID 已复制";
  text "syncedGitHubAccounts" "已同步 {{count}} 个 GitHub App 账号";
  text "syncedGitHubAccounts_other" "已同步 {{count}} 个 GitHub App 账号";
  text "refreshingGitHubSignIn" "正在刷新 GitHub 登录...";
  text "tourProgressUpdateFailed" "Sandbox 设置已保存，但产品导览进度未更新";
  text "tourProgressUpdateFailedWithReason"
    "Sandbox 设置已保存，但产品导览进度未更新：{{reason}}";
  text "diagnosticsLoadFailed" "无法加载诊断信息";
  text "repositoryFormatRequired" "repository_full_name 必须是 owner/repo 格式";
  text "runnerQueued" "Runner {{id}} 已排队";
  text "runnerCompleted" "Runner {{id}} 已完成";
  text "runnerRequeued" "Runner {{id}} 已重新排队"].

Definition zh_tour : list (string * resource) := [
  text "welcomeTitle" "欢迎使用 Qiniu Runner";
  text "welcomeContent"
    "先快速了解工作区，再完成一个设置步骤，即可启用你自己的 Sandbox 服务。";
  text "jobsContent"
    "按 Pull Request、分支、工作流运行或手动请求跟踪任务，并在一处打开日志和终端。";
  text "repositoriesContent"
    "连接 GitHub 仓库，并查看每个账号或组织是否具备运行所需的 Sandbox 服务。";
  text "accountMenuContent"
    "在这里打开设置、切换主题、重新查看导览或退出登录。";
  text "readinessTitle" "Runner 就绪状态";
  text "readinessContent"
    "系统会同时检查所选账号或组织的仓库访问权限和 Sandbox 服务状态。";
  text "sandboxReadiness" "Sandbox 就绪状态";
  text "sandboxContentBefore"
    "已就绪账号无需操作。需要设置时，请使用“配置 Sandbox”打开设置，选择区域并从以下位置获取 API Key：";
  text "qiniuPortal" "七牛云控制台";
  text "quickTour" "快速导览";
  text "skip" "跳过导览";
  text "back" "上一步";
  text "next" "下一步";
  text "configureAPIKey" "配置 API Key";
  text "saveFailed" "无法保存产品导览进度"].

Definition zh : resource := RObject [
  group "common" zh_common;
  group "landing" zh_landing;
  group "docs" zh_docs;
  group "auth" zh_auth;
  group "sidebar" zh_sidebar;
  group "admin" (zh_admin_1 ++ zh_admin_2);
  group "repositories" zh_repositories;
  group "user" (zh_user_1 ++ zh_user_2);
  group "app" zh_app;
  group "tour" zh_tour].
