(* ===== verification/I18n.v ===== *)
(** Choosing and storing the language: src/ui/src/i18n.ts, and what the
    resource check means for the texts the console ships.

    [i18next] itself is not modelled: the resources it is given are, and the
    language it is told. *)
From S2P Require Import Prelude.
From S2P Require Import JsString.
From S2P Require Import JsArray.
From S2P Require Import Resources.
From S2P Require Import LocaleEn.
From S2P Require Import LocaleZh.

Inductive SupportedLanguage := En | Zh.

#[export] Instance SupportedLanguage_eq_dec : EqDecision SupportedLanguage.
Proof. solve_decision. Defined.

Definition language_code (l : SupportedLanguage) : string :=
  match l with En => "en" | Zh => "zh" end.

Definition supportedLanguages : list string := ["en"; "zh"].

Definition languageStorageKey : string := "runnerd:language".

Definition normalizeLanguage (language : option string) : option SupportedLanguage :=
  let normalized := (fun l => toLowerCase (trim l)) <$> language in
  match normalized with
  | Some n =>
      if bool_decide (n = "en") || startsWith "en-" n then Some En
      else if bool_decide (n = "zh") || startsWith "zh-" n then Some Zh
      else None
  | None => None
  end.

(** What the browser offers: no storage, storage that throws, or items that can
    be read and, if [writable], written. *)
Inductive BrowserStorage :=
  | NoStorage
  | DeniedStorage
  | Stored (items : gmap string string) (writable : bool).

(** [storage.getItem(key)]; the storage that throws reads as [null]. *)
Definition savedLanguage (storage : BrowserStorage) : option string :=
  match storage with
  | Stored items _ => items !! languageStorageKey
  | _ => None
  end.

Definition detectLanguage (storage : BrowserStorage) (browserLanguage : option string) :
    SupportedLanguage :=
  match normalizeLanguage (savedLanguage storage) with
  | Some l => l
  | None => default En (normalizeLanguage browserLanguage)
  end.

Record Page := {
  pg_storage : BrowserStorage;
  pg_documentLanguage : string;
  pg_language : SupportedLanguage;
}.

(** Loading the module. *)
Definition initPage (storage : BrowserStorage) (browserLanguage : option string) : Page :=
  let initialLanguage := detectLanguage storage browserLanguage in
  {| pg_storage := storage; pg_documentLanguage := language_code initialLanguage;
     pg_language := initialLanguage |}.

Definition storeLanguage (language : SupportedLanguage) (storage : BrowserStorage) :
    BrowserStorage :=
  match storage with
  | Stored items true => Stored (<[languageStorageKey := language_code language]> items) true
  | s => s
  end.

Definition setLanguage (language : SupportedLanguage) (p : Page) : Page := {|
  pg_storage := storeLanguage language (pg_storage p);
  pg_documentLanguage := language_code language;
  pg_language := language |}.

(** [languageMenuOptions] of language-switcher-options.ts; [t] looks texts up. *)
Definition languageMenuOptions (t : string -> string) : list (SupportedLanguage * string) :=
  [(En, t "common.english"); (Zh, t "common.chinese")].

Definition resources (l : SupportedLanguage) : resource :=
  match l with En => en | Zh => zh end.

(** ** Theorems *)

Lemma normalize_code (l : SupportedLanguage) : normalizeLanguage (Some (language_code l)) = Some l.
Proof. by destruct l. Qed.

Lemma startsWith_dash (p n : string) (rest : list string) :
  free "-" p = true -> split_on "-" n = p :: rest ->
  bool_decide (n = p) || startsWith (p +:+ "-") n = true.
Proof.
  intros Hp E. pose proof (join_split "-" n) as J. rewrite E in J. destruct rest as [|w ws].
  - simpl in J. subst. by rewrite bool_decide_eq_true_2.
  - rewrite orb_true_iff. right. apply startsWith_spec. exists (join "-" (w :: ws)).
    rewrite <- J, sapp_assoc. reflexivity.
Qed.

Lemma dash_startsWith (p n : string) :
  free "-" p = true -> bool_decide (n = p) || startsWith (p +:+ "-") n = true ->
  exists rest, split_on "-" n = p :: rest.
Proof.
  intros Hp [->%bool_decide_eq_true_1|[r ->]%startsWith_spec]%orb_true_iff.
  - exists []. by apply split_on_free.
  - exists (split_on "-" r). rewrite sapp_assoc. by apply split_on_app.
Qed.

(** A language tag is recognised exactly when its primary subtag, ignoring
    case and surrounding white space, is a supported language, and it is
    recognised as that language. *)
Theorem normalizeLanguage_primary_subtag (tag : string) (l : SupportedLanguage) :
  normalizeLanguage (Some tag) = Some l <->
  exists rest, split_on "-" (toLowerCase (trim tag)) = language_code l :: rest.
Proof.
  unfold normalizeLanguage. cbn [fmap option_fmap option_map].
  set (n := toLowerCase (trim tag)). clearbody n. split.
  - destruct (bool_decide (n = "en") || startsWith "en-" n) eqn:E1.
    + intros [= <-]. by apply dash_startsWith.
    + destruct (bool_decide (n = "zh") || startsWith "zh-" n) eqn:E2; [|done].
      intros [= <-]. by apply dash_startsWith.
  - intros [rest E]. destruct l.
    + pose proof (startsWith_dash "en" n rest eq_refl E) as Es. simpl in Es. by rewrite Es.
    + pose proof (startsWith_dash "zh" n rest eq_refl E) as Es. simpl in Es. rewrite Es.
      destruct (bool_decide (n = "en") || startsWith "en-" n) eqn:E1; [|done].
      apply dash_startsWith in E1 as [r E1]; [|done]. rewrite E in E1. done.
Qed.

(** A chosen language is the page's language and the document's at once,
    and where the browser stores it, it is the language of every later visit,
    whatever language the browser prefers; where the browser cannot store it,
    the stored choice is unchanged. *)
Theorem setLanguage_persists (l : SupportedLanguage) (p : Page) (browserLanguage : option string) :
  let p' := setLanguage l p in
  pg_language p' = l /\ pg_documentLanguage p' = language_code l /\
  match pg_storage p with
  | Stored _ true => pg_language (initPage (pg_storage p') browserLanguage) = l
  | s => pg_storage p' = s
  end.
Proof.
  destruct p as [[| |items []] d l0]; split_and!; try reflexivity.
  cbn -[detectLanguage insert]. unfold detectLanguage, savedLanguage.
  by rewrite lookup_insert_eq, normalize_code.
Qed.

(** ** The shipped texts *)

Lemma shipped_parallel : parallel en zh.
Proof.
  refine (proj1 (compareResources_ok en zh "" _ _) _); vm_compute; reflexivity.
Qed.

(** C32.  Every text one language has the other has too: at any path of keys and
    indices, a value of the English resource is matched by one of the Chinese
    resource and conversely, of the same shape; a text by a text that is not
    blank and interpolates the same variables. *)
Theorem shipped_texts_translated (l : SupportedLanguage) (path : list selector) (a : resource) :
  resource_at path (resources l) = Some a ->
  forall l', exists b, resource_at path (resources l') = Some b /\
    (resourceValueType a = resourceValueType b) /\
    forall s, a = RText s -> exists t, b = RText t /\ trim t <> "" /\
      forall v, v ∈ variables s <-> v ∈ variables t.
Proof.
  intros Ha l'.
  assert (exists b, resource_at path (resources l') = Some b /\ parallel a b) as (b & Hb & Hp).
  { assert (parallel (resources l) (resources l')) as Hp; [|by eapply parallel_at].
    pose proof shipped_parallel as Hs. pose proof (parallel_sym _ _ Hs) as Hz.
    assert (parallel en en /\ parallel zh zh) as [H1 H2].
    { split; refine (proj1 (compareResources_ok _ _ "" _ _) _); vm_compute; reflexivity. }
    by destruct l, l'. }
  exists b. split; [done|]. destruct Hp as [s t H1 H2 H3|? ? _|? ? _ _].
  - split; [done|]. intros ? [= <-]. by exists t.
  - by split.
  - by split.
Qed.

Lemma shipped_texts_translated_witness :
  exists t, resource_at [Key "user"; Key "jobCount"] (resources Zh) = Some (RText t) /\
    forall v, v ∈ variables "{{count}} job" <-> v ∈ variables t.
Proof.
  destruct (shipped_texts_translated En [Key "user"; Key "jobCount"] (RText "{{count}} job")
    ltac:(vm_compute; reflexivity) Zh) as (b & Hb & _ & Ht).
  destruct (Ht _ eq_refl) as (t & -> & _ & Hv). exists t. split; [exact Hb|exact Hv].
Defined.
