(* ===== verification/Labels.v ===== *)
(** Lists of labels typed as text: [parseLabels] of src/ui/src/App.tsx, shared
    by the runner-request form, the matching test and the catalog form. *)
From S2P Require Import Prelude.
From S2P Require Import JsString.

Definition parseLabels (value : string) : list string :=
  filter (fun label => str_truthy label = true) (map trim (split_on "," value)).

(** A label that survives being written into a form and read back. *)
Definition clean_label (label : string) : Prop :=
  label <> "" /\ trim label = label /\ free "," label = true.

#[export] Instance clean_label_dec (label : string) : Decision (clean_label label).
Proof. unfold clean_label. apply _. Defined.

Lemma parseLabels_clean (value : string) : Forall clean_label (parseLabels value).
Proof.
  apply Forall_forall. intros w [Hw Hin]%list_elem_of_filter.
  apply list_elem_of_fmap in Hin as (v & -> & Hv).
  split; [by apply str_truthy_true|]. split; [apply trim_trim|]. apply trim_free.
  exact (proj1 (Forall_forall _ _) (split_on_pieces_free "," value) v Hv).
Qed.
#[export] Hint Resolve parseLabels_clean : runnerd.

Lemma parseLabels_join (l : list string) :
  Forall clean_label l -> parseLabels (join "," l) = l.
Proof.
  intros Hl. destruct l as [|w l]; [by vm_compute|]. unfold parseLabels.
  rewrite (split_join "," (w :: l)); [|done|eapply Forall_impl; [exact Hl|]; by intros ? (_ & _ & ?)].
  assert (map trim (w :: l) = w :: l) as ->.
  { induction Hl as [|v m (_ & Hv & _) _ IH]; [done|]. simpl. by rewrite Hv, IH. }
  apply filter_all. intros v Hv. apply str_truthy_true.
  exact (proj1 (proj1 (Forall_forall _ _) Hl v Hv)).
Qed.
