(* ===== verification/RunnerCatalog.v ===== *)
(** The runner-spec catalog of the admin console:
    src/ui/src/hooks/use-runner-catalog.ts and the dialog of
    src/ui/src/components/runner-specs-section.tsx.

    [submitRunnerSpecChanges] turns the form into the request that is sent;
    [Catalog] is the hook's state with the saves and deletions in flight, and
    [catalog_step] its events. *)
From S2P Require Import Prelude.
From S2P Require Import JsString.
From S2P Require Import JsUri.
From S2P Require Import JsNumber.
From S2P Require Import AdminTypes.
From S2P Require Import Errors.
From S2P Require Import Labels.

(** ** The form and the request *)

Record RunnerSpecFormState := {
  form_name : string;
  form_labels : string;
  form_required_labels : string;
  form_template_id : string;
  form_runner_group : string;
  form_max_concurrency : string;
  form_min_idle : string;
  form_priority : string;
  form_enabled : bool;
}.

Definition emptyRunnerSpecForm : RunnerSpecFormState := {|
  form_name := ""; form_labels := "self-hosted,e2b"; form_required_labels := "";
  form_template_id := ""; form_runner_group := ""; form_max_concurrency := "10";
  form_min_idle := "0"; form_priority := "0"; form_enabled := true |}.

(** The body: capacity and availability of a managed spec, or all the fields,
    with the name when the spec is new. *)
Inductive SpecPayload :=
  | ManagedPayload (max_concurrency min_idle : number) (enabled : bool)
  | FullPayload (name : option string) (labels required_labels : list string)
      (template_id runner_group : string) (max_concurrency min_idle priority : number)
      (enabled : bool).

Record SpecRequest := { sr_url : string; sr_method : string; sr_body : SpecPayload }.

Definition isManaged (editing : option RunnerSpec) : bool :=
  match editing with
  | Some spec => match spec_managed_by spec with Some m => str_truthy (trim m) | None => false end
  | None => false
  end.

Definition specName (editing : option RunnerSpec) (form : RunnerSpecFormState) : string :=
  match editing with
  | Some spec => if str_truthy (spec_name spec) then spec_name spec else trim (form_name form)
  | None => trim (form_name form)
  end.

(** The request that is sent and the name returned once it succeeds. *)
Definition submitRunnerSpecChanges (editing : option RunnerSpec) (form : RunnerSpecFormState) :
    SpecRequest * string :=
  let name := specName editing form in
  let payload :=
    if isManaged editing then
      ManagedPayload (or_zero (Number (form_max_concurrency form)))
        (or_zero (Number (form_min_idle form))) (form_enabled form)
    else
      FullPayload (match editing with Some _ => None | None => Some name end)
        (parseLabels (form_labels form)) (parseLabels (form_required_labels form))
        (trim (form_template_id form)) (trim (form_runner_group form))
        (or_zero (Number (form_max_concurrency form))) (or_zero (Number (form_min_idle form)))
        (or_zero (Number (form_priority form))) (form_enabled form) in
  ({| sr_url := match editing with
                | Some _ => "/runner_specs/" +:+ encodeURIComponent name
                | None => "/runner_specs"
                end;
      sr_method := match editing with Some _ => "PATCH" | None => "POST" end;
      sr_body := payload |}, name).

Definition formOf (spec : RunnerSpec) : RunnerSpecFormState := {|
  form_name := spec_name spec;
  form_labels := join "," (spec_labels spec);
  form_required_labels := join "," (spec_required_labels spec);
  form_template_id := spec_template_id spec;
  form_runner_group := or_str (spec_runner_group spec) "";
  form_max_concurrency := pretty (spec_max_concurrency spec);
  form_min_idle := pretty (spec_min_idle spec);
  form_priority := pretty (spec_priority spec);
  form_enabled := spec_enabled spec |}.

(** ** The hook *)

(** A save waits for its request, then for the catalog to be loaded again. *)
Inductive Save := Submitting (request : SpecRequest) (name : string) | Reloading.

Record Deletion := { del_name : string; del_formName : string }.

Record Catalog := {
  rc_open : bool;
  rc_saving : bool;
  rc_savingRef : bool;
  rc_editing : option RunnerSpec;
  rc_form : RunnerSpecFormState;
  rc_saves : list Save;
  rc_deletions : list Deletion;
  rc_requests : list SpecRequest;
}.

Definition initialCatalog : Catalog := {|
  rc_open := false; rc_saving := false; rc_savingRef := false; rc_editing := None;
  rc_form := emptyRunnerSpecForm; rc_saves := []; rc_deletions := []; rc_requests := [] |}.

Definition with_form (open : bool) (editing : option RunnerSpec) (form : RunnerSpecFormState)
    (c : Catalog) : Catalog := {|
  rc_open := open; rc_saving := rc_saving c; rc_savingRef := rc_savingRef c;
  rc_editing := editing; rc_form := form; rc_saves := rc_saves c;
  rc_deletions := rc_deletions c; rc_requests := rc_requests c |}.

Definition with_saves (open saving : bool) (saves : list Save) (c : Catalog) : Catalog := {|
  rc_open := open; rc_saving := saving; rc_savingRef := saving; rc_editing := rc_editing c;
  rc_form := rc_form c; rc_saves := saves; rc_deletions := rc_deletions c;
  rc_requests := rc_requests c |}.

Definition resetRunnerSpecForm (c : Catalog) : Catalog :=
  with_form (rc_open c) None emptyRunnerSpecForm c.

(** The create button of the section. *)
Definition openCreateDialog (c : Catalog) : Catalog :=
  with_form true None emptyRunnerSpecForm c.

Definition loadRunnerSpecIntoForm (spec : RunnerSpec) (c : Catalog) : Catalog :=
  with_form true (Some spec) (formOf spec) c.

(** The text fields of the form. *)
Inductive SpecField := NameField | LabelsField | RequiredLabelsField | TemplateIDField
  | RunnerGroupField | MaxConcurrencyField | MinIdleField | PriorityField.

#[export] Instance SpecField_eq_dec : EqDecision SpecField.
Proof. solve_decision. Defined.

Definition fieldText (field : SpecField) (form : RunnerSpecFormState) : string :=
  match field with
  | NameField => form_name form
  | LabelsField => form_labels form
  | RequiredLabelsField => form_required_labels form
  | TemplateIDField => form_template_id form
  | RunnerGroupField => form_runner_group form
  | MaxConcurrencyField => form_max_concurrency form
  | MinIdleField => form_min_idle form
  | PriorityField => form_priority form
  end.

(** [onChange] of a field: the form with that field replaced. *)
Definition setField (field : SpecField) (text : string) (form : RunnerSpecFormState) :
    RunnerSpecFormState :=
  let at_ f old := if decide (f = field) then text else old in {|
  form_name := at_ NameField (form_name form);
  form_labels := at_ LabelsField (form_labels form);
  form_required_labels := at_ RequiredLabelsField (form_required_labels form);
  form_template_id := at_ TemplateIDField (form_template_id form);
  form_runner_group := at_ RunnerGroupField (form_runner_group form);
  form_max_concurrency := at_ MaxConcurrencyField (form_max_concurrency form);
  form_min_idle := at_ MinIdleField (form_min_idle form);
  form_priority := at_ PriorityField (form_priority form);
  form_enabled := form_enabled form |}.

Definition setEnabled (enabled : bool) (form : RunnerSpecFormState) : RunnerSpecFormState := {|
  form_name := form_name form; form_labels := form_labels form;
  form_required_labels := form_required_labels form; form_template_id := form_template_id form;
  form_runner_group := form_runner_group form;
  form_max_concurrency := form_max_concurrency form; form_min_idle := form_min_idle form;
  form_priority := form_priority form; form_enabled := enabled |}.

(** The fields that cannot be edited: the name of a spec that exists, and all but
    the capacity of a managed one (whose template is shown in another field). *)
Definition fieldDisabled (editing : option RunnerSpec) (field : SpecField) : bool :=
  match field with
  | NameField => bool_decide (editing <> None)
  | MaxConcurrencyField | MinIdleField => false
  | _ => isManaged editing
  end.

(** A field is edited; all are disabled during a save. *)
Definition editField (field : SpecField) (text : string) (c : Catalog) : Catalog :=
  if rc_saving c || fieldDisabled (rc_editing c) field then c
  else with_form (rc_open c) (rc_editing c) (setField field text (rc_form c)) c.

Definition editEnabled (enabled : bool) (c : Catalog) : Catalog :=
  if rc_saving c then c
  else with_form (rc_open c) (rc_editing c) (setEnabled enabled (rc_form c)) c.

(** [onOpenChange] of the dialog. *)
Definition changeOpen (open : bool) (c : Catalog) : Catalog :=
  if rc_saving c then c else with_form open (rc_editing c) (rc_form c) c.

Definition saveRunnerSpec (c : Catalog) : Catalog :=
  if rc_savingRef c then c
  else
    let '(request, name) := submitRunnerSpecChanges (rc_editing c) (rc_form c) in
    {| rc_open := rc_open c; rc_saving := true; rc_savingRef := true;
       rc_editing := rc_editing c; rc_form := rc_form c;
       rc_saves := rc_saves c ++ [Submitting request name];
       rc_deletions := rc_deletions c; rc_requests := rc_requests c ++ [request] |}.

(** A save settles its current wait; [others] are the other saves. [loadAll]
    catches its own errors. *)
Definition settleSave (save : Save) (others : list Save) (failed : bool) (c : Catalog) : Catalog :=
  match save with
  | Submitting _ _ =>
      if failed then with_saves (rc_open c) false others c
      else with_saves false (rc_saving c) (others ++ [Reloading]) c
  | Reloading => with_saves (rc_open c) false others c
  end.

Definition deleteRunnerSpec (name : string) (c : Catalog) : Catalog := {|
  rc_open := rc_open c; rc_saving := rc_saving c; rc_savingRef := rc_savingRef c;
  rc_editing := rc_editing c; rc_form := rc_form c; rc_saves := rc_saves c;
  rc_deletions :=
    rc_deletions c ++ [{| del_name := name; del_formName := form_name (rc_form c) |}];
  rc_requests := rc_requests c |}.

(** A deletion settles, with the form its closure saw. *)
Definition settleDeletion (d : Deletion) (others : list Deletion) (failed : bool) (c : Catalog) :
    Catalog :=
  let c := {|
    rc_open := rc_open c; rc_saving := rc_saving c; rc_savingRef := rc_savingRef c;
    rc_editing := rc_editing c; rc_form := rc_form c; rc_saves := rc_saves c;
    rc_deletions := others; rc_requests := rc_requests c |} in
  if failed then c
  else if bool_decide (del_formName d = del_name d) then resetRunnerSpecForm c else c.

(** The section is below the dialog: a spec is created or deleted while it is
    closed.  A spec is also opened from the overview. *)
Inductive catalog_step : Catalog -> Catalog -> Prop :=
  | cs_create c : rc_open c = false -> catalog_step c (openCreateDialog c)
  | cs_edit spec c : catalog_step c (loadRunnerSpecIntoForm spec c)
  | cs_field field text c : rc_open c = true -> catalog_step c (editField field text c)
  | cs_enabled enabled c : rc_open c = true -> catalog_step c (editEnabled enabled c)
  | cs_close c : rc_open c = true -> catalog_step c (changeOpen false c)
  | cs_save c : rc_open c = true -> catalog_step c (saveRunnerSpec c)
  | cs_settle l save r failed c :
      rc_saves c = l ++ save :: r -> catalog_step c (settleSave save (l ++ r) failed c)
  | cs_delete spec c :
      rc_open c = false -> isManaged (Some spec) = false ->
      catalog_step c (deleteRunnerSpec (spec_name spec) c)
  | cs_deleted l d r failed c :
      rc_deletions c = l ++ d :: r -> catalog_step c (settleDeletion d (l ++ r) failed c).

Inductive catalog_reachable : Catalog -> Prop :=
  | cr_start : catalog_reachable initialCatalog
  | cr_next c c' : catalog_reachable c -> catalog_step c c' -> catalog_reachable c'.

(** ** Theorems *)

Lemma safe_or_zero (x : number) (n : Z) : safe_integer x = Some n -> safe_integer (or_zero x) = Some n.
Proof.
  destruct x as [|b|m e]; [done|done|]. destruct m; [|done..].
  unfold safe_integer, or_zero, integer_of.
  destruct (0 <=? e)%Z; [by rewrite Z.mul_0_l|]. rewrite Zmod_0_l, Zdiv_0_l. done.
Qed.

Lemma field_number (n : Z) :
  (Z.abs n <= max_safe)%Z -> safe_integer (or_zero (Number (pretty n))) = Some n.
Proof. intros H. by apply safe_or_zero, Number_String_roundtrip. Qed.


(** The bodies: labels are never blank and carry no comma, and a managed spec
    never has its identity changed. *)
Lemma submitted_labels (editing : option RunnerSpec) (form : RunnerSpecFormState) :
  match sr_body (fst (submitRunnerSpecChanges editing form)) with
  | ManagedPayload _ _ _ => isManaged editing = true
  | FullPayload name labels required _ _ _ _ _ _ =>
      isManaged editing = false /\ Forall clean_label labels /\ Forall clean_label required /\
      (is_Some name <-> editing = None)
  end.
Proof.
  unfold submitRunnerSpecChanges. simpl. destruct (isManaged editing); [done|].
  split_and!; [done|auto with runnerd..|]. destruct editing; simpl; [|by split].
  split; [by intros []|done].
Qed.

Definition wf_catalog (c : Catalog) : Prop :=
  rc_saving c = rc_savingRef c /\
  List.length (rc_saves c) = (if rc_savingRef c then 1 else 0)%nat.

Lemma wf_with_form (open : bool) (editing : option RunnerSpec) (form : RunnerSpecFormState)
    (c : Catalog) : wf_catalog c -> wf_catalog (with_form open editing form c).
Proof. done. Qed.

Lemma wf_catalog_step (c c' : Catalog) : wf_catalog c -> catalog_step c c' -> wf_catalog c'.
Proof.
  intros Hwf Hstep. pose proof Hwf as [Hs Hl]. destruct Hstep as [c Ho|spec c|field text c Ho|
    enabled c Ho|c Ho|c Ho|l save r failed c E|spec c Ho Hm|l d r failed c E].
  - by apply wf_with_form.
  - by apply wf_with_form.
  - clear Hs Hl. unfold editField. case_match; [done|by apply wf_with_form].
  - clear Hs Hl. unfold editEnabled. destruct (rc_saving c); [done|by apply wf_with_form].
  - clear Hs Hl. unfold changeOpen. destruct (rc_saving c); [done|by apply wf_with_form].
  - unfold saveRunnerSpec. destruct (rc_savingRef c) eqn:Er; [done|].
    split; simpl; [done|]. destruct (rc_saves c); [done|done].
  - rewrite E, length_app in Hl. simpl in Hl. destruct (rc_savingRef c) eqn:Er; [|lia].
    assert (List.length (l ++ r) = 0%nat) as H0 by (rewrite length_app; lia).
    destruct save; simpl; [destruct failed|]; split; simpl; try done.
    rewrite length_app, H0, Hs. done.
  - done.
  - unfold settleDeletion. destruct failed; [done|]. by case_bool_decide.
Qed.

(** However the catalog is used, at most one save is under way, the form
    shows it exactly then, and a save is sent only when none is under way. *)
Theorem one_save_at_a_time (c : Catalog) :
  catalog_reachable c ->
  (List.length (rc_saves c) <= 1)%nat /\
  (rc_saving c = true <-> rc_saves c <> []) /\
  (forall c', catalog_step c c' -> rc_requests c' <> rc_requests c -> rc_saves c = []).
Proof.
  intros Hc. assert (wf_catalog c) as [Hs Hl].
  { induction Hc as [|c c' _ IH Hstep]; [done|]. by eapply wf_catalog_step. }
  rewrite Hs. split_and!.
  - rewrite Hl. destruct (rc_savingRef c); lia.
  - destruct (rc_savingRef c), (rc_saves c); simpl in Hl; split; done.
  - intros c' Hstep Hne.
    destruct Hstep as [|?|? ? c|? c|c|c|? save ? failed c|?|? d ? failed c]; try (by destruct Hne).
    + unfold editField in Hne. by destruct (_ || _).
    + unfold editEnabled in Hne. by destruct (rc_saving c).
    + unfold changeOpen in Hne. by destruct (rc_saving c).
    + unfold saveRunnerSpec in Hne. destruct (rc_savingRef c); [done|].
      by destruct (rc_saves c).
    + destruct save; simpl in Hne; [by destruct failed|done].
    + unfold settleDeletion in Hne. destruct failed; [done|]. by case_bool_decide.
Qed.

(** ** Examples *)

Definition example_spec : RunnerSpec := {|
  spec_name := "large runner"; spec_labels := ["self-hosted"; "e2b"; "large"];
  spec_required_labels := ["large"]; spec_template_id := "tpl-1";
  spec_default_template_name := None; spec_managed_by := None; spec_catalog_revision := None;
  spec_runner_group := None; spec_max_concurrency := 10; spec_min_idle := 0;
  spec_priority := -5; spec_enabled := true; spec_created_at := ""; spec_updated_at := "" |}.


Lemma one_save_at_a_time_witness :
  let c := saveRunnerSpec (loadRunnerSpecIntoForm example_spec initialCatalog) in
  List.length (rc_saves c) = 1%nat /\ rc_saving c = true /\
  List.length (rc_requests (saveRunnerSpec c)) = 1%nat.
Proof.
  cbv zeta. split; [reflexivity|]. split; [|reflexivity].
  apply (one_save_at_a_time (saveRunnerSpec (loadRunnerSpecIntoForm example_spec initialCatalog))).
  - eapply cr_next; [|by apply cs_save]. eapply cr_next; [|apply cs_edit]. apply cr_start.
  - discriminate.
Defined.
