(* ===== verification/AdminFormat.v ===== *)
(** Statuses, metrics, times and durations: src/ui/src/admin-format.ts.

    [Date.parse] and [toLocaleString] depend on the browser and are parameters:
    [parse] gives the milliseconds of a date text, or nothing for [NaN]. *)
From S2P Require Import Prelude.
From S2P Require Import JsString.
From S2P Require Import AdminTypes.

Definition runnerStatusKeys (status : RunnerDisplayStatus) : string :=
  match status with
  | Status queued => "common.statusQueued"
  | Status creating => "common.statusCreating"
  | Status running => "common.statusRunning"
  | Status stopping => "common.statusStopping"
  | Status completed => "common.statusCompleted"
  | Status failed => "common.statusFailed"
  | unmatched => "common.statusUnmatched"
  end.

Definition runnerStatusLabel (t : translate) (status : RunnerDisplayStatus) : string :=
  t (runnerStatusKeys status) [].

Definition runnerDisplayStatus (runner : RunnerState) : RunnerDisplayStatus :=
  if bool_decide (status runner = failed) &&
     bool_decide (failure_stage runner = Some "admission") &&
     bool_decide (failure_reason runner = Some "profile_labels_not_matched")
  then unmatched
  else Status (status runner).

Definition count_display (s : RunnerDisplayStatus) (runners : list RunnerState) : nat :=
  List.length (filter (fun runner => runnerDisplayStatus runner = s) runners).

Definition count_active (runners : list RunnerState) : nat :=
  List.length (filter (fun runner => status runner ∈ activeStatuses) runners).

Definition runnerMetrics (runners : list RunnerState) (runnerSpecCount : nat) (t : translate) :
    list Metric := [
  {| metric_id := "active"; metric_label := t "admin.activeMetric" [];
     metric_value := Z.of_nat (count_active runners);
     metric_description := t "admin.activeMetricDescription" [] |};
  {| metric_id := "completed"; metric_label := t "admin.completedMetric" [];
     metric_value := Z.of_nat (count_display (Status completed) runners);
     metric_description := t "admin.completedMetricDescription" [] |};
  {| metric_id := "failed"; metric_label := t "admin.failedMetric" [];
     metric_value := Z.of_nat (count_display (Status failed) runners);
     metric_description := t "admin.failedMetricDescription" [] |};
  {| metric_id := "runner-specs"; metric_label := t "sidebar.runnerSpecs" [];
     metric_value := Z.of_nat runnerSpecCount;
     metric_description := t "admin.runnerSpecsMetricDescription" [] |}].

Definition accountMetrics (stats : AdminAccountStats) (t : translate) : list Metric := [
  {| metric_id := "accounts"; metric_label := t "admin.accountsMetric" [];
     metric_value := total_accounts stats;
     metric_description := t "admin.accountsMetricDescription" [] |};
  {| metric_id := "administrators"; metric_label := t "admin.administratorsMetric" [];
     metric_value := admin_accounts stats;
     metric_description := t "admin.administratorsMetricDescription" [] |};
  {| metric_id := "users"; metric_label := t "admin.users" [];
     metric_value := user_accounts stats;
     metric_description := t "admin.usersMetricDescription" [] |};
  {| metric_id := "identities"; metric_label := t "admin.linkedIdentities" [];
     metric_value := stats_oauth_identities stats;
     metric_description := t "admin.identitiesMetricDescription" [] |}].

(** The metrics split the requests: each is counted as active, completed,
    failed or, when no runner spec matched its labels, in none of these; the
    failed ones never include those. *)
Theorem runnerMetrics_partition (runners : list RunnerState) (specs : nat) (t : translate) :
  exists active completed_ failed_,
    metric_value <$> runnerMetrics runners specs t =
      [Z.of_nat active; Z.of_nat completed_; Z.of_nat failed_; Z.of_nat specs] /\
    (active + completed_ + failed_ + count_display unmatched runners =
       List.length runners)%nat /\
    active = List.length (filter (fun runner => status runner <> completed /\
                                  status runner <> failed) runners).
Proof.
  exists (count_active runners), (count_display (Status completed) runners),
    (count_display (Status failed) runners).
  split; [reflexivity|]. unfold count_active, count_display.
  induction runners as [|r runners [IH1 IH2]]; [done|].
  assert (status r ∈ activeStatuses <-> status r <> completed /\ status r <> failed) as Ha.
  { unfold activeStatuses. destruct (status r); set_solver. }
  rewrite !filter_cons. split.
  - destruct (decide (status r ∈ activeStatuses)) as [Hr|Hr].
    + apply Ha in Hr as [Hc Hf].
      assert (runnerDisplayStatus r = Status (status r)) as ->.
      { unfold runnerDisplayStatus. by rewrite bool_decide_eq_false_2. }
      rewrite !decide_False by congruence. simpl. lia.
    + assert (status r = completed \/ status r = failed) as Hcf.
      { destruct (status r); unfold activeStatuses in Hr; set_solver. }
      assert (runnerDisplayStatus r = Status completed \/ runnerDisplayStatus r = Status failed \/
        runnerDisplayStatus r = unmatched) as Hd.
      { unfold runnerDisplayStatus. destruct Hcf as [-> | ->]; case_match; auto. }
      destruct Hd as [-> | [-> | ->]]; simpl; lia.
  - destruct (decide (status r ∈ activeStatuses)) as [H|H];
      destruct (decide (status r <> completed /\ status r <> failed)) as [H'|H']; simpl;
      [by rewrite IH2|tauto|tauto|done].
Qed.

(** ** Times *)

Section dates.
Context (parse : string -> option Z) (toLocaleString : Z -> option string -> string).

Definition formatTime (value : option string) (locale : option string) : string :=
  match value with
  | Some v =>
      if str_truthy v then
        match parse v with Some ms => toLocaleString ms locale | None => v end
      else "-"
  | None => "-"
  end.

Definition timeValue (value : option string) : Z :=
  match value with
  | Some v => if str_truthy v then default 0%Z (parse v) else 0
  | None => 0
  end.

(** [Math.round] of the seconds between two times in milliseconds. *)
Definition roundedSeconds (start stop : Z) : Z := ((stop - start) + 500) / 1000.

Definition durationText (totalSeconds : Z) : string :=
  (if totalSeconds <? 60 then pretty totalSeconds +:+ "s"
   else
     let minutes := totalSeconds / 60 in
     let seconds := totalSeconds mod 60 in
     if minutes <? 60 then
       if negb (seconds =? 0) then pretty minutes +:+ "m " +:+ pretty seconds +:+ "s"
       else pretty minutes +:+ "m"
     else
       let hours := minutes / 60 in
       pretty hours +:+ "h " +:+ pretty (minutes mod 60) +:+ "m")%Z.

Definition formatRunnerDuration (job : RunnerState) : string :=
  let start := timeValue (or_opt (running_at job) (Some (created_at job))) in
  let stop := timeValue (or_opt (completed_at job) (or_opt (failed_at job) (Some (updated_at job)))) in
  if (start =? 0)%Z || (stop =? 0)%Z || (stop <=? start)%Z then ""
  else durationText (Z.max 0 (roundedSeconds start stop)).
End dates.

(** A duration is read as hours, minutes and seconds. *)
Inductive duration_reads : string -> Z -> Z -> Z -> Prop :=
  | reads_seconds s : duration_reads (pretty s +:+ "s") 0 0 s
  | reads_minutes m : duration_reads (pretty m +:+ "m") 0 m 0
  | reads_minutes_seconds m s :
      s <> 0%Z -> duration_reads (pretty m +:+ "m " +:+ pretty s +:+ "s") 0 m s
  | reads_hours h m : duration_reads (pretty h +:+ "h " +:+ pretty m +:+ "m") h m 0.

Lemma durationText_reads (total : Z) :
  (0 <= total)%Z ->
  exists h m s, duration_reads (durationText total) h m s /\
    (0 <= h /\ 0 <= m < 60 /\ 0 <= s < 60)%Z /\
    (3600 * h + 60 * m + s <= total < 3600 * h + 60 * m + s + 60)%Z /\
    (h = 0 -> 60 * m + s = total)%Z.
Proof.
  intros H. unfold durationText.
  pose proof (Z.div_mod total 60 ltac:(lia)). pose proof (Z.mod_pos_bound total 60 ltac:(lia)).
  set (m := (total / 60)%Z) in *. set (s := (total mod 60)%Z) in *.
  pose proof (Z.div_mod m 60 ltac:(lia)). pose proof (Z.mod_pos_bound m 60 ltac:(lia)).
  destruct (Z.ltb_spec total 60).
  { exists 0%Z, 0%Z, total. split; [constructor|]. lia. }
  destruct (Z.ltb_spec m 60).
  - destruct (Z.eqb_spec s 0); simpl.
    + exists 0%Z, m, 0%Z. split; [constructor|]. lia.
    + exists 0%Z, m, s. split; [by constructor|]. lia.
  - exists (m / 60)%Z, (m mod 60)%Z, 0%Z. split; [constructor|]. lia.
Qed.

(** The duration of a job is shown exactly when it started and ended later
    at known times.  It is read as hours, minutes and seconds within their
    ranges; below an hour it is the time elapsed to half a second, from there
    on rounded down to the minute. *)
Theorem formatRunnerDuration_spec (parse : string -> option Z) (job : RunnerState) :
  let start := timeValue parse (or_opt (running_at job) (Some (created_at job))) in
  let stop := timeValue parse
    (or_opt (completed_at job) (or_opt (failed_at job) (Some (updated_at job)))) in
  if decide (start <> 0 /\ stop <> 0 /\ start < stop)%Z then
    exists h m s, duration_reads (formatRunnerDuration parse job) h m s /\
      (0 <= h /\ 0 <= m < 60 /\ 0 <= s < 60)%Z /\
      (1000 * (3600 * h + 60 * m + s) - 500 <= stop - start)%Z /\
      (stop - start < 1000 * (3600 * h + 60 * m + s + (if decide (h = 0)%Z then 0 else 59)) + 500)%Z
  else formatRunnerDuration parse job = "".
Proof.
  intros start stop. unfold formatRunnerDuration. fold start stop. clearbody start stop.
  destruct (decide _) as [(H1 & H2 & H3)|Hno].
  - rewrite (proj2 (Z.eqb_neq _ _) H1), (proj2 (Z.eqb_neq _ _) H2), (proj2 (Z.leb_gt _ _) H3).
    simpl. unfold roundedSeconds.
    pose proof (Z.div_mod (stop - start + 500) 1000 ltac:(lia)).
    pose proof (Z.mod_pos_bound (stop - start + 500) 1000 ltac:(lia)).
    rewrite Z.max_r by lia. set (total := ((stop - start + 500) / 1000)%Z) in *.
    destruct (durationText_reads total ltac:(lia)) as (h & m & s & Hr & Hb & Ht & Hx).
    exists h, m, s. split_and!; [done|lia..|]. destruct (decide (h = 0)%Z); lia.
  - destruct (Z.eqb_spec start 0), (Z.eqb_spec stop 0), (Z.leb_spec stop start); simpl; try done.
    exfalso. apply Hno. lia.
Qed.
