(* ===== verification/AdminConsole.v ===== *)
(** The admin console of src/ui/src/App.tsx: the lists it loads and polls, the
    selected runner request and its log, and the forms that create, stop and
    retry requests.

    [Console] is the state with the requests in flight; [console_step] its
    events, a response arriving in any order.  Toasts are not modelled. *)
From S2P Require Import Prelude.
From S2P Require Import JsString.
From S2P Require Import JsUri.
From S2P Require Import JsArray.
From S2P Require Import AdminTypes.
From S2P Require Import LoadPolicy.
From S2P Require Import Errors.
From S2P Require Import Labels.
From S2P Require Import AdminFormat.

(** ** Lists *)

Definition adminResourcePath (resource : AdminDataResource) : string :=
  match resource with
  | res_runner_requests => "/runner_requests?limit=100&offset=0"
  | res_runner_specs => "/runner_specs"
  | res_audit_events => "/audit-events"
  end.

(** A response to a list request; [None] is a value that is not an array. *)
Inductive AdminData :=
  | RunnersData (items : option (list RunnerState))
  | SpecsData (items : option (list RunnerSpec))
  | AuditData (items : option (list AuditEvent)).

Definition resource_of (data : AdminData) : AdminDataResource :=
  match data with
  | RunnersData _ => res_runner_requests
  | SpecsData _ => res_runner_specs
  | AuditData _ => res_audit_events
  end.

(** [new Set(names.filter(Boolean))] as a sorted array. *)
Definition sortedNames (names : list string) : list string :=
  sort_by str_cmp (uniq (filter (fun n => str_truthy n = true) names)).

Definition runnerRepositories (runners : list RunnerState) : list string :=
  sortedNames (omap repository_full_name runners).

Definition runnerSpecNames (specs : list RunnerSpec) (runners : list RunnerState) :
    list string :=
  sortedNames (map spec_name specs ++ map (fun r => or_str (runner_spec_name r) "") runners).

(** The filters of the request table; [None] is "all". *)
Record Filters := {
  f_status : option RunnerDisplayStatus;
  f_repository : option string;
  f_spec : option string;
}.

Definition passes (f : Filters) (runner : RunnerState) : bool :=
  match f_status f with
  | Some s => bool_decide (runnerDisplayStatus runner = s)
  | None => true
  end &&
  match f_repository f with
  | Some r => bool_decide (repository_full_name runner = Some r)
  | None => true
  end &&
  match f_spec f with
  | Some s => bool_decide (runner_spec_name runner = Some s)
  | None => true
  end.

Definition filteredRunners (f : Filters) (runners : list RunnerState) : list RunnerState :=
  filter (fun runner => passes f runner = true) runners.

(** ** Creating a request *)

Record CreateForm := {
  cf_id : string; cf_repository : string; cf_spec : string; cf_labels : string }.

Definition emptyCreateForm : CreateForm :=
  {| cf_id := ""; cf_repository := ""; cf_spec := ""; cf_labels := "self-hosted,e2b" |}.

Record CreateBody := {
  cb_id : option string;
  cb_repository_full_name : string;
  cb_runner_spec_name : option string;
  cb_labels : option (list string);
}.

(** The body that is posted, or nothing when the form is refused. *)
Definition createBody (form : CreateForm) : option CreateBody :=
  let repository := trim (cf_repository form) in
  if negb (str_truthy repository) || includes "*" repository then None
  else
    let labels := parseLabels (cf_labels form) in
    Some {|
      cb_id := if str_truthy (trim (cf_id form)) then Some (trim (cf_id form)) else None;
      cb_repository_full_name := repository;
      cb_runner_spec_name :=
        if str_truthy (trim (cf_spec form)) then Some (trim (cf_spec form)) else None;
      cb_labels := if (0 <? List.length labels)%nat then Some labels else None |}.

(** ** State *)

(** What a render of the page fixes for the handlers it creates. *)
Record Route := { rt_hasAccess : bool; rt_isAdminRoute : bool; rt_section : AdminSection }.

(** The requests in flight carry the route of the render that sent them: the
    [loadAll] that follows an action is the one of that render. *)
Record Console := {
  co_hasAccess : bool;
  co_isAdminRoute : bool;
  co_section : AdminSection;
  co_runners : list RunnerState;
  co_specs : list RunnerSpec;
  co_audit : list AuditEvent;
  co_selectedID : string;
  co_selectedLog : LogName;
  co_logText : LocalizedLogText;
  co_loading : bool;
  co_createForm : CreateForm;
  co_createOpen : bool;
  co_loads : list (list AdminDataResource);
  co_logs : list (string * LogName);
  co_creates : list (CreateBody * Route);
  co_actions : list (string * Route);
}.

Definition with_view (selectedID : string) (selectedLog : LogName) (logText : LocalizedLogText)
    (logs : list (string * LogName)) (c : Console) : Console := {|
  co_hasAccess := co_hasAccess c; co_isAdminRoute := co_isAdminRoute c;
  co_section := co_section c; co_runners := co_runners c; co_specs := co_specs c;
  co_audit := co_audit c; co_selectedID := selectedID; co_selectedLog := selectedLog;
  co_logText := logText; co_loading := co_loading c; co_createForm := co_createForm c;
  co_createOpen := co_createOpen c; co_loads := co_loads c; co_logs := logs;
  co_creates := co_creates c; co_actions := co_actions c |}.

Definition with_lists (runners : list RunnerState) (specs : list RunnerSpec)
    (audit : list AuditEvent) (c : Console) : Console := {|
  co_hasAccess := co_hasAccess c; co_isAdminRoute := co_isAdminRoute c;
  co_section := co_section c; co_runners := runners; co_specs := specs; co_audit := audit;
  co_selectedID := co_selectedID c; co_selectedLog := co_selectedLog c;
  co_logText := co_logText c; co_loading := co_loading c; co_createForm := co_createForm c;
  co_createOpen := co_createOpen c; co_loads := co_loads c; co_logs := co_logs c;
  co_creates := co_creates c; co_actions := co_actions c |}.

Definition with_requests (loading : bool) (loads : list (list AdminDataResource))
    (creates : list (CreateBody * Route)) (actions : list (string * Route)) (c : Console) : Console := {|
  co_hasAccess := co_hasAccess c; co_isAdminRoute := co_isAdminRoute c;
  co_section := co_section c; co_runners := co_runners c; co_specs := co_specs c;
  co_audit := co_audit c; co_selectedID := co_selectedID c; co_selectedLog := co_selectedLog c;
  co_logText := co_logText c; co_loading := loading; co_createForm := co_createForm c;
  co_createOpen := co_createOpen c; co_loads := loads; co_logs := co_logs c;
  co_creates := creates; co_actions := actions |}.

Definition with_create (form : CreateForm) (open : bool) (c : Console) : Console := {|
  co_hasAccess := co_hasAccess c; co_isAdminRoute := co_isAdminRoute c;
  co_section := co_section c; co_runners := co_runners c; co_specs := co_specs c;
  co_audit := co_audit c; co_selectedID := co_selectedID c; co_selectedLog := co_selectedLog c;
  co_logText := co_logText c; co_loading := co_loading c; co_createForm := form;
  co_createOpen := open; co_loads := co_loads c; co_logs := co_logs c;
  co_creates := co_creates c; co_actions := co_actions c |}.

Definition with_route (hasAccess isAdminRoute : bool) (section : AdminSection) (c : Console) :
    Console := {|
  co_hasAccess := hasAccess; co_isAdminRoute := isAdminRoute; co_section := section;
  co_runners := co_runners c; co_specs := co_specs c; co_audit := co_audit c;
  co_selectedID := co_selectedID c; co_selectedLog := co_selectedLog c;
  co_logText := co_logText c; co_loading := co_loading c; co_createForm := co_createForm c;
  co_createOpen := co_createOpen c; co_loads := co_loads c; co_logs := co_logs c;
  co_creates := co_creates c; co_actions := co_actions c |}.

(** ** The log of the selected request *)

Definition logPath (id : string) (name : LogName) : string :=
  "/runner_requests/" +:+ encodeURIComponent id +:+ "/logs/" +:+
  encodeURIComponent (logName_string name).

Definition loadLog (id : string) (name : LogName) (c : Console) : Console :=
  if negb (co_hasAccess c) || negb (str_truthy id) then
    with_view (co_selectedID c) (co_selectedLog c) (LogText "") (co_logs c) c
  else
    with_view (co_selectedID c) (co_selectedLog c) (LogMessage key_common_loading)
      (co_logs c ++ [(id, name)]) c.

Definition logResult (result : thrown + string) : LocalizedLogText :=
  match result with
  | inr text => if str_truthy text then LogText text else LogMessage key_user_runnerLogEmpty
  | inl (ThrownError m _) => LogText m
  | inl ThrownOther => LogMessage key_app_loadFailed
  end.

(** A log request settles; [others] are the others. *)
Definition settleLog (result : thrown + string) (others : list (string * LogName))
    (c : Console) : Console :=
  with_view (co_selectedID c) (co_selectedLog c) (logResult result) others c.

(** The effect that loads the log of the selection. *)
Definition logEffect (c : Console) : Console :=
  if str_truthy (co_selectedID c) then loadLog (co_selectedID c) (co_selectedLog c) c else c.

Definition setSelectedID (id : string) (c : Console) : Console :=
  if bool_decide (id = co_selectedID c) then c
  else logEffect (with_view id (co_selectedLog c) (co_logText c) (co_logs c) c).

Definition setSelectedLog (name : LogName) (c : Console) : Console :=
  if bool_decide (logName_string name = logName_string (co_selectedLog c)) then c
  else logEffect (with_view (co_selectedID c) name (co_logText c) (co_logs c) c).

(** ** Loading *)

Definition routeOf (c : Console) : Route := {|
  rt_hasAccess := co_hasAccess c; rt_isAdminRoute := co_isAdminRoute c;
  rt_section := co_section c |}.

Definition loadAll (route : Route) (polling : bool) (c : Console) : Console :=
  if negb (rt_hasAccess route) || negb (rt_isAdminRoute route) then c
  else
    let resources :=
      if polling then adminPollingResources (rt_section route)
      else adminDataResources (rt_section route) in
    match resources with
    | [] => c
    | _ => with_requests true (co_loads c ++ [resources]) (co_creates c) (co_actions c) c
    end.

(** [setRunners] of [loadAll]: the selection is dropped when it is gone. *)
Definition setRunners (runners : list RunnerState) (c : Console) : Console :=
  let c := with_lists runners (co_specs c) (co_audit c) c in
  if negb (str_truthy (co_selectedID c)) ||
     existsb (fun runner => bool_decide (id runner = co_selectedID c)) runners
  then c
  else with_view "" (co_selectedLog c) (LogText "") (co_logs c) c.

Definition updateAdminResource (data : AdminData) (c : Console) : Console :=
  match data with
  | RunnersData items => setRunners (default [] items) c
  | SpecsData items => with_lists (co_runners c) (default [] items) (co_audit c) c
  | AuditData items => with_lists (co_runners c) (co_specs c) (default [] items) c
  end.

(** A load settles with its responses, or fails. *)
Definition settleLoad (result : thrown + list AdminData)
    (others : list (list AdminDataResource)) (c : Console) : Console :=
  let c :=
    match result with
    | inr entries => fold_left (fun c data => updateAdminResource data c) entries c
    | inl _ => c
    end in
  with_requests false others (co_creates c) (co_actions c) c.

(** ** Actions *)

Definition createRunner (c : Console) : Console :=
  if negb (co_hasAccess c) then c
  else
    match createBody (co_createForm c) with
    | None => c
    | Some body =>
        with_requests (co_loading c) (co_loads c) (co_creates c ++ [(body, routeOf c)])
          (co_actions c) c
    end.

Definition settleCreate (route : Route) (result : thrown + RunnerState)
    (others : list (CreateBody * Route)) (c : Console) : Console :=
  let c := with_requests (co_loading c) (co_loads c) others (co_actions c) c in
  match result with
  | inr runner =>
      loadAll route false (setSelectedID (id runner) (with_create emptyCreateForm false c))
  | inl _ => c
  end.

(** [stopRunner] and [retryRunner]: the URL of the request. *)
Definition stopPath (id : string) : string := "/runner_requests/" +:+ encodeURIComponent id.
Definition retryPath (id : string) : string :=
  "/runner_requests/" +:+ encodeURIComponent id +:+ "/retry".

Definition startAction (path : string) (c : Console) : Console :=
  with_requests (co_loading c) (co_loads c) (co_creates c)
    (co_actions c ++ [(path, routeOf c)]) c.

Definition settleAction (route : Route) (result : thrown + RunnerState)
    (others : list (string * Route)) (c : Console) : Console :=
  let c := with_requests (co_loading c) (co_loads c) (co_creates c) others c in
  match result with
  | inr runner => loadAll route false (setSelectedID (id runner) c)
  | inl _ => c
  end.

(** The access, the route or the section changes: [loadLog] changes with the
    access, so the log is loaded again. *)
Definition changeRoute (hasAccess isAdminRoute : bool) (section : AdminSection) (c : Console) :
    Console :=
  let c' := with_route hasAccess isAdminRoute section c in
  if Bool.eqb hasAccess (co_hasAccess c) then c' else logEffect c'.

(** The admin part of [signOut]. *)
Definition signOutConsole (c : Console) : Console :=
  with_view "" (co_selectedLog c) (LogText "") (co_logs c) (with_lists [] [] [] c).

Definition initialConsole : Console := {|
  co_hasAccess := false; co_isAdminRoute := false; co_section := overview; co_runners := [];
  co_specs := []; co_audit := []; co_selectedID := ""; co_selectedLog := ControlLog;
  co_logText := LogText ""; co_loading := false; co_createForm := emptyCreateForm;
  co_createOpen := false; co_loads := []; co_logs := []; co_creates := []; co_actions := [] |}.

(** ** Steps

    With [fifo] the log requests are answered in the order they were sent.  A
    list is loaded for the route of the render that set the timer or made the
    handler. *)
Inductive console_step (fifo : bool) (answers : string -> LogName -> thrown + string -> Prop) :
    Console -> Console -> Prop :=
  | co_route hasAccess isAdminRoute section c :
      console_step fifo answers c (changeRoute hasAccess isAdminRoute section c)
  | co_select i c : console_step fifo answers c (setSelectedID i c)
  | co_selectLog name c : console_step fifo answers c (setSelectedLog name c)
  | co_refreshLog c :
      console_step fifo answers c (loadLog (co_selectedID c) (co_selectedLog c) c)
  | co_log l i name r result c :
      co_logs c = l ++ (i, name) :: r -> (fifo = true -> l = []) -> answers i name result ->
      console_step fifo answers c (settleLog result (l ++ r) c)
  | co_load route polling c : console_step fifo answers c (loadAll route polling c)
  | co_loaded l resources r result c :
      co_loads c = l ++ resources :: r ->
      (forall entries, result = inr entries -> resource_of <$> entries = resources) ->
      console_step fifo answers c (settleLoad result (l ++ r) c)
  | co_form form open c : console_step fifo answers c (with_create form open c)
  | co_create c : console_step fifo answers c (createRunner c)
  | co_created l body route r result c :
      co_creates c = l ++ (body, route) :: r ->
      console_step fifo answers c (settleCreate route result (l ++ r) c)
  | co_stop i c : console_step fifo answers c (startAction (stopPath i) c)
  | co_retry i c : console_step fifo answers c (startAction (retryPath i) c)
  | co_acted l path route r result c :
      co_actions c = l ++ (path, route) :: r ->
      console_step fifo answers c (settleAction route result (l ++ r) c)
  | co_signOut c : console_step fifo answers c (signOutConsole c).

Inductive console_reachable (fifo : bool) (answers : string -> LogName -> thrown + string -> Prop) :
    Console -> Prop :=
  | co_start : console_reachable fifo answers initialConsole
  | co_next c c' :
      console_reachable fifo answers c -> console_step fifo answers c c' ->
      console_reachable fifo answers c'.

(** ** The filters *)

Lemma sortedNames_spec (names : list string) (n : string) :
  n ∈ sortedNames names <-> n ∈ names /\ n <> "".
Proof.
  unfold sortedNames. rewrite elem_of_sort_by, elem_of_uniq, list_elem_of_filter, str_truthy_true.
  tauto.
Qed.

(** The repository filter offers, in order and once, exactly the names under
    which requests are listed, and every request with a repository is listed
    under its name. *)
Theorem repository_filter_complete (runners : list RunnerState) :
  StronglySorted (cmp_le str_cmp) (runnerRepositories runners) /\
  NoDup (runnerRepositories runners) /\
  forall r, r ∈ runnerRepositories runners <->
    r <> "" /\
    filteredRunners {| f_status := None; f_repository := Some r; f_spec := None |} runners <> [].
Proof.
  split_and!.
  - apply (sort_by_sorted str_cmp).
  - unfold runnerRepositories, sortedNames. rewrite sort_by_perm. apply NoDup_uniq.
  - intros r. unfold runnerRepositories. rewrite sortedNames_spec. split.
    + intros [(x & Hx & Ex)%list_elem_of_omap Hr]. split; [done|].
      intros H. eapply elem_of_nil. rewrite <- H. unfold filteredRunners.
      apply list_elem_of_filter. split; [|exact Hx]. unfold passes. simpl.
      by rewrite bool_decide_eq_true_2.
    + intros [Hr Hne]. split; [|done]. destruct (filteredRunners _ runners) as [|x l] eqn:E; [done|].
      assert (x ∈ filteredRunners {| f_status := None; f_repository := Some r; f_spec := None |}
        runners) as [Hp Hx]%list_elem_of_filter by (rewrite E; left).
      unfold passes in Hp. simpl in Hp. rewrite andb_true_r in Hp. apply bool_decide_eq_true_1 in Hp.
      apply list_elem_of_omap. by exists x.
Qed.

(** ** The log shown *)

Section selected_log.
Context (answers : string -> LogName -> thrown + string -> Prop).

Definition view_ok (c : Console) : Prop :=
  co_selectedID c = "" \/ co_hasAccess c = false \/
  (exists l, co_logs c = l ++ [(co_selectedID c, co_selectedLog c)]) \/
  (co_logs c = [] /\ exists result,
   answers (co_selectedID c) (co_selectedLog c) result /\ co_logText c = logResult result).

Definition same_view (c c' : Console) : Prop :=
  co_selectedID c = co_selectedID c' /\ co_hasAccess c = co_hasAccess c' /\
  co_selectedLog c = co_selectedLog c' /\ co_logs c = co_logs c' /\ co_logText c = co_logText c'.

Lemma same_view_ok (c c' : Console) : same_view c c' -> view_ok c -> view_ok c'.
Proof. intros (E1 & E2 & E3 & E4 & E5). unfold view_ok. by rewrite E1, E2, E3, E4, E5. Qed.

Lemma loadLog_ok (c : Console) : view_ok (loadLog (co_selectedID c) (co_selectedLog c) c).
Proof.
  unfold loadLog. destruct (co_hasAccess c) eqn:Ea; simpl; [|by right; left].
  destruct (str_truthy (co_selectedID c)) eqn:E; simpl.
  - right. right. left. by eexists.
  - left. by apply str_truthy_false.
Qed.

Lemma logEffect_ok (c : Console) : view_ok (logEffect c).
Proof.
  unfold logEffect. destruct (str_truthy (co_selectedID c)) eqn:E; [apply loadLog_ok|].
  left. by apply str_truthy_false.
Qed.

Lemma setSelectedID_ok (i : string) (c : Console) : view_ok c -> view_ok (setSelectedID i c).
Proof. unfold setSelectedID. case_bool_decide; [done|]. intros _. apply logEffect_ok. Qed.

Lemma loadAll_view (route : Route) (polling : bool) (c : Console) :
  same_view c (loadAll route polling c).
Proof. unfold loadAll. destruct (_ || _); [done|]. by destruct (if polling then _ else _). Qed.

Lemma updateAdminResource_ok (data : AdminData) (c : Console) :
  view_ok c -> view_ok (updateAdminResource data c).
Proof.
  intros H. destruct data as [items|items|items]; simpl; [|exact H..].
  unfold setRunners. destruct (_ || _); [exact H|]. by left.
Qed.

Lemma settleLoad_ok (result : thrown + list AdminData) (others : list (list AdminDataResource))
    (c : Console) : view_ok c -> view_ok (settleLoad result others c).
Proof.
  intros H. unfold settleLoad.
  assert (view_ok match result with
    | inr entries => fold_left (fun c data => updateAdminResource data c) entries c
    | inl _ => c
    end) as H'; [|exact H'].
  destruct result as [|entries]; [exact H|]. revert c H.
  induction entries as [|data entries IH]; intros c H; [exact H|]. by apply IH, updateAdminResource_ok.
Qed.

Lemma settleLog_ok (i : string) (name : LogName) (result : thrown + string)
    (r : list (string * LogName)) (c : Console) :
  co_logs c = (i, name) :: r -> answers i name result -> view_ok c ->
  view_ok (settleLog result r c).
Proof.
  intros E Ha [H|[H|[[l H]|[H _]]]]; [by left|by right; left| |congruence].
  rewrite E in H. right. right. unfold settleLog.
  cbn [with_view co_logs co_selectedID co_selectedLog co_logText].
  destruct l as [|p l]; simpl in H; injection H as Hp ->.
  - right. split; [done|]. exists result. by simplify_eq.
  - left. by eexists.
Qed.

(** C37.  When log requests are answered in the order they were sent, the log
    panel of an administrator shows, once no log request is in flight, what
    the server answered for the request and stream that are selected: the log,
    or the error. *)
Theorem selected_log_shown (c : Console) :
  console_reachable true answers c ->
  co_hasAccess c = true -> co_selectedID c <> "" -> co_logs c = [] ->
  exists result, answers (co_selectedID c) (co_selectedLog c) result /\
    co_logText c = logResult result.
Proof.
  intros Hc Ha Hi Hl. assert (view_ok c) as Hv.
  - clear Ha Hi Hl. induction Hc as [|c c' _ IH Hstep]; [by left|].
    destruct Hstep as [h a s c|i c|name c|c|l i name r result c E F Ha|p c|l res r result c E F|
      form open c|c|l body rt r result c E|i c|i c|l path rt r result c E|c]; try exact IH.
    + unfold changeRoute. destruct (Bool.eqb h (co_hasAccess c)) eqn:E; [|apply logEffect_ok].
      apply eqb_prop in E as ->. exact IH.
    + by apply setSelectedID_ok.
    + unfold setSelectedLog. case_bool_decide; [done|apply logEffect_ok].
    + apply loadLog_ok.
    + rewrite (F eq_refl) in *. by eapply settleLog_ok.
    + eapply same_view_ok; [apply loadAll_view|done].
    + by apply settleLoad_ok.
    + unfold createRunner. destruct (negb _); [exact IH|].
      by destruct (createBody (co_createForm c)).
    + destruct result; simpl; [exact IH|]. eapply same_view_ok; [apply loadAll_view|].
      by apply setSelectedID_ok.
    + destruct result; simpl; [exact IH|]. eapply same_view_ok; [apply loadAll_view|].
      by apply setSelectedID_ok.
    + by left.
  - destruct Hv as [H|[H|[[l H]|[_ H]]]]; [done|congruence| |done].
    rewrite Hl in H. by destruct l.
Qed.
End selected_log.

(** ** A run: two requests are selected one after the other *)

Definition example_answers (i : string) (name : LogName) (result : thrown + string) : Prop :=
  result = inr ("log of " +:+ i).

Definition example_console : Console :=
  setSelectedID "b" (setSelectedID "a" (changeRoute true true runner_requests initialConsole)).

Lemma example_console_reachable (fifo : bool) :
  console_reachable fifo example_answers example_console.
Proof.
  unfold example_console. do 2 (eapply co_next; [|apply co_select]).
  eapply co_next; [|apply co_route]. apply co_start.
Qed.

Lemma selected_log_shown_witness :
  let c := settleLog (inr "log of b") []
    (settleLog (inr "log of a") [("b", ControlLog)] example_console) in
  co_selectedID c = "b" /\
  exists result, example_answers "b" ControlLog result /\ co_logText c = logResult result.
Proof.
  cbv zeta. split; [reflexivity|].
  apply (selected_log_shown example_answers
    (settleLog (inr "log of b") [] (settleLog (inr "log of a") [("b", ControlLog)] example_console))).
  - eapply co_next; [|apply (co_log true example_answers [] "b" ControlLog [] (inr "log of b")); done].
    eapply co_next;
      [|apply (co_log true example_answers [] "a" ControlLog [("b", ControlLog)]
        (inr "log of a")); done].
    apply example_console_reachable.
  - reflexivity.
  - discriminate.
  - reflexivity.
Defined.

(** The form is posted without an owner, and with neither a runner spec nor labels:
    the service refuses a request with neither, and GitHub has no such
    repository. *)
Example unusable_request_posted :
  createBody {| cf_id := ""; cf_repository := " acme "; cf_spec := ""; cf_labels := " , " |} =
  Some {| cb_id := None; cb_repository_full_name := "acme"; cb_runner_spec_name := None;
          cb_labels := None |}.
Proof. vm_compute. reflexivity. Qed.

(** Answered out of order, the log of the request selected before stays on
    screen: the response is shown without a check of the selection. *)
Example log_of_another_request :
  let c := settleLog (inr "log of a") []
    (settleLog (inr "log of b") [("a", ControlLog)] example_console) in
  console_reachable false example_answers c /\ co_logs c = [] /\ co_selectedID c = "b" /\
  co_logText c = LogText "log of a".
Proof.
  cbv zeta. split; [|by split_and!].
  eapply co_next; [|apply (co_log false example_answers [] "a" ControlLog [] (inr "log of a")); done].
  eapply co_next;
    [|apply (co_log false example_answers [("a", ControlLog)] "b" ControlLog []
      (inr "log of b")); done].
  apply example_console_reachable.
Qed.
