(* ===== verification/Accounts.v ===== *)
(** The accounts page of the admin console:
    src/ui/src/components/accounts-section-utils.ts and [AccountsSection] of
    src/ui/src/components/accounts-section.tsx.

    [Accounts] is the state of the page with the requests in flight and
    [accounts_step] its events.  Page sizes, offsets and totals are integers. *)
From S2P Require Import Prelude.
From S2P Require Import JsString.
From S2P Require Import JsUri.
From S2P Require Import AdminTypes.
From S2P Require Import Errors.

(** ** Queries, pages and avatars *)

(** [None] is "all". *)
Definition AccountRoleFilter := option AccountRole.

Record AccountListQuery := {
  q_query : string;
  q_role : AccountRoleFilter;
  q_limit : Z;
  q_offset : Z;
}.

Definition role_name (r : AccountRole) : string :=
  match r with AdminRole => "admin" | UserRole => "user" end.

Definition accountListParams (input : AccountListQuery) : params :=
  let ps := if str_truthy (trim (q_query input)) then params_set "q" (trim (q_query input)) []
            else [] in
  let ps := match q_role input with Some r => params_set "role" (role_name r) ps | None => ps end in
  let ps := params_set "limit" (pretty (Z.max 1 (q_limit input))) ps in
  params_set "offset" (pretty (Z.max 0 (q_offset input))) ps.

Definition accountListQuery (input : AccountListQuery) : string :=
  show_params (accountListParams input).

Record AccountPageMeta := {
  pm_page : Z; pm_pages : Z; pm_canPrevious : bool; pm_canNext : bool }.

Definition ceil_div (a b : Z) : Z := (- ((- a) / b))%Z.

Definition accountPageMeta (total limit offset : Z) : AccountPageMeta :=
  let safeTotal := Z.max 0 total in
  let safeLimit := Z.max 1 limit in
  let safeOffset := Z.max 0 offset in
  let pages := Z.max 1 (ceil_div safeTotal safeLimit) in
  let page := Z.min pages (safeOffset / safeLimit + 1)%Z in
  {| pm_page := page; pm_pages := pages; pm_canPrevious := (1 <? page)%Z;
     pm_canNext := (safeOffset + safeLimit <? safeTotal)%Z |}.

Definition accountAvatarURL (identities : option (list AdminOAuthIdentity)) : string :=
  let githubIdentity :=
    identities ≫= find_first (fun identity =>
      bool_decide (toLowerCase (trim (oauth_provider identity)) = "github")) in
  match githubIdentity with
  | Some identity =>
      let login := trim (oauth_login identity) in
      if str_truthy login then
        "https://github.com/" +:+ encodeURIComponent login +:+ ".png?size=96"
      else ""
  | None => ""
  end.

Definition accountAvatarImageURL (identities : option (list AdminOAuthIdentity))
    (failedAvatarURL : string) : string :=
  let avatarURL := accountAvatarURL identities in
  if bool_decide (avatarURL = failedAvatarURL) then "" else avatarURL.

(** The query of a page of accounts reads back as the search text, the role
    filter, a page size of at least one and an offset of at least zero. *)
Theorem accountListQuery_roundtrip (input : AccountListQuery) :
  utf8 (trim (q_query input)) ->
  let ps := parse_params (accountListQuery input) in
  params_get "q" ps =
    (if str_truthy (trim (q_query input)) then Some (trim (q_query input)) else None) /\
  params_get "role" ps = role_name <$> q_role input /\
  params_get "limit" ps = Some (pretty (Z.max 1 (q_limit input))) /\
  params_get "offset" ps = Some (pretty (Z.max 0 (q_offset input))).
Proof.
  intros Hq. cbv zeta. unfold accountListQuery.
  assert (forall n, (0 <= n)%Z -> utf8 (pretty n)) as Hn.
  { intros n H. apply utf8_ascii. eapply sforall_impl; [|by apply pretty_Z_digits].
    intros a. all_bytes a. }
  rewrite parse_show_params.
  - unfold accountListParams. by destruct (str_truthy (trim (q_query input))), (q_role input).
  - unfold accountListParams, utf8_pair.
    destruct (str_truthy (trim (q_query input))), (q_role input) as [[]|];
      repeat constructor; simpl; try (by apply utf8_ascii); try (by apply Hn; lia); done.
Qed.

(** The page shown lies between one and the number of pages; the pages hold
    all the accounts and no page is superfluous; there is a next page exactly
    when some account lies beyond the one shown, and for an offset the
    console produces (a multiple of the page size) the next page is then
    within the pages. *)
Theorem accountPageMeta_bounds (total limit offset : Z) :
  let m := accountPageMeta total limit offset in
  let safeTotal := Z.max 0 total in
  let safeLimit := Z.max 1 limit in
  let safeOffset := Z.max 0 offset in
  (1 <= pm_page m <= pm_pages m)%Z /\
  (safeTotal <= pm_pages m * safeLimit)%Z /\
  ((pm_pages m - 1) * safeLimit < Z.max 1 safeTotal)%Z /\
  (pm_canNext m = true <-> (safeOffset + safeLimit < safeTotal)%Z) /\
  (pm_canPrevious m = true <-> (1 < pm_page m)%Z) /\
  (pm_canNext m = true -> pm_page m = safeOffset / safeLimit + 1 /\ pm_page m < pm_pages m)%Z.
Proof.
  unfold accountPageMeta, ceil_div. cbn [pm_page pm_pages pm_canPrevious pm_canNext].
  set (T := Z.max 0 total). set (L := Z.max 1 limit). set (O := Z.max 0 offset).
  assert (0 <= T /\ 1 <= L /\ 0 <= O)%Z as (HT & HL & HO) by lia. clearbody T L O.
  pose proof (Z.div_mod (- T) L ltac:(lia)). pose proof (Z.mod_pos_bound (- T) L ltac:(lia)).
  pose proof (Z.div_mod O L ltac:(lia)). pose proof (Z.mod_pos_bound O L ltac:(lia)).
  set (p := (- (- T / L))%Z) in *. assert (- T / L = - p)%Z as E by lia. rewrite E in *.
  set (o := (O / L)%Z) in *. rewrite !Z.ltb_lt.
  assert (0 <= o)%Z by (apply Z.div_pos; lia).
  split_and!; [lia..|nia|nia|tauto|tauto|].
  intros Hnext. assert (o + 1 < p)%Z by nia. lia.
Qed.

(** ** The page *)

(** The filters a load was started with. *)
Record Filters := {
  fl_query : string; fl_role : AccountRoleFilter; fl_limit : Z; fl_offset : Z }.

#[export] Instance AccountRole_eq_dec : EqDecision AccountRole.
Proof. solve_decision. Defined.
#[export] Instance Filters_eq_dec : EqDecision Filters.
Proof. solve_decision. Defined.

Record AccountsLoad := { ld_version : nat; ld_filters : Filters }.

Record PendingRoleChange := { pr_account : AdminAccount; pr_role : AccountRole }.

(** A role update: its request is in flight, with the filters its closure would
    load again, or it waits for that load. *)
Inductive RoleUpdate := Patching (change : PendingRoleChange) (filters : Filters)
  | AwaitLoad (version : nat).

(** [ac_shownFor] is the load the rows on screen answered; [ac_patched] the role
    updates that were sent. *)
Record Accounts := {
  ac_accounts : list AdminAccount;
  ac_currentAccountID : Z;
  ac_stats : AdminAccountStats;
  ac_total : Z;
  ac_draftQuery : string;
  ac_filters : Filters;
  ac_loading : bool;
  ac_savingAccountID : Z;
  ac_error : string;
  ac_roleError : string;
  ac_pending : option PendingRoleChange;
  ac_loadVersion : nat;
  ac_loads : list AccountsLoad;
  ac_updates : list RoleUpdate;
  ac_shownFor : option Filters;
  ac_patched : list (Z * AccountRole);
}.

Definition emptyAccountStats : AdminAccountStats := {|
  total_accounts := 0; admin_accounts := 0; user_accounts := 0; stats_oauth_identities := 0 |}.

(** [load()] of the closure that saw [filters]. *)
Definition load (filters : Filters) (s : Accounts) : Accounts := {|
  ac_accounts := ac_accounts s; ac_currentAccountID := ac_currentAccountID s;
  ac_stats := ac_stats s; ac_total := ac_total s; ac_draftQuery := ac_draftQuery s;
  ac_filters := ac_filters s; ac_loading := true; ac_savingAccountID := ac_savingAccountID s;
  ac_error := ""; ac_roleError := ac_roleError s; ac_pending := ac_pending s;
  ac_loadVersion := S (ac_loadVersion s);
  ac_loads := ac_loads s ++ [{| ld_version := S (ac_loadVersion s); ld_filters := filters |}];
  ac_updates := ac_updates s; ac_shownFor := ac_shownFor s; ac_patched := ac_patched s |}.

(** The cleanup of the effect, which makes every load stale. *)
Definition cleanupLoads (s : Accounts) : Accounts := {|
  ac_accounts := ac_accounts s; ac_currentAccountID := ac_currentAccountID s;
  ac_stats := ac_stats s; ac_total := ac_total s; ac_draftQuery := ac_draftQuery s;
  ac_filters := ac_filters s; ac_loading := ac_loading s;
  ac_savingAccountID := ac_savingAccountID s; ac_error := ac_error s;
  ac_roleError := ac_roleError s; ac_pending := ac_pending s;
  ac_loadVersion := S (ac_loadVersion s); ac_loads := ac_loads s; ac_updates := ac_updates s;
  ac_shownFor := ac_shownFor s; ac_patched := ac_patched s |}.

Definition with_filters (draftQuery : string) (filters : Filters) (s : Accounts) : Accounts := {|
  ac_accounts := ac_accounts s; ac_currentAccountID := ac_currentAccountID s;
  ac_stats := ac_stats s; ac_total := ac_total s; ac_draftQuery := draftQuery;
  ac_filters := filters; ac_loading := ac_loading s;
  ac_savingAccountID := ac_savingAccountID s; ac_error := ac_error s;
  ac_roleError := ac_roleError s; ac_pending := ac_pending s;
  ac_loadVersion := ac_loadVersion s; ac_loads := ac_loads s; ac_updates := ac_updates s;
  ac_shownFor := ac_shownFor s; ac_patched := ac_patched s |}.

(** The filters change: the effect runs again when one of them is new. *)
Definition setFilters (draftQuery : string) (filters : Filters) (s : Accounts) : Accounts :=
  if bool_decide (filters = ac_filters s) then with_filters draftQuery filters s
  else load filters (cleanupLoads (with_filters draftQuery filters s)).

Definition setDraftQuery (draftQuery : string) (s : Accounts) : Accounts :=
  with_filters draftQuery (ac_filters s) s.

Definition applySearch (s : Accounts) : Accounts :=
  let f := ac_filters s in
  let nextQuery := trim (ac_draftQuery s) in
  if bool_decide (nextQuery = fl_query f) && bool_decide (fl_offset f = 0%Z) then load f s
  else setFilters (ac_draftQuery s)
         {| fl_query := nextQuery; fl_role := fl_role f; fl_limit := fl_limit f; fl_offset := 0 |} s.

Definition clearFilters (s : Accounts) : Accounts :=
  setFilters "" {| fl_query := ""; fl_role := None; fl_limit := fl_limit (ac_filters s);
                   fl_offset := 0 |} s.

Definition setRole (role : AccountRoleFilter) (s : Accounts) : Accounts :=
  let f := ac_filters s in
  setFilters (ac_draftQuery s)
    {| fl_query := fl_query f; fl_role := role; fl_limit := fl_limit f; fl_offset := 0 |} s.

Definition setLimit (limit : Z) (s : Accounts) : Accounts :=
  let f := ac_filters s in
  setFilters (ac_draftQuery s)
    {| fl_query := fl_query f; fl_role := fl_role f; fl_limit := limit; fl_offset := 0 |} s.

Definition setOffset (offset : Z) (s : Accounts) : Accounts :=
  let f := ac_filters s in
  setFilters (ac_draftQuery s)
    {| fl_query := fl_query f; fl_role := fl_role f; fl_limit := fl_limit f;
       fl_offset := offset |} s.

Definition pageOf (s : Accounts) : AccountPageMeta :=
  accountPageMeta (ac_total s) (fl_limit (ac_filters s)) (fl_offset (ac_filters s)).

(** The page buttons, disabled at the ends and while loading. *)
Definition previousPage (s : Accounts) : Accounts :=
  if negb (pm_canPrevious (pageOf s)) || ac_loading s then s
  else setOffset (Z.max 0 (fl_offset (ac_filters s) - fl_limit (ac_filters s))) s.

Definition nextPage (s : Accounts) : Accounts :=
  if negb (pm_canNext (pageOf s)) || ac_loading s then s
  else setOffset (fl_offset (ac_filters s) + fl_limit (ac_filters s))%Z s.

Definition refresh (s : Accounts) : Accounts :=
  if ac_loading s then s else load (ac_filters s) s.

(** ** Responses *)

Definition with_loads (loads : list AccountsLoad) (loading : bool) (error : string)
    (s : Accounts) : Accounts := {|
  ac_accounts := ac_accounts s; ac_currentAccountID := ac_currentAccountID s;
  ac_stats := ac_stats s; ac_total := ac_total s; ac_draftQuery := ac_draftQuery s;
  ac_filters := ac_filters s; ac_loading := loading;
  ac_savingAccountID := ac_savingAccountID s; ac_error := error;
  ac_roleError := ac_roleError s; ac_pending := ac_pending s;
  ac_loadVersion := ac_loadVersion s; ac_loads := loads; ac_updates := ac_updates s;
  ac_shownFor := ac_shownFor s; ac_patched := ac_patched s |}.

Definition commit (data : AdminAccountsResponse) (filters : Filters) (s : Accounts) : Accounts := {|
  ac_accounts := resp_accounts data; ac_currentAccountID := resp_current_account_id data;
  ac_stats := resp_stats data; ac_total := resp_total data; ac_draftQuery := ac_draftQuery s;
  ac_filters := ac_filters s; ac_loading := ac_loading s;
  ac_savingAccountID := ac_savingAccountID s; ac_error := ac_error s;
  ac_roleError := ac_roleError s; ac_pending := ac_pending s;
  ac_loadVersion := ac_loadVersion s; ac_loads := ac_loads s; ac_updates := ac_updates s;
  ac_shownFor := Some filters; ac_patched := ac_patched s |}.

Definition lastOffset (total limit : Z) : Z := ((total - 1) / limit * limit)%Z.

(** A load settles; [None] is a response of another shape. *)
Definition settleLoad (ld : AccountsLoad) (others : list AccountsLoad)
    (result : thrown + option AdminAccountsResponse) (loadAccountsFailed : string)
    (s : Accounts) : Accounts :=
  if negb (bool_decide (ld_version ld = ac_loadVersion s)) then
    with_loads others (ac_loading s) (ac_error s) s
  else
    match result with
    | inl e => with_loads others false (error_message e loadAccountsFailed) s
    | inr None => with_loads others false "Invalid account list response" s
    | inr (Some data) =>
        let f := ld_filters ld in
        let s := with_loads others false (ac_error s) s in
        if (0 <? resp_total data)%Z && (resp_total data <=? fl_offset f)%Z then
          setOffset (lastOffset (resp_total data) (fl_limit f)) s
        else commit data f s
    end.

(** ** Role changes *)

Definition with_role (saving : Z) (roleError : string) (pending : option PendingRoleChange)
    (updates : list RoleUpdate) (patched : list (Z * AccountRole)) (s : Accounts) : Accounts := {|
  ac_accounts := ac_accounts s; ac_currentAccountID := ac_currentAccountID s;
  ac_stats := ac_stats s; ac_total := ac_total s; ac_draftQuery := ac_draftQuery s;
  ac_filters := ac_filters s; ac_loading := ac_loading s; ac_savingAccountID := saving;
  ac_error := ac_error s; ac_roleError := roleError; ac_pending := pending;
  ac_loadVersion := ac_loadVersion s; ac_loads := ac_loads s; ac_updates := updates;
  ac_shownFor := ac_shownFor s; ac_patched := patched |}.

(** Another role is chosen in the row of an account; the row of the signed-in
    account and of the one being saved are disabled. *)
Definition chooseRole (account : AdminAccount) (role : AccountRole) (s : Accounts) : Accounts :=
  if bool_decide (account_id account = ac_currentAccountID s) ||
     bool_decide (ac_savingAccountID s = account_id account) ||
     bool_decide (role = account_role account)
  then s
  else with_role (ac_savingAccountID s) ""
         (Some {| pr_account := account; pr_role := role |}) (ac_updates s) (ac_patched s) s.

(** The cancel button and [onOpenChange], disabled while saving. *)
Definition closeRoleChangeDialog (s : Accounts) : Accounts :=
  if bool_decide (ac_savingAccountID s <> 0%Z) then s
  else with_role (ac_savingAccountID s) "" None (ac_updates s) (ac_patched s) s.

(** The confirm button, disabled while saving. *)
Definition updateRole (s : Accounts) : Accounts :=
  match ac_pending s with
  | Some p =>
      if bool_decide (ac_savingAccountID s <> 0%Z) then s
      else with_role (account_id (pr_account p)) "" (ac_pending s)
             (ac_updates s ++ [Patching p (ac_filters s)])
             (ac_patched s ++ [(account_id (pr_account p), pr_role p)]) s
  | None => s
  end.

Definition settleUpdate (u : RoleUpdate) (others : list RoleUpdate) (result : option thrown)
    (updateAccountRoleFailed : string) (s : Accounts) : Accounts :=
  match u with
  | Patching p f =>
      match result with
      | None =>
          load f (with_role (ac_savingAccountID s) "" None
                    (others ++ [AwaitLoad (S (ac_loadVersion s))]) (ac_patched s) s)
      | Some e =>
          with_role 0 (error_message e updateAccountRoleFailed) (ac_pending s) others
            (ac_patched s) s
      end
  | AwaitLoad _ => with_role 0 (ac_roleError s) (ac_pending s) others (ac_patched s) s
  end.

Definition initialAccounts : Accounts := {|
  ac_accounts := []; ac_currentAccountID := 0; ac_stats := emptyAccountStats; ac_total := 0;
  ac_draftQuery := "";
  ac_filters := {| fl_query := ""; fl_role := None; fl_limit := 20; fl_offset := 0 |};
  ac_loading := true; ac_savingAccountID := 0; ac_error := ""; ac_roleError := "";
  ac_pending := None; ac_loadVersion := 0; ac_loads := []; ac_updates := [];
  ac_shownFor := None; ac_patched := [] |}.

Definition mountAccounts : Accounts := load (ac_filters initialAccounts) initialAccounts.

(** ** Steps

    The dialog is modal: the filters and the rows are out of reach while it is
    open.  A filter can be cleared when there is one.  [me] is the signed-in account, which every response names; requests
    reject with a message.  With [calm] no response moves the page (because its
    offset lies beyond the accounts) while a role update is in flight. *)
Definition is_patching (u : RoleUpdate) : bool :=
  match u with Patching _ _ => true | AwaitLoad _ => false end.

Definition moves_page (ld : AccountsLoad) (result : thrown + option AdminAccountsResponse) : bool :=
  match result with
  | inr (Some data) =>
      (0 <? resp_total data)%Z && (resp_total data <=? fl_offset (ld_filters ld))%Z
  | _ => false
  end.

Definition answer_ok (me : Z) (result : thrown + option AdminAccountsResponse)
    (fallback : string) : Prop :=
  match result with
  | inl e => error_message e fallback <> ""
  | inr None => True
  | inr (Some data) =>
      resp_current_account_id data = me /\
      Forall (fun a => account_id a <> 0%Z) (resp_accounts data)
  end.

Inductive accounts_step (calm : bool) (me : Z) : Accounts -> Accounts -> Prop :=
  | as_draft q s : ac_pending s = None -> accounts_step calm me s (setDraftQuery q s)
  | as_search s : ac_pending s = None -> accounts_step calm me s (applySearch s)
  | as_clear s :
      ac_pending s = None -> fl_query (ac_filters s) <> "" \/ fl_role (ac_filters s) <> None ->
      accounts_step calm me s (clearFilters s)
  | as_role r s : ac_pending s = None -> accounts_step calm me s (setRole r s)
  | as_limit n s :
      ac_pending s = None -> n ∈ [10; 20; 50]%Z -> accounts_step calm me s (setLimit n s)
  | as_previous s : ac_pending s = None -> accounts_step calm me s (previousPage s)
  | as_next s : ac_pending s = None -> accounts_step calm me s (nextPage s)
  | as_refresh s : ac_pending s = None -> accounts_step calm me s (refresh s)
  | as_loaded l ld r result fallback s :
      ac_loads s = l ++ ld :: r -> answer_ok me result fallback ->
      (calm = true -> moves_page ld result = true ->
       Forall (fun u => is_patching u = false) (ac_updates s)) ->
      accounts_step calm me s (settleLoad ld (l ++ r) result fallback s)
  | as_choose a r s :
      ac_pending s = None -> a ∈ ac_accounts s -> accounts_step calm me s (chooseRole a r s)
  | as_close s : ac_pending s <> None -> accounts_step calm me s (closeRoleChangeDialog s)
  | as_confirm s : ac_pending s <> None -> accounts_step calm me s (updateRole s)
  | as_updated l u r result fallback s :
      ac_updates s = l ++ u :: r ->
      (forall v, u = AwaitLoad v -> Forall (fun ld => ld_version ld <> v) (ac_loads s)) ->
      accounts_step calm me s (settleUpdate u (l ++ r) result fallback s).

Inductive accounts_reachable (calm : bool) (me : Z) : Accounts -> Prop :=
  | ar_start : accounts_reachable calm me mountAccounts
  | ar_next s s' :
      accounts_reachable calm me s -> accounts_step calm me s s' ->
      accounts_reachable calm me s'.

(** ** The rows answer the filters *)

Record wf_page (s : Accounts) : Prop := {
  wp_versions : NoDup (ld_version <$> ac_loads s);
  wp_bound : Forall (fun ld => ld_version ld <= ac_loadVersion s)%nat (ac_loads s);
  wp_current : Forall (fun ld => ld_version ld = ac_loadVersion s ->
    ld_filters ld = ac_filters s) (ac_loads s);
  wp_loading : ac_loading s = true <->
    Exists (fun ld => ld_version ld = ac_loadVersion s) (ac_loads s);
  wp_shown : ac_loading s = false -> ac_error s = "" -> ac_shownFor s = Some (ac_filters s);
  wp_limit : (0 < fl_limit (ac_filters s))%Z;
}.

Lemma load_wf (s : Accounts) :
  NoDup (ld_version <$> ac_loads s) ->
  Forall (fun ld => ld_version ld <= ac_loadVersion s)%nat (ac_loads s) ->
  (0 < fl_limit (ac_filters s))%Z -> wf_page (load (ac_filters s) s).
Proof.
  intros Hn Hb Hl. split; simpl; [| | |split; [intros _|done]|done|done].
  - rewrite fmap_app. apply NoDup_app. split_and!; [done| |apply NoDup_singleton].
    intros v (ld & -> & Hld)%list_elem_of_fmap Hv. apply list_elem_of_singleton in Hv.
    rewrite Forall_forall in Hb. specialize (Hb ld Hld). simpl in *. lia.
  - apply Forall_app. split; [|by constructor]. eapply Forall_impl; [exact Hb|]. simpl. lia.
  - apply Forall_app. split; [|by constructor]. eapply Forall_impl; [exact Hb|].
    simpl. intros ld H1 H2. exfalso. lia.
  - apply Exists_app. right. by constructor.
Qed.

Lemma setFilters_wf (q : string) (f : Filters) (s : Accounts) :
  (0 < fl_limit f)%Z -> wf_page s -> wf_page (setFilters q f s).
Proof.
  intros Hf Hs. pose proof Hs as [Hn Hb Hc Hlo Hsh Hl]. unfold setFilters.
  case_bool_decide as E; [subst f; by split|].
  apply (load_wf (cleanupLoads (with_filters q f s))); simpl; [done| |done].
  eapply Forall_impl; [exact Hb|]. simpl. lia.
Qed.

(** [filters] changed in place keep their positive page size. *)
Lemma moved_limit (s : Accounts) (f : Filters) :
  wf_page s -> fl_limit f = fl_limit (ac_filters s) -> (0 < fl_limit f)%Z.
Proof. intros Hs ->. apply Hs. Qed.

Lemma reload_wf (s : Accounts) : wf_page s -> wf_page (load (ac_filters s) s).
Proof. intros [Hn Hb Hc Hlo Hsh Hl]. by apply load_wf. Qed.

Lemma same_page_wf (s s' : Accounts) :
  ac_loads s' = ac_loads s -> ac_loadVersion s' = ac_loadVersion s ->
  ac_filters s' = ac_filters s -> ac_loading s' = ac_loading s -> ac_error s' = ac_error s ->
  ac_shownFor s' = ac_shownFor s -> wf_page s -> wf_page s'.
Proof. intros E1 E2 E3 E4 E5 E6 []. split; by rewrite ?E1, ?E2, ?E3, ?E4, ?E5, ?E6. Qed.

Lemma settled_loads (l r : list AccountsLoad) (ld : AccountsLoad) (s : Accounts) :
  ac_loads s = l ++ ld :: r -> wf_page s ->
  NoDup (ld_version <$> l ++ r) /\
  Forall (fun d => ld_version d <= ac_loadVersion s)%nat (l ++ r) /\
  Forall (fun d => ld_version d = ac_loadVersion s -> ld_filters d = ac_filters s) (l ++ r) /\
  (ld_version ld <= ac_loadVersion s)%nat /\
  (ld_version ld = ac_loadVersion s -> ld_filters ld = ac_filters s) /\
  Forall (fun d => ld_version d <> ld_version ld) (l ++ r).
Proof.
  intros E [Hn Hb Hc Hlo Hsh Hl]. rewrite E in *. clear Hlo Hsh.
  apply Forall_app in Hb as [Hb1 [Hb2 Hb3]%Forall_cons].
  apply Forall_app in Hc as [Hc1 [Hc2 Hc3]%Forall_cons].
  rewrite <- Permutation_middle in Hn. simpl in Hn. apply NoDup_cons in Hn as [Hn1 Hn2].
  split_and!; [done|by apply Forall_app|by apply Forall_app|done|done|].
  apply Forall_forall. intros d Hd Ed. apply Hn1. rewrite <- Ed. by apply list_elem_of_fmap_2.
Qed.

Lemma settleLoad_wf (l r : list AccountsLoad) (ld : AccountsLoad)
    (result : thrown + option AdminAccountsResponse) (fallback : string) (me : Z)
    (s : Accounts) :
  ac_loads s = l ++ ld :: r -> answer_ok me result fallback -> wf_page s ->
  wf_page (settleLoad ld (l ++ r) result fallback s).
Proof.
  intros E Ha Hs. destruct (settled_loads l r ld s E Hs) as (Hn & Hb & Hc & Hle & Hf & Hne).
  pose proof Hs as [_ _ _ Hlo Hsh Hl]. unfold settleLoad.
  case_bool_decide as Ev; simpl.
  - assert (forall loading error, loading = false -> (error = "" -> False) ->
      wf_page (with_loads (l ++ r) loading error s)) as Herr.
    { intros loading error -> He. split; simpl; try done. split; [done|].
      intros (d & Hd & Hv)%Exists_exists. rewrite Forall_forall in Hne.
      exfalso. apply (Hne d Hd). congruence. }
    destruct result as [e|[data|]]; [by apply Herr| |by apply Herr].
    assert (wf_page (commit data (ld_filters ld) (with_loads (l ++ r) false (ac_error s) s))) as Hcm.
    { split; simpl; try done; [|by rewrite Hf]. split; [done|].
      intros (d & Hd & Hv)%Exists_exists. rewrite Forall_forall in Hne.
      exfalso. apply (Hne d Hd). congruence. }
    case_match eqn:Hmove; [|exact Hcm].
    unfold setOffset, setFilters. rewrite bool_decide_eq_false_2.
    + apply (load_wf (cleanupLoads (with_filters _ _ _))); simpl; [done| |done].
      eapply Forall_impl; [exact Hb|]. simpl. lia.
    + intros Ef. apply (f_equal fl_offset) in Ef. simpl in Ef. rewrite (Hf Ev) in *.
      apply andb_prop in Hmove as [Ht%Z.ltb_lt Ho%Z.leb_le]. unfold lastOffset in Ef.
      pose proof (Z.mul_div_le (resp_total data - 1) (fl_limit (ac_filters s)) Hl). lia.
  - assert (Exists (fun d => ld_version d = ac_loadVersion s) (l ++ r) <->
      Exists (fun d => ld_version d = ac_loadVersion s) (ac_loads s)) as Hex.
    { rewrite E, !Exists_app, Exists_cons. tauto. }
    split; simpl; try done. by rewrite Hex.
Qed.

Record wf_update (s : Accounts) : Prop := {
  wu_one : (List.length (ac_updates s) <= 1)%nat;
  wu_saving : ac_savingAccountID s = 0%Z <-> ac_updates s = [];
  wu_patching : Forall (fun u => match u with
    | Patching p f => f = ac_filters s /\ ac_pending s = Some p
    | AwaitLoad _ => True
    end) (ac_updates s);
  wu_pending : forall p, ac_pending s = Some p -> account_id (pr_account p) <> 0%Z;
  wu_rows : Forall (fun a => account_id a <> 0%Z) (ac_accounts s);
}.

(** A step that keeps the update and leaves the filters alone unless the dialog
    is closed. *)
Lemma keep_update (s s' : Accounts) :
  ac_updates s' = ac_updates s -> ac_savingAccountID s' = ac_savingAccountID s ->
  ac_pending s' = ac_pending s -> ac_accounts s' = ac_accounts s ->
  ac_filters s' = ac_filters s \/ ac_pending s = None \/
    Forall (fun u => is_patching u = false) (ac_updates s) ->
  wf_update s -> wf_update s'.
Proof.
  intros E1 E2 E3 E4 Hf [H1 H2 H3 H4 H5]. split; rewrite ?E1, ?E2, ?E3, ?E4; try done.
  eapply Forall_impl; [|intros u H; exact H]. apply Forall_forall. intros u Hu.
  rewrite Forall_forall in H3. specialize (H3 u Hu). destruct u as [p f|v]; [|done].
  destruct H3 as [-> Hp]. destruct Hf as [-> |[Hn|Hf]]; [done|congruence|].
  rewrite Forall_forall in Hf. by specialize (Hf _ Hu).
Qed.

Lemma setFilters_keeps (q : string) (f : Filters) (s : Accounts) :
  ac_updates (setFilters q f s) = ac_updates s /\
  ac_savingAccountID (setFilters q f s) = ac_savingAccountID s /\
  ac_pending (setFilters q f s) = ac_pending s /\
  ac_accounts (setFilters q f s) = ac_accounts s /\
  ac_currentAccountID (setFilters q f s) = ac_currentAccountID s /\
  ac_patched (setFilters q f s) = ac_patched s.
Proof. unfold setFilters. by case_bool_decide. Qed.

Lemma setFilters_update (q : string) (f : Filters) (s : Accounts) :
  ac_pending s = None \/ Forall (fun u => is_patching u = false) (ac_updates s) ->
  wf_update s -> wf_update (setFilters q f s).
Proof.
  intros Hp. destruct (setFilters_keeps q f s) as (E1 & E2 & E3 & E4 & _).
  apply keep_update; try done. by right.
Qed.

Lemma settleLoad_update (ld : AccountsLoad) (others : list AccountsLoad)
    (result : thrown + option AdminAccountsResponse) (fallback : string) (me : Z)
    (s : Accounts) :
  answer_ok me result fallback ->
  (moves_page ld result = true -> Forall (fun u => is_patching u = false) (ac_updates s)) ->
  wf_update s -> wf_update (settleLoad ld others result fallback s).
Proof.
  intros Ha Hm Hs. unfold settleLoad.
  destruct (negb _); [by apply (keep_update s); auto|].
  destruct result as [e|[data|]]; [by apply (keep_update s); auto| |by apply (keep_update s); auto].
  cbv zeta. simpl in Hm.
  destruct ((0 <? resp_total data)%Z && (resp_total data <=? fl_offset (ld_filters ld))%Z).
  - apply setFilters_update; [by right; apply Hm|]. by apply (keep_update s); auto.
  - destruct Hs as [H1 H2 H3 H4 H5]. split; simpl; try done. by destruct Ha.
Qed.

Lemma settleUpdate_update (l r : list RoleUpdate) (u : RoleUpdate) (result : option thrown)
    (fallback : string) (s : Accounts) :
  ac_updates s = l ++ u :: r -> wf_update s ->
  wf_update (settleUpdate u (l ++ r) result fallback s).
Proof.
  intros E [H1 H2 H3 H4 H5]. rewrite E, length_app in H1. simpl in H1.
  assert (l = [] /\ r = []) as [-> ->].
  { destruct l; [destruct r; [done|simpl in H1; lia]|simpl in H1; lia]. }
  destruct u as [p f|v]; [destruct result as [e|]|]; split; simpl; try done; try lia.
  - split; [|done]. intros H0. rewrite H2, E in H0. done.
  - by constructor.
Qed.

Lemma wf_update_step (me : Z) (s s' : Accounts) :
  wf_update s -> accounts_step true me s s' -> wf_update s'.
Proof.
  intros Hs Hstep. destruct Hstep as [q s Hp|s Hp|s Hp Hcl|r s Hp|n s Hp Hn|s Hp|s Hp|s Hp|
    l ld r result fb s E Ha Hm|a r s Hp Ha|s Hop|s Hop|l u r result fb s E Hv].
  - by apply (keep_update s); auto.
  - unfold applySearch. case_match; [by apply (keep_update s); auto|].
    apply setFilters_update; auto.
  - apply setFilters_update; auto.
  - apply setFilters_update; auto.
  - apply setFilters_update; auto.
  - unfold previousPage. case_match; [done|]. apply setFilters_update; auto.
  - unfold nextPage. case_match; [done|]. apply setFilters_update; auto.
  - unfold refresh. case_match; [done|]. by apply (keep_update s); auto.
  - eapply settleLoad_update; [done| |done]. auto.
  - unfold chooseRole. case_match; [done|]. destruct Hs as [H1 H2 H3 H4 H5].
    split; simpl; try done.
    + eapply Forall_impl; [exact H3|]. intros [p f|v]; [|done]. intros [_ Hq]. congruence.
    + intros p [= <-]. simpl. rewrite Forall_forall in H5. by apply H5.
  - unfold closeRoleChangeDialog. case_bool_decide as H0; [done|].
    destruct Hs as [H1 H2 H3 H4 H5].
    assert (ac_updates s = []) as E by (apply H2; by destruct (decide (ac_savingAccountID s = 0%Z))).
    split; simpl; rewrite ?E; simpl; [lia|done|constructor|done|exact H5].
  - unfold updateRole. destruct (ac_pending s) as [p|] eqn:Ep; [|done].
    case_bool_decide as H0; [done|]. destruct Hs as [H1 H2 H3 H4 H5].
    assert (ac_updates s = []) as E by (apply H2; by destruct (decide (ac_savingAccountID s = 0%Z))).
    split; simpl; rewrite ?E; simpl.
    + lia.
    + split; [|done]. intros Hz. by destruct (H4 p Ep).
    + by constructor.
    + intros p' [= <-]. by apply H4.
    + exact H5.
  - by apply settleUpdate_update.
Qed.

Lemma wf_page_step (me : Z) (s s' : Accounts) :
  wf_update s -> wf_page s -> accounts_step true me s s' -> wf_page s'.
Proof.
  intros Hu Hs Hstep. destruct Hstep as [q s Hp|s Hp|s Hp Hcl|r s Hp|n s Hp Hn|s Hp|s Hp|s Hp|
    l ld r result fb s E Ha Hm|a r s Hp Ha|s Hop|s Hop|l u r result fb s E Hv].
  - by apply (same_page_wf s).
  - unfold applySearch. case_match; [by apply reload_wf|].
    apply setFilters_wf; [by apply (moved_limit s)|done].
  - apply setFilters_wf; [by apply (moved_limit s)|done].
  - apply setFilters_wf; [by apply (moved_limit s)|done].
  - apply setFilters_wf; [|done]. simpl.
    repeat (apply elem_of_cons in Hn as [->|Hn]; [lia|]). by apply elem_of_nil in Hn.
  - unfold previousPage. case_match; [done|].
    apply setFilters_wf; [by apply (moved_limit s)|done].
  - unfold nextPage. case_match; [done|].
    apply setFilters_wf; [by apply (moved_limit s)|done].
  - unfold refresh. case_match; [done|]. by apply reload_wf.
  - by apply (settleLoad_wf l r ld result fb me).
  - unfold chooseRole. case_match; [done|]. by apply (same_page_wf s).
  - unfold closeRoleChangeDialog. case_bool_decide; [done|]. by apply (same_page_wf s).
  - unfold updateRole. destruct (ac_pending s); [|done]. case_bool_decide; [done|].
    by apply (same_page_wf s).
  - destruct u as [p f|v]; [|by apply (same_page_wf s)].
    destruct result as [e|]; [by apply (same_page_wf s)|]. simpl.
    pose proof (wu_patching s Hu) as Hpa. rewrite E in Hpa.
    apply Forall_app in Hpa as [_ [[-> _] _]%Forall_cons].
    by apply (same_page_wf (load (ac_filters s) s)), reload_wf.
Qed.

(** In every order of searches, filters, pages, responses and role updates
    (no response moving the page while a role is updated), the page spins
    exactly while a load for the current filters is in flight; when it rests
    without an error the rows answer the current filters; and at most one
    role update is under way. *)
Theorem rows_answer_filters (me : Z) (s : Accounts) :
  accounts_reachable true me s ->
  (ac_loading s = true <->
   Exists (fun ld => ld_version ld = ac_loadVersion s /\ ld_filters ld = ac_filters s)
     (ac_loads s)) /\
  (ac_loading s = false -> ac_error s = "" -> ac_shownFor s = Some (ac_filters s)) /\
  (List.length (ac_updates s) <= 1)%nat.
Proof.
  intros Hs. assert (wf_update s /\ wf_page s) as [Hu [Hn Hb Hc Hlo Hsh Hl]].
  { induction Hs as [|s s' _ [IHu IHp] Hstep].
    - split; [split; simpl; try done; lia|]. apply load_wf; simpl; [constructor..|lia].
    - split; [by eapply wf_update_step|by eapply wf_page_step]. }
  split_and!; [|done|apply Hu]. rewrite Hlo, !Exists_exists. split.
  - intros (ld & Hld & E). exists ld. rewrite Forall_forall in Hc. auto.
  - intros (ld & Hld & E & _). eauto.
Qed.

(** ** Roles *)

Record wf_roles (me : Z) (s : Accounts) : Prop := {
  wr_me : ac_accounts s = [] \/ ac_currentAccountID s = me;
  wr_pending : forall p, ac_pending s = Some p ->
    account_id (pr_account p) <> me /\ pr_role p <> account_role (pr_account p);
  wr_patched : Forall (fun p => p.1 <> me) (ac_patched s);
}.

Lemma keep_roles (me : Z) (s s' : Accounts) :
  ac_accounts s' = ac_accounts s -> ac_currentAccountID s' = ac_currentAccountID s ->
  ac_pending s' = ac_pending s -> ac_patched s' = ac_patched s -> wf_roles me s -> wf_roles me s'.
Proof. intros E1 E2 E3 E4 []. split; by rewrite ?E1, ?E2, ?E3, ?E4. Qed.

Lemma setFilters_roles (me : Z) (q : string) (f : Filters) (s : Accounts) :
  wf_roles me s -> wf_roles me (setFilters q f s).
Proof. destruct (setFilters_keeps q f s) as (_ & _ & E3 & E4 & E5 & E6). by apply keep_roles. Qed.

Lemma settleLoad_roles (me : Z) (ld : AccountsLoad) (others : list AccountsLoad)
    (result : thrown + option AdminAccountsResponse) (fallback : string) (s : Accounts) :
  answer_ok me result fallback -> wf_roles me s ->
  wf_roles me (settleLoad ld others result fallback s).
Proof.
  intros Ha Hs. unfold settleLoad. destruct (negb _); [by apply (keep_roles me s)|].
  destruct result as [e|[data|]]; [by apply (keep_roles me s)| |by apply (keep_roles me s)].
  cbv zeta. case_match; [apply setFilters_roles; by apply (keep_roles me s)|].
  destruct Hs as [H1 H2 H3]. destruct Ha as [Hme _]. split; simpl; auto.
Qed.

(** C36.  The console never asks to change the role of the signed-in account, and
    a role update it is about to send changes the role. *)
Theorem own_role_untouched (calm : bool) (me : Z) (s : Accounts) :
  accounts_reachable calm me s ->
  Forall (fun p => p.1 <> me) (ac_patched s) /\
  forall p, ac_pending s = Some p ->
    account_id (pr_account p) <> me /\ pr_role p <> account_role (pr_account p).
Proof.
  intros Hs. assert (wf_roles me s) as [_ ? ?]; [|done].
  induction Hs as [|s s' _ Hs Hstep]; [by split; [left|..]|].
  destruct Hstep as [q s Hp|s Hp|s Hp Hcl|r s Hp|n s Hp Hn|s Hp|s Hp|s Hp|
    l ld r result fb s E Ha Hm|a r s Hp Ha|s Hop|s Hop|l u r result fb s E Hv];
    try (by apply setFilters_roles); try (by apply (keep_roles me s)).
  - unfold applySearch. case_match; [by apply (keep_roles me s)|by apply setFilters_roles].
  - unfold previousPage. case_match; [done|by apply setFilters_roles].
  - unfold nextPage. case_match; [done|by apply setFilters_roles].
  - unfold refresh. case_match; [done|by apply (keep_roles me s)].
  - by apply settleLoad_roles.
  - unfold chooseRole. case_match eqn:Ec; [done|]. destruct Hs as [H1 H2 H3].
    apply orb_false_iff in Ec as [[Ec _]%orb_false_iff Er]. split; simpl; [done| |done].
    intros p [= <-]. simpl. destruct H1 as [H1|H1].
    + rewrite H1 in Ha. by apply elem_of_nil in Ha.
    + split; [|by apply bool_decide_eq_false_1 in Er].
      apply bool_decide_eq_false_1 in Ec. congruence.
  - unfold closeRoleChangeDialog. case_bool_decide; [done|]. destruct Hs. by split.
  - unfold updateRole. destruct (ac_pending s) as [p|] eqn:Ep; [|done].
    case_bool_decide; [done|]. destruct Hs as [H1 H2 H3]. split; simpl; [done|by rewrite <- Ep|].
    apply Forall_app. split; [done|]. constructor; [|done]. by apply H2.
  - destruct u as [p f|v]; [|by apply (keep_roles me s)].
    destruct result; [by apply (keep_roles me s)|]. destruct Hs. by split.
Qed.

(** ** A run *)

Definition example_account (i : Z) (r : AccountRole) : AdminAccount := {|
  account_id := i; account_role := r; account_created_at := ""; account_updated_at := "";
  oauth_identities := [] |}.

Definition example_response (total : Z) : AdminAccountsResponse := {|
  resp_accounts := [example_account 1 AdminRole; example_account 2 UserRole];
  resp_current_account_id := 1; resp_stats := emptyAccountStats; resp_total := total;
  resp_limit := 20; resp_offset := 0 |}.

Definition example_loaded : Accounts :=
  settleLoad {| ld_version := 1; ld_filters := ac_filters initialAccounts |} []
    (inr (Some (example_response 25))) "failed" mountAccounts.

Lemma example_loaded_reachable (calm : bool) : accounts_reachable calm 1 example_loaded.
Proof.
  eapply ar_next; [apply ar_start|]. apply (as_loaded calm 1 [] _ []); [reflexivity| |done].
  split; [reflexivity|]. apply (bool_decide_unpack _). vm_compute. exact I.
Qed.

Lemma rows_answer_filters_witness :
  ac_loading example_loaded = false /\
  ac_shownFor example_loaded = Some (ac_filters example_loaded) /\
  ac_loading (nextPage example_loaded) = true.
Proof.
  split; [reflexivity|]. split; [|reflexivity].
  apply (rows_answer_filters 1 example_loaded (example_loaded_reachable true)); reflexivity.
Defined.

Lemma own_role_untouched_witness :
  let s := updateRole (chooseRole (example_account 2 UserRole) AdminRole
    (chooseRole (example_account 1 AdminRole) UserRole example_loaded)) in
  ac_patched s = [(2%Z, AdminRole)] /\ Forall (fun p => p.1 <> 1%Z) (ac_patched s).
Proof.
  cbv zeta. split; [reflexivity|].
  apply (own_role_untouched true 1). eapply ar_next; [|by apply as_confirm].
  eapply ar_next; [|apply as_choose; [reflexivity|by right; left]].
  eapply ar_next; [|apply as_choose; [reflexivity|by left]].
  apply example_loaded_reachable.
Defined.

Lemma accountListQuery_roundtrip_witness :
  let ps := parse_params (accountListQuery {| q_query := " jane doe "; q_role := Some UserRole;
    q_limit := 20; q_offset := 40 |}) in
  params_get "q" ps = Some "jane doe" /\ params_get "offset" ps = Some "40".
Proof.
  cbv zeta. destruct (accountListQuery_roundtrip {| q_query := " jane doe ";
    q_role := Some UserRole; q_limit := 20; q_offset := 40 |}) as (H1 & _ & _ & H2).
  - apply utf8_ascii. vm_compute. reflexivity.
  - split; [exact H1|exact H2].
Defined.

(** The second page is refreshed, and a role changed on it; the refresh finds fewer
    accounts and moves to the first page; the change then reloads the page it was
    made on.  Its rows are shown under the first page, with nothing loading. *)
Example late_change_shows_other_page :
  let second := {| fl_query := ""; fl_role := None; fl_limit := 20; fl_offset := 20 |} in
  let answer v total := settleLoad {| ld_version := v; ld_filters := second |} []
    (inr (Some (example_response total))) "failed" in
  let s := answer 3%nat 25%Z (nextPage example_loaded) in
  let s := chooseRole (example_account 2 UserRole) AdminRole (refresh s) in
  let p := {| pr_account := example_account 2 UserRole; pr_role := AdminRole |} in
  let s := settleLoad {| ld_version := 4; ld_filters := second |} []
    (inr (Some (example_response 15))) "failed" (updateRole s) in
  let moved := ac_filters s in
  let s := settleUpdate (Patching p second) [] None "failed" s in
  let s := settleLoad {| ld_version := 7; ld_filters := second |}
    [{| ld_version := 6; ld_filters := moved |}]
    (inr (Some (example_response 25))) "failed" s in
  map ld_version (ac_loads s) = [6%nat] /\ fl_offset moved = 0%Z /\ ac_filters s = moved /\ ac_loading s = false /\
  ac_shownFor s = Some second.
Proof. vm_compute. by split_and!. Qed.
