(* ===== verification/Fetcher.v ===== *)
(** Loads that are guarded by a generation counter, as the catalog sections of
    the console write them: [const generation = ++ref.current] before the
    request, a test of the counter after it, and a cleanup that advances it.

    [Fetch] is the state of one such load over parameters [P] and items [A];
    the components instantiate it.  [answers p a] says that [a] is what the
    server returned for [p]; the lemmas say that at rest the items answer the
    parameters the component shows. *)
From S2P Require Import Prelude.
From S2P Require Import Errors.

Record Fetch (P A : Type) := {
  fe_generation : nat;
  fe_loading : bool;
  fe_error : string;
  fe_items : A;
  fe_loads : list (nat * P);
}.
Arguments fe_generation {P A}.
Arguments fe_loading {P A}.
Arguments fe_error {P A}.
Arguments fe_items {P A}.
Arguments fe_loads {P A}.
Arguments Build_Fetch {P A}.

Section fetch.
Context {P A : Type}.
Implicit Types f : Fetch P A.

Definition idleFetch (items : A) : Fetch P A := Build_Fetch 0%nat false "" items [].

(** A load starts; [reset] empties the items first. *)
Definition startFetch (p : P) (reset : option A) f : Fetch P A :=
  Build_Fetch (S (fe_generation f)) true "" (default (fe_items f) reset)
    (fe_loads f ++ [(S (fe_generation f), p)]).

(** The cleanup of the effect. *)
Definition cancelFetch f : Fetch P A :=
  Build_Fetch (S (fe_generation f)) (fe_loading f) (fe_error f) (fe_items f) (fe_loads f).

(** The load of generation [g] settles; [others] are the other loads. *)
Definition settleFetch (g : nat) (others : list (nat * P)) (result : thrown + A)
    (fallback : string) f : Fetch P A :=
  if bool_decide (g = fe_generation f) then
    match result with
    | inr items => Build_Fetch (fe_generation f) false (fe_error f) items others
    | inl e => Build_Fetch (fe_generation f) false (error_message e fallback) (fe_items f) others
    end
  else Build_Fetch (fe_generation f) (fe_loading f) (fe_error f) (fe_items f) others.

Context (answers : P -> A -> Prop).

(** At rest and without an error the items answer [shown]. *)
Record wf_fetch (shown : P) f : Prop := {
  wf_bound : Forall (fun l => l.1 <= fe_generation f)%nat (fe_loads f);
  wf_unique : NoDup (fe_loads f).*1;
  wf_shown : Forall (fun l => l.1 = fe_generation f -> l.2 = shown) (fe_loads f);
  wf_loading : fe_loading f = true <->
    Exists (fun l => l.1 = fe_generation f) (fe_loads f);
  wf_items : fe_loading f = false -> fe_error f = "" -> answers shown (fe_items f);
}.

(** The part that does not depend on what is shown. *)
Definition wf_loads f : Prop :=
  Forall (fun l => l.1 <= fe_generation f)%nat (fe_loads f) /\ NoDup (fe_loads f).*1.

Lemma wf_fetch_loads (shown : P) f : wf_fetch shown f -> wf_loads f.
Proof. by intros []. Qed.

Lemma cancel_loads f : wf_loads f -> wf_loads (cancelFetch f).
Proof. intros [Hb Hn]. split; [|done]. eapply Forall_impl; [exact Hb|]. simpl. lia. Qed.

Lemma start_wf (p : P) (reset : option A) f : wf_loads f -> wf_fetch p (startFetch p reset f).
Proof.
  intros [Hb Hn]. split; simpl.
  - apply Forall_app. split; [|by constructor]. eapply Forall_impl; [exact Hb|]. simpl. lia.
  - rewrite fmap_app. apply NoDup_app. split_and!; [done| |apply NoDup_singleton].
    intros g (l & -> & Hl)%list_elem_of_fmap Hg. apply list_elem_of_singleton in Hg.
    rewrite Forall_forall in Hb. specialize (Hb l Hl). simpl in Hg. lia.
  - apply Forall_app. split; [|by constructor]. eapply Forall_impl; [exact Hb|].
    simpl. intros l H1 H2. exfalso. lia.
  - split; [intros _|done]. apply Exists_app. right. by constructor.
  - done.
Qed.

Lemma settle_wf (shown : P) (l r : list (nat * P)) (g : nat) (p : P) (result : thrown + A)
    (fallback : string) f :
  fe_loads f = l ++ (g, p) :: r ->
  match result with inr items => answers p items | inl e => error_message e fallback <> "" end ->
  wf_fetch shown f -> wf_fetch shown (settleFetch g (l ++ r) result fallback f).
Proof.
  intros E Ha [Hb Hn Hs Hl Hi]. rewrite E in *.
  apply Forall_app in Hb as [Hb1 [Hg Hb2]%Forall_cons].
  apply Forall_app in Hs as [Hs1 [Hp Hs2]%Forall_cons]. simpl in Hg, Hp.
  rewrite fmap_app in Hn. simpl in Hn. rewrite <- Permutation_middle in Hn.
  apply NoDup_cons in Hn as [Hng Hn]. rewrite <- fmap_app in Hng, Hn.
  assert (Forall (fun l => l.1 <= fe_generation f)%nat (l ++ r)) as Hb by (by apply Forall_app).
  assert (Forall (fun l => l.1 = fe_generation f -> l.2 = shown) (l ++ r)) as Hs
    by (by apply Forall_app).
  unfold settleFetch. case_bool_decide as Eg.
  - assert (~ Exists (fun l => l.1 = fe_generation f) (l ++ r)) as Hno.
    { intros (x & Hx & Ex)%Exists_exists. apply Hng. rewrite Eg, <- Ex.
      by apply list_elem_of_fmap_2. }
    destruct result as [e|items]; split; simpl; try done.
    rewrite <- (Hp Eg). done.
  - assert (Exists (fun l => l.1 = fe_generation f) (l ++ r) <->
      Exists (fun l => l.1 = fe_generation f) (l ++ (g, p) :: r)) as Hex.
    { rewrite !Exists_app, Exists_cons. simpl. tauto. }
    split; simpl; try done. by rewrite Hex.
Qed.
End fetch.
