(* ===== verification/Regions.v ===== *)
(** Sandbox regions: src/ui/src/components/sandbox-catalog-utils.ts and the
    endpoint helpers of src/ui/src/components/sandbox-service-default-utils.ts.

    [hostname] stands for [new URL(text).hostname] of the browser; it gives
    nothing where the constructor throws. *)
From S2P Require Import Prelude.
From S2P Require Import JsString.
From S2P Require Import JsUri.
From S2P Require Import Json.

Record SandboxRegion := { region_id : string; region_label : string; region_apiURL : string }.

(** [value.trim().replace(/\/+$/, "").toLowerCase()] *)
Fixpoint drop_slashes (s : string) : string :=
  match s with
  | String a r => if Ascii.eqb a "/" then drop_slashes r else s
  | EmptyString => ""
  end.

Definition stripSlashes (s : string) : string := srev (drop_slashes (srev s)).

Definition normalizeSandboxAPIURL (value : string) : string :=
  toLowerCase (stripSlashes (trim value)).

Definition findSandboxRegionByAPIURL (regions : list SandboxRegion) (value : string) :
    option SandboxRegion :=
  find_first (fun region =>
    bool_decide (normalizeSandboxAPIURL (region_apiURL region) = normalizeSandboxAPIURL value))
    regions.

(** The regions of a response; nothing for a failed request, a value that is
    not an array or an empty one.  The server gives every region an identifier;
    its label and endpoint are texts or absent. *)
Definition regionOf (item : json) : option SandboxRegion :=
  match as_string (field "id" item) with
  | Some i => Some {|
      region_id := i;
      region_label := default i (as_string (field "label" item));
      region_apiURL := default "" (as_string (field "api_url" item)) |}
  | None => None
  end.

Definition fetchSandboxRegions (response : option json) : option (list SandboxRegion) :=
  match response with
  | Some (JArr (item :: items)) => mapM regionOf (item :: items)
  | _ => None
  end.

(** [setSandboxRegions] of App: only a non-empty list replaces the regions. *)
Definition setSandboxRegions (fetched : option (list SandboxRegion))
    (regions : list SandboxRegion) : list SandboxRegion :=
  match fetched with Some (r :: rs) => r :: rs | _ => regions end.

Definition sandboxCatalogParams (region : string) (installationID : option Z)
    (templateID : string) : params :=
  let ps := [("region", region)] in
  let ps := if num_truthy installationID
            then params_set "installation_id" (pretty (default 0%Z installationID)) ps else ps in
  if str_truthy templateID then params_set "template_id" templateID ps else ps.

Definition sandboxCatalogURL (path region : string) (installationID : option Z)
    (templateID : string) : string :=
  "/user/sandbox/" +:+ path +:+ "?" +:+
  show_params (sandboxCatalogParams region installationID templateID).

Section default_url.
Context (hostname : string -> option string).

(** The first region of a host; nothing when a region's URL is not one. *)
Fixpoint region_of_host (host : string) (regions : list SandboxRegion) :
    option (option SandboxRegion) :=
  match regions with
  | [] => Some None
  | r :: rs =>
      match hostname (region_apiURL r) with
      | None => None
      | Some configured =>
          if bool_decide (host = toLowerCase configured) ||
             (str_truthy (region_id r) &&
              (startsWith (region_id r +:+ ".") host || startsWith (region_id r +:+ "-") host))
          then Some (Some r)
          else region_of_host host rs
      end
  end.

Definition sandboxServiceDefaultAPIURL (value : string) (regions : list SandboxRegion) : string :=
  let trimmed := trim value in
  let normalized := normalizeSandboxAPIURL trimmed in
  match find_first (fun item =>
          bool_decide (normalizeSandboxAPIURL (region_apiURL item) = normalized)) regions with
  | Some exact => region_apiURL exact
  | None =>
      match hostname normalized with
      | Some h =>
          match region_of_host (toLowerCase h) regions with
          | Some (Some region) => region_apiURL region
          | _ => trimmed
          end
      | None => trimmed
      end
  end.

Lemma region_of_host_in (h : string) (regions : list SandboxRegion) (r : SandboxRegion) :
  region_of_host h regions = Some (Some r) -> r ∈ regions.
Proof.
  induction regions as [|x regions IH]; simpl; [done|].
  destruct (hostname (region_apiURL x)); [|done]. case_goal.
  - intros [= <-]. by left.
  - intros H%IH. by right.
Qed.

(** The endpoint the default form starts from is the text that was saved,
    trimmed, or the endpoint of a configured region, and in the latter case
    the region selector shows a region with that endpoint; an endpoint that
    equals a region's up to case and trailing slashes is always recognised. *)
Theorem sandboxServiceDefaultAPIURL_selects (value : string) (regions : list SandboxRegion) :
  let url := sandboxServiceDefaultAPIURL value regions in
  (url = trim value \/
   exists r, r ∈ regions /\ url = region_apiURL r /\
     exists shown, findSandboxRegionByAPIURL regions url = Some shown /\
       normalizeSandboxAPIURL (region_apiURL shown) = normalizeSandboxAPIURL (region_apiURL r)) /\
  forall r, findSandboxRegionByAPIURL regions value = Some r -> url = region_apiURL r.
Proof.
  assert (forall r, r ∈ regions ->
    exists shown, findSandboxRegionByAPIURL regions (region_apiURL r) = Some shown /\
      normalizeSandboxAPIURL (region_apiURL shown) = normalizeSandboxAPIURL (region_apiURL r)) as Hsel.
  { intros r Hr. destruct (findSandboxRegionByAPIURL regions (region_apiURL r)) as [s|] eqn:E.
    - exists s. split; [done|]. apply find_first_Some in E as [_ E].
      by apply bool_decide_eq_true_1 in E.
    - unfold findSandboxRegionByAPIURL in E. rewrite find_first_None in E.
      specialize (E r Hr). by rewrite bool_decide_eq_true_2 in E. }
  assert (normalizeSandboxAPIURL (trim value) = normalizeSandboxAPIURL value) as En.
  { unfold normalizeSandboxAPIURL. by rewrite trim_trim. }
  unfold sandboxServiceDefaultAPIURL. rewrite En. split.
  - destruct (find_first _ regions) as [r|] eqn:E.
    + apply find_first_Some in E as [Hr _]. right. exists r. eauto.
    + destruct (hostname (normalizeSandboxAPIURL value)) as [h|]; [|by left].
      destruct (region_of_host (toLowerCase h) regions) as [[r|]|] eqn:Er; [|by left..].
      right. exists r. split; [by eapply region_of_host_in|]. split; [done|].
      apply Hsel. by eapply region_of_host_in.
  - intros r Hr. unfold findSandboxRegionByAPIURL in Hr. by rewrite Hr.
Qed.
End default_url.

(** The URL of a catalog request names the region, the installation of the
    account the page is about and the template filter, and nothing else. *)
Theorem sandboxCatalogURL_roundtrip (path region templateID : string)
    (installationID : option Z) :
  utf8 region -> utf8 templateID -> (0 <= default 0 installationID)%Z ->
  exists query, sandboxCatalogURL path region installationID templateID =
    "/user/sandbox/" +:+ path +:+ query /\
  let ps := parse_params query in
  params_get "region" ps = Some region /\
  params_get "installation_id" ps =
    (if num_truthy installationID then pretty <$> installationID else None) /\
  params_get "template_id" ps = (if str_truthy templateID then Some templateID else None) /\
  (List.length ps <= 3)%nat.
Proof.
  intros Hr Ht Hi. exists ("?" +:+ show_params (sandboxCatalogParams region installationID templateID)).
  split; [done|]. cbv zeta. rewrite parse_search_params.
  - unfold sandboxCatalogParams.
    destruct (num_truthy installationID) eqn:En, (str_truthy templateID);
      destruct installationID as [n|]; simpl; split_and!; try done; lia.
  - assert (utf8 (pretty (default 0%Z installationID))) as Hn.
    { apply utf8_ascii. eapply sforall_impl; [|by apply pretty_Z_digits]. intros a. all_bytes a. }
    unfold sandboxCatalogParams, utf8_pair.
    destruct (num_truthy installationID), (str_truthy templateID); repeat constructor; simpl;
      try done; by apply utf8_ascii.
Qed.

Lemma sandboxCatalogURL_roundtrip_witness :
  sandboxCatalogURL "instances" "cn-east-1" (Some 7%Z) "a b" =
    "/user/sandbox/instances?region=cn-east-1&installation_id=7&template_id=a+b" /\
  exists query, sandboxCatalogURL "instances" "cn-east-1" (Some 7%Z) "a b" =
    "/user/sandbox/" +:+ "instances" +:+ query /\
  params_get "template_id" (parse_params query) = Some "a b".
Proof.
  split; [vm_compute; reflexivity|].
  destruct (sandboxCatalogURL_roundtrip "instances" "cn-east-1" "a b" (Some 7%Z))
    as (q & E & _ & _ & Ht & _).
  - apply utf8_ascii. vm_compute. reflexivity.
  - apply utf8_ascii. vm_compute. reflexivity.
  - simpl. lia.
  - exists q. split; [exact E|exact Ht].
Defined.

(** ** Audiences of the platform default *)

Record SandboxAudienceIdentity := { ai_account_id : Z; ai_account_type : string }.

Definition sandboxAudienceIdentityKey (account : SandboxAudienceIdentity) : string :=
  toLowerCase (ai_account_type account) +:+ ":" +:+ pretty (ai_account_id account).

Fixpoint drop_ats (s : string) : string :=
  match s with
  | String a r => if Ascii.eqb a "@" then drop_ats r else s
  | EmptyString => ""
  end.

Definition normalizeSandboxAudienceLogin (value : string) : string := drop_ats (trim value).

Definition availableSandboxAudienceAccounts {A} (identity : A -> SandboxAudienceIdentity)
    (available : list A) (selected : list SandboxAudienceIdentity) : list A :=
  filter (fun account =>
    sandboxAudienceIdentityKey (identity account) ∉ map sandboxAudienceIdentityKey selected)
    available.

Inductive DefaultStatus := Incomplete | Enabled | Disabled.

Definition sandboxServiceDefaultStatus (enabled configured : bool) : DefaultStatus :=
  if negb configured then Incomplete else if enabled then Enabled else Disabled.

Definition sandboxAudienceSummary (all : bool) (selectedCount : nat) : string :=
  if all then "Available to all GitHub accounts"
  else if (selectedCount =? 0)%nat then "No GitHub accounts selected"
  else "Available to " +:+ pretty selectedCount +:+ " selected " +:+
       (if (selectedCount =? 1)%nat then "account" else "accounts").

Definition sandboxConfigSourceLabel (source : option string) : string :=
  match source with
  | Some "installation" => "GitHub installation"
  | Some "account" => "Account"
  | Some "inherited_account" => "Inherited account"
  | Some "admin_default" => "Admin default"
  | Some "request_snapshot" => "Saved request snapshot"
  | _ => utf8_3 226 128 148
  end.

Lemma audience_key_inj (a b : SandboxAudienceIdentity) :
  (0 <= ai_account_id a)%Z -> (0 <= ai_account_id b)%Z ->
  sandboxAudienceIdentityKey a = sandboxAudienceIdentityKey b ->
  toLowerCase (ai_account_type a) = toLowerCase (ai_account_type b) /\
  ai_account_id a = ai_account_id b.
Proof.
  intros Ha Hb E. unfold sandboxAudienceIdentityKey in E.
  assert (forall n, (0 <= n)%Z -> free ":" (pretty n) = true) as Hf.
  { intros n Hn. eapply sforall_impl; [|by apply pretty_Z_digits]. intros c. all_bytes c. }
  apply (last_sep_unique ":") in E as [E1 E2]; [|by apply Hf..]. split; [exact E1|].
  by apply (inj pretty).
Qed.

(** The suggestions for the audience leave out exactly the accounts that are
    already selected: those of the same identifier and type, whatever the case
    in which the type is written. *)
Theorem available_accounts_spec {A} (identity : A -> SandboxAudienceIdentity) (available : list A)
    (selected : list SandboxAudienceIdentity) :
  Forall (fun a => 0 <= ai_account_id a)%Z (map identity available ++ selected) ->
  forall a, a ∈ availableSandboxAudienceAccounts identity available selected <->
    a ∈ available /\
    Forall (fun s => ~ (ai_account_id s = ai_account_id (identity a) /\
      toLowerCase (ai_account_type s) = toLowerCase (ai_account_type (identity a)))) selected.
Proof.
  intros [Ha Hs]%Forall_app a. unfold availableSandboxAudienceAccounts.
  rewrite list_elem_of_filter. rewrite Forall_forall in Hs. split.
  - intros [Hk Hin]. split; [done|]. apply Forall_forall. intros s Hsel [E1 E2]. apply Hk.
    apply list_elem_of_fmap. exists s. split; [|done]. unfold sandboxAudienceIdentityKey.
    by rewrite E1, E2.
  - intros [Hin Hno]. split; [|done]. intros (s & E & Hsel)%list_elem_of_fmap.
    rewrite Forall_forall in Hno. apply (Hno s Hsel).
    apply audience_key_inj in E as [E1 E2]; [done| |by apply Hs].
    rewrite Forall_forall in Ha. apply Ha. by apply list_elem_of_fmap_2.
Qed.

Lemma available_accounts_spec_witness :
  availableSandboxAudienceAccounts (fun x => x)
    [{| ai_account_id := 1; ai_account_type := "User" |};
     {| ai_account_id := 2; ai_account_type := "User" |}]
    [{| ai_account_id := 1; ai_account_type := "user" |}] =
    [{| ai_account_id := 2; ai_account_type := "User" |}] /\
  {| ai_account_id := 2; ai_account_type := "User" |} ∈
  availableSandboxAudienceAccounts (fun x => x)
    [{| ai_account_id := 2; ai_account_type := "User" |}]
    [{| ai_account_id := 1; ai_account_type := "user" |}].
Proof.
  split; [vm_compute; reflexivity|]. apply available_accounts_spec.
  - repeat constructor; simpl; lia.
  - split; [by left|]. repeat constructor. simpl. intros [E _]. discriminate.
Defined.
