(* ===== verification/SandboxCatalog.v ===== *)
(** The template and instance pages of a Sandbox account: the two sections of
    src/ui/src/components/sandbox-catalog-sections.tsx with the loaders of
    sandbox-catalog-utils.ts.

    Each section is keyed by the installation, so the installation is fixed for
    its life.  [request] parameters of a load are the region, the installation
    and, for instances, the template filter. *)
From S2P Require Import Prelude.
From S2P Require Import JsString.
From S2P Require Import AdminTypes.
From S2P Require Import Errors.
From S2P Require Import Regions.
From S2P Require Import Fetcher.

(** [sandboxInstancesViewState] *)
Record InstancesView := { iv_loading : bool; iv_error : string; iv_filterDisabled : bool }.

Definition sandboxInstancesViewState (templatesLoading instancesLoading : bool)
    (templatesError instancesError : string) : InstancesView := {|
  iv_loading := templatesLoading || instancesLoading;
  iv_error := instancesError;
  iv_filterDisabled := templatesLoading || str_truthy templatesError |}.

Definition formatOptionalTime (parse : string -> option Z)
    (toLocaleString : Z -> option string -> string) (value : string) (locale : option string) :
    string :=
  let dash := utf8_3 226 128 148 in
  if negb (str_truthy value) || startsWith "0001-01-01" value then dash
  else match parse value with Some ms => toLocaleString ms locale | None => dash end.

(** Items of a response: nothing for a value that is not an array. *)
Definition items_of {A} (data : option (list A)) : list A := default [] data.

Record TemplatesQuery := { tq_region : string; tq_installation : option Z }.
Record InstancesQuery := { iq_region : string; iq_installation : option Z; iq_template : string }.

Definition templatesURL (q : TemplatesQuery) : string :=
  sandboxCatalogURL "templates" (tq_region q) (tq_installation q) "".
Definition instancesURL (q : InstancesQuery) : string :=
  sandboxCatalogURL "instances" (iq_region q) (iq_installation q) (iq_template q).

#[export] Instance TemplatesQuery_eq_dec : EqDecision TemplatesQuery.
Proof. solve_decision. Defined.
#[export] Instance InstancesQuery_eq_dec : EqDecision InstancesQuery.
Proof. solve_decision. Defined.

(** ** The instances section *)

Record Sandboxes := {
  sb_installation : option Z;
  sb_regions : list SandboxRegion;
  sb_region : string;
  sb_template : string;
  sb_templates : Fetch TemplatesQuery (list SandboxTemplate);
  sb_instances : Fetch InstancesQuery (list SandboxInstance);
}.

Definition templatesQuery (s : Sandboxes) : TemplatesQuery :=
  {| tq_region := sb_region s; tq_installation := sb_installation s |}.

Definition instancesQuery (s : Sandboxes) : InstancesQuery := {|
  iq_region := sb_region s; iq_installation := sb_installation s;
  iq_template := if bool_decide (sb_template s = "all") then "" else sb_template s |}.

Definition loadTemplates (s : Sandboxes) : Sandboxes := {|
  sb_installation := sb_installation s; sb_regions := sb_regions s; sb_region := sb_region s;
  sb_template := sb_template s;
  sb_templates := startFetch (templatesQuery s) (Some []) (sb_templates s);
  sb_instances := sb_instances s |}.

Definition loadInstances (s : Sandboxes) : Sandboxes := {|
  sb_installation := sb_installation s; sb_regions := sb_regions s; sb_region := sb_region s;
  sb_template := sb_template s; sb_templates := sb_templates s;
  sb_instances := startFetch (instancesQuery s) (Some []) (sb_instances s) |}.

(** New controls are rendered: the effects whose callback changed are cleaned
    up and run again; they load nothing while there is no region.  The cleanup
    was only registered by a run that loaded. *)
Definition setControls (region template : string) (s : Sandboxes) : Sandboxes :=
  let changed := negb (bool_decide (region = sb_region s)) in
  let filtered := changed || negb (bool_decide (template = sb_template s)) in
  let s' := {|
    sb_installation := sb_installation s; sb_regions := sb_regions s; sb_region := region;
    sb_template := template;
    sb_templates :=
      if changed && str_truthy (sb_region s) then cancelFetch (sb_templates s)
      else sb_templates s;
    sb_instances :=
      if filtered && str_truthy (sb_region s) then cancelFetch (sb_instances s)
      else sb_instances s |} in
  let s' := if changed && str_truthy region then loadTemplates s' else s' in
  if filtered && str_truthy region then loadInstances s' else s'.

(** The regions arrive; the first one is chosen when none is. *)
Definition setRegions (regions : list SandboxRegion) (s : Sandboxes) : Sandboxes :=
  let s' := {|
    sb_installation := sb_installation s; sb_regions := regions; sb_region := sb_region s;
    sb_template := sb_template s; sb_templates := sb_templates s;
    sb_instances := sb_instances s |} in
  match regions with
  | r :: _ =>
      if bool_decide (sb_region s = "") then setControls (region_id r) (sb_template s) s' else s'
  | [] => s'
  end.

(** [onRegion] resets the template filter. *)
Definition pickRegion (region : string) (s : Sandboxes) : Sandboxes := setControls region "all" s.

Definition instancesView (s : Sandboxes) : InstancesView :=
  sandboxInstancesViewState (fe_loading (sb_templates s)) (fe_loading (sb_instances s))
    (fe_error (sb_templates s)) (fe_error (sb_instances s)).

Definition pickTemplate (template : string) (s : Sandboxes) : Sandboxes :=
  if iv_filterDisabled (instancesView s) then s else setControls (sb_region s) template s.

Definition refreshSandboxes (s : Sandboxes) : Sandboxes :=
  if iv_loading (instancesView s) then s else loadInstances (loadTemplates s).

Definition settleTemplates (g : nat) (others : list (nat * TemplatesQuery))
    (result : thrown + list SandboxTemplate) (fallback : string) (s : Sandboxes) : Sandboxes := {|
  sb_installation := sb_installation s; sb_regions := sb_regions s; sb_region := sb_region s;
  sb_template := sb_template s;
  sb_templates := settleFetch g others result fallback (sb_templates s);
  sb_instances := sb_instances s |}.

Definition settleInstances (g : nat) (others : list (nat * InstancesQuery))
    (result : thrown + list SandboxInstance) (fallback : string) (s : Sandboxes) : Sandboxes := {|
  sb_installation := sb_installation s; sb_regions := sb_regions s; sb_region := sb_region s;
  sb_template := sb_template s; sb_templates := sb_templates s;
  sb_instances := settleFetch g others result fallback (sb_instances s) |}.

(** The section is mounted with the regions known by then. *)
Definition mountSandboxes (installation : option Z) (regions : list SandboxRegion) : Sandboxes :=
  setRegions regions {|
    sb_installation := installation; sb_regions := []; sb_region := ""; sb_template := "all";
    sb_templates := idleFetch []; sb_instances := idleFetch [] |}.

(** ** Steps

    An option of a selector has a value that is not empty. *)

Section steps.
Context (listTemplates : TemplatesQuery -> list SandboxTemplate -> Prop).
Context (listInstances : InstancesQuery -> list SandboxInstance -> Prop).

(** What a response to a query may be; requests reject with a message. *)
Definition answer {Q A} (list : Q -> A -> Prop) (q : Q) (result : thrown + A)
    (fallback : string) : Prop :=
  match result with inr items => list q items | inl e => error_message e fallback <> "" end.

Inductive sandboxes_step : Sandboxes -> Sandboxes -> Prop :=
  | ss_regions rs s : sandboxes_step s (setRegions rs s)
  | ss_region r s :
      r ∈ map region_id (sb_regions s) -> r <> "" -> sandboxes_step s (pickRegion r s)
  | ss_template t s :
      t ∈ "all" :: map template_id (fe_items (sb_templates s)) -> t <> "" ->
      sandboxes_step s (pickTemplate t s)
  | ss_refresh s : sandboxes_step s (refreshSandboxes s)
  | ss_templates l g q r result fallback s :
      fe_loads (sb_templates s) = l ++ (g, q) :: r -> answer listTemplates q result fallback ->
      sandboxes_step s (settleTemplates g (l ++ r) result fallback s)
  | ss_instances l g q r result fallback s :
      fe_loads (sb_instances s) = l ++ (g, q) :: r -> answer listInstances q result fallback ->
      sandboxes_step s (settleInstances g (l ++ r) result fallback s).

Inductive sandboxes_reachable : Sandboxes -> Prop :=
  | sr_start installation regions : sandboxes_reachable (mountSandboxes installation regions)
  | sr_next s s' : sandboxes_reachable s -> sandboxes_step s s' -> sandboxes_reachable s'.

(** ** The rows answer the controls *)

Definition wf_sandboxes (s : Sandboxes) : Prop :=
  wf_loads (sb_templates s) /\ wf_loads (sb_instances s) /\
  (sb_region s <> "" ->
   wf_fetch listTemplates (templatesQuery s) (sb_templates s) /\
   wf_fetch listInstances (instancesQuery s) (sb_instances s)).

Lemma wf_setControls (region template : string) (s : Sandboxes) :
  wf_sandboxes s -> (region = "" -> sb_region s = "") ->
  wf_sandboxes (setControls region template s).
Proof.
  intros (Lt & Li & Hw) Hr. unfold setControls. destruct (str_truthy region) eqn:Er.
  - rewrite !andb_true_r.
    assert (forall b : bool, wf_loads (if b then cancelFetch (sb_templates s) else sb_templates s)) as Ct.
    { intros []; [by apply cancel_loads|done]. }
    assert (forall b : bool, wf_loads (if b then cancelFetch (sb_instances s) else sb_instances s)) as Ci.
    { intros []; [by apply cancel_loads|done]. }
    case_bool_decide as E; simpl.
    + subst region. apply str_truthy_true in Er. destruct (Hw Er) as [Ht Hi].
      case_bool_decide as E'; simpl.
      * subst template. split_and!; [done..|]. by intros _.
      * specialize (Ci (str_truthy (sb_region s))).
        pose proof (start_wf listInstances
          {| iq_region := sb_region s; iq_installation := sb_installation s;
             iq_template := if bool_decide (template = "all") then "" else template |}
          (Some []) _ Ci) as Hst.
        split_and!; [done|by eapply wf_fetch_loads|]. intros _. split; [exact Ht|exact Hst].
    + pose proof (start_wf listTemplates
        {| tq_region := region; tq_installation := sb_installation s |}
        (Some []) _ (Ct (str_truthy (sb_region s)))) as Ht.
      pose proof (start_wf listInstances
        {| iq_region := region; iq_installation := sb_installation s;
           iq_template := if bool_decide (template = "all") then "" else template |}
        (Some []) _ (Ci (str_truthy (sb_region s)))) as Hi.
      split_and!; [by eapply wf_fetch_loads..|]. intros _. split; [exact Ht|exact Hi].
  - apply str_truthy_false in Er as ->. rewrite !andb_false_r, (Hr eq_refl). simpl.
    rewrite !andb_false_r. split_and!; [done..|]. simpl. done.
Qed.

Lemma wf_setRegions (rs : list SandboxRegion) (s : Sandboxes) :
  wf_sandboxes s -> wf_sandboxes (setRegions rs s).
Proof.
  intros Hs. destruct rs as [|r rs]; [exact Hs|]. unfold setRegions.
  case_bool_decide; [|exact Hs]. by apply wf_setControls.
Qed.

Lemma settle_loads {P A} (f : Fetch P A) (l r : list (nat * P)) (g : nat) (p : P)
    (result : thrown + A) (fallback : string) :
  fe_loads f = l ++ (g, p) :: r -> wf_loads f -> wf_loads (settleFetch g (l ++ r) result fallback f).
Proof.
  intros E [Hb Hn]. rewrite E in *. apply Forall_app in Hb as [Hb1 [_ Hb2]%Forall_cons].
  rewrite fmap_app in Hn. simpl in Hn. rewrite <- Permutation_middle in Hn.
  apply NoDup_cons in Hn as [_ Hn]. rewrite <- fmap_app in Hn.
  unfold settleFetch. case_bool_decide; [destruct result|]; (split; [by apply Forall_app|exact Hn]).
Qed.

Lemma wf_sandboxes_step (s s' : Sandboxes) :
  wf_sandboxes s -> sandboxes_step s s' -> wf_sandboxes s'.
Proof.
  intros Hs Hstep. pose proof Hs as (Lt & Li & Hw).
  destruct Hstep as [rs s|r s Hin Hr|t s Hin Hne|s|l g q r result fb s E Ha|l g q r result fb s E Ha].
  - by apply wf_setRegions.
  - by apply wf_setControls.
  - unfold pickTemplate. case_match; [done|]. by apply wf_setControls.
  - unfold refreshSandboxes. case_match; [done|].
    pose proof (start_wf listTemplates (templatesQuery s) (Some []) _ Lt) as Ht.
    pose proof (start_wf listInstances (instancesQuery s) (Some []) _ Li) as Hi.
    split_and!; [by eapply wf_fetch_loads..|]. intros _. split; [exact Ht|exact Hi].
  - split_and!; [by eapply settle_loads|done|]. intros Hr. destruct (Hw Hr) as [Ht Hi].
    split; [|exact Hi]. by eapply settle_wf.
  - split_and!; [done|by eapply settle_loads|]. intros Hr. destruct (Hw Hr) as [Ht Hi].
    split; [exact Ht|]. by eapply settle_wf.
Qed.

(** Once a region is selected, whatever the order in which regions arrive,
    the region and the filter change, the page is refreshed and responses
    come, the rows shown at rest and without an error answer the region, the
    account and the template filter that are selected, and so does the list
    the filter offers; the page spins exactly while a load for them runs. *)
Theorem sandbox_rows_answer_controls (s : Sandboxes) :
  sandboxes_reachable s -> sb_region s <> "" ->
  (fe_loading (sb_instances s) = false -> fe_error (sb_instances s) = "" ->
   listInstances (instancesQuery s) (fe_items (sb_instances s))) /\
  (fe_loading (sb_templates s) = false -> fe_error (sb_templates s) = "" ->
   listTemplates (templatesQuery s) (fe_items (sb_templates s))) /\
  (fe_loading (sb_instances s) = true <->
   Exists (fun l => l.1 = fe_generation (sb_instances s)) (fe_loads (sb_instances s))) /\
  Forall (fun l => l.1 = fe_generation (sb_instances s) -> l.2 = instancesQuery s)
    (fe_loads (sb_instances s)).
Proof.
  intros Hs Hr. assert (wf_sandboxes s) as (_ & _ & Hw).
  - clear Hr. induction Hs as [i rs|s s' _ IH Hstep]; [|by eapply wf_sandboxes_step].
    apply wf_setRegions. split_and!; [split; constructor..|]. done.
  - destruct (Hw Hr) as [Ht Hi]. split_and!; [apply Hi|apply Ht|apply Hi|apply Hi].
Qed.
End steps.

(** ** The templates section *)

Record PublicRunnerTemplate := {
  public_default_template_name : string;
  public_runner_spec_names : list string;
  public_workflow_labels : list (list string);
}.

(** The managed templates, which do not depend on the region, and the
    templates of the selected region. *)
Record TemplatesPage := {
  tp_installation : option Z;
  tp_regions : list SandboxRegion;
  tp_region : string;
  tp_public : Fetch unit (list PublicRunnerTemplate);
  tp_scoped : Fetch TemplatesQuery (list SandboxTemplate);
}.

Definition scopedQuery (s : TemplatesPage) : TemplatesQuery :=
  {| tq_region := tp_region s; tq_installation := tp_installation s |}.

Definition with_scoped (region : string) (scoped : Fetch TemplatesQuery (list SandboxTemplate))
    (s : TemplatesPage) : TemplatesPage := {|
  tp_installation := tp_installation s; tp_regions := tp_regions s; tp_region := region;
  tp_public := tp_public s; tp_scoped := scoped |}.

Definition with_public (public : Fetch unit (list PublicRunnerTemplate)) (s : TemplatesPage) :
    TemplatesPage := {|
  tp_installation := tp_installation s; tp_regions := tp_regions s; tp_region := tp_region s;
  tp_public := public; tp_scoped := tp_scoped s |}.

(** [loadPublic] keeps the templates on screen, [loadScoped] clears them. *)
Definition loadPublic (s : TemplatesPage) : TemplatesPage :=
  with_public (startFetch () None (tp_public s)) s.

Definition loadScoped (s : TemplatesPage) : TemplatesPage :=
  with_scoped (tp_region s) (startFetch (scopedQuery s) (Some []) (tp_scoped s)) s.

Definition setTemplatesRegion (region : string) (s : TemplatesPage) : TemplatesPage :=
  if bool_decide (region = tp_region s) then s
  else
    let s' := with_scoped region
      (if str_truthy (tp_region s) then cancelFetch (tp_scoped s) else tp_scoped s) s in
    if str_truthy region then loadScoped s' else s'.

Definition setTemplatesRegions (regions : list SandboxRegion) (s : TemplatesPage) :
    TemplatesPage :=
  let s' := {|
    tp_installation := tp_installation s; tp_regions := regions; tp_region := tp_region s;
    tp_public := tp_public s; tp_scoped := tp_scoped s |} in
  match regions with
  | r :: _ => if bool_decide (tp_region s = "") then setTemplatesRegion (region_id r) s' else s'
  | [] => s'
  end.

Definition mountTemplates (installation : option Z) (regions : list SandboxRegion) :
    TemplatesPage :=
  loadPublic (setTemplatesRegions regions {|
    tp_installation := installation; tp_regions := []; tp_region := "";
    tp_public := idleFetch []; tp_scoped := idleFetch [] |}).

Section template_steps.
Context (listPublic : list PublicRunnerTemplate -> Prop).
Context (listTemplates : TemplatesQuery -> list SandboxTemplate -> Prop).

Inductive templates_step : TemplatesPage -> TemplatesPage -> Prop :=
  | ts_regions rs s : templates_step s (setTemplatesRegions rs s)
  | ts_region r s :
      r ∈ map region_id (tp_regions s) -> r <> "" -> templates_step s (setTemplatesRegion r s)
  | ts_refreshPublic s : fe_loading (tp_public s) = false -> templates_step s (loadPublic s)
  | ts_refreshScoped s : fe_loading (tp_scoped s) = false -> templates_step s (loadScoped s)
  | ts_public l g q r result fallback s :
      fe_loads (tp_public s) = l ++ (g, q) :: r ->
      answer (fun _ => listPublic) q result fallback ->
      templates_step s (with_public (settleFetch g (l ++ r) result fallback (tp_public s)) s)
  | ts_scoped l g q r result fallback s :
      fe_loads (tp_scoped s) = l ++ (g, q) :: r -> answer listTemplates q result fallback ->
      templates_step s
        (with_scoped (tp_region s) (settleFetch g (l ++ r) result fallback (tp_scoped s)) s).

Inductive templates_reachable : TemplatesPage -> Prop :=
  | tr_start installation regions : templates_reachable (mountTemplates installation regions)
  | tr_next s s' : templates_reachable s -> templates_step s s' -> templates_reachable s'.

Definition wf_templates (s : TemplatesPage) : Prop :=
  wf_fetch (fun _ => listPublic) () (tp_public s) /\ wf_loads (tp_scoped s) /\
  (tp_region s <> "" -> wf_fetch listTemplates (scopedQuery s) (tp_scoped s)).

Lemma wf_loadScoped (s : TemplatesPage) :
  wf_loads (tp_scoped s) ->
  wf_loads (tp_scoped (loadScoped s)) /\
  wf_fetch listTemplates (scopedQuery (loadScoped s)) (tp_scoped (loadScoped s)).
Proof.
  intros H. pose proof (start_wf listTemplates (scopedQuery s) (Some []) _ H) as Hst.
  split; [by eapply wf_fetch_loads|exact Hst].
Qed.

Lemma wf_setTemplatesRegion (region : string) (s : TemplatesPage) :
  wf_loads (tp_scoped s) ->
  (tp_region s <> "" -> wf_fetch listTemplates (scopedQuery s) (tp_scoped s)) ->
  (region = "" -> tp_region s = "") ->
  wf_loads (tp_scoped (setTemplatesRegion region s)) /\
  (tp_region (setTemplatesRegion region s) <> "" ->
   wf_fetch listTemplates (scopedQuery (setTemplatesRegion region s))
     (tp_scoped (setTemplatesRegion region s))).
Proof.
  intros Hl Hw Hr. unfold setTemplatesRegion. case_bool_decide as E; [done|].
  destruct (str_truthy region) eqn:Er.
  - assert (wf_loads (if str_truthy (tp_region s) then cancelFetch (tp_scoped s)
                      else tp_scoped s)) as Hc.
    { destruct (str_truthy (tp_region s)); [by apply cancel_loads|done]. }
    destruct (wf_loadScoped (with_scoped region _ s) Hc). auto.
  - apply str_truthy_false in Er as ->. destruct E. by rewrite Hr.
Qed.

Lemma setTemplatesRegion_public (region : string) (s : TemplatesPage) :
  tp_public (setTemplatesRegion region s) = tp_public s.
Proof. unfold setTemplatesRegion. case_bool_decide; [done|]. by destruct (str_truthy region). Qed.

Lemma wf_setTemplatesRegions (rs : list SandboxRegion) (s : TemplatesPage) :
  wf_loads (tp_scoped s) ->
  (tp_region s <> "" -> wf_fetch listTemplates (scopedQuery s) (tp_scoped s)) ->
  tp_public (setTemplatesRegions rs s) = tp_public s /\
  wf_loads (tp_scoped (setTemplatesRegions rs s)) /\
  (tp_region (setTemplatesRegions rs s) <> "" ->
   wf_fetch listTemplates (scopedQuery (setTemplatesRegions rs s))
     (tp_scoped (setTemplatesRegions rs s))).
Proof.
  intros Hl Hw. destruct rs as [|r rs]; [done|]. unfold setTemplatesRegions.
  case_bool_decide; [|done]. split; [by rewrite setTemplatesRegion_public|].
  by apply wf_setTemplatesRegion.
Qed.

(** The templates page answers its region in the same way. *)
Theorem template_rows_answer_region (s : TemplatesPage) :
  templates_reachable s ->
  (fe_loading (tp_public s) = false -> fe_error (tp_public s) = "" ->
   listPublic (fe_items (tp_public s))) /\
  (tp_region s <> "" -> fe_loading (tp_scoped s) = false -> fe_error (tp_scoped s) = "" ->
   listTemplates (scopedQuery s) (fe_items (tp_scoped s))).
Proof.
  intros Hs. assert (wf_templates s) as (Hp & _ & Hw).
  - induction Hs as [i rs|s s' _ (Hp & Hl & Hw) Hstep].
    + destruct (wf_setTemplatesRegions rs {|
        tp_installation := i; tp_regions := []; tp_region := "";
        tp_public := idleFetch []; tp_scoped := idleFetch [] |}) as (Ep & Hl & Hw);
        [split; constructor|done|].
      split_and!; [|exact Hl|exact Hw]. apply start_wf. rewrite Ep. split; constructor.
    + destruct Hstep as [rs s|r s Hin Hr|s E|s E|l g q r result fb s E Ha|
        l g q r result fb s E Ha].
      * destruct (wf_setTemplatesRegions rs s Hl Hw) as (Ep & ? & ?).
        split_and!; [by rewrite Ep|done..].
      * destruct (wf_setTemplatesRegion r s Hl Hw) as [? ?]; [done|].
        split_and!; [by rewrite setTemplatesRegion_public|done..].
      * split_and!; [|done..]. apply start_wf. by eapply wf_fetch_loads.
      * destruct (wf_loadScoped s Hl) as [? ?]. split_and!; [done..|]. auto.
      * split_and!; [|done..]. by eapply settle_wf.
      * split_and!; [done|by eapply settle_loads|]. intros Hr. specialize (Hw Hr).
        by eapply settle_wf.
  - split; [apply Hp|]. intros Hr. apply (Hw Hr).
Qed.
End template_steps.

(** ** A run: the region changes before the first response *)

Definition example_regions : list SandboxRegion :=
  [{| region_id := "r1"; region_label := "R1"; region_apiURL := "https://r1" |};
   {| region_id := "r2"; region_label := "R2"; region_apiURL := "https://r2" |}].

Definition example_instance (i : string) : SandboxInstance := {|
  instance_sandbox_id := i; instance_template_id := ""; instance_alias := None;
  instance_state := "running"; instance_cpu_count := 2; instance_memory_mb := 1024;
  instance_disk_size_mb := 0; started_at := ""; instance_expires_at := "" |}.

(** The server of the run: the instance of a region is named after it. *)
Definition example_list (q : InstancesQuery) (items : list SandboxInstance) : Prop :=
  items = [example_instance (iq_region q)].

Definition example_sandboxes : Sandboxes :=
  let s := pickRegion "r2" (mountSandboxes None example_regions) in
  let old := {| iq_region := "r1"; iq_installation := None; iq_template := "" |} in
  let new := {| iq_region := "r2"; iq_installation := None; iq_template := "" |} in
  let s := settleInstances 3 [(1%nat, old)] (inr [example_instance "r2"]) "failed" s in
  settleInstances 1 [] (inr [example_instance "r1"]) "failed" s.

Lemma sandbox_rows_answer_controls_witness :
  fe_loading (sb_instances example_sandboxes) = false /\
  example_list (instancesQuery example_sandboxes) (fe_items (sb_instances example_sandboxes)).
Proof.
  split; [reflexivity|].
  apply (sandbox_rows_answer_controls (fun _ _ => True) example_list example_sandboxes).
  - eapply sr_next.
    + eapply sr_next.
      * eapply sr_next; [apply (sr_start _ _ None example_regions)|].
        apply (ss_region _ _ "r2"); [by right; left|discriminate].
      * eapply (ss_instances _ _ [_] 3 _ [] (inr [example_instance "r2"]) "failed");
          [reflexivity|reflexivity].
    + eapply (ss_instances _ _ [] 1 _ [] (inr [example_instance "r1"]) "failed");
        [reflexivity|reflexivity].
  - discriminate.
  - reflexivity.
  - reflexivity.
Defined.
