(* ===== verification/SettingsCards.v ===== *)
(** The cards of the settings page in
    src/ui/src/components/user-dashboard.tsx: the Sandbox credentials of an
    account ([SandboxAPIKeyCard]) and its cache bucket ([CacheS3Card]).

    A card keeps its fields while the account on screen changes, because it is
    rendered without a key; new properties only run its effects.  Every call of
    [onSave] and [onDelete] is recorded with what the card showed then. *)
From S2P Require Import Prelude.
From S2P Require Import JsString.
From S2P Require Import AdminTypes.
From S2P Require Import Errors.
From S2P Require Import Regions.

(** ** Sandbox credentials *)

Record KeyProps := {
  kp_preferences : option UserPreferences;
  kp_allowInheritance : bool;
  kp_installation : option Z;
  kp_regions : list SandboxRegion;
}.

(** [onSave(apiURL, apiKey, mode, replaceInheritedSource)] in a render. *)
Record KeySave := {
  ks_apiURL : string;
  ks_apiKey : string;
  ks_mode : CredentialMode;
  ks_replace : bool;
  ks_props : KeyProps;
}.

Record KeyCard := {
  kc_props : KeyProps;
  kc_apiURL : string;
  kc_apiKey : string;
  kc_mode : CredentialMode;
  kc_saving : bool;
  kc_deleting : bool;
  kc_removeOpen : bool;
  kc_replaceOpen : bool;
  kc_error : string;
  kc_saves : list KeySave;
  kc_removals : list KeyProps;
  kc_sent : list KeySave;
}.

Definition sandboxOf (p : KeyProps) : option SandboxPreferences := sandbox <$> kp_preferences p.

Definition keyConfigured (p : KeyProps) : bool :=
  match sandboxOf p with Some s => key_configured s | None => false end.

Definition isInherited (p : KeyProps) : bool :=
  match sandboxOf p with Some s => default false (inherited s) | None => false end.

Definition customConfigured (p : KeyProps) : bool := keyConfigured p && negb (isInherited p).

Definition savedAPIURL (p : KeyProps) : string :=
  match sandboxOf p with Some s => sandbox_api_url s | None => "" end.

Definition organizationManaged (p : KeyProps) : bool :=
  match sandboxOf p with Some s => bool_decide (sandbox_manageable s = Some false) | None => false end.

Definition sourceIsCurrentAccount (p : KeyProps) : bool :=
  match sandboxOf p with Some s => default false (source_is_current_account s) | None => false end.

Definition effectiveReady (p : KeyProps) : bool :=
  match sandboxOf p with
  | Some s => negb (bool_decide (resolved_source s = SrcNone))
  | None => false
  end.

(** [inherited] of the card. *)
Definition usesInherited (c : KeyCard) : bool :=
  bool_decide (kc_mode c = Inherit) && isInherited (kc_props c).

Definition savedRegionURL (p : KeyProps) : string :=
  match findSandboxRegionByAPIURL (kp_regions p) (savedAPIURL p) with
  | Some r => region_apiURL r
  | None => ""
  end.

Definition preferredMode (p : KeyProps) : CredentialMode :=
  if kp_allowInheritance p && bool_decide (mode <$> sandboxOf p = Some Inherit)
  then Inherit else Custom.

Definition with_fields (apiURL apiKey : string) (m : CredentialMode) (error : string)
    (c : KeyCard) : KeyCard := {|
  kc_props := kc_props c; kc_apiURL := apiURL; kc_apiKey := apiKey; kc_mode := m;
  kc_saving := kc_saving c; kc_deleting := kc_deleting c; kc_removeOpen := kc_removeOpen c;
  kc_replaceOpen := kc_replaceOpen c; kc_error := error; kc_saves := kc_saves c;
  kc_removals := kc_removals c; kc_sent := kc_sent c |}.

Definition with_dialogs (removeOpen replaceOpen : bool) (error : string) (c : KeyCard) :
    KeyCard := {|
  kc_props := kc_props c; kc_apiURL := kc_apiURL c; kc_apiKey := kc_apiKey c;
  kc_mode := kc_mode c; kc_saving := kc_saving c; kc_deleting := kc_deleting c;
  kc_removeOpen := removeOpen; kc_replaceOpen := replaceOpen; kc_error := error;
  kc_saves := kc_saves c; kc_removals := kc_removals c; kc_sent := kc_sent c |}.

Definition with_busy (saving deleting : bool) (saves : list KeySave) (removals : list KeyProps)
    (sent : list KeySave) (error : string) (c : KeyCard) : KeyCard := {|
  kc_props := kc_props c; kc_apiURL := kc_apiURL c; kc_apiKey := kc_apiKey c;
  kc_mode := kc_mode c; kc_saving := saving; kc_deleting := deleting;
  kc_removeOpen := kc_removeOpen c; kc_replaceOpen := kc_replaceOpen c; kc_error := error;
  kc_saves := saves; kc_removals := removals; kc_sent := sent |}.

Definition mountKeyCard (p : KeyProps) : KeyCard := {|
  kc_props := p; kc_apiURL := savedRegionURL p; kc_apiKey := ""; kc_mode := preferredMode p;
  kc_saving := false; kc_deleting := false; kc_removeOpen := false; kc_replaceOpen := false;
  kc_error := ""; kc_saves := []; kc_removals := []; kc_sent := [] |}.

#[export] Instance SandboxRegion_eq_dec : EqDecision SandboxRegion.
Proof. solve_decision. Defined.

(** New properties: the two effects run where what they depend on changed. *)
Definition setKeyProps (p : KeyProps) (c : KeyCard) : KeyCard :=
  let old := kc_props c in
  let urlKept := bool_decide (kp_regions p = kp_regions old) &&
                 bool_decide (savedAPIURL p = savedAPIURL old) in
  let modeKept := Bool.eqb (kp_allowInheritance p) (kp_allowInheritance old) &&
                  bool_decide (mode <$> sandboxOf p = mode <$> sandboxOf old) in
  {| kc_props := p;
     kc_apiURL := if urlKept then kc_apiURL c else savedRegionURL p;
     kc_apiKey := kc_apiKey c;
     kc_mode := if modeKept then kc_mode c else preferredMode p;
     kc_saving := kc_saving c; kc_deleting := kc_deleting c; kc_removeOpen := kc_removeOpen c;
     kc_replaceOpen := kc_replaceOpen c; kc_error := kc_error c; kc_saves := kc_saves c;
     kc_removals := kc_removals c; kc_sent := kc_sent c |}.

(** The inputs are disabled while busy or inheriting. *)
Definition fieldsDisabled (c : KeyCard) : bool :=
  kc_saving c || kc_deleting c || bool_decide (kc_mode c = Inherit).

Definition typeKey (text : string) (c : KeyCard) : KeyCard :=
  if fieldsDisabled c then c else with_fields (kc_apiURL c) text (kc_mode c) (kc_error c) c.

Definition pickKeyRegion (regionID : string) (c : KeyCard) : KeyCard :=
  if fieldsDisabled c then c
  else
    let region := find_first (fun r => bool_decide (region_id r = regionID))
                    (kp_regions (kc_props c)) in
    with_fields (match region with Some r => region_apiURL r | None => "" end) (kc_apiKey c)
      (kc_mode c) (kc_error c) c.

(** The switch, shown where inheritance is allowed. *)
Definition switchMode (checked : bool) (c : KeyCard) : KeyCard :=
  if negb (kp_allowInheritance (kc_props c)) || kc_saving c || kc_deleting c then c
  else if negb checked && isInherited (kc_props c) then with_fields "" "" Custom "" c
  else with_fields (kc_apiURL c) (kc_apiKey c) (if checked then Inherit else Custom) "" c.

Definition startSave (apiURL apiKey : string) (m : CredentialMode) (replace : bool)
    (c : KeyCard) : KeyCard :=
  let call := {| ks_apiURL := apiURL; ks_apiKey := apiKey; ks_mode := m; ks_replace := replace;
                 ks_props := kc_props c |} in
  with_busy true (kc_deleting c) (kc_saves c ++ [call]) (kc_removals c) (kc_sent c ++ [call]) "" c.

(** [submit]; the texts of its two refusals are parameters. *)
Definition submitKey (regionRequired keyRequired : string) (c : KeyCard) : KeyCard :=
  let nextAPIURL := trim (kc_apiURL c) in
  let nextAPIKey := trim (kc_apiKey c) in
  match kc_mode c with
  | Inherit => startSave "" "" Inherit false c
  | Custom =>
      if negb (str_truthy nextAPIURL) then
        with_dialogs (kc_removeOpen c) (kc_replaceOpen c) regionRequired c
      else if negb (customConfigured (kc_props c)) && negb (str_truthy nextAPIKey) then
        with_dialogs (kc_removeOpen c) (kc_replaceOpen c) keyRequired c
      else startSave nextAPIURL nextAPIKey Custom false c
  end.

(** The submit button: rendered unless credentials are inherited, disabled while
    busy or incomplete; a form whose button is disabled is not submitted. *)
Definition submitEnabled (c : KeyCard) : bool :=
  negb (usesInherited c) &&
  negb (kc_saving c || kc_deleting c ||
        (bool_decide (kc_mode c = Custom) &&
         (negb (str_truthy (trim (kc_apiURL c))) ||
          (negb (customConfigured (kc_props c)) && negb (str_truthy (trim (kc_apiKey c))))))).

Definition openReplace (c : KeyCard) : KeyCard :=
  if negb (usesInherited c && negb (sourceIsCurrentAccount (kc_props c))) ||
     kc_saving c || kc_deleting c
  then c else with_dialogs (kc_removeOpen c) true "" c.

Definition openRemove (c : KeyCard) : KeyCard :=
  if negb (customConfigured (kc_props c) && bool_decide (kc_mode c = Custom)) ||
     kc_saving c || kc_deleting c
  then c else with_dialogs true (kc_replaceOpen c) (kc_error c) c.

(** [onOpenChange] of the dialogs. *)
Definition closeReplace (c : KeyCard) : KeyCard :=
  if kc_saving c then c else with_dialogs (kc_removeOpen c) false (kc_error c) c.
Definition closeRemove (c : KeyCard) : KeyCard :=
  if kc_deleting c then c else with_dialogs false (kc_replaceOpen c) (kc_error c) c.

(** The confirm buttons of the dialogs. *)
Definition replaceInheritedSource (c : KeyCard) : KeyCard :=
  if negb (kc_replaceOpen c) || kc_saving c then c else startSave "" "" Inherit true c.

Definition removeKey (c : KeyCard) : KeyCard :=
  if negb (kc_removeOpen c) || kc_deleting c then c
  else with_busy (kc_saving c) true (kc_saves c) (kc_removals c ++ [kc_props c]) (kc_sent c) "" c.

Definition settleKeySave (call : KeySave) (others : list KeySave) (result : option thrown)
    (fallback : string) (c : KeyCard) : KeyCard :=
  match result with
  | None =>
      let c := with_fields (kc_apiURL c) "" (kc_mode c) (kc_error c) c in
      let c := with_dialogs (kc_removeOpen c) (if ks_replace call then false else kc_replaceOpen c)
                 (kc_error c) c in
      with_busy false (kc_deleting c) others (kc_removals c) (kc_sent c) (kc_error c) c
  | Some e =>
      with_busy false (kc_deleting c) others (kc_removals c) (kc_sent c)
        (error_message e fallback) c
  end.

Definition settleRemoval (others : list KeyProps) (result : option thrown) (fallback : string)
    (c : KeyCard) : KeyCard :=
  match result with
  | None =>
      let c := with_fields (kc_apiURL c) "" (kc_mode c) (kc_error c) c in
      let c := with_dialogs false (kc_replaceOpen c) (kc_error c) c in
      with_busy (kc_saving c) false (kc_saves c) others (kc_sent c) (kc_error c) c
  | Some e =>
      with_busy (kc_saving c) false (kc_saves c) others (kc_sent c) (error_message e fallback) c
  end.

(** A card managed by its organization renders no controls, and an open dialog is
    modal. *)
Definition controlsShown (c : KeyCard) : bool :=
  negb (organizationManaged (kc_props c)) && negb (kc_removeOpen c) && negb (kc_replaceOpen c).

Inductive key_step : KeyCard -> KeyCard -> Prop :=
  | ky_props p c : key_step c (setKeyProps p c)
  | ky_type text c : controlsShown c = true -> key_step c (typeKey text c)
  | ky_region r c :
      controlsShown c = true -> r ∈ map region_id (kp_regions (kc_props c)) ->
      key_step c (pickKeyRegion r c)
  | ky_switch b c : controlsShown c = true -> key_step c (switchMode b c)
  | ky_submit m1 m2 c :
      controlsShown c = true -> submitEnabled c = true -> key_step c (submitKey m1 m2 c)
  | ky_openReplace c : controlsShown c = true -> key_step c (openReplace c)
  | ky_openRemove c : controlsShown c = true -> key_step c (openRemove c)
  | ky_closeReplace c : organizationManaged (kc_props c) = false -> key_step c (closeReplace c)
  | ky_closeRemove c : organizationManaged (kc_props c) = false -> key_step c (closeRemove c)
  | ky_replace c :
      organizationManaged (kc_props c) = false -> key_step c (replaceInheritedSource c)
  | ky_remove c : organizationManaged (kc_props c) = false -> key_step c (removeKey c)
  | ky_saved l call r result fallback c :
      kc_saves c = l ++ call :: r -> key_step c (settleKeySave call (l ++ r) result fallback c)
  | ky_removed l p r result fallback c :
      kc_removals c = l ++ p :: r -> key_step c (settleRemoval (l ++ r) result fallback c).

Inductive key_reachable : KeyCard -> Prop :=
  | kr_mount p : key_reachable (mountKeyCard p)
  | kr_next c c' : key_reachable c -> key_step c c' -> key_reachable c'.

(** ** What is saved *)

Definition valid_save (k : KeySave) : Prop :=
  organizationManaged (ks_props k) = false /\
  match ks_mode k with
  | Inherit => ks_apiURL k = "" /\ ks_apiKey k = ""
  | Custom =>
      ks_replace k = false /\ ks_apiURL k <> "" /\
      (exists r, r ∈ kp_regions (ks_props k) /\ ks_apiURL k = trim (region_apiURL r)) /\
      trim (ks_apiKey k) = ks_apiKey k /\
      (ks_apiKey k <> "" \/ customConfigured (ks_props k) = true)
  end.

Record wf_key (c : KeyCard) : Prop := {
  wk_url : kc_apiURL c = "" \/
    exists r, r ∈ kp_regions (kc_props c) /\ kc_apiURL c = region_apiURL r;
  wk_saves : List.length (kc_saves c) = (if kc_saving c then 1 else 0)%nat;
  wk_removals : List.length (kc_removals c) = (if kc_deleting c then 1 else 0)%nat;
  wk_sent : Forall valid_save (kc_sent c);
  wk_dialog : kc_removeOpen c && kc_replaceOpen c = false;
}.

Lemma shown_managed (c : KeyCard) :
  controlsShown c = true ->
  organizationManaged (kc_props c) = false /\ kc_removeOpen c = false /\ kc_replaceOpen c = false.
Proof.
  unfold controlsShown.
  by intros [[H1%negb_true_iff H2%negb_true_iff]%andb_prop H3%negb_true_iff]%andb_prop.
Qed.

Lemma savedRegionURL_in (p : KeyProps) :
  savedRegionURL p = "" \/ exists r, r ∈ kp_regions p /\ savedRegionURL p = region_apiURL r.
Proof.
  unfold savedRegionURL. destruct (findSandboxRegionByAPIURL _ _) as [r|] eqn:E; [|by left].
  apply find_first_Some in E as [Hr _]. right. by exists r.
Qed.

Lemma wf_startSave (u k : string) (m : CredentialMode) (b : bool) (c : KeyCard) :
  kc_saving c = false ->
  valid_save {| ks_apiURL := u; ks_apiKey := k; ks_mode := m; ks_replace := b;
                ks_props := kc_props c |} ->
  wf_key c -> wf_key (startSave u k m b c).
Proof.
  intros Es Hv [H1 H2 H3 H4 H5]. rewrite Es in H2. split; simpl; [done| |done| |done].
  - destruct (kc_saves c); [done|done].
  - apply Forall_app. split; [done|]. by constructor.
Qed.

Lemma length_removed {A} (l r : list A) (x : A) (b : bool) :
  List.length (l ++ x :: r) = (if b then 1 else 0)%nat -> List.length (l ++ r) = 0%nat.
Proof. rewrite !length_app. simpl. destruct b; lia. Qed.

Lemma wf_with_dialogs (a b : bool) (e : string) (c : KeyCard) :
  a && b = false -> wf_key c -> wf_key (with_dialogs a b e c).
Proof. by intros ? []. Qed.

Lemma wf_submitKey (m1 m2 : string) (c : KeyCard) :
  organizationManaged (kc_props c) = false -> submitEnabled c = true -> wf_key c ->
  wf_key (submitKey m1 m2 c).
Proof.
  intros Ho He Hc. pose proof Hc as [H1 H2 H3 H4 H5].
  unfold submitEnabled in He. apply andb_prop in He as [_ He]. apply negb_true_iff in He.
  apply orb_false_iff in He as [[Es _]%orb_false_iff _]. unfold submitKey.
  destruct (kc_mode c) eqn:Em; [|by apply wf_startSave].
  destruct (str_truthy (trim (kc_apiURL c))) eqn:Eu; [|by apply wf_with_dialogs]. simpl.
  destruct (negb (customConfigured (kc_props c)) && negb (str_truthy (trim (kc_apiKey c)))) eqn:Ek;
    [by apply wf_with_dialogs|].
  apply wf_startSave; [done| |done]. split; [done|]. simpl. split_and!; [done| | |apply trim_trim|].
  - by apply str_truthy_true.
  - destruct H1 as [H1|(x & Hx & H1)]; [by rewrite H1 in Eu|]. exists x. by rewrite H1.
  - apply andb_false_iff in Ek as [Ek|Ek]; apply negb_false_iff in Ek; [by right|].
    left. by apply str_truthy_true.
Qed.

Lemma wf_key_step (c c' : KeyCard) : wf_key c -> key_step c c' -> wf_key c'.
Proof.
  intros Hc Hstep. pose proof Hc as [H1 H2 H3 H4 H5].
  destruct Hstep as [p c|text c Ho|r c Ho Hr|b c Ho|m1 m2 c Ho He|c Ho|c Ho|c Ho|c Ho|c Ho|c Ho|
    l call r result fb c E|l p r result fb c E];
    try (apply shown_managed in Ho as (Ho & Hm & Hp)).
  - split; simpl; try done. destruct (bool_decide _ && bool_decide _) eqn:Ek; [|apply savedRegionURL_in].
    apply andb_prop in Ek as [Er _]. apply bool_decide_eq_true_1 in Er. by rewrite Er.
  - unfold typeKey. case_goal; [done|]. by split.
  - unfold pickKeyRegion. case_goal; [done|]. split; simpl; try done.
    destruct (find_first _ _) as [x|] eqn:Ex; [|by left]. right. exists x.
    by apply find_first_Some in Ex as [? _].
  - unfold switchMode. case_goal; [done|]. case_goal; split; simpl; try done. by left.
  - by apply wf_submitKey.
  - unfold openReplace. case_goal; [done|]. apply wf_with_dialogs; [by rewrite Hm|done].
  - unfold openRemove. case_goal; [done|]. by apply wf_with_dialogs.
  - unfold closeReplace. case_goal; [done|]. apply wf_with_dialogs; [apply andb_false_r|done].
  - unfold closeRemove. case_goal; [done|by apply wf_with_dialogs].
  - unfold replaceInheritedSource. destruct (_ || kc_saving c) eqn:E; [done|].
    apply orb_false_iff in E as [_ Es]. by apply wf_startSave.
  - unfold removeKey. destruct (_ || kc_deleting c) eqn:E; [done|]. apply orb_false_iff in E as [_ Es].
    split; simpl; try done. rewrite Es in H3. by destruct (kc_removals c).
  - rewrite E in H2. apply length_removed in H2. destruct result; split; try done. cbn.
    by destruct (ks_replace call); [rewrite andb_false_r|].
  - rewrite E in H3. apply length_removed in H3. by destruct result; split.
Qed.

Lemma wf_key_reachable (c : KeyCard) : key_reachable c -> wf_key c.
Proof.
  induction 1 as [p|c c' _ IH Hstep]; [|by eapply wf_key_step].
  split; simpl; [apply savedRegionURL_in|done|done|constructor|done].
Qed.

(** C40.  Every time the card saves credentials, it may change them; it then asks
    for the credentials of the account, sending none of its own, or it sends
    the endpoint of a configured region with a key, which may only be left out
    where the account already has a key of its own; replacing someone else's
    credentials is never combined with a key.  At most one save and one removal
    are under way. *)
Theorem credential_saves_valid (c : KeyCard) :
  key_reachable c ->
  Forall valid_save (kc_sent c) /\
  (List.length (kc_saves c) <= 1)%nat /\ (List.length (kc_removals c) <= 1)%nat.
Proof.
  intros Hc. destruct (wf_key_reachable c Hc) as [_ H2 H3 H4 _]. rewrite H2, H3.
  split_and!; [done|by destruct (kc_saving c); lia|by destruct (kc_deleting c); lia].
Qed.

(** ** Example: a key typed for one account is saved for another

    The fields of the card outlive the account on screen; the cache card below
    clears its secrets when the installation changes. *)
Definition example_region : SandboxRegion :=
  {| region_id := "cn"; region_label := "CN"; region_apiURL := "https://cn" |}.

Definition example_sandbox : SandboxPreferences := {|
  mode := Custom; resolved_source := SrcNone; sandbox_api_url := "https://cn";
  sandbox_manageable := Some true; inherited := None; source_account_id := None;
  source_account_login := None; source_is_current_account := None; source_available := None;
  key_configured := false; key_updated_at := None |}.

Definition example_props (installation : option Z) : KeyProps := {|
  kp_preferences := Some {|
    cache := {| cache_configured := false; cache_region := None; cache_bucket := None;
                cache_prefix := None; cache_endpoint := None; cache_updated_at := None |};
    sandbox := example_sandbox |};
  kp_allowInheritance := match installation with Some _ => true | None => false end;
  kp_installation := installation; kp_regions := [example_region] |}.

Definition example_keyCard : KeyCard :=
  submitKey "" "" (setKeyProps (example_props (Some 7%Z))
    (typeKey "personal-secret" (mountKeyCard (example_props None)))).

Lemma example_keyCard_reachable : key_reachable example_keyCard.
Proof.
  unfold example_keyCard. eapply kr_next; [|apply ky_submit; reflexivity].
  eapply kr_next; [|apply ky_props]. eapply kr_next; [|apply ky_type; reflexivity].
  apply kr_mount.
Qed.

Example typed_key_follows_account :
  key_reachable example_keyCard /\
  map (fun k => (kp_installation (ks_props k), ks_apiKey k)) (kc_sent example_keyCard) =
    [(Some 7%Z, "personal-secret")].
Proof. split; [apply example_keyCard_reachable|reflexivity]. Qed.

Lemma credential_saves_valid_witness :
  List.length (kc_sent example_keyCard) = 1%nat /\ Forall valid_save (kc_sent example_keyCard).
Proof.
  split; [reflexivity|]. apply (credential_saves_valid example_keyCard).
  apply example_keyCard_reachable.
Defined.

(** ** The cache bucket *)

Record CacheProps := { cp_preferences : option UserPreferences; cp_installation : option Z }.

Record CacheInput := {
  ci_bucket : string; ci_prefix : string; ci_access_key_id : string;
  ci_secret_access_key : string }.

Record CacheCard := {
  cc_props : CacheProps;
  cc_input : CacheInput;
  cc_saving : bool;
  cc_removing : bool;
  cc_error : string;
  cc_saves : nat;
  (** The removals under way, with the props each was sent for. *)
  cc_removals : list CacheProps;
  cc_sent : list (CacheInput * CacheProps);
}.

Definition cacheOf (p : CacheProps) : option CachePreferences := cache <$> cp_preferences p.
Definition cacheConfigured (p : CacheProps) : bool :=
  match cacheOf p with Some c => cache_configured c | None => false end.
Definition savedBucket (p : CacheProps) : string := default "" (cacheOf p ≫= cache_bucket).
Definition savedPrefix (p : CacheProps) : string := default "" (cacheOf p ≫= cache_prefix).
Definition s3Region (p : CacheProps) : string := default "" (cacheOf p ≫= cache_region).
Definition hasRegion (p : CacheProps) : bool := str_truthy (s3Region p).

Definition freshInput (p : CacheProps) : CacheInput := {|
  ci_bucket := savedBucket p; ci_prefix := savedPrefix p; ci_access_key_id := "";
  ci_secret_access_key := "" |}.

Definition mountCacheCard (p : CacheProps) : CacheCard := {|
  cc_props := p; cc_input := freshInput p; cc_saving := false; cc_removing := false;
  cc_error := ""; cc_saves := 0; cc_removals := []; cc_sent := [] |}.

Definition with_input (input : CacheInput) (error : string) (c : CacheCard) : CacheCard := {|
  cc_props := cc_props c; cc_input := input; cc_saving := cc_saving c;
  cc_removing := cc_removing c; cc_error := error; cc_saves := cc_saves c;
  cc_removals := cc_removals c; cc_sent := cc_sent c |}.

(** The effect resets the form when the saved bucket, the saved prefix or the
    installation is new. *)
Definition setCacheProps (p : CacheProps) (c : CacheCard) : CacheCard :=
  let old := cc_props c in
  let kept := bool_decide (cacheOf p ≫= cache_bucket = cacheOf old ≫= cache_bucket) &&
              bool_decide (cacheOf p ≫= cache_prefix = cacheOf old ≫= cache_prefix) &&
              bool_decide (cp_installation p = cp_installation old) in
  {| cc_props := p; cc_input := if kept then cc_input c else freshInput p;
     cc_saving := cc_saving c; cc_removing := cc_removing c; cc_error := cc_error c;
     cc_saves := cc_saves c; cc_removals := cc_removals c; cc_sent := cc_sent c |}.

(** The inputs of the form. *)
Inductive CacheField := BucketField | PrefixField | AccessKeyField | SecretKeyField.

Definition cacheFieldText (f : CacheField) (i : CacheInput) : string :=
  match f with
  | BucketField => ci_bucket i
  | PrefixField => ci_prefix i
  | AccessKeyField => ci_access_key_id i
  | SecretKeyField => ci_secret_access_key i
  end.

Definition setCacheField (f : CacheField) (v : string) (i : CacheInput) : CacheInput := {|
  ci_bucket := match f with BucketField => v | _ => ci_bucket i end;
  ci_prefix := match f with PrefixField => v | _ => ci_prefix i end;
  ci_access_key_id := match f with AccessKeyField => v | _ => ci_access_key_id i end;
  ci_secret_access_key := match f with SecretKeyField => v | _ => ci_secret_access_key i end |}.

Definition editCache (f : CacheField) (v : string) (c : CacheCard) : CacheCard :=
  if cc_saving c || cc_removing c then c
  else with_input (setCacheField f v (cc_input c)) (cc_error c) c.

(** [submit], behind a button that is disabled while busy or without a region;
    the texts of its refusals are parameters. *)
Definition submitCache (regionRequired bucketRequired : string) (c : CacheCard) : CacheCard :=
  let p := cc_props c in
  let i := cc_input c in
  if cc_saving c || cc_removing c || negb (hasRegion p) then c
  else if negb (hasRegion p) then with_input i regionRequired c
  else if negb (str_truthy (trim (ci_bucket i))) ||
          (negb (cacheConfigured p) &&
           (negb (str_truthy (trim (ci_access_key_id i))) ||
            negb (str_truthy (trim (ci_secret_access_key i)))))
  then with_input i bucketRequired c
  else {|
    cc_props := p; cc_input := i; cc_saving := true; cc_removing := cc_removing c; cc_error := "";
    cc_saves := S (cc_saves c); cc_removals := cc_removals c; cc_sent := cc_sent c ++ [(i, p)] |}.

Definition settleCacheSave (result : option thrown) (fallback : string) (c : CacheCard) :
    CacheCard :=
  let i := cc_input c in
  let cleared := {| ci_bucket := ci_bucket i; ci_prefix := ci_prefix i; ci_access_key_id := "";
                    ci_secret_access_key := "" |} in
  {| cc_props := cc_props c;
     cc_input := match result with None => cleared | Some _ => i end;
     cc_saving := false; cc_removing := cc_removing c;
     cc_error := match result with None => cc_error c | Some e => error_message e fallback end;
     cc_saves := pred (cc_saves c); cc_removals := cc_removals c; cc_sent := cc_sent c |}.

(** The remove button, shown for a configured bucket. *)
Definition removeCache (c : CacheCard) : CacheCard :=
  if negb (cacheConfigured (cc_props c)) || cc_saving c || cc_removing c then c
  else {|
    cc_props := cc_props c; cc_input := cc_input c; cc_saving := cc_saving c;
    cc_removing := true; cc_error := ""; cc_saves := cc_saves c;
    cc_removals := cc_removals c ++ [cc_props c]; cc_sent := cc_sent c |}.

(** A removal is answered; the others stay under way. *)
Definition settleCacheRemoval (others : list CacheProps) (result : option thrown) (fallback : string)
    (c : CacheCard) : CacheCard := {|
  cc_props := cc_props c; cc_input := cc_input c; cc_saving := cc_saving c;
  cc_removing := false;
  cc_error := match result with None => cc_error c | Some e => error_message e fallback end;
  cc_saves := cc_saves c; cc_removals := others; cc_sent := cc_sent c |}.

Section cache.
Context (regionRequired bucketRequired : string).

Inductive cache_step : CacheCard -> CacheCard -> Prop :=
  | cy_props p c : cache_step c (setCacheProps p c)
  | cy_edit f v c : cache_step c (editCache f v c)
  | cy_submit c : cache_step c (submitCache regionRequired bucketRequired c)
  | cy_saved result fallback c :
      (0 < cc_saves c)%nat -> cache_step c (settleCacheSave result fallback c)
  | cy_remove c : cache_step c (removeCache c)
  | cy_removed l p r result fallback c :
      cc_removals c = l ++ p :: r -> cache_step c (settleCacheRemoval (l ++ r) result fallback c).

Inductive cache_reachable : CacheCard -> Prop :=
  | cyr_mount p : cache_reachable (mountCacheCard p)
  | cyr_next c c' : cache_reachable c -> cache_step c c' -> cache_reachable c'.

Definition valid_cache (s : CacheInput * CacheProps) : Prop :=
  hasRegion s.2 = true /\ trim (ci_bucket s.1) <> "" /\
  (cacheConfigured s.2 = true \/
   (trim (ci_access_key_id s.1) <> "" /\ trim (ci_secret_access_key s.1) <> "")).

(** A bucket is saved only in a region that has one, with a bucket name and,
    for a bucket that is not configured yet, both keys; one request of the card
    is under way at a time; and the keys typed for an account are gone when
    another account is shown. *)
Theorem cache_saves_valid (c : CacheCard) :
  cache_reachable c ->
  Forall valid_cache (cc_sent c) /\ (cc_saves c + List.length (cc_removals c) <= 1)%nat /\
  forall p, cp_installation p <> cp_installation (cc_props c) ->
    cc_input (setCacheProps p c) = freshInput p.
Proof.
  intros Hc.
  assert (Forall valid_cache (cc_sent c) /\
    cc_saves c = (if cc_saving c then 1 else 0)%nat /\
    List.length (cc_removals c) = (if cc_removing c then 1 else 0)%nat /\
    (cc_saving c && cc_removing c) = false) as (Hv & Hs & Hr & Hx).
  - induction Hc as [p|c c' _ (Hv & Hs & Hr & Hx) Hstep]; [by split_and!|].
    destruct Hstep as [p c|f v c|c|result fb c H|c|l p r result fb c H].
    + done.
    + unfold editCache. destruct (cc_saving c || cc_removing c); [done|]. done.
    + unfold submitCache. destruct (cc_saving c) eqn:E1; simpl; [by rewrite ?E1|].
      destruct (cc_removing c) eqn:E2; simpl; [by rewrite ?E1, ?E2|].
      destruct (hasRegion (cc_props c)) eqn:E3; simpl; [|by rewrite ?E1, ?E2].
      case_goal; simpl; [by rewrite ?E1, ?E2|]. rewrite Hs. split_and!; [|done..].
      apply Forall_app. split; [done|]. constructor; [|done].
      apply orb_false_iff in E as [Eb Ek]. apply negb_false_iff, str_truthy_true in Eb.
      split_and!; [done..|]. simpl. apply andb_false_iff in Ek as [Ek|Ek].
      * left. by apply negb_false_iff in Ek.
      * right. apply orb_false_iff in Ek as [Ea Ebk].
        by apply negb_false_iff, str_truthy_true in Ea; apply negb_false_iff, str_truthy_true in Ebk.
    + simpl. destruct (cc_saving c); [|lia]. by rewrite Hs.
    + unfold removeCache. destruct (_ || cc_removing c) eqn:E; [done|].
      apply orb_false_iff in E as [[_ E1]%orb_false_iff E2]. rewrite E2 in Hr. simpl.
      by rewrite length_app, Hr, E1, Hs, E1.
    + rewrite H in Hr. apply length_removed in Hr as Hn. simpl. by rewrite Hn, andb_false_r.
  - split_and!; [done|destruct (cc_saving c), (cc_removing c); simpl in Hx; done || lia|].
    intros p Hp. unfold setCacheProps. simpl. rewrite (bool_decide_eq_false_2 _ Hp).
    by rewrite andb_false_r.
Qed.

End cache.

Lemma cache_saves_valid_witness :
  let p := {| cp_preferences := Some {|
      cache := {| cache_configured := false; cache_region := Some "z0"; cache_bucket := None;
                  cache_prefix := None; cache_endpoint := None; cache_updated_at := None |};
      sandbox := example_sandbox |}; cp_installation := None |} in
  let c := submitCache "" "" (editCache SecretKeyField "sk" (editCache AccessKeyField "ak"
    (editCache BucketField "b" (mountCacheCard p)))) in
  List.length (cc_sent c) = 1%nat /\ Forall valid_cache (cc_sent c).
Proof.
  cbv zeta. split; [reflexivity|]. apply (cache_saves_valid "" "" (submitCache _ _ _)).
  eapply cyr_next; [|apply cy_submit]. do 3 (eapply cyr_next; [|apply cy_edit]). apply cyr_mount.
Defined.
