(* ===== verification/ShellWords.v ===== *)
(** The first simple command of a shell script, split into the words the shell
    passes to the program: single and double quotes, and [${NAME:-}] inside
    double quotes.  It is the reading against which the commands written by
    src/scripts/generate-runner-image-compatibility.mjs are stated.  Every
    other expansion is outside this fragment and yields nothing. *)
From S2P Require Import Prelude.
From S2P Require Import JsString.

(** ** Characters *)

Definition quote : ascii := "'"%char.
Definition dquote_char : ascii := ascii_of_N 34.

Definition blank (a : ascii) : bool := Ascii.eqb a " " || Ascii.eqb a (ascii_of_N 9).

(** An unquoted operator ends the simple command. *)
Definition operator (a : ascii) : bool :=
  Ascii.eqb a "|" || Ascii.eqb a ";" || Ascii.eqb a "&" || Ascii.eqb a (ascii_of_N 10).

(** Unquoted characters that expand, redirect or group. *)
Definition expands (a : ascii) : bool :=
  negb (bool_decide (List.find (Ascii.eqb a) (String.list_ascii_of_string "$`\*?[~#<>(){}!") = None)).

Definition name_char (a : ascii) : bool := is_alnum a || Ascii.eqb a "_".

Definition identifier (n : string) : bool :=
  match n with
  | "" => false
  | String a r => negb (is_digit a) && name_char a && sforall name_char r
  end.

(** ** Words *)

Inductive mode :=
  | Bare | Single | Double
  | Dollar
  | Brace (name : string)
  | Colon (name : string)
  | Dash (name : string).

Definition push (t : string) (cur : option string) : option string := Some (default "" cur +:+ t).

Definition close (cur : option string) : list string :=
  match cur with Some w => [w] | None => [] end.

Section words.
Context (env : string -> option string).

Fixpoint scan (m : mode) (cur : option string) (s : string) : option (list string) :=
  match s with
  | "" => match m with Bare => Some (close cur) | _ => None end
  | String c r =>
      match m with
      | Bare =>
          if blank c then app (close cur) <$> scan Bare None r
          else if operator c then Some (close cur)
          else if Ascii.eqb c quote then scan Single (push "" cur) r
          else if Ascii.eqb c dquote_char then scan Double (push "" cur) r
          else if expands c then None
          else scan Bare (push (String c "") cur) r
      | Single =>
          if Ascii.eqb c quote then scan Bare cur r else scan Single (push (String c "") cur) r
      | Double =>
          if Ascii.eqb c dquote_char then scan Bare cur r
          else if Ascii.eqb c "$" then scan Dollar cur r
          else if Ascii.eqb c "`" || Ascii.eqb c "\" then None
          else scan Double (push (String c "") cur) r
      | Dollar => if Ascii.eqb c "{" then scan (Brace "") cur r else None
      | Brace n =>
          if name_char c then scan (Brace (n +:+ String c "")) cur r
          else if Ascii.eqb c ":" then if identifier n then scan (Colon n) cur r else None
          else None
      | Colon n => if Ascii.eqb c "-" then scan (Dash n) cur r else None
      | Dash n =>
          if Ascii.eqb c "}" then scan Double (push (default "" (env n)) cur) r else None
      end
  end.

Definition sh_words (s : string) : option (list string) := scan Bare None s.

Lemma push_push (t u : string) (cur : option string) : push u (push t cur) = push (t +:+ u) cur.
Proof. unfold push. simpl. by rewrite sapp_assoc. Qed.

(** Characters that stand for themselves outside quotes. *)
Definition plain (a : ascii) : bool :=
  negb (blank a || operator a || Ascii.eqb a quote || Ascii.eqb a dquote_char || expands a).

Lemma scan_plain (w r : string) (cur : option string) :
  sforall plain w = true -> w <> "" -> scan Bare cur (w +:+ r) = scan Bare (push w cur) r.
Proof.
  revert cur. induction w as [|a w IH]; intros cur Hw Hne; [done|]. simpl in Hw.
  apply andb_prop in Hw as [Ha Hw]. unfold plain in Ha. rewrite !negb_orb in Ha.
  split_bools. simpl.
  repeat match goal with H : ?b = false |- context [?b] => rewrite H end.
  destruct w as [|b w]; [done|]. rewrite IH by done. by rewrite push_push.
Qed.

Lemma scan_blank (cur : option string) (r : string) :
  scan Bare cur (String " " r) = app (close cur) <$> scan Bare None r.
Proof. done. Qed.

Lemma scan_name (n w r : string) (cur : option string) :
  sforall name_char w = true -> identifier (n +:+ w) = true ->
  scan (Brace n) cur (w +:+ ":-}" +:+ r) =
  scan Double (push (default "" (env (n +:+ w))) cur) r.
Proof.
  revert n. induction w as [|a w IH]; intros n Hw Hn.
  - rewrite sapp_nil_r in Hn |- *. simpl. by rewrite Hn.
  - simpl in Hw. apply andb_prop in Hw as [Ha Hw]. simpl. rewrite Ha, IH; [|done|].
    + by rewrite sapp_assoc.
    + by rewrite sapp_assoc.
Qed.

(** ["${NAME:-}"] is the value of the variable, empty when it is not set. *)
Lemma scan_variable (n r : string) (cur : option string) :
  identifier n = true ->
  scan Bare cur (dquote +:+ "${" +:+ n +:+ ":-}" +:+ dquote +:+ r) =
  scan Bare (push (default "" (env n)) cur) r.
Proof.
  intros Hn. assert (sforall name_char n = true) as Hs.
  { destruct n as [|a n]; [done|]. simpl in Hn |- *. by split_bools; split_and?; apply andb_true_intro. }
  change (scan (Brace "") (push "" cur) (n +:+ ":-}" +:+ dquote +:+ r) =
    scan Bare (push (default "" (env n)) cur) r).
  rewrite scan_name by done. simpl. by rewrite push_push.
Qed.
End words.

(** ** Literal words *)

Lemma scan_word (env : string -> option string) (w r : string) :
  sforall plain w = true -> w <> "" ->
  scan env Bare None (w +:+ String " " r) = cons w <$> scan env Bare None r.
Proof. intros Hw Hne. rewrite scan_plain by done. rewrite scan_blank. done. Qed.

(** What [test] answers for the words of the two forms used here. *)
Definition test_passes (words : list string) : bool :=
  match words with
  | [program; op; w] =>
      bool_decide (program = "test") && bool_decide (op = "-z") && bool_decide (w = "")
  | [program; a; op; b] =>
      bool_decide (program = "test") && bool_decide (op = "=") && bool_decide (a = b)
  | _ => false
  end.

Lemma test_passes_empty (w : string) : test_passes ["test"; "-z"; w] = true <-> w = "".
Proof. unfold test_passes. simpl. by rewrite bool_decide_eq_true. Qed.

Lemma test_passes_equal (a b : string) : test_passes ["test"; a; "="; b] = true <-> a = b.
Proof. unfold test_passes. simpl. by rewrite bool_decide_eq_true. Qed.
