(* ===== verification/ImageManifest.v ===== *)
(** The compatibility manifest of the runner images:
    src/scripts/generate-runner-image-compatibility.mjs; the checker of the manifest
    is in ImageCheck.

    Fetching a report, its checksum and the awk program that reads it into
    lines are parameters; the lines, the commands and the entries are the script's. *)
From S2P Require Import Prelude.
From S2P Require Import JsString.
From S2P Require Import ShellWords.

(** Texts with double quotes are written with backquotes. *)
Definition qq (s : string) : string :=
  smap (fun a => if Ascii.eqb a "`" then dquote_char else a) s.

(** ** The commands by name *)

(** The command that checks a piece of software, by its name in the report. *)
Definition commandByName : list (string * string) := [
  (".NET Core SDK", "command -v dotnet >/dev/null");
  ("Alibaba Cloud CLI", "command -v aliyun >/dev/null");
  ("Ansible", "command -v ansible >/dev/null");
  ("Ant", "command -v ant >/dev/null");
  ("apt-fast", "command -v apt-fast >/dev/null");
  ("AWS CLI", "command -v aws >/dev/null");
  ("AWS CLI Session Manager Plugin", "command -v session-manager-plugin >/dev/null");
  ("AWS SAM CLI", "command -v sam >/dev/null");
  ("Azure CLI", "command -v az >/dev/null");
  ("Azure CLI (azure-devops)", "az extension show --name azure-devops >/dev/null");
  ("AzCopy", "command -v azcopy >/dev/null && command -v azcopy10 >/dev/null");
  ("Bash", "command -v bash >/dev/null");
  ("Bazel", "command -v bazel >/dev/null");
  ("Bazelisk", "command -v bazelisk >/dev/null");
  ("Bicep", "command -v bicep >/dev/null");
  ("Bindgen", "command -v bindgen >/dev/null");
  ("Buildah", "command -v buildah >/dev/null");
  ("Cabal", "command -v cabal >/dev/null");
  ("Cargo", "command -v cargo >/dev/null");
  ("Cargo audit", "cargo audit --version >/dev/null");
  ("Cargo clippy", "cargo clippy --version >/dev/null");
  ("Cargo outdated", "cargo outdated --version >/dev/null");
  ("Cbindgen", "command -v cbindgen >/dev/null");
  ("ChromeDriver", "command -v chromedriver >/dev/null");
  ("Chromium", "command -v chromium >/dev/null || command -v chromium-browser >/dev/null");
  ("Clang", "command -v clang >/dev/null");
  ("Clang-format", "command -v clang-format >/dev/null");
  ("Clang-tidy", "command -v clang-tidy >/dev/null");
  ("CMake", "command -v cmake >/dev/null");
  ("CodeQL Action Bundle", "command -v codeql >/dev/null");
  ("Composer", "command -v composer >/dev/null");
  ("cpan", "command -v cpan >/dev/null");
  ("Dash", "command -v dash >/dev/null");
  ("Docker Amazon ECR Credential Helper", "command -v docker-credential-ecr-login >/dev/null");
  ("Docker Client", "docker --version >/dev/null");
  ("Docker Compose", "docker compose version >/dev/null");
  ("Docker Compose v2", "docker compose version >/dev/null");
  ("Docker Server", "ensure-docker && docker info >/dev/null");
  ("Docker-Buildx", "docker buildx version >/dev/null");
  ("Fastlane", "command -v fastlane >/dev/null");
  ("GHC", "command -v ghc >/dev/null");
  ("GHCup", "command -v ghcup >/dev/null");
  ("Geckodriver", "command -v geckodriver >/dev/null");
  ("Git", "command -v git >/dev/null");
  ("Git LFS", "git lfs version >/dev/null");
  ("Git-ftp", "command -v git-ftp >/dev/null");
  ("GitHub CLI", "command -v gh >/dev/null");
  ("GNU C++", "command -v g++ >/dev/null");
  ("GNU Fortran", "command -v gfortran >/dev/null");
  ("Google Chrome", "command -v google-chrome >/dev/null");
  ("Google Cloud CLI", "command -v gcloud >/dev/null");
  ("Gradle", "command -v gradle >/dev/null");
  ("Haveged", "command -v haveged >/dev/null");
  ("Helm", "command -v helm >/dev/null");
  ("Heroku", "command -v heroku >/dev/null");
  ("Homebrew", "test -x /home/linuxbrew/.linuxbrew/bin/brew");
  ("jq", "command -v jq >/dev/null");
  ("Julia", "command -v julia >/dev/null");
  ("Kind", "command -v kind >/dev/null");
  ("Kotlin", "command -v kotlin >/dev/null");
  ("Kubectl", "command -v kubectl >/dev/null");
  ("Kustomize", "command -v kustomize >/dev/null");
  ("Leiningen", "command -v lein >/dev/null");
  ("Lerna", "command -v lerna >/dev/null");
  ("Maven", "command -v mvn >/dev/null");
  ("MediaInfo", "command -v mediainfo >/dev/null");
  ("Mercurial", "command -v hg >/dev/null");
  ("Microsoft Edge", "command -v microsoft-edge >/dev/null");
  ("Microsoft Edge WebDriver", "command -v msedgedriver >/dev/null");
  ("Miniconda", "test -x /usr/share/miniconda/bin/conda");
  ("Minikube", "command -v minikube >/dev/null");
  ("MSBuild", "command -v msbuild >/dev/null");
  ("Mono", "command -v mono >/dev/null");
  ("Mozilla Firefox", "command -v firefox >/dev/null");
  ("MySQL", "command -v mysql >/dev/null && command -v mysqld >/dev/null");
  ("n", "command -v n >/dev/null");
  ("nbgv", "command -v nbgv >/dev/null");
  ("Netlify", "command -v netlify >/dev/null");
  ("Netlify CLI", "command -v netlify >/dev/null");
  ("Newman", "command -v newman >/dev/null");
  ("Ninja", "command -v ninja >/dev/null");
  ("Node.js", "command -v node >/dev/null");
  ("Npm", "command -v npm >/dev/null");
  ("NuGet", "command -v nuget >/dev/null");
  ("nvm", "test -s /home/runner/.nvm/nvm.sh");
  ("OpenShift CLI", "command -v oc >/dev/null");
  ("OpenSSL", "command -v openssl >/dev/null");
  ("ORAS CLI", "command -v oras >/dev/null");
  ("Packer", "command -v packer >/dev/null");
  ("Parcel", "command -v parcel >/dev/null");
  ("Perl", "command -v perl >/dev/null");
  ("PHP", "command -v php >/dev/null");
  ("PHPUnit", "command -v phpunit >/dev/null");
  ("Pip", "command -v pip >/dev/null");
  ("Pip3", "command -v pip3 >/dev/null");
  ("Pipx", "command -v pipx >/dev/null");
  ("Podman", qq ("command -v podman >/dev/null || exit 1; " +:+
      "podman_network=`qiniu-conformance-$$-${RANDOM}`; cleanup_podman_network() { " +:+
      "podman network rm `$podman_network` >/dev/null 2>&1 || true; }; trap " +:+
      "cleanup_podman_network EXIT; podman network create -d bridge " +:+
      "`$podman_network` >/dev/null || exit 1; podman network ls --format " +:+
      "`{{.Name}}` | grep -Fx `$podman_network` >/dev/null || exit 1; podman " +:+
      "network rm `$podman_network` >/dev/null || exit 1; trap - EXIT"));
  ("PostgreSQL", "command -v psql >/dev/null && command -v postgres >/dev/null");
  ("PowerShell", "command -v pwsh >/dev/null");
  ("Pulumi", "command -v pulumi >/dev/null");
  ("Python", "command -v python3 >/dev/null");
  ("R", "command -v R >/dev/null");
  ("Ruby", "command -v ruby >/dev/null");
  ("RubyGems", "command -v gem >/dev/null");
  ("Rust", "command -v rustc >/dev/null");
  ("Rustdoc", "command -v rustdoc >/dev/null");
  ("Rustfmt", "command -v rustfmt >/dev/null");
  ("Rustup", "command -v rustup >/dev/null");
  ("Sbt", "command -v sbt >/dev/null");
  ("Selenium server", "test -f /usr/share/java/selenium-server.jar");
  ("Skopeo", "command -v skopeo >/dev/null");
  ("Sphinx", "command -v searchd >/dev/null");
  ("Sphinx Open Source Search Server", "command -v searchd >/dev/null");
  ("SqlPackage", "command -v sqlpackage >/dev/null");
  ("sqlcmd", "command -v sqlcmd >/dev/null");
  ("sqlite3", "command -v sqlite3 >/dev/null");
  ("Stack", "command -v stack >/dev/null");
  ("SVN", "command -v svn >/dev/null");
  ("Swift", "command -v swift >/dev/null");
  ("Terraform", "command -v terraform >/dev/null");
  ("Vcpkg", "test -x /usr/local/share/vcpkg/vcpkg");
  ("Vercel CLI", "command -v vercel >/dev/null");
  ("yamllint", "command -v yamllint >/dev/null");
  ("Yarn", "command -v yarn >/dev/null");
  ("yq", "command -v yq >/dev/null");
  ("zstd", "command -v zstd >/dev/null")
].

(** The checks of the Android section. *)
Definition androidChecks : list (string * string) := [
  ("Android Command Line Tools",
    "test -x /usr/local/lib/android/sdk/cmdline-tools/latest/bin/sdkmanager");
  ("Android SDK Build-tools", "test -d /usr/local/lib/android/sdk/build-tools");
  ("Android SDK Platform-Tools", "test -x /usr/local/lib/android/sdk/platform-tools/adb");
  ("Android SDK Platforms", "test -d /usr/local/lib/android/sdk/platforms");
  ("Android Support Repository", "test -d /usr/local/lib/android/sdk/extras/android/m2repository");
  ("CMake", "test -d /usr/local/lib/android/sdk/cmake");
  ("Google Play services",
    "test -d /usr/local/lib/android/sdk/extras/google/google_play_services");
  ("Google Repository", "test -d /usr/local/lib/android/sdk/extras/google/m2repository");
  ("NDK", "test -d /usr/local/lib/android/sdk/ndk")
].

(** ** Property lookup on an object literal

    A key that is not in the literal may still be found on the prototype of
    every object; what is found there is no text. *)
Inductive js_property := PText (text : string) | PInherited | PUndefined.

Definition object_prototype : list string :=
  ["constructor"; "__defineGetter__"; "__defineSetter__"; "hasOwnProperty"; "__lookupGetter__";
   "__lookupSetter__"; "isPrototypeOf"; "propertyIsEnumerable"; "toString"; "valueOf";
   "__proto__"; "toLocaleString"].

Definition property (table : list (string * string)) (key : string) : js_property :=
  match snd <$> find_first (fun e => bool_decide (e.1 = key)) table with
  | Some text => PText text
  | None => if bool_decide (key ∈ object_prototype) then PInherited else PUndefined
  end.

(** ** Quoting *)

(** [String(value).replaceAll("'", `'\"'\"'`)] *)
Fixpoint escapeQuotes (s : string) : string :=
  match s with
  | "" => ""
  | String a r =>
      if Ascii.eqb a quote then qq "'`'`'" +:+ escapeQuotes r else String a (escapeQuotes r)
  end.

Definition shellQuote (value : string) : string := "'" +:+ escapeQuotes value +:+ "'".

(** ** Entries of a report *)

Record ParsedEntry := {
  pe_category : string;
  pe_upstream_name : string;
  pe_upstream_value : string;
  pe_kind : string;
}.

(** A missing field is [undefined], which reads as that text wherever the
    generator uses it. *)
Definition entryOfLine (line : string) : ParsedEntry :=
  let field i := default "undefined" (split_on (ascii_of_N 9) line !! i) in
  {| pe_category := field 0%nat; pe_upstream_name := field 1%nat;
     pe_upstream_value := field 2%nat; pe_kind := field 3%nat |}.

Definition parsedEntries (output : string) : list ParsedEntry :=
  entryOfLine <$> filter (fun line => str_truthy line = true)
    (split_on (ascii_of_N 10) (trim output)).

(** ** Verification commands *)

(** The command, [None] for a value that is no text and that [JSON.stringify]
    leaves out, or the error that is thrown. *)
Definition osRelease (imageKey : string) : string :=
  if bool_decide (imageKey = "ubuntu-22.04") then "22.04"
  else if bool_decide (imageKey = "ubuntu-26.04") then "26.04" else "24.04".

Definition dpkgInstalled (name : string) : string :=
  "dpkg-query -W -f='${Status}' " +:+ shellQuote name +:+ " | grep -qx 'install ok installed'".

Definition environmentCheck (name value : string) : string :=
  if bool_decide (value = "") then qq "test -z `${" +:+ name +:+ qq ":-}`"
  else qq "test `${" +:+ name +:+ qq ":-}` = " +:+ shellQuote value.

Definition cachedToolCheck (tool name : string) : string :=
  "find " +:+ shellQuote ("/opt/hostedtoolcache/" +:+ tool) +:+
  " -mindepth 1 -maxdepth 2 -type d -name " +:+ shellQuote (name +:+ "*") +:+ " | grep -q .".

Definition powerShellModuleCheck (name : string) : string :=
  "pwsh -NoLogo -NoProfile -Command " +:+
  shellQuote ("if (-not (Get-Module -ListAvailable -Name '" +:+ name +:+ "')) { exit 1 }").

Definition text_of (p : js_property) : option string :=
  match p with PText s => Some s | _ => None end.

Definition namedCheck (category name : string) : string + option string :=
  match property commandByName name with
  | PUndefined =>
      inl ("No concrete verification command for " +:+ category +:+ " / " +:+ name)
  | p => inr (text_of p)
  end.

Definition verificationFor (imageKey : string) (item : ParsedEntry) : string + option string :=
  let category := pe_category item in
  let name := pe_upstream_name item in
  let value := pe_upstream_value item in
  let metadata := bool_decide (category = "Image metadata") in
  if metadata && bool_decide (name = "OS Version") then
    inr (Some (qq ". /etc/os-release; test `$VERSION_ID` = " +:+ shellQuote (osRelease imageKey)))
  else if metadata && bool_decide (name = "Kernel Version") then
    inr (Some (qq "test `$(uname -r)` = " +:+ shellQuote value))
  else if metadata && bool_decide (name = "Image Version") then
    inr (Some (qq "test -n `${ImageVersion:-}` && test -n `${IMAGE_VERSION:-}`"))
  else if metadata && bool_decide (name = "Systemd version") then
    inr (Some ("test -x /usr/lib/systemd/systemd && " +:+
      "/usr/lib/systemd/systemd --version >/dev/null"))
  else if bool_decide (category = "Installed apt packages") then
    if bool_decide (name = "upx") then inr (Some "command -v upx >/dev/null")
    else if bool_decide (name = "netcat") &&
            (bool_decide (imageKey = "ubuntu-24.04") || bool_decide (imageKey = "ubuntu-26.04"))
    then inr (Some ("dpkg-query -W -f='${Status}' 'netcat-openbsd' | " +:+
           "grep -qx 'install ok installed' && command -v netcat >/dev/null"))
    else inr (Some (dpkgInstalled name))
  else if includes "Environment variables" category then
    inr (Some (environmentCheck name value))
  else if startsWith "Cached Tools/" category then
    inr (Some (cachedToolCheck (default "" (drop_prefix "Cached Tools/" category)) name))
  else if bool_decide (category = "PowerShell Tools/PowerShell Modules") then
    inr (Some (powerShellModuleCheck name))
  else if bool_decide (category = "Web Servers") then inr (Some (dpkgInstalled name))
  else if bool_decide (category = "Android") then inr (text_of (property androidChecks name))
  else namedCheck category name.

(** ** The entries of the manifest *)

Inductive EntryStatus := Provided | Excluded.

#[export] Instance EntryStatus_eq_dec : EqDecision EntryStatus.
Proof. solve_decision. Defined.

Record ManifestEntry := {
  me_category : string;
  me_kind : string;
  me_upstream_name : string;
  me_upstream_value : string;
  me_status : EntryStatus;
  me_verification : option string;
  me_reason : option string;
}.

Definition versionedExtras : list string :=
  ["Ansible"; "Buildah"; "Docker Compose"; "Docker Server"; "Ninja"; "Pester"; "Podman"; "Skopeo";
   "apache2"; "yamllint"].

Definition entryKey (entry : ParsedEntry) : string :=
  pe_category entry +:+ chr 0 +:+ pe_upstream_name entry.

Definition kernelReason : string :=
  "Qiniu Sandbox containers share the Sandbox host kernel; an image template cannot install or " +:+
  "select the pinned Azure host kernel build.".

Definition inventoryReason : string :=
  "The current Qiniu Sandbox public-template build allocation exposes a 22,222 MiB root disk, " +:+
  "and the full GitHub-hosted runner inventory exceeds that limit. This public template " +:+
  "guarantees the pinned Ubuntu Slim-compatible core on the requested OS release plus " +:+
  "documented extensions; this full-image-only item is not guaranteed and should be installed " +:+
  "at job time or included in a custom template.".

Definition kernelExcluded (parsed : ParsedEntry) : bool :=
  bool_decide (pe_upstream_name parsed = "Kernel Version").

Definition fullInventoryExcluded (imageKey : string) (parsed : ParsedEntry)
    (slimEntryKeys : list string) : bool :=
  negb (bool_decide (imageKey = "ubuntu-slim")) &&
  negb (bool_decide (entryKey parsed ∈ slimEntryKeys)) &&
  negb (bool_decide (pe_upstream_name parsed ∈ versionedExtras)).

Definition compatibilityEntry (imageKey : string) (slimEntryKeys : list string)
    (parsed : ParsedEntry) : string + ManifestEntry :=
  let excluded := kernelExcluded parsed || fullInventoryExcluded imageKey parsed slimEntryKeys in
  match verificationFor imageKey parsed with
  | inl e => inl e
  | inr verification =>
      inr {| me_category := pe_category parsed; me_kind := pe_kind parsed;
             me_upstream_name := pe_upstream_name parsed;
             me_upstream_value := pe_upstream_value parsed;
             me_status := if excluded then Excluded else Provided;
             me_verification := verification;
             me_reason :=
               if excluded
               then Some (if kernelExcluded parsed then kernelReason else inventoryReason)
               else None |}
  end.

(** The image keys, in the order of both loops. *)
Definition imageKeys : list string :=
  ["ubuntu-slim"; "ubuntu-22.04"; "ubuntu-24.04"; "ubuntu-26.04"].

Definition templateName (imageKey : string) : js_property :=
  property [("ubuntu-slim", "github-runner-ubuntu-slim");
            ("ubuntu-22.04", "github-runner-ubuntu-22-04");
            ("ubuntu-24.04", "github-runner-ubuntu-24-04");
            ("ubuntu-26.04", "github-runner-ubuntu-26-04")] imageKey.

Definition contract (kind name value verification : string) : ManifestEntry := {|
  me_category := "Qiniu runner contract"; me_kind := kind; me_upstream_name := name;
  me_upstream_value := value; me_status := Provided;
  me_verification := Some (qq verification); me_reason := None |}.

Definition contractEntries (imageKey : string) : list ManifestEntry :=
  let template := default "undefined" (text_of (templateName imageKey)) in [
    contract "path" "runner user and home" "/home/runner"
      "test `$(getent passwd runner | cut -d: -f6)` = /home/runner";
    contract "path" "runner work" "/home/runner/work"
      "test -d /home/runner/work && test `$(stat -c %U /home/runner/work)` = runner";
    contract "path" "hosted tool cache" "/opt/hostedtoolcache"
      "test -d /opt/hostedtoolcache && test -w /opt/hostedtoolcache";
    contract "environment" "runner tool cache environment" "/opt/hostedtoolcache"
      ("test `$RUNNER_TOOL_CACHE` = /opt/hostedtoolcache && " +:+
       "test `$AGENT_TOOLSDIRECTORY` = /opt/hostedtoolcache");
    contract "software" "preinstalled GitHub Actions runner" "/opt/actions-runner"
      "test -x /opt/actions-runner/config.sh && test -x /opt/actions-runner/run.sh";
    contract "service" "non-root Docker socket" "docker group 0660"
      ("ensure-docker && test `$(stat -c %a /var/run/docker.sock)` = 660 && " +:+
       "test `$(stat -c %G /var/run/docker.sock)` = docker");
    contract "environment" "template identification" template
      ("test `$IMAGE_TEMPLATE` = " +:+ shellQuote template +:+ " && test -n `$ImageVersion`");
    {| me_category := "Qiniu runner contract"; me_kind := "service";
       me_upstream_name := "systemd PID 1 service control"; me_upstream_value := "systemd";
       me_status := Excluded;
       me_verification := Some (qq "test `$(ps -p 1 -o comm= | tr -d ` `)` = systemd");
       me_reason := Some ("The Qiniu Sandbox runtime starts the job container without systemd as " +:+
         "PID 1; installed services use direct process startup and are disabled by default.") |}
  ].

(** ** The generator *)

(** The lock file, as it is read: the report of an image and its checksum may be
    missing. *)
Record Lock := {
  lk_repository : string;
  lk_commit : string;
  lk_reports : string -> option string;
  lk_sha256 : string -> option string;
}.

Record ImageManifest := {
  im_report_path : option string;
  im_template_directory : string;
  im_entries : list ManifestEntry;
}.

Record Manifest := {
  mf_repository : string;
  mf_commit : string;
  mf_images : list (string * ImageManifest);
}.

Definition entry_id (e : ManifestEntry) : string * string := (me_category e, me_upstream_name e).
Definition parsed_id (e : ParsedEntry) : string * string := (pe_category e, pe_upstream_name e).

(** A loop that stops at the first error. *)
Fixpoint each {A B} (f : A -> string + B) (l : list A) : string + list B :=
  match l with
  | [] => inr []
  | x :: l =>
      match f x with
      | inl e => inl e
      | inr y => match each f l with inl e => inl e | inr ys => inr (y :: ys) end
      end
  end.

Section generator.
(** A report as read from the directory or downloaded, its checksum, and the
    lines the awk program prints for it, or the error of either. *)
Context (fetchReport : Lock -> string -> string + string).
Context (sha256 : string -> string) (awk : string -> string + string).

(** [basename(undefined)] throws. *)
Definition noReportPath : string :=
  qq "The `path` argument must be of type string. Received undefined".

Definition readImage (lock : Lock) (imageKey : string) : string + (string * list ParsedEntry) :=
  match lk_reports lock imageKey with
  | None => inl noReportPath
  | Some reportPath =>
      match fetchReport lock reportPath with
      | inl e => inl e
      | inr contents =>
          if negb (bool_decide (Some (sha256 contents) = lk_sha256 lock imageKey))
          then inl (imageKey +:+ " report checksum does not match the upstream lock")
          else match awk contents with
               | inl e => inl e
               | inr output => inr (imageKey, parsedEntries output)
               end
      end
  end.

Definition entriesOf (parsedByImage : list (string * list ParsedEntry)) (imageKey : string) :
    list ParsedEntry :=
  default [] (snd <$> find_first (fun p => bool_decide (p.1 = imageKey)) parsedByImage).

Definition imageOf (lock : Lock) (slimEntryKeys : list string)
    (image : string * list ParsedEntry) : string + (string * ImageManifest) :=
  let '(imageKey, entries) := image in
  match each (compatibilityEntry imageKey slimEntryKeys) entries with
  | inl e => inl e
  | inr compatible =>
      inr (imageKey, {| im_report_path := lk_reports lock imageKey;
                        im_template_directory := "templates/github-runner-" +:+ imageKey;
                        im_entries := compatible ++ contractEntries imageKey |})
  end.

Definition generate (lock : Lock) : string + Manifest :=
  match each (readImage lock) imageKeys with
  | inl e => inl e
  | inr parsedByImage =>
      let slimEntryKeys := entryKey <$> entriesOf parsedByImage "ubuntu-slim" in
      match each (imageOf lock slimEntryKeys) parsedByImage with
      | inl e => inl e
      | inr images => inr {| mf_repository := lk_repository lock; mf_commit := lk_commit lock;
                             mf_images := images |}
      end
  end.
End generator.

(** * Properties *)

(** ** Quoting *)

Lemma scan_escaped (env : string -> option string) (v r cur : string) :
  scan env Single (Some cur) (escapeQuotes v +:+ "'" +:+ r) =
  scan env Bare (Some (cur +:+ v)) r.
Proof.
  revert cur. induction v as [|a v IH]; intros cur; cbn [escapeQuotes].
  - by rewrite sapp_nil_r.
  - destruct (Ascii.eqb_spec a quote) as [->|Ha].
    + change (scan env Single (Some (((cur +:+ "") +:+ "'") +:+ ""))
        (escapeQuotes v +:+ "'" +:+ r) = scan env Bare (Some (cur +:+ String quote v)) r).
      by rewrite !sapp_nil_r, IH, sapp_assoc.
    + cbn. rewrite (proj2 (Ascii.eqb_neq a quote)) by done. unfold push. cbn [default].
      rewrite IH. by rewrite sapp_assoc.
Qed.

(** A quoted value is read back as it was, whatever it contains. *)
Lemma scan_quoted (env : string -> option string) (v r : string) (cur : option string) :
  scan env Bare cur (shellQuote v +:+ r) = scan env Bare (push v cur) r.
Proof.
  unfold shellQuote. rewrite !sapp_assoc.
  change (scan env Single (Some (default "" cur +:+ "")) (escapeQuotes v +:+ "'" +:+ r) =
    scan env Bare (push v cur) r).
  by rewrite scan_escaped, sapp_nil_r.
Qed.

Lemma not_environment (c : string) :
  includes "Environment variables" c = true ->
  c <> "Image metadata" /\ c <> "Installed apt packages".
Proof. intros H. by split; intros ->. Qed.

(** Whatever a report lists, the shell reads a quoted value back unchanged: a
    package check asks dpkg for exactly the listed package, a tool check
    searches exactly the directory and the version prefix that are listed, and
    a module check hands one argument to PowerShell. *)
Theorem listed_values_reach_commands (env : string -> option string) (name tool : string) :
  sh_words env (shellQuote name) = Some [name] /\
  sh_words env (dpkgInstalled name) = Some ["dpkg-query"; "-W"; "-f=${Status}"; name] /\
  sh_words env (cachedToolCheck tool name) =
    Some ["find"; "/opt/hostedtoolcache/" +:+ tool; "-mindepth"; "1"; "-maxdepth"; "2"; "-type";
          "d"; "-name"; name +:+ "*"] /\
  sh_words env (powerShellModuleCheck name) =
    Some ["pwsh"; "-NoLogo"; "-NoProfile"; "-Command";
          "if (-not (Get-Module -ListAvailable -Name '" +:+ name +:+ "')) { exit 1 }"].
Proof.
  unfold sh_words. split_and!.
  - by rewrite <- (sapp_nil_r (shellQuote name)), scan_quoted.
  - unfold dpkgInstalled.
    change (scan env Bare None ("dpkg-query" +:+ String " " ("-W" +:+ String " "
      ("-f=" +:+ shellQuote "${Status}" +:+ String " " (shellQuote name +:+
        " | grep -qx 'install ok installed'")))) =
      Some ["dpkg-query"; "-W"; "-f=${Status}"; name]).
    rewrite !scan_word, scan_plain, scan_quoted, scan_blank, scan_quoted by done. done.
  - unfold cachedToolCheck.
    change (scan env Bare None ("find" +:+ String " " (shellQuote ("/opt/hostedtoolcache/" +:+ tool) +:+
      String " " ("-mindepth" +:+ String " " ("1" +:+ String " " ("-maxdepth" +:+ String " "
      ("2" +:+ String " " ("-type" +:+ String " " ("d" +:+ String " " ("-name" +:+ String " "
      (shellQuote (name +:+ "*") +:+ " | grep -q .")))))))))) =
      Some ["find"; "/opt/hostedtoolcache/" +:+ tool; "-mindepth"; "1"; "-maxdepth"; "2"; "-type";
          "d"; "-name"; name +:+ "*"]).
    rewrite scan_word, scan_quoted, scan_blank, !scan_word, scan_quoted by done. done.
  - unfold powerShellModuleCheck.
    set (s := "if (-not (Get-Module -ListAvailable -Name '" +:+ _).
    change (scan env Bare None ("pwsh" +:+ String " " ("-NoLogo" +:+ String " " ("-NoProfile" +:+
      String " " ("-Command" +:+ String " " (shellQuote s))))) =
      Some ["pwsh"; "-NoLogo"; "-NoProfile"; "-Command"; s]).
    rewrite <- (sapp_nil_r (shellQuote s)). rewrite !scan_word, scan_quoted by done. done.
Qed.

(** C27.  The check written for an environment variable of a report passes exactly
    when the variable has the listed value, an unset variable counting as an
    empty one; it is written for every image and every such section. *)
Theorem environment_check_exact (imageKey : string) (item : ParsedEntry)
    (env : string -> option string) :
  includes "Environment variables" (pe_category item) = true ->
  identifier (pe_upstream_name item) = true ->
  exists command words,
    verificationFor imageKey item = inr (Some command) /\
    sh_words env command = Some words /\
    (test_passes words = true <-> default "" (env (pe_upstream_name item)) = pe_upstream_value item).
Proof.
  intros Hc Hn. destruct (not_environment _ Hc) as [Hm Ha].
  unfold verificationFor. rewrite (bool_decide_eq_false_2 _ Hm), (bool_decide_eq_false_2 _ Ha), Hc.
  cbn [andb]. set (n := pe_upstream_name item) in *. set (v := pe_upstream_value item).
  unfold environmentCheck. destruct (decide (v = "")) as [->|Hv].
  - eexists _, ["test"; "-z"; default "" (env n)]. split; [reflexivity|]. split.
    + change (scan env Bare None ("test" +:+ String " " ("-z" +:+ String " "
        (dquote +:+ "${" +:+ n +:+ ":-}" +:+ dquote +:+ ""))) =
        Some ["test"; "-z"; default "" (env n)]).
      rewrite !scan_word, scan_variable by done. done.
    + by rewrite test_passes_empty.
  - rewrite bool_decide_eq_false_2 by done.
    eexists _, ["test"; default "" (env n); "="; v]. split; [reflexivity|]. split.
    + change (scan env Bare None ("test" +:+ String " " (dquote +:+ "${" +:+ n +:+
        (":-}" +:+ dquote +:+ " = ") +:+ shellQuote v)) = Some ["test"; default "" (env n); "="; v]).
      rewrite scan_word by done. rewrite !sapp_assoc, scan_variable by done.
      change (cons "test" <$> scan env Bare (push (default "" (env n)) None) (String " "
        ("=" +:+ String " " (shellQuote v))) = Some ["test"; default "" (env n); "="; v]).
      rewrite scan_blank, scan_word by done.
      by rewrite <- (sapp_nil_r (shellQuote v)), scan_quoted.
    + by rewrite test_passes_equal.
Qed.

(** ** Loops *)

Lemma each_inr {A B} (f : A -> string + B) (l : list A) (ys : list B) :
  each f l = inr ys <-> Forall2 (fun x y => f x = inr y) l ys.
Proof.
  revert ys. induction l as [|x l IH]; intros ys; simpl.
  - split; [by intros [= <-]|by inversion 1].
  - split.
    + destruct (f x) as [|y] eqn:E; [done|]. destruct (each f l) as [|zs] eqn:El; [done|].
      intros [= <-]. constructor; [done|]. by apply IH.
    + inversion 1 as [|? y ? zs Hx Hl]; subst. rewrite Hx. apply IH in Hl. by rewrite Hl.
Qed.

Lemma each_inl {A B} (f : A -> string + B) (l : list A) (e : string) :
  each f l = inl e -> exists x, x ∈ l /\ f x = inl e.
Proof.
  induction l as [|x l IH]; simpl; [done|]. destruct (f x) as [e'|y] eqn:E.
  - intros [= ->]. exists x. split; [by left|done].
  - destruct (each f l) as [e'|zs]; [|done]. intros [= ->]. destruct IH as (z & Hz & Ez); [done|].
    exists z. split; [by right|done].
Qed.

Lemma each_fails {A B} (f : A -> string + B) (l : list A) (x : A) (e : string) :
  x ∈ l -> f x = inl e -> exists e', each f l = inl e'.
Proof.
  induction 1 as [x l|x y l Hx IH]; intros E; simpl.
  - rewrite E. by eexists.
  - destruct (f y) as [e'|]; [by eexists|]. destruct IH as [e' ->]; [done|]. by eexists.
Qed.

(** ** Commands are visible *)

Lemma property_text (table : list (string * string)) (key text : string) :
  property table key = PText text -> exists k, (k, text) ∈ table.
Proof.
  unfold property. destruct (find_first _ table) as [[k v]|] eqn:E; simpl.
  - intros [= <-]. apply find_first_Some in E as [H _]. by exists k.
  - by destruct (bool_decide _).
Qed.

Lemma verificationFor_error (imageKey : string) (item : ParsedEntry) (e : string) :
  verificationFor imageKey item = inl e ->
  property commandByName (pe_upstream_name item) = PUndefined /\
  e = "No concrete verification command for " +:+ pe_category item +:+ " / " +:+
      pe_upstream_name item.
Proof.
  unfold verificationFor, namedCheck. intros H.
  repeat match type of H with context [if ?b then _ else _] => destruct b end; try done.
  destruct (property commandByName _); [done..|]. by injection H.
Qed.

(** ** Entries *)

Lemma compatibilityEntry_spec (imageKey : string) (slim : list string) (e : ParsedEntry)
    (c : ManifestEntry) :
  compatibilityEntry imageKey slim e = inr c ->
  entry_id c = parsed_id e /\ verificationFor imageKey e = inr (me_verification c) /\
  (me_status c = Excluded <->
   kernelExcluded e || fullInventoryExcluded imageKey e slim = true).
Proof.
  unfold compatibilityEntry. destruct (verificationFor imageKey e) as [|v]; [done|].
  intros [= <-]. cbn. split_and!; [done..|]. by destruct (_ || _).
Qed.

Lemma compatibilityEntry_reason (imageKey : string) (slim : list string) (e : ParsedEntry)
    (c : ManifestEntry) :
  compatibilityEntry imageKey slim e = inr c -> me_status c = Excluded <-> me_reason c <> None.
Proof.
  unfold compatibilityEntry. destruct (verificationFor imageKey e) as [|v]; [done|].
  intros [= <-]. cbn. by destruct (_ || _).
Qed.

Lemma forall2_all {A B} (P : A -> B -> Prop) (f : B -> bool) (l : list A) (k : list B) :
  Forall2 P l k -> (forall x y, x ∈ l -> P x y -> f y = true) -> forallb f k = true.
Proof.
  induction 1 as [|x y l k Hxy _ IH]; intros Hf; [done|]. simpl.
  rewrite (Hf x y), IH; [done| |by left|done]. intros u v Hu. apply Hf. by right.
Qed.

Lemma forall2_in {A B} (P : A -> B -> Prop) (l : list A) (k : list B) (x : A) :
  Forall2 P l k -> x ∈ l -> exists y, y ∈ k /\ P x y.
Proof.
  induction 1 as [|a b l k Hab _ IH]; intros Hx; [by apply not_elem_of_nil in Hx|].
  apply elem_of_cons in Hx as [->|Hx]; [exists b; split; [by left|done]|].
  destruct (IH Hx) as (y & Hy & ?). exists y. split; [by right|done].
Qed.

(** ** The generated manifest *)

Section generated.
Context (fetchReport : Lock -> string -> string + string).
Context (sha256 : string -> string) (awk : string -> string + string).

(** The entries of the report that the lock pins for an image. *)
Definition pinned_report (lock : Lock) (k : string) (es : list ParsedEntry) : Prop :=
  exists path contents output,
    lk_reports lock k = Some path /\ fetchReport lock path = inr contents /\
    lk_sha256 lock k = Some (sha256 contents) /\ awk contents = inr output /\
    es = parsedEntries output.

Lemma readImage_pinned (lock : Lock) (k k' : string) (es : list ParsedEntry) :
  readImage fetchReport sha256 awk lock k = inr (k', es) <-> k' = k /\ pinned_report lock k es.
Proof.
  unfold readImage, pinned_report. split.
  - destruct (lk_reports lock k) as [path|]; [|done].
    destruct (fetchReport lock path) as [|contents] eqn:Ef; [done|].
    destruct (bool_decide _) eqn:E; [|done]. apply bool_decide_eq_true_1 in E. cbn.
    destruct (awk contents) as [|output] eqn:Ea; [done|]. intros [= <- <-]. split; [done|].
    by exists path, contents, output.
  - intros [-> (path & contents & output & -> & -> & -> & -> & ->)].
    by rewrite bool_decide_eq_true_2.
Qed.

Lemma readImages_shape (lock : Lock) (parsed : list (string * list ParsedEntry)) :
  each (readImage fetchReport sha256 awk lock) imageKeys = inr parsed -> parsed.*1 = imageKeys.
Proof.
  intros H%each_inr. induction H as [|k [k' es] ks ps Hk _ IH]; [done|].
  rewrite fmap_cons, IH. cbn. f_equal. by apply readImage_pinned in Hk as [-> _].
Qed.

Lemma imageOf_spec (lock : Lock) (slim : list string) (k k' : string) (es : list ParsedEntry)
    (image : ImageManifest) :
  imageOf lock slim (k, es) = inr (k', image) ->
  k' = k /\ exists cs, Forall2 (fun e c => compatibilityEntry k slim e = inr c) es cs /\
    im_entries image = cs ++ contractEntries k.
Proof.
  cbn. destruct (each _ es) as [|cs] eqn:E; [done|]. intros [= <- <-]. split; [done|].
  exists cs. split; [by apply each_inr|done].
Qed.

Lemma generate_spec (lock : Lock) (parsed : list (string * list ParsedEntry)) (m : Manifest) :
  each (readImage fetchReport sha256 awk lock) imageKeys = inr parsed ->
  generate fetchReport sha256 awk lock = inr m ->
  Forall2 (fun p i => imageOf lock (entryKey <$> entriesOf parsed "ubuntu-slim") p = inr i)
    parsed (mf_images m).
Proof.
  intros Hp. unfold generate. rewrite Hp. destruct (each _ parsed) as [|images] eqn:E; [done|].
  intros [= <-]. by apply each_inr.
Qed.

(** The entries of the report and of the manifest under one of the keys. *)
Lemma image_entries (lock : Lock) (slim : list string) (parsed : list (string * list ParsedEntry))
    (images : list (string * ImageManifest)) (k : string) :
  Forall2 (fun p i => imageOf lock slim p = inr i) parsed images -> k ∈ parsed.*1 ->
  exists cs, Forall2 (fun e c => compatibilityEntry k slim e = inr c) (entriesOf parsed k) cs /\
    default [] (im_entries <$> (snd <$> find_first (fun p => bool_decide (p.1 = k)) images)) =
    cs ++ contractEntries k.
Proof.
  unfold entriesOf. induction 1 as [|[k1 es] [k2 image] ps ms Hi _ IH]; cbn.
  - by intros H%not_elem_of_nil.
  - apply imageOf_spec in Hi as (-> & cs & Hcs & Hen). intros Hk.
    destruct (decide (k1 = k)) as [->|Hne].
    + rewrite bool_decide_eq_true_2 by done. by exists cs.
    + rewrite bool_decide_eq_false_2 by done. apply IH. by apply elem_of_cons in Hk as [->|?].
Qed.

Lemma image_of_key (lock : Lock) (slim : list string) (parsed : list (string * list ParsedEntry))
    (images : list (string * ImageManifest)) (k : string) :
  Forall2 (fun p i => imageOf lock slim p = inr i) parsed images -> k ∈ parsed.*1 ->
  exists image cs, (k, image) ∈ images /\
    Forall2 (fun e c => compatibilityEntry k slim e = inr c) (entriesOf parsed k) cs /\
    im_entries image = cs ++ contractEntries k.
Proof.
  unfold entriesOf. induction 1 as [|[k1 es] [k2 image] ps ms Hi _ IH]; cbn.
  - by intros H%not_elem_of_nil.
  - apply imageOf_spec in Hi as (-> & cs & Hcs & Hen). intros Hk.
    destruct (decide (k1 = k)) as [->|Hne].
    + rewrite bool_decide_eq_true_2 by done. exists image, cs. split; [by left|done].
    + rewrite bool_decide_eq_false_2 by done. apply elem_of_cons in Hk as [->|Hk]; [done|].
      destruct (IH Hk) as (image' & cs' & Him & ?). exists image', cs'. split; [by right|done].
Qed.

Lemma slim_key (parsed : list (string * list ParsedEntry)) (e : ParsedEntry) :
  (forall k e, e ∈ entriesOf parsed k -> free (ascii_of_N 0) (pe_category e) = true) ->
  free (ascii_of_N 0) (pe_category e) = true ->
  entryKey e ∈ entryKey <$> entriesOf parsed "ubuntu-slim" <->
  exists s, s ∈ entriesOf parsed "ubuntu-slim" /\ parsed_id s = parsed_id e.
Proof.
  intros Hfree He. rewrite list_elem_of_fmap. split.
  - intros (s & E & Hs). exists s. split; [done|]. unfold entryKey, chr in E.
    apply first_sep_unique in E as [E1 E2]; [|done|by eapply Hfree]. unfold parsed_id. congruence.
  - intros (s & Hs & E). exists s. split; [|done]. unfold entryKey, parsed_id in *. congruence.
Qed.

(** What a template promises: the manifest lists an item of a report as
    provided exactly when it is not the kernel and belongs to the slim image,
    to the slim image's report, or to the extras pinned by version; everything
    else is excluded with a reason. *)
Theorem provided_items (lock : Lock) (parsed : list (string * list ParsedEntry)) (m : Manifest)
    (k : string) (e : ParsedEntry) :
  each (readImage fetchReport sha256 awk lock) imageKeys = inr parsed ->
  generate fetchReport sha256 awk lock = inr m ->
  (forall k e, e ∈ entriesOf parsed k -> free (ascii_of_N 0) (pe_category e) = true) ->
  k ∈ imageKeys -> e ∈ entriesOf parsed k ->
  exists image c, (k, image) ∈ mf_images m /\ c ∈ im_entries image /\ entry_id c = parsed_id e /\
    (me_status c = Provided <->
     pe_upstream_name e <> "Kernel Version" /\
     (k = "ubuntu-slim" \/
      (exists s, s ∈ entriesOf parsed "ubuntu-slim" /\ parsed_id s = parsed_id e) \/
      pe_upstream_name e ∈ versionedExtras)) /\
    (me_status c = Excluded <-> me_reason c <> None).
Proof.
  intros Hp Hm Hfree Hk He. pose proof (readImages_shape lock parsed Hp) as Hkeys.
  pose proof (generate_spec lock parsed m Hp Hm) as Hi.
  destruct (image_of_key lock _ parsed _ k Hi) as (image & cs & Him & Hcs & E); [by rewrite Hkeys|].
  destruct (forall2_in _ _ _ _ Hcs He) as (c & Hc & Hec). exists image, c.
  split; [exact Him|]. split; [rewrite E; apply elem_of_app; by left|].
  pose proof (compatibilityEntry_spec _ _ _ _ Hec) as (Hid & _ & Hst). split; [done|].
  split.
  - transitivity (me_status c <> Excluded); [by destruct (me_status c)|]. rewrite Hst.
    rewrite not_true_iff_false, orb_false_iff. unfold kernelExcluded, fullInventoryExcluded.
    rewrite !andb_false_iff, !negb_false_iff, !bool_decide_eq_false, !bool_decide_eq_true.
    rewrite (slim_key parsed e) by eauto. tauto.
  - by apply compatibilityEntry_reason in Hec.
Qed.
(** Why a report is not read. *)
Definition report_error (lock : Lock) (k e : string) : Prop :=
  match lk_reports lock k with
  | None => e = noReportPath
  | Some path =>
      fetchReport lock path = inl e \/
      exists contents, fetchReport lock path = inr contents /\
        (lk_sha256 lock k <> Some (sha256 contents) /\
           e = k +:+ " report checksum does not match the upstream lock" \/
         lk_sha256 lock k = Some (sha256 contents) /\ awk contents = inl e)
  end.

Lemma readImage_error (lock : Lock) (k e : string) :
  readImage fetchReport sha256 awk lock k = inl e <-> report_error lock k e.
Proof.
  unfold readImage, report_error. destruct (lk_reports lock k) as [path|]; [|split; congruence].
  destruct (fetchReport lock path) as [e'|contents].
  { split; [intros [= ->]; by left|]. intros [[= ->]|(c & [=] & _)]. done. }
  destruct (bool_decide _) eqn:E; [apply bool_decide_eq_true_1 in E|apply bool_decide_eq_false_1 in E]; cbn.
  - destruct (awk contents) as [e'|output] eqn:Ea; split.
    + intros [= ->]. right. exists contents. split; [done|]. right. by split.
    + intros [[=]|(c & [= <-] & [[H _]|[_ H]])]; congruence.
    + done.
    + intros [[=]|(c & [= <-] & [[H _]|[_ H]])]; congruence.
  - split.
    + intros [= <-]. right. exists contents. split; [done|]. left. split; [congruence|done].
    + intros [[=]|(c & [= <-] & [[_ ->]|[H _]])]; [done|congruence].
Qed.

(** The first error of a loop. *)
Lemma each_first {A B} (f : A -> string + B) (l : list A) (e : string) :
  each f l = inl e <->
  exists l1 x l2, l = l1 ++ x :: l2 /\ (forall y, y ∈ l1 -> exists z, f y = inr z) /\ f x = inl e.
Proof.
  induction l as [|x l IH]; simpl.
  - split; [done|]. by intros ([|] & ? & ? & ? & _).
  - destruct (f x) as [e'|y] eqn:E.
    + split.
      * intros [= ->]. exists [], x, l. split_and!; [done| |done]. by intros ? ?%not_elem_of_nil.
      * intros ([|x' l1] & x1 & l2 & [= -> ->] & H & E1); [congruence|].
        destruct (H x') as [z Ez]; [by left|congruence].
    + destruct (each f l) as [e'|zs].
      * split.
        -- intros [= ->]. destruct (proj1 IH eq_refl) as (l1 & x1 & l2 & -> & H & E1).
           exists (x :: l1), x1, l2. split_and!; [done| |done].
           intros y' [->|Hy]%elem_of_cons; [by exists y|by apply H].
        -- intros ([|x' l1] & x1 & l2 & [= -> ->] & H & E1); [congruence|].
           f_equal. cut (@inl string (list B) e' = inl e); [by intros [=]|]. apply IH.
           exists l1, x1, l2. split_and!; [done| |done]. intros y' Hy. apply H. by right.
      * split; [done|]. intros ([|x' l1] & x1 & l2 & [= -> ->] & H & E1); [congruence|].
        assert (@inr string (list B) zs = inl e) as [=]. apply IH.
        exists l1, x1, l2. split_and!; [done| |done]. intros y' Hy. apply H. by right.
Qed.

(** An item whose command is looked up by its name. *)
Definition named_item (item : ParsedEntry) : bool :=
  let category := pe_category item in
  negb (bool_decide (category = "Image metadata") &&
        bool_decide (pe_upstream_name item ∈
          ["OS Version"; "Kernel Version"; "Image Version"; "Systemd version"])) &&
  negb (bool_decide (category ∈ ["Installed apt packages"; "PowerShell Tools/PowerShell Modules";
                                 "Web Servers"; "Android"])) &&
  negb (includes "Environment variables" category) && negb (startsWith "Cached Tools/" category).

(** The items that stop the generator; an Android item without a check does not. *)
Definition without_command (item : ParsedEntry) : Prop :=
  named_item item = true /\ property commandByName (pe_upstream_name item) = PUndefined.

Definition no_command (item : ParsedEntry) : string :=
  "No concrete verification command for " +:+ pe_category item +:+ " / " +:+ pe_upstream_name item.

Lemma verificationFor_fails (imageKey : string) (item : ParsedEntry) (e : string) :
  verificationFor imageKey item = inl e <-> without_command item /\ e = no_command item.
Proof.
  unfold without_command, named_item, no_command, verificationFor, namedCheck.
  set (c := pe_category item). set (n := pe_upstream_name item).
  destruct (decide (c = "Image metadata")) as [Ec|Ec].
  - rewrite Ec. rewrite (bool_decide_eq_true_2 (_ = _)) by done. cbn [andb].
    rewrite (bool_decide_eq_false_2 (_ ∈ ["Installed apt packages"; _; _; _])) by set_solver.
    change (includes "Environment variables" "Image metadata") with false.
    change (startsWith "Cached Tools/" "Image metadata") with false. cbn [andb negb].
    destruct (decide (n ∈ ["OS Version"; "Kernel Version"; "Image Version"; "Systemd version"])) as [H|H].
    + rewrite (bool_decide_eq_true_2 _ H). split; [|by intros [[? _] _]].
      rewrite !elem_of_cons, elem_of_nil in H. clearbody n.
      destruct H as [H|[H|[H|[H|[]]]]]; rewrite H; vm_compute; discriminate.
    + rewrite (bool_decide_eq_false_2 _ H). rewrite !not_elem_of_cons in H.
      destruct H as (H1 & H2 & H3 & H4 & _). rewrite !(bool_decide_eq_false_2 (n = _)) by done.
      cbn. destruct (property commandByName n); naive_solver.
  - rewrite (bool_decide_eq_false_2 (c = "Image metadata")) by done. cbn [andb negb].
    destruct (decide (c = "Installed apt packages")) as [->|E1].
    { cbn. split; [|by intros [[? _] _]]. by repeat case_match. }
    rewrite (bool_decide_eq_false_2 (c = "Installed apt packages")) by done.
    destruct (includes "Environment variables" c).
    { rewrite andb_false_r. cbn [andb negb]. split; [done|]. by intros [[? _] _]. }
    destruct (startsWith "Cached Tools/" c).
    { cbn [negb]. rewrite andb_false_r. split; [done|]. by intros [[? _] _]. }
    destruct (decide (c = "PowerShell Tools/PowerShell Modules")) as [->|E2].
    { cbn. split; [done|]. by intros [[? _] _]. }
    rewrite (bool_decide_eq_false_2 (c = "PowerShell Tools/PowerShell Modules")) by done.
    destruct (decide (c = "Web Servers")) as [->|E3]. { cbn. split; [done|]. by intros [[? _] _]. }
    rewrite (bool_decide_eq_false_2 (c = "Web Servers")) by done.
    destruct (decide (c = "Android")) as [->|E4]. { cbn. split; [done|]. by intros [[? _] _]. }
    rewrite (bool_decide_eq_false_2 (c = "Android")) by done.
    rewrite bool_decide_eq_false_2 by set_solver. cbn.
    destruct (property commandByName n); naive_solver.
Qed.

Lemma imageOf_fails (lock : Lock) (slim : list string) (k e : string) (es : list ParsedEntry) :
  imageOf lock slim (k, es) = inl e <->
  exists before item after, es = before ++ item :: after /\
    (forall x, x ∈ before -> ~ without_command x) /\ without_command item /\ e = no_command item.
Proof.
  assert (forall x e', compatibilityEntry k slim x = inl e' <-> without_command x /\ e' = no_command x) as Hc.
  { intros x e'. rewrite <- (verificationFor_fails k). unfold compatibilityEntry.
    destruct (verificationFor k x); naive_solver. }
  assert (forall x, (exists z, compatibilityEntry k slim x = inr z) <-> ~ without_command x) as Hd.
  { intros x. destruct (compatibilityEntry k slim x) as [e'|z] eqn:E.
    - apply Hc in E as [H _]. split; [by intros [z ?]|done].
    - split; [|by eauto]. intros _ H. by rewrite (proj2 (Hc x (no_command x)) (conj H eq_refl)) in E. }
  transitivity (each (compatibilityEntry k slim) es = inl e).
  { cbn. destruct (each _ es); naive_solver. }
  rewrite each_first. split; intros (l1 & x & l2 & E & H & Hx); exists l1, x, l2; split; try done.
  - apply Hc in Hx. split; [|exact Hx]. intros y Hy. by apply Hd, H.
  - split; [intros y Hy; by apply Hd, H|by apply Hc].
Qed.

Lemma generate_manifest (lock : Lock) :
  (exists m, generate fetchReport sha256 awk lock = inr m) <->
  forall k, k ∈ imageKeys -> exists es,
    pinned_report lock k es /\ forall item, item ∈ es -> ~ without_command item.
Proof.
  unfold generate. split.
  - intros [m H]. destruct (each _ imageKeys) as [|parsed] eqn:Hp; [done|].
    destruct (each (imageOf _ _) parsed) as [|images] eqn:Hi; [done|]. apply each_inr in Hp, Hi.
    intros k Hk. destruct (forall2_in _ _ _ _ Hp Hk) as ([k' es] & Hin & Hr).
    apply readImage_pinned in Hr as [-> Hes]. exists es. split; [exact Hes|]. intros item Hitem Hw.
    destruct (forall2_in _ _ _ _ Hi Hin) as ([k2 image] & _ & H2).
    apply imageOf_spec in H2 as (_ & cs & Hcs & _).
    destruct (forall2_in _ _ _ _ Hcs Hitem) as (c & _ & Hc).
    apply compatibilityEntry_spec in Hc as (_ & Hc & _).
    by rewrite (proj2 (verificationFor_fails k item _) (conj Hw eq_refl)) in Hc.
  - intros H. destruct (each _ imageKeys) as [e|parsed] eqn:Hp.
    { apply each_inl in Hp as (k & Hk & E). destruct (H k Hk) as (es & Hes & _).
      by rewrite (proj2 (readImage_pinned lock k k es) (conj eq_refl Hes)) in E. }
    destruct (each (imageOf _ _) parsed) as [e|images] eqn:Hi; [exfalso|by eexists].
    apply each_inl in Hi as ([k es] & Hin & E). apply imageOf_fails in E as (l1 & item & l2 & -> & _ & Hw & _).
    apply each_inr, Forall2_flip in Hp. destruct (forall2_in _ _ _ _ Hp Hin) as (k' & Hk' & Hr).
    unfold flip in Hr. apply readImage_pinned in Hr as [-> Hes]. destruct (H k' Hk') as (es' & Hes' & Hall).
    destruct Hes as (p1 & c1 & o1 & ? & ? & ? & ? & Ees), Hes' as (p2 & c2 & o2 & ? & ? & ? & ? & ->).
    assert (o2 = o1) as -> by congruence. apply (Hall item); [|exact Hw]. rewrite <- Ees. set_solver.
Qed.

(** C19.  Given the lock, the generator comes to a manifest exactly when the report of
    every image is read, is the one the lock pins, and lists no item whose command is
    looked up by its name and not found (an Android item without a check passes).
    Otherwise it stops, with the error of the first report that is not read; or else,
    of the first such item of the first image that has one. *)
Theorem generate_result (lock : Lock) :
  ((exists m, generate fetchReport sha256 awk lock = inr m) <->
   forall k, k ∈ imageKeys -> exists es,
     pinned_report lock k es /\ forall item, item ∈ es -> ~ without_command item) /\
  forall e, generate fetchReport sha256 awk lock = inl e ->
    exists before k after, imageKeys = before ++ k :: after /\
      ((forall j, j ∈ before -> exists es, pinned_report lock j es) /\ report_error lock k e \/
       (forall j, j ∈ imageKeys -> exists es, pinned_report lock j es /\
          (j ∈ before -> forall item, item ∈ es -> ~ without_command item)) /\
       exists l item r, pinned_report lock k (l ++ item :: r) /\
         (forall x, x ∈ l -> ~ without_command x) /\ without_command item /\ e = no_command item).
Proof.
  split; [apply generate_manifest|]. intros e. unfold generate.
  destruct (each _ imageKeys) as [e'|parsed] eqn:Hp.
  - intros [= ->]. apply each_first in Hp as (before & k & after & E & Hb & Hk).
    exists before, k, after. split; [exact E|left]. split; [|by apply readImage_error].
    intros j Hj. destruct (Hb j Hj) as [[k' es] Hr]. apply readImage_pinned in Hr as [_ Hes]. by exists es.
  - destruct (each (imageOf _ _) parsed) as [e'|images] eqn:Hi; [|done]. intros [= ->].
    apply each_first in Hi as (before & [k es] & after & -> & Hb & Hk).
    pose proof (readImages_shape lock _ Hp) as Hkeys. rewrite fmap_app in Hkeys. cbn in Hkeys.
    exists before.*1, k, after.*1. split; [by rewrite <- Hkeys|right].
    apply each_inr in Hp. pose proof Hp as Hflip. apply Forall2_flip in Hflip. unfold flip in Hflip.
    assert (forall j es', (j, es') ∈ before ++ (k, es) :: after -> pinned_report lock j es') as Hin.
    { intros j es' Hj. destruct (forall2_in _ _ _ _ Hflip Hj) as (j' & _ & Hr).
      by apply readImage_pinned in Hr as [-> Hr]. }
    split.
    + intros j Hj. rewrite <- Hkeys in Hj.
      assert (exists es', (j, es') ∈ before ++ (k, es) :: after /\
        (j ∈ before.*1 -> (j, es') ∈ before)) as (es' & Hj' & Hbef).
      { destruct (decide (j ∈ before.*1)) as [Hd|Hd].
        - pose proof Hd as Hd'. apply list_elem_of_fmap in Hd' as ([j' es'] & -> & Hx). exists es'. set_solver.
        - change (before.*1 ++ k :: after.*1) with (before.*1 ++ ((k, es) :: after).*1) in Hj.
          rewrite <- fmap_app in Hj. apply list_elem_of_fmap in Hj as ([j' es'] & -> & Hx). by exists es'. }
      exists es'. split; [by apply Hin|]. intros Hd item Hitem Hw. specialize (Hbef Hd).
      destruct (Hb _ Hbef) as [[k2 image] H2]. apply imageOf_spec in H2 as (_ & cs & Hcs & _).
      destruct (forall2_in _ _ _ _ Hcs Hitem) as (c & _ & Hc).
      apply compatibilityEntry_spec in Hc as (_ & Hc & _).
      by rewrite (proj2 (verificationFor_fails j item _) (conj Hw eq_refl)) in Hc.
    + apply imageOf_fails in Hk as (l & item & r & -> & Hl & Hw & ->). exists l, item, r.
      split; [apply Hin; set_solver|done].
Qed.
End generated.

(** ** A run with one small report for every image *)

Definition tab_line (fields : list string) : string := join (chr 9) fields.

Definition example_rows (extra : list string) (contents : string) : list string :=
  [tab_line ["Image metadata"; "Kernel Version"; "6.17.0-azure"; "software"];
   tab_line ["Tools"; "jq"; "1.7"; "software"];
   tab_line ["Java/Environment variables"; "JAVA_HOME"; "it's here"; "environment"]] ++
  (if bool_decide (contents = "slim") then [] else extra).

(** What the awk program prints: a line for every row. *)
Definition example_lines (extra : list string) (contents : string) : string + string :=
  inr (join "" (map (fun row => row +:+ newline) (example_rows extra contents))).

Definition example_report (k : string) : string := if bool_decide (k = "ubuntu-slim") then "slim" else "full".

Definition example_lock : Lock := {|
  lk_repository := "actions/runner-images"; lk_commit := "e986db7c0f1d2a3b4c5d6e7f8091a2b3c4d5e6f7";
  lk_reports := fun k => Some (example_report k); lk_sha256 := fun k => Some (example_report k) |}.

Definition example_fetch (lock : Lock) (path : string) : string + string := inr path.

Definition example_full : list string := [tab_line ["Browsers and Drivers"; "Chromium"; "1"; "software"]].

Definition example_parsed (extra : list string) : list (string * list ParsedEntry) :=
  match each (readImage example_fetch id (example_lines extra) example_lock) imageKeys with
  | inr parsed => parsed
  | inl _ => []
  end.

Definition example_manifest (extra : list string) : Manifest :=
  match generate example_fetch id (example_lines extra) example_lock with
  | inr m => m
  | inl _ => {| mf_repository := ""; mf_commit := ""; mf_images := [] |}
  end.

Lemma provided_items_witness :
  let e := entryOfLine (tab_line ["Browsers and Drivers"; "Chromium"; "1"; "software"]) in
  exists image c, ("ubuntu-22.04", image) ∈ mf_images (example_manifest example_full) /\
    c ∈ im_entries image /\ entry_id c = parsed_id e /\
    (me_status c = Provided <->
     pe_upstream_name e <> "Kernel Version" /\
     ("ubuntu-22.04" = "ubuntu-slim" \/
      (exists s, s ∈ entriesOf (example_parsed example_full) "ubuntu-slim" /\
         parsed_id s = parsed_id e) \/
      pe_upstream_name e ∈ versionedExtras)) /\
    (me_status c = Excluded <-> me_reason c <> None).
Proof.
  cbv zeta.
  apply (provided_items example_fetch id (example_lines example_full) example_lock
    (example_parsed example_full) (example_manifest example_full)).
  - vm_compute. reflexivity.
  - vm_compute. reflexivity.
  - intros k e He. unfold entriesOf in He.
    destruct (find_first _ (example_parsed example_full)) as [[k' es]|] eqn:E;
      [|by apply not_elem_of_nil in He].
    apply find_first_Some in E as [E _]. cbn in He.
    assert (forallb (fun p => forallb (fun e => free (ascii_of_N 0) (pe_category e)) p.2)
      (example_parsed example_full) = true) as H by (vm_compute; reflexivity).
    rewrite forallb_forall in H. specialize (H _ (proj1 (list_elem_of_In _ _) E)).
    rewrite forallb_forall in H. apply H. by apply list_elem_of_In.
  - right. left.
  - vm_compute. do 3 right. left.
Defined.

Lemma environment_check_exact_witness :
  let env n := if bool_decide (n = "JAVA_HOME") then Some "it's here" else None in
  exists command words,
    verificationFor "ubuntu-22.04"
      (entryOfLine (tab_line ["Java/Environment variables"; "JAVA_HOME"; "it's here"; "environment"]))
      = inr (Some command) /\
    sh_words env command = Some words /\
    (test_passes words = true <-> default "" (env "JAVA_HOME") = "it's here").
Proof.
  cbv zeta. apply (environment_check_exact "ubuntu-22.04" (entryOfLine (tab_line
    ["Java/Environment variables"; "JAVA_HOME"; "it's here"; "environment"]))); vm_compute; reflexivity.
Defined.


Lemma generate_result_witness :
  (exists es, pinned_report example_fetch id (example_lines example_full) example_lock "ubuntu-26.04" es /\
     forall item, item ∈ es -> ~ without_command item) /\
  let tools := [tab_line ["Tools"; "Emulator"; "36"; "software"]] in
  exists before k after, imageKeys = before ++ k :: after /\
    ((forall j, j ∈ before -> exists es,
        pinned_report example_fetch id (example_lines tools) example_lock j es) /\
     report_error example_fetch id (example_lines tools) example_lock k
       "No concrete verification command for Tools / Emulator" \/
     (forall j, j ∈ imageKeys -> exists es,
        pinned_report example_fetch id (example_lines tools) example_lock j es /\
        (j ∈ before -> forall item, item ∈ es -> ~ without_command item)) /\
     exists l item r,
       pinned_report example_fetch id (example_lines tools) example_lock k (l ++ item :: r) /\
       (forall x, x ∈ l -> ~ without_command x) /\ without_command item /\
       "No concrete verification command for Tools / Emulator" = no_command item).
Proof.
  split.
  - apply (proj1 (generate_result example_fetch id (example_lines example_full) example_lock)).
    + exists (example_manifest example_full). vm_compute. reflexivity.
    + do 3 right. left.
  - apply (proj2 (generate_result example_fetch id
      (example_lines [tab_line ["Tools"; "Emulator"; "36"; "software"]]) example_lock)).
    vm_compute. reflexivity.
Defined.
