(* ===== verification/ImageCheck.v ===== *)
(** The checker of the compatibility manifest,
    src/scripts/check-runner-image-compatibility.sh, against the generator of
    ImageManifest.

    The checker reads the lock, fetches the reports again and compares them with the
    manifest; the fetch, the checksum and the awk program are the generator's. *)
From S2P Require Import Prelude.
From S2P Require Import JsString.
From S2P Require Import ShellWords.
From S2P Require Import ImageManifest.

(** ** Lines of a report

    [while IFS=$'\t' read -r category upstream_name upstream_value kind]: a last line
    without its newline is not read, and tabs that follow each other are one. *)
Definition terminatedLines (output : string) : list string :=
  let pieces := split_on (ascii_of_N 10) output in take (pred (List.length pieces)) pieces.

Definition readLine (line : string) : string * string :=
  let fields := filter (fun w => str_truthy w = true) (split_on (ascii_of_N 9) line) in
  (default "" (fields !! 0%nat), default "" (fields !! 1%nat)).

(** ** The checker *)

Definition hex_digit (a : ascii) : bool := is_digit a || in_range 97 102 a.

(** [[ "$commit" =~ ^[0-9a-f]{40}$ ]] *)
Definition full_sha (commit : string) : bool :=
  Nat.eqb (String.length commit) 40 && sforall hex_digit commit.

(** [jq '[... | select(.category == $category and .upstream_name == $name)] | length'] *)
Definition matches (item : string * string) (entries : list ManifestEntry) : nat :=
  List.length (filter (fun x => entry_id x = item) entries).

Definition item_name (k : string) (item : string * string) : string :=
  k +:+ " / " +:+ item.1 +:+ " / " +:+ item.2.

Definition checkItem (k : string) (entries : list ManifestEntry) (line : string) : string + unit :=
  let item := readLine line in
  match matches item entries with
  | 0%nat => inl ("missing compatibility entry: " +:+ item_name k item)
  | 1%nat => inr tt
  | _ => inl ("duplicate compatibility entries: " +:+ item_name k item)
  end.

Definition sh_space (a : ascii) : bool := Ascii.eqb a " " || in_range 9 13 a.

Definition has_verification (e : ManifestEntry) : bool :=
  negb (sforall sh_space (default "" (me_verification e))).

Definition concrete_reason (e : ManifestEntry) : bool :=
  match me_status e with
  | Provided => true
  | Excluded =>
      let reason := toLowerCase (default "" (me_reason e)) in
      includes "qiniu sandbox" reason || includes "sandbox runtime" reason ||
      includes "sandbox template" reason
  end.

(** The entries of all images that fail a test, a line for each. *)
Definition failing (test : ManifestEntry -> bool) (manifest : Manifest) : string :=
  join newline (mjoin (map (fun image =>
    map (fun e => item_name image.1 (entry_id e)) (filter (fun e => test e = false) (im_entries image.2)))
    (mf_images manifest))).

Section checker.
Context (fetchReport : Lock -> string -> string + string).
Context (sha256 : string -> string) (awk : string -> string + string).

Definition imageEntries (manifest : Manifest) (k : string) : list ManifestEntry :=
  default [] (im_entries <$>
    (snd <$> find_first (fun p => bool_decide (p.1 = k)) (mf_images manifest))).

(** One turn of the loop over the images.  A command that fails ends the script
    without a message of its own. *)
Definition checkImage (lock : Lock) (manifest : Manifest) (k : string) : string + unit :=
  match lk_reports lock k with
  | None => inl ""
  | Some path =>
      match fetchReport lock path with
      | inl e => inl e
      | inr contents =>
          let expected := default "" (lk_sha256 lock k) in
          if str_truthy expected && negb (bool_decide (sha256 contents = expected))
          then inl (k +:+ " report checksum " +:+ sha256 contents +:+ " does not match lock " +:+ expected)
          else match awk contents with
               | inl e => inl e
               | inr output =>
                   if negb (str_truthy output)
                   then inl (k +:+ " report produced no compatibility items")
                   else match each (checkItem k (imageEntries manifest k)) (terminatedLines output) with
                        | inl e => inl e
                        | inr _ =>
                            if bool_decide (imageEntries manifest k = [])
                            then inl (k +:+ " has an empty compatibility manifest") else inr tt
                        end
               end
      end
  end.

(** The statuses are those of the type, so the test of the status is left out. *)
Definition check (lock : Lock) (manifest : Manifest) : string + unit :=
  if negb (bool_decide (lk_repository lock = "actions/runner-images"))
  then inl "lock repository must be actions/runner-images"
  else if negb (full_sha (lk_commit lock)) then inl "lock commit is not a full Git SHA"
  else if negb (bool_decide (mf_commit manifest = lk_commit lock))
  then inl ("manifest commit " +:+ mf_commit manifest +:+ " does not match lock " +:+ lk_commit lock)
  else match each (checkImage lock manifest) imageKeys with
       | inl e => inl e
       | inr _ =>
           let missing := failing has_verification manifest in
           let bad := failing concrete_reason manifest in
           if str_truthy missing then inl ("missing verification command: " +:+ missing)
           else if str_truthy bad
           then inl ("excluded entries require a concrete Sandbox-specific reason: " +:+ bad)
           else inr tt
       end.
End checker.

(** * Properties *)

Lemma full_sha_spec (commit : string) :
  full_sha commit = true <-> String.length commit = 40%nat /\ sforall hex_digit commit = true.
Proof. unfold full_sha. by rewrite andb_true_iff, Nat.eqb_eq. Qed.

(** ** What the checker counts *)

Lemma count_in {A} `{EqDecision A} (l : list A) (x : A) :
  x ∈ l -> (1 <= List.length (filter (fun y => y = x) l))%nat.
Proof.
  intros Hx. destruct (filter (fun y => y = x) l) as [|z zs] eqn:E; simpl; [|lia].
  assert (x ∈ filter (fun y => y = x) l) as H by (by apply list_elem_of_filter).
  rewrite E in H. by apply not_elem_of_nil in H.
Qed.

Lemma count_out {A} `{EqDecision A} (l : list A) (x : A) :
  x ∉ l -> filter (fun y => y = x) l = [].
Proof. intros Hx. apply filter_nil_iff_all. intros y Hy ->. done. Qed.

(** Every element of [l] occurs once in [l ++ c] exactly when [l] has no
    duplicates and nothing in common with [c]. *)
Lemma count_once {A} `{EqDecision A} (l c : list A) :
  (forall x, x ∈ l -> List.length (filter (fun y => y = x) (l ++ c)) = 1%nat) <->
  NoDup l /\ forall x, x ∈ l -> x ∉ c.
Proof.
  split.
  - intros H. split.
    + assert (forall s p, l = p ++ s -> NoDup s) as Hs; [|by apply (Hs l [])].
      induction s as [|x s IH]; intros p E; constructor.
      * intros Hx. apply count_in in Hx.
        assert (x ∈ l) as Hl by (rewrite E; apply elem_of_app; right; by left).
        specialize (H x Hl). rewrite E, !filter_app, filter_cons_True in H by done.
        rewrite !length_app in H. simpl in H. lia.
      * apply (IH (p ++ [x])). by rewrite <- app_assoc.
    + intros x Hx Hc. specialize (H x Hx). rewrite filter_app, length_app in H.
      pose proof (count_in l x Hx). pose proof (count_in c x Hc). lia.
  - intros [Hl Hc] x Hx. rewrite filter_app, (count_out c) by auto. rewrite app_nil_r.
    apply list_elem_of_split in Hx as (l1 & l2 & ->).
    apply NoDup_app in Hl as (_ & Hd & [H2 _]%NoDup_cons).
    rewrite filter_app, filter_cons_True by done. rewrite (count_out l2), (count_out l1); [done| |done].
    intros H1. apply (Hd x H1). by left.
Qed.

Lemma matches_count (item : string * string) (entries : list ManifestEntry) :
  matches item entries = List.length (filter (fun y => y = item) (entry_id <$> entries)).
Proof.
  unfold matches. induction entries as [|x l IH]; [done|]. rewrite fmap_cons, !filter_cons.
  destruct (decide (entry_id x = item)); simpl; by rewrite IH.
Qed.

(** ** What the awk program prints *)

Definition row_line (e : ParsedEntry) : string :=
  join (chr 9) [pe_category e; pe_upstream_name e; pe_upstream_value e; pe_kind e].

(** A row: fields without tab or newline, a category that begins and a kind that ends
    with a visible character, and a name. *)
Record row_ok (e : ParsedEntry) : Prop := {
  row_fields : Forall (fun w => free (ascii_of_N 9) w = true /\ free (ascii_of_N 10) w = true)
    [pe_category e; pe_upstream_name e; pe_upstream_value e; pe_kind e];
  row_category : exists a w, pe_category e = String a w /\ is_graph a = true;
  row_name : pe_upstream_name e <> "";
  row_kind : pe_kind e <> "" /\ sforall is_graph (pe_kind e) = true;
}.

(** A line for every row. *)
Definition printed (rows : list ParsedEntry) (output : string) : Prop :=
  output = join "" (map (fun e => row_line e +:+ newline) rows) /\ Forall row_ok rows.

Lemma row_line_free (e : ParsedEntry) : row_ok e -> free (ascii_of_N 10) (row_line e) = true.
Proof.
  intros [H _ _ _]. unfold row_line. rewrite !Forall_cons in H.
  destruct H as ([_ H1] & [_ H2] & [_ H3] & [_ H4] & _). cbn [join]. by rewrite !free_app, H1, H2, H3, H4.
Qed.

Lemma row_line_split (e : ParsedEntry) :
  row_ok e -> split_on (ascii_of_N 9) (row_line e) =
    [pe_category e; pe_upstream_name e; pe_upstream_value e; pe_kind e].
Proof.
  intros [H _ _ _]. apply (split_join (ascii_of_N 9)); [done|].
  eapply Forall_impl; [exact H|]. by intros w [? _].
Qed.

Lemma readLine_row (e : ParsedEntry) : row_ok e -> readLine (row_line e) = parsed_id e.
Proof.
  intros H. unfold readLine. rewrite row_line_split by done. destruct H as [_ (a & w & Ec & _) Hn _].
  rewrite Ec, filter_cons_True by done. rewrite filter_cons_True by by apply str_truthy_true.
  unfold parsed_id. by rewrite Ec.
Qed.

Lemma entryOfLine_row (e : ParsedEntry) : row_ok e -> entryOfLine (row_line e) = e.
Proof. intros H. unfold entryOfLine. rewrite row_line_split by done. by destruct e. Qed.

Lemma printed_split (rows : list ParsedEntry) :
  Forall row_ok rows ->
  split_on (ascii_of_N 10) (join "" (map (fun e => row_line e +:+ newline) rows)) =
  map row_line rows ++ [""].
Proof.
  induction 1 as [|e rows He _ IH]; [done|]. cbn [map].
  assert (join "" ((row_line e +:+ newline) :: map (fun e => row_line e +:+ newline) rows) =
    row_line e +:+ String (ascii_of_N 10) (join "" (map (fun e => row_line e +:+ newline) rows))) as ->.
  { destruct rows as [|e' rows]; cbn [map join]; [done|]. by rewrite sapp_assoc. }
  rewrite split_on_app by by apply row_line_free. cbn [app]. by rewrite IH.
Qed.

Lemma printed_lines (rows : list ParsedEntry) (output : string) :
  printed rows output -> terminatedLines output = map row_line rows.
Proof.
  intros [-> H]. unfold terminatedLines. rewrite printed_split by done.
  rewrite length_app, Nat.add_1_r. cbn [pred]. apply take_app_length.
Qed.

(** The text of the rows ends with one newline, which [trim] takes away. *)
Lemma trim_newline (s : string) :
  drop_ws white_space (s +:+ newline) = None ->
  drop_ws (map srev white_space) (srev s) = None -> trim (s +:+ newline) = s.
Proof.
  intros H1 H2. unfold trim, trimStart. rewrite (strip_id _ _ _ H1). unfold trimEnd.
  rewrite srev_app. change (srev newline +:+ srev s) with (String (ascii_of_N 10) (srev s)).
  rewrite slength_app. change (String.length newline) with 1%nat. rewrite Nat.add_1_r.
  change (strip (S (String.length s)) (map srev white_space) (String (ascii_of_N 10) (srev s))) with
    (strip (String.length s) (map srev white_space) (srev s)).
  rewrite (strip_id _ _ _ H2). apply srev_involutive.
Qed.

Lemma join_two (sep a b : string) (l : list string) :
  join sep (a :: b :: l) = a +:+ sep +:+ join sep (b :: l).
Proof. done. Qed.

Lemma printed_join (rows : list ParsedEntry) :
  rows <> [] ->
  join "" (map (fun e => row_line e +:+ newline) rows) = join newline (map row_line rows) +:+ newline.
Proof.
  induction rows as [|e rows IH]; [done|intros _]. destruct rows as [|e' rows]; [done|].
  cbn [map]. cbn [map] in IH. rewrite !join_two, IH by done. by rewrite !sapp_assoc.
Qed.

(** The last character of the rows is visible. *)
Lemma rows_end (rows : list ParsedEntry) :
  rows <> [] -> Forall row_ok rows ->
  exists s a, join newline (map row_line rows) = s +:+ String a "" /\ is_graph a = true.
Proof.
  intros Hne H. induction H as [|e rows He _ IH]; [done|]. destruct rows as [|e' rows].
  - destruct He as [_ _ _ [Hk Hg]]. cbn [map join]. unfold row_line. cbn [join].
    assert (forall w, w <> "" -> sforall is_graph w = true ->
      exists s a, w = s +:+ String a "" /\ is_graph a = true) as Hlast.
    { induction w as [|b w IHw]; [done|]. intros _ [Hb Hw]%andb_prop.
      destruct w as [|c w]; [by exists "", b|]. destruct (IHw ltac:(done) Hw) as (s & a & -> & Ha).
      by exists (String b s), a. }
    destruct (Hlast _ Hk Hg) as (s & a & -> & Ha).
    eexists _, a. split; [|exact Ha]. rewrite <- !sapp_assoc. reflexivity.
  - destruct (IH ltac:(done)) as (s & a & E & Ha). cbn [map] in *.
    rewrite join_two, E. exists (row_line e +:+ newline +:+ s), a. split; [|exact Ha]. by rewrite !sapp_assoc.
Qed.

Lemma trim_rows (rows : list ParsedEntry) :
  Forall row_ok rows ->
  trim (join "" (map (fun e => row_line e +:+ newline) rows)) = join newline (map row_line rows).
Proof.
  intros H. destruct (decide (rows = [])) as [->|Hne]; [done|].
  rewrite printed_join by done. apply trim_newline.
  - destruct rows as [|e rows]; [done|]. apply Forall_cons in H as [[_ (a & w & Ec & Ha) _ _] _].
    assert (exists r, join newline (map row_line (e :: rows)) +:+ newline = String a r) as [r ->].
    { cbn [map]. unfold row_line at 1. rewrite Ec. by destruct rows; eexists. }
    by apply (drop_ws_head is_graph).
  - destruct (rows_end rows Hne H) as (s & a & -> & Ha). rewrite srev_app. by apply (drop_ws_head is_graph).
Qed.

Lemma printed_entries (rows : list ParsedEntry) (output : string) :
  printed rows output -> parsedEntries output = rows.
Proof.
  intros [-> H]. unfold parsedEntries. rewrite trim_rows by done.
  destruct (decide (rows = [])) as [->|Hne]; [done|].
  change newline with (String (ascii_of_N 10) ""). rewrite split_join; [| by destruct rows |].
  - clear Hne. induction H as [|e rows He _ IH]; [done|]. cbn [map].
    rewrite filter_cons_True, fmap_cons, IH, entryOfLine_row; [done|done|].
    destruct He as [_ (a & w & Ec & _) _ _]. unfold row_line. by rewrite Ec.
  - apply Forall_map. eapply Forall_impl; [exact H|]. apply row_line_free.
Qed.

Lemma printed_nonempty (rows : list ParsedEntry) (output : string) :
  printed rows output -> str_truthy output = true <-> rows <> [].
Proof.
  intros [-> H]. rewrite str_truthy_true. destruct rows as [|e rows]; [done|].
  split; [done|]. intros _. cbn [map]. apply Forall_cons in H as [[_ (a & w & Ec & _) _ _] _].
  unfold row_line. rewrite Ec. by destruct rows.
Qed.

(** ** Commands are visible *)

Definition visible (text : string) : bool := negb (sforall sh_space text).

Lemma property_visible (table : list (string * string)) (key : string) (text : string) :
  forallb (fun e => visible e.2) table = true ->
  text_of (property table key) = Some text -> visible text = true.
Proof.
  intros Ht. destruct (property table key) as [t| |] eqn:E; [|done..]. intros [= ->].
  apply property_text in E as [k Hk]. rewrite forallb_forall in Ht.
  apply (Ht (k, text)). by apply list_elem_of_In.
Qed.

Lemma verificationFor_visible (imageKey : string) (item : ParsedEntry) (command : string) :
  verificationFor imageKey item = inr (Some command) -> visible command = true.
Proof.
  unfold verificationFor, namedCheck, environmentCheck. intros H.
  repeat match type of H with context [if ?b then _ else _] => destruct b end;
    try (injection H as <-; reflexivity).
  - injection H as H. eapply property_visible; [|exact H]. vm_compute. reflexivity.
  - destruct (property commandByName _) as [t| |] eqn:E; [|done..]. injection H as <-.
    eapply (property_visible commandByName); [vm_compute; reflexivity|]. by rewrite E.
Qed.


(** What the checker accepts of a report: some items, each listed once, none
    named like an entry of the contract, and a command for each. *)
Definition report_ok (imageKey : string) (parsed : list ParsedEntry) : Prop :=
  parsed <> [] /\ NoDup (parsed_id <$> parsed) /\
  (forall e, e ∈ parsed -> parsed_id e ∉ entry_id <$> contractEntries imageKey) /\
  (forall e, e ∈ parsed -> verificationFor imageKey e <> inr None).

Lemma entry_visible (c : ManifestEntry) :
  has_verification c = true <->
  exists v, me_verification c = Some v /\ visible v = true.
Proof.
  unfold has_verification, visible. destruct (me_verification c) as [v|]; simpl.
  - split; [by eexists|]. by intros (w & [= <-] & ?).
  - split; [done|]. by intros (w & ? & _).
Qed.

Lemma matches_once (parsed : list ParsedEntry) (entries contract : list ManifestEntry) :
  entry_id <$> entries = parsed_id <$> parsed ->
  forallb (fun e => Nat.eqb (matches (parsed_id e) (entries ++ contract)) 1) parsed = true <->
  NoDup (parsed_id <$> parsed) /\ forall e, e ∈ parsed -> parsed_id e ∉ entry_id <$> contract.
Proof.
  intros Hids. rewrite forallb_forall. transitivity (forall x, x ∈ parsed_id <$> parsed ->
    List.length (filter (fun y => y = x)
      ((parsed_id <$> parsed) ++ (entry_id <$> contract))) = 1%nat).
  - split.
    + intros H x (e & -> & He)%list_elem_of_fmap. specialize (H e (proj1 (list_elem_of_In _ _) He)).
      apply Nat.eqb_eq in H. by rewrite matches_count, fmap_app, Hids in H.
    + intros H e He%list_elem_of_In. apply Nat.eqb_eq. rewrite matches_count, fmap_app, Hids.
      apply H, list_elem_of_fmap. by exists e.
  - rewrite count_once. split; intros [H1 H2]; (split; [done|]).
    + intros e He. apply H2, list_elem_of_fmap. by exists e.
    + intros x (e & -> & He)%list_elem_of_fmap. by apply H2.
Qed.

Lemma contract_visible (imageKey : string) :
  imageKey ∈ imageKeys ->
  forallb has_verification (contractEntries imageKey) = true /\
  forallb concrete_reason (contractEntries imageKey) = true.
Proof.
  intros H. unfold imageKeys in H. rewrite !elem_of_cons in H.
  by destruct H as [->|[->|[->|[->|H]]]]; [vm_compute..|apply not_elem_of_nil in H].
Qed.

Lemma entry_concrete (imageKey : string) (slim : list string) (e : ParsedEntry) (c : ManifestEntry) :
  compatibilityEntry imageKey slim e = inr c -> concrete_reason c = true.
Proof.
  unfold compatibilityEntry. destruct (verificationFor imageKey e) as [|v]; [done|].
  intros [= <-]. destruct (kernelExcluded e) eqn:Ek; unfold concrete_reason; cbn [me_status me_reason orb].
  - vm_compute. reflexivity.
  - destruct (fullInventoryExcluded _ _ _); [vm_compute|]; reflexivity.
Qed.

(** The entries of an image have a visible command and a concrete reason exactly when
    every item of the report has a command. *)
Lemma entries_described (k : string) (slim : list string) (parsed : list ParsedEntry)
    (entries : list ManifestEntry) :
  k ∈ imageKeys -> Forall2 (fun e c => compatibilityEntry k slim e = inr c) parsed entries ->
  forallb concrete_reason (entries ++ contractEntries k) = true /\
  (forallb has_verification (entries ++ contractEntries k) = true <->
   forall e, e ∈ parsed -> verificationFor k e <> inr None).
Proof.
  intros Hk Hes. destruct (contract_visible k Hk) as [Hv Hr]. rewrite !forallb_app, Hv, Hr, !andb_true_r.
  split; [eapply forall2_all; [exact Hes|]; intros e c _; apply entry_concrete|split].
  - clear -Hes. induction Hes as [|e c l m Hc _ IH]; simpl; intros H x Hx; [by apply not_elem_of_nil in Hx|].
    apply andb_prop in H as [H1 H2]. apply elem_of_cons in Hx as [->|Hx]; [|by apply IH].
    apply compatibilityEntry_spec in Hc as (_ & Hc & _). rewrite Hc.
    by apply entry_visible in H1 as (v & -> & _).
  - intros H. eapply forall2_all; [exact Hes|]. intros e c He Hc.
    apply compatibilityEntry_spec in Hc as (_ & Hc & _). apply entry_visible.
    specialize (H e He). rewrite Hc in H. destruct (me_verification c) as [v|]; [|done].
    exists v. split; [done|]. by eapply verificationFor_visible.
Qed.

(** ** The loops of the checker *)

Lemma each_ok {A} (f : A -> string + unit) (l : list A) :
  (exists r, each f l = inr r) <-> forall x, x ∈ l -> f x = inr tt.
Proof.
  split.
  - intros [r H] x Hx. apply each_inr in H. destruct (forall2_in _ _ _ _ H Hx) as ([] & _ & E). exact E.
  - intros H. destruct (each f l) as [e|r] eqn:E; [|by exists r].
    apply each_inl in E as (x & Hx & E). by rewrite H in E.
Qed.

Lemma checkItem_ok (k : string) (entries : list ManifestEntry) (line : string) :
  checkItem k entries line = inr tt <-> matches (readLine line) entries = 1%nat.
Proof. unfold checkItem. by destruct (matches _ _) as [|[|n]]. Qed.

Lemma failing_none (test : ManifestEntry -> bool) (m : Manifest) :
  str_truthy (failing test m) = false <->
  forall image, image ∈ mf_images m -> forallb test (im_entries image.2) = true.
Proof.
  unfold failing. set (names := mjoin _). rewrite str_truthy_false.
  assert (join newline names = "" <-> names = []) as ->.
  { assert (Forall (fun w => w <> "") names) as Hne.
    { apply Forall_forall. intros w Hw. apply list_elem_of_join in Hw as (l & Hw & Hl).
      apply list_elem_of_fmap in Hl as (image & -> & _). apply list_elem_of_fmap in Hw as (e & -> & _).
      unfold item_name. intros E. apply (f_equal String.length) in E. rewrite !slength_app in E. cbn in E. lia. }
    split; [|by intros ->]. destruct names as [|w [|w' ws]]; [done|..]; apply Forall_cons in Hne as [Hw _].
    - intros E. by destruct (Hw E).
    - rewrite join_two. by destruct w. }
  unfold names. clear names. split.
  - intros H image Hi. apply forallb_forall. intros e He%list_elem_of_In.
    destruct (test e) eqn:Et; [done|exfalso].
    assert (item_name image.1 (entry_id e) ∈ ([] : list string)) as Hin; [|by apply not_elem_of_nil in Hin].
    rewrite <- H. apply list_elem_of_join. eexists. split; [|by apply list_elem_of_fmap_2, Hi].
    apply list_elem_of_fmap. exists e. split; [done|]. by apply list_elem_of_filter.
  - intros H. induction (mf_images m) as [|image l IH]; [done|].
    assert (filter (fun e => test e = false) (im_entries image.2) = []) as Ei.
    { apply filter_nil_iff_all. intros e He Et. specialize (H image ltac:(by left)).
      rewrite forallb_forall in H. rewrite (H e) in Et; [done|by apply list_elem_of_In]. }
    cbn [map mjoin list_join]. rewrite Ei. apply IH. intros x Hx. apply H. by right.
Qed.

(** ** The generated manifest *)

Section generated.
Context (fetchReport : Lock -> string -> string + string).
Context (sha256 : string -> string) (awk : string -> string + string).

(** The rows of the reports, printed as the awk program prints rows. *)
Definition reports_printed (lock : Lock) (rows : string -> list ParsedEntry) : Prop :=
  forall k path contents output, k ∈ imageKeys ->
    lk_reports lock k = Some path -> fetchReport lock path = inr contents ->
    awk contents = inr output -> printed (rows k) output.

Lemma pinned_rows (lock : Lock) (rows : string -> list ParsedEntry) (k : string)
    (es : list ParsedEntry) :
  reports_printed lock rows -> k ∈ imageKeys -> pinned_report fetchReport sha256 awk lock k es ->
  es = rows k /\ exists path contents output, lk_reports lock k = Some path /\
    fetchReport lock path = inr contents /\ lk_sha256 lock k = Some (sha256 contents) /\
    awk contents = inr output /\ printed (rows k) output.
Proof.
  intros H Hk (path & contents & output & E1 & E2 & E3 & E4 & ->).
  pose proof (H k path contents output Hk E1 E2 E4) as Hp.
  split; [by apply printed_entries|]. by exists path, contents, output.
Qed.

(** The images of the manifest, and the image found under a key. *)
Lemma generated_images (lock : Lock) (m : Manifest) (rows : string -> list ParsedEntry) :
  reports_printed lock rows -> generate fetchReport sha256 awk lock = inr m ->
  mf_commit m = lk_commit lock /\
  (forall k, k ∈ imageKeys ->
     pinned_report fetchReport sha256 awk lock k (rows k) /\
     exists slim cs, Forall2 (fun e c => compatibilityEntry k slim e = inr c) (rows k) cs /\
       imageEntries m k = cs ++ contractEntries k) /\
  forall image, image ∈ mf_images m -> image.1 ∈ imageKeys /\
    exists slim cs, Forall2 (fun e c => compatibilityEntry image.1 slim e = inr c) (rows image.1) cs /\
      im_entries image.2 = cs ++ contractEntries image.1.
Proof.
  intros Hrows Hm. pose proof Hm as Hm'. unfold generate in Hm'.
  destruct (each _ imageKeys) as [|parsed] eqn:Hp; [done|].
  destruct (each (imageOf _ _) parsed) as [|images] eqn:Hi; [done|]. injection Hm' as <-. clear Hm.
  pose proof (readImages_shape _ _ _ _ _ Hp) as Hkeys. apply each_inr in Hp, Hi. cbn.
  assert (forall k es, (k, es) ∈ parsed -> k ∈ imageKeys /\
    pinned_report fetchReport sha256 awk lock k es /\ es = rows k) as Hread.
  { intros k es Hin. apply Forall2_flip in Hp. destruct (forall2_in _ _ _ _ Hp Hin) as (k' & Hk' & E).
    unfold flip in E. apply readImage_pinned in E as [-> E]. split; [done|]. split; [done|].
    by apply (pinned_rows lock rows k' es). }
  split; [done|]. split.
  - intros k Hk. rewrite <- Hkeys in Hk. pose proof Hk as Hk'.
    apply list_elem_of_fmap in Hk' as ([k' es] & -> & Hin). cbn in *.
    destruct (Hread k' es Hin) as (_ & Hpin & ->). split; [exact Hpin|].
    destruct (image_entries lock _ parsed images k' Hi Hk) as (cs & Hcs & E). eexists _, cs.
    split; [|exact E]. assert (entriesOf parsed k' = rows k') as <-; [|exact Hcs].
    unfold entriesOf. destruct (find_first _ parsed) as [[k2 es2]|] eqn:Ef.
    + apply find_first_Some in Ef as [Hin2 E2]. apply bool_decide_eq_true_1 in E2. cbn in E2. subst k2.
      by destruct (Hread _ _ Hin2) as (_ & _ & ->).
    + rewrite find_first_None in Ef. specialize (Ef _ Hin). cbn in Ef. by rewrite bool_decide_eq_true_2 in Ef.
  - intros [k image] Hin. apply Forall2_flip in Hi. destruct (forall2_in _ _ _ _ Hi Hin) as ([k' es] & Hin' & E).
    unfold flip in E. apply imageOf_spec in E as (-> & cs & Hcs & Een).
    destruct (Hread _ _ Hin') as (Hk & _ & ->). split; [exact Hk|]. cbn. by eexists _, cs.
Qed.

(** One turn of the loop accepts the image exactly when the report has items, each
    listed once and none named like an entry of the contract. *)
Lemma checkImage_generated (lock : Lock) (m : Manifest) (rows : string -> list ParsedEntry)
    (k : string) (slim : list string) (cs : list ManifestEntry) :
  reports_printed lock rows -> k ∈ imageKeys ->
  pinned_report fetchReport sha256 awk lock k (rows k) ->
  Forall2 (fun e c => compatibilityEntry k slim e = inr c) (rows k) cs ->
  imageEntries m k = cs ++ contractEntries k ->
  checkImage fetchReport sha256 awk lock m k = inr tt <->
  rows k <> [] /\ NoDup (parsed_id <$> rows k) /\
  forall e, e ∈ rows k -> parsed_id e ∉ entry_id <$> contractEntries k.
Proof.
  intros Hrows Hk Hpin Hcs Hen.
  destruct (pinned_rows lock rows k _ Hrows Hk Hpin) as (_ & path & contents & output & E1 & E2 & E3 & E4 & Hp).
  unfold checkImage. rewrite E1, E2, E3, E4. cbn [default].
  rewrite (bool_decide_eq_true_2 (sha256 contents = sha256 contents)), andb_false_r by done.
  assert (entry_id <$> cs = parsed_id <$> rows k) as Hids.
  { clear -Hcs. induction Hcs as [|e c l m Hc _ IH]; [done|]. rewrite !fmap_cons, IH.
    by apply compatibilityEntry_spec in Hc as [-> _]. }
  rewrite <- (matches_once (rows k) cs (contractEntries k) Hids).
  pose proof (printed_nonempty _ _ Hp) as Hne.
  destruct (str_truthy output) eqn:Et; cbn [negb].
  2: { split; [done|]. intros [H _]. apply Hne in H. done. }
  rewrite (printed_lines _ _ Hp), Hen.
  rewrite (bool_decide_eq_false_2 (cs ++ contractEntries k = [])) by (by destruct cs).
  assert ((exists r, each (checkItem k (cs ++ contractEntries k)) (map row_line (rows k)) = inr r) <->
    forallb (fun e => Nat.eqb (matches (parsed_id e) (cs ++ contractEntries k)) 1) (rows k) = true) as Hloop.
  { rewrite each_ok, forallb_forall. destruct Hp as [_ Hok]. rewrite Forall_forall in Hok. split.
    - intros H e He%list_elem_of_In. apply Nat.eqb_eq. rewrite <- readLine_row by by apply Hok.
      apply (checkItem_ok k), H. by apply list_elem_of_fmap_2.
    - intros H x (e & -> & He)%list_elem_of_fmap. apply checkItem_ok. rewrite readLine_row by by apply Hok.
      apply Nat.eqb_eq, H. by apply list_elem_of_In. }
  rewrite <- Hloop. destruct (each _ _) as [e|r].
  - split; [done|]. by intros [_ [r ?]].
  - split; [|done]. intros _. split; [by apply Hne|by exists r].
Qed.

(** C10.  The manifest the generator writes passes the compatibility check exactly
    when the lock pins a full commit of actions/runner-images and the reports are ones
    the catalogue can describe: none is empty, no item is listed twice or named like an
    entry of the runner contract, and every item has a command of its own. *)
Theorem generated_manifest_checked (lock : Lock) (m : Manifest) (rows : string -> list ParsedEntry) :
  reports_printed lock rows -> generate fetchReport sha256 awk lock = inr m ->
  check fetchReport sha256 awk lock m = inr tt <->
  lk_repository lock = "actions/runner-images" /\
  String.length (lk_commit lock) = 40%nat /\ sforall hex_digit (lk_commit lock) = true /\
  forall k, k ∈ imageKeys -> report_ok k (rows k).
Proof.
  rewrite (assoc and (String.length _ = _)), <- full_sha_spec. intros Hrows Hm. destruct (generated_images lock m rows Hrows Hm) as (Hc & Hk & Hi).
  unfold check. rewrite Hc, (bool_decide_eq_true_2 (lk_commit lock = _)) by done.
  destruct (decide (lk_repository lock = "actions/runner-images")) as [Er|Er];
    [rewrite bool_decide_eq_true_2 by done|rewrite bool_decide_eq_false_2 by done; naive_solver].
  destruct (full_sha (lk_commit lock)); cbn [negb]; [|naive_solver].
  assert (str_truthy (failing concrete_reason m) = false) as ->.
  { apply failing_none. intros image Him. destruct (Hi image Him) as (Hin & slim & cs & Hcs & ->).
    by apply (entries_described _ slim _ cs Hin Hcs). }
  assert (str_truthy (failing has_verification m) = false <->
    forall k, k ∈ imageKeys -> forall e, e ∈ rows k -> verificationFor k e <> inr None) as Hv.
  { rewrite failing_none. split.
    - intros H k Hin. destruct (Hk k Hin) as (_ & slim & cs & Hcs & Hen).
      apply (entries_described k slim _ cs Hin Hcs). unfold imageEntries in Hen.
      destruct (find_first _ (mf_images m)) as [[k' image]|] eqn:Ef; cbn in Hen; [|by destruct cs].
      apply find_first_Some in Ef as [Him _]. rewrite <- Hen. by apply (H (k', image)).
    - intros H image Him. destruct (Hi image Him) as (Hin & slim & cs & Hcs & ->).
      by apply (entries_described _ slim _ cs Hin Hcs), H. }
  assert ((exists r, each (checkImage fetchReport sha256 awk lock m) imageKeys = inr r) <->
    forall k, k ∈ imageKeys -> rows k <> [] /\ NoDup (parsed_id <$> rows k) /\
      forall e, e ∈ rows k -> parsed_id e ∉ entry_id <$> contractEntries k) as Hloop.
  { rewrite each_ok. split; intros H k Hin; destruct (Hk k Hin) as (Hpin & slim & cs & Hcs & Hen);
      apply (checkImage_generated lock m rows k slim cs Hrows Hin Hpin Hcs Hen), H; exact Hin. }
  transitivity ((exists r, each (checkImage fetchReport sha256 awk lock m) imageKeys = inr r) /\
    str_truthy (failing has_verification m) = false).
  - destruct (each _ imageKeys) as [e|r].
    + split; [done|]. by intros [[r ?] _].
    + destruct (str_truthy (failing has_verification m)).
      * split; [done|]. by intros [_ ?].
      * split; [|done]. intros _. split; [by exists r|done].
  - rewrite Hloop, Hv. unfold report_ok. split.
    + intros [H1 H2]. split; [done|]. split; [done|]. intros k Hin. destruct (H1 k Hin) as (? & ? & ?).
      split_and!; try done. by apply H2.
    + intros (_ & _ & H). split; intros k Hin; destruct (H k Hin) as (? & ? & ? & ?); [by split_and!|done].
Qed.
End generated.

(** ** Examples *)

Definition example_row (line : string) : ParsedEntry := entryOfLine line.

Definition example_reports (extra : list string) (k : string) : list ParsedEntry :=
  map entryOfLine (example_rows extra (example_report k)).

Lemma example_printed : reports_printed example_fetch (example_lines example_full) example_lock
  (example_reports example_full).
Proof.
  intros k path contents output Hk [= <-] [= <-] [= <-]. unfold imageKeys in Hk.
  rewrite !elem_of_cons, elem_of_nil in Hk.
  assert (forall e, forallb (fun w => free (ascii_of_N 9) w && free (ascii_of_N 10) w)
      [pe_category e; pe_upstream_name e; pe_upstream_value e; pe_kind e] &&
    match pe_category e with String a _ => is_graph a | _ => false end &&
    str_truthy (pe_upstream_name e) && str_truthy (pe_kind e) && sforall is_graph (pe_kind e) = true ->
    row_ok e) as Hrow.
  { intros e [[[[H1 H2]%andb_prop H3]%andb_prop H4]%andb_prop H5]%andb_prop. constructor.
    - apply Forall_forall. intros w Hw%list_elem_of_In. rewrite forallb_forall in H1.
      by apply andb_prop, H1.
    - destruct (pe_category e) as [|a w]; [done|]. by exists a, w.
    - by apply str_truthy_true.
    - split; [by apply str_truthy_true|done]. }
  destruct Hk as [->|[->|[->|[->|[]]]]]; split; try (vm_compute; reflexivity);
    repeat constructor; apply Hrow; vm_compute; reflexivity.
Qed.

Lemma generated_manifest_checked_witness :
  check example_fetch id (example_lines example_full) example_lock (example_manifest example_full) =
    inr tt /\
  report_ok "ubuntu-24.04" (example_reports example_full "ubuntu-24.04").
Proof.
  assert (check example_fetch id (example_lines example_full) example_lock
    (example_manifest example_full) = inr tt) as H by (vm_compute; reflexivity).
  split; [exact H|].
  apply (generated_manifest_checked example_fetch id (example_lines example_full) example_lock
    (example_manifest example_full) (example_reports example_full)).
  - exact example_printed.
  - vm_compute. reflexivity.
  - exact H.
  - right. right. left.
Defined.

(** An item without a command stops the generator in every section but one: in
    the Android section the entry is written without a verification, and only
    the checker notices. *)
Example android_item_without_command :
  let android := [tab_line ["Android"; "Emulator"; "36"; "software"]] in
  let tools := [tab_line ["Tools"; "Emulator"; "36"; "software"]] in
  (exists m, generate example_fetch id (example_lines android) example_lock = inr m /\
     exists e, check example_fetch id (example_lines android) example_lock m = inl e) /\
  generate example_fetch id (example_lines tools) example_lock =
    inl "No concrete verification command for Tools / Emulator".
Proof.
  cbv zeta. split; [|vm_compute; reflexivity]. eexists. split; [vm_compute; reflexivity|].
  eexists. vm_compute. reflexivity.
Qed.
