(* ===== verification/JsonParse.v ===== *)
(** [JSON.parse]: a recursive-descent parser for JSON texts, and the round trip
    with [JSON.stringify] of Json.v. *)
From S2P Require Import Prelude.
From S2P Require Import JsString.
From S2P Require Import JsNumber.
From S2P Require Import JsUri.
From S2P Require Import Json.

(** ** Tokens *)

Definition json_space (a : ascii) : bool := Ascii.eqb a " " || in_range 9 10 a || Ascii.eqb a (ascii_of_N 13).

Fixpoint skip_ws (s : string) : string :=
  match s with
  | String a r => if json_space a then skip_ws r else s
  | "" => ""
  end.

Fixpoint span (p : ascii -> bool) (s : string) : string * string :=
  match s with
  | String a r => if p a then let '(w, rest) := span p r in (String a w, rest) else ("", s)
  | "" => ("", "")
  end.

(** ** Strings *)

Definition hex4 (s : string) : option (N * string) :=
  match s with
  | String a (String b (String c (String d r))) =>
      match hex_value a, hex_value b, hex_value c, hex_value d with
      | Some w, Some x, Some y, Some z => Some ((((w * 16 + x) * 16 + y) * 16 + z)%N, r)
      | _, _, _, _ => None
      end
  | _ => None
  end.

(** A code point as UTF-8. *)
Definition utf8_encode (c : N) : string :=
  (if c <? 128 then chr c
   else if c <? 2048 then chr (192 + c / 64) +:+ chr (128 + c mod 64)
   else if c <? 65536
   then utf8_3 (224 + c / 4096) (128 + (c / 64) mod 64) (128 + c mod 64)
   else chr (240 + c / 262144) +:+
        utf8_3 (128 + (c / 4096) mod 64) (128 + (c / 64) mod 64) (128 + c mod 64))%N.

Definition simple_escape (a : ascii) : option string :=
  if Ascii.eqb a (ascii_of_N 34) then Some dquote
  else if Ascii.eqb a (ascii_of_N 92) then Some (chr 92)
  else if Ascii.eqb a "/" then Some "/"
  else if Ascii.eqb a "b" then Some (chr 8)
  else if Ascii.eqb a "f" then Some (chr 12)
  else if Ascii.eqb a "n" then Some newline
  else if Ascii.eqb a "r" then Some (chr 13)
  else if Ascii.eqb a "t" then Some (chr 9)
  else None.

(** An escape after its backslash; a pair of surrogates is one code point. *)
Definition unescape (s : string) : option (string * string) :=
  match s with
  | String "u" r =>
      match hex4 r with
      | None => None
      | Some (hi, r1) =>
          match r1 with
          | String b (String "u" r2) =>
              if Ascii.eqb b (ascii_of_N 92) && (55296 <=? hi)%N && (hi <? 56320)%N then
                match hex4 r2 with
                | Some (lo, r3) =>
                    if (56320 <=? lo)%N && (lo <? 57344)%N
                    then Some (utf8_encode (65536 + (hi - 55296) * 1024 + (lo - 56320))%N, r3)
                    else Some (utf8_encode hi, r1)
                | None => None
                end
              else Some (utf8_encode hi, r1)
          | _ => Some (utf8_encode hi, r1)
          end
      end
  | String a r => (fun t => (t, r)) <$> simple_escape a
  | "" => None
  end.

(** The rest of a string literal after its opening quote. *)
Fixpoint parse_string (fuel : nat) (s : string) : option (string * string) :=
  match fuel with
  | O => None
  | S fuel =>
      match s with
      | "" => None
      | String a r =>
          if Ascii.eqb a (ascii_of_N 34) then Some ("", r)
          else if Ascii.eqb a (ascii_of_N 92) then
            match unescape r with
            | Some (t, r1) =>
                match parse_string fuel r1 with
                | Some (w, r2) => Some (t +:+ w, r2)
                | None => None
                end
            | None => None
            end
          else if (code a <? 32)%N then None
          else match parse_string fuel r with
               | Some (w, r1) => Some (String a w, r1)
               | None => None
               end
      end
  end.

(** ** Numbers *)

Definition leading_zero (digits : string) : bool :=
  match digits with String "0" (String _ _) => true | _ => false end.

Definition parse_fraction (s : string) : option (string * string) :=
  match s with
  | String "." r => let '(ds, r1) := span is_digit r in
      if str_truthy ds then Some ("." +:+ ds, r1) else None
  | _ => Some ("", s)
  end.

Definition parse_exponent (s : string) : option (string * string) :=
  let digits mark r := let '(ds, r1) := span is_digit r in
    if str_truthy ds then Some (mark +:+ ds, r1) else None in
  match s with
  | String a r =>
      if Ascii.eqb a "e" || Ascii.eqb a "E" then
        match r with
        | String "+" r1 => digits (String a "+") r1
        | String "-" r1 => digits (String a "-") r1
        | _ => digits (String a "") r
        end
      else Some ("", s)
  | "" => Some ("", "")
  end.

Definition parse_number (s : string) : option (json * string) :=
  let '(minus, s1) := match s with String "-" r => (true, r) | _ => (false, s) end in
  let '(ds, s2) := span is_digit s1 in
  if negb (str_truthy ds) || leading_zero ds then None
  else
    match parse_fraction s2 with
    | None => None
    | Some (fraction, s3) =>
        match parse_exponent s3 with
        | None => None
        | Some (exponent, s4) =>
            if str_truthy (fraction +:+ exponent)
            then Some (JDec ((if minus then "-" else "") +:+ ds +:+ fraction +:+ exponent), s4)
            else
              let n := digits_value 0 ds in
              Some (JNum (if minus then - n else n)%Z, s4)
        end
    end.

(** ** Values *)

Definition literal (word : string) (v : json) (s : string) : option (json * string) :=
  (fun r => (v, r)) <$> drop_prefix word s.

(** A later field with the same name replaces the value of an earlier one. *)
Fixpoint set_field (k : string) (v : json) (fields : list (string * json)) : list (string * json) :=
  match fields with
  | [] => [(k, v)]
  | (k', w) :: fields =>
      if bool_decide (k = k') then (k', v) :: fields else (k', w) :: set_field k v fields
  end.

Fixpoint parse_value (fuel : nat) (s : string) {struct fuel} : option (json * string) :=
  match fuel with
  | O => None
  | S fuel =>
      match skip_ws s with
      | "" => None
      | String a r =>
          if Ascii.eqb a (ascii_of_N 34) then
            match parse_string (String.length r) r with
            | Some (w, r1) => Some (JStr w, r1)
            | None => None
            end
          else if Ascii.eqb a "[" then
            match skip_ws r with
            | String "]" r1 => Some (JArr [], r1)
            | r1 => match parse_items fuel r1 with
                    | Some (l, r2) => Some (JArr l, r2)
                    | None => None
                    end
            end
          else if Ascii.eqb a "{" then
            match skip_ws r with
            | String "}" r1 => Some (JObj [], r1)
            | r1 => match parse_fields fuel [] r1 with
                    | Some (l, r2) => Some (JObj l, r2)
                    | None => None
                    end
            end
          else if Ascii.eqb a "t" then literal "true" (JBool true) (String a r)
          else if Ascii.eqb a "f" then literal "false" (JBool false) (String a r)
          else if Ascii.eqb a "n" then literal "null" JNull (String a r)
          else parse_number (String a r)
      end
  end
with parse_items (fuel : nat) (s : string) {struct fuel} : option (list json * string) :=
  match fuel with
  | O => None
  | S fuel =>
      match parse_value fuel s with
      | None => None
      | Some (v, r) =>
          match skip_ws r with
          | String "]" r1 => Some ([v], r1)
          | String "," r1 =>
              match parse_items fuel r1 with
              | Some (l, r2) => Some (v :: l, r2)
              | None => None
              end
          | _ => None
          end
      end
  end
with parse_fields (fuel : nat) (before : list (string * json)) (s : string) {struct fuel} :
    option (list (string * json) * string) :=
  match fuel with
  | O => None
  | S fuel =>
      match skip_ws s with
      | String a r =>
          if Ascii.eqb a (ascii_of_N 34) then
            match parse_string (String.length r) r with
            | None => None
            | Some (k, r1) =>
                match skip_ws r1 with
                | String ":" r2 =>
                    match parse_value fuel r2 with
                    | None => None
                    | Some (v, r3) =>
                        match skip_ws r3 with
                        | String "}" r4 => Some (set_field k v before, r4)
                        | String "," r4 => parse_fields fuel (set_field k v before) r4
                        | _ => None
                        end
                    end
                | _ => None
                end
            end
          else None
      | "" => None
      end
  end.

Definition parse (text : string) : option json :=
  match parse_value (S (String.length text)) text with
  | Some (v, r) => if str_truthy (skip_ws r) then None else Some v
  | None => None
  end.

(** * Properties *)

(** ** Tokens *)

Lemma span_app (p : ascii -> bool) (w r : string) :
  sforall p w = true -> match r with String a _ => p a = false | "" => True end ->
  span p (w +:+ r) = (w, r).
Proof.
  intros Hw Hr. induction w as [|a w IH]; simpl.
  - destruct r as [|a r]; [done|]. simpl. by rewrite Hr.
  - simpl in Hw. apply andb_prop in Hw as [-> Hw]. by rewrite IH.
Qed.

Lemma unescape_unit (r r1 : string) (hi : N) :
  hex4 r = Some (hi, r1) -> (hi < 55296)%N ->
  unescape (String "u" r) = Some (utf8_encode hi, r1).
Proof.
  intros E Hi. cbn [unescape]. rewrite E.
  assert ((55296 <=? hi)%N = false) as Hn by (apply N.leb_gt; lia).
  destruct r1 as [|b [|c r2]]; [done| |].
  - done.
  - rewrite Hn, andb_false_r. cbn [andb]. by destruct c as [[] [] [] [] [] [] [] []].
Qed.

(** Every byte is read back from its escape. *)
Lemma parse_string_escape (fuel : nat) (a : ascii) (t : string) :
  parse_string (S fuel) (escape_char a +:+ t) =
  match parse_string fuel t with Some (w, r) => Some (String a w, r) | None => None end.
Proof.
  destruct a as [[] [] [] [] [] [] [] []]; try reflexivity.
  all: match goal with |- context [escape_char ?a] =>
    let e := eval vm_compute in (escape_char a) in change (escape_char a) with e end.
  all: cbn -[unescape utf8_encode]; erewrite unescape_unit by reflexivity.
  all: by destruct (parse_string fuel t) as [[w r]|].
Qed.

Lemma parse_string_quoted (fuel : nat) (s r : string) :
  (String.length s < fuel)%nat ->
  parse_string fuel (escape_string s +:+ dquote +:+ r) = Some (s, r).
Proof.
  revert fuel. induction s as [|a s IH]; intros [|fuel] H; simpl in H; [lia|done|lia|].
  cbn [escape_string]. rewrite sapp_assoc, parse_string_escape, IH by lia. done.
Qed.

Lemma escape_char_length (a : ascii) : (1 <= String.length (escape_char a))%nat.
Proof. all_bytes a; lia. Qed.

Lemma escape_string_length (s : string) :
  (String.length s <= String.length (escape_string s))%nat.
Proof.
  induction s as [|a s IH]; [done|]. cbn [escape_string String.length]. rewrite slength_app.
  pose proof (escape_char_length a). lia.
Qed.

(** ** Numbers *)

Definition number_end (r : string) : Prop :=
  match r with
  | String a _ => is_digit a || Ascii.eqb a "." || Ascii.eqb a "e" || Ascii.eqb a "E" = false
  | "" => True
  end.

Lemma pretty_N_go_head (x : N) (s : string) :
  (0 < x)%N -> exists c r, pretty_N_go x s = String c r /\ c <> "0"%char.
Proof.
  revert s. induction (N.lt_wf_0 x) as [x _ IH]; intros s Hx. rewrite pretty_N_go_step by done.
  destruct (decide (0 < x / 10)%N) as [Hd|Hd].
  - apply IH; [by apply N.div_lt|done].
  - assert (x / 10 = 0)%N as E by (by apply N.le_0_r, N.nlt_ge). rewrite E, pretty_N_go_0. eexists _, _. split; [done|].
    assert (x < 10)%N as H10 by (by apply N.div_small_iff).
    rewrite N.mod_small by done.
    apply (digit_elim (fun n => (0 < n)%N -> pretty_N_char n <> "0"%char) x H10); [|done].
    by repeat constructor.
Qed.

Lemma pretty_no_leading_zero (n : N) : leading_zero (pretty n) = false.
Proof.
  unfold pretty, pretty_N. case_decide as Hn; [done|].
  destruct (pretty_N_go_head n "") as (c & r & -> & Hc); [lia|].
  unfold leading_zero. destruct c as [[] [] [] [] [] [] [] []]; try done.
Qed.

Lemma parse_digits (ds r : string) (minus : bool) :
  sforall is_digit ds = true -> ds <> "" -> leading_zero ds = false -> number_end r ->
  parse_number ((if minus then "-" else "") +:+ ds +:+ r) =
  Some (JNum (if minus then - digits_value 0 ds else digits_value 0 ds), r).
Proof.
  intros Hds Hne Hz Hr.
  assert (match (if minus then "-" else "") +:+ ds +:+ r with
    | String "-" r => (true, r) | _ => (false, (if minus then "-" else "") +:+ ds +:+ r) end =
    (minus, ds +:+ r)) as E.
  { destruct minus; [done|]. destruct ds as [|a ds]; [done|]. simpl in Hds.
    apply andb_prop in Hds as [Ha _]. by destruct a as [[] [] [] [] [] [] [] []]. }
  unfold parse_number. rewrite E. rewrite span_app; [|done|].
  - rewrite (proj2 (str_truthy_true ds)) by done. rewrite Hz. cbn [negb orb].
    assert (parse_fraction r = Some ("", r) /\ parse_exponent r = Some ("", r)) as [-> ->]; [|done].
    destruct r as [|a r]; [done|]. cbn in Hr. rewrite !orb_false_iff in Hr.
    destruct Hr as [[[_ Hp] He] HE]. split.
    + by destruct a as [[] [] [] [] [] [] [] []].
    + cbn. by rewrite He, HE.
  - destruct r as [|a r]; [done|]. cbn in Hr. rewrite !orb_false_iff in Hr. by destruct Hr as [[[? _] _] _].
Qed.

Lemma parse_number_pretty (n : Z) (r : string) :
  number_end r -> parse_number (pretty n +:+ r) = Some (JNum n, r).
Proof.
  intros Hr. destruct n as [|p|p].
  - by apply (parse_digits "0" r false).
  - change (pretty (Z.pos p)) with (pretty (N.pos p)).
    rewrite <- (digits_value_pretty (Z.pos p)) at 1 by lia.
    apply (parse_digits (pretty (N.pos p)) r false);
      [apply pretty_N_digits|apply pretty_N_nonempty|apply pretty_no_leading_zero|done].
  - change (pretty (Z.neg p) +:+ r) with ("-" +:+ pretty (N.pos p) +:+ r).
    change (Z.neg p) with (- Z.pos p)%Z. rewrite <- (digits_value_pretty (Z.pos p)) at 1 by lia.
    apply (parse_digits (pretty (N.pos p)) r true);
      [apply pretty_N_digits|apply pretty_N_nonempty|apply pretty_no_leading_zero|done].
Qed.

(** ** Values *)

Section json_induction.
Context (P : json -> Prop).
Hypothesis Hnull : P JNull.
Hypothesis Hbool : forall b, P (JBool b).
Hypothesis Hnum : forall n, P (JNum n).
Hypothesis Hstr : forall s, P (JStr s).
Hypothesis Harr : forall l, Forall P l -> P (JArr l).
Hypothesis Hobj : forall l, Forall (fun e => P e.2) l -> P (JObj l).
Hypothesis Hdec : forall t, P (JDec t).

Fixpoint json_nested (v : json) : P v :=
  match v with
  | JNull => Hnull
  | JBool b => Hbool b
  | JNum n => Hnum n
  | JStr s => Hstr s
  | JArr l => Harr l ((fix go l : Forall P l :=
      match l with [] => Forall_nil_2 _ | x :: l => Forall_cons_2 _ _ _ (json_nested x) (go l) end) l)
  | JObj l => Hobj l ((fix go l : Forall (fun e => P e.2) l :=
      match l with
      | [] => Forall_nil_2 _
      | x :: l => Forall_cons_2 _ _ _ (json_nested x.2) (go l)
      end) l)
  | JDec t => Hdec t
  end.
End json_induction.

(** A value [JSON.stringify] can have been given: the fields of an object are
    distinct, and numbers are integers. *)
Fixpoint regular (v : json) : bool :=
  match v with
  | JArr l => forallb regular l
  | JObj fields => bool_decide (NoDup fields.*1) && forallb (fun e => regular e.2) fields
  | JDec _ => false
  | _ => true
  end.

(** The fuel the parser needs for a value. *)
Fixpoint need (v : json) : nat :=
  match v with
  | JArr l => S (foldr (fun x n => S (Nat.max (need x) n)) 0%nat l)
  | JObj fields => S (foldr (fun e n => S (Nat.max (need e.2) n)) 0%nat fields)
  | _ => 1%nat
  end.

Definition need_items (l : list json) : nat := foldr (fun x n => S (Nat.max (need x) n)) 0%nat l.
Definition need_fields (l : list (string * json)) : nat :=
  foldr (fun e n => S (Nat.max (need e.2) n)) 0%nat l.

Definition parses (v : json) : Prop :=
  regular v = true -> forall fuel r, (need v <= fuel)%nat -> number_end r ->
  parse_value fuel (stringify v +:+ r) = Some (v, r).

(** A value starts with a character that is neither white space nor a closing
    bracket. *)
Definition starts_value (s : string) : Prop :=
  exists a r, s = String a r /\ json_space a = false /\ a <> "]"%char /\ a <> "}"%char.

Lemma pretty_starts (n : Z) : starts_value (pretty n).
Proof.
  assert (forall s, sforall is_digit s = true -> s <> "" -> starts_value s) as H.
  { intros [|a s] Hs Hne; [done|]. simpl in Hs. apply andb_prop in Hs as [Ha _].
    exists a, s. split; [done|]. clear -Ha. all_bytes a. }
  destruct n as [|p|p].
  - by apply H.
  - apply H; [apply (pretty_N_digits (N.pos p))|apply (pretty_N_nonempty (N.pos p))].
  - by eexists _, _.
Qed.

Lemma stringify_starts (v : json) : regular v = true -> starts_value (stringify v).
Proof.
  destruct v as [|[]|n|s|l|l|t]; intros H; try done; try (by eexists _, _).
  apply pretty_starts.
Qed.

Lemma starts_skip (s r : string) : starts_value s -> skip_ws (s +:+ r) = s +:+ r.
Proof. intros (a & w & -> & Ha & _). simpl. by rewrite Ha. Qed.

Lemma join_more (sep w : string) (ws : list string) :
  ws <> [] -> join sep (w :: ws) = w +:+ sep +:+ join sep ws.
Proof. by destruct ws. Qed.

Lemma skip_graph (a : ascii) (w r : string) :
  json_space a = false -> skip_ws (String a w +:+ r) = String a (w +:+ r).
Proof. intros H. cbn. by rewrite H. Qed.

(** A value followed by the end of a list or by the rest of one. *)
Lemma parse_items_spec (l : list json) (fuel : nat) (r : string) :
  l <> [] -> Forall parses l -> forallb regular l = true -> (need_items l <= fuel)%nat ->
  parse_items fuel (join "," (map stringify l) +:+ String "]" r) = Some (l, r).
Proof.
  intros Hne Hl. revert fuel. induction Hl as [|x l Hx Hl IH]; [done|].
  intros [|fuel] Hr Hf; [cbn in Hf; lia|]. cbn in Hr. apply andb_prop in Hr as [Hrx Hr].
  cbn [need_items foldr] in Hf. fold (need_items l) in Hf.
  rewrite map_cons. cbn [parse_items]. destruct (decide (l = [])) as [->|Hlne].
  - cbn [map join]. rewrite Hx by (done || lia). done.
  - rewrite join_more by (by destruct l). rewrite !sapp_assoc, Hx by (done || lia).
    rewrite skip_graph by done. rewrite IH by (done || lia). done.
Qed.

Lemma set_field_new (k : string) (v : json) (fields : list (string * json)) :
  k ∉ fields.*1 -> set_field k v fields = fields ++ [(k, v)].
Proof.
  induction fields as [|[k' w] fields IH]; [done|]. cbn. intros [Hk Hf]%not_elem_of_cons.
  rewrite bool_decide_eq_false_2 by done. by rewrite IH.
Qed.

Lemma parse_quoted (s r : string) :
  parse_string (String.length (escape_string s +:+ dquote +:+ r)) (escape_string s +:+ dquote +:+ r) =
  Some (s, r).
Proof.
  apply parse_string_quoted. rewrite !slength_app. pose proof (escape_string_length s). simpl. lia.
Qed.

Definition show_field (e : string * json) : string := quote e.1 +:+ ":" +:+ stringify e.2.

Lemma parse_field (fuel : nat) (e : string * json) (before : list (string * json)) (r : string) :
  parses e.2 -> regular e.2 = true -> (need e.2 <= fuel)%nat -> number_end r ->
  e.1 ∉ before.*1 ->
  parse_fields (S fuel) before (show_field e +:+ r) =
  match skip_ws r with
  | String "}" r' => Some (before ++ [e], r')
  | String "," r' => parse_fields fuel (before ++ [e]) r'
  | _ => None
  end.
Proof.
  destruct e as [k v]. cbn [fst snd]. intros Hv Hr Hf Hn Hk. unfold show_field, quote.
  cbn [fst snd]. rewrite !sapp_assoc.
  change (parse_fields (S fuel) before (String (ascii_of_N 34)
    (escape_string k +:+ dquote +:+ ":" +:+ stringify v +:+ r)) =
    match skip_ws r with
    | String "}" r' => Some (before ++ [(k, v)], r')
    | String "," r' => parse_fields fuel (before ++ [(k, v)]) r'
    | _ => None
    end).
  cbn [parse_fields]. rewrite (skip_graph (ascii_of_N 34) "" _ eq_refl : skip_ws (String _ _) = _).
  rewrite Ascii.eqb_refl. change ("" +:+ ?x) with x. rewrite parse_quoted.
  rewrite (skip_graph ":" "") by done. change ("" +:+ ?x) with x.
  rewrite Hv by done. by rewrite set_field_new.
Qed.

Lemma parse_fields_spec (l before : list (string * json)) (fuel : nat) (r : string) :
  l <> [] -> Forall (fun e => parses e.2) l -> forallb (fun e => regular e.2) l = true ->
  NoDup (before ++ l).*1 -> (need_fields l <= fuel)%nat ->
  parse_fields fuel before (join "," (map show_field l) +:+ String "}" r) = Some (before ++ l, r).
Proof.
  intros Hne Hl. revert fuel before. induction Hl as [|x l Hx Hl IH]; [done|].
  intros [|fuel] before Hr Hnd Hf; [cbn in Hf; lia|]. cbn in Hr. apply andb_prop in Hr as [Hrx Hr].
  cbn [need_fields foldr] in Hf. fold (need_fields l) in Hf. rewrite map_cons.
  assert (x.1 ∉ before.*1) as Hnew.
  { rewrite fmap_app, fmap_cons in Hnd. apply NoDup_app in Hnd as (_ & H & _). intros Hin.
    apply (H _ Hin). by left. }
  destruct (decide (l = [])) as [->|Hlne].
  - cbn [map join]. rewrite parse_field by (done || lia). done.
  - rewrite join_more by (by destruct l). rewrite !sapp_assoc, parse_field by (done || lia).
    rewrite skip_graph by done. change ("" +:+ ?x) with x.
    rewrite IH, <- app_assoc; [done|done|done|by rewrite <- app_assoc|lia].
Qed.

Lemma parse_literal (word r : string) (v : json) : literal word v (word +:+ r) = Some (v, r).
Proof. unfold literal. by rewrite drop_prefix_app. Qed.

(** A parser that skips white space and dispatches on the first character. *)
Lemma parses_number (n : Z) : parses (JNum n).
Proof.
  intros _ [|fuel] r Hf Hr; [cbn in Hf; lia|]. cbn [stringify].
  destruct (pretty_starts n) as (a & w & E & Ha & H1 & H2).
  pose proof (parse_number_pretty n r Hr) as Hp. rewrite E in *. cbn [parse_value].
  rewrite skip_graph by done.
  assert (is_digit a || Ascii.eqb a "-" = true) as Hd.
  { clear -E. destruct n as [|p|p].
    - by injection E as <- _.
    - pose proof (pretty_N_digits (N.pos p)) as H. change (pretty (N.pos p)) with (pretty (Z.pos p)) in H.
      rewrite E in H. cbn in H. apply andb_prop in H as [-> _]. done.
    - injection E as <- _. done. }
  change (String a (w +:+ r)) with (String a w +:+ r). rewrite Hp.
  clear -Hd. destruct a as [[] [] [] [] [] [] [] []]; try discriminate Hd; reflexivity.
Qed.

Lemma parses_array (l : list json) : Forall parses l -> parses (JArr l).
Proof.
  intros Hl Hr [|fuel] r Hf Hn; [cbn in Hf; lia|]. cbn in Hr.
  destruct l as [|x l]; [done|].
  assert (regular x = true) as Hx by (cbn in Hr; by apply andb_prop in Hr as [? _]).
  pose proof (parse_items_spec (x :: l) fuel r) as Hp. cbn [need] in Hf. fold (need_items (x :: l)) in Hf.
  specialize (Hp ltac:(done) Hl Hr ltac:(lia)).
  assert (exists t, join "," (map stringify (x :: l)) = stringify x +:+ t) as [t Et].
  { apply join_cons_head. }
  destruct (stringify_starts x Hx) as (a & w & Ea & Ha & Hb & Hc).
  cbn [stringify]. rewrite !sapp_assoc.
  change (parse_value (S fuel) (String "[" (join "," (map stringify (x :: l)) +:+ String "]" r)) =
    Some (JArr (x :: l), r)).
  cbn [parse_value]. rewrite (skip_graph "[" "" _ eq_refl : skip_ws (String _ _) = _).
  change ("" +:+ ?x) with x. change (Ascii.eqb "[" (ascii_of_N 34)) with false. change (Ascii.eqb "[" "[") with true. cbv iota.
  assert (exists w', join "," (map stringify (x :: l)) +:+ String "]" r = String a w') as [w' Ew].
  { rewrite Et, Ea. by eexists. }
  rewrite Ew in *. assert (skip_ws (String a w') = String a w') as -> by (cbn; by rewrite Ha).
  clear -Hp Hb. destruct a as [[] [] [] [] [] [] [] []]; try done; by rewrite Hp.
Qed.

Lemma parses_object (l : list (string * json)) :
  Forall (fun e => parses e.2) l -> parses (JObj l).
Proof.
  intros Hl Hr [|fuel] r Hf Hn; [cbn in Hf; lia|]. cbn in Hr. apply andb_prop in Hr as [Hd Hr].
  apply bool_decide_eq_true in Hd. destruct l as [|x l]; [done|].
  cbn [need] in Hf. fold (need_fields (x :: l)) in Hf.
  pose proof (parse_fields_spec (x :: l) [] fuel r ltac:(done) Hl Hr Hd ltac:(lia)) as Hp.
  assert (map (fun '(k, w) => quote k +:+ ":" +:+ stringify w) (x :: l) = map show_field (x :: l)) as Em.
  { apply map_ext. by intros [k v]. }
  cbn [stringify]. rewrite Em, !sapp_assoc.
  change (parse_value (S fuel) (String "{" (join "," (map show_field (x :: l)) +:+ String "}" r)) =
    Some (JObj (x :: l), r)).
  cbn [parse_value]. rewrite (skip_graph "{" "" _ eq_refl : skip_ws (String _ _) = _).
  change ("" +:+ ?x) with x. change (Ascii.eqb "{" (ascii_of_N 34)) with false.
  change (Ascii.eqb "{" "[") with false. change (Ascii.eqb "{" "{") with true. cbv iota.
  assert (exists w', join "," (map show_field (x :: l)) +:+ String "}" r =
    String (ascii_of_N 34) w') as [w' Ew].
  { destruct (join_cons_head "," (show_field x) (map show_field l)) as [t Et].
    rewrite map_cons, Et. by eexists. }
  rewrite Ew in *.
  change (skip_ws (String (ascii_of_N 34) w')) with (String (ascii_of_N 34) w').
  change (ascii_of_N 34) with (Ascii false true false false false true false false) in Hp |- *.
  cbv iota. by rewrite Hp.
Qed.

Lemma parses_all (v : json) : parses v.
Proof.
  induction v using json_nested.
  - intros _ [|fuel] r Hf _; [cbn in Hf; lia|done].
  - intros _ [|fuel] r Hf _; [cbn in Hf; lia|]. by destruct b.
  - apply parses_number.
  - intros _ [|fuel] r Hf _; [cbn in Hf; lia|]. cbn [stringify]. unfold quote. rewrite !sapp_assoc.
    change (parse_value (S fuel) (String (ascii_of_N 34) (escape_string s +:+ dquote +:+ r)) =
      Some (JStr s, r)).
    cbn [parse_value]. rewrite (skip_graph (ascii_of_N 34) "" _ eq_refl : skip_ws (String _ _) = _).
    rewrite Ascii.eqb_refl. change ("" +:+ ?x) with x. by rewrite parse_quoted.
  - by apply parses_array.
  - by apply parses_object.
  - by intros H.
Qed.

(** ** The fuel is enough *)

Lemma need_join {A} (f : A -> string) (g : A -> nat) (l : list A) :
  Forall (fun x => g x <= String.length (f x))%nat l ->
  (foldr (fun x n => S (Nat.max (g x) n)) 0 l <= S (String.length (join "," (map f l))))%nat.
Proof.
  induction 1 as [|x l Hx _ IH]; [cbn; lia|]. rewrite map_cons. cbn [foldr].
  destruct (decide (l = [])) as [->|Hl]; [cbn; lia|].
  rewrite join_more by (by destruct l). rewrite !slength_app. cbn [String.length]. lia.
Qed.

Lemma need_stringify (v : json) : regular v = true -> (need v <= String.length (stringify v))%nat.
Proof.
  induction v as [|[]|n|s|l IH|l IH|t] using json_nested; intros Hr; try discriminate Hr; try (cbn; lia).
  - destruct (pretty_starts n) as (a & w & E & _). cbn [stringify need]. rewrite E. cbn. lia.
  - cbn in Hr. assert (Forall (fun x => need x <= String.length (stringify x))%nat l) as H.
    { rewrite forallb_forall in Hr. rewrite Forall_forall in IH |- *. intros x Hx.
      apply IH; [done|]. apply Hr. by apply list_elem_of_In. }
    apply need_join in H. cbn [need stringify]. rewrite !slength_app. cbn [String.length]. lia.
  - cbn in Hr. apply andb_prop in Hr as [_ Hr].
    assert (Forall (fun e => need e.2 <= String.length (show_field e))%nat l) as H.
    { rewrite forallb_forall in Hr. rewrite Forall_forall in IH |- *. intros [k w] Hx.
      unfold show_field. rewrite !slength_app. specialize (IH _ Hx). cbn in *.
      rewrite slength_app. specialize (Hr _ (proj1 (list_elem_of_In _ _) Hx)). cbn in Hr.
      specialize (IH Hr). lia. }
    apply need_join in H. cbn [need stringify].
    rewrite (map_ext _ show_field) by (by intros [k w]).
    rewrite !slength_app. cbn [String.length]. lia.
Qed.

(** [JSON.parse] gives back every value [JSON.stringify] wrote. *)
Lemma parse_stringify_value (v : json) : regular v = true -> parse (stringify v) = Some v.
Proof.
  intros Hr. unfold parse. pose proof (need_stringify v Hr) as Hn.
  pose proof (parses_all v Hr (S (String.length (stringify v))) "" ltac:(lia) I) as H.
  rewrite sapp_nil_r in H. by rewrite H.
Qed.

Example parse_stringify_example :
  let v := JObj [("code", JStr "REAUTH_REQUIRED"); ("ids", JArr [JNum (-7); JNum 0; JNull])] in
  regular v = true /\ parse (stringify v) = Some v.
Proof. by vm_compute. Qed.
