(* ===== verification/Requests.v ===== *)
(** The request client of the console, [requestResponse] and [request] of
    src/ui/src/App.tsx, and [UserJobRedirect], which uses it to find the build
    context of a job.

    [fetch] is the browser's: it rejects, or it gives a response. *)
From S2P Require Import Prelude.
From S2P Require Import JsString.
From S2P Require Import JsNumber.
From S2P Require Import JsUri.
From S2P Require Import Json.
From S2P Require Import JsonParse.
From S2P Require Import AdminTypes.
From S2P Require Import Errors.

(** ** Values of unknown shape *)

Definition js_truthy (v : option json) : bool :=
  match v with
  | None | Some JNull => false
  | Some (JBool b) => b
  | Some (JNum n) => negb (n =? 0)%Z
  | Some (JDec t) => negb (bool_decide (integer_of (Number t) = Some 0%Z))
  | Some (JStr s) => str_truthy s
  | Some (JArr _) | Some (JObj _) => true
  end.

(** [String(value)]; a number that is no integer is shown as it was written. *)
Fixpoint js_text (v : json) : string :=
  match v with
  | JNull => "null"
  | JBool b => if b then "true" else "false"
  | JNum n => pretty n
  | JDec t => t
  | JStr s => s
  | JArr l => join "," (map (fun x => match x with JNull => "" | _ => js_text x end) l)
  | JObj _ => "[object Object]"
  end.

(** ** Responses *)

Record Response := {
  rs_status : Z;
  rs_statusText : string;
  rs_contentType : option string;
  rs_body : string;
}.

Definition response_ok (r : Response) : bool := (200 <=? rs_status r)%Z && (rs_status r <=? 299)%Z.

(** ** [requestResponse] *)

Definition sessionOf (v : json) : AuthSession := {|
  authenticated := js_truthy (field "authenticated" v);
  oauth_enabled := js_truthy (field "oauth_enabled" v);
  login := as_string (field "login" v); role := as_string (field "role" v);
  avatar_url := as_string (field "avatar_url" v); expires_at := as_string (field "expires_at" v) |}.

Definition signedOut (current : AuthSession) : AuthSession := {|
  authenticated := false; oauth_enabled := oauth_enabled current; login := None; role := None;
  avatar_url := None; expires_at := None |}.

(** The session check that follows a 401. *)
Definition refreshSession (checked : thrown + Response) (current : AuthSession) : AuthSession :=
  match checked with
  | inl _ => signedOut current
  | inr r =>
      if response_ok r then
        match parse (rs_body r) with Some v => sessionOf v | None => signedOut current end
      else current
  end.

Definition expired : thrown := ThrownError "Session expired or access is not allowed" None.

(** [parsed.code || ""] and [parsed.error || text]; reading a field of [null]
    throws before either is assigned.  A code that is no string is never equal
    to one. *)
Definition errorParts (text : string) : string * option string :=
  match parse text with
  | None | Some JNull => (text, Some "")
  | Some v =>
      (match field "error" v with
       | Some e => if js_truthy (Some e) then js_text e else text
       | None => text
       end,
       match field "code" v with
       | Some c => if js_truthy (Some c) then as_string (Some c) else Some ""
       | None => Some ""
       end)
  end.

Definition failureOf (r : Response) : thrown :=
  let '(message, code) := errorParts (rs_body r) in
  let blank :=
    match parse (rs_body r) with
    | None | Some JNull => negb (str_truthy (rs_body r))
    | Some v => negb (js_truthy (field "error" v)) && negb (str_truthy (rs_body r))
    end in
  ThrownError (if blank then pretty (rs_status r) +:+ " " +:+ rs_statusText r else message) code.

Definition requestResponse (fetched checked : thrown + Response) (current : AuthSession) :
    AuthSession * (thrown + Response) :=
  match fetched with
  | inl e => (current, inl e)
  | inr r =>
      if (rs_status r =? 401)%Z then (refreshSession checked current, inl expired)
      else if negb (response_ok r) then (current, inl (failureOf r))
      else (current, inr r)
  end.

(** The errors of the server, [writeError] and [writeErrorCode] of
    src/internal/server/server_auth_helpers.go. *)
Definition serverError (code : option string) (message : string) : json :=
  JObj (match code with Some c => [("code", JStr c)] | None => [] end ++ [("error", JStr message)]).

(** ** [request] *)

Inductive payload := PayloadJson (v : json) | PayloadText (text : string).

Section request.
(** The error of [response.json()] on a body that is no JSON. *)
Context (syntaxError : string -> thrown).

Definition request (fetched checked : thrown + Response) (current : AuthSession) :
    AuthSession * (thrown + payload) :=
  let '(session, result) := requestResponse fetched checked current in
  (session,
   match result with
   | inl e => inl e
   | inr r =>
       if includes "application/json" (default "" (rs_contentType r)) then
         match parse (rs_body r) with
         | Some v => inr (PayloadJson v)
         | None => inl (syntaxError (rs_body r))
         end
       else inr (PayloadText (rs_body r))
   end).
End request.

(** ** [UserJobRedirect]

    The path of a job without a build context in it: the group is fetched, and
    the page of the group, or the fallback, is shown. *)

(** [isRunnerJobGroupResponse] *)
Definition isRunnerJobGroupResponse (v : payload) : bool :=
  match v with
  | PayloadJson v => is_object v && match field "key" v with Some (JStr _) => true | _ => false end
  | PayloadText _ => false
  end.

(** [group.key] of a response that passed the guard. *)
Definition groupKey (v : payload) : string :=
  if isRunnerJobGroupResponse v then
    match v with PayloadJson w => default "" (as_string (field "key" w)) | PayloadText _ => "" end
  else "".

Record Redirect := {
  jr_id : string;
  jr_failedID : string;
  (** The requests in flight; the cleanup of the effect cancels all but the
      last. *)
  jr_requests : list (string * bool);
  jr_resolved : list (string * string);
}.

Definition groupPath (id : string) : string :=
  "/user/runner_requests/" +:+ encodeURIComponent id +:+ "/group".

Definition cancelAll (requests : list (string * bool)) : list (string * bool) :=
  map (fun q => (q.1, true)) requests.

(** The effect for an id: the one before is cleaned up. *)
Definition redirectEffect (id : string) (s : Redirect) : Redirect := {|
  jr_id := id; jr_failedID := jr_failedID s;
  jr_requests := cancelAll (jr_requests s) ++ [(id, false)]; jr_resolved := jr_resolved s |}.

Definition mountRedirect (id : string) : Redirect := {|
  jr_id := id; jr_failedID := ""; jr_requests := [(id, false)]; jr_resolved := [] |}.

Definition settleRedirect (id : string) (cancelled : bool) (others : list (string * bool))
    (result : thrown + payload) (s : Redirect) : Redirect :=
  let failed := {| jr_id := jr_id s; jr_failedID := id; jr_requests := others;
                   jr_resolved := jr_resolved s |} in
  if cancelled then {| jr_id := jr_id s; jr_failedID := jr_failedID s; jr_requests := others;
                       jr_resolved := jr_resolved s |}
  else match result with
       | inl _ => failed
       | inr group =>
           if str_truthy (groupKey group) then
             {| jr_id := jr_id s; jr_failedID := jr_failedID s; jr_requests := others;
                jr_resolved := jr_resolved s ++ [(id, groupKey group)] |}
           else failed
       end.

(** [failedID === id] *)
Definition showsFallback (s : Redirect) : bool := bool_decide (jr_failedID s = jr_id s).

Section redirect.
(** What the server answers for the group of a job. *)
Context (answers : string -> thrown + payload -> Prop).

Inductive redirect_step : Redirect -> Redirect -> Prop :=
  | rd_effect id s : redirect_step s (redirectEffect id s)
  | rd_settle l id cancelled r result s :
      jr_requests s = l ++ (id, cancelled) :: r -> answers id result ->
      redirect_step s (settleRedirect id cancelled (l ++ r) result s).

Inductive redirect_reachable : Redirect -> Prop :=
  | rd_start id : redirect_reachable (mountRedirect id)
  | rd_next s s' : redirect_reachable s -> redirect_step s s' -> redirect_reachable s'.
End redirect.

(** * Properties *)

(** ** Errors *)

(** What a failed response says, by the shape of its body. *)
Lemma failureOf_text (r : Response) :
  parse (rs_body r) = None ->
  failureOf r = ThrownError (if str_truthy (rs_body r) then rs_body r
    else pretty (rs_status r) +:+ " " +:+ rs_statusText r) (Some "").
Proof.
  intros E. unfold failureOf, errorParts. rewrite E. by destruct (str_truthy (rs_body r)).
Qed.

Lemma failureOf_object (r : Response) (fields : list (string * json)) (m : string) :
  parse (rs_body r) = Some (JObj fields) ->
  field "error" (JObj fields) = Some (JStr m) -> m <> "" ->
  failureOf r = ThrownError m
    (match field "code" (JObj fields) with
     | Some c => if js_truthy (Some c) then as_string (Some c) else Some ""
     | None => Some ""
     end).
Proof.
  intros E Em Hm. unfold failureOf, errorParts. rewrite E, Em. cbn [js_truthy js_text].
  by rewrite (proj2 (str_truthy_true m)).
Qed.

Lemma status_line_nonempty (r : Response) : pretty (rs_status r) +:+ " " +:+ rs_statusText r <> "".
Proof. intros [H _]%sapp_eq_nil. by apply pretty_Z_nonempty in H. Qed.

Lemma failureOf_blank (r : Response) (code : option string) :
  failureOf r = ThrownError "" code ->
  exists v e, parse (rs_body r) = Some v /\ field "error" v = Some e /\ forall s, e <> JStr s.
Proof.
  pose proof (status_line_nonempty r) as Hs. destruct (parse (rs_body r)) as [v|] eqn:E.
  - assert (str_truthy (rs_body r) = true) as Hb.
    { apply str_truthy_true. intros Eb. by rewrite Eb in E. }
    pose proof (proj1 (str_truthy_true _) Hb) as Hne. unfold failureOf, errorParts.
    rewrite E, Hb, andb_false_r. exists v. destruct (field "error" v) as [e|] eqn:Ee.
    + exists e. split_and!; [done..|]. intros s ->. cbn [js_truthy js_text] in *.
      destruct v; try done. destruct (str_truthy s) eqn:Es; [|congruence].
      apply str_truthy_true in Es. congruence.
    + destruct v; cbn in *; congruence.
  - rewrite failureOf_text by done. by destruct (str_truthy (rs_body r)) eqn:Eb;
      [apply str_truthy_true in Eb; congruence|congruence].
Qed.

(** The parts of a failed response with a JSON body. *)
Lemma failureOf_json (r : Response) (v : json) :
  parse (rs_body r) = Some v -> v <> JNull ->
  failureOf r = ThrownError
    (match field "error" v with
     | Some e => if js_truthy (Some e) then js_text e else rs_body r
     | None => rs_body r
     end)
    (match field "code" v with
     | Some c => if js_truthy (Some c) then as_string (Some c) else Some ""
     | None => Some ""
     end).
Proof.
  intros E Hv. assert (str_truthy (rs_body r) = true) as Hb.
  { apply str_truthy_true. intros Eb. by rewrite Eb in E. }
  unfold failureOf, errorParts. rewrite E, Hb, andb_false_r. by destruct v.
Qed.

(** C14.  Every error response reaches the caller as an [Error]: a 401 as an
    expired session, after the session was checked again, and any other with the
    session kept.  An error of the server is told by its message, and has its code, or
    a blank one where the server sent none; a JSON answer without an error is told as
    it is; a body that is no JSON, or no body, is told as it is or as the status line.
    The message is blank only when the server's own error field is no string. *)
Theorem failed_requests_explained (r : Response) (checked : thrown + Response)
    (current : AuthSession) :
  response_ok r = false ->
  if (rs_status r =? 401)%Z
  then requestResponse (inr r) checked current = (refreshSession checked current, inl expired)
  else exists message code,
    requestResponse (inr r) checked current = (current, inl (ThrownError message code)) /\
    (forall c m, parse (rs_body r) = Some (serverError c m) -> m <> "" ->
       message = m /\ code = Some (default "" c)) /\
    (forall v m, parse (rs_body r) = Some v -> field "error" v = Some (JStr m) -> m <> "" ->
       message = m) /\
    (forall v c, parse (rs_body r) = Some v -> field "code" v = Some (JStr c) -> code = Some c) /\
    (forall v, parse (rs_body r) = Some v -> js_truthy (field "error" v) = false ->
       message = rs_body r) /\
    (forall v, parse (rs_body r) = Some v -> js_truthy (field "code" v) = false -> code = Some "") /\
    (parse (rs_body r) = None -> code = Some "" /\
       message = (if str_truthy (rs_body r) then rs_body r
                  else pretty (rs_status r) +:+ " " +:+ rs_statusText r)) /\
    (message = "" -> exists v e, parse (rs_body r) = Some v /\ field "error" v = Some e /\
       forall s, e <> JStr s).
Proof.
  intros Hok. unfold requestResponse. destruct (rs_status r =? 401)%Z; [done|].
  rewrite Hok. cbn [negb]. destruct (failureOf r) as [message code|] eqn:Ef.
  2: { unfold failureOf in Ef. by destruct (errorParts (rs_body r)). }
  exists message, code. split; [done|].
  assert (forall v, parse (rs_body r) = Some v -> v = JNull ->
    message = rs_body r /\ code = Some "") as Hnull.
  { intros v E ->. unfold failureOf, errorParts in Ef. rewrite E in Ef.
    assert (str_truthy (rs_body r) = true) as Hb by (apply str_truthy_true; intros Eb; by rewrite Eb in E).
    rewrite Hb in Ef. cbn in Ef. by injection Ef as <- <-. }
  assert (forall v, parse (rs_body r) = Some v -> v <> JNull -> _) as Hjson
    by (intros v E Hv; rewrite (failureOf_json r v E Hv) in Ef; exact Ef).
  split_and!.
  - intros c m E Hm. specialize (Hjson _ E ltac:(done)). apply str_truthy_true in Hm.
    assert (field "error" (serverError c m) = Some (JStr m) /\
      field "code" (serverError c m) = JStr <$> c) as [E1 E2] by (destruct c; by split).
    rewrite E1, E2 in Hjson. cbn [js_truthy js_text] in Hjson. rewrite Hm in Hjson.
    destruct c as [c|]; cbn in Hjson; [|by injection Hjson as <- <-].
    destruct (str_truthy c) eqn:Et; injection Hjson as <- <-; [done|]. by apply str_truthy_false in Et as ->.
  - intros v m E Em Hm. assert (v <> JNull) as Hv by by intros ->. specialize (Hjson v E Hv).
    rewrite Em in Hjson. cbn [js_truthy js_text] in Hjson. apply str_truthy_true in Hm. rewrite Hm in Hjson.
    by injection Hjson.
  - intros v c E Ec. assert (v <> JNull) as Hv by by intros ->. specialize (Hjson v E Hv).
    rewrite Ec in Hjson. cbn [js_truthy as_string] in Hjson.
    destruct (str_truthy c) eqn:Et; injection Hjson as _ <-; [done|]. by apply str_truthy_false in Et as ->.
  - intros v E Ee. assert (v = JNull \/ v <> JNull) as [Hv|Hv] by (destruct v; auto); [by destruct (Hnull v E Hv)|].
    specialize (Hjson v E Hv). destruct (field "error" v) as [e|]; [rewrite Ee in Hjson|]; by injection Hjson.
  - intros v E Ee. assert (v = JNull \/ v <> JNull) as [Hv|Hv] by (destruct v; auto); [by destruct (Hnull v E Hv)|].
    specialize (Hjson v E Hv). destruct (field "code" v) as [e|]; [rewrite Ee in Hjson|]; by injection Hjson.
  - intros E. rewrite failureOf_text in Ef by done. by injection Ef as <- <-.
  - intros ->. by eapply failureOf_blank.
Qed.

(** The demand to sign in again is recognised exactly when the server's code
    says so. *)
Corollary reauthentication_recognised (r : Response) (checked : thrown + Response)
    (current : AuthSession) (fields : list (string * json)) (m c : string) :
  response_ok r = false -> rs_status r <> 401%Z -> rs_body r = stringify (JObj fields) ->
  regular (JObj fields) = true -> field "error" (JObj fields) = Some (JStr m) -> m <> "" ->
  field "code" (JObj fields) = Some (JStr c) ->
  exists e, (requestResponse (inr r) checked current).2 = inl e /\
    (requiresGitHubReauthentication e = true <-> c = "REAUTH_REQUIRED").
Proof.
  intros Hok Hs Eb Hr Em Hm Ec. unfold requestResponse.
  rewrite (proj2 (Z.eqb_neq _ _) Hs), Hok. cbn [negb snd]. eexists. split; [done|].
  rewrite (failureOf_object r fields m); [|by rewrite Eb; apply parse_stringify_value|done|done].
  rewrite Ec. cbn [js_truthy as_string requiresGitHubReauthentication].
  rewrite bool_decide_eq_true. destruct (str_truthy c) eqn:Et; [split; congruence|].
  apply str_truthy_false in Et as ->. done.
Qed.

Lemma failed_requests_explained_witness :
  let r code := {| rs_status := 403; rs_statusText := "Forbidden";
    rs_contentType := Some "application/json";
    rs_body := stringify (serverError code "sign in again") |} in
  let s := sessionOf JNull in
  requestResponse (inr (r None)) (inl ThrownOther) s =
    (s, inl (ThrownError "sign in again" (Some ""))) /\
  requestResponse (inr (r (Some "REAUTH_REQUIRED"))) (inl ThrownOther) s =
    (s, inl (ThrownError "sign in again" (Some "REAUTH_REQUIRED"))).
Proof.
  cbv zeta. split.
  - destruct (failed_requests_explained {| rs_status := 403; rs_statusText := "Forbidden";
      rs_contentType := Some "application/json";
      rs_body := stringify (serverError None "sign in again") |}
      (inl ThrownOther) (sessionOf JNull) eq_refl) as (message & code & E & H & _).
    destruct (H None "sign in again") as [-> ->]; [vm_compute; reflexivity|discriminate|exact E].
  - destruct (failed_requests_explained {| rs_status := 403; rs_statusText := "Forbidden";
      rs_contentType := Some "application/json";
      rs_body := stringify (serverError (Some "REAUTH_REQUIRED") "sign in again") |}
      (inl ThrownOther) (sessionOf JNull) eq_refl) as (message & code & E & H & _).
    destruct (H (Some "REAUTH_REQUIRED") "sign in again") as [-> ->];
      [vm_compute; reflexivity|discriminate|exact E].
Defined.

(** ** The redirect of a job path *)

Section redirect_properties.
Context (answers : string -> thrown + payload -> Prop).

Definition no_group (result : thrown + payload) : Prop :=
  match result with inl _ => True | inr group => groupKey group = "" end.

Record wf_redirect (s : Redirect) : Prop := {
  wr_live : Forall (fun q => q.2 = false -> q.1 = jr_id s) (jr_requests s);
  wr_failed : jr_failedID s = "" \/ exists result, answers (jr_failedID s) result /\ no_group result;
  wr_resolved : Forall (fun p => exists group, answers p.1 (inr group) /\ groupKey group = p.2 /\
    p.2 <> "") (jr_resolved s);
  wr_shown : (jr_id s, false) ∈ jr_requests s \/ jr_failedID s = jr_id s \/
    jr_id s ∈ (jr_resolved s).*1;
}.

Lemma wf_redirect_step (s s' : Redirect) :
  wf_redirect s -> redirect_step answers s s' -> wf_redirect s'.
Proof.
  intros [Hl Hf Hr Hs] Hstep. destruct Hstep as [i s|l i cancelled r result s E Ha].
  - constructor; cbn; [|done|done|left; apply elem_of_app; right; by left].
    apply Forall_app. split; [|by constructor]. unfold cancelAll. apply Forall_fmap, Forall_true. done.
  - rewrite E in Hl, Hs. apply Forall_app in Hl as [Hl1 Hl2]. inversion Hl2 as [|? ? Hi Hl3]; subst.
    assert (Forall (fun q => q.2 = false -> q.1 = jr_id s) (l ++ r)) as Hrest by (by apply Forall_app).
    assert ((jr_id s, false) ∈ l ++ r \/ jr_failedID s = jr_id s \/ jr_id s ∈ (jr_resolved s).*1 \/
      (i = jr_id s /\ cancelled = false)) as Hs'.
    { destruct Hs as [Hs|[Hs|Hs]]; [|tauto..].
      rewrite elem_of_app, elem_of_cons in Hs. rewrite elem_of_app.
      destruct Hs as [Hs|[[= <- <-]|Hs]]; tauto. }
    unfold settleRedirect. destruct cancelled.
    + constructor; cbn; [done..|]. naive_solver.
    + specialize (Hi eq_refl). cbn in Hi. subst i. destruct result as [e|group].
      * constructor; cbn; [done| |done|by right; left]. right. by exists (inl e).
      * destruct (str_truthy (groupKey group)) eqn:Ek.
        -- apply str_truthy_true in Ek. constructor; cbn; [done|done| |].
           ++ apply Forall_app. split; [done|]. constructor; [|done]. by exists group.
           ++ right. right. rewrite fmap_app. apply elem_of_app. right. by left.
        -- apply str_truthy_false in Ek. constructor; cbn; [done| |done|by right; left].
           right. by exists (inr group).
Qed.

(** C20.  However the ids and the answers follow each other: the page goes on to a
    build context only when the server named it for that job; the fallback is
    shown for a job only when the server named none; and once no request for
    the job is in flight, one of the two has happened. *)
Theorem redirect_follows_answers (s : Redirect) :
  redirect_reachable answers s ->
  Forall (fun p => exists group, answers p.1 (inr group) /\ groupKey group = p.2 /\ p.2 <> "")
    (jr_resolved s) /\
  (showsFallback s = true -> jr_id s <> "" ->
   exists result, answers (jr_id s) result /\ no_group result) /\
  ((jr_id s, false) ∉ jr_requests s -> showsFallback s = true \/ jr_id s ∈ (jr_resolved s).*1).
Proof.
  intros Hs. assert (wf_redirect s) as [Hl Hf Hr Hsh].
  { induction Hs as [i|s s' _ IH Hstep]; [|by eapply wf_redirect_step].
    constructor; cbn; [by repeat constructor|by left|done|left; by left]. }
  unfold showsFallback. rewrite bool_decide_eq_true. split_and!; [done| |].
  - intros E Hne. rewrite <- E. destruct Hf as [Hf|Hf]; [congruence|done].
  - intros Hn. by destruct Hsh as [?|?].
Qed.
End redirect_properties.

Definition example_group_answers (i : string) (result : thrown + payload) : Prop :=
  result = if bool_decide (i = "job-1")
           then inr (PayloadJson (JObj [("key", JStr "pr:o/r:7")])) else inl ThrownOther.

Lemma redirect_follows_answers_witness :
  let s := settleRedirect "job-2" false [("job-1", true)] (inl ThrownOther)
    (redirectEffect "job-2" (mountRedirect "job-1")) in
  jr_requests s = [("job-1", true)] /\
  (showsFallback s = true \/ jr_id s ∈ (jr_resolved s).*1).
Proof.
  cbv zeta. split; [reflexivity|].
  destruct (redirect_follows_answers example_group_answers
    (settleRedirect "job-2" false [("job-1", true)] (inl ThrownOther)
      (redirectEffect "job-2" (mountRedirect "job-1")))) as (_ & _ & H).
  - eapply rd_next; [eapply rd_next; [apply rd_start|apply rd_effect]|].
    apply (rd_settle example_group_answers [("job-1", true)] "job-2" false []); done.
  - apply H. cbn. intros Hin. apply elem_of_cons in Hin as [Hin|Hin]; [done|].
    by apply not_elem_of_nil in Hin.
Defined.
