(* ===== verification/Onboarding.v ===== *)
(** Preferences and the product tour: src/ui/src/user-onboarding.ts, the tour of
    src/ui/src/components/user-onboarding-tour.tsx, and the saves and the
    completion effect of src/ui/src/App.tsx, together with the loads of
    UserLoad.v, with which they share the preferences and the tour state. *)
From S2P Require Import Prelude.
From S2P Require Import JsString.
From S2P Require Import UrlPath.
From S2P Require Import JsUri.
From S2P Require Import JsArray.
From S2P Require Import AdminTypes.
From S2P Require Import Errors.
From S2P Require Import LoadPolicy.
From S2P Require Import AppRoutes.
From S2P Require Import Readiness.
From S2P Require Import UserLoad.

(** ** user-onboarding.ts *)

Definition productTourVersion : Z := 1.

Record ProductTourStep := { ts_id : string; ts_route : string; ts_target : string }.

Definition productTourSteps : list ProductTourStep := [
  {| ts_id := "welcome"; ts_route := "/jobs"; ts_target := "product-shell" |};
  {| ts_id := "jobs"; ts_route := "/jobs"; ts_target := "jobs-nav" |};
  {| ts_id := "repositories"; ts_route := "/jobs"; ts_target := "repositories-nav" |};
  {| ts_id := "account-menu"; ts_route := "/jobs"; ts_target := "account-menu" |};
  {| ts_id := "settings"; ts_route := "/repositories"; ts_target := "repository-readiness" |};
  {| ts_id := "sandbox-service"; ts_route := "/repositories"; ts_target := "sandbox-service" |}
].

Definition is_pending (o : ProductTourOnboarding) : bool :=
  bool_decide (tour_status o = TourPending).

Definition shouldStartProductTour (path : string) (onboarding : option ProductTourOnboarding)
    (replayRequested : bool) : bool :=
  match onboarding with
  | Some o => bool_decide (path = "/jobs") && (replayRequested || (is_pending o && negb (tour_seen o)))
  | None => false
  end.

Definition sandboxSetupCompletesProductTour (preferences : option UserPreferences) : bool :=
  match preferences with
  | Some p => negb (bool_decide (resolved_source (sandbox p) = SrcNone))
  | None => false
  end.

Inductive TourEnd := TourFinished | TourEndSkipped.

Definition productTourStateAfterEnd (onboarding : option ProductTourOnboarding) (replay : bool)
    (status : TourEnd) : option ProductTourOnboarding :=
  match onboarding with
  | Some o =>
      if replay || negb (is_pending o) then None
      else Some {| tour_version := productTourVersion;
                   tour_status := match status with
                                  | TourEndSkipped => TourSkipped
                                  | TourFinished => TourPending
                                  end;
                   tour_seen := true |}
  | None => None
  end.

Definition shouldShowSandboxSetupTask (onboarding : option ProductTourOnboarding) : bool :=
  match onboarding with
  | Some o => negb (bool_decide (tour_status o = TourCompleted))
  | None => false
  end.

Definition shouldCompleteProductTour (onboarding : option ProductTourOnboarding)
    (preferences : option UserPreferences) : bool :=
  shouldShowSandboxSetupTask onboarding && sandboxSetupCompletesProductTour preferences.

(** What the server stores: [isSavedProductTourOnboardingState] and the version
    check of src/internal/server/server_user_onboarding.go. *)
Definition isSavedProductTourOnboardingState (o : ProductTourOnboarding) : bool :=
  (tour_version o =? productTourVersion)%Z && (negb (is_pending o) || tour_seen o).

(** ** The inputs of the completion effect *)

Record Place := { pl_path : string; pl_login : option string }.

#[export] Instance CachePreferences_eq_dec : EqDecision CachePreferences.
Proof. solve_decision. Defined.
#[export] Instance SandboxPreferences_eq_dec : EqDecision SandboxPreferences.
Proof. solve_decision. Defined.
#[export] Instance UserPreferences_eq_dec : EqDecision UserPreferences.
Proof. solve_decision. Defined.
#[export] Instance ProductTourOnboarding_eq_dec : EqDecision ProductTourOnboarding.
Proof. solve_decision. Defined.
#[export] Instance AccountSettingsTab_eq_dec : EqDecision AccountSettingsTab.
Proof. solve_decision. Defined.

Record Inputs := {
  in_settingsLogin : option string;
  in_settingsTab : option AccountSettingsTab;
  in_login : option string;
  in_onboarding : option ProductTourOnboarding;
  in_repositoryLogin : option string;
  in_repositoryScope : string;
  in_preferences : option UserPreferences;
  in_scope : string;
}.

#[export] Instance Inputs_eq_dec : EqDecision Inputs.
Proof. solve_decision. Defined.

Definition inputsOf (d : UserData) (at_ : Place) : Inputs :=
  let route := parseAccountSettingsRoute (pl_path at_) (pl_login at_) in
  let repositoryLogin := repositoryAccountLogin (pl_path at_) (pl_login at_) in
  {| in_settingsLogin := route ≫= route_accountLogin;
     in_settingsTab := route_tab <$> route;
     in_login := pl_login at_;
     in_onboarding := ud_onboarding d;
     in_repositoryLogin := repositoryLogin;
     in_repositoryScope :=
       repositoryPreferenceScope
         (selectRepositoryInstallation (default [] (installations <$> ud_githubApp d))
            repositoryLogin (pl_login at_)) (pl_login at_);
     in_preferences := ud_preferences d;
     in_scope := ud_preferencesScope d |}.

Definition completes (i : Inputs) : bool :=
  let showsRepositoryReadiness :=
    opt_truthy (in_repositoryLogin i) && bool_decide (in_scope i = in_repositoryScope i) in
  let showsCurrentAccountSettings :=
    bool_decide (in_settingsTab i = Some TabPreferences) &&
    bool_decide (in_settingsLogin i = in_login i) && bool_decide (in_scope i = "account") in
  (showsRepositoryReadiness || showsCurrentAccountSettings) &&
  shouldCompleteProductTour (in_onboarding i) (in_preferences i).

Definition completedState : ProductTourOnboarding :=
  {| tour_version := productTourVersion; tour_status := TourCompleted; tour_seen := true |}.

(** ** State *)

(** A journey is one mount of the dashboard. *)

(** The four saves of the settings page. *)
Inductive PreferenceSave := SaveSandbox | SaveCache | DeleteCache | DeleteSandboxKey.

Definition saveBase (s : PreferenceSave) : string :=
  match s with
  | SaveSandbox => "/user/preferences/sandbox"
  | SaveCache | DeleteCache => "/user/preferences/cache"
  | DeleteSandboxKey => "/user/preferences/sandbox-api-key"
  end.

Record Journey := {
  jo_user : UserState;
  jo_place : Place;
  jo_saves : list (PreferenceSave * option Z);
  (** The tour states that are being saved, and all that were sent. *)
  jo_puts : list ProductTourOnboarding;
  jo_sent : list ProductTourOnboarding;
  (** The last save of a completed tour failed. *)
  jo_failed : bool;
  jo_replays : nat;
  jo_started : bool;
  jo_running : bool;
  jo_starts : list bool;
}.

Definition with_user (user : UserState) (at_ : Place) (s : Journey) : Journey := {|
  jo_user := user; jo_place := at_; jo_saves := jo_saves s; jo_puts := jo_puts s;
  jo_sent := jo_sent s; jo_failed := jo_failed s; jo_replays := jo_replays s;
  jo_started := jo_started s; jo_running := jo_running s; jo_starts := jo_starts s |}.

Definition with_saves (saves : list (PreferenceSave * option Z)) (s : Journey) : Journey := {|
  jo_user := jo_user s; jo_place := jo_place s; jo_saves := saves; jo_puts := jo_puts s;
  jo_sent := jo_sent s; jo_failed := jo_failed s; jo_replays := jo_replays s;
  jo_started := jo_started s; jo_running := jo_running s; jo_starts := jo_starts s |}.

Definition with_puts (puts sent : list ProductTourOnboarding) (failed : bool) (s : Journey) :
    Journey := {|
  jo_user := jo_user s; jo_place := jo_place s; jo_saves := jo_saves s; jo_puts := puts;
  jo_sent := sent; jo_failed := failed; jo_replays := jo_replays s;
  jo_started := jo_started s; jo_running := jo_running s; jo_starts := jo_starts s |}.

Definition with_tour (replays : nat) (started running : bool) (starts : list bool) (s : Journey) :
    Journey := {|
  jo_user := jo_user s; jo_place := jo_place s; jo_saves := jo_saves s; jo_puts := jo_puts s;
  jo_sent := jo_sent s; jo_failed := jo_failed s; jo_replays := replays;
  jo_started := started; jo_running := running; jo_starts := starts |}.

Definition dataOf (s : Journey) : UserData := us_data (jo_user s).
Definition inputs (s : Journey) : Inputs := inputsOf (dataOf s) (jo_place s).

(** ** The completion effect *)

(** [saveProductTourOnboarding] *)
Definition saveProductTourOnboarding (o : ProductTourOnboarding) (failed : bool) (s : Journey) :
    Journey := with_puts (jo_puts s ++ [o]) (jo_sent s ++ [o]) failed s.

Definition completionEffect (s : Journey) : Journey :=
  if completes (inputs s) then saveProductTourOnboarding completedState false s else s.

(** After a render the effect runs when one of its inputs changed. *)
Definition rerender (before after : Journey) : Journey :=
  if bool_decide (inputs before = inputs after) then after else completionEffect after.

(** ** Operations *)

Definition userOperation (user : UserState) (s : Journey) : Journey :=
  rerender s (with_user user (jo_place s) s).

Definition navigate (at_ : Place) (s : Journey) : Journey :=
  rerender s (with_user (jo_user s) at_ s).

Definition set_preferences (p : UserPreferences) (scope : string) (d : UserData) : UserData := {|
  ud_githubApp := ud_githubApp d; ud_runners := ud_runners d; ud_runnerTotal := ud_runnerTotal d;
  ud_selectedKey := ud_selectedKey d; ud_onboarding := ud_onboarding d;
  ud_preferences := Some p; ud_preferencesScope := scope |}.

Definition set_onboarding (o : ProductTourOnboarding) (d : UserData) : UserData := {|
  ud_githubApp := ud_githubApp d; ud_runners := ud_runners d; ud_runnerTotal := ud_runnerTotal d;
  ud_selectedKey := ud_selectedKey d; ud_onboarding := Some o;
  ud_preferences := ud_preferences d; ud_preferencesScope := ud_preferencesScope d |}.

(** [saveSandboxConfig], [saveCacheConfig], [deleteCacheConfig] and
    [deleteSandboxAPIKey]: the URL, and what a response does. *)
Definition saveURL (save : PreferenceSave) (installationID : option Z) : string :=
  userPreferencesPath installationID (saveBase save).

Definition startPreferenceSave (save : PreferenceSave) (installationID : option Z) (s : Journey) :
    Journey := with_saves (jo_saves s ++ [(save, installationID)]) s.

(** The fresh object replaces the preferences, so the effect runs. *)
Definition settlePreferenceSave (installationID : option Z)
    (others : list (PreferenceSave * option Z)) (result : thrown + UserPreferences) (s : Journey) :
    Journey :=
  let s := with_saves others s in
  match result with
  | inr p =>
      completionEffect (with_user
        (set_data (set_preferences p (scopeOf installationID) (dataOf s)) (jo_user s))
        (jo_place s) s)
  | inl _ => s
  end.

(** A saved tour state is what the server answers; the fresh object makes the
    effect run. *)
Definition settleTourSave (sent : ProductTourOnboarding) (others : list ProductTourOnboarding)
    (result : thrown + ProductTourOnboarding) (s : Journey) : Journey :=
  match result with
  | inr saved =>
      let s := with_puts others (jo_sent s) (jo_failed s) s in
      completionEffect (with_user (set_data (set_onboarding saved (dataOf s)) (jo_user s))
        (jo_place s) s)
  | inl _ =>
      with_puts others (jo_sent s)
        (jo_failed s || bool_decide (tour_status sent = TourCompleted)) s
  end.

(** ** The tour *)

Definition replay (s : Journey) : bool := (0 <? jo_replays s)%nat.

(** The effect that starts the tour. *)
Definition startTour (s : Journey) : Journey :=
  if negb (shouldStartProductTour (pl_path (jo_place s)) (ud_onboarding (dataOf s)) (replay s)) ||
     jo_started s
  then s else with_tour (jo_replays s) true true (jo_starts s ++ [replay s]) s.

(** [TOUR_END] *)
Definition endTour (status : TourEnd) (s : Journey) : Journey :=
  let s := with_tour (jo_replays s) (jo_started s) false (jo_starts s) s in
  match productTourStateAfterEnd (ud_onboarding (dataOf s)) (replay s) status with
  | Some next => saveProductTourOnboarding next (jo_failed s) s
  | None => s
  end.

(** A replay is requested: the tour is mounted anew. *)
Definition onReplayProductTour (s : Journey) : Journey :=
  with_tour (S (jo_replays s)) false false (jo_starts s) s.

(** ** What the pages show *)

Definition settingsInstallation (localeCompare : string -> string -> Z) (route : AccountSettingsRoute)
    (s : Journey) : option Z :=
  settingsPreferenceInstallationID
    (orderInstallationsByCurrentAccount localeCompare
       (default [] (installations <$> ud_githubApp (dataOf s))) (pl_login (jo_place s)))
    (route_accountLogin route) (pl_login (jo_place s)).

Definition settingsPreferences (localeCompare : string -> string -> Z) (route : AccountSettingsRoute)
    (s : Journey) : option UserPreferences :=
  if bool_decide (ud_preferencesScope (dataOf s) = scopeOf (settingsInstallation localeCompare route s))
  then ud_preferences (dataOf s) else None.

(** ** Steps *)

(** The installation a preferences URL names. *)
Definition installationParam (url : string) : option string :=
  params_get "installation_id" (parse_params (location_search url)).

Section steps.
(** Whose preferences the server answers with: those of the installation the
    URL names, or of the account. *)
Context (belongs : option string -> UserPreferences -> Prop).

(** A step of the loads of UserLoad.v; the preferences a load receives belong
    to the installation it asked for. *)
Definition answered (st st' : UserState) : Prop :=
  match ud_preferences (us_data st') with
  | None => True
  | Some p =>
      (ud_preferences (us_data st) = Some p /\
       ud_preferencesScope (us_data st') = ud_preferencesScope (us_data st)) \/
      exists l app page onboarding i rest,
        st' = settle_preferences l app page onboarding i rest (inr p) st /\
        belongs (installationParam (userPreferencesPath i "/user/preferences")) p
  end.

Inductive journey_step : Journey -> Journey -> Prop :=
  | jn_user label s user :
      user_step label (jo_user s) user -> answered (jo_user s) user ->
      journey_step s (userOperation user s)
  | jn_navigate at_ s : journey_step s (navigate at_ s)
  | jn_save save i s : journey_step s (startPreferenceSave save i s)
  | jn_saved l save i r result s :
      jo_saves s = l ++ (save, i) :: r ->
      (forall p, result = inr p -> belongs (installationParam (saveURL save i)) p) ->
      journey_step s (settlePreferenceSave i (l ++ r) result s)
  | jn_put l sent r result s :
      jo_puts s = l ++ sent :: r -> journey_step s (settleTourSave sent (l ++ r) result s)
  | jn_effect s : journey_step s (completionEffect s)
  | jn_tour s : journey_step s (startTour s)
  | jn_end status s : jo_running s = true -> journey_step s (endTour status s)
  | jn_replay s : journey_step s (onReplayProductTour s).

Definition mountJourney (key : string) (at_ : Place) : Journey := {|
  jo_user := initial_user key; jo_place := at_; jo_saves := []; jo_puts := []; jo_sent := [];
  jo_failed := false; jo_replays := 0; jo_started := false; jo_running := false; jo_starts := [] |}.

Inductive journey_reachable : Journey -> Prop :=
  | jn_start key at_ : journey_reachable (mountJourney key at_)
  | jn_next s s' : journey_reachable s -> journey_step s s' -> journey_reachable s'.

(** * Properties *)

(** ** Whose preferences are shown *)

Lemma rerender_data (s s' : Journey) : dataOf (rerender s s') = dataOf s'.
Proof.
  unfold rerender, completionEffect. destruct (bool_decide _); [done|].
  by destruct (completes (inputs s')).
Qed.

Lemma effect_data (s : Journey) : dataOf (completionEffect s) = dataOf s.
Proof. unfold completionEffect. by destruct (completes (inputs s)). Qed.
End steps.

(** The installation of a scope. *)
Definition owner (installationID : option Z) : option string :=
  if num_truthy installationID then pretty <$> installationID else None.

Definition plain_digit (a : ascii) : bool := is_digit a || Ascii.eqb a "-".

Lemma pretty_plain (n : Z) : sforall plain_digit (pretty n) = true.
Proof.
  assert (forall m : N, sforall plain_digit (pretty m) = true) as H.
  { intros m. eapply sforall_impl; [|apply pretty_N_digits]. intros a. all_bytes a. }
  destruct n as [|p|p]; [done|apply (H (N.pos p))|]. apply (H (N.pos p)).
Qed.

Lemma encode_plain (s : string) : sforall plain_digit s = true ->
  encodeURIComponent s = s /\ form_encode s = s.
Proof.
  induction s as [|a s IH]; [done|]. cbn [sforall]. intros [Ha Hs]%andb_prop.
  destruct (IH Hs) as [E1 E2]. cbn [encodeURIComponent form_encode]. rewrite E1, E2.
  clear -Ha. split; f_equal; revert Ha; all_bytes a.
Qed.

Lemma location_search_query (path query : string) :
  free "?" path = true -> query <> "" -> location_search (path +:+ String "?" query) = String "?" query.
Proof.
  intros Hp Hq. unfold location_search. rewrite cut_first by done.
  by rewrite (proj2 (str_truthy_true query)).
Qed.

Lemma installationParam_path (i : option Z) (base : string) :
  free "?" base = true -> installationParam (userPreferencesPath i base) = owner i.
Proof.
  intros Hb. assert (location_search base = "") as Hn.
  { unfold location_search. destruct (cut "?" base) as [[l r]|] eqn:E; [|done].
    apply cut_Some in E as ->. by rewrite !free_app, andb_comm in Hb. }
  unfold userPreferencesPath, owner, installationParam. destruct i as [n|]; [|by rewrite Hn].
  cbn [num_truthy]. destruct (n =? 0)%Z; [by rewrite Hn|]. cbn [negb fmap option_fmap option_map].
  destruct (encode_plain (pretty n) (pretty_plain n)) as [E1 E2]. rewrite E1.
  change ("?installation_id=" +:+ pretty n) with (String "?" ("installation_id=" +:+ pretty n)).
  rewrite location_search_query; [|exact Hb|discriminate]. rewrite <- E2.
  change (String "?" ("installation_id=" +:+ form_encode (pretty n))) with
    ("?" +:+ show_params [("installation_id", pretty n)]).
  rewrite parse_search_params; [by rewrite E2|]. constructor; [|done]. split; [by apply utf8_ascii|].
  apply utf8_ascii. eapply sforall_impl; [|apply pretty_plain]. intros a. all_bytes a.
Qed.

Lemma scopeOf_owner (i j : option Z) : scopeOf i = scopeOf j -> owner i = owner j.
Proof.
  unfold scopeOf, owner, scope_of_id. destruct i as [i|], j as [j|]; cbn [num_truthy default];
    try destruct (i =? 0)%Z; try destruct (j =? 0)%Z; cbn; try done.
  intros E. injection E as E. by rewrite E.
Qed.

Section journey.
Context (belongs : option string -> UserPreferences -> Prop).

(** The preferences on record are those of the scope on record. *)
Definition owned (d : UserData) : Prop :=
  match ud_preferences d with
  | Some p => exists i, ud_preferencesScope d = scopeOf i /\ belongs (owner i) p
  | None => True
  end.

Lemma scopeOf_nonempty (i : option Z) : str_truthy (scopeOf i) = true.
Proof. unfold scopeOf. by destruct (num_truthy i). Qed.

Lemma settle_preferences_owned (l : Load) (app : GitHubAppConfig) (page : option UserRunnerPage)
    (onboarding : option ProductTourOnboarding) (i : option Z) (rest : list Load)
    (p : UserPreferences) (st : UserState) :
  owned (us_data st) -> belongs (owner i) p ->
  owned (us_data (settle_preferences l app page onboarding i rest (inr p) st)).
Proof.
  intros H Hp. unfold settle_preferences, finish_load. destruct (is_current _ _); [|exact H].
  cbn. rewrite scopeOf_nonempty. by exists i.
Qed.

Lemma owned_step (s s' : Journey) :
  owned (dataOf s) -> journey_step belongs s s' -> owned (dataOf s').
Proof.
  intros H Hstep. destruct Hstep as [label s user Hu Ha|at_ s|save i s|l save i r result s E Hb|
    l sent r result s E|s|s|status s Hr|s]; try exact H.
  - unfold userOperation. rewrite rerender_data. change (owned (us_data user)).
    unfold answered in Ha. unfold owned.
    destruct (ud_preferences (us_data user)) as [p|] eqn:Ep; [|done].
    destruct Ha as [[E1 E2]|(l & app & page & o & i & rest & -> & Hp)].
    + unfold owned, dataOf in H. rewrite E1 in H. by rewrite E2.
    + pose proof (settle_preferences_owned l app page o i rest p (jo_user s) H) as Ho.
      rewrite installationParam_path in Hp by done. specialize (Ho Hp).
      unfold owned in Ho. by rewrite Ep in Ho.
  - unfold navigate. by rewrite rerender_data.
  - unfold settlePreferenceSave. destruct result as [e|p]; [exact H|]. rewrite effect_data. cbn.
    exists i. split; [done|]. specialize (Hb p eq_refl). unfold saveURL in Hb.
    by rewrite installationParam_path in Hb by (by destruct save).
  - unfold settleTourSave. destruct result as [e|o]; [exact H|]. rewrite effect_data. exact H.
  - by rewrite effect_data.
  - unfold startTour. destruct (_ || _); exact H.
  - unfold endTour. cbn zeta. destruct (productTourStateAfterEnd _ _ _); exact H.
Qed.

Lemma journey_owned (s : Journey) : journey_reachable belongs s -> owned (dataOf s).
Proof. induction 1 as [key at_|s s' _ IH Hstep]; [done|by eapply owned_step]. Qed.

(** Preferences whose scope is that of an installation, or of the account, belong
    to what a save for it names. *)
Lemma scope_preferences_belong (s : Journey) (p : UserPreferences) (i : option Z) (save : PreferenceSave) :
  journey_reachable belongs s -> ud_preferences (dataOf s) = Some p ->
  ud_preferencesScope (dataOf s) = scopeOf i -> belongs (installationParam (saveURL save i)) p.
Proof.
  intros Ho%journey_owned Ep E. unfold owned in Ho. rewrite Ep in Ho.
  destruct Ho as (j & Ej & Hp). rewrite E in Ej. unfold saveURL.
  rewrite installationParam_path by (by destruct save). by rewrite (scopeOf_owner _ j).
Qed.

(** In every interleaving of loads, saves and navigation, the preferences a
    settings page shows are those of the installation, or the account, that
    the saves of that page name in their requests. *)
Theorem preferences_shown_belong (localeCompare : string -> string -> Z)
    (route : AccountSettingsRoute) (s : Journey) (p : UserPreferences) (save : PreferenceSave) :
  journey_reachable belongs s ->
  settingsPreferences localeCompare route s = Some p ->
  belongs (installationParam (saveURL save (settingsInstallation localeCompare route s))) p.
Proof.
  intros Hs. unfold settingsPreferences. destruct (bool_decide _) eqn:E; [|done]. intros Ep.
  apply bool_decide_eq_true in E. by apply (scope_preferences_belong s).
Qed.

(** ** The completion of the tour *)

(** While a page shows a ready sandbox service, the completed tour is being
    saved, or its save failed. *)
Definition completing (s : Journey) : Prop :=
  completes (inputs s) = true -> completedState ∈ jo_puts s \/ jo_failed s = true.

Lemma effect_completing (s : Journey) : completing (completionEffect s).
Proof.
  unfold completionEffect, completing. destruct (completes (inputs s)) eqn:E; [|by rewrite E].
  intros _. left. apply elem_of_app. right. by apply list_elem_of_singleton.
Qed.

Lemma rerender_completing (s s' : Journey) :
  completing s -> jo_puts s' = jo_puts s -> jo_failed s' = jo_failed s ->
  completing (rerender s s').
Proof.
  intros H Hp Hf. unfold rerender. case_bool_decide as E; [|apply effect_completing].
  unfold completing. by rewrite <- E, Hp, Hf.
Qed.

Lemma completing_step (s s' : Journey) : completing s -> journey_step belongs s s' -> completing s'.
Proof.
  intros H Hstep. destruct Hstep as [label s user Hu Ha|at_ s|save i s|l save i r result s E Hb|
    l sent r result s E|s|s|status s Hr|s]; try exact H.
  - by apply rerender_completing.
  - by apply rerender_completing.
  - unfold settlePreferenceSave. destruct result; [exact H|apply effect_completing].
  - unfold settleTourSave. destruct result; [|apply effect_completing].
    intros Hc. specialize (H Hc). rewrite E in H. cbn. rewrite orb_true_iff, bool_decide_eq_true.
    destruct H as [H|H]; [|by auto]. rewrite elem_of_app, elem_of_cons in H.
    destruct H as [H|[<-|H]]; [|by auto|]; left; set_solver.
  - apply effect_completing.
  - unfold startTour. destruct (_ || _); exact H.
  - unfold endTour. cbn zeta. destruct (productTourStateAfterEnd _ _ _); [|exact H].
    intros Hc. destruct (H Hc) as [Hin|Hf]; [left|right; exact Hf]. apply elem_of_app. by left.
Qed.

(** C13.  The tour is completed once the sandbox service is ready: whenever no
    save of the tour is in flight and the last completion did not fail, no page
    that shows a ready sandbox service has the tour open. *)
Theorem ready_service_completes_tour (s : Journey) :
  journey_reachable belongs s -> jo_puts s = [] -> jo_failed s = false ->
  completes (inputs s) = false.
Proof.
  intros Hs Hp Hf. assert (completing s) as H.
  { clear Hp Hf. induction Hs as [key at_|s s' _ IH Hstep]; [|by eapply completing_step].
    intros Hc. apply andb_prop in Hc as [_ Hc]. discriminate Hc. }
  destruct (completes (inputs s)) eqn:E; [|done]. destruct (H E) as [Hin|Hf']; [|congruence].
  rewrite Hp in Hin. by apply elem_of_nil in Hin.
Qed.

(** ** What the tour saves *)

(** Every state sent is one the server stores, and the tour that was not asked
    for has started at most once. *)
Definition automatic (starts : list bool) : nat :=
  List.length (filter (fun b => b = false) starts).

Lemma automatic_snoc (starts : list bool) (b : bool) :
  automatic (starts ++ [b]) = (automatic starts + if b then 0 else 1)%nat.
Proof. unfold automatic. rewrite filter_app, length_app. by destruct b. Qed.

Record tour_inv (s : Journey) : Prop := {
  ti_sent : Forall (fun o => isSavedProductTourOnboardingState o = true) (jo_sent s);
  ti_starts : (automatic (jo_starts s) <= 1)%nat;
  ti_first : jo_started s = false -> jo_replays s = 0%nat -> jo_starts s = [];
}.

(** The frame of a step that does not touch the tour. *)
Lemma tour_inv_frame (s s' : Journey) :
  jo_sent s' = jo_sent s -> jo_starts s' = jo_starts s -> jo_started s' = jo_started s ->
  jo_replays s' = jo_replays s -> tour_inv s -> tour_inv s'.
Proof. intros E1 E2 E3 E4 [H1 H2 H3]. by constructor; rewrite ?E1, ?E2, ?E3, ?E4. Qed.

Lemma save_tour_inv (o : ProductTourOnboarding) (failed : bool) (s : Journey) :
  isSavedProductTourOnboardingState o = true -> tour_inv s ->
  tour_inv (saveProductTourOnboarding o failed s).
Proof.
  intros Ho [H1 H2 H3]. constructor; cbn; [|exact H2|exact H3].
  apply Forall_app. split; [exact H1|by constructor].
Qed.

Lemma effect_tour_inv (s : Journey) : tour_inv s -> tour_inv (completionEffect s).
Proof.
  intros H. unfold completionEffect. destruct (completes (inputs s)); [|exact H].
  by apply save_tour_inv.
Qed.

Lemma rerender_tour_inv (s s' : Journey) : tour_inv s' -> tour_inv (rerender s s').
Proof. intros H. unfold rerender. destruct (bool_decide _); [exact H|by apply effect_tour_inv]. Qed.

Lemma productTourStateAfterEnd_saved (onboarding : option ProductTourOnboarding) (rp : bool)
    (status : TourEnd) (o : ProductTourOnboarding) :
  productTourStateAfterEnd onboarding rp status = Some o ->
  isSavedProductTourOnboardingState o = true.
Proof.
  unfold productTourStateAfterEnd. destruct onboarding as [o'|]; [|done].
  destruct (_ || _); [done|]. intros [= <-]. by destruct status.
Qed.

Lemma tour_inv_step (s s' : Journey) : tour_inv s -> journey_step belongs s s' -> tour_inv s'.
Proof.
  intros H Hstep. destruct Hstep as [label s user Hu Ha|at_ s|save i s|l save i r result s E Hb|
    l sent r result s E|s|s|status s Hr|s].
  - apply rerender_tour_inv. by eapply tour_inv_frame; [..|exact H].
  - apply rerender_tour_inv. by eapply tour_inv_frame; [..|exact H].
  - by eapply tour_inv_frame; [..|exact H].
  - unfold settlePreferenceSave. destruct result; [|apply effect_tour_inv];
      by eapply tour_inv_frame; [..|exact H].
  - unfold settleTourSave. destruct result; [|apply effect_tour_inv];
      by eapply tour_inv_frame; [..|exact H].
  - by apply effect_tour_inv.
  - unfold startTour. destruct (_ || _) eqn:E; [exact H|].
    apply orb_false_iff in E as [_ Hn]. destruct H as [H1 H2 H3].
    constructor; [exact H1| |done]. change (automatic (jo_starts s ++ [replay s]) <= 1)%nat.
    rewrite automatic_snoc. destruct (replay s) eqn:Er; [lia|]. unfold replay in Er. apply Nat.ltb_ge in Er.
    rewrite H3 by (done || lia). cbn. lia.
  - unfold endTour. cbn zeta. destruct (productTourStateAfterEnd _ _ _) as [o|] eqn:E.
    + apply save_tour_inv; [by eapply productTourStateAfterEnd_saved|].
      by eapply tour_inv_frame; [..|exact H].
    + by eapply tour_inv_frame; [..|exact H].
  - destruct H as [H1 H2 H3]. by constructor.
Qed.

(** C33.  Every tour state the console sends is one the server stores, and while
    the dashboard stays mounted the tour starts at most once without being asked
    for. *)
Theorem tour_states_stored (s : Journey) (o : ProductTourOnboarding) :
  journey_reachable belongs s ->
  (o ∈ jo_sent s -> isSavedProductTourOnboardingState o = true) /\
  (automatic (jo_starts s) <= 1)%nat.
Proof.
  intros Hs. assert (tour_inv s) as [H1 H2 _].
  { induction Hs as [key at_|s s' _ IH Hstep]; [by repeat constructor|by eapply tour_inv_step]. }
  split; [|exact H2]. rewrite Forall_forall in H1. apply H1.
Qed.
End journey.

(** ** A late save *)

(** The answer to a save replaces preferences and scope whatever page is shown:
    on a settings page of another scope the preferences disappear, and nothing
    is loaded in their place. *)
Lemma late_save_hides_preferences (localeCompare : string -> string -> Z)
    (route : AccountSettingsRoute) (i : option Z) (others : list (PreferenceSave * option Z))
    (p : UserPreferences) (s : Journey) :
  scopeOf i <> scopeOf (settingsInstallation localeCompare route s) ->
  let s' := settlePreferenceSave i others (inr p) s in
  settingsPreferences localeCompare route s' = None /\
  us_loads (jo_user s') = us_loads (jo_user s) /\
  shouldPollUserRoute "/organizations/acme/preferences" = false.
Proof.
  intros Hn s'. subst s'. unfold settingsPreferences, settingsInstallation, settlePreferenceSave.
  cbn zeta. rewrite effect_data. unfold completionEffect.
  split_and!; [|by destruct (completes _)|done].
  assert (forall t, jo_place (if completes (inputs t)
    then saveProductTourOnboarding completedState false t else t) = jo_place t) as ->.
  { intros t. by destruct (completes _). }
  cbn. by rewrite bool_decide_false.
Qed.

(** ** A journey *)

Definition example_belongs (i : option string) (p : UserPreferences) : Prop :=
  i = None /\ p = example_preferences.

Definition example_pending : ProductTourOnboarding :=
  {| tour_version := 1; tour_status := TourPending; tour_seen := false |}.

Definition example_toured : ProductTourOnboarding :=
  {| tour_version := 1; tour_status := TourPending; tour_seen := true |}.

Definition example_answers : FirstResponses := {|
  fr_app := example_app; fr_page := {| resp_items := Some []; resp_totalHeader := None |};
  fr_onboarding := inr example_pending |}.

(** Loading the jobs page, and taking the tour there. *)
Definition example_toured_journey : Journey :=
  let s := mountJourney "" {| pl_path := "/jobs"; pl_login := Some "octocat" |} in
  let s := userOperation (loadUserAll (example_closure "/jobs") false (jo_user s)) s in
  let s := userOperation (settle_first (example_load 1 "/jobs") [] (inr example_answers)
             (jo_user s)) s in
  endTour TourFinished (startTour s).

(** Then saving a sandbox key on the settings page. *)
Definition example_journey : Journey :=
  let s := settleTourSave example_toured [] (inr example_toured) example_toured_journey in
  let s := navigate {| pl_path := "/account/preferences"; pl_login := Some "octocat" |} s in
  let s := settlePreferenceSave None [] (inr example_preferences)
             (startPreferenceSave SaveSandbox None s) in
  settleTourSave completedState [] (inr completedState) s.

Lemma example_toured_reachable : journey_reachable example_belongs example_toured_journey.
Proof.
  unfold example_toured_journey. cbn zeta.
  eapply jn_next; [|by apply jn_end; vm_compute]. eapply jn_next; [|apply jn_tour].
  eapply jn_next; [|eapply jn_user; [by apply (us_settle_first _ [] _ []); vm_compute|by vm_compute]].
  eapply jn_next; [|eapply jn_user; [apply us_load|by vm_compute]]. apply jn_start.
Qed.

Lemma example_journey_reachable : journey_reachable example_belongs example_journey.
Proof.
  unfold example_journey. cbn zeta.
  eapply jn_next; [|by apply (jn_put _ [] _ []); vm_compute].
  eapply jn_next; [|apply (jn_saved _ [] SaveSandbox _ []); [by vm_compute|]].
  - eapply jn_next; [|apply jn_save]. eapply jn_next; [|apply jn_navigate].
    eapply jn_next; [apply example_toured_reachable|]. by apply (jn_put _ [] _ []); vm_compute.
  - intros p [= <-]. by split; vm_compute.
Qed.

Lemma preferences_shown_belong_witness :
  example_belongs (installationParam (saveURL SaveCache (settingsInstallation str_cmp
    {| route_accountLogin := Some "octocat"; route_tab := TabPreferences |} example_journey)))
    example_preferences.
Proof.
  apply (preferences_shown_belong example_belongs str_cmp
    {| route_accountLogin := Some "octocat"; route_tab := TabPreferences |} example_journey).
  - apply example_journey_reachable.
  - vm_compute. reflexivity.
Defined.

Lemma ready_service_completes_tour_witness :
  jo_sent example_journey = [example_toured; completedState] /\
  completes (inputs example_journey) = false.
Proof.
  split; [vm_compute; reflexivity|].
  apply (ready_service_completes_tour example_belongs example_journey);
    [apply example_journey_reachable|vm_compute; reflexivity|vm_compute; reflexivity].
Defined.

Lemma tour_states_stored_witness :
  jo_starts example_toured_journey = [false] /\
  isSavedProductTourOnboardingState example_toured = true.
Proof.
  split; [vm_compute; reflexivity|].
  apply (tour_states_stored example_belongs example_toured_journey);
    [apply example_toured_reachable|]. vm_compute. left.
Defined.
