(* ===== verification/DefaultSettings.v ===== *)
(** The administration's sandbox service default:
    src/ui/src/components/sandbox-service-default-section.tsx.

    The form is a draft of the configuration that the server holds; the list of
    accounts is changed at the server at once.  Notices are not modelled, and
    [t] gives the texts of the console. *)
From S2P Require Import Prelude.
From S2P Require Import JsString.
From S2P Require Import JsUri.
From S2P Require Import AdminTypes.
From S2P Require Import Errors.
From S2P Require Import Regions.

(** ** State *)

Definition emptyConfig : SandboxServiceDefault := {|
  default_enabled := false; default_configured := false; default_audience_mode := AudienceAll;
  default_audiences := []; default_available_accounts := []; default_api_url := "";
  default_key_configured := false; default_key_updated_at := None |}.

(** The requests of the section. *)
Inductive DefaultCall :=
  | LoadDefault
  | SaveDefault (enabled : bool) (mode : AudienceMode) (apiURL apiKey : string)
  | AddAudience (accountLogin : string)
  | RemoveAudience (id : Z)
  | RemoveDefaultKey.

(** A request in flight keeps the regions of the render that sent it. *)
Record Waiting := { wt_call : DefaultCall; wt_regions : list SandboxRegion }.

Record DefaultForm := {
  df_regions : list SandboxRegion;
  df_config : SandboxServiceDefault;
  df_enabled : bool;
  df_mode : AudienceMode;
  df_candidate : string;
  df_apiURL : string;
  df_apiKey : string;
  df_loading : bool;
  df_saving : bool;
  df_deleting : bool;
  df_mutating : bool;
  df_removeOpen : bool;
  df_error : string;
  df_waiting : list Waiting;
}.

Definition with_draft (enabled : bool) (m : AudienceMode) (candidate apiURL apiKey error : string)
    (f : DefaultForm) : DefaultForm := {|
  df_regions := df_regions f; df_config := df_config f; df_enabled := enabled; df_mode := m;
  df_candidate := candidate; df_apiURL := apiURL; df_apiKey := apiKey;
  df_loading := df_loading f; df_saving := df_saving f; df_deleting := df_deleting f;
  df_mutating := df_mutating f; df_removeOpen := df_removeOpen f; df_error := error;
  df_waiting := df_waiting f |}.

Definition with_config (config : SandboxServiceDefault) (f : DefaultForm) : DefaultForm := {|
  df_regions := df_regions f; df_config := config; df_enabled := df_enabled f;
  df_mode := df_mode f; df_candidate := df_candidate f; df_apiURL := df_apiURL f;
  df_apiKey := df_apiKey f; df_loading := df_loading f; df_saving := df_saving f;
  df_deleting := df_deleting f; df_mutating := df_mutating f;
  df_removeOpen := df_removeOpen f; df_error := df_error f; df_waiting := df_waiting f |}.

Definition with_flags (loading saving deleting mutating : bool) (waiting : list Waiting)
    (f : DefaultForm) : DefaultForm := {|
  df_regions := df_regions f; df_config := df_config f; df_enabled := df_enabled f;
  df_mode := df_mode f; df_candidate := df_candidate f; df_apiURL := df_apiURL f;
  df_apiKey := df_apiKey f; df_loading := loading; df_saving := saving;
  df_deleting := deleting; df_mutating := mutating; df_removeOpen := df_removeOpen f;
  df_error := df_error f; df_waiting := waiting |}.

Definition with_error (error : string) (f : DefaultForm) : DefaultForm :=
  with_draft (df_enabled f) (df_mode f) (df_candidate f) (df_apiURL f) (df_apiKey f) error f.

Definition with_removeOpen (b : bool) (f : DefaultForm) : DefaultForm := {|
  df_regions := df_regions f; df_config := df_config f; df_enabled := df_enabled f;
  df_mode := df_mode f; df_candidate := df_candidate f; df_apiURL := df_apiURL f;
  df_apiKey := df_apiKey f; df_loading := df_loading f; df_saving := df_saving f;
  df_deleting := df_deleting f; df_mutating := df_mutating f; df_removeOpen := b;
  df_error := df_error f; df_waiting := df_waiting f |}.

Definition with_regions (regions : list SandboxRegion) (f : DefaultForm) : DefaultForm := {|
  df_regions := regions; df_config := df_config f; df_enabled := df_enabled f;
  df_mode := df_mode f; df_candidate := df_candidate f; df_apiURL := df_apiURL f;
  df_apiKey := df_apiKey f; df_loading := df_loading f; df_saving := df_saving f;
  df_deleting := df_deleting f; df_mutating := df_mutating f;
  df_removeOpen := df_removeOpen f; df_error := df_error f; df_waiting := df_waiting f |}.

Definition busy (f : DefaultForm) : bool :=
  df_loading f || df_saving f || df_deleting f || df_mutating f.

(** The controls of the page: disabled while busy, and inert behind the open
    dialog, which is modal. *)
Definition formActive (f : DefaultForm) : bool := negb (busy f) && negb (df_removeOpen f).

(** ** Sending *)

Definition send (c : DefaultCall) (f : DefaultForm) : list Waiting :=
  df_waiting f ++ [{| wt_call := c; wt_regions := df_regions f |}].

(** [load]: at first, when the regions change, and on demand. *)
Definition load (f : DefaultForm) : DefaultForm :=
  with_error "" (with_flags true (df_saving f) (df_deleting f) (df_mutating f)
    (send LoadDefault f) f).

Definition mountDefault (regions : list SandboxRegion) : DefaultForm := load {|
  df_regions := regions; df_config := emptyConfig; df_enabled := false; df_mode := AudienceAll;
  df_candidate := ""; df_apiURL := ""; df_apiKey := ""; df_loading := true; df_saving := false;
  df_deleting := false; df_mutating := false; df_removeOpen := false; df_error := "";
  df_waiting := [] |}.

Definition setRegions (regions : list SandboxRegion) (f : DefaultForm) : DefaultForm :=
  load (with_regions regions f).

Section texts.
Context (t : string -> string).

(** What [save] refuses. *)
Definition saveError (f : DefaultForm) : option string :=
  if df_enabled f && negb (str_truthy (trim (df_apiURL f)))
  then Some (t "admin.sandboxDefaultRegionRequired")
  else if df_enabled f && negb (default_key_configured (df_config f)) &&
          negb (str_truthy (trim (df_apiKey f)))
  then Some (t "admin.sandboxDefaultAPIKeyRequired")
  else None.

Definition saveCall (f : DefaultForm) : DefaultCall :=
  SaveDefault (df_enabled f) (df_mode f) (trim (df_apiURL f)) (trim (df_apiKey f)).

Definition saveDefault (f : DefaultForm) : DefaultForm :=
  match saveError f with
  | Some error => with_error error f
  | None =>
      with_error "" (with_flags (df_loading f) true (df_deleting f) (df_mutating f)
        (send (saveCall f) f) f)
  end.

(** The condition of the submit button. *)
Definition saveEnabled (f : DefaultForm) : bool :=
  negb (busy f ||
    (df_enabled f &&
     (negb (str_truthy (trim (df_apiURL f))) ||
      (negb (default_key_configured (df_config f)) && negb (str_truthy (trim (df_apiKey f))))))).

Definition addAudience (f : DefaultForm) : DefaultForm :=
  let accountLogin := normalizeSandboxAudienceLogin (df_candidate f) in
  if negb (str_truthy accountLogin) then f
  else with_error "" (with_flags (df_loading f) (df_saving f) (df_deleting f) true
         (send (AddAudience accountLogin) f) f).

Definition removeAudience (id : Z) (f : DefaultForm) : DefaultForm :=
  with_error "" (with_flags (df_loading f) (df_saving f) (df_deleting f) true
    (send (RemoveAudience id) f) f).

Definition removeAPIKey (f : DefaultForm) : DefaultForm :=
  with_error "" (with_flags (df_loading f) (df_saving f) true (df_mutating f)
    (send RemoveDefaultKey f) f).

(** The request of a call. *)
Definition callURL (c : DefaultCall) : string :=
  match c with
  | LoadDefault | SaveDefault _ _ _ _ => "/admin/api/sandbox-service-default"
  | AddAudience _ => "/admin/api/sandbox-service-default/audiences"
  | RemoveAudience id => "/admin/api/sandbox-service-default/audiences/" +:+ encodeURIComponent (pretty id)
  | RemoveDefaultKey => "/admin/api/sandbox-service-default/api-key"
  end.

(** ** Answers *)

Section hostnames.
(** [new URL(text).hostname] of the browser. *)
Context (hostname : string -> option string).

Definition applyConfig (regions : list SandboxRegion) (next : SandboxServiceDefault)
    (f : DefaultForm) : DefaultForm :=
  with_draft (default_enabled next) (default_audience_mode next) ""
    (sandboxServiceDefaultAPIURL hostname (default_api_url next) regions) "" (df_error f)
    (with_config next f).

Definition failureText (c : DefaultCall) : string :=
  t match c with
    | LoadDefault => "admin.loadSandboxDefaultFailed"
    | SaveDefault _ _ _ _ => "admin.saveSandboxDefaultFailed"
    | AddAudience _ => "admin.addGitHubAccountFailed"
    | RemoveAudience _ => "admin.removeGitHubAccountFailed"
    | RemoveDefaultKey => "admin.removeSandboxAPIKeyFailed"
    end.

(** The [finally] of a call. *)
Definition finished (c : DefaultCall) (others : list Waiting) (f : DefaultForm) : DefaultForm :=
  match c with
  | LoadDefault => with_flags false (df_saving f) (df_deleting f) (df_mutating f) others f
  | SaveDefault _ _ _ _ =>
      with_flags (df_loading f) false (df_deleting f) (df_mutating f) others f
  | AddAudience _ | RemoveAudience _ =>
      with_flags (df_loading f) (df_saving f) (df_deleting f) false others f
  | RemoveDefaultKey => with_flags (df_loading f) (df_saving f) false (df_mutating f) others f
  end.

(** A configuration that arrived: a load or a save replaces the draft, a change
    of the accounts does not. *)
Definition received (w : Waiting) (next : SandboxServiceDefault) (f : DefaultForm) : DefaultForm :=
  match wt_call w with
  | LoadDefault | SaveDefault _ _ _ _ => applyConfig (wt_regions w) next f
  | AddAudience _ =>
      with_draft (df_enabled f) (df_mode f) "" (df_apiURL f) (df_apiKey f) (df_error f)
        (with_config next f)
  | RemoveAudience _ => with_config next f
  | RemoveDefaultKey => with_removeOpen false (applyConfig (wt_regions w) next f)
  end.

Definition settleDefault (w : Waiting) (others : list Waiting)
    (result : thrown + SandboxServiceDefault) (f : DefaultForm) : DefaultForm :=
  finished (wt_call w) others
    match result with
    | inr next => received w next f
    | inl e => with_error (error_message e (failureText (wt_call w))) f
    end.

(** ** Steps *)

Definition pickRegion (regionID : string) (f : DefaultForm) : DefaultForm :=
  let region := find_first (fun r => bool_decide (region_id r = regionID)) (df_regions f) in
  with_draft (df_enabled f) (df_mode f) (df_candidate f)
    (match region with Some r => region_apiURL r | None => "" end) (df_apiKey f) "" f.

(** What the administrator and the rest of the page do. *)
Inductive default_event : DefaultForm -> DefaultForm -> Prop :=
  | dv_regions regions f : default_event f (setRegions regions f)
  | dv_refresh f : formActive f = true -> default_event f (load f)
  | dv_enabled b f : formActive f = true ->
      default_event f (with_draft b (df_mode f) (df_candidate f) (df_apiURL f) (df_apiKey f) "" f)
  | dv_mode m f : formActive f = true ->
      default_event f
        (with_draft (df_enabled f) m (df_candidate f) (df_apiURL f) (df_apiKey f) "" f)
  | dv_candidate text f : formActive f = true -> df_mode f = AudienceSelected ->
      default_event f (with_draft (df_enabled f) (df_mode f) text (df_apiURL f) (df_apiKey f)
        (df_error f) f)
  | dv_region regionID f : formActive f = true -> regionID ∈ map region_id (df_regions f) ->
      default_event f (pickRegion regionID f)
  | dv_key text f : formActive f = true ->
      default_event f (with_draft (df_enabled f) (df_mode f) (df_candidate f) (df_apiURL f) text
        (df_error f) f)
  | dv_save f : formActive f = true -> saveEnabled f = true -> default_event f (saveDefault f)
  | dv_add f : formActive f = true -> df_mode f = AudienceSelected ->
      default_event f (addAudience f)
  | dv_remove id a f : formActive f = true -> df_mode f = AudienceSelected ->
      (id, a) ∈ default_audiences (df_config f) -> default_event f (removeAudience id f)
  | dv_open f : formActive f = true -> default_key_configured (df_config f) = true ->
      default_event f (with_removeOpen true f)
  | dv_close f : df_removeOpen f = true -> df_deleting f = false ->
      default_event f (with_removeOpen false f)
  | dv_confirm f : df_removeOpen f = true -> df_deleting f = false ->
      default_event f (removeAPIKey f).

(** Answers arrive in any order. *)
Inductive default_step : DefaultForm -> DefaultForm -> Prop :=
  | ds_event f f' : default_event f f' -> default_step f f'
  | ds_settle l w r result f :
      df_waiting f = l ++ w :: r -> default_step f (settleDefault w (l ++ r) result f).

Inductive default_reachable : DefaultForm -> Prop :=
  | dr_mount regions : default_reachable (mountDefault regions)
  | dr_step f f' : default_reachable f -> default_step f f' -> default_reachable f'.

(** * Properties *)

(** ** One change at a time *)

Definition is_change (c : DefaultCall) : bool := match c with LoadDefault => false | _ => true end.

(** The changes in flight. *)
Definition changes (f : DefaultForm) : list DefaultCall :=
  filter (fun c => is_change c = true) (wt_call <$> df_waiting f).

(** The flags of a change: [saving], [deleting] and [audienceMutating]. *)
Definition flags_of (cs : list DefaultCall) : bool * bool * bool :=
  match cs with
  | SaveDefault _ _ _ _ :: _ => (true, false, false)
  | RemoveDefaultKey :: _ => (false, true, false)
  | AddAudience _ :: _ | RemoveAudience _ :: _ => (false, false, true)
  | _ => (false, false, false)
  end.

Definition flags (f : DefaultForm) : bool * bool * bool :=
  (df_saving f, df_deleting f, df_mutating f).

Record default_inv (f : DefaultForm) : Prop := {
  dn_one : (List.length (changes f) <= 1)%nat;
  dn_flags : flags f = flags_of (changes f);
  dn_dialog : df_removeOpen f = true -> df_saving f = false /\ df_mutating f = false;
}.

Lemma changes_send (c : DefaultCall) (f : DefaultForm) :
  filter (fun c => is_change c = true) (wt_call <$> send c f) =
  changes f ++ (if is_change c then [c] else []).
Proof. unfold send, changes. rewrite fmap_app, filter_app. f_equal. by destruct c. Qed.

Lemma idle_changes (f : DefaultForm) :
  default_inv f -> flags f = (false, false, false) -> changes f = [].
Proof.
  intros [H1 H2 _] H. rewrite H in H2. unfold changes in *.
  destruct (filter _ _) as [|c l] eqn:E; [done|].
  assert (is_change c = true) as Hc.
  { assert (c ∈ c :: l) as Hin by by left. rewrite <- E in Hin.
    by apply list_elem_of_filter in Hin as [Hin _]. }
  by destruct c.
Qed.

Lemma active_flags (f : DefaultForm) : formActive f = true -> flags f = (false, false, false).
Proof.
  unfold formActive, busy, flags. intros [H _]%andb_prop.
  by destruct (df_loading f), (df_saving f), (df_deleting f), (df_mutating f).
Qed.

Lemma active_closed (f : DefaultForm) : formActive f = true -> df_removeOpen f = false.
Proof. unfold formActive. by intros [_ H%negb_true_iff]%andb_prop. Qed.

(** What keeps the requests and their flags keeps the invariant. *)
Lemma inv_frame (f f' : DefaultForm) :
  df_waiting f' = df_waiting f -> flags f' = flags f ->
  (df_removeOpen f' = true -> df_removeOpen f = true) -> default_inv f -> default_inv f'.
Proof.
  intros Hw Hf Hd [H1 H2 H3]. unfold flags in *. injection Hf as E1 E2 E3.
  constructor; unfold changes, flags in *; rewrite ?Hw, ?E1, ?E2, ?E3; auto.
Qed.

(** Sending a change when none is in flight. *)
Lemma inv_send (c : DefaultCall) (f f' : DefaultForm) :
  default_inv f -> flags f = (false, false, false) -> df_waiting f' = send c f ->
  flags f' = flags_of [c] -> (df_removeOpen f' = true -> c = RemoveDefaultKey) -> default_inv f'.
Proof.
  intros Hi Hf Hw Hf' Hd. pose proof (idle_changes f Hi Hf) as E.
  assert (changes f' = if is_change c then [c] else []) as Ec.
  { unfold changes at 1. rewrite Hw, changes_send, E. by destruct c. }
  constructor; rewrite ?Ec; [destruct c; cbn; lia|rewrite Hf'; by destruct c|].
  intros H. specialize (Hd H). subst c. unfold flags in Hf'. by injection Hf'.
Qed.

Lemma load_inv (f : DefaultForm) : default_inv f -> default_inv (load f).
Proof.
  intros [H1 H2 H3]. constructor; [| |exact H3];
    unfold load, changes, with_error, with_flags, with_draft; cbn [df_waiting];
    rewrite changes_send, app_nil_r; [exact H1|exact H2].
Qed.

Ltac sent_flags E := unfold flags in *; cbn; injection E; congruence.

Lemma default_event_inv (f f' : DefaultForm) : default_inv f -> default_event f f' -> default_inv f'.
Proof.
  intros Hi He. destruct He as [regions f|f Ha|b f Ha|m f Ha|text f Ha Hm|regionID f Ha Hr|text f Ha|
    f Ha Hs|f Ha Hm|id a f Ha Hm Hin|f Ha Hk|f Ho Hd|f Ho Hd].
  - apply load_inv. by eapply inv_frame; [..|exact Hi].
  - by apply load_inv.
  - by eapply inv_frame; [..|exact Hi].
  - by eapply inv_frame; [..|exact Hi].
  - by eapply inv_frame; [..|exact Hi].
  - by eapply inv_frame; [..|exact Hi].
  - by eapply inv_frame; [..|exact Hi].
  - unfold saveDefault. destruct (saveError f) as [er|]; [by eapply inv_frame; [..|exact Hi]|].
    pose proof (active_flags f Ha) as E. eapply (inv_send (saveCall f)); [exact Hi|exact E|done| |].
    + sent_flags E.
    + cbn. by rewrite active_closed.
  - unfold addAudience. destruct (negb _); [exact Hi|].
    pose proof (active_flags f Ha) as E. eapply (inv_send (AddAudience _)); [exact Hi|exact E|done| |].
    + sent_flags E.
    + cbn. by rewrite active_closed.
  - pose proof (active_flags f Ha) as E. eapply (inv_send (RemoveAudience id)); [exact Hi|exact E|done| |].
    + sent_flags E.
    + cbn. by rewrite active_closed.
  - pose proof (active_flags f Ha) as E. destruct Hi as [H1 H2 _]. constructor; [exact H1|exact H2|].
    intros _. unfold flags in E. cbn. by injection E.
  - by eapply inv_frame; [..|exact Hi].
  - destruct (dn_dialog f Hi Ho) as [E1 E2].
    eapply (inv_send RemoveDefaultKey); [exact Hi| |done| |done]; unfold flags; cbn; congruence.
Qed.

(** Settling a request ends its own flag. *)
Lemma received_frame (w : Waiting) (next : SandboxServiceDefault) (f : DefaultForm) :
  flags (received w next f) = flags f /\ df_loading (received w next f) = df_loading f /\
  (df_removeOpen (received w next f) = true -> df_removeOpen f = true).
Proof. unfold received. by destruct (wt_call w). Qed.

Lemma default_settle_inv (l r : list Waiting) (w : Waiting) (result : thrown + SandboxServiceDefault)
    (f : DefaultForm) :
  df_waiting f = l ++ w :: r -> default_inv f -> default_inv (settleDefault w (l ++ r) result f).
Proof.
  intros E [H1 H2 H3]. unfold settleDefault. set (g := match result with inr _ => _ | inl _ => _ end).
  assert (flags g = flags f /\ (df_removeOpen g = true -> df_removeOpen f = true)) as [Eg Ed].
  { subst g. destruct result as [e|next]; [done|]. by destruct (received_frame w next f) as (?&?&?). }
  assert (changes f = filter (fun c => is_change c = true) (wt_call <$> l) ++
    (if is_change (wt_call w) then [wt_call w] else []) ++
    filter (fun c => is_change c = true) (wt_call <$> r)) as Ec.
  { unfold changes. rewrite E, fmap_app, filter_app. cbn [fmap list_fmap]. rewrite filter_cons.
    f_equal. by destruct (wt_call w). }
  assert (changes (finished (wt_call w) (l ++ r) g) =
    filter (fun c => is_change c = true) (wt_call <$> l) ++
    filter (fun c => is_change c = true) (wt_call <$> r)) as Ec'.
  { unfold changes. destruct (wt_call w); cbn; by rewrite fmap_app, filter_app. }
  revert Ec Ec'. generalize (filter (fun c => is_change c = true) (wt_call <$> l)) as a.
  generalize (filter (fun c => is_change c = true) (wt_call <$> r)) as b. intros b a Ec Ec'.
  rewrite Ec in H1, H2. rewrite !length_app in H1.
  unfold flags in Eg, H2. injection Eg as Es Edl Em.
  constructor; [rewrite Ec', length_app; lia| |].
  - rewrite Ec'. destruct (wt_call w); cbn in H1; unfold flags; cbn; rewrite ?Es, ?Edl, ?Em;
      [exact H2|..]; destruct a, b; cbn in H1; try lia; cbn in H2 |- *; injection H2; congruence.
  - intros Ho. assert (df_removeOpen f = true) as Hof by (apply Ed; by destruct (wt_call w)).
    destruct (H3 Hof) as [E1 E2]. destruct (wt_call w); cbn; split; congruence.
Qed.

Lemma default_reachable_inv (f : DefaultForm) : default_reachable f -> default_inv f.
Proof.
  induction 1 as [regions|f f' _ IH Hs].
  - apply load_inv. by constructor; cbn; [lia|..].
  - destruct Hs as [f f' He|l w r result f E]; [by eapply default_event_inv|by eapply default_settle_inv].
Qed.

(** ** What is sent *)

(** A call is well formed, given whether a key is configured. *)
Definition valid_call (configured : bool) (c : DefaultCall) : bool :=
  match c with
  | SaveDefault enabled _ apiURL apiKey =>
      bool_decide (trim apiURL = apiURL) && bool_decide (trim apiKey = apiKey) &&
      (negb enabled || (str_truthy apiURL && (configured || str_truthy apiKey)))
  | AddAudience accountLogin => str_truthy accountLogin
  | _ => true
  end.

(** An event sends at most one request; a change only when none is in flight. *)
Lemma event_sends (f f' : DefaultForm) :
  default_inv f -> default_event f f' ->
  df_config f' = df_config f /\
  (df_waiting f' = df_waiting f \/
   exists c regions, df_waiting f' = df_waiting f ++ [{| wt_call := c; wt_regions := regions |}] /\
     valid_call (default_key_configured (df_config f)) c = true /\
     (is_change c = true -> changes f = [])).
Proof.
  intros Hi He. destruct He as [regions f|f Ha|b f Ha|m f Ha|text f Ha Hm|regionID f Ha Hr|text f Ha|
    f Ha Hs|f Ha Hm|id a f Ha Hm Hin|f Ha Hk|f Ho Hd|f Ho Hd]; try (split; [done|by left]).
  - split; [done|]. right. by eexists LoadDefault, _.
  - split; [done|]. right. by eexists LoadDefault, _.
  - unfold saveDefault. destruct (saveError f) as [er|] eqn:Ee; split; try done; [by left|right].
    eexists (saveCall f), _. split_and!; [done| |].
    + unfold saveError in Ee. cbn. rewrite !bool_decide_eq_true_2 by apply trim_trim.
      by destruct (df_enabled f), (str_truthy (trim (df_apiURL f))),
        (default_key_configured (df_config f)), (str_truthy (trim (df_apiKey f))).
    + intros _. by apply idle_changes, active_flags.
  - unfold addAudience. destruct (str_truthy _) eqn:Et; split; try done; [right|by left].
    eexists (AddAudience _), _. split_and!; [done|exact Et|].
    intros _. by apply idle_changes, active_flags.
  - split; [done|]. right. eexists (RemoveAudience id), _. split_and!; [done..|].
    intros _. by apply idle_changes, active_flags.
  - split; [done|]. right. eexists RemoveDefaultKey, _. split_and!; [done..|].
    intros _. apply idle_changes; [done|]. destruct (dn_dialog f Hi Ho) as [E1 E2].
    unfold flags. congruence.
Qed.

(** C24.  The section changes the configuration one request at a time, in every
    order of answers, and every change it sends is well formed: trimmed, and
    when the default is enabled with an endpoint and, unless the configuration
    shown has one, with a key. *)
Theorem default_changes_valid (f f' : DefaultForm) (w : Waiting) :
  default_reachable f -> default_step f f' -> w ∈ df_waiting f' ->
  (List.length (changes f') <= 1)%nat /\
  (w ∈ df_waiting f \/ valid_call (default_key_configured (df_config f')) (wt_call w) = true).
Proof.
  intros Hf Hs Hw. split.
  { apply default_reachable_inv. by eapply dr_step. }
  destruct Hs as [f f' He|l w' r result f E].
  - destruct (event_sends f f') as [Ec [E|(c & rs & E & Hv & _)]];
      [by apply default_reachable_inv|done|left; by rewrite <- E|].
    rewrite E, elem_of_app, list_elem_of_singleton in Hw. destruct Hw as [Hw| ->]; [by left|right].
    by rewrite Ec.
  - left. rewrite E. unfold settleDefault in Hw.
    assert (w ∈ l ++ r) as H by (by destruct (wt_call w')).
    rewrite elem_of_app in H. rewrite elem_of_app, elem_of_cons. tauto.
Qed.
(** ** The configuration shown *)

Section server.
(** The server that keeps the configuration: a successful answer is the
    configuration it holds from then on, a failed request changes nothing, nor
    does a load. *)
Context {S : Type} (serve : DefaultCall -> S -> S * (thrown + SandboxServiceDefault)).
Context (view : S -> SandboxServiceDefault).

Record faithful_server : Prop := {
  fs_success c s s' v : serve c s = (s', inr v) -> v = view s';
  fs_failure c s s' e : serve c s = (s', inl e) -> s' = s;
  fs_load s : (serve LoadDefault s).1 = s;
}.

(** The section and the server, where requests arrive, and answers return, in
    the order they were sent. *)
Record Desk := {
  dk_form : DefaultForm;
  dk_answers : list (thrown + SandboxServiceDefault);
  dk_server : S;
  (** Some configuration arrived. *)
  dk_loaded : bool;
  (** The requests that reached the server, and what it held then. *)
  dk_received : list (DefaultCall * S);
}.

Inductive desk_step : Desk -> Desk -> Prop :=
  | dk_event f d :
      default_event (dk_form d) f -> df_waiting f = df_waiting (dk_form d) ->
      desk_step d {| dk_form := f; dk_answers := dk_answers d; dk_server := dk_server d;
                     dk_loaded := dk_loaded d; dk_received := dk_received d |}
  | dk_send f w s a d :
      default_event (dk_form d) f -> df_waiting f = df_waiting (dk_form d) ++ [w] ->
      serve (wt_call w) (dk_server d) = (s, a) ->
      desk_step d {| dk_form := f; dk_answers := dk_answers d ++ [a]; dk_server := s;
                     dk_loaded := dk_loaded d;
                     dk_received := dk_received d ++ [(wt_call w, dk_server d)] |}
  | dk_answer w ws a answers d :
      df_waiting (dk_form d) = w :: ws -> dk_answers d = a :: answers ->
      desk_step d {| dk_form := settleDefault w ws a (dk_form d); dk_answers := answers;
                     dk_server := dk_server d;
                     dk_loaded := dk_loaded d || match a with inr _ => true | inl _ => false end;
                     dk_received := dk_received d |}.

Definition mountDesk (regions : list SandboxRegion) (s : S) : Desk := {|
  dk_form := mountDefault regions; dk_answers := [(serve LoadDefault s).2];
  dk_server := (serve LoadDefault s).1; dk_loaded := false; dk_received := [(LoadDefault, s)] |}.

Inductive desk_reachable : Desk -> Prop :=
  | dk_mount regions s : desk_reachable (mountDesk regions s)
  | dk_next d d' : desk_reachable d -> desk_step d d' -> desk_reachable d'.

(** The requests in flight take the server from [s] to [srv]. *)
Fixpoint served (s : S) (ws : list Waiting) (answers : list (thrown + SandboxServiceDefault))
    (srv : S) : Prop :=
  match ws, answers with
  | [], [] => s = srv
  | w :: ws, a :: answers => exists s', serve (wt_call w) s = (s', a) /\ served s' ws answers srv
  | _, _ => False
  end.

Lemma served_snoc (s srv s' : S) (ws : list Waiting) (answers : list (thrown + SandboxServiceDefault))
    (w : Waiting) (a : thrown + SandboxServiceDefault) :
  served s ws answers srv -> serve (wt_call w) srv = (s', a) ->
  served s (ws ++ [w]) (answers ++ [a]) s'.
Proof.
  revert s answers. induction ws as [|v ws IH]; intros s [|b answers] H E; cbn in H; try done.
  - subst. cbn. by eexists.
  - destruct H as (s1 & E1 & H). exists s1. split; [exact E1|]. by apply IH.
Qed.

Context (Hserver : faithful_server).

Lemma served_loads (s srv : S) (ws : list Waiting) (answers : list (thrown + SandboxServiceDefault)) :
  filter (fun c => is_change c = true) (wt_call <$> ws) = [] -> served s ws answers srv -> s = srv.
Proof.
  revert s answers. induction ws as [|w ws IH]; intros s [|a answers] Hc H; cbn in H; try done.
  destruct H as (s1 & E1 & H). rewrite fmap_cons, filter_cons in Hc.
  destruct w as [c rs]. cbn [wt_call] in *. destruct c; try discriminate Hc.
  pose proof (fs_load Hserver s) as El. rewrite E1 in El. cbn in El. subst s1. by eapply IH.
Qed.

Lemma valid_call_mono (c : DefaultCall) (b : bool) :
  valid_call false c = true -> valid_call b c = true.
Proof.
  destruct c as [|en m url key|a|i|]; try done. cbn.
  destruct (bool_decide (trim url = url)), (bool_decide (trim key = key)), en, (str_truthy url),
    (str_truthy key), b; done.
Qed.

Record desk_inv (d : Desk) : Prop := {
  di_form : default_inv (dk_form d);
  di_served : exists base, served base (df_waiting (dk_form d)) (dk_answers d) (dk_server d) /\
    (if dk_loaded d then df_config (dk_form d) = view base
     else default_key_configured (df_config (dk_form d)) = false);
  di_received : Forall (fun p => valid_call (default_key_configured (view p.2)) p.1 = true)
    (dk_received d);
}.

Lemma desk_send_valid (f : DefaultForm) (w : Waiting) (d : Desk) :
  desk_inv d -> default_event (dk_form d) f -> df_waiting f = df_waiting (dk_form d) ++ [w] ->
  valid_call (default_key_configured (view (dk_server d))) (wt_call w) = true.
Proof.
  intros [Hi (base & Hb & Hc) _] He E. destruct (event_sends _ _ Hi He) as [_ [E'|(c & rs & E' & Hv & Hn)]].
  { exfalso. rewrite E' in E. apply (f_equal List.length) in E. rewrite length_app in E. cbn in E. lia. }
  rewrite E in E'. apply app_inj_2 in E' as [_ [= ->]]; [|done]. cbn [wt_call].
  destruct (is_change c) eqn:Ec; [|by destruct c].
  destruct (dk_loaded d); [|rewrite Hc in Hv; by apply valid_call_mono].
  rewrite Hc in Hv. by rewrite <- (served_loads _ _ _ _ (Hn eq_refl) Hb).
Qed.

Lemma settle_config (w : Waiting) (ws : list Waiting) (a : thrown + SandboxServiceDefault)
    (f : DefaultForm) :
  df_config (settleDefault w ws a f) = match a with inr v => v | inl _ => df_config f end /\
  df_waiting (settleDefault w ws a f) = ws.
Proof. unfold settleDefault, received. destruct a; by destruct (wt_call w). Qed.

Lemma desk_step_inv (d d' : Desk) : desk_inv d -> desk_step d d' -> desk_inv d'.
Proof.
  intros Hd Hs. destruct Hs as [f d He E|f w s a d He E Es|w ws a answers d Ew Ea].
  - destruct Hd as [Hi Hb Hr]. destruct (event_sends _ _ Hi He) as [Ec _].
    constructor; cbn; [by eapply default_event_inv|by rewrite E, Ec|exact Hr].
  - pose proof (desk_send_valid f w d Hd He E) as Hv. destruct Hd as [Hi (base & Hb & Hc) Hr].
    destruct (event_sends _ _ Hi He) as [Ec _].
    constructor; cbn; [by eapply default_event_inv| |].
    + exists base. rewrite E, Ec. split; [by eapply served_snoc|exact Hc].
    + apply Forall_app. split; [exact Hr|by repeat constructor].
  - destruct Hd as [Hi (base & Hb & Hc) Hr]. rewrite Ew, Ea in Hb. destruct Hb as (s' & Es & Hb).
    destruct (settle_config w ws a (dk_form d)) as [E1 E2].
    constructor; cbn [dk_form dk_answers dk_server dk_loaded dk_received]; [| |exact Hr].
    + by apply (default_settle_inv [] ws).
    + exists s'. rewrite E1, E2. split; [exact Hb|]. destruct a as [e|v].
      * rewrite orb_false_r. apply (fs_failure Hserver) in Es as ->. exact Hc.
      * rewrite orb_true_r. by apply (fs_success Hserver) in Es.
Qed.

Lemma desk_reachable_inv (d : Desk) : desk_reachable d -> desk_inv d.
Proof.
  induction 1 as [regions s|d d' _ IH Hs]; [|by eapply desk_step_inv].
  constructor; cbn; [apply default_reachable_inv, dr_mount| |by repeat constructor].
  exists s. split; [|done]. exists (serve LoadDefault s).1. split; [by destruct (serve _ s)|done].
Qed.

Lemma idle_desk_shown (d : Desk) :
  desk_inv d -> changes (dk_form d) = [] -> dk_loaded d = true ->
  df_config (dk_form d) = view (dk_server d).
Proof.
  intros [_ (base & Hb & Hc) _] Hn El. rewrite El in Hc. by rewrite Hc, (served_loads _ _ _ _ Hn Hb).
Qed.

(** What can be edited: the settings and the key, and the account to be added. *)
Definition draftOf (f : DefaultForm) : bool * AudienceMode * string * string :=
  (df_enabled f, df_mode f, df_apiURL f, df_apiKey f).

(** The draft of a configuration that has not been edited. *)
Definition untouched (regions : list SandboxRegion) (c : SandboxServiceDefault) :
    bool * AudienceMode * string * string :=
  (default_enabled c, default_audience_mode c,
   sandboxServiceDefaultAPIURL hostname (default_api_url c) regions, "").

(** The requests whose answer is the draft from then on. *)
Definition redraws (c : DefaultCall) : bool :=
  match c with AddAudience _ | RemoveAudience _ => false | _ => true end.

End server.
End hostnames.
End texts.

(** ** Examples *)

Definition example_config (enabled : bool) (apiURL : string) (key : bool) : SandboxServiceDefault := {|
  default_enabled := enabled; default_configured := str_truthy apiURL && key;
  default_audience_mode := AudienceAll; default_audiences := []; default_available_accounts := [];
  default_api_url := apiURL; default_key_configured := key;
  default_key_updated_at := None |}.

(** A server that keeps the configuration, and knows no GitHub account. *)
Definition example_serve (c : DefaultCall) (s : SandboxServiceDefault) :
    SandboxServiceDefault * (thrown + SandboxServiceDefault) :=
  match c with
  | LoadDefault => (s, inr s)
  | SaveDefault enabled _ apiURL apiKey =>
      let v := example_config enabled apiURL (default_key_configured s || str_truthy apiKey) in
      (v, inr v)
  | RemoveDefaultKey =>
      let v := example_config (default_enabled s) (default_api_url s) false in (v, inr v)
  | AddAudience _ | RemoveAudience _ => (s, inl ThrownOther)
  end.

Lemma example_faithful : faithful_server example_serve (fun s => s).
Proof.
  constructor.
  - intros c s s' v. destruct c; cbn; congruence.
  - intros c s s' e. destruct c; cbn; congruence.
  - done.
Qed.

Definition example_region : SandboxRegion :=
  {| region_id := "cn"; region_label := "China"; region_apiURL := "https://cn.example" |}.

(** The texts, as their keys. *)
Definition plain (key : string) : string := key.

Definition no_host (_ : string) : option string := None.

(** Loading, choosing a region, typing a key, enabling, saving. *)
Definition example_load : Waiting := {| wt_call := LoadDefault; wt_regions := [example_region] |}.
Definition example_loaded : DefaultForm :=
  settleDefault plain no_host example_load [] (inr emptyConfig) (mountDefault [example_region]).
Definition example_region_picked : DefaultForm := pickRegion "cn" example_loaded.
Definition example_key_typed : DefaultForm :=
  with_draft false AudienceAll "" "https://cn.example" "secret" "" example_region_picked.
Definition example_filled : DefaultForm :=
  with_draft true AudienceAll "" "https://cn.example" "secret" "" example_key_typed.
Definition example_saving : DefaultForm := saveDefault plain example_filled.
Definition example_save : Waiting :=
  {| wt_call := saveCall example_filled; wt_regions := [example_region] |}.
Definition example_saved : SandboxServiceDefault := example_config true "https://cn.example" true.

Lemma example_filling :
  default_event plain example_loaded example_region_picked /\
  default_event plain example_region_picked example_key_typed /\
  default_event plain example_key_typed example_filled /\
  default_event plain example_filled example_saving.
Proof.
  split_and!.
  - apply dv_region; [by vm_compute|by left].
  - by apply (dv_key _ "secret" example_region_picked); vm_compute.
  - by apply (dv_enabled _ true example_key_typed); vm_compute.
  - by apply dv_save; vm_compute.
Qed.

Lemma example_filled_reachable : default_reachable plain no_host example_filled.
Proof.
  destruct example_filling as (H1 & H2 & H3 & _).
  eapply dr_step; [|by apply ds_event, H3]. eapply dr_step; [|by apply ds_event, H2].
  eapply dr_step; [|by apply ds_event, H1]. eapply dr_step; [apply dr_mount|].
  by apply (ds_settle _ _ [] example_load []).
Qed.

Lemma default_changes_valid_witness :
  (List.length (changes example_saving) <= 1)%nat /\
  (example_save ∈ df_waiting example_filled \/
   valid_call (default_key_configured (df_config example_saving)) (wt_call example_save) = true).
Proof.
  apply (default_changes_valid plain no_host example_filled example_saving example_save).
  - apply example_filled_reachable.
  - apply ds_event, example_filling.
  - vm_compute. left.
Defined.

Definition example_desk (f : DefaultForm) (answers : list (thrown + SandboxServiceDefault))
    (server : SandboxServiceDefault) (sent : list (DefaultCall * SandboxServiceDefault)) : Desk := {|
  dk_form := f; dk_answers := answers; dk_server := server; dk_loaded := true;
  dk_received := (LoadDefault, emptyConfig) :: sent |}.

Lemma example_saving_desk :
  desk_reachable plain no_host example_serve
    (example_desk example_saving [inr example_saved] example_saved
       [(wt_call example_save, emptyConfig)]).
Proof.
  destruct example_filling as (H1 & H2 & H3 & H4).
  eapply (dk_next _ _ _ (example_desk example_filled [] emptyConfig []));
    [|by apply (dk_send _ _ _ example_saving example_save example_saved (inr example_saved)
        (example_desk example_filled [] emptyConfig []) H4)].
  eapply (dk_next _ _ _ (example_desk example_key_typed [] emptyConfig []));
    [|by apply (dk_event _ _ _ _ (example_desk example_key_typed [] emptyConfig []) H3)].
  eapply (dk_next _ _ _ (example_desk example_region_picked [] emptyConfig []));
    [|by apply (dk_event _ _ _ _ (example_desk example_region_picked [] emptyConfig []) H2)].
  eapply (dk_next _ _ _ (example_desk example_loaded [] emptyConfig []));
    [|by apply (dk_event _ _ _ _ (example_desk example_loaded [] emptyConfig []) H1)].
  eapply dk_next; [apply (dk_mount _ _ _ [example_region] emptyConfig)|].
  by apply (dk_answer _ _ _ example_load [] (inr emptyConfig) []).
Qed.


(** The regions arrive while the first load is in flight: the first answer makes
    the form editable, and the answer of the second load, sent before the save,
    replaces what was saved and loses what was typed since. *)
Example late_load_hides_save :
  let first := {| wt_call := LoadDefault; wt_regions := [] |} in
  let f := setRegions [example_region] (mountDefault []) in
  let f := settleDefault plain no_host first [example_load] (inr emptyConfig) f in
  let editable := formActive f in
  let f := with_draft true AudienceAll "" "https://cn.example" "secret" "" f in
  let f := saveDefault plain f in
  let f := settleDefault plain no_host example_save [example_load] (inr example_saved) f in
  let saved := df_config f in
  let f := settleDefault plain no_host example_load [] (inr emptyConfig) f in
  editable = true /\ saved = example_saved /\ df_waiting f = [] /\ df_config f = emptyConfig.
Proof. vm_compute. by split_and!. Qed.
