(* ===== verification/Navigation.v ===== *)
(** The address of the console and the page it shows: the location state of
    src/ui/src/App.tsx with every handler that writes the browser's history, the
    effects that rewrite old addresses, and the page [App] renders.

    Addresses are written in the form the browser's URL parser gives them. *)
From S2P Require Import Prelude.
From S2P Require Import JsString.
From S2P Require Import UrlPath.
From S2P Require Import JsRegex.
From S2P Require Import JsUri.
From S2P Require Import AdminTypes.
From S2P Require Import LoadPolicy.
From S2P Require Import AppRoutes.
From S2P Require Import Readiness.

(** ** The browser *)

Record Address := { ad_path : string; ad_search : string }.

Definition addressOf (url : string) : Address :=
  {| ad_path := location_pathname url; ad_search := location_search url |}.

(** An address as the URL parser gives it. *)
Definition plain_address (a : Address) : Prop := addressOf (ad_path a +:+ ad_search a) = a.

(** The session history, and the state of [App]: [locationPath],
    [locationSearch], [userSelectedKey] and [section]. *)
Record Nav := {
  nv_back : list Address;
  nv_here : Address;
  nv_forward : list Address;
  nv_path : string;
  nv_search : string;
  nv_key : string;
  nv_section : AdminSection;
  (** The path and search for which the effects ran last. *)
  nv_seen : option (string * string);
  nv_signedOut : bool;
  (** A page of requests of which there are none emptied [userSelectedKey], and
      nothing has selected a context since. *)
  nv_emptied : bool;
}.

Definition with_history (back : list Address) (here : Address) (forward : list Address) (n : Nav) :
    Nav := {|
  nv_back := back; nv_here := here; nv_forward := forward; nv_path := nv_path n;
  nv_search := nv_search n; nv_key := nv_key n; nv_section := nv_section n;
  nv_seen := nv_seen n; nv_signedOut := nv_signedOut n; nv_emptied := nv_emptied n |}.

Definition with_location (path search : string) (n : Nav) : Nav := {|
  nv_back := nv_back n; nv_here := nv_here n; nv_forward := nv_forward n; nv_path := path;
  nv_search := search; nv_key := nv_key n; nv_section := nv_section n; nv_seen := nv_seen n;
  nv_signedOut := nv_signedOut n; nv_emptied := nv_emptied n |}.

Definition with_selection (key : string) (emptied : bool) (section : AdminSection) (n : Nav) : Nav := {|
  nv_back := nv_back n; nv_here := nv_here n; nv_forward := nv_forward n; nv_path := nv_path n;
  nv_search := nv_search n; nv_key := key; nv_section := section; nv_seen := nv_seen n;
  nv_signedOut := nv_signedOut n; nv_emptied := emptied |}.

Definition with_seen (seen : option (string * string)) (signedOut : bool) (n : Nav) : Nav := {|
  nv_back := nv_back n; nv_here := nv_here n; nv_forward := nv_forward n; nv_path := nv_path n;
  nv_search := nv_search n; nv_key := nv_key n; nv_section := nv_section n; nv_seen := seen;
  nv_signedOut := signedOut; nv_emptied := nv_emptied n |}.

Definition pushState (url : string) (n : Nav) : Nav :=
  with_history (nv_here n :: nv_back n) (addressOf url) [] n.
Definition replaceState (url : string) (n : Nav) : Nav :=
  with_history (nv_back n) (addressOf url) (nv_forward n) n.

(** [setLocationPath(window.location.pathname)] and the same for the search. *)
Definition readLocation (n : Nav) : Nav :=
  with_location (ad_path (nv_here n)) (ad_search (nv_here n)) n.

Definition setUserSelectedKey (key : string) (n : Nav) : Nav :=
  with_selection key false (nv_section n) n.

(** [window.location.pathname + window.location.search] *)
Definition currentURL (n : Nav) : string := ad_path (nv_here n) +:+ ad_search (nv_here n).

Definition mountNav (a : Address) : Nav := {|
  nv_back := []; nv_here := a; nv_forward := []; nv_path := ad_path a; nv_search := ad_search a;
  nv_key := userJobsGroupKeyFromLocation (ad_path a) (ad_search a);
  nv_section := sectionFromPath (ad_path a); nv_seen := None; nv_signedOut := false;
  nv_emptied := false |}.

(** ** The handlers *)

Definition goTo (url : string) (n : Nav) : Nav :=
  readLocation (if bool_decide (currentURL n = url) then n else pushState url n).

Inductive UserPageKind := HomePage | RepositoriesPage | SettingsPage.

Definition setUserPage (next : UserPageKind) (n : Nav) : Nav :=
  goTo match next with
       | SettingsPage => "/account/preferences"
       | RepositoriesPage => "/repositories"
       | HomePage => userJobsPath (nv_key n)
       end n.

Definition setRepositoryAccount (accountLogin currentLogin : option string) (n : Nav) : Nav :=
  goTo (repositoryPath accountLogin currentLogin) n.

Definition openProductTourStart (n : Nav) : Nav :=
  let n := setUserSelectedKey "" n in
  with_location "/jobs" ""
    (if negb (bool_decide (ad_path (nv_here n) = "/jobs")) || str_truthy (ad_search (nv_here n))
     then pushState "/jobs" n else n).

Definition setAccountSettingsRoute (accountLogin currentLogin : option string)
    (tab : AccountSettingsTab) (n : Nav) : Nav :=
  let nextPath := accountSettingsPath accountLogin currentLogin tab in
  readLocation (if bool_decide (ad_path (nv_here n) = nextPath) then n else pushState nextPath n).

Definition setUserJobsSelection (key : string) (n : Nav) : Nav :=
  goTo (userJobsPath key) (setUserSelectedKey key n).

(** [setSection] writes the path alone. *)
Definition setSection (next : string) (n : Nav) : Nav :=
  let n := with_selection (nv_key n) (nv_emptied n) (setSectionTarget next) n in
  let nextPath := setSectionPath next in
  if bool_decide (ad_path (nv_here n) = nextPath) then n
  else with_location nextPath (nv_search n) (pushState nextPath n).

Definition openUserJob (id : string) (n : Nav) : Nav :=
  readLocation (pushState (openUserJobPath (nv_key n) id) n).

Definition backToUserJobs (n : Nav) : Nav := readLocation (pushState (userJobsPath (nv_key n)) n).

(** [onResolved] of the job page. *)
Definition onResolved (userJobID key : string) (n : Nav) : Nav :=
  readLocation (replaceState (withSearchParam (userJobsPath key) "job" userJobID)
    (setUserSelectedKey key n)).

(** The end of [syncGitHubAppSetupFromURL]. *)
Definition settleSetup (accountLogin currentLogin : option string) (n : Nav) : Nav :=
  readLocation (replaceState (repositoryPath accountLogin currentLogin) n).

Definition handlePopState (n : Nav) : Nav :=
  let n := readLocation n in
  with_selection (userJobsGroupKeyFromLocation (nv_path n) (nv_search n)) false
    (sectionFromPath (nv_path n)) n.

Definition signOut (n : Nav) : Nav := with_seen (nv_seen n) true (setUserSelectedKey "" n).

(** A page of the user's requests arrives in [loadUserAll]: where the service counts
    none, no context stays selected, whatever the address names. *)
Definition runnerPageLoaded (total : Z) (n : Nav) : Nav :=
  if (total =? 0)%Z then with_selection "" true (nv_section n) n else n.

(** ** The effects *)

Definition settingsEffect (path : string) (n : Nav) : Nav :=
  match settingsRedirect path with
  | Some next =>
      let n := replaceState (next +:+ ad_search (nv_here n)) n in
      with_location next (ad_search (nv_here n)) n
  | None => n
  end.

(** The search of the address is dropped, [locationSearch] stays. *)
Definition sandboxEffect (path : string) (n : Nav) : Nav :=
  match sandboxRedirect path with
  | Some next => with_location next (nv_search n) (replaceState next n)
  | None => n
  end.

Definition jobsEffect (path search : string) (n : Nav) : Nav :=
  match jobsRouteEffect path search with
  | Some e =>
      let n := setUserSelectedKey (effect_key e) n in
      match effect_replace e with
      | Some next => readLocation (replaceState next n)
      | None => n
      end
  | None => n
  end.

(** The effects of a render with this path and search. *)
Definition effects (path search : string) (n : Nav) : Nav :=
  with_seen (Some (path, search)) (nv_signedOut n)
    (jobsEffect path search (sandboxEffect path (settingsEffect path n))).

Definition settled (n : Nav) : bool := bool_decide (nv_seen n = Some (nv_path n, nv_search n)).

Definition rerender (n : Nav) : Nav :=
  if settled n then n else effects (nv_path n) (nv_search n) n.

(** ** Steps *)

(** A key whose URL has no dot segments: the browser leaves its path as it is. *)
Definition plain_key (key : string) : Prop := dotless (raw_path (userJobsPath key)) = true.

(** The keys of build contexts. *)
Definition proper_key (key : string) : Prop :=
  key = "" \/ exists k, group_key_ok k /\ key = group_key_string k.

Inductive navigation : Nav -> Nav -> Prop :=
  | ng_page next n :
      (next = HomePage -> plain_key (nv_key n)) -> navigation n (setUserPage next n)
  | ng_repository accountLogin login n :
      navigation n (setRepositoryAccount accountLogin login n)
  | ng_tour n : navigation n (openProductTourStart n)
  | ng_settings accountLogin login tab n :
      navigation n (setAccountSettingsRoute accountLogin login tab n)
  | ng_select key n : proper_key key -> navigation n (setUserJobsSelection key n)
  | ng_section next n : navigation n (setSection next n)
  | ng_openJob id n : utf8 id -> plain_key (nv_key n) -> navigation n (openUserJob id n)
  | ng_back n : plain_key (nv_key n) -> navigation n (backToUserJobs n)
  | ng_resolved id key n :
      utf8 id -> proper_key key -> key <> "" -> navigation n (onResolved id key n)
  | ng_setup accountLogin login n : navigation n (settleSetup accountLogin login n)
  | ng_previous a back n :
      nv_back n = a :: back ->
      navigation n (handlePopState (with_history back a (nv_here n :: nv_forward n) n))
  | ng_next a forward n :
      nv_forward n = a :: forward ->
      navigation n (handlePopState (with_history (nv_here n :: nv_back n) a forward n))
  | ng_signOut n : navigation n (signOut n).

(** With [orderly], events come after the effects of the last render have run;
    without, the effects of an earlier render may run late.  The key of an address,
    which anyone can write, is one that the URL of a context keeps: what happens
    otherwise is [dots_leave_the_jobs]. *)
Inductive nav_step (orderly : bool) : Nav -> Nav -> Prop :=
  | nt_navigation n n' :
      navigation n n' -> (orderly = true -> settled n = true) -> nav_step orderly n n'
  | nt_effects path search n :
      (if orderly then path = nv_path n /\ search = nv_search n else plain_path path) ->
      plain_key (userJobsGroupKeyFromLocation path search) ->
      nav_step orderly n (effects path search n)
  | nt_runners total n : nav_step orderly n (runnerPageLoaded total n).

Inductive nav_reachable (orderly : bool) : Nav -> Prop :=
  | nr_mount a : plain_address a -> nav_reachable orderly (mountNav a)
  | nr_step n n' : nav_reachable orderly n -> nav_step orderly n n' -> nav_reachable orderly n'.

(** ** The page *)

Inductive Page :=
  | LandingPage
  | DocsPage (path : string)
  | NotFoundPage
  | SessionLoadingPage
  | SessionErrorPage
  | SignInPage (returnTo : string)
  | AccessDeniedPage
  | JobPage (id : string)
  | DashboardPage (page : UserPageKind)
  | AdminPage (section : AdminSection).

Definition hasAccess (session : AuthSession) : bool :=
  authenticated session && bool_decide (role session = Some "admin").

Definition userPage (session : AuthSession) (path : string) : UserPageKind :=
  if opt_truthy (repositoryAccountLogin path (login session)) then RepositoriesPage
  else if bool_decide (is_Some (parseAccountSettingsRoute path (login session))) then SettingsPage
  else HomePage.

Definition pageShown (status : AuthSessionCheckStatus) (session : AuthSession) (n : Nav) : Page :=
  match appRouteAccess (nv_path n) with
  | access_public =>
      if bool_decide (nv_path n = "/") then LandingPage else DocsPage (nv_path n)
  | access_not_found => NotFoundPage
  | access =>
      match authRouteViewState status (authenticated session) with
      | view_loading => SessionLoadingPage
      | view_error => SessionErrorPage
      | view_sign_in => SignInPage (nv_path n +:+ nv_search n)
      | view_authenticated =>
          let isAdminRoute := bool_decide (access = access_admin) in
          if isAdminRoute && negb (hasAccess session) then AccessDeniedPage
          else if negb isAdminRoute then
            if str_truthy (userJobIDFromPath (nv_path n)) then JobPage (userJobIDFromPath (nv_path n))
            else DashboardPage (userPage session (nv_path n))
          else AdminPage (nv_section n)
      end
  end.

(** * Properties *)

(** ** The addresses written *)

Definition user_prefixes : list string :=
  ["/jobs"; "/github"; "/organizations"; "/repositories"; "/account"].

Definition jobs_prefixes : list string := ["/jobs"; "/github"].

(** A URL that starts with one of the prefixes. *)
Definition within (prefixes : list string) (url : string) : Prop :=
  exists p r, p ∈ prefixes /\ url = p +:+ r.

Abbreviation user_url := (within user_prefixes).
Abbreviation jobs_url := (within jobs_prefixes).

Lemma within_app (prefixes : list string) (p r : string) :
  p ∈ prefixes -> within prefixes (p +:+ r).
Proof. intros H. by exists p, r. Qed.

Lemma user_prefix (p r : string) : p ∈ user_prefixes -> user_url (p +:+ r).
Proof. apply within_app. Qed.

Lemma jobs_user (url : string) : jobs_url url -> user_url url.
Proof. intros (p & r & Hp & ->). apply user_prefix. unfold jobs_prefixes in Hp. set_solver. Qed.

Definition plain_prefixes (prefixes : list string) : Prop :=
  Forall (fun p => free "?" p = true) prefixes.

Lemma user_prefixes_free : plain_prefixes user_prefixes.
Proof. by repeat constructor. Qed.
Lemma jobs_prefixes_free : plain_prefixes jobs_prefixes.
Proof. by repeat constructor. Qed.

Lemma split_on_prefix (x : ascii) (p r : string) :
  free x p = true -> exists w ws, split_on x (p +:+ r) = (p +:+ w) :: ws.
Proof.
  induction p as [|a p IH]; cbn [String.append].
  - intros _. destruct (split_on x r) as [|w ws] eqn:E; [by apply split_on_nonempty in E|]. by exists w, ws.
  - unfold free. cbn [sforall split_on]. intros [Ha Hp]%andb_prop. apply not_char_neq in Ha.
    destruct (Ascii.eqb_spec x a); [done|]. destruct (IH Hp) as (w & ws & ->). by exists w, ws.
Qed.

Lemma withSearchParam_prefix (p r k v : string) :
  free "?" p = true -> exists r', withSearchParam (p +:+ r) k v = p +:+ r'.
Proof.
  intros Hp. unfold withSearchParam. destruct (split_on_prefix "?" p r Hp) as (w & ws & ->).
  change (default "" (((p +:+ w) :: ws) !! 0)) with (p +:+ w). cbn zeta.
  destruct (str_truthy _); [|by eexists]. rewrite sapp_assoc. by eexists.
Qed.

Lemma raw_prefix (p r : string) :
  free "?" p = true -> exists r', raw_path (p +:+ r) = p +:+ r'.
Proof.
  intros Hp. rewrite <- raw_path_split. destruct (split_on_prefix "?" p r Hp) as (w & ws & ->). by exists w.
Qed.

Lemma withSearchParam_raw (url k v : string) : raw_path (withSearchParam url k v) = raw_path url.
Proof.
  unfold withSearchParam. rewrite raw_path_split.
  destruct (str_truthy _); [apply raw_path_query|apply raw_path_plain]; apply raw_path_free.
Qed.

Lemma admin_prefix (p : string) : appRouteAccess p = access_admin -> startsWith "/admin" p = true.
Proof.
  unfold appRouteAccess. destruct (_ || _); [done|]. destruct (isAdminRoute p) eqn:E.
  - intros _. apply isAdminRoute_spec in E as [->|[->|[s ->]]]; [done..|by destruct s].
  - by destruct (isUserRoute p).
Qed.

Lemma within_raw (prefixes : list string) (url : string) :
  plain_prefixes prefixes -> within prefixes url -> within prefixes (raw_path url).
Proof.
  unfold plain_prefixes. rewrite Forall_forall. intros Hf (p & r & Hp & ->).
  destruct (raw_prefix p r (Hf p Hp)) as [r' ->]. by apply within_app.
Qed.

Lemma within_path (prefixes : list string) (url : string) :
  plain_prefixes prefixes -> dotless (raw_path url) = true -> within prefixes url ->
  within prefixes (location_pathname url).
Proof. intros Hf Hd H. rewrite dotless_raw by done. by apply within_raw. Qed.

Lemma within_search (prefixes : list string) (url k v : string) :
  plain_prefixes prefixes -> within prefixes url -> within prefixes (withSearchParam url k v).
Proof.
  unfold plain_prefixes. rewrite Forall_forall. intros Hf (p & r & Hp & ->).
  destruct (withSearchParam_prefix p r k v (Hf p Hp)) as [r' ->]. by apply within_app.
Qed.

Lemma user_url_not_admin (path : string) : user_url path -> appRouteAccess path <> access_admin.
Proof.
  intros (p & r & Hp & ->) H%admin_prefix. revert Hp H. unfold user_prefixes.
  rewrite !elem_of_cons, elem_of_nil. by intros [->|[->|[->|[->|[->|[]]]]]].
Qed.

Lemma userJobsPath_jobs (key : string) : jobs_url (userJobsPath key).
Proof.
  unfold userJobsPath. destruct (negb (str_truthy key)).
  { apply (within_app _ "/jobs" ""). set_solver. }
  destruct (groups2 (exec prKeyRe key)) as [[o n]|].
  { apply (within_app _ "/github" ("/pulls/" +:+ encodeRepositoryPath o +:+ "/" +:+ n +:+ "/jobs")).
    set_solver. }
  destruct (groups2 (exec runKeyRe key)) as [[o n]|].
  { apply (within_app _ "/github" ("/runs/" +:+ encodeRepositoryPath o +:+ "/" +:+ n +:+ "/jobs")).
    set_solver. }
  destruct (groups3 (exec branchKeyRe key)) as [[[o b] sha]|].
  { apply within_search; [apply jobs_prefixes_free|].
    apply (within_app _ "/github" ("/branches/" +:+ encodeRepositoryPath o +:+ "/" +:+
      encodeURIComponent sha +:+ "/jobs")). set_solver. }
  destruct (groups2 (exec manualKeyRe key)) as [[o n]|].
  { apply (within_app _ "/jobs" ("/manual/" +:+ encodeRepositoryPath o +:+ "/" +:+
      encodeURIComponent n)). set_solver. }
  apply (within_app _ "/jobs" ("?group=" +:+ encodeURIComponent key)). set_solver.
Qed.

Lemma userJobsPath_user (key : string) : user_url (userJobsPath key).
Proof. apply jobs_user, userJobsPath_jobs. Qed.

Lemma withSearchParam_user (url k v : string) : user_url url -> user_url (withSearchParam url k v).
Proof. apply within_search, user_prefixes_free. Qed.

#[export] Hint Resolve user_prefixes_free jobs_prefixes_free userJobsPath_jobs userJobsPath_user
  withSearchParam_user : runnerd.

(** URLs that lead to no page of the administration. *)
Definition leads_user (url : string) : Prop := appRouteAccess (location_pathname url) <> access_admin.

Lemma plain_leads (url : string) : dotless (raw_path url) = true -> user_url url -> leads_user url.
Proof. intros Hd H. by apply user_url_not_admin, within_path; [apply user_prefixes_free|..]. Qed.

Lemma userJobsPath_leads (key : string) : plain_key key -> leads_user (userJobsPath key).
Proof. intros H. apply plain_leads; [done|auto with runnerd]. Qed.

Lemma withSearchParam_leads (key k v : string) :
  plain_key key -> leads_user (withSearchParam (userJobsPath key) k v).
Proof.
  intros H. apply plain_leads; [by rewrite withSearchParam_raw|auto with runnerd].
Qed.

Lemma proper_plain (key : string) : proper_key key -> plain_key key.
Proof.
  intros [->|(k & Hk & ->)]; [done|]. unfold plain_key. rewrite userJobsPath_url, url_of_raw by
    (done || by apply group_key_url_free). by apply group_key_url_dotless.
Qed.

(** Names of accounts and identifiers of jobs, whatever they are. *)
Lemma openUserJobPath_leads (key job : string) : plain_key key -> leads_user (openUserJobPath key job).
Proof.
  intros H. unfold openUserJobPath. destruct (_ && _) eqn:E.
  - destruct (str_truthy key); [by apply withSearchParam_leads|done].
  - assert (location_pathname ("/jobs/" +:+ encodeURIComponent job) ∈
      ["/jobs/" +:+ encodeURIComponent job; "/jobs/"; "/"]) as Hin
      by (apply (location_two "jobs"); try done; by apply encode_free).
    unfold leads_user. rewrite !elem_of_cons, elem_of_nil in Hin.
    destruct Hin as [->|[->|[->|[]]]]; [|done..]. intros Ha%admin_prefix. done.
Qed.

(** The page of an account or of an organization. *)
Definition accountURL (prefix tab : string) (url : string) : Prop :=
  url = prefix \/ exists login, url = "/organizations/" +:+ encodeURIComponent login +:+ "/" +:+ tab.

Lemma organization_path (login tab : string) :
  no_dot tab = true -> free "/" tab = true -> free "?" tab = true ->
  location_pathname ("/organizations/" +:+ encodeURIComponent login +:+ "/" +:+ tab) ∈
    ["/organizations/" +:+ encodeURIComponent login +:+ "/" +:+ tab; "/organizations/" +:+ tab; "/" +:+ tab].
Proof.
  intros. apply (location_three "organizations"); try done; by apply encode_free.
Qed.

Lemma repositoryPath_url (a l : option string) :
  accountURL "/repositories" "repositories" (repositoryPath a l).
Proof. unfold repositoryPath. destruct (_ || _); [by left|right; by eexists]. Qed.

Lemma accountSettingsPath_url (a l : option string) (tab : AccountSettingsTab) :
  accountURL ("/account/" +:+ tabSegment tab) (tabSegment tab) (accountSettingsPath a l tab).
Proof. unfold accountSettingsPath. destruct (_ || _); [by left|right; by eexists]. Qed.

Lemma accountURL_leads (prefix url : string) (tab : AccountSettingsTab) :
  leads_user prefix -> accountURL prefix (tabSegment tab) url -> leads_user url.
Proof.
  intros Hp [->|[login ->]]; [done|]. unfold leads_user.
  pose proof (organization_path login (tabSegment tab)) as Hin.
  rewrite !elem_of_cons, elem_of_nil in Hin.
  destruct Hin as [->|[->|[->|[]]]]; try (by destruct tab); by intros Ha%admin_prefix.
Qed.

Lemma repositoryPath_leads (a l : option string) : leads_user (repositoryPath a l).
Proof. by apply (accountURL_leads "/repositories" _ TabRepositories), repositoryPath_url. Qed.

Lemma accountSettingsPath_leads (a l : option string) (tab : AccountSettingsTab) :
  leads_user (accountSettingsPath a l tab).
Proof. eapply accountURL_leads, accountSettingsPath_url. by destruct tab. Qed.

#[export] Hint Resolve userJobsPath_leads withSearchParam_leads proper_plain openUserJobPath_leads
  repositoryPath_leads accountSettingsPath_leads : runnerd.

(** A jobs page starts with [/jobs] or [/github]. *)
Lemma jobs_route_prefix (p : string) :
  isUserJobsRoute p = true -> startsWith "/jobs" p = true \/ startsWith "/github" p = true.
Proof.
  unfold isUserJobsRoute. intros [->%bool_decide_eq_true_1|H]%orb_prop; [by left|].
  apply str_truthy_true, group_key_pattern in H as (ps & caps & Hps & Hm).
  repeat (apply elem_of_cons in Hps as [->|Hps]); [..|by apply not_elem_of_nil in Hps];
    apply matches_lit_inv in Hm as (r & -> & _); by (left + right).
Qed.

Lemma sandboxRedirect_spec (p next : string) :
  sandboxRedirect p = Some next ->
  next = "/account/sandbox-templates" \/
  exists w, next = "/organizations/" +:+ w +:+ "/sandbox-templates".
Proof.
  unfold sandboxRedirect. destruct (_ && _) eqn:E; [done|]. intros [= <-].
  apply andb_false_iff in E as [E|E]; apply negb_false_iff in E.
  { apply bool_decide_eq_true_1 in E as ->. by left. }
  right. apply test_spec in E as [caps E]. apply matches_lit_inv in E as (r & -> & E).
  apply matches_many_inv in E as (w & r' & c & -> & _ & _ & E & _).
  apply matches_lit_inv in E as (r & -> & E). apply matches_nil_inv in E as [-> _].
  exists w. rewrite sapp_nil_r, <- sapp_assoc, replace_suffix_app. by rewrite !sapp_assoc.
Qed.

Lemma sandboxRedirect_plain (p next : string) :
  plain_path p -> sandboxRedirect p = Some next -> plain_path next.
Proof.
  unfold sandboxRedirect. intros [Hf Hp]%plain_parsed. destruct (_ && _) eqn:E; [done|]. intros [= <-].
  apply andb_false_iff in E as [E|E]; apply negb_false_iff in E.
  { apply bool_decide_eq_true_1 in E as ->. done. }
  apply test_spec in E as [caps E]. apply matches_lit_inv in E as (r & -> & E).
  apply matches_many_inv in E as (w & r' & c & -> & _ & Hw & E & _). rewrite class_run_NotSlash in Hw.
  apply matches_lit_inv in E as (r & -> & E). apply matches_nil_inv in E as [-> _].
  rewrite sapp_nil_r in *. rewrite <- sapp_assoc, replace_suffix_app.
  rewrite !free_app in Hf. apply andb_prop in Hf as [_ Hf]. apply andb_prop in Hf as [Hq _].
  destruct Hp as [Hp|Hp]; [done|]. rewrite sapp_assoc.
  apply dotless_plain; [by rewrite !free_app, Hq|]. revert Hp.
  assert (forall w s, free "/" w = true -> dotless (w +:+ "/" +:+ s) = no_dot w && dotless s) as Hd
    by (intros; by apply (dotless_app)).
  change (dotless ("" +:+ "/" +:+ ("organizations" +:+ "/" +:+ (w +:+ "/" +:+ "sandbox"))) = true ->
    dotless ("" +:+ "/" +:+ ("organizations" +:+ "/" +:+ (w +:+ "/" +:+ "sandbox-templates"))) = true).
  by rewrite !Hd.
Qed.

Lemma sandboxRedirect_jobs (p next : string) :
  sandboxRedirect p = Some next -> isUserJobsRoute next = false.
Proof.
  intros [->|[w ->]]%sandboxRedirect_spec; [done|]. destruct (isUserJobsRoute _) eqn:E; [|done].
  by apply jobs_route_prefix in E as [E|E].
Qed.

(** ** The state follows the address *)

Record in_step (n : Nav) : Prop := {
  is_plain : Forall plain_address (nv_here n :: nv_back n ++ nv_forward n);
  is_path : nv_path n = ad_path (nv_here n);
  is_search : nv_search n = ad_search (nv_here n) \/
              ad_search (nv_here n) = "" /\ isUserJobsRoute (nv_path n) = false;
  is_section : appRouteAccess (nv_path n) = access_admin ->
               nv_section n = sectionFromPath (nv_path n);
}.

(** A path the browser keeps, followed by the search of an address. *)
Lemma addressOf_app (p search : string) :
  plain_path p ->
  (search = "" \/ exists q, str_truthy q = true /\ search = String "?" q) ->
  addressOf (p +:+ search) = {| ad_path := p; ad_search := search |}.
Proof. intros Hp Hs. unfold addressOf. by destruct (location_app p search Hp Hs) as [-> ->]. Qed.

Lemma addressOf_plain (url : string) : plain_address (addressOf url).
Proof.
  apply addressOf_app; [apply location_pathname_plain|apply location_search_cases].
Qed.

Lemma plain_parts (a : Address) : plain_address a ->
  plain_path (ad_path a) /\
  (ad_search a = "" \/ exists q, str_truthy q = true /\ ad_search a = String "?" q).
Proof.
  intros H. rewrite <- H. split; [apply location_pathname_plain|apply location_search_cases].
Qed.

(** Reading the location leaves only the section to check. *)
Lemma readLocation_in_step (n : Nav) :
  Forall plain_address (nv_here n :: nv_back n ++ nv_forward n) ->
  (appRouteAccess (ad_path (nv_here n)) = access_admin ->
   nv_section n = sectionFromPath (ad_path (nv_here n))) ->
  in_step (readLocation n).
Proof. intros Hp H. constructor; [exact Hp|done|by left|exact H]. Qed.

Lemma written_in_step (back forward : list Address) (url : string) (n : Nav) :
  leads_user url -> Forall plain_address (back ++ forward) ->
  in_step (readLocation (with_history back (addressOf url) forward n)).
Proof.
  intros H Hp. apply readLocation_in_step; [constructor; [apply addressOf_plain|exact Hp]|]. by intros Ha%H.
Qed.

Lemma kept_in_step (n : Nav) : in_step n -> in_step (readLocation n).
Proof. intros [Hp H1 H2 H3]. apply readLocation_in_step; [exact Hp|]. by rewrite <- H1. Qed.

Lemma key_in_step (key : string) (n : Nav) : in_step n -> in_step (setUserSelectedKey key n).
Proof. intros [Hp H1 H2 H3]. by constructor. Qed.

(** The history after a push, and after a replacement. *)
Lemma pushed_plain (n : Nav) : in_step n -> Forall plain_address ((nv_here n :: nv_back n) ++ []).
Proof.
  intros [Hp _ _ _]. rewrite app_nil_r. inversion Hp as [|x l Hx Hl]; subst.
  apply Forall_app in Hl as [Hl _]. by constructor.
Qed.

Lemma replaced_plain (n : Nav) : in_step n -> Forall plain_address (nv_back n ++ nv_forward n).
Proof. intros [Hp _ _ _]. by inversion Hp. Qed.

Lemma goTo_in_step (url : string) (n : Nav) : leads_user url -> in_step n -> in_step (goTo url n).
Proof.
  intros Hu Hn. unfold goTo. destruct (bool_decide _); [by apply kept_in_step|].
  by apply written_in_step; [|apply pushed_plain].
Qed.

Lemma jobs_free_section (next : string) : isUserJobsRoute (setSectionPath next) = false.
Proof. unfold setSectionPath. destruct (setSectionTarget next); vm_compute; reflexivity. Qed.

Lemma section_admin (next : string) :
  location_pathname (setSectionPath next) = setSectionPath next /\
  location_search (setSectionPath next) = "" /\
  sectionFromPath (setSectionPath next) = setSectionTarget next.
Proof. unfold setSectionPath. by destruct (setSectionTarget next). Qed.

Lemma navigation_in_step (n n' : Nav) : in_step n -> navigation n n' -> in_step n'.
Proof.
  intros Hn Hs. pose proof (pushed_plain n Hn) as Hpush. pose proof (replaced_plain n Hn) as Hrep.
  destruct Hs as [next n Hk|a l n|n|a l tab n|key n Hk|next n|job n Hu Hk|n Hk|job key n Hj Hk Hne|
    a l n|a back n E|a forward n E|n].
  - apply goTo_in_step; [|exact Hn]. destruct next; [auto with runnerd|done..].
  - apply goTo_in_step; auto with runnerd.
  - unfold openProductTourStart. cbn zeta. destruct (_ || _) eqn:E.
    + by constructor; [constructor| |left|].
    + apply orb_false_iff in E as [E1 E2]. apply negb_false_iff, bool_decide_eq_true_1 in E1.
      apply str_truthy_false in E2. cbn in E1, E2. by constructor; [apply Hn|symmetry|left|].
  - unfold setAccountSettingsRoute. cbn zeta. destruct (bool_decide _); [by apply kept_in_step|].
    apply written_in_step; auto with runnerd.
  - apply goTo_in_step; [auto with runnerd|by apply key_in_step].
  - unfold setSection. cbn zeta. destruct (section_admin next) as (Ep & Eq & Es).
    destruct (bool_decide _) eqn:E.
    + apply bool_decide_eq_true_1 in E. cbn in E. destruct Hn as [Hp H1 H2 H3].
      constructor; cbn; [done|done|done|]. intros _. rewrite H1, E. exact (eq_sym Es).
    + constructor; cbn; [|by rewrite Ep| |intros _; exact (eq_sym Es)].
      * constructor; [apply addressOf_plain|exact Hpush].
      * right. split; [exact Eq|apply jobs_free_section].
  - apply written_in_step; auto with runnerd.
  - apply written_in_step; auto with runnerd.
  - apply written_in_step; auto with runnerd.
  - apply written_in_step; auto with runnerd.
  - constructor; [|done|by left|done]. destruct Hn as [Hp _ _ _]. cbn. rewrite E in Hp.
    revert Hp. rewrite !Forall_cons, !Forall_app, !Forall_cons. tauto.
  - constructor; [|done|by left|done]. destruct Hn as [Hp _ _ _]. cbn. rewrite E in Hp.
    revert Hp. rewrite !Forall_cons, !Forall_app, !Forall_cons. tauto.
  - by destruct Hn; constructor.
Qed.

Lemma settingsEffect_in_step (path : string) (n : Nav) :
  in_step n -> in_step (settingsEffect path n).
Proof.
  intros Hn. unfold settingsEffect, settingsRedirect. destruct (_ && _); [exact Hn|]. cbn zeta.
  destruct (plain_parts (nv_here n)) as [_ Hs]; [by destruct Hn as [Hp%Forall_inv _ _ _]|].
  pose proof (addressOf_app "/account/preferences" _ eq_refl Hs) as E.
  unfold replaceState. rewrite E. constructor; cbn; [|done|by left|done].
  constructor; [exact E|by apply replaced_plain].
Qed.

Lemma sandboxEffect_in_step (path : string) (n : Nav) :
  plain_path path -> in_step n -> in_step (sandboxEffect path n).
Proof.
  intros Hp Hn. unfold sandboxEffect. destruct (sandboxRedirect path) as [next|] eqn:E; [|exact Hn].
  assert (addressOf next = {| ad_path := next; ad_search := "" |}) as Ea.
  { rewrite <- (sapp_nil_r next) at 1. apply addressOf_app; [|by left].
    by eapply sandboxRedirect_plain. }
  unfold replaceState. rewrite Ea. constructor; cbn.
  - constructor; [|by apply replaced_plain]. rewrite <- Ea. apply addressOf_plain.
  - done.
  - right. split; [done|]. by eapply sandboxRedirect_jobs.
  - intros Ha%admin_prefix. by apply sandboxRedirect_spec in E as [->|[w ->]].
Qed.

Lemma jobsEffect_in_step (path search : string) (n : Nav) :
  plain_key (userJobsGroupKeyFromLocation path search) -> in_step n -> in_step (jobsEffect path search n).
Proof.
  intros Hk Hn. unfold jobsEffect, jobsRouteEffect. destruct (negb _); [exact Hn|]. cbn [effect_key effect_replace].
  destruct (_ && _); [|by apply key_in_step]. apply written_in_step; [|exact (replaced_plain n Hn)].
  unfold withPreservedJobSearch. destruct (search_get "job" search) as [j|]; [|auto with runnerd].
  destruct (str_truthy j); auto with runnerd.
Qed.

Lemma effects_in_step (path search : string) (n : Nav) :
  plain_path path -> plain_key (userJobsGroupKeyFromLocation path search) ->
  in_step n -> in_step (effects path search n).
Proof.
  intros Hp Hk Hn. pose proof (jobsEffect_in_step path search _ Hk
    (sandboxEffect_in_step path _ Hp (settingsEffect_in_step path n Hn))) as [H1 H2 H3 H4].
  by constructor.
Qed.

Lemma reachable_in_step (orderly : bool) (n : Nav) : nav_reachable orderly n -> in_step n.
Proof.
  induction 1 as [a Ha|n n' _ IH Hs].
  - constructor; [by constructor|done|by left|done].
  - destruct Hs as [n n' Hs _|path search n Hp Hk|total n]; [by eapply navigation_in_step| |
      unfold runnerPageLoaded; destruct (total =? 0)%Z; [destruct IH; by constructor|exact IH]].
    apply effects_in_step; [|exact Hk|exact IH]. destruct orderly; [|exact Hp]. destruct Hp as [-> _].
    destruct IH as [Hp -> _ _]. by apply plain_parts, (Forall_inv Hp).
Qed.

(** ** The page shown *)

(** C4.  The page shown is the one the browser's address asks for, whatever the
    order of events, and guarded: an administration page is shown to a signed-in
    administrator at the address of its section, a page of the dashboard or of a
    job to a signed-in user at a user address, the sign-in page to a visitor who
    is not signed in, and the public pages and the not-found page to anyone.
    The build contexts that addresses name are any that the URL parser keeps; for
    the others see [dots_leave_the_jobs]. *)
Theorem page_follows_address (orderly : bool) (status : AuthSessionCheckStatus)
    (session : AuthSession) (n : Nav) :
  nav_reachable orderly n ->
  let path := ad_path (nv_here n) in
  let signedIn := status = ready /\ authenticated session = true in
  let private := appRouteAccess path = access_admin \/ appRouteAccess path = access_user in
  match pageShown status session n with
  | LandingPage => path = "/"
  | DocsPage p => p = path /\ appRouteAccess path = access_public /\ path <> "/"
  | NotFoundPage => appRouteAccess path = access_not_found
  | SessionLoadingPage => status = checking /\ private
  | SessionErrorPage => status = session_error /\ private
  | SignInPage _ => status = ready /\ authenticated session = false /\ private
  | AccessDeniedPage =>
      signedIn /\ role session <> Some "admin" /\ appRouteAccess path = access_admin
  | JobPage id => signedIn /\ appRouteAccess path = access_user /\ id = userJobIDFromPath path
  | DashboardPage page =>
      signedIn /\ appRouteAccess path = access_user /\ page = userPage session path
  | AdminPage section =>
      signedIn /\ role session = Some "admin" /\ appRouteAccess path = access_admin /\
      section = sectionFromPath path
  end.
Proof.
  intros Hn. destruct (reachable_in_step _ _ Hn) as [_ Hp _ Hsec]. cbn zeta. unfold pageShown.
  rewrite Hp in *. destruct (appRouteAccess (ad_path (nv_here n))) eqn:Ea.
  - by case_bool_decide.
  - destruct status, (authenticated session) eqn:Eu; cbn [authRouteViewState]; try tauto.
    cbn. by destruct (str_truthy _).
  - destruct status, (authenticated session) eqn:Eu; cbn [authRouteViewState]; try tauto.
    cbn. destruct (hasAccess session) eqn:Eh; cbn.
    + unfold hasAccess in Eh. rewrite Eu in Eh. apply bool_decide_eq_true_1 in Eh.
      split_and!; [done..|by apply Hsec].
    + unfold hasAccess in Eh. rewrite Eu in Eh. apply bool_decide_eq_false_1 in Eh.
      by split_and!.
  - done.
Qed.

Definition example_session (role : string) : AuthSession := {|
  authenticated := true; oauth_enabled := true; login := Some "octocat"; role := Some role;
  avatar_url := None; expires_at := None |}.

Definition example_admin : Address := {| ad_path := "/admin"; ad_search := "" |}.

Lemma page_follows_address_witness :
  let n := setSection "accounts" (rerender (mountNav example_admin)) in
  pageShown ready (example_session "admin") n = AdminPage accounts /\
  (ready = ready /\ true = true) /\ Some "admin" = Some "admin" /\
  appRouteAccess "/admin/accounts" = access_admin /\ accounts = sectionFromPath "/admin/accounts".
Proof.
  split; [vm_compute; reflexivity|].
  apply (page_follows_address true ready (example_session "admin")
    (setSection "accounts" (rerender (mountNav example_admin)))).
  eapply nr_step; [eapply nr_step; [apply (nr_mount true example_admin); reflexivity|]|].
  - by apply (nt_effects true "/admin" "" (mountNav example_admin)).
  - apply nt_navigation; [apply ng_section|]. intros _. vm_compute. reflexivity.
Defined.

(** ** The selected group *)

(** The URL of a key, with or without a job, is read back as that key. *)
Lemma selection_read_back (key : string) :
  proper_key key ->
  userJobsGroupKeyFromLocation (location_pathname (userJobsPath key))
    (location_search (userJobsPath key)) = key.
Proof.
  intros [->|(k & Hk & ->)]; [done|]. rewrite userJobsPath_url by done.
  apply key_from_url; [done|by apply group_key_params_utf8|]. by intros o r b sha ->.
Qed.

Lemma resolved_read_back (key job : string) :
  proper_key key -> key <> "" -> utf8 job ->
  let url := withSearchParam (userJobsPath key) "job" job in
  userJobsGroupKeyFromLocation (location_pathname url) (location_search url) = key.
Proof.
  intros [->|(k & Hk & ->)] Hne Hj; [done|]. cbn zeta. rewrite withSearchParam_job by done.
  apply key_from_url; [done|by apply group_job_params_utf8|]. intros. by eapply group_job_branch.
Qed.

(** The key belongs to the address that the effects saw last, unless the address
    has changed since. *)
Definition key_inv (n : Nav) : Prop :=
  nv_signedOut n = false -> nv_emptied n = false -> settled n = true ->
  isUserJobsRoute (nv_path n) = true ->
  nv_key n = userJobsGroupKeyFromLocation (nv_path n) (nv_search n).

(** A handler keeps the invariant when it keeps path, search and key, when it
    leaves a key that its address is read back as, or when it changes the
    address. *)
Lemma key_kept (n n' : Nav) :
  key_inv n -> settled n = true -> nv_seen n' = nv_seen n -> nv_signedOut n' = nv_signedOut n ->
  (nv_key n' = nv_key n /\ nv_emptied n' = nv_emptied n \/
   nv_key n' = userJobsGroupKeyFromLocation (nv_path n') (nv_search n')) -> key_inv n'.
Proof.
  intros H Hn Es Eo [[Ek Ee]|Ek] Ho He Hs Hj; [|exact Ek]. unfold settled in *.
  rewrite Es in Hs. apply bool_decide_eq_true_1 in Hn, Hs. rewrite Hn in Hs.
  injection Hs as Hp Hq. rewrite Ek, <- Hp, <- Hq. apply H; [congruence..| |by rewrite Hp].
  unfold settled. by apply bool_decide_eq_true_2.
Qed.

Lemma goTo_frame (url : string) (n : Nav) :
  nv_seen (goTo url n) = nv_seen n /\ nv_signedOut (goTo url n) = nv_signedOut n /\
  nv_key (goTo url n) = nv_key n /\ nv_emptied (goTo url n) = nv_emptied n.
Proof. unfold goTo. by destruct (bool_decide _). Qed.

(** Going to a URL reads its path and search, as the history holds addresses. *)
Lemma goTo_location (url : string) (n : Nav) : in_step n ->
  nv_path (goTo url n) = location_pathname url /\ nv_search (goTo url n) = location_search url.
Proof.
  intros [Hp _ _ _]. unfold goTo. case_bool_decide as E; [|done]. cbn. rewrite <- E.
  apply Forall_inv in Hp. unfold plain_address in Hp. unfold currentURL.
  split; [apply (f_equal ad_path) in Hp|apply (f_equal ad_search) in Hp]; by symmetry.
Qed.

Lemma navigation_key (n n' : Nav) :
  in_step n -> key_inv n -> settled n = true -> navigation n n' -> key_inv n'.
Proof.
  intros Hi Hk Hn Hs. destruct Hs as [next n _|a l n|n|a l tab n|key n Hp|next n|job n Hu _|n _|
    job key n Hj Hp Hne|a l n|a back n E|a forward n E|n].
  - destruct (goTo_frame match next with SettingsPage => "/account/preferences"
      | RepositoriesPage => "/repositories" | HomePage => userJobsPath (nv_key n) end n) as (?&?&?&?).
    eapply key_kept; [exact Hk|exact Hn|..]; auto.
  - destruct (goTo_frame (repositoryPath a l) n) as (?&?&?&?).
    eapply key_kept; [exact Hk|exact Hn|..]; auto.
  - unfold openProductTourStart. cbn zeta.
    destruct (_ || _); (eapply key_kept; [exact Hk|exact Hn|done|done|by right]).
  - unfold setAccountSettingsRoute. cbn zeta.
    destruct (bool_decide _); (eapply key_kept; [exact Hk|exact Hn|done|done|by left]).
  - destruct (goTo_frame (userJobsPath key) (setUserSelectedKey key n)) as (Es&Eo&Ek&_).
    eapply key_kept; [exact Hk|exact Hn|exact Es|exact Eo|right]. unfold setUserJobsSelection.
    destruct (goTo_location (userJobsPath key) (setUserSelectedKey key n)) as [-> ->];
      [by apply key_in_step|]. rewrite Ek. symmetry. by apply selection_read_back.
  - unfold setSection. cbn zeta.
    destruct (bool_decide _); (eapply key_kept; [exact Hk|exact Hn|done|done|by left]).
  - eapply key_kept; [exact Hk|exact Hn|done|done|by left].
  - eapply key_kept; [exact Hk|exact Hn|done|done|by left].
  - eapply key_kept; [exact Hk|exact Hn|done|done|right]. symmetry. by apply resolved_read_back.
  - eapply key_kept; [exact Hk|exact Hn|done|done|by left].
  - eapply key_kept; [exact Hk|exact Hn|done|done|by right].
  - eapply key_kept; [exact Hk|exact Hn|done|done|by right].
  - intros Ho. discriminate Ho.
Qed.

Lemma jobsEffect_key (path search : string) (n : Nav) :
  isUserJobsRoute path = true ->
  nv_key (jobsEffect path search n) = userJobsGroupKeyFromLocation path search.
Proof.
  intros Hj. unfold jobsEffect, jobsRouteEffect. rewrite Hj. cbn [negb effect_key effect_replace].
  by destruct (_ && _).
Qed.

Lemma effects_key (path search : string) (n : Nav) : key_inv (effects path search n).
Proof.
  intros Ho _ Hs Hj. unfold settled in Hs. apply bool_decide_eq_true_1 in Hs.
  assert (nv_path (effects path search n) = path /\ nv_search (effects path search n) = search)
    as [Ep Eq] by (by injection Hs).
  rewrite Ep, Eq. rewrite Ep in Hj. by apply jobsEffect_key.
Qed.

Lemma reachable_key (n : Nav) : nav_reachable true n -> key_inv n.
Proof.
  intros Hn. induction Hn as [a Ha|n n' Hn IH Hs]; [by intros _ _ H|].
  destruct Hs as [n n' Hg Hset|path search n _ _|total n]; [|apply effects_key|
    unfold runnerPageLoaded; destruct (total =? 0)%Z; [by intros _ [=]|exact IH]].
  specialize (Hset eq_refl).
  by eapply navigation_key; [eapply reachable_in_step|exact IH|exact Hset|exact Hg].
Qed.

(** On a jobs page the location state is the address. *)
Lemma jobs_location (n : Nav) :
  nav_reachable true n -> isUserJobsRoute (ad_path (nv_here n)) = true ->
  nv_path n = ad_path (nv_here n) /\ nv_search n = ad_search (nv_here n).
Proof.
  intros Hn Hj. destruct (reachable_in_step _ _ Hn) as [_ Hp Hq _]. split; [done|].
  rewrite <- Hp in Hj. destruct Hq as [Hq|[_ Hf]]; [done|congruence].
Qed.

(** On a jobs page, once the effects have run, the build context selected is
    the one the browser's address names, through every sequence of page changes,
    selections, opened jobs and moves in the history, until the user signs out, or
    a page of requests without any empties the selection. *)
Theorem selected_group_follows_address (n : Nav) :
  nav_reachable true n -> settled n = true -> nv_signedOut n = false -> nv_emptied n = false ->
  isUserJobsRoute (ad_path (nv_here n)) = true ->
  nv_key n = userJobsGroupKeyFromLocation (ad_path (nv_here n)) (ad_search (nv_here n)).
Proof.
  intros Hn Hs Ho He Hj. destruct (jobs_location n Hn Hj) as [<- <-].
  apply reachable_key; [done..|]. by destruct (jobs_location n Hn Hj) as [-> _].
Qed.

(** ** The effects end *)

(** The jobs page of a build context, or of none. *)
Definition context_page (path search : string) : Prop :=
  isUserJobsRoute path = true ->
  proper_key (userJobsGroupKeyFromLocation path search) /\ utf8_opt (search_get "job" search).

(** The effects leave the location alone. *)
Definition quiet (path search : string) : Prop :=
  settingsRedirect path = None /\ sandboxRedirect path = None /\
  forall e, jobsRouteEffect path search = Some e -> effect_replace e = None.

Lemma quiet_effects (path search : string) (n : Nav) :
  quiet path search -> nv_path n = path -> nv_search n = search ->
  settled (effects path search n) = true.
Proof.
  intros (H1 & H2 & H3) Ep Eq. unfold settled, effects, settingsEffect, sandboxEffect, jobsEffect.
  rewrite H1, H2. apply bool_decide_eq_true_2. cbn. destruct (jobsRouteEffect path search) as [e|].
  - rewrite H3 by done. cbn. by rewrite Ep, Eq.
  - by rewrite Ep, Eq.
Qed.

Lemma not_jobs_effect (path search : string) :
  isUserJobsRoute path = false -> jobsRouteEffect path search = None.
Proof. intros H. unfold jobsRouteEffect. by rewrite H. Qed.

Lemma jobs_not_redirected (path : string) :
  jobs_url path -> settingsRedirect path = None /\ sandboxRedirect path = None.
Proof.
  unfold jobs_prefixes. intros (p & r & Hp & ->). rewrite !elem_of_cons, elem_of_nil in Hp.
  assert (test [Lit "/organizations/"; Many false NotSlash; Lit "/sandbox"] (p +:+ r) = false) as Et.
  { destruct (test _ _) eqn:E; [exfalso|done]. apply test_spec in E as [caps E].
    apply matches_lit_inv in E as (r' & E & _). by destruct Hp as [->|[->|[]]]. }
  unfold settingsRedirect, sandboxRedirect. rewrite Et.
  rewrite !bool_decide_eq_false_2 by (by destruct Hp as [->|[->|[]]]). done.
Qed.

Lemma jobs_route_url (path : string) : isUserJobsRoute path = true -> jobs_url path.
Proof.
  intros [[r ->]%startsWith_spec|[r ->]%startsWith_spec]%jobs_route_prefix;
    apply within_app; unfold jobs_prefixes; set_solver.
Qed.

Lemma withPreservedJobSearch_jobs (key search : string) :
  jobs_url (withPreservedJobSearch (userJobsPath key) search).
Proof.
  unfold withPreservedJobSearch. destruct (search_get "job" search) as [j|]; [|auto with runnerd].
  destruct (str_truthy j); [apply within_search|]; auto with runnerd.
Qed.

Lemma withPreserved_raw (url search : string) : raw_path (withPreservedJobSearch url search) = raw_path url.
Proof.
  unfold withPreservedJobSearch. destruct (search_get "job" search) as [j|]; [|done].
  destruct (str_truthy j); [apply withSearchParam_raw|done].
Qed.

(** What the effects of a render write is left alone by the next ones. *)
Lemma jobs_effects_quiet (n : Nav) :
  isUserJobsRoute (nv_path n) = true -> context_page (nv_path n) (nv_search n) ->
  let n' := effects (nv_path n) (nv_search n) n in
  settled n' = true \/ quiet (nv_path n') (nv_search n').
Proof.
  intros Ej Hc. cbn zeta. destruct (jobs_not_redirected _ (jobs_route_url _ Ej)) as [E1 E2].
  destruct (Hc Ej) as [Hk Hjob]. unfold effects, settingsEffect, sandboxEffect, jobsEffect.
  rewrite E1, E2. destruct (jobsRouteEffect (nv_path n) (nv_search n)) as [e|] eqn:Ee.
  2: { left. by apply bool_decide_eq_true_2. }
  destruct (effect_replace e) as [next|] eqn:Er; [right|left; by apply bool_decide_eq_true_2].
  destruct e as [key r]. cbn in Er. subst r. pose proof Ee as Ee'. unfold jobsRouteEffect in Ee.
  rewrite Ej in Ee. injection Ee as <- Ee.
  destruct Hk as [Hk|(k & Hk & Hkey)]; [by rewrite Hk in Ee|]. rewrite Hkey in Ee'.
  pose proof (jobsRouteEffect_settles _ _ k next Hk Hjob Ee') as Hkept. cbn.
  destruct (_ && _); [|done]. injection Ee as <-.
  destruct (jobs_not_redirected (location_pathname (withPreservedJobSearch (userJobsPath
    (userJobsGroupKeyFromLocation (nv_path n) (nv_search n))) (nv_search n)))) as [E3 E4].
  { apply within_path; [apply jobs_prefixes_free| |apply withPreservedJobSearch_jobs].
    rewrite withPreserved_raw, Hkey. apply proper_plain. right. by exists k. }
  split_and!; [exact E3|exact E4|]. intros e He. rewrite He in Hkept. by subst e.
Qed.

Lemma effects_quiet (n : Nav) :
  context_page (nv_path n) (nv_search n) ->
  let n' := effects (nv_path n) (nv_search n) n in
  settled n' = true \/ quiet (nv_path n') (nv_search n').
Proof.
  intros Hc. cbn zeta. destruct (isUserJobsRoute (nv_path n)) eqn:Ej; [by apply jobs_effects_quiet|].
  unfold effects, jobsEffect. rewrite not_jobs_effect by done. unfold settingsEffect, sandboxEffect.
  destruct (settingsRedirect (nv_path n)) as [next|] eqn:E1.
  - right. pose proof E1 as E. unfold settingsRedirect in E. destruct (_ && _) eqn:Eb; [done|].
    injection E as <-. apply andb_false_iff in Eb as [Eb|Eb];
      apply negb_false_iff, bool_decide_eq_true_1 in Eb; rewrite Eb; cbn; split_and!; try done;
      intros e; by rewrite not_jobs_effect.
  - destruct (sandboxRedirect (nv_path n)) as [next|] eqn:E2; [right|left; by apply bool_decide_eq_true_2].
    destruct (settings_redirects_preserve (nv_path n) next None) as (_ & E3 & E4); [by right|].
    cbn. split_and!; [exact E3|exact E4|]. intros e.
    rewrite not_jobs_effect by (by eapply sandboxRedirect_jobs). done.
Qed.

(** C16.  The effects that rewrite old addresses end: two renders are enough from any
    address that is not of a jobs page, and from that of a jobs page which names
    no build context or one of the contexts that the routes write: whose parts are
    there, are separated as the key says and are not dot segments.  (Of the other
    contexts, [context_takes_three] needs a third render.) *)
Theorem effects_settle (n : Nav) :
  context_page (nv_path n) (nv_search n) -> settled (rerender (rerender n)) = true.
Proof.
  intros Hc. unfold rerender at 2. destruct (settled n) eqn:E0; [by unfold rerender; rewrite E0|].
  destruct (effects_quiet n Hc) as [E|Hq].
  - unfold rerender. by rewrite E.
  - unfold rerender. destruct (settled (effects _ _ _)) eqn:E; [exact E|]. by apply quiet_effects.
Qed.

(** ** Examples *)

Definition example_old_address : Address :=
  {| ad_path := "/jobs/runs/qiniu/ci-runner/42"; ad_search := "?job=7" |}.

Lemma example_context : proper_key "run:qiniu/ci-runner:42".
Proof.
  right. exists (RunKey "qiniu" "ci-runner" "42"). split; [|done]. split; [|done].
  split; auto with runnerd.
Qed.

Lemma effects_settle_witness :
  let n := mountNav example_old_address in
  nv_path (rerender (rerender n)) = "/github/runs/qiniu/ci-runner/42/jobs" /\
  settled (rerender (rerender n)) = true.
Proof.
  split; [vm_compute; reflexivity|]. apply effects_settle. intros _. split.
  - exact example_context.
  - intros s [= <-]. auto with runnerd.
Defined.

(** Mounted at an old address, then back from the settings page. *)
Lemma selected_group_follows_address_witness :
  let n := rerender (rerender (mountNav example_old_address)) in
  let n := rerender (setUserPage SettingsPage n) in
  nv_key (rerender (handlePopState (with_history [] (addressOf
    "/github/runs/qiniu/ci-runner/42/jobs?job=7") [nv_here n] n))) = "run:qiniu/ci-runner:42".
Proof.
  intros n0 n.
  apply (selected_group_follows_address (rerender (handlePopState (with_history [] (addressOf
    "/github/runs/qiniu/ci-runner/42/jobs?job=7") [nv_here n] n)))); [|by vm_compute..].
  apply (nr_step true (handlePopState (with_history [] (addressOf
    "/github/runs/qiniu/ci-runner/42/jobs?job=7") [nv_here n] n))); [|by apply (nt_effects true)].
  apply (nr_step true n); [|by apply nt_navigation; [apply (ng_previous _ [])|]; vm_compute].
  apply (nr_step true (setUserPage SettingsPage n0)); [|by apply (nt_effects true)].
  apply (nr_step true n0); [|by apply nt_navigation; [apply ng_page|]; vm_compute].
  apply (nr_step true (rerender (mountNav example_old_address))); [|by apply (nt_effects true)].
  apply (nr_step true (mountNav example_old_address)); [|by apply (nt_effects true)].
  by apply (nr_mount true example_old_address).
Defined.

(** The redirect of an old sandbox page drops the query of the address and keeps
    it in the state. *)
Example sandbox_redirect_drops_query :
  let n := mountNav {| ad_path := "/account/sandbox"; ad_search := "?tab=templates" |} in
  nv_search (rerender n) = "?tab=templates" /\ ad_search (nv_here (rerender n)) = "".
Proof. vm_compute. by split. Qed.

(** A context that names three parts for a repository: its URL names another
    context, which is rewritten once more. *)
Example context_takes_three :
  let n := mountNav {| ad_path := "/jobs"; ad_search := "?group=branch:a/b/c:x:y" |} in
  settled (rerender (rerender n)) = false /\ settled (rerender (rerender (rerender n))) = true.
Proof. vm_compute. by split. Qed.

(** The parser takes the dot segments out of the URL of a context, encoded or not: a
    link to a context named with them rewrites the address to a page of the
    administration, and the section selected is still the one of the link. *)
Example dots_leave_the_jobs :
  let n := mountNav {| ad_path := "/jobs"; ad_search := "?group=manual:../../admin:accounts" |} in
  nv_key n = "manual:../../admin:accounts" /\ ad_path (nv_here (rerender n)) = "/admin/accounts" /\
  pageShown ready (example_session "admin") (rerender n) = AdminPage overview.
Proof. vm_compute. by split_and!. Qed.

(** A user without requests of their own opens the page of a workflow run: the load
    of the page empties the selection, and no effect brings it back. *)
Example empty_page_drops_selection :
  let n := runnerPageLoaded 0 (rerender (rerender (mountNav example_old_address))) in
  settled n = true /\ nv_key n = "" /\
  userJobsGroupKeyFromLocation (nv_path n) (nv_search n) = "run:qiniu/ci-runner:42".
Proof. vm_compute. by split_and!. Qed.
