(* ===== verification/Selection.v ===== *)
(** The build context selected on every page of jobs, those of branches included.

    The canonical address of a branch keeps the branch in the query, and the test of
    the path alone, with which src/ui/src/App.tsx decides whether its effect selects
    the context of the address, does not see it (see [branch_page_not_recognised]).
    Here the selection is compared with the address without that test: every handler
    of Navigation leaves a selection that the address it writes is read back as. *)
From S2P Require Import Prelude.
From S2P Require Import JsString.
From S2P Require Import UrlPath.
From S2P Require Import JsUri.
From S2P Require Import JsRegex.
From S2P Require Import AdminTypes.
From S2P Require Import LoadPolicy.
From S2P Require Import AppRoutes.
From S2P Require Import Readiness.
From S2P Require Import Navigation.

(** The address names a build context, or is the one of the jobs page without. *)
Definition names_jobs (path search : string) : bool :=
  bool_decide (path = "/jobs") || str_truthy (userJobsGroupKeyFromPath path search).

Definition addressKey (a : Address) : string :=
  userJobsGroupKeyFromLocation (ad_path a) (ad_search a).

(** An address whose context and job, if it names any, are such as GitHub and the
    service have. *)
Definition good_address (a : Address) : Prop :=
  names_jobs (ad_path a) (ad_search a) = true ->
  proper_key (addressKey a) /\ utf8_opt (search_get "job" (ad_search a)).

(** * Properties *)

(** ** What addresses are read back as *)

Definition reads (key url : string) : Prop :=
  addressKey (addressOf url) = key /\ utf8_opt (search_get "job" (location_search url)).

Definition lands (key url : string) : Prop :=
  names_jobs (location_pathname url) (location_search url) = false \/ reads key url.

Lemma utf8_param (k : string) (ps : params) : Forall utf8_pair ps -> utf8_opt (params_get k ps).
Proof.
  intros H s. unfold params_get. destruct (find_first _ ps) as [kv|] eqn:E; [|done].
  intros [= <-]. apply find_first_Some in E as [Hin _]. rewrite Forall_forall in H.
  by destruct (H kv Hin).
Qed.

Lemma reads_url (k : group_key) (ps : params) :
  group_key_ok k -> Forall utf8_pair ps ->
  (forall o r b sha, k = BranchKey o r b sha -> params_get "branch" ps = Some b) ->
  reads (group_key_string k) (url_of (group_key_url k) ps).
Proof.
  intros Hk Hps Hb. split; [by apply key_from_url|]. unfold search_get.
  rewrite location_search_url; [by apply utf8_param|by apply group_key_url_free|done].
Qed.

Lemma reads_jobs (key : string) : proper_key key -> reads key (userJobsPath key).
Proof.
  intros [->|(k & Hk & ->)]; [by split|]. rewrite userJobsPath_url by done.
  apply reads_url; [done|by apply group_key_params_utf8|]. by intros o r b sha ->.
Qed.

Lemma reads_job (key job : string) :
  proper_key key -> key <> "" -> utf8 job -> reads key (withSearchParam (userJobsPath key) "job" job).
Proof.
  intros [->|(k & Hk & ->)] Hne Hj; [done|]. rewrite withSearchParam_job by done.
  apply reads_url; [done|by apply group_job_params_utf8|]. intros. by eapply group_job_branch.
Qed.

Lemma reads_preserved (key search : string) :
  proper_key key -> key <> "" -> utf8_opt (search_get "job" search) ->
  reads key (withPreservedJobSearch (userJobsPath key) search).
Proof.
  intros [->|(k & Hk & ->)] Hne Hj; [done|]. rewrite withPreservedJobSearch_url by done.
  apply reads_url; [done|by apply canonical_params_utf8|]. intros. by eapply canonical_params_branch.
Qed.

Lemma not_named (path search : string) :
  names_jobs path search = false -> userJobsGroupKeyFromLocation path search = "".
Proof.
  intros [Hp Hk]%orb_false_iff. unfold userJobsGroupKeyFromLocation. by rewrite Hk, Hp.
Qed.

Lemma named_prefix (path search : string) :
  names_jobs path search = true -> startsWith "/jobs" path = true \/ startsWith "/github" path = true.
Proof.
  unfold names_jobs. intros [->%bool_decide_eq_true_1|H]%orb_prop; [by left|].
  apply str_truthy_true, group_key_pattern in H as (ps & caps & Hps & Hm).
  repeat (apply elem_of_cons in Hps as [->|Hps]); [..|by apply not_elem_of_nil in Hps];
    apply matches_lit_inv in Hm as (r & -> & _); by (left + right).
Qed.

(** The pages that are not pages of jobs. *)
Definition other_prefixes : list string := ["/organizations"; "/repositories"; "/account"; "/admin"].

Lemma other_not_named (path search : string) :
  within other_prefixes path -> names_jobs path search = false.
Proof.
  intros (p & r & Hp & ->). destruct (names_jobs _ _) eqn:E; [exfalso|done].
  apply named_prefix in E. unfold other_prefixes in Hp. rewrite !elem_of_cons, elem_of_nil in Hp.
  destruct_or?; subst; done.
Qed.

Lemma other_lands (key url : string) :
  dotless (raw_path url) = true -> within other_prefixes url -> lands key url.
Proof. intros Hd H. left. apply other_not_named, within_path; [by repeat constructor|done..]. Qed.

(** The page of an account, however it is named. *)
Lemma account_lands (key prefix url : string) (tab : AccountSettingsTab) :
  dotless (raw_path prefix) = true -> within other_prefixes prefix ->
  accountURL prefix (tabSegment tab) url -> lands key url.
Proof.
  intros Hd Hp [->|[login ->]]; [by apply other_lands|left].
  pose proof (organization_path login (tabSegment tab)) as Hin.
  rewrite !elem_of_cons, elem_of_nil in Hin.
  destruct (names_jobs _ _) eqn:E; [exfalso|done]. apply named_prefix in E.
  destruct Hin as [H|[H|[H|[]]]]; try (by destruct tab); rewrite H in E; by destruct tab, E.
Qed.

(** A page that the test of the path accepts is a page of jobs. *)
Lemma jobs_route_named (path search : string) :
  isUserJobsRoute path = true -> names_jobs path search = true.
Proof.
  unfold isUserJobsRoute, names_jobs. intros [->|H]%orb_prop; [done|]. apply orb_true_iff. right.
  apply str_truthy_true in H. apply str_truthy_true. intros E. apply H. revert E.
  unfold userJobsGroupKeyFromPath. repeat case_match; try done.
  unfold branchKey. repeat case_match; done.
Qed.

(** ** The selection follows *)

Record sel_inv (n : Nav) : Prop := {
  si_key : proper_key (nv_key n);
  si_history : Forall good_address (nv_here n :: nv_back n ++ nv_forward n);
  si_emptied : nv_emptied n = true -> nv_key n = "";
  si_follows : nv_signedOut n = false -> nv_emptied n = false -> names_jobs (nv_path n) (nv_search n) = true ->
    nv_key n = userJobsGroupKeyFromLocation (nv_path n) (nv_search n);
}.

Lemma good_key (a : Address) : good_address a -> proper_key (addressKey a).
Proof.
  unfold good_address, addressKey. destruct (names_jobs _ _) eqn:E; [by intros [? _]|].
  intros _. left. by apply not_named.
Qed.

Lemma lands_good (key url : string) : proper_key key -> lands key url -> good_address (addressOf url).
Proof.
  intros Hk [H|[H Hj]] Hn; [unfold addressOf in Hn; cbn in Hn; congruence|].
  rewrite H. by split.
Qed.

(** The address is written, and read. *)
Lemma written_sel (back forward : list Address) (url : string) (n : Nav) :
  proper_key (nv_key n) -> (nv_emptied n = true -> nv_key n = "") ->
  Forall good_address (back ++ forward) -> lands (nv_key n) url ->
  sel_inv (readLocation (with_history back (addressOf url) forward n)).
Proof.
  intros Hk He Hh Hl. constructor; [exact Hk|constructor; [by eapply lands_good|exact Hh]|exact He|].
  intros _ _ Hn. destruct Hl as [Hl|[Hl _]]; [cbn in Hn; congruence|by symmetry].
Qed.

Lemma pushed_good (n : Nav) : sel_inv n -> Forall good_address ((nv_here n :: nv_back n) ++ []).
Proof.
  intros [_ Hh _ _]. rewrite app_nil_r. inversion Hh as [|x l Hx Hl]; subst.
  apply Forall_app in Hl as [Hl _]. by constructor.
Qed.

Lemma replaced_good (n : Nav) : sel_inv n -> Forall good_address (nv_back n ++ nv_forward n).
Proof. intros [_ Hh _ _]. by inversion Hh. Qed.

Lemma pushed_sel (key url : string) (n : Nav) :
  sel_inv n -> proper_key key -> lands key url ->
  sel_inv (readLocation (pushState url (setUserSelectedKey key n))).
Proof. intros Hn Hk Hl. apply written_sel; [exact Hk|done|by apply (pushed_good n)|exact Hl]. Qed.

Lemma replaced_sel (key url : string) (n : Nav) :
  sel_inv n -> proper_key key -> lands key url ->
  sel_inv (readLocation (replaceState url (setUserSelectedKey key n))).
Proof. intros Hn Hk Hl. apply written_sel; [exact Hk|done|by apply (replaced_good n)|exact Hl]. Qed.

(** The same without a selection. *)
Lemma pushed_kept (url : string) (n : Nav) :
  sel_inv n -> lands (nv_key n) url -> sel_inv (readLocation (pushState url n)).
Proof.
  intros Hn Hl. pose proof (pushed_good n Hn) as Hg. destruct Hn as [Hk Hh He Hf]. by apply written_sel.
Qed.

Lemma replaced_kept (url : string) (n : Nav) :
  sel_inv n -> lands (nv_key n) url -> sel_inv (readLocation (replaceState url n)).
Proof.
  intros Hn Hl. pose proof (replaced_good n Hn) as Hg. destruct Hn as [Hk Hh He Hf]. by apply written_sel.
Qed.

Lemma key_selected (key : string) (n : Nav) :
  in_step n -> sel_inv n -> proper_key key ->
  proper_key (nv_key (setUserSelectedKey key n)) /\ in_step (setUserSelectedKey key n).
Proof. intros Hi Hn Hk. split; [exact Hk|by apply key_in_step]. Qed.

(** Going to a URL, with a selection that need not be that of the address left. *)
Lemma goTo_sel (url : string) (n : Nav) :
  in_step n -> proper_key (nv_key n) -> (nv_emptied n = true -> nv_key n = "") ->
  Forall good_address (nv_here n :: nv_back n ++ nv_forward n) -> lands (nv_key n) url ->
  sel_inv (goTo url n).
Proof.
  intros Hi Hk He Hh Hl. unfold goTo. apply Forall_cons in Hh as [Hg Hh]. case_bool_decide as E.
  - assert (nv_here n = addressOf url) as Eh.
    { destruct Hi as [Hp _ _ _]. apply Forall_inv in Hp. by rewrite <- E. }
    pose proof (written_sel (nv_back n) (nv_forward n) url n Hk He Hh Hl) as H.
    rewrite <- Eh in H. by destruct n.
  - apply written_sel; [done..| |exact Hl]. apply Forall_app in Hh as [Hh _].
    apply Forall_app. split; [by constructor|constructor].
Qed.

Lemma repository_lands (key : string) (a l : option string) : lands key (repositoryPath a l).
Proof.
  apply (account_lands _ "/repositories" _ TabRepositories); [done| |apply repositoryPath_url].
  apply (within_app _ "/repositories" ""). unfold other_prefixes. set_solver.
Qed.

Lemma settings_lands (key : string) (a l : option string) (tab : AccountSettingsTab) :
  lands key (accountSettingsPath a l tab).
Proof.
  eapply account_lands, accountSettingsPath_url; [by destruct tab|].
  apply (within_app _ "/account" ("/" +:+ tabSegment tab)). unfold other_prefixes. set_solver.
Qed.

Lemma section_other (next : string) : within other_prefixes (setSectionPath next).
Proof.
  assert (exists r, setSectionPath next = "/admin" +:+ r) as [r ->].
  { unfold setSectionPath. case_bool_decide; by eexists (String "/" _). }
  apply within_app. unfold other_prefixes. set_solver.
Qed.

(** The page of a single job is no page of jobs. *)
Lemma job_page_not_named (w search : string) :
  free "/" w = true -> names_jobs ("/jobs/" +:+ w) search = false.
Proof.
  intros Hw. apply orb_false_iff. split; [by apply bool_decide_eq_false_2|].
  apply str_truthy_false. destruct (decide (userJobsGroupKeyFromPath ("/jobs/" +:+ w) search = "")); [done|].
  exfalso. apply group_key_pattern in n as (ps & caps & Hps & Hm). apply matches_occurs with (x := "/"%char) in Hm.
  rewrite occurs_app, (occurs_free "/" w) in Hm by exact Hw.
  repeat (apply elem_of_cons in Hps as [->|Hps]); [..|by apply not_elem_of_nil in Hps];
    cbn in Hm; lia.
Qed.

Lemma openJob_lands (key job : string) :
  proper_key key -> utf8 job -> lands key (openUserJobPath key job).
Proof.
  intros [->|(k & Hk & ->)] Hj.
  - left. change (openUserJobPath "" job) with ("/jobs/" +:+ encodeURIComponent job).
    assert (location_pathname ("/jobs/" +:+ encodeURIComponent job) ∈
      ["/jobs/" +:+ encodeURIComponent job; "/jobs/"; "/"]) as Hin
      by (apply (location_two "jobs"); try done; by apply encode_free).
    rewrite !elem_of_cons, elem_of_nil in Hin. destruct Hin as [->|[->|[->|[]]]].
    + by apply job_page_not_named, encode_free.
    + by apply (job_page_not_named "").
    + destruct (names_jobs "/" _) eqn:E; [|done]. by apply named_prefix in E as [|].
  - right. destruct (openUserJob_url_roundtrip k job Hk Hj) as [H1 H2]. split; [exact H1|].
    intros s E. unfold userJobIDFromSearch in H2. rewrite E in H2. cbn in H2. by subst s.
Qed.

Lemma popped_sel (back forward : list Address) (a : Address) (n : Nav) :
  Forall good_address (a :: back ++ forward) ->
  sel_inv (handlePopState (with_history back a forward n)).
Proof.
  intros Hh. constructor; [|exact Hh|done|done]. apply (good_key a). by apply Forall_inv in Hh.
Qed.

Lemma page_lands (next : UserPageKind) (key : string) :
  proper_key key ->
  lands key match next with
            | SettingsPage => "/account/preferences" | RepositoriesPage => "/repositories"
            | HomePage => userJobsPath key end.
Proof.
  intros Hk. destruct next; [right; by apply reads_jobs|..]; apply other_lands; try done.
  - apply (within_app _ "/repositories" ""). unfold other_prefixes. set_solver.
  - apply (within_app _ "/account" "/preferences"). unfold other_prefixes. set_solver.
Qed.

Lemma navigation_sel (n n' : Nav) : in_step n -> sel_inv n -> navigation n n' -> sel_inv n'.
Proof.
  intros Hi Hn Hs. pose proof Hn as [Hk Hh He Hf].
  destruct Hs as [next n _|a l n|n|a l tab n|key n Hp|next n|job n Hu _|n _|job key n Hj Hp Hne|
    a l n|a back n E|a forward n E|n].
  - by apply goTo_sel, page_lands.
  - by apply goTo_sel, repository_lands.
  - unfold openProductTourStart. cbn zeta. destruct (_ || _) eqn:E.
    + pose proof (pushed_good n Hn) as Hg. constructor; [by left| |done|done].
      constructor; [|exact Hg]. intros _. split; [by left|done].
    + constructor; [by left|exact Hh|done|done].
  - unfold setAccountSettingsRoute. cbn zeta. case_bool_decide as E; [|by apply pushed_kept, settings_lands].
    constructor; [exact Hk|exact Hh|exact He|]. intros Ho Hm H. cbn in Ho, Hm, H |- *.
    destruct Hi as [Hpl Hip His _]. destruct His as [His|[His Hj]].
    + rewrite <- His, <- Hip in *. by apply Hf.
    + exfalso. rewrite His, <- Hip in H. unfold names_jobs in H. unfold isUserJobsRoute in Hj. congruence.
  - destruct (key_selected key n) as [Hk' Hi']; [done..|].
    apply goTo_sel; [exact Hi'|exact Hk'|done|exact Hh|]. right. by apply reads_jobs.
  - unfold setSection. cbn zeta. case_bool_decide as E; [by constructor|].
    destruct (section_admin next) as (Ep & Es & _). pose proof (pushed_good n Hn) as Hg.
    constructor; [exact Hk|constructor; [|exact Hg]|exact He|].
    + intros H. cbn in H. rewrite Ep, other_not_named in H; [done|apply section_other].
    + intros _ _ H. cbn in H. rewrite other_not_named in H; [done|apply section_other].
  - by apply pushed_kept, openJob_lands.
  - apply pushed_kept; [done|]. right. by apply reads_jobs.
  - apply replaced_sel; [done..|]. right. by apply reads_job.
  - by apply replaced_kept, repository_lands.
  - apply popped_sel. rewrite E in Hh. cbn in Hh |- *. rewrite !Forall_cons, Forall_app in Hh.
    rewrite Forall_cons, Forall_app, Forall_cons. tauto.
  - apply popped_sel. rewrite E in Hh. cbn in Hh |- *. rewrite !Forall_cons, !Forall_app, Forall_cons in Hh.
    rewrite !Forall_cons, Forall_app. tauto.
  - constructor; [by left|exact Hh|done|done].
Qed.

(** The redirects lead to pages that are not pages of jobs. *)
Lemma moved_sel (path search url : string) (n : Nav) :
  sel_inv n -> within other_prefixes path -> location_pathname url = path ->
  sel_inv (with_location path search (replaceState url n)).
Proof.
  intros Hn Hp Hu. pose proof (replaced_good n Hn) as Hg.
  constructor; [apply Hn|constructor; [|exact Hg]|apply Hn|].
  - intros H. cbn in H. by rewrite Hu, other_not_named in H.
  - intros _ _ H. cbn in H. by rewrite other_not_named in H.
Qed.

Lemma settings_sel (path : string) (n : Nav) :
  in_step n -> sel_inv n -> sel_inv (settingsEffect path n).
Proof.
  intros Hi Hn. unfold settingsEffect, settingsRedirect. destruct (_ && _); [done|]. cbn zeta.
  apply moved_sel; [done| |].
  - apply (within_app _ "/account" "/preferences"). unfold other_prefixes. set_solver.
  - destruct Hi as [Hp%Forall_inv _ _ _]. destruct (plain_parts _ Hp) as [_ Hs].
    by destruct (location_app "/account/preferences" _ eq_refl Hs).
Qed.

Lemma sandbox_sel (path : string) (n : Nav) :
  plain_path path -> sel_inv n -> sel_inv (sandboxEffect path n).
Proof.
  intros Hp Hn. unfold sandboxEffect. destruct (sandboxRedirect path) as [next|] eqn:E; [|done].
  apply moved_sel; [done| |by eapply sandboxRedirect_plain].
  apply sandboxRedirect_spec in E as [->|[w ->]].
  - apply (within_app _ "/account" "/sandbox-templates"). unfold other_prefixes. set_solver.
  - apply (within_app _ "/organizations" ("/" +:+ w +:+ "/sandbox-templates")).
    unfold other_prefixes. set_solver.
Qed.

Lemma jobs_sel (n : Nav) :
  in_step n -> sel_inv n -> sel_inv (jobsEffect (nv_path n) (nv_search n) n).
Proof.
  intros Hi Hn. unfold jobsEffect. destruct (jobsRouteEffect _ _) as [e|] eqn:E; [|done].
  unfold jobsRouteEffect in E. destruct (isUserJobsRoute (nv_path n)) eqn:Ej; [|done].
  assert (good_address (nv_here n)) as Hg by (by pose proof (Forall_inv (si_history _ Hn))).
  destruct Hi as [_ Ep [Es|[_ Hf]] _]; [|congruence]. unfold good_address, addressKey in Hg.
  rewrite <- Ep, <- Es in Hg. destruct (Hg (jobs_route_named _ _ Ej)) as [Hk Hjob].
  cbn [negb] in E. injection E as <-. cbn [effect_key effect_replace].
  destruct (_ && _) eqn:Eb.
  - apply replaced_sel; [done..|]. right. apply andb_prop in Eb as [Eb _]. apply str_truthy_true in Eb.
    by apply reads_preserved.
  - constructor; [exact Hk|apply Hn|done|done].
Qed.

Lemma with_seen_sel (seen : option (string * string)) (n : Nav) :
  sel_inv n -> sel_inv (with_seen seen (nv_signedOut n) n).
Proof. by intros [? ? ? ?]. Qed.

Lemma effects_signedOut (path search : string) (n : Nav) :
  nv_signedOut (jobsEffect path search (sandboxEffect path (settingsEffect path n))) = nv_signedOut n.
Proof.
  unfold settingsEffect, sandboxEffect, jobsEffect. repeat case_match; done.
Qed.

Lemma effects_sel (n : Nav) :
  in_step n -> sel_inv n -> sel_inv (effects (nv_path n) (nv_search n) n).
Proof.
  intros Hi Hn. unfold effects. rewrite <- effects_signedOut with (path := nv_path n) (search := nv_search n).
  apply with_seen_sel. destruct (isUserJobsRoute (nv_path n)) eqn:Ej.
  - destruct (jobs_not_redirected _ (jobs_route_url _ Ej)) as [E1 E2].
    unfold settingsEffect, sandboxEffect. rewrite E1, E2. by apply jobs_sel.
  - unfold jobsEffect. rewrite not_jobs_effect by done. apply sandbox_sel, settings_sel; [|done..].
    destruct Hi as [Hp%Forall_inv -> _ _]. by apply plain_parts.
Qed.

(** From a good address, with the events after the effects. *)
Inductive good_reachable : Nav -> Prop :=
  | gr_mount a : plain_address a -> good_address a -> good_reachable (mountNav a)
  | gr_step n n' : good_reachable n -> nav_step true n n' -> good_reachable n'.

Lemma good_nav (n : Nav) : good_reachable n -> nav_reachable true n.
Proof. induction 1; [by apply nr_mount|by eapply nr_step]. Qed.

Lemma good_sel (n : Nav) : good_reachable n -> sel_inv n.
Proof.
  induction 1 as [a Ha Hg|n n' Hn IH Hs].
  - constructor; [by apply (good_key a)|constructor; [exact Hg|apply Forall_nil_2]|done|done].
  - pose proof (reachable_in_step _ _ (good_nav n Hn)) as Hi. destruct Hs as [n n' Hs _|path search n E _|total n].
    + by eapply navigation_sel.
    + destruct E as [-> ->]. by apply effects_sel.
    + unfold runnerPageLoaded. destruct (total =? 0)%Z; [|done]. destruct IH. by constructor; [left|..].
Qed.

(** On a page of jobs the location state is the address, and the selection its key. *)
Lemma named_location (n : Nav) :
  good_reachable n -> names_jobs (ad_path (nv_here n)) (ad_search (nv_here n)) = true ->
  nv_path n = ad_path (nv_here n) /\ nv_search n = ad_search (nv_here n).
Proof.
  intros Hn Hj. destruct (reachable_in_step _ _ (good_nav n Hn)) as [_ Ep [Es|[Ea Hf]] _]; [by split|].
  exfalso. rewrite Ea, <- Ep in Hj. unfold names_jobs in Hj. unfold isUserJobsRoute in Hf. congruence.
Qed.

Lemma named_key (n : Nav) :
  good_reachable n -> nv_signedOut n = false ->
  names_jobs (ad_path (nv_here n)) (ad_search (nv_here n)) = true ->
  nv_key n = if nv_emptied n then "" else addressKey (nv_here n).
Proof.
  intros Hn Ho Hj. destruct (named_location n Hn Hj) as [Ep Es]. unfold addressKey.
  rewrite <- Ep, <- Es in *. destruct (nv_emptied n) eqn:E.
  - by apply (si_emptied _ (good_sel n Hn)).
  - by apply (si_follows _ (good_sel n Hn)).
Qed.


(** ** Pages of jobs are shown as such *)

Lemma jobs_access (path : string) :
  startsWith "/jobs" path = true \/ startsWith "/github" path = true ->
  LoadPolicy.isUserJobsRoute path = true -> appRouteAccess path = access_user.
Proof.
  intros Hp Hj. destruct (appRouteAccess path) eqn:E; [exfalso|done|exfalso|exfalso].
  - unfold appRouteAccess in E. destruct (_ || _) eqn:Eb; [|repeat case_match; done].
    apply orb_prop in Eb as [->%bool_decide_eq_true_1|Eb]; [by destruct Hp|].
    apply bool_decide_eq_true_1 in Eb. revert Eb. unfold siteDocumentRoutes.
    rewrite !elem_of_cons, elem_of_nil. intros H. destruct_or?; subst; by destruct Hp.
  - apply admin_prefix, startsWith_spec in E as [r ->]. by destruct Hp.
  - unfold appRouteAccess, isUserRoute in E. rewrite Hj in E. repeat case_match; done.
Qed.

Lemma jobs_user_page (session : AuthSession) (path : string) :
  startsWith "/jobs" path = true \/ startsWith "/github" path = true ->
  userPage session path = HomePage.
Proof.
  intros Hp. assert (forall ps, exec (Lit "/organizations/" :: ps) path = None) as Ho.
  { intros ps. apply exec_None. intros caps (r & -> & _)%matches_lit_inv. by destruct Hp. }
  unfold userPage, repositoryAccountLogin, parseAccountSettingsRoute, repositoriesRe, organizationSettingsRe.
  assert (forall p, startsWith "/jobs" p = false -> startsWith "/github" p = false ->
    bool_decide (path = p) = false) as Hne.
  { intros p H1 H2. apply bool_decide_eq_false_2. intros ->. destruct Hp; congruence. }
  by rewrite !Ho, !Hne.
Qed.

(** The page that a reader who is signed in sees at such an address. *)
Lemma jobs_page_shown (session : AuthSession) (n : Nav) :
  authenticated session = true -> no_newline (nv_path n) = true ->
  names_jobs (nv_path n) (nv_search n) = true ->
  pageShown ready session n = DashboardPage HomePage.
Proof.
  intros Hs Hl Hn. pose proof (named_prefix _ _ Hn) as Hp.
  assert (LoadPolicy.isUserJobsRoute (nv_path n) = true) as Hj.
  { unfold names_jobs in Hn. apply orb_prop in Hn as [E|E].
    - apply bool_decide_eq_true_1 in E. by rewrite E.
    - apply str_truthy_true in E. by apply (key_policy _ (nv_search n)). }
  unfold pageShown. rewrite jobs_access by done. rewrite Hs. cbn [authRouteViewState].
  rewrite bool_decide_eq_false_2 by done. cbn [andb negb]. rewrite jobs_user_page by done.
  destruct (str_truthy (userJobIDFromPath (nv_path n))) eqn:E; [|done].
  apply job_page_not_polled in E. unfold shouldPollUserRoute in E. congruence.
Qed.

(** The address of a build context has no line terminator. *)
Lemma free_startsWith (a : ascii) (needle s : string) :
  free a s = true -> startsWith (String a needle) s = false.
Proof.
  destruct s as [|b s]; [done|]. unfold free. cbn [sforall]. intros [Hb _]%andb_prop.
  apply not_char_neq in Hb. unfold startsWith. cbn [drop_prefix]. by destruct (Ascii.eqb_spec a b).
Qed.

Lemma free_includes (a : ascii) (needle s : string) :
  free a s = true -> includes (String a needle) s = false.
Proof.
  induction s as [|b s IH]; intros H; [done|]. pose proof (free_startsWith a needle _ H) as E.
  unfold free in H. cbn [sforall] in H. apply andb_prop in H as [_ H]. cbn [includes]. rewrite E.
  by apply IH.
Qed.

Lemma plain_line (w : string) :
  free "010" w = true -> free "013" w = true -> free (ascii_of_N 226) w = true ->
  no_newline w = true.
Proof.
  unfold no_newline. intros -> -> H.
  rewrite (free_includes _ _ w H : includes (utf8_3 226 128 168) w = false).
  by rewrite (free_includes _ _ w H : includes (utf8_3 226 128 169) w = false).
Qed.

Lemma group_url_line (k : group_key) : group_key_ok k -> no_newline (group_key_url k) = true.
Proof.
  intros Hk. assert (forall x, uri_char x = false -> is_digit x = false ->
    free x "/github/pulls/" && free x "/github/runs/" && free x "/github/branches/" &&
    free x "/jobs/manual/" && free x "/jobs" = true -> free x (group_key_url k) = true) as H.
  { intros x Hu Hd [[[[E1 E2]%andb_prop E3]%andb_prop E4]%andb_prop E5]%andb_prop.
    assert (free x "/" = true) as Es by (unfold free in *; cbn in *; by destruct (not_char x "/")).
    destruct k as [o r n|o r n|o r b sha|o r i]; unfold group_key_url;
      rewrite !free_app, !encode_free by done;
      try (destruct Hk as [_ Hn]; rewrite (digits_plain x n) by done);
      by rewrite ?E1, ?E2, ?E3, ?E4, ?E5, ?Es. }
  apply plain_line; apply H; by vm_compute.
Qed.

(** ** Examples *)

Definition example_branch_address : Address := addressOf (userJobsPath (group_key_string example_branch)).

Lemma example_branch_good : good_address example_branch_address.
Proof.
  intros _. destruct (reads_jobs (group_key_string example_branch)) as [E Hj].
  { right. exists example_branch. split; [exact example_branch_ok|done]. }
  split; [|exact Hj]. right. exists example_branch. split; [exact example_branch_ok|exact E].
Qed.

