(* ===== verification/JobDetail.v ===== *)
(** The page of a single job, [RunnerJobDetail] of
    src/ui/src/components/runner-job-detail.tsx: its four requests.

    The page is mounted anew for each job.  A request of an effect carries a
    guard that the cleanup of the effect clears; the buttons start requests
    whose guard is never cleared. *)
From S2P Require Import Prelude.
From S2P Require Import JsString.
From S2P Require Import JsUri.
From S2P Require Import Json.
From S2P Require Import AdminTypes.
From S2P Require Import Errors.
From S2P Require Import JobLogs.
From S2P Require Import LogPanel.
From S2P Require Import BuildGroups.

(** ** Requests *)

Inductive DetailFetch :=
  | FetchJob
  | FetchGroup
  | FetchLog (name : LogName)
  | FetchGitHubLog.

Record Pending := { pd_fetch : DetailFetch; pd_manual : bool; pd_active : bool }.

Definition endpoint (apiBase id : string) : string := apiBase +:+ "/" +:+ encodeURIComponent id.

Definition fetchURL (apiBase id : string) (f : DetailFetch) : string :=
  match f with
  | FetchJob => endpoint apiBase id
  | FetchGroup => endpoint apiBase id +:+ "/group"
  | FetchLog name => endpoint apiBase id +:+ "/logs/" +:+ encodeURIComponent (logName_string name)
  | FetchGitHubLog => endpoint apiBase id +:+ "/github-log"
  end.

(** What a request answers with, or throws. *)
Definition Answer (f : DetailFetch) : Type :=
  thrown + match f with
           | FetchJob => RunnerState
           | FetchGroup => RunnerJobGroup
           | FetchLog _ | FetchGitHubLog => json
           end.

(** ** State *)

Record JobDetail := {
  jd_job : option RunnerState;
  jd_group : option RunnerJobGroup;
  jd_loading : bool;
  jd_selectedLog : LogName;
  jd_logText : LocalizedLogText;
  jd_githubText : LocalizedLogText;
  jd_githubLoading : bool;
  jd_pending : list Pending;
}.

Definition with_job (job : option RunnerState) (group : option RunnerJobGroup) (loading : bool)
    (d : JobDetail) : JobDetail := {|
  jd_job := job; jd_group := group; jd_loading := loading; jd_selectedLog := jd_selectedLog d;
  jd_logText := jd_logText d; jd_githubText := jd_githubText d;
  jd_githubLoading := jd_githubLoading d; jd_pending := jd_pending d |}.

Definition with_log (name : LogName) (text : LocalizedLogText) (d : JobDetail) : JobDetail := {|
  jd_job := jd_job d; jd_group := jd_group d; jd_loading := jd_loading d; jd_selectedLog := name;
  jd_logText := text; jd_githubText := jd_githubText d; jd_githubLoading := jd_githubLoading d;
  jd_pending := jd_pending d |}.

Definition with_github (text : LocalizedLogText) (loading : bool) (d : JobDetail) : JobDetail := {|
  jd_job := jd_job d; jd_group := jd_group d; jd_loading := jd_loading d;
  jd_selectedLog := jd_selectedLog d; jd_logText := jd_logText d; jd_githubText := text;
  jd_githubLoading := loading; jd_pending := jd_pending d |}.

Definition with_pending (pending : list Pending) (d : JobDetail) : JobDetail := {|
  jd_job := jd_job d; jd_group := jd_group d; jd_loading := jd_loading d;
  jd_selectedLog := jd_selectedLog d; jd_logText := jd_logText d;
  jd_githubText := jd_githubText d; jd_githubLoading := jd_githubLoading d;
  jd_pending := pending |}.

Definition start (f : DetailFetch) (manual : bool) (d : JobDetail) : JobDetail :=
  with_pending (jd_pending d ++ [{| pd_fetch := f; pd_manual := manual; pd_active := true |}]) d.

(** ** Loading *)

Definition loadJob (manual : bool) (d : JobDetail) : JobDetail :=
  start FetchJob manual (with_job (jd_job d) (jd_group d) true d).

Definition loadJobGroup (manual : bool) (d : JobDetail) : JobDetail := start FetchGroup manual d.

(** [loadLog] with its default argument, the selected log. *)
Definition loadLog (manual : bool) (d : JobDetail) : JobDetail :=
  start (FetchLog (jd_selectedLog d)) manual
    (with_log (jd_selectedLog d) (LogMessage key_user_loadingRunnerLog) d).

Definition loadGithubLog (manual : bool) (d : JobDetail) : JobDetail :=
  start FetchGitHubLog manual (with_github (LogMessage key_user_loadingGitHubLog) true d).

Definition mountDetail : JobDetail :=
  loadGithubLog false (loadLog false (loadJobGroup false (loadJob false {|
    jd_job := None; jd_group := None; jd_loading := true; jd_selectedLog := ControlLog;
    jd_logText := LogMessage key_user_loadingRunnerLog;
    jd_githubText := LogMessage key_user_loadingGitHubLog; jd_githubLoading := false;
    jd_pending := [] |}))).

(** The cleanup of the effect on [selectedLog]. *)
Definition cancelLogs (pending : list Pending) : list Pending :=
  map (fun p => match pd_fetch p with
                | FetchLog _ =>
                    {| pd_fetch := pd_fetch p; pd_manual := pd_manual p;
                       pd_active := pd_active p && pd_manual p |}
                | _ => p
                end) pending.

(** A tab of the log is chosen; the effect runs when it is another one. *)
Definition selectLog (name : LogName) (d : JobDetail) : JobDetail :=
  if bool_decide (jd_selectedLog d = name) then d
  else loadLog false (with_pending (cancelLogs (jd_pending d)) (with_log name (jd_logText d) d)).

(** [refreshPage], disabled while loading. *)
Definition refreshPage (d : JobDetail) : JobDetail :=
  if jd_loading d then d else loadJobGroup true (loadJob true d).

(** ** Answers *)

Definition githubTextOf (result : thrown + json) : LocalizedLogText :=
  match result with
  | inr text => logResponseText text key_user_githubLogEmpty
  | inl e => githubLogFailureState e
  end.

(** What an answer changes; a failed request of the job is not caught. *)
Definition received (f : DetailFetch) (d : JobDetail) : Answer f -> JobDetail :=
  match f with
  | FetchJob => fun a =>
      with_job (match a with inr job => Some job | inl _ => jd_job d end) (jd_group d) false d
  | FetchGroup => fun a =>
      with_job (jd_job d) (match a with inr group => Some group | inl _ => None end)
        (jd_loading d) d
  | FetchLog _ => fun a => with_log (jd_selectedLog d) (runnerLogOf a) d
  | FetchGitHubLog => fun a => with_github (githubTextOf a) false d
  end.

Definition settleDetail (p : Pending) (others : list Pending) (a : Answer (pd_fetch p))
    (d : JobDetail) : JobDetail :=
  let d := with_pending others d in
  if pd_active p then received (pd_fetch p) d a else d.

(** ** The list of jobs *)

Definition groupJobs (d : JobDetail) : list RunnerState :=
  match jd_group d, jd_job d with
  | Some group, _ => jg_current_jobs group ++ jg_previous_jobs group
  | None, Some job => [job]
  | None, None => []
  end.

(** [openSibling]: nothing for the job shown. *)
Definition openSibling (id jobID : string) : option string :=
  if bool_decide (jobID = id) then None else Some jobID.

(** ** Steps *)

Section detail.
(** What the server answers. *)
Context (answers : forall f, Answer f -> Prop).

(** With [orderly], the tab of the log is not changed while a refresh of the log
    is in flight. *)
Inductive detail_step (orderly : bool) : JobDetail -> JobDetail -> Prop :=
  | dt_select name d :
      (orderly = true -> forall p n, p ∈ jd_pending d -> pd_fetch p = FetchLog n ->
         pd_manual p = false) ->
      detail_step orderly d (selectLog name d)
  | dt_refresh d : detail_step orderly d (refreshPage d)
  | dt_group d : detail_step orderly d (loadJobGroup true d)
  | dt_log d : detail_step orderly d (loadLog true d)
  | dt_github d : jd_githubLoading d = false -> detail_step orderly d (loadGithubLog true d)
  | dt_settle l p r a d :
      jd_pending d = l ++ p :: r -> answers _ a ->
      detail_step orderly d (settleDetail p (l ++ r) a d).

Inductive detail_reachable (orderly : bool) : JobDetail -> Prop :=
  | dt_mount : detail_reachable orderly mountDetail
  | dt_next d d' :
      detail_reachable orderly d -> detail_step orderly d d' -> detail_reachable orderly d'.

(** * Properties *)

(** The log panel shows the log of its tab, or that it is loading it. *)
Record detail_inv (d : JobDetail) : Prop := {
  di_active : Forall (fun p => forall n, pd_fetch p = FetchLog n -> pd_active p = true ->
    n = jd_selectedLog d) (jd_pending d);
  di_manual : Forall (fun p => pd_manual p = true -> pd_active p = true) (jd_pending d);
  di_log :
    (jd_logText d = LogMessage key_user_loadingRunnerLog /\
     exists p, p ∈ jd_pending d /\ pd_fetch p = FetchLog (jd_selectedLog d) /\ pd_active p = true) \/
    exists a, answers (FetchLog (jd_selectedLog d)) a /\ jd_logText d = runnerLogOf a;
}.

Definition job_inv (d : JobDetail) : Prop :=
  (forall j, jd_job d = Some j -> answers FetchJob (inr j)) /\
  (forall g, jd_group d = Some g -> answers FetchGroup (inr g)) /\
  (jd_githubText d = LogMessage key_user_loadingGitHubLog \/
   exists a, answers FetchGitHubLog a /\ jd_githubText d = githubTextOf a).

Lemma job_inv_step (orderly : bool) (d d' : JobDetail) :
  job_inv d -> detail_step orderly d d' -> job_inv d'.
Proof.
  intros H Hs. destruct Hs as [name d _|d|d|d|d Hl|l p r a d E Ha].
  - unfold selectLog. by destruct (bool_decide _).
  - unfold refreshPage. by destruct (jd_loading d).
  - exact H.
  - exact H.
  - destruct H as (H1 & H2 & H3). split_and!; [exact H1|exact H2|by left].
  - destruct H as (H1 & H2 & H3). unfold settleDetail. destruct (pd_active p); [|by split_and!].
    destruct p as [[| |name|] m act]; cbn in a, Ha |- *; unfold job_inv; cbn.
    + split_and!; [|done|done]. destruct a as [e|j]; [done|]. by intros j' [= <-].
    + split_and!; [done| |done]. destruct a as [e|g]; [done|]. by intros g' [= <-].
    + by split_and!.
    + split_and!; [done|done|right]. by exists a.
Qed.

(** Starting a request of the log. *)
Lemma loadLog_inv (manual : bool) (d : JobDetail) :
  Forall (fun p => forall n, pd_fetch p = FetchLog n -> pd_active p = true ->
    n = jd_selectedLog d) (jd_pending d) ->
  Forall (fun p => pd_manual p = true -> pd_active p = true) (jd_pending d) ->
  detail_inv (loadLog manual d).
Proof.
  intros H1 H2. unfold loadLog, start. constructor; cbn.
  - apply Forall_app. split; [exact H1|]. constructor; [|done]. cbn. by intros n [= ->].
  - apply Forall_app. split; [exact H2|by repeat constructor].
  - left. split; [done|]. eexists. split; [apply elem_of_app; right; by left|done].
Qed.

(** Requests that are not for the log keep the invariant. *)
Lemma detail_inv_other (f : DetailFetch) (d d' : JobDetail) :
  (forall n, f <> FetchLog n) -> jd_selectedLog d' = jd_selectedLog d ->
  jd_logText d' = jd_logText d ->
  jd_pending d' = jd_pending d ++ [{| pd_fetch := f; pd_manual := true; pd_active := true |}] ->
  detail_inv d -> detail_inv d'.
Proof.
  intros Hf El Et Ep [H1 H2 H3]. constructor; rewrite ?El, ?Et, ?Ep.
  - apply Forall_app. split; [exact H1|]. constructor; [|done]. cbn. intros n ->. by destruct (Hf n).
  - apply Forall_app. split; [exact H2|by repeat constructor].
  - destruct H3 as [[E (p & Hp & Hn & Ha)]|H3]; [left|by right]. split; [exact E|].
    exists p. split; [apply elem_of_app; by left|done].
Qed.

Lemma cancelLogs_inv (name : LogName) (d : JobDetail) :
  detail_inv d ->
  (forall p n, p ∈ jd_pending d -> pd_fetch p = FetchLog n -> pd_manual p = false) ->
  Forall (fun p => forall n, pd_fetch p = FetchLog n -> pd_active p = true -> n = name)
    (cancelLogs (jd_pending d)) /\
  Forall (fun p => pd_manual p = true -> pd_active p = true) (cancelLogs (jd_pending d)).
Proof.
  intros [_ H2 _] Hm. unfold cancelLogs. rewrite !Forall_fmap, !Forall_forall in *.
  split; intros p Hp; specialize (H2 p Hp); specialize (Hm p).
  - cbn. destruct (pd_fetch p) eqn:E; intros n; cbn; rewrite ?E; try done.
    intros [= <-]. rewrite (Hm _ Hp eq_refl), andb_false_r. done.
  - cbn. destruct (pd_fetch p); cbn; try exact H2. intros Hman. by rewrite Hman, H2.
Qed.

Lemma detail_settle_inv (l r : list Pending) (p : Pending) (a : Answer (pd_fetch p)) (d : JobDetail) :
  jd_pending d = l ++ p :: r -> answers _ a -> detail_inv d ->
  detail_inv (settleDetail p (l ++ r) a d).
Proof.
  intros E Ha [H1 H2 H3]. rewrite E in H1, H2, H3.
  apply Forall_app in H1 as [H1l [H1p H1r]%Forall_cons].
  apply Forall_app in H2 as [H2l [_ H2r]%Forall_cons].
  assert (Forall (fun p => forall n, pd_fetch p = FetchLog n -> pd_active p = true ->
    n = jd_selectedLog d) (l ++ r)) as H1 by by apply Forall_app.
  assert (Forall (fun p => pd_manual p = true -> pd_active p = true) (l ++ r)) as H2
    by by apply Forall_app.
  assert (pd_fetch p = FetchLog (jd_selectedLog d) /\ pd_active p = true \/
    (jd_logText d = LogMessage key_user_loadingRunnerLog /\
     (exists q, q ∈ l ++ r /\ pd_fetch q = FetchLog (jd_selectedLog d) /\ pd_active q = true)) \/
    (exists a, answers (FetchLog (jd_selectedLog d)) a /\ jd_logText d = runnerLogOf a)) as Hkeep.
  { destruct H3 as [[Et (q & Hq & Ef & Eq)]|H3]; [|by auto].
    rewrite elem_of_app, elem_of_cons in Hq. destruct Hq as [Hq|[->|Hq]]; [|by left|];
      right; left; (split; [exact Et|]); exists q; (split; [|done]); set_solver. }
  unfold settleDetail.
  destruct (pd_active p) eqn:Eact; [|constructor; [exact H1|exact H2|]; cbn; naive_solver].
  destruct p as [[| |name|] m act]; cbn in *;
    (constructor; [exact H1|exact H2|]); cbn; naive_solver.
Qed.

Lemma detail_inv_step (d d' : JobDetail) : detail_inv d -> detail_step true d d' -> detail_inv d'.
Proof.
  intros H Hs. destruct Hs as [name d Ho|d|d|d|d Hl|l p r a d E Ha].
  - unfold selectLog. destruct (bool_decide _); [exact H|].
    destruct (cancelLogs_inv name d H (Ho eq_refl)) as [H1 H2]. by apply loadLog_inv.
  - unfold refreshPage. destruct (jd_loading d); [exact H|].
    by apply (detail_inv_other FetchGroup (loadJob true d)), (detail_inv_other FetchJob d).
  - by apply (detail_inv_other FetchGroup d).
  - destruct H as [H1 H2 _]. by apply loadLog_inv.
  - by apply (detail_inv_other FetchGitHubLog d).
  - by apply detail_settle_inv.
Qed.

Lemma mount_detail_inv : detail_inv mountDetail.
Proof.
  constructor; cbn.
  - repeat constructor; cbn; try done. by intros n [= ->].
  - by repeat constructor.
  - left. split; [done|].
    exists {| pd_fetch := FetchLog ControlLog; pd_manual := false; pd_active := true |}.
    split; [set_solver|done].
Qed.

(** C26.  The page of a job shows what the server answered for that job: the job,
    its group and its GitHub log in every order of answers, and the log of the
    tab shown when no tab is chosen while a refresh of the log is in flight; once
    nothing is in flight no log is said to be loading. *)
Theorem job_page_shows_answers (orderly : bool) (d : JobDetail) :
  detail_reachable orderly d ->
  (forall j, jd_job d = Some j -> answers FetchJob (inr j)) /\
  (forall g, jd_group d = Some g -> answers FetchGroup (inr g)) /\
  (jd_githubText d = LogMessage key_user_loadingGitHubLog \/
   exists a, answers FetchGitHubLog a /\ jd_githubText d = githubTextOf a) /\
  (orderly = true ->
   (jd_pending d <> [] /\ jd_logText d = LogMessage key_user_loadingRunnerLog) \/
   exists a, answers (FetchLog (jd_selectedLog d)) a /\ jd_logText d = runnerLogOf a).
Proof.
  intros Hd. assert (job_inv d) as (H1 & H2 & H3).
  { induction Hd as [|d d' _ IH Hs]; [by split_and!; [..|left]|by eapply job_inv_step]. }
  split_and!; [exact H1|exact H2|exact H3|]. intros ->. assert (detail_inv d) as [_ _ H].
  { clear H1 H2 H3. induction Hd as [|d d' _ IH Hs]; [apply mount_detail_inv|by eapply detail_inv_step]. }
  destruct H as [[E (p & Hp & _)]|H]; [left|by right]. split; [|exact E].
  intros Ep. rewrite Ep in Hp. by apply elem_of_nil in Hp.
Qed.
End detail.

(** ** Examples *)

(** A server whose logs say their names. *)
Definition log_answers (f : DetailFetch) : Answer f -> Prop :=
  match f with
  | FetchLog name => fun a => a = inr (JStr (logName_string name))
  | _ => fun _ => False
  end.

Definition log_request (name : LogName) (manual : bool) : Pending :=
  {| pd_fetch := FetchLog name; pd_manual := manual; pd_active := true |}.

Definition page_request (f : DetailFetch) : Pending :=
  {| pd_fetch := f; pd_manual := false; pd_active := true |}.

Definition log_answer (name : LogName) : thrown + json := inr (JStr (logName_string name)).

Definition example_first_log : JobDetail :=
  settleDetail (log_request ControlLog false)
    ([page_request FetchJob; page_request FetchGroup] ++ [page_request FetchGitHubLog])
    (log_answer ControlLog) mountDetail.

Definition example_second_log : JobDetail :=
  settleDetail (log_request StdoutLog false)
    (map page_request [FetchJob; FetchGroup; FetchGitHubLog] ++ [])
    (log_answer StdoutLog) (selectLog StdoutLog example_first_log).

Lemma job_page_shows_answers_witness :
  jd_logText example_second_log = LogText "stdout.log" /\
  ((jd_pending example_second_log <> [] /\
    jd_logText example_second_log = LogMessage key_user_loadingRunnerLog) \/
   exists a, log_answers (FetchLog (jd_selectedLog example_second_log)) a /\
     jd_logText example_second_log = runnerLogOf a).
Proof.
  split; [vm_compute; reflexivity|].
  apply (job_page_shows_answers log_answers true example_second_log); [|reflexivity].
  eapply dt_next; [eapply dt_next; [eapply dt_next; [apply dt_mount|]|]|].
  - by apply (dt_settle _ _ [page_request FetchJob; page_request FetchGroup]
      (log_request ControlLog false) [page_request FetchGitHubLog]).
  - apply (dt_select _ _ StdoutLog). intros _ p n. vm_compute. intros Hp E.
    by repeat (apply elem_of_cons in Hp as [->|Hp]); [..|by apply elem_of_nil in Hp].
  - by apply (dt_settle _ _ (map page_request [FetchJob; FetchGroup; FetchGitHubLog])
      (log_request StdoutLog false) []).
Defined.

(** A refresh of a log that is overtaken by another tab: its answer is shown under
    that tab. *)
Example refreshed_log_under_other_tab :
  let d := loadLog true example_first_log in
  let d := selectLog StdoutLog d in
  let d := settleDetail (log_request StdoutLog false)
             (map page_request [FetchJob; FetchGroup; FetchGitHubLog] ++ [log_request ControlLog true])
             (log_answer StdoutLog) d in
  let d := settleDetail (log_request ControlLog true)
             (map page_request [FetchJob; FetchGroup; FetchGitHubLog]) (log_answer ControlLog) d in
  jd_selectedLog d = StdoutLog /\ jd_logText d = LogText "control.log".
Proof. vm_compute. by split. Qed.

(** The failure of the request for the job is shown nowhere: with every answer in,
    the page has no job, so it says it is loading, and has no error to show. *)
Example failed_job_still_loading :
  let failed := ThrownError "not found" None in
  let d := settleDetail (page_request FetchJob) [] (inl failed)
             (settleDetail (page_request FetchGroup) [page_request FetchJob] (inl failed) example_first_log) in
  jd_pending d = [] /\ jd_loading d = false /\ jd_job d = None.
Proof. vm_compute. by split_and!. Qed.
