(* ===== verification/JobsPage.v ===== *)
(** The jobs page of src/ui/src/components/user-dashboard.tsx: the group and the
    job selected by the address, and the group that [UserDashboard] loads for
    the selection. *)
From S2P Require Import Prelude.
From S2P Require Import JsString.
From S2P Require Import UrlPath.
From S2P Require Import JsUri.
From S2P Require Import AdminTypes.
From S2P Require Import Errors.
From S2P Require Import LoadPolicy.
From S2P Require Import AppRoutes.
From S2P Require Import BuildGroups.
From S2P Require Import Navigation.

(** ** State *)

(** What the effect of [UserDashboard] depends on: the number of jobs, the key
    and the time of the selected group. *)
Definition EffectInputs : Type := option (nat * string * string).

Record JobsPage := {
  jp_groups : list BuildGroup;
  jp_key : string;
  jp_jobID : string;
  (** The inputs of the effect when it ran last. *)
  jp_seen : option EffectInputs;
  (** The requests in flight: the key, and whether it was cancelled. *)
  jp_requests : list (string * bool);
  jp_loaded : option (string * RunnerJobGroup);
}.

(** [groups.find(...) || (selectedKey ? undefined : groups[0])] *)
Definition selectedOf (groups : list BuildGroup) (key : string) : option BuildGroup :=
  match selected_group groups key with
  | Some g => Some g
  | None => if str_truthy key then None else head groups
  end.

Definition selected (p : JobsPage) : option BuildGroup := selectedOf (jp_groups p) (jp_key p).

Definition selectedJobGroup (p : JobsPage) : option RunnerJobGroup :=
  match jp_loaded p, selected p with
  | Some (key, group), Some s => if bool_decide (key = bg_key s) then Some group else None
  | _, _ => None
  end.

Definition effectInputs (p : JobsPage) : EffectInputs :=
  (fun s => (List.length (bg_jobs s), bg_key s, bg_updatedAt s)) <$> selected p.

(** ** The effect *)

Definition cancelRequests (requests : list (string * bool)) : list (string * bool) :=
  map (fun q => (q.1, true)) requests.

Definition with_requests (seen : option EffectInputs) (requests : list (string * bool))
    (loaded : option (string * RunnerJobGroup)) (p : JobsPage) : JobsPage := {|
  jp_groups := jp_groups p; jp_key := jp_key p; jp_jobID := jp_jobID p; jp_seen := seen;
  jp_requests := requests; jp_loaded := loaded |}.

Definition loadGroupEffect (p : JobsPage) : JobsPage :=
  if bool_decide (jp_seen p = Some (effectInputs p)) then p
  else with_requests (Some (effectInputs p))
         (cancelRequests (jp_requests p) ++
          match selected p with
          | Some s => if str_truthy (bg_key s) then [(bg_key s, false)] else []
          | None => []
          end) (jp_loaded p) p.

(** New properties, and the effect after the render. *)
Definition setProps (groups : list BuildGroup) (key jobID : string) (p : JobsPage) : JobsPage :=
  loadGroupEffect {| jp_groups := groups; jp_key := key; jp_jobID := jobID; jp_seen := jp_seen p;
                     jp_requests := jp_requests p; jp_loaded := jp_loaded p |}.

Definition mountJobs (groups : list BuildGroup) (key jobID : string) : JobsPage :=
  loadGroupEffect {| jp_groups := groups; jp_key := key; jp_jobID := jobID; jp_seen := None;
                     jp_requests := []; jp_loaded := None |}.

(** An answer: a group, or a value that [isRunnerJobGroup] refuses, or an error. *)
Definition settleGroup (q : string * bool) (others : list (string * bool))
    (result : thrown + option RunnerJobGroup) (p : JobsPage) : JobsPage :=
  with_requests (jp_seen p) others
    (if q.2 then jp_loaded p
     else match result with inr (Some group) => Some (q.1, group) | _ => None end) p.

(** ** What is shown *)

Definition currentJobs (p : JobsPage) : list RunnerState :=
  match selectedJobGroup p with
  | Some group => jg_current_jobs group
  | None => match selected p with Some s => currentBuildJobs s | None => [] end
  end.

Definition previousJobs (p : JobsPage) : list RunnerState :=
  match selectedJobGroup p with
  | Some group => jg_previous_jobs group
  | None => match selected p with Some s => previousBuildJobs s (currentJobs p) | None => [] end
  end.

Definition allJobs (p : JobsPage) : list RunnerState := currentJobs p ++ previousJobs p.

Definition selectedJob (p : JobsPage) : option RunnerState :=
  match find_first (fun job => bool_decide (id job = jp_jobID p)) (allJobs p) with
  | Some job => Some job
  | None => head (allJobs p)
  end.

(** The button for older requests, shown when the count is positive. *)
Definition olderRunnerCount (runnerTotal runnerCount : Z) : Z :=
  Z.max 0 (Z.min runnerTotal userRunnerHistoryWindow - runnerCount).

(** ** Steps *)

Section page.
(** What the server answers for a key. *)
Context (answers : string -> thrown + option RunnerJobGroup -> Prop).

Inductive jobs_step : JobsPage -> JobsPage -> Prop :=
  | js_props groups key jobID p : jobs_step p (setProps groups key jobID p)
  | js_settle l q r result p :
      jp_requests p = l ++ q :: r -> answers q.1 result ->
      jobs_step p (settleGroup q (l ++ r) result p).

Inductive jobs_reachable : JobsPage -> Prop :=
  | js_mount groups key jobID : jobs_reachable (mountJobs groups key jobID)
  | js_next p p' : jobs_reachable p -> jobs_step p p' -> jobs_reachable p'.

(** * Properties *)

(** ** The group loaded *)

Definition no_job_group (result : thrown + option RunnerJobGroup) : Prop :=
  match result with inr (Some _) => False | _ => True end.

(** The effect has run for what is selected; a request that is not cancelled is
    for the selection; what was loaded is an answer for its key; and without
    such a request the selection was answered. *)
Record jobs_inv (p : JobsPage) : Prop := {
  ji_seen : jp_seen p = Some (effectInputs p);
  ji_live : Forall (fun q => q.2 = false -> exists s, selected p = Some s /\ bg_key s = q.1)
              (jp_requests p);
  ji_loaded : forall key group, jp_loaded p = Some (key, group) -> answers key (inr (Some group));
  ji_answered : forall s, selected p = Some s -> bg_key s <> "" ->
    (exists q, q ∈ jp_requests p /\ q.2 = false) \/
    (exists group, jp_loaded p = Some (bg_key s, group)) \/
    jp_loaded p = None /\ (exists result, answers (bg_key s) result /\ no_job_group result);
}.

Lemma jobs_effect_inv (p : JobsPage) :
  (forall key group, jp_loaded p = Some (key, group) -> answers key (inr (Some group))) ->
  (jp_seen p = Some (effectInputs p) -> jobs_inv p) -> jobs_inv (loadGroupEffect p).
Proof.
  intros Hl Hsame. unfold loadGroupEffect. case_bool_decide as E; [by apply Hsame|].
  constructor; [done| |exact Hl|].
  - cbn. apply Forall_app. split.
    + unfold cancelRequests. rewrite Forall_fmap. apply Forall_true. intros q. done.
    + change (selected (with_requests _ _ _ p)) with (selected p).
      destruct (selected p) as [s|]; [|done].
      destruct (str_truthy (bg_key s)); [|done]. constructor; [|done]. intros _. by exists s.
  - intros s Hs Hk. left. cbn. change (selected p = Some s) in Hs. rewrite Hs.
    rewrite (proj2 (str_truthy_true _) Hk). exists (bg_key s, false).
    split; [apply elem_of_app; right; by left|done].
Qed.

(** The same selection by key keeps what belongs to it. *)
Lemma props_inv (groups : list BuildGroup) (key jobID : string) (p : JobsPage) :
  jobs_inv p -> jobs_inv (setProps groups key jobID p).
Proof.
  intros [H1 H2 H3 H4]. unfold setProps. set (p' := {| jp_groups := groups |}).
  apply jobs_effect_inv; [exact H3|]. intros E. change (jp_seen p') with (jp_seen p) in E.
  rewrite H1 in E. injection E as E. unfold effectInputs in E.
  assert (forall s', selected p' = Some s' -> exists s, selected p = Some s /\ bg_key s = bg_key s') as Hsame.
  { intros s' Hs'. rewrite Hs' in E. cbn in E. destruct (selected p) as [s|]; [|done].
    cbn in E. injection E as _ Ek _. by exists s. }
  assert (forall s, selected p = Some s -> exists s', selected p' = Some s' /\ bg_key s' = bg_key s) as Hsame'.
  { intros s Hs. rewrite Hs in E. cbn in E. destruct (selected p') as [s'|]; [|done].
    cbn in E. injection E as _ Ek _. by exists s'. }
  constructor; [|clear H3 H4|exact H3|].
  - change (jp_seen p') with (jp_seen p). rewrite H1. f_equal. exact E.
  - eapply Forall_impl; [exact H2|]. intros q Hq Hq2. destruct (Hq Hq2) as (s & Hs & Hk).
    destruct (Hsame' s Hs) as (s' & Hs' & Hk'). exists s'. split; [done|congruence].
  - intros s' Hs' Hk. destruct (Hsame s' Hs') as (s & Hs & Ek). rewrite <- Ek in Hk |- *.
    exact (H4 s Hs Hk).
Qed.

Lemma settle_group_inv (l r : list (string * bool)) (q : string * bool)
    (result : thrown + option RunnerJobGroup) (p : JobsPage) :
  jp_requests p = l ++ q :: r -> answers q.1 result -> jobs_inv p ->
  jobs_inv (settleGroup q (l ++ r) result p).
Proof.
  intros E Ha [H1 H2 H3 H4]. destruct q as [k c]. rewrite E in H2.
  apply Forall_app in H2 as [H2l [H2q H2r]%Forall_cons]. cbn in Ha, H2q.
  constructor; [exact H1|by apply Forall_app| |]; cbn.
  - destruct c; [exact H3|]. destruct result as [e|[group|]]; try done. by intros k' g [= <- <-].
  - intros s Hs Hk. change (selected p = Some s) in Hs. destruct c.
    + destruct (H4 s Hs Hk) as [(q & Hq & Hf)|H]; [left|by right]. exists q. split; [|done].
      rewrite E, elem_of_app, elem_of_cons in Hq. destruct Hq as [Hq|[->|Hq]]; [|done|]; set_solver.
    + right. destruct (H2q eq_refl) as (s' & Hs' & Ek). rewrite Hs in Hs'. injection Hs' as <-.
      rewrite Ek. destruct result as [e|[group|]]; [right|left; by eexists|right];
        (split; [done|by eexists]).
Qed.

Lemma jobs_reachable_inv (p : JobsPage) : jobs_reachable p -> jobs_inv p.
Proof.
  induction 1 as [groups key jobID|p p' _ IH Hs].
  - apply jobs_effect_inv; [done|]. cbn. done.
  - destruct Hs as [groups key jobID p|l q r result p E Ha]; [by apply props_inv|].
    by apply settle_group_inv.
Qed.

(** C9.  The jobs page shows the group the server answered for the selected build
    context and no other, in every order of answers and selections; and with no
    request in flight it shows that group unless the server had none. *)
Theorem job_group_shown (p : JobsPage) (s : BuildGroup) :
  jobs_reachable p -> selected p = Some s ->
  (forall group, selectedJobGroup p = Some group -> answers (bg_key s) (inr (Some group))) /\
  (bg_key s <> "" -> jp_requests p = [] -> selectedJobGroup p = None ->
     exists result, answers (bg_key s) result /\ no_job_group result).
Proof.
  intros Hp Hs. destruct (jobs_reachable_inv p Hp) as [_ _ H3 H4]. unfold selectedJobGroup.
  rewrite Hs. split.
  - intros group. destruct (jp_loaded p) as [[k g]|]; [|done]. case_bool_decide as Ek; [|done].
    intros [= ->]. subst k. by apply H3.
  - intros Hk Hr Hn. destruct (H4 s Hs Hk) as [(q & Hq & _)|[[g Eg]|[_ H]]]; [|exfalso|exact H].
    + rewrite Hr in Hq. by apply elem_of_nil in Hq.
    + rewrite Eg, bool_decide_eq_true_2 in Hn by done. done.
Qed.
End page.

(** ** Opening a job *)

Lemma find_job (jobs : list RunnerState) (job : RunnerState) :
  job ∈ jobs -> exists job', find_first (fun j => bool_decide (id j = id job)) jobs = Some job' /\
    id job' = id job.
Proof.
  intros Hj. destruct (find_first _ jobs) as [job'|] eqn:E.
  - exists job'. split; [done|]. apply find_first_Some in E as [_ E]. by apply bool_decide_eq_true_1 in E.
  - rewrite find_first_None in E. specialize (E job Hj). by rewrite bool_decide_eq_true_2 in E.
Qed.

(** Opening a job listed on the jobs page of a build context shows that job:
    the address then names the context and the job, the context stays selected,
    and the page selects the job. *)
Theorem opened_job_is_shown (k : group_key) (n : Nav) (p : JobsPage) (job : RunnerState) :
  group_key_ok k -> utf8 (id job) -> nv_key n = group_key_string k ->
  jp_key p = nv_key n -> job ∈ allJobs p ->
  let n' := openUserJob (id job) n in
  let p' := setProps (jp_groups p) (nv_key n') (userJobIDFromSearch (nv_search n')) p in
  userJobsGroupKeyFromLocation (nv_path n') (nv_search n') = nv_key n /\
  nv_key n' = nv_key n /\
  exists job', selectedJob p' = Some job' /\ id job' = id job.
Proof.
  intros Hk Hu En Ek Hj n' p'.
  destruct (openUserJob_url_roundtrip k (id job) Hk Hu) as [Hkey Hjob].
  assert (nv_path n' = location_pathname (openUserJobPath (group_key_string k) (id job)) /\
    nv_search n' = location_search (openUserJobPath (group_key_string k) (id job))) as [Ep Es].
  { subst n'. unfold openUserJob. by rewrite En. }
  split; [|split; [done|]].
  { rewrite Ep, Es, En. exact Hkey. }
  assert (allJobs p' = allJobs p /\ jp_jobID p' = id job) as [Ea Ei].
  { subst p'. rewrite Es, Hjob. unfold setProps.
    change (nv_key n') with (nv_key n). rewrite <- Ek. unfold loadGroupEffect.
    by destruct (bool_decide _). }
  unfold selectedJob. rewrite Ea, Ei. destruct (find_job _ _ Hj) as (job' & -> & E). by exists job'.
Qed.

(** ** Examples *)

Definition example_group (k : group_key) (jobs : list RunnerState) : BuildGroup := {|
  bg_key := group_key_string k; bg_kind := KindBranch; bg_repository := "qiniu/ci-runner";
  bg_title := "main"; bg_subtitle := ""; bg_updatedAt := "2026-01-03T00:00:00Z"; bg_jobs := jobs;
  bg_workflowRunIDs := [10%Z]; bg_headSHA := None; bg_headBranch := None;
  bg_pullRequestNumber := None |}.

Definition example_run : group_key := RunKey "qiniu" "ci-runner" "42".

Definition example_groups : list BuildGroup :=
  [example_group example_branch (take 1 example_runners); example_group example_run example_runners].

Definition example_answer : RunnerJobGroup := {|
  jg_key := group_key_string example_run; jg_group := GroupWorkflowRun;
  jg_repository := "qiniu/ci-runner"; jg_title := "CI"; jg_subtitle := "";
  jg_updated_at := "2026-01-03T00:00:00Z"; jg_jobs := example_runners;
  jg_current_jobs := drop 1 example_runners; jg_previous_jobs := take 1 example_runners;
  jg_workflow_run_ids := [42%Z]; jg_head_sha := None; jg_head_branch := None;
  jg_pull_request_number := None; jg_pull_request_title := None;
  jg_pull_request_title_error := None |}.

(** A server that has the group of the run and no other. *)
Definition example_answers (key : string) (result : thrown + option RunnerJobGroup) : Prop :=
  result = inr (if bool_decide (key = group_key_string example_run) then Some example_answer else None).

(** The branch is selected, then the run; the answer for the branch comes last. *)
Definition example_page : JobsPage :=
  let p := mountJobs example_groups (group_key_string example_branch) "" in
  let p := setProps example_groups (group_key_string example_run) "" p in
  let p := settleGroup (group_key_string example_run, false)
             [(group_key_string example_branch, true)] (inr (Some example_answer)) p in
  settleGroup (group_key_string example_branch, true) [] (inr None) p.

Lemma job_group_shown_witness :
  selectedJobGroup example_page = Some example_answer /\
  example_answers (group_key_string example_run) (inr (Some example_answer)).
Proof.
  assert (selectedJobGroup example_page = Some example_answer) as E by (vm_compute; reflexivity).
  split; [exact E|].
  refine (proj1 (job_group_shown example_answers example_page
    (example_group example_run example_runners) _ _) example_answer E); [|by vm_compute].
  eapply js_next; [eapply js_next; [eapply js_next; [apply (js_mount _ example_groups
    (group_key_string example_branch) "")|]|]|].
  - apply (js_props _ example_groups (group_key_string example_run) "").
  - by apply (js_settle _ [(group_key_string example_branch, true)]
      (group_key_string example_run, false) [] (inr (Some example_answer))).
  - by apply (js_settle _ [] (group_key_string example_branch, true) [] (inr None)).
Defined.

Definition example_opened : Nav := mountNav (addressOf (userJobsPath (group_key_string example_branch))).

Lemma opened_job_is_shown_witness :
  let job := default (blank_runner "" queued "" "" "") (example_runners !! 0) in
  let p := mountJobs example_groups (group_key_string example_branch) "" in
  let n' := openUserJob (id job) example_opened in
  exists job', id job' = "r1" /\
    selectedJob (setProps example_groups (nv_key n') (userJobIDFromSearch (nv_search n')) p) = Some job'.
Proof.
  intros job p n'.
  destruct (opened_job_is_shown example_branch example_opened p job) as (_ & _ & job' & E & Ei).
  - exact example_branch_ok.
  - auto with runnerd.
  - by vm_compute.
  - by vm_compute.
  - vm_compute. by left.
  - exists job'. split; [exact Ei|exact E].
Defined.
