(* ===== verification/Repositories.v ===== *)
(** The repository page: loading the repositories an installation authorises
    (src/ui/src/App.tsx, [loadAuthorizedRepositories] and
    [syncGitHubInstallations], and the effect and the panels of
    src/ui/src/components/repository-readiness-page.tsx), and the installation
    that GitHub's setup page sends back ([syncGitHubAppSetupFromURL]). *)
From S2P Require Import Prelude.
From S2P Require Import JsString.
From S2P Require Import JsUri.
From S2P Require Import JsArray.
From S2P Require Import JsNumber.
From S2P Require Import AdminTypes.
From S2P Require Import Errors.
From S2P Require Import LoadPolicy.
From S2P Require Import AppRoutes.
From S2P Require Import Readiness.

(** ** The derived values of the page *)

Definition repositoryOnlyAccess (preferences : option UserPreferences) (loading : bool) : bool :=
  let readiness := sandboxServiceReadiness (if loading then None else preferences) in
  let sandboxManageable :=
    negb (bool_decide ((preferences ≫= fun p => sandbox_manageable (sandbox p)) = Some false)) in
  negb (readiness_loading readiness) && negb sandboxManageable.

Definition selectedLogin (selected : option GitHubInstallation) : string :=
  default "" (trim <$> (selected ≫= account_login)).

Definition personalScope (selected : option GitHubInstallation) (currentLogin : option string) : bool :=
  negb (str_truthy (selectedLogin selected)) ||
  bool_decide (Some (toLowerCase (selectedLogin selected)) = normalized currentLogin).

Definition sandboxSettingsURL (selected : option GitHubInstallation) (currentLogin : option string) :
    string :=
  if personalScope selected currentLogin then "/account/preferences"
  else "/organizations/" +:+ encodeURIComponent (selectedLogin selected) +:+ "/preferences".

(** The texts that name who provides the sandbox service, and that ask for one. *)
Definition sandboxProvider (t : translate) (source : ResolvedSource)
    (selected : option GitHubInstallation) (currentLogin : option string) : string :=
  if bool_decide (source = SrcAdminDefault) then t "repositories.platformProvider" []
  else if personalScope selected currentLogin then
    if bool_decide (source = SrcInherited) then t "repositories.inheritedProvider" []
    else t "repositories.accountProvider" []
  else t "repositories.organizationProvider" [("login", selectedLogin selected)].

Definition missingSandboxDescription (t : translate) (selected : option GitHubInstallation)
    (currentLogin : option string) : string :=
  if personalScope selected currentLogin then t "repositories.missingAccountService" []
  else t "repositories.missingOrganizationService" [("login", selectedLogin selected)].

Definition repositoryAccessURL (preferences : option UserPreferences) (loading : bool)
    (selected : option GitHubInstallation) : string :=
  if repositoryOnlyAccess preferences loading
  then "https://github.com/" +:+ encodeURIComponent (default "" (selected ≫= account_login))
  else "https://github.com/settings/installations/" +:+
       default "" ((fun i => pretty (inst_installation_id i)) <$> selected).

(** ** State *)

Record Repositories := {
  (** What the page is given, and whether it is the page shown. *)
  rp_shown : bool;
  rp_installations : list GitHubInstallation;
  rp_account : option string;
  rp_login : option string;
  (** The state of [App]. *)
  rp_authorized : gmap Z (list string);
  rp_errors : gmap Z string;
  rp_loadingFor : option Z;
  (** The installations whose repositories are being requested. *)
  rp_requests : list Z;
}.

Definition with_lists (authorized : gmap Z (list string)) (errors : gmap Z string)
    (loadingFor : option Z) (requests : list Z) (r : Repositories) : Repositories := {|
  rp_shown := rp_shown r; rp_installations := rp_installations r; rp_account := rp_account r;
  rp_login := rp_login r; rp_authorized := authorized; rp_errors := errors;
  rp_loadingFor := loadingFor; rp_requests := requests |}.

Definition with_page (shown : bool) (installations : list GitHubInstallation)
    (account login : option string) (r : Repositories) : Repositories := {|
  rp_shown := shown; rp_installations := installations; rp_account := account; rp_login := login;
  rp_authorized := rp_authorized r; rp_errors := rp_errors r; rp_loadingFor := rp_loadingFor r;
  rp_requests := rp_requests r |}.

Definition no_repositories : Repositories := {|
  rp_shown := false; rp_installations := []; rp_account := None; rp_login := None;
  rp_authorized := ∅; rp_errors := ∅; rp_loadingFor := None; rp_requests := [] |}.

Definition selectedInstallation (r : Repositories) : option GitHubInstallation :=
  selectRepositoryInstallation (rp_installations r) (rp_account r) (rp_login r).

Definition repositoryError (r : Repositories) (n : Z) : option string := or_null (rp_errors r !! n).

(** ** Operations *)

Definition loadAuthorizedRepositories (n : Z) (r : Repositories) : Repositories :=
  with_lists (rp_authorized r) (delete n (rp_errors r)) (Some n) (rp_requests r ++ [n]) r.

(** The answer to a request for [n]; [data.repositories || []]. *)
Definition settleRepositories (t : translate) (n : Z) (others : list Z)
    (result : thrown + option (list string)) (r : Repositories) : Repositories :=
  match result with
  | inr data => with_lists (<[n := default [] data]> (rp_authorized r)) (rp_errors r) None others r
  | inl e =>
      with_lists (rp_authorized r)
        (<[n := error_message e (t "app.repositoriesLoadFailed" [])]> (rp_errors r)) None others r
  end.

(** The effect of the page.  It runs after every render of the page, because its
    callback is a new function in every render of [App]. *)
Definition repositoriesEffect (r : Repositories) : Repositories :=
  match selectedInstallation r with
  | Some i =>
      if rp_shown r && bool_decide (rp_authorized r !! inst_id i = None) &&
         negb (opt_truthy (rp_errors r !! inst_id i)) &&
         negb (bool_decide (rp_loadingFor r = Some (inst_id i)))
      then loadAuthorizedRepositories (inst_id i) r else r
  | None => r
  end.

(** What [signOut] clears; the requests in flight go on. *)
Definition signOutRepositories (r : Repositories) : Repositories :=
  with_lists ∅ ∅ None (rp_requests r) (with_page false [] (rp_account r) None r).

(** ** What is shown *)

Inductive AccessBadge := AccessUnavailable | CheckingAccess | Connected | ChooseRepositories.

Definition accessBadge (r : Repositories) (i : GitHubInstallation) : AccessBadge :=
  match repositoryError r (inst_id i) with
  | Some _ => AccessUnavailable
  | None =>
      match rp_authorized r !! inst_id i with
      | Some authorized =>
          if bool_decide (rp_loadingFor r = Some (inst_id i)) then CheckingAccess
          else match authorized with [] => ChooseRepositories | _ => Connected end
      | None => CheckingAccess
      end
  end.

Inductive RepositoryPanel :=
  | PanelError (message : string)
  | PanelLoading
  | PanelRows (rows : list (string * bool))
  | PanelNoMatches
  | PanelNoneAuthorized.

Definition repositoryPanel (baseCompare : string -> string -> Z) (query : string)
    (r : Repositories) (i : GitHubInstallation) : RepositoryPanel :=
  match repositoryError r (inst_id i) with
  | Some message => PanelError message
  | None =>
      match rp_authorized r !! inst_id i with
      | None => PanelLoading
      | Some authorized =>
          if bool_decide (rp_loadingFor r = Some (inst_id i)) then PanelLoading
          else match filteredRows query (repositoryRows baseCompare authorized (inst_repositories i)) with
               | [] => match authorized with [] => PanelNoneAuthorized | _ => PanelNoMatches end
               | rows => PanelRows rows
               end
      end
  end.

(** ** Synchronising the installations ([syncGitHubInstallations]) *)

Inductive Notice := NoticeSuccess (message : string) | NoticeInfo (message : string)
  | NoticeError (message : string).

(** The request, and then the load of the user's data that follows it. *)
Inductive SyncPhase := SyncRequest | SyncLoad.

Record Sync := {
  sy_phase : option SyncPhase;
  sy_syncing : bool;
  (** What it wrote to [loading] last; the loads write that too, see UserLoad. *)
  sy_loading : bool;
  sy_gate : ReauthGate;
  sy_redirects : nat;
  sy_notices : list Notice;
}.

Definition with_notices (phase : option SyncPhase) (gate : ReauthGate) (redirects : nat)
    (notices : list Notice) : Sync := {|
  sy_phase := phase; sy_syncing := bool_decide (phase <> None);
  sy_loading := bool_decide (phase <> None); sy_gate := gate;
  sy_redirects := redirects; sy_notices := notices |}.

Definition syncGitHubInstallations (s : Sync) : Sync :=
  if sy_syncing s then s
  else {| sy_phase := Some SyncRequest; sy_syncing := true; sy_loading := true; sy_gate := sy_gate s;
          sy_redirects := sy_redirects s; sy_notices := sy_notices s |}.

(** Whether a failed synchronisation asks the user to sign in again. *)
Definition asksToSignIn (t : translate) (e : thrown) : bool :=
  requiresGitHubReauthentication e ||
  bool_decide (error_message e (t "app.accountsSyncFailed" []) =
    "sign in with GitHub again before syncing installations").

(** The answer: the installations, when the body has them. *)
Definition settleSync (t : translate) (result : thrown + option (list GitHubInstallation)) (s : Sync) :
    Sync :=
  match sy_phase s, result with
  | Some SyncRequest, inr found =>
      let count := List.length (default [] found) in
      with_notices (Some SyncLoad) (sy_gate s) (sy_redirects s)
        (sy_notices s ++
         [NoticeSuccess (t "app.syncedGitHubAccounts" [("count", pretty (Z.of_nat count))])])
  | Some SyncRequest, inl e =>
      if asksToSignIn t e then
        let '(gate, first) := reauth_begin (sy_gate s) in
        if first
        then with_notices None gate (S (sy_redirects s))
               (sy_notices s ++ [NoticeInfo (t "app.refreshingGitHubSignIn" [])])
        else with_notices None gate (sy_redirects s) (sy_notices s)
      else with_notices None (sy_gate s) (sy_redirects s)
             (sy_notices s ++ [NoticeError (error_message e (t "app.accountsSyncFailed" []))])
  | _, _ => s
  end.

(** [loadUserAll] never rejects. *)
Definition syncLoaded (s : Sync) : Sync :=
  match sy_phase s with
  | Some SyncLoad => with_notices None (sy_gate s) (sy_redirects s) (sy_notices s)
  | _ => s
  end.

(** ** The installation of a setup link ([syncGitHubAppSetupFromURL]) *)

(** The installation and the state posted for an address, if any. *)
Definition setupRequest (authenticated hasAccess isAdminRoute : bool) (path search : string) :
    option (Z * string) :=
  if negb authenticated || (hasAccess && isAdminRoute) ||
     (negb (isAccountSettingsPath path) && negb (bool_decide (path = "/repositories")))
  then None
  else
    let params := parse_params search in
    let setupState := default "" (params_get "state" params) in
    match safe_integer (Number (default "" (params_get "installation_id" params))) with
    | Some installationID =>
        if (installationID <=? 0)%Z then None else Some (installationID, setupState)
    | None => None
    end.

(** ** Steps *)

Section page.
Context (t : translate) (answers : Z -> thrown + option (list string) -> Prop).

(** An event, and the effect after the render that follows it. *)
Inductive repositories_event : Repositories -> Repositories -> Prop :=
  | re_page shown installations account login r :
      repositories_event r (with_page shown installations account login r)
  | re_retry i message r :
      rp_shown r = true -> selectedInstallation r = Some i ->
      repositoryError r (inst_id i) = Some message ->
      repositories_event r (loadAuthorizedRepositories (inst_id i) r)
  | re_settle a n b result r :
      rp_requests r = a ++ n :: b -> answers n result ->
      repositories_event r (settleRepositories t n (a ++ b) result r)
  | re_signOut r : repositories_event r (signOutRepositories r).

Inductive repositories_reachable : Repositories -> Prop :=
  | rr_start : repositories_reachable no_repositories
  | rr_event r r' :
      repositories_reachable r -> repositories_event r r' ->
      repositories_reachable (repositoriesEffect r').

(** * Properties *)

(** What is kept was answered; the installation being loaded has a request; and
    the effect has nothing left to do. *)
Record repositories_inv (r : Repositories) : Prop := {
  ri_authorized : map_Forall (fun n l => exists data, answers n (inr data) /\ l = default [] data)
                    (rp_authorized r);
  ri_errors : map_Forall (fun n m => exists e, answers n (inl e) /\
                    m = error_message e (t "app.repositoriesLoadFailed" [])) (rp_errors r);
  ri_loading : forall n, rp_loadingFor r = Some n -> n ∈ rp_requests r;
}.

Definition effect_done (r : Repositories) : Prop :=
  forall i, rp_shown r = true -> selectedInstallation r = Some i ->
    rp_authorized r !! inst_id i <> None \/ opt_truthy (rp_errors r !! inst_id i) = true \/
    rp_loadingFor r = Some (inst_id i).

Lemma load_repositories_inv (n : Z) (r : Repositories) :
  repositories_inv r -> repositories_inv (loadAuthorizedRepositories n r).
Proof.
  intros [H1 H2 _]. constructor; cbn; [done|by apply map_Forall_delete|].
  intros m [= <-]. apply elem_of_app. right. by left.
Qed.

Lemma repositories_event_inv (r r' : Repositories) :
  repositories_event r r' -> repositories_inv r -> repositories_inv r'.
Proof.
  intros Hs Hi. destruct Hs as [| |a n b result r E Ha|r].
  - destruct Hi. by constructor.
  - by apply load_repositories_inv.
  - destruct Hi as [H1 H2 H3], result as [e|data];
      (constructor; cbn; [| |done]); try done; apply map_Forall_insert_2; eauto.
  - by constructor; cbn; [apply map_Forall_empty..|].
Qed.

Lemma repositories_effect_inv (r : Repositories) :
  repositories_inv r -> repositories_inv (repositoriesEffect r) /\ effect_done (repositoriesEffect r).
Proof.
  intros Hi. unfold repositoriesEffect, effect_done.
  destruct (selectedInstallation r) as [i|] eqn:E; [|by rewrite E].
  destruct (_ && _) eqn:Eb.
  - split; [by apply load_repositories_inv|]. intros i' _ E'. right. right.
    change (selectedInstallation r = Some i') in E'. rewrite E in E'. by injection E' as <-.
  - split; [done|]. intros i' Hs E'. rewrite E in E'. injection E' as <-. rewrite Hs in Eb. cbn [andb] in Eb.
    apply andb_false_iff in Eb as [[Eb|Eb]%andb_false_iff|Eb].
    + left. by apply bool_decide_eq_false_1 in Eb.
    + right. left. by apply negb_false_iff in Eb.
    + right. right. by apply negb_false_iff, bool_decide_eq_true_1 in Eb.
Qed.

Lemma repositories_reachable_inv (r : Repositories) :
  repositories_reachable r -> repositories_inv r /\ effect_done r.
Proof.
  induction 1 as [|r r' _ [IH _] Hs].
  - by split; [constructor; cbn; [apply map_Forall_empty..|]|].
  - apply repositories_effect_inv. by apply (repositories_event_inv r r').
Qed.

(** C21.  The repository page ends its loading: with an account selected and no
    request in flight the panel shows the failure that the server answered for
    that account, or the rows of the list it answered, or says that the list or
    the search is empty; and the panel and the badge agree. *)
Theorem repository_panel_settles (baseCompare : string -> string -> Z) (query : string)
    (r : Repositories) (i : GitHubInstallation) :
  repositories_reachable r -> rp_shown r = true -> selectedInstallation r = Some i ->
  rp_requests r = [] ->
  (exists e, answers (inst_id i) (inl e) /\
     repositoryPanel baseCompare query r i =
       PanelError (error_message e (t "app.repositoriesLoadFailed" [])) /\
     accessBadge r i = AccessUnavailable) \/
  (exists data, answers (inst_id i) (inr data) /\
     let authorized := default [] data in
     let rows := filteredRows query (repositoryRows baseCompare authorized (inst_repositories i)) in
     accessBadge r i = (if bool_decide (authorized = []) then ChooseRepositories else Connected) /\
     repositoryPanel baseCompare query r i =
       (if bool_decide (authorized = []) then PanelNoneAuthorized
        else if bool_decide (rows = []) then PanelNoMatches else PanelRows rows)).
Proof.
  intros Hr Hs Hi Hn. destruct (repositories_reachable_inv r Hr) as [[H1 H2 H3] Hd].
  assert (rp_loadingFor r = None) as El.
  { destruct (rp_loadingFor r) as [n|] eqn:E; [|done]. specialize (H3 n eq_refl).
    rewrite Hn in H3. by apply elem_of_nil in H3. }
  unfold repositoryPanel, accessBadge, repositoryError, or_null. rewrite El.
  rewrite (bool_decide_eq_false_2 (None = Some _)) by done.
  destruct (opt_truthy (rp_errors r !! inst_id i)) eqn:Ee.
  - left. destruct (rp_errors r !! inst_id i) as [m|] eqn:Em; [|done].
    destruct (H2 _ _ Em) as (e & He & ->). by exists e.
  - right. destruct (Hd i Hs Hi) as [Ha|[H|H]]; [|congruence..].
    destruct (rp_authorized r !! inst_id i) as [l|] eqn:Eauth; [|done].
    destruct (H1 _ _ Eauth) as (data & Hdata & ->). exists data. split; [done|]. cbn zeta.
    destruct (default [] data) as [|x l] eqn:Ed.
    + split; [done|]. rewrite (bool_decide_eq_true_2 ([] = [])) by done.
      unfold repositoryRows, filteredRows. cbn. by destruct (str_truthy _).
    + split; [done|]. rewrite (bool_decide_eq_false_2 (x :: l = [])) by done.
      by destruct (filteredRows query _).
Qed.
End page.

(** ** The links of the page *)

Lemma settings_link_opens_account (selected : option GitHubInstallation) (login : option string) :
  utf8 (selectedLogin selected) ->
  parseAccountSettingsRoute (sandboxSettingsURL selected login) login =
    Some {| route_accountLogin :=
              if personalScope selected login then login else Some (selectedLogin selected);
            route_tab := TabPreferences |}.
Proof.
  intros Hu. unfold sandboxSettingsURL. destruct (personalScope selected login) eqn:E; [done|].
  unfold personalScope in E. apply orb_false_iff in E as [E _].
  apply negb_false_iff, str_truthy_true in E.
  apply (parse_organization _ "preferences"); [done..|unfold settingsTabs; set_solver|done].
Qed.

(** ** Synchronising *)

(** A synchronisation that fails is explained by one notice, or it sends the
    user to sign in, once. *)
Lemma failed_sync_explained (t : translate) (e : thrown) (s : Sync) :
  sy_phase s = Some SyncRequest ->
  let s' := settleSync t (inl e) s in
  sy_syncing s' = false /\
  if asksToSignIn t e
  then sy_gate s' = true /\ (sy_gate s = true -> sy_redirects s' = sy_redirects s) /\
       (sy_gate s = false -> sy_redirects s' = S (sy_redirects s))
  else sy_redirects s' = sy_redirects s /\
       sy_notices s' = sy_notices s ++ [NoticeError (error_message e (t "app.accountsSyncFailed" []))].
Proof.
  intros Ep. unfold settleSync. rewrite Ep. destruct (asksToSignIn t e); [|done].
  destruct (sy_gate s); by cbn.
Qed.

(** ** Setup links *)

(** The pages of a user from which a setup link is posted. *)
Definition setup_page (authenticated hasAccess isAdminRoute : bool) (path : string) : bool :=
  authenticated && negb (hasAccess && isAdminRoute) &&
  (isAccountSettingsPath path || bool_decide (path = "/repositories")).

Lemma setupRequest_page (authenticated hasAccess isAdminRoute : bool) (path search : string) :
  setup_page authenticated hasAccess isAdminRoute path = false ->
  setupRequest authenticated hasAccess isAdminRoute path search = None.
Proof.
  unfold setup_page, setupRequest. destruct authenticated, (hasAccess && isAdminRoute); try done.
  cbn. by intros [-> ->]%orb_false_iff.
Qed.

Lemma setupRequest_safe (authenticated hasAccess isAdminRoute : bool) (path search : string)
    (n : Z) (state : string) :
  setupRequest authenticated hasAccess isAdminRoute path search = Some (n, state) ->
  (0 < n <= max_safe)%Z.
Proof.
  unfold setupRequest, safe_integer. destruct (_ || _ || _); [done|].
  destruct (integer_of _) as [m|]; [|done]. destruct (Z.leb_spec (Z.abs m) max_safe); [|done].
  destruct (Z.leb_spec m 0); [done|]. intros [= -> _]. lia.
Qed.

(** A setup link is posted exactly from the pages of a signed-in user that
    configure the GitHub App, with the installation and the state of its query,
    whatever characters the query has; and an installation that is posted is a
    positive integer that the browser holds exactly. *)
Theorem setup_link_posted (authenticated hasAccess isAdminRoute : bool) (path search : string)
    (ps : params) (n : Z) :
  Forall utf8_pair ps -> params_get "installation_id" ps = Some (pretty n) ->
  (Z.abs n <= max_safe)%Z ->
  setupRequest authenticated hasAccess isAdminRoute path ("?" +:+ show_params ps) =
    (if setup_page authenticated hasAccess isAdminRoute path && (0 <? n)%Z
     then Some (n, default "" (params_get "state" ps)) else None) /\
  (forall posted state,
     setupRequest authenticated hasAccess isAdminRoute path search = Some (posted, state) ->
     setup_page authenticated hasAccess isAdminRoute path = true /\ (0 < posted <= max_safe)%Z).
Proof.
  intros Hps En Hn. split.
  - destruct (setup_page _ _ _ path) eqn:E; [|by rewrite setupRequest_page].
    unfold setup_page in E. unfold setupRequest.
    apply andb_prop in E as [[-> Ea%negb_true_iff]%andb_prop Ep]. rewrite Ea, <- negb_orb, Ep. cbn [negb orb].
    rewrite parse_search_params, En by done.
    change (default "" (Some (pretty n))) with (pretty n).
    rewrite Number_String_roundtrip by done. cbn [andb]. rewrite Z.ltb_antisym.
    by destruct (n <=? 0)%Z.
  - intros posted state E. split; [|by eapply setupRequest_safe].
    destruct (setup_page _ _ _ path) eqn:Ep; [done|]. by rewrite setupRequest_page in E.
Qed.

Lemma setup_link_posted_witness :
  setupRequest true false false "/repositories"
    ("?" +:+ show_params [("installation_id", pretty 42%Z); ("setup_action", "install"); ("state", "a+b=c")]) =
    Some (42%Z, "a+b=c").
Proof.
  refine (proj1 (setup_link_posted true false false "/repositories" ""
    [("installation_id", pretty 42%Z); ("setup_action", "install"); ("state", "a+b=c")] 42 _ _ _)).
  - repeat constructor; auto with runnerd.
  - by vm_compute.
  - by vm_compute.
Defined.

(** ** Examples *)

Definition example_repositories (account : string) : Repositories :=
  repositoriesEffect (with_page true [example_installation 1 "octocat"; example_installation 2 "acme"]
    (Some account) (Some "octocat") no_repositories).

(** The organization is selected while the list of the user's own account is
    being requested, and its own list arrives last. *)
Definition example_switched : Repositories :=
  repositoriesEffect (with_page true [example_installation 1 "octocat"; example_installation 2 "acme"]
    (Some "acme") (Some "octocat") (example_repositories "octocat")).

Definition keys_as_texts : translate := fun key _ => key.

Definition example_list (n : Z) (result : thrown + option (list string)) : Prop :=
  result = inr (if bool_decide (n = 2%Z) then Some ["acme/two"; "acme/one"] else None).

Definition example_settled : Repositories :=
  repositoriesEffect (settleRepositories keys_as_texts 2 []
    (inr (Some ["acme/two"; "acme/one"])) example_switched).

Lemma repository_panel_settles_witness :
  let r := repositoriesEffect (settleRepositories keys_as_texts 1 [] (inr None)
             (example_repositories "octocat")) in
  repositoryPanel str_cmp "" r (example_installation 1 "octocat") = PanelNoneAuthorized.
Proof.
  intros r.
  destruct (repository_panel_settles keys_as_texts example_list str_cmp "" r
    (example_installation 1 "octocat")) as [(e & He & _)|(data & Hd & _ & E)].
  - eapply rr_event; [eapply rr_event; [apply rr_start|apply (re_page _ _ true)]|].
    by apply (re_settle _ _ [] 1%Z []).
  - by vm_compute.
  - by vm_compute.
  - by vm_compute.
  - done.
  - unfold example_list in Hd. injection Hd as ->. rewrite E. by vm_compute.
Defined.

(** The end of any request clears the mark of the account being loaded, so the
    page asks for the list of the account shown a second time. *)
Example list_requested_twice :
  let r := settleRepositories keys_as_texts 1 [2%Z] (inr None) example_switched in
  rp_requests example_switched = [1%Z; 2%Z] /\
  rp_requests (repositoriesEffect r) = [2%Z; 2%Z].
Proof. vm_compute. by split. Qed.
