(* ===== verification/SourceCheck.v ===== *)
(** The scan for texts that are not translated, and the command line:
    src/ui/scripts/check-i18n.ts.

    A syntax tree is a node with its kind, its position and its children in the
    order of [ts.forEachChild], without the tokens of optional chaining; the
    fields of a node are children at fixed places.  The parser of TypeScript, the
    file system, the module loader and the letters outside ASCII are parameters.

    What the scan finds is compared with what expressions show when they are
    evaluated, whatever the values of the names and calls in them are. *)
From S2P Require Import Prelude.
From S2P Require Import JsString.
From S2P Require Import JsArray.
From S2P Require Import Resources.

(** ** Syntax trees *)

(** Line and character, from zero. *)
Definition position : Type := Z * Z.

Inductive Operator := PlusToken | AmpersandAmpersandToken | BarBarToken | QuestionQuestionToken
  | OtherToken.

(** The kinds that the scan distinguishes, with the children each has. *)
Inductive Kind :=
  | JsxText (text : string)
  | JsxElement | JsxFragment
  | JsxExpression                        (* expression, or none *)
  | JsxAttribute (name : string)         (* name; initializer, or none *)
  | StringLiteral (text : string)
  | NoSubstitutionTemplateLiteral (text : string)
  | TemplateExpression                   (* head; spans *)
  | TemplateSpan                         (* expression; literal *)
  | TemplatePart (text : string)         (* head or literal of a template *)
  | ConditionalExpression                (* condition; token; whenTrue; token; whenFalse *)
  | BinaryExpression (operator : Operator) (* left; token; right *)
  | ParenthesizedExpression              (* expression *)
  | AsExpression                         (* expression; type *)
  | NonNullExpression                    (* expression *)
  | TypeAssertionExpression              (* type; expression *)
  | CallExpression (typeArguments : nat) (* callee; type arguments; arguments *)
  | PropertyAccessExpression             (* expression; name *)
  | Identifier (text : string)
  | OtherKind.

Inductive node := Node (at_ : position) (kind : Kind) (children : list node).

Definition node_start (n : node) : position := match n with Node at_ _ _ => at_ end.

(** A literal and the node it is reported for. *)
Definition literal : Type := position * string.

(** ** The literals of an expression *)

Definition outputOperators : list Operator :=
  [AmpersandAmpersandToken; BarBarToken; QuestionQuestionToken].

#[export] Instance Operator_eq_dec : EqDecision Operator.
Proof. solve_decision. Defined.

Definition partText (n : node) : string :=
  match n with Node _ (TemplatePart text) _ => text | _ => "" end.

Definition spanText (n : node) : string :=
  match n with Node _ TemplateSpan [_; part] => partText part | _ => "" end.

Definition staticText (children : list node) : string :=
  match children with
  | head :: spans => partText head +:+ join "" (map spanText spans)
  | [] => ""
  end.

(** A call has no literals, whether or not it is a translation. *)
Fixpoint expressionLiterals (n : node) : list literal :=
  match n with
  | Node at_ kind children =>
      match kind, children with
      | StringLiteral text, _ | NoSubstitutionTemplateLiteral text, _ => [(at_, text)]
      | TemplateExpression, _ => [(at_, staticText children)]
      | ConditionalExpression, [_; _; whenTrue; _; whenFalse] =>
          expressionLiterals whenTrue ++ expressionLiterals whenFalse
      | BinaryExpression operator, [lhs; _; rhs] =>
          if bool_decide (operator = PlusToken)
          then expressionLiterals lhs ++ expressionLiterals rhs
          else if bool_decide (operator ∈ outputOperators) then expressionLiterals rhs else []
      | ParenthesizedExpression, [expression] | AsExpression, [expression; _]
      | NonNullExpression, [expression] | TypeAssertionExpression, [_; expression] =>
          expressionLiterals expression
      | _, _ => []
      end
  end.

(** ** The scan *)

Definition visibleAttributeNames : list string :=
  ["alt"; "aria-label"; "description"; "label"; "placeholder"; "title"].

Definition toastMethodNames : list string := ["error"; "info"; "message"; "success"; "warning"].

Definition allowedVisibleLiterals : list string :=
  ["$ task test"; "Apache-2.0"; "build-and-test"; "CI Runner"; "e2b"; "GitHub"; "GitHub App"; "ID";
   "owner/repo"; "owner/repo or owner/*"; "PID"; "Qiniu"; "Qiniu Runner"; "self-hosted,e2b";
   "ubuntu-24.04"].

Definition isToastCall (callee : node) : bool :=
  match callee with
  | Node _ PropertyAccessExpression [Node _ (Identifier object) _; Node _ (Identifier name) _] =>
      bool_decide (object = "toast") && bool_decide (name ∈ toastMethodNames)
  | _ => false
  end.

(** [isJsxChildExpression], of the kind of the parent. *)
Definition isJsxParent (parent : option Kind) : bool :=
  match parent with Some JsxElement | Some JsxFragment => true | _ => false end.

(** What a node itself reports: what it is and its literal. *)
Definition reported (parent : option Kind) (n : node) : list (string * literal) :=
  match n with
  | Node at_ kind children =>
      match kind, children with
      | JsxText text, _ => [("user-visible JSX text", (at_, text))]
      | JsxExpression, expression :: _ =>
          if isJsxParent parent
          then map (pair "user-visible JSX text") (expressionLiterals expression) else []
      | JsxAttribute name, [_; Node start initializer parts] =>
          if bool_decide (name ∈ visibleAttributeNames) then
            match initializer, parts with
            | StringLiteral text, _ => [("user-visible " +:+ name, (start, text))]
            | JsxExpression, expression :: _ =>
                map (pair ("user-visible " +:+ name)) (expressionLiterals expression)
            | _, _ => []
            end
          else []
      | CallExpression typeArguments, callee :: rest =>
          match drop typeArguments rest with
          | message :: _ =>
              if isToastCall callee then map (pair "toast message") (expressionLiterals message)
              else []
          | [] => []
          end
      | _, _ => []
      end
  end.

Fixpoint visit (parent : option Kind) (n : node) : list (string * literal) :=
  match n with
  | Node at_ kind children =>
      reported parent n ++ mjoin (map (visit (Some kind)) children)
  end.

(** ** Which literals need a translation *)

(** [value.replace(/\s+/g, " ")]; the length of the text is fuel enough. *)
Fixpoint collapse_space (fuel : nat) (s : string) : string :=
  match fuel, s with
  | S fuel, String a r =>
      match drop_ws white_space s with
      | Some rest => " " +:+ collapse_space fuel (strip (String.length rest) white_space rest)
      | None => String a (collapse_space fuel r)
      end
  | _, _ => ""
  end.

Definition normalizeVisibleLiteral (value : string) : string :=
  trim (collapse_space (String.length value) value).

Section letters.
(** Whether a text has a letter outside ASCII. *)
Context (wide_letter : string -> bool).

(** [/\p{L}/u.test(value)] *)
Definition has_letter (value : string) : bool :=
  negb (sforall (fun a => negb (is_upper a || is_lower a)) value) || wide_letter value.

Definition isUntranslatedVisibleLiteral (value : string) : bool :=
  has_letter value && negb (bool_decide (value ∈ allowedVisibleLiterals)).

Definition report_line (file : string) (kind : string) (l : literal) : string :=
  file +:+ ":" +:+ pretty (l.1.1 + 1)%Z +:+ ":" +:+ pretty (l.1.2 + 1)%Z +:+ ": " +:+ kind +:+
  " must use i18n: " +:+ normalizeVisibleLiteral l.2.

Definition report (file : string) (found : string * literal) : list string :=
  if negb (isUntranslatedVisibleLiteral (normalizeVisibleLiteral found.2.2)) then []
  else [report_line file found.1 found.2].

(** ** The files *)

Inductive entry :=
  | EntryFile (name content : string)
  | EntryDirectory (name : string) (entries : list entry)
  | EntryOther (name : string).

(** [/\.tsx?$/] and [/(?:\.test|\.d)\.tsx?$/] *)
Definition isSourceName (name : string) : bool :=
  (endsWith ".ts" name || endsWith ".tsx" name) &&
  negb (endsWith ".test.ts" name || endsWith ".test.tsx" name ||
        endsWith ".d.ts" name || endsWith ".d.tsx" name).

Definition path_cmp (a b : string * string) : Z := str_cmp a.1 b.1.

(** The source files below an entry, with their contents. *)
Fixpoint entryFiles (directory : string) (e : entry) : list (string * string) :=
  match e with
  | EntryDirectory name entries =>
      if bool_decide (name = "locales") || bool_decide (name = "node_modules") then []
      else sort_by path_cmp (mjoin (map (entryFiles (directory +:+ "/" +:+ name)) entries))
  | EntryFile name content =>
      if negb (isSourceName name) then [] else [(directory +:+ "/" +:+ name, content)]
  | EntryOther _ => []
  end.

Definition sourceFiles (directory : string) (entries : list entry) : list (string * string) :=
  sort_by path_cmp (mjoin (map (entryFiles directory) entries)).

Section sources.
(** [ts.createSourceFile] of the path and the content. *)
Context (createSourceFile : string -> string -> node).

(** The path of a file below the root. *)
Definition relative (root file : string) : string := default file (drop_prefix (root +:+ "/") file).

Definition checkFile (root : string) (file : string * string) : list string :=
  mjoin (map (report (relative root file.1)) (visit None (createSourceFile file.1 file.2))).

Definition checkSourceTree (root : string) (entries : list entry) : list string :=
  mjoin (map (checkFile root) (sourceFiles root entries)).

(** ** The command *)

Record CheckOptions := {
  resourcePaths : string * string;
  skipResources : bool;
  sourceRoot : string;
  skipSource : bool;
}.

Definition defaultOptions : CheckOptions := {|
  resourcePaths := ("src/locales/en.ts", "src/locales/zh.ts"); skipResources := false;
  sourceRoot := "src"; skipSource := false |}.

(** The loop of [parseArguments]; an error is the message thrown. *)
Fixpoint parse_arguments (o : CheckOptions) (arguments : list string) : string + CheckOptions :=
  match arguments with
  | [] => inr o
  | argument :: rest =>
      if bool_decide (argument = "--resources") then
        match rest with
        | en :: zh :: rest =>
            if negb (str_truthy en) || negb (str_truthy zh)
            then inl "--resources requires English and Chinese module paths"
            else parse_arguments {| resourcePaths := (en, zh); skipResources := skipResources o;
                   sourceRoot := sourceRoot o; skipSource := skipSource o |} rest
        | _ => inl "--resources requires English and Chinese module paths"
        end
      else if bool_decide (argument = "--skip-source") then
        parse_arguments {| resourcePaths := resourcePaths o; skipResources := skipResources o;
          sourceRoot := sourceRoot o; skipSource := true |} rest
      else if bool_decide (argument = "--skip-resources") then
        parse_arguments {| resourcePaths := resourcePaths o; skipResources := true;
          sourceRoot := sourceRoot o; skipSource := skipSource o |} rest
      else if bool_decide (argument = "--source-root") then
        match rest with
        | root :: rest =>
            if negb (str_truthy root) then inl "--source-root requires a directory path"
            else parse_arguments {| resourcePaths := resourcePaths o;
                   skipResources := skipResources o; sourceRoot := root;
                   skipSource := skipSource o |} rest
        | [] => inl "--source-root requires a directory path"
        end
      else inl ("unknown argument: " +:+ argument)
  end.

Definition parseArguments (arguments : list string) : string + CheckOptions :=
  parse_arguments defaultOptions arguments.

Section command.
(** The module loader: the message of a failed import, or the export of a name. *)
Context (import_ : string -> string + (string -> option resource)).
(** The absolute path of a directory and its entries, or the message of a failed read. *)
Context (readdir : string -> string + (string * list entry)).

Definition loadResource (path exportName : string) : string + resource :=
  match import_ path with
  | inl message => inl message
  | inr module =>
      match module exportName with
      | Some (RObject fields) => inr (RObject fields)
      | _ => inl (path +:+ " must export an object named " +:+ exportName)
      end
  end.

Definition resourceErrors (o : CheckOptions) : string + list string :=
  if skipResources o then inr []
  else
    match loadResource (resourcePaths o).1 "en", loadResource (resourcePaths o).2 "zh" with
    | inr en, inr zh => inr (compareResources en zh "")
    | inl message, _ | _, inl message => inl message
    end.

Definition sourceErrors (o : CheckOptions) : string + list string :=
  if skipSource o then inr []
  else
    match readdir (sourceRoot o) with
    | inl message => inl message
    | inr (root, entries) => inr (checkSourceTree root entries)
    end.

(** The message printed, with exit code 1; or nothing, with exit code 0.  When
    both resources fail to load, the first is named. *)
Definition main (arguments : list string) : option string :=
  match parseArguments arguments with
  | inl message => Some message
  | inr o =>
      match resourceErrors o with
      | inl message => Some message
      | inr errors =>
          match sourceErrors o with
          | inl message => Some message
          | inr more =>
              match errors ++ more with
              | [] => None
              | all => Some (join newline all)
              end
          end
      end
  end.
End command.
End sources.
End letters.

(** * Properties *)

Section node_induction.
Context (P : node -> Prop)
  (HNode : forall at_ kind children, Forall P children -> P (Node at_ kind children)).

Fixpoint node_ind' (n : node) : P n :=
  match n with
  | Node at_ kind children =>
      HNode at_ kind children
        ((fix all (l : list node) : Forall P l :=
            match l with
            | [] => Forall_nil_2 P
            | c :: l => Forall_cons_2 P c l (node_ind' c) (all l)
            end) children)
  end.
End node_induction.

Definition node_children (n : node) : list node := match n with Node _ _ children => children end.

(** With the children of the children. *)
Lemma node_ind2 (P : node -> Prop) :
  (forall at_ kind children, Forall P children ->
     Forall (fun child => Forall P (node_children child)) children -> P (Node at_ kind children)) ->
  forall n, P n.
Proof.
  intros HP n. cut (P n /\ Forall P (node_children n)); [by intros []|].
  induction n as [at_ kind children IH] using node_ind'. cbn.
  split; [apply HP|]; eapply Forall_impl; try exact IH; by intros c [].
Qed.

(** ** What the scan finds *)

(** A literal that the scan looks at in an expression: in the branches of a
    condition, in both operands of a sum, and in the right one of the other
    operators. *)
Inductive shows : node -> literal -> Prop :=
  | shows_string at_ text children : shows (Node at_ (StringLiteral text) children) (at_, text)
  | shows_plain at_ text children :
      shows (Node at_ (NoSubstitutionTemplateLiteral text) children) (at_, text)
  | shows_template at_ children :
      shows (Node at_ TemplateExpression children) (at_, staticText children)
  | shows_branch at_ condition t1 t2 whenTrue whenFalse branch l :
      branch = whenTrue \/ branch = whenFalse -> shows branch l ->
      shows (Node at_ ConditionalExpression [condition; t1; whenTrue; t2; whenFalse]) l
  | shows_operand at_ lhs token rhs operand l :
      operand = lhs \/ operand = rhs -> shows operand l ->
      shows (Node at_ (BinaryExpression PlusToken) [lhs; token; rhs]) l
  | shows_rhs at_ operator lhs token rhs l :
      operator ∈ outputOperators -> shows rhs l ->
      shows (Node at_ (BinaryExpression operator) [lhs; token; rhs]) l
  | shows_wrapped at_ kind children expression l :
      (kind, children) = (ParenthesizedExpression, [expression]) \/
      (kind, children) = (NonNullExpression, [expression]) \/
      (exists type, (kind, children) = (AsExpression, [expression; type]) \/
                    (kind, children) = (TypeAssertionExpression, [type; expression])) ->
      shows expression l -> shows (Node at_ kind children) l.

(** A literal that the scan looks at for a node, and what it is called. *)
Inductive visible_text : option Kind -> node -> string * literal -> Prop :=
  | visible_jsx parent at_ text children :
      visible_text parent (Node at_ (JsxText text) children) ("user-visible JSX text", (at_, text))
  | visible_child parent at_ expression rest l :
      isJsxParent parent = true -> shows expression l ->
      visible_text parent (Node at_ JsxExpression (expression :: rest)) ("user-visible JSX text", l)
  | visible_attribute parent at_ name label start text children :
      name ∈ visibleAttributeNames ->
      visible_text parent
        (Node at_ (JsxAttribute name) [label; Node start (StringLiteral text) children])
        ("user-visible " +:+ name, (start, text))
  | visible_computed parent at_ name label start expression rest l :
      name ∈ visibleAttributeNames -> shows expression l ->
      visible_text parent
        (Node at_ (JsxAttribute name) [label; Node start JsxExpression (expression :: rest)])
        ("user-visible " +:+ name, l)
  | visible_toast parent at_ callee types message arguments l :
      isToastCall callee = true -> shows message l ->
      visible_text parent
        (Node at_ (CallExpression (List.length types)) (callee :: types ++ message :: arguments))
        ("toast message", l).

(** A node below another one, each with the kind of its parent. *)
Inductive below (parent : option Kind) (n : node) : option Kind -> node -> Prop :=
  | below_here : below parent n parent n
  | below_child p at_ kind children child :
      below parent n p (Node at_ kind children) -> child ∈ children ->
      below parent n (Some kind) child.

Lemma literals_shown (n : node) (l : literal) : l ∈ expressionLiterals n <-> shows n l.
Proof.
  revert l. induction n as [at_ kind children IH] using node_ind'; intros l. split.
  - destruct kind; cbn; try (by intros ?%elem_of_nil); try (intros ->%list_elem_of_singleton; constructor).
    + destruct children as [|c1 [|t1 [|c2 [|t2 [|c3 [|]]]]]]; try (by intros ?%elem_of_nil).
      decompose_Forall_hyps. intros [Hl|Hl]%elem_of_app; eapply shows_branch; [by left|naive_solver|by right|naive_solver].
    + destruct children as [|lhs [|token [|rhs [|]]]]; try (by intros ?%elem_of_nil).
      decompose_Forall_hyps. case_bool_decide as E; [subst|case_bool_decide; [|by intros ?%elem_of_nil]].
      * intros [Hl|Hl]%elem_of_app; eapply shows_operand; [by left|naive_solver|by right|naive_solver].
      * intros Hl. apply shows_rhs; [done|naive_solver].
    + destruct children as [|c1 [|]]; try (by intros ?%elem_of_nil). decompose_Forall_hyps.
      intros Hl. eapply shows_wrapped; [by left|naive_solver].
    + destruct children as [|c1 [|c2 [|]]]; try (by intros ?%elem_of_nil). decompose_Forall_hyps.
      intros Hl. eapply shows_wrapped; [right; right; by exists c2; left|naive_solver].
    + destruct children as [|c1 [|]]; try (by intros ?%elem_of_nil). decompose_Forall_hyps.
      intros Hl. eapply shows_wrapped; [by right; left|naive_solver].
    + destruct children as [|c1 [|c2 [|]]]; try (by intros ?%elem_of_nil). decompose_Forall_hyps.
      intros Hl. eapply shows_wrapped; [right; right; by exists c1; right|naive_solver].
  - inversion 1 as [| | |? ? ? ? ? ? branch ? Hb Hs|? ? ? ? operand ? Ho Hs|? ? ? ? ? ? Ho Hs
      |? ? ? expression ? Hw Hs]; subst; cbn; try (by apply list_elem_of_singleton);
      decompose_Forall_hyps.
    + apply elem_of_app. naive_solver.
    + apply elem_of_app. naive_solver.
    + case_bool_decide; [set_solver|]. rewrite bool_decide_eq_true_2 by done. naive_solver.
    + destruct Hw as [[= -> ->]|[[= -> ->]|(type & [[= -> ->]|[= -> ->]])]];
        decompose_Forall_hyps; naive_solver.
Qed.

Lemma shown_literals (kind kind' : string) (expression : node) (l : literal) :
  (kind', l) ∈ map (pair kind) (expressionLiterals expression) <->
  kind' = kind /\ shows expression l.
Proof.
  rewrite list_elem_of_fmap. setoid_rewrite literals_shown. naive_solver.
Qed.

Lemma reported_visible (parent : option Kind) (n : node) (found : string * literal) :
  found ∈ reported parent n <-> visible_text parent n found.
Proof.
  destruct n as [at_ kind children], found as [what l]. split.
  - destruct kind; cbn; try (by intros ?%elem_of_nil).
    + intros ->%list_elem_of_singleton. constructor.
    + destruct children as [|expression rest]; [by intros ?%elem_of_nil|].
      destruct (isJsxParent parent) eqn:E; [|by intros ?%elem_of_nil].
      intros [-> Hl]%shown_literals. by constructor.
    + destruct children as [|label [|[start k parts] [|]]]; try (by intros ?%elem_of_nil).
      case_bool_decide as E; [|by intros ?%elem_of_nil].
      destruct k; try (by intros ?%elem_of_nil).
      * destruct parts as [|expression rest]; [by intros ?%elem_of_nil|].
        intros [-> Hl]%shown_literals. by constructor.
      * intros ->%list_elem_of_singleton. by constructor.
    + destruct children as [|callee rest]; [by intros ?%elem_of_nil|].
      destruct (drop typeArguments rest) as [|message arguments] eqn:Ed; [by intros ?%elem_of_nil|].
      destruct (isToastCall callee) eqn:E; [|by intros ?%elem_of_nil].
      intros [-> Hl]%shown_literals.
      pose proof (take_drop typeArguments rest) as Er. rewrite Ed in Er. rewrite <- Er.
      assert (typeArguments = List.length (take typeArguments rest)) as Et.
      { rewrite length_take. assert (List.length (drop typeArguments rest) <> 0%nat) by by rewrite Ed.
        rewrite length_drop in *. lia. }
      rewrite Et at 1. by constructor.
  - inversion 1 as [|? ? expression rest ? Hp Hs|? ? ? label start text parts Hn
      |? ? name label start expression rest ? Hn Hs|? ? callee types message arguments ? Ht Hs];
      subst; cbn.
    + by apply list_elem_of_singleton.
    + rewrite Hp. by apply shown_literals.
    + rewrite bool_decide_eq_true_2 by done. by apply list_elem_of_singleton.
    + rewrite bool_decide_eq_true_2 by done. by apply shown_literals.
    + rewrite drop_app_length, Ht. by apply shown_literals.
Qed.

Lemma below_step (parent : option Kind) (at_ : position) (kind : Kind) (children : list node)
    (child n : node) (p : option Kind) :
  child ∈ children -> below (Some kind) child p n -> below parent (Node at_ kind children) p n.
Proof.
  intros Hc. induction 1 as [|p at' kind' children' n' _ IH Hn].
  - eapply below_child; [apply below_here|done].
  - by eapply below_child.
Qed.

Lemma visit_below (parent : option Kind) (n : node) (found : string * literal) :
  found ∈ visit parent n <-> exists p n', below parent n p n' /\ visible_text p n' found.
Proof.
  split.
  - revert parent. induction n as [at_ kind children IH] using node_ind'; intros parent.
    cbn [visit]. intros [H|(l & Hl & Hc)%list_elem_of_join]%elem_of_app.
    + exists parent, (Node at_ kind children). split; [constructor|by apply reported_visible].
    + apply list_elem_of_fmap in Hc as (child & -> & Hc). rewrite Forall_forall in IH.
      destruct (IH child Hc (Some kind) Hl) as (p & n' & Hb & Hv). exists p, n'.
      split; [by eapply below_step|done].
  - intros (p & n' & Hb & Hv). apply reported_visible in Hv.
    assert (found ∈ visit p n') as Hf by (destruct n'; cbn [visit]; apply elem_of_app; by left).
    clear Hv. induction Hb as [|p at_ kind children child _ IH Hc]; [done|]. apply IH.
    cbn [visit]. apply elem_of_app. right. apply list_elem_of_join. eexists. split; [exact Hf|].
    by apply list_elem_of_fmap_2.
Qed.

(** ** What an expression shows *)

(** A piece of a text: written in the source, as (a part of) a literal, or
    computed. *)
Inductive piece := Written (whole : literal) (text : string) | Computed (text : string).

Definition piece_text (p : piece) : string :=
  match p with Written _ text | Computed text => text end.

(** What the evaluation of an expression gives: a text, nothing ([null] and
    [undefined]), or another value, which is true or not as a condition and has
    a text. *)
Inductive value :=
  | VText (pieces : list piece)
  | VNothing (text : string)
  | VOther (truthy : bool) (text : string).

Definition pieces_of (v : value) : list piece :=
  match v with VText pieces => pieces | VNothing text | VOther _ text => [Computed text] end.

Definition truthy (v : value) : bool :=
  match v with
  | VText pieces => str_truthy (join "" (map piece_text pieces))
  | VNothing _ => false
  | VOther b _ => b
  end.

(** The value of what an expression is made of: a name, a call, a comparison, an
    element. *)
Inductive unknown := UText (text : string) | UNothing (text : string) | UOther (truthy : bool) (text : string).

Definition known (u : unknown) : value :=
  match u with
  | UText text => VText [Computed text]
  | UNothing text => VNothing text
  | UOther b text => VOther b text
  end.

Definition isText (v : value) : bool := match v with VText _ => true | _ => false end.
Definition isNothing (v : value) : bool := match v with VNothing _ => true | _ => false end.

Section evaluation.
Context (opaque : node -> unknown).

(** The language's own evaluation: a condition chooses a branch, [&&] and [||]
    give the left operand unless it is true or false, [??] unless it is nothing,
    and a sum with a text is a text. *)
Fixpoint evaluate (n : node) : value :=
  match n with
  | Node at_ kind children =>
      match kind, children with
      | StringLiteral text, _ | NoSubstitutionTemplateLiteral text, _ =>
          VText [Written (at_, text) text]
      | TemplateExpression, head :: spans =>
          let whole := (at_, staticText children) in
          VText (Written whole (partText head) ::
            mjoin (map (fun span =>
              match span with
              | Node _ TemplateSpan [expression; part] =>
                  pieces_of (evaluate expression) ++ [Written whole (partText part)]
              | _ => []
              end) spans))
      | ConditionalExpression, [condition; _; whenTrue; _; whenFalse] =>
          if truthy (evaluate condition) then evaluate whenTrue else evaluate whenFalse
      | BinaryExpression PlusToken, [lhs; _; rhs] =>
          if isText (evaluate lhs) || isText (evaluate rhs)
          then VText (pieces_of (evaluate lhs) ++ pieces_of (evaluate rhs))
          else known (opaque n)
      | BinaryExpression AmpersandAmpersandToken, [lhs; _; rhs] =>
          if truthy (evaluate lhs) then evaluate rhs else evaluate lhs
      | BinaryExpression BarBarToken, [lhs; _; rhs] =>
          if truthy (evaluate lhs) then evaluate lhs else evaluate rhs
      | BinaryExpression QuestionQuestionToken, [lhs; _; rhs] =>
          if isNothing (evaluate lhs) then evaluate rhs else evaluate lhs
      | ParenthesizedExpression, [expression] | AsExpression, [expression; _]
      | NonNullExpression, [expression] | TypeAssertionExpression, [_; expression] =>
          evaluate expression
      | _, _ => known (opaque n)
      end
  end.

(** Some of a literal of the expression is on the screen. *)
Definition displays (n : node) (l : literal) : Prop :=
  exists text, text <> "" /\ Written l text ∈ pieces_of (evaluate n).
End evaluation.

(** Every literal written in an expression. *)
Fixpoint writtenIn (n : node) : list literal :=
  match n with
  | Node at_ kind children =>
      match kind with
      | StringLiteral text | NoSubstitutionTemplateLiteral text => [(at_, text)]
      | TemplateExpression => [(at_, staticText children)]
      | _ => []
      end ++ mjoin (map writtenIn children)
  end.

(** The literals that the scan does not look at although the expression may show
    them: those of the left operand of [||] and of [??], and those in the
    substitutions of a template. *)
Fixpoint overlooked (n : node) : list literal :=
  match n with
  | Node _ kind children =>
      match kind, children with
      | TemplateExpression, _ => mjoin (map writtenIn children)
      | ConditionalExpression, [_; _; whenTrue; _; whenFalse] =>
          overlooked whenTrue ++ overlooked whenFalse
      | BinaryExpression PlusToken, [lhs; _; rhs] => overlooked lhs ++ overlooked rhs
      | BinaryExpression AmpersandAmpersandToken, [_; _; rhs] => overlooked rhs
      | BinaryExpression BarBarToken, [lhs; _; rhs]
      | BinaryExpression QuestionQuestionToken, [lhs; _; rhs] => writtenIn lhs ++ overlooked rhs
      | ParenthesizedExpression, [expression] | AsExpression, [expression; _]
      | NonNullExpression, [expression] | TypeAssertionExpression, [_; expression] =>
          overlooked expression
      | _, _ => []
      end
  end.

(** A literal that a node puts on the screen when the unknown parts have these
    values, outside the places that the scan overlooks. *)
Inductive on_screen (opaque : node -> unknown) : option Kind -> node -> literal -> Prop :=
  | on_jsx parent at_ text children :
      on_screen opaque parent (Node at_ (JsxText text) children) (at_, text)
  | on_child parent at_ expression rest l :
      isJsxParent parent = true -> displays opaque expression l -> l ∉ overlooked expression ->
      on_screen opaque parent (Node at_ JsxExpression (expression :: rest)) l
  | on_attribute parent at_ name label start text children :
      name ∈ visibleAttributeNames ->
      on_screen opaque parent
        (Node at_ (JsxAttribute name) [label; Node start (StringLiteral text) children]) (start, text)
  | on_computed parent at_ name label start expression rest l :
      name ∈ visibleAttributeNames -> displays opaque expression l -> l ∉ overlooked expression ->
      on_screen opaque parent
        (Node at_ (JsxAttribute name) [label; Node start JsxExpression (expression :: rest)]) l
  | on_toast parent at_ callee types message arguments l :
      isToastCall callee = true -> displays opaque message l -> l ∉ overlooked message ->
      on_screen opaque parent
        (Node at_ (CallExpression (List.length types)) (callee :: types ++ message :: arguments)) l.

Lemma known_written (u : unknown) (l : literal) (text : string) :
  Written l text ∉ pieces_of (known u).
Proof. destruct u; cbn; by intros ?%list_elem_of_singleton. Qed.

(** A text that is not true is empty: it shows nothing. *)
Lemma false_shows_nothing (v : value) (l : literal) (text : string) :
  truthy v = false -> Written l text ∈ pieces_of v -> text = "".
Proof.
  destruct v as [pieces|s|b s]; [|by intros _ ?%list_elem_of_singleton..]. cbn.
  intros E. apply str_truthy_false in E. revert E.
  induction pieces as [|p pieces IH]; [by intros _ ?%elem_of_nil|]. intros E.
  assert (piece_text p = "" /\ join "" (map piece_text pieces) = "") as [Ep Er].
  { cbn in E. destruct pieces as [|q pieces]; cbn in E |- *.
    - by rewrite ?app_empty_r in E.
    - by destruct (piece_text p). }
  intros [<-|H]%elem_of_cons; [done|by apply IH].
Qed.

Lemma written_child (at_ : position) (kind : Kind) (children : list node) (child : node)
    (l : literal) :
  child ∈ children -> l ∈ writtenIn child -> l ∈ writtenIn (Node at_ kind children).
Proof.
  intros Hc Hl. cbn [writtenIn]. apply elem_of_app. right. apply list_elem_of_join.
  eexists. split; [exact Hl|]. by apply list_elem_of_fmap_2.
Qed.

(** The pieces of a template: its own, and those of its substitutions. *)
Lemma template_pieces (opaque : node -> unknown) (at_ : position) (children : list node)
    (l : literal) (text : string) :
  Written l text ∈ pieces_of (evaluate opaque (Node at_ TemplateExpression children)) ->
  l = (at_, staticText children) \/
  exists span start part expression, span ∈ children /\
    span = Node start TemplateSpan [expression; part] /\
    Written l text ∈ pieces_of (evaluate opaque expression).
Proof.
  destruct children as [|head spans]; [by intros ?%known_written|]. cbn [evaluate pieces_of].
  intros [[= -> _]|(ps & Hp & (span & -> & Hs)%list_elem_of_fmap)%list_elem_of_join]%elem_of_cons;
    [by left|].
  destruct span as [start [] [|expression [|part []]]]; try by apply elem_of_nil in Hp.
  apply elem_of_app in Hp as [Hp|[= -> _]%list_elem_of_singleton]; [|by left].
  right. eexists _, start, part, expression. split; [by apply elem_of_cons; right|done].
Qed.

(** The places of an operator and of its operands. *)
Ltac operands children :=
  destruct children as [|?c1 [|?c2 [|?c3 [|?c4 [|?c5 [|]]]]]];
  try (match goal with H : _ ∈ pieces_of _ |- _ => by apply known_written in H end).

(** What the parts of an expression show, the expression shows. *)
Lemma written_evaluated (opaque : node -> unknown) (n : node) (l : literal) (text : string) :
  Written l text ∈ pieces_of (evaluate opaque n) -> l ∈ writtenIn n.
Proof.
  revert l text. induction n as [at_ kind children IH IH2] using node_ind2; intros l text H.
  rewrite Forall_forall in IH, IH2.
  assert (forall child, Written l text ∈ pieces_of (evaluate opaque child) -> child ∈ children ->
    l ∈ writtenIn (Node at_ kind children)) as Hc.
  { intros child Hl Hc. eapply written_child; [exact Hc|]. by apply (IH child Hc l text). }
  destruct kind; try (by apply known_written in H);
    try (apply list_elem_of_singleton in H as [= -> _]; by left).
  - apply template_pieces in H as [->|(span & start & part & expression & Hs & -> & Hp)]; [by left|].
    eapply written_child; [exact Hs|]. eapply written_child; [by left|].
    specialize (IH2 _ Hs). cbn in IH2. rewrite Forall_cons in IH2. by eapply IH2.
  - operands children. cbn in H. case_match; eapply Hc; try exact H; set_solver.
  - destruct operator; operands children; cbn in H; try (by apply known_written in H).
    + case_match; [|by apply known_written in H]. apply elem_of_app in H as [H|H];
        eapply Hc; try exact H; set_solver.
    + case_match; eapply Hc; try exact H; set_solver.
    + case_match; eapply Hc; try exact H; set_solver.
    + case_match; eapply Hc; try exact H; set_solver.
  - operands children. cbn in H. eapply Hc; [exact H|set_solver].
  - operands children. cbn in H. eapply Hc; [exact H|set_solver].
  - operands children. cbn in H. eapply Hc; [exact H|set_solver].
  - operands children. cbn in H. eapply Hc; [exact H|set_solver].
Qed.

Lemma binary_literals (operator : Operator) (at_ : position) (lhs token rhs : node) :
  expressionLiterals (Node at_ (BinaryExpression operator) [lhs; token; rhs]) =
  match operator with
  | PlusToken => expressionLiterals lhs ++ expressionLiterals rhs
  | OtherToken => []
  | _ => expressionLiterals rhs
  end.
Proof. by destruct operator. Qed.

(** What an expression shows is what the scan looks at or what it overlooks. *)
Lemma displayed_found (opaque : node -> unknown) (n : node) (l : literal) :
  displays opaque n l -> l ∈ expressionLiterals n \/ l ∈ overlooked n.
Proof.
  intros (text & Ht & H). revert H.
  induction n as [at_ kind children IH] using node_ind'; intros H.
  rewrite Forall_forall in IH.
  assert (forall child, Written l text ∈ pieces_of (evaluate opaque child) -> child ∈ children ->
    l ∈ expressionLiterals child \/ l ∈ overlooked child) as Hc
    by (intros child Hl Hc; by apply IH).
  destruct kind; try (by apply known_written in H);
    try (apply list_elem_of_singleton in H as [= -> _]; by left; left).
  - apply template_pieces in H as [->|(span & start & part & expression & Hs & -> & Hp)]; [by left; left|].
    right. cbn [overlooked]. apply list_elem_of_join. eexists. split; [|by apply list_elem_of_fmap_2].
    eapply written_child; [by left|]. by eapply written_evaluated.
  - operands children. cbn in H |- *. rewrite !elem_of_app. case_match;
      destruct (Hc _ H ltac:(set_solver)); tauto.
  - destruct operator; operands children; cbn [evaluate] in H; try (by apply known_written in H);
      rewrite binary_literals; cbn [overlooked]; rewrite ?elem_of_app.
    + case_match; [|by apply known_written in H].
      apply elem_of_app in H as [H|H]; destruct (Hc _ H ltac:(set_solver)); tauto.
    + case_match eqn:E; [destruct (Hc _ H ltac:(set_solver)); tauto|].
      by destruct Ht; eapply false_shows_nothing.
    + case_match; [apply written_evaluated in H; tauto|destruct (Hc _ H ltac:(set_solver)); tauto].
    + case_match; [destruct (Hc _ H ltac:(set_solver)); tauto|apply written_evaluated in H; tauto].
  - operands children. cbn in H. apply (Hc _ H). set_solver.
  - operands children. cbn in H. apply (Hc _ H). set_solver.
  - operands children. cbn in H. apply (Hc _ H). set_solver.
  - operands children. cbn in H. apply (Hc _ H). set_solver.
Qed.

(** What is on the screen was looked at. *)
Lemma on_screen_visible (opaque : node -> unknown) (parent : option Kind) (n : node) (l : literal) :
  on_screen opaque parent n l -> exists what, visible_text parent n (what, l).
Proof.
  destruct 1 as [| |? ? ? ? ? ? ? Hn| |]; eexists; try by constructor.
  all: match goal with H : displays _ _ _ |- _ => apply displayed_found in H as [H|H]; [|done] end.
  all: constructor; [done|by apply literals_shown].
Qed.

(** ** The files read *)

(** A source file below a directory, outside the folders of the translations
    and of the packages. *)
Inductive source_file (directory : string) : entry -> string -> string -> Prop :=
  | source_here name content :
      isSourceName name = true ->
      source_file directory (EntryFile name content) (directory +:+ "/" +:+ name) content
  | source_below name entries e path content :
      name <> "locales" -> name <> "node_modules" -> e ∈ entries ->
      source_file (directory +:+ "/" +:+ name) e path content ->
      source_file directory (EntryDirectory name entries) path content.

Section entry_induction.
Context (P : entry -> Prop) (HFile : forall name content, P (EntryFile name content))
  (HDirectory : forall name entries, Forall P entries -> P (EntryDirectory name entries))
  (HOther : forall name, P (EntryOther name)).

Fixpoint entry_ind' (e : entry) : P e :=
  match e with
  | EntryFile name content => HFile name content
  | EntryDirectory name entries =>
      HDirectory name entries
        ((fix all (l : list entry) : Forall P l :=
            match l with
            | [] => Forall_nil_2 P
            | e :: l => Forall_cons_2 P e l (entry_ind' e) (all l)
            end) entries)
  | EntryOther name => HOther name
  end.
End entry_induction.

Lemma entry_files_found (e : entry) (directory path content : string) :
  (path, content) ∈ entryFiles directory e <-> source_file directory e path content.
Proof.
  revert directory. induction e as [name text|name entries IH|name] using entry_ind';
    intros directory; cbn.
  - destruct (isSourceName name) eqn:E; cbn; split.
    + intros [= -> ->]%list_elem_of_singleton. by constructor.
    + inversion 1; subst. by apply list_elem_of_singleton.
    + by intros ?%elem_of_nil.
    + inversion 1; congruence.
  - destruct (_ || _) eqn:E.
    + split; [by intros ?%elem_of_nil|]. apply orb_true_iff in E.
      destruct E as [E|E]; apply bool_decide_eq_true_1 in E; inversion 1; congruence.
    + apply orb_false_iff in E as [E1 E2]. apply bool_decide_eq_false_1 in E1, E2.
      rewrite elem_of_sort_by, list_elem_of_join. rewrite Forall_forall in IH. split.
      * intros (l & Hl & (e & -> & He)%list_elem_of_fmap). eapply source_below; [done..|].
        by apply IH.
      * inversion 1 as [|? ? e ? ? _ _ He Hs]; subst. eexists. split; [apply (IH e He), Hs|].
        by apply list_elem_of_fmap_2.
  - split; [by intros ?%elem_of_nil|by inversion 1].
Qed.

Lemma source_files_found (directory : string) (entries : list entry) (path content : string) :
  (path, content) ∈ sourceFiles directory entries <->
  exists e, e ∈ entries /\ source_file directory e path content.
Proof.
  unfold sourceFiles. rewrite elem_of_sort_by, list_elem_of_join. split.
  - intros (l & Hl & (e & -> & He)%list_elem_of_fmap). exists e. split; [done|].
    by apply entry_files_found.
  - intros (e & He & Hs). eexists. split; [by apply entry_files_found, Hs|].
    by apply list_elem_of_fmap_2.
Qed.

(** ** The command *)

Section checks.
Context (wide_letter : string -> bool) (createSourceFile : string -> string -> node)
  (import_ : string -> string + (string -> option resource))
  (readdir : string -> string + (string * list entry)).

(** A text that needs no translation: it has no letter, or it is a name that is
    the same in every language. *)
Definition needs_no_translation (text : string) : Prop :=
  has_letter wide_letter (normalizeVisibleLiteral text) = false \/
  normalizeVisibleLiteral text ∈ allowedVisibleLiterals.

(** Every literal that the scan looks at in a source file needs no translation. *)
Definition translated_sources (root : string) (entries : list entry) : Prop :=
  forall e path content parent n what l,
    e ∈ entries -> source_file root e path content ->
    below None (createSourceFile path content) parent n -> visible_text parent n (what, l) ->
    needs_no_translation l.2.

(** Every literal that a source file puts on the screen, outside the places that
    the scan overlooks, needs no translation. *)
Definition translated_screen (root : string) (entries : list entry) : Prop :=
  forall e path content parent n opaque l,
    e ∈ entries -> source_file root e path content ->
    below None (createSourceFile path content) parent n -> on_screen opaque parent n l ->
    needs_no_translation l.2.

Lemma translated_sources_screen (root : string) (entries : list entry) :
  translated_sources root entries -> translated_screen root entries.
Proof.
  intros H e path content parent n opaque l He Hs Hb [what Hv]%on_screen_visible. by eapply H.
Qed.

Lemma report_nil (file : string) (found : string * literal) :
  report wide_letter file found = [] <-> needs_no_translation found.2.2.
Proof.
  unfold report, isUntranslatedVisibleLiteral, needs_no_translation.
  destruct (has_letter wide_letter _); cbn; [|naive_solver].
  case_bool_decide; cbn; naive_solver.
Qed.

Lemma checkSourceTree_nil (root : string) (entries : list entry) :
  checkSourceTree wide_letter createSourceFile root entries = [] <-> translated_sources root entries.
Proof.
  unfold checkSourceTree, checkFile, translated_sources. rewrite join_nil, Forall_fmap, Forall_forall.
  split.
  - intros H e path content parent n what l He Hs Hb Hv.
    assert ((path, content) ∈ sourceFiles root entries) as Hin by (apply source_files_found; eauto).
    specialize (H _ Hin). cbn in H. rewrite join_nil, Forall_fmap, Forall_forall in H.
    apply (report_nil (relative root path) (what, l)), H, visit_below. eauto.
  - intros H [path content] (e & He & Hs)%source_files_found. cbn.
    rewrite join_nil, Forall_fmap, Forall_forall. intros [what l] (parent & n & Hb & Hv)%visit_below.
    apply report_nil. by eapply H.
Qed.

(** The resources that the options name are there. *)
Definition resources_of (o : CheckOptions) (en zh : resource) : Prop :=
  loadResource import_ (resourcePaths o).1 "en" = inr en /\
  loadResource import_ (resourcePaths o).2 "zh" = inr zh.

Lemma main_passes (arguments : list string) :
  (forall o en zh, parseArguments arguments = inr o -> resources_of o en zh ->
     ordinary en = true /\ ordinary zh = true) ->
  main wide_letter createSourceFile import_ readdir arguments = None <->
  exists o, parseArguments arguments = inr o /\
    (skipResources o = true \/ exists en zh, resources_of o en zh /\ parallel en zh) /\
    (skipSource o = true \/ exists root entries,
       readdir (sourceRoot o) = inr (root, entries) /\ translated_sources root entries).
Proof.
  intros Hord. unfold main. destruct (parseArguments arguments) as [m|o] eqn:Ea;
    [split; [done|by intros (o & [=] & _)]|].
  assert (resourceErrors import_ o = inr [] <->
    skipResources o = true \/ exists en zh, resources_of o en zh /\ parallel en zh) as Hres.
  { unfold resourceErrors, resources_of in *. destruct (skipResources o); [naive_solver|].
    destruct (loadResource import_ _ "en") as [m|en] eqn:E1, (loadResource import_ _ "zh") as [m'|zh] eqn:E2;
      [naive_solver..|]. destruct (Hord o en zh eq_refl (conj E1 E2)) as [He Hz].
    pose proof (compareResources_ok en zh "" He Hz) as Hok. split.
    - intros [= E]. right. exists en, zh. split; [done|by apply Hok].
    - intros [?|(en' & zh' & [[= <-] [= <-]] & Hp)]; [done|]. f_equal. by apply Hok. }
  assert (sourceErrors wide_letter createSourceFile readdir o = inr [] <->
    skipSource o = true \/ exists root entries,
      readdir (sourceRoot o) = inr (root, entries) /\ translated_sources root entries) as Hsrc.
  { unfold sourceErrors. destruct (skipSource o); [naive_solver|].
    destruct (readdir _) as [m|[root entries]]; [naive_solver|].
    pose proof (checkSourceTree_nil root entries) as Hok. split.
    - intros [= E]. right. exists root, entries. split; [done|by apply Hok].
    - intros [?|(root' & entries' & [= <- <-] & Hp)]; [done|]. f_equal. by apply Hok. }
  transitivity (resourceErrors import_ o = inr [] /\
    sourceErrors wide_letter createSourceFile readdir o = inr []); [|naive_solver].
  destruct (resourceErrors import_ o) as [m|[|x errors]], (sourceErrors _ _ _ o) as [m'|[|y more]];
    naive_solver.
Qed.

End checks.

(** ** Arguments *)

Definition showArguments (o : CheckOptions) : list string :=
  ["--resources"; (resourcePaths o).1; (resourcePaths o).2; "--source-root"; sourceRoot o] ++
  (if skipResources o then ["--skip-resources"] else []) ++
  (if skipSource o then ["--skip-source"] else []).

Lemma parseArguments_show (o : CheckOptions) :
  (resourcePaths o).1 <> "" -> (resourcePaths o).2 <> "" -> sourceRoot o <> "" ->
  parseArguments (showArguments o) = inr o.
Proof.
  destruct o as [[en zh] b root c]; cbn. intros H1 H2 H3. unfold parseArguments, showArguments. cbn.
  rewrite (proj2 (str_truthy_true en)), (proj2 (str_truthy_true zh)) by done. cbn.
  rewrite (proj2 (str_truthy_true root)) by done. by destruct b, c.
Qed.

(** ** Examples *)

(** <button aria-label="Retry runner">Run job</button>, and a notice. *)
Definition example_tree : node :=
  Node (0, 0)%Z OtherKind [
    Node (3, 2)%Z (CallExpression 0) [
      Node (3, 2)%Z PropertyAccessExpression
        [Node (3, 2)%Z (Identifier "toast") []; Node (3, 8)%Z (Identifier "error") []];
      Node (3, 14)%Z (StringLiteral "Failed to start runner") []];
    Node (4, 9)%Z JsxElement [
      Node (4, 9)%Z OtherKind [
        Node (4, 17)%Z (JsxAttribute "aria-label")
          [Node (4, 17)%Z (Identifier "aria-label") [];
           Node (4, 28)%Z (StringLiteral "Retry runner") []]];
      Node (4, 43)%Z (JsxText "Run job") [];
      Node (4, 50)%Z OtherKind []]].

Definition ascii_only (_ : string) : bool := false.

Example example_report :
  checkSourceTree ascii_only (fun _ _ => example_tree) "/src"
    [EntryFile "view.tsx" ""; EntryFile "view.test.tsx" ""; EntryDirectory "locales" [EntryFile "en.ts" ""]] =
  ["view.tsx:4:15: toast message must use i18n: Failed to start runner";
   "view.tsx:5:29: user-visible aria-label must use i18n: Retry runner";
   "view.tsx:5:44: user-visible JSX text must use i18n: Run job"].
Proof. vm_compute. reflexivity. Qed.

Definition example_translated : node :=
  Node (0, 0)%Z JsxElement [
    Node (0, 0)%Z OtherKind [];
    Node (0, 6)%Z JsxExpression [
      Node (0, 7)%Z (CallExpression 0)
        [Node (0, 7)%Z (Identifier "t") []; Node (0, 9)%Z (StringLiteral "common.title") []]];
    Node (1, 0)%Z (JsxText " Qiniu  Runner ") []; Node (2, 0)%Z OtherKind []].

Definition example_import (path : string) : string + (string -> option resource) :=
  inr (fun name => Some (RObject [text "title" (if bool_decide (name = "en") then "Jobs" else "Tasks")])).

Definition example_readdir (path : string) : string + (string * list entry) :=
  inr ("/src", [EntryFile "view.tsx" "..."]).


(** A literal in a substitution of a template is not looked at, and is shown. *)
Example substitution_not_reported :
  let status := Node (0, 9)%Z (StringLiteral "Ready") [] in
  let value := Node (0, 1)%Z TemplateExpression
    [Node (0, 1)%Z (TemplatePart "") [];
     Node (0, 4)%Z TemplateSpan [status; Node (0, 20)%Z (TemplatePart "!") []]] in
  map snd (map snd (visit (Some JsxElement) (Node (0, 0)%Z JsxExpression [value]))) = ["!"] /\
  displays (fun _ => UNothing "") value ((0, 9)%Z, "Ready").
Proof. split; [by vm_compute|]. exists "Ready". split; [done|]. by right; left. Qed.

(** Of [ready && "Yes" || "No"] only the last literal is looked at. *)
Example left_operand_not_reported :
  let yes := Node (0, 10)%Z (StringLiteral "Yes") [] in
  let no := Node (0, 19)%Z (StringLiteral "No") [] in
  let token := Node (0, 0)%Z OtherKind [] in
  let ready := Node (0, 1)%Z (Identifier "ready") [] in
  let value := Node (0, 1)%Z (BinaryExpression BarBarToken)
    [Node (0, 1)%Z (BinaryExpression AmpersandAmpersandToken) [ready; token; yes]; token; no] in
  visit (Some JsxElement) (Node (0, 0)%Z JsxExpression [value]) =
    [("user-visible JSX text", ((0, 19)%Z, "No"))].
Proof. vm_compute. reflexivity. Qed.
