(* ===== verification/AdminTools.v ===== *)
(** Two tools of the administration: the matching test and the diagnostics page
    (src/ui/src/App.tsx, [runMatchTest] and the diagnostics effect), and what
    the sections of src/ui/src/components/admin-sections.tsx show.

    Notices are not modelled, and [t] gives the texts of the console. *)
From S2P Require Import Prelude.
From S2P Require Import JsString.
From S2P Require Import Json.
From S2P Require Import AdminTypes.
From S2P Require Import Errors.
From S2P Require Import Labels.
From S2P Require Import AdminFormat.

(** ** State *)

Record MatchBody := { mb_repository_full_name : string; mb_labels : list string }.

Record Tools := {
  tl_section : AdminSection;
  tl_hasAccess : bool;
  tl_matchRepository : string;
  tl_matchLabels : string;
  tl_matchResult : option RunnerSpecMatch;
  tl_diagnostics : option DiagnosticsSummary;
  tl_diagnosticsVars : string;
  (** The matching requests in flight, and the number of diagnostics loads. *)
  tl_matches : list MatchBody;
  tl_loads : nat;
}.

Definition with_match (repository labels : string) (result : option RunnerSpecMatch)
    (matches : list MatchBody) (s : Tools) : Tools := {|
  tl_section := tl_section s; tl_hasAccess := tl_hasAccess s; tl_matchRepository := repository;
  tl_matchLabels := labels; tl_matchResult := result; tl_diagnostics := tl_diagnostics s;
  tl_diagnosticsVars := tl_diagnosticsVars s; tl_matches := matches; tl_loads := tl_loads s |}.

Definition with_diagnostics (diagnostics : option DiagnosticsSummary) (vars : string) (loads : nat)
    (s : Tools) : Tools := {|
  tl_section := tl_section s; tl_hasAccess := tl_hasAccess s;
  tl_matchRepository := tl_matchRepository s; tl_matchLabels := tl_matchLabels s;
  tl_matchResult := tl_matchResult s; tl_diagnostics := diagnostics; tl_diagnosticsVars := vars;
  tl_matches := tl_matches s; tl_loads := loads |}.

(** ** The matching test *)

Definition matchBody (s : Tools) : MatchBody := {|
  mb_repository_full_name := trim (tl_matchRepository s);
  mb_labels := parseLabels (tl_matchLabels s) |}.

Definition matchJSON (b : MatchBody) : string :=
  stringify (JObj [("repository_full_name", JStr (mb_repository_full_name b));
                   ("labels", JArr (map JStr (mb_labels b)))]).

Definition runMatchTest (s : Tools) : Tools :=
  with_match (tl_matchRepository s) (tl_matchLabels s) (tl_matchResult s)
    (tl_matches s ++ [matchBody s]) s.

Definition settleMatch (others : list MatchBody) (result : thrown + RunnerSpecMatch) (s : Tools) :
    Tools :=
  with_match (tl_matchRepository s) (tl_matchLabels s)
    (match result with inr r => Some r | inl _ => tl_matchResult s end) others s.

(** ** Diagnostics *)

(** The effect on the access and the section. *)
Definition showSection (hasAccess : bool) (section : AdminSection) (s : Tools) : Tools :=
  let changed := negb (bool_decide (tl_hasAccess s = hasAccess /\ tl_section s = section)) in
  let loads :=
    if changed && bool_decide (section = diagnostics) && hasAccess
    then S (tl_loads s) else tl_loads s in
  {| tl_section := section; tl_hasAccess := hasAccess; tl_matchRepository := tl_matchRepository s;
     tl_matchLabels := tl_matchLabels s; tl_matchResult := tl_matchResult s;
     tl_diagnostics := tl_diagnostics s; tl_diagnosticsVars := tl_diagnosticsVars s;
     tl_matches := tl_matches s; tl_loads := loads |}.

Definition varsText (vars : thrown + json) : string :=
  match vars with
  | inr (JStr text) => text
  | inr v => stringify_indented "" v
  | inl _ => ""
  end.

(** Both answers of a load; without the summary nothing changes. *)
Definition settleDiagnostics (summary : thrown + DiagnosticsSummary) (vars : thrown + json)
    (s : Tools) : Tools :=
  match summary with
  | inr d => with_diagnostics (Some d) (varsText vars) (pred (tl_loads s)) s
  | inl _ => with_diagnostics (tl_diagnostics s) (tl_diagnosticsVars s) (pred (tl_loads s)) s
  end.

(** ** What is shown *)

Section texts.
Context (t : string -> string).

(** The values of the details of a match, or none before the first. *)
Definition matchDetails (s : Tools) : option (list (string * string)) :=
  (fun r => [
     (t "admin.repository", or_str (Some (match_repository_full_name r)) "-");
     (t "admin.labels", or_str (Some (join ", " (match_labels r))) "-");
     (t "admin.runnerSpec", or_str (spec_name <$> match_runner_spec r) "-");
     (t "admin.reason", or_str (match_reason r) (t "admin.matched"))]) <$> tl_matchResult s.

Definition diagnosticsDetails (s : Tools) : list (string * string) :=
  let d := tl_diagnostics s in
  [ (t "admin.stateBackend", or_str (diag_backend <$> d) "-");
    (t "admin.database", or_str (diag_database <$> d) "-");
    (t "admin.githubAuth", or_str (diag_auth_mode <$> d) "-");
    (t "admin.installation",
      match d ≫= diag_installation_id with
      | Some n => if (n =? 0)%Z then "-" else pretty n
      | None => "-"
      end);
    (t "admin.githubAPI", or_str (diag_api_base_url <$> d) "-") ].

(** The line below the identifier of a failed request. *)
Definition failureLine (failure : RunnerState) : string :=
  or_str (repository_full_name failure) "-" +:+ " · " +:+
  or_str (runner_spec_name failure) "-" +:+ " · " +:+
  or_str (failure_reason failure) (or_str (error failure) "-").

Definition varsShown (s : Tools) : string :=
  or_str (Some (tl_diagnosticsVars s)) (t "admin.noDebugVars").
End texts.

(** The rows of the overview: the first eight requests. *)
Definition recentRows (runners : list RunnerState) : list (string * string * RunnerDisplayStatus) :=
  map (fun runner =>
    (or_str (repository_full_name runner) (id runner),
     or_str (runner_spec_name runner) "-" +:+ " · " +:+ runner_name runner,
     runnerDisplayStatus runner)) (take 8 runners).

(** ** Steps *)

Section tools.
Context (matched : MatchBody -> RunnerSpecMatch -> Prop) (summaries : DiagnosticsSummary -> Prop).

Inductive tools_step : Tools -> Tools -> Prop :=
  | tp_repository text s :
      tools_step s (with_match text (tl_matchLabels s) (tl_matchResult s) (tl_matches s) s)
  | tp_labels text s :
      tools_step s (with_match (tl_matchRepository s) text (tl_matchResult s) (tl_matches s) s)
  | tp_run s : tools_step s (runMatchTest s)
  | tp_match l b r result s :
      tl_matches s = l ++ b :: r -> (forall m, result = inr m -> matched b m) ->
      tools_step s (settleMatch (l ++ r) result s)
  | tp_section hasAccess section s : tools_step s (showSection hasAccess section s)
  | tp_diagnostics summary vars s :
      tl_loads s <> 0%nat -> (forall d, summary = inr d -> summaries d) ->
      tools_step s (settleDiagnostics summary vars s).

Definition mountTools (hasAccess : bool) (section : AdminSection) : Tools :=
  let s := {|
    tl_section := overview; tl_hasAccess := false; tl_matchRepository := "";
    tl_matchLabels := "self-hosted,e2b"; tl_matchResult := None; tl_diagnostics := None;
    tl_diagnosticsVars := ""; tl_matches := []; tl_loads := 0 |} in
  showSection hasAccess section s.

Inductive tools_reachable : Tools -> Prop :=
  | tp_mount hasAccess section : tools_reachable (mountTools hasAccess section)
  | tp_next s s' : tools_reachable s -> tools_step s s' -> tools_reachable s'.

(** * Properties *)

Definition clean_body (b : MatchBody) : Prop :=
  trim (mb_repository_full_name b) = mb_repository_full_name b /\ Forall clean_label (mb_labels b).

Record tools_inv (s : Tools) : Prop := {
  ti_matches : Forall clean_body (tl_matches s);
  ti_result : forall m, tl_matchResult s = Some m -> exists b, clean_body b /\ matched b m;
  ti_diagnostics : forall d, tl_diagnostics s = Some d -> summaries d;
}.

Lemma matchBody_clean (s : Tools) : clean_body (matchBody s).
Proof. split; [apply trim_trim|apply parseLabels_clean]. Qed.

(** What the two tools show was answered by the server: a match to a test that
    was posted clean, and a summary that was read. *)
Lemma tools_show_answers (s : Tools) : tools_reachable s -> tools_inv s.
Proof.
  induction 1 as [hasAccess section|s s' _ [H1 H2 H3] Hs]; [by constructor; cbn|].
  destruct Hs as [text s|text s|s|l b r result s E Hm|hasAccess section s|summary vars s _ Hd];
    (constructor; cbn; try done).
  - apply Forall_app. split; [done|]. constructor; [apply matchBody_clean|done].
  - rewrite E in H1. apply Forall_app in H1 as [H1l [_ H1r]%Forall_cons]. by apply Forall_app.
  - intros m. destruct result as [e|m']; [apply H2|]. intros [= <-]. exists b.
    rewrite E in H1. apply Forall_app in H1 as [_ [Hb _]%Forall_cons]. auto.
  - by destruct summary.
  - by destruct summary.
  - destruct summary as [e|d']; cbn; [done|]. intros d [= <-]. auto.
Qed.

(** A failure to read the variables does not hide the summary. *)
Lemma summary_without_vars (t : string -> string) (d : DiagnosticsSummary) (e : thrown) (s : Tools) :
  let s' := settleDiagnostics (inr d) (inl e) s in
  tl_diagnostics s' = Some d /\ varsShown t s' = t "admin.noDebugVars".
Proof. done. Qed.
End tools.

(** Two tests whose answers arrive out of order: the page keeps the result of
    the first, under the form of the second. *)
Example older_match_shown :
  let answer (b : MatchBody) := {|
    match_repository_full_name := mb_repository_full_name b; match_labels := mb_labels b;
    match_runner_spec := None; match_reason := None |} in
  let s := mountTools true matching in
  let s := runMatchTest (with_match "a/one" "e2b" None [] s) in
  let s := runMatchTest (with_match "b/two" "e2b" None (tl_matches s) s) in
  let one := {| mb_repository_full_name := "a/one"; mb_labels := ["e2b"] |} in
  let two := {| mb_repository_full_name := "b/two"; mb_labels := ["e2b"] |} in
  let s' := settleMatch [] (inr (answer one)) (settleMatch [one] (inr (answer two)) s) in
  tl_matches s = [one; two] /\ tl_matchRepository s' = "b/two" /\
  (match_repository_full_name <$> tl_matchResult s') = Some "a/one".
Proof. vm_compute. by split_and!. Qed.
