(* ===== verification/TerminalScreen.v ===== *)
(** The screen of the web console: what [useSandboxTerminal] in
    src/ui/src/hooks/use-sandbox-terminal.ts writes to the terminal widget and
    the sizes it posts, on top of the sessions of Terminal.v.

    A widget is a number; [sc_texts] has what was written to each and
    [sc_sizes] its columns and rows, which [fit] takes from the page. *)
From S2P Require Import Prelude.
From S2P Require Import JsString.
From S2P Require Import JsUri.
From S2P Require Import Json.
From S2P Require Import JsonParse.
From S2P Require Import Errors.
From S2P Require Import Terminal.

(** ** State *)

Record SandboxTerminalSession := { session_id : string; session_pid : Z; session_sandbox_id : string }.

Definition Size : Type := Z * Z.

(** A size posted to a session: its endpoint and identifier, columns and rows. *)
Definition SizePost : Type := (string * string) * Size.

Record Screen := {
  sc_terminal : Terminal;
  sc_texts : gmap nat string;
  sc_sizes : gmap nat Size;
  (** The widget that the open event stream writes to. *)
  sc_stream : option nat;
  (** The timer of [resizeTimeoutRef]: a widget and a session. *)
  sc_timer : option (nat * (string * string));
  (** The sizes posted: with the session requests, and by the timer. *)
  sc_opened : list (string * Size);
  sc_posts : list SizePost;
  (** The session of the open stream and the messages it has brought. *)
  sc_session : option SandboxTerminalSession;
  sc_messages : list string;
}.

(** A step of the sessions that closes the console: the timer is cleared and the
    stream is closed. *)
Definition closed (terminal : Terminal) (s : Screen) : Screen := {|
  sc_terminal := terminal; sc_texts := sc_texts s; sc_sizes := sc_sizes s; sc_stream := None;
  sc_timer := None; sc_opened := sc_opened s; sc_posts := sc_posts s; sc_session := None;
  sc_messages := [] |}.

Definition with_terminal (terminal : Terminal) (s : Screen) : Screen := {|
  sc_terminal := terminal; sc_texts := sc_texts s; sc_sizes := sc_sizes s;
  sc_stream := sc_stream s; sc_timer := sc_timer s; sc_opened := sc_opened s;
  sc_posts := sc_posts s; sc_session := sc_session s; sc_messages := sc_messages s |}.

Definition with_screen (texts : gmap nat string) (sizes : gmap nat Size)
    (timer : option (nat * (string * string))) (posts : list SizePost) (messages : list string)
    (s : Screen) : Screen := {|
  sc_terminal := sc_terminal s; sc_texts := texts; sc_sizes := sizes; sc_stream := sc_stream s;
  sc_timer := timer; sc_opened := sc_opened s; sc_posts := posts; sc_session := sc_session s;
  sc_messages := messages |}.

Definition initialScreen (endpoint : string) : Screen := {|
  sc_terminal := initialTerminal endpoint; sc_texts := ∅; sc_sizes := ∅; sc_stream := None;
  sc_timer := None; sc_opened := []; sc_posts := []; sc_session := None; sc_messages := [] |}.

(** ** Writing *)

(** [term.writeln] ends the line. *)
Definition line (text : string) : string := text +:+ chr 13 +:+ chr 10.

(** [term.write] after what the widget has. *)
Definition write (w : nat) (text : string) (texts : gmap nat string) : gmap nat string :=
  <[w := default "" (texts !! w) +:+ text]> texts.

Section screen.
(** What the widget shows for a value that is not a text. *)
Context (shown : json -> string) (connectingMessage : string).

(** The data of a message: a JSON text, or as it is. *)
Definition decoded (data : string) : string :=
  match parse data with
  | Some (JStr text) => text
  | Some v => shown v
  | None => data
  end.

Definition connectedLine (session : SandboxTerminalSession) : string :=
  line ("Connected to " +:+ session_sandbox_id session +:+ " pid=" +:+ pretty (session_pid session)).

(** ** Operations *)

Definition screenChange (endpoint : string) (s : Screen) : Screen :=
  if bool_decide (endpoint = tm_endpoint (sc_terminal s)) then s
  else closed (changeEndpoint endpoint (sc_terminal s)) s.

Definition screenUnmount (s : Screen) : Screen := closed (cleanupTerminal (sc_terminal s)) s.

(** [cols || 100] and [rows || 28] *)
Definition openingSize (size : Size) : Size :=
  (if (size.1 =? 0)%Z then 100%Z else size.1, if (size.2 =? 0)%Z then 28%Z else size.2).

(** A new widget of the size given by the page, and the request for a session. *)
Definition screenConnect (available : bool) (size : Size) (s : Screen) : Screen :=
  let t := sc_terminal s in
  let t' := connectTerminal available t in
  if bool_decide (tm_nextTerm t' = tm_nextTerm t) then s
  else {|
    sc_terminal := t'; sc_texts := <[tm_nextTerm t := line connectingMessage]> (sc_texts s);
    sc_sizes := <[tm_nextTerm t := size]> (sc_sizes s); sc_stream := sc_stream s;
    sc_timer := sc_timer s;
    sc_opened := sc_opened s ++ [(tm_endpoint t, openingSize size)]; sc_posts := sc_posts s;
    sc_session := sc_session s; sc_messages := sc_messages s |}.

Definition screenSettle (c : Connect) (pending : list Connect)
    (result : thrown + SandboxTerminalSession) (connectErrorMessage : string) (s : Screen) :
    Screen :=
  let t := sc_terminal s in
  match result with
  | inl e => closed (settleConnect c pending (inl e) connectErrorMessage t) s
  | inr session =>
      let t' := settleConnect c pending (inr (session_id session)) connectErrorMessage t in
      if bool_decide (tm_terminalRef t = Some (cn_term c)) then {|
        sc_terminal := t';
        sc_texts := write (cn_term c) (connectedLine session) (sc_texts s);
        sc_sizes := sc_sizes s; sc_stream := Some (cn_term c); sc_timer := sc_timer s;
        sc_opened := sc_opened s; sc_posts := sc_posts s; sc_session := Some session;
        sc_messages := [] |}
      else with_terminal t' s
  end.

(** [events.onmessage] *)
Definition screenMessage (data : string) (s : Screen) : Screen :=
  match sc_stream s with
  | Some w =>
      with_screen (write w (decoded data) (sc_texts s)) (sc_sizes s) (sc_timer s) (sc_posts s)
        (sc_messages s ++ [data]) s
  | None => s
  end.

(** [events.onerror] *)
Definition screenError (message : string) (s : Screen) : Screen :=
  match tm_eventSource (sc_terminal s) with
  | Some _ => closed (streamError message (sc_terminal s)) s
  | None => s
  end.

(** [resizeTerminal], called by the observer while a session is shown. *)
Definition resizeTerminal (size : Size) (s : Screen) : Screen :=
  let t := sc_terminal s in
  match tm_terminalSession t, tm_terminalRef t with
  | Some session, Some w =>
      with_screen (sc_texts s) (<[w := size]> (sc_sizes s)) (Some (w, (tm_endpoint t, session)))
        (sc_posts s) (sc_messages s) s
  | _, _ => s
  end.

(** The timer fires, 250 ms after the last change of the size. *)
Definition postSize (s : Screen) : Screen :=
  match sc_timer s with
  | Some (w, session) =>
      with_screen (sc_texts s) (sc_sizes s) None
        (sc_posts s ++ [(session, default (0, 0)%Z (sc_sizes s !! w))]) (sc_messages s) s
  | None => s
  end.

Definition sizeURL (p : SizePost) : string :=
  p.1.1 +:+ "/terminal/" +:+ encodeURIComponent p.1.2 +:+ "/resize".

Definition sizeBody (size : Size) : string :=
  stringify (JObj [("cols", JNum size.1); ("rows", JNum size.2)]).

(** ** Steps *)

Inductive screen_step : Screen -> Screen -> Prop :=
  | sn_change endpoint s : screen_step s (screenChange endpoint s)
  | sn_unmount s : screen_step s (screenUnmount s)
  | sn_connect available size s : screen_step s (screenConnect available size s)
  | sn_settle l c r result message s :
      tm_pending (sc_terminal s) = l ++ c :: r ->
      screen_step s (screenSettle c (l ++ r) result message s)
  | sn_message data s : screen_step s (screenMessage data s)
  | sn_error message s : screen_step s (screenError message s)
  | sn_type data s : screen_step s (with_terminal (typeInput data (sc_terminal s)) s)
  | sn_input l k r failure s :
      tm_inputRequests (sc_terminal s) = l ++ k :: r ->
      screen_step s (with_terminal (settleInput k (l ++ r) failure (sc_terminal s)) s)
  | sn_resize size s : screen_step s (resizeTerminal size s)
  | sn_timer s : screen_step s (postSize s).

Inductive screen_reachable : Screen -> Prop :=
  | sn_start endpoint : screen_reachable (initialScreen endpoint)
  | sn_next s s' : screen_reachable s -> screen_step s s' -> screen_reachable s'.

(** * Properties *)

(** What the widget shows: that it connects, then the session, then the messages
    of its stream in order. *)
Definition screenText (s : Screen) : string :=
  line connectingMessage +:+
  match sc_session s with
  | Some session => connectedLine session +:+ join "" (map decoded (sc_messages s))
  | None => ""
  end.

Record screen_inv (s : Screen) : Prop := {
  si_terminal : terminal_reachable (sc_terminal s);
  si_stream :
    match tm_terminalSessionRef (sc_terminal s) with
    | Some i => exists w session,
        sc_stream s = Some w /\ tm_terminalRef (sc_terminal s) = Some w /\
        sc_session s = Some session /\ session_id session = i
    | None => sc_stream s = None /\ sc_timer s = None /\ sc_session s = None /\ sc_messages s = []
    end;
  si_timer : forall w session, sc_timer s = Some (w, session) ->
    tm_terminalRef (sc_terminal s) = Some w /\ openSession (sc_terminal s) = [session] /\
    is_Some (sc_sizes s !! w);
  si_text : forall w, tm_terminalRef (sc_terminal s) = Some w -> sc_texts s !! w = Some (screenText s);
}.

(** A step that leaves the widget, the session and the endpoint alone. *)
Lemma kept_inv (t : Terminal) (s : Screen) :
  terminal_reachable t -> tm_terminalRef t = tm_terminalRef (sc_terminal s) ->
  tm_terminalSessionRef t = tm_terminalSessionRef (sc_terminal s) ->
  tm_endpoint t = tm_endpoint (sc_terminal s) -> screen_inv s -> screen_inv (with_terminal t s).
Proof.
  intros Ht E1 E2 E3 [_ H2 H3 H4]. constructor; cbn; [done|by rewrite E1, E2| |].
  - intros w session Hw. unfold openSession. rewrite E1, E2, E3. by apply H3.
  - intros w. rewrite E1. apply H4.
Qed.

Lemma closed_inv (t : Terminal) (s : Screen) :
  terminal_reachable t -> tm_terminalRef t = None -> tm_terminalSessionRef t = None ->
  screen_inv (closed t s).
Proof. intros Ht E1 E2. by constructor; cbn; rewrite ?E1, ?E2. Qed.

Lemma pump_frame (k : nat) (t : Terminal) :
  tm_terminalRef (pump k t) = tm_terminalRef t /\
  tm_terminalSessionRef (pump k t) = tm_terminalSessionRef t /\
  tm_endpoint (pump k t) = tm_endpoint t.
Proof. unfold pump. destruct (tm_channels t !! k) as [c|]; [|done]. by destruct (sendNextInput c). Qed.

Lemma typeInput_frame (data : string) (t : Terminal) :
  tm_terminalRef (typeInput data t) = tm_terminalRef t /\
  tm_terminalSessionRef (typeInput data t) = tm_terminalSessionRef t /\
  tm_endpoint (typeInput data t) = tm_endpoint t.
Proof.
  unfold typeInput. destruct (tm_channel t) as [k|]; [|done].
  apply (pump_frame k (with_channels (alter (pushInput data) k (tm_channels t)) (tm_inputRequests t) t)).
Qed.

Lemma settleInput_frame (k : nat) (requests : list nat) (failure : option thrown) (t : Terminal) :
  tm_terminalRef (settleInput k requests failure t) = tm_terminalRef t /\
  tm_terminalSessionRef (settleInput k requests failure t) = tm_terminalSessionRef t /\
  tm_endpoint (settleInput k requests failure t) = tm_endpoint t.
Proof.
  unfold settleInput.
  set (t' := match failure with Some _ => _ | None => _ end).
  assert (tm_terminalRef t' = tm_terminalRef t /\ tm_terminalSessionRef t' = tm_terminalSessionRef t /\
    tm_endpoint t' = tm_endpoint t) as (<- & <- & <-).
  { subst t'. destruct failure; [|done]. by destruct (match tm_channels t !! k with Some _ => _ | None => _ end). }
  apply (pump_frame k (with_channels (alter endInput k (tm_channels t')) requests t')).
Qed.

Lemma write_lookup (w : nat) (text old : string) (texts : gmap nat string) :
  texts !! w = Some old -> write w text texts !! w = Some (old +:+ text).
Proof. intros E. unfold write. by rewrite lookup_insert_eq, E. Qed.

Lemma connect_inv (available : bool) (size : Size) (s : Screen) :
  screen_inv s -> screen_inv (screenConnect available size s).
Proof.
  intros Hi. unfold screenConnect. case_bool_decide as E; [done|]. destruct Hi as [H1 H2 H3 H4].
  assert (terminal_reachable (connectTerminal available (sc_terminal s))) as Hr
    by (eapply tm_next; [done|apply tm_connect]).
  pose proof (wf_ref _ (wf_reachable _ H1)) as Hw.
  unfold connectTerminal in *. destruct (_ || _) eqn:Eb; [done|].
  apply orb_false_iff in Eb as [_ Es].
  destruct (tm_terminalSession (sc_terminal s)); [done|]. rewrite <- Hw in H2. destruct H2 as (E1 & E2 & E3 & E4).
  constructor; cbn; [done|by rewrite <- Hw|by rewrite E2|].
  intros w [= <-]. rewrite lookup_insert_eq. unfold screenText. cbn. by rewrite E3, sapp_nil_r.
Qed.

Lemma screen_settle_inv (l r : list Connect) (c : Connect)
    (result : thrown + SandboxTerminalSession) (message : string) (s : Screen) :
  tm_pending (sc_terminal s) = l ++ c :: r -> screen_inv s ->
  screen_inv (screenSettle c (l ++ r) result message s).
Proof.
  intros Ep Hi. pose proof Hi as [H1 H2 H3 H4]. pose proof (wf_reachable _ H1) as Hwf.
  pose proof (wf_pending _ Hwf) as Hp. rewrite Ep in Hp.
  assert (tm_terminalSessionRef (sc_terminal s) = None) as Hn.
  { destruct l as [|? [|]]; cbn in Hp; [destruct r; [apply Hp|done]|by destruct r|done]. }
  rewrite Hn in H2. destruct H2 as (E1 & E2 & E3 & E4).
  destruct result as [e|session]; unfold screenSettle.
  - apply closed_inv; [|done..]. eapply tm_next; [done|by apply tm_settle].
  - assert (terminal_reachable (settleConnect c (l ++ r) (inr (session_id session)) message (sc_terminal s)))
      as Hr by (eapply tm_next; [done|by apply tm_settle]).
    revert Hr. unfold settleConnect. case_bool_decide as Et; intros Hr; [|by apply kept_inv].
    constructor; cbn; [done|by exists (cn_term c), session|by rewrite E2|].
    rewrite Et. intros w [= <-]. rewrite (write_lookup _ _ _ _ (H4 _ Et)). unfold screenText. cbn.
    rewrite E3. f_equal. by rewrite !sapp_nil_r.
Qed.

Lemma message_inv (data : string) (s : Screen) : screen_inv s -> screen_inv (screenMessage data s).
Proof.
  intros Hi. unfold screenMessage. destruct (sc_stream s) as [w|] eqn:E; [|done].
  destruct Hi as [H1 H2 H3 H4].
  destruct (tm_terminalSessionRef (sc_terminal s)) as [i|] eqn:Es; [|destruct H2; congruence].
  destruct H2 as (w' & session & E1 & E2 & E3 & E4). rewrite E in E1. injection E1 as <-.
  constructor; cbn; [done|rewrite Es; by exists w, session|exact H3|].
  rewrite E2. intros ? [= <-]. rewrite (write_lookup _ _ _ _ (H4 w E2)). unfold screenText.
  change (sc_session (with_screen _ _ _ _ _ s)) with (sc_session s).
  change (sc_messages (with_screen _ _ _ _ _ s)) with (sc_messages s ++ [data]).
  rewrite E3, map_app. change (map decoded [data]) with [decoded data].
  by rewrite join_snoc, !sapp_assoc.
Qed.

Lemma screen_step_inv (s s' : Screen) :
  screen_step s s' -> screen_inv s -> screen_inv s'.
Proof.
  intros Hs Hi. pose proof (si_terminal s Hi) as Hr.
  destruct Hs as [e s|s|a size s|l c r res m s E|data s|m s|data s|l k r f s E|size s|s].
  - unfold screenChange. case_bool_decide as E; [done|].
    assert (terminal_reachable (changeEndpoint e (sc_terminal s))) by (eapply tm_next; [done|apply tm_change]).
    apply closed_inv; [done|..]; unfold changeEndpoint; by rewrite bool_decide_eq_false_2.
  - apply closed_inv; [|done..]. eapply tm_next; [done|apply tm_unmount].
  - by apply connect_inv.
  - by apply screen_settle_inv.
  - by apply message_inv.
  - unfold screenError. destruct (tm_eventSource (sc_terminal s)) as [[e i]|] eqn:E; [|done].
    assert (terminal_reachable (streamError m (sc_terminal s))) by (eapply tm_next; [done|apply tm_stream]).
    apply closed_inv; [done|..]; unfold streamError; by rewrite E.
  - destruct (typeInput_frame data (sc_terminal s)) as (E1 & E2 & E3).
    apply kept_inv; [|done..]. eapply tm_next; [done|apply tm_type].
  - destruct (settleInput_frame k (l ++ r) f (sc_terminal s)) as (E1 & E2 & E3).
    apply kept_inv; [|done..]. eapply tm_next; [done|by apply tm_input].
  - pose proof (wf_ref _ (wf_reachable _ Hr)) as Hw. destruct Hi as [H1 H2 H3 H4]. unfold resizeTerminal.
    destruct (tm_terminalSession (sc_terminal s)) as [i|] eqn:Es; [|by constructor].
    destruct (tm_terminalRef (sc_terminal s)) as [w|] eqn:Ew; [|by constructor; rewrite ?Ew].
    rewrite <- Hw in H2.
    constructor; cbn; [done|by rewrite <- Hw, Ew| |by rewrite Ew].
    intros ? ? [= <- <-]. unfold openSession. rewrite <- Hw, lookup_insert_eq. eauto.
  - unfold postSize. destruct (sc_timer s) as [[w session]|] eqn:Et; [|done].
    destruct Hi as [H1 H2 H3 H4]. constructor; cbn; [done| |done|exact H4].
    destruct (tm_terminalSessionRef _); [done|]. by destruct H2 as (? & ? & ? & ?).
Qed.

Lemma screen_reachable_inv (s : Screen) :
  screen_reachable s -> screen_inv s.
Proof.
  induction 1 as [e|s s' _ IH Hs]; [|by apply (screen_step_inv s s')].
  constructor; cbn; [apply tm_start|done..].
Qed.

(** C35.  The widget shows that it connects, the session, and every message of the
    open stream once and in order, in every order of events; and a size is
    posted to the open session only, and is that of the widget shown. *)
Theorem screen_shows_stream (s : Screen) :
  screen_reachable s ->
  (forall w, tm_terminalRef (sc_terminal s) = Some w -> sc_texts s !! w = Some (screenText s)) /\
  (forall s' p, screen_step s s' -> sc_posts s' = sc_posts s ++ [p] ->
     openSession (sc_terminal s) = [p.1] /\
     exists w, tm_terminalRef (sc_terminal s) = Some w /\ sc_sizes s !! w = Some p.2).
Proof.
  intros Hr%screen_reachable_inv. destruct Hr as [_ _ H3 H4]. split; [exact H4|].
  intros s' p Hs E. assert (forall l : list SizePost, l <> l ++ [p]) as Hne.
  { intros l El. apply (f_equal List.length) in El. rewrite length_app in El. cbn in El. lia. }
  destruct Hs as [e s|s|a size s|l c r res m s _|data s|m s|data s|l k r f s _|size s|s];
    try (by apply Hne in E).
  - unfold screenChange in E. destruct (bool_decide _); by apply Hne in E.
  - unfold screenConnect in E. destruct (bool_decide _); by apply Hne in E.
  - destruct res; cbn in E; [by apply Hne in E|]. destruct (bool_decide _); by apply Hne in E.
  - unfold screenMessage in E. destruct (sc_stream s); by apply Hne in E.
  - unfold screenError in E. destruct (tm_eventSource _); by apply Hne in E.
  - unfold resizeTerminal in E. destruct (tm_terminalSession _), (tm_terminalRef _); by apply Hne in E.
  - unfold postSize in E. destruct (sc_timer s) as [[w session]|] eqn:Et; [|by apply Hne in E].
    cbn in E. apply app_inj_tail in E as [_ <-]. destruct (H3 w session eq_refl) as (Hw & Ho & size & Hz).
    split; [exact Ho|]. exists w. split; [exact Hw|].
    transitivity (Some size); [exact Hz|]. f_equal. exact (eq_sym (f_equal (default (0, 0)%Z) Hz)).
Qed.
End screen.

(** ** Examples *)

Definition example_session : SandboxTerminalSession :=
  {| session_id := "s1"; session_pid := 7; session_sandbox_id := "sb" |}.

Definition example_screen : Screen :=
  let s := screenConnect "Connecting" true (80, 24)%Z (initialScreen "/jobs/7") in
  let s := screenSettle {| cn_term := 0; cn_endpoint := "/jobs/7" |} [] (inr example_session) "" s in
  let s := screenMessage stringify (quote "$ ") s in
  resizeTerminal (100, 30)%Z (resizeTerminal (90, 30)%Z s).

Lemma example_screen_reachable : screen_reachable stringify "Connecting" example_screen.
Proof.
  do 2 (eapply sn_next; [|apply sn_resize]). eapply sn_next; [|apply sn_message].
  eapply sn_next; [|by apply (sn_settle _ _ [] _ [])].
  eapply sn_next; [|apply sn_connect]. apply sn_start.
Qed.

Lemma screen_shows_stream_witness :
  sc_posts (postSize example_screen) = [(("/jobs/7", "s1"), (100, 30)%Z)] /\
  openSession (sc_terminal example_screen) = [("/jobs/7", "s1")] /\
  sc_texts example_screen !! 0 =
    Some (line "Connecting" +:+ line "Connected to sb pid=7" +:+ "$ ").
Proof.
  split; [vm_compute; reflexivity|].
  destruct (screen_shows_stream stringify "Connecting" example_screen example_screen_reachable)
    as [Htext Hpost].
  split.
  - apply (Hpost (postSize example_screen) (("/jobs/7", "s1"), (100, 30)%Z));
      [apply sn_timer|vm_compute; reflexivity].
  - rewrite (Htext 0); [vm_compute; reflexivity|vm_compute; reflexivity].
Defined.
