(* ===== verification/Docs.v ===== *)
(** The guides of the site: src/ui/src/site-docs.ts and what
    src/ui/src/components/docs-page.tsx derives from them, with the avatar of
    src/ui/src/components/account-menu.tsx.

    The Markdown files are a parameter, by the place of the document in the list
    and the language; Markdown is rendered by a library. *)
From S2P Require Import Prelude.
From S2P Require Import JsString.
From S2P Require Import JsUri.
From S2P Require Import AdminTypes.
From S2P Require Import LoadPolicy.
From S2P Require Import Navigation.

(** ** Documents *)

Inductive SiteDocumentGroup := DocsOverview | DocsGettingStarted | DocsGuides | DocsReference.
Inductive SiteDocumentLocale := DocsEn | DocsZh.

#[export] Instance SiteDocumentGroup_eq_dec : EqDecision SiteDocumentGroup.
Proof. solve_decision. Defined.

Record SiteDocument := {
  doc_path : string;
  doc_group : SiteDocumentGroup;
  doc_title : string;
  doc_summary : string;
  doc_markdown : string;
}.

(** The groups of the definitions, in the order of [siteDocumentRoutes]. *)
Definition documentGroups : list SiteDocumentGroup :=
  [DocsOverview; DocsGettingStarted; DocsGettingStarted; DocsGuides; DocsGuides; DocsGuides;
   DocsGuides; DocsReference].

Definition siteDocumentLocale (language : string) : SiteDocumentLocale :=
  if startsWith "zh" (toLowerCase language) then DocsZh else DocsEn.

Definition is_summary (line : string) : bool :=
  let trimmed := trim line in
  str_truthy trimmed && negb (startsWith "#" trimmed) && negb (startsWith "[" trimmed) &&
  negb (startsWith "|" trimmed).

(** The title and the summary of a text. *)
Definition siteDocumentMetadata (markdown : string) : string * string :=
  let lines := split_on (ascii_of_N 10) (trim markdown) in
  (match find_first (startsWith "# ") lines with
   | Some line => trim (default "" (drop_prefix "# " line))
   | None => ""
   end,
   match find_first is_summary lines with Some line => trim line | None => "" end).

Section documents.
Context (markdown : nat -> SiteDocumentLocale -> string).

Definition siteDocuments (language : string) : list SiteDocument :=
  let locale := siteDocumentLocale language in
  imap (fun i '(path, group) =>
    let text := markdown i locale in
    {| doc_path := path; doc_group := group; doc_title := (siteDocumentMetadata text).1;
       doc_summary := (siteDocumentMetadata text).2; doc_markdown := text |})
    (zip siteDocumentRoutes documentGroups).

Definition siteDocumentForPath (path language : string) : option SiteDocument :=
  find_first (fun document => bool_decide (doc_path document = path)) (siteDocuments language).

(** ** The page *)

Record DocsView := {
  dv_article : SiteDocument;
  dv_previous : option SiteDocument;
  dv_next : option SiteDocument;
  dv_navigation : list (SiteDocumentGroup * list SiteDocument);
}.

Definition groupOrder : list SiteDocumentGroup :=
  [DocsOverview; DocsGettingStarted; DocsGuides; DocsReference].

Definition groupTranslationKey (group : SiteDocumentGroup) : string :=
  match group with
  | DocsOverview => "docs.groups.overview"
  | DocsGettingStarted => "docs.groups.gettingStarted"
  | DocsGuides => "docs.groups.guides"
  | DocsReference => "docs.groups.reference"
  end.

(** [DocsPage]; the list of documents is never empty. *)
Definition docsPage (path language : string) : option DocsView :=
  let documents := siteDocuments language in
  let article :=
    match siteDocumentForPath path language with Some d => Some d | None => documents !! 0 end in
  (fun article =>
    let documentIndex :=
      fst <$> list_find (fun candidate => doc_path candidate = doc_path article) documents in
    {| dv_article := article;
       dv_previous :=
         match documentIndex with
         | Some (S i) => documents !! i
         | _ => None
         end;
       dv_next := documents !! match documentIndex with Some i => S i | None => 0 end;
       dv_navigation :=
         map (fun group => (group, filter (fun d => doc_group d = group) documents)) groupOrder |})
  <$> article.
End documents.

Definition docsTitle (title : string) : string := title +:+ " · Qiniu CI Runner".

(** Links that stay on the site are kept; the library treats the others. *)
Definition docsURLTransform (defaultUrlTransform : string -> string) (url : string) : string :=
  if startsWith "/" url || startsWith "#" url then url else defaultUrlTransform url.

Definition externalLink (href : string) : bool :=
  startsWith "http://" href || startsWith "https://" href.

(** ** Headings *)

Section headings.
(** Whether a character outside ASCII, by its UTF-8 encoding, is a letter or a
    number. *)
Context (wide_word : string -> bool).

(** The characters of a text: a byte with the continuation bytes after it. *)
Fixpoint characters (s : string) : list string :=
  match s with
  | EmptyString => []
  | String a s =>
      match characters s with
      | String b c :: l => if cont b then String a (String b c) :: l else String a "" :: String b c :: l
      | l => String a "" :: l
      end
  end.

Definition is_word (c : string) : bool :=
  match c with
  | String a EmptyString => is_alnum a
  | _ => wide_word c
  end.

(** [replace(/[^\p{L}\p{N}]+/gu, "-")]; [gap] tells that the last character was
    replaced. *)
Fixpoint dashed (gap : bool) (cs : list string) : string :=
  match cs with
  | [] => ""
  | c :: cs =>
      if is_word c then c +:+ dashed false cs
      else if gap then dashed true cs else "-" +:+ dashed true cs
  end.

(** A dash at the start and one at the end are dropped. *)
Definition undash (s : string) : string :=
  let s := default s (drop_prefix "-" s) in default s (drop_suffix "-" s).

Definition headingID (label : string) : string :=
  undash (dashed false (characters (toLowerCase (trim label)))).

(** The label of a line [## label]: white space, then no line terminator. *)
Definition line_terminators : list string := [chr 13; utf8_3 226 128 168; utf8_3 226 128 169].

Definition headingLabel (line : string) : string :=
  match drop_prefix "##" line ≫= drop_ws white_space with
  | Some rest =>
      if existsb (fun x => includes x (trimStart rest)) line_terminators then "" else trim rest
  | None => ""
  end.

Definition documentHeadings (markdown : string) : list (string * string) :=
  map (fun label => (headingID label, label))
    (filter (fun label => str_truthy label = true)
      (map headingLabel (split_on (ascii_of_N 10) markdown))).
End headings.

(** What React is given to render. *)
Inductive ReactNode :=
  | NodeText (text : string)
  | NodeNumber (n : Z)
  | NodeArray (items : list ReactNode)
  | NodeOther.

Fixpoint reactNodeText (node : ReactNode) : string :=
  match node with
  | NodeText text => text
  | NodeNumber n => pretty n
  | NodeArray items => join "" (map reactNodeText items)
  | NodeOther => ""
  end.

(** ** The account menu *)

Definition userAvatarURL (session : AuthSession) : string :=
  if opt_truthy (avatar_url session) then default "" (avatar_url session)
  else match login session with
       | Some l =>
           if str_truthy l then "https://github.com/" +:+ encodeURIComponent l +:+ ".png?size=96"
           else ""
       | None => ""
       end.

(** [login.split(/[-_\s]+/).filter(Boolean)]: cut at every separator, the empty
    parts dropped. *)
Fixpoint login_parts (fuel : nat) (part s : string) : list string :=
  match fuel with
  | O => [part]
  | S fuel =>
      match drop_ws ("-" :: "_" :: white_space) s, s with
      | Some s, _ => part :: login_parts fuel "" s
      | None, String a s => login_parts fuel (part +:+ String a "") s
      | None, EmptyString => [part]
      end
  end.

(** The first letters of the first two parts, or GH. *)
Definition userInitials (login : string) : string :=
  let parts := filter (fun p => str_truthy p = true)
    (login_parts (S (String.length login)) "" login) in
  or_str (Some (join "" (map (fun p => toUpperCase (js_take 1 p)) (take 2 parts)))) "GH".

(** The menu: the login it names, and the picture or else the initials on its
    button. *)
Definition accountMenu (session : AuthSession) : string * (string + string) :=
  let avatarURL := userAvatarURL session in
  let login := or_str (login session) "github" in
  (login, if str_truthy avatarURL then inl avatarURL else inr (userInitials login)).

(** The theme it marks. *)
Definition menuTheme (theme : option string) : string := or_str theme "system".

(** Whether it leads to the administration. *)
Definition menuLeadsToAdmin (session : AuthSession) : bool :=
  bool_decide (role session = Some "admin").

(** ** The head of the page

    [useDocumentMetadata]: the title and the description of the page, where it
    has one. *)
Record Head := { hd_title : string; hd_description : option string }.

(** What the clean-up of the effect remembers, and the dependencies it ran with. *)
Record Metadata := { md_before : Head; md_title : string; md_summary : string }.

Definition runMetadata (title summary : string) (head : Head) : Head * Metadata :=
  ({| hd_title := docsTitle title; hd_description := Some summary |},
   {| md_before := head; md_title := title; md_summary := summary |}).

Definition cleanMetadata (m : Metadata) (head : Head) : Head :=
  {| hd_title := hd_title (md_before m);
     hd_description :=
       match hd_description (md_before m), hd_description head with
       | Some d, Some _ => Some d
       | _, _ => None
       end |}.

(** A rendering with another document: the effect is cleaned up and runs again. *)
Definition updateMetadata (doc : string * string) (st : Head * Metadata) : Head * Metadata :=
  let '(title, summary) := doc in
  let '(head, m) := st in
  if bool_decide (md_title m = title) && bool_decide (md_summary m = summary) then st
  else runMetadata title summary (cleanMetadata m head).

(** * Properties *)

Section pages.
Context (markdown : nat -> SiteDocumentLocale -> string).

Lemma siteDocuments_paths (language : string) :
  doc_path <$> siteDocuments markdown language = siteDocumentRoutes.
Proof. reflexivity. Qed.

Lemma siteDocumentRoutes_NoDup : NoDup siteDocumentRoutes.
Proof. apply (bool_decide_unpack _). vm_compute. exact I. Qed.

Lemma documents_lookup (language : string) (i : nat) (path : string) :
  siteDocumentRoutes !! i = Some path ->
  exists d, siteDocuments markdown language !! i = Some d /\ doc_path d = path /\
    siteDocumentForPath markdown path language = Some d /\
    list_find (fun c => doc_path c = path) (siteDocuments markdown language) = Some (i, d).
Proof.
  intros E. rewrite <- (siteDocuments_paths language), list_lookup_fmap in E.
  apply fmap_Some in E as (d & Ed & ->). exists d.
  assert (NoDup (doc_path <$> siteDocuments markdown language)) as Hnd
    by (rewrite siteDocuments_paths; apply siteDocumentRoutes_NoDup).
  assert (forall j c, siteDocuments markdown language !! j = Some c ->
    doc_path c = doc_path d -> j = i) as Hu.
  { intros j c Hj Hc. eapply NoDup_lookup; [exact Hnd| |].
    - rewrite list_lookup_fmap, Hj. cbn. by rewrite Hc.
    - by rewrite list_lookup_fmap, Ed. }
  split; [done|]. split; [done|]. split.
  - unfold siteDocumentForPath. destruct (find_first _ _) as [c|] eqn:Ef.
    + apply find_first_Some in Ef as [[j Hj]%list_elem_of_lookup_1 Hp%bool_decide_eq_true_1].
      pose proof (Hu j c Hj Hp). congruence.
    + rewrite find_first_None in Ef. specialize (Ef d (list_elem_of_lookup_2 _ _ _ Ed)).
      by rewrite bool_decide_eq_true_2 in Ef.
  - apply list_find_Some. split; [done|]. split; [done|]. intros j c Hj Hlt Hp.
    pose proof (Hu j c Hj Hp). lia.
Qed.

Lemma docs_path_listed (status : AuthSessionCheckStatus) (session : AuthSession) (n : Nav)
    (path : string) :
  pageShown status session n = DocsPage path -> path ∈ siteDocumentRoutes.
Proof.
  unfold pageShown. destruct (appRouteAccess (nv_path n)) eqn:Ea;
    [|repeat case_match; congruence..].
  unfold appRouteAccess in Ea. case_bool_decide as E; [done|]. intros [= <-].
  cbn in Ea. destruct (isSiteDocumentPath (nv_path n)) eqn:Es.
  - by apply bool_decide_eq_true_1 in Es.
  - repeat case_match; congruence.
Qed.

Lemma navigation_listed (documents : list SiteDocument) :
  mjoin (snd <$> map (fun group => (group, filter (fun d => doc_group d = group) documents))
    groupOrder) ≡ₚ documents.
Proof.
  cbn. rewrite app_nil_r. induction documents as [|d l IH]; [done|].
  rewrite !filter_cons. symmetry; etrans; [by rewrite <- IH|]; clear IH.
  repeat (case_decide as E; rewrite ?E); destruct (doc_group d); try done; solve_Permutation.
Qed.

(** A guide of the site shows the document of the address in the reader's
    language, links to the documents before and after it in the list, and its
    sidebar lists every document once, under its group. *)
Theorem docs_page_shows_document (status : AuthSessionCheckStatus) (session : AuthSession) (n : Nav)
    (path language : string) :
  pageShown status session n = DocsPage path ->
  exists i d view,
    siteDocumentRoutes !! i = Some path /\ siteDocuments markdown language !! i = Some d /\
    doc_path d = path /\ doc_markdown d = markdown i (siteDocumentLocale language) /\
    docsPage markdown path language = Some view /\ dv_article view = d /\
    dv_previous view = match i with S j => siteDocuments markdown language !! j | 0 => None end /\
    dv_next view = siteDocuments markdown language !! S i /\
    mjoin (snd <$> dv_navigation view) ≡ₚ siteDocuments markdown language /\
    Forall (fun g => Forall (fun d => doc_group d = g.1) g.2) (dv_navigation view).
Proof.
  intros [i Hi]%docs_path_listed%list_elem_of_lookup_1.
  destruct (documents_lookup language i path Hi) as (d & Ed & Epath & Ef & El).
  eexists i, d, _. split; [done|]. split; [done|]. split; [done|]. split.
  { unfold siteDocuments in Ed. rewrite list_lookup_imap in Ed.
    apply fmap_Some in Ed as ([p g] & _ & ->). done. }
  split; [unfold docsPage; cbv zeta; rewrite Ef; cbn [fmap option_fmap option_map];
          rewrite Epath, El; done|].
  split; [done|]. split; [done|]. split; [done|]. split; [apply navigation_listed|].
  apply Forall_map, Forall_true. intros g. apply Forall_forall. intros c Hc.
  by apply list_elem_of_filter in Hc as [? _].
Qed.
End pages.

(** ** The head is given back *)

(** Documents shown one after the other; the list is a sequence of renderings. *)
Definition showDocuments (head : Head) (first : string * string) (rest : list (string * string)) :
    Head * Metadata :=
  foldl (fun st doc => updateMetadata doc st) (runMetadata first.1 first.2 head) rest.

(** The head shows the last document, and the clean-up knows the head there was. *)
Lemma shown_documents (head : Head) (first : string * string) (rest : list (string * string)) :
  let '(h, m) := showDocuments head first rest in
  let doc := default first (last rest) in
  h = {| hd_title := docsTitle doc.1; hd_description := Some doc.2 |} /\
  m = {| md_before := head; md_title := doc.1; md_summary := doc.2 |}.
Proof.
  unfold showDocuments. revert first. induction rest as [|[t s] rest IH]; intros [t0 s0]; [done|].
  cbn [foldl]. replace (updateMetadata (t, s) _) with (runMetadata t s head).
  - specialize (IH (t, s)). cbn [fst snd] in IH. destruct (foldl _ _ _).
    rewrite last_cons. by destruct (last rest).
  - cbn. destruct head as [ht [hd|]]; cbn; repeat case_bool_decide; subst; done.
Qed.

(** Leaving the guides, after any documents in any languages, gives back the
    title and the description that the page had. *)
Theorem guides_give_head_back (head : Head) (first : string * string)
    (rest : list (string * string)) :
  let '(h, m) := showDocuments head first rest in
  hd_title h = docsTitle (default first (last rest)).1 /\
  hd_description h = Some (default first (last rest)).2 /\
  cleanMetadata m h = head.
Proof.
  pose proof (shown_documents head first rest) as H. destruct (showDocuments _ _ _) as [h m].
  destruct H as [-> ->]. by destruct head as [? [?|]].
Qed.

(** ** Links of the headings *)

(** The anchor of a heading that is plain text is the one the table of contents
    links to; where it holds an element (code, a link, emphasis), the anchor
    leaves its text out. *)
Lemma plain_heading_linked (wide_word : string -> bool) (label : string) :
  headingID wide_word (reactNodeText (NodeText label)) = headingID wide_word label.
Proof. reflexivity. Qed.

Example code_heading_not_linked :
  documentHeadings (fun _ => true) "## Use `bun test`" =
    [("use-bun-test", "Use `bun test`")] /\
  headingID (fun _ => true) (reactNodeText (NodeArray [NodeText "Use "; NodeOther])) = "use".
Proof. split; vm_compute; reflexivity. Qed.

(** A signed-in user has a picture, so the initials are those of nobody: the
    button of the menu shows them only when the session has no login. *)
Lemma initials_without_login (session : AuthSession) (initials : string) :
  (accountMenu session).2 = inr initials -> or_str (login session) "" = "" /\ initials = "G".
Proof.
  unfold accountMenu. destruct (str_truthy (userAvatarURL session)) eqn:E; [done|].
  intros [= <-]. apply str_truthy_false in E. unfold userAvatarURL in E.
  assert (or_str (login session) "" = "") as El.
  { destruct (avatar_url session) as [u|]; cbn in E.
    - destruct (str_truthy u) eqn:Eu; [by apply str_truthy_true in Eu|].
      destruct (login session) as [l|]; [|done]. cbn. by destruct (str_truthy l).
    - destruct (login session) as [l|]; [|done]. cbn. by destruct (str_truthy l). }
  split; [done|]. destruct (login session) as [l|]; [|done]. cbn in *.
  by destruct (str_truthy l) eqn:Ell; [apply str_truthy_true in Ell|].
Qed.

(** The administration is offered to those whom its routes admit. *)
Lemma menu_admin_admitted (session : AuthSession) :
  authenticated session = true -> menuLeadsToAdmin session = hasAccess session.
Proof. intros H. unfold menuLeadsToAdmin, hasAccess. by rewrite H. Qed.

Example initials_of_login : userInitials "octo-cat_3 d" = "OC" /\ userInitials "--" = "GH".
Proof. split; vm_compute; reflexivity. Qed.
