(* ===== verification/JobView.v ===== *)
(** What the pages show of a job: the rows and the metrics of the job page
    (src/ui/src/components/runner-job-detail-rows.tsx, runner-job-detail.tsx), the
    fields and the explorer of the jobs page (user-dashboard.tsx) and the requests of
    the administration (runner-requests-section.tsx). *)
From S2P Require Import Prelude.
From S2P Require Import JsString.
From S2P Require Import AdminTypes.
From S2P Require Import AdminFormat.
From S2P Require Import BuildGroups.
From S2P Require Import JobLogs.
From S2P Require Import JobsPage.

(** ** Values

    What a cell is given: a text, a number, a link with its text, or
    [undefined]. *)
Inductive Cell :=
  | CellText (text : string)
  | CellNumber (n : Z)
  | CellLink (href text : string)
  | CellUndefined.

Definition text_cell (o : option string) : Cell :=
  match o with Some s => CellText s | None => CellUndefined end.

Definition number_cell (o : option Z) : Cell :=
  match o with Some n => CellNumber n | None => CellUndefined end.

Definition cell_truthy (c : Cell) : bool :=
  match c with
  | CellText s => str_truthy s
  | CellNumber n => negb (n =? 0)%Z
  | CellLink _ _ => true
  | CellUndefined => false
  end.

(** [a || b]. *)
Definition or_cell (a b : Cell) : Cell := if cell_truthy a then a else b.

(** [Detail] and [SummaryMetric]: [{value || "-"}]. *)
Definition cellShown (value : Cell) : Cell := or_cell value (CellText "-").

(** The text the reader sees. *)
Definition cell_text (c : Cell) : string :=
  match c with
  | CellText s => s
  | CellNumber n => pretty n
  | CellLink _ s => s
  | CellUndefined => ""
  end.

(** The status texts of the job page: [runnerStatusLabel] of
    runner-job-detail-rows.tsx, which has no entry for unmatched requests. *)
Definition statusKey (s : RunnerStatus) : string :=
  match s with
  | queued => "common.statusQueued"
  | creating => "common.statusCreating"
  | running => "common.statusRunning"
  | stopping => "common.statusStopping"
  | completed => "common.statusCompleted"
  | failed => "common.statusFailed"
  end.

Section view.
Context (t : translate) (parse : string -> option Z)
  (toLocaleString : Z -> option string -> string).

Abbreviation time := (formatTime parse toLocaleString).

Record Row := { row_id : string; row_label : string; row_value : Cell }.

Definition detailRow (i label : string) (value : Cell) : Row :=
  {| row_id := i; row_label := label; row_value := value |}.

(** ** The job page *)

Definition runnerJobDetailRows (job : RunnerState) (locale : option string) : list Row := [
  detailRow "id" "ID" (CellText (id job));
  detailRow "status" (t "common.status" []) (CellText (t (statusKey (status job)) []));
  detailRow "repository" (t "common.repository" []) (text_cell (repository_full_name job));
  detailRow "runner_spec" (t "common.runnerSpec" [])
    (CellText (or_str (runner_spec_name job) (t "user.matchedByLabels" [])));
  detailRow "runner_group" (t "user.runnerGroup" []) (text_cell (runner_group job));
  detailRow "sandbox" (t "common.sandbox" []) (text_cell (sandbox_id job));
  detailRow "pid" "PID" (number_cell (process_pid job));
  detailRow "job" (t "user.jobName" [])
    (or_cell (text_cell (assigned_job_name job))
      (or_cell (number_cell (assigned_job_id job)) (number_cell (workflow_job_id job))));
  detailRow "workflow" (t "user.workflow" []) (text_cell (workflow_name job));
  detailRow "workflow_run" (t "user.workflowRun" []) (number_cell (workflow_run_id job));
  detailRow "workflow_attempt" (t "user.workflowAttempt" []) (number_cell (workflow_run_attempt job));
  detailRow "pull_request" (t "user.pullRequest" []) (number_cell (pull_request_number job));
  detailRow "branch" (t "user.branch" []) (text_cell (head_branch job));
  detailRow "commit" (t "user.commit" []) (text_cell (head_sha job));
  detailRow "created_at" (t "common.created" []) (CellText (time (Some (created_at job)) locale));
  detailRow "updated_at" (t "common.updated" []) (CellText (time (Some (updated_at job)) locale));
  detailRow "completed_at" (t "user.finished" []) (CellText (time (completed_at job) locale));
  detailRow "failed_at" (t "user.failedAt" []) (CellText (time (failed_at job) locale));
  detailRow "retry_count" (t "user.retryCount" []) (number_cell (retry_count job));
  detailRow "next_retry_at" (t "user.nextRetry" []) (CellText (time (next_retry_at job) locale));
  detailRow "requested_labels" (t "user.requestedLabels" [])
    (text_cell (join ", " <$> requested_labels job));
  detailRow "failure_reason" (t "user.failure" []) (text_cell (failure_reason job));
  detailRow "last_error" (t "user.lastError" [])
    (or_cell (text_cell (last_error_message job)) (text_cell (error job))) ].

Definition workflowRunLink (job : RunnerState) : Cell :=
  match workflow_run_id job with
  | Some run =>
      if (run =? 0)%Z then CellText "-"
      else let url := workflowRunURL job in
        if str_truthy url then CellLink url (pretty run) else CellNumber run
  | None => CellText "-"
  end.

(** The title of the job page; unlike the jobs page it falls back to the
    identifier. *)
Definition detailTitle (job : RunnerState) : string :=
  if opt_truthy (assigned_job_name job) &&
     negb (bool_decide (assigned_job_name job = Some "__runner_job_started__"))
  then default "" (assigned_job_name job)
  else or_str (workflow_name job) (or_str (Some (runner_name job)) (id job)).

Definition pageTitle (pageID : string) (job : option RunnerState) : string :=
  match job with Some job => detailTitle job | None => pageID end.

Definition pageSubtitle (job : option RunnerState) : string :=
  or_str (job ≫= repository_full_name) (t "user.runnerRequest" []) +:+ " " +:+
  (if opt_truthy (job ≫= workflow_name) then " / " +:+ default "" (job ≫= workflow_name) else "").

(** The metrics above the tabs. *)
Definition summaryMetrics (job : RunnerState) (locale : option string) : list (string * Cell) :=
  map (fun '(label, value) => (label, cellShown value))
  [ (t "common.runnerSpec" [],
      CellText (or_str (runner_spec_name job) (t "user.matchedByLabels" [])));
    (t "user.workflowRun" [], workflowRunLink job);
    (t "user.queued" [], CellText (time (Some (created_at job)) locale));
    (t "common.started" [], CellText (time (running_at job) locale));
    (t "user.finished" [],
      CellText (time (or_opt (completed_at job) (failed_at job)) locale)) ].

Definition jobGroupTitle (group : option RunnerJobGroup) : string :=
  match group with
  | Some g =>
      if str_truthy (jg_title g) then t "user.namedJobs" [("name", jg_title g)]
      else t "user.workflowJobs" []
  | None => t "user.workflowJobs" []
  end.

(** A job of the side bar: its title, duration and second line. *)
Definition jobListItem (job : RunnerState) : string * string * string :=
  (detailTitle job, formatRunnerDuration parse job,
   or_str (runner_spec_name job) (or_str (Some (runner_name job)) (id job))).

(** ** The jobs page *)

(** The fields of the selected context and job. *)
Record JobFields := {
  jf_heading : string;
  jf_branch : string;
  jf_commit : string;
  jf_updated : string;
  jf_job : option (Cell * Cell * string);
}.

Definition selectedFields (group : BuildGroup) (jobGroup : option RunnerJobGroup)
    (job : option RunnerState) (locale : option string) : JobFields := {|
  jf_heading := pullRequestHeading group jobGroup;
  jf_branch :=
    or_str (jobGroup ≫= jg_head_branch) (or_str (bg_headBranch group)
      (or_str (Some (bg_subtitle group)) (t "common.unknown" [])));
  jf_commit :=
    or_str (Some (shortSHA (or_opt (jobGroup ≫= jg_head_sha) (bg_headSHA group))))
      (t "common.unknown" []);
  jf_updated := time (or_opt (jg_updated_at <$> jobGroup) (Some (bg_updatedAt group))) locale;
  jf_job :=
    (fun job =>
      (if opt_truthy (github_job_url job)
       then CellLink (default "" (github_job_url job)) (runnerJobTitle job)
       else CellText (runnerJobTitle job),
       let name := or_str (workflow_name job) (t "user.workflow" []) in
       if str_truthy (workflowRunURL job) then CellLink (workflowRunURL job) name else CellText name,
       or_str (Some (formatRunnerDuration parse job)) "-")) <$> job |}.

(** The explorer below the selected context: the jobs of one workflow run after
    the other, a run of one job under the name of the workflow. *)
Record ExplorerItem := {
  ei_job : RunnerState;
  ei_name : string;
  ei_status : RunnerStatusSummary;
  ei_duration : string;
  ei_selected : bool;
}.

Definition explorerItem (selectedJobID name : string) (summary : RunnerStatusSummary)
    (job : RunnerState) : ExplorerItem := {|
  ei_job := job; ei_name := name; ei_status := summary;
  ei_duration := formatRunnerDuration parse job;
  ei_selected := bool_decide (id job = selectedJobID) |}.

Definition workflowItems (selectedJobID : string) (workflow : WorkflowGroup) : list ExplorerItem :=
  match wg_jobs workflow with
  | [job] => [explorerItem selectedJobID (wg_name workflow) (workflowStatus [job]) job]
  | jobs =>
      map (fun job =>
        explorerItem selectedJobID (runnerJobTitle job) (jobStatusSummary (status job)) job) jobs
  end.

Definition workflowJobExplorer (workflows : list WorkflowGroup) (selectedJobID : string) :
    list ExplorerItem :=
  mjoin (map (workflowItems selectedJobID) workflows).

(** The explorer of the selected group, shown when there is a choice. *)
Definition submenu (p : JobsPage) : list ExplorerItem :=
  if 1 <? List.length (allJobs p) then
    workflowJobExplorer (workflowGroups t (allJobs p))
      (match selectedJob p with Some job => id job | None => "" end)
  else [].

(** The mark of a job, by its status, and the colour of a summary. *)
Inductive Mark := MarkFailed | MarkActive | MarkPassed.

Definition jobStatusMark (s : RunnerStatus) : Mark :=
  match s with
  | failed => MarkFailed
  | queued | creating | running | stopping => MarkActive
  | completed => MarkPassed
  end.

Definition buildGroupStatusClasses (s : RunnerStatusSummary) : string * string * string :=
  match s with
  | SumFailed => ("bg-destructive", "text-destructive", "text-destructive")
  | SumActive =>
      ("bg-yellow-500", "text-yellow-700 dark:text-yellow-400",
       "text-yellow-700 dark:text-yellow-400")
  | SumCompleted => ("bg-emerald-500", "text-emerald-500", "text-emerald-500")
  end.

Definition summaryMark (s : RunnerStatusSummary) : Mark :=
  match s with SumFailed => MarkFailed | SumActive => MarkActive | SumCompleted => MarkPassed end.

(** A context in the list: its reference and counts. *)
Definition groupListItem (group : BuildGroup) (locale : option string) :
    string * string * string * string * string :=
  (bg_repository group, "#" +:+ buildGroupReference group,
   t "user.jobCount" [("count", pretty (List.length (bg_jobs group)))],
   t "user.runCount"
     [("count", match List.length (bg_workflowRunIDs group) with O => "1" | n => pretty n end)],
   time (Some (bg_updatedAt group)) locale).

(** [workflowRunValue]: the run, then the job when there is a URL. *)
Definition workflowRunValue (job : RunnerState) : Cell * option Cell :=
  let runID :=
    match workflow_run_id job with
    | Some n => if (n =? 0)%Z then t "common.unknown" [] else pretty n
    | None => t "common.unknown" []
    end in
  let jobID :=
    match workflow_job_id job with
    | Some n => if (n =? 0)%Z then id job else pretty n
    | None => id job
    end in
  let runURL := workflowRunURL job in
  let runValue := if str_truthy runURL then CellLink runURL runID else CellText runID in
  (runValue,
   match github_job_url job with
   | Some url => if str_truthy url && str_truthy jobID then Some (CellLink url jobID) else None
   | None => None
   end).

Definition consoleReason (job : RunnerState) : string :=
  if opt_truthy (sandbox_id job) then t "user.consoleStateUnavailable" []
  else t "user.consoleCleanedUp" [].

(** ** The requests of the administration *)

Definition sandboxConfigSourceDisplay (source : option string) : string :=
  match source with
  | Some s =>
      if bool_decide (s = "installation") then t "admin.configInstallation" []
      else if bool_decide (s = "account") then t "admin.configAccount" []
      else if bool_decide (s = "inherited_account") then t "admin.configInheritedAccount" []
      else if bool_decide (s = "admin_default") then t "admin.configAdminDefault" []
      else if bool_decide (s = "request_snapshot") then t "admin.configRequestSnapshot" []
      else "-"
  | None => "-"
  end.

(** A row of the table, with the controls it offers. *)
Record RequestRow := {
  rr_status : RunnerDisplayStatus;
  rr_repository : string;
  rr_spec : string;
  rr_name : string;
  rr_id : string;
  rr_sandbox : string;
  rr_job_link : option string;
  rr_updated : string;
  rr_selected : bool;
  rr_retry : bool;
  rr_stop : bool;
}.

Definition requestRow (selectedID : string) (locale : option string) (runner : RunnerState) :
    RequestRow := {|
  rr_status := runnerDisplayStatus runner;
  rr_repository := or_str (repository_full_name runner) "-";
  rr_spec := or_str (runner_spec_name runner) "-";
  rr_name := or_str (Some (runner_name runner)) (id runner);
  rr_id := id runner;
  rr_sandbox := or_str (sandbox_id runner) "-";
  rr_job_link := if opt_truthy (github_job_url runner) then github_job_url runner else None;
  rr_updated := time (Some (updated_at runner)) locale;
  rr_selected := bool_decide (id runner = selectedID);
  rr_retry := bool_decide (runnerDisplayStatus runner = Status failed);
  rr_stop := bool_decide (status runner ∈ activeStatuses) |}.

(** The details of the selected request. *)
Definition requestDetails (locale : option string) (selected : RunnerState) :
    list (string * Cell) := [
  ("ID", CellText (id selected));
  (t "common.status" [], CellText (runnerStatusLabel t (runnerDisplayStatus selected)));
  (t "common.repository" [], cellShown (text_cell (repository_full_name selected)));
  (t "common.runnerSpec" [], cellShown (text_cell (runner_spec_name selected)));
  (t "common.sandbox" [], cellShown (text_cell (sandbox_id selected)));
  (t "admin.sandboxConfig" [],
    CellText (sandboxConfigSourceDisplay (sandbox_config_source selected)));
  ("PID", cellShown (number_cell (process_pid selected)));
  (t "user.jobName" [],
    or_cell (text_cell (assigned_job_name selected)) (cellShown (number_cell (assigned_job_id selected))));
  (t "admin.githubJob" [],
    if opt_truthy (github_job_url selected)
    then CellLink (default "" (github_job_url selected)) (t "admin.openJob" []) else CellText "-");
  (t "user.workflowRun" [], cellShown (number_cell (workflow_run_id selected)));
  (t "user.workflow" [], cellShown (text_cell (workflow_name selected)));
  (t "user.workflowAttempt" [], cellShown (number_cell (workflow_run_attempt selected)));
  (t "user.pullRequest" [], cellShown (number_cell (pull_request_number selected)));
  (t "user.branch" [], cellShown (text_cell (head_branch selected)));
  (t "user.commit" [], cellShown (text_cell (head_sha selected)));
  (t "common.created" [], CellText (time (Some (created_at selected)) locale));
  (t "common.updated" [], CellText (time (Some (updated_at selected)) locale));
  (t "user.finished" [], CellText (time (completed_at selected) locale));
  (t "user.retryCount" [], cellShown (number_cell (retry_count selected)));
  (t "user.nextRetry" [], CellText (time (next_retry_at selected) locale));
  (t "user.requestedLabels" [], cellShown (text_cell (join ", " <$> requested_labels selected)));
  (t "user.failure" [], cellShown (text_cell (failure_reason selected)));
  (t "admin.lastErrorCode" [], cellShown (text_cell (last_error_code selected)));
  (t "admin.error" [], cellShown (text_cell (error selected))) ].
End view.

(** * Properties *)

Section properties.
Context (t : translate) (parse : string -> option Z)
  (toLocaleString : Z -> option string -> string).

(** ** The explorer *)

Lemma workflowItems_jobs (selectedJobID : string) (workflow : WorkflowGroup) :
  ei_job <$> workflowItems parse selectedJobID workflow = wg_jobs workflow.
Proof.
  unfold workflowItems. destruct (wg_jobs workflow) as [|j [|k l]]; [done..|].
  rewrite <- list_fmap_compose. by rewrite list_fmap_id.
Qed.

Lemma status_mark (s : RunnerStatus) : summaryMark (jobStatusSummary s) = jobStatusMark s.
Proof. by destruct s. Qed.

Lemma workflowItems_shown (selectedJobID : string) (workflow : WorkflowGroup) :
  Forall (fun item =>
    summaryMark (ei_status item) = jobStatusMark (status (ei_job item)) /\
    ei_selected item = bool_decide (id (ei_job item) = selectedJobID))
  (workflowItems parse selectedJobID workflow).
Proof.
  unfold workflowItems. destruct (wg_jobs workflow) as [|j [|k l]].
  - constructor.
  - repeat constructor. by destruct j as [? []].
  - apply Forall_map, Forall_true. intros job. split; [apply status_mark|done].
Qed.

(** The explorer of the jobs page lists every job of the selected context once;
    each is drawn with the mark and the colour of its own status, and the one
    marked as selected is the one whose log is shown. *)
Theorem explorer_lists_jobs (p : JobsPage) :
  1 < List.length (allJobs p) ->
  ei_job <$> submenu t parse p ≡ₚ allJobs p /\
  Forall (fun item =>
    summaryMark (ei_status item) = jobStatusMark (status (ei_job item)) /\
    (ei_selected item = true <-> exists job, selectedJob p = Some job /\ id job = id (ei_job item)))
  (submenu t parse p).
Proof.
  intros Hn. unfold submenu. rewrite (proj2 (Nat.ltb_lt _ _) Hn). unfold workflowJobExplorer.
  assert (exists job, selectedJob p = Some job) as [job Ejob].
  { unfold selectedJob. destruct (find_first _ _); [eauto|].
    destruct (allJobs p); [cbn in Hn; lia|]. cbn. eauto. }
  rewrite Ejob. split.
  - destruct (workflowGroups_partition t (allJobs p)) as (_ & _ & Hp & _).
    etrans; [|exact Hp]. clear. induction (workflowGroups t (allJobs p)) as [|w l IH]; [done|].
    cbn. rewrite fmap_app, workflowItems_jobs. by rewrite IH.
  - apply Forall_join, Forall_map, Forall_true. intros w.
    eapply Forall_impl; [apply workflowItems_shown|]. cbv beta. intros item [Hm ->].
    split; [done|]. rewrite bool_decide_eq_true. naive_solver.
Qed.

(** ** Titles *)

(** The title of the job page is that of the jobs page, or the identifier of a
    job that has no name at all. *)
Theorem detail_title_agrees (job : RunnerState) :
  detailTitle job = or_str (Some (runnerJobTitle job)) (id job).
Proof.
  unfold detailTitle, runnerJobTitle, or_str, opt_truthy.
  destruct (assigned_job_name job) as [a|], (workflow_name job) as [w|]; cbn;
    repeat case_bool_decide; cbn; repeat case_match; try done; try congruence.
Qed.

(** ** No value is blank *)

(** A value that is not a link, or a link with a text. *)
Definition has_text (c : Cell) : Prop :=
  match c with CellLink _ text => text <> "" | _ => True end.

Lemma shown_text (c : Cell) : has_text c -> cell_text (cellShown c) <> "".
Proof.
  unfold cellShown, or_cell. destruct c as [s|n|h s|]; cbn; intros Hl; [| |done..].
  - destruct (str_truthy s) eqn:E; cbn; [by apply str_truthy_true|done].
  - destruct (negb _); [|done]. cbn. apply pretty_Z_nonempty.
Qed.

Lemma text_cell_text (o : option string) : has_text (text_cell o).
Proof. by destruct o. Qed.

Lemma number_cell_text (o : option Z) : has_text (number_cell o).
Proof. by destruct o. Qed.

Lemma or_cell_text (a b : Cell) : has_text a -> has_text b -> has_text (or_cell a b).
Proof. unfold or_cell. by destruct (cell_truthy a). Qed.

Lemma workflowRunLink_text (job : RunnerState) : has_text (workflowRunLink job).
Proof.
  unfold workflowRunLink. destruct (workflow_run_id job); [|done].
  repeat case_match; try done. apply pretty_Z_nonempty.
Qed.

#[local] Hint Resolve text_cell_text number_cell_text or_cell_text workflowRunLink_text : runnerd.
#[local] Hint Extern 0 (has_text (CellText _)) => exact I : runnerd.

(** Every detail of the job page shows something, whatever the server left
    out. *)
Theorem job_details_filled (job : RunnerState) (locale : option string) :
  Forall (fun r => cell_text (cellShown (row_value r)) <> "")
    (runnerJobDetailRows t parse toLocaleString job locale) /\
  Forall (fun m => cell_text m.2 <> "") (summaryMetrics t parse toLocaleString job locale).
Proof.
  split.
  - apply (Forall_impl (fun r => has_text (row_value r))); [|intros; by apply shown_text].
    unfold runnerJobDetailRows. rewrite !Forall_cons. cbn [detailRow row_value].
    split_and!; [auto with runnerd..|constructor].
  - unfold summaryMetrics. apply Forall_map. rewrite !Forall_cons.
    split_and!; [apply shown_text; auto with runnerd..|constructor].
Qed.

(** ** The requests of the administration *)

(** A request offers a retry exactly when it shows as failed, a stop exactly
    while it is active, and so never both; a finished or unmatched one offers
    neither. *)
Theorem request_controls (selectedID : string) (locale : option string) (runner : RunnerState) :
  let r := requestRow parse toLocaleString selectedID locale runner in
  (rr_retry r = true <-> rr_status r = Status failed) /\
  (rr_stop r = true <-> active_job (status runner) = true) /\
  ~ (rr_retry r = true /\ rr_stop r = true) /\
  (rr_retry r = false /\ rr_stop r = false <->
   rr_status r = Status completed \/ rr_status r = unmatched).
Proof.
  cbn. rewrite !bool_decide_eq_true, !bool_decide_eq_false.
  unfold runnerDisplayStatus, activeStatuses.
  destruct (status runner) eqn:Es; cbn; repeat case_match; split_bools; set_solver.
Qed.
End properties.

(** The link of a run leads to the run, not to one of its jobs. *)
Example run_link :
  let job := {|
    id := "r1"; status := completed; repository_full_name := None; requested_labels := None;
    runner_spec_name := None; runner_group := None; runner_name := "n"; sandbox_id := None;
    sandbox_config_source := None; process_pid := None; workflow_job_id := Some 7%Z;
    workflow_run_id := Some 12%Z; workflow_name := Some "CI"; workflow_run_attempt := None;
    head_branch := None; head_sha := None;
    github_job_url := Some "https://github.com/o/r/actions/runs/12/job/7";
    pull_request_number := None; assigned_job_id := None; assigned_job_name := None;
    error := None; failure_stage := None; failure_reason := None; last_error_code := None;
    last_error_message := None; last_error_retryable := None; retry_count := None;
    updated_at := "u"; created_at := "c"; running_at := None; next_retry_at := None;
    completed_at := None; failed_at := None |} in
  workflowRunLink job = CellLink "https://github.com/o/r/actions/runs/12" "12".
Proof. vm_compute. reflexivity. Qed.
