(* ===== verification/Frame.v ===== *)
(** The frame of the pages: the page that asks to sign in
    (src/ui/src/components/auth-pages.tsx), the renewal of the sign-in, the side bar of the administration
    (ui/sidebar.tsx, app-sidebar.tsx, hooks/use-mobile.ts), and the rules of the
    bundler (src/ui/vite.config.ts). *)
From S2P Require Import Prelude.
From S2P Require Import JsString.
From S2P Require Import JsUri.
From S2P Require Import AdminTypes.
From S2P Require Import LoadPolicy.
From S2P Require Import AppRoutes.
From S2P Require Import Navigation.

(** ** The sign-in page *)

Definition line_terminator : list string :=
  [chr 10; chr 13; utf8_3 226 128 168; utf8_3 226 128 169].

(** The match of [signInURLFromReturnTo]: the path ends at the first question mark,
    and the rest takes no line terminator. *)
Definition splitReturnTo (returnTo : string) : option (string * string) :=
  let '(path, query) :=
    match cut "?" returnTo with Some (l, r) => (l, "?" +:+ r) | None => (returnTo, "") end in
  if existsb (fun x => includes x query) line_terminator then None else Some (path, query).

Definition signInURLFromReturnTo (returnTo : string) : string :=
  let parsed := splitReturnTo returnTo in
  signInURL (or_str (fst <$> parsed) "/jobs") (or_str (snd <$> parsed) "").

Definition protectedDestinationLabel (returnTo : string) : string :=
  if startsWith "/github/pulls/" returnTo then "auth.pullRequestJobs"
  else if startsWith "/github/runs/" returnTo then "auth.workflowRunJobs"
  else if startsWith "/github/branches/" returnTo then "auth.branchJobs"
  else if bool_decide (returnTo = "/repositories") then "auth.repositories"
  else if startsWith "/account/" returnTo || startsWith "/organizations/" returnTo
  then "auth.accountSettings"
  else if startsWith "/admin" returnTo then "auth.adminConsole"
  else if negb (bool_decide (returnTo = "/jobs")) && startsWith "/jobs/" returnTo
  then "auth.jobDetails"
  else "auth.jobs".

(** Where [refreshGitHubOAuthLogin] of App.tsx sends the browser: the sign-in comes
    back to the address on screen. *)
Definition refreshGitHubOAuthLogin (here : Address) : string :=
  "/auth/github/login?return_to=" +:+
  encodeURIComponent (or_str (Some (ad_path here +:+ ad_search here)) "/").

(** What the page shows: the destination, and the link unless sign-in is not
    configured. *)
Definition signInPage (t : translate) (oauthEnabled : bool) (returnTo : string) :
    string * string * option string :=
  let destination := t (protectedDestinationLabel returnTo) [] in
  (destination, t "auth.signInDescription" [("destination", toLowerCase destination)],
   if oauthEnabled then Some (signInURLFromReturnTo returnTo) else None).

(** ** The side bar

    [sb_seen] has the values of the last render, which the handlers of the
    buttons and of the keyboard close over; [sb_cookie] is what the browser keeps. *)
Record SideBar := {
  sb_open : bool;
  sb_openMobile : bool;
  sb_isMobile : bool;
  sb_seen : bool * bool;
  sb_cookie : option bool;
}.

Definition MOBILE_BREAKPOINT : Z := 768.

(** [useIsMobile]: no width is known before the first effect. *)
Definition isMobileWidth (innerWidth : option Z) : bool :=
  match innerWidth with Some w => (w <? MOBILE_BREAKPOINT)%Z | None => false end.

(** [SidebarProvider] without properties, as App renders it; the cookie is the
    one of an earlier visit. *)
Definition mountSideBar (cookie : option bool) : SideBar := {|
  sb_open := true; sb_openMobile := false; sb_isMobile := isMobileWidth None;
  sb_seen := (true, false); sb_cookie := cookie |}.

(** [setOpen] with a function of the rendered value; it writes the cookie. *)
Definition setOpen (value : bool -> bool) (s : SideBar) : SideBar :=
  let openState := value s.(sb_seen).1 in {|
  sb_open := openState; sb_openMobile := sb_openMobile s; sb_isMobile := sb_isMobile s;
  sb_seen := sb_seen s; sb_cookie := Some openState |}.

Definition setOpenMobile (value : bool -> bool) (s : SideBar) : SideBar := {|
  sb_open := sb_open s; sb_openMobile := value (sb_openMobile s); sb_isMobile := sb_isMobile s;
  sb_seen := sb_seen s; sb_cookie := sb_cookie s |}.

Definition toggleSidebar (s : SideBar) : SideBar :=
  if (sb_seen s).2 then setOpenMobile negb s else setOpen negb s.

(** A key stroke toggles with the shortcut only. *)
Definition handleKeyDown (key : string) (meta ctrl : bool) (s : SideBar) : SideBar :=
  if bool_decide (key = "b") && (meta || ctrl) then toggleSidebar s else s.

Definition resize (innerWidth : Z) (s : SideBar) : SideBar := {|
  sb_open := sb_open s; sb_openMobile := sb_openMobile s;
  sb_isMobile := isMobileWidth (Some innerWidth); sb_seen := sb_seen s; sb_cookie := sb_cookie s |}.

Definition renderSideBar (s : SideBar) : SideBar := {|
  sb_open := sb_open s; sb_openMobile := sb_openMobile s; sb_isMobile := sb_isMobile s;
  sb_seen := (sb_open s, sb_isMobile s); sb_cookie := sb_cookie s |}.

Inductive side_step : SideBar -> SideBar -> Prop :=
  | st_toggle s : side_step s (toggleSidebar s)
  | st_key key meta ctrl s : side_step s (handleKeyDown key meta ctrl s)
  | st_sheet open s : side_step s (setOpenMobile (fun _ => open) s)
  | st_resize width s : side_step s (resize width s)
  | st_render s : side_step s (renderSideBar s).

Definition sideBarState (s : SideBar) : string :=
  if sb_open s then "expanded" else "collapsed".

(** [hidden] of the tip of a menu button. *)
Definition tooltipHidden (s : SideBar) : bool :=
  negb (bool_decide (sideBarState s = "collapsed")) || sb_isMobile s.

(** [AppSidebar]: the items with the keys of their labels. *)
Definition sidebarItems : list (string * string) := [
  ("overview", "sidebar.overview"); ("accounts", "sidebar.accounts");
  ("runner_requests", "sidebar.runnerRequests"); ("runner_specs", "sidebar.runnerSpecs");
  ("sandbox_service", "sidebar.sandboxService"); ("match", "sidebar.matchTest");
  ("audit", "sidebar.audit"); ("diagnostics", "sidebar.diagnostics") ].

(** The items with the one that is marked. *)
Definition appSidebar (t : translate) (section : AdminSection) : list (string * string * bool) :=
  map (fun '(i, label) => (i, t label [], bool_decide (section_slug section = i))) sidebarItems.

(** ** The bundler *)

Definition fatalRollupWarnings : list string := ["CIRCULAR_CHUNK"; "CYCLIC_CROSS_CHUNK_REEXPORT"].

(** The level at which a message of the bundler is handled. *)
Definition onLog (level : string) (code : option string) : string :=
  match code with
  | Some c => if str_truthy c && bool_decide (c ∈ fatalRollupWarnings) then "error" else level
  | None => level
  end.

Definition manualChunks (module : string) : option string :=
  if includes "node_modules/react/" module || includes "node_modules/react-dom/" module ||
     includes "node_modules/scheduler/" module then Some "vendor-react"
  else if includes "node_modules/@radix-ui" module || includes "node_modules/cmdk" module
  then Some "vendor-radix"
  else if includes "node_modules/lucide-react" module then Some "vendor-icons"
  else None.

(** * Properties *)

(** ** The sign-in link leads back *)

Lemma cut_char (x a : ascii) (s : string) :
  cut (String x "") (String a s) =
  if Ascii.eqb x a then Some ("", s)
  else match cut (String x "") s with Some (l, r) => Some (String a l, r) | None => None end.
Proof. cbn. by destruct (Ascii.eqb x a). Qed.

Lemma cut_free (x : ascii) (path search : string) :
  free x path = true -> (search = "" \/ startsWith (String x "") search = true) ->
  cut (String x "") (path +:+ search) =
  match search with EmptyString => None | String _ r => Some (path, r) end.
Proof.
  intros Hf Hs. induction path as [|a p IH].
  - destruct Hs as [->|Hs]; [done|]. destruct search as [|a r]; [done|].
    rewrite startsWith_cons in Hs. cbn [String.append]. rewrite cut_char.
    by destruct (Ascii.eqb x a).
  - unfold free, not_char in *. cbn [sforall] in Hf. split_bools.
    cbn [String.append]. rewrite cut_char, IH by done.
    destruct (Ascii.eqb x a); [done|]. by destruct search.
Qed.

Lemma splitReturnTo_address (path search : string) :
  free "?" path = true -> (search = "" \/ startsWith "?" search = true) ->
  existsb (fun x => includes x search) line_terminator = false ->
  splitReturnTo (path +:+ search) = Some (path, search).
Proof.
  intros Hf Hs Hl. unfold splitReturnTo.
  rewrite cut_free by done.
  destruct Hs as [->|Hs].
  - cbn. by rewrite sapp_nil_r.
  - destruct search as [|a r]; [done|]. rewrite startsWith_cons in Hs.
    destruct (Ascii.eqb_spec "?" a) as [<-|]; [|done]. change ("?" +:+ r) with (String "?" r).
    by rewrite Hl.
Qed.

(** The link of the sign-in page asks the service to return to the address the
    reader came for, query included. *)
Theorem sign_in_leads_back (status : AuthSessionCheckStatus) (session : AuthSession) (n : Nav)
    (returnTo : string) (Hpage : pageShown status session n = SignInPage returnTo)
    (Hpath : utf8 (nv_path n)) (Hsearch : utf8 (nv_search n))
    (Hlocal : local_target (nv_path n)) (Hfree : free "?" (nv_path n) = true)
    (Hquery : nv_search n = "" \/ startsWith "?" (nv_search n) = true)
    (Hline : existsb (fun x => includes x (nv_search n)) line_terminator = false) :
  exists target,
    signInURLFromReturnTo returnTo = "/auth/github/login?return_to=" +:+ target /\
    decodeURIComponent target = Some (nv_path n +:+ nv_search n).
Proof.
  assert (returnTo = nv_path n +:+ nv_search n) as ->.
  { unfold pageShown in Hpage. repeat case_match; congruence. }
  unfold signInURLFromReturnTo. rewrite splitReturnTo_address by done. cbn [fst snd fmap option_fmap option_map].
  destruct Hlocal as (r & Er & Hr). rewrite Er in *.
  exists (encodeURIComponent (("/" +:+ r) +:+ nv_search n)). split; [|by apply decode_encode, utf8_app].
  unfold signInURL. change (or_str (Some ("/" +:+ r)) "/jobs") with ("/" +:+ r).
  assert (startsWith "//" ("/" +:+ r) = false) as Hs.
  { change ("/" +:+ r) with (String "/" r). change "//" with (String "/" "/").
    by rewrite startsWith_cons. }
  change (startsWith "/" ("/" +:+ r)) with true. rewrite Hs. cbn [negb andb].
  destruct Hquery as [->|Hq]; [done|]. unfold or_str.
  destruct (str_truthy (nv_search n)) eqn:Et; [by rewrite Hq|].
  apply str_truthy_false in Et. by rewrite Et in Hq.
Qed.

Definition example_visit : Nav :=
  mountNav {| ad_path := "/repositories"; ad_search := "?installation_id=7" |}.

Definition signed_out : AuthSession := {|
  authenticated := false; oauth_enabled := true; login := None; role := None; avatar_url := None;
  expires_at := None |}.

Lemma sign_in_leads_back_witness :
  let returnTo := "/repositories?installation_id=7" in
  pageShown ready signed_out example_visit = SignInPage returnTo /\
  exists target,
    signInURLFromReturnTo returnTo = "/auth/github/login?return_to=" +:+ target /\
    decodeURIComponent target = Some returnTo.
Proof.
  split; [vm_compute; reflexivity|].
  apply (sign_in_leads_back ready signed_out example_visit); try by apply utf8b_sound.
  - vm_compute. reflexivity.
  - by exists "repositories".
  - vm_compute. reflexivity.
  - by right.
  - vm_compute. reflexivity.
Defined.

(** The heading of the page looks at the address with its query, so the
    repositories asked for with a query are announced as jobs. *)
Example repositories_announced_as_jobs :
  protectedDestinationLabel "/repositories" = "auth.repositories" /\
  protectedDestinationLabel "/repositories?installation_id=7" = "auth.jobs".
Proof. split; vm_compute; reflexivity. Qed.

(** ** The side bar *)

Inductive side_reachable (cookie : option bool) : SideBar -> Prop :=
  | sr_mount : side_reachable cookie (mountSideBar cookie)
  | sr_step s s' : side_reachable cookie s -> side_step s s' -> side_reachable cookie s'.

(** The cookie is either the one of an earlier visit, and the side bar is still
    open, or what the reader sees now; the side bar on a narrow screen never changes
    it. *)
Theorem cookie_tells_state (cookie : option bool) (s : SideBar) :
  side_reachable cookie s ->
  sb_cookie s = Some (sb_open s) \/ (sb_cookie s = cookie /\ sb_open s = true).
Proof.
  intros H. induction H as [|s s' _ IH Hs]; [by right|].
  assert (forall s, sb_cookie (toggleSidebar s) = Some (sb_open (toggleSidebar s)) \/
    (sb_cookie (toggleSidebar s) = sb_cookie s /\ sb_open (toggleSidebar s) = sb_open s)) as Ht.
  { intros s0. unfold toggleSidebar. destruct (sb_seen s0).2; cbn; auto. }
  destruct Hs as [s|key meta ctrl s|open s|width s|s]; cbn; try done.
  - destruct (Ht s) as [?|[-> ->]]; auto.
  - unfold handleKeyDown. destruct (_ && _); [|done]. destruct (Ht s) as [?|[-> ->]]; auto.
Qed.

Lemma cookie_tells_state_witness :
  let s := toggleSidebar (mountSideBar None) in
  sb_cookie s = Some (sb_open s) \/ (sb_cookie s = None /\ sb_open s = true).
Proof.
  apply (cookie_tells_state None). eapply sr_step; [apply sr_mount|apply st_toggle].
Defined.

(** With a render in between, a second toggle undoes the first. *)
Theorem toggle_undone (s : SideBar) :
  let s := renderSideBar s in
  let s' := renderSideBar (toggleSidebar (renderSideBar (toggleSidebar s))) in
  sb_open s' = sb_open s /\ sb_openMobile s' = sb_openMobile s.
Proof.
  unfold toggleSidebar. destruct s as [o m w [so sw] c]. destruct w; cbn; by rewrite ?negb_involutive.
Qed.

(** The cookie is written and never read: a side bar that was collapsed is open
    again at the next visit. *)
Example cookie_not_read :
  let left_behind := sb_cookie (toggleSidebar (mountSideBar None)) in
  left_behind = Some false /\ sb_open (mountSideBar left_behind) = true.
Proof. by split. Qed.

(** ** The menu of the administration *)

(** The menu has one item for each section, in order; choosing it shows the
    section, and then it alone is marked. *)
Theorem menu_items_open_sections (t : translate) (next : string) :
  (fun x => x.1.1) <$> appSidebar t (setSectionTarget next) = section_slug <$> adminSections /\
  (next ∈ (fun x => x.1) <$> sidebarItems ->
   Forall (fun x => x.2 = true <-> x.1.1 = next) (appSidebar t (setSectionTarget next))).
Proof.
  split; [done|]. intros Hin. assert (section_slug (setSectionTarget next) = next) as E.
  { unfold setSectionTarget. cbn in Hin.
    rewrite !elem_of_cons, elem_of_nil in Hin.
    repeat destruct Hin as [->|Hin]; vm_compute; done. }
  unfold appSidebar. rewrite E. apply Forall_map, Forall_true. intros [i l]. cbn.
  rewrite bool_decide_eq_true. split; congruence.
Qed.

(** ** Renewing the sign-in *)

(** The sign-in comes back to the page the renewal left. *)
Lemma renewed_sign_in_returns (here : Address) :
  plain_address here -> utf8 (ad_path here) -> utf8 (ad_search here) ->
  str_truthy (ad_path here) = true ->
  exists target,
    refreshGitHubOAuthLogin here = "/auth/github/login?return_to=" +:+ target /\
    addressOf <$> decodeURIComponent target = Some here.
Proof.
  intros Hplain Hp Hs Ht.
  exists (encodeURIComponent (ad_path here +:+ ad_search here)). split.
  - unfold refreshGitHubOAuthLogin, or_str. by destruct (ad_path here).
  - rewrite decode_encode by by apply utf8_app. cbn. by rewrite Hplain.
Qed.

(** ** The bundler *)

(** A cycle between chunks stops the build, whatever its level; nothing else
    changes level. *)
Lemma cyclic_chunks_fatal (level : string) (code : option string) :
  onLog level code = "error" <->
  level = "error" \/ exists c, code = Some c /\ c ∈ fatalRollupWarnings.
Proof.
  unfold onLog. destruct code as [c|].
  - case_goal.
    + split_bools. split; [eauto|done].
    + apply andb_false_iff in E. split; [auto|]. intros [?|(c' & [= <-] & Hc)]; [done|].
      destruct E as [E|E]; [|by apply bool_decide_eq_false_1 in E].
      apply str_truthy_false in E. subst. set_solver.
  - naive_solver.
Qed.

(** A package of the React world is not part of React's own chunk. *)
Example react_chunks :
  manualChunks "/app/node_modules/react-dom/client.js" = Some "vendor-react" /\
  manualChunks "/app/node_modules/react-redux/dist/react-redux.mjs" = None.
Proof. split; vm_compute; reflexivity. Qed.
