(* ===== verification/Board.v ===== *)
(** The questions a page asks and the replies it shows.

    Several pages of the console load what they show for a question (the filters
    of the accounts, the region and template of the sandboxes): the reader changes
    the question while replies are on their way.  This file has what such a page
    promises, apart from how it is written: [board_after] is the page a reader
    would want, [answered] says the same of the sequence of events directly, and
    the class [Asker] is the interface that the pages implement. *)
From S2P Require Import Prelude.

(** A question is asked with a token of its own, the page gives its question up,
    or a reply to the question of a token arrives. *)
Inductive Event (T Q R : Type) :=
  | Asked (token : T) (question : Q)
  | Dropped
  | Replied (token : T) (reply : R).
Arguments Asked {T Q R}.
Arguments Dropped {T Q R}.
Arguments Replied {T Q R}.

Section board.
Context {T Q R : Type} `{!EqDecision T}.
Implicit Types (es : list (Event T Q R)) (t : T) (q : Q) (r : R).

(** The question without a reply, or the question and the reply shown. *)
Inductive Board := Blank | Waiting (t : T) (q : Q) | Shown (q : Q) (r : R).

Definition board_step (b : Board) (e : Event T Q R) : Board :=
  match e with
  | Asked t q => Waiting t q
  | Dropped => Blank
  | Replied t r =>
      match b with
      | Waiting t' q => if decide (t = t') then Shown q r else b
      | _ => b
      end
  end.

Definition board_after (es : list (Event T Q R)) : Board := foldl board_step Blank es.

Definition asks (es : list (Event T Q R)) : list T :=
  omap (fun e => match e with Asked t _ => Some t | _ => None end) es.

(** A reply, to whatever question. *)
Definition is_reply (e : Event T Q R) : Prop :=
  match e with Replied _ _ => True | _ => False end.

(** The question asked last, which was not given up, and the first reply to it. *)
Definition answered (es : list (Event T Q R)) (q : Q) (r : R) : Prop :=
  exists before t between after,
    es = before ++ Asked t q :: between ++ Replied t r :: after /\
    Forall is_reply (between ++ after) /\ (forall r', Replied t r' ∉ between).

Definition unanswered (es : list (Event T Q R)) (q : Q) : Prop :=
  exists before t after,
    es = before ++ Asked t q :: after /\
    Forall is_reply after /\ (forall r, Replied t r ∉ after).

Lemma board_after_snoc es e : board_after (es ++ [e]) = board_step (board_after es) e.
Proof. unfold board_after. by rewrite foldl_app. Qed.

Lemma board_after_app es es' : board_after (es ++ es') = foldl board_step (board_after es) es'.
Proof. unfold board_after. by rewrite foldl_app. Qed.

(** Replies to other questions change nothing. *)
Lemma waiting_stays t q es :
  Forall is_reply es -> (forall r, Replied t r ∉ es) ->
  foldl board_step (Waiting t q) es = Waiting t q.
Proof.
  induction es as [|e es IH]; intros Hr Hn; [done|]. apply Forall_cons in Hr as [He Hr].
  destruct e as [| |t' r]; [done..|]. cbn. rewrite decide_False.
  - apply IH; [done|]. intros r' Hin. apply (Hn r'). by right.
  - intros ->. apply (Hn r). by left.
Qed.

Lemma shown_stays q r es : Forall is_reply es -> foldl board_step (Shown q r) es = Shown q r.
Proof. induction 1 as [|e es He _ IH]; [done|]. by destruct e. Qed.

(** The board is exactly what the events say: a reply is shown if and only if it
    is the first one to the question asked last, and nothing is expected unless
    the question asked last has no reply yet. *)
Theorem board_after_spec es :
  (forall q r, board_after es = Shown q r <-> answered es q r) /\
  (forall q, (exists t, board_after es = Waiting t q) <-> unanswered es q).
Proof.
  assert ((forall q r, board_after es = Shown q r -> answered es q r) /\
    (forall t q, board_after es = Waiting t q -> exists before after,
       es = before ++ Asked t q :: after /\ Forall is_reply after /\
       (forall r, Replied t r ∉ after))) as [Hs Hw].
  { induction es as [|e es [IHs IHw]] using rev_ind; [done|]. rewrite board_after_snoc.
    destruct e as [t q| |t r]; cbn.
    - split; [done|]. intros t' q' [= -> ->]. exists es, []. split; [done|]. split; [done|].
      intros r. apply not_elem_of_nil.
    - done.
    - assert (forall q0 r0, answered es q0 r0 -> answered (es ++ [Replied t r]) q0 r0) as Hkeep.
      { intros q0 r0 (before & t0 & between & after & -> & Hr & Hn).
        exists before, t0, between, (after ++ [Replied t r]). split; [by rewrite <- !app_assoc; cbn; rewrite <- !app_assoc|].
        split; [|done]. rewrite app_assoc. apply Forall_app. split; [done|by constructor]. }
      destruct (board_after es) as [|t0 q0|q0 r0]; [done| |].
      + case_decide as Et.
        * subst t0. split; [|done]. intros q' r' [= -> ->].
          destruct (IHw t q' eq_refl) as (before & after & -> & Hr & Hn).
          exists before, t, after, []. rewrite app_nil_r. by rewrite <- app_assoc.
        * split; [done|]. intros t' q' [= -> ->].
          destruct (IHw t' q' eq_refl) as (before & after & -> & Hr & Hn).
          exists before, (after ++ [Replied t r]). rewrite <- app_assoc. split; [done|].
          split; [apply Forall_app; split; [done|by constructor]|].
          intros r' [Hin|Hin%list_elem_of_singleton]%elem_of_app; [by eapply Hn|congruence].
      + split; [|done]. intros q' r' [= -> ->]. apply Hkeep. by apply IHs. }
  split.
  - intros q r. split; [apply Hs|]. intros (before & t & between & after & -> & Hr & Hn).
    apply Forall_app in Hr as [Hb Ha].
    rewrite board_after_app. cbn. rewrite foldl_app, waiting_stays by done. cbn.
    rewrite decide_True by done. by apply shown_stays.
  - intros q. split.
    + intros [t Ht]. destruct (Hw t q Ht) as (before & after & H). by exists before, t, after.
    + intros (before & t & after & -> & Hr & Hn). exists t.
      rewrite board_after_app. cbn. by apply waiting_stays.
Qed.
End board.
Arguments Board : clear implicits.

(** ** The interface

    A page with its runs, each with the events it had; what it shows, and whether
    it says that it is loading.  It follows the board whenever it is [ready]. *)
Class Asker {S T Q R : Type} `{!EqDecision T} (run : list (Event T Q R) -> S -> Prop)
    (ready : S -> Prop) (question : S -> Q) (loading : S -> bool) (shows : S -> R -> Prop) :
    Prop := {
  asker_board es s : run es s -> ready s ->
    match board_after es with
    | Blank => False
    | Waiting _ q => q = question s /\ loading s = true
    | Shown q r => q = question s /\ loading s = false /\ shows s r
    end;
}.

Section clients.
Context {S T Q R : Type} `{!EqDecision T} {run : list (Event T Q R) -> S -> Prop}
  {ready : S -> Prop} {question : S -> Q} {loading : S -> bool} {shows : S -> R -> Prop}
  `{!Asker run ready question loading shows}.

(** A page that implements the interface, and is not loading, shows the first
    reply to the question on it, which is the question that was asked last. *)
Lemma asker_answers (es : list (Event T Q R)) (s : S) :
  run es s -> ready s -> loading s = false ->
  exists r, answered es (question s) r /\ shows s r.
Proof.
  intros Hr Hd Hl. pose proof (asker_board es s Hr Hd) as Hb.
  destruct (board_after es) as [|t q|q r] eqn:E; [done|by destruct Hb; congruence|].
  destruct Hb as (-> & _ & Hs). exists r. split; [by apply board_after_spec|done].
Qed.

(** It is loading exactly while that question has no reply. *)
Lemma asker_loading (es : list (Event T Q R)) (s : S) :
  run es s -> ready s -> (loading s = true <-> unanswered es (question s)).
Proof.
  intros Hr Hd. pose proof (asker_board es s Hr Hd) as Hb.
  rewrite <- (proj2 (board_after_spec es) (question s)).
  destruct (board_after es) as [|t q|q r]; [done| |].
  - destruct Hb as [-> Hl]. split; [by eexists|done].
  - destruct Hb as (-> & Hl & _). rewrite Hl. split; [done|by intros [t' ?]].
Qed.
End clients.
