(* ===== verification/Questions.v ===== *)
(** The accounts page and the sandboxes page implement the interface of Board:
    whatever the reader does and in whatever order replies arrive, what they show
    is the reply to the question asked last. *)
From S2P Require Import Prelude.
From S2P Require Import Board.
From S2P Require Import AdminTypes.
From S2P Require Import Errors.
From S2P Require Import Fetcher.
From S2P Require Import Regions.
From S2P Require Import Accounts.
From S2P Require Import SandboxCatalog.

(** ** The accounts

    A question is the filters of a load, its token the version of the load. *)

Definition AccountsReply : Type := (thrown + option AdminAccountsResponse) * string.

Abbreviation AccountsEvent := (Event nat Filters AccountsReply).

(** The load that a step started. *)
Definition accounts_asked (s s' : Accounts) : list AccountsEvent :=
  if decide (ac_loadVersion s' = ac_loadVersion s) then []
  else match last (ac_loads s') with
       | Some ld => [Asked (ld_version ld) (ld_filters ld)]
       | None => []
       end.

Inductive accounts_run (me : Z) : list AccountsEvent -> Accounts -> Prop :=
  | ar_mount : accounts_run me [Asked 1 (ac_filters initialAccounts)] mountAccounts
  | ar_quiet es s s' :
      accounts_run me es s -> accounts_step true me s s' ->
      ac_loads s `prefix_of` ac_loads s' ->
      accounts_run me (es ++ accounts_asked s s') s'
  | ar_reply es s l ld r result fallback :
      accounts_run me es s -> ac_loads s = l ++ ld :: r -> answer_ok me result fallback ->
      (moves_page ld result = true -> Forall (fun u => is_patching u = false) (ac_updates s)) ->
      let s' := settleLoad ld (l ++ r) result fallback s in
      accounts_run me (es ++ Replied (ld_version ld) (result, fallback) :: accounts_asked s s') s'.

(** The page shows a reply: the accounts, or what went wrong. *)
Definition accounts_show (s : Accounts) (reply : AccountsReply) : Prop :=
  match reply with
  | (inl e, fallback) => ac_error s = error_message e fallback
  | (inr None, _) => ac_error s = "Invalid account list response"
  | (inr (Some data), _) =>
      ac_error s = "" /\ ac_accounts s = resp_accounts data /\ ac_total s = resp_total data /\
      ac_stats s = resp_stats data /\ ac_currentAccountID s = resp_current_account_id data
  end.

(** Two states with the same loads and the same display. *)
Record same_display (s s' : Accounts) : Prop := {
  sd_version : ac_loadVersion s' = ac_loadVersion s;
  sd_filters : ac_filters s' = ac_filters s;
  sd_loading : ac_loading s' = ac_loading s;
  sd_error : ac_error s' = ac_error s;
  sd_accounts : ac_accounts s' = ac_accounts s;
  sd_total : ac_total s' = ac_total s;
  sd_stats : ac_stats s' = ac_stats s;
  sd_current : ac_currentAccountID s' = ac_currentAccountID s;
}.

Lemma same_display_shows (s s' : Accounts) (reply : AccountsReply) :
  same_display s s' -> accounts_show s reply -> accounts_show s' reply.
Proof.
  intros [] H. destruct reply as [[e|[data|]] fb]; cbn in *; [congruence| |congruence].
  destruct H as (? & ? & ? & ? & ?). split_and!; congruence.
Qed.

(** A load was started last: it is the current one. *)
Record starts_load (s s' : Accounts) (ld : AccountsLoad) : Prop := {
  sl_loads : exists loads, ac_loads s' = loads ++ [ld];
  sl_version : ld_version ld = ac_loadVersion s';
  sl_newer : ac_loadVersion s < ac_loadVersion s';
  sl_loading : ac_loading s' = true;
  sl_error : ac_error s' = "";
}.

Lemma load_starts (f : Filters) (s0 s : Accounts) :
  ac_loadVersion s0 <= ac_loadVersion s ->
  starts_load s0 (load f s) {| ld_version := S (ac_loadVersion s); ld_filters := f |}.
Proof. intros H. split; cbn; [by eexists|done|lia|done..]. Qed.

Lemma setFilters_display (q : string) (f : Filters) (s : Accounts) :
  same_display s (setFilters q f s) \/ exists ld, starts_load s (setFilters q f s) ld.
Proof.
  unfold setFilters. case_bool_decide as E; [subst f; by left|]. right. eexists.
  apply load_starts. cbn. lia.
Qed.

(** A settled load is gone from the loads in flight. *)
Lemma settled_not_prefix (l r : list AccountsLoad) (ld : AccountsLoad)
    (result : thrown + option AdminAccountsResponse) (fallback : string) (s : Accounts) :
  ac_loads s = l ++ ld :: r -> wf_page s ->
  ~ ac_loads s `prefix_of` ac_loads (settleLoad ld (l ++ r) result fallback s).
Proof.
  intros E Hs [k Ek]. destruct (settled_loads l r ld s E Hs) as (_ & _ & _ & Hle & _ & Hne).
  assert (exists x, ac_loads (settleLoad ld (l ++ r) result fallback s) = (l ++ r) ++ x /\
    Forall (fun d => ac_loadVersion s < ld_version d) x) as (x & Ex & Hx).
  { unfold settleLoad. destruct (negb _); [exists []; by rewrite app_nil_r|].
    destruct result as [e|[data|]]; try (exists []; by rewrite app_nil_r).
    cbv zeta. case_match; [|exists []; by rewrite app_nil_r].
    unfold setOffset, setFilters. case_bool_decide; [exists []; by rewrite app_nil_r|].
    eexists [_]. split; [done|]. constructor; [cbn; lia|done]. }
  rewrite E in Ek. rewrite Ek, <- !app_assoc in Ex. apply app_inv_head in Ex. cbn in Ex.
  assert (ld ∈ r ++ x) as [Hin|Hin]%elem_of_app by (rewrite <- Ex; by left).
  - rewrite Forall_forall in Hne. apply (Hne ld); [apply elem_of_app; by right|done].
  - rewrite Forall_forall in Hx. specialize (Hx ld Hin). lia.
Qed.

Lemma quiet_display (me : Z) (s s' : Accounts) :
  accounts_step true me s s' -> ac_loads s `prefix_of` ac_loads s' -> wf_page s ->
  same_display s s' \/ exists ld, starts_load s s' ld.
Proof.
  intros Hstep Hpre Hwf. destruct Hstep as [q s Hp|s Hp|s Hp Hcl|r s Hp|n s Hp Hn|s Hp|s Hp|s Hp|
    l ld r result fb s E Ha Hm|a r s Hp Ha|s Hop|s Hop|l u r result fb s E Hv];
    try apply setFilters_display; try (by left).
  - unfold applySearch. case_match; [right; eexists; by apply load_starts|].
    apply setFilters_display.
  - unfold previousPage. case_match; [by left|apply setFilters_display].
  - unfold nextPage. case_match; [by left|apply setFilters_display].
  - unfold refresh. case_match; [by left|]. right; eexists; by apply load_starts.
  - by destruct (settled_not_prefix l r ld result fb s E Hwf).
  - unfold chooseRole. case_match; by left.
  - unfold closeRoleChangeDialog. case_match; by left.
  - unfold updateRole. repeat case_match; by left.
  - destruct u as [p f|v]; [|by left]. destruct result as [e|]; [by left|].
    right. eexists. by apply load_starts.
Qed.

Lemma run_reachable (me : Z) (es : list AccountsEvent) (s : Accounts) :
  accounts_run me es s -> accounts_reachable true me s.
Proof.
  induction 1 as [|es s s' _ IH Hs|es s l ld r result fb _ IH E Ha Hm]; [apply ar_start|..].
  - by eapply ar_next.
  - eapply ar_next; [exact IH|]. by apply as_loaded.
Qed.

Lemma reachable_wf (me : Z) (s : Accounts) :
  accounts_reachable true me s -> wf_update s /\ wf_page s.
Proof.
  induction 1 as [|s s' _ [IHu IHp] Hstep].
  - split; [split; simpl; try done; lia|]. apply load_wf; simpl; [constructor..|lia].
  - split; [by eapply wf_update_step|by eapply wf_page_step].
Qed.

(** Every state of the page has a run. *)
Lemma reachable_run (me : Z) (s : Accounts) :
  accounts_reachable true me s -> exists es, accounts_run me es s.
Proof.
  induction 1 as [|s s' Hr [es IH] Hs]; [eexists; apply ar_mount|].
  assert (accounts_step true me s s') as Hq by done.
  destruct Hs as [q s Hn|s Hn|s Hn Hcl|r s Hn|n s Hn Hin|s Hn|s Hn|s Hn|
    l ld r result fb s E Ha Hm|a r s Hn Ha|s Hop|s Hop|l u r result fb s E Hv];
    [..|eexists; eapply ar_reply; eauto| | | |];
    (eexists; eapply ar_quiet; [exact IH|exact Hq|]);
    unfold applySearch, clearFilters, setRole, setLimit, previousPage, nextPage, setOffset,
      setFilters, refresh, chooseRole, closeRoleChangeDialog, updateRole, settleUpdate, load;
    repeat case_match; cbn; try done; by eexists.
Qed.

(** The board of a run of the page. *)
Definition accounts_board (b : Board nat Filters AccountsReply) (s : Accounts) : Prop :=
  match b with
  | Blank => False
  | Waiting v f => v = ac_loadVersion s /\ f = ac_filters s /\ ac_loading s = true /\ ac_error s = ""
  | Shown f reply => f = ac_filters s /\ ac_loading s = false /\ accounts_show s reply
  end.

Lemma same_display_board (b : Board nat Filters AccountsReply) (s s' : Accounts) :
  same_display s s' -> accounts_board b s -> accounts_board b s'.
Proof.
  intros Hd. pose proof Hd as []. destruct b as [|v f|f reply]; cbn; [done| |].
  - intros (? & ? & ? & ?). split_and!; congruence.
  - intros (? & ? & ?). split_and!; [congruence..|by eapply same_display_shows].
Qed.

Lemma starts_load_board (s s' : Accounts) (ld : AccountsLoad) (b : Board nat Filters AccountsReply) :
  starts_load s s' ld -> wf_page s' ->
  accounts_board (foldl board_step b (accounts_asked s s')) s'.
Proof.
  intros [[loads E] Hv Hn Hl He] [_ _ Hc _ _ _]. unfold accounts_asked.
  rewrite decide_False by lia. rewrite E, last_snoc. cbn. split; [done|]. split; [|done].
  rewrite Forall_forall in Hc. apply Hc; [|done]. rewrite E. apply elem_of_app. right. by left.
Qed.

Lemma same_display_asked (s s' : Accounts) : same_display s s' -> accounts_asked s s' = [].
Proof. intros []. unfold accounts_asked. by rewrite decide_True. Qed.

(** A reply to the load of version [v] that is not the current one. *)
Lemma stale_reply_board (b : Board nat Filters AccountsReply) (s : Accounts) (v : nat)
    (reply : AccountsReply) :
  v <> ac_loadVersion s -> accounts_board b s -> accounts_board (board_step b (Replied v reply)) s.
Proof.
  intros Hv. destruct b as [|v' f|f r]; [done| |done]. cbn. intros (-> & Hf & Hl & He).
  by rewrite decide_False.
Qed.

Lemma reply_display (l r : list AccountsLoad) (ld : AccountsLoad)
    (result : thrown + option AdminAccountsResponse) (fallback : string) (s : Accounts) :
  ac_loads s = l ++ ld :: r -> wf_page s -> ld_version ld = ac_loadVersion s -> ac_error s = "" ->
  let s' := settleLoad ld (l ++ r) result fallback s in
  (ac_filters s' = ac_filters s /\ ac_loading s' = false /\ ac_loadVersion s' = ac_loadVersion s /\
   accounts_show s' (result, fallback)) \/ exists ld', starts_load s s' ld'.
Proof.
  intros E Hwf Hv He. cbv zeta. unfold settleLoad. rewrite bool_decide_eq_true_2 by done. cbn [negb].
  destruct result as [e|[data|]]; [by left| |by left]. cbv zeta.
  destruct ((0 <? resp_total data)%Z && (resp_total data <=? fl_offset (ld_filters ld))%Z) eqn:Em;
    [|by left].
  right. unfold setOffset, setFilters. rewrite bool_decide_eq_false_2; [eexists; by apply load_starts; cbn; lia|].
  intros Ef%(f_equal fl_offset). cbn in Ef.
  destruct (settled_loads l r ld s E Hwf) as (_ & _ & _ & _ & Hf & _).
  rewrite (Hf Hv) in *. apply andb_prop in Em as [Ht%Z.ltb_lt Ho%Z.leb_le]. unfold lastOffset in Ef.
  pose proof (Z.mul_div_le (resp_total data - 1) (fl_limit (ac_filters s)) (wp_limit s Hwf)). lia.
Qed.

Lemma current_load_loading (l r : list AccountsLoad) (ld : AccountsLoad) (s : Accounts) :
  ac_loads s = l ++ ld :: r -> wf_page s -> ld_version ld = ac_loadVersion s ->
  ac_loading s = true.
Proof.
  intros E Hwf Hv. apply (wp_loading s Hwf). rewrite E. apply Exists_app. right. by left.
Qed.

Lemma accounts_run_board (me : Z) (es : list AccountsEvent) (s : Accounts) :
  accounts_run me es s -> accounts_board (board_after es) s.
Proof.
  intros Hr. pose proof Hr as Hr0. induction Hr as [|es s s' Hr IH Hs Hp|es s l ld r result fb Hr IH E Ha Hm s'].
  - done.
  - specialize (IH Hr). destruct (reachable_wf me s (run_reachable me es s Hr)) as [_ Hwf].
    rewrite board_after_app. destruct (quiet_display me s s' Hs Hp Hwf) as [Hd|[ld Hl]].
    + rewrite same_display_asked by done. by apply (same_display_board _ s).
    + eapply starts_load_board; [exact Hl|].
      by apply (reachable_wf me s' (run_reachable me _ s' Hr0)).
  - specialize (IH Hr). destruct (reachable_wf me s (run_reachable me es s Hr)) as [_ Hwf].
    pose proof (proj2 (reachable_wf me s' (run_reachable me _ s' Hr0))) as Hwf'.
    rewrite board_after_app. cbn [foldl]. destruct (decide (ld_version ld = ac_loadVersion s)) as [Ev|Ev].
    + pose proof (current_load_loading l r ld s E Hwf Ev) as Hlo.
      destruct (board_after es) as [|v f|f reply]; [done| |by destruct IH as (_ & ? & _); congruence].
      destruct IH as (-> & -> & _ & He).
      destruct (reply_display l r ld result fb s E Hwf Ev He) as [(Ef & El & Ev' & Hsh)|[ld' Hl]].
      * unfold accounts_asked. rewrite decide_True by exact Ev'. cbn [foldl board_step].
        rewrite decide_True by done. done.
      * by eapply starts_load_board.
    + assert (same_display s s') as Hd.
      { unfold s', settleLoad. by rewrite bool_decide_eq_false_2. }
      rewrite same_display_asked by done.
      apply (same_display_board _ s); [done|]. by apply stale_reply_board.
Qed.

#[export] Instance accounts_asker (me : Z) :
  Asker (accounts_run me) (fun _ => True) ac_filters ac_loading accounts_show.
Proof.
  split. intros es s Hr _. pose proof (accounts_run_board me es s Hr) as Hb.
  destruct (board_after es) as [|v f|f reply]; [done| |done]. cbn in Hb. by destruct Hb as (_ & ? & ? & _).
Qed.

(** C34.  The accounts page refines the board, as long as no refresh that finds
    fewer accounts moves the page while a role update is under way (after that
    the update reloads the page it was made on, as [late_change_shows_other_page]
    of Accounts shows): in every other order of searches, filters, pages,
    refreshes, role updates and replies, each state of the page has a run, and
    after every run the page, unless it is loading, shows the first reply to the
    question asked last, with the filters on the page for its question: the
    accounts, total and statistics of that reply, or its error; and it is loading
    exactly while that question has no reply. *)
Theorem accounts_refine_board (me : Z) (s : Accounts) :
  accounts_reachable true me s ->
  exists es, accounts_run me es s /\
    (ac_loading s = true <-> unanswered es (ac_filters s)) /\
    (ac_loading s = false ->
     exists reply, answered es (ac_filters s) reply /\ accounts_show s reply).
Proof.
  intros Hs. destruct (reachable_run me s Hs) as [es Hr]. exists es. split; [done|]. split.
  - by apply (asker_loading es s Hr).
  - by apply (asker_answers es s Hr).
Qed.

Lemma accounts_refine_board_witness :
  let s := nextPage example_loaded in
  ac_loading s = true /\ exists es, accounts_run 1 es s /\ unanswered es (ac_filters s).
Proof.
  intros s. split; [reflexivity|].
  destruct (accounts_refine_board 1 s) as (es & Hr & Hl & _).
  - eapply ar_next; [apply example_loaded_reachable|]. by apply as_next.
  - exists es. split; [exact Hr|]. by apply Hl.
Defined.
