(* ===== verification/FetchPages.v ===== *)
(** Pages with a load of Fetcher implement the interface of Board.

    [FetchPage] is what such a page has to provide: where its load is, the query
    its controls name, and that each of its steps leaves the load alone, starts it,
    or settles it.  The instances are the two lists of the sandboxes page and the
    scoped list of the templates page (SandboxCatalog). *)
From S2P Require Import Prelude.
From S2P Require Import Board.
From S2P Require Import AdminTypes.
From S2P Require Import Errors.
From S2P Require Import Fetcher.
From S2P Require Import Regions.
From S2P Require Import SandboxCatalog.

Section moves.
Context {Q A : Type}.
Implicit Types f : Fetch Q A.

(** What a step does to a load; a load is started after any number of clean-ups. *)
Definition started (q : Q) (f f' : Fetch Q A) : Prop :=
  exists reset f0, f' = startFetch q reset f0 /\ fe_loads f0 = fe_loads f /\
    (fe_generation f <= fe_generation f0)%nat.

Definition settled_fetch (lists : Q -> A -> Prop) (g : nat) (reply : (thrown + A) * string)
    (f f' : Fetch Q A) : Prop :=
  exists l q r, fe_loads f = l ++ (g, q) :: r /\ answer lists q reply.1 reply.2 /\
    f' = settleFetch g (l ++ r) reply.1 reply.2 f.

(** The page shows a reply: the items, or what went wrong. *)
Definition fetch_shows f (reply : (thrown + A) * string) : Prop :=
  match reply with
  | (inr items, _) => fe_error f = "" /\ fe_items f = items
  | (inl e, fallback) => fe_error f = error_message e fallback
  end.

Lemma settled_generation (lists : Q -> A -> Prop) (g : nat) (reply : (thrown + A) * string) f f' :
  settled_fetch lists g reply f f' -> fe_generation f' = fe_generation f.
Proof.
  intros (l & q & r & _ & _ & ->). unfold settleFetch. case_bool_decide; [|done]. by destruct reply.1.
Qed.

End moves.

(** The query of the page is still the one there was. *)
Definition same_query {S Q : Type} (query : S -> Q) (ready : S -> Prop) (s s' : S) : Prop :=
  ready s' -> ready s /\ query s' = query s.

Class FetchPage {S Q A : Type} (init : S -> Prop) (step : S -> S -> Prop) (get : S -> Fetch Q A)
    (query : S -> Q) (ready : S -> Prop) (lists : Q -> A -> Prop) : Prop := {
  (** The load starts with the page, or later. *)
  fp_init s : init s -> started (query s) (idleFetch (fe_items (get s))) (get s) \/
    ~ ready s /\ fe_loads (get s) = [] /\ fe_generation (get s) = 0%nat;
  (** A load that starts is for the query, which does not change behind a load. *)
  fp_step s s' : step s s' ->
    get s' = get s /\ same_query query ready s s' \/
    started (query s') (get s) (get s') \/
    (exists g reply, settled_fetch lists g reply (get s) (get s')) /\ same_query query ready s s';
}.

Section runs.
Context {S Q A : Type} {init : S -> Prop} {step : S -> S -> Prop} {get : S -> Fetch Q A}
  {query : S -> Q} {ready : S -> Prop} {lists : Q -> A -> Prop}.

Abbreviation FetchEvent := (Event nat Q ((thrown + A) * string)).

Inductive fetch_run : list FetchEvent -> S -> Prop :=
  | fr_idle s : init s -> fe_loads (get s) = [] -> fe_generation (get s) = 0%nat -> fetch_run [] s
  | fr_init s :
      init s -> started (query s) (idleFetch (fe_items (get s))) (get s) ->
      fetch_run [Asked (fe_generation (get s)) (query s)] s
  | fr_keep es s s' : fetch_run es s -> step s s' -> get s' = get s -> fetch_run es s'
  | fr_ask es s s' :
      fetch_run es s -> step s s' -> started (query s') (get s) (get s') ->
      fetch_run (es ++ [Asked (fe_generation (get s')) (query s')]) s'
  | fr_reply es s s' g reply :
      fetch_run es s -> step s s' -> settled_fetch lists g reply (get s) (get s') ->
      fetch_run (es ++ [Replied g reply]) s'.

(** The board of a run. *)
Record fetch_board (b : Board nat Q ((thrown + A) * string)) (s : S) : Prop := {
  fb_loads : wf_loads (get s);
  fb_view :
    match b with
    | Blank => ~ ready s /\ fe_loads (get s) = []
    | Waiting g q =>
        g = fe_generation (get s) /\ (g, q) ∈ fe_loads (get s) /\ fe_loading (get s) = true /\
        fe_error (get s) = "" /\ (ready s -> q = query s)
    | Shown q reply =>
        Forall (fun l => l.1 <> fe_generation (get s)) (fe_loads (get s)) /\
        fe_loading (get s) = false /\ fetch_shows (get s) reply /\ (ready s -> q = query s)
    end;
}.

Lemma started_wf (q : Q) (f f' : Fetch Q A) : wf_loads f -> started q f f' -> wf_loads f'.
Proof.
  intros [Hb Hn] (reset & f0 & -> & El & Hg).
  eapply (wf_fetch_loads (fun _ _ => True)), start_wf. split; rewrite El; [|done].
  eapply Forall_impl; [exact Hb|]. cbn. lia.
Qed.

Lemma started_board (f : Fetch Q A) (s : S) (b : Board nat Q ((thrown + A) * string)) :
  wf_loads f -> started (query s) f (get s) ->
  fetch_board (board_step b (Asked (fe_generation (get s)) (query s))) s.
Proof.
  intros Hf Hs. split; [by eapply started_wf|]. cbn. destruct Hs as (reset & f0 & -> & El & Hg).
  split; [done|]. split; [apply elem_of_app; right; by left|done].
Qed.

(** A reply to another load only takes that load away. *)
Lemma stale_board (b : Board nat Q ((thrown + A) * string)) (g : nat) (q : Q)
    (l r : Datatypes.list (nat * Q)) (reply : (thrown + A) * string) (s s' : S) :
  fetch_board b s -> fe_loads (get s) = l ++ (g, q) :: r -> g <> fe_generation (get s) ->
  get s' = settleFetch g (l ++ r) reply.1 reply.2 (get s) ->
  (ready s' -> ready s /\ query s' = query s) -> fetch_board (board_step b (Replied g reply)) s'.
Proof.
  intros [Hwf Hv] E Hg Ef Hq. assert (wf_loads (get s')) as Hwf' by (rewrite Ef; by eapply settle_loads).
  split; [done|]. rewrite Ef. unfold settleFetch. rewrite bool_decide_eq_false_2 by done.
  destruct b as [|g0 q0|q0 r0]; cbn.
  - destruct Hv as [_ Hv]. rewrite Hv in E. by destruct l.
  - destruct Hv as (-> & Hin & Hlo & He & Hr). rewrite decide_False by done. cbn.
    assert ((fe_generation (get s), q0) ∈ l ++ r) as Hin'.
    { rewrite E in Hin. set_solver. }
    split_and!; try done. intros Hr'. destruct (Hq Hr') as [Hr0 ->]. auto.
  - destruct Hv as (Hno & Hlo & Hsh & Hr). split_and!.
    + rewrite E in Hno. apply Forall_app in Hno as [? [_ ?]%Forall_cons]. by apply Forall_app.
    + done.
    + by destruct r0 as [[e|items] fb].
    + intros Hr'. destruct (Hq Hr') as [Hr0 ->]. auto.
Qed.

(** A reply to the current load is shown. *)
Lemma current_board (b : Board nat Q ((thrown + A) * string)) (q : Q)
    (l r : Datatypes.list (nat * Q)) (reply : (thrown + A) * string) (s s' : S) :
  fetch_board b s -> fe_loads (get s) = l ++ (fe_generation (get s), q) :: r ->
  get s' = settleFetch (fe_generation (get s)) (l ++ r) reply.1 reply.2 (get s) ->
  (ready s' -> ready s /\ query s' = query s) ->
  fetch_board (board_step b (Replied (fe_generation (get s)) reply)) s'.
Proof.
  intros [Hwf Hv] E Ef Hq. assert (wf_loads (get s')) as Hwf' by (rewrite Ef; by eapply settle_loads).
  split; [done|]. destruct b as [|g0 q0|q0 r0]; cbn.
  - destruct Hv as [_ Hv]. rewrite Hv in E. by destruct l.
  - destruct Hv as (-> & _ & Hlo & He & Hr). rewrite decide_True by done.
    rewrite Ef. unfold settleFetch. rewrite bool_decide_eq_true_2 by done.
    assert (Forall (fun x => x.1 <> fe_generation (get s)) (l ++ r)) as Hg.
    { destruct Hwf as [_ Hn]. rewrite E, fmap_app in Hn. cbn in Hn.
      rewrite <- Permutation_middle in Hn. apply NoDup_cons in Hn as [Hn _].
      rewrite <- fmap_app in Hn. apply Forall_forall. intros x Hx Ex. apply Hn. rewrite <- Ex.
      by apply list_elem_of_fmap_2. }
    destruct reply as [[e|items] fb]; cbn; (split_and!; try done;
      intros Hr'; destruct (Hq Hr') as [Hr0 ->]; auto).
  - destruct Hv as (Hno & _). rewrite E in Hno. by apply Forall_app in Hno as [_ [? _]%Forall_cons].
Qed.

Lemma settled_board (b : Board nat Q ((thrown + A) * string)) (g : nat)
    (reply : (thrown + A) * string) (s s' : S) :
  fetch_board b s -> settled_fetch lists g reply (get s) (get s') ->
  (ready s' -> ready s /\ query s' = query s) ->
  fetch_board (board_step b (Replied g reply)) s'.
Proof.
  intros Hb (l & q & r & E & _ & Ef) Hq. destruct (decide (g = fe_generation (get s))) as [->|Hg].
  - by eapply current_board.
  - by eapply stale_board.
Qed.

Context `{Hpage : !FetchPage init step get query ready lists}.

Lemma step_same_query s s' :
  step s s' -> fe_generation (get s') = fe_generation (get s) -> same_query query ready s s'.
Proof.
  intros Hs Hg. destruct (fp_step s s' Hs) as [[_ H]|[(reset & f0 & Ef & _ & Hle)|[_ H]]]; [done| |done].
  rewrite Ef in Hg. cbn in Hg. lia.
Qed.

Lemma kept_board b s s' :
  fetch_board b s -> get s' = get s -> same_query query ready s s' -> fetch_board b s'.
Proof.
  intros [Hwf Hv] E Hq. unfold same_query in Hq. split; rewrite E; [done|].
  destruct b; naive_solver congruence.
Qed.

Lemma fetch_run_board es s : fetch_run es s -> fetch_board (board_after es) s.
Proof.
  induction 1 as [s Hi El Eg|s Hi Hst|es s s' _ IH Hs E|es s s' _ IH Hs Hst|es s s' g reply _ IH Hs Hset].
  - split; [split; rewrite El; constructor|]. cbn. split; [|done].
    destruct (fp_init s Hi) as [(reset & f0 & Ef & _)|(Hn & _)]; [|done]. by rewrite Ef in Eg.
  - apply (started_board (idleFetch (fe_items (get s))) s Blank); [split; constructor|done].
  - eapply kept_board; [exact IH|done|]. apply step_same_query; [done|by rewrite E].
  - rewrite board_after_snoc. eapply started_board; [apply IH|exact Hst].
  - rewrite board_after_snoc. eapply settled_board; [exact IH|exact Hset|].
    apply step_same_query; [done|by eapply settled_generation].
Qed.

(** Every page with such a load implements the interface. *)
#[export] Instance fetch_asker :
  Asker fetch_run ready query (fun s => fe_loading (get s)) (fun s => fetch_shows (get s)).
Proof.
  split. intros es s Hr Hd. destruct (fetch_run_board es s Hr) as [_ Hv].
  destruct (board_after es) as [|g q|q r].
  - by destruct Hv as [Hv _].
  - destruct Hv as (_ & _ & ? & _ & Hq). auto.
  - destruct Hv as (_ & ? & ? & Hq). auto.
Qed.

Inductive page_reachable : S -> Prop :=
  | pr_init s : init s -> page_reachable s
  | pr_step s s' : page_reachable s -> step s s' -> page_reachable s'.

Lemma page_run s : page_reachable s -> exists es, fetch_run es s.
Proof.
  induction 1 as [s Hi|s s' _ [es IH] Hs].
  - destruct (fp_init s Hi) as [Hq|(_ & El & Eg)]; eexists; [by apply fr_init|by apply fr_idle].
  - destruct (fp_step s s' Hs) as [[E _]|[Hq|[(g & reply & Hr) _]]]; eexists;
      [by eapply fr_keep|by eapply fr_ask|by eapply fr_reply].
Qed.

Lemma page_refines s :
  page_reachable s -> ready s ->
  exists es, fetch_run es s /\
    (fe_loading (get s) = true <-> unanswered es (query s)) /\
    (fe_loading (get s) = false ->
     exists reply, answered es (query s) reply /\ fetch_shows (get s) reply).
Proof.
  intros Hs Hd. destruct (page_run s Hs) as [es Hr]. exists es. split; [done|].
  split; [exact (asker_loading es s Hr Hd)|exact (asker_answers es s Hr Hd)].
Qed.
End runs.

(** ** The sandboxes page

    Its two lists are loads of their own; a region has to be chosen. *)
Section sandboxes.
Context (listTemplates : TemplatesQuery -> list SandboxTemplate -> Prop).
Context (listInstances : InstancesQuery -> list SandboxInstance -> Prop).

Definition sandboxes_init (s : Sandboxes) : Prop :=
  exists installation regions, s = mountSandboxes installation regions.

Definition region_chosen (s : Sandboxes) : Prop := sb_region s <> "".

Lemma setControls_installation (region template : string) (s : Sandboxes) :
  sb_installation (setControls region template s) = sb_installation s.
Proof. unfold setControls. by repeat case_match. Qed.

(** The section before its regions are known. *)
Definition unmounted (installation : option Z) : Sandboxes := {|
  sb_installation := installation; sb_regions := []; sb_region := ""; sb_template := "all";
  sb_templates := idleFetch []; sb_instances := idleFetch [] |}.

(** How the two loads and the queries change with the controls. *)
Lemma setControls_moves (region template : string) (s : Sandboxes) :
  (region = "" -> sb_region s = "") ->
  let s' := setControls region template s in
  sb_region s' = region /\
  (sb_templates s' = sb_templates s /\ (region = sb_region s \/ region = "") \/
   started (templatesQuery s') (sb_templates s) (sb_templates s')) /\
  (sb_instances s' = sb_instances s /\
     (region = sb_region s /\ template = sb_template s \/ region = "") \/
   started (instancesQuery s') (sb_instances s) (sb_instances s')).
Proof.
  intros Hr. cbv zeta. unfold setControls. destruct (str_truthy region) eqn:Er.
  - rewrite !andb_true_r. case_bool_decide as E; [subst region|]; cbn.
    + split; [by case_bool_decide|]. split; [left; split; [by case_bool_decide|by left]|].
      case_bool_decide as E'; cbn; [left; split; [done|by left]|right].
      eexists (Some []), _. split; [done|]. rewrite Er. by split; cbn; [|lia].
    + split; [done|]. split; right; (eexists (Some []), _; split; [done|]);
        destruct (str_truthy (sb_region s)); (split; cbn; [done|lia]).
  - apply str_truthy_false in Er as ->. rewrite !andb_false_r, (Hr eq_refl). cbn.
    rewrite !andb_false_r. cbn. split; [done|]. split; left; (split; [done|by right]).
Qed.

Lemma controls_instances (region template : string) (s : Sandboxes) :
  (region = "" -> sb_region s = "") ->
  let s' := setControls region template s in
  sb_instances s' = sb_instances s /\ same_query instancesQuery region_chosen s s' \/
  started (instancesQuery s') (sb_instances s) (sb_instances s').
Proof.
  intros Hr. destruct (setControls_moves region template s Hr) as (Er & _ & [[E H]|H]); [left|by right].
  split; [done|]. intros Hc. unfold region_chosen in *. rewrite Er in Hc.
  destruct H as [[-> ->]|H]; [|done]. split; [done|]. unfold setControls.
  by rewrite (bool_decide_eq_true_2 (sb_region s = sb_region s)),
    (bool_decide_eq_true_2 (sb_template s = sb_template s)).
Qed.

Lemma controls_templates (region template : string) (s : Sandboxes) :
  (region = "" -> sb_region s = "") ->
  let s' := setControls region template s in
  sb_templates s' = sb_templates s /\ same_query templatesQuery region_chosen s s' \/
  started (templatesQuery s') (sb_templates s) (sb_templates s').
Proof.
  intros Hr. destruct (setControls_moves region template s Hr) as (Er & [[E H]|H] & _); [left|by right].
  split; [done|]. intros Hc. unfold region_chosen in *. rewrite Er in Hc.
  destruct H as [->|H]; [|done]. split; [done|]. unfold templatesQuery.
  by rewrite Er, setControls_installation.
Qed.

(** The regions arrive: the controls are set to the first region, or nothing
    happens to the loads. *)
Definition set_known_regions (rs : list SandboxRegion) (s : Sandboxes) : Sandboxes := {|
  sb_installation := sb_installation s; sb_regions := rs; sb_region := sb_region s;
  sb_template := sb_template s; sb_templates := sb_templates s; sb_instances := sb_instances s |}.

Lemma setRegions_controls (rs : list SandboxRegion) (s : Sandboxes) :
  setRegions rs s = set_known_regions rs s \/
  sb_region s = "" /\ exists r, setRegions rs s = setControls r (sb_template s) (set_known_regions rs s).
Proof.
  destruct rs as [|r rs]; [by left|]. unfold setRegions. case_bool_decide; [|by left].
  right. split; [done|]. by exists (region_id r).
Qed.

(** One of the two loads, which the controls move. *)
Section one_load.
Context {Q A : Type} (get : Sandboxes -> Fetch Q A) (query : Sandboxes -> Q).
Hypothesis controls_move : forall region template s,
  (region = "" -> sb_region s = "") ->
  let s' := setControls region template s in
  get s' = get s /\ same_query query region_chosen s s' \/ started (query s') (get s) (get s').
Hypothesis regions_alone : forall rs s,
  get (set_known_regions rs s) = get s /\ query (set_known_regions rs s) = query s.

Lemma regions_move (rs : list SandboxRegion) (s : Sandboxes) :
  let s' := setRegions rs s in
  get s' = get s /\ same_query query region_chosen s s' \/ started (query s') (get s) (get s').
Proof.
  destruct (regions_alone rs s) as [Eg Eq]. cbv zeta.
  destruct (setRegions_controls rs s) as [->|[E [r ->]]].
  - left. unfold same_query. by rewrite Eq.
  - destruct (controls_move r (sb_template s) (set_known_regions rs s)) as [[Ek Hq]|H]; [done|left|right].
    + split; [by rewrite Ek|]. intros Hc. by destruct (Hq Hc).
    + by rewrite <- Eg.
Qed.

Hypothesis mounted_idle : forall installation, exists items,
  get (unmounted installation) = idleFetch items.

Lemma mount_move (s : Sandboxes) :
  sandboxes_init s ->
  started (query s) (idleFetch (fe_items (get s))) (get s) \/
  ~ region_chosen s /\ fe_loads (get s) = [] /\ fe_generation (get s) = 0%nat.
Proof.
  intros (installation & rs & ->). destruct (mounted_idle installation) as [items Ei].
  change (mountSandboxes installation rs) with (setRegions rs (unmounted installation)).
  destruct (regions_move rs (unmounted installation)) as [[E Hq]|(reset & f0 & E & El & Hg)].
  - right. rewrite E, Ei. split; [|done]. intros Hc. by destruct (Hq Hc).
  - left. rewrite Ei in El, Hg. by exists reset, f0.
Qed.

(** The steps of the reader. *)
Lemma reader_moves (s s' : Sandboxes) :
  s' = refreshSandboxes s /\ started (query s) (get s) (get (loadInstances (loadTemplates s))) /\
    query (loadInstances (loadTemplates s)) = query s \/
  (exists rs, s' = setRegions rs s) \/ (exists r, r <> "" /\ s' = pickRegion r s) \/
  (exists t, s' = pickTemplate t s) ->
  get s' = get s /\ same_query query region_chosen s s' \/ started (query s') (get s) (get s').
Proof.
  intros [(-> & Hst & Eq)|[[rs ->]|[(r & Hr & ->)|[t ->]]]].
  - unfold refreshSandboxes. case_match; [by left|right]. by rewrite Eq.
  - apply regions_move.
  - by apply controls_move.
  - unfold pickTemplate. case_match; [by left|]. by apply controls_move.
Qed.
End one_load.

#[export] Instance sandbox_instances_page :
  FetchPage sandboxes_init (sandboxes_step listTemplates listInstances) sb_instances instancesQuery
    region_chosen listInstances.
Proof.
  pose proof (reader_moves sb_instances instancesQuery controls_instances ltac:(done)) as Hm.
  split; [intros s; apply (mount_move _ _ controls_instances); by try eexists|].
  intros s s' Hs. destruct Hs as [rs s|r s Hin Hr|t s Hin Hne|s|l g q r result fb s E Ha|l g q r result fb s E Ha].
  - destruct (Hm s (setRegions rs s)); eauto.
  - destruct (Hm s (pickRegion r s)); eauto 10.
  - destruct (Hm s (pickTemplate t s)); eauto 10.
  - destruct (Hm s (refreshSandboxes s)); [|by auto..]. left. split; [done|]. split; [|done].
    by exists (Some []), (sb_instances s).
  - by left.
  - right; right. split; [|done]. by exists g, (result, fb), l, q, r.
Qed.

#[export] Instance sandbox_templates_page :
  FetchPage sandboxes_init (sandboxes_step listTemplates listInstances) sb_templates templatesQuery
    region_chosen listTemplates.
Proof.
  pose proof (reader_moves sb_templates templatesQuery controls_templates ltac:(done)) as Hm.
  split; [intros s; apply (mount_move _ _ controls_templates); by try eexists|].
  intros s s' Hs. destruct Hs as [rs s|r s Hin Hr|t s Hin Hne|s|l g q r result fb s E Ha|l g q r result fb s E Ha].
  - destruct (Hm s (setRegions rs s)); eauto.
  - destruct (Hm s (pickRegion r s)); eauto 10.
  - destruct (Hm s (pickTemplate t s)); eauto 10.
  - destruct (Hm s (refreshSandboxes s)); [|by auto..]. left. split; [done|]. split; [|done].
    by exists (Some []), (sb_templates s).
  - right; right. split; [|done]. by exists g, (result, fb), l, q, r.
  - by left.
Qed.

(** The runs of one of the lists. *)
Definition sandbox_run {Q A : Type} (get : Sandboxes -> Fetch Q A) (query : Sandboxes -> Q)
    (lists : Q -> A -> Prop) : list (Event nat Q ((thrown + A) * string)) -> Sandboxes -> Prop :=
  fetch_run (init := sandboxes_init) (step := sandboxes_step listTemplates listInstances)
    (get := get) (query := query) (lists := lists).

(** C39.  The sandboxes page refines the board, for its rows and for the choices of its
    filter: once a region is chosen, whatever the order of regions, choices,
    refreshes and replies, each list, unless it is loading, is the first reply to
    the question asked last, and the question is the one on the page. *)
Theorem sandboxes_refine_board (s : Sandboxes) :
  page_reachable (init := sandboxes_init) (step := sandboxes_step listTemplates listInstances) s ->
  region_chosen s ->
  (exists es, sandbox_run sb_instances instancesQuery listInstances es s /\
     (fe_loading (sb_instances s) = true <-> unanswered es (instancesQuery s)) /\
     (fe_loading (sb_instances s) = false ->
      exists reply, answered es (instancesQuery s) reply /\ fetch_shows (sb_instances s) reply)) /\
  (exists es, sandbox_run sb_templates templatesQuery listTemplates es s /\
     (fe_loading (sb_templates s) = true <-> unanswered es (templatesQuery s)) /\
     (fe_loading (sb_templates s) = false ->
      exists reply, answered es (templatesQuery s) reply /\ fetch_shows (sb_templates s) reply)).
Proof.
  intros Hs Hc. split.
  - exact (page_refines (query := instancesQuery) (ready := region_chosen) s Hs Hc).
  - exact (page_refines (query := templatesQuery) (ready := region_chosen) s Hs Hc).
Qed.
End sandboxes.

(** The region changes before the first reply comes, and the reply for it is the
    one on the page. *)
Lemma sandboxes_refine_board_witness :
  fe_items (sb_instances example_sandboxes) = [example_instance "r2"] /\
  exists es, sandbox_run (fun _ _ => True) example_list sb_instances instancesQuery example_list es
      example_sandboxes /\
    exists reply, answered es (instancesQuery example_sandboxes) reply /\
      fetch_shows (sb_instances example_sandboxes) reply.
Proof.
  split; [reflexivity|].
  destruct (sandboxes_refine_board (fun _ _ => True) example_list example_sandboxes)
    as [(es & Hr & _ & Hs) _].
  - eapply pr_step.
    + eapply pr_step.
      * eapply pr_step; [apply pr_init; by exists None, example_regions|].
        apply (ss_region _ _ "r2"); [by right; left|discriminate].
      * eapply (ss_instances _ _ [_] 3 _ [] (inr [example_instance "r2"]) "failed");
          [reflexivity|reflexivity].
    + eapply (ss_instances _ _ [] 1 _ [] (inr [example_instance "r1"]) "failed");
        [reflexivity|reflexivity].
  - discriminate.
  - exists es. split; [exact Hr|]. apply Hs. reflexivity.
Defined.
