(* ===== verification/Controls.v ===== *)
(** The controls of a page.

    A page of the console offers buttons, fields and selections; some are disabled,
    and an open dialog is modal.  The components are modelled as state machines
    whose events take the place of those controls.  This file has what a page
    offers as a value, and the interface ([Page]) by which the machine of a page
    and its rendering are compared: what can be reached by the controls and the
    replies is what the machine reaches, so its invariants are those of the page. *)
From S2P Require Import Prelude.
From stdpp Require Import relations.

Section controls.
Context {S : Type}.

(** A button is clicked, a field gets a text, a selection one of its options;
    each has the label that the reader sees. *)
Inductive Control :=
  | Button (label : string) (disabled : bool) (click : S -> S)
  | Field (label value : string) (disabled : bool) (change : string -> S -> S)
  | Choice (label value : string) (disabled : bool) (options : list (string * (S -> S))).

Definition used (c : Control) (s s' : S) : Prop :=
  match c with
  | Button _ disabled click => disabled = false /\ s' = click s
  | Field _ _ disabled change => disabled = false /\ exists text, s' = change text s
  | Choice _ _ disabled options => disabled = false /\ exists o, o ∈ options /\ s' = o.2 s
  end.

(** The controls of the page, and those of the dialog that is open above it. *)
Record View := { vw_page : list Control; vw_dialog : option (list Control) }.

Definition in_reach (v : View) : list Control := default (vw_page v) (vw_dialog v).

Definition offers (v : View) (s s' : S) : Prop := Exists (fun c => used c s s') (in_reach v).

Lemma offers_button (v : View) (label : string) (click : S -> S) (s : S) :
  Button label false click ∈ in_reach v -> offers v s (click s).
Proof. intros H. apply Exists_exists. by exists (Button label false click). Qed.

Lemma offers_field (v : View) (label value text : string) (change : string -> S -> S) (s : S) :
  Field label value false change ∈ in_reach v -> offers v s (change text s).
Proof.
  intros H. apply Exists_exists. exists (Field label value false change). split; [done|].
  split; [done|]. by exists text.
Qed.

Lemma offers_choice (v : View) (label value : string) (options : list (string * (S -> S)))
    (o : string * (S -> S)) (s : S) :
  Choice label value false options ∈ in_reach v -> o ∈ options -> offers v s (o.2 s).
Proof.
  intros H Ho. apply Exists_exists. exists (Choice label value false options).
  split; [done|]. split; [done|]. by exists o.
Qed.
End controls.
Arguments Control : clear implicits.
Arguments View : clear implicits.

(** ** The interface

    [step] has the events of the machine, [use] the uses of the controls (what a
    view offers, or the views of a page that also shows other data) and [reply]
    the events that are not the reader's.  In the states that satisfy the
    invariant every use of a control is an event or changes nothing, and every
    event is a use of a control, a reply, or changes nothing. *)
Class Page {S : Type} (inv : S -> Prop) (use step reply : S -> S -> Prop) : Prop := {
  page_reply s s' : inv s -> reply s s' -> step s s';
  page_offers s s' : inv s -> use s s' -> s' = s \/ step s s';
  page_step s s' : inv s -> step s s' -> s' = s \/ use s s' \/ reply s s';
  page_inv s s' : inv s -> step s s' -> inv s';
}.

Section page.
Context {S : Type} {inv : S -> Prop} {use step reply : S -> S -> Prop}
  `{!Page inv use step reply}.

(** What the reader and the service do to a page. *)
Definition happens (s s' : S) : Prop := use s s' \/ reply s s'.

Lemma happens_step (s s' : S) : inv s -> happens s s' -> s' = s \/ step s s'.
Proof. intros Hi [H|H]; [by apply page_offers|right; by apply page_reply]. Qed.

(** The page and its machine reach the same states. *)
Theorem page_reaches (start s : S) :
  inv start -> rtc happens start s <-> rtc step start s.
Proof.
  intros Hi. split; intros H.
  - induction H as [|x y z Hxy _ IH]; [apply rtc_refl|].
    destruct (happens_step x y Hi Hxy) as [-> |Hs]; [by apply IH|].
    eapply rtc_l; [exact Hs|]. apply IH. by eapply page_inv.
  - induction H as [|x y z Hxy _ IH]; [apply rtc_refl|].
    specialize (IH (page_inv x y Hi Hxy)).
    destruct (page_step x y Hi Hxy) as [-> |Ho]; [done|]. by eapply rtc_l.
Qed.
End page.

(** Case analysis on the control that was used, for a list of controls. *)
Ltac each_control H :=
  repeat match type of H with
  | Exists _ (_ :: _) => apply Exists_cons in H as [H|H]
  | Exists _ (_ ++ _) => apply Exists_app in H as [H|H]
  | Exists _ [] => by apply Exists_nil in H
  end.
