(* ===== verification/AccountsView.v ===== *)
(** What the accounts page shows and offers: the rendering of [AccountsSection],
    [AccountRoleChangeDialog] and [AccountAvatar] in
    src/ui/src/components/accounts-section.tsx, over the machine of Accounts. *)
From S2P Require Import Prelude.
From S2P Require Import JsString.
From S2P Require Import AdminTypes.
From S2P Require Import Errors.
From S2P Require Import AdminFormat.
From S2P Require Import Accounts.
From S2P Require Import Board.
From S2P Require Import Questions.
From S2P Require Import Controls.
From stdpp Require Import relations.

(** ** The picture of an account *)

(** The state of [AccountAvatar] is the address that failed to load. *)
Record AccountAvatar := { av_letter : string; av_image : option string }.

Definition accountAvatar (identities : option (list AdminOAuthIdentity)) (displayLogin : string)
    (failedAvatarURL : string) : AccountAvatar :=
  let avatarURL := accountAvatarImageURL identities failedAvatarURL in
  {| av_letter := toUpperCase (js_take 1 displayLogin);
     av_image := if str_truthy avatarURL then Some avatarURL else None |}.

(** [onError] of the image. *)
Definition avatarFailed (avatar : AccountAvatar) (failedAvatarURL : string) : string :=
  default failedAvatarURL (av_image avatar).

Section view.
Context (t : translate) (parse : string -> option Z)
  (toLocaleString : Z -> option string -> string) (locale : option string).

(** ** The rows *)

Definition displayLogin (account : AdminAccount) : string :=
  or_str (oauth_login <$> head (oauth_identities account)) ("account-" +:+ pretty (account_id account)).

(** The identities with the title of each. *)
Definition identityBadges (account : AdminAccount) : list (string * string * string) :=
  map (fun identity =>
    (t "admin.identitySubject"
       [("provider", oauth_provider identity); ("subject", oauth_subject identity)],
     oauth_login identity, oauth_provider identity)) (oauth_identities account).

Definition isCurrentRow (s : Accounts) (account : AdminAccount) : bool :=
  bool_decide (account_id account = ac_currentAccountID s).
Definition isSavingRow (s : Accounts) (account : AdminAccount) : bool :=
  bool_decide (ac_savingAccountID s = account_id account).

(** [onValueChange] of the selection in the row of an account. *)
Definition changeRole (account : AdminAccount) (role : AccountRole) (s : Accounts) : Accounts :=
  if bool_decide (role = account_role account) then s
  else with_role (ac_savingAccountID s) ""
         (Some {| pr_account := account; pr_role := role |}) (ac_updates s) (ac_patched s) s.

Definition roleOptions (account : AdminAccount) : list (string * (Accounts -> Accounts)) :=
  [(t "common.admin" [], changeRole account AdminRole);
   (t "common.user" [], changeRole account UserRole)].

Definition roleControl (s : Accounts) (account : AdminAccount) : Control Accounts :=
  Choice (t "admin.roleFor" [("login", displayLogin account)]) (role_name (account_role account))
    (isCurrentRow s account || isSavingRow s account) (roleOptions account).

Inductive RoleIcon := SpinnerIcon | ShieldIcon | KeyIcon.

Record AccountRow := {
  row_login : string; row_you : option string; row_number : string;
  row_identities : list (string * string * string); row_created : string; row_updated : string;
  row_role_title : string; row_icon : RoleIcon;
}.

Definition accountRow (s : Accounts) (account : AdminAccount) : AccountRow := {|
  row_login := "@" +:+ displayLogin account;
  row_you := if isCurrentRow s account then Some (t "admin.you" []) else None;
  row_number := t "admin.accountNumber" [("id", pretty (account_id account))];
  row_identities := identityBadges account;
  row_created := formatTime parse toLocaleString (Some (account_created_at account)) locale;
  row_updated := formatTime parse toLocaleString (Some (account_updated_at account)) locale;
  row_role_title :=
    if isCurrentRow s account then t "admin.cannotChangeOwnRole" []
    else t "admin.changeAccountRole" [];
  row_icon :=
    if isSavingRow s account then SpinnerIcon
    else match account_role account with AdminRole => ShieldIcon | UserRole => KeyIcon end |}.

Definition accountColumns : list string :=
  map (fun key => t key [])
    ["admin.account"; "admin.linkedIdentities"; "common.created"; "common.updated"; "admin.role"].

(** The body of the table: the spinner only while there are no rows. *)
Inductive AccountsBody :=
  | BodyLoading (text : string) | BodyEmpty (title description : string)
  | BodyRows (rows : list AccountRow).

Definition accountsBody (s : Accounts) : AccountsBody :=
  match ac_accounts s with
  | [] => if ac_loading s then BodyLoading (t "admin.loadingAccounts" [])
          else BodyEmpty (t "admin.noAccountsFound" []) (t "admin.noAccountsDescription" [])
  | rows => BodyRows (map (accountRow s) rows)
  end.

(** ** The range and the page *)

Definition resultStart (s : Accounts) : Z :=
  if bool_decide (ac_total s = 0%Z) then 0 else fl_offset (ac_filters s) + 1.
Definition resultEnd (s : Accounts) : Z :=
  Z.min (fl_offset (ac_filters s) + Z.of_nat (List.length (ac_accounts s))) (ac_total s).

Definition resultRange (s : Accounts) : string :=
  if bool_decide (ac_total s = 0%Z) then t "admin.noMatchingAccounts" []
  else t "admin.resultRange" [("start", pretty (resultStart s)); ("end", pretty (resultEnd s));
                              ("total", pretty (ac_total s))].

Definition pageText (s : Accounts) : string :=
  t "admin.pageOf" [("page", pretty (pm_page (pageOf s))); ("pages", pretty (pm_pages (pageOf s)))].

Definition accountCountText (s : Accounts) : string :=
  t "admin.accountCount" [("count", pretty (ac_total s))].

(** The cards above the table, and its title. *)
Definition accountsHeader (s : Accounts) : list Metric * (string * string * string) :=
  (accountMetrics (ac_stats s) t,
   (t "sidebar.accounts" [], t "admin.accountsDescription" [], accountCountText s)).

(** ** The dialog *)

Definition pendingLogin (s : Accounts) : string :=
  or_str (ac_pending s ≫= fun p => oauth_login <$> head (oauth_identities (pr_account p)))
    ("account #" +:+
     match ac_pending s with
     | Some p => if bool_decide (account_id (pr_account p) = 0%Z) then ""
                 else pretty (account_id (pr_account p))
     | None => ""
     end).

Definition roleChangeDescription (s : Accounts) : string :=
  t (if bool_decide (pr_role <$> ac_pending s = Some AdminRole)
     then "admin.roleChangeGrantDescription" else "admin.roleChangeRevokeDescription")
    [("login", pendingLogin s)].

Definition alertOf (message : string) : option string :=
  if str_truthy message then Some message else None.

(** The roles from and to which the account changes. *)
Definition roleChange (s : Accounts) : option (string * string) :=
  (fun p => (role_name (account_role (pr_account p)), role_name (pr_role p))) <$> ac_pending s.

(** The notice of an update that succeeded. *)
Definition roleUpdatedNotice (s : Accounts) (p : PendingRoleChange) : string :=
  t "admin.roleUpdated"
    [("login", pendingLogin s);
     ("role", match pr_role p with AdminRole => t "common.admin" [] | UserRole => t "common.user" [] end)].

Definition savingRole (s : Accounts) : bool := negb (bool_decide (ac_savingAccountID s = 0%Z)).

Record RoleDialog := {
  dg_title : string; dg_description : string; dg_change : string * option (string * string);
  dg_alert : option string; dg_spins : bool;
}.

Definition roleChangeDialog (s : Accounts) : option RoleDialog :=
  (fun _ => {|
     dg_title := t "admin.changeRole" []; dg_description := roleChangeDescription s;
     dg_change := (t "admin.roleChange" [], roleChange s); dg_alert := alertOf (ac_roleError s);
     dg_spins := savingRole s |}) <$> ac_pending s.

(** [closeRoleChangeDialog] of the page, which the buttons and the dialog call. *)
Definition closeDialog (s : Accounts) : Accounts :=
  with_role (ac_savingAccountID s) "" None (ac_updates s) (ac_patched s) s.

Definition confirmRole (s : Accounts) : Accounts :=
  match ac_pending s with
  | Some p =>
      with_role (account_id (pr_account p)) "" (ac_pending s)
        (ac_updates s ++ [Patching p (ac_filters s)])
        (ac_patched s ++ [(account_id (pr_account p), pr_role p)]) s
  | None => s
  end.

(** The dialog is dismissed (the first control, without a label), cancelled or
    confirmed. *)
Definition dialogControls (s : Accounts) : list (Control Accounts) := [
  Button "" (savingRole s) closeDialog;
  Button (t "common.cancel" []) (savingRole s) closeDialog;
  Button (t "admin.confirmRoleChange" []) (savingRole s) confirmRole ].

(** ** The page *)

Definition roleFilterText (role : AccountRoleFilter) : string :=
  match role with None => "all" | Some r => role_name r end.

Definition filterControls (s : Accounts) : list (Control Accounts) :=
  [ Button (t "admin.refreshAccounts" []) (ac_loading s) (fun s => load (ac_filters s) s);
    Field (t "admin.searchAccounts" []) (ac_draftQuery s) false setDraftQuery;
    Button (t "admin.search" []) false applySearch;
    Choice (t "admin.filterByRole" []) (roleFilterText (fl_role (ac_filters s))) false
      [(t "admin.allRoles" [], setRole None); (t "admin.admins" [], setRole (Some AdminRole));
       (t "admin.users" [], setRole (Some UserRole))] ] ++
  (if str_truthy (fl_query (ac_filters s)) || bool_decide (fl_role (ac_filters s) <> None)
   then [Button (t "admin.clear" []) false clearFilters] else []).

(** The page size, of which three are offered, and the two page buttons. *)
Definition pageControls (s : Accounts) : list (Control Accounts) := [
  Choice (t "admin.accountsPerPage" []) (pretty (fl_limit (ac_filters s))) false
    (map (fun n => (t "admin.perPage" [("count", pretty n)], setLimit n)) [10; 20; 50]%Z);
  Button (t "admin.previousAccountPage" []) (negb (pm_canPrevious (pageOf s)) || ac_loading s)
    (fun s => setOffset (Z.max 0 (fl_offset (ac_filters s) - fl_limit (ac_filters s))) s);
  Button (t "admin.nextAccountPage" []) (negb (pm_canNext (pageOf s)) || ac_loading s)
    (fun s => setOffset (fl_offset (ac_filters s) + fl_limit (ac_filters s))%Z s) ].

Definition accountsView (s : Accounts) : View Accounts := {|
  vw_page := filterControls s ++ map (roleControl s) (ac_accounts s) ++ pageControls s;
  vw_dialog := (fun _ => dialogControls s) <$> ac_pending s |}.

(** * Properties *)

(** ** The controls are the events of the machine *)

(** The steps that are not the reader's. *)
Inductive accounts_reply (me : Z) : Accounts -> Accounts -> Prop :=
  | ry_loaded l ld r result fallback s :
      ac_loads s = l ++ ld :: r -> answer_ok me result fallback ->
      (moves_page ld result = true ->
       Forall (fun u => is_patching u = false) (ac_updates s)) ->
      accounts_reply me s (settleLoad ld (l ++ r) result fallback s)
  | ry_updated l u r result fallback s :
      ac_updates s = l ++ u :: r ->
      (forall v, u = AwaitLoad v -> Forall (fun ld => ld_version ld <> v) (ac_loads s)) ->
      accounts_reply me s (settleUpdate u (l ++ r) result fallback s).

Lemma accounts_page_offered (c : Control Accounts) (s s' : Accounts) :
  ac_pending s = None -> c ∈ vw_page (accountsView s) -> used c s s' ->
  offers (accountsView s) s s'.
Proof.
  intros Hp Hc Hu. apply Exists_exists. exists c. split; [|done].
  unfold in_reach, accountsView in *. by rewrite Hp.
Qed.

Lemma accounts_dialog_offered (c : Control Accounts) (s s' : Accounts) :
  ac_pending s <> None -> c ∈ dialogControls s -> used c s s' -> offers (accountsView s) s s'.
Proof.
  intros Hp Hc Hu. apply Exists_exists. exists c. split; [|done].
  unfold in_reach, accountsView. by destruct (ac_pending s).
Qed.

Lemma savingRole_false (s : Accounts) : savingRole s = false <-> ac_savingAccountID s = 0%Z.
Proof. unfold savingRole. by rewrite negb_false_iff, bool_decide_eq_true. Qed.

(** What the reader can do while no dialog is open is an event. *)
Lemma page_use_step (me : Z) (s s' : Accounts) :
  ac_pending s = None -> Exists (fun c => used c s s') (vw_page (accountsView s)) ->
  accounts_step true me s s'.
Proof.
  intros Hp Hc. unfold accountsView, filterControls, pageControls in Hc. cbn [vw_page] in Hc.
  each_control Hc; cbn [used] in Hc.
  - destruct Hc as [Hd ->]. replace (load _ s) with (refresh s) by (unfold refresh; by rewrite Hd).
    by apply as_refresh.
  - destruct Hc as [_ [text ->]]. by apply as_draft.
  - destruct Hc as [_ ->]. by apply as_search.
  - destruct Hc as (_ & o & Ho & ->).
    repeat (apply elem_of_cons in Ho as [-> |Ho]; [by apply as_role|]). by apply elem_of_nil in Ho.
  - destruct (str_truthy _ || _) eqn:E; [|by apply Exists_nil in Hc]. each_control Hc.
    destruct Hc as [_ ->]. apply as_clear; [done|].
    apply orb_prop in E as [E%str_truthy_true|E%bool_decide_eq_true_1]; auto.
  - apply Exists_exists in Hc as (c & (a & -> & Ha)%list_elem_of_fmap & Hd & o & Ho & ->).
    assert (forall r, accounts_step true me s (changeRole a r s)) as Hr.
    { intros r. replace (changeRole a r s) with (chooseRole a r s); [by apply as_choose|].
      unfold chooseRole, changeRole. unfold isCurrentRow, isSavingRow in Hd. by rewrite Hd. }
    repeat (apply elem_of_cons in Ho as [-> |Ho]; [apply Hr|]). by apply elem_of_nil in Ho.
  - destruct Hc as (_ & o & (n & -> & Hn)%list_elem_of_fmap & ->). by apply as_limit.
  - destruct Hc as [Hd ->]. match goal with |- accounts_step _ _ _ ?x =>
      replace x with (previousPage s) by (unfold previousPage; by rewrite Hd) end.
    by apply as_previous.
  - destruct Hc as [Hd ->]. match goal with |- accounts_step _ _ _ ?x =>
      replace x with (nextPage s) by (unfold nextPage; by rewrite Hd) end.
    by apply as_next.
Qed.

Lemma dialog_use_step (me : Z) (s s' : Accounts) :
  ac_pending s <> None -> Exists (fun c => used c s s') (dialogControls s) ->
  accounts_step true me s s'.
Proof.
  intros Hp Hc. unfold dialogControls in Hc. each_control Hc; destruct Hc as [Hd%savingRole_false ->].
  1, 2: replace (closeDialog s) with (closeRoleChangeDialog s)
    by (unfold closeRoleChangeDialog; rewrite bool_decide_eq_false_2; naive_solver);
    by apply as_close.
  replace (confirmRole s) with (updateRole s); [by apply as_confirm|].
  unfold updateRole, confirmRole. by rewrite bool_decide_eq_false_2 by naive_solver.
Qed.

(** An event of the reader is offered, or the control was disabled. *)
Lemma step_offered (me : Z) (s s' : Accounts) :
  accounts_step true me s s' ->
  s' = s \/ offers (accountsView s) s s' \/ accounts_reply me s s'.
Proof.
  intros Hs. destruct Hs as [q s Hp|s Hp|s Hp Hcl|r s Hp|n s Hp Hn|s Hp|s Hp|s Hp|
    l ld r result fb s E Ha Hm|a r s Hp Ha|s Hop|s Hop|l u r result fb s E Hv];
    [| | | | | | | |right; right; apply ry_loaded; auto| | | |by (right; right; apply ry_updated)].
  - right. left. eapply accounts_page_offered; [done|by (right; left)|]. split; [done|by exists q].
  - right. left. eapply accounts_page_offered; [done|by (do 2 right; left)|]. done.
  - right. left. eapply accounts_page_offered; [done| |].
    + unfold accountsView, filterControls. cbn [vw_page]. rewrite (proj2 (orb_true_iff _ _)).
      * do 4 right. by left.
      * destruct Hcl; [left; by apply str_truthy_true|right; by apply bool_decide_eq_true_2].
    + done.
  - right. left. eapply accounts_page_offered; [done|by (do 3 right; left)|]. split; [done|].
    destruct r as [[]|]; [exists (t "admin.admins" [], setRole (Some AdminRole))|
      exists (t "admin.users" [], setRole (Some UserRole))|exists (t "admin.allRoles" [], setRole None)];
      (split; [|done]); set_solver.
  - right. left. eapply accounts_page_offered; [done|apply elem_of_app; right; apply elem_of_app; right; by left|].
    split; [done|]. eexists. split; [by apply list_elem_of_fmap_2|done].
  - unfold previousPage. case_match eqn:E; [by left|]. right. left.
    eapply accounts_page_offered; [done|apply elem_of_app; right; apply elem_of_app; right; by (right; left)|].
    by split.
  - unfold nextPage. case_match eqn:E; [by left|]. right. left.
    eapply accounts_page_offered; [done|apply elem_of_app; right; apply elem_of_app; right; by (do 2 right; left)|].
    by split.
  - unfold refresh. case_match eqn:E; [by left|]. right. left.
    eapply accounts_page_offered; [done|by left|]. by split.
  - unfold chooseRole. case_match eqn:E; [by left|]. right. left.
    apply orb_false_iff in E as [Ed Er].
    eapply accounts_page_offered; [done|apply elem_of_app; right; apply elem_of_app; left; by apply list_elem_of_fmap_2|].
    split; [exact Ed|].
    destruct r; [exists (t "common.admin" [], changeRole a AdminRole)|
      exists (t "common.user" [], changeRole a UserRole)]; (split; [set_solver|]);
      cbn; unfold changeRole; by rewrite Er.
  - unfold closeRoleChangeDialog. case_bool_decide as E; [by left|]. right. left.
    eapply accounts_dialog_offered; [done|by left|]. split; [|done]. apply savingRole_false.
    by destruct (decide (ac_savingAccountID s = 0%Z)).
  - unfold updateRole. destruct (ac_pending s) as [p|] eqn:Ep; [|by left].
    case_bool_decide as E; [by left|]. right. left.
    eapply accounts_dialog_offered; [by rewrite Ep|by (do 2 right; left)|]. split; [|unfold confirmRole; by rewrite Ep].
    apply savingRole_false. by destruct (decide (ac_savingAccountID s = 0%Z)).
Qed.

Definition useAccounts (s s' : Accounts) : Prop := offers (accountsView s) s s'.

#[export] Instance accounts_page (me : Z) :
  Page (fun _ => True) useAccounts (accounts_step true me) (accounts_reply me).
Proof.
  split; [| |by intros s s' _; apply step_offered|done].
  - intros s s' _ [l ld r result fb s1 E Ha Hm|l u r result fb s1 E Hv]; [|by apply as_updated].
    by apply as_loaded.
  - intros s s' _ Ho. unfold useAccounts, offers, in_reach, accountsView in Ho. cbn [vw_page vw_dialog] in Ho.
    right. destruct (ac_pending s) eqn:Ep; [apply dialog_use_step; [by rewrite Ep|done]|].
    by apply page_use_step.
Qed.

Lemma reachable_rtc (me : Z) (s : Accounts) :
  accounts_reachable true me s <-> rtc (accounts_step true me) mountAccounts s.
Proof.
  split.
  - induction 1 as [|s s' _ IH Hs]; [apply rtc_refl|by eapply rtc_r].
  - revert s. apply (rtc_ind_r (accounts_reachable true me)); [apply ar_start|].
    intros s s' _ Hs IH. by eapply ar_next.
Qed.

(** The buttons, fields and selections of the accounts page and of its dialog,
    disabled as they are rendered, together with the replies of the service reach
    exactly the states of the machine [accounts_step]: what is proved of the
    machine is true of the page, and the page can do whatever the machine does. *)
Theorem accounts_controls_exact (me : Z) (s : Accounts) :
  rtc (happens (use := useAccounts) (reply := accounts_reply me)) mountAccounts s <->
  accounts_reachable true me s.
Proof.
  rewrite reachable_rtc. by apply (page_reaches (inv := fun _ => True)).
Qed.

End view.

(** ** The range counts the rows *)

(** A page of accounts as the service answers it: no more than the limit, and all
    there are from the offset on. *)
Definition full_page (f : Filters) (data : AdminAccountsResponse) : Prop :=
  (0 <= resp_total data)%Z /\
  Z.of_nat (List.length (resp_accounts data)) =
    Z.max 0 (Z.min (fl_limit f) (resp_total data - fl_offset f)).

Definition full_replies (es : list AccountsEvent) : Prop :=
  forall f data fallback, answered es f (inr (Some data), fallback) -> full_page f data.

(** Offsets are multiples of the page size, and a page beyond the accounts is
    never kept. *)
Record wf_offset (s : Accounts) : Prop := {
  wo_bounds : (0 <= fl_offset (ac_filters s) /\ 0 < fl_limit (ac_filters s))%Z;
  wo_multiple : (fl_offset (ac_filters s) mod fl_limit (ac_filters s) = 0)%Z;
  wo_shown : forall f, ac_shownFor s = Some f -> ~ (0 < ac_total s <= fl_offset f)%Z;
}.

Lemma keep_offset (s s' : Accounts) :
  ac_filters s' = ac_filters s -> ac_shownFor s' = ac_shownFor s -> ac_total s' = ac_total s ->
  wf_offset s -> wf_offset s'.
Proof. intros E1 E2 E3 []. split; by rewrite ?E1, ?E2, ?E3. Qed.

Lemma setFilters_offset (q : string) (f : Filters) (s : Accounts) :
  (0 <= fl_offset f /\ 0 < fl_limit f)%Z -> (fl_offset f mod fl_limit f = 0)%Z ->
  wf_offset s -> wf_offset (setFilters q f s).
Proof.
  intros Hb Hm []. unfold setFilters. case_bool_decide as E; [subst f; by split|]. by split.
Qed.

(** The limit stays and the offset moves by pages, or to the first or last one. *)
Lemma moved_offset (s : Accounts) (offset : Z) :
  (0 <= offset)%Z -> (offset mod fl_limit (ac_filters s) = 0)%Z -> wf_offset s ->
  wf_offset (setOffset offset s).
Proof. intros Hb Hm Hs. pose proof Hs as [[_ Hl] _ _]. by apply setFilters_offset. Qed.

Lemma first_offset (q q' : string) (role : AccountRoleFilter) (s : Accounts) :
  wf_offset s ->
  wf_offset (setFilters q {| fl_query := q'; fl_role := role; fl_limit := fl_limit (ac_filters s);
                             fl_offset := 0 |} s).
Proof.
  intros Hs. pose proof Hs as [[_ Hl] _ _]. apply setFilters_offset; cbn; [lia| |done].
  by apply Z.mod_0_l; lia.
Qed.

Lemma settleLoad_offset (l r : list AccountsLoad) (ld : AccountsLoad)
    (result : thrown + option AdminAccountsResponse) (fallback : string) (s : Accounts) :
  ac_loads s = l ++ ld :: r -> wf_page s -> wf_offset s ->
  wf_offset (settleLoad ld (l ++ r) result fallback s).
Proof.
  intros E Hp Hs. destruct (settled_loads l r ld s E Hp) as (_ & _ & _ & _ & Hf & _).
  unfold settleLoad. case_bool_decide as Ev; cbn [negb]; [|by apply (keep_offset s)].
  destruct result as [e|[data|]]; [by apply (keep_offset s)| |by apply (keep_offset s)].
  rewrite (Hf Ev). cbv zeta. pose proof Hs as [[Ho Hl] Hm _].
  destruct ((0 <? resp_total data)%Z && _) eqn:Em.
  - apply andb_prop in Em as [Et%Z.ltb_lt _]. unfold lastOffset.
    apply (moved_offset (with_loads (l ++ r) false (ac_error s) s)); cbn.
    + apply Z.mul_nonneg_nonneg; [apply Z.div_pos; lia|lia].
    + apply Z.mod_mul. lia.
    + by apply (keep_offset s).
  - split; cbn; [done..|]. intros f [= <-] [Ht Hle].
    apply andb_false_iff in Em as [Em%Z.ltb_ge|Em%Z.leb_gt]; lia.
Qed.

Lemma wf_offset_step (me : Z) (s s' : Accounts) :
  wf_page s -> wf_offset s -> accounts_step true me s s' -> wf_offset s'.
Proof.
  intros Hp Hs Hstep. pose proof Hs as [[Ho Hl] Hm _].
  destruct Hstep as [q s Hn|s Hn|s Hn Hcl|role s Hn|n s Hn Hi|s Hn|s Hn|s Hn|
    l ld r result fb s E Ha Hc|a role s Hn Ha|s Hop|s Hop|l u r result fb s E Hv].
  - by apply (keep_offset s).
  - unfold applySearch. case_match; [by apply (keep_offset s)|by apply first_offset].
  - by apply first_offset.
  - by apply first_offset.
  - apply setFilters_offset; cbn; [|by apply Z.mod_0_l; set_solver|done]. set_solver by lia.
  - unfold previousPage. case_match; [done|]. apply moved_offset; [lia| |done].
    destruct (Z.max_spec 0 (fl_offset (ac_filters s) - fl_limit (ac_filters s))) as [[_ ->]|[_ ->]].
    + rewrite Zminus_mod, Hm, Z.mod_same by lia. by apply Z.mod_0_l; lia.
    + by apply Z.mod_0_l; lia.
  - unfold nextPage. case_match; [done|]. apply moved_offset; [lia| |done].
    rewrite Z.add_mod, Hm, Z.mod_same by lia. by apply Z.mod_0_l; lia.
  - unfold refresh. case_match; [done|by apply (keep_offset s)].
  - by apply settleLoad_offset.
  - unfold chooseRole. case_match; [done|by apply (keep_offset s)].
  - unfold closeRoleChangeDialog. case_match; [done|by apply (keep_offset s)].
  - unfold updateRole. repeat case_match; try done; by apply (keep_offset s).
  - unfold settleUpdate. repeat case_match; by apply (keep_offset s).
Qed.

Lemma reachable_offset (me : Z) (s : Accounts) : accounts_reachable true me s -> wf_offset s.
Proof.
  induction 1 as [|s s' Hr IH Hs]; [by split|].
  eapply wf_offset_step; [by apply (reachable_wf me)|done|done].
Qed.

Lemma run_replies_ok (me : Z) (es : list AccountsEvent) (s : Accounts) (v : nat)
    (result : thrown + option AdminAccountsResponse) (fallback : string) :
  accounts_run me es s -> Replied v (result, fallback) ∈ es -> answer_ok me result fallback.
Proof.
  assert (forall s s', Replied v (result, fallback) ∉ accounts_asked s s') as Hn.
  { intros s1 s2. unfold accounts_asked. destruct (decide _); [by apply not_elem_of_nil|].
    destruct (last _); [|by apply not_elem_of_nil]. by intros [=]%list_elem_of_singleton. }
  induction 1 as [|es s s' _ IH _ _|es s l ld r result' fb' _ IH E Ha Hm s'].
  - by intros [=]%list_elem_of_singleton.
  - intros [H|H]%elem_of_app; [by apply IH|by apply Hn in H].
  - intros [H|[H|H]%elem_of_cons]%elem_of_app; [by apply IH| |by apply Hn in H]. by simplify_eq.
Qed.

(** A page that rests without an error shows the accounts of an answer to its
    filters. *)
Lemma resting_answer (me : Z) (es : list AccountsEvent) (s : Accounts) :
  accounts_run me es s -> ac_loading s = false -> ac_error s = "" ->
  exists data fallback, answered es (ac_filters s) (inr (Some data), fallback) /\
    ac_accounts s = resp_accounts data /\ ac_total s = resp_total data.
Proof.
  intros Hr Hl He. destruct (asker_answers es s Hr I Hl) as ([[e|[data|]] fb] & Ha & Hsh);
    cbn in Hsh; [| |congruence].
  - exfalso. pose proof Ha as (before & v & between & after & -> & _).
    pose proof (run_replies_ok me _ s v (inl e) fb Hr) as Hok. cbn in Hok. apply Hok; [|congruence].
    rewrite elem_of_app, elem_of_cons, elem_of_app, elem_of_cons. auto.
  - destruct Hsh as (_ & ? & ? & _). by exists data, fb.
Qed.

(** The page of an offset that is a multiple of the page size. *)
Lemma page_of_offset (total limit offset : Z) :
  (0 <= offset < total)%Z -> (0 < limit)%Z -> (offset mod limit = 0)%Z ->
  ((pm_page (accountPageMeta total limit offset) - 1) * limit = offset)%Z.
Proof.
  intros Ho Hl Hm. destruct (accountPageMeta_bounds total limit offset) as (_ & Hp & _).
  revert Hp. unfold accountPageMeta. cbn [pm_page pm_pages].
  rewrite (Z.max_r 0 total), (Z.max_r 1 limit), (Z.max_r 0 offset) by lia. intros Hp.
  pose proof (Z.div_mod offset limit ltac:(lia)) as Hd. rewrite Hm in Hd.
  set (k := (offset / limit)%Z) in *. set (pages := Z.max 1 _) in *.
  rewrite Z.min_r by nia. lia.
Qed.

(** In a run whose replies are full pages, the range under the table counts the
    rows whenever the page rests without an error: it starts after the pages
    before, has as many places as there are rows, and there is a next (previous)
    page exactly when accounts follow (come before) it. *)
Theorem range_counts_rows (me : Z) (es : list AccountsEvent) (s : Accounts) :
  accounts_run me es s -> full_replies es -> ac_loading s = false -> ac_error s = "" ->
  (0 < ac_total s)%Z ->
  (resultEnd s - resultStart s + 1 = Z.of_nat (List.length (ac_accounts s)) /\
   resultStart s = (pm_page (pageOf s) - 1) * fl_limit (ac_filters s) + 1 /\
   1 <= resultStart s <= resultEnd s /\ resultEnd s <= ac_total s)%Z /\
  (pm_canNext (pageOf s) = true <-> (resultEnd s < ac_total s)%Z) /\
  (pm_canPrevious (pageOf s) = true <-> (1 < resultStart s)%Z).
Proof.
  intros Hr Hfull Hl He Ht. pose proof (run_reachable me es s Hr) as Hs.
  destruct (resting_answer me es s Hr Hl He) as (data & fb & Ha & Er & Et).
  destruct (Hfull _ _ _ Ha) as [_ Hn]. rewrite <- Er, <- Et in Hn.
  destruct (reachable_offset me s Hs) as [[Ho Hlim] Hm Hw].
  specialize (Hw _ (wp_shown s (proj2 (reachable_wf me s Hs)) Hl He)).
  assert (fl_offset (ac_filters s) < ac_total s)%Z as Hot by lia.
  pose proof (page_of_offset _ _ _ (conj Ho Hot) Hlim Hm) as Hp.
  unfold resultEnd, resultStart. rewrite bool_decide_eq_false_2 by lia. unfold pageOf in *.
  rewrite Hn. split; [split_and!; lia|].
  destruct (accountPageMeta_bounds (ac_total s) (fl_limit (ac_filters s)) (fl_offset (ac_filters s)))
    as (_ & _ & _ & -> & -> & _).
  split; [lia|]. clear Hn. split; nia.
Qed.
(** ** Examples *)

(** A failed load keeps the rows, but not the page they came from: the rows of
    the first page stand under the range and number of the second. *)
Definition failed_page : Accounts :=
  let s := nextPage example_loaded in
  settleLoad {| ld_version := ac_loadVersion s; ld_filters := ac_filters s |} []
    (inl (ThrownError "offline" None)) "failed" s.

Example range_of_other_rows :
  ac_accounts failed_page = ac_accounts example_loaded /\ resultStart failed_page = 21%Z /\
  pm_page (pageOf failed_page) = 2%Z /\ ac_error failed_page = "offline".
Proof. by vm_compute. Qed.

Lemma example_full_run :
  let data := example_response 2 in
  let ld := {| ld_version := 1; ld_filters := ac_filters initialAccounts |} in
  accounts_run 1 [Asked 1 (ac_filters initialAccounts); Replied 1 (inr (Some data), "failed")]
    (settleLoad ld [] (inr (Some data)) "failed" mountAccounts).
Proof.
  cbv zeta. pose proof (ar_reply 1 [Asked 1 (ac_filters initialAccounts)] mountAccounts []
    {| ld_version := 1; ld_filters := ac_filters initialAccounts |} []
    (inr (Some (example_response 2))) "failed") as H.
  apply H; [apply ar_mount|reflexivity| |done].
  split; [reflexivity|]. apply (bool_decide_unpack _). vm_compute. exact I.
Qed.

Lemma range_counts_rows_witness :
  exists s, ac_total s = 2%Z /\ resultEnd s = 2%Z /\
    (pm_canNext (pageOf s) = true <-> (resultEnd s < ac_total s)%Z).
Proof.
  eexists. split; [|split].
  3: { eapply (range_counts_rows 1 _ _ example_full_run); [|reflexivity..].
       intros f data fb Ha. apply board_after_spec in Ha. vm_compute in Ha. injection Ha as <- <- _.
       split; [discriminate|reflexivity]. }
  - reflexivity.
  - reflexivity.
Defined.

(** An image that failed to load is not asked for again. *)
Example avatar_not_retried :
  let identities := Some [{| identity_id := 1; identity_account_id := 1; oauth_provider := "GitHub";
    oauth_subject := "7"; oauth_login := "octo"; identity_created_at := ""; identity_updated_at := "" |}] in
  let avatar := accountAvatar identities "octo" "" in
  av_letter avatar = "O" /\ av_image avatar = Some "https://github.com/octo.png?size=96" /\
  av_image (accountAvatar identities "octo" (avatarFailed avatar "")) = None.
Proof. by vm_compute. Qed.
