(* ===== verification/SpecsView.v ===== *)
(** What the catalog of runner specs shows and offers: [RunnerSpecsSection] and
    [RunnerSpecDialogForm] in src/ui/src/components/runner-specs-section.tsx, and
    the list of the overview (admin-sections.tsx), over the machine of
    RunnerCatalog. *)
From S2P Require Import Prelude.
From stdpp Require Import relations.
From S2P Require Import JsString.
From S2P Require Import JsUri.
From S2P Require Import AdminTypes.
From S2P Require Import Labels.
From S2P Require Import RunnerCatalog.
From S2P Require Import Controls.

Section view.
Context (t : translate).

(** ** The table *)

Definition managedBadge (managed : bool) : option string :=
  if managed then Some (t "admin.managed" []) else None.

Record SpecRow := {
  sp_name : string; sp_badge : option string; sp_labels : string;
  sp_template : string * string; sp_group : string; sp_limit : string;
}.

Definition specRow (spec : RunnerSpec) : SpecRow :=
  let managed := isManaged (Some spec) in {|
  sp_name := spec_name spec; sp_badge := managedBadge managed;
  sp_labels := join ", " (spec_labels spec);
  sp_template :=
    if managed then (t "admin.defaultTemplate" [], or_str (spec_default_template_name spec) "—")
    else (t "admin.templateID" [], spec_template_id spec);
  sp_group := or_str (spec_runner_group spec) "-";
  sp_limit := pretty (spec_max_concurrency spec) |}.

Definition specColumns : list string :=
  map (fun key => t key [])
    ["common.name"; "common.labels"; "common.template"; "admin.githubGroup"; "admin.limit";
     "common.actions"].

(** The row, its edit button and, unless the spec is managed, its delete button. *)
Definition specControls (spec : RunnerSpec) : list (Control Catalog) :=
  [ Button (spec_name spec) false (loadRunnerSpecIntoForm spec);
    Button (t "admin.editNamedRunnerSpec" [("name", spec_name spec)]) false
      (loadRunnerSpecIntoForm spec) ] ++
  (if isManaged (Some spec) then []
   else [Button (t "common.delete" []) false (deleteRunnerSpec (spec_name spec))]).

(** Refreshing loads the lists of the administration again. *)
Definition sectionControls (loading : bool) : list (Control Catalog) := [
  Button (t "admin.createRunnerSpec" []) false openCreateDialog;
  Button (t "common.refresh" []) loading (fun c => c) ].

(** ** The dialog *)

Definition fieldLabel (managed : bool) (field : SpecField) : string :=
  t match field with
    | NameField => "common.name"
    | LabelsField => "common.labels"
    | RequiredLabelsField => "admin.requiredLabels"
    | TemplateIDField => if managed then "admin.defaultTemplate" else "admin.templateID"
    | RunnerGroupField => "admin.githubRunnerGroup"
    | MaxConcurrencyField => "admin.maxConcurrency"
    | MinIdleField => "admin.minIdle"
    | PriorityField => "admin.priority"
    end [].

Definition fieldPlaceholder (managed : bool) (field : SpecField) : string :=
  match field with
  | NameField => t "admin.runnerSpecNamePlaceholder" []
  | LabelsField => "self-hosted,e2b"
  | RequiredLabelsField => "e2b"
  | TemplateIDField => if managed then "" else t "admin.templateIDPlaceholder" []
  | RunnerGroupField => t "admin.optionalGitHubRunnerGroup" []
  | _ => ""
  end.

(** The text in a field: a managed spec shows the name of its template. *)
Definition fieldValue (c : Catalog) (field : SpecField) : string :=
  match field with
  | TemplateIDField =>
      if isManaged (rc_editing c) then or_str (rc_editing c ≫= spec_default_template_name) ""
      else form_template_id (rc_form c)
  | _ => fieldText field (rc_form c)
  end.

Definition formFields : list SpecField :=
  [NameField; LabelsField; RequiredLabelsField; TemplateIDField; RunnerGroupField;
   MaxConcurrencyField; MinIdleField; PriorityField].

Definition formField (c : Catalog) (field : SpecField) : Control Catalog :=
  Field (fieldLabel (isManaged (rc_editing c)) field) (fieldValue c field)
    (rc_saving c || fieldDisabled (rc_editing c) field)
    (fun text c => with_form (rc_open c) (rc_editing c) (setField field text (rc_form c)) c).

Definition enabledBox (c : Catalog) : Control Catalog :=
  let check b := fun c => with_form (rc_open c) (rc_editing c) (setEnabled b (rc_form c)) c in
  Choice (t "common.enabled" []) (if form_enabled (rc_form c) then "true" else "false") (rc_saving c)
    [("true", check true); ("false", check false)].

(** [onRunnerSpecOpenChange(false)]. *)
Definition closeSpecDialog (c : Catalog) : Catalog := with_form false (rc_editing c) (rc_form c) c.

(** The dialog is dismissed (the first control), cancelled or submitted. *)
Definition formButtons (c : Catalog) : list (Control Catalog) := [
  Button "" (rc_saving c) closeSpecDialog;
  Button (t "common.cancel" []) (rc_saving c) closeSpecDialog;
  Button (if rc_saving c then t "admin.saving" [] else t "admin.saveRunnerSpec" [])
    (rc_saving c) saveRunnerSpec ].

(** The title, the description and the notes of the form: that a spec is managed,
    or how its required labels and its template are checked, with a link. *)
Record SpecDialog := {
  sd_title : string; sd_description : string; sd_managedNote : option (string * string);
  sd_requiredLabelsNote : option string; sd_templateNote : option (string * (string * string));
}.

Definition specDialog (c : Catalog) : SpecDialog :=
  let managed := isManaged (rc_editing c) in {|
  sd_title := match rc_editing c with
              | Some _ => t "admin.editRunnerSpec" []
              | None => t "admin.createRunnerSpec" []
              end;
  sd_description := t "admin.specDialogDescription" [];
  sd_managedNote :=
    if managed then Some (t "admin.managed" [], t "admin.managedSpecDescription" []) else None;
  sd_requiredLabelsNote :=
    if managed then None else Some (t "admin.requiredLabelsDescription" []);
  sd_templateNote :=
    if managed then None
    else Some (t "admin.templateValidationDescription" [],
               (t "admin.configureTemplateValidation" [], "/admin/sandbox_service")) |}.

Definition formControls (c : Catalog) : list (Control Catalog) :=
  map (formField c) formFields ++ enabledBox c :: formButtons c.

Definition specsView (loading : bool) (specs : list RunnerSpec) (c : Catalog) : View Catalog := {|
  vw_page := sectionControls loading ++ mjoin (map specControls specs);
  vw_dialog := if rc_open c then Some (formControls c) else None |}.

(** ** The overview *)

Definition overviewSpec (spec : RunnerSpec) : string * string :=
  (spec_name spec,
   join ", " (spec_labels spec) +:+ " · " +:+
   t "admin.namedTemplate" [("id", spec_template_id spec)]).

Definition overviewView (specs : list RunnerSpec) : View Catalog := {|
  vw_page := map (fun spec => Button (spec_name spec) false (loadRunnerSpecIntoForm spec)) specs;
  vw_dialog := None |}.

(** * Properties *)

(** ** The controls are the events of the machine *)

(** The reader uses the section or the overview, with the specs they list. *)
Definition useCatalog (c c' : Catalog) : Prop :=
  exists loading specs,
    offers (specsView loading specs c) c c' \/ offers (overviewView specs) c c'.

Inductive catalog_reply : Catalog -> Catalog -> Prop :=
  | cy_settle l save r failed c :
      rc_saves c = l ++ save :: r -> catalog_reply c (settleSave save (l ++ r) failed c)
  | cy_deleted l d r failed c :
      rc_deletions c = l ++ d :: r -> catalog_reply c (settleDeletion d (l ++ r) failed c).

Lemma section_use (c c' : Catalog) (loading : bool) (specs : list RunnerSpec) :
  rc_open c = false -> Exists (fun x => used x c c') (vw_page (specsView loading specs c)) ->
  c' = c \/ catalog_step c c'.
Proof.
  intros Ho Hc. cbn [specsView vw_page] in Hc. unfold sectionControls in Hc. each_control Hc.
  - destruct Hc as [_ ->]. right. by apply cs_create.
  - destruct Hc as [_ ->]. by left.
  - apply Exists_exists in Hc as (x & Hx & Hu). right.
    apply list_elem_of_join in Hx as (xs & Hx & (spec & -> & _)%list_elem_of_fmap).
    unfold specControls in Hx. rewrite !elem_of_app, !elem_of_cons in Hx.
    destruct Hx as [[-> |[-> |Hx]]|Hx].
    + destruct Hu as [_ ->]. apply cs_edit.
    + destruct Hu as [_ ->]. apply cs_edit.
    + by apply elem_of_nil in Hx.
    + destruct (isManaged (Some spec)) eqn:Em; [by apply elem_of_nil in Hx|].
      apply list_elem_of_singleton in Hx as ->. destruct Hu as [_ ->]. by apply cs_delete.
Qed.

Lemma dialog_use (c c' : Catalog) :
  rc_open c = true -> Exists (fun x => used x c c') (formControls c) -> catalog_step c c'.
Proof.
  intros Ho Hc. unfold formControls, formButtons in Hc. each_control Hc.
  - apply Exists_exists in Hc as (x & (f & -> & _)%list_elem_of_fmap & Hd & text & ->).
    replace (with_form _ _ _ c) with (editField f text c) by (unfold editField; by rewrite Hd).
    by apply cs_field.
  - destruct Hc as (Hd & o & Hin & ->).
    assert (exists b, o.2 c = editEnabled b c) as [b ->].
    { unfold editEnabled. rewrite Hd. apply elem_of_cons in Hin as [-> |Hin]; [by exists true|].
      apply list_elem_of_singleton in Hin as ->. by exists false. }
    by apply cs_enabled.
  - destruct Hc as [Hd ->].
    replace (closeSpecDialog c) with (changeOpen false c) by (unfold changeOpen; by rewrite Hd).
    by apply cs_close.
  - destruct Hc as [Hd ->].
    replace (closeSpecDialog c) with (changeOpen false c) by (unfold changeOpen; by rewrite Hd).
    by apply cs_close.
  - destruct Hc as [_ ->]. by apply cs_save.
Qed.

Lemma specs_section_offered (specs : list RunnerSpec) (c c' : Catalog) (x : Control Catalog) :
  rc_open c = false -> x ∈ vw_page (specsView false specs c) -> used x c c' -> useCatalog c c'.
Proof.
  intros Ho Hx Hu. exists false, specs. left. apply Exists_exists. exists x. split; [|done].
  unfold in_reach, specsView in *. cbn in *. by rewrite Ho.
Qed.

Lemma specs_dialog_offered (c c' : Catalog) (x : Control Catalog) :
  rc_open c = true -> x ∈ formControls c -> used x c c' -> useCatalog c c'.
Proof.
  intros Ho Hx Hu. exists false, []. left. apply Exists_exists. exists x. split; [|done].
  unfold in_reach, specsView. cbn. by rewrite Ho.
Qed.

Lemma catalog_offered (c c' : Catalog) :
  wf_catalog c -> catalog_step c c' -> c' = c \/ useCatalog c c' \/ catalog_reply c c'.
Proof.
  intros [Hw _] Hs. destruct Hs as [c Ho|spec c|field text c Ho|enabled c Ho|c Ho|c Ho|
    l save r failed c E|spec c Ho Hm|l d r failed c E];
    [| | | | | |by right; right; apply cy_settle| |by right; right; apply cy_deleted].
  - right; left. eapply (specs_section_offered []); [done|by left|done].
  - right; left. exists false, [spec]. right. apply Exists_cons. by left.
  - unfold editField. destruct (_ || _) eqn:Ed; [by left|]. right; left.
    eapply specs_dialog_offered; [done| |].
    + apply elem_of_app. left. apply (list_elem_of_fmap_2 (formField c) formFields field).
      destruct field; set_solver.
    + split; [exact Ed|]. by exists text.
  - unfold editEnabled. destruct (rc_saving c) eqn:Ed; [by left|]. right; left.
    eapply specs_dialog_offered; [done|apply elem_of_app; right; by left|]. split; [done|].
    destruct enabled; eexists (_, _); [split; [by left|done]|split; [right; by left|done]].
  - unfold changeOpen. destruct (rc_saving c) eqn:Ed; [by left|]. right; left.
    eapply specs_dialog_offered; [done|apply elem_of_app; right; right; by left|]. done.
  - unfold saveRunnerSpec. destruct (rc_savingRef c) eqn:Ed; [by left|]. right; left.
    eapply specs_dialog_offered; [done|apply elem_of_app; right; do 3 right; by left|].
    split; [congruence|]. unfold saveRunnerSpec. by rewrite Ed.
  - right; left. eapply (specs_section_offered [spec]); [done|
      cbn [specsView vw_page map mjoin list_join]; unfold specControls; rewrite Hm; do 4 right; by left|done].
Qed.

#[export] Instance catalog_page : Page wf_catalog useCatalog catalog_step catalog_reply.
Proof.
  split.
  - intros c c' _ [l save r failed c1 E|l d r failed c1 E]; [by apply cs_settle|by apply cs_deleted].
  - intros c c' _ (loading & specs & [H|H]).
    + unfold offers, in_reach, specsView in H. cbn [vw_page vw_dialog] in H.
      destruct (rc_open c) eqn:Ho; [right; by apply dialog_use|].
      by apply (section_use c c' loading specs).
    + right. apply Exists_exists in H as (x & (spec & -> & _)%list_elem_of_fmap & _ & ->).
      apply cs_edit.
  - apply catalog_offered.
  - apply wf_catalog_step.
Qed.

(** The section, its dialog and the overview, with whatever specs they list,
    reach with the replies of the service exactly the states of the machine. *)
Theorem catalog_controls_exact (c : Catalog) :
  rtc (happens (use := useCatalog) (reply := catalog_reply)) initialCatalog c <->
  catalog_reachable c.
Proof.
  rewrite (page_reaches (inv := wf_catalog)) by done. split.
  - revert c. apply (rtc_ind_r catalog_reachable); [apply cr_start|].
    intros c c' _ Hs IH. by eapply cr_next.
  - induction 1 as [|c c' _ IH Hs]; [apply rtc_refl|by eapply rtc_r].
Qed.
End view.

(** ** Examples *)

Definition managed_spec : RunnerSpec := {|
  spec_name := "ubuntu-24.04"; spec_labels := ["qiniu"]; spec_required_labels := ["qiniu"];
  spec_template_id := "tpl"; spec_default_template_name := Some "ubuntu-24.04-x64";
  spec_managed_by := Some "qiniu/ci-runner"; spec_catalog_revision := Some 3%Z;
  spec_runner_group := None; spec_max_concurrency := 8; spec_min_idle := 1; spec_priority := 10;
  spec_enabled := true; spec_created_at := ""; spec_updated_at := "" |}.

(** The deletion of a spec compares the form of the render that asked for it: when
    that spec had been opened before, its answer empties the form in which another
    spec is being edited, and what is saved then is a new spec. *)
Example deletion_empties_other_form :
  let opened := changeOpen false (loadRunnerSpecIntoForm example_spec initialCatalog) in
  let editing := loadRunnerSpecIntoForm managed_spec (deleteRunnerSpec "large runner" opened) in
  exists c, catalog_step editing c /\ rc_open c = true /\ rc_editing c = None /\
    rc_form c = emptyRunnerSpecForm.
Proof.
  eexists. split; [by apply (cs_deleted [] (Build_Deletion "large runner" "large runner") [] false)|]. by vm_compute.
Qed.
