(* ===== verification/AdminView.v ===== *)
(** What the sections of the administration show and offer:
    src/ui/src/components/runner-requests-section.tsx over the machine of
    AdminConsole, admin-sections.tsx over that of AdminTools, the badges of
    admin-shared.tsx, and the section that App shows. *)
From S2P Require Import Prelude.
From stdpp Require Import relations.
From S2P Require Import JsString.
From S2P Require Import JsUri.
From S2P Require Import AdminTypes.
From S2P Require Import LoadPolicy.
From S2P Require Import Errors.
From S2P Require Import AdminFormat.
From S2P Require Import AdminConsole.
From S2P Require Import AdminTools.
From S2P Require Import JobView.
From S2P Require Import Controls.

(** ** Badges *)

Inductive BadgeVariant := SuccessBadge | DangerBadge | SecondaryBadge | OutlineBadge | WarningBadge.
Inductive BadgeIcon := PlayIcon | AlertIcon | SquareIcon | LoaderIcon | ClockIcon | CheckIcon.

Definition statusBadgeStyle (s : RunnerDisplayStatus) : BadgeVariant * BadgeIcon :=
  match s with
  | Status running => (SuccessBadge, PlayIcon)
  | Status failed => (DangerBadge, AlertIcon)
  | unmatched => (SecondaryBadge, AlertIcon)
  | Status completed => (OutlineBadge, SquareIcon)
  | Status creating => (WarningBadge, LoaderIcon)
  | Status stopping => (WarningBadge, ClockIcon)
  | Status queued => (SecondaryBadge, CheckIcon)
  end.

Section view.
Context (t : translate) (parse : string -> option Z)
  (toLocaleString : Z -> option string -> string) (locale : option string).

Definition statusBadge (s : RunnerDisplayStatus) : (BadgeVariant * BadgeIcon) * string :=
  (statusBadgeStyle s, runnerStatusLabel t s).

(** ** The runner requests

    The filters of the table are state of App beside the console. *)

Definition RequestsPage : Type := Console * AdminConsole.Filters.

Definition on_console (f : Console -> Console) (p : RequestsPage) : RequestsPage := (f p.1, p.2).
Definition on_filters (f : AdminConsole.Filters -> AdminConsole.Filters) (p : RequestsPage) :
    RequestsPage := (p.1, f p.2).

Definition setStatusFilter (s : option RunnerDisplayStatus) (f : AdminConsole.Filters) :
    AdminConsole.Filters :=
  {| f_status := s; f_repository := f_repository f; f_spec := f_spec f |}.
Definition setRepositoryFilter (r : option string) (f : AdminConsole.Filters) : AdminConsole.Filters :=
  {| f_status := f_status f; f_repository := r; f_spec := f_spec f |}.
Definition setSpecFilter (s : option string) (f : AdminConsole.Filters) : AdminConsole.Filters :=
  {| f_status := f_status f; f_repository := f_repository f; f_spec := s |}.

Definition selectedRequest (c : Console) : option RunnerState :=
  find_first (fun runner => bool_decide (id runner = co_selectedID c)) (co_runners c).

Definition shownRunners (p : RequestsPage) : list RunnerState :=
  filteredRunners p.2 (co_runners p.1).

(** [onRetryRunner] and [onStopRunner]. *)
Definition retryRunner (runner : RunnerState) : RequestsPage -> RequestsPage :=
  on_console (startAction (retryPath (id runner))).
Definition stopRunner (runner : RunnerState) : RequestsPage -> RequestsPage :=
  on_console (startAction (stopPath (id runner))).

(** A row is selected, and offers to retry a failed request and to stop an active
    one. *)
Definition rowControls (runner : RunnerState) : list (Control RequestsPage) :=
  Button (id runner) false (on_console (setSelectedID (id runner))) ::
  (if bool_decide (runnerDisplayStatus runner = Status failed)
   then [Button (t "admin.retry" []) false (retryRunner runner)] else []) ++
  (if bool_decide (status runner ∈ activeStatuses)
   then [Button (t "admin.stop" []) false (stopRunner runner)] else []).

Definition filterStatuses : list RunnerDisplayStatus :=
  [Status queued; Status creating; Status running; Status stopping; Status completed; unmatched;
   Status failed].

(** Create and refresh. *)
Definition headControls (p : RequestsPage) : list (Control RequestsPage) := [
  Button (t "admin.createRunnerRequest" []) (negb (co_hasAccess p.1))
    (on_console (with_create emptyCreateForm true));
  Button (t "common.refresh" []) (co_loading p.1)
    (on_console (fun c => AdminConsole.loadAll (routeOf c) false c)) ].

(** The three selections; [None] stands for "all". *)
Definition filterChoices (p : RequestsPage) : list (Control RequestsPage) := [
  Choice (t "common.status" []) (or_str (runnerStatusLabel t <$> f_status p.2) "all") false
    ((t "admin.allStatuses" [], on_filters (setStatusFilter None)) ::
     map (fun s => (runnerStatusLabel t s, on_filters (setStatusFilter (Some s)))) filterStatuses);
  Choice (t "common.repository" []) (or_str (f_repository p.2) "all") false
    ((t "admin.allRepositories" [], on_filters (setRepositoryFilter None)) ::
     map (fun r => (r, on_filters (setRepositoryFilter (Some r)))) (runnerRepositories (co_runners p.1)));
  Choice (t "common.runnerSpec" []) (or_str (f_spec p.2) "all") false
    ((t "admin.allRunnerSpecs" [], on_filters (setSpecFilter None)) ::
     map (fun s => (s, on_filters (setSpecFilter (Some s))))
       (runnerSpecNames (co_specs p.1) (co_runners p.1))) ].

Definition requestsShown (p : RequestsPage) : string :=
  t "admin.requestsShown"
    [("filtered", pretty (Z.of_nat (List.length (shownRunners p))));
     ("total", pretty (Z.of_nat (List.length (co_runners p.1))))].

Definition requestColumns : list string :=
  map (fun key => t key [])
    ["common.status"; "common.repository"; "common.runnerSpec"; "common.runner"; "common.sandbox";
     "common.github"; "common.updated"] ++ [""].

(** The body of the table: its rows, or that none passes the filters. *)
Definition requestsBody (p : RequestsPage) : string + list RequestRow :=
  match shownRunners p with
  | [] => inl (t "admin.noRequestsFound" [])
  | runners => inr (map (requestRow parse toLocaleString (co_selectedID p.1) locale) runners)
  end.

(** *** The details of the selected request *)

Definition logTabs : list (string * LogName) :=
  map (fun name => (replace_first ".log" "" (logName_string name), name)) logNames.

Definition detailControls (p : RequestsPage) : list (Control RequestsPage) :=
  Button (t "admin.copyRunnerID" []) (bool_decide (selectedRequest p.1 = None)) (fun p => p) ::
  match selectedRequest p.1 with
  | None => []
  | Some selected =>
      (if bool_decide (runnerDisplayStatus selected = Status failed)
       then [Button (t "admin.retryRequest" []) false (retryRunner selected)] else []) ++
      [ Button (t "common.refresh" []) false
          (on_console (AdminConsole.loadLog (id selected) (co_selectedLog p.1)));
        Choice (t "common.logs" []) (logName_string (co_selectedLog p.1)) false
          (map (fun '(label, name) => (label, on_console (setSelectedLog name))) logTabs) ]
  end.

(** The title of the details, then the rows and the log, or a text without a
    selection. *)
Definition detailsShown (p : RequestsPage) :
    string * (string + (list (string * Cell) * string)) :=
  match selectedRequest p.1 with
  | None => (t "admin.selectRequest" [], inl (t "admin.noRequestSelected" []))
  | Some selected =>
      (or_str (Some (runner_name selected)) (t "admin.selectRequest" []),
       inr (requestDetails t parse toLocaleString locale selected,
            runnerLogTextForView t (co_selectedID p.1) (co_logText p.1)))
  end.

(** *** The dialog that creates a request *)

Definition edit_create (f : CreateForm -> CreateForm) (p : RequestsPage) : RequestsPage :=
  on_console (fun c => with_create (f (co_createForm c)) (co_createOpen c) c) p.

Definition setCreateID (v : string) (f : CreateForm) : CreateForm :=
  {| cf_id := v; cf_repository := cf_repository f; cf_spec := cf_spec f; cf_labels := cf_labels f |}.
Definition setCreateRepository (v : string) (f : CreateForm) : CreateForm :=
  {| cf_id := cf_id f; cf_repository := v; cf_spec := cf_spec f; cf_labels := cf_labels f |}.
Definition setCreateRunnerSpec (v : string) (f : CreateForm) : CreateForm :=
  {| cf_id := cf_id f; cf_repository := cf_repository f; cf_spec := v; cf_labels := cf_labels f |}.
Definition setCreateLabels (v : string) (f : CreateForm) : CreateForm :=
  {| cf_id := cf_id f; cf_repository := cf_repository f; cf_spec := cf_spec f; cf_labels := v |}.

Definition closeCreate (p : RequestsPage) : RequestsPage :=
  on_console (fun c => with_create (co_createForm c) false c) p.

(** The browser does not submit the form while the required field is empty. *)
Definition createControls (p : RequestsPage) : list (Control RequestsPage) :=
  let form := co_createForm p.1 in [
  Button "" false closeCreate;
  Field (t "admin.optionalID" []) (cf_id form) false (fun v => edit_create (setCreateID v));
  Field "owner/repo" (cf_repository form) false (fun v => edit_create (setCreateRepository v));
  Field (t "admin.optionalRunnerSpec" []) (cf_spec form) false
    (fun v => edit_create (setCreateRunnerSpec v));
  Field "self-hosted,e2b" (cf_labels form) false (fun v => edit_create (setCreateLabels v));
  Button (t "common.cancel" []) false closeCreate;
  Button (t "admin.createRunnerRequest" [])
    (negb (co_hasAccess p.1) || negb (str_truthy (cf_repository form))) (on_console createRunner) ].

Definition requestsView (p : RequestsPage) : View RequestsPage := {|
  vw_page := headControls p ++ filterChoices p ++ mjoin (map rowControls (shownRunners p)) ++
             detailControls p;
  vw_dialog := if co_createOpen p.1 then Some (createControls p) else None |}.

(** ** The other sections *)

(** The texts of the first card of the overview. *)
Definition overviewRequests (runners : list RunnerState) :
    list (string * string * ((BadgeVariant * BadgeIcon) * string)) + string :=
  match recentRows runners with
  | [] => inr (t "admin.noRunnerRequests" [])
  | rows => inl (map (fun '(title, line, s) => (title, line, statusBadge s)) rows)
  end.

(** The matching test: its controls and its result. *)
Definition matchView (s : Tools) : View Tools := {|
  vw_page := [
    Field "owner/repo" (tl_matchRepository s) false
      (fun v s => with_match v (tl_matchLabels s) (tl_matchResult s) (tl_matches s) s);
    Field "self-hosted,e2b" (tl_matchLabels s) false
      (fun v s => with_match (tl_matchRepository s) v (tl_matchResult s) (tl_matches s) s);
    Button (t "admin.runMatch" []) false runMatchTest ];
  vw_dialog := None |}.

Definition matchResultShown (s : Tools) : list (string * string) + string :=
  match matchDetails (fun key => t key []) s with
  | Some details => inl details
  | None => inr (t "admin.noMatchRun" [])
  end.

Definition auditColumns : list string :=
  map (fun key => t key [])
    ["admin.time"; "admin.actor"; "admin.action"; "admin.resource"; "admin.payload"].

Definition auditRow (e : AuditEvent) : list string := [
  formatTime parse toLocaleString (Some (audit_created_at e)) locale; audit_actor e;
  audit_action e; audit_resource_type e +:+ " · " +:+ audit_resource_id e;
  or_str (audit_payload_json e) "-" ].

Definition auditBody (events : list AuditEvent) : string + list (list string) :=
  match events with
  | [] => inl (t "admin.noAuditEvents" [])
  | _ => inr (map auditRow events)
  end.

Definition pprofShown (d : option DiagnosticsSummary) : list (list string) + string :=
  match d ≫= fun d => head (diag_pprof d) with
  | Some _ => inl (map (fun item => [address item; address_file item; dump_script item])
                     (default [] (diag_pprof <$> d)))
  | None => inr (t "admin.noPprof" [])
  end.

Definition failuresShown (d : option DiagnosticsSummary) : list (string * string) + string :=
  match d ≫= fun d => head (diag_recent_failures d) with
  | Some _ => inl (map (fun failure => (id failure, failureLine failure))
                     (default [] (diag_recent_failures <$> d)))
  | None => inr (t "admin.noRecentFailures" [])
  end.

Record DiagnosticsShown := {
  ds_details : list (string * string);
  ds_pprof : list (list string) + string;
  ds_failures : list (string * string) + string;
  ds_vars : string;
}.

Definition diagnosticsSection (s : Tools) : DiagnosticsShown := {|
  ds_details := diagnosticsDetails (fun key => t key []) s; ds_pprof := pprofShown (tl_diagnostics s);
  ds_failures := failuresShown (tl_diagnostics s); ds_vars := varsShown (fun key => t key []) s |}.

(** ** What App shows

    The metrics stand above the overview and the requests. *)
Inductive AdminContent :=
  | OverviewContent | AccountsContent | RequestsContent | SpecsContent | SandboxContent
  | MatchContent | AuditContent | DiagnosticsContent.

Definition adminContent (section : AdminSection) (c : Console) : option (list Metric) * AdminContent :=
  (match section with
   | overview | runner_requests =>
       Some (runnerMetrics (co_runners c) (List.length (co_specs c)) t)
   | _ => None
   end,
   match section with
   | overview => OverviewContent | accounts => AccountsContent
   | runner_requests => RequestsContent | runner_specs => SpecsContent
   | sandbox_service => SandboxContent | matching => MatchContent
   | audit => AuditContent | diagnostics => DiagnosticsContent
   end).

(** * Properties *)

(** ** The controls of the requests *)

(** The action that a use of the page starts, if any, is for a request of the list
    and one that its status allows. *)
Definition allowed_action (c : Console) (path : string) : Prop :=
  exists runner, runner ∈ co_runners c /\
    (path = retryPath (id runner) /\ runnerDisplayStatus runner = Status failed \/
     path = stopPath (id runner) /\ status runner ∈ activeStatuses).

Record use_ok (fifo : bool) (answers : string -> LogName -> thrown + string -> Prop)
    (p p' : RequestsPage) : Prop := {
  uo_step : p'.1 = p.1 \/ console_step fifo answers p.1 p'.1;
  uo_actions : co_actions p'.1 = co_actions p.1 \/
    exists path, co_actions p'.1 = co_actions p.1 ++ [(path, routeOf p.1)] /\
      allowed_action p.1 path;
}.

Lemma quiet_use (fifo : bool) answers (f : Console -> Console) (p : RequestsPage) :
  console_step fifo answers p.1 (f p.1) -> co_actions (f p.1) = co_actions p.1 ->
  use_ok fifo answers p (on_console f p).
Proof. intros Hs Ha. by split; [right|left]. Qed.

Lemma filter_use (fifo : bool) answers (f : AdminConsole.Filters -> AdminConsole.Filters)
    (p : RequestsPage) : use_ok fifo answers p (on_filters f p).
Proof. by split; left. Qed.

Lemma action_use (fifo : bool) answers (path : string) (p : RequestsPage) :
  allowed_action p.1 path -> console_step fifo answers p.1 (startAction path p.1) ->
  use_ok fifo answers p (on_console (startAction path) p).
Proof. intros Ha Hs. split; [by right|]. right. by exists path. Qed.

Lemma setSelectedID_actions (i : string) (c : Console) :
  co_actions (setSelectedID i c) = co_actions c.
Proof. unfold setSelectedID, logEffect, AdminConsole.loadLog. by repeat case_match. Qed.

Lemma setSelectedLog_actions (name : LogName) (c : Console) :
  co_actions (setSelectedLog name c) = co_actions c.
Proof. unfold setSelectedLog, logEffect, AdminConsole.loadLog. by repeat case_match. Qed.

Lemma loadAll_actions (route : Route) (polling : bool) (c : Console) :
  co_actions (AdminConsole.loadAll route polling c) = co_actions c.
Proof. unfold AdminConsole.loadAll. destruct (_ || _); [done|]. by case_match. Qed.

Lemma createRunner_actions (c : Console) : co_actions (createRunner c) = co_actions c.
Proof. unfold createRunner. by repeat case_match. Qed.

Lemma selectedRequest_found (c : Console) (runner : RunnerState) :
  selectedRequest c = Some runner -> runner ∈ co_runners c /\ id runner = co_selectedID c.
Proof.
  unfold selectedRequest. intros [Hin Hb]%find_first_Some.
  split; [done|]. by apply bool_decide_eq_true_1 in Hb.
Qed.

Lemma retry_use (fifo : bool) answers (runner : RunnerState) (p : RequestsPage) :
  runner ∈ co_runners p.1 -> runnerDisplayStatus runner = Status failed ->
  use_ok fifo answers p (retryRunner runner p).
Proof. intros Hin Hd. apply action_use; [|apply co_retry]. exists runner. auto. Qed.

Lemma row_use (fifo : bool) answers (runner : RunnerState) (p p' : RequestsPage) :
  runner ∈ co_runners p.1 -> Exists (fun x => used x p p') (rowControls runner) ->
  use_ok fifo answers p p'.
Proof.
  intros Hin Hc. unfold rowControls in Hc. each_control Hc.
  - destruct Hc as [_ ->]. apply quiet_use; [apply co_select|apply setSelectedID_actions].
  - case_bool_decide as Hd; each_control Hc. destruct Hc as [_ ->]. by apply retry_use.
  - case_bool_decide as Hd; each_control Hc. destruct Hc as [_ ->].
    apply action_use; [|apply co_stop]. exists runner. auto.
Qed.

Lemma detail_use (fifo : bool) answers (p p' : RequestsPage) :
  Exists (fun x => used x p p') (detailControls p) -> use_ok fifo answers p p'.
Proof.
  intros Hc. unfold detailControls in Hc. each_control Hc.
  - destruct Hc as [_ ->]. by split; left.
  - destruct (selectedRequest p.1) as [runner|] eqn:E; [|by apply Exists_nil in Hc].
    apply selectedRequest_found in E as [Hin Hid]. each_control Hc.
    + case_bool_decide as Hd; each_control Hc. destruct Hc as [_ ->]. by apply retry_use.
    + destruct Hc as [_ ->]. rewrite Hid. apply quiet_use; [apply co_refreshLog|].
      unfold AdminConsole.loadLog. by case_match.
    + destruct Hc as (_ & o & ([label name] & -> & _)%list_elem_of_fmap & ->).
      apply quiet_use; [apply co_selectLog|apply setSelectedLog_actions].
Qed.

Lemma create_use (fifo : bool) answers (p p' : RequestsPage) :
  Exists (fun x => used x p p') (createControls p) -> use_ok fifo answers p p'.
Proof.
  intros Hc. unfold createControls, closeCreate, edit_create in Hc. cbv zeta in Hc.
  each_control Hc; cbn [used] in Hc.
  1, 6: destruct Hc as [_ ->]; apply quiet_use; [apply co_form|done].
  1-4: destruct Hc as (_ & v & ->); apply quiet_use; [apply co_form|done].
  destruct Hc as [_ ->]. apply quiet_use; [apply co_create|apply createRunner_actions].
Qed.

Lemma head_use (fifo : bool) answers (p p' : RequestsPage) :
  Exists (fun x => used x p p') (headControls p ++ filterChoices p) -> use_ok fifo answers p p'.
Proof.
  intros Hc. unfold headControls, filterChoices in Hc. each_control Hc; cbn [used] in Hc.
  - destruct Hc as [_ ->]. apply quiet_use; [apply co_form|done].
  - destruct Hc as [_ ->]. apply quiet_use; [apply co_load|apply loadAll_actions].
  - destruct Hc as (_ & o & [-> |(x & -> & _)%list_elem_of_fmap]%elem_of_cons & ->); apply filter_use.
  - destruct Hc as (_ & o & [-> |(x & -> & _)%list_elem_of_fmap]%elem_of_cons & ->); apply filter_use.
  - destruct Hc as (_ & o & [-> |(x & -> & _)%list_elem_of_fmap]%elem_of_cons & ->); apply filter_use.
Qed.

(** Whatever control of the requests page is used, the console makes a step of its
    machine or stays as it is, and what is retried or stopped is a request of the
    list: a failed one, or an active one. *)
Theorem requests_controls_sound (fifo : bool) answers (p p' : RequestsPage) :
  offers (requestsView p) p p' -> use_ok fifo answers p p'.
Proof.
  intros Hc. unfold offers, in_reach, requestsView in Hc. cbn [vw_page vw_dialog] in Hc.
  destruct (co_createOpen p.1); cbn [default] in Hc; [by apply create_use|].
  rewrite app_assoc in Hc. apply Exists_app in Hc as [Hc|Hc]; [by apply head_use|].
  apply Exists_app in Hc as [Hc|Hc]; [|by apply detail_use].
  apply Exists_exists in Hc as (x & Hx & Hu).
  apply list_elem_of_join in Hx as (xs & Hx & (runner & -> & Hr)%list_elem_of_fmap).
  apply (row_use fifo answers runner).
  - unfold shownRunners, filteredRunners in Hr. by apply list_elem_of_filter in Hr as [_ ?].
  - apply Exists_exists. by exists x.
Qed.

Lemma match_controls_sound (matched : MatchBody -> RunnerSpecMatch -> Prop)
    (summaries : DiagnosticsSummary -> Prop) (s s' : Tools) :
  offers (matchView s) s s' -> tools_step matched summaries s s'.
Proof.
  intros Hc. unfold offers, matchView in Hc. cbn [in_reach vw_page vw_dialog default] in Hc.
  each_control Hc; cbn [used] in Hc.
  - destruct Hc as (_ & v & ->). apply tp_repository.
  - destruct Hc as (_ & v & ->). apply tp_labels.
  - destruct Hc as [_ ->]. apply tp_run.
Qed.
End view.
