(* ===== verification/DefaultView.v ===== *)
(** What the section of the sandbox service default shows and offers: the rendering
    of src/ui/src/components/sandbox-service-default-section.tsx over the machine
    of DefaultSettings. *)
From S2P Require Import Prelude.
From stdpp Require Import relations.
From S2P Require Import JsString.
From S2P Require Import AdminTypes.
From S2P Require Import Errors.
From S2P Require Import AdminFormat.
From S2P Require Import Regions.
From S2P Require Import DefaultSettings.
From S2P Require Import Controls.

Section view.
Context (t : translate) (hostname : string -> option string) (parse : string -> option Z)
  (toLocaleString : Z -> option string -> string) (locale : option string).

Abbreviation text := (fun key => t key []).

(** ** What is shown *)

Inductive StatusTone := ToneSuccess | ToneWarning | ToneOutline.

Definition defaultBadge (f : DefaultForm) : StatusTone * string :=
  match sandboxServiceDefaultStatus (default_enabled (df_config f)) (default_configured (df_config f)) with
  | Enabled => (ToneSuccess, text "admin.sandboxDefaultEnabled")
  | Incomplete => (ToneWarning, text "admin.sandboxDefaultIncomplete")
  | Disabled => (ToneOutline, text "admin.sandboxDefaultDisabled")
  end.

Definition accountKind (type : string) : string :=
  if bool_decide (type = "organization") then text "admin.organization" else text "common.user".

Definition audienceIdentity (a : SandboxAudienceAccount) : SandboxAudienceIdentity :=
  {| ai_account_id := github_account_id a; ai_account_type := account_type a |}.

(** The accounts the candidate field suggests, with the kind of each. *)
Definition suggestions (f : DefaultForm) : list (string * string) :=
  map (fun a => (aud_account_login a, accountKind (account_type a)))
    (availableSandboxAudienceAccounts audienceIdentity
       (default_available_accounts (df_config f)) (map (fun a => audienceIdentity a.2) (default_audiences (df_config f)))).

(** The lines above the selected accounts: how many there are, and a warning when
    there are none. *)
Definition audienceSummaryShown (f : DefaultForm) : string * option string :=
  match default_audiences (df_config f) with
  | [] => (text "admin.noGitHubAccountsSelected", Some (text "admin.matchesNobody"))
  | l => (t "admin.availableSelectedAccounts" [("count", pretty (Z.of_nat (List.length l)))], None)
  end.

Definition audienceRow (a : Z * SandboxAudienceAccount) : string * string :=
  (aud_account_login a.2,
   t "admin.githubAccountID" [("type", accountKind (account_type a.2));
                              ("id", pretty (github_account_id a.2))]).

Definition audienceRows (f : DefaultForm) : list (string * string) + string :=
  match default_audiences (df_config f) with
  | [] => inr (text "admin.noSelectedGitHubAccounts")
  | l => inl (map audienceRow l)
  end.

Definition selectedRegion (f : DefaultForm) : option SandboxRegion :=
  findSandboxRegionByAPIURL (df_regions f) (df_apiURL f).

(** The text of the region field: the region of the endpoint, a saved endpoint of no
    region, or the placeholder. *)
Definition regionShown (f : DefaultForm) : string :=
  match selectedRegion f with
  | Some r => region_label r
  | None => if str_truthy (df_apiURL f) then text "admin.savedEndpoint" else text "admin.selectRegion"
  end.

Definition keyPlaceholder (f : DefaultForm) : string :=
  if default_key_configured (df_config f) then text "admin.apiKeyReplacementPlaceholder"
  else text "admin.apiKeyPlaceholder".

Definition keyNote (f : DefaultForm) : string :=
  if default_key_configured (df_config f) then
    if opt_truthy (default_key_updated_at (df_config f))
    then t "admin.encryptedKeySavedAt"
           [("time", formatTime parse toLocaleString (default_key_updated_at (df_config f)) locale)]
    else text "admin.encryptedKeySaved"
  else text "admin.noGlobalAPIKey".

Definition endpointShown (f : DefaultForm) : string :=
  or_str (Some (df_apiURL f)) (text "admin.noEndpoint").

Definition defaultAlert (f : DefaultForm) : option string :=
  if str_truthy (df_error f) then Some (df_error f) else None.

(** ** What is offered *)

Definition modeName (m : AudienceMode) : string :=
  match m with AudienceAll => "all" | AudienceSelected => "selected" end.

Definition setDraftEnabled (b : bool) (f : DefaultForm) : DefaultForm :=
  with_draft b (df_mode f) (df_candidate f) (df_apiURL f) (df_apiKey f) "" f.
Definition setDraftMode (m : AudienceMode) (f : DefaultForm) : DefaultForm :=
  with_draft (df_enabled f) m (df_candidate f) (df_apiURL f) (df_apiKey f) "" f.
Definition setCandidateLogin (v : string) (f : DefaultForm) : DefaultForm :=
  with_draft (df_enabled f) (df_mode f) v (df_apiURL f) (df_apiKey f) (df_error f) f.
Definition setAPIKey (v : string) (f : DefaultForm) : DefaultForm :=
  with_draft (df_enabled f) (df_mode f) (df_candidate f) (df_apiURL f) v (df_error f) f.

(** The refresh button, the switch and the two modes. *)
Definition topControls (f : DefaultForm) : list (Control DefaultForm) := [
  Button (text "common.refresh") (busy f) load;
  Choice (text "admin.enableFallback") (if df_enabled f then "on" else "off") (busy f)
    [("on", setDraftEnabled true); ("off", setDraftEnabled false)];
  Choice (text "admin.sandboxDefaultAvailability") (modeName (df_mode f)) (busy f)
    [(text "admin.allAccounts", setDraftMode AudienceAll);
     (text "admin.selectedAccounts", setDraftMode AudienceSelected)] ].

(** The accounts, of the mode that selects them: a field, in which Enter adds the
    account as the button does, and the button that removes each. *)
Definition selectedControls (f : DefaultForm) : list (Control DefaultForm) :=
  [ Field (text "admin.githubAccount") (df_candidate f) (busy f) setCandidateLogin;
    Button "Enter" (busy f) addAudience;
    Button (text "admin.addGitHubAccount")
      (busy f || negb (str_truthy (normalizeSandboxAudienceLogin (df_candidate f)))) addAudience ] ++
  map (fun a => Button (t "admin.removeNamedAccount" [("login", aud_account_login a.2)]) (busy f)
                  (removeAudience a.1)) (default_audiences (df_config f)).

Definition audienceControls (f : DefaultForm) : list (Control DefaultForm) :=
  match df_mode f with AudienceAll => [] | AudienceSelected => selectedControls f end.

Definition bottomControls (f : DefaultForm) : list (Control DefaultForm) :=
  [ Choice (text "common.region") (default "" (region_id <$> selectedRegion f)) (busy f)
      (map (fun r => (region_label r, pickRegion (region_id r))) (df_regions f));
    Field (text "common.apiKey") (df_apiKey f) (busy f) setAPIKey ] ++
  (if default_key_configured (df_config f)
   then [Button (text "admin.removeAPIKey") (busy f) (with_removeOpen true)] else []) ++
  [ Button (if df_saving f then text "admin.saving" else text "admin.saveSettings")
      (negb (saveEnabled f)) (saveDefault text) ].

(** The dialog is dismissed (the first control), cancelled or confirmed. *)
Definition removeControls (f : DefaultForm) : list (Control DefaultForm) := [
  Button "" (df_deleting f) (with_removeOpen false);
  Button (text "common.cancel") (df_deleting f) (with_removeOpen false);
  Button (if df_deleting f then text "admin.removing" else text "admin.removeAPIKey")
    (df_deleting f) removeAPIKey ].

Definition defaultView (f : DefaultForm) : View DefaultForm := {|
  vw_page := topControls f ++ audienceControls f ++ bottomControls f;
  vw_dialog := if df_removeOpen f then Some (removeControls f) else None |}.

(** * Properties *)

(** What the reader does not do: the catalog of regions arrives, a request is
    answered. *)
Inductive default_reply : DefaultForm -> DefaultForm -> Prop :=
  | dy_regions regions f : default_reply f (setRegions regions f)
  | dy_settle l w r result f :
      df_waiting f = l ++ w :: r ->
      default_reply f (settleDefault text hostname w (l ++ r) result f).

Definition useDefault (f f' : DefaultForm) : Prop := offers (defaultView f) f f'.

Lemma active_iff (f : DefaultForm) :
  df_removeOpen f = false -> busy f = false -> formActive f = true.
Proof. unfold formActive. by intros -> ->. Qed.

Lemma top_use (f f' : DefaultForm) :
  df_removeOpen f = false -> Exists (fun x => used x f f') (topControls f) ->
  default_event text f f'.
Proof.
  intros Ho Hc. unfold topControls in Hc. each_control Hc; cbn [used] in Hc.
  - destruct Hc as [Hb ->]. by apply dv_refresh, active_iff.
  - destruct Hc as (Hb & o & [-> |[-> |[]%elem_of_nil]%elem_of_cons]%elem_of_cons & ->);
      by apply dv_enabled, active_iff.
  - destruct Hc as (Hb & o & [-> |[-> |[]%elem_of_nil]%elem_of_cons]%elem_of_cons & ->);
      by apply dv_mode, active_iff.
Qed.

Lemma audience_use (f f' : DefaultForm) :
  df_removeOpen f = false -> Exists (fun x => used x f f') (audienceControls f) ->
  default_event text f f'.
Proof.
  intros Ho Hc. unfold audienceControls in Hc.
  destruct (df_mode f) eqn:Em; [by apply Exists_nil in Hc|]. unfold selectedControls in Hc.
  each_control Hc; cbn [used] in Hc.
  - destruct Hc as (Hb & v & ->). by apply dv_candidate; [apply active_iff|].
  - destruct Hc as [Hb ->]. by apply dv_add; [apply active_iff|].
  - destruct Hc as [[Hb _]%orb_false_iff ->]. by apply dv_add; [apply active_iff|].
  - apply Exists_exists in Hc as (x & ([id a] & -> & Hin)%list_elem_of_fmap & Hb & ->).
    by apply (dv_remove _ id a); [apply active_iff|..].
Qed.

Lemma bottom_use (f f' : DefaultForm) :
  df_removeOpen f = false -> Exists (fun x => used x f f') (bottomControls f) ->
  default_event text f f'.
Proof.
  intros Ho Hc. unfold bottomControls in Hc. each_control Hc; cbn [used] in Hc.
  - destruct Hc as (Hb & o & (r & -> & Hr)%list_elem_of_fmap & ->).
    apply dv_region; [by apply active_iff|]. by apply list_elem_of_fmap_2.
  - destruct Hc as (Hb & v & ->). by apply dv_key, active_iff.
  - destruct (default_key_configured (df_config f)) eqn:Ek; each_control Hc.
    destruct Hc as [Hb ->]. by apply dv_open; [apply active_iff|].
  - destruct Hc as [Hs%negb_false_iff ->]. apply dv_save; [|done]. apply active_iff; [done|].
    unfold saveEnabled in Hs. by apply negb_true_iff, orb_false_iff in Hs as [? _].
Qed.

Lemma remove_use (f f' : DefaultForm) :
  df_removeOpen f = true -> Exists (fun x => used x f f') (removeControls f) ->
  default_event text f f'.
Proof.
  intros Ho Hc. unfold removeControls in Hc. each_control Hc; destruct Hc as [Hd ->].
  - by apply dv_close.
  - by apply dv_close.
  - by apply dv_confirm.
Qed.

Lemma active_free (f : DefaultForm) :
  formActive f = true -> df_removeOpen f = false /\ busy f = false.
Proof. unfold formActive. by intros [?%negb_true_iff ?%negb_true_iff]%andb_prop. Qed.

(** A control of the page is used, of the top, the accounts or the bottom. *)
Lemma default_page_offered (f f' : DefaultForm) :
  df_removeOpen f = false ->
  Exists (fun x => used x f f') (topControls f) \/
  Exists (fun x => used x f f') (audienceControls f) \/
  Exists (fun x => used x f f') (bottomControls f) ->
  useDefault f f'.
Proof.
  intros Ho H. unfold useDefault, offers, in_reach, defaultView. cbn [vw_page vw_dialog].
  rewrite Ho. cbn [default]. by rewrite !Exists_app.
Qed.

Lemma top_offered (f f' : DefaultForm) :
  formActive f = true -> Exists (fun x => used x f f') (topControls f) -> useDefault f f'.
Proof. intros [Ho _]%active_free H. apply default_page_offered; auto. Qed.

Lemma audience_offered (f f' : DefaultForm) :
  formActive f = true -> df_mode f = AudienceSelected ->
  Exists (fun x => used x f f') (selectedControls f) -> useDefault f f'.
Proof.
  intros [Ho _]%active_free Hm H. apply default_page_offered; [done|]. right; left.
  unfold audienceControls. by rewrite Hm.
Qed.

Lemma bottom_offered (f f' : DefaultForm) :
  formActive f = true -> Exists (fun x => used x f f') (bottomControls f) -> useDefault f f'.
Proof. intros [Ho _]%active_free H. apply default_page_offered; auto. Qed.

Lemma remove_offered (f f' : DefaultForm) :
  df_removeOpen f = true -> Exists (fun x => used x f f') (removeControls f) -> useDefault f f'.
Proof. intros Ho H. unfold useDefault, offers, in_reach, defaultView. cbn. by rewrite Ho. Qed.

Lemma default_offered (f f' : DefaultForm) :
  default_event text f f' -> useDefault f f' \/ default_reply f f'.
Proof.
  intros He. destruct He as [regions f|f Ha|b f Ha|m f Ha|v f Ha Hm|regionID f Ha Hr|v f Ha|
    f Ha Hs|f Ha Hm|id a f Ha Hm Hin|f Ha Hk|f Ho Hd|f Ho Hd];
    try (destruct (active_free f Ha) as [Ho Hb]);
    [right; apply dy_regions|left..].
  - apply top_offered; [done|]. left. done.
  - apply top_offered; [done|]. right; left. split; [done|].
    destruct b; eexists (_, _); [split; [by left|done]|split; [right; by left|done]].
  - apply top_offered; [done|]. right; right; left. split; [done|].
    destruct m; eexists (_, _); [split; [by left|done]|split; [right; by left|done]].
  - apply audience_offered; [done..|]. left. split; [done|by exists v].
  - apply bottom_offered; [done|]. apply list_elem_of_fmap in Hr as (r & -> & Hr). left.
    split; [done|]. eexists. split; [by apply list_elem_of_fmap_2|done].
  - apply bottom_offered; [done|]. right; left. split; [done|by exists v].
  - apply bottom_offered; [done|]. unfold bottomControls. rewrite !Exists_app. right. right. left.
    split; [by apply negb_false_iff|done].
  - apply audience_offered; [done..|]. right; left. done.
  - apply audience_offered; [done..|]. apply Exists_app. right.
    apply Exists_exists. eexists. split; [by apply (list_elem_of_fmap_2 _ _ (id, a))|]. done.
  - apply bottom_offered; [done|]. unfold bottomControls. rewrite !Exists_app, Hk. right. left. left. done.
  - apply remove_offered; [done|]. left. done.
  - apply remove_offered; [done|]. right; right; left. done.
Qed.

#[export] Instance default_page :
  Page (fun _ => True) useDefault (default_step text hostname) default_reply.
Proof.
  split; [| | |done].
  - intros f f' _ [regions g|l w r result g E]; [apply ds_event, dv_regions|by apply ds_settle].
  - intros f f' _ Ho. right. apply ds_event. unfold useDefault, offers, in_reach, defaultView in Ho.
    cbn [vw_page vw_dialog] in Ho. destruct (df_removeOpen f) eqn:Er; [by apply remove_use|].
    cbn [default] in Ho. rewrite !Exists_app in Ho.
    destruct Ho as [Ho|[Ho|Ho]]; [by apply top_use|by apply audience_use|by apply bottom_use].
  - intros f f' _ [g g' He|l w r result g E]; right; [by apply default_offered|right].
    by apply dy_settle.
Qed.

(** The controls of the section and of its dialog, with the arrival of the regions
    and the answers of the service, reach exactly the states of the machine. *)
Theorem default_controls_exact (regions : list SandboxRegion) (f : DefaultForm) :
  rtc (happens (use := useDefault) (reply := default_reply)) (mountDefault regions) f <->
  rtc (default_step text hostname) (mountDefault regions) f.
Proof. by apply (page_reaches (inv := fun _ => True)). Qed.

(** The button is disabled exactly when the form would refuse to be saved. *)
Theorem save_button_agrees (f : DefaultForm) :
  busy f = false -> saveEnabled f = true <-> saveError text f = None.
Proof.
  intros Hb. unfold saveEnabled, saveError. rewrite Hb.
  by destruct (df_enabled f), (str_truthy (trim (df_apiURL f))),
    (default_key_configured (df_config f)), (str_truthy (trim (df_apiKey f))).
Qed.
End view.
