(* ===== verification/SandboxView.v ===== *)
(** What the pages of a Sandbox account show and offer: the rendering of
    src/ui/src/components/sandbox-catalog-sections.tsx over the machines of
    SandboxCatalog. *)
From S2P Require Import Prelude.
From stdpp Require Import relations.
From S2P Require Import JsString.
From S2P Require Import AdminTypes.
From S2P Require Import Errors.
From S2P Require Import Regions.
From S2P Require Import Fetcher.
From S2P Require Import SandboxCatalog.
From S2P Require Import Board.
From S2P Require Import FetchPages.
From S2P Require Import Controls.

Section view.
Context (t : translate) (parse : string -> option Z)
  (toLocaleString : Z -> option string -> string) (locale : option string).

Abbreviation text := (fun key => t key []).

(** The body of a table: an error in its place, or its rows and, at rest, a text
    when there are none. *)
Definition tableShown {A B} (row : A -> B) (empty : string) (loading : bool) (error : string)
    (items : list A) : string + (list B * option string) :=
  if str_truthy error then inl error
  else inr (map row items,
            match items with [] => if loading then None else Some empty | _ => None end).

(** The options of a selection that can be chosen: the library refuses one whose
    value is empty. *)
Definition choosable {S} (options : list (string * string)) (choose : string -> S -> S) :
    list (string * (S -> S)) :=
  map (fun o => (o.2, choose o.1)) (filter (fun o => str_truthy o.1 = true) options).

Definition regionOptions (regions : list SandboxRegion) : list (string * string) :=
  map (fun item => (region_id item, region_label item)) regions.

(** [Header]: the regions, what the section adds, and the refresh button. *)
Definition headerControls {S} (regions : list SandboxRegion) (region : string) (loading : bool)
    (onRegion : string -> S -> S) (onRefresh : S -> S) (children : list (Control S)) :
    list (Control S) :=
  Choice "" region false (choosable (regionOptions regions) onRegion) ::
  children ++ [Button (text "common.refresh") loading onRefresh].

(** ** The templates *)

Definition publicTemplateRow (item : PublicRunnerTemplate) : string * list string * list string :=
  (public_default_template_name item, public_runner_spec_names item,
   map (join ", ") (public_workflow_labels item)).

Definition templateLabel (item : SandboxTemplate) : string :=
  or_str (head (aliases item)) (template_id item).

Definition templateRow (item : SandboxTemplate) : list string := [
  templateLabel item; template_id item; or_str (Some (build_status item)) (text "common.unknown");
  t "user.catalogTemplateResources"
    [("cpu", pretty (tpl_cpu_count item)); ("memory", pretty (tpl_memory_mb item));
     ("disk", pretty (tpl_disk_size_mb item))];
  if public item then text "common.public" else text "common.private";
  pretty (spawn_count item) ].

Definition publicTable (s : TemplatesPage) :
    string + (list (string * list string * list string) * option string) :=
  tableShown publicTemplateRow (text "user.noPublicRunnerTemplates") (fe_loading (tp_public s))
    (fe_error (tp_public s)) (fe_items (tp_public s)).

Definition scopedTable (s : TemplatesPage) : string + (list (list string) * option string) :=
  tableShown templateRow (text "user.noTemplatesInRegion") (fe_loading (tp_scoped s))
    (fe_error (tp_scoped s)) (fe_items (tp_scoped s)).

Definition publicColumns : list string :=
  map text ["common.template"; "user.runnerSpecs"; "user.workflowLabels"].
Definition scopedColumns : list string :=
  map text ["common.template"; "common.status"; "common.resources"; "common.visibility"; "user.spawns"].

Definition templatesView (s : TemplatesPage) : View TemplatesPage := {|
  vw_page :=
    Button (text "common.refresh") (fe_loading (tp_public s)) loadPublic ::
    headerControls (tp_regions s) (tp_region s) (fe_loading (tp_scoped s)) setTemplatesRegion
      loadScoped [];
  vw_dialog := None |}.

(** ** The sandboxes *)

Definition sandboxTime (value : string) : string :=
  formatOptionalTime parse toLocaleString value locale.

Definition instanceRow (item : SandboxInstance) : list string := [
  or_str (instance_alias item) (instance_sandbox_id item); instance_sandbox_id item;
  instance_state item; instance_template_id item;
  t "user.catalogInstanceResources"
    [("cpu", pretty (instance_cpu_count item)); ("memory", pretty (instance_memory_mb item))];
  sandboxTime (started_at item); sandboxTime (instance_expires_at item) ].

Definition instancesTable (s : Sandboxes) : string + (list (list string) * option string) :=
  let v := instancesView s in
  tableShown instanceRow (text "user.noSandboxesForFilters") (iv_loading v) (iv_error v)
    (fe_items (sb_instances s)).

Definition instanceColumns : list string :=
  map text ["common.sandbox"; "user.state"; "common.template"; "common.resources"; "common.started";
            "common.expires"].

Definition templateOptions (s : Sandboxes) : list (string * string) :=
  ("all", text "user.allTemplates") ::
  map (fun item => (template_id item, templateLabel item)) (fe_items (sb_templates s)).

(** The selection of a template, and the section with it. *)
Definition templateControl (s : Sandboxes) : Control Sandboxes :=
  Choice (text "user.filterTemplate") (sb_template s) (iv_filterDisabled (instancesView s))
    (choosable (templateOptions s) (fun template s => setControls (sb_region s) template s)).

Definition sandboxesView (s : Sandboxes) : View Sandboxes := {|
  vw_page :=
    headerControls (sb_regions s) (sb_region s) (iv_loading (instancesView s)) pickRegion
      (fun s => loadInstances (loadTemplates s)) [templateControl s];
  vw_dialog := None |}.

(** * Properties *)

Lemma choosable_in {S} (options : list (string * string)) (choose : string -> S -> S)
    (o : string * (S -> S)) :
  o ∈ choosable options choose -> exists v, v ∈ options.*1 /\ v <> "" /\ o.2 = choose v.
Proof.
  intros ([v l] & -> & [Hv Hin]%list_elem_of_filter)%list_elem_of_fmap. exists v.
  split; [by apply (list_elem_of_fmap_2 fst _ (v, l))|]. split; [by apply str_truthy_true|done].
Qed.

Lemma in_choosable {S} (options : list (string * string)) (choose : string -> S -> S) (v : string) :
  v ∈ options.*1 -> v <> "" -> exists o, o ∈ choosable options choose /\ o.2 = choose v.
Proof.
  intros ([v' l] & -> & Hin)%list_elem_of_fmap Hv. exists (l, choose v'). split; [|done].
  apply (list_elem_of_fmap_2 (fun o => (o.2, choose o.1)) _ (v', l)).
  apply list_elem_of_filter. split; [by apply str_truthy_true|done].
Qed.

Lemma region_options_ids (regions : list SandboxRegion) :
  (regionOptions regions).*1 = map region_id regions.
Proof. unfold regionOptions. rewrite <- list_fmap_compose. done. Qed.

Lemma template_options_ids (s : Sandboxes) :
  (templateOptions s).*1 = "all" :: map template_id (fe_items (sb_templates s)).
Proof. unfold templateOptions. cbn. f_equal. rewrite <- list_fmap_compose. done. Qed.

Section exact.
Context (listPublic : list PublicRunnerTemplate -> Prop)
  (listTemplates : TemplatesQuery -> list SandboxTemplate -> Prop)
  (listInstances : InstancesQuery -> list SandboxInstance -> Prop).

(** ** The controls of the templates page *)

Inductive templates_reply : TemplatesPage -> TemplatesPage -> Prop :=
  | ty_regions rs s : templates_reply s (setTemplatesRegions rs s)
  | ty_public l g q r result fallback s :
      fe_loads (tp_public s) = l ++ (g, q) :: r ->
      answer (fun _ => listPublic) q result fallback ->
      templates_reply s (with_public (settleFetch g (l ++ r) result fallback (tp_public s)) s)
  | ty_scoped l g q r result fallback s :
      fe_loads (tp_scoped s) = l ++ (g, q) :: r -> answer listTemplates q result fallback ->
      templates_reply s
        (with_scoped (tp_region s) (settleFetch g (l ++ r) result fallback (tp_scoped s)) s).

Definition useTemplates (s s' : TemplatesPage) : Prop := offers (templatesView s) s s'.

#[export] Instance templates_page :
  Page (fun _ => True) useTemplates (templates_step listPublic listTemplates) templates_reply.
Proof.
  split; [| | |done].
  - intros s s' _ [rs s0|l g q r result fb s0 E Ha|l g q r result fb s0 E Ha];
      [apply ts_regions|by eapply ts_public|by eapply ts_scoped].
  - intros s s' _ Ho. right. unfold useTemplates, offers, templatesView, headerControls in Ho.
    cbn [in_reach vw_page vw_dialog default app] in Ho. each_control Ho; cbn [used] in Ho.
    + destruct Ho as [Hl ->]. by apply ts_refreshPublic.
    + destruct Ho as (_ & o & Hin & ->). apply choosable_in in Hin as (v & Hv & Hne & ->).
      rewrite region_options_ids in Hv. by apply ts_region.
    + destruct Ho as [Hl ->]. by apply ts_refreshScoped.
  - intros s s' _ Hs. right.
    destruct Hs as [rs s|v s Hin Hne|s Hl|s Hl|l g q r result fb s E Ha|l g q r result fb s E Ha];
      [right; apply ty_regions|left..|right; by eapply ty_public|right; by eapply ty_scoped].
    + right; left. split; [done|].
      destruct (in_choosable (regionOptions (tp_regions s)) setTemplatesRegion v) as (o & Ho & E);
        [by rewrite region_options_ids|done|]. exists o. by rewrite E.
    + left. done.
    + right; right; left. done.
Qed.

(** The controls of the templates page, with the regions and the replies, reach
    exactly the states of its machine. *)
Theorem templates_controls_exact (installation : option Z) (regions : list SandboxRegion)
    (s : TemplatesPage) :
  rtc (happens (use := useTemplates) (reply := templates_reply))
    (mountTemplates installation regions) s <->
  rtc (templates_step listPublic listTemplates) (mountTemplates installation regions) s.
Proof. by apply (page_reaches (inv := fun _ => True)). Qed.

(** ** The controls of the sandboxes page *)

Inductive sandboxes_reply : Sandboxes -> Sandboxes -> Prop :=
  | sy_regions rs s : sandboxes_reply s (setRegions rs s)
  | sy_templates l g q r result fallback s :
      fe_loads (sb_templates s) = l ++ (g, q) :: r -> answer listTemplates q result fallback ->
      sandboxes_reply s (settleTemplates g (l ++ r) result fallback s)
  | sy_instances l g q r result fallback s :
      fe_loads (sb_instances s) = l ++ (g, q) :: r -> answer listInstances q result fallback ->
      sandboxes_reply s (settleInstances g (l ++ r) result fallback s).

Definition useSandboxes (s s' : Sandboxes) : Prop := offers (sandboxesView s) s s'.

#[export] Instance sandboxes_page :
  Page (fun _ => True) useSandboxes (sandboxes_step listTemplates listInstances) sandboxes_reply.
Proof.
  split; [| | |done].
  - intros s s' _ [rs s0|l g q r result fb s0 E Ha|l g q r result fb s0 E Ha];
      [apply ss_regions|by eapply ss_templates|by eapply ss_instances].
  - intros s s' _ Ho. right.
    unfold useSandboxes, offers, sandboxesView, headerControls, templateControl in Ho.
    cbn [in_reach vw_page vw_dialog default app] in Ho. each_control Ho; cbn [used] in Ho.
    + destruct Ho as (_ & o & Hin & ->). apply choosable_in in Hin as (v & Hv & Hne & ->).
      rewrite region_options_ids in Hv. by apply ss_region.
    + destruct Ho as (Hd & o & Hin & ->). apply choosable_in in Hin as (v & Hv & Hne & ->).
      rewrite template_options_ids in Hv.
      replace (setControls (sb_region s) v s) with (pickTemplate v s) by (unfold pickTemplate; by rewrite Hd).
      by apply ss_template.
    + destruct Ho as [Hl ->].
      replace (loadInstances (loadTemplates s)) with (refreshSandboxes s)
        by (unfold refreshSandboxes; by rewrite Hl).
      apply ss_refresh.
  - intros s s' _ Hs.
    destruct Hs as [rs s|v s Hin Hne|v s Hin Hne|s|l g q r result fb s E Ha|l g q r result fb s E Ha];
      [right; right; apply sy_regions|..|by right; right; eapply sy_templates|
       by right; right; eapply sy_instances].
    + right; left; left. split; [done|].
      destruct (in_choosable (regionOptions (sb_regions s)) pickRegion v) as (o & Ho & E);
        [by rewrite region_options_ids|done|]. exists o. by rewrite E.
    + unfold pickTemplate. destruct (iv_filterDisabled _) eqn:Ed; [by left|].
      right; left; right; left. split; [exact Ed|].
      destruct (in_choosable (templateOptions s) (fun template s => setControls (sb_region s) template s) v)
        as (o & Ho & E); [by rewrite template_options_ids|done|]. exists o. by rewrite E.
    + unfold refreshSandboxes. destruct (iv_loading _) eqn:Ed; [by left|].
      right; left; right; right; left. done.
Qed.

(** The controls of the sandboxes page, with the regions and the replies, reach
    exactly the states of its machine. *)
Theorem sandboxes_controls_exact (installation : option Z) (regions : list SandboxRegion)
    (s : Sandboxes) :
  rtc (happens (use := useSandboxes) (reply := sandboxes_reply))
    (mountSandboxes installation regions) s <->
  rtc (sandboxes_step listTemplates listInstances) (mountSandboxes installation regions) s.
Proof. by apply (page_reaches (inv := fun _ => True)). Qed.
End exact.

(** ** The tables show the replies *)

(** What a table shows of a reply. *)
Definition replyTable {A B} (row : A -> B) (empty : string)
    (reply : (thrown + list A) * string) : string + (list B * option string) :=
  match reply with
  | (inl e, fallback) => inl (error_message e fallback)
  | (inr items, _) => inr (map row items, match items with [] => Some empty | _ => None end)
  end.

Lemma table_of_reply {Q A B} (row : A -> B) (empty : string) (f : Fetch Q (list A)) (q : Q)
    (lists : Q -> list A -> Prop) (reply : (thrown + list A) * string) :
  fetch_shows f reply -> answer lists q reply.1 reply.2 ->
  tableShown row empty false (fe_error f) (fe_items f) = replyTable row empty reply.
Proof.
  destruct reply as [[e|items] fb]; cbn; unfold tableShown.
  - intros -> He. by rewrite (proj2 (str_truthy_true _) He).
  - by intros [-> ->] _.
Qed.

Lemma run_answer {S Q A} (init : S -> Prop) (step : S -> S -> Prop) (get : S -> Fetch Q A)
    (query : S -> Q) (lists : Q -> A -> Prop) (es : list (Event nat Q ((thrown + A) * string)))
    (s : S) (g : nat) (reply : (thrown + A) * string) :
  fetch_run (init := init) (step := step) (get := get) (query := query) (lists := lists) es s ->
  Replied g reply ∈ es -> exists q, answer lists q reply.1 reply.2.
Proof.
  induction 1 as [s|s|es s s' _ IH|es s s' _ IH|es s s' g' reply' _ IH _ (l & q & r & _ & Ha & _)].
  - by intros []%elem_of_nil.
  - by intros [=]%list_elem_of_singleton.
  - done.
  - intros [Hin|[=]%list_elem_of_singleton]%elem_of_app. by apply IH.
  - intros [Hin|[= -> ->]%list_elem_of_singleton]%elem_of_app; [by apply IH|by exists q].
Qed.

Lemma answered_reply {T Q R} (es : list (Event T Q R)) (q : Q) (r : R) :
  answered es q r -> exists token, Replied token r ∈ es.
Proof.
  intros (before & token & between & after & -> & _). exists token.
  rewrite elem_of_app, elem_of_cons, elem_of_app, elem_of_cons. auto.
Qed.

(** In every run of the sandboxes page, once a region is chosen and nothing
    spins, the table is that of the first reply to the question asked last, which
    is the one of the region, the account and the template on the page: its rows,
    the text that there are none, or the error. *)
Theorem instances_table_shows_reply (listTemplates : TemplatesQuery -> list SandboxTemplate -> Prop)
    (listInstances : InstancesQuery -> list SandboxInstance -> Prop)
    (es : list (Event nat InstancesQuery ((thrown + list SandboxInstance) * string))) (s : Sandboxes) :
  sandbox_run listTemplates listInstances sb_instances instancesQuery listInstances es s ->
  region_chosen s -> iv_loading (instancesView s) = false ->
  exists reply, answered es (instancesQuery s) reply /\
    instancesTable s = replyTable instanceRow (text "user.noSandboxesForFilters") reply.
Proof.
  intros Hr Hc Hl. assert (fe_loading (sb_instances s) = false) as Hi.
  { unfold instancesView, sandboxInstancesViewState in Hl. cbn in Hl.
    by apply orb_false_iff in Hl as [_ ?]. }
  destruct (asker_answers es s Hr Hc Hi) as (reply & Ha & Hs). exists reply. split; [done|].
  destruct (answered_reply es _ _ Ha) as [g Hg]. destruct (run_answer _ _ _ _ _ es s g reply Hr Hg) as [q Hq].
  unfold instancesTable. rewrite Hl. by apply (table_of_reply _ _ _ q listInstances).
Qed.
End view.

(** ** Examples *)

(** Before the regions are known the refresh button is enabled, and its two
    requests are for a region without a name; the effects, which load by
    themselves, wait for a region. *)
Example refresh_without_region :
  let s := mountSandboxes None [] in
  iv_loading (instancesView s) = false /\ fe_loads (sb_instances s) = [] /\
  map snd (fe_loads (sb_instances (refreshSandboxes s))) =
    [{| iq_region := ""; iq_installation := None; iq_template := "" |}].
Proof. by vm_compute. Qed.

(** While no region is known, as after a failed request for the regions, nothing is
    asked, and the page says that there are no sandboxes. *)
Example nothing_asked_said_empty :
  let s := mountSandboxes None [] in
  fe_loads (sb_instances s) = [] /\
  instancesTable (fun key _ => key) (fun _ => None) (fun _ _ => "") None s =
    inr ([], Some "user.noSandboxesForFilters").
Proof. by vm_compute. Qed.

(** Both lists have come for the second region. *)
Definition example_settled : Sandboxes :=
  settleTemplates 3 [(1%nat, {| tq_region := "r1"; tq_installation := None |})] (inr []) "failed"
    example_sandboxes.

Lemma example_settled_run :
  exists es, sandbox_run (fun _ _ => True) example_list sb_instances instancesQuery example_list es
    example_settled.
Proof.
  apply page_run. eapply pr_step; [eapply pr_step; [eapply pr_step; [eapply pr_step;
    [apply pr_init; by exists None, example_regions|]|]|]|].
  - apply (ss_region _ _ "r2"); [by right; left|discriminate].
  - eapply (ss_instances _ _ [_] 3 _ [] (inr [example_instance "r2"]) "failed"); reflexivity.
  - eapply (ss_instances _ _ [] 1 _ [] (inr [example_instance "r1"]) "failed"); reflexivity.
  - eapply (ss_templates _ _ [_] 3 _ [] (inr []) "failed"); [reflexivity|done].
Qed.

Lemma instances_table_shows_reply_witness :
  exists (es : list (Event nat InstancesQuery ((thrown + list SandboxInstance) * string))) reply,
    answered es (instancesQuery example_settled) reply /\
    instancesTable (fun key _ => key) (fun _ => None) (fun _ _ => "") None example_settled =
      replyTable (instanceRow (fun key _ => key) (fun _ => None) (fun _ _ => "") None)
        "user.noSandboxesForFilters" reply.
Proof.
  destruct example_settled_run as [es Hr]. exists es.
  refine (instances_table_shows_reply (fun key _ => key) (fun _ => None) (fun _ _ => "") None
    (fun _ _ => True) example_list es example_settled Hr _ _).
  - discriminate.
  - reflexivity.
Defined.
