(* ===== verification/SettingsView.v ===== *)
(** What the cards of the settings page show and offer: the rendering of
    [SandboxAPIKeyCard] and [CacheS3Card] in
    src/ui/src/components/user-dashboard.tsx over the machines of SettingsCards. *)
From S2P Require Import Prelude.
From stdpp Require Import relations.
From S2P Require Import JsString.
From S2P Require Import AdminTypes.
From S2P Require Import Errors.
From S2P Require Import AdminFormat.
From S2P Require Import Regions.
From S2P Require Import SettingsCards.
From S2P Require Import Controls.

Section view.
Context (t : translate) (parse : string -> option Z)
  (toLocaleString : Z -> option string -> string) (locale : option string).

Abbreviation text := (fun key => t key []).

(** ** The Sandbox credentials: what is shown *)

Definition sourceAccountLogin (p : KeyProps) : option string :=
  trim <$> (sandboxOf p ≫= source_account_login).

Definition sourceAvailable (p : KeyProps) : bool :=
  default false (sandboxOf p ≫= source_available).

Definition usingAdminDefault (p : KeyProps) : bool :=
  bool_decide (resolved_source <$> sandboxOf p = Some SrcAdminDefault).

Definition cardUpdatedAt (p : KeyProps) : option string := sandboxOf p ≫= key_updated_at.

Definition selectedKeyRegion (c : KeyCard) : option SandboxRegion :=
  findSandboxRegionByAPIURL (kp_regions (kc_props c)) (kc_apiURL c).

(** The badge of the header, and whether it is the one of success. *)
Definition readyBadge (p : KeyProps) : bool * string :=
  if effectiveReady p then (true, text "repositories.ready") else (false, text "user.actionRequired").

(** The line of a card that an organization manages; nothing else is shown. *)
Definition managedNote (p : KeyProps) : option string :=
  if organizationManaged p
  then Some (if effectiveReady p then text "user.organizationReady" else text "user.organizationMissing")
  else None.

(** The links of the setup steps. *)
Definition setupLinks (showOnboardingSetup : bool) (p : KeyProps) : list (string * string) :=
  if showOnboardingSetup && negb (effectiveReady p) then [
    (text "user.quickstart", "https://developer.qiniu.com/las/13283/sandbox-quickstart");
    (text "user.getAPIKey", "https://portal.qiniu.com/developer/user/api-key") ]
  else [].

(** Whose credentials are used, beside the switch. *)
Definition sourceNote (c : KeyCard) : string :=
  let p := kc_props c in
  let named key other :=
    match sourceAccountLogin p with
    | Some login => if str_truthy login then t key [("login", login)] else text other
    | None => text other
    end in
  if bool_decide (kc_mode c <> Inherit) then text "user.organizationOwnSettings"
  else if negb (isInherited p) then text "user.accountDefaultAfterSave"
  else if negb (sourceAvailable p)
  then named "user.inheritedCredentialsUnavailableBy" "user.inheritedCredentialsUnavailable"
  else if sourceIsCurrentAccount p then text "user.usingAccountCredentials"
  else named "user.usingCredentialsBy" "user.usingOtherOwnerCredentials".

Definition replaceDescription (p : KeyProps) : string :=
  match sourceAccountLogin p with
  | Some login =>
      if str_truthy login then t "user.replaceCredentialsDescriptionBy" [("login", login)]
      else text "user.replaceCredentialsDescription"
  | None => text "user.replaceCredentialsDescription"
  end.

Definition keyRegionShown (c : KeyCard) : string :=
  match selectedKeyRegion c with Some r => region_label r | None => text "user.selectRegion" end.

Definition cardKeyPlaceholder (p : KeyProps) : string :=
  if customConfigured p then text "user.apiKeyReplacementPlaceholder" else text "user.apiKeyPlaceholder".

Definition cardKeyNote (p : KeyProps) : string :=
  if keyConfigured p && opt_truthy (cardUpdatedAt p)
  then t "user.updatedAt" [("time", formatTime parse toLocaleString (cardUpdatedAt p) locale)]
  else text "user.noAPIKeySaved".

Definition platformNote (p : KeyProps) : option string :=
  if usingAdminDefault p then Some (text "user.platformDefault") else None.

(** The error is shown in the card and, again, in the dialog of the source. *)
Definition keyAlert (c : KeyCard) : option string :=
  if str_truthy (kc_error c) then Some (kc_error c) else None.

(** ** The Sandbox credentials: what is offered *)

Definition modeControls (c : KeyCard) : list (Control KeyCard) :=
  if kp_allowInheritance (kc_props c) then [
    Choice (text "user.useAccountDefault") (if bool_decide (kc_mode c = Inherit) then "on" else "off")
      (kc_saving c || kc_deleting c) [("on", switchMode true); ("off", switchMode false)] ]
  else [].

Definition keyFields (c : KeyCard) : list (Control KeyCard) := [
  Choice (text "common.region") (default "" (region_id <$> selectedKeyRegion c)) (fieldsDisabled c)
    (map (fun r => (region_label r, pickKeyRegion (region_id r))) (kp_regions (kc_props c)));
  Field (text "common.apiKey") (kc_apiKey c) (fieldsDisabled c) typeKey ].

Definition submitLabel (c : KeyCard) : string :=
  if kc_saving c then text "user.saving"
  else if keyConfigured (kc_props c) then text "user.saveChanges" else text "user.saveSettings".

Definition submitDisabled (c : KeyCard) : bool :=
  kc_saving c || kc_deleting c ||
  (bool_decide (kc_mode c = Custom) &&
   (negb (str_truthy (trim (kc_apiURL c))) ||
    (negb (customConfigured (kc_props c)) && negb (str_truthy (trim (kc_apiKey c)))))).

Definition submitButton : KeyCard -> KeyCard :=
  submitKey (text "user.sandboxRegionRequired") (text "user.sandboxAPIKeyRequired").

Definition keyButtons (c : KeyCard) : list (Control KeyCard) :=
  (if negb (usesInherited c) then [Button (submitLabel c) (submitDisabled c) submitButton] else []) ++
  (if usesInherited c && negb (sourceIsCurrentAccount (kc_props c))
   then [Button (text "user.useMyAccountCredentials") (kc_saving c || kc_deleting c) openReplace]
   else []) ++
  (if customConfigured (kc_props c) && bool_decide (kc_mode c = Custom)
   then [Button (if kc_deleting c then text "user.removing" else text "user.remove")
           (kc_deleting c || kc_saving c) openRemove]
   else []).

(** A dialog is dismissed (the first control), cancelled or confirmed. *)
Definition removeDialog (c : KeyCard) : list (Control KeyCard) := [
  Button "" (kc_deleting c) closeRemove;
  Button (text "common.cancel") (kc_deleting c) closeRemove;
  Button (if kc_deleting c then text "user.removing" else text "user.removeAPIKey") (kc_deleting c)
    removeKey ].

Definition replaceDialog (c : KeyCard) : list (Control KeyCard) := [
  Button "" (kc_saving c) closeReplace;
  Button (text "common.cancel") (kc_saving c) closeReplace;
  Button (if kc_saving c then text "user.switching" else text "user.useMyCredentials") (kc_saving c)
    replaceInheritedSource ].

Definition keyView (c : KeyCard) : View KeyCard :=
  if organizationManaged (kc_props c) then {| vw_page := []; vw_dialog := None |}
  else {|
    vw_page := modeControls c ++ keyFields c ++ keyButtons c;
    vw_dialog := if kc_removeOpen c then Some (removeDialog c)
                 else if kc_replaceOpen c then Some (replaceDialog c) else None |}.

(** ** The cache bucket *)

(** The region and the endpoint of the buckets, where there are any. *)
Definition cacheRegionShown (p : CacheProps) : option (string * string) :=
  if hasRegion p then Some (s3Region p, default "" (cacheOf p ≫= cache_endpoint)) else None.

Definition cachePlaceholder (p : CacheProps) (f : CacheField) : string :=
  match f with
  | BucketField => text "user.cacheS3BucketPlaceholder"
  | PrefixField => text "user.cacheS3PrefixPlaceholder"
  | AccessKeyField =>
      if cacheConfigured p then text "user.cacheS3AccessKeyIDPlaceholderNew"
      else text "user.cacheS3AccessKeyIDPlaceholder"
  | SecretKeyField =>
      if cacheConfigured p then text "user.cacheS3SecretAccessKeyPlaceholderNew"
      else text "user.cacheS3SecretAccessKeyPlaceholder"
  end.

(** The time is formatted without the language of the console. *)
Definition cacheNote (p : CacheProps) : string :=
  if cacheConfigured p then
    text "user.cacheS3Configured" +:+
    (if opt_truthy (cacheOf p ≫= cache_updated_at)
     then " · " +:+ formatTime parse toLocaleString (cacheOf p ≫= cache_updated_at) None else "")
  else text "user.cacheS3NotConfigured".

Definition cacheAlert (c : CacheCard) : option string :=
  if str_truthy (cc_error c) then Some (cc_error c) else None.

Definition cacheBusy (c : CacheCard) : bool := cc_saving c || cc_removing c.

Definition cacheInput (label : string) (f : CacheField) (c : CacheCard) : Control CacheCard :=
  Field label (cacheFieldText f (cc_input c)) (cacheBusy c) (editCache f).

Definition submitBucket : CacheCard -> CacheCard :=
  submitCache (text "user.cacheS3RegionRequired") (text "user.cacheS3BucketRequired").

Definition cacheControls (c : CacheCard) : list (Control CacheCard) :=
  [ cacheInput (text "user.cacheS3Bucket") BucketField c;
    cacheInput (text "user.cacheS3Prefix") PrefixField c;
    cacheInput (text "user.cacheS3AccessKeyID") AccessKeyField c;
    cacheInput (text "user.cacheS3SecretAccessKey") SecretKeyField c;
    Button (if cc_saving c then text "user.cacheS3Validating"
            else if cacheConfigured (cc_props c) then text "user.cacheS3SaveChanges"
            else text "user.cacheS3Save")
      (cacheBusy c || negb (hasRegion (cc_props c))) submitBucket ] ++
  (if cacheConfigured (cc_props c)
   then [Button (text "user.cacheS3Remove") (cacheBusy c) removeCache] else []).

Definition cacheView (c : CacheCard) : View CacheCard := {|
  vw_page := cacheControls c; vw_dialog := None |}.

(** * Properties *)

(** What the reader does not do: the card gets other properties, a request is
    answered. *)
Inductive key_reply : KeyCard -> KeyCard -> Prop :=
  | kp_props p c : key_reply c (setKeyProps p c)
  | kp_saved l call r result fallback c :
      kc_saves c = l ++ call :: r -> key_reply c (settleKeySave call (l ++ r) result fallback c)
  | kp_removed l p r result fallback c :
      kc_removals c = l ++ p :: r -> key_reply c (settleRemoval (l ++ r) result fallback c).

Definition useKey (c c' : KeyCard) : Prop := offers (keyView c) c c'.

Lemma submitEnabled_disabled (c : KeyCard) :
  submitEnabled c = negb (usesInherited c) && negb (submitDisabled c).
Proof. done. Qed.

(** A form that can be submitted is not refused. *)
Lemma submitKey_texts (m1 m2 m1' m2' : string) (c : KeyCard) :
  submitEnabled c = true -> submitKey m1 m2 c = submitKey m1' m2' c.
Proof.
  intros [_ [_ H]%negb_true_iff%orb_false_iff]%andb_prop. unfold submitKey.
  destruct (kc_mode c); [|done]. cbn [andb] in H.
  rewrite (bool_decide_eq_true_2 (Custom = Custom)) in H by done.
  apply orb_false_iff in H as [-> ->]. done.
Qed.

(** The controls of the page of the card, by group. *)
Lemma keyView_page (c c' : KeyCard) :
  controlsShown c = true ->
  useKey c c' <->
  Exists (fun x => used x c c') (modeControls c) \/
  Exists (fun x => used x c c') (keyFields c) \/
  Exists (fun x => used x c c') (keyButtons c).
Proof.
  intros (Ho & Hm & Hp)%shown_managed. unfold useKey, offers, in_reach, keyView.
  rewrite Ho, Hm, Hp. cbn [vw_page vw_dialog default]. by rewrite !Exists_app.
Qed.

Lemma mode_use (c c' : KeyCard) :
  controlsShown c = true -> Exists (fun x => used x c c') (modeControls c) -> key_step c c'.
Proof.
  intros Ho Hc. unfold modeControls in Hc.
  destruct (kp_allowInheritance (kc_props c)); each_control Hc.
  destruct Hc as (Hb & o & [-> |[-> |[]%elem_of_nil]%elem_of_cons]%elem_of_cons & ->);
    by apply ky_switch.
Qed.

Lemma fields_use (c c' : KeyCard) :
  controlsShown c = true -> Exists (fun x => used x c c') (keyFields c) -> key_step c c'.
Proof.
  intros Ho Hc. unfold keyFields in Hc. each_control Hc; cbn [used] in Hc.
  - destruct Hc as (Hb & o & (r & -> & Hr)%list_elem_of_fmap & ->).
    apply ky_region; [done|]. by apply list_elem_of_fmap_2.
  - destruct Hc as (Hb & v & ->). by apply ky_type.
Qed.

Lemma buttons_use (c c' : KeyCard) :
  controlsShown c = true -> Exists (fun x => used x c c') (keyButtons c) -> key_step c c'.
Proof.
  intros Ho Hc. unfold keyButtons in Hc. apply Exists_app in Hc as [Hc|Hc].
  - destruct (negb (usesInherited c)) eqn:Eu; each_control Hc. destruct Hc as [Hd ->].
    apply ky_submit; [done|]. by rewrite submitEnabled_disabled, Eu, Hd.
  - apply Exists_app in Hc as [Hc|Hc].
    + destruct (usesInherited c && _); each_control Hc. destruct Hc as [Hd ->]. by apply ky_openReplace.
    + destruct (customConfigured _ && _); each_control Hc. destruct Hc as [Hd ->]. by apply ky_openRemove.
Qed.

Lemma key_use (c c' : KeyCard) : useKey c c' -> key_step c c'.
Proof.
  intros H. destruct (controlsShown c) eqn:Es.
  - apply (keyView_page c c' Es) in H as [H|[H|H]];
      [by apply mode_use|by apply fields_use|by apply buttons_use].
  - unfold useKey, offers, in_reach, keyView in H. unfold controlsShown in Es.
    destruct (organizationManaged (kc_props c)) eqn:Eo; [by apply Exists_nil in H|]. cbn [negb andb] in Es.
    cbn [vw_page vw_dialog] in H.
    destruct (kc_removeOpen c); [|destruct (kc_replaceOpen c); [|done]];
      unfold removeDialog, replaceDialog in H; cbv [default from_option Datatypes.id] in H;
      each_control H; destruct H as [Hd ->].
    + by apply ky_closeRemove.
    + by apply ky_closeRemove.
    + by apply ky_remove.
    + by apply ky_closeReplace.
    + by apply ky_closeReplace.
    + by apply ky_replace.
Qed.

(** The events of a dialog that is not open change nothing. *)
Lemma closed_dialogs (c : KeyCard) :
  (kc_removeOpen c = false -> closeRemove c = c /\ removeKey c = c) /\
  (kc_replaceOpen c = false -> closeReplace c = c /\ replaceInheritedSource c = c).
Proof.
  destruct c as [p u k m saving deleting ro rp e sv rm se].
  unfold closeRemove, removeKey, closeReplace, replaceInheritedSource, with_dialogs. cbn.
  split; intros ->; (split; [|done]); [by destruct deleting|by destruct saving].
Qed.

Lemma key_dialog_use (c c' : KeyCard) :
  wf_key c -> organizationManaged (kc_props c) = false ->
  (kc_removeOpen c = true /\ Exists (fun x => used x c c') (removeDialog c)) \/
  (kc_replaceOpen c = true /\ Exists (fun x => used x c c') (replaceDialog c)) ->
  useKey c c'.
Proof.
  intros Hc Ho H. unfold useKey, offers, in_reach, keyView. rewrite Ho. cbn [vw_page vw_dialog].
  destruct H as [[-> H]|[Hp H]]; [done|]. pose proof (wk_dialog c Hc) as Hx. rewrite Hp in *.
  rewrite andb_true_r in Hx. by rewrite Hx.
Qed.

(** The buttons of the card that change the mode and open the dialogs. *)
Lemma mode_offered (b : bool) (c : KeyCard) :
  controlsShown c = true -> switchMode b c = c \/ useKey c (switchMode b c).
Proof.
  intros Ho.
  destruct (negb (kp_allowInheritance (kc_props c)) || kc_saving c || kc_deleting c) eqn:Ed.
  { left. unfold switchMode. by rewrite Ed. }
  right. apply keyView_page; [done|]. left. unfold modeControls.
  apply orb_false_iff in Ed as [[Ea%negb_false_iff Es]%orb_false_iff El]. rewrite Ea. left. cbn.
  rewrite Es, El. split; [done|].
  destruct b; eexists (_, _); [split; [by left|done]|split; [right; by left|done]].
Qed.

Lemma dialogs_offered (c : KeyCard) :
  controlsShown c = true ->
  (openReplace c = c \/ useKey c (openReplace c)) /\ (openRemove c = c \/ useKey c (openRemove c)).
Proof.
  intros Ho. split.
  - destruct (negb (usesInherited c && negb (sourceIsCurrentAccount (kc_props c))) ||
      kc_saving c || kc_deleting c) eqn:Ed; [left; unfold openReplace; by rewrite Ed|]. right.
    apply keyView_page; [done|]. right; right. unfold keyButtons. rewrite !Exists_app. right; left.
    apply orb_false_iff in Ed as [[Eu%negb_false_iff Es]%orb_false_iff El]. rewrite Eu, Es, El.
    by left.
  - destruct (negb (customConfigured (kc_props c) && bool_decide (kc_mode c = Custom)) ||
      kc_saving c || kc_deleting c) eqn:Ed; [left; unfold openRemove; by rewrite Ed|]. right.
    apply keyView_page; [done|]. right; right. unfold keyButtons. rewrite !Exists_app. right; right.
    apply orb_false_iff in Ed as [[Eu%negb_false_iff Es]%orb_false_iff El]. rewrite Eu, Es, El.
    by left.
Qed.

Lemma key_offered (c c' : KeyCard) :
  wf_key c -> key_step c c' -> c' = c \/ useKey c c' \/ key_reply c c'.
Proof.
  intros Hc Hs. destruct (closed_dialogs c) as [Hrm Hrp].
  destruct Hs as [p c|v c Ho|r c Ho Hr|b c Ho|m1 m2 c Ho He|c Ho|c Ho|c Ho|c Ho|c Ho|c Ho|
    l call r result fb c E|l p r result fb c E].
  - right; right. apply kp_props.
  - unfold typeKey at 1. destruct (fieldsDisabled c) eqn:Ed; [by left|]. right; left.
    apply keyView_page; [done|]. right; left. right; left. cbn. split; [done|]. exists v.
    unfold typeKey. by rewrite Ed.
  - destruct (fieldsDisabled c) eqn:Ed; [left; unfold pickKeyRegion; by rewrite Ed|]. right; left.
    apply keyView_page; [done|]. right; left. left. split; [done|].
    apply list_elem_of_fmap in Hr as (x & -> & Hx).
    eexists. split; [by apply list_elem_of_fmap_2|done].
  - destruct (mode_offered b c Ho); auto.
  - right; left. apply keyView_page; [done|]. right; right. unfold keyButtons. pose proof He as He'.
    rewrite submitEnabled_disabled in He. apply andb_prop in He as [-> Hd%negb_true_iff]. left.
    split; [done|]. by apply submitKey_texts.
  - destruct (dialogs_offered c Ho) as [[H|H] _]; auto.
  - destruct (dialogs_offered c Ho) as [_ [H|H]]; auto.
  - destruct (kc_replaceOpen c) eqn:Ep; [|left; by apply Hrp].
    destruct (kc_saving c) eqn:Es; [left; unfold closeReplace; by rewrite Es|]. right; left.
    apply key_dialog_use; [done..|]. right. split; [done|]. left. done.
  - destruct (kc_removeOpen c) eqn:Ep; [|left; by apply Hrm].
    destruct (kc_deleting c) eqn:Es; [left; unfold closeRemove; by rewrite Es|]. right; left.
    apply key_dialog_use; [done..|]. left. split; [done|]. left. done.
  - destruct (kc_replaceOpen c) eqn:Ep; [|left; by apply Hrp].
    destruct (kc_saving c) eqn:Es; [left; unfold replaceInheritedSource; by rewrite Es, orb_true_r|].
    right; left. apply key_dialog_use; [done..|]. right. split; [done|]. right; right; left. done.
  - destruct (kc_removeOpen c) eqn:Ep; [|left; by apply Hrm].
    destruct (kc_deleting c) eqn:Es; [left; unfold removeKey; by rewrite Es, orb_true_r|].
    right; left. apply key_dialog_use; [done..|]. left. split; [done|]. right; right; left. done.
  - right; right. by apply kp_saved.
  - right; right. by apply (kp_removed l p).
Qed.

#[export] Instance key_page : Page wf_key useKey key_step key_reply.
Proof.
  split.
  - intros c c' _ [p d|l call r result fb d E|l p r result fb d E];
      [apply ky_props|by apply ky_saved|by apply (ky_removed l p)].
  - intros c c' _ H. right. by apply key_use.
  - apply key_offered.
  - apply wf_key_step.
Qed.

(** The controls of the credentials card and of its two dialogs, with the changes
    of the settings and the answers of the service, reach exactly the states of
    the machine: a disabled control is one whose event would do nothing or would
    not be allowed. *)
Theorem credential_controls_exact (p : KeyProps) (c : KeyCard) :
  rtc (happens (use := useKey) (reply := key_reply)) (mountKeyCard p) c <->
  rtc key_step (mountKeyCard p) c.
Proof. apply (page_reaches (inv := wf_key)). apply wf_key_reachable, kr_mount. Qed.

(** ** The cache bucket *)

Inductive cache_reply : CacheCard -> CacheCard -> Prop :=
  | cp_props p c : cache_reply c (setCacheProps p c)
  | cp_saved result fallback c :
      (0 < cc_saves c)%nat -> cache_reply c (settleCacheSave result fallback c)
  | cp_removed l p r result fallback c :
      cc_removals c = l ++ p :: r -> cache_reply c (settleCacheRemoval (l ++ r) result fallback c).

Definition useCache (c c' : CacheCard) : Prop := offers (cacheView c) c c'.

Abbreviation cacheStep :=
  (cache_step (text "user.cacheS3RegionRequired") (text "user.cacheS3BucketRequired")).

Lemma cache_use (c c' : CacheCard) : useCache c c' -> cacheStep c c'.
Proof.
  intros H. unfold useCache, offers, in_reach, cacheView, cacheControls in H. cbn [vw_dialog vw_page default] in H.
  apply Exists_app in H as [H|H].
  - each_control H; cbn [used cacheInput] in H;
      [destruct H as (_ & v & ->); apply cy_edit..|]. destruct H as [_ ->]. apply cy_submit.
  - destruct (cacheConfigured (cc_props c)); each_control H. destruct H as [_ ->]. apply cy_remove.
Qed.

Lemma cache_field_offered (f : CacheField) (v : string) (c : CacheCard) :
  cacheBusy c = false -> useCache c (editCache f v c).
Proof.
  intros Hb. unfold useCache, offers, in_reach, cacheView, cacheControls. cbn [vw_dialog vw_page default].
  apply Exists_app. left. assert (forall l, used (cacheInput l f c) c (editCache f v c)) as Hu.
  { intros l. split; [done|by exists v]. }
  destruct f; [by left|right; by left|right; right; by left|right; right; right; by left].
Qed.

Lemma cache_offered (c c' : CacheCard) :
  cacheStep c c' -> c' = c \/ useCache c c' \/ cache_reply c c'.
Proof.
  intros Hs. destruct Hs as [p c|f v c|c|result fb c H|c|l p r result fb c H].
  - right; right. apply cp_props.
  - destruct (cacheBusy c) eqn:Eb; [left; unfold cacheBusy in Eb; unfold editCache; by rewrite Eb|].
    right; left. by apply cache_field_offered.
  - destruct (cacheBusy c || negb (hasRegion (cc_props c))) eqn:Eb.
    { left. unfold cacheBusy in Eb. unfold submitCache. by rewrite Eb. }
    right; left. unfold useCache, offers, in_reach, cacheView, cacheControls.
    cbn [vw_dialog vw_page default]. apply Exists_app. left. do 4 right. left. done.
  - right; right. by apply cp_saved.
  - destruct (negb (cacheConfigured (cc_props c)) || cc_saving c || cc_removing c) eqn:Eb.
    { left. unfold removeCache. by rewrite Eb. }
    right; left. apply orb_false_iff in Eb as [[Ec%negb_false_iff Es]%orb_false_iff Er].
    unfold useCache, offers, in_reach, cacheView, cacheControls. cbn [vw_dialog vw_page default].
    apply Exists_app. right. rewrite Ec. left. unfold cacheBusy. rewrite Es, Er. done.
  - right; right. by eapply cp_removed.
Qed.

#[export] Instance cache_page : Page (fun _ => True) useCache cacheStep cache_reply.
Proof.
  split; [| | |done].
  - intros c c' _ [p d|result fb d E|l p r result fb d E]; [apply cy_props|by apply cy_saved|by eapply cy_removed].
  - intros c c' _ H. right. by apply cache_use.
  - intros c c' _. apply cache_offered.
Qed.

(** The controls of the card of the cache bucket reach exactly its states. *)
Theorem cache_controls_exact (p : CacheProps) (c : CacheCard) :
  rtc (happens (use := useCache) (reply := cache_reply)) (mountCacheCard p) c <->
  rtc cacheStep (mountCacheCard p) c.
Proof. by apply (page_reaches (inv := fun _ => True)). Qed.
End view.
