(* ===== verification/AccountSettings.v ===== *)
(** The settings page of a user: [AccountsPage] in
    src/ui/src/components/user-dashboard.tsx, which chooses the account, keeps
    the page of an account that is not the reader's closed, and renders the cards
    of SettingsCards for the account shown.

    A card keeps its state while it stays at its place in the page, and is
    mounted anew elsewhere: in the tabs of an account, or alone on the page of a
    user without one. *)
From S2P Require Import Prelude.
From stdpp Require Import relations.
From S2P Require Import JsString.
From S2P Require Import JsUri.
From S2P Require Import AdminTypes.
From S2P Require Import Errors.
From S2P Require Import LoadPolicy.
From S2P Require Import AppRoutes.
From S2P Require Import Regions.
From S2P Require Import Readiness.
From S2P Require Import SettingsCards.

(** ** What the page is given *)

Record SettingsInput := {
  si_installations : list GitHubInstallation;
  si_loaded : bool;
  si_login : option string;
  si_route : AccountSettingsRoute;
  si_preferences : option UserPreferences;
  si_setup : bool;
  si_regions : list SandboxRegion;
}.

Definition accountRows (i : SettingsInput) : list GitHubInstallation :=
  settingsInstallations (si_installations i) (si_login i).

Definition scopeAccess (i : SettingsInput) : SettingsScopeAccessState :=
  settingsScopeAccessState (si_installations i) (route_accountLogin (si_route i)) (si_login i)
    (si_loaded i).

Definition selectedAccount (i : SettingsInput) : option GitHubInstallation :=
  find_first (has_login (normalized (route_accountLogin (si_route i)))) (accountRows i).

Definition preferenceInstallationID (i : SettingsInput) : option Z :=
  settingsPreferenceInstallationID (accountRows i) (route_accountLogin (si_route i)) (si_login i).

(** ** What is shown *)

Inductive SettingsPanel :=
  | CheckingPermissions
  | OpeningSettings
  | AccountPanel (account : GitHubInstallation) (tab : AccountSettingsTab)
  | PersonalPanel (tab : AccountSettingsTab).

Definition settingsPanel (i : SettingsInput) : SettingsPanel :=
  match scopeAccess i with
  | ScopeLoading => CheckingPermissions
  | ScopeForbidden => OpeningSettings
  | ScopeManageable =>
      match selectedAccount i with
      | Some account => AccountPanel account (route_tab (si_route i))
      | None => PersonalPanel (route_tab (si_route i))
      end
  end.

(** The accounts of the list: their names, and which is marked. *)
Definition accountList (i : SettingsInput) : list (string * bool) :=
  map (fun a => (or_str (account_login a) "GitHub App",
                 bool_decide (inst_id <$> selectedAccount i = Some (inst_id a)))) (accountRows i).

(** The tabs of an account.  That of the repositories has moved: it is none of
    them. *)
Definition settingsTabList : list (AccountSettingsTab * string) := [
  (TabPreferences, "user.sandboxService"); (TabSandboxTemplates, "user.sandboxTemplates");
  (TabSandboxInstances, "user.sandboxInstances") ].

(** The heading of the panel and the line below it. *)
Definition panelHeading (t : translate) (p : SettingsPanel) : string * string :=
  match p with
  | CheckingPermissions => (t "user.checkingPermissions" [], "")
  | OpeningSettings => (t "user.openingSettings" [], "")
  | AccountPanel a _ => (accountDisplayName a, or_str (account_login a) "GitHub")
  | PersonalPanel TabPreferences =>
      (t "user.accountPreferences" [], t "user.accountPreferencesDescription" [])
  | PersonalPanel TabSandboxTemplates =>
      (t "user.sandboxTemplates" [], t "user.templatesDescription" [])
  | PersonalPanel TabSandboxInstances =>
      (t "user.sandboxInstances" [], t "user.instancesDescription" [])
  | PersonalPanel TabRepositories =>
      (t "user.repositorySetupMoved" [], t "user.repositorySetupMovedDescription" [])
  end.

(** What the sandbox pages of the panel ask for: the kind of page, and the
    installation, which is also the key of the page in the tabs. *)
Inductive SandboxPageKind := TemplatesPage | InstancesPage.

Definition sandboxPage (i : SettingsInput) : option (SandboxPageKind * option Z) :=
  match settingsPanel i with
  | AccountPanel _ TabSandboxTemplates => Some (TemplatesPage, preferenceInstallationID i)
  | AccountPanel _ TabSandboxInstances => Some (InstancesPage, preferenceInstallationID i)
  | PersonalPanel TabSandboxTemplates => Some (TemplatesPage, None)
  | PersonalPanel TabSandboxInstances => Some (InstancesPage, None)
  | _ => None
  end.

(** ** The cards *)

Inductive CardPlace := InTabs | Alone.

#[export] Instance CardPlace_eq_dec : EqDecision CardPlace.
Proof. solve_decision. Defined.

Definition cardPlace (i : SettingsInput) : option CardPlace :=
  match settingsPanel i with
  | AccountPanel _ TabPreferences => Some InTabs
  | PersonalPanel TabPreferences => Some Alone
  | _ => None
  end.

(** The installation that the requests of the cards name. *)
Definition cardInstallation (p : CardPlace) (i : SettingsInput) : option Z :=
  match p with InTabs => preferenceInstallationID i | Alone => None end.

Definition keyProps (p : CardPlace) (i : SettingsInput) : KeyProps := {|
  kp_preferences := si_preferences i;
  kp_allowInheritance := num_truthy (cardInstallation p i);
  kp_installation := cardInstallation p i; kp_regions := si_regions i |}.

Definition cacheProps (p : CardPlace) (i : SettingsInput) : CacheProps := {|
  cp_preferences := si_preferences i; cp_installation := cardInstallation p i |}.

(** The setup steps are offered for the reader's own account. *)
Definition setupShown (p : CardPlace) (i : SettingsInput) : bool :=
  si_setup i && match p with InTabs => negb (num_truthy (preferenceInstallationID i)) | Alone => true end.

Record Cards := { ca_place : CardPlace; ca_key : KeyCard; ca_cache : CacheCard }.

Definition mountCards (p : CardPlace) (i : SettingsInput) : Cards := {|
  ca_place := p; ca_key := mountKeyCard (keyProps p i); ca_cache := mountCacheCard (cacheProps p i) |}.

(** A render of the page: the cards are kept at their place, mounted at another,
    and unmounted where there are none. *)
Definition renderCards (i : SettingsInput) (cards : option Cards) : option Cards :=
  match cardPlace i, cards with
  | None, _ => None
  | Some p, None => Some (mountCards p i)
  | Some p, Some c =>
      if bool_decide (ca_place c = p)
      then Some {| ca_place := p; ca_key := setKeyProps (keyProps p i) (ca_key c);
                   ca_cache := setCacheProps (cacheProps p i) (ca_cache c) |}
      else Some (mountCards p i)
  end.

(** ** The page as a machine *)

Record Settings := {
  se_input : SettingsInput;
  se_cards : option Cards;
  (** The messages shown and the addresses gone to. *)
  se_toasts : list string;
  se_redirects : list string;
}.

Section page.
Context (t : translate).

(** The effect of a page that is not the reader's: a message, and the way to the
    settings of the reader. *)
Definition deniedMessage (i : SettingsInput) : string :=
  match trim <$> route_accountLogin (si_route i) with
  | Some login =>
      if str_truthy login then t "user.sandboxPermissionDeniedFor" [("login", login)]
      else t "user.sandboxPermissionDenied" []
  | None => t "user.sandboxPermissionDenied" []
  end.

Definition settingsAddress (i : SettingsInput) : string :=
  accountSettingsPath (si_login i) (si_login i) TabPreferences.

(** What the effect depends on. *)
Definition scopeKey (i : SettingsInput) : option string * option string * SettingsScopeAccessState :=
  (si_login i, route_accountLogin (si_route i), scopeAccess i).

#[export] Instance SettingsScopeAccessState_eq_dec : EqDecision SettingsScopeAccessState.
Proof. solve_decision. Defined.

Definition scopeEffect (i : SettingsInput) (s : Settings) : Settings :=
  match scopeAccess i with
  | ScopeForbidden => {|
      se_input := se_input s; se_cards := se_cards s; se_toasts := se_toasts s ++ [deniedMessage i];
      se_redirects := se_redirects s ++ [settingsAddress i] |}
  | _ => s
  end.

Definition mountSettings (i : SettingsInput) : Settings :=
  scopeEffect i {|
    se_input := i; se_cards := renderCards i None; se_toasts := []; se_redirects := [] |}.

Definition renderSettings (i : SettingsInput) (s : Settings) : Settings :=
  let s' := {| se_input := i; se_cards := renderCards i (se_cards s); se_toasts := se_toasts s;
               se_redirects := se_redirects s |} in
  if bool_decide (scopeKey i = scopeKey (se_input s)) then s' else scopeEffect i s'.

Definition with_cards (c : Cards) (s : Settings) : Settings := {|
  se_input := se_input s; se_cards := Some c; se_toasts := se_toasts s;
  se_redirects := se_redirects s |}.

(** The page is rendered with other data, or a card is used or answered. *)
Inductive settings_step : Settings -> Settings -> Prop :=
  | st_render i s : settings_step s (renderSettings i s)
  | st_key c k s :
      se_cards s = Some c -> key_step (ca_key c) k -> kc_props k = kc_props (ca_key c) ->
      settings_step s (with_cards {| ca_place := ca_place c; ca_key := k; ca_cache := ca_cache c |} s)
  | st_cache c k s :
      se_cards s = Some c ->
      cache_step (t "user.cacheS3RegionRequired" []) (t "user.cacheS3BucketRequired" []) (ca_cache c) k ->
      cc_props k = cc_props (ca_cache c) ->
      settings_step s (with_cards {| ca_place := ca_place c; ca_key := ca_key c; ca_cache := k |} s).

Inductive settings_reachable : Settings -> Prop :=
  | se_mount i : settings_reachable (mountSettings i)
  | se_next s s' : settings_reachable s -> settings_step s s' -> settings_reachable s'.

(** * Properties *)

(** ** The account of a request *)

(** The installation that a request names on an open page: none for the reader's
    own account, else one that the reader manages, of the account of the page;
    with one installation per account it is the one whose preferences the
    dashboard selects for the page. *)
Record request_scoped (i : SettingsInput) (n : option Z) (p : option UserPreferences) : Prop := {
  sc_open : scopeAccess i = ScopeManageable;
  sc_named :
    let requested := normalized (route_accountLogin (si_route i)) in
    match n with
    | None => opt_truthy requested = false \/ requested = normalized (si_login i)
    | Some m => exists a, a ∈ si_installations i /\ inst_id a = m /\ manageable a = Some true /\
        normalized (account_login a) = requested
    end;
  sc_preferences : p = si_preferences i;
  sc_selected : distinct_logins (si_installations i) ->
    n = settingsPreferenceInstallationID (si_installations i) (route_accountLogin (si_route i))
          (si_login i);
}.

(** What one event adds to the requests of a card: nothing but requests of the page
    as it was when the event happened. *)
Definition only_scoped {A} (props : A -> option Z * option UserPreferences) (i : SettingsInput)
    (before after : list A) : Prop :=
  exists added, after ⊆+ before ++ added /\
    Forall (fun x => request_scoped i (props x).1 (props x).2) added.

Lemma manageable_listed (insts : list GitHubInstallation) (cur : option string)
    (a : GitHubInstallation) :
  a ∈ insts -> manageable a = Some true -> a ∈ settingsInstallations insts cur.
Proof.
  intros Ha Hm. assert (a ∈ manageableSettingsInstallations insts cur) as H
    by (apply elem_of_manageable; auto).
  unfold settingsInstallations. destruct cur as [login|]; [|done].
  destruct (find_first _ _); [done|]. destruct (str_truthy login); [by right|done].
Qed.

(** An open page is the reader's own, or of an account the reader manages. *)
Lemma open_page (i : SettingsInput) :
  scopeAccess i = ScopeManageable ->
  let requested := normalized (route_accountLogin (si_route i)) in
  (opt_truthy requested = false \/ requested = normalized (si_login i)) \/
  exists a, a ∈ si_installations i /\ manageable a = Some true /\
    normalized (account_login a) = requested.
Proof.
  unfold scopeAccess, settingsScopeAccessState, canManageSettingsScope.
  destruct (opt_truthy _) eqn:Et; cbn [negb orb]; [|by left; left].
  case_bool_decide; [by left; right|]. destruct (si_loaded i); [|done]. cbn [negb].
  destruct (existsb _ _) eqn:E; [|done]. intros _. right.
  apply existsb_exists in E as (a & Ha%list_elem_of_In & Hm). split_bools.
  exists a. split_and!; [done..|]. by apply has_login_true.
Qed.

Lemma preference_listed (i : SettingsInput) :
  scopeAccess i = ScopeManageable ->
  let requested := normalized (route_accountLogin (si_route i)) in
  match preferenceInstallationID i with
  | None => opt_truthy requested = false \/ requested = normalized (si_login i)
  | Some m => exists a, a ∈ si_installations i /\ inst_id a = m /\ manageable a = Some true /\
      normalized (account_login a) = requested
  end.
Proof.
  intros Ho. cbv zeta. unfold preferenceInstallationID, settingsPreferenceInstallationID.
  destruct (opt_truthy _) eqn:Et; cbn [negb orb]; [|by left]. case_bool_decide as Hc; [by right|].
  destruct (find_first _ _) as [a|] eqn:E; cbn [fmap option_fmap option_map].
  - apply find_first_Some in E as [Ha Hl%has_login_true].
    apply elem_of_settingsInstallations in Ha as [Ha|[Ha Hm]]; [congruence|]. by exists a.
  - exfalso. destruct (open_page i Ho) as [[H|H]|(a & Ha & Hm & Hl)]; [congruence|done|].
    rewrite find_first_None in E. specialize (E a (manageable_listed _ _ a Ha Hm)).
    by rewrite (proj2 (has_login_true _ _) Hl) in E.
Qed.

Lemma selected_scope (i : SettingsInput) :
  scopeAccess i = ScopeManageable -> distinct_logins (si_installations i) ->
  preferenceInstallationID i =
    settingsPreferenceInstallationID (si_installations i) (route_accountLogin (si_route i)) (si_login i).
Proof.
  intros Ho Hd. pose proof (preference_listed i Ho) as Hp. cbv zeta in Hp. revert Hp.
  unfold preferenceInstallationID, settingsPreferenceInstallationID.
  destruct (opt_truthy _) eqn:Et; cbn [negb orb]; [|done]. case_bool_decide as Hc; [done|].
  destruct (find_first _ (accountRows i)) as [a|] eqn:Ea; cbn [fmap option_fmap option_map];
    [|by intros [?|?]].
  intros (b & Hb & Eb & _ & Hl). rewrite <- Eb.
  destruct (find_first _ (si_installations i)) as [c|] eqn:Ec; cbn.
  - apply find_first_Some in Ec as [Hi Hlc%has_login_true]. do 2 f_equal.
    apply Hd; [done..|by rewrite Hl|congruence].
  - rewrite find_first_None in Ec. specialize (Ec b Hb).
    by rewrite (proj2 (has_login_true _ _) Hl) in Ec.
Qed.

(** Cards are rendered on an open page. *)
Lemma card_open (i : SettingsInput) (p : CardPlace) :
  cardPlace i = Some p ->
  scopeAccess i = ScopeManageable /\
  match p with InTabs => True | Alone => selectedAccount i = None end.
Proof.
  unfold cardPlace, settingsPanel. destruct (scopeAccess i); [done| |done].
  destruct (selectedAccount i), (route_tab (si_route i)); try done; by intros [= <-].
Qed.

(** The page without a selected account is the reader's own. *)
Lemma alone_own (i : SettingsInput) :
  scopeAccess i = ScopeManageable -> selectedAccount i = None ->
  let requested := normalized (route_accountLogin (si_route i)) in
  opt_truthy requested = false \/ requested = normalized (si_login i).
Proof.
  intros Ho Hs. destruct (open_page i Ho) as [H|(a & Ha & Hm & Hl)]; [done|].
  unfold selectedAccount in Hs. rewrite find_first_None in Hs.
  specialize (Hs a (manageable_listed _ _ a Ha Hm)).
  by rewrite (proj2 (has_login_true _ _) Hl) in Hs.
Qed.

Lemma card_scoped (i : SettingsInput) (p : CardPlace) :
  cardPlace i = Some p -> request_scoped i (cardInstallation p i) (si_preferences i).
Proof.
  intros [Ho Hp]%card_open. destruct p; cbn [cardInstallation].
  - split; [done|by apply preference_listed|done|by apply selected_scope].
  - pose proof (alone_own i Ho Hp) as Hown. split; [done|done|done|]. intros _.
    unfold settingsPreferenceInstallationID. cbv zeta in Hown.
    destruct (opt_truthy _); [|done]. destruct Hown as [Hown|Hown]; [done|].
    rewrite Hown. by rewrite bool_decide_eq_true_2.
Qed.

(** ** The requests of the cards *)

Definition key_scope (p : KeyProps) : option Z * option UserPreferences :=
  (kp_installation p, kp_preferences p).
Definition cache_scope (p : CacheProps) : option Z * option UserPreferences :=
  (cp_installation p, cp_preferences p).

(** The requests of the cards on the page, of which there are none without cards. *)
Definition keySaves (s : Settings) : list KeySave :=
  default [] (kc_sent ∘ ca_key <$> se_cards s).
Definition keyRemovals (s : Settings) : list KeyProps :=
  default [] (kc_removals ∘ ca_key <$> se_cards s).
Definition cacheSaves (s : Settings) : list (CacheInput * CacheProps) :=
  default [] (cc_sent ∘ ca_cache <$> se_cards s).
Definition cacheRemovals (s : Settings) : list CacheProps :=
  default [] (cc_removals ∘ ca_cache <$> se_cards s).

(** The cards show the account of the page. *)
Record cards_inv (i : SettingsInput) (c : Cards) : Prop := {
  cv_place : cardPlace i = Some (ca_place c);
  cv_key : kc_props (ca_key c) = keyProps (ca_place c) i;
  cv_cache : cc_props (ca_cache c) = cacheProps (ca_place c) i;
}.

Section scoped.
Context {A : Type} (props : A -> option Z * option UserPreferences) (i : SettingsInput).

Lemma scoped_kept (l l' : list A) : l' ⊆+ l -> only_scoped props i l l'.
Proof. intros H. exists []. by rewrite app_nil_r. Qed.

Lemma scoped_more (l : list A) (x : A) :
  request_scoped i (props x).1 (props x).2 -> only_scoped props i l (l ++ [x]).
Proof. intros H. exists [x]. split; [done|by constructor]. Qed.

Lemma scoped_answered (l l1 l2 : list A) (x : A) :
  l = l1 ++ x :: l2 -> only_scoped props i l (l1 ++ l2).
Proof. intros ->. apply scoped_kept, submseteq_app; [done|by apply submseteq_cons]. Qed.
End scoped.
Create HintDb scope.
#[local] Hint Resolve scoped_kept scoped_more scoped_answered : scope.

Lemma key_step_scoped (i : SettingsInput) (c c' : KeyCard) :
  key_step c c' ->
  request_scoped i (kp_installation (kc_props c)) (kp_preferences (kc_props c)) ->
  only_scoped (key_scope ∘ ks_props) i (kc_sent c) (kc_sent c') /\
  only_scoped key_scope i (kc_removals c) (kc_removals c').
Proof.
  intros Hs Hp.
  assert (forall u k m b, only_scoped (key_scope ∘ ks_props) i (kc_sent c) (kc_sent (startSave u k m b c)))
    as Hsave by (intros u k m b; by apply scoped_more).
  assert (only_scoped (key_scope ∘ ks_props) i (kc_sent c) (kc_sent c) /\
    only_scoped key_scope i (kc_removals c) (kc_removals c)) as [H1 H2] by (split; by apply scoped_kept).
  destruct Hs as [p c|v c Ho|r c Ho Hr|b c Ho|m1 m2 c Ho He|c Ho|c Ho|c Ho|c Ho|c Ho|c Ho|
    l call r result fb c E|l p r result fb c E]; try (split; assumption).
  - unfold typeKey. by case_goal.
  - unfold pickKeyRegion. by case_goal.
  - unfold switchMode. case_goal; [done|]. case_goal; by split.
  - unfold submitKey. destruct (kc_mode c); [|by split]. case_goal; [done|]. case_goal; by split.
  - unfold openReplace. by case_goal.
  - unfold openRemove. by case_goal.
  - unfold closeReplace. by case_goal.
  - unfold closeRemove. by case_goal.
  - unfold replaceInheritedSource. case_goal; by split.
  - unfold removeKey. case_goal; [done|]. split; [done|by apply scoped_more].
  - destruct result; by split.
  - apply (scoped_answered key_scope i) in E. destruct result; by split.
Qed.

Lemma cache_step_scoped (m1 m2 : string) (i : SettingsInput) (c c' : CacheCard) :
  cache_step m1 m2 c c' ->
  request_scoped i (cp_installation (cc_props c)) (cp_preferences (cc_props c)) ->
  only_scoped (cache_scope ∘ snd) i (cc_sent c) (cc_sent c') /\
  only_scoped cache_scope i (cc_removals c) (cc_removals c').
Proof.
  intros Hs Hp.
  assert (only_scoped (cache_scope ∘ snd) i (cc_sent c) (cc_sent c) /\
    only_scoped cache_scope i (cc_removals c) (cc_removals c)) as [H1 H2] by (split; by apply scoped_kept).
  destruct Hs as [p c|f v c|c|result fb c Hn|c|l p r result fb c E]; try (split; assumption).
  - unfold editCache. by case_goal.
  - unfold submitCache. case_goal; [done|]. case_goal; [done|]. case_goal; [done|].
    split; [by apply scoped_more|done].
  - unfold removeCache. case_goal; [done|]. split; [done|by apply scoped_more].
  - split; [done|by apply (scoped_answered cache_scope i) in E].
Qed.

Lemma mount_cards_inv (i : SettingsInput) (p : CardPlace) :
  cardPlace i = Some p -> cards_inv i (mountCards p i).
Proof. intros Hp. by split. Qed.

Lemma render_inv (i i' : SettingsInput) (cards : option Cards) :
  (forall c, cards = Some c -> cards_inv i c) ->
  forall c, renderCards i' cards = Some c -> cards_inv i' c.
Proof.
  intros Hc c. unfold renderCards. destruct (cardPlace i') as [p|] eqn:Ep; [|done].
  destruct cards as [d|]; [|by intros [= <-]; apply mount_cards_inv].
  case_bool_decide as Hd; [|by intros [= <-]; apply mount_cards_inv]. intros [= <-].
  by split.
Qed.

Lemma scopeEffect_cards (i : SettingsInput) (s : Settings) :
  se_cards (scopeEffect i s) = se_cards s /\ se_input (scopeEffect i s) = se_input s.
Proof. unfold scopeEffect. by destruct (scopeAccess i). Qed.

Lemma settings_inv (s : Settings) :
  settings_reachable s -> forall c, se_cards s = Some c -> cards_inv (se_input s) c.
Proof.
  induction 1 as [i|s s' _ IH Hs].
  - destruct (scopeEffect_cards i {| se_input := i; se_cards := renderCards i None;
      se_toasts := []; se_redirects := [] |}) as [E1 E2].
    unfold mountSettings. rewrite E1, E2. cbn [se_input se_cards].
    by apply (render_inv i).
  - destruct Hs as [i s|d k s Ed Hs Hk|d k s Ed Hs Hk].
    + assert (se_cards (renderSettings i s) = renderCards i (se_cards s) /\
        se_input (renderSettings i s) = i) as [-> ->].
      { unfold renderSettings. case_bool_decide; [done|]. by destruct (scopeEffect_cards i
          {| se_input := i; se_cards := renderCards i (se_cards s); se_toasts := se_toasts s;
             se_redirects := se_redirects s |}) as [-> ->]. }
      by apply (render_inv (se_input s)).
    + intros c [= <-]. destruct (IH d Ed) as [H1 H2 H3]. split; [done| |done]. cbn. congruence.
    + intros c [= <-]. destruct (IH d Ed) as [H1 H2 H3]. split; [done|done|]. cbn. congruence.
Qed.

(** A render sends nothing: cards that are mounted have sent nothing. *)
Lemma render_requests (i : SettingsInput) (s : Settings) :
  keySaves (renderSettings i s) ⊆+ keySaves s /\ keyRemovals (renderSettings i s) ⊆+ keyRemovals s /\
  cacheSaves (renderSettings i s) ⊆+ cacheSaves s /\
  cacheRemovals (renderSettings i s) ⊆+ cacheRemovals s.
Proof.
  assert (se_cards (renderSettings i s) = renderCards i (se_cards s)) as E.
  { unfold renderSettings. case_bool_decide; [done|]. by destruct (scopeEffect_cards i
      {| se_input := i; se_cards := renderCards i (se_cards s); se_toasts := se_toasts s;
         se_redirects := se_redirects s |}) as [-> _]. }
  unfold keySaves, keyRemovals, cacheSaves, cacheRemovals. rewrite E. unfold renderCards.
  destruct (cardPlace i), (se_cards s) as [d|]; try case_bool_decide; cbn;
    split_and!; first [reflexivity|apply submseteq_nil_l].
Qed.

Lemma scoped_card (s : Settings) (c : Cards) :
  cards_inv (se_input s) c ->
  request_scoped (se_input s) (kp_installation (kc_props (ca_key c))) (kp_preferences (kc_props (ca_key c))) /\
  request_scoped (se_input s) (cp_installation (cc_props (ca_cache c)))
    (cp_preferences (cc_props (ca_cache c))).
Proof. intros [Hp -> ->]. split; by apply card_scoped. Qed.

(** C17.  Whatever accounts the reader has visited on the settings page, and while
    requests of its cards are under way, what happens next sends no save and no
    removal of the credentials or of the cache bucket but one for the account that
    the page shows at that moment: the page is open, the installation named is
    none for the reader's own account and else one of that account which the
    reader manages, the settings are those on screen, and, when each account has
    one installation, it is the very installation whose preferences were on
    screen. *)
Theorem settings_requests_scoped (s s' : Settings) :
  settings_reachable s -> settings_step s s' ->
  only_scoped (key_scope ∘ ks_props) (se_input s) (keySaves s) (keySaves s') /\
  only_scoped key_scope (se_input s) (keyRemovals s) (keyRemovals s') /\
  only_scoped (cache_scope ∘ snd) (se_input s) (cacheSaves s) (cacheSaves s') /\
  only_scoped cache_scope (se_input s) (cacheRemovals s) (cacheRemovals s').
Proof.
  intros Hs Hstep. pose proof (settings_inv s Hs) as Hi.
  destruct Hstep as [i s|c k s Ec Hk _|c k s Ec Hk _].
  - destruct (render_requests i s) as (H1 & H2 & H3 & H4). auto with scope.
  - destruct (scoped_card s c (Hi c Ec)) as [Hp _].
    destruct (key_step_scoped _ _ _ Hk Hp). unfold keySaves, keyRemovals, cacheSaves, cacheRemovals.
    rewrite Ec. cbn. auto with scope.
  - destruct (scoped_card s c (Hi c Ec)) as [_ Hp].
    destruct (cache_step_scoped _ _ _ _ _ Hk Hp). unfold keySaves, keyRemovals, cacheSaves, cacheRemovals.
    rewrite Ec. cbn. auto with scope.
Qed.

(** ** Where the page leads *)

Definition setRoute (r : AccountSettingsRoute) (i : SettingsInput) : SettingsInput := {|
  si_installations := si_installations i; si_loaded := si_loaded i; si_login := si_login i;
  si_route := r; si_preferences := si_preferences i; si_setup := si_setup i;
  si_regions := si_regions i |}.

Lemma normalized_target (account login : option string) (tab : AccountSettingsTab) :
  opt_truthy (trim <$> account) = true ->
  normalized (route_accountLogin (settings_target account login tab)) = normalized account.
Proof.
  unfold settings_target. cbn. intros ->. destruct account as [a|]; [|done]. cbn.
  by rewrite trim_trim.
Qed.

Lemma target_own (login : option string) (tab : AccountSettingsTab) :
  normalized (route_accountLogin (settings_target login login tab)) = normalized login.
Proof.
  destruct (opt_truthy (trim <$> login)) eqn:E; [by apply normalized_target|].
  unfold settings_target. cbn. by rewrite E.
Qed.

(** A closed page sends the reader away once: the address it goes to is that of a
    settings page, which is open whatever the accounts of the reader are, and
    the message names the account that was asked for. *)
Theorem closed_page_leaves (i : SettingsInput) (insts : list GitHubInstallation) (loaded : bool) :
  utf8_opt (trim <$> si_login i) -> scopeAccess i = ScopeForbidden ->
  (exists login, deniedMessage i = t "user.sandboxPermissionDeniedFor" [("login", login)] /\
     trim <$> route_accountLogin (si_route i) = Some login) /\
  exists r, parseAccountSettingsRoute (settingsAddress i) (si_login i) = Some r /\
    settingsScopeAccessState insts (route_accountLogin r) (si_login i) loaded = ScopeManageable.
Proof.
  intros Hu Hf. split.
  - unfold scopeAccess, settingsScopeAccessState in Hf. unfold deniedMessage.
    rewrite opt_truthy_normalized in Hf.
    destruct (trim <$> route_accountLogin (si_route i)) as [login|]; [|done].
    cbn [opt_truthy] in Hf |- *. destruct (str_truthy login); [by exists login|done].
  - exists (settings_target (si_login i) (si_login i) TabPreferences).
    split; [by apply parse_settings_target|].
    unfold settingsScopeAccessState. rewrite target_own.
    by rewrite (bool_decide_eq_true_2 (normalized (si_login i) = normalized (si_login i))), orb_true_r.
Qed.

(** C28.  The button of an account opens the page of that account, on the tab that was
    shown, once the accounts are loaded: the address is read back as the
    account, the page is open, and the account selected has its login. *)
Theorem account_button_opens (i : SettingsInput) (a : GitHubInstallation) :
  let address := accountSettingsPath (account_login a) (si_login i) (route_tab (si_route i)) in
  a ∈ accountRows i -> si_loaded i = true -> opt_truthy (trim <$> account_login a) = true ->
  utf8_opt (trim <$> account_login a) ->
  exists r b, parseAccountSettingsRoute address (si_login i) = Some r /\
    normalized (account_login b) = normalized (account_login a) /\
    settingsPanel (setRoute r i) = AccountPanel b (route_tab (si_route i)).
Proof.
  intros address Ha Hl Ht Hu.
  set (r := settings_target (account_login a) (si_login i) (route_tab (si_route i))).
  assert (normalized (route_accountLogin r) = normalized (account_login a)) as Er
    by (by apply normalized_target).
  destruct (selectedAccount (setRoute r i)) as [b|] eqn:Eb.
  2: { unfold selectedAccount in Eb. rewrite find_first_None in Eb. specialize (Eb a Ha).
       cbn [si_route setRoute] in Eb.
       by rewrite (proj2 (has_login_true _ a) (eq_sym Er)) in Eb. }
  exists r, b. split; [by apply parse_settings_target|].
  pose proof Eb as [_ Hb%has_login_true]%find_first_Some. cbn [si_route setRoute] in Hb.
  split; [congruence|]. unfold settingsPanel. rewrite Eb.
  assert (scopeAccess (setRoute r i) = ScopeManageable) as ->; [|done].
  unfold scopeAccess, settingsScopeAccessState, canManageSettingsScope.
  cbn [si_route setRoute si_login si_loaded si_installations]. rewrite Er, Hl. cbn [negb].
  case_match; [done|].
  apply elem_of_settingsInstallations in Ha as [Ha|[Ha Hm]].
  - rewrite Ha, bool_decide_eq_true_2, orb_true_r in H by done. done.
  - assert (existsb (fun x => bool_decide (manageable x = Some true) &&
      has_login (normalized (account_login a)) x) (si_installations i) = true) as Hx; [|by rewrite Hx].
    apply existsb_exists. exists a. split; [by apply list_elem_of_In|].
    rewrite Hm, bool_decide_eq_true_2 by done. by apply has_login_true.
Qed.
End page.

(** ** Examples *)

Definition settings_input (account : option string) (tab : AccountSettingsTab)
    (installations : list GitHubInstallation) : SettingsInput := {|
  si_installations := installations; si_loaded := true; si_login := Some "octocat";
  si_route := {| route_accountLogin := account; route_tab := tab |};
  si_preferences := Some {|
    cache := {| cache_configured := true; cache_region := Some "z0"; cache_bucket := Some "b";
                cache_prefix := None; cache_endpoint := None; cache_updated_at := None |};
    sandbox := example_sandbox |}; si_setup := false;
  si_regions := [example_region] |}.

Definition keys_shown : translate := fun key _ => key.

Definition onKey (f : KeyCard -> KeyCard) (s : Settings) : Settings :=
  match se_cards s with
  | Some c => with_cards {| ca_place := ca_place c; ca_key := f (ca_key c); ca_cache := ca_cache c |} s
  | None => s
  end.

Definition keyOf (s : Settings) : option KeyCard := ca_key <$> se_cards s.

Lemma onKey_step (f : KeyCard -> KeyCard) (s : Settings) :
  (forall k, keyOf s = Some k -> key_step k (f k) /\ kc_props (f k) = kc_props k) ->
  settings_reachable keys_shown s -> settings_reachable keys_shown (onKey f s).
Proof.
  intros Hf Hs. unfold onKey. destruct (se_cards s) as [c|] eqn:E; [|done].
  destruct (Hf (ca_key c)) as [H1 H2]; [by unfold keyOf; rewrite E|].
  eapply se_next; [done|by apply st_key].
Qed.

(** A key is typed on the reader's page, and saved on the page of an account. *)
Definition example_typed : Settings :=
  onKey (typeKey "secret")
    (mountSettings keys_shown
       (settings_input (Some "octocat") TabPreferences [example_installation 7 "acme"])).

Definition example_moved : Settings :=
  renderSettings keys_shown
    (settings_input (Some "Acme") TabPreferences [example_installation 7 "acme"]) example_typed.

Lemma example_moved_reachable : settings_reachable keys_shown example_moved.
Proof.
  apply (se_next _ example_typed); [|apply st_render]. apply onKey_step; [|apply se_mount].
  intros k [= <-]. split; [|reflexivity]. apply ky_type. vm_compute. reflexivity.
Qed.

(** There the bucket is removed: for that account. *)
Definition bucket_removed : Settings :=
  match se_cards example_moved with
  | Some c => with_cards {| ca_place := ca_place c; ca_key := ca_key c;
                            ca_cache := removeCache (ca_cache c) |} example_moved
  | None => example_moved
  end.

Lemma settings_requests_scoped_witness :
  map (fun k => kp_installation (ks_props k)) (keySaves (onKey (submitKey "" "") example_moved)) =
    [Some 7%Z] /\
  only_scoped (key_scope ∘ ks_props) (se_input example_moved) (keySaves example_moved)
    (keySaves (onKey (submitKey "" "") example_moved)) /\
  map cp_installation (cacheRemovals bucket_removed) = [Some 7%Z] /\
  only_scoped cache_scope (se_input example_moved) (cacheRemovals example_moved)
    (cacheRemovals bucket_removed).
Proof.
  split; [by vm_compute|]. split; [|split; [by vm_compute|]].
  - apply (settings_requests_scoped keys_shown example_moved); [apply example_moved_reachable|].
    apply (st_key _ (default (mountCards Alone (se_input example_moved)) (se_cards example_moved)));
      [reflexivity| |reflexivity]. apply ky_submit; reflexivity.
  - apply (settings_requests_scoped keys_shown example_moved); [apply example_moved_reachable|].
    apply (st_cache _ (default (mountCards Alone (se_input example_moved)) (se_cards example_moved)));
      [reflexivity|apply cy_remove|reflexivity].
Defined.

(** Two installations of one account, of which the reader manages the second: the
    dashboard selects the preferences of the first, the page saves those of the
    second. *)
Example twice_installed :
  let first := {| inst_id := 3; inst_account_id := 3; inst_installation_id := 3;
    account_login := Some "acme"; account_name := None; account_avatar := None;
    manageable := Some false; inst_repositories := []; inst_created_at := "";
    inst_updated_at := "" |} in
  let i := settings_input (Some "acme") TabPreferences [first; example_installation 7 "acme"] in
  scopeAccess i = ScopeManageable /\ preferenceInstallationID i = Some 7%Z /\
  settingsPreferenceInstallationID (si_installations i) (route_accountLogin (si_route i)) (si_login i) =
    Some 3%Z.
Proof. by vm_compute. Qed.

(** The repositories tab of an account, which has moved, has nothing below the tabs;
    the addresses of that tab are those of the repository page. *)
Example repositories_tab_empty :
  let i := settings_input (Some "octocat") TabRepositories [] in
  (exists a, settingsPanel i = AccountPanel a TabRepositories) /\
  cardPlace i = None /\ sandboxPage i = None /\ TabRepositories ∉ settingsTabList.*1.
Proof.
  split_and!; [by eexists|done..|]. unfold settingsTabList. cbn. set_solver.
Qed.

Lemma closed_page_leaves_witness :
  let i := settings_input (Some "acme") TabPreferences [] in
  scopeAccess i = ScopeForbidden /\
  exists r, parseAccountSettingsRoute (settingsAddress i) (si_login i) = Some r /\
    settingsScopeAccessState [] (route_accountLogin r) (si_login i) false = ScopeManageable.
Proof.
  split; [by vm_compute|].
  refine (proj2 (closed_page_leaves keys_shown (settings_input (Some "acme") TabPreferences []) [] false _ _));
    [|by vm_compute].
  intros s [= <-]. by apply utf8b_sound.
Defined.

Lemma account_button_opens_witness :
  let i := settings_input (Some "octocat") TabSandboxInstances [example_installation 7 "Acme Ltd"] in
  exists r b,
    parseAccountSettingsRoute "/organizations/Acme%20Ltd/sandbox-instances" (Some "octocat") = Some r /\
    normalized (account_login b) = Some "acme ltd" /\
    settingsPanel (setRoute r i) = AccountPanel b TabSandboxInstances.
Proof.
  refine (account_button_opens (settings_input (Some "octocat") TabSandboxInstances
    [example_installation 7 "Acme Ltd"]) (example_installation 7 "Acme Ltd") _ _ _ _).
  - right. left.
  - done.
  - done.
  - intros s [= <-]. by apply utf8b_sound.
Defined.
