(* ===== verification/RepositoryView.v ===== *)
(** What the repository page shows and offers: the rendering of
    src/ui/src/components/repository-readiness-page.tsx over the machines of
    Repositories. *)
From S2P Require Import Prelude.
From stdpp Require Import relations.
From S2P Require Import JsString.
From S2P Require Import JsUri.
From S2P Require Import AdminTypes.
From S2P Require Import Errors.
From S2P Require Import LoadPolicy.
From S2P Require Import AppRoutes.
From S2P Require Import Readiness.
From S2P Require Import Repositories.
From S2P Require Import Controls.

(** The state behind the page: the lists, the text of the filter, and the
    synchronisation of the installations. *)
Record RepositoryPage := {
  pg_lists : Repositories;
  pg_filter : string;
  pg_sync : Sync;
}.

Section view.
Context (t : translate) (baseCompare : string -> string -> Z).
(** What the page is also given: the link of the GitHub App, the settings of the
    account shown, and whether they are being loaded. *)
Context (installURL : option string) (preferences : option UserPreferences) (loading : bool).

Abbreviation text := (fun key => t key []).

(** ** The accounts *)

Definition installationLabel (i : GitHubInstallation) : string :=
  or_str (account_name i) (or_str (account_login i) "GitHub").

(** [InstallationAvatar]: the image, or two letters with their name. *)
Definition installationAvatar (i : GitHubInstallation) : string + string * string :=
  match or_null (account_avatar i) with
  | Some avatar => inl avatar
  | None => inr (toUpperCase (js_take 2 (installationLabel i)),
                 t "common.namedAvatar" [("name", installationLabel i)])
  end.

(** A row of the list: the name, the login below a name, and whether it is the
    account shown. *)
Definition installationRow (r : Repositories) (i : GitHubInstallation) :
    string * option string * bool :=
  (accountDisplayName i,
   if opt_truthy (account_name i) && opt_truthy (account_login i) then account_login i else None,
   bool_decide (inst_id <$> selectedInstallation r = Some (inst_id i))).

(** The heading of the account shown. *)
Definition accountHeading (r : Repositories) (i : GitHubInstallation) : string * string :=
  (accountDisplayName i, or_str (account_login i) (or_str (rp_login r) "GitHub")).

(** ** Access to repositories *)

Inductive RowTone := RowSuccess | RowWarning | RowOutline | RowDestructive.

Definition accessBadgeShown (b : AccessBadge) : RowTone * string :=
  match b with
  | AccessUnavailable => (RowDestructive, text "repositories.accessUnavailable")
  | CheckingAccess => (RowOutline, text "repositories.checkingAccess")
  | Connected => (RowSuccess, text "repositories.connected")
  | ChooseRepositories => (RowWarning, text "repositories.chooseRepositories")
  end.

Definition repositoriesWithJobs (rows : list (string * bool)) : nat :=
  List.length (filter (fun r : string * bool => r.2 = true) rows).

Definition count (n : nat) : string := pretty (Z.of_nat n).

Definition accessSummary (r : Repositories) (i : GitHubInstallation) : string :=
  match repositoryError r (inst_id i) with
  | Some _ => text "repositories.authorizationUnavailable"
  | None =>
      match rp_authorized r !! inst_id i with
      | None => text "repositories.loadingAuthorization"
      | Some authorized =>
          let rows := repositoryRows baseCompare authorized (inst_repositories i) in
          t "repositories.authorizationSummary"
            [("authorized", count (List.length authorized));
             ("withJobs", count (repositoriesWithJobs rows))]
      end
  end.

(** The link to GitHub beside the summary. *)
Definition accessLink (r : Repositories) : string * string :=
  (if repositoryOnlyAccess preferences loading then text "repositories.viewGitHub"
   else text "repositories.manageGitHub",
   repositoryAccessURL preferences loading (selectedInstallation r)).

Definition countBadge (r : Repositories) (i : GitHubInstallation) : string :=
  match rp_authorized r !! inst_id i with
  | None => text "repositories.loading"
  | Some authorized =>
      t "repositories.repositoriesCount" [("count", count (List.length authorized))]
  end.

Definition rowBadge (hasJobs : bool) : RowTone * string :=
  if hasJobs then (RowSuccess, text "repositories.hasJobs") else (RowOutline, text "repositories.noJobs").

(** ** The Sandbox service *)

Definition readiness : SandboxServiceReadiness :=
  sandboxServiceReadiness (if loading then None else preferences).

Definition sandboxManageable : bool :=
  negb (bool_decide ((preferences ≫= fun p => sandbox_manageable (sandbox p)) = Some false)).

Record SandboxCard := {
  sb_description : string;
  sb_badge : RowTone * string;
  sb_line : string;
  sb_link : option (string * string);
  (** The card is drawn as a warning. *)
  sb_highlighted : bool;
}.

Definition sandboxCard (r : Repositories) : SandboxCard :=
  let selected := selectedInstallation r in
  let ready := readiness_ready readiness in
  let loading := readiness_loading readiness in {|
    sb_description :=
      if loading then text "repositories.checkingService"
      else if ready then sandboxProvider t (readiness_source readiness) selected (rp_login r)
      else missingSandboxDescription t selected (rp_login r);
    sb_badge :=
      if loading then (RowOutline, text "repositories.checking")
      else if ready then (RowSuccess, text "repositories.ready")
      else (RowWarning, if sandboxManageable then text "repositories.setupRequired"
                        else text "repositories.unavailable");
    sb_line :=
      if ready then text "repositories.readyDescription"
      else if loading then text "repositories.checkingDescription"
      else if sandboxManageable then text "repositories.setupDescription"
      else text "repositories.askMember";
    sb_link :=
      if negb loading && sandboxManageable
      then Some (if ready then text "repositories.sandboxSettings"
                 else text "repositories.configureSandbox",
                 sandboxSettingsURL selected (rp_login r))
      else None;
    sb_highlighted := negb loading && negb ready |}.

(** ** What is offered *)

Definition with_rows (r : Repositories) (p : RepositoryPage) : RepositoryPage := {|
  pg_lists := r; pg_filter := pg_filter p; pg_sync := pg_sync p |}.
Definition setFilter (v : string) (p : RepositoryPage) : RepositoryPage := {|
  pg_lists := pg_lists p; pg_filter := v; pg_sync := pg_sync p |}.
Definition startSync (p : RepositoryPage) : RepositoryPage := {|
  pg_lists := pg_lists p; pg_filter := pg_filter p; pg_sync := syncGitHubInstallations (pg_sync p) |}.

(** The account of a button: its address is read back by the page. *)
Definition selectAccount (accountLogin : option string) (p : RepositoryPage) : RepositoryPage :=
  let r := pg_lists p in
  with_rows (repositoriesEffect
    (with_page (rp_shown r) (rp_installations r)
       (repositoryAccountLogin (repositoryPath accountLogin (rp_login r)) (rp_login r))
       (rp_login r) r)) p.

Definition retry (i : GitHubInstallation) (p : RepositoryPage) : RepositoryPage :=
  with_rows (repositoriesEffect (loadAuthorizedRepositories (inst_id i) (pg_lists p))) p.

Definition syncButton (p : RepositoryPage) : list (Control RepositoryPage) :=
  if opt_truthy installURL
  then [Button (if sy_syncing (pg_sync p) then text "repositories.syncing"
                else text "repositories.syncInstallations") (sy_syncing (pg_sync p)) startSync]
  else [].

Definition accountButtons (p : RepositoryPage) : list (Control RepositoryPage) :=
  map (fun i => Button (accountDisplayName i) false (selectAccount (account_login i)))
    (rp_installations (pg_lists p)).

Definition accountControls (p : RepositoryPage) : list (Control RepositoryPage) :=
  match selectedInstallation (pg_lists p) with
  | None => []
  | Some i =>
      Field (text "repositories.filter") (pg_filter p) false setFilter ::
      match repositoryPanel baseCompare (pg_filter p) (pg_lists p) i with
      | PanelError _ => [Button (text "repositories.retry") false (retry i)]
      | _ => []
      end
  end.

Definition repositoryView (p : RepositoryPage) : View RepositoryPage := {|
  vw_page := syncButton p ++ accountButtons p ++ accountControls p; vw_dialog := None |}.

(** The links and notes of an app that can, or cannot, be installed. *)
Definition installLink : string + string :=
  match or_null installURL with
  | Some url => inl url
  | None => inr (text "repositories.installationUnavailable")
  end.

(** * Properties *)

(** The card of the Sandbox service agrees with itself: it is ready when the
    settings of the account resolve to a service, a warning when they are known
    not to, and neither while they are loaded; and it leads to the settings
    exactly when they are known and the reader may change them. *)
Theorem sandbox_card_consistent (r : Repositories) :
  let c := sandboxCard r in
  ((sb_badge c).1 = RowSuccess <->
     exists p, loading = false /\ preferences = Some p /\ resolved_source (sandbox p) <> SrcNone) /\
  (sb_highlighted c = true <->
     exists p, loading = false /\ preferences = Some p /\ resolved_source (sandbox p) = SrcNone) /\
  (sb_highlighted c = true <-> (sb_badge c).1 = RowWarning) /\
  (sb_link c <> None <->
     loading = false /\ preferences <> None /\ repositoryOnlyAccess preferences loading = false).
Proof.
  unfold sandboxCard, repositoryOnlyAccess. cbn. fold sandboxManageable. fold readiness.
  unfold readiness. destruct loading; [|destruct preferences as [p|]]; cbn.
  - split_and!; (split; [done|]); try (by intros (p & ? & _)); try done; by intros [].
  - assert (forall P : ResolvedSource -> Prop,
      (exists q, false = false /\ Some p = Some q /\ P (resolved_source (sandbox q))) <->
      P (resolved_source (sandbox p))) as Hp.
    { intros P. split; [by intros (q & _ & [= <-] & H)|by exists p]. }
    rewrite (Hp (fun s => s <> SrcNone)), (Hp (fun s => s = SrcNone)).
    by destruct (resolved_source (sandbox p)), sandboxManageable; cbn;
      split_and!; split; try done; intros (_ & _ & ?).
  - split_and!; (split; [done|]); try (by intros (p & _ & ? & _)); try done; by intros (_ & ? & _).
Qed.

(** The events of the lists, with the effect of the render that follows. *)
Inductive page_step (answers : Z -> thrown + option (list string) -> Prop) :
    RepositoryPage -> RepositoryPage -> Prop :=
  | pp_lists r p :
      repositories_event t answers (pg_lists p) r ->
      page_step answers p (with_rows (repositoriesEffect r) p)
  | pp_filter v p : page_step answers p (setFilter v p)
  | pp_sync p : sy_syncing (pg_sync p) = false -> page_step answers p (startSync p).

Definition useRepository (p p' : RepositoryPage) : Prop := offers (repositoryView p) p p'.

(** What the reader does on the page is an event of its machines; and a list that
    failed to load can be asked for again. *)
Theorem repository_controls_sound (answers : Z -> thrown + option (list string) -> Prop)
    (p : RepositoryPage) :
  rp_shown (pg_lists p) = true ->
  (forall p', useRepository p p' -> page_step answers p p') /\
  (forall i message, selectedInstallation (pg_lists p) = Some i ->
     repositoryPanel baseCompare (pg_filter p) (pg_lists p) i = PanelError message ->
     useRepository p (retry i p)).
Proof.
  intros Hs. split.
  - intros p' H. unfold useRepository, offers, in_reach, repositoryView in H.
    cbn [vw_page vw_dialog] in H. apply Exists_app in H as [H|H].
    { unfold syncButton in H. destruct (opt_truthy installURL); each_control H.
      destruct H as [Hd ->]. by apply pp_sync. }
    apply Exists_app in H as [H|H].
    { apply Exists_exists in H as (x & (i & -> & Hi)%list_elem_of_fmap & _ & ->).
      apply pp_lists. rewrite Hs. apply re_page. }
    unfold accountControls in H. destruct (selectedInstallation (pg_lists p)) as [i|] eqn:Ei;
      [|by apply Exists_nil in H].
    apply Exists_cons in H as [(_ & v & ->)|H]; [apply pp_filter|].
    destruct (repositoryPanel _ _ _ _) as [message| | | |] eqn:Ep; each_control H.
    destruct H as [_ ->]. apply pp_lists. eapply re_retry; [done..|].
    unfold repositoryPanel in Ep. destruct (repositoryError (pg_lists p) (inst_id i)); [by injection Ep as ->|].
    destruct (rp_authorized _ !! _); [|done]. case_match; [done|].
    by destruct (filteredRows _ _), l.
  - intros i message Hi Hp. unfold useRepository, offers, in_reach, repositoryView.
    cbn [vw_page vw_dialog default].
    apply Exists_app. right. apply Exists_app. right. unfold accountControls.
    rewrite Hi, Hp. right. left. done.
Qed.

(** The button of an account shows that account, whichever was shown. *)
Theorem select_account_shows (p : RepositoryPage) (a : GitHubInstallation) :
  let r := pg_lists p in
  let r' := pg_lists (selectAccount (account_login a) p) in
  a ∈ rp_installations r -> opt_truthy (normalized (account_login a)) = true ->
  utf8_opt (trim <$> account_login a) ->
  exists b, b ∈ rp_installations r /\ selectedInstallation r' = Some b /\
    normalized (account_login b) = normalized (account_login a).
Proof.
  cbv zeta. intros Ha Ht Hu.
  assert (forall r, selectedInstallation (repositoriesEffect r) = selectedInstallation r) as He.
  { intros r. unfold repositoriesEffect. destruct (selectedInstallation r) as [i|] eqn:E; [|done].
    destruct (_ && _); [|done]. exact E. }
  unfold selectAccount. cbn [with_rows pg_lists]. rewrite He. unfold selectedInstallation.
  cbn [with_page rp_installations rp_account rp_login].
  rewrite repositoryPath_roundtrip by done.
  assert (normalized (if negb (opt_truthy (trim <$> account_login a)) ||
      bool_decide (normalized (account_login a) = normalized (rp_login (pg_lists p)))
    then or_null (trim <$> rp_login (pg_lists p)) else trim <$> account_login a) =
    normalized (account_login a)) as En.
  { pose proof Ht as Ht'. rewrite opt_truthy_normalized in Ht'. rewrite Ht'. cbn [negb orb].
    case_bool_decide as Hc.
    - rewrite Hc in *. unfold or_null. rewrite opt_truthy_normalized in Ht. rewrite Ht.
      destruct (rp_login (pg_lists p)); [|done]. cbn. by rewrite trim_trim.
    - destruct (account_login a); [|done]. cbn. by rewrite trim_trim. }
  unfold selectRepositoryInstallation. rewrite En, Ht.
  destruct (find_first _ _) as [b|] eqn:E.
  - apply find_first_Some in E as [Hb Hl%has_login_true]. by exists b.
  - rewrite find_first_None in E. specialize (E a Ha).
    by rewrite (proj2 (has_login_true _ a) eq_refl) in E.
Qed.
End view.
