(* ===== verification/PanelView.v ===== *)
(** What the panel of a job shows and offers: the tabs, the log viewer and the
    console of [RunnerJobLogPanel] and [LogOutput] in
    src/ui/src/components/user-dashboard.tsx, over the machines of LogPanel, JobLogs
    and Terminal. *)
From S2P Require Import Prelude.
From stdpp Require Import relations.
From S2P Require Import JsString.
From S2P Require Import AdminTypes.
From S2P Require Import AdminFormat.
From S2P Require Import Errors.
From S2P Require Import BuildGroups.
From S2P Require Import JobLogs.
From S2P Require Import LogPanel.
From S2P Require Import Terminal.
From S2P Require Import JobView.
From S2P Require Import Controls.

(** ** The log viewer *)

(** A row as it is drawn: the number, the text, its class, and, for the head of a
    group, whether the group is unfolded. *)
Record ShownLine := {
  sl_number : nat;
  sl_text : string;
  sl_class : LineClass;
  sl_expanded : option bool;
}.

Definition shownLine (collapsed : gset nat) (r : ParsedLogLine) : ShownLine := {|
  sl_number := S (line_index r); sl_text := or_str (Some (line_displayText r)) " ";
  sl_class := logLineClass (line_text r);
  sl_expanded := (fun g => negb (bool_decide (g ∈ collapsed))) <$> line_groupID r |}.

(** The lines drawn, or the text of a very long log. *)
Definition shownLog (text : string) (st : CollapseState) : string + list ShownLine :=
  match logRows text st with
  | None => inl text
  | Some rows => inr (map (shownLine (collapsedGroupsOf text st)) rows)
  end.

(** The groups whose heads are buttons. *)
Definition foldButtons (text : string) (st : CollapseState) : list nat :=
  omap line_groupID (default [] (logRows text st)).

(** ** The panel *)

Inductive PanelTab := GitHubLogsTab | RunnerLogsTab | WebConsoleTab | DetailsTab.

#[export] Instance PanelTab_eq_dec : EqDecision PanelTab.
Proof. solve_decision. Defined.

Definition panelTabs : list (PanelTab * string) := [
  (GitHubLogsTab, "user.githubLogs"); (RunnerLogsTab, "user.runnerLogs");
  (WebConsoleTab, "user.webConsole"); (DetailsTab, "user.details") ].

(** The log viewer is mounted by its tab, and forgets what was folded when it is
    unmounted. *)
Record Panel := {
  pv_logs : LogPanel;
  pv_terminal : Terminal;
  pv_tab : PanelTab;
  pv_collapse : CollapseState;
}.

Definition unfolded : CollapseState := {| collapse_text := ""; collapse_groups := ∅ |}.

Section view.
Context (t : translate) (parse : string -> option Z)
  (toLocaleString : Z -> option string -> string) (locale : option string).

Abbreviation text := (fun key => t key []).

(** The text of the log viewer, when one is mounted. *)
Definition outputText (tab : PanelTab) (l : LogPanel) : option string :=
  match tab with
  | GitHubLogsTab =>
      match p_githubLog l with
      | GitHubLog log => Some (localizedLogTextForView t log)
      | GitHubUnavailable _ => None
      end
  | RunnerLogsTab => Some (localizedLogTextForView t (p_runnerLogText l))
  | WebConsoleTab | DetailsTab => None
  end.

Definition with_tab (tab : PanelTab) (collapse : CollapseState) (p : Panel) : Panel := {|
  pv_logs := pv_logs p; pv_terminal := pv_terminal p; pv_tab := tab; pv_collapse := collapse |}.

(** The logs changed: a viewer that is not rendered any more is unmounted. *)
Definition with_logs (l : LogPanel) (p : Panel) : Panel := {|
  pv_logs := l; pv_terminal := pv_terminal p; pv_tab := pv_tab p;
  pv_collapse := match outputText (pv_tab p) l with Some _ => pv_collapse p | None => unfolded end |}.

Definition with_console (s : Terminal) (p : Panel) : Panel := {|
  pv_logs := pv_logs p; pv_terminal := s; pv_tab := pv_tab p; pv_collapse := pv_collapse p |}.

Definition openTab (tab : PanelTab) (p : Panel) : Panel :=
  if bool_decide (tab = pv_tab p) then p else with_tab tab unfolded p.

Definition foldGroup (text : string) (g : nat) (p : Panel) : Panel :=
  with_tab (pv_tab p) (toggleGroup text g (pv_collapse p)) p.

(** ** What is shown *)

Definition stream (name : LogName) : string := replace_first ".log" "" (logName_string name).

(** The line above the log. *)
Definition outputDescription (p : Panel) : string :=
  match pv_tab p with
  | RunnerLogsTab => t "user.runnerLogDescription" [("log", stream (p_selectedLog (pv_logs p)))]
  | _ => text "user.githubLogSource"
  end.

(** What the tab of the GitHub log shows of a log that is not available. *)
Definition unavailableDetail (p : Panel) : option string :=
  match pv_tab p, p_githubLog (pv_logs p) with
  | GitHubLogsTab, GitHubUnavailable detail => Some detail
  | _, _ => None
  end.

Definition hasSession (s : Terminal) : bool :=
  match tm_terminalSession s with Some _ => true | None => false end.

Definition connectLabel (s : Terminal) : string :=
  if hasSession s then text "common.connected"
  else if tm_terminalConnecting s then text "common.connecting" else text "common.connect".

Definition connectDisabled (job : RunnerState) (s : Terminal) : bool :=
  negb (isTerminalAvailable job) || tm_terminalConnecting s || hasSession s.

(** The console: the line of the sandbox, the error, and what covers, or takes
    the place of, the widget. *)
Inductive ConsoleBody := ConsoleOpen | ConsoleCovered (note : string) | ConsoleUnavailable (note : string).

Definition consoleLine (job : RunnerState) : string :=
  or_str (sandbox_id job) (text "user.noActiveSandbox").

Definition consoleError (s : Terminal) : option string :=
  if str_truthy (tm_terminalError s) then Some (tm_terminalError s) else None.

Definition consoleBody (job : RunnerState) (s : Terminal) : ConsoleBody :=
  if isTerminalAvailable job then
    if hasSession s then ConsoleOpen else ConsoleCovered (text "user.connectInteractiveShell")
  else ConsoleUnavailable (t "user.consoleAvailabilityDescription" [("reason", consoleReason t job)]).

(** The fields of the details tab. *)
Definition detailFields (job : RunnerState) : list (string * (Cell * option Cell)) :=
  let plain s := (CellText s, None) in
  let time value := formatTime parse toLocaleString value locale in [
    (text "common.status", plain (runnerStatusLabel t (Status (status job))));
    (text "common.runnerSpec", plain (or_str (runner_spec_name job) (text "user.matchedByLabels")));
    (text "user.workflowRun", workflowRunValue t job);
    (text "user.queued", plain (time (Some (created_at job))));
    (text "common.started", plain (if opt_truthy (running_at job) then time (running_at job) else "-"));
    (text "user.finished",
      let finished := or_opt (completed_at job) (failed_at job) in
      plain (if opt_truthy finished then time finished else "-"));
    (text "user.commit", plain (or_str (head_sha job) "-")) ].

(** ** What is offered *)

Definition tabControls (p : Panel) : list (Control Panel) :=
  map (fun tab => Button (text tab.2) false (openTab tab.1)) panelTabs.

Definition refreshControl (p : Panel) : Control Panel :=
  Button (text "user.refresh") (p_githubLogLoading (pv_logs p))
    (fun p => with_logs (refreshGithubLog (pv_logs p)) p).

Definition streamControls : list (Control Panel) :=
  map (fun name => Button (stream name) false (fun p => with_logs (selectLog name (pv_logs p)) p)) logNames.

Definition foldControls (p : Panel) : list (Control Panel) :=
  match outputText (pv_tab p) (pv_logs p) with
  | Some log => map (fun g => Button "" false (foldGroup log g)) (foldButtons log (pv_collapse p))
  | None => []
  end.

Definition connectControl (job : RunnerState) (p : Panel) : Control Panel :=
  Button (connectLabel (pv_terminal p)) (connectDisabled job (pv_terminal p))
    (fun p => with_console (connectTerminal (isTerminalAvailable job) (pv_terminal p)) p).

Definition panelView (job : RunnerState) (p : Panel) : View Panel := {|
  vw_page := tabControls p ++
    match pv_tab p with
    | GitHubLogsTab => refreshControl p :: foldControls p
    | RunnerLogsTab => streamControls ++ foldControls p
    | WebConsoleTab => [connectControl job p]
    | DetailsTab => []
    end;
  vw_dialog := None |}.

(** * Properties *)

(** ** Folding *)

Lemma row_group (j : nat) (line : string) (g : nat) :
  line_groupID (row j line) = Some g -> g = j /\ includes group_mark line = true.
Proof. unfold row. destruct (includes group_mark line); [|done]. by intros [= <-]. Qed.

Lemma parse_rows (lines : list string) (collapsed : gset nat) (r : ParsedLogLine) :
  r ∈ parseLogLines lines collapsed <->
  exists j line, shown lines collapsed j line /\ r = row j line.
Proof. by destruct (parse_invariant collapsed lines) as (_ & H & _). Qed.

(** The button of a group stays where it is when the group is folded, so that it
    can be unfolded: the lines outside the group are shown as before, none of
    the lines inside a folded group is shown, and pressing the button again
    shows what was shown. *)
Theorem fold_button_stays (log : string) (st : CollapseState) (rows : list ParsedLogLine)
    (r : ParsedLogLine) (g : nat) :
  logRows log st = Some rows -> r ∈ rows -> line_groupID r = Some g ->
  let st' := toggleGroup log g st in
  exists rows', logRows log st' = Some rows' /\ r ∈ rows' /\
    (forall r', ~ open_at (split_lines log) g (line_index r') -> r' ∈ rows' <-> r' ∈ rows) /\
    (g ∈ collapsedGroupsOf log st' -> forall r', r' ∈ rows' -> ~ open_at (split_lines log) g (line_index r')) /\
    logRows log (toggleGroup log g st') = Some rows.
Proof.
  intros Hrows Hr Hg st'. unfold logRows in Hrows |- *. cbv zeta in Hrows |- *.
  destruct (largeLog (split_lines log)) eqn:El; [done|]. injection Hrows as <-.
  pose proof Hr as (j & line & Hs & ->)%parse_rows. apply row_group in Hg as [-> Hm].
  eexists. split; [done|].
  destruct (toggleGroup_spec log j st) as (Hin & Htwice & _). fold st' in Hin, Htwice.
  assert (forall r', ~ open_at (split_lines log) j (line_index r') ->
    r' ∈ parseLogLines (split_lines log) (collapsedGroupsOf log st') <->
    r' ∈ parseLogLines (split_lines log) (collapsedGroupsOf log st)) as Hout.
  { intros r' Ho. rewrite !parse_rows. split; intros (k & line' & (H1 & H2 & H3) & ->);
      exists k, line'; (split; [|done]); (split; [done|]); (split; [done|]);
      intros i Hi Hopen; rewrite row_index in Ho;
      destruct (decide (i = j)) as [->|Hne]; try done; apply (H3 i); try done;
      specialize (Hin i); rewrite decide_False in Hin by done; by apply Hin. }
  split_and!; [|done| |by rewrite Htwice].
  - apply Hout; [|done]. rewrite row_index. intros (_ & Hlt & _). lia.
  - intros Hc r' (k & line' & (_ & _ & H3) & ->)%parse_rows. rewrite row_index. by apply H3.
Qed.

(** ** The controls *)

(** What the reader does in the panel: an event of the logs or of the console, a
    tab, or a fold. *)
Inductive panel_event (job : RunnerState) : Panel -> Panel -> Prop :=
  | pe_logs l p : panel_step (pv_logs p) l -> panel_event job p (with_logs l p)
  | pe_console s p : terminal_step (pv_terminal p) s -> panel_event job p (with_console s p)
  | pe_tab tab p : panel_event job p (openTab tab p)
  | pe_fold log g p :
      outputText (pv_tab p) (pv_logs p) = Some log -> g ∈ foldButtons log (pv_collapse p) ->
      panel_event job p (foldGroup log g p).

(** Every use of a control is an event of the panel; the refresh of the GitHub log
    is not offered while one is under way; and the button of the console is
    disabled exactly when it would do nothing. *)
Theorem panel_controls_sound (job : RunnerState) (p : Panel) :
  (forall p', offers (panelView job p) p p' -> panel_event job p p') /\
  (connectDisabled job (pv_terminal p) = true <->
     connectTerminal (isTerminalAvailable job) (pv_terminal p) = pv_terminal p).
Proof.
  split.
  - intros p' H. unfold offers, in_reach, panelView in H. cbn [vw_page vw_dialog default] in H.
    assert (Exists (fun c => used c p p') (foldControls p) -> panel_event job p p') as Hfold.
    { unfold foldControls. destruct (outputText _ _) as [log|] eqn:Eo; [|by intros ?%Exists_nil].
      intros (c & (g & -> & Hg)%list_elem_of_fmap & _ & ->)%Exists_exists. by apply pe_fold. }
    apply Exists_app in H as [H|H].
    { apply Exists_exists in H as (c & (tab & -> & _)%list_elem_of_fmap & _ & ->). apply pe_tab. }
    destruct (pv_tab p).
    + apply Exists_cons in H as [[_ ->]|H]; [|by apply Hfold]. apply pe_logs, step_refresh.
    + apply Exists_app in H as [H|H]; [|by apply Hfold].
      apply Exists_exists in H as (c & (name & -> & _)%list_elem_of_fmap & _ & ->). apply pe_logs, step_log.
    + each_control H. destruct H as [_ ->]. apply pe_console, tm_connect.
    + by apply Exists_nil in H.
  - unfold connectDisabled, connectTerminal, hasSession. destruct (_ || _); [done|].
    split; [done|]. intros E. apply (f_equal tm_nextTerm) in E. cbn in E. lia.
Qed.
End view.
