(* ===== verification/DashboardView.v ===== *)
(** The dashboard of a user: the frame, the data each page is given, and what the
    jobs page shows around its lists ([UserDashboard], [PullRequestsPage] and their
    helpers in src/ui/src/components/user-dashboard.tsx). *)
From S2P Require Import Prelude.
From S2P Require Import JsString.
From S2P Require Import JsArray.
From S2P Require Import AdminTypes.
From S2P Require Import Errors.
From S2P Require Import LoadPolicy.
From S2P Require Import AppRoutes.
From S2P Require Import BuildGroups.
From S2P Require Import Regions.
From S2P Require Import Readiness.
From S2P Require Import UserLoad.
From S2P Require Import Navigation.
From S2P Require Import Onboarding.
From S2P Require Import JobsPage.
From S2P Require Import JobView.
From S2P Require Import SettingsCards.
From S2P Require Import AccountSettings.

(** ** What the pages are given *)

Section pages.
Context (localeCompare : string -> string -> Z).

(** The installations in the order of the dashboard. *)
Definition dashboardInstallations (s : Journey) : list GitHubInstallation :=
  orderInstallationsByCurrentAccount localeCompare
    (default [] (installations <$> ud_githubApp (dataOf s))) (pl_login (jo_place s)).

Definition canSyncGitHubInstallations (s : Journey) : bool :=
  let app := ud_githubApp (dataOf s) in
  opt_truthy (app ≫= install_url) || opt_truthy (app ≫= app_slug).

Definition hasInstallations (s : Journey) : bool :=
  negb (bool_decide (dashboardInstallations s = [])).

(** The settings page. *)
Definition settingsInput (route : AccountSettingsRoute) (regions : list SandboxRegion) (s : Journey) :
    SettingsInput := {|
  si_installations := dashboardInstallations s;
  si_loaded := bool_decide ((ud_githubApp (dataOf s) ≫= settings_manageability) = Some true);
  si_login := pl_login (jo_place s);
  si_route := route;
  si_preferences := settingsPreferences localeCompare route s;
  si_setup := shouldShowSandboxSetupTask (ud_onboarding (dataOf s));
  si_regions := regions |}.

(** The repository page: the installation selected, and the preferences where
    those on record are of its scope; else they are being loaded. *)
Definition repositoryInstallation (s : Journey) : option GitHubInstallation :=
  selectRepositoryInstallation (dashboardInstallations s)
    (repositoryAccountLogin (pl_path (jo_place s)) (pl_login (jo_place s))) (pl_login (jo_place s)).

Definition repositoryScope (s : Journey) : string :=
  repositoryPreferenceScope (repositoryInstallation s) (pl_login (jo_place s)).

Definition preferencesLoading (s : Journey) : bool :=
  negb (bool_decide (ud_preferencesScope (dataOf s) = repositoryScope s)).

Definition repositoryPreferences (s : Journey) : option UserPreferences :=
  if preferencesLoading s then None else ud_preferences (dataOf s).

(** ** The jobs page *)

(** Its state, from the runners that were loaded. *)
Definition dashboardGroups (t : translate) (s : Journey) : list BuildGroup :=
  groupRunnersByBuildContext t localeCompare (ud_runners (dataOf s)).
End pages.

Section view.
Context (t : translate).

Abbreviation text := (fun key => t key []).

(** The links of the header, and which is marked. *)
Definition navItems (page : UserPageKind) : list (string * string * bool) := [
  ("/jobs", text "user.jobs", match page with HomePage => true | _ => false end);
  ("/repositories", text "user.repositories", match page with RepositoriesPage => true | _ => false end) ].

(** A press on a link of the header: the browser does not follow it. *)
Definition goToPage (page : UserPageKind) (n : Nav) : Nav := setUserPage page n.

(** [SyncGitHubInstallationsButton]: the label, and whether it is disabled. *)
Definition syncAccountsButton (isSyncing : bool) (label loadingLabel : string) : string * bool :=
  (if isSyncing then loadingLabel else label, isSyncing).

(** The list: a note when it is empty, and the button for older jobs. *)
Definition listNote (hasInstallations : bool) (p : JobsPage) : option string :=
  match jp_groups p with
  | [] => Some (if hasInstallations then text "user.noJobsYet" else text "user.syncToTrackJobs")
  | _ :: _ => None
  end.

Definition olderButton (loading : bool) (runnerTotal runnerCount : Z) (p : JobsPage) :
    option (string * bool) :=
  let count := olderRunnerCount runnerTotal runnerCount in
  match jp_groups p with
  | [] => None
  | _ :: _ =>
      if (0 <? count)%Z
      then Some (if loading then text "user.loadingOlderJobs"
                 else t "user.loadOlderJobs" [("count", pretty count)], loading)
      else None
  end.

(** The badge of the selected group. *)
Definition groupBadge (group : BuildGroup) : RunnerStatusSummary * string :=
  let s := buildGroupStatus group in
  (s, buildGroupStatusLabel t group
        match s with SumFailed => "failed" | SumActive => "running" | SumCompleted => "passed" end).

(** What takes the place of a group that is not there. *)
Inductive MainNote :=
  | NoteGroupNotFound
  | NoteNoJobs
  | NoteSync (help : string) (button : option (string * bool)).

Definition mainNote (hasInstallations canSync syncing : bool) (p : JobsPage) : option MainNote :=
  match JobsPage.selected p with
  | Some _ => None
  | None =>
      Some match jp_groups p with
           | _ :: _ => NoteGroupNotFound
           | [] =>
               if hasInstallations then NoteNoJobs
               else NoteSync (if canSync then text "user.syncHelp" else text "user.setupAuth")
                      (if canSync
                       then Some (syncAccountsButton syncing (text "user.syncAccounts") (text "user.syncing"))
                       else None)
           end
  end.

(** The place of the log panel: the job whose panel it is. *)
Definition panelJob (p : JobsPage) : option RunnerState :=
  match JobsPage.selected p with Some _ => selectedJob p | None => None end.

(** * Properties *)

(** The page says that a group was not found exactly when the address names one
    that is not among the groups; otherwise it shows a group, or says that there
    is none. *)
Theorem note_tells_what_is_missing (hasInstallations canSync syncing : bool) (p : JobsPage) :
  (mainNote hasInstallations canSync syncing p = Some NoteGroupNotFound <->
     jp_groups p <> [] /\ jp_key p <> "" /\ forall g, g ∈ jp_groups p -> bg_key g <> jp_key p) /\
  (mainNote hasInstallations canSync syncing p = None <-> exists g, JobsPage.selected p = Some g /\ g ∈ jp_groups p) /\
  (listNote hasInstallations p <> None -> mainNote hasInstallations canSync syncing p <> None /\
     mainNote hasInstallations canSync syncing p <> Some NoteGroupNotFound).
Proof.
  assert (JobsPage.selected p = None <->
    jp_groups p = [] \/ jp_key p <> "" /\ forall g, g ∈ jp_groups p -> bg_key g <> jp_key p) as Hn.
  { unfold JobsPage.selected, selectedOf, selected_group.
    destruct (find_first _ _) as [g|] eqn:E.
    - apply find_first_Some in E as [Hg Hk%bool_decide_eq_true_1]. split; [done|].
      intros [H|[_ H]]; [rewrite H in Hg; by apply elem_of_nil in Hg|by destruct (H g)].
    - rewrite find_first_None in E.
      assert (forall g, g ∈ jp_groups p -> bg_key g <> jp_key p) as Hne
        by (intros g Hg; exact (bool_decide_eq_false_1 _ (E g Hg))).
      destruct (str_truthy (jp_key p)) eqn:Ek.
      + apply str_truthy_true in Ek. split; [auto|done].
      + apply str_truthy_false in Ek. destruct (jp_groups p); [split; auto|].
        split; [done|]. by intros [|[]]. }
  assert (forall g, JobsPage.selected p = Some g -> g ∈ jp_groups p) as Hin.
  { unfold JobsPage.selected, selectedOf, selected_group. intros g.
    destruct (find_first _ _) as [h|] eqn:E; [intros [= <-]; by apply find_first_Some in E as [? _]|].
    destruct (str_truthy _); [done|]. destruct (jp_groups p) as [|h l]; [done|]. intros [= <-]. left. }
  unfold mainNote, listNote. destruct (JobsPage.selected p) as [g|] eqn:Es.
  - pose proof (Hin g eq_refl) as Hg. destruct (jp_groups p) as [|h l] eqn:Eg; [by apply elem_of_nil in Hg|].
    split_and!; [|split; [by exists g|done]|done]. split; [done|]. intros (_ & Hk).
    exfalso. by assert (Some g = None) by (apply Hn; auto).
  - destruct (proj1 Hn eq_refl) as [E|[Hk H]]; [rewrite E|destruct (jp_groups p) as [|h l] eqn:Eg].
    + split_and!; [|split; [done|by intros (? & ? & _)]|by destruct hasInstallations].
      split; [by destruct hasInstallations|by intros [? _]].
    + split_and!; [|split; [done|by intros (? & ? & _)]|by destruct hasInstallations].
      split; [by destruct hasInstallations|by intros [? _]].
    + split_and!; [done|split; [done|by intros (? & ? & _)]|done].
Qed.
End view.

(** ** The product tour

    The steps as src/ui/src/components/user-onboarding-tour.tsx presents them, and
    the elements of the page they point at; the library that draws the tour is not
    modelled. *)
Section tour.
Context (t : translate).

Abbreviation text := (fun key => t key []).

Inductive Placement := BottomStart | Bottom | BottomEnd | TopStart.

Record TourPresentation := {
  tp_title : string;
  tp_content : string;
  tp_placement : Placement;
  (** The step goes to the repositories first. *)
  tp_navigates : bool;
}.

Definition presented (title content : string) (placement : Placement) (navigates : bool) :
    TourPresentation := {|
  tp_title := text title; tp_content := content; tp_placement := placement; tp_navigates := navigates |}.

Definition tourPresentation (step : string) : option TourPresentation :=
  if bool_decide (step = "welcome")
  then Some (presented "tour.welcomeTitle" (text "tour.welcomeContent") BottomStart false)
  else if bool_decide (step = "jobs")
  then Some (presented "user.jobs" (text "tour.jobsContent") Bottom false)
  else if bool_decide (step = "repositories")
  then Some (presented "repositories.title" (text "tour.repositoriesContent") Bottom false)
  else if bool_decide (step = "account-menu")
  then Some (presented "common.accountMenu" (text "tour.accountMenuContent") BottomEnd false)
  else if bool_decide (step = "settings")
  then Some (presented "tour.readinessTitle" (text "tour.readinessContent") BottomStart true)
  else if bool_decide (step = "sandbox-service")
  then Some (presented "tour.sandboxReadiness"
    (text "tour.sandboxContentBefore" +:+ " " +:+ " " +:+ text "tour.qiniuPortal" +:+ ".") TopStart false)
  else None.

(** The tooltip of a step: the position, the button back, and the label of the
    button on. *)
Definition tourTooltip (index size : nat) : string * option string * string :=
  (pretty (S index) +:+ "/" +:+ pretty size,
   if (0 <? index)%nat then Some (text "tour.back") else None,
   if (S index =? size)%nat then text "tour.configureAPIKey" else text "tour.next").

(** The elements that a page of the dashboard marks for the tour: the header, and
    those of the page. *)
Definition tourTargets (page : UserPageKind) (accountShown : bool) : list string :=
  ["product-shell"; "jobs-nav"; "repositories-nav"; "account-menu"] ++
  match page with
  | RepositoriesPage => "repository-readiness" :: (if accountShown then ["sandbox-service"] else [])
  | SettingsPage => ["settings-tabs"; "sandbox-service-form"]
  | HomePage => []
  end.

(** The page on screen at a step: the jobs page until a step goes to the
    repositories. *)
Definition tourPage (index : nat) : UserPageKind :=
  if existsb (fun s => match tourPresentation (ts_id s) with
                       | Some p => tp_navigates p | None => false end)
       (take (S index) productTourSteps)
  then RepositoriesPage else HomePage.

Definition tourRoute (page : UserPageKind) : string :=
  match page with RepositoriesPage => "/repositories" | SettingsPage => "/account/preferences" | HomePage => "/jobs" end.

(** Every step of the tour is presented, on the page its definition names, where
    it points at an element of that page, given an account whose repositories are
    shown; and only the first step has no way back. *)
Theorem tour_points_at_page (index : nat) (s : ProductTourStep) :
  productTourSteps !! index = Some s ->
  tourPresentation (ts_id s) <> None /\ ts_route s = tourRoute (tourPage index) /\
  ts_target s ∈ tourTargets (tourPage index) true /\
  (ts_target s ∈ tourTargets (tourPage index) false <-> ts_id s <> "sandbox-service") /\
  ((tourTooltip index (List.length productTourSteps)).1.2 = None <-> index = O).
Proof.
  intros H. assert (index < 6)%nat as Hlt by (apply lookup_lt_Some in H; exact H).
  do 6 (destruct index as [|index];
    [injection H as <-; unfold tourPage, tourTargets; cbn;
     split_and!; [done|done|set_solver| |done]; split; [try done|try set_solver];
     intros Hin; apply (bool_decide_eq_true_2 _) in Hin; by vm_compute in Hin|]).
  lia.
Qed.
End tour.

(** ** The settings on screen are those that are changed *)

Section settings.
Context (belongs : option string -> UserPreferences -> Prop)
  (localeCompare : string -> string -> Z).

Lemma scope_of_id_proper (n : Z) (j : option Z) :
  scope_of_id n = scopeOf j -> scope_of_id n = scopeOf (Some n).
Proof.
  unfold scopeOf. destruct j as [j|]; cbn [num_truthy default]; [|done].
  destruct (j =? 0)%Z eqn:Ej; [done|]. intros E. assert (n = j) as ->; [|by rewrite Ej].
  unfold scope_of_id in E. by apply sapp_inj_l, (inj pretty) in E.
Qed.

Lemma dashboard_distinct (s : Journey) :
  distinct_logins (default [] (installations <$> ud_githubApp (dataOf s))) ->
  distinct_logins (dashboardInstallations localeCompare s).
Proof.
  unfold distinct_logins, dashboardInstallations. intros Hd i j. rewrite !order_perm. apply Hd.
Qed.

(** C7.  From the service to the form and back: in every interleaving of loads,
    saves and navigation, the settings that the cards of the settings page show
    belong to the very installation, or to the account, that a request of the
    cards names, when each account has one installation. *)
Theorem cards_show_their_settings (route : AccountSettingsRoute) (regions : list SandboxRegion)
    (s : Journey) (place : CardPlace) (p : UserPreferences) (save : PreferenceSave) :
  let i := settingsInput localeCompare route regions s in
  journey_reachable belongs s ->
  distinct_logins (default [] (installations <$> ud_githubApp (dataOf s))) ->
  cardPlace i = Some place -> kp_preferences (keyProps place i) = Some p ->
  belongs (installationParam (saveURL save (kp_installation (keyProps place i)))) p /\
  cp_preferences (cacheProps place i) = Some p /\
  cp_installation (cacheProps place i) = kp_installation (keyProps place i).
Proof.
  intros i Hs Hd Hp Ep. split; [|done]. cbn [keyProps kp_installation kp_preferences] in Ep |- *.
  rewrite (sc_selected _ _ _ (card_scoped i place Hp)) by (by apply dashboard_distinct).
  unfold i, settingsInput, settingsPreferences in Ep. cbn [si_preferences] in Ep.
  destruct (bool_decide _) eqn:E; [|done]. apply bool_decide_eq_true in E.
  by apply (scope_preferences_belong belongs s).
Qed.

(** The repository page judges an installation by its own settings, or by those
    of the account for the reader's own; while others are on record it says that
    it is loading. *)
Theorem repository_settings_belong (s : Journey) (p : UserPreferences) (save : PreferenceSave) :
  journey_reachable belongs s -> repositoryPreferences localeCompare s = Some p ->
  preferencesLoading localeCompare s = false /\
  exists n, belongs (installationParam (saveURL save n)) p /\
    (n = None \/ exists i, repositoryInstallation localeCompare s = Some i /\ n = Some (inst_id i) /\
       normalized (account_login i) <> normalized (pl_login (jo_place s))).
Proof.
  unfold repositoryPreferences. intros Hs. destruct (preferencesLoading _ s) eqn:El; [done|]. intros Ep.
  split; [done|]. unfold preferencesLoading in El. apply negb_false_iff, bool_decide_eq_true_1 in El.
  pose proof (journey_owned belongs s Hs) as Ho. unfold owned in Ho. rewrite Ep in Ho.
  destruct Ho as (j & Ej & _). rewrite El in Ej.
  unfold repositoryScope, repositoryPreferenceScope in El, Ej.
  destruct (repositoryInstallation localeCompare s) as [i|]; cbn [mbind option_bind] in El, Ej;
    [|exists None; split; [by apply (scope_preferences_belong belongs s)|by left]].
  destruct (_ && _) eqn:E; [|exists None; split; [by apply (scope_preferences_belong belongs s)|by left]].
  apply andb_prop in E as [_ E%negb_true_iff%bool_decide_eq_false_1].
  exists (Some (inst_id i)). split; [|right; by exists i].
  apply (scope_preferences_belong belongs s); [done..|]. rewrite El. by apply scope_of_id_proper with j.
Qed.
End settings.

(** ** Examples *)

Lemma example_distinct :
  distinct_logins (default [] (installations <$> ud_githubApp (dataOf example_journey))).
Proof.
  intros i j Hi Hj _ _.
  assert (forall l, default [] (installations <$> ud_githubApp (dataOf example_journey)) = l ->
    (forall x y, x ∈ l -> y ∈ l -> x = y) -> i = j) as H by (intros l <- Hl; by apply Hl).
  eapply H; [vm_compute; reflexivity|]. intros x y.
  by intros ?%elem_of_nil.
Qed.

Lemma cards_show_their_settings_witness :
  let i := settingsInput str_cmp {| route_accountLogin := Some "octocat"; route_tab := TabPreferences |}
             [] example_journey in
  example_belongs (installationParam (saveURL SaveCache (kp_installation (keyProps InTabs i))))
    example_preferences.
Proof.
  intros i.
  apply (cards_show_their_settings example_belongs str_cmp
    {| route_accountLogin := Some "octocat"; route_tab := TabPreferences |} [] example_journey InTabs
    example_preferences SaveCache).
  - apply example_journey_reachable.
  - apply example_distinct.
  - by vm_compute.
  - by vm_compute.
Defined.
