(* ===== verification/DetailView.v ===== *)
(** What the page of a job shows and offers: the rendering of
    src/ui/src/components/runner-job-detail.tsx over the machines of JobDetail and
    Terminal; and the pages that stand for a route that cannot be shown
    (src/ui/src/components/auth-pages.tsx). *)
From S2P Require Import Prelude.
From stdpp Require Import relations.
From S2P Require Import JsString.
From S2P Require Import Json.
From S2P Require Import AdminTypes.
From S2P Require Import AdminFormat.
From S2P Require Import Errors.
From S2P Require Import BuildGroups.
From S2P Require Import JobLogs.
From S2P Require Import LogPanel.
From S2P Require Import Terminal.
From S2P Require Import JobDetail.
From S2P Require Import JobView.
From S2P Require Import Controls.
From S2P Require Import PanelView.

(** ** The page *)

Inductive DetailTab := DetailGitHubLogs | DetailRunnerLogs | DetailTerminal | DetailFields.

Definition detailTabs : list (DetailTab * string) := [
  (DetailGitHubLogs, "user.githubLogs"); (DetailRunnerLogs, "user.runnerLogs");
  (DetailTerminal, "common.terminal"); (DetailFields, "common.details") ].

(** The state of the page, and the jobs it asked to open. *)
Record DetailPage := {
  dp_detail : JobDetail;
  dp_terminal : Terminal;
  dp_tab : DetailTab;
  dp_opened : list string;
}.

Inductive StatusIcon := IconCheck | IconCross | IconPlay | IconSpinner | IconClock.

Definition jobStatusIcon (s : RunnerStatus) : StatusIcon :=
  match s with
  | completed => IconCheck
  | failed => IconCross
  | running => IconPlay
  | creating => IconSpinner
  | stopping | queued => IconClock
  end.

(** The colours of the status, of the icon and of the badge. *)
Inductive Tone := ToneGreen | ToneRed | ToneBlue | ToneAmber | ToneMuted.

Definition jobStatusIconTone (s : RunnerStatus) : Tone :=
  match s with
  | completed => ToneGreen
  | failed => ToneRed
  | running => ToneBlue
  | creating | stopping => ToneAmber
  | queued => ToneMuted
  end.

Definition statusTone (s : RunnerStatus) : Tone :=
  match s with
  | completed => ToneGreen
  | failed => ToneRed
  | running => ToneBlue
  | _ => ToneMuted
  end.

Section view.
Context (t : translate) (parse : string -> option Z)
  (toLocaleString : Z -> option string -> string) (locale : option string) (pageID : string).

Abbreviation text := (fun key => t key []).

(** ** What is shown *)

Record DetailHeader := {
  dh_title : string;
  dh_badge : option (Tone * string);
  dh_subtitle : string;
  dh_github : option string;
}.

Definition detailHeader (d : JobDetail) : DetailHeader := {|
  dh_title := pageTitle pageID (jd_job d);
  dh_badge := (fun job => (statusTone (status job), runnerStatusLabel t (Status (status job)))) <$> jd_job d;
  dh_subtitle := pageSubtitle t (jd_job d);
  dh_github := jd_job d ≫= fun job =>
    if opt_truthy (github_job_url job) then github_job_url job else None |}.

(** The heading of the list, the number of jobs below it, and the jobs. *)
Definition listHeading (d : JobDetail) : string * string :=
  (jobGroupTitle t (jd_group d),
   let jobs := match jd_group d with Some g => List.length (jg_jobs g) | None => O end in
   t "user.jobCount"
     [("count", match jobs, jd_job d with
                | S _, _ => pretty (Z.of_nat jobs)
                | O, Some _ => "1"
                | O, None => "0"
                end)]).

Definition listItems (d : JobDetail) : list (StatusIcon * Tone * (string * string * string) * bool) :=
  map (fun job =>
    (jobStatusIcon (status job), jobStatusIconTone (status job), jobListItem parse job,
     bool_decide (id job = pageID))) (groupJobs d).

(** The metrics, or the note of a page that is loading. *)
Definition metricsShown (d : JobDetail) : string + list (string * Cell) :=
  match jd_job d with
  | Some job => inr (summaryMetrics t parse toLocaleString job locale)
  | None => inl (text "common.loading")
  end.

Definition logShown (p : DetailPage) : option string :=
  match dp_tab p with
  | DetailGitHubLogs => Some (localizedLogTextForView t (jd_githubText (dp_detail p)))
  | DetailRunnerLogs => Some (localizedLogTextForView t (jd_logText (dp_detail p)))
  | _ => None
  end.

Definition terminalAvailable (d : JobDetail) : bool :=
  match jd_job d with Some job => isTerminalAvailable job | None => false end.

(** The line of the sandbox, and what covers the widget. *)
Definition terminalLine (d : JobDetail) : string :=
  or_str (jd_job d ≫= sandbox_id) (text "user.noActiveSandbox").

Definition terminalCover (d : JobDetail) (s : Terminal) : option string :=
  if hasSession s then None
  else Some (if terminalAvailable d then text "user.connectInteractiveShell"
             else text "user.terminalActiveOnly").

Definition fieldsShown (d : JobDetail) : string + list (string * Cell) :=
  match jd_job d with
  | Some job =>
      inr (map (fun r => (row_label r, cellShown (row_value r)))
             (runnerJobDetailRows t parse toLocaleString job locale))
  | None => inl (text "common.loading")
  end.

(** ** What is offered *)

Definition with_detail (d : JobDetail) (p : DetailPage) : DetailPage := {|
  dp_detail := d; dp_terminal := dp_terminal p; dp_tab := dp_tab p; dp_opened := dp_opened p |}.

Definition onDetail (f : JobDetail -> JobDetail) (p : DetailPage) : DetailPage :=
  with_detail (f (dp_detail p)) p.

Definition openDetailTab (tab : DetailTab) (p : DetailPage) : DetailPage := {|
  dp_detail := dp_detail p; dp_terminal := dp_terminal p; dp_tab := tab; dp_opened := dp_opened p |}.

Definition openOther (jobID : string) (p : DetailPage) : DetailPage := {|
  dp_detail := dp_detail p; dp_terminal := dp_terminal p; dp_tab := dp_tab p;
  dp_opened := dp_opened p ++ option_list (openSibling pageID jobID) |}.

Definition connectDetail (p : DetailPage) : DetailPage := {|
  dp_detail := dp_detail p;
  dp_terminal := connectTerminal (terminalAvailable (dp_detail p)) (dp_terminal p);
  dp_tab := dp_tab p; dp_opened := dp_opened p |}.

Definition connectButtonDisabled (p : DetailPage) : bool :=
  negb (terminalAvailable (dp_detail p)) || tm_terminalConnecting (dp_terminal p) ||
  hasSession (dp_terminal p).

Definition detailHeadControls (p : DetailPage) : list (Control DetailPage) :=
  [ Button (text "common.refresh") (jd_loading (dp_detail p)) (onDetail refreshPage);
    Button (text "user.refresh") false (onDetail (loadJobGroup true)) ] ++
  map (fun job => Button (detailTitle job) false (openOther (id job))) (groupJobs (dp_detail p)) ++
  map (fun tab => Button (text tab.2) false (openDetailTab tab.1)) detailTabs.

Definition tabPanelControls (p : DetailPage) : list (Control DetailPage) :=
  match dp_tab p with
  | DetailGitHubLogs =>
      [Button (text "common.refresh") (jd_githubLoading (dp_detail p)) (onDetail (loadGithubLog true))]
  | DetailRunnerLogs =>
      Button (text "common.refresh") false (onDetail (loadLog true)) ::
      map (fun name => Button (stream name) false (onDetail (JobDetail.selectLog name))) logNames
  | DetailTerminal =>
      [Button (connectLabel t (dp_terminal p)) (connectButtonDisabled p) connectDetail]
  | DetailFields => []
  end.

Definition detailView (p : DetailPage) : View DetailPage := {|
  vw_page := detailHeadControls p ++ tabPanelControls p; vw_dialog := None |}.

(** * Properties *)

Inductive page_event (answers : forall f, Answer f -> Prop) : DetailPage -> DetailPage -> Prop :=
  | dq_detail d p : detail_step answers false (dp_detail p) d -> page_event answers p (with_detail d p)
  | dq_terminal p : page_event answers p (connectDetail p)
  | dq_tab tab p : page_event answers p (openDetailTab tab p)
  | dq_open jobID p : jobID <> pageID -> page_event answers p (openOther jobID p).

(** Every use of a control of the page of a job is an event of its machines, or is
    a press on the job that is shown, which changes nothing; and what the list
    opens is another job of the list. *)
Theorem detail_controls_sound (answers : forall f, Answer f -> Prop) (p p' : DetailPage) :
  offers (detailView p) p p' ->
  (p' = p \/ page_event answers p p') /\
  (dp_opened p' = dp_opened p \/
   exists job, job ∈ groupJobs (dp_detail p) /\ id job <> pageID /\
     dp_opened p' = dp_opened p ++ [id job]).
Proof.
  unfold offers, in_reach, detailView, detailHeadControls. cbn [vw_page vw_dialog default]. intros H.
  apply Exists_app in H as [H|H]; [apply Exists_app in H as [H|H]; [|apply Exists_app in H as [H|H]]|].
  - each_control H; destruct H as [_ ->]; (split; [right|by left]); apply dq_detail;
      [apply dt_refresh|apply dt_group].
  - apply Exists_exists in H as (c & (job & -> & Hj)%list_elem_of_fmap & _ & ->).
    destruct (decide (id job = pageID)) as [E|E].
    + assert (openOther (id job) p = p) as ->; [|split; by left].
      unfold openOther, openSibling. rewrite bool_decide_eq_true_2 by done. cbn. rewrite app_nil_r.
      by destruct p.
    + split; [right; by apply dq_open|right]. exists job. split_and!; [done..|].
      unfold openOther, openSibling. by rewrite bool_decide_eq_false_2.
  - apply Exists_exists in H as (c & (tab & -> & _)%list_elem_of_fmap & _ & ->).
    split; [right; apply dq_tab|by left].
  - unfold tabPanelControls in H. destruct (dp_tab p).
    + each_control H. destruct H as [Hl ->]. split; [right|by left]. by apply dq_detail, dt_github.
    + apply Exists_cons in H as [[_ ->]|H]; [split; [right; apply dq_detail, dt_log|by left]|].
      apply Exists_exists in H as (c & (name & -> & _)%list_elem_of_fmap & _ & ->).
      split; [right|by left]. by apply dq_detail, dt_select.
    + each_control H. destruct H as [_ ->]. split; [right; apply dq_terminal|by left].
    + by apply Exists_nil in H.
Qed.
End view.

(** ** Pages of routes that cannot be shown *)

Section routes.
Context (t : translate).

Abbreviation text := (fun key => t key []).

(** The eyebrow, the title, the description, and the links or the buttons. *)
Record RouteMessage := {
  rm_eyebrow : string;
  rm_title : string;
  rm_description : string;
  rm_links : list (string * string);
  rm_button : option string;
}.

Definition message (eyebrow title description : string) (links : list (string * string))
    (button : option string) : RouteMessage := {|
  rm_eyebrow := eyebrow; rm_title := title; rm_description := description;
  rm_links := links ++ [(text "auth.backHome", "/")]; rm_button := button |}.

Definition accessDeniedPage (login : option string) : RouteMessage :=
  message (text "auth.adminConsole") (text "auth.accessDenied")
    (t "auth.accessDeniedDescription" [("account", or_str login (text "auth.thisGitHubAccount"))])
    [(text "auth.openJobs", "/jobs")] (Some (text "common.signOut")).

Definition notFoundPage : RouteMessage :=
  message "404" (text "auth.pageNotFound") (text "auth.pageNotFoundDescription") [] None.

Definition sessionLoadingPage : RouteMessage :=
  message (text "auth.secureRoute") (text "auth.checkingSession")
    (text "auth.checkingSessionDescription") [] None.

Definition sessionErrorPage : RouteMessage :=
  message (text "auth.secureRoute") (text "auth.sessionError") (text "auth.sessionErrorDescription") []
    (Some (text "auth.tryAgain")).
End routes.
