(* ===== verification/Landing.v ===== *)
(** The landing page (src/ui/src/components/landing-page.tsx and what it shows:
    landing-content-utils.ts, landing-lifecycle-preview.tsx and its utils), the
    switches of theme and language that the public pages share, the head of the
    guides and of the administration; where the links lead and which texts the
    page asks the translations for. *)
From S2P Require Import Prelude.
From S2P Require Import JsString.
From S2P Require Import AdminTypes.
From S2P Require Import LoadPolicy.
From S2P Require Import AppRoutes.
From S2P Require Import Navigation.
From S2P Require Import Resources.
From S2P Require Import I18n.

(** ** What a page is made of

    A text, a link with its text ([ln_blank]: in a window of its own), or a
    switch; a region may have an id, at which a link of the page can point. *)
Record Link := { ln_href : string; ln_text : string; ln_blank : bool }.

Inductive Element :=
  | Says (text : string)
  | Leads (link : Link)
  | ThemeToggle (label : string)
  | LanguageMenu.

Record Region := { rg_id : option string; rg_content : list Element }.

Definition to (href text : string) : Element :=
  Leads {| ln_href := href; ln_text := text; ln_blank := false |}.
Definition out (href text : string) : Element :=
  Leads {| ln_href := href; ln_text := text; ln_blank := true |}.

(** ** The switches *)

(** [useTheme] of next-themes: the theme in force, once it is known. *)
Definition nextTheme (resolvedTheme : option string) : string :=
  if bool_decide (resolvedTheme = Some "dark") then "light" else "dark".

Section switches.
Context (t : string -> string).

Definition themeLabel (page : string) (resolvedTheme : option string) : string :=
  if bool_decide (nextTheme resolvedTheme = "dark") then t (page +:+ ".switchThemeDark")
  else t (page +:+ ".switchThemeLight").

Definition LandingThemeToggle (resolvedTheme : option string) : Element :=
  ThemeToggle (themeLabel "landing" resolvedTheme).
Definition DocsThemeToggle (resolvedTheme : option string) : Element :=
  ThemeToggle (themeLabel "docs" resolvedTheme).

(** The language that the switcher marks and names. *)
Definition switcherLanguage (resolvedLanguage : option string) : SupportedLanguage :=
  if bool_decide (resolvedLanguage = Some "zh") then Zh else En.

Definition switcherLabel (language : SupportedLanguage) : string :=
  t "common.language" +:+ ": " +:+
  t ("common." +:+ match language with Zh => "chinese" | En => "english" end).

(** A value of the menu is chosen; any other value is ignored. *)
Definition onLanguageChange (value : string) (p : I18n.Page) : I18n.Page :=
  if bool_decide (value = "en") then setLanguage En p
  else if bool_decide (value = "zh") then setLanguage Zh p
  else p.

(** ** The landing page *)

Definition repositoryURL : string := "https://github.com/qiniu/ci-runner".
Definition documentationURL : string := "/docs".
Definition hostedGuideURL : string := "/docs/getting-started/hosted".
Definition deploymentGuideURL : string := "/docs/getting-started/deploy".
Definition licenseURL : string := repositoryURL +:+ "/blob/main/LICENSE".

Definition capabilities : list string := ["isolated"; "justInTime"; "lifecycle"].
Definition workflowSteps : list (string * string) :=
  [("queued", "01"); ("matched", "02"); ("running", "03"); ("cleared", "04")].

Definition landingChecklistItems : list (string * string) :=
  map (fun '(id, translationKey) => (id, t translationKey))
    [("orchestration", "landing.checklist.orchestration");
     ("policy", "landing.checklist.policy"); ("cleanup", "landing.checklist.cleanup")].

(** [labels]: the translation of landing.deploymentRequirements, a list; a
    label that it lacks is undefined. *)
Definition deploymentRequirementItems (labels : list string) : list (string * option string) :=
  imap (fun index id => (id, labels !! index)) ["github"; "sandbox"; "runner"].

Definition runnerPolicyItems : list (string * string * string) := [
  ("repository", t "landing.preview.repository", "qiniu/ci-runner");
  ("runner-spec", t "landing.preview.runnerSpec", "ubuntu-24.04");
  ("isolation", t "landing.preview.isolation", t "landing.preview.isolationValue") ].

(** Id, title, detail, and whether the step is complete; the one that is not
    is active. *)
Definition runnerLifecycleItems : list (string * string * string * bool) := [
  ("github-accepted", t "landing.preview.githubAccepted", "workflow_job · queued", true);
  ("sandbox-created", t "landing.preview.sandboxCreated", "us-south-1 · 8.4s", true);
  ("runner-registered", t "landing.preview.runnerRegistered", "ephemeral · online", true);
  ("job-executing", t "landing.preview.jobExecuting", "tests · 01:42", false) ].

Definition RunnerLifecyclePreview : list Element := map Says (
  [t "landing.preview.workflow"; t "landing.preview.requestedLabels";
   "self-hosted"; "qiniu"; "ubuntu-24.04"; t "landing.preview.runnerPolicy"]
  ++ mjoin (map (fun '(_, label, value) => [label; value]) runnerPolicyItems)
  ++ [t "landing.preview.policyMatched"; t "landing.preview.capacityReady";
      t "landing.preview.runnerLifecycle"; "build-and-test"; t "landing.preview.running"]
  ++ mjoin (map (fun '(_, title, detail, _) => [title; detail]) runnerLifecycleItems)
  ++ ["$ task test"; t "landing.preview.inProgress"; "✓ " +:+ t "landing.preview.uiTestsPassed";
      "→ " +:+ t "landing.preview.goTestsRunning"; t "landing.preview.cleanExecution";
      t "landing.preview.noSharedWorkspace"; t "landing.preview.runnerSpec"; "ubuntu-24.04"]).

Definition QiniuRunnerLogo : list Element := [Says "Qiniu"; Says "CI Runner"].

Definition LandingAccessAction (href label : option string) : Element :=
  to (default "/jobs" href) (default (t "landing.getStarted") label).

Definition SectionIntro (label title description : string) : list Element :=
  [Says label; Says title; Says description].

Definition landingHeader (resolvedTheme : option string) : list Element :=
  to "/" (t "common.productHome") :: QiniuRunnerLogo ++ [
  Says (t "landing.primaryNavigation");
  to "#capabilities" (t "landing.product"); to "#open-source" (t "landing.openSource");
  to "#how-it-works" (t "landing.howItWorks"); to documentationURL (t "landing.documentation");
  to documentationURL (t "landing.documentation"); LandingThemeToggle resolvedTheme;
  LanguageMenu; LandingAccessAction None None].

Definition heroSection : Region := {| rg_id := None; rg_content :=
  map Says [t "landing.ephemeralInfrastructure"; t "landing.heroLabel"; t "landing.heroPrefix";
    t "landing.heroPoweredBy"; t "landing.heroSandbox"; t "landing.heroDescription"]
  ++ [LandingAccessAction (Some hostedGuideURL) None;
      to "#how-it-works" (t "landing.seeHowItWorks")]
  ++ map (fun item => Says item.2) landingChecklistItems ++ RunnerLifecyclePreview |}.

Definition lifecycleSection : Region := {| rg_id := None; rg_content :=
  mjoin (map (fun '(number, label) => [Says number; Says label])
    [("01", t "landing.lifecycle.githubSends"); ("02", t "landing.lifecycle.createsCapacity");
     ("03", t "landing.lifecycle.executes")]) |}.

Definition capabilitiesSection : Region := {| rg_id := Some "capabilities"; rg_content :=
  SectionIntro (t "landing.capabilitiesIntro") (t "landing.capabilitiesTitle")
    (t "landing.capabilitiesDescription")
  ++ mjoin (imap (fun index id =>
       let key field := t ("landing.capabilities." +:+ id +:+ "." +:+ field) in
       map Says ["0" +:+ pretty (index + 1); key "eyebrow"; key "title"; key "description";
         key "detail"]) capabilities) |}.

Definition openSourceSection : Region := {| rg_id := Some "open-source"; rg_content :=
  map Says [t "landing.openSourceEyebrow"; t "landing.openSourceTitle";
    t "landing.openSourceDescription"; t "landing.openSourceCardEyebrow";
    t "landing.openSourceCardTitle"; t "landing.openSourceCardDescription"]
  ++ [out repositoryURL (t "landing.viewSource"); out licenseURL (t "landing.licensed")]
  ++ map Says [t "landing.cloudServiceEyebrow"; t "landing.cloudServiceTitle";
       t "landing.cloudServiceDescription"] |}.

Definition howItWorksSection : Region := {| rg_id := Some "how-it-works"; rg_content :=
  map Says [t "landing.howItWorks"; t "landing.howItWorksTitle"; t "landing.howItWorksDescription"]
  ++ [to documentationURL (t "landing.readDocumentation")]
  ++ mjoin (map (fun '(id, number) =>
       map Says [t ("landing.workflow." +:+ id +:+ ".title"); number;
         t ("landing.workflow." +:+ id +:+ ".description")]) workflowSteps) |}.

(** A label that is undefined shows nothing. *)
Definition choosePathSection (labels : list string) : Region := {| rg_id := None; rg_content :=
  map Says [t "landing.choosePath"; t "landing.choosePathTitle"; t "landing.choosePathDescription"]
  ++ [LandingAccessAction (Some hostedGuideURL) (Some (t "landing.hosted"));
      to deploymentGuideURL (t "landing.deploy"); Says (t "landing.deploymentLabel")]
  ++ map (fun item => Says (default "" item.2)) (deploymentRequirementItems labels) |}.

Definition landingFooter : list Element :=
  QiniuRunnerLogo ++ [Says (t "landing.poweredBy");
  to "#capabilities" (t "landing.product"); to "#how-it-works" (t "landing.howItWorks");
  to documentationURL (t "landing.documentation"); out repositoryURL "GitHub";
  out licenseURL "Apache-2.0"].

(** The regions in the order of the page; the ones from the hero to the choice
    of a path are in the element main-content, at which the first link points. *)
Definition LandingPage (labels : list string) (resolvedTheme : option string) : list Region := [
  {| rg_id := None; rg_content := [to "#main-content" (t "landing.skipToContent")] |};
  {| rg_id := None; rg_content := landingHeader resolvedTheme |};
  {| rg_id := Some "main-content"; rg_content := [] |};
  heroSection; lifecycleSection; capabilitiesSection; openSourceSection; howItWorksSection;
  choosePathSection labels;
  {| rg_id := None; rg_content := landingFooter |} ].

(** ** The other heads *)

(** The head of the guides (docs-page.tsx). *)
Definition docsHeader (resolvedTheme : option string) : list Element :=
  to "/" (t "common.productHome") :: QiniuRunnerLogo ++ [
  to "/docs" (t "docs.documentation"); DocsThemeToggle resolvedTheme; LanguageMenu;
  to "/jobs" (t "docs.openJobs")].

(** The head of the administration (site-header.tsx), without the menu of the
    account, which Docs has. *)
Definition siteHeader : list Element :=
  [Says "Qiniu Runner"; to "/docs" (t "common.documentation")].

End switches.

(** ** Properties *)

Definition linksOf (page : list Region) : list Link :=
  omap (fun e => match e with Leads l => Some l | _ => None end) (mjoin (map rg_content page)).
Definition idsOf (page : list Region) : list string := omap rg_id page.

(** A link points at an element of its page, or at a page that exists: whoever
    reads it and whatever the state of the session, the answer is not the page
    for addresses that are not found; or it leaves the site for https, in a
    window of its own. *)
Definition link_leads (page : list Region) (l : Link) : Prop :=
  (exists id, id ∈ idsOf page /\ ln_href l = "#" +:+ id) \/
  (startsWith "/" (ln_href l) = true /\
   forall status session n, nv_path n = ln_href l -> pageShown status session n <> NotFoundPage) \/
  (startsWith "https://" (ln_href l) = true /\ ln_blank l = true).

(** The same, decided from the address. *)
Definition link_ok (ids : list string) (l : Link) : bool :=
  existsb (fun id => bool_decide (ln_href l = "#" +:+ id)) ids ||
  startsWith "/" (ln_href l) && negb (match appRouteAccess (ln_href l) with
                                      | access_not_found => true | _ => false end) ||
  startsWith "https://" (ln_href l) && ln_blank l.

Lemma found_page (status : AuthSessionCheckStatus) (session : AuthSession) (n : Nav) :
  appRouteAccess (nv_path n) <> access_not_found -> pageShown status session n <> NotFoundPage.
Proof.
  unfold pageShown. intros Ha. destruct (appRouteAccess (nv_path n)); try done.
  - by case_bool_decide.
  - destruct (authRouteViewState _ _); try done. by repeat case_match.
  - destruct (authRouteViewState _ _); try done. by repeat case_match.
Qed.

Lemma link_ok_leads (page : list Region) (l : Link) :
  link_ok (idsOf page) l = true -> link_leads page l.
Proof.
  unfold link_ok, link_leads. intros [[H|H]%orb_prop|H]%orb_prop.
  - left. apply existsb_exists in H as (id & Hin & E%bool_decide_eq_true_1). exists id.
    by rewrite list_elem_of_In.
  - right; left. apply andb_prop in H as [Hs Ha]. split; [done|]. intros status session n E.
    apply found_page. rewrite E. by destruct (appRouteAccess _).
  - right; right. by apply andb_prop in H.
Qed.

(** With this translation a page shows the keys it asks for. *)
Definition asked (key : string) : string := key.

(** The texts of the page do not matter to its links. *)
Lemma linksOf_hrefs (t t' : string -> string) (labels labels' : list string)
    (theme theme' : option string) :
  map (fun l => (ln_href l, ln_blank l)) (linksOf (LandingPage t labels theme)) =
  map (fun l => (ln_href l, ln_blank l)) (linksOf (LandingPage t' labels' theme')) /\
  idsOf (LandingPage t labels theme) = idsOf (LandingPage t' labels' theme').
Proof. by split. Qed.

Theorem landing_links_lead (t : string -> string) (labels : list string) (theme : option string) :
  Forall (link_leads (LandingPage t labels theme)) (linksOf (LandingPage t labels theme)).
Proof.
  eapply (Forall_impl (fun l => link_ok (idsOf (LandingPage t labels theme)) l = true)).
  2: { intros l. apply link_ok_leads. }
  rewrite (proj2 (linksOf_hrefs t asked labels [] theme None)).
  assert (forall ls ls' : list Link,
    map (fun l => (ln_href l, ln_blank l)) ls = map (fun l => (ln_href l, ln_blank l)) ls' ->
    Forall (fun l => link_ok (idsOf (LandingPage asked [] None)) l = true) ls' ->
    Forall (fun l => link_ok (idsOf (LandingPage asked [] None)) l = true) ls) as H.
  { induction ls as [|[h x b] ls IH]; intros [|[h' x' b'] ls'] E; try done.
    injection E as -> -> E. intros [Hk Hf]%Forall_cons. constructor; [exact Hk|]. by eapply IH. }
  eapply H; [exact (proj1 (linksOf_hrefs t asked labels [] theme None))|].
  apply Forall_forall. intros l Hl. apply (proj1 (forallb_forall _ _)
    (ltac:(vm_compute; reflexivity) :
      forallb (link_ok (idsOf (LandingPage asked [] None))) (linksOf (LandingPage asked [] None)) = true)).
  by apply list_elem_of_In.
Qed.

(** *** Texts *)

(** What i18next finds for a key of a language: the text at its path. *)
Definition textOf (l : SupportedLanguage) (key : string) : option string :=
  match resource_at (map Key (split_on "." key)) (resources l) with
  | Some (RText s) => Some s
  | _ => None
  end.

Definition labelsOf (l : SupportedLanguage) : list string :=
  match resource_at [Key "landing"; Key "deploymentRequirements"] (resources l) with
  | Some (RArray items) => omap (fun r => match r with RText s => Some s | _ => None end) items
  | _ => []
  end.

Definition textsOf (elements : list Element) : list string :=
  omap (fun e => match e with
                 | Says text | ThemeToggle text => Some text
                 | Leads l => Some (ln_text l)
                 | LanguageMenu => None
                 end) elements.

(** The keys among the texts of a page that was given [asked]. *)
Definition isKey (s : string) : bool :=
  startsWith "landing." s || startsWith "common." s || startsWith "docs." s.
Definition askedKeys (elements : list Element) : list string :=
  filter (fun s => isKey s = true) (textsOf elements).

Definition found (l : SupportedLanguage) (key : string) : bool :=
  match textOf l key with Some s => str_truthy (trim s) | None => false end.

(** Every text that the landing page, the head of the guides and the head of
    the administration ask for is a text of the language that is not blank,
    whatever the theme; the requirements of a deployment all have a label. *)
Theorem landing_texts_found (l : SupportedLanguage) (theme : option string) (key : string) :
  key ∈ askedKeys (mjoin (map rg_content (LandingPage asked [] theme))
                   ++ docsHeader asked theme ++ siteHeader asked) ->
  exists s, textOf l key = Some s /\ trim s <> "".
Proof.
  assert (forall b : bool, forallb (found l) (askedKeys
    (mjoin (map rg_content (LandingPage asked [] (if b then Some "dark" else None)))
     ++ docsHeader asked (if b then Some "dark" else None) ++ siteHeader asked)) = true) as H.
  { intros b. destruct l, b; vm_compute; reflexivity. }
  assert (forall th, exists b : bool, forall page,
    themeLabel asked page th = themeLabel asked page (if b then Some "dark" else None)) as Ht.
  { intros th. unfold themeLabel, nextTheme. destruct (decide (th = Some "dark")) as [->|Hn].
    - by exists true.
    - exists false. intros page. by rewrite !(bool_decide_eq_false_2 (_ = Some "dark")). }
  destruct (Ht theme) as [b Hb]. intros Hk.
  unfold LandingPage, landingHeader, docsHeader, LandingThemeToggle, DocsThemeToggle in Hk.
  rewrite !Hb in Hk.
  assert (found l key = true) as Hf.
  { refine (proj1 (forallb_forall _ _) (H b) key _). by apply list_elem_of_In. }
  unfold found in Hf. destruct (textOf l key) as [s|]; [|done]. exists s. split; [done|].
  by apply str_truthy_true.
Qed.

Lemma landing_texts_found_witness :
  exists s, textOf Zh "landing.switchThemeDark" = Some s /\ trim s <> "".
Proof.
  apply (landing_texts_found Zh (Some "light")). apply list_elem_of_In. vm_compute. tauto.
Defined.

Lemma requirements_labelled (l : SupportedLanguage) :
  Forall (fun item => is_Some item.2) (deploymentRequirementItems (labelsOf l)).
Proof. destruct l; vm_compute; repeat constructor; by eexists. Qed.

(** *** Switches *)

Section theme.
(** next-themes: the state it keeps, and the two functions of its hook.  A
    theme that is light or dark is the theme in force once it is set. *)
Context {Themes : Type} (setTheme : string -> Themes -> Themes)
  (resolvedTheme : Themes -> option string).
Hypothesis set_resolved : forall theme s,
  theme = "light" \/ theme = "dark" -> resolvedTheme (setTheme theme s) = Some theme.

Definition clickToggle (s : Themes) : Themes := setTheme (nextTheme (resolvedTheme s)) s.

(** The button sets the theme its label names, and sets the other one when it
    is clicked again. *)
Lemma toggle_names_theme (t : string -> string) (page : string) (s : Themes) :
  exists theme, resolvedTheme (clickToggle s) = Some theme /\ resolvedTheme s <> Some theme /\
    themeLabel t page (resolvedTheme s) =
      t (page +:+ if bool_decide (theme = "dark") then ".switchThemeDark" else ".switchThemeLight") /\
    resolvedTheme (clickToggle (clickToggle s)) =
      Some (if bool_decide (theme = "dark") then "light" else "dark").
Proof.
  assert (forall o, nextTheme o = "light" \/ nextTheme o = "dark") as Hn.
  { intros o. unfold nextTheme. case_bool_decide; auto. }
  exists (nextTheme (resolvedTheme s)). unfold clickToggle. rewrite !set_resolved by done.
  unfold themeLabel. split_and!; [done| |by case_bool_decide|].
  - unfold nextTheme. case_bool_decide as E; [by rewrite E|done].
  - f_equal. unfold nextTheme. by repeat case_bool_decide.
Qed.
End theme.

(** The label of the switcher names the language of the page, and choosing a
    language of its menu shows the page in that language. *)
Lemma switcher_sets (t : string -> string) (p : I18n.Page) :
  switcherLanguage (Some (language_code (pg_language p))) = pg_language p /\
  forall language label, (language, label) ∈ languageMenuOptions t ->
    onLanguageChange (language_code language) p = setLanguage language p.
Proof. split; [by destruct (pg_language p)|]. by intros [] label _. Qed.

Lemma other_value_ignored (value : string) (p : I18n.Page) :
  (forall l, value <> language_code l) -> onLanguageChange value p = p.
Proof.
  intros H. unfold onLanguageChange.
  by rewrite (bool_decide_eq_false_2 _ (H En)), (bool_decide_eq_false_2 _ (H Zh)).
Qed.
