(* ===== verification/Session.v ===== *)
(** The running application: the check of the session, sign-out, and the two
    effects of src/ui/src/App.tsx that load the data of the page on screen and
    poll it every five seconds.  The parts it composes have files of their own:
    Navigation (the location), UserLoad (the loads of a user's pages),
    AdminConsole (the lists of the administration), Requests (a failed request
    that asks for the session).  Which page polls what is proved here. *)
From S2P Require Import Prelude.
From S2P Require Import JsString.
From S2P Require Import JsRegex.
From S2P Require Import Json.
From S2P Require Import JsonParse.
From S2P Require Import AdminTypes.
From S2P Require Import LoadPolicy.
From S2P Require Import AppRoutes.
From S2P Require Import Errors.
From S2P Require Import UserLoad.
From S2P Require Import Navigation.
From S2P Require Import AdminConsole.
From S2P Require Import Requests.

#[export] Instance LoadClosure_eq_dec : EqDecision LoadClosure.
Proof. solve_decision. Defined.
#[export] Instance Route_eq_dec : EqDecision Route.
Proof. solve_decision. Defined.

(** ** State *)

(** The session with the requests that can change it: the checks of
    [loadAuthSession], the requests of the pages, which ask for the session
    again when they are refused, and the requests to sign out. *)
Record SessionState := {
  se_status : AuthSessionCheckStatus;
  se_session : AuthSession;
  se_checks : nat;
  se_calls : nat;
  se_logouts : nat;
}.

(** What the two loading effects ran with last, and the timers they set. *)
Record Effects := {
  ef_user : option LoadClosure;
  ef_userTimer : option LoadClosure;
  ef_admin : option Route;
  ef_adminTimer : option Route;
}.

Record App := {
  ap_session : SessionState;
  ap_nav : Nav;
  ap_effects : Effects;
  ap_user : UserState;
  ap_console : Console;
}.

(** ** A render *)

Definition session_of (a : App) : AuthSession := se_session (ap_session a).

(** [isAdminRoute] of App. *)
Definition onAdminRoute (a : App) : bool :=
  bool_decide (appRouteAccess (nv_path (ap_nav a)) = access_admin).

(** What the handlers and effects of this render capture. *)
Definition closureNow (a : App) : LoadClosure := {|
  lc_authenticated := authenticated (session_of a); lc_login := login (session_of a);
  lc_hasAccess := hasAccess (session_of a); lc_isAdminRoute := onAdminRoute a;
  lc_path := nv_path (ap_nav a) |}.

Definition routeNow (a : App) : Route := {|
  rt_hasAccess := hasAccess (session_of a); rt_isAdminRoute := onAdminRoute a;
  rt_section := nv_section (ap_nav a) |}.

Definition appPage (a : App) : Page :=
  pageShown (se_status (ap_session a)) (session_of a) (ap_nav a).

(** ** Setters *)

Definition with_adminState (c : Console) (a : App) : App := {|
  ap_session := ap_session a; ap_nav := ap_nav a; ap_effects := ap_effects a;
  ap_user := ap_user a; ap_console := c |}.

Definition with_userState (st : UserState) (a : App) : App := {|
  ap_session := ap_session a; ap_nav := ap_nav a; ap_effects := ap_effects a;
  ap_user := st; ap_console := ap_console a |}.

(** The console sees the access, the route and the section of the render. *)
Definition render (a : App) : App :=
  with_adminState (changeRoute (rt_hasAccess (routeNow a)) (rt_isAdminRoute (routeNow a))
    (rt_section (routeNow a)) (ap_console a)) a.

Definition with_session (s : SessionState) (a : App) : App :=
  render {| ap_session := s; ap_nav := ap_nav a; ap_effects := ap_effects a;
            ap_user := ap_user a; ap_console := ap_console a |}.

Definition with_nav (n : Nav) (a : App) : App :=
  render {| ap_session := ap_session a; ap_nav := n; ap_effects := ap_effects a;
            ap_user := ap_user a; ap_console := ap_console a |}.

(** ** The session *)

Definition set_session (status : AuthSessionCheckStatus) (session : AuthSession)
    (checks calls logouts : nat) : SessionState := {|
  se_status := status; se_session := session; se_checks := checks; se_calls := calls;
  se_logouts := logouts |}.

Definition loadAuthSession (s : SessionState) : SessionState :=
  set_session checking (se_session s) (S (se_checks s)) (se_calls s) (se_logouts s).

(** The check is answered; a failure keeps the session there is. *)
Definition settleCheck (answer : thrown + Response) (others : nat) (s : SessionState) :
    SessionState :=
  let failed := set_session session_error (se_session s) others (se_calls s) (se_logouts s) in
  match answer with
  | inr r =>
      if response_ok r then
        match parse (rs_body r) with
        | Some v => set_session ready (sessionOf v) others (se_calls s) (se_logouts s)
        | None => failed
        end
      else failed
  | inl _ => failed
  end.

(** A request of a page, and its end: [checked] is the answer to the session
    check that follows a refusal. *)
Definition beginCall (s : SessionState) : SessionState :=
  set_session (se_status s) (se_session s) (se_checks s) (S (se_calls s)) (se_logouts s).
Definition endCall (checked : option (thrown + Response)) (others : nat) (s : SessionState) :
    SessionState :=
  set_session (se_status s)
    (match checked with Some c => refreshSession c (se_session s) | None => se_session s end)
    (se_checks s) others (se_logouts s).

(** [signOut] writes the session when its request ends, however it ends. *)
Definition beginLogout (s : SessionState) : SessionState :=
  set_session (se_status s) (se_session s) (se_checks s) (se_calls s) (S (se_logouts s)).
Definition endLogout (others : nat) (s : SessionState) : SessionState :=
  set_session (se_status s) (signedOut (se_session s)) (se_checks s) (se_calls s) others.

(** ** The effects *)

(** The effect of a user's pages: nothing while its dependencies are those of
    its last run; else its timer is cleared, the data of the page are loaded and
    a timer is set where the page is polled. *)
Definition userEffect (c : LoadClosure) (a : App) : App :=
  let e := ap_effects a in
  if decide (ef_user e = Some c) then a
  else
    let active := load_allowed c in
    {| ap_session := ap_session a; ap_nav := ap_nav a;
       ap_effects := {|
         ef_user := Some c;
         ef_userTimer := if active && shouldPollUserRoute (lc_path c) then Some c else None;
         ef_admin := ef_admin e; ef_adminTimer := ef_adminTimer e |};
       ap_user := if active then loadUserAll c false (ap_user a) else ap_user a;
       ap_console := ap_console a |}.

(** The effect of the administration. *)
Definition adminActive (r : Route) : bool := rt_hasAccess r && rt_isAdminRoute r.

Definition adminEffect (r : Route) (a : App) : App :=
  let e := ap_effects a in
  if decide (ef_admin e = Some r) then a
  else
    {| ap_session := ap_session a; ap_nav := ap_nav a;
       ap_effects := {|
         ef_user := ef_user e; ef_userTimer := ef_userTimer e; ef_admin := Some r;
         ef_adminTimer :=
           if adminActive r && shouldPollAdminSection (rt_section r) then Some r else None |};
       ap_user := ap_user a;
       ap_console := if adminActive r then loadAll r false (ap_console a) else ap_console a |}.

Definition runEffects (a : App) : App :=
  let a' := adminEffect (routeNow a) a in userEffect (closureNow a) a'.

(** The effects of the render on screen have run. *)
Definition upToDate (a : App) : Prop :=
  ef_user (ap_effects a) = Some (closureNow a) /\ ef_admin (ap_effects a) = Some (routeNow a).

(** ** Sign-out

    The data are cleared at once; the session changes when the request ends. *)
Definition signOutApp (a : App) : App :=
  let a := with_session (beginLogout (ap_session a)) a in
  let a := with_userState (set_data (signOutData (us_data (ap_user a))) (ap_user a)) a in
  let a := with_adminState (signOutConsole (ap_console a)) a in
  with_nav (Navigation.signOut (ap_nav a)) a.

(** ** Steps *)

Definition mountApp (address : Address) : App := render {|
  ap_session := loadAuthSession
    (set_session checking {| authenticated := false; oauth_enabled := false; login := None;
                             role := None; avatar_url := None; expires_at := None |} 0 0 0);
  ap_nav := mountNav address;
  ap_effects := {| ef_user := None; ef_userTimer := None;
                   ef_admin := None; ef_adminTimer := None |};
  ap_user := initial_user (nv_key (mountNav address));
  ap_console := initialConsole |}.

(** The requests of the pages are made once the session is known: every page
    and effect that makes one asks for [authenticated] first.  A timer may
    strike, and a synchronisation end, before the effects of the last render
    have run. *)
Inductive app_step : App -> App -> Prop :=
  | at_checked answer n a :
      se_checks (ap_session a) = S n ->
      app_step a (with_session (settleCheck answer n (ap_session a)) a)
  | at_retry a :
      appPage a = SessionErrorPage ->
      app_step a (with_session (loadAuthSession (ap_session a)) a)
  | at_call a :
      se_status (ap_session a) = ready -> app_step a (with_session (beginCall (ap_session a)) a)
  | at_answered checked n a :
      se_calls (ap_session a) = S n ->
      app_step a (with_session (endCall checked n (ap_session a)) a)
  | at_signOut a : authenticated (session_of a) = true -> app_step a (signOutApp a)
  | at_signedOut n a :
      se_logouts (ap_session a) = S n ->
      app_step a (with_session (endLogout n (ap_session a)) a)
  | at_nav n a : nav_step false (ap_nav a) n -> app_step a (with_nav n a)
  | at_effects a : app_step a (runEffects a)
  | at_userTick c a :
      ef_userTimer (ap_effects a) = Some c ->
      app_step a (with_userState (loadUserAll c true (ap_user a)) a)
  | at_adminTick r a :
      ef_adminTimer (ap_effects a) = Some r ->
      app_step a (with_adminState (loadAll r true (ap_console a)) a)
  | at_sync a :
      load_allowed (closureNow a) = true ->
      app_step a (with_userState (beginSync (closureNow a) (ap_user a)) a)
  | at_synced l c r a :
      us_syncs (ap_user a) = l ++ (c, false) :: r ->
      app_step a (with_userState (syncAnswered c (l ++ r) (ap_user a)) a)
  | at_user st a : user_step None (ap_user a) st -> app_step a (with_userState st a)
  | at_console c a :
      console_step false (fun _ _ _ => True) (ap_console a) c ->
      routeOf c = routeOf (ap_console a) -> app_step a (with_adminState c a).

Inductive app_reachable : App -> Prop :=
  | ar_mount address : plain_address address -> app_reachable (mountApp address)
  | ar_step a a' : app_reachable a -> app_step a a' -> app_reachable a'.

(** * Properties *)

(** ** The parts

    The application drives its parts by the steps their files have, so what is
    proved of a part in every reachable state holds in the running application. *)
Definition parts_reachable (a : App) : Prop :=
  nav_reachable false (ap_nav a) /\ guarded_reachable (ap_user a) /\
  console_reachable false (fun _ _ _ => True) (ap_console a).

Lemma render_route (a : App) : routeOf (ap_console (render a)) = routeNow (render a).
Proof.
  unfold render, changeRoute, logEffect, loadLog. cbn [ap_console with_adminState].
  by repeat case_match.
Qed.

Lemma render_parts (a : App) : parts_reachable a -> parts_reachable (render a).
Proof. intros (Hn & Hu & Hc). split_and!; [done..|]. eapply co_next; [exact Hc|apply co_route]. Qed.

Lemma with_userState_parts (label : option LoadClosure) (st : UserState) (a : App) :
  parts_reachable a -> user_step label (ap_user a) st ->
  (forall c, label = Some c -> load_allowed c = true) -> parts_reachable (with_userState st a).
Proof. intros (Hn & Hu & Hc) Hs Hl. split_and!; [done| |done]. by eapply guarded_next. Qed.

Lemma with_adminState_parts (c : Console) (a : App) :
  parts_reachable a -> console_step false (fun _ _ _ => True) (ap_console a) c ->
  parts_reachable (with_adminState c a).
Proof. intros (Hn & Hu & Hc) Hs. split_and!; [done..|]. by eapply co_next. Qed.

Lemma with_session_parts (s : SessionState) (a : App) :
  parts_reachable a -> parts_reachable (with_session s a).
Proof. intros H. by apply render_parts. Qed.

Lemma with_nav_parts (n : Nav) (a : App) :
  parts_reachable a -> nav_step false (ap_nav a) n -> parts_reachable (with_nav n a).
Proof.
  intros (Hn & Hu & Hc) Hs. apply render_parts. split_and!; [|done..]. by eapply nr_step.
Qed.

Lemma userEffect_parts (c : LoadClosure) (a : App) :
  parts_reachable a -> parts_reachable (userEffect c a).
Proof.
  intros (Hn & Hu & Hc). unfold userEffect. case_decide; [done|].
  split_and!; [done| |done]. cbn [ap_user].
  destruct (load_allowed c) eqn:El; [|done].
  eapply guarded_next; [exact Hu|apply us_load|]. by intros ? [= <-].
Qed.

Lemma adminEffect_parts (r : Route) (a : App) :
  parts_reachable a -> parts_reachable (adminEffect r a).
Proof.
  intros (Hn & Hu & Hc). unfold adminEffect. case_decide; [done|].
  split_and!; [done..|]. cbn [ap_console].
  destruct (adminActive r); [|done]. eapply co_next; [exact Hc|apply co_load].
Qed.

(** ** The timers *)

(** A timer is the one its effect set in its last run. *)
Definition timers_set (e : Effects) : Prop :=
  ef_userTimer e =
    (ef_user e ≫= fun c =>
     if load_allowed c && shouldPollUserRoute (lc_path c) then Some c else None) /\
  ef_adminTimer e =
    (ef_admin e ≫= fun r =>
     if adminActive r && shouldPollAdminSection (rt_section r) then Some r else None).

Lemma effects_timers (a : App) :
  timers_set (ap_effects a) -> timers_set (ap_effects (runEffects a)).
Proof.
  intros [Hu Ha]. unfold runEffects, userEffect, adminEffect.
  by repeat case_decide; split; cbn.
Qed.

(** ** The session

    Nobody is signed in before the session is known, and at most one check is
    waited for. *)
Definition nobody (s : SessionState) : Prop :=
  authenticated (se_session s) = false /\ se_calls s = 0 /\ se_logouts s = 0.

Definition session_inv (s : SessionState) : Prop :=
  match se_status s with
  | checking => se_checks s = 1 /\ nobody s
  | session_error => se_checks s = 0 /\ nobody s
  | ready => se_checks s = 0
  end.

Definition session_known (a : App) : Prop := session_inv (ap_session a).

Lemma known_ready (s : SessionState) :
  session_inv s -> authenticated (se_session s) = true \/ se_calls s <> 0 \/ se_logouts s <> 0 ->
  se_status s = ready.
Proof.
  unfold session_inv, nobody. destruct (se_status s); [|done|];
    intros (_ & Ha & Hc & Hl) [E|[E|E]]; congruence.
Qed.

Lemma ready_known (s s' : SessionState) :
  session_inv s -> se_status s = ready -> se_status s' = ready -> se_checks s' = se_checks s ->
  session_inv s'.
Proof. unfold session_inv. intros H E1 E2 E3. rewrite E1 in H. by rewrite E2, E3. Qed.

Lemma settleCheck_known (answer : thrown + Response) (n : nat) (s : SessionState) :
  session_inv s -> se_checks s = S n -> session_inv (settleCheck answer n s).
Proof.
  unfold session_inv. destruct (se_status s) eqn:E; intros H Ec; [|congruence|].
  2: { destruct H. congruence. }
  destruct H as [Hc Hq]. assert (n = 0) as -> by congruence.
  unfold settleCheck. by repeat case_match.
Qed.

(** The page that offers another check is shown after a check that failed. *)
Lemma error_page_status (a : App) :
  appPage a = SessionErrorPage -> se_status (ap_session a) = session_error.
Proof.
  unfold appPage, pageShown, authRouteViewState. by repeat case_match.
Qed.

Definition running (a : App) : Prop :=
  parts_reachable a /\ timers_set (ap_effects a) /\ session_known a /\
  routeOf (ap_console a) = routeNow a.

(** A step of the session keeps the rest. *)
Lemma with_session_running (s : SessionState) (a : App) :
  running a -> session_known (with_session s a) -> running (with_session s a).
Proof.
  intros (Hp & Ht & _ & _) Hk. split; [by apply with_session_parts|].
  split; [exact Ht|]. split; [exact Hk|]. apply render_route.
Qed.

Lemma with_userState_running (label : option LoadClosure) (st : UserState) (a : App) :
  running a -> user_step label (ap_user a) st ->
  (forall c, label = Some c -> load_allowed c = true) -> running (with_userState st a).
Proof.
  intros (Hp & Ht & Hk & Hr) Hs Hl. split; [exact (with_userState_parts label st a Hp Hs Hl)|].
  exact (conj Ht (conj Hk Hr)).
Qed.

Lemma with_adminState_running (c : Console) (a : App) :
  running a -> console_step false (fun _ _ _ => True) (ap_console a) c ->
  routeOf c = routeOf (ap_console a) -> running (with_adminState c a).
Proof.
  intros (Hp & Ht & Hk & Hr) Hs E. split; [by apply with_adminState_parts|].
  split; [done|]. split; [done|]. exact (eq_trans E Hr).
Qed.

Lemma with_nav_running (n : Nav) (a : App) :
  running a -> nav_step false (ap_nav a) n -> running (with_nav n a).
Proof.
  intros (Hp & Ht & Hk & _) Hs. split; [by apply with_nav_parts|].
  split; [exact Ht|]. split; [exact Hk|]. apply render_route.
Qed.

Lemma loadAll_route (r : Route) (polling : bool) (c : Console) :
  routeOf (loadAll r polling c) = routeOf c.
Proof. unfold loadAll. by repeat case_match. Qed.

Lemma effects_running (a : App) : running a -> running (runEffects a).
Proof.
  intros (Hp & Ht & Hk & Hr). split; [|split; [|split]].
  - by apply userEffect_parts, adminEffect_parts.
  - by apply effects_timers.
  - unfold runEffects, userEffect, adminEffect. by repeat case_decide.
  - assert (forall r b, routeNow (adminEffect r b) = routeNow b /\
      routeOf (ap_console (adminEffect r b)) = routeOf (ap_console b)) as Ha.
    { intros r b. unfold adminEffect. case_decide; [done|]. split; [done|]. cbn [ap_console].
      destruct (adminActive r); [apply loadAll_route|done]. }
    assert (forall c b, routeNow (userEffect c b) = routeNow b /\
      ap_console (userEffect c b) = ap_console b) as Hu.
    { intros c b. unfold userEffect. by case_decide. }
    unfold runEffects. destruct (Hu (closureNow a) (adminEffect (routeNow a) a)) as [E1 ->].
    destruct (Ha (routeNow a) a) as [E2 ->]. by rewrite E1, E2.
Qed.

Lemma step_running (a a' : App) : running a -> app_step a a' -> running a'.
Proof.
  intros Ha Hs. pose proof Ha as (Hp & Ht & Hk & Hr). unfold session_known in Hk.
  destruct Hs as [answer n a E|a E|a E|checked n a E|a E|n a E|n a E|a
    |c a E|r a E|a E|l c r a E|st a E|c a E Er].
  - apply with_session_running; [done|]. by apply settleCheck_known.
  - apply with_session_running; [done|]. apply error_page_status in E.
    unfold session_inv in *. rewrite E in Hk. cbn. destruct Hk as [-> Hq]. done.
  - apply with_session_running; [done|]. by eapply ready_known.
  - apply with_session_running; [done|].
    assert (se_status (ap_session a) = ready) by (apply known_ready; [done|]; lia).
    by eapply ready_known.
  - assert (se_status (ap_session a) = ready) by (apply known_ready; [done|]; by left).
    unfold signOutApp. cbv zeta.
    apply with_nav_running; [|by apply nt_navigation; [apply ng_signOut|]].
    apply with_adminState_running; [|apply co_signOut|done].
    eapply with_userState_running; [|apply us_signOut|done].
    apply with_session_running; [done|]. by eapply ready_known.
  - apply with_session_running; [done|].
    assert (se_status (ap_session a) = ready) by (apply known_ready; [done|]; lia).
    by eapply ready_known.
  - by apply with_nav_running.
  - by apply effects_running.
  - eapply with_userState_running; [done|apply us_load|]. intros ? [= <-].
    destruct Ht as [Ht _]. rewrite E in Ht.
    destruct (ef_user (ap_effects a)) as [d|]; [|done]. cbn in Ht.
    destruct (load_allowed d) eqn:El; [|done]. cbn in Ht.
    destruct (shouldPollUserRoute _); [by injection Ht as ->|done].
  - apply with_adminState_running; [done|apply co_load|apply loadAll_route].
  - eapply with_userState_running; [done|apply us_sync|]. by intros ? [= <-].
  - eapply with_userState_running; [done|by apply us_synced|]. intros ? [= <-].
    destruct Hp as (_ & Hu & _). pose proof (guarded_syncs _ Hu) as Hy. rewrite E in Hy.
    by apply Forall_app in Hy as [_ [Hc _]%Forall_cons].
  - by eapply with_userState_running.
  - by apply with_adminState_running.
Qed.

Lemma app_running (a : App) : app_reachable a -> running a.
Proof.
  induction 1 as [address Hp|a a' _ IH Hs]; [|by eapply step_running].
  split; [|done]. apply render_parts.
  split_and!; [by apply nr_mount|apply guarded_start|apply co_start].
Qed.

(** ** What is polled *)

Lemma polled_route (path : string) : shouldPollUserRoute path = true -> isUserRoute path = true.
Proof. unfold shouldPollUserRoute, isUserRoute. by intros ->. Qed.

Lemma polled_access (path : string) :
  shouldPollUserRoute path = true -> appRouteAccess path = access_user.
Proof.
  intros Hp. destruct (appRouteAccess path) eqn:Ea; [|done| |].
  - unfold appRouteAccess in Ea.
    assert (path = "/" \/ path ∈ siteDocumentRoutes) as Hpub.
    { destruct (decide (path = "/")) as [->|Hn]; [by left|]. right.
      rewrite bool_decide_eq_false_2 in Ea by done. cbn [orb] in Ea.
      destruct (isSiteDocumentPath path) eqn:E2; [by apply bool_decide_eq_true_1 in E2|].
      by repeat case_match. }
    assert (forall p, p ∈ "/" :: siteDocumentRoutes -> shouldPollUserRoute p = false) as H.
    { intros p Hin. unfold siteDocumentRoutes in Hin.
      repeat (apply elem_of_cons in Hin as [->|Hin]; [done|]). by apply not_elem_of_nil in Hin. }
    rewrite H in Hp; [done|]. destruct Hpub as [->|]; [by left|by right].
  - apply appRouteAccess_admin in Ea as [->|[->|[s ->]]]; [done..|]. by destruct s.
  - unfold appRouteAccess in Ea. rewrite (polled_route path Hp) in Ea. by repeat case_match.
Qed.

(** C5.  Once the effects of the render on screen have run, the page that is
    polled is the page that is shown.  A page of jobs is polled for the user who
    is signed in and for its own address, a section of the administration for
    its own lists; the page of a single job, the public pages and the pages of
    those who are not signed in or lack access are not polled.  So after a
    sign-out, however it came about, nothing is asked until someone signs in. *)
Theorem polling_follows_page (a : App) :
  app_reachable a -> upToDate a ->
  let e := ap_effects a in
  match appPage a with
  | DashboardPage _ =>
      ef_adminTimer e = None /\
      ef_userTimer e =
        (if shouldPollUserRoute (nv_path (ap_nav a)) then Some (closureNow a) else None)
  | AdminPage section =>
      ef_userTimer e = None /\
      ef_adminTimer e = (if shouldPollAdminSection section then Some (routeNow a) else None) /\
      rt_section (routeNow a) = section
  | _ => ef_userTimer e = None /\ ef_adminTimer e = None
  end.
Proof.
  intros Ha [Eu Ea]. cbv zeta. destruct (app_running a Ha) as (_ & [-> ->] & Hk & _).
  rewrite Eu, Ea. cbn [mbind option_bind].
  assert (authenticated (session_of a) = true -> se_status (ap_session a) = ready) as Hready.
  { intros H. apply known_ready; [done|by left]. }
  pose proof (polled_access (nv_path (ap_nav a))) as Hacc.
  pose proof (job_page_not_polled (nv_path (ap_nav a))) as Hjob.
  unfold load_allowed, adminActive, closureNow, routeNow, appPage, pageShown, onAdminRoute.
  cbn [lc_authenticated lc_hasAccess lc_isAdminRoute lc_path rt_hasAccess rt_isAdminRoute rt_section].
  assert (hasAccess (session_of a) = true -> authenticated (session_of a) = true) as Hin.
  { by intros [H _]%andb_prop. }
  destruct (appRouteAccess (nv_path (ap_nav a))) eqn:Er.
  all: destruct (shouldPollUserRoute (nv_path (ap_nav a))); try by discriminate (Hacc eq_refl).
  all: destruct (str_truthy (userJobIDFromPath (nv_path (ap_nav a))));
    try by discriminate (Hjob eq_refl).
  all: destruct (hasAccess (session_of a)); try rewrite (Hin eq_refl) in *.
  all: destruct (authenticated (session_of a)); try rewrite (Hready eq_refl); try done.
  all: cbn; try by case_bool_decide.
  all: by destruct (se_status (ap_session a)).
Qed.

Definition example_session_answer (signedIn : bool) (role : string) : thrown + Response := inr {|
  rs_status := 200; rs_statusText := "OK"; rs_contentType := Some "application/json";
  rs_body := stringify (JObj [("authenticated", JBool signedIn); ("login", JStr "octocat");
                              ("role", JStr role)]) |}.

(** The application at an address, once the session is known and the effects
    have run. *)
Definition opened (path role : string) : App :=
  let a := mountApp {| ad_path := path; ad_search := "" |} in
  runEffects (with_session (settleCheck (example_session_answer true role) 0 (ap_session a)) a).

Lemma opened_reachable (path role : string) :
  plain_address {| ad_path := path; ad_search := "" |} -> app_reachable (opened path role).
Proof.
  intros Hp. eapply ar_step; [eapply ar_step; [by apply ar_mount|]|apply at_effects].
  by apply at_checked.
Qed.

Lemma polling_follows_page_witness :
  appPage (opened "/admin/" "admin") = AdminPage overview /\
  ef_userTimer (ap_effects (opened "/admin/" "admin")) = None /\
  ef_adminTimer (ap_effects (opened "/admin/" "admin")) = Some (routeNow (opened "/admin/" "admin")).
Proof.
  assert (appPage (opened "/admin/" "admin") = AdminPage overview) as E by (vm_compute; reflexivity).
  split; [exact E|].
  pose proof (polling_follows_page (opened "/admin/" "admin")
    (opened_reachable "/admin/" "admin" eq_refl)
    ltac:(split; vm_compute; reflexivity)) as H.
  cbv zeta in H. rewrite E in H. destruct H as (Hu & Ha & _). split; [exact Hu|exact Ha].
Defined.

(** ** The session *)

(** While the session is being checked exactly one check is waited for, and its
    answer, whatever it is, ends the check; a check that failed offers another;
    once a check succeeded the session is never checked again, and before that
    nobody is signed in, no page asks for anything, and no one signs out. *)
Theorem session_checked_once (a : App) :
  app_reachable a ->
  let s := ap_session a in
  match se_status s with
  | checking =>
      se_checks s = 1 /\ nobody s /\
      forall answer, se_status (settleCheck answer 0 s) <> checking /\
        app_step a (with_session (settleCheck answer 0 s) a)
  | session_error => se_checks s = 0 /\ nobody s
  | ready => se_checks s = 0 /\ forall a', app_step a a' -> se_status (ap_session a') = ready
  end.
Proof.
  intros Ha. cbv zeta. destruct (app_running a Ha) as (_ & _ & Hk & _).
  unfold session_known, session_inv in Hk. destruct (se_status (ap_session a)) eqn:E.
  - destruct Hk as [Hc Hn]. split; [done|]. split; [done|]. intros answer. split.
    + unfold settleCheck. by repeat case_match.
    + by apply at_checked.
  - split; [done|]. intros a' Hs. destruct Hs as [answer n a H|a H|a H|checked n a H|a H|n a H|n a H|a
      |c a H|r a H|a H|l c r a H|st a H|c a H Er]; try exact E.
    + congruence.
    + by rewrite (error_page_status a) in E.
    + unfold runEffects, userEffect, adminEffect. by repeat case_decide.
  - done.
Qed.

Lemma session_checked_once_witness :
  let a := mountApp {| ad_path := "/jobs"; ad_search := "" |} in
  se_checks (ap_session a) = 1 /\
  se_status (settleCheck (inl ThrownOther) 0 (ap_session a)) <> checking.
Proof.
  cbv zeta. destruct (session_checked_once (mountApp {| ad_path := "/jobs"; ad_search := "" |})
    (ar_mount {| ad_path := "/jobs"; ad_search := "" |} eq_refl)) as (Hc & _ & H).
  split; [exact Hc|]. exact (proj1 (H (inl ThrownOther))).
Defined.

(** A session check that follows a refused request is not called off by a
    sign-out: answered late, with the session it saw, it signs the user in again
    on the page, which loads and polls until the service refuses. *)
Example late_check_signs_in :
  let s a := ap_session a in
  let a := opened "/jobs" "user" in
  let a := with_session (beginCall (s a)) a in
  let out := with_session (endLogout 0 (s (signOutApp a))) (signOutApp a) in
  let late := with_session (endCall (Some (example_session_answer true "user")) 0 (s out)) out in
  app_reachable late /\ appPage out = SignInPage "/jobs" /\
  appPage late = DashboardPage HomePage /\
  ef_userTimer (ap_effects (runEffects out)) = None /\
  is_Some (ef_userTimer (ap_effects (runEffects late))).
Proof.
  cbv zeta. split; [|split_and!; try (vm_compute; reflexivity); vm_compute; by eexists].
  eapply ar_step; [|by apply at_answered]. eapply ar_step; [|by apply at_signedOut].
  eapply ar_step; [|apply at_signOut; vm_compute; reflexivity].
  eapply ar_step; [|apply at_call; vm_compute; reflexivity].
  exact (opened_reachable "/jobs" "user" eq_refl).
Qed.
