(* ===== verification/JobsScreen.v ===== *)
(** The jobs page as the reader sees it: the address, the build context and the job
    that it selects, the context the service answered for, and the panel with the
    logs of the job ([UserDashboard], [PullRequestsPage] and [RunnerJobLogPanel] of
    src/ui/src/components/user-dashboard.tsx, driven by the location state of
    src/ui/src/App.tsx).  The parts have files of their own (Navigation, JobsPage,
    LogPanel); here they meet, and what is on screen is compared with the address
    and with what the service answers. *)
From S2P Require Import Prelude.
From S2P Require Import JsString.
From S2P Require Import JsRegex.
From S2P Require Import JsUri.
From S2P Require Import Json.
From S2P Require Import AdminTypes.
From S2P Require Import Errors.
From S2P Require Import LoadPolicy.
From S2P Require Import AppRoutes.
From S2P Require Import BuildGroups.
From S2P Require Import JobLogs.
From S2P Require Import LogPanel.
From S2P Require Import Navigation.
From S2P Require Import Selection.
From S2P Require Import JobsPage.
From S2P Require Import JobView.
From S2P Require Import DashboardView.

(** ** The panel between two events

    The microtasks that an effect queues run before the browser takes the next
    event, so between events none is waiting. *)
Definition drain (p : LogPanel) : LogPanel :=
  foldl (fun p m => runMicrotask m p) (set_queues (p_fetches p) [] p) (p_microtasks p).

Inductive PanelEvent :=
  | PanelStream (name : LogName)
  | PanelRefresh
  | PanelJob (jobID : string).

Definition panelEvent (e : PanelEvent) (p : LogPanel) : LogPanel :=
  drain match e with
        | PanelStream name => selectLog name p
        | PanelRefresh => refreshGithubLog p
        | PanelJob jobID => selectJob jobID p
        end.

(** The panel of the job that is selected, if one is. *)
Definition followJob (job : option RunnerState) (panel : option LogPanel) : option LogPanel :=
  match job, panel with
  | None, _ => None
  | Some j, None => Some (drain (mount (id j)))
  | Some j, Some p => Some (panelEvent (PanelJob (id j)) p)
  end.

(** ** The screen *)

(** [sc_page] is there while the dashboard is mounted, [sc_panel] while it shows
    the page of the jobs with a job. *)
Record JobsScreen := {
  sc_nav : Nav;
  sc_groups : list BuildGroup;
  sc_page : option JobsPage;
  sc_panel : option LogPanel;
}.

Section screen.
(** Who is signed in; what the service answers for a build context, and for a log:
    the endpoint of the job, and the stream, or none for the log of GitHub. *)
Context (session : AuthSession)
  (groupAnswers : string -> thrown + option RunnerJobGroup -> Prop)
  (logAnswers : string -> option LogName -> thrown + json -> Prop).

(** A render: the address gives the dashboard the key and the job, and the page
    of the jobs mounts, or keeps, the panel of the job. *)
Definition renderScreen (nav : Nav) (groups : list BuildGroup) (page : option JobsPage)
    (panel : option LogPanel) : JobsScreen :=
  match pageShown ready session nav with
  | DashboardPage kind =>
      let jobID := userJobIDFromSearch (nv_search nav) in
      let p := match page with
               | Some p => setProps groups (nv_key nav) jobID p
               | None => mountJobs groups (nv_key nav) jobID
               end in
      {| sc_nav := nav; sc_groups := groups; sc_page := Some p;
         sc_panel := match kind with HomePage => followJob (panelJob p) panel | _ => None end |}
  | _ => {| sc_nav := nav; sc_groups := groups; sc_page := None; sc_panel := None |}
  end.

Definition mountScreen (address : Address) : JobsScreen :=
  renderScreen (mountNav address) [] None None.

(** The group of a context arrives: the jobs, and with them the job that is
    selected, may change. *)
Definition settleScreen (p : JobsPage) (s : JobsScreen) : JobsScreen :=
  {| sc_nav := sc_nav s; sc_groups := sc_groups s; sc_page := Some p;
     sc_panel := match pageShown ready session (sc_nav s) with
                 | DashboardPage HomePage => followJob (panelJob p) (sc_panel s)
                 | _ => None
                 end |}.

Definition with_panel (p : LogPanel) (s : JobsScreen) : JobsScreen :=
  {| sc_nav := sc_nav s; sc_groups := sc_groups s; sc_page := sc_page s; sc_panel := Some p |}.

(** The request of a log and its answer. *)
Definition fetchAnswered (f : fetch) (result : thrown + json) : Prop :=
  match f with
  | RunnerLogFetch _ endpoint name => logAnswers endpoint (Some name) result
  | GitHubLogFetch _ endpoint | GitHubRefresh endpoint => logAnswers endpoint None result
  end.

Definition settlePanel (f : fetch) (result : thrown + json) (others : list fetch) (p : LogPanel) :
    LogPanel :=
  drain (settle f result (set_queues others (p_microtasks p) p)).

(** The groups change with a page of requests that [loadUserAll] brings, and with the
    history, which leaves the selection alone. *)
Inductive jobs_screen_step : JobsScreen -> JobsScreen -> Prop :=
  | sn_nav n s :
      nav_step true (sc_nav s) n ->
      jobs_screen_step s (renderScreen n (sc_groups s) (sc_page s) (sc_panel s))
  | sn_runners groups total s :
      jobs_screen_step s
        (renderScreen (runnerPageLoaded total (sc_nav s)) groups (sc_page s) (sc_panel s))
  | sn_history groups s :
      jobs_screen_step s (renderScreen (sc_nav s) groups (sc_page s) (sc_panel s))
  | sn_group p l q r result s :
      sc_page s = Some p -> jp_requests p = l ++ q :: r -> groupAnswers q.1 result ->
      jobs_screen_step s (settleScreen (settleGroup q (l ++ r) result p) s)
  | sn_stream name p s :
      sc_panel s = Some p -> jobs_screen_step s (with_panel (panelEvent (PanelStream name) p) s)
  | sn_refresh p s :
      sc_panel s = Some p -> jobs_screen_step s (with_panel (panelEvent PanelRefresh p) s)
  | sn_log p l f r result s :
      sc_panel s = Some p -> p_fetches p = l ++ f :: r -> fetchAnswered f result ->
      jobs_screen_step s (with_panel (settlePanel f result (l ++ r) p) s).

Inductive jobs_screen_reachable : JobsScreen -> Prop :=
  | sr_mount address :
      plain_address address -> good_address address -> jobs_screen_reachable (mountScreen address)
  | sr_step s s' : jobs_screen_reachable s -> jobs_screen_step s s' -> jobs_screen_reachable s'.

(** * Properties *)

(** ** The panel shows answers *)

(** A log is being loaded, by a request that is waited for, or it is what the
    service answered for this very job and stream. *)
Definition runner_shown (p : LogPanel) : Prop :=
  (p_runnerLogText p = LogMessage key_user_loadingRunnerLog /\
   RunnerLogFetch (p_runnerRun p) (p_endpoint p) (p_selectedLog p) ∈ p_fetches p) \/
  (exists result, logAnswers (p_endpoint p) (Some (p_selectedLog p)) result /\
   p_runnerLogText p = runnerLogOf result).

Definition github_shown (p : LogPanel) : Prop :=
  (p_githubLog p = GitHubLog (LogMessage key_user_loadingGitHubLog) /\
   p_githubLogLoading p = true /\
   (GitHubLogFetch (p_githubRun p) (p_endpoint p) ∈ p_fetches p \/
    GitHubRefresh (p_endpoint p) ∈ p_fetches p)) \/
  (exists result, logAnswers (p_endpoint p) None result /\
   p_githubLog p = githubLogOf result /\ p_githubLogLoading p = false).

Record panel_shows (p : LogPanel) : Prop := {
  ps_inv : panel_inv p;
  ps_quiet : p_microtasks p = [];
  ps_runner_active : p_runnerRun p ∈ p_active p;
  ps_github_active : p_githubRun p ∈ p_active p;
  ps_distinct : p_runnerRun p <> p_githubRun p;
  ps_runner : runner_shown p;
  ps_github : github_shown p;
}.

Lemma drain_quiet (p : LogPanel) : p_microtasks p = [] -> drain p = p.
Proof. unfold drain. intros E. rewrite E. destruct p; cbn in *. by subst. Qed.

(** A request that is not the one waited for is answered. *)
Lemma runner_kept (f : fetch) (l r : list fetch) (p : LogPanel) :
  runner_shown p -> p_fetches p = l ++ f :: r ->
  f <> RunnerLogFetch (p_runnerRun p) (p_endpoint p) (p_selectedLog p) ->
  runner_shown (set_queues (l ++ r) (p_microtasks p) p).
Proof.
  intros [[H Hin]|H] E Hf; [left|by right]. split; [done|]. cbn. rewrite E in Hin. set_solver.
Qed.

Lemma github_kept (f : fetch) (l r : list fetch) (p : LogPanel) :
  github_shown p -> p_fetches p = l ++ f :: r ->
  f <> GitHubLogFetch (p_githubRun p) (p_endpoint p) -> f <> GitHubRefresh (p_endpoint p) ->
  github_shown (set_queues (l ++ r) (p_microtasks p) p).
Proof.
  intros [(H & Hl & Hin)|H] E Hf Hg; [left|by right]. split; [done|]. split; [done|]. cbn.
  rewrite E in Hin. set_solver.
Qed.

(** A job is shown: the one that was mounted for, or another. *)
Lemma shown_job (jobID : string) (p : LogPanel) :
  panel_inv p -> p_microtasks p = [] ->
  (p_runnerRun p ∉ p_active p) -> (p_githubRun p ∉ p_active p) ->
  panel_shows (drain (githubLogEffect (runnerLogEffect
    (set_shown (jobEndpoint jobID) (p_selectedLog p) p)))).
Proof.
  intros Hi Hm Hr Hg.
  set (q := githubLogEffect _).
  assert (panel_inv q) as Hq.
  { apply githubLogEffect_inv; [|cbn; pose proof (inv_github _ Hi); set_solver by lia].
    apply runnerLogEffect_inv; [|exact Hr]. apply set_shown_inv; [done..|by right]. }
  assert (p_microtasks q = [RunnerLoading (p_next p); GitHubLoading (S (p_next p))]) as Eq
    by (cbn; by rewrite Hm).
  unfold drain. rewrite Eq. cbn [foldl runMicrotask].
  rewrite (bool_decide_eq_true_2 (p_next p ∈ p_active (set_queues (p_fetches q) [] q)))
    by (cbn; set_solver).
  rewrite bool_decide_eq_true_2 by (cbn; set_solver).
  constructor; [|done|cbn; set_solver|cbn; set_solver|cbn; lia|left|left].
  - apply set_texts_inv, set_texts_inv, set_queues_inv; [done|auto].
  - split; [done|]. cbn. set_solver.
  - split; [done|]. split; [done|]. left. cbn. set_solver.
Qed.

Lemma mount_shows (jobID : string) : panel_shows (drain (mount jobID)).
Proof.
  apply (shown_job jobID emptyPanel); [|done|cbn; set_solver|cbn; set_solver].
  split; cbn; [lia..|set_solver|constructor].
Qed.

Lemma job_shows (jobID : string) (p : LogPanel) :
  panel_shows p -> panel_shows (panelEvent (PanelJob jobID) p).
Proof.
  intros Hp. pose proof Hp as [Hi Hm Hr Hg _ _ _]. unfold panelEvent, selectJob. case_bool_decide.
  { by rewrite drain_quiet. }
  apply shown_job; [by do 2 apply cleanup_inv|done|cbn; set_solver..].
Qed.

Lemma stream_shows (name : LogName) (p : LogPanel) :
  panel_shows p -> panel_shows (panelEvent (PanelStream name) p).
Proof.
  intros Hp. pose proof Hp as [Hi Hm Hr Hg Hne Hl Hh]. unfold panelEvent, selectLog. case_bool_decide.
  { by rewrite drain_quiet. }
  set (q := runnerLogEffect _).
  assert (panel_inv q) as Hq.
  { apply runnerLogEffect_inv; [|cbn; set_solver].
    apply set_shown_inv; [by apply cleanup_inv|cbn; set_solver|by left]. }
  assert (p_microtasks q = [RunnerLoading (p_next p)]) as Eq by (cbn; by rewrite Hm).
  unfold drain. rewrite Eq. cbn [foldl runMicrotask].
  rewrite !bool_decide_eq_true_2 by (cbn; set_solver).
  constructor; [|done|cbn; set_solver|cbn; set_solver| |left|].
  - apply set_texts_inv, set_queues_inv; [done|auto].
  - cbn. pose proof (inv_github _ Hi). lia.
  - split; [done|]. cbn. set_solver.
  - destruct Hh as [(H1 & H2 & H3)|H3]; [left|right; exact H3].
    split; [done|]. split; [done|]. cbn. set_solver.
Qed.

Lemma refresh_shows (p : LogPanel) : panel_shows p -> panel_shows (panelEvent PanelRefresh p).
Proof.
  intros [Hi Hm Hr Hg Hne Hl Hh]. unfold panelEvent. rewrite drain_quiet by done.
  constructor; [|done..| |left].
  - apply set_queues_inv; [by apply set_texts_inv|]. intros f. cbn.
    rewrite elem_of_app, list_elem_of_singleton. intros [?| ->]; eauto.
  - destruct Hl as [(H1 & H2)|H2]; [left|right; exact H2]. split; [done|]. cbn. set_solver.
  - split; [done|]. split; [done|]. right. cbn. set_solver.
Qed.

(** An answer is shown where it is the latest one asked for; any other answer
    changes nothing. *)
Lemma settle_shows (f : fetch) (result : thrown + json) (l r : list fetch) (p : LogPanel) :
  panel_shows p -> p_fetches p = l ++ f :: r -> fetchAnswered f result ->
  panel_shows (settlePanel f result (l ++ r) p).
Proof.
  intros [Hi Hm Hr Hg Hne Hl Hh] E Ha. unfold settlePanel.
  assert (panel_inv (settle f result (set_queues (l ++ r) (p_microtasks p) p))) as Hq.
  { apply settle_inv, set_queues_inv; [done|]. intros g Hin. left. rewrite E. set_solver. }
  rewrite drain_quiet by (destruct f; cbn; by case_bool_decide).
  pose proof (inv_fetches _ Hi) as Hf. rewrite E in Hf.
  apply Forall_app in Hf as [_ [Hf _]%Forall_cons].
  revert Hq. destruct f as [run e n|run e|e]; cbn [settle fetchAnswered fetch_inv] in *;
    case_bool_decide as Hc; cbn in Hc; intros Hq; constructor; try done.
  - destruct Hf as (_ & _ & Hf). destruct (Hf Hc) as [-> ->]. right. by exists result.
  - by eapply github_kept.
  - eapply runner_kept; [done..|]. by intros [= ->].
  - by eapply github_kept.
  - by eapply runner_kept.
  - destruct Hf as (_ & _ & Hf). rewrite (Hf Hc) in Ha. right. by exists result.
  - by eapply runner_kept.
  - eapply github_kept; [done..| |done]. by intros [= ->].
  - by eapply runner_kept.
  - rewrite <- Hc in Ha. right. by exists result.
  - by eapply runner_kept.
  - eapply github_kept; [done..|]. intros [= ->]. by apply Hc.
Qed.

(** ** The panel is that of the job selected *)

Lemma drain_endpoint (p : LogPanel) : p_endpoint (drain p) = p_endpoint p.
Proof.
  unfold drain. transitivity (p_endpoint (set_queues (p_fetches p) [] p)); [|done].
  generalize (set_queues (p_fetches p) [] p). induction (p_microtasks p) as [|m l IH]; intros q; [done|].
  cbn [foldl]. rewrite IH. destruct m; cbn; by case_bool_decide.
Qed.

Lemma event_endpoint (e : PanelEvent) (p : LogPanel) :
  p_endpoint (panelEvent e p) =
  match e with PanelJob jobID => jobEndpoint jobID | _ => p_endpoint p end.
Proof.
  unfold panelEvent. rewrite drain_endpoint. destruct e as [name| |jobID]; cbn.
  - unfold selectLog. by case_bool_decide.
  - done.
  - unfold selectJob. by case_bool_decide.
Qed.

Lemma settle_endpoint (f : fetch) (result : thrown + json) (others : list fetch) (p : LogPanel) :
  p_endpoint (settlePanel f result others p) = p_endpoint p.
Proof. unfold settlePanel. rewrite drain_endpoint. destruct f; cbn; by case_bool_decide. Qed.

Definition panel_of (job : option RunnerState) (panel : option LogPanel) : Prop :=
  match job, panel with
  | None, None => True
  | Some j, Some q => p_endpoint q = jobEndpoint (id j) /\ panel_shows q
  | _, _ => False
  end.

Lemma followJob_of (job : option RunnerState) (panel : option LogPanel) :
  (forall q, panel = Some q -> panel_shows q) -> panel_of job (followJob job panel).
Proof.
  intros H. destruct job as [j|]; [|done]. destruct panel as [q|]; cbn [followJob panel_of].
  - split; [apply event_endpoint|]. by apply job_shows, H.
  - split; [apply drain_endpoint|apply mount_shows].
Qed.

(** ** The screen agrees with the location state *)

Definition page_of (nav : Nav) (groups : list BuildGroup) (p : JobsPage) : Prop :=
  jobs_reachable groupAnswers p /\ jp_groups p = groups /\ jp_key p = nv_key nav /\
  jp_jobID p = userJobIDFromSearch (nv_search nav).

Definition parts_agree (s : JobsScreen) : Prop :=
  match pageShown ready session (sc_nav s) with
  | DashboardPage kind =>
      exists p, sc_page s = Some p /\ page_of (sc_nav s) (sc_groups s) p /\
      match kind with
      | HomePage => panel_of (panelJob p) (sc_panel s)
      | _ => sc_panel s = None
      end
  | _ => sc_page s = None /\ sc_panel s = None
  end.

Definition jobs_screen_inv (s : JobsScreen) : Prop := good_reachable (sc_nav s) /\ parts_agree s.

Lemma panel_of_shows (job : option RunnerState) (panel : option LogPanel) (q : LogPanel) :
  panel_of job panel -> panel = Some q -> panel_shows q.
Proof. intros H ->. destruct job; [by destruct H|done]. Qed.

Lemma screen_page (s : JobsScreen) (p : JobsPage) :
  jobs_screen_inv s -> sc_page s = Some p ->
  (exists kind, pageShown ready session (sc_nav s) = DashboardPage kind) /\
  page_of (sc_nav s) (sc_groups s) p.
Proof.
  intros [_ H] E. unfold parts_agree in H.
  destruct (pageShown _ _ _) as [| | | | | | | |kind|]; try (rewrite E in H; by destruct H).
  destruct H as (p' & Ep & Hp & _). rewrite E in Ep. injection Ep as <-. split; [by eexists|exact Hp].
Qed.

Lemma screen_panel (s : JobsScreen) (q : LogPanel) :
  jobs_screen_inv s -> sc_panel s = Some q -> panel_shows q.
Proof.
  intros [_ H] E. unfold parts_agree in H.
  destruct (pageShown _ _ _) as [| | | | | | | |kind|]; try (rewrite E in H; by destruct H).
  destruct H as (p & _ & _ & H). rewrite E in H. destruct kind; [|done..].
  by apply (panel_of_shows _ _ q H).
Qed.

Lemma effect_fields (p : JobsPage) :
  jp_groups (loadGroupEffect p) = jp_groups p /\ jp_key (loadGroupEffect p) = jp_key p /\
  jp_jobID (loadGroupEffect p) = jp_jobID p.
Proof. unfold loadGroupEffect. by case_bool_decide. Qed.

Lemma renderScreen_inv (nav : Nav) (groups : list BuildGroup) (page : option JobsPage)
    (panel : option LogPanel) :
  good_reachable nav -> (forall p, page = Some p -> jobs_reachable groupAnswers p) ->
  (forall q, panel = Some q -> panel_shows q) -> jobs_screen_inv (renderScreen nav groups page panel).
Proof.
  intros Hn Hp Hq. unfold renderScreen.
  destruct (pageShown ready session nav) as [| | | | | | | |kind|] eqn:E; cbn zeta;
    (split; [exact Hn|]); unfold parts_agree; cbn [sc_nav sc_groups sc_page sc_panel]; rewrite E; try done.
  eexists. split; [reflexivity|]. split.
  - destruct page as [p|].
    + split; [|apply effect_fields]. eapply js_next; [by apply Hp|]. apply js_props.
    + split; [apply js_mount|apply effect_fields].
  - destruct kind; [by apply followJob_of|done..].
Qed.

Lemma with_panel_inv (q q' : LogPanel) (s : JobsScreen) :
  jobs_screen_inv s -> sc_panel s = Some q -> panel_shows q' -> p_endpoint q' = p_endpoint q ->
  jobs_screen_inv (with_panel q' s).
Proof.
  intros [Hn H] E Hq Ee. split; [exact Hn|]. unfold parts_agree in *. cbn [with_panel sc_nav sc_groups sc_page sc_panel].
  destruct (pageShown _ _ _) as [| | | | | | | |kind|]; try (rewrite E in H; by destruct H).
  destruct H as (p & Ep & Hp & H). rewrite E in H. exists p. split; [exact Ep|]. split; [exact Hp|].
  destruct kind; [|done..]. destruct (panelJob p); [|done]. destruct H as [H _].
  split; [by rewrite Ee|exact Hq].
Qed.

Lemma jobs_screen_step_inv (s s' : JobsScreen) : jobs_screen_step s s' -> jobs_screen_inv s -> jobs_screen_inv s'.
Proof.
  intros Hs Hi. pose proof (fun p => screen_page s p Hi) as Hp. pose proof (fun q => screen_panel s q Hi) as Hq.
  assert (forall p, sc_page s = Some p -> jobs_reachable groupAnswers p) as Hr
    by (intros p E; by destruct (Hp p E) as [_ [? _]]).
  pose proof Hi as [Hn _].
  destruct Hs as [n s Hg|groups total s|groups s|p l q r result s E El Ha|name q s E|q s E|q l f r result s E El Ha].
  - apply renderScreen_inv; [by eapply gr_step|exact Hr|exact Hq].
  - apply renderScreen_inv; [eapply gr_step; [exact Hn|apply nt_runners]|exact Hr|exact Hq].
  - by apply renderScreen_inv.
  - split; [exact Hn|]. unfold parts_agree. cbn [settleScreen sc_nav sc_groups sc_page sc_panel].
    destruct (Hp p E) as [[kind Ek] (Hj & Hg & Hk & Hid)]. rewrite Ek. eexists. split; [reflexivity|].
    split; [|destruct kind; [by apply followJob_of|done..]].
    split; [|done]. eapply js_next; [exact Hj|]. by apply js_settle.
  - eapply with_panel_inv; [done..| |apply (event_endpoint (PanelStream name))]. by apply stream_shows, Hq.
  - eapply with_panel_inv; [done..| |apply (event_endpoint PanelRefresh)]. by apply refresh_shows, Hq.
  - eapply with_panel_inv; [done..| |apply settle_endpoint]. by apply settle_shows; [apply Hq|..].
Qed.

Lemma jobs_screen_reachable_inv (s : JobsScreen) : jobs_screen_reachable s -> jobs_screen_inv s.
Proof.
  induction 1 as [address Ha Hg|s s' _ IH Hs]; [|by eapply jobs_screen_step_inv].
  apply renderScreen_inv; [by apply gr_mount|done..].
Qed.

(** ** What is on screen *)

(** The job of the panel: the one the address names, or the first when it names
    none of the jobs. *)
Lemma panel_job (p : JobsPage) (job : RunnerState) :
  panelJob p = Some job ->
  job ∈ allJobs p /\ (id job = jp_jobID p \/ forall j, j ∈ allJobs p -> id j <> jp_jobID p).
Proof.
  unfold panelJob, selectedJob. destruct (JobsPage.selected p); [|done].
  destruct (find_first _ _) as [j|] eqn:E; intros H.
  - injection H as <-. apply find_first_Some in E as [Hj E]. split; [exact Hj|].
    left. by apply bool_decide_eq_true_1 in E.
  - rewrite find_first_None in E. split; [destruct (allJobs p); [done|]; injection H as <-; left|].
    right. intros j Hj. exact (bool_decide_eq_false_1 _ (E j Hj)).
Qed.

Lemma panel_answered (q : LogPanel) :
  panel_shows q -> p_fetches q = [] ->
  exists runner github, logAnswers (p_endpoint q) (Some (p_selectedLog q)) runner /\
    logAnswers (p_endpoint q) None github /\ p_runnerLogText q = runnerLogOf runner /\
    p_githubLog q = githubLogOf github /\ p_githubLogLoading q = false.
Proof.
  intros [_ _ _ _ _ Hr Hg] E. unfold runner_shown, github_shown in *. rewrite E in *.
  destruct Hr as [[_ Hr]|(runner & Ha & Hr)]; [by apply elem_of_nil in Hr|].
  destruct Hg as [(_ & _ & [Hg|Hg])|(github & Hb & Hg & Hl)]; [by apply elem_of_nil in Hg..|].
  by exists runner, github.
Qed.

End screen.

(** ** Examples *)

Definition example_log (name : option LogName) : string :=
  match name with
  | None => "built" | Some ControlLog => "started" | Some _ => "compiling"
  end.

Definition example_logs (endpoint : string) (name : option LogName) (result : thrown + json) : Prop :=
  result = inr (JStr (example_log name)).

Definition example_job_address : Address :=
  {| ad_path := "/github/runs/qiniu/ci-runner/42/jobs"; ad_search := "?job=r2" |}.

(** The address of a job, then the groups, the group and the logs of the job that it
    names; another stream is selected before the log of the first one arrives. *)
Definition example_screens : list JobsScreen :=
  let user := example_session "user" in
  let s0 := mountScreen user example_job_address in
  let s1 := renderScreen user (rerender (sc_nav s0)) (sc_groups s0) (sc_page s0) (sc_panel s0) in
  let s2 := renderScreen user (sc_nav s1) example_groups (sc_page s1) (sc_panel s1) in
  let s3 := settleScreen user (settleGroup (group_key_string example_run, false) []
    (inr (Some example_answer)) (default (mountJobs [] "" "") (sc_page s2))) s2 in
  let panel s := default emptyPanel (sc_panel s) in
  let s4 := with_panel (panelEvent (PanelStream StdoutLog) (panel s3)) s3 in
  let e := jobEndpoint "r2" in
  let answer f others s := with_panel (settlePanel f (inr (JStr (example_log
    match f with RunnerLogFetch _ _ n => Some n | _ => None end))) others (panel s)) s in
  let s5 := answer (RunnerLogFetch 2 e ControlLog) [GitHubLogFetch 3 e; RunnerLogFetch 4 e StdoutLog] s4 in
  let s6 := answer (RunnerLogFetch 4 e StdoutLog) [GitHubLogFetch 3 e] s5 in
  let s7 := answer (GitHubLogFetch 3 e) [] s6 in
  [s0; s1; s2; s3; s4; s5; s6; s7].

Definition example_screen (n : nat) : JobsScreen :=
  default (mountScreen (example_session "user") example_job_address) (example_screens !! n).

Definition example_panel (n : nat) : LogPanel := default emptyPanel (sc_panel (example_screen n)).

Abbreviation example_reachable :=
  (jobs_screen_reachable (example_session "user") example_answers example_logs).

Lemma example_step (s s' s'' : JobsScreen) :
  example_reachable s ->
  jobs_screen_step (example_session "user") example_answers example_logs s s' -> s' = s'' ->
  example_reachable s''.
Proof. intros Hs Hst <-. by eapply sr_step. Qed.

Lemma example_good : good_address example_job_address.
Proof.
  intros _. split; [exact example_context|]. intros s E. vm_compute in E. injection E as <-.
  apply utf8b_sound. by vm_compute.
Qed.

(** One more screen of the list is reachable, by the rule named. *)
Ltac next_screen n rule :=
  assert (example_reachable (example_screen n)) by
    (eapply example_step; [eassumption|rule; vm_compute; reflexivity|vm_compute; reflexivity]).

Lemma example_screens_reachable : example_reachable (example_screen 7).
Proof.
  assert (example_reachable (example_screen 0)) by by apply sr_mount, example_good.
  assert (example_reachable (example_screen 1)).
  { eapply example_step; [eassumption|by apply sn_nav, (nt_effects true)|reflexivity]. }
  assert (example_reachable (example_screen 2)).
  { eapply example_step; [eassumption|apply (sn_runners _ _ _ example_groups 3)|reflexivity]. }
  next_screen 3%nat ltac:(apply (sn_group _ _ _ (default (mountJobs [] "" "") (sc_page (example_screen 2)))
    [] (group_key_string example_run, false) [] (inr (Some example_answer)))).
  next_screen 4%nat ltac:(apply (sn_stream _ _ _ StdoutLog (example_panel 3))).
  next_screen 5%nat ltac:(apply (sn_log _ _ _ (example_panel 4) []
    (RunnerLogFetch 2 (jobEndpoint "r2") ControlLog)
    [GitHubLogFetch 3 (jobEndpoint "r2"); RunnerLogFetch 4 (jobEndpoint "r2") StdoutLog]
    (inr (JStr "started")))).
  next_screen 6%nat ltac:(apply (sn_log _ _ _ (example_panel 5) [GitHubLogFetch 3 (jobEndpoint "r2")]
    (RunnerLogFetch 4 (jobEndpoint "r2") StdoutLog) [] (inr (JStr "compiling")))).
  next_screen 7%nat ltac:(apply (sn_log _ _ _ (example_panel 6) []
    (GitHubLogFetch 3 (jobEndpoint "r2")) [] (inr (JStr "built")))).
  eassumption.
Qed.

