(* ===== verification/JobsScreenView.v ===== *)
(** What the page of jobs shows and what the reader presses on it: the header of the
    dashboard and the list of build contexts with the jobs of the one selected
    ([UserDashboard], [PullRequestsPage], [WorkflowJobExplorer] in
    src/ui/src/components/user-dashboard.tsx), over the machine of JobsScreen.  The
    controls of the log panel are those of PanelView. *)
From S2P Require Import Prelude.
From S2P Require Import JsString.
From S2P Require Import UrlPath.
From S2P Require Import JsArray.
From S2P Require Import AdminFormat.
From S2P Require Import JsRegex.
From S2P Require Import JsUri.
From S2P Require Import Json.
From S2P Require Import AdminTypes.
From S2P Require Import Errors.
From S2P Require Import LoadPolicy.
From S2P Require Import AppRoutes.
From S2P Require Import BuildGroups.
From S2P Require Import JobLogs.
From S2P Require Import LogPanel.
From S2P Require Import Navigation.
From S2P Require Import Selection.
From S2P Require Import JobsPage.
From S2P Require Import JobView.
From S2P Require Import DashboardView.
From S2P Require Import Controls.
From S2P Require Import JobsScreen.

(** ** The answer for a group *)

Definition isRunnerJobGroup (value : json) : bool :=
  is_object value && is_array (field "jobs" value) && is_array (field "current_jobs" value) &&
  is_array (field "previous_jobs" value).

(** What the effect of the dashboard makes of an answer; [decode] reads the fields of
    a group. *)
Definition groupAnswer (decode : json -> RunnerJobGroup) (result : thrown + json) :
    thrown + option RunnerJobGroup :=
  match result with
  | inl e => inl e
  | inr value => inr (if isRunnerJobGroup value then Some (decode value) else None)
  end.

Lemma group_answered (decode : json -> RunnerJobGroup) (result : thrown + json) (group : RunnerJobGroup) :
  groupAnswer decode result = inr (Some group) <->
  exists value, result = inr value /\ isRunnerJobGroup value = true /\ group = decode value.
Proof.
  split.
  - destruct result as [e|value]; [done|]. cbn. destruct (isRunnerJobGroup value) eqn:E; [|done].
    intros [= <-]. by exists value.
  - intros (value & -> & E & ->). cbn. by rewrite E.
Qed.

Definition jobStatusTextClass (s : RunnerStatus) : string :=
  (buildGroupStatusClasses (jobStatusSummary s)).2.

Section view.
Context (t : translate) (parse : string -> option Z)
  (toLocaleString : Z -> option string -> string).
Context (session : AuthSession)
  (groupAnswers : string -> thrown + option RunnerJobGroup -> Prop)
  (logAnswers : string -> option LogName -> thrown + json -> Prop).

Abbreviation text := (fun key => t key []).

(** ** What is rendered *)

(** A build context of the list, whether it is the one selected, and the jobs under
    it ([showSubmenu]). *)
Record ListedGroup := {
  lg_item : string * string * string * string * string;
  lg_selected : bool;
  lg_jobs : list ExplorerItem;
}.

Definition listedGroup (locale : option string) (p : JobsPage) (group : BuildGroup) : ListedGroup :=
  let isSelected := bool_decide (bg_key <$> JobsPage.selected p = Some (bg_key group)) in {|
  lg_item := groupListItem t parse toLocaleString group locale;
  lg_selected := isSelected;
  lg_jobs := if isSelected then submenu t parse p else [] |}.

(** The main part: the context selected with its badge and fields, or a note. *)
Record JobsView := {
  jv_heading : string * string;
  jv_groups : list ListedGroup;
  jv_listNote : option string;
  jv_older : option (string * bool);
  jv_main : (string * (RunnerStatusSummary * string) * JobFields) + option MainNote;
  jv_panel : option LogPanel;
  jv_selectJob : option string;
}.

Definition jobsView (locale : option string) (hasInstallations canSync syncing loadingHistory : bool)
    (runnerTotal runnerCount : Z) (p : JobsPage) (panel : option LogPanel) : JobsView := {|
  jv_heading := (text "user.jobs", text "user.jobsDescription");
  jv_groups := map (listedGroup locale p) (jp_groups p);
  jv_listNote := listNote t hasInstallations p;
  jv_older := olderButton t loadingHistory runnerTotal runnerCount p;
  jv_main :=
    match JobsPage.selected p with
    | Some group =>
        inl (bg_repository group, groupBadge t group,
             selectedFields t parse toLocaleString group (selectedJobGroup p) (selectedJob p) locale)
    | None => inr (mainNote t hasInstallations canSync syncing p)
    end;
  jv_panel := match panelJob p with Some _ => panel | None => None end;
  jv_selectJob :=
    match JobsPage.selected p, selectedJob p with
    | Some _, None => Some (text "user.selectJob")
    | _, _ => None
    end |}.

(** ** What is pressed *)

Definition onNav (f : Nav -> Nav) (s : JobsScreen) : JobsScreen :=
  renderScreen session (f (sc_nav s)) (sc_groups s) (sc_page s) (sc_panel s).

Definition dashboardLinks : list (Control JobsScreen) := [
  Button (text "user.jobs") false (onNav (setUserPage HomePage));
  Button (text "user.repositories") false (onNav (setUserPage RepositoriesPage)) ].

Definition groupButton (group : BuildGroup) : Control JobsScreen :=
  Button (bg_repository group +:+ " #" +:+ buildGroupReference group) false (onNav (setUserJobsSelection (bg_key group))).

Definition jobButton (item : ExplorerItem) : Control JobsScreen :=
  Button (ei_name item) false (onNav (openUserJob (id (ei_job item)))).

Definition screenControls (s : JobsScreen) : list (Control JobsScreen) :=
  dashboardLinks ++
  match sc_page s with
  | Some p => map groupButton (jp_groups p) ++ map jobButton (submenu t parse p)
  | None => []
  end.

Definition screenView (s : JobsScreen) : View JobsScreen :=
  {| vw_page := screenControls s; vw_dialog := None |}.

(** * Properties *)

(** The key of every context and the id of every job can be written in an address. *)
Definition writable (s : JobsScreen) : Prop :=
  (forall g, g ∈ sc_groups s -> proper_key (bg_key g)) /\
  (forall p job, sc_page s = Some p -> job ∈ allJobs p -> utf8 (id job)).

Abbreviation reachable := (jobs_screen_reachable session groupAnswers logAnswers).
Abbreviation step := (jobs_screen_step session groupAnswers logAnswers).

Lemma submenu_jobs (p : JobsPage) (item : ExplorerItem) :
  item ∈ submenu t parse p -> ei_job item ∈ allJobs p.
Proof.
  intros H. destruct (decide (1 < List.length (allJobs p))) as [Hn|Hn].
  - destruct (explorer_lists_jobs t parse p Hn) as [Hp _]. rewrite <- Hp. by apply list_elem_of_fmap_2.
  - unfold submenu in H. rewrite (proj2 (Nat.ltb_ge _ _)) in H by lia. by apply elem_of_nil in H.
Qed.

(** The key selected is always that of a context, or none. *)
Lemma screen_key (s : JobsScreen) : reachable s -> proper_key (nv_key (sc_nav s)).
Proof. intros Hs. destruct (jobs_screen_reachable_inv _ _ _ s Hs) as [Hn _]. apply (good_sel _ Hn). Qed.

(** Every use of a control is a step of the machine. *)
Theorem screen_controls_sound (s s' : JobsScreen) :
  reachable s -> settled (sc_nav s) = true -> writable s ->
  offers (screenView s) s s' -> step s s'.
Proof.
  intros Hs Hset [Hk Hj] H. unfold offers, in_reach, screenView, screenControls in H.
  cbn [vw_page vw_dialog default] in H. apply Exists_app in H as [H|H].
  - unfold dashboardLinks in H.
    each_control H; destruct H as [_ ->]; apply sn_nav, nt_navigation; try done; apply ng_page;
      try done; intros _; by apply proper_plain, (screen_key s).
  - destruct (sc_page s) as [p|] eqn:Ep; [|by apply Exists_nil in H].
    pose proof (jobs_screen_reachable_inv _ _ _ s Hs) as Hinv.
    destruct (screen_page _ _ _ s p Hinv Ep) as [_ (_ & Eg & _)].
    apply Exists_app in H as [H|H].
    + apply Exists_exists in H as (c & (g & -> & Hg)%list_elem_of_fmap & _ & ->).
      apply sn_nav, nt_navigation; [|done]. apply ng_select, Hk. by rewrite <- Eg.
    + apply Exists_exists in H as (c & (item & -> & Hi)%list_elem_of_fmap & _ & ->).
      apply sn_nav, nt_navigation; [|done]. apply ng_openJob; [by apply (Hj p), submenu_jobs|].
      by apply proper_plain, (screen_key s).
Qed.

(** ** What a press shows *)

Lemma panel_agrees (s : JobsScreen) (p : JobsPage) :
  jobs_screen_inv session groupAnswers logAnswers s ->
  pageShown ready session (sc_nav s) = DashboardPage HomePage -> sc_page s = Some p ->
  panel_of logAnswers (panelJob p) (sc_panel s).
Proof.
  intros [_ H] Ek Ep. unfold parts_agree in H. rewrite Ek in H. destruct H as (p' & Ep' & _ & H).
  rewrite Ep in Ep'. by injection Ep' as <-.
Qed.

Lemma listed_selected (p : JobsPage) (job : RunnerState) :
  job ∈ allJobs p -> is_Some (JobsPage.selected p).
Proof.
  destruct (JobsPage.selected p) as [g|] eqn:E; [done|]. unfold allJobs, previousJobs, currentJobs, selectedJobGroup.
  rewrite E. destruct (jp_loaded p) as [[]|]; intros H; by apply elem_of_nil in H.
Qed.

Lemma press_page (f : Nav -> Nav) (s : JobsScreen) (p : JobsPage) :
  sc_page s = Some p -> pageShown ready session (f (sc_nav s)) = DashboardPage HomePage ->
  sc_page (onNav f s) = Some (setProps (sc_groups s) (nv_key (f (sc_nav s)))
    (userJobIDFromSearch (nv_search (f (sc_nav s)))) p).
Proof. intros Ep Ek. unfold onNav, renderScreen. by rewrite Ek, Ep. Qed.

Lemma render_nav (nav : Nav) (groups : list BuildGroup) (page : option JobsPage)
    (panel : option LogPanel) : sc_nav (renderScreen session nav groups page panel) = nav.
Proof. unfold renderScreen. by destruct (pageShown _ _ _). Qed.

(** The page of a build context, with or without a job. *)
Lemma context_page_shown (k : group_key) (ps : params) (n : Nav) :
  authenticated session = true -> group_key_ok k -> Forall utf8_pair ps ->
  (forall o r b sha, k = BranchKey o r b sha -> params_get "branch" ps = Some b) ->
  nv_path n = location_pathname (url_of (group_key_url k) ps) ->
  nv_search n = location_search (url_of (group_key_url k) ps) ->
  pageShown ready session n = DashboardPage HomePage.
Proof.
  intros Hs Hk Hps Hb E1 E2. rewrite location_pathname_url in E1 by by apply group_key_url_plain.
  apply jobs_page_shown; [done|rewrite E1; by apply group_url_line|].
  unfold names_jobs. rewrite E1, E2, userJobsGroupKeyFromPath_url; [|done|].
  - apply orb_true_iff. right. apply str_truthy_true. by destruct k.
  - intros o r b sha ->. eapply search_branch_url; eauto.
Qed.

(** A press that leads to the page of jobs: the page is given the new address, and
    the panel follows. *)
Lemma press_leads (f : Nav -> Nav) (s : JobsScreen) (p : JobsPage) :
  reachable s -> sc_page s = Some p -> step s (onNav f s) ->
  pageShown ready session (f (sc_nav s)) = DashboardPage HomePage ->
  exists p', sc_page (onNav f s) = Some p' /\ jp_groups p' = sc_groups s /\
    jp_key p' = nv_key (f (sc_nav s)) /\
    jp_jobID p' = userJobIDFromSearch (nv_search (f (sc_nav s))) /\ jp_loaded p' = jp_loaded p /\
    panel_of logAnswers (panelJob p') (sc_panel (onNav f s)).
Proof.
  intros Hs Ep Hst Ek. pose proof (press_page f s p Ep Ek) as Ep'. eexists. split; [exact Ep'|].
  assert (forall q, jp_loaded (loadGroupEffect q) = jp_loaded q) as Hl
    by (intros q; unfold loadGroupEffect; by case_bool_decide).
  unfold setProps. match goal with |- jp_groups (loadGroupEffect ?q) = _ /\ _ =>
    destruct (effect_fields q) as (-> & -> & ->); rewrite (Hl q) end.
  do 4 (split; [done|]). apply (panel_agrees (onNav f s)); [|by unfold onNav; rewrite render_nav|exact Ep'].
  by apply jobs_screen_reachable_inv, (sr_step _ _ _ s).
Qed.

(** The list of the dashboard has each context once, under a key that can be
    written. *)
Lemma listed_keys (localeCompare : string -> string -> Z) (runners : list RunnerState) :
  Forall runner_ok runners ->
  let groups := groupRunnersByBuildContext t localeCompare runners in
  NoDup (bg_key <$> groups) /\
  forall g, g ∈ groups -> exists k, group_key_ok k /\ bg_key g = group_key_string k.
Proof.
  intros H groups. split; [unfold groups; rewrite groups_keys; apply NoDup_uniq|].
  intros g. by apply group_key_of_group.
Qed.

(** A press on a build context of the list shows it, with one of its jobs: the page
    stays the page of jobs, and its context is the one pressed. *)
Theorem pressed_group_shown (localeCompare : string -> string -> Z) (runners : list RunnerState)
    (s : JobsScreen) (group : BuildGroup) :
  reachable s -> settled (sc_nav s) = true -> authenticated session = true ->
  Forall runner_ok runners -> sc_groups s = groupRunnersByBuildContext t localeCompare runners ->
  group ∈ sc_groups s -> is_Some (sc_page s) ->
  let s' := onNav (setUserJobsSelection (bg_key group)) s in
  step s s' /\
  exists p', sc_page s' = Some p' /\ JobsPage.selected p' = Some group /\
    panel_of logAnswers (panelJob p') (sc_panel s').
Proof.
  intros Hs Hset Hin Hok Egs Hg [p Ep] s'. destruct (listed_keys localeCompare runners Hok) as [Hnd Hkeys].
  rewrite <- Egs in Hnd, Hkeys. destruct (Hkeys group Hg) as (k & Hk & Ek).
  assert (step s s') as Hst by (apply sn_nav, nt_navigation; [apply ng_select; right; by exists k|done]).
  destruct (jobs_screen_reachable_inv _ _ _ s Hs) as [Hn _].
  destruct (goTo_location (userJobsPath (bg_key group)) (setUserSelectedKey (bg_key group) (sc_nav s)))
    as [E1 E2]; [by apply key_in_step, (reachable_in_step true), good_nav|].
  change (goTo _ _) with (setUserJobsSelection (bg_key group) (sc_nav s)) in E1, E2.
  assert (userJobsPath (bg_key group) = url_of (group_key_url k) (group_key_params k)) as Eu
    by (rewrite Ek; by apply userJobsPath_url).
  rewrite Eu in E1, E2.
  destruct (press_leads (setUserJobsSelection (bg_key group)) s p Hs Ep Hst)
    as (p' & Ep' & F1 & F2 & _ & _ & Hp').
  { eapply (context_page_shown k (group_key_params k)); [done|done|by apply group_key_params_utf8| |exact E1|exact E2].
    by intros o r b sha ->. }
  split; [exact Hst|]. exists p'. split; [exact Ep'|]. split; [|exact Hp'].
  destruct (goTo_frame (userJobsPath (bg_key group)) (setUserSelectedKey (bg_key group) (sc_nav s)))
    as (_ & _ & Ekey & _).
  unfold JobsPage.selected, selectedOf. rewrite F1, F2. unfold setUserJobsSelection. rewrite Ekey.
  cbn [setUserSelectedKey with_selection nv_key]. by rewrite (selected_group_key _ _ Hnd Hg).
Qed.

(** The page of a single job. *)
Lemma job_path (id : string) :
  utf8 id -> id <> "" -> plain_name id ->
  location_pathname ("/jobs/" +:+ encodeURIComponent id) = "/jobs/" +:+ encodeURIComponent id.
Proof.
  intros Hu Hne Hp. change ("/jobs/" +:+ encodeURIComponent id) with
    ("" +:+ "/" +:+ ("jobs" +:+ "/" +:+ encodeURIComponent id)).
  apply dotless_plain; [rewrite !free_app; by rewrite encode_free|].
  cbn [String.append]. rewrite (dotless_app "" _ eq_refl : dotless (String "/" _) = _).
  rewrite (dotless_app "jobs" _ eq_refl : dotless (String "j" _) = _).
  rewrite dotless_one by by apply encode_free. by rewrite encode_no_dot.
Qed.

Lemma job_page_shown (id : string) (n : Nav) :
  authenticated session = true -> utf8 id -> id <> "" ->
  nv_path n = "/jobs/" +:+ encodeURIComponent id -> pageShown ready session n = JobPage id.
Proof.
  intros Hs Hu Hne E. assert (segment_ok (encodeURIComponent id)) as [Hw Hf] by by apply encode_segment.
  assert (userJobIDFromPath (nv_path n) = id) as Eid.
  { unfold userJobIDFromPath, safeDecodePathSegment. rewrite E, exec_lit_app, exec_many_end; [|done|done|].
    - cbn. by rewrite decode_encode.
    - exact Hf. }
  assert (appRouteAccess (nv_path n) = access_user) as Ea.
  { unfold appRouteAccess. destruct (_ || _) eqn:Eb; [exfalso|].
    - apply orb_prop in Eb as [Eb|Eb]; apply bool_decide_eq_true_1 in Eb; rewrite E in Eb; [done|].
      revert Eb. unfold siteDocumentRoutes. rewrite !elem_of_cons, elem_of_nil. intros H. by destruct_or?.
    - destruct (isAdminRoute (nv_path n)) eqn:Ec.
      { apply isAdminRoute_spec in Ec as [Ec|[Ec|[sec Ec]]]; rewrite E in Ec; by try destruct sec. }
      unfold isUserRoute. rewrite E, (proj2 (test_spec [Lit "/jobs/"; Many false NotSlash] _)).
      + by rewrite orb_true_r.
      + eexists. rewrite <- (sapp_nil_r (encodeURIComponent id)). constructor.
        apply matches_many; [done|by rewrite class_run_NotSlash|constructor]. }
  unfold pageShown. rewrite Ea, Hs, Eid. cbn [authRouteViewState].
  rewrite bool_decide_eq_false_2 by done. cbn [andb negb].
  by rewrite (proj2 (str_truthy_true id) Hne).
Qed.

Lemma pressed_in_context (s : JobsScreen) (p : JobsPage) (job : RunnerState) (k : group_key) :
  reachable s -> authenticated session = true ->
  sc_page s = Some p -> group_key_ok k -> jp_key p = group_key_string k ->
  job ∈ allJobs p -> utf8 (id job) ->
  let s' := onNav (openUserJob (id job)) s in
  step s s' ->
  exists p' j q, sc_page s' = Some p' /\ JobsPage.selected p' = JobsPage.selected p /\
    panelJob p' = Some j /\ id j = id job /\ sc_panel s' = Some q /\
    p_endpoint q = jobEndpoint (id job) /\ runner_shown logAnswers q /\ github_shown logAnswers q.
Proof.
  intros Hs Hin Ep Hk Ek Hj Hu s' Hst.
  destruct (screen_page _ _ _ s p (jobs_screen_reachable_inv _ _ _ s Hs) Ep) as [_ (_ & Eg & Enk & _)].
  assert (openUserJobPath (nv_key (sc_nav s)) (id job) = group_job_url k (id job)) as Eu
    by (rewrite <- Enk, Ek; by apply openUserJobPath_url).
  destruct (press_leads (openUserJob (id job)) s p Hs Ep Hst) as (p' & Ep' & F1 & F2 & F3 & F4 & Hp').
  { eapply (context_page_shown k (params_set "job" (id job) (group_key_params k))); [done|done| | |..].
    - by apply group_job_params_utf8.
    - intros. by eapply group_job_branch.
    - unfold openUserJob. cbn. by rewrite Eu.
    - unfold openUserJob. cbn. by rewrite Eu. }
  assert (JobsPage.selected p' = JobsPage.selected p /\ allJobs p' = allJobs p) as [Es Ea].
  { assert (JobsPage.selected p' = JobsPage.selected p) as Es
      by (unfold JobsPage.selected; rewrite F1, F2, Eg; by rewrite Enk).
    split; [exact Es|]. unfold allJobs, currentJobs, previousJobs, currentJobs, selectedJobGroup.
    by rewrite Es, F4. }
  assert (jp_jobID p' = id job) as Eid.
  { rewrite F3. unfold openUserJob. cbn. destruct (openUserJob_url_roundtrip k (id job) Hk Hu) as [_ E].
    rewrite openUserJobPath_url, <- Eu in E by done. exact E. }
  destruct (listed_selected p job Hj) as [g Esel]. destruct (find_job _ _ Hj) as (j & Ef & Eij).
  assert (panelJob p' = Some j) as Epj.
  { unfold panelJob, selectedJob. by rewrite Es, Esel, Ea, Eid, Ef. }
  rewrite Epj in Hp'. fold s' in Hp'. destruct (sc_panel s') as [q|] eqn:Eq; [|done].
  destruct Hp' as [Ee Hq]. exists p', j, q. split_and!; try done; [by rewrite Ee, Eij|apply Hq..].
Qed.

(** C22.  A press on a job of the context on screen shows it.  With a context
    selected that context stays, the job is that of the panel, and the panel has its
    logs or is loading them; without one, where the first context of the list is on
    screen, the press leads to the page of the job itself.  The id of the job is
    there and is no dot segment. *)
Theorem pressed_job_shown (s : JobsScreen) (p : JobsPage) (job : RunnerState) :
  reachable s -> settled (sc_nav s) = true -> authenticated session = true ->
  sc_page s = Some p -> job ∈ allJobs p -> utf8 (id job) -> id job <> "" -> plain_name (id job) ->
  let s' := onNav (openUserJob (id job)) s in
  step s s' /\
  if str_truthy (jp_key p) then
    exists p' j q, sc_page s' = Some p' /\ JobsPage.selected p' = JobsPage.selected p /\
      panelJob p' = Some j /\ id j = id job /\ sc_panel s' = Some q /\
      p_endpoint q = jobEndpoint (id job) /\ runner_shown logAnswers q /\ github_shown logAnswers q
  else pageShown ready session (sc_nav s') = JobPage (id job) /\ sc_page s' = None.
Proof.
  intros Hs Hset Hin Ep Hj Hu Hne Hpl s'. pose proof (screen_key s Hs) as Hkey.
  assert (step s s') as Hst by
    (apply sn_nav, nt_navigation; [apply ng_openJob; [done|by apply proper_plain]|done]).
  split; [exact Hst|].
  destruct (screen_page _ _ _ s p (jobs_screen_reachable_inv _ _ _ s Hs) Ep) as [_ (_ & _ & Enk & _)].
  rewrite <- Enk in Hkey. destruct Hkey as [E|(k & Hk & E)].
  - rewrite E. cbn [str_truthy]. assert (pageShown ready session (openUserJob (id job) (sc_nav s)) =
      JobPage (id job)) as Ejp.
    { apply job_page_shown; [done..|]. unfold openUserJob. cbn [readLocation nv_path with_location].
      rewrite <- Enk, E. by apply job_path. }
    unfold s', onNav. rewrite render_nav. split; [exact Ejp|]. unfold renderScreen. by rewrite Ejp.
  - assert (str_truthy (jp_key p) = true) as -> by (rewrite E; apply str_truthy_true; by destruct k).
    by eapply pressed_in_context.
Qed.
End view.

(** ** Examples *)

(** Another job of the run is pressed. *)
Lemma pressed_job_shown_witness :
  let s' := onNav (example_session "user") (openUserJob "r3") (example_screen 7) in
  exists p' j q, sc_page s' = Some p' /\ panelJob p' = Some j /\ id j = "r3" /\
    sc_panel s' = Some q /\ p_endpoint q = "/user/runner_requests/r3".
Proof.
  pose (p := default (mountJobs [] "" "") (sc_page (example_screen 7))).
  pose (job := default (blank_runner "" queued "" "" "") (allJobs p !! 1)).
  destruct (pressed_job_shown (example_session "user") example_answers example_logs (example_screen 7) p job)
    as (_ & H).
  - exact example_screens_reachable.
  - by vm_compute.
  - by vm_compute.
  - by vm_compute.
  - vm_compute. right. left.
  - apply utf8b_sound. by vm_compute.
  - by vm_compute.
  - split; by vm_compute.
  - assert (str_truthy (jp_key p) = true) as Et by by vm_compute. rewrite Et in H.
    destruct H as (p' & j & q & Ep & _ & Ej & Eij & Eq & Ee & _).
    exists p', j, q. assert (id job = "r3") as Ei by by vm_compute. rewrite Ei in *.
    split; [exact Ep|]. split; [exact Ej|]. split; [exact Eij|]. split; [exact Eq|]. rewrite Ee.
    by vm_compute.
Defined.
