(* ===== verification/Guides.v ===== *)
(** The page of a guide as the reader sees it: the rendering of [DocsPage],
    [DocsNavigation], [DocumentPager] and the components that
    src/ui/src/components/docs-page.tsx gives to the renderer of Markdown, over the
    documents of Docs.  The renderer is a library: what it reads from a text is a
    parameter, a tree of elements. *)
From S2P Require Import Prelude.
From S2P Require Import JsString.
From S2P Require Import AdminTypes.
From S2P Require Import LoadPolicy.
From S2P Require Import AppRoutes.
From S2P Require Import Navigation.
From S2P Require Import Docs.
From S2P Require Import Landing.

(** ** The article *)

(** An element that the renderer read, with the properties that the components look
    at. *)
Inductive DocNode :=
  | DocText (text : string)
  | DocElement (tag : string) (href className : option string) (children : list DocNode).

(** An element of the page: its tag, its id, where it leads, and whether in a window
    of its own. *)
Inductive Dom :=
  | DomText (text : string)
  | DomElement (tag : string) (dom_id dom_href : option string) (blank : bool) (children : list Dom).

Definition plain (tag : string) (children : list Dom) : Dom := DomElement tag None None false children.

(** The children as the component of an element gets them. *)
Definition nodeOf (n : DocNode) : ReactNode :=
  match n with DocText s => NodeText s | DocElement _ _ _ _ => NodeOther end.

Section article.
Context (wide_word : string -> bool) (defaultUrlTransform : string -> string).

Definition headingAnchor (children : list DocNode) : string :=
  headingID wide_word (reactNodeText (NodeArray (map nodeOf children))).

(** [markdownComponents]; the address of a link went through [docsURLTransform].
    The class of a [code] element tells a block, which looks different. *)
Definition markdownComponent (tag : string) (href : option string) (source : list DocNode)
    (children : list Dom) : Dom :=
  if bool_decide (tag = "h2") then DomElement "h2" (Some (headingAnchor source)) None false children
  else if bool_decide (tag = "a") then
    let href := default "" (docsURLTransform defaultUrlTransform <$> href) in
    let external := externalLink href in
    DomElement "a" None (Some href) external
      (children ++ if external then [plain "svg" []] else [])
  else if bool_decide (tag = "pre") then
    plain "div" [plain "div" [plain "span" []; plain "span" []; plain "span" []]; plain "pre" children]
  else if bool_decide (tag = "table") then plain "div" [plain "table" children]
  else plain tag children.

Fixpoint renderNode (n : DocNode) : Dom :=
  match n with
  | DocText s => DomText s
  | DocElement tag href _ children => markdownComponent tag href children (map renderNode children)
  end.
End article.

(** ** The page *)

(** An item of the navigation, and whether it is the current page. *)
Definition navigationItem (currentPath : string) (document : SiteDocument) : Link * bool :=
  ({| ln_href := doc_path document; ln_text := doc_title document; ln_blank := false |},
   bool_decide (doc_path document = currentPath)).

Section page.
Context (t : string -> string) (wide_word : string -> bool) (defaultUrlTransform : string -> string).

Definition compactNavigation (documents : list SiteDocument) (currentPath : string) :
    list (Link * bool) := map (navigationItem currentPath) documents.

(** The title of each group and its documents. *)
Definition DocsNavigation (documents : list SiteDocument) (currentPath : string) :
    list (string * list (Link * bool)) :=
  map (fun group => (t (groupTranslationKey group),
         map (navigationItem currentPath) (filter (fun d => doc_group d = group) documents))) groupOrder.

Inductive Direction := Previous | Next.

Definition DocumentPager (direction : Direction) (document : SiteDocument) : Link :=
  {| ln_href := doc_path document;
     ln_text := t match direction with Next => "docs.next" | Previous => "docs.previous" end
                +:+ doc_title document;
     ln_blank := false |}.

Record Guide := {
  gd_skip : Link;
  gd_header : list Element;
  gd_compact : list (Link * bool);
  gd_sidebar : list (string * list (Link * bool));
  gd_crumbs : string * string;
  gd_article : list Dom;
  gd_previous : option Link;
  gd_next : option Link;
  gd_contents : list Link;
}.

(** [nodes]: what the renderer reads from the text of the article. *)
Definition guidePage (resolvedTheme : option string) (documents : list SiteDocument) (v : DocsView)
    (nodes : list DocNode) : Guide :=
  let article := dv_article v in {|
  gd_skip := {| ln_href := "#docs-content"; ln_text := t "docs.skipToContent"; ln_blank := false |};
  gd_header := docsHeader t resolvedTheme;
  gd_compact := compactNavigation documents (doc_path article);
  gd_sidebar := DocsNavigation documents (doc_path article);
  gd_crumbs := (t (groupTranslationKey (doc_group article)), doc_title article);
  gd_article := map (renderNode wide_word defaultUrlTransform) nodes;
  gd_previous := DocumentPager Previous <$> dv_previous v;
  gd_next := DocumentPager Next <$> dv_next v;
  gd_contents := map (fun '(id, label) =>
    {| ln_href := "#" +:+ id; ln_text := label; ln_blank := false |})
    (documentHeadings wide_word (doc_markdown article)) |}.
End page.

(** The regions of the page, in its order. *)
Fixpoint domText (d : Dom) : string :=
  match d with
  | DomText s => s
  | DomElement _ _ _ _ children => join "" (map domText children)
  end.

Fixpoint domRegions (d : Dom) : list Region :=
  match d with
  | DomText s => [{| rg_id := None; rg_content := [Says s] |}]
  | DomElement _ dom_id dom_href blank children =>
      {| rg_id := dom_id;
         rg_content := match dom_href with
                       | Some h => [Leads {| ln_href := h; ln_text := domText d; ln_blank := blank |}]
                       | None => []
                       end |} :: mjoin (map domRegions children)
  end.

Definition noId (content : list Element) : Region := {| rg_id := None; rg_content := content |}.
Definition optLink (l : option Link) : list Element := match l with Some l => [Leads l] | None => [] end.

Definition guideRegions (g : Guide) : list Region :=
  [noId [Leads (gd_skip g)]; noId (gd_header g);
   noId (map (fun item => Leads item.1) (gd_compact g));
   noId (mjoin (map (fun group => Says group.1 :: map (fun item => Leads item.1) group.2) (gd_sidebar g)));
   {| rg_id := Some "docs-content"; rg_content := [Says (gd_crumbs g).1; Says (gd_crumbs g).2] |}]
  ++ mjoin (map domRegions (gd_article g))
  ++ [noId (optLink (gd_previous g) ++ optLink (gd_next g)); noId (map Leads (gd_contents g))].

(** The links of the page around the article. *)
Definition frameLinks (g : Guide) : list Link :=
  gd_skip g :: linksOf [noId (gd_header g)] ++ map fst (gd_compact g) ++
  map fst (mjoin (map snd (gd_sidebar g))) ++ option_list (gd_previous g) ++ option_list (gd_next g).

(** * Properties *)

Lemma filter_marked (documents : list SiteDocument) (d : SiteDocument) :
  NoDup (doc_path <$> documents) -> d ∈ documents ->
  filter (fun item => item.2 = true) (map (navigationItem (doc_path d)) documents) =
  [navigationItem (doc_path d) d].
Proof.
  induction documents as [|c l IH]; [by intros _ ?%elem_of_nil|].
  rewrite fmap_cons. intros [Hc Hl]%NoDup_cons Hd. cbn [map]. rewrite filter_cons. cbn [navigationItem snd].
  apply elem_of_cons in Hd as [<-|Hd].
  - rewrite decide_True by (by apply bool_decide_eq_true_2). f_equal.
    assert (forall c, c ∈ l -> doc_path c <> doc_path d) as Hne.
    { intros c Hin E. apply Hc. rewrite <- E. by apply list_elem_of_fmap_2. }
    clear -Hne. induction l as [|c l IH]; [done|]. cbn [map]. rewrite filter_cons, decide_False.
    + apply IH. intros c' Hc'. apply Hne. by right.
    + cbn. intros E%bool_decide_eq_true_1. by apply (Hne c); [left|].
  - rewrite decide_False; [by apply IH|]. intros E%bool_decide_eq_true_1. apply Hc. rewrite E.
    by apply list_elem_of_fmap_2.
Qed.

Definition site_path (path : string) : bool :=
  startsWith "/" path && negb (match appRouteAccess path with access_not_found => true | _ => false end).

Lemma path_leads (page : list Region) (l : Link) : site_path (ln_href l) = true -> link_leads page l.
Proof.
  intros [Hs Ha]%andb_prop. right; left. split; [done|]. intros status session n E. apply found_page.
  rewrite E. by destruct (appRouteAccess _).
Qed.

(** Every document of the site has a page. *)
Lemma document_leads (page : list Region) (l : Link) :
  ln_href l ∈ siteDocumentRoutes -> link_leads page l.
Proof.
  intros H. apply path_leads.
  refine (proj1 (forallb_forall site_path siteDocumentRoutes) _ _ _); [by vm_compute|].
  by apply list_elem_of_In.
Qed.

(** The regions of the article have the anchors of its headings. *)
Lemma anchor_on_page (t : string -> string) (wide_word : string -> bool)
    (transform : string -> string) (theme : option string) (documents : list SiteDocument)
    (v : DocsView) (nodes : list DocNode) (class : option string) (children : list DocNode) :
  DocElement "h2" None class children ∈ nodes ->
  headingAnchor wide_word children ∈
    idsOf (guideRegions (guidePage t wide_word transform theme documents v nodes)).
Proof.
  intros H. unfold idsOf, guideRegions. rewrite !omap_app, !elem_of_app. right; left.
  set (d := DocElement _ _ _ _) in H.
  assert (renderNode wide_word transform d ∈ map (renderNode wide_word transform) nodes) as Hd
    by by apply list_elem_of_fmap_2.
  cbn [guidePage gd_article]. apply list_elem_of_omap.
  exists {| rg_id := Some (headingAnchor wide_word children); rg_content := [] |}. split; [|done].
  apply list_elem_of_join. exists (domRegions (renderNode wide_word transform d)).
  split; [left|by apply list_elem_of_fmap_2].
Qed.

Section guide.
Context (markdown : nat -> SiteDocumentLocale -> string)
  (t : string -> string) (wide_word : string -> bool) (defaultUrlTransform : string -> string).

(** The renderer reads each line [## label] of a text as a heading whose text is
    the label: the label holds no markup, and the line is not in a block of code. *)
Definition headings_read (text : string) (nodes : list DocNode) : Prop :=
  forall anchor label, (anchor, label) ∈ documentHeadings wide_word text ->
    exists class children, DocElement "h2" None class children ∈ nodes /\
      reactNodeText (NodeArray (map nodeOf children)) = label.

Lemma contents_lead (theme : option string) (documents : list SiteDocument) (v : DocsView)
    (nodes : list DocNode) :
  headings_read (doc_markdown (dv_article v)) nodes ->
  let g := guidePage t wide_word defaultUrlTransform theme documents v nodes in
  Forall (link_leads (guideRegions g)) (gd_contents g).
Proof.
  intros H g. apply Forall_fmap, Forall_forall. intros [anchor label] Hin. left. exists anchor.
  split; [|done]. destruct (H anchor label Hin) as (class & children & Hc & E).
  apply list_elem_of_fmap in Hin as (l & [= -> ->] & _). rewrite <- E.
  exact (anchor_on_page t wide_word defaultUrlTransform theme documents v nodes class children Hc).
Qed.

Lemma sidebar_listed (documents : list SiteDocument) (path : string) :
  mjoin (map snd (DocsNavigation t documents path)) ≡ₚ compactNavigation documents path.
Proof.
  unfold compactNavigation.
  rewrite <- (Permutation_map (navigationItem path) (navigation_listed documents)).
  unfold DocsNavigation. cbn. by rewrite !app_nil_r, !map_app.
Qed.

Lemma option_leads (page : list Region) (direction : Direction) (o : option SiteDocument) :
  (forall c, o = Some c -> doc_path c ∈ siteDocumentRoutes) ->
  Forall (link_leads page) (option_list (DocumentPager t direction <$> o)).
Proof.
  intros H. destruct o as [c|]; [|constructor]. constructor; [|constructor].
  by apply document_leads, H.
Qed.

(** The links of a page whose documents are documents of the site. *)
Lemma frame_leads (theme : option string) (documents : list SiteDocument) (v : DocsView)
    (nodes : list DocNode) :
  (forall c, c ∈ documents -> doc_path c ∈ siteDocumentRoutes) ->
  (forall c, dv_previous v = Some c \/ dv_next v = Some c -> c ∈ documents) ->
  let g := guidePage t wide_word defaultUrlTransform theme documents v nodes in
  Forall (link_leads (guideRegions g)) (frameLinks g).
Proof.
  intros Hr Hv g.
  assert (forall c, c ∈ gd_compact g -> ln_href c.1 ∈ siteDocumentRoutes) as Hc.
  { intros c Hc. cbn in Hc. apply list_elem_of_fmap in Hc as (d & -> & Hd). by apply Hr. }
  unfold frameLinks. constructor.
  { left. exists "docs-content". split; [apply list_elem_of_here|done]. }
  rewrite !Forall_app. split_and!.
  - do 3 (constructor; [by apply path_leads|]). exact (Forall_nil_2 _).
  - apply Forall_fmap, Forall_forall. intros c Hin. by apply document_leads, Hc.
  - apply Forall_fmap, Forall_forall. intros c Hin. apply document_leads, Hc.
    unfold g. cbn [guidePage gd_compact]. by rewrite <- sidebar_listed.
  - apply option_leads. auto.
  - apply option_leads. auto.
Qed.

(** A guide leads on: every link around its article leads to a page of the site
    or to the article, the navigation marks the document shown and no other, in
    the strip of narrow windows as in the sidebar, and the table of contents leads
    to the headings of the article. *)
Theorem guide_links_lead (status : AuthSessionCheckStatus) (session : AuthSession) (n : Nav)
    (path language : string) (theme : option string) (nodes : list DocNode) :
  pageShown status session n = DocsPage path ->
  exists d v, docsPage markdown path language = Some v /\ dv_article v = d /\ doc_path d = path /\
  let g := guidePage t wide_word defaultUrlTransform theme (siteDocuments markdown language) v nodes in
  Forall (link_leads (guideRegions g)) (frameLinks g) /\
  filter (fun item => item.2 = true) (gd_compact g) = [navigationItem path d] /\
  filter (fun item => item.2 = true) (mjoin (map snd (gd_sidebar g))) = [navigationItem path d] /\
  (headings_read (doc_markdown d) nodes -> Forall (link_leads (guideRegions g)) (gd_contents g)).
Proof.
  intros Hp. destruct (docs_page_shows_document markdown status session n path language Hp)
    as (i & d & v & Hi & Hd & Ed & _ & Ev & Ea & Eprev & Enext & _).
  exists d, v. split; [done|]. split; [done|]. split; [done|].
  assert (forall c, c ∈ siteDocuments markdown language -> doc_path c ∈ siteDocumentRoutes) as Hr.
  { intros c Hc. rewrite <- (siteDocuments_paths markdown language). by apply list_elem_of_fmap_2. }
  assert (NoDup (doc_path <$> siteDocuments markdown language)) as Hnd
    by (rewrite siteDocuments_paths; apply siteDocumentRoutes_NoDup).
  generalize dependent (siteDocuments markdown language). intros documents Hd Eprev Enext Hr Hnd g.
  assert (filter (fun item => item.2 = true) (gd_compact g) = [navigationItem path d]) as Em.
  { unfold g. cbn [guidePage gd_compact]. unfold compactNavigation. rewrite Ea, <- Ed. apply filter_marked; [done|].
    by eapply list_elem_of_lookup_2. }
  split; [|split; [exact Em|split]].
  - apply frame_leads; [exact Hr|]. intros c. rewrite Eprev, Enext.
    intros [H|H]; [destruct i; [done|]|]; by eapply list_elem_of_lookup_2.
  - apply Permutation_singleton_r. rewrite <- Em. unfold g. cbn [guidePage gd_sidebar gd_compact].
    by rewrite sidebar_listed.
  - rewrite <- Ea. apply contents_lead.
Qed.
End guide.

(** A link of an article stays on the site, in its window, or is left to the
    library; it opens a window of its own exactly when it is an address of the web. *)
Lemma article_link (wide_word : string -> bool) (transform : string -> string)
    (href : string) (class : option string) (children : list DocNode) :
  exists shown blank inner,
    renderNode wide_word transform (DocElement "a" (Some href) class children) =
      DomElement "a" None (Some shown) blank inner /\
    (startsWith "/" href = true \/ startsWith "#" href = true -> shown = href /\ blank = false) /\
    (startsWith "/" href = false -> startsWith "#" href = false -> shown = transform href) /\
    (blank = true <-> startsWith "http://" shown = true \/ startsWith "https://" shown = true).
Proof.
  cbn [renderNode]. unfold markdownComponent. rewrite bool_decide_eq_false_2, bool_decide_eq_true_2 by done.
  do 3 eexists. split; [reflexivity|]. cbn [fmap option_fmap option_map default].
  split; [|split; [|apply orb_true_iff]]; unfold docsURLTransform.
  - intros H. rewrite (proj2 (orb_true_iff _ _) H). split; [done|]. unfold externalLink.
    destruct H as [[r ->]%startsWith_spec|[r ->]%startsWith_spec]; reflexivity.
  - by intros -> ->.
Qed.

(** ** Examples *)

Definition example_guide (_ : nat) (_ : SiteDocumentLocale) : string :=
  "# Hosted service" +:+ String (ascii_of_N 10) ("A summary." +:+ String (ascii_of_N 10)
    "## Check Sandbox readiness").

(** What the renderer reads from it. *)
Definition example_nodes : list DocNode := [
  DocElement "h1" None None [DocText "Hosted service"];
  DocElement "p" None None [DocText "A summary."];
  DocElement "h2" None None [DocText "Check Sandbox readiness"] ].

Definition example_page (v : DocsView) : Guide :=
  guidePage (fun k => k) (fun _ => false) (fun u => u) None (siteDocuments example_guide "en") v
    example_nodes.

Lemma guide_links_lead_witness :
  exists v, docsPage example_guide "/docs/getting-started/hosted" "en" = Some v /\
    ln_href <$> gd_contents (example_page v) = ["#check-sandbox-readiness"] /\
    Forall (link_leads (guideRegions (example_page v))) (gd_contents (example_page v)).
Proof.
  destruct (guide_links_lead example_guide (fun k => k) (fun _ => false) (fun u => u) ready
    (example_session "user") (mountNav (addressOf "/docs/getting-started/hosted"))
    "/docs/getting-started/hosted" "en" None example_nodes)
    as (d & v & Ev & Ea & _ & _ & _ & _ & H).
  - vm_compute. reflexivity.
  - exists v. split; [exact Ev|]. assert (doc_markdown (dv_article v) = example_guide 1 DocsEn) as Em.
    { vm_compute in Ev. by injection Ev as <-. }
    split; [unfold example_page, guidePage; cbn [gd_contents]; rewrite Em; vm_compute; reflexivity|].
    apply H. rewrite <- Ea, Em. intros anchor label Hin. vm_compute in Hin.
    apply list_elem_of_singleton in Hin. injection Hin as -> ->. do 2 eexists.
    split; [do 2 right; left|]. by vm_compute.
Defined.
