(* ===== verification/AccountMenu.v ===== *)
(** The menu of the account: [AccountMenu] of src/ui/src/components/account-menu.tsx
    with the menu of languages of src/ui/src/components/language-switcher.tsx, in the
    head of the dashboard and in that of the administration.  Radix draws the menu
    and next-themes keeps the theme: both are libraries, the second a parameter. *)
From S2P Require Import Prelude.
From S2P Require Import JsString.
From S2P Require Import AdminTypes.
From S2P Require Import LoadPolicy.
From S2P Require Import AppRoutes.
From S2P Require Import Navigation.
From S2P Require Import I18n.
From S2P Require Import Docs.
From S2P Require Import Landing.

(** ** The items *)

(** A group of options, with the one it marks. *)
Record RadioGroup := { ra_marked : string; ra_options : list (string * string) }.

Inductive MenuItem :=
  | MenuLabel (text : string)
  | MenuSeparator
  | MenuLink (href text : string)
  | MenuReplay (text : string)
  | MenuLanguages (group : RadioGroup)
  | MenuThemes (group : RadioGroup)
  | MenuSignOut (text : string).

Section items.
Context (t : string -> string).

Definition languageGroup (resolvedLanguage : option string) : RadioGroup := {|
  ra_marked := language_code (switcherLanguage resolvedLanguage);
  ra_options := map (fun '(l, label) => (language_code l, label)) (languageMenuOptions t) |}.

(** [LanguageSwitcher variant="menu"], and the menu under the button: its label is
    followed by a line. *)
Definition languageMenu (resolvedLanguage : option string) : list MenuItem :=
  [MenuLabel (t "common.language"); MenuLanguages (languageGroup resolvedLanguage)].

Definition languageButton (resolvedLanguage : option string) : string * list MenuItem :=
  (switcherLabel t (switcherLanguage resolvedLanguage),
   [MenuLabel (t "common.language"); MenuSeparator; MenuLanguages (languageGroup resolvedLanguage)]).

Definition themeGroup (theme : option string) : RadioGroup := {|
  ra_marked := menuTheme theme;
  ra_options := [("light", t "common.light"); ("dark", t "common.dark"); ("system", t "common.system")] |}.

(** The dashboard gives the menu a replay of the tour, the administration does not. *)
Definition accountMenuItems (session : AuthSession) (replay : bool)
    (resolvedLanguage theme : option string) : list MenuItem :=
  [MenuLabel (accountMenu session).1; MenuSeparator; MenuLink "/account/preferences" (t "common.settings")]
  ++ (if replay then [MenuReplay (t "common.replayProductTour")] else [])
  ++ MenuSeparator :: languageMenu resolvedLanguage
  ++ [MenuSeparator; MenuLabel (t "common.theme"); MenuThemes (themeGroup theme); MenuSeparator]
  ++ (if menuLeadsToAdmin session then [MenuLink "/admin/" (t "common.admin"); MenuSeparator] else [])
  ++ [MenuSignOut (t "common.signOut")].
End items.

(** ** What the items do *)

Section menu.
Context {Themes : Type} (setTheme : string -> Themes -> Themes) (theme : Themes -> option string).

Record MenuState := {
  mn_languages : I18n.Page;
  mn_themes : Themes;
  mn_nav : Nav;
  mn_replays : nat;
}.

Inductive MenuChoice :=
  | ChooseLanguage (value : string)
  | ChooseTheme (value : string)
  | ChooseLink (href : string)
  | ChooseReplay
  | ChooseSignOut.

(** The links are left to the browser, which loads the console anew. *)
Definition chooseItem (c : MenuChoice) (s : MenuState) : MenuState :=
  match c with
  | ChooseLanguage value =>
      {| mn_languages := onLanguageChange value (mn_languages s); mn_themes := mn_themes s;
         mn_nav := mn_nav s; mn_replays := mn_replays s |}
  | ChooseTheme value =>
      {| mn_languages := mn_languages s; mn_themes := setTheme value (mn_themes s);
         mn_nav := mn_nav s; mn_replays := mn_replays s |}
  | ChooseLink href =>
      {| mn_languages := mn_languages s; mn_themes := mn_themes s;
         mn_nav := mountNav (addressOf href); mn_replays := 0 |}
  | ChooseReplay =>
      {| mn_languages := mn_languages s; mn_themes := mn_themes s;
         mn_nav := openProductTourStart (mn_nav s); mn_replays := S (mn_replays s) |}
  | ChooseSignOut =>
      {| mn_languages := mn_languages s; mn_themes := mn_themes s;
         mn_nav := signOut (mn_nav s); mn_replays := mn_replays s |}
  end.

Definition menuShown (t : string -> string) (session : AuthSession) (replay : bool) (s : MenuState) :
    list MenuItem :=
  accountMenuItems t session replay (Some (language_code (pg_language (mn_languages s))))
    (theme (mn_themes s)).

(** What an item offers to choose. *)
Definition choicesOf (i : MenuItem) : list MenuChoice :=
  match i with
  | MenuLabel _ | MenuSeparator => []
  | MenuLink href _ => [ChooseLink href]
  | MenuReplay _ => [ChooseReplay]
  | MenuLanguages group => map (fun o => ChooseLanguage o.1) (ra_options group)
  | MenuThemes group => map (fun o => ChooseTheme o.1) (ra_options group)
  | MenuSignOut _ => [ChooseSignOut]
  end.

(** * Properties *)

(** The theme that was set is the one that next-themes tells. *)
Hypothesis theme_set : forall value s, theme (setTheme value s) = Some value.

Definition marks (items : list MenuItem) (value : string) : Prop :=
  forall group, MenuLanguages group ∈ items \/ MenuThemes group ∈ items ->
    value ∈ (ra_options group).*1 -> ra_marked group = value.

Lemma menu_groups (t : string -> string) (session : AuthSession) (replay : bool)
    (language th : option string) (i : MenuItem) :
  i ∈ accountMenuItems t session replay language th ->
  match i with
  | MenuLanguages group => group = languageGroup t language
  | MenuThemes group => group = themeGroup t th
  | MenuLink href _ =>
      href = "/account/preferences" \/ href = "/admin/" /\ menuLeadsToAdmin session = true
  | MenuReplay _ => replay = true
  | _ => True
  end.
Proof.
  unfold accountMenuItems. destruct replay, (menuLeadsToAdmin session); cbn [app languageMenu];
    rewrite !elem_of_cons, elem_of_nil; intros H; destruct_or?; subst; auto; done.
Qed.

(** The language and the theme that the groups mark after a choice. *)
Lemma language_marked (t : string -> string) (session : AuthSession) (replay : bool) (value : string)
    (s : MenuState) :
  value ∈ (ra_options (languageGroup t None)).*1 ->
  marks (menuShown t session replay (chooseItem (ChooseLanguage value) s)) value.
Proof.
  intros Hv group [H|H]%or_comm; apply menu_groups in H; subst group.
  - cbn in Hv |- *. set_solver.
  - intros _. cbn in Hv. rewrite !elem_of_cons, elem_of_nil in Hv. by destruct Hv as [->|[->|[]]].
Qed.

Lemma theme_marked (t : string -> string) (session : AuthSession) (replay : bool) (value : string)
    (s : MenuState) :
  value ∈ (ra_options (themeGroup t None)).*1 ->
  marks (menuShown t session replay (chooseItem (ChooseTheme value) s)) value.
Proof.
  intros Hv group [H|H]; apply menu_groups in H; subst group.
  - cbn in Hv |- *. set_solver.
  - intros _. cbn. rewrite theme_set. unfold menuTheme. cbn in Hv. rewrite !elem_of_cons, elem_of_nil in Hv.
    by destruct Hv as [->|[->|[->|[]]]].
Qed.

Lemma settings_open (session : AuthSession) :
  authenticated session = true ->
  pageShown ready session (mountNav (addressOf "/account/preferences")) = DashboardPage SettingsPage.
Proof.
  intros H. unfold pageShown. change (nv_path (mountNav _)) with "/account/preferences".
  assert (appRouteAccess "/account/preferences" = access_user) as -> by by vm_compute.
  rewrite H. reflexivity.
Qed.

Lemma administration_opens (session : AuthSession) :
  hasAccess session = true ->
  pageShown ready session (mountNav (addressOf "/admin/")) = AdminPage overview.
Proof.
  intros Ha. assert (authenticated session = true) as H by (unfold hasAccess in Ha; by destruct (authenticated session)).
  unfold pageShown. change (nv_path (mountNav _)) with "/admin/".
  assert (appRouteAccess "/admin/" = access_admin) as -> by by vm_compute.
  rewrite H, Ha. reflexivity.
Qed.

Lemma replay_opens (session : AuthSession) (n : Nav) :
  authenticated session = true ->
  pageShown ready session (openProductTourStart n) = DashboardPage HomePage.
Proof.
  intros H. unfold pageShown.
  assert (nv_path (openProductTourStart n) = "/jobs") as -> by (unfold openProductTourStart; by destruct (_ || _)).
  assert (appRouteAccess "/jobs" = access_user) as -> by by vm_compute.
  rewrite H. reflexivity.
Qed.

(** Every item of the menu does what it says: the language or the theme chosen is
    the one that the menu marks next, its links open the settings and, for those
    whom it admits, the administration, a replay of the tour opens the jobs, and
    after signing out the reader is signed out. *)
Theorem account_menu_acts (t : string -> string) (session : AuthSession) (replay : bool)
    (s : MenuState) (i : MenuItem) (c : MenuChoice) :
  authenticated session = true -> i ∈ menuShown t session replay s -> c ∈ choicesOf i ->
  let s' := chooseItem c s in
  match c with
  | ChooseLanguage value =>
      language_code (pg_language (mn_languages s')) = value /\
      marks (menuShown t session replay s') value
  | ChooseTheme value => marks (menuShown t session replay s') value
  | ChooseLink _ =>
      pageShown ready session (mn_nav s') = DashboardPage SettingsPage \/
      hasAccess session = true /\ pageShown ready session (mn_nav s') = AdminPage overview
  | ChooseReplay =>
      replay = true /\ pageShown ready session (mn_nav s') = DashboardPage HomePage /\
      mn_replays s' = S (mn_replays s)
  | ChooseSignOut => nv_signedOut (mn_nav s') = true
  end.
Proof.
  intros Hs Hi%menu_groups Hc. destruct i as [| |href text|text|group|group|text]; cbn in Hc;
    try (by apply elem_of_nil in Hc).
  - apply list_elem_of_singleton in Hc as ->. destruct Hi as [->|[-> Ha]].
    + left. by apply settings_open.
    + rewrite (menu_admin_admitted session Hs) in Ha. right. split; [exact Ha|].
      by apply administration_opens.
  - apply list_elem_of_singleton in Hc as ->. split; [done|]. split; [by apply replay_opens|done].
  - subst group. apply list_elem_of_fmap in Hc as (o & -> & Ho). split; [|apply language_marked].
    + cbn in Ho. rewrite !elem_of_cons, elem_of_nil in Ho. by destruct Ho as [->|[->|[]]].
    + by apply list_elem_of_fmap_2.
  - subst group. apply list_elem_of_fmap in Hc as (o & -> & Ho). apply theme_marked.
    by apply list_elem_of_fmap_2.
  - by apply list_elem_of_singleton in Hc as ->.
Qed.
End menu.
