(* ===== verification/AdminOrder.v ===== *)
(** What the administration says of its lists does not depend on their order.

    The service answers the requests in an order of its own, which changes between
    two polls.  The names offered by the filters and the metrics (admin-format.ts and
    the memos of App.tsx) are the same for the same requests in any order, and the
    table has the same rows: these functions respect the permutations of a list. *)
From S2P Require Import Prelude.
From stdpp Require Import sorting.
From S2P Require Import JsString.
From S2P Require Import JsArray.
From S2P Require Import AdminTypes.
From S2P Require Import AdminFormat.
From S2P Require Import AdminConsole.

#[export] Instance sortedNames_proper : Proper ((≡ₚ) ==> (=)) sortedNames.
Proof.
  intros l l' H. apply (StronglySorted_unique (cmp_le str_cmp)); [apply (sort_by_sorted str_cmp)..|].
  apply NoDup_Permutation.
  - unfold sortedNames. rewrite sort_by_perm. apply NoDup_uniq.
  - unfold sortedNames. rewrite sort_by_perm. apply NoDup_uniq.
  - intros n. by rewrite !sortedNames_spec, H.
Qed.

#[export] Instance runnerRepositories_proper : Proper ((≡ₚ) ==> (=)) runnerRepositories.
Proof. intros l l' H. unfold runnerRepositories. by rewrite H. Qed.

#[export] Instance runnerSpecNames_proper : Proper ((≡ₚ) ==> (≡ₚ) ==> (=)) runnerSpecNames.
Proof. intros s s' Hs l l' H. unfold runnerSpecNames. by rewrite Hs, H. Qed.

#[export] Instance filteredRunners_proper (f : Filters) : Proper ((≡ₚ) ==> (≡ₚ)) (filteredRunners f).
Proof. intros l l' H. unfold filteredRunners. by rewrite H. Qed.

#[export] Instance count_display_proper (s : RunnerDisplayStatus) :
  Proper ((≡ₚ) ==> (=)) (count_display s).
Proof. intros l l' H. unfold count_display. by rewrite H. Qed.

#[export] Instance count_active_proper : Proper ((≡ₚ) ==> (=)) count_active.
Proof. intros l l' H. unfold count_active. by rewrite H. Qed.

#[export] Instance runnerMetrics_proper : Proper ((≡ₚ) ==> (=) ==> (=) ==> (=)) runnerMetrics.
Proof. intros l l' H n _ <- t _ <-. unfold runnerMetrics. by rewrite H. Qed.

(** The same requests, the same specs, in another order. *)
Theorem administration_ignores_order (runners runners' : list RunnerState)
    (specs specs' : list RunnerSpec) (f : Filters) (t : translate) :
  runners ≡ₚ runners' -> specs ≡ₚ specs' ->
  runnerMetrics runners (List.length specs) t = runnerMetrics runners' (List.length specs') t /\
  runnerRepositories runners = runnerRepositories runners' /\
  runnerSpecNames specs runners = runnerSpecNames specs' runners' /\
  filteredRunners f runners ≡ₚ filteredRunners f runners' /\
  runnerMetrics (filteredRunners f runners) (List.length specs) t =
    runnerMetrics (filteredRunners f runners') (List.length specs) t.
Proof. intros Hr Hs. by rewrite Hr, Hs. Qed.
